(* ===== verification/_CoqProject ===== *)
-Q . S2P
Prelude.v
Bytes.v
BpfMap.v
BpfCommon.v
TcpTrace.v
IpVs.v
SslCap.v
NetParse.v
CommLayout.v
CommValid.v
CommMsgs.v
CommFixed.v
CommReg.v
Histogram.v
PrioQueue.v
JHash.v
IpAddr.v
RecvLoop.v
Dispatch.v
DnsMapping.v
Doubles.v
Criterion.v
CriteriaSet.v
StrNum.v
CriteriaSql.v
CriterionParse.v
AlertDef.v
AlertRt.v
AlertInv.v
HostConns.v
Placement.v
PlacementInv.v
ObjState.v
TimeHist.v
HostState.v
TaskState.v
SvcState.v
