(* ===== verification/Prelude.v ===== *)
(** * Gyeeta : a verification development

    Gyeeta observes the services of a fleet of hosts.  On every host the agent
    _partha_ collects events with eBPF programs, captures packets and sends
    statistics to an intermediate server, _madhava_; the central server _shyama_
    places the hosts on the madhavas and holds the global state.  Queries and alerts
    are filters over the collected data.

    ** The parts and the files that model them

    Each definition carries the name of the function or type it translates, where
    the language allows it; the correspondence to lines is kept in the manifest of
    the development.

    - [Prelude], [Bytes]: machine integers as [Z] with explicit wrap-around, buffers
      of bytes with checked accesses ([acc], an access outside is [Oob]), tactics and
      the hint database [gy].
    - The eBPF programs of partha.  [BpfMap] is the interface of the kernel's maps,
      a class with the laws the kernel documents and two implementations.
      [BpfCommon] is src/common/gy_ebpf_bpf_common.h and gy_ebpf_kernel.h (tuples and
      events), [TcpTrace] src/partha/gy_ebpf_kernel.bpf.c (all TCP probes), [IpVs]
      src/partha/gy_ebpf_mod.bpf.c, [SslCap] src/partha/gy_ssl_cap.bpf.c.  A program
      is a function of what its helpers observe and of the state of its maps; the
      probes are the labels of a step relation whose reachable states carry the
      invariants.
    - Packets.  [NetParse] is src/common/gy_net_parse.h; [DnsMapping] is
      src/common/gy_dns_mapping.cc, from the frame to the table of domain names.
    - The protocol between the nodes, src/common/gy_comm_proto.h and
      gy_comm_proto.cc.  [CommLayout] holds the structures and their layout in
      memory, [CommValid] the one loop behind the validation of messages with
      elements of variable length, [CommMsgs] the header and those messages,
      [CommFixed] the other messages, [CommReg] the admission of peers.
    - The servers.  [RecvLoop] is [handle_recv] of src/server/gy_mconnhdlr.cc and
      gy_shconnhdlr.cc, from the socket to the batches for the other threads;
      [Dispatch] is its switch over the type of a message, for madhava and for
      shyama, instantiating the loop with the validation of the protocol.
      [HostConns] is src/common/gy_host_conn_flist.h, the connections of one peer;
      [Placement] is the part of src/server/gy_shconnhdlr.cc behind the dispatch that
      registers hosts and madhavas and places the hosts, as operations on the tables of
      shyama, and [PlacementInv] has its invariants.
    - Statistics.  [Histogram] is src/common/gy_statistics.h (bucket functions,
      histograms, percentiles, history), [PrioQueue] its bounded priority queue with
      the orders of src/server/gy_msocket.h, [TimeHist] its histograms over windows of
      time with their caches per thread (and src/thirdparty/SlabHistogramBucket.h).
    - Addresses.  [JHash] is src/common/jhash.h, [IpAddr] the classes [GY_IP_ADDR]
      and [IP_PORT] of src/common/gy_common_inc.h.
    - Filters.  [Doubles] is the type [double], [Criterion] and [CriteriaSet] are
      src/common/gy_query_criteria.h (one condition; groups and sets of conditions,
      made from the normal form of src/common/gy_boolparse.cc).  [StrNum] has the
      conversions between text and numbers (printf, strtol, strtod and string_to_number
      of src/common/gy_common_inc.h), [CriteriaSql] the WHERE clause of a set, and
      [CriterionParse] the constructor of a condition from its text
      (src/common/gy_query_criteria.cc) and the cutting of a filter into conditions.
    - Alerts.  [AlertDef] is the constructor of a definition from its JSON object
      (src/common/gy_alerts.cc, with the tables of the subsystems of
      gy_query_common.cc), [AlertRt] the realtime alerts of madhava
      (src/server/gy_malerts.cc): the hits counted by the threads that receive records,
      the queue, and the loop of the handler thread with its tables; [AlertInv] holds
      its invariants.  A state is the record [MRT_ALERT_HDLR]; records, messages of
      shyama and rounds of the loop are the events of a run.
    - States of hosts, processes and services, which the agent finds every few seconds.
      [ObjState] has what they share: the states, bit histories, differences of wrapping
      counters, arrays of readings and percentiles (src/common/gy_common_inc.h,
      gy_json_field_maps.h, gy_statistics.h).  [HostState] is src/common/gy_sys_stat.cc
      and gy_sys_stat.h: what is read from /proc as scanned numbers, the verdicts on
      processors and memory with their histories, and the state of the host
      ([host_status_update] of gy_socket_stat.cc).  [TaskState] is the delays and the
      verdict of a process (src/common/gy_task_stat.cc) and the pass over the processes
      (gy_task_handler.cc).  [SvcState] is the verdict on a service, its record and the
      bytes it reports (src/common/gy_socket_stat.cc), and the pass that puts the three
      together.

    ** What the theorems show

    - eBPF: every record sent to user space is well formed in every reachable state;
      a connect attempt whose probes run in order, and whose map updates succeed, is
      reported once with the data of the process that made it; the cleartext captured of
      calls of up to 32768 bytes forms streams with consecutive sequence numbers, a larger
      call is cut off and leaves a gap that is recorded; only enabled processes are
      captured; kprobe and fentry variants agree.
    - Packets and DNS: the parsers stay inside the captured bytes (with the exact
      exceptions the code has, which are proved as closed theorems), end, and find
      what a well-formed sender wrote.  The table of names refines a map, with the
      clean-up of a large table specified between the comment and the code.
    - Protocol: a validated message of the 18 kinds of [event_specs] has all its elements
      inside its bytes, aligned and with terminated strings; validation accepts exactly
      the messages so built;
      a header survives sending and receiving; a peer is admitted exactly when its
      fields fulfil the stated conditions.
    - Servers: the receive loop refines the cutting of the byte stream into messages,
      however the stream is cut into reads, for messages of one kind of threads whose
      queue takes them; in the switch of the receiving threads, a peer that is not
      registered or of the wrong kind reaches nothing but what the policy names.  The
      lists of connections never hold a dangling pointer and give the connection the
      pointer is on; the tables of shyama agree in every reachable state; a host is given
      the nearest madhava that has room with the tries of the last passes counted, and is
      told nothing that the madhava has not been told before.
    - Statistics and addresses: histograms and their percentiles are right about the
      list of recorded values, also over time with the caches of the threads, the queue
      keeps the best elements, addresses
      are classified by the tables of the standards outside four named ranges, equal
      addresses have equal hashes, and the conversions round-trip.
    - Filters: the evaluation of a set, with its cache and early exits, is the value
      of the disjunctive normal form; evaluating only the conditions on the host
      gives a definite failure exactly when no completion can match.  The WHERE clause
      is well formed and has the value of the filter cut down to the conditions of the
      subsystem; conditions on strings (with =, ==, !=, substr, notsubstr) and on integers,
      given as text, are parsed and evaluated to what they say, and no string of a
      condition can end its SQL literal.
    - Alerts: an accepted definition is within its bounds, and gives what the handler
      relies on ([parsed_defs_ok]); in every reachable state the tables of the
      definitions and the multimap of the next checks agree; the handler is told of an
      alert exactly after the hits in a row that are asked for and sends and repeats it
      exactly when the definition says; an alert that is not hit any more is closed while
      shyama is connected and its definition is not changed.
    - States: every verdict on a service has a reason, many errors are always reported,
      and a slow service without a cause only after five high responses of eight; the
      delays of a process are the differences of its last readings; the traffic of
      a service is accounted once, rounded down to kilobytes in each report; a pass gives a
      host the state that the verdicts it recorded for its processes and the states of its
      services, processors and memory ask for, and counts exactly those.

    ** Bounds, fuel and parameters

    Loops that the source bounds by a count are structural on that count.  Where the
    source loops over the bytes of a buffer, the fuel is the number of those bytes
    plus one and a theorem shows that the result does not depend on more; running out
    of fuel gives the value of an illegal access, so that no theorem can hold by
    running out.  Kernel maps, the heap algorithms of the C++ library, the regular
    expressions of RE2, the JSON parser, the current time and the text of times, the time
    series of the library folly and the normal form of the library boolstuff are
    parameters with their documented laws; the verdict on processors takes the time
    histograms as a parameter, which the witnesses instantiate with [TimeHist]; each
    theorem that assumes laws has a witness with a concrete instance.  The walk over the
    next checks of alerts is bounded by the count of the source; the pool of the alert
    objects is smaller than that count, so that every object is reached.

    ** Not modelled

    Text of log and error messages, statistics counters, threads and locks (each
    operation is one step, as its lock or its thread makes it), I/O with files,
    PostgreSQL, sockets and /proc, JSON and SQL text other than the filters, the
    loaders of the eBPF programs, the parsers of application protocols, and
    generated or third-party code.  Of the alerts, those on database queries and the
    alert manager of shyama are left out.  Of the statistics of the agent, the scanning of
    /proc into numbers, the tables of sockets and of the heaviest processes and the
    messages with the states are left out.  The rest of the processing of messages
    behind the dispatch, which changes tables and the database of the servers, is left
    out as well. *)
From Stdlib Require Export ZArith Lia Bool.
From stdpp Require Export base list numbers option.

#[global] Open Scope Z_scope.

(** ** Machine integers

    A C unsigned integer of [w] bits is a [Z] in [0, 2^w); arithmetic that can
    leave the range is followed by an explicit [wrap]. *)
Declare Scope gy_scope.
Delimit Scope gy_scope with gy.

Definition wrap (w z : Z) : Z := z mod 2 ^ w.

Notation "'u8' z" := (wrap 8 z) (at level 9, z at level 8) : gy_scope.
Notation "'u16' z" := (wrap 16 z) (at level 9, z at level 8) : gy_scope.
Notation "'u32' z" := (wrap 32 z) (at level 9, z at level 8) : gy_scope.
Notation "'u64' z" := (wrap 64 z) (at level 9, z at level 8) : gy_scope.
#[global] Open Scope gy_scope.

(** [z] is a value of a [w]-bit unsigned type. *)
Definition in_width (w z : Z) : Prop := 0 <= z < 2 ^ w.

(** [bool] version, for executable well-formedness checks. *)
Definition in_widthb (w z : Z) : bool := (0 <=? z) && (z <? 2 ^ w).

(** Conversion to a [w]-bit two's complement signed type. *)
Definition swrap (w z : Z) : Z :=
  let r := wrap w z in if r <? 2 ^ (w - 1) then r else r - 2 ^ w.

(** [ntohs], [bpf_ntohs] and [ntohl] on a little-endian host. *)
Definition bswap16 (z : Z) : Z := (z mod 256) * 256 + (z / 256) mod 256.
Definition bswap32 (z : Z) : Z :=
  bswap16 (z mod 65536) * 65536 + bswap16 (z / 65536 mod 65536).

(** Byte [i] of an unsigned integer as a little-endian host stores it. *)
Definition byte_of (z : Z) (i : Z) : Z := Z.land (Z.shiftr z (8 * i)) 255.

#[global] Arguments wrap : simpl never.
#[global] Arguments swrap : simpl never.
#[global] Arguments bswap16 : simpl never.
#[global] Arguments bswap32 : simpl never.
#[global] Arguments byte_of : simpl never.

(** ** Tactics *)

(** Turns a boolean test of the context into the proposition it decides. *)
Ltac breflect_hyp H :=
  lazymatch type of H with
  | Z.eqb _ _ = ?b => lazymatch b with true => apply Z.eqb_eq in H | false => apply Z.eqb_neq in H end
  | Z.leb _ _ = ?b => lazymatch b with true => apply Z.leb_le in H | false => apply Z.leb_gt in H end
  | Z.ltb _ _ = ?b => lazymatch b with true => apply Z.ltb_lt in H | false => apply Z.ltb_ge in H end
  | Z.geb _ _ = _ => rewrite Z.geb_leb in H
  | Z.gtb _ _ = _ => rewrite Z.gtb_ltb in H
  | negb _ = ?b =>
      lazymatch b with true => apply negb_true_iff in H | false => apply negb_false_iff in H end
  | andb _ _ = true => apply andb_true_iff in H as [? ?]
  | orb _ _ = false => apply orb_false_iff in H as [? ?]
  end.
Ltac breflect :=
  repeat match goal with
  | H : @eq bool _ _ |- _ => breflect_hyp H
  end.

(** Case split on the condition of the first [if] of the goal. *)
Ltac case_if :=
  match goal with
  | |- context [if ?b then _ else _] => destruct b eqn:?
  end.

(** The same on a hypothesis. *)
Ltac case_if_in H :=
  match type of H with
  | context [if ?b then _ else _] => destruct b eqn:?
  end.

(** Splits all the tests of a hypothesis and drops the absurd branches. *)
Ltac case_ifs_in H := repeat (case_if_in H; try discriminate).

(** Linear arithmetic with divisions and remainders. *)
Ltac zdiv := Z.to_euclidean_division_equations; lia.

Create HintDb gy discriminated.

(** Proves a conjunction one conjunct at a time with the library's hints. *)
Ltac conj_auto := repeat (split; [solve [done | auto with gy]|]); try solve [done | auto with gy].

(** ** Facts on machine integers *)

Lemma wrap_range w z : 0 <= w -> in_width w (wrap w z).
Proof. intros. apply Z.mod_pos_bound, Z.pow_pos_nonneg; lia. Qed.

Lemma wrap_id w z : in_width w z -> wrap w z = z.
Proof. intros. by apply Z.mod_small. Qed.

Lemma wrap_wrap w z : wrap w (wrap w z) = wrap w z.
Proof. unfold wrap. by rewrite Zmod_mod. Qed.

Lemma wrap_add_l w a b : wrap w (wrap w a + b) = wrap w (a + b).
Proof. unfold wrap. by rewrite Zplus_mod_idemp_l. Qed.

Lemma wrap_add_r w a b : wrap w (a + wrap w b) = wrap w (a + b).
Proof. unfold wrap. by rewrite Zplus_mod_idemp_r. Qed.

Lemma wrap_sub_l w a b : wrap w (wrap w a - b) = wrap w (a - b).
Proof. unfold wrap. by rewrite Zminus_mod_idemp_l. Qed.

Lemma wrap_sub_r w a b : wrap w (a - wrap w b) = wrap w (a - b).
Proof. unfold wrap. by rewrite Zminus_mod_idemp_r. Qed.

Lemma swrap_id w z : 0 < w -> - 2 ^ (w - 1) <= z < 2 ^ (w - 1) -> swrap w z = z.
Proof.
  intros Hw Hz. unfold swrap, wrap.
  assert (2 ^ w = 2 * 2 ^ (w - 1)) as -> by (rewrite <- Z.pow_succ_r by lia; f_equal; lia).
  destruct (Z.le_gt_cases 0 z).
  - rewrite Z.mod_small by lia. by rewrite (proj2 (Z.ltb_lt _ _)) by lia.
  - rewrite <- (Z.mod_unique z (2 * 2 ^ (w - 1)) (-1) (z + 2 * 2 ^ (w - 1))) by lia.
    rewrite (proj2 (Z.ltb_ge _ _)) by lia. lia.
Qed.

Lemma wrap_swrap w z : 0 <= w -> wrap w (swrap w z) = wrap w z.
Proof.
  intros Hw. unfold swrap. case_if; [apply wrap_wrap|]. unfold wrap.
  rewrite Zminus_mod, Z_mod_same_full, Z.sub_0_r, !Zmod_mod. done.
Qed.

(** [swrap] only depends on the value modulo [2^w]. *)
Lemma swrap_congr w a b : wrap w a = wrap w b -> swrap w a = swrap w b.
Proof. intros E. unfold swrap. by rewrite E. Qed.

Lemma swrap_add w a b : 0 <= w -> swrap w (swrap w a + swrap w b) = swrap w (a + b).
Proof.
  intros Hw. apply swrap_congr.
  rewrite <- wrap_add_l, <- wrap_add_r, !wrap_swrap, wrap_add_l, wrap_add_r by done. done.
Qed.

Lemma swrap_add_l w a b : 0 <= w -> swrap w (swrap w a + b) = swrap w (a + b).
Proof. intros Hw. apply swrap_congr. rewrite <- wrap_add_l, wrap_swrap, wrap_add_l by done. done. Qed.

Lemma in_widthb_spec w z : in_widthb w z = true <-> in_width w z.
Proof. unfold in_widthb, in_width. rewrite andb_true_iff, Z.leb_le, Z.ltb_lt. lia. Qed.

Lemma bswap16_range z : in_width 16 (bswap16 z).
Proof. unfold in_width, bswap16. change (2 ^ 16) with 65536. zdiv. Qed.

Lemma bswap16_involutive z : in_width 16 z -> bswap16 (bswap16 z) = z.
Proof. unfold in_width, bswap16. change (2 ^ 16) with 65536. intros. zdiv. Qed.

Lemma bswap16_0 z : in_width 16 z -> (bswap16 z = 0 <-> z = 0).
Proof. unfold in_width, bswap16. change (2 ^ 16) with 65536. intros. zdiv. Qed.

Lemma byte_of_range z i : in_width 8 (byte_of z i).
Proof.
  unfold byte_of. change 255 with (Z.ones 8). rewrite Z.land_ones by lia.
  by apply wrap_range.
Qed.

#[export] Hint Resolve wrap_range bswap16_range byte_of_range : gy.
#[export] Hint Extern 2 (0 <= _) => lia : gy.

(** ** Facts on lists *)

Lemma Forall_snoc {A} (P : A -> Prop) l x : Forall P (l ++ [x]) <-> Forall P l /\ P x.
Proof. rewrite Forall_app, Forall_singleton. done. Qed.
