(* ===== verification/Bytes.v ===== *)
(** * Bytes : buffers of bytes and checked accesses.

    A buffer is the list of its bytes; a read or write outside it is the value
    [Oob].  Functions that access memory are translated with the accesses they
    make, so that a theorem [sat P (f ...)] says both that [f] stays inside its
    buffers and that its result satisfies [P]. *)
From S2P Require Import Prelude.

(** ** Reads *)
Inductive acc (A : Type) : Type := Acc (a : A) | Oob.
Arguments Acc {A} a.
Arguments Oob {A}.

Definition acc_bind {A B} (m : acc A) (k : A -> acc B) : acc B :=
  match m with Acc a => k a | Oob => Oob end.

Declare Scope acc_scope.
Notation "'let!' x := m 'in' k" := (acc_bind m (fun x => k))
  (at level 10, x binder, m at level 100, k at level 200) : acc_scope.
#[global] Open Scope acc_scope.

(** [m] reads inside its buffer and its value satisfies [P]. *)
Definition sat {A} (P : A -> Prop) (m : acc A) : Prop :=
  match m with Acc a => P a | Oob => False end.

Definition blen (buf : list Z) : Z := Z.of_nat (length buf).

Definition rd8 (buf : list Z) (off : Z) : acc Z :=
  if off <? 0 then Oob else
  match buf !! Z.to_nat off with Some b => Acc b | None => Oob end.

(** [unaligned_read_be16], also [ntohs] of a 16-bit member. *)
Definition rd_be16 (buf : list Z) (off : Z) : acc Z :=
  let! b0 := rd8 buf off in
  let! b1 := rd8 buf (off + 1) in
  Acc (Z.lor (Z.shiftl b0 8) b1).

Definition rd_be32 (buf : list Z) (off : Z) : acc Z :=
  let! h := rd_be16 buf off in
  let! l := rd_be16 buf (off + 2) in
  Acc (Z.lor (Z.shiftl h 16) l).

(** A 32-bit load on the little-endian host. *)
Definition rd_le32 (buf : list Z) (off : Z) : acc Z :=
  let! v := rd_be32 buf off in Acc (bswap32 v).

Definition bytes_wf (buf : list Z) : Prop := Forall (in_width 8) buf.

Lemma sat_bind {A B} (P : B -> Prop) (m : acc A) (k : A -> acc B) :
  sat (fun a => sat P (k a)) m -> sat P (acc_bind m k).
Proof. by destruct m. Qed.

Lemma sat_mono {A} (P Q : A -> Prop) (m : acc A) : (forall a, P a -> Q a) -> sat P m -> sat Q m.
Proof. destruct m; simpl; auto. Qed.

Lemma sat_Acc {A} (P : A -> Prop) (m : acc A) : sat P m -> exists a, m = Acc a /\ P a.
Proof. destruct m; simpl; eauto; done. Qed.

Section Reads.
Context (buf : list Z) (Hwf : bytes_wf buf).

Lemma rd8_sat off : 0 <= off < blen buf -> sat (in_width 8) (rd8 buf off).
Proof.
  intros H. unfold rd8, blen in *. rewrite (proj2 (Z.ltb_ge _ _)) by lia.
  destruct (lookup_lt_is_Some_2 buf (Z.to_nat off)) as [b Hb]; [lia|].
  rewrite Hb. simpl. by eapply Forall_lookup_1 in Hwf.
Qed.

Lemma lor_shiftl_add h l w : 0 <= w -> in_width w l -> Z.lor (Z.shiftl h w) l = h * 2 ^ w + l.
Proof.
  intros Hw Hl. rewrite <- Z.shiftl_mul_pow2 by done.
  assert (Z.land (Z.shiftl h w) l = 0) as H0.
  { apply Z.bits_inj'; intros n Hn. rewrite Z.land_spec, Z.bits_0.
    destruct (Z.lt_ge_cases n w); [by rewrite Z.shiftl_spec_low|].
    replace l with (l mod 2 ^ w) by (by apply Z.mod_small).
    rewrite Z.mod_pow2_bits_high by lia. apply andb_false_r. }
  by rewrite Z.add_nocarry_lxor, Z.lxor_lor.
Qed.

Lemma rd_be16_sat off : 0 <= off -> off + 2 <= blen buf -> sat (in_width 16) (rd_be16 buf off).
Proof.
  intros. apply sat_bind. eapply sat_mono; [|apply rd8_sat; lia]. intros b0 Hb0.
  apply sat_bind. eapply sat_mono; [|apply rd8_sat; lia]. intros b1 Hb1. simpl.
  rewrite lor_shiftl_add by done. unfold in_width in *. lia.
Qed.

Lemma rd_be32_sat off : 0 <= off -> off + 4 <= blen buf -> sat (in_width 32) (rd_be32 buf off).
Proof.
  intros. apply sat_bind. eapply sat_mono; [|apply rd_be16_sat; lia]. intros h Hh.
  apply sat_bind. eapply sat_mono; [|apply rd_be16_sat; lia]. intros l Hl. simpl.
  rewrite lor_shiftl_add by done. unfold in_width in *. lia.
Qed.

Lemma rd_le32_sat off : 0 <= off -> off + 4 <= blen buf -> sat (fun _ => True) (rd_le32 buf off).
Proof. intros. apply sat_bind. by eapply sat_mono; [|apply rd_be32_sat; lia]. Qed.
End Reads.

(** Goes over one read, leaving its bounds to arithmetic. *)
Ltac rd_step :=
  apply sat_bind;
  first [ eapply sat_mono; [|apply rd8_sat; [done|lia]]
        | eapply sat_mono; [|apply rd_be16_sat; [done|lia|lia]]
        | eapply sat_mono; [|apply rd_be32_sat; [done|lia|lia]]
        | eapply sat_mono; [|apply rd_le32_sat; [done|lia|lia]] ].

Lemma acc_bind_Acc {A B} (m : acc A) (k : A -> acc B) b :
  acc_bind m k = Acc b -> exists a, m = Acc a /\ k a = Acc b.
Proof. destruct m; simpl; eauto; done. Qed.

Lemma sat_elim {A} (P : A -> Prop) (m : acc A) a : sat P m -> m = Acc a -> P a.
Proof. by intros H ->. Qed.

Lemma blen_drop n buf : (n <= length buf)%nat -> blen (drop n buf) = blen buf - Z.of_nat n.
Proof. intros. unfold blen. rewrite length_drop. lia. Qed.

Lemma bytes_wf_dec buf : forallb (in_widthb 8) buf = true -> bytes_wf buf.
Proof.
  intros H. unfold bytes_wf. induction buf as [|b buf IH]; simpl in *; constructor.
  - apply andb_true_iff in H as [H _]. by apply in_widthb_spec.
  - apply andb_true_iff in H as [_ H]. auto.
Qed.

(** ** Little-endian members and byte stores *)

(** A load of [n] bytes on the little-endian host. *)
Fixpoint rd_le (n : nat) (buf : list Z) (off : Z) : acc Z :=
  match n with
  | O => Acc 0
  | S n' =>
      let! b := rd8 buf off in
      let! r := rd_le n' buf (off + 1) in
      Acc (b + 256 * r)
  end.

Definition wr8 (buf : list Z) (off v : Z) : acc (list Z) :=
  if (0 <=? off) && (off <? blen buf) then Acc (<[Z.to_nat off := v]> buf) else Oob.

(** The low [n] bytes of [v], lowest first. *)
Fixpoint le_bytes (n : nat) (v : Z) : list Z :=
  match n with O => [] | S n' => v mod 256 :: le_bytes n' (v / 256) end.

Lemma rd_le_sat n buf : bytes_wf buf -> forall off,
  0 <= off -> off + Z.of_nat n <= blen buf -> sat (in_width (8 * Z.of_nat n)) (rd_le n buf off).
Proof.
  intros Hwf. induction n as [|n IH]; intros off H0 H1; [by cbn|].
  cbn [rd_le]. apply sat_bind. eapply sat_mono; [|apply rd8_sat; [done|lia]]. intros b Hb.
  apply sat_bind. eapply sat_mono; [|apply IH; lia]. intros r Hr. cbn [sat]. unfold in_width in *.
  replace (8 * Z.of_nat (S n)) with (8 + 8 * Z.of_nat n) by lia. rewrite Z.pow_add_r by lia. lia.
Qed.

(** The bytes of the two buffers in [lo, hi) are the same. *)
Definition agree (lo hi : Z) (a b : list Z) : Prop :=
  forall o, lo <= o < hi -> rd8 a o = rd8 b o.

Lemma agree_refl lo hi a : agree lo hi a a.
Proof. done. Qed.

Lemma agree_sym lo hi a b : agree lo hi a b -> agree lo hi b a.
Proof. intros H o Ho. symmetry. auto. Qed.

Lemma agree_trans lo hi a b c : agree lo hi a b -> agree lo hi b c -> agree lo hi a c.
Proof. intros H1 H2 o Ho. rewrite H1; auto. Qed.

Lemma agree_mono lo hi lo' hi' a b : agree lo hi a b -> lo <= lo' -> hi' <= hi -> agree lo' hi' a b.
Proof. intros H ? ? o Ho. apply H. lia. Qed.

Lemma rd_le_agree n a b : forall off,
  agree off (off + Z.of_nat n) a b -> rd_le n a off = rd_le n b off.
Proof.
  induction n as [|n IH]; intros off H; [done|]. cbn [rd_le]. rewrite (H off) by lia.
  destruct (rd8 b off); [|done]. cbn [acc_bind]. rewrite (IH (off + 1)); [done|].
  eapply agree_mono; [done|lia..].
Qed.

Lemma wr8_sat buf off v : 0 <= off < blen buf ->
  wr8 buf off v = Acc (<[Z.to_nat off := v]> buf).
Proof.
  intros. unfold wr8. by rewrite (proj2 (Z.leb_le _ _)), (proj2 (Z.ltb_lt _ _)) by lia.
Qed.

Lemma blen_insert (i : nat) v buf : blen (<[i := v]> buf) = blen buf.
Proof. unfold blen. by rewrite length_insert. Qed.

Lemma rd8_insert_ne buf i o v : 0 <= i -> o <> i -> rd8 (<[Z.to_nat i := v]> buf) o = rd8 buf o.
Proof.
  intros. unfold rd8. case_if; [done|]. breflect. rewrite list_lookup_insert_ne by lia. done.
Qed.

Lemma rd8_insert_eq buf i v : 0 <= i < blen buf -> rd8 (<[Z.to_nat i := v]> buf) i = Acc v.
Proof.
  intros. unfold rd8, blen in *. rewrite (proj2 (Z.ltb_ge _ _)) by lia.
  rewrite list_lookup_insert_eq by lia. done.
Qed.

Lemma rd8_lookup buf o v : rd8 buf o = Acc v -> 0 <= o /\ buf !! Z.to_nat o = Some v.
Proof.
  unfold rd8. intros H. case_if_in H; [done|]. breflect.
  destruct (buf !! Z.to_nat o); [|done]. by simplify_eq.
Qed.

Lemma rd8_wr8_same buf o v : rd8 buf o = Acc v -> wr8 buf o v = Acc buf.
Proof.
  intros [H0 Hl]%rd8_lookup. pose proof (lookup_lt_Some _ _ _ Hl).
  rewrite wr8_sat by (unfold blen; lia). by rewrite list_insert_id.
Qed.

Lemma bytes_wf_insert i v buf : bytes_wf buf -> in_width 8 v -> bytes_wf (<[i := v]> buf).
Proof. intros. by apply Forall_insert. Qed.

Lemma length_le_bytes n : forall v, length (le_bytes n v) = n.
Proof. induction n; intros; simpl; auto. Qed.

Lemma le_bytes_wf n : forall v, bytes_wf (le_bytes n v).
Proof.
  induction n as [|n IH]; intros v; cbn [le_bytes]; constructor; [|apply IH].
  apply (wrap_range 8). lia.
Qed.

Lemma rd8_app_r a b o : 0 <= o -> rd8 (a ++ b) (blen a + o) = rd8 b o.
Proof.
  intros. unfold rd8, blen. rewrite !(proj2 (Z.ltb_ge _ _)) by lia.
  rewrite lookup_app_r by lia. by replace (Z.to_nat _ - _)%nat with (Z.to_nat o) by lia.
Qed.

Lemma rd8_app_l a b o : o < blen a -> rd8 (a ++ b) o = rd8 a o.
Proof. intros. unfold rd8, blen in *. case_if; [done|]. breflect. by rewrite lookup_app_l by lia. Qed.

(** Stored little-endian behind [pre], a value is read back. *)
Lemma rd_le_pre n : forall pre v buf, in_width (8 * Z.of_nat n) v ->
  rd_le n (pre ++ le_bytes n v ++ buf) (blen pre) = Acc v.
Proof.
  induction n as [|n IH]; intros pre v buf Hv; cbn [rd_le le_bytes].
  { unfold in_width in Hv. simpl in Hv. f_equal. lia. }
  replace (blen pre) with (blen pre + 0) at 1 by lia. rewrite rd8_app_r by lia.
  change (rd8 _ 0) with (Acc (v mod 256)). cbn [acc_bind].
  replace (pre ++ (v mod 256 :: le_bytes n (v / 256)) ++ buf)
    with ((pre ++ [v mod 256]) ++ le_bytes n (v / 256) ++ buf) by (rewrite <- app_assoc; done).
  replace (blen pre + 1) with (blen (pre ++ [v mod 256]))
    by (unfold blen; rewrite length_app; simpl; lia).
  rewrite IH.
  - cbn [acc_bind]. f_equal. rewrite (Z.div_mod v 256) at 3 by lia. lia.
  - unfold in_width in *. replace (8 * Z.of_nat (S n)) with (8 + 8 * Z.of_nat n) in Hv by lia.
    rewrite Z.pow_add_r in Hv by lia. change (2 ^ 8) with 256 in Hv.
    split; [apply Z.div_pos; lia|apply Z.div_lt_upper_bound; lia].
Qed.

Lemma rd_le_mid n pre buf v off : off = blen pre -> in_width (8 * Z.of_nat n) v ->
  rd_le n (pre ++ le_bytes n v ++ buf) off = Acc v.
Proof. intros -> Hv. by apply rd_le_pre. Qed.

Lemma rd_le_first n buf v off : off = 0 -> in_width (8 * Z.of_nat n) v ->
  rd_le n (le_bytes n v ++ buf) off = Acc v.
Proof. intros -> Hv. by apply (rd_le_mid n []). Qed.
