(* ===== verification/BpfMap.v ===== *)
(** * BpfMap : what the eBPF programs rely on in the kernel's maps.

    The eBPF programs of partha keep their state in kernel maps
    ([BPF_MAP_TYPE_HASH] and [BPF_MAP_TYPE_LRU_HASH]) through
    [bpf_map_lookup_elem], [bpf_map_update_elem] (always with [BPF_ANY]) and
    [bpf_map_delete_elem].  The maps are kernel code: here they are an interface,
    a record of operations ([BpfMapOps]) with the documented laws
    ([BpfMap], and [BpfHashMap] for the maps that do not evict).  The theorems
    about the programs hold of every implementation of the interface.  Two
    concrete implementations ([hash_ops], a bounded hash, and [lru_ops], a
    bounded map evicting its oldest entry) show that the laws can be met and
    make the programs executable. *)
From S2P Require Import Prelude.

(** The operations.  [update_elem] and [delete_elem] return the helper's return
    code, 0 on success, with the new map.  [store_elem] is a store through the
    pointer a successful [bpf_map_lookup_elem] returned: it changes the value of
    an entry in place. *)
Class BpfMapOps := {
  bmap : Type -> Type -> Type;
  empty_map : forall {K V}, bmap K V;
  lookup_elem : forall {K V} `{EqDecision K}, bmap K V -> K -> option V;
  update_elem : forall {K V} `{EqDecision K}, bmap K V -> K -> V -> Z * bmap K V;
  delete_elem : forall {K V} `{EqDecision K}, bmap K V -> K -> Z * bmap K V;
  store_elem : forall {K V} `{EqDecision K}, bmap K V -> K -> V -> bmap K V }.

(** The documented behaviour common to both kinds of map: a deletion succeeds
    exactly on the keys present and removes only its key; a successful update
    makes its value visible, a failed one changes nothing; an update never makes
    another entry appear or change its value (an LRU map may drop one). *)
Class BpfMap (ops : BpfMapOps) : Prop := {
  lookup_empty_map : forall {K V} `{EqDecision K} (k : K),
    lookup_elem (empty_map : bmap K V) k = None;
  delete_elem_rc : forall {K V} `{EqDecision K} (m : bmap K V) k,
    (delete_elem m k).1 = 0 <-> is_Some (lookup_elem m k);
  lookup_delete_elem : forall {K V} `{EqDecision K} (m : bmap K V) k j,
    lookup_elem (delete_elem m k).2 j =
      if decide (j = k) then None else lookup_elem m j;
  lookup_update_ok : forall {K V} `{EqDecision K} (m : bmap K V) k v,
    (update_elem m k v).1 = 0 -> lookup_elem (update_elem m k v).2 k = Some v;
  lookup_update_err : forall {K V} `{EqDecision K} (m : bmap K V) k v j,
    (update_elem m k v).1 <> 0 ->
    lookup_elem (update_elem m k v).2 j = lookup_elem m j;
  lookup_update_sound : forall {K V} `{EqDecision K} (m : bmap K V) k v j w,
    j <> k -> lookup_elem (update_elem m k v).2 j = Some w -> lookup_elem m j = Some w;
  lookup_store_elem : forall {K V} `{EqDecision K} (m : bmap K V) k v j,
    lookup_elem (store_elem m k v) j =
      if decide (j = k) then (fun _ => v) <$> lookup_elem m k else lookup_elem m j }.

(** A plain hash map does not evict. *)
Class BpfHashMap (ops : BpfMapOps) : Prop := {
  hash_is_map :: BpfMap ops;
  lookup_update_ne : forall {K V} `{EqDecision K} (m : bmap K V) k v j,
    j <> k -> lookup_elem (update_elem m k v).2 j = lookup_elem m j }.

(** The map after a helper call whose return code the program ignores. *)
Definition map_update `{ops : BpfMapOps} {K V} `{EqDecision K} (m : bmap K V) k v : bmap K V :=
  (update_elem m k v).2.
Definition map_delete `{ops : BpfMapOps} {K V} `{EqDecision K} (m : bmap K V) k : bmap K V :=
  (delete_elem m k).2.

Section Derived.
Context {ops : BpfMapOps} {Hmap : BpfMap ops} {K V : Type} `{EqDecision K}.
Implicit Types (m : bmap K V).

Lemma lookup_map_delete m k j :
    lookup_elem (map_delete m k) j = if decide (j = k) then None else lookup_elem m j.
Proof. apply lookup_delete_elem. Qed.

Lemma lookup_map_delete_eq m k : lookup_elem (map_delete m k) k = None.
Proof. rewrite lookup_map_delete. by rewrite decide_True. Qed.

Lemma lookup_map_delete_ne m k j :
    j <> k -> lookup_elem (map_delete m k) j = lookup_elem m j.
Proof. intros. rewrite lookup_map_delete. by rewrite decide_False. Qed.

Lemma lookup_map_delete_Some m k j w :
    lookup_elem (map_delete m k) j = Some w -> lookup_elem m j = Some w.
Proof. rewrite lookup_map_delete. by case_decide. Qed.

Lemma lookup_map_update_eq m k v :
    (update_elem m k v).1 = 0 -> lookup_elem (map_update m k v) k = Some v.
Proof. apply lookup_update_ok. Qed.

  (** What a key maps to after an update was there before or is the new value. *)
Lemma lookup_map_update_Some m k v j w :
    lookup_elem (map_update m k v) j = Some w ->
    (j = k /\ w = v) \/ lookup_elem m j = Some w.
Proof.
    unfold map_update. intros Hl.
    destruct (decide ((update_elem m k v).1 = 0)) as [E|E].
    - destruct (decide (j = k)) as [->|Hne].
      + rewrite lookup_update_ok in Hl by done. left. by simplify_eq.
      + right. by eapply lookup_update_sound.
    - right. by rewrite lookup_update_err in Hl.
Qed.

Lemma lookup_store_elem_eq m k v w :
    lookup_elem m k = Some w -> lookup_elem (store_elem m k v) k = Some v.
Proof. intros E. rewrite lookup_store_elem, decide_True, E by done. done. Qed.

Lemma lookup_store_elem_ne m k v j :
    j <> k -> lookup_elem (store_elem m k v) j = lookup_elem m j.
Proof. intros. rewrite lookup_store_elem. by rewrite decide_False. Qed.
End Derived.

Create Rewrite HintDb bpf.
#[export] Hint Rewrite @lookup_map_delete_eq @lookup_empty_map using typeclasses eauto : bpf.

(** ** Implementations

    Both are association lists with distinct keys, newest entry first. *)
Module Assoc.
Section Assoc.
Context {K V : Type} `{EqDecision K}.
Implicit Types (m : list (K * V)).

Fixpoint lookup m (k : K) : option V :=
    match m with
    | [] => None
    | (j, v) :: m' => if decide (j = k) then Some v else lookup m' k
    end.

Definition remove m (k : K) : list (K * V) := filter (fun p => p.1 <> k) m.

Definition store m (k : K) (v : V) : list (K * V) :=
    (fun p => if decide (p.1 = k) then (k, v) else p) <$> m.

Lemma lookup_remove m k j :
    lookup (remove m k) j = if decide (j = k) then None else lookup m j.
Proof.
    unfold remove. induction m as [|[i v] m IH]; simpl; [by case_decide|].
    rewrite filter_cons. repeat (case_decide; simplify_eq/=); done || auto.
Qed.

Lemma lookup_store m k v j :
    lookup (store m k v) j =
      if decide (j = k) then (fun _ => v) <$> lookup m k else lookup m j.
Proof.
    unfold store. induction m as [|[i w] m IH]; simpl; [by case_decide|].
    repeat (case_decide; simplify_eq/=); done || auto.
Qed.

Lemma lookup_take n m k v : lookup (take n m) k = Some v -> lookup m k = Some v.
Proof.
    revert n. induction m as [|[i w] m IH]; intros [|n]; simpl; try done.
    case_decide; eauto.
Qed.
End Assoc.
End Assoc.

(** [BPF_MAP_TYPE_HASH] with [max_entries] = [cap]: an update of a new key fails
    with [-E2BIG] when the map is full. *)
Definition hash_ops (cap : nat) : BpfMapOps := {|
  bmap K V := list (K * V);
  empty_map K V := [];
  lookup_elem K V _ m k := Assoc.lookup m k;
  update_elem K V _ m k v :=
    match Assoc.lookup m k with
    | Some _ => (0, (k, v) :: Assoc.remove m k)
    | None => if decide (length m < cap)%nat then (0, (k, v) :: m) else (-7, m)
    end;
  delete_elem K V _ m k :=
    match Assoc.lookup m k with
    | Some _ => (0, Assoc.remove m k)
    | None => (-2, m)
    end;
  store_elem K V _ m k v := Assoc.store m k v |}.

(** [BPF_MAP_TYPE_LRU_HASH] with [max_entries] = [S cap]: an update always
    succeeds and the oldest entries are dropped. *)
Definition lru_ops (cap : nat) : BpfMapOps := {|
  bmap K V := list (K * V);
  empty_map K V := [];
  lookup_elem K V _ m k := Assoc.lookup m k;
  update_elem K V _ m k v := (0, (k, v) :: take cap (Assoc.remove m k));
  delete_elem K V _ m k :=
    match Assoc.lookup m k with
    | Some _ => (0, Assoc.remove m k)
    | None => (-2, m)
    end;
  store_elem K V _ m k v := Assoc.store m k v |}.

Lemma assoc_delete_lookup {K V} `{EqDecision K} (m : list (K * V)) k j :
  Assoc.lookup (match Assoc.lookup m k with
                | Some _ => (0, Assoc.remove m k) | None => (-2, m) end).2 j =
    if decide (j = k) then None else Assoc.lookup m j.
Proof.
  destruct (Assoc.lookup m k) eqn:E; simpl; [apply Assoc.lookup_remove|].
  case_decide; by subst.
Qed.

Lemma assoc_delete_rc {K V} `{EqDecision K} (m : list (K * V)) k :
  (match Assoc.lookup m k with
   | Some _ => (0, Assoc.remove m k) | None => (-2, m) end).1 = 0 <->
  is_Some (Assoc.lookup m k).
Proof. destruct (Assoc.lookup m k); simpl; split; first [done | by eauto | by intros [? ?]]. Qed.

#[export] Instance hash_ops_laws cap : BpfHashMap (hash_ops cap).
Proof.
  split; [split|]; intros; simpl in *.
  - done.
  - apply assoc_delete_rc.
  - apply assoc_delete_lookup.
  - destruct (Assoc.lookup m k); simpl in *; [by rewrite decide_True|].
    case_decide; simpl in *; [by rewrite decide_True|lia].
  - destruct (Assoc.lookup m k); simpl in *; [done|]. by case_decide.
  - destruct (Assoc.lookup m k) eqn:E; simpl in *.
    + revert H0. rewrite Assoc.lookup_remove. by repeat case_decide.
    + case_decide; simpl in *; [|done]. by repeat case_decide.
  - apply Assoc.lookup_store.
  - destruct (Assoc.lookup m k) eqn:E; simpl in *.
    + rewrite decide_False, Assoc.lookup_remove, decide_False by done. done.
    + case_decide; simpl in *; [|done]. by rewrite decide_False.
Qed.

#[export] Instance lru_ops_laws cap : BpfMap (lru_ops cap).
Proof.
  split; intros; simpl in *.
  - done.
  - apply assoc_delete_rc.
  - apply assoc_delete_lookup.
  - by rewrite decide_True.
  - done.
  - rewrite decide_False in * by done.
    match goal with H : _ = Some _ |- _ => apply Assoc.lookup_take in H; revert H end.
    rewrite Assoc.lookup_remove. by rewrite decide_False.
  - apply Assoc.lookup_store.
Qed.
