(* ===== verification/BpfCommon.v ===== *)
(** * BpfCommon : the data and helpers the eBPF programs share.

    [common/gy_ebpf_bpf_common.h] (tuples, [read_ipv4_tuple], [read_ipv6_tuple],
    [check_family], [is_ipv4_mapped_ipv6]) and [common/gy_ebpf_kernel.h] (the
    events sent to user space).  The target is little-endian: a 128-bit address
    read from the kernel has its first byte in bits 0-7. *)
From S2P Require Import Prelude.

(** ** The kernel's view

    [sock] is what the programs read of a [struct sock] (as [inet_sock] and
    [tcp_sock] too) with [BPF_CORE_READ].  [skc_net_inum] is [None] when the
    running kernel has no field [skc_net] ([bpf_core_field_exists]). *)
Record sock := Sock {
  skc_state : Z; skc_family : Z;
  skc_rcv_saddr : Z; skc_daddr : Z;
  inet_sport : Z; skc_dport : Z; skc_num : Z;
  skc_net_inum : option Z;
  skc_v6_rcv_saddr : Z; skc_v6_daddr : Z;
  bytes_received : Z; bytes_acked : Z; sk_max_ack_backlog : Z;
  lrcvtime : Z; rcv_tstamp : Z; lsndtime : Z }.

(** What the helpers return while a program runs: [bpf_get_current_pid_tgid],
    [bpf_get_current_comm], [bpf_ktime_get_ns], and the kernel memory behind the
    pointers the program is given ([struct sock *], [struct socket *], of which
    the member [sk] is read, and [struct task_struct *], of which [tgid] and [pid]
    are read). *)
Record env := Env {
  cur_pid_tgid : Z;
  cur_comm : list Z;
  ktime_ns : Z;
  kmem : Z -> sock;
  ksocket_sk : Z -> Z;
  ktask_tgid : Z -> Z;
  ktask_pid : Z -> Z }.

Definition AF_INET : Z := 2.
Definition AF_INET6 : Z := 10.
Definition TASK_COMM_LEN : nat := 16.
Definition ENABLE_PERF_PROBE : Z := 100.

(** Constants of the kernel's [enum tcp_state]. *)
Definition TCP_ESTABLISHED : Z := 1.
Definition TCP_SYN_SENT : Z := 2.
Definition TCP_SYN_RECV : Z := 3.
Definition TCP_CLOSE : Z := 7.
Definition TCP_NEW_SYN_RECV : Z := 12.

(** The widths of the fields of a [struct sock]. *)
Definition sock_wf (sk : sock) : Prop :=
  in_width 8 (skc_state sk) /\ in_width 16 (skc_family sk) /\
  in_width 32 (skc_rcv_saddr sk) /\ in_width 32 (skc_daddr sk) /\
  in_width 16 (inet_sport sk) /\ in_width 16 (skc_dport sk) /\
  in_width 16 (skc_num sk) /\ in_width 32 (default 0 (skc_net_inum sk)) /\
  in_width 128 (skc_v6_rcv_saddr sk) /\ in_width 128 (skc_v6_daddr sk) /\
  in_width 64 (bytes_received sk) /\ in_width 64 (bytes_acked sk) /\
  in_width 32 (sk_max_ack_backlog sk) /\ in_width 32 (lrcvtime sk) /\
  in_width 32 (rcv_tstamp sk) /\ in_width 32 (lsndtime sk).

(** A command name as [bpf_get_current_comm] fills it: 16 bytes, the last one
    a NUL. *)
Definition comm_wf (c : list Z) : Prop :=
  length c = TASK_COMM_LEN /\ c !! 15%nat = Some 0.

Definition env_wf (e : env) : Prop :=
  in_width 64 (cur_pid_tgid e) /\ in_width 64 (ktime_ns e) /\
  comm_wf (cur_comm e) /\ forall p, sock_wf (kmem e p).

(** ** Tuples *)
Record ipv4_tuple_t := Ipv4Tuple {
  t4_saddr : Z; t4_daddr : Z; t4_netns : Z; t4_sport : Z; t4_dport : Z }.

Record ipv6_tuple_t := Ipv6Tuple {
  t6_saddr : Z; t6_daddr : Z; t6_netns : Z; t6_sport : Z; t6_dport : Z }.

#[export] Instance ipv4_tuple_eq_dec : EqDecision ipv4_tuple_t.
Proof. solve_decision. Defined.
#[export] Instance ipv6_tuple_eq_dec : EqDecision ipv6_tuple_t.
Proof. solve_decision. Defined.

(** The namespace number, 0 when the kernel has no [skc_net]. *)
Definition read_netns (sk : sock) : Z := default 0 (skc_net_inum sk).

(** Fills the whole tuple, and returns [false] when an address or a port is 0. *)
Definition read_ipv4_tuple (sk : sock) : ipv4_tuple_t * bool :=
  let saddr := skc_rcv_saddr sk in
  let daddr := skc_daddr sk in
  let sport := inet_sport sk in
  let dport := skc_dport sk in
  let tuple := Ipv4Tuple saddr daddr (read_netns sk) sport dport in
  if (saddr =? 0) || (daddr =? 0) || (sport =? 0) || (dport =? 0)
  then (tuple, false) else (tuple, true).

Definition read_ipv6_tuple (sk : sock) : ipv6_tuple_t * bool :=
  let sport := inet_sport sk in
  let dport := skc_dport sk in
  let tuple := Ipv6Tuple (skc_v6_rcv_saddr sk) (skc_v6_daddr sk) (read_netns sk) sport dport in
  if (t6_saddr tuple =? 0) || (t6_daddr tuple =? 0) || (sport =? 0) || (dport =? 0)
  then (tuple, false) else (tuple, true).

Definition check_family (sk : sock) (expected_family : Z) : bool :=
  skc_family sk =? expected_family.

(** [::ffff:a.b.c.d]: the first 8 bytes are 0 and bytes 8 to 11 are 0 0 ff ff. *)
Definition is_ipv4_mapped_ipv6 (ip128_be : Z) : bool :=
  (Z.land ip128_be (2 ^ 64 - 1) =? 0) &&
  ((byte_of ip128_be 8 =? 0) && (byte_of ip128_be 9 =? 0) &&
   (byte_of ip128_be 10 =? 255) && (byte_of ip128_be 11 =? 255)).

(** [__builtin_memcpy(&v4, (u8 * )&ip + 12, 4)]. *)
Definition last4 (ip128_be : Z) : Z := Z.land (Z.shiftr ip128_be 96) (2 ^ 32 - 1).

(** The IPv4 tuple of an IPv4-mapped IPv6 tuple, as three of the programs
    build it. *)
Definition t4_of_t6 (t : ipv6_tuple_t) : ipv4_tuple_t :=
  Ipv4Tuple (last4 (t6_saddr t)) (last4 (t6_daddr t)) (t6_netns t) (t6_sport t) (t6_dport t).

Definition align_up_8 (nsize : Z) : Z :=
  wrap 64 (Z.land (wrap 64 (nsize - 1)) (2 ^ 64 - 8) + 8).

#[global] Arguments is_ipv4_mapped_ipv6 : simpl never.
#[global] Arguments last4 : simpl never.
#[global] Arguments align_up_8 : simpl never.

(** The thread group and the thread of a [bpf_get_current_pid_tgid] value. *)
Definition pid_of (pidtid : Z) : Z := u32 (Z.shiftr pidtid 32).
Definition tid_of (pidtid : Z) : Z := Z.land pidtid (2 ^ 32 - 1).

#[global] Arguments pid_of : simpl never.
#[global] Arguments tid_of : simpl never.

(** ** Events *)
Definition TCP_EVENT_TYPE_CONNECT : Z := 1.
Definition TCP_EVENT_TYPE_ACCEPT : Z := 2.
Definition TCP_EVENT_TYPE_CLOSE_CLI : Z := 3.
Definition TCP_EVENT_TYPE_CLOSE_SER : Z := 4.

(** [struct tcp_ipv4_event_t] and [struct tcp_ipv6_event_t] have the same
    members; the addresses are 32-bit in one and 128-bit in the other. *)
Record tcp_event_t := TcpEvent {
  ev_ts_ns : Z; ev_bytes_received : Z; ev_bytes_acked : Z;
  ev_pid : Z; ev_tid : Z; ev_comm : list Z;
  ev_saddr : Z; ev_daddr : Z; ev_netns : Z; ev_sport : Z; ev_dport : Z;
  ev_ipver : Z; ev_type : Z }.

Record pid_comm_t := PidComm { pc_pid_tid : Z; pc_comm : list Z }.

Record create_ns_data_t := CreateNsData {
  ns_ts_ns : Z; ns_flags : Z; ns_pid : Z; ns_tid : Z; ns_comm : list Z }.

(** The union [addr] is its 128 bits. *)
Record tcp_listener_event_t := TcpListenerEvent {
  le_ts_ns : Z; le_pid : Z; le_tid : Z; le_comm : list Z;
  le_addr : Z; le_netns : Z; le_backlog : Z; le_lport : Z; le_ipver : Z }.

Record tcp_ipv4_resp_event_t := TcpIpv4Resp {
  r4_tup : ipv4_tuple_t; r4_lsndtime : Z; r4_lrcvtime : Z }.

Record tcp_ipv6_resp_event_t := TcpIpv6Resp {
  r6_tup : ipv6_tuple_t; r6_lsndtime : Z; r6_lrcvtime : Z }.

Record cgroup_migrate_event_t := CgroupMigrate {
  cg_pid : Z; cg_tid : Z; cg_threadgroup : bool }.

(** ** Facts *)

Lemma land_pow2_sub1 z n : 0 <= n -> Z.land z (2 ^ n - 1) = z mod 2 ^ n.
Proof.
  intros. rewrite <- Z.land_ones by done. f_equal. rewrite Z.ones_equiv. lia.
Qed.

Lemma byte_of_div z i : 0 <= i -> byte_of z i = z / 2 ^ (8 * i) mod 256.
Proof.
  intros. unfold byte_of. rewrite Z.shiftr_div_pow2 by lia.
  by rewrite (land_pow2_sub1 _ 8).
Qed.

Lemma last4_div z : last4 z = z / 2 ^ 96 mod 2 ^ 32.
Proof. unfold last4. rewrite land_pow2_sub1, Z.shiftr_div_pow2; lia. Qed.

(** [::ffff:a] as a little-endian host reads it. *)
Definition v4_mapped (a : Z) : Z := 65535 * 2 ^ 80 + a * 2 ^ 96.

Lemma is_ipv4_mapped_spec ip :
  in_width 128 ip -> is_ipv4_mapped_ipv6 ip = true <-> ip = v4_mapped (last4 ip).
Proof.
  unfold in_width, is_ipv4_mapped_ipv6, v4_mapped. intros Hw.
  rewrite last4_div, land_pow2_sub1, !byte_of_div by lia.
  rewrite !andb_true_iff, !Z.eqb_eq.
  replace (ip / 2 ^ (8 * 9)) with (ip / 2 ^ 64 / 2 ^ 8) by (rewrite Z.div_div; done).
  replace (ip / 2 ^ (8 * 10)) with (ip / 2 ^ 64 / 2 ^ 16) by (rewrite Z.div_div; done).
  replace (ip / 2 ^ (8 * 11)) with (ip / 2 ^ 64 / 2 ^ 24) by (rewrite Z.div_div; done).
  replace (ip / 2 ^ 96) with (ip / 2 ^ 64 / 2 ^ 32) by (rewrite Z.div_div; done).
  change (8 * 8) with 64.
  pose proof (Z.div_mod ip (2 ^ 64) ltac:(done)) as E.
  pose proof (Z.mod_pos_bound ip (2 ^ 64) ltac:(done)) as B.
  remember (ip / 2 ^ 64) as q. remember (ip mod 2 ^ 64) as r.
  change (2 ^ 80) with (65536 * 2 ^ 64). change (2 ^ 96) with (2 ^ 32 * 2 ^ 64).
  change (2 ^ 128) with (2 ^ 64 * 2 ^ 64) in *.
  assert (0 <= q < 2 ^ 64) by nia.
  change (2 ^ 64) with 18446744073709551616 in *.
  clear Heqq Heqr. change (2 ^ 8) with 256. change (2 ^ 16) with 65536.
  change (2 ^ 24) with 16777216. change (2 ^ 32) with 4294967296.
  split.
  - intros (-> & [[Hb8 Hb9] Hb10] & Hb11). zdiv.
  - intros Hip. assert (r = 0) as -> by zdiv.
    assert (q = 65535 * 65536 + 4294967296 * (q / 4294967296)) as Hq by zdiv.
    clear E Hip. repeat split; zdiv.
Qed.

Lemma last4_v4_mapped a : in_width 32 a -> last4 (v4_mapped a) = a.
Proof.
  unfold in_width, v4_mapped. rewrite last4_div. intros.
  rewrite Z.div_add by done. rewrite Z.div_small by done. by rewrite Z.mod_small.
Qed.

Lemma last4_range ip : in_width 32 (last4 ip).
Proof. rewrite last4_div. apply Z.mod_pos_bound. done. Qed.

Lemma pid_of_range p : in_width 32 (pid_of p).
Proof. by apply wrap_range. Qed.

Lemma tid_of_range p : in_width 32 (tid_of p).
Proof. unfold tid_of. rewrite land_pow2_sub1 by done. by apply wrap_range. Qed.

#[export] Hint Resolve last4_range pid_of_range tid_of_range : gy.

Lemma read_ipv4_tuple_true sk t :
  read_ipv4_tuple sk = (t, true) ->
  t = Ipv4Tuple (skc_rcv_saddr sk) (skc_daddr sk) (read_netns sk) (inet_sport sk) (skc_dport sk) /\
  t4_saddr t <> 0 /\ t4_daddr t <> 0 /\ t4_sport t <> 0 /\ t4_dport t <> 0.
Proof. unfold read_ipv4_tuple. intros H. case_ifs_in H. breflect. by simplify_eq/=. Qed.

Lemma read_ipv6_tuple_true sk t :
  read_ipv6_tuple sk = (t, true) ->
  t = Ipv6Tuple (skc_v6_rcv_saddr sk) (skc_v6_daddr sk) (read_netns sk) (inet_sport sk) (skc_dport sk) /\
  t6_saddr t <> 0 /\ t6_daddr t <> 0 /\ t6_sport t <> 0 /\ t6_dport t <> 0.
Proof. unfold read_ipv6_tuple. intros H. case_ifs_in H. breflect. by simplify_eq/=. Qed.

Lemma align_up_8_spec n :
  0 < n -> n + 7 < 2 ^ 64 ->
  n <= align_up_8 n < n + 8 /\ align_up_8 n mod 8 = 0.
Proof.
  intros H1 H2. unfold align_up_8.
  assert (in_width 64 (n - 1)) by (unfold in_width; lia).
  rewrite (wrap_id 64 (n - 1)) by done.
  replace (Z.land (n - 1) (2 ^ 64 - 8)) with ((n - 1) / 8 * 8).
  - rewrite wrap_id; [zdiv|]. unfold in_width. zdiv.
  - replace (2 ^ 64 - 8) with (Z.shiftl (Z.ones 61) 3) by done.
    apply Z.bits_inj'. intros i Hi.
    rewrite Z.land_spec. change 8 with (2 ^ 3).
    rewrite <- Z.shiftr_div_pow2, <- Z.shiftl_mul_pow2 by lia.
    destruct (Z.ltb_spec i 3).
    + rewrite !Z.shiftl_spec_low by done. by rewrite andb_false_r.
    + rewrite !Z.shiftl_spec_high, Z.shiftr_spec by lia.
      replace (i - 3 + 3) with i by lia.
      destruct (Z.ltb_spec (i - 3) 61).
      * rewrite Z.ones_spec_low by lia. by rewrite andb_true_r.
      * rewrite Z.ones_spec_high by lia. rewrite andb_false_r.
        apply Z.bits_above_log2; [lia|].
        destruct (Z.eq_dec (n - 1) 0) as [->|]; [simpl; lia|].
        apply Z.log2_lt_pow2; [lia|]. apply Z.lt_le_trans with (2 ^ 64); [lia|].
        apply Z.pow_le_mono_r; lia.
Qed.
