(* ===== verification/TcpTrace.v ===== *)
(** * TcpTrace : the TCP tracing programs, [partha/gy_ebpf_kernel.bpf.c].

    A program is a function of the environment its helpers observe ([env]), its
    arguments and the state of the program's maps ([tcp_st]) to the next state.
    The perf event arrays are the list of records output so far, newest last.
    All the probes are in [probe]/[run_probe], whose reachable states
    ([reachable]) carry the invariant. *)
From S2P Require Import Prelude BpfMap BpfCommon.

(** A record sent with [bpf_perf_event_output], by the array it is sent to. *)
Inductive perf_event :=
| Tcp_ipv4_event (e : tcp_event_t)
| Tcp_ipv6_event (e : tcp_event_t)
| Tcp_listener_event (e : tcp_listener_event_t)
| Ipv4_xmit_perf (e : tcp_ipv4_resp_event_t)
| Ipv6_xmit_perf (e : tcp_ipv6_resp_event_t)
| Create_ns_event (e : create_ns_data_t)
| Cgroup_migrate_event (e : cgroup_migrate_event_t).

Definition CLONE_NEWNS : Z := 0x00020000.
Definition CLONE_NEWUTS : Z := 0x04000000.
Definition CLONE_NEWIPC : Z := 0x08000000.
Definition CLONE_NEWPID : Z := 0x20000000.
Definition CLONE_NEWNET : Z := 0x40000000.
Definition CLONE_NEWCGROUP : Z := 0x02000000.

Section TcpTrace.
Context {ops : BpfMapOps}.

(** The maps.  [config_tcp_response] is the current CPU's element 0 of the
    one-element array of that name. *)
Record tcp_st := TcpSt {
  connectsock : bmap Z Z;
  connectsock_ipv6 : bmap Z Z;
  tuplepid_ipv4 : bmap ipv4_tuple_t pid_comm_t;
  tuplepid_ipv6 : bmap ipv6_tuple_t pid_comm_t;
  config_tcp_response : option Z;
  perf : list perf_event }.

Definition tcp_init (config : option Z) : tcp_st :=
  TcpSt empty_map empty_map empty_map empty_map config [].

Definition set_connectsock m (s : tcp_st) : tcp_st :=
  TcpSt m (connectsock_ipv6 s) (tuplepid_ipv4 s) (tuplepid_ipv6 s) (config_tcp_response s) (perf s).
Definition set_connectsock_ipv6 m (s : tcp_st) : tcp_st :=
  TcpSt (connectsock s) m (tuplepid_ipv4 s) (tuplepid_ipv6 s) (config_tcp_response s) (perf s).
Definition set_tuplepid_ipv4 m (s : tcp_st) : tcp_st :=
  TcpSt (connectsock s) (connectsock_ipv6 s) m (tuplepid_ipv6 s) (config_tcp_response s) (perf s).
Definition set_tuplepid_ipv6 m (s : tcp_st) : tcp_st :=
  TcpSt (connectsock s) (connectsock_ipv6 s) (tuplepid_ipv4 s) m (config_tcp_response s) (perf s).
Definition perf_output (e : perf_event) (s : tcp_st) : tcp_st :=
  TcpSt (connectsock s) (connectsock_ipv6 s) (tuplepid_ipv4 s) (tuplepid_ipv6 s)
    (config_tcp_response s) (perf s ++ [e]).

(** ** connect *)

Definition trace_connect_v4_entry (e : env) (sk : Z) (s : tcp_st) : tcp_st :=
  let pid := cur_pid_tgid e in
  set_connectsock (map_update (connectsock s) pid sk) s.

Definition do_trace_connect_v4_return (e : env) (ret sk pid : Z) (s : tcp_st) : tcp_st :=
  let '(t, ok) := read_ipv4_tuple (kmem e sk) in
  if negb ok then s else
  let p := PidComm pid (cur_comm e) in
  set_tuplepid_ipv4 (map_update (tuplepid_ipv4 s) t p) s.

Definition trace_connect_v4_return (e : env) (ret : Z) (s : tcp_st) : tcp_st :=
  let pid := cur_pid_tgid e in
  match lookup_elem (connectsock s) pid with
  | None => s
  | Some sk =>
      let s := set_connectsock (map_delete (connectsock s) pid) s in
      if negb (ret =? 0) then s else do_trace_connect_v4_return e ret sk pid s
  end.

Definition fexit_trace_connect_v4_return (e : env) (sk ret : Z) (s : tcp_st) : tcp_st :=
  let pid := cur_pid_tgid e in
  if sk =? 0 then s else do_trace_connect_v4_return e ret sk pid s.

Definition trace_connect_v6_entry (e : env) (sk : Z) (s : tcp_st) : tcp_st :=
  let pid := cur_pid_tgid e in
  set_connectsock_ipv6 (map_update (connectsock_ipv6 s) pid sk) s.

Definition do_trace_connect_v6_return (e : env) (ret sk pid : Z) (s : tcp_st) : tcp_st :=
  let '(t, ok) := read_ipv6_tuple (kmem e sk) in
  if negb ok then s else
  let p := PidComm pid (cur_comm e) in
  if is_ipv4_mapped_ipv6 (t6_saddr t) || is_ipv4_mapped_ipv6 (t6_daddr t) then
    set_tuplepid_ipv4 (map_update (tuplepid_ipv4 s) (t4_of_t6 t) p) s
  else
    set_tuplepid_ipv6 (map_update (tuplepid_ipv6 s) t p) s.

Definition trace_connect_v6_return (e : env) (ret : Z) (s : tcp_st) : tcp_st :=
  let pid := cur_pid_tgid e in
  match lookup_elem (connectsock_ipv6 s) pid with
  | None => s
  | Some sk =>
      let s := set_connectsock_ipv6 (map_delete (connectsock_ipv6 s) pid) s in
      if negb (ret =? 0) then s else do_trace_connect_v6_return e ret sk pid s
  end.

Definition fexit_trace_connect_v6_return (e : env) (sk ret : Z) (s : tcp_st) : tcp_st :=
  let pid := cur_pid_tgid e in
  if sk =? 0 then s else do_trace_connect_v6_return e ret sk pid s.

(** ** tcp_set_state *)

(** The event of a connection that becomes established, from the entry the
    connect programs left. *)
Definition connect_event (e : env) (pid_tid : Z) (comm : list Z)
    (saddr daddr netns sport dport ipver : Z) : tcp_event_t := {|
  ev_ts_ns := ktime_ns e; ev_bytes_received := 0; ev_bytes_acked := 0;
  ev_pid := pid_of pid_tid; ev_tid := tid_of pid_tid;
  ev_comm := <[15%nat := 0]> comm;
  ev_saddr := saddr; ev_daddr := daddr; ev_netns := netns;
  ev_sport := bswap16 sport; ev_dport := bswap16 dport;
  ev_ipver := ipver; ev_type := TCP_EVENT_TYPE_CONNECT |}.

Definition set_state_ipv4 (e : env) (sk : sock) (state : Z) (s : tcp_st) : tcp_st :=
  let '(t, ok) := read_ipv4_tuple sk in
  if negb ok then s else
  if state =? TCP_CLOSE then set_tuplepid_ipv4 (map_delete (tuplepid_ipv4 s) t) s else
  match lookup_elem (tuplepid_ipv4 s) t with
  | None => s
  | Some p =>
      let evt4 := connect_event e (pc_pid_tid p) (pc_comm p)
        (t4_saddr t) (t4_daddr t) (t4_netns t) (t4_sport t) (t4_dport t) 4 in
      let s := perf_output (Tcp_ipv4_event evt4) s in
      set_tuplepid_ipv4 (map_delete (tuplepid_ipv4 s) t) s
  end.

Definition set_state_ipv6 (e : env) (sk : sock) (state : Z) (s : tcp_st) : tcp_st :=
  let '(t, ok) := read_ipv6_tuple sk in
  if negb ok then s else
  if state =? TCP_CLOSE then set_tuplepid_ipv6 (map_delete (tuplepid_ipv6 s) t) s else
  let evt6 p := Tcp_ipv6_event (connect_event e (pc_pid_tid p) (pc_comm p)
    (t6_saddr t) (t6_daddr t) (t6_netns t) (t6_sport t) (t6_dport t) 6) in
  match lookup_elem (tuplepid_ipv6 s) t with
  | None =>
      if is_ipv4_mapped_ipv6 (t6_saddr t) || is_ipv4_mapped_ipv6 (t6_daddr t) then
        let t4 := t4_of_t6 t in
        match lookup_elem (tuplepid_ipv4 s) t4 with
        | Some p =>
            let s := set_tuplepid_ipv4 (map_delete (tuplepid_ipv4 s) t4) s in
            perf_output (evt6 p) s
        | None => s
        end
      else s
  | Some p =>
      let s := set_tuplepid_ipv6 (map_delete (tuplepid_ipv6 s) t) s in
      perf_output (evt6 p) s
  end.

Definition do_trace_tcp_set_state_entry (e : env) (skp state : Z) (s : tcp_st) : tcp_st :=
  if negb (state =? TCP_ESTABLISHED) && negb (state =? TCP_CLOSE) then s else
  let sk := kmem e skp in
  let oldstate := skc_state sk in
  if (oldstate =? TCP_SYN_RECV) || (oldstate =? TCP_NEW_SYN_RECV) then s else
  let family := skc_family sk in
  if family =? AF_INET then set_state_ipv4 e sk state s
  else if family =? AF_INET6 then set_state_ipv6 e sk state s
  else s.

Definition trace_tcp_set_state_entry (e : env) (sk state : Z) (s : tcp_st) : tcp_st :=
  do_trace_tcp_set_state_entry e sk state s.

Definition fentry_trace_tcp_set_state_entry (e : env) (sk state : Z) (s : tcp_st) : tcp_st :=
  do_trace_tcp_set_state_entry e sk state s.

(** ** tcp_close *)

Definition close_event (e : env) (sk : sock)
    (saddr daddr netns sport dport ipver : Z) : tcp_event_t := {|
  ev_ts_ns := ktime_ns e;
  ev_bytes_received := bytes_received sk; ev_bytes_acked := bytes_acked sk;
  ev_pid := pid_of (cur_pid_tgid e); ev_tid := tid_of (cur_pid_tgid e);
  ev_comm := cur_comm e;
  ev_saddr := saddr; ev_daddr := daddr; ev_netns := netns;
  ev_sport := bswap16 sport; ev_dport := bswap16 dport;
  ev_ipver := ipver;
  ev_type := if sk_max_ack_backlog sk >? 0 then TCP_EVENT_TYPE_CLOSE_SER
             else TCP_EVENT_TYPE_CLOSE_CLI |}.

(** An IPv4 event whose addresses and ports are all different from 0. *)
Definition evt4_nonzero (evt4 : tcp_event_t) : bool :=
  negb (ev_saddr evt4 =? 0) && negb (ev_daddr evt4 =? 0) &&
  negb (ev_sport evt4 =? 0) && negb (ev_dport evt4 =? 0).

Definition close_ipv4 (e : env) (sk : sock) (s : tcp_st) : tcp_st :=
  let '(t, ok) := read_ipv4_tuple sk in
  if negb ok then set_tuplepid_ipv4 (map_delete (tuplepid_ipv4 s) t) s else
  perf_output (Tcp_ipv4_event (close_event e sk
    (t4_saddr t) (t4_daddr t) (t4_netns t) (t4_sport t) (t4_dport t) 4)) s.

Definition close_ipv6 (e : env) (sk : sock) (s : tcp_st) : tcp_st :=
  let '(t, ok) := read_ipv6_tuple sk in
  if negb ok then set_tuplepid_ipv6 (map_delete (tuplepid_ipv6 s) t) s else
  if is_ipv4_mapped_ipv6 (t6_saddr t) || is_ipv4_mapped_ipv6 (t6_daddr t) then
    let t4 := t4_of_t6 t in
    let evt4 := close_event e sk
      (t4_saddr t4) (t4_daddr t4) (t4_netns t4) (t4_sport t4) (t4_dport t4) 4 in
    if evt4_nonzero evt4 then perf_output (Tcp_ipv4_event evt4) s else s
  else
    perf_output (Tcp_ipv6_event (close_event e sk
      (t6_saddr t) (t6_daddr t) (t6_netns t) (t6_sport t) (t6_dport t) 6)) s.

Definition do_trace_close_entry (e : env) (skp : Z) (s : tcp_st) : tcp_st :=
  let sk := kmem e skp in
  let oldstate := skc_state sk in
  if (oldstate =? TCP_SYN_SENT) || (oldstate =? TCP_SYN_RECV) || (oldstate =? TCP_NEW_SYN_RECV)
  then s else
  let family := skc_family sk in
  if family =? AF_INET then close_ipv4 e sk s
  else if family =? AF_INET6 then close_ipv6 e sk s
  else s.

Definition trace_close_entry (e : env) (sk : Z) (s : tcp_st) : tcp_st :=
  do_trace_close_entry e sk s.

Definition fentry_trace_close_entry (e : env) (sk : Z) (s : tcp_st) : tcp_st :=
  do_trace_close_entry e sk s.

(** ** accept *)

Definition accept_event (e : env) (saddr daddr netns lport dport ipver : Z) : tcp_event_t := {|
  ev_ts_ns := ktime_ns e; ev_bytes_received := 0; ev_bytes_acked := 0;
  ev_pid := pid_of (cur_pid_tgid e); ev_tid := tid_of (cur_pid_tgid e);
  ev_comm := cur_comm e;
  ev_saddr := saddr; ev_daddr := daddr; ev_netns := netns;
  ev_sport := lport; ev_dport := bswap16 dport;
  ev_ipver := ipver; ev_type := TCP_EVENT_TYPE_ACCEPT |}.

Definition do_trace_accept_return (e : env) (newskp : Z) (s : tcp_st) : tcp_st :=
  if newskp =? 0 then s else
  let newsk := kmem e newskp in
  let dport := skc_dport newsk in
  let lport := skc_num newsk in
  let net_ns_inum := read_netns newsk in
  let family := skc_family newsk in
  if family =? AF_INET then
    let evt4 := accept_event e (skc_rcv_saddr newsk) (skc_daddr newsk) net_ns_inum lport dport 4 in
    if evt4_nonzero evt4 then perf_output (Tcp_ipv4_event evt4) s else s
  else if family =? AF_INET6 then
    let evt6 := accept_event e (skc_v6_rcv_saddr newsk) (skc_v6_daddr newsk) net_ns_inum lport dport 6 in
    if is_ipv4_mapped_ipv6 (ev_saddr evt6) || is_ipv4_mapped_ipv6 (ev_daddr evt6) then
      let evt4 := {|
        ev_ts_ns := ev_ts_ns evt6; ev_bytes_received := 0; ev_bytes_acked := 0;
        ev_pid := ev_pid evt6; ev_tid := ev_tid evt6; ev_comm := ev_comm evt6;
        ev_saddr := last4 (ev_saddr evt6); ev_daddr := last4 (ev_daddr evt6);
        ev_netns := ev_netns evt6; ev_sport := ev_sport evt6; ev_dport := ev_dport evt6;
        ev_ipver := 4; ev_type := ev_type evt6 |} in
      if evt4_nonzero evt4 then perf_output (Tcp_ipv4_event evt4) s else s
    else
      if evt4_nonzero evt6 then perf_output (Tcp_ipv6_event evt6) s else s
  else s.

Definition trace_accept_return (e : env) (newsk : Z) (s : tcp_st) : tcp_st :=
  do_trace_accept_return e newsk s.

Definition fexit_trace_accept_return (e : env) (newsk : Z) (s : tcp_st) : tcp_st :=
  do_trace_accept_return e newsk s.

(** ** Namespaces, listeners, cgroups *)

Definition trace_create_ns (e : env) (flags : Z) (s : tcp_st) : tcp_st :=
  if Z.land flags (Z.lor CLONE_NEWNS (Z.lor CLONE_NEWUTS (Z.lor CLONE_NEWIPC
       (Z.lor CLONE_NEWPID (Z.lor CLONE_NEWNET CLONE_NEWCGROUP))))) =? 0 then s else
  let pid := cur_pid_tgid e in
  perf_output (Create_ns_event {|
    ns_ts_ns := ktime_ns e; ns_flags := flags;
    ns_pid := pid_of pid; ns_tid := tid_of pid; ns_comm := cur_comm e |}) s.

Definition trace_inet_listen (e : env) (sockp backlog : Z) (s : tcp_st) : tcp_st :=
  let sk := kmem e (ksocket_sk e sockp) in
  let family := skc_family sk in
  let pid := cur_pid_tgid e in
  let evt ipver addr := {|
    le_ts_ns := ktime_ns e; le_pid := pid_of pid; le_tid := tid_of pid;
    le_comm := cur_comm e; le_addr := addr; le_netns := read_netns sk;
    le_backlog := u32 backlog; le_lport := bswap16 (inet_sport sk); le_ipver := ipver |} in
  if family =? AF_INET then
    perf_output (Tcp_listener_event (evt 4 (skc_rcv_saddr sk))) s
  else if family =? AF_INET6 then
    perf_output (Tcp_listener_event (evt 6 (skc_v6_rcv_saddr sk))) s
  else s.

Definition trace_cgroup_migrate (e : env) (task : Z) (threadgroup : bool) (s : tcp_st) : tcp_st :=
  perf_output (Cgroup_migrate_event {|
    cg_pid := u32 (ktask_tgid e task); cg_tid := u32 (ktask_pid e task);
    cg_threadgroup := threadgroup |}) s.

(** ** Response times *)

(** The tests both xmit programs make before they read the tuple: a server side
    socket of the right family that received data, and sends now after it
    received, with the probe enabled. *)
Definition xmit_filter (sk : sock) (family : Z) (config : option Z) : bool :=
  if bytes_received sk =? 0 then false else
  if sk_max_ack_backlog sk =? 0 then false else
  if negb (check_family sk family) then false else
  if u32 (lrcvtime sk + 10) <? rcv_tstamp sk then false else
  if lsndtime sk <? lrcvtime sk then false else
  match config with
  | Some to_enable => ENABLE_PERF_PROBE =? to_enable
  | None => true
  end.

Definition do_trace_ipv4_xmit (e : env) (skp : Z) (s : tcp_st) : tcp_st :=
  let sk := kmem e skp in
  if negb (xmit_filter sk AF_INET (config_tcp_response s)) then s else
  let '(tup, ok) := read_ipv4_tuple sk in
  if negb ok then s else
  perf_output (Ipv4_xmit_perf (TcpIpv4Resp tup (lsndtime sk) (lrcvtime sk))) s.

Definition trace_ipv4_xmit (e : env) (sk : Z) (s : tcp_st) : tcp_st := do_trace_ipv4_xmit e sk s.
Definition fentry_trace_ipv4_xmit (e : env) (sk : Z) (s : tcp_st) : tcp_st := do_trace_ipv4_xmit e sk s.

Definition do_trace_ipv6_xmit (e : env) (skp : Z) (s : tcp_st) : tcp_st :=
  let sk := kmem e skp in
  if negb (xmit_filter sk AF_INET6 (config_tcp_response s)) then s else
  let '(tup, ok) := read_ipv6_tuple sk in
  if negb ok then s else
  if is_ipv4_mapped_ipv6 (t6_saddr tup) || is_ipv4_mapped_ipv6 (t6_daddr tup) then
    let tup4 := (read_ipv4_tuple sk).1 in
    let tup4 := Ipv4Tuple (last4 (t6_saddr tup)) (last4 (t6_daddr tup))
      (t4_netns tup4) (t4_sport tup4) (t4_dport tup4) in
    perf_output (Ipv4_xmit_perf (TcpIpv4Resp tup4 (lsndtime sk) (lrcvtime sk))) s
  else
    perf_output (Ipv6_xmit_perf (TcpIpv6Resp tup (lsndtime sk) (lrcvtime sk))) s.

Definition trace_ipv6_xmit (e : env) (sk : Z) (s : tcp_st) : tcp_st := do_trace_ipv6_xmit e sk s.
Definition fentry_trace_ipv6_xmit (e : env) (sk : Z) (s : tcp_st) : tcp_st := do_trace_ipv6_xmit e sk s.

(** ** The programs together *)
Inductive probe :=
| P_connect_v4_entry (sk : Z) | P_connect_v4_return (ret : Z)
| P_fexit_connect_v4_return (sk ret : Z)
| P_connect_v6_entry (sk : Z) | P_connect_v6_return (ret : Z)
| P_fexit_connect_v6_return (sk ret : Z)
| P_set_state (sk state : Z) | P_fentry_set_state (sk state : Z)
| P_close (sk : Z) | P_fentry_close (sk : Z)
| P_accept (newsk : Z) | P_fexit_accept (newsk : Z)
| P_create_ns (flags : Z) | P_inet_listen (sock backlog : Z)
| P_ipv4_xmit (sk : Z) | P_fentry_ipv4_xmit (sk : Z)
| P_ipv6_xmit (sk : Z) | P_fentry_ipv6_xmit (sk : Z)
| P_cgroup_migrate (task : Z) (threadgroup : bool).

Definition run_probe (p : probe) (e : env) : tcp_st -> tcp_st :=
  match p with
  | P_connect_v4_entry sk => trace_connect_v4_entry e sk
  | P_connect_v4_return ret => trace_connect_v4_return e ret
  | P_fexit_connect_v4_return sk ret => fexit_trace_connect_v4_return e sk ret
  | P_connect_v6_entry sk => trace_connect_v6_entry e sk
  | P_connect_v6_return ret => trace_connect_v6_return e ret
  | P_fexit_connect_v6_return sk ret => fexit_trace_connect_v6_return e sk ret
  | P_set_state sk state => trace_tcp_set_state_entry e sk state
  | P_fentry_set_state sk state => fentry_trace_tcp_set_state_entry e sk state
  | P_close sk => trace_close_entry e sk
  | P_fentry_close sk => fentry_trace_close_entry e sk
  | P_accept newsk => trace_accept_return e newsk
  | P_fexit_accept newsk => fexit_trace_accept_return e newsk
  | P_create_ns flags => trace_create_ns e flags
  | P_inet_listen sock backlog => trace_inet_listen e sock backlog
  | P_ipv4_xmit sk => trace_ipv4_xmit e sk
  | P_fentry_ipv4_xmit sk => fentry_trace_ipv4_xmit e sk
  | P_ipv6_xmit sk => trace_ipv6_xmit e sk
  | P_fentry_ipv6_xmit sk => fentry_trace_ipv6_xmit e sk
  | P_cgroup_migrate task threadgroup => trace_cgroup_migrate e task threadgroup
  end.

(** The states that any sequence of probe hits leads to. *)
Inductive reachable : tcp_st -> Prop :=
| reach_init config : reachable (tcp_init config)
| reach_step s p e : reachable s -> env_wf e -> reachable (run_probe p e s).

End TcpTrace.

(** ** Well-formed records and states *)

Definition tcp_event_wf (addrw ipver : Z) (ev : tcp_event_t) : Prop :=
  in_width 64 (ev_ts_ns ev) /\ in_width 64 (ev_bytes_received ev) /\
  in_width 64 (ev_bytes_acked ev) /\ in_width 32 (ev_pid ev) /\ in_width 32 (ev_tid ev) /\
  comm_wf (ev_comm ev) /\
  in_width addrw (ev_saddr ev) /\ ev_saddr ev <> 0 /\
  in_width addrw (ev_daddr ev) /\ ev_daddr ev <> 0 /\ in_width 32 (ev_netns ev) /\
  in_width 16 (ev_sport ev) /\ ev_sport ev <> 0 /\
  in_width 16 (ev_dport ev) /\ ev_dport ev <> 0 /\
  ev_ipver ev = ipver /\ TCP_EVENT_TYPE_CONNECT <= ev_type ev <= TCP_EVENT_TYPE_CLOSE_SER.

(** Neither address is an IPv4-mapped one. *)
Definition unmapped (saddr daddr : Z) : Prop :=
  is_ipv4_mapped_ipv6 saddr = false /\ is_ipv4_mapped_ipv6 daddr = false.

Definition perf_event_wf (ev : perf_event) : Prop :=
  match ev with
  | Tcp_ipv4_event ev => tcp_event_wf 32 4 ev
  | Tcp_ipv6_event ev =>
      tcp_event_wf 128 6 ev /\
      (ev_type ev <> TCP_EVENT_TYPE_CONNECT -> unmapped (ev_saddr ev) (ev_daddr ev))
  | Tcp_listener_event ev =>
      comm_wf (le_comm ev) /\ in_width 16 (le_lport ev) /\
      (le_ipver ev = 4 /\ in_width 32 (le_addr ev) \/
       le_ipver ev = 6 /\ in_width 128 (le_addr ev))
  | Ipv4_xmit_perf ev =>
      t4_sport (r4_tup ev) <> 0 /\ t4_dport (r4_tup ev) <> 0 /\
      in_width 32 (t4_saddr (r4_tup ev)) /\ in_width 32 (t4_daddr (r4_tup ev)) /\
      r4_lrcvtime ev <= r4_lsndtime ev
  | Ipv6_xmit_perf ev =>
      t6_sport (r6_tup ev) <> 0 /\ t6_dport (r6_tup ev) <> 0 /\
      t6_saddr (r6_tup ev) <> 0 /\ t6_daddr (r6_tup ev) <> 0 /\
      unmapped (t6_saddr (r6_tup ev)) (t6_daddr (r6_tup ev)) /\
      r6_lrcvtime ev <= r6_lsndtime ev
  | Create_ns_event ev =>
      comm_wf (ns_comm ev) /\
      Exists (fun bit => Z.testbit (ns_flags ev) bit = true) [17; 25; 26; 27; 29; 30]
  | Cgroup_migrate_event ev => in_width 32 (cg_pid ev) /\ in_width 32 (cg_tid ev)
  end.

Definition pid_comm_wf (p : pid_comm_t) : Prop :=
  in_width 64 (pc_pid_tid p) /\ length (pc_comm p) = TASK_COMM_LEN.

Section Invariant.
Context {ops : BpfMapOps} {Hops : BpfMap ops}.

Definition tcp_inv (s : tcp_st) : Prop :=
  Forall perf_event_wf (perf s) /\
  (forall t p, lookup_elem (tuplepid_ipv4 s) t = Some p -> pid_comm_wf p) /\
  (forall t p, lookup_elem (tuplepid_ipv6 s) t = Some p -> pid_comm_wf p).

Lemma inv_init config : tcp_inv (tcp_init config).
Proof.
  split; [constructor|]. split; intros t p; simpl; by rewrite lookup_empty_map.
Qed.

Lemma inv_perf_output ev s : tcp_inv s -> perf_event_wf ev -> tcp_inv (perf_output ev s).
Proof. intros (H1 & H2 & H3) Hev. split; [|done]. simpl. by apply Forall_snoc. Qed.

Lemma inv_set_connectsock m s : tcp_inv s -> tcp_inv (set_connectsock m s).
Proof. done. Qed.

Lemma inv_set_connectsock_ipv6 m s : tcp_inv s -> tcp_inv (set_connectsock_ipv6 m s).
Proof. done. Qed.

Lemma inv_delete_ipv4 t s :
  tcp_inv s -> tcp_inv (set_tuplepid_ipv4 (map_delete (tuplepid_ipv4 s) t) s).
Proof.
  intros (H1 & H2 & H3). split; [done|]. split; [|done].
  intros t' p Hl. by apply lookup_map_delete_Some, H2 in Hl.
Qed.

Lemma inv_delete_ipv6 t s :
  tcp_inv s -> tcp_inv (set_tuplepid_ipv6 (map_delete (tuplepid_ipv6 s) t) s).
Proof.
  intros (H1 & H2 & H3). split; [done|]. split; [done|].
  intros t' p Hl. by apply lookup_map_delete_Some, H3 in Hl.
Qed.

Lemma inv_update_ipv4 t p s :
  tcp_inv s -> pid_comm_wf p ->
  tcp_inv (set_tuplepid_ipv4 (map_update (tuplepid_ipv4 s) t p) s).
Proof.
  intros (H1 & H2 & H3) Hp. split; [done|]. split; [|done].
  intros t' p' Hl. apply lookup_map_update_Some in Hl as [[_ ->]|Hl]; eauto.
Qed.

Lemma inv_update_ipv6 t p s :
  tcp_inv s -> pid_comm_wf p ->
  tcp_inv (set_tuplepid_ipv6 (map_update (tuplepid_ipv6 s) t p) s).
Proof.
  intros (H1 & H2 & H3) Hp. split; [done|]. split; [done|].
  intros t' p' Hl. apply lookup_map_update_Some in Hl as [[_ ->]|Hl]; eauto.
Qed.

End Invariant.

#[export] Hint Resolve inv_init inv_perf_output inv_set_connectsock
  inv_set_connectsock_ipv6 inv_delete_ipv4 inv_delete_ipv6 inv_update_ipv4
  inv_update_ipv6 : gy.

#[global] Arguments evt4_nonzero : simpl never.

(** *** Facts on the pieces of an event *)

Lemma bswap16_ne_0 z : in_width 16 z -> z <> 0 -> bswap16 z <> 0.
Proof. intros Hw Hz E. by apply Hz, bswap16_0. Qed.

Lemma comm_wf_insert c : length c = TASK_COMM_LEN -> comm_wf (<[15%nat := 0]> c).
Proof.
  intros Hl. split; [by rewrite length_insert|].
  apply list_lookup_insert_eq. by rewrite Hl; unfold TASK_COMM_LEN; lia.
Qed.

Lemma env_wf_comm e : env_wf e -> comm_wf (cur_comm e).
Proof. by intros (? & ? & ? & ?). Qed.

Lemma env_wf_pid e : env_wf e -> in_width 64 (cur_pid_tgid e).
Proof. by intros (? & ? & ? & ?). Qed.

Lemma env_wf_ktime e : env_wf e -> in_width 64 (ktime_ns e).
Proof. by intros (? & ? & ? & ?). Qed.

Lemma env_wf_pid_comm e : env_wf e -> pid_comm_wf (PidComm (cur_pid_tgid e) (cur_comm e)).
Proof. intros (? & ? & [? ?] & ?). done. Qed.

Lemma env_wf_sock e p : env_wf e -> sock_wf (kmem e p).
Proof. intros (? & ? & ? & H). apply H. Qed.

#[export] Hint Resolve bswap16_ne_0 comm_wf_insert
  env_wf_comm env_wf_pid env_wf_ktime env_wf_pid_comm env_wf_sock : gy.

Lemma in_width_0 w : 0 <= w -> in_width w 0.
Proof. intros. split; [lia|]. apply Z.pow_pos_nonneg; lia. Qed.
#[export] Hint Extern 1 (in_width _ 0) => (apply in_width_0; lia) : gy.

(** The addresses and ports an event takes from a tuple. *)
Definition addrs_ok (addrw saddr daddr netns sport dport : Z) : Prop :=
  in_width addrw saddr /\ saddr <> 0 /\ in_width addrw daddr /\ daddr <> 0 /\
  in_width 32 netns /\ in_width 16 sport /\ sport <> 0 /\ in_width 16 dport /\ dport <> 0.

Lemma connect_event_wf e p addrw saddr daddr netns sport dport ipver :
  env_wf e -> pid_comm_wf p -> addrs_ok addrw saddr daddr netns sport dport ->
  tcp_event_wf addrw ipver
    (connect_event e (pc_pid_tid p) (pc_comm p) saddr daddr netns sport dport ipver).
Proof.
  intros He (Hp & Hc) (? & ? & ? & ? & ? & ? & ? & ? & ?).
  unfold tcp_event_wf; simpl. conj_auto.
Qed.

Lemma close_event_wf e sk addrw saddr daddr netns sport dport ipver :
  env_wf e -> sock_wf sk -> addrs_ok addrw saddr daddr netns sport dport ->
  tcp_event_wf addrw ipver (close_event e sk saddr daddr netns sport dport ipver).
Proof.
  intros He Hsk (? & ? & ? & ? & ? & ? & ? & ? & ?).
  unfold tcp_event_wf, sock_wf in *; simpl. destruct_and! Hsk.
  conj_auto.
  unfold TCP_EVENT_TYPE_CONNECT, TCP_EVENT_TYPE_CLOSE_SER, TCP_EVENT_TYPE_CLOSE_CLI.
  case_if; lia.
Qed.

Lemma evt4_nonzero_true ev :
  evt4_nonzero ev = true ->
  ev_saddr ev <> 0 /\ ev_daddr ev <> 0 /\ ev_sport ev <> 0 /\ ev_dport ev <> 0.
Proof. unfold evt4_nonzero. intros. breflect. done. Qed.

Lemma sock_addrs4 sk t :
  sock_wf sk -> read_ipv4_tuple sk = (t, true) ->
  addrs_ok 32 (t4_saddr t) (t4_daddr t) (t4_netns t) (t4_sport t) (t4_dport t).
Proof.
  intros Hsk Ht. apply read_ipv4_tuple_true in Ht as (-> & ? & ? & ? & ?).
  unfold sock_wf in Hsk. destruct_and! Hsk. unfold addrs_ok; simpl in *. conj_auto.
Qed.

Lemma sock_addrs6 sk t :
  sock_wf sk -> read_ipv6_tuple sk = (t, true) ->
  addrs_ok 128 (t6_saddr t) (t6_daddr t) (t6_netns t) (t6_sport t) (t6_dport t).
Proof.
  intros Hsk Ht. apply read_ipv6_tuple_true in Ht as (-> & ? & ? & ? & ?).
  unfold sock_wf in Hsk. destruct_and! Hsk. unfold addrs_ok; simpl in *. conj_auto.
Qed.

#[export] Hint Resolve connect_event_wf close_event_wf sock_addrs4 sock_addrs6 : gy.

(** The bits of the flags [trace_create_ns] looks at. *)
Lemma clone_mask_bits n :
  0 <= n ->
  Z.testbit (Z.lor CLONE_NEWNS (Z.lor CLONE_NEWUTS (Z.lor CLONE_NEWIPC
    (Z.lor CLONE_NEWPID (Z.lor CLONE_NEWNET CLONE_NEWCGROUP))))) n = true ->
  In n [17; 25; 26; 27; 29; 30].
Proof.
  intros Hn Hm. destruct (Z.le_gt_cases n 30) as [Hle|Hgt].
  - assert (In n (seqZ 0 31)) as Hin by (apply list_elem_of_In, elem_of_seqZ; lia).
    assert (forallb (fun i => implb (Z.testbit (Z.lor CLONE_NEWNS (Z.lor CLONE_NEWUTS
      (Z.lor CLONE_NEWIPC (Z.lor CLONE_NEWPID (Z.lor CLONE_NEWNET CLONE_NEWCGROUP))))) i)
      (existsb (Z.eqb i) [17; 25; 26; 27; 29; 30])) (seqZ 0 31) = true) as Hall by by vm_compute.
    rewrite forallb_forall in Hall. apply Hall in Hin. rewrite Hm in Hin.
    apply existsb_exists in Hin as (i & Hi & ->%Z.eqb_eq). done.
  - rewrite Z.bits_above_log2 in Hm; [done|done|by apply Z.le_lt_trans with 30; [vm_compute|lia]].
Qed.

(** *** Every program preserves the invariant *)
Section Preserve.
Context {ops : BpfMapOps} {Hops : BpfMap ops}.

Lemma connect_v4_inv e ret sk s :
  env_wf e -> tcp_inv s -> tcp_inv (do_trace_connect_v4_return e ret sk (cur_pid_tgid e) s).
Proof.
  intros. unfold do_trace_connect_v4_return.
  destruct (read_ipv4_tuple _) as [t []]; simpl; auto with gy.
Qed.

Lemma connect_v6_inv e ret sk s :
  env_wf e -> tcp_inv s -> tcp_inv (do_trace_connect_v6_return e ret sk (cur_pid_tgid e) s).
Proof.
  intros. unfold do_trace_connect_v6_return.
  destruct (read_ipv6_tuple _) as [t []]; simpl; [case_if|]; auto with gy.
Qed.

Lemma set_state_ipv4_inv e sk state s :
  env_wf e -> sock_wf sk -> tcp_inv s -> tcp_inv (set_state_ipv4 e sk state s).
Proof.
  intros He Hsk Hs. unfold set_state_ipv4.
  destruct (read_ipv4_tuple _) as [t []] eqn:Ht; simpl; [|done].
  case_if; [auto with gy|].
  destruct (lookup_elem _ _) as [p|] eqn:Hl; [|done].
  apply (inv_delete_ipv4 t (perf_output _ s)). apply inv_perf_output; [done|].
  apply connect_event_wf; [done| |by eauto with gy]. destruct Hs as (_ & H & _); eauto.
Qed.

Lemma connect_event6_wf e sk t p :
  env_wf e -> sock_wf sk -> read_ipv6_tuple sk = (t, true) -> pid_comm_wf p ->
  perf_event_wf (Tcp_ipv6_event (connect_event e (pc_pid_tid p) (pc_comm p)
    (t6_saddr t) (t6_daddr t) (t6_netns t) (t6_sport t) (t6_dport t) 6)).
Proof. intros. split; [by eauto with gy|]. simpl. done. Qed.

Lemma set_state_ipv6_inv e sk state s :
  env_wf e -> sock_wf sk -> tcp_inv s -> tcp_inv (set_state_ipv6 e sk state s).
Proof.
  intros He Hsk Hs. unfold set_state_ipv6. pose proof Hs as (_ & H4 & H6).
  destruct (read_ipv6_tuple _) as [t []] eqn:Ht; simpl; [|done].
  case_if; [auto with gy|].
  destruct (lookup_elem (tuplepid_ipv6 s) t) as [p|] eqn:Hl;
    [|case_if; [destruct (lookup_elem (tuplepid_ipv4 s) _) as [p|] eqn:Hl4|]; try done].
  all: apply inv_perf_output; [auto with gy|eapply connect_event6_wf; eauto].
Qed.

Lemma set_state_inv e sk state s :
  env_wf e -> tcp_inv s -> tcp_inv (do_trace_tcp_set_state_entry e sk state s).
Proof.
  intros. unfold do_trace_tcp_set_state_entry.
  repeat case_if; auto using set_state_ipv4_inv, set_state_ipv6_inv with gy.
Qed.

Lemma close_ipv6_inv e sk s :
  env_wf e -> sock_wf sk -> tcp_inv s -> tcp_inv (close_ipv6 e sk s).
Proof.
  intros He Hsk Hs. unfold close_ipv6.
  destruct (read_ipv6_tuple _) as [t []] eqn:Ht; cbn [negb]; [|by apply inv_delete_ipv6].
  pose proof (sock_addrs6 _ _ Hsk Ht) as (? & ? & ? & ? & ? & ? & ? & ? & ?).
  repeat case_if; try done; (apply inv_perf_output; [done|]).
  - apply close_event_wf; [done..|].
    match goal with H : evt4_nonzero _ = true |- _ =>
      apply evt4_nonzero_true in H as (? & ? & ? & ?) end.
    cbn [ev_saddr ev_daddr close_event t4_saddr t4_daddr t4_netns t4_sport t4_dport t4_of_t6] in *.
    unfold addrs_ok. conj_auto.
  - breflect. split; [by eauto with gy|]. done.
Qed.

Lemma close_inv e sk s :
  env_wf e -> tcp_inv s -> tcp_inv (do_trace_close_entry e sk s).
Proof.
  intros He Hs. unfold do_trace_close_entry, close_ipv4.
  pose proof (env_wf_sock e sk He) as Hsk.
  repeat case_if; auto using close_ipv6_inv.
  destruct (read_ipv4_tuple _) as [t []] eqn:Ht; cbn [negb]; [|by apply inv_delete_ipv4].
  apply inv_perf_output; [done|]. apply close_event_wf; eauto with gy.
Qed.

Lemma accept_inv e newsk s :
  env_wf e -> tcp_inv s -> tcp_inv (do_trace_accept_return e newsk s).
Proof.
  intros He Hs. unfold do_trace_accept_return.
  pose proof (env_wf_sock e newsk He) as Hsk. unfold sock_wf in Hsk. destruct_and! Hsk.
  repeat case_if; auto; apply inv_perf_output; auto; simpl;
    match goal with H : evt4_nonzero _ = true |- _ =>
      apply evt4_nonzero_true in H as (? & ? & ? & ?); simpl in * end.
  3: breflect; split; [|done].
  all: unfold tcp_event_wf, TCP_EVENT_TYPE_CONNECT, TCP_EVENT_TYPE_ACCEPT,
    TCP_EVENT_TYPE_CLOSE_SER; simpl; conj_auto; lia.
Qed.

Lemma xmit_filter_times sk family config :
  xmit_filter sk family config = true -> lrcvtime sk <= lsndtime sk.
Proof. unfold xmit_filter. intros H. case_ifs_in H. breflect. lia. Qed.

Lemma xmit4_inv e sk s : env_wf e -> tcp_inv s -> tcp_inv (do_trace_ipv4_xmit e sk s).
Proof.
  intros He Hs. unfold do_trace_ipv4_xmit.
  destruct (xmit_filter _ _ _) eqn:Hf; simpl; [|done].
  destruct (read_ipv4_tuple _) as [t []] eqn:Ht; simpl; [|done].
  apply sock_addrs4 in Ht as (? & ? & ? & ? & ? & ? & ? & ? & ?); [|auto with gy].
  apply inv_perf_output; [done|]. apply xmit_filter_times in Hf. done.
Qed.

Lemma xmit6_inv e sk s : env_wf e -> tcp_inv s -> tcp_inv (do_trace_ipv6_xmit e sk s).
Proof.
  intros He Hs. unfold do_trace_ipv6_xmit.
  destruct (xmit_filter _ _ _) eqn:Hf; simpl; [|done]. apply xmit_filter_times in Hf.
  destruct (read_ipv6_tuple _) as [t []] eqn:Ht; simpl; [|done].
  apply read_ipv6_tuple_true in Ht as (-> & ? & ? & ? & ?); simpl in *.
  case_if; (apply inv_perf_output; [done|]); simpl.
  - unfold read_ipv4_tuple. case_if; cbn [fst t4_sport t4_dport t4_saddr t4_daddr]; conj_auto.
  - breflect. done.
Qed.

Lemma create_ns_inv e flags s : env_wf e -> tcp_inv s -> tcp_inv (trace_create_ns e flags s).
Proof.
  intros He Hs. unfold trace_create_ns. case_if; [done|].
  apply inv_perf_output; [done|]. simpl. split; [by auto with gy|].
  apply dec_stable. intros Hno. breflect.
  match goal with H : _ <> 0 |- _ => apply H end.
  apply Z.bits_inj'. intros n Hn. rewrite Z.land_spec, Z.bits_0.
  destruct (Z.testbit flags n) eqn:Hb; [|done]. simpl.
  apply not_true_is_false. intros Hm. apply Hno, Exists_exists. exists n. split; [|done].
  by apply clone_mask_bits.
Qed.
End Preserve.

Section Theorems.
Context {ops : BpfMapOps} {Hops : BpfMap ops}.

Lemma listen_inv e sockp backlog s :
  env_wf e -> tcp_inv s -> tcp_inv (trace_inet_listen e sockp backlog s).
Proof.
  intros He Hs. unfold trace_inet_listen.
  pose proof (env_wf_sock e (ksocket_sk e sockp) He) as Hsk.
  unfold sock_wf in Hsk. destruct_and! Hsk.
  repeat case_if; auto; (apply inv_perf_output; [done|]); simpl; conj_auto.
Qed.

Lemma run_probe_inv p e s : env_wf e -> tcp_inv s -> tcp_inv (run_probe p e s).
Proof.
  intros He Hs.
  destruct p; simpl; unfold trace_connect_v4_entry, trace_connect_v4_return,
    fexit_trace_connect_v4_return, trace_connect_v6_entry, trace_connect_v6_return,
    fexit_trace_connect_v6_return, trace_cgroup_migrate;
  auto using set_state_inv, close_inv, accept_inv, create_ns_inv, listen_inv,
    xmit4_inv, xmit6_inv with gy.
  all: try (destruct (lookup_elem _ _)).
  all: repeat case_if; auto using connect_v4_inv, connect_v6_inv with gy.
  apply inv_perf_output; [done|]. simpl. conj_auto.
Qed.

(** C1 : whatever sequence of TCP probes fires, in whatever well-formed kernel
    state, every record the programs have sent is well-formed (widths, non-zero
    addresses and ports of connect/accept/close events, a NUL-terminated command
    name, the IP version of the array the record was sent to, no IPv4-mapped
    address in an IPv6 accept or close event, a namespace flag in every namespace
    event, a send time not before the receive time in every response record) and
    every saved connect entry carries a 64-bit pid and a 16-byte command name. *)
Theorem reachable_tcp_inv s : reachable s -> tcp_inv s.
Proof. induction 1; eauto using run_probe_inv, inv_init. Qed.

(** ** The life of a connect entry *)

(** What [trace_connect_v4_return] leaves of a successful connect whose socket
    pointer was stashed. *)
Lemma connect_v4_pair e sk s :
  (update_elem (connectsock s) (cur_pid_tgid e) sk).1 = 0 ->
  trace_connect_v4_return e 0 (trace_connect_v4_entry e sk s) =
  do_trace_connect_v4_return e 0 sk (cur_pid_tgid e)
    (set_connectsock (map_delete (map_update (connectsock s) (cur_pid_tgid e) sk)
      (cur_pid_tgid e)) s).
Proof.
  intros Hu. unfold trace_connect_v4_return, trace_connect_v4_entry; simpl.
  by rewrite lookup_map_update_eq.
Qed.

(** C6 : one IPv4 connect on the kprobe path, the probes one after the other: the
    entry and the return of connect and then the change of the state of the socket from
    SYN_SENT to ESTABLISHED, with no other probe in between.  When the socket pointer and
    the tuple could be saved in their maps and the same tuple is read both times, exactly
    one record is sent, a connect event with the pid, thread and command of the task that
    called connect and the ports in host order, and neither the socket pointer nor the
    tuple stays in the maps. *)
Theorem connect_v4_established e1 e2 skp t s :
  let pid := cur_pid_tgid e1 in
  let s1 := set_connectsock (map_delete (map_update (connectsock s) pid skp) pid) s in
  (update_elem (connectsock s) pid skp).1 = 0 ->
  (update_elem (tuplepid_ipv4 s1) t (PidComm pid (cur_comm e1))).1 = 0 ->
  read_ipv4_tuple (kmem e1 skp) = (t, true) ->
  read_ipv4_tuple (kmem e2 skp) = (t, true) ->
  skc_family (kmem e2 skp) = AF_INET ->
  skc_state (kmem e2 skp) = TCP_SYN_SENT ->
  let s' := trace_tcp_set_state_entry e2 skp TCP_ESTABLISHED
              (trace_connect_v4_return e1 0 (trace_connect_v4_entry e1 skp s)) in
  perf s' = perf s ++ [Tcp_ipv4_event {|
    ev_ts_ns := ktime_ns e2; ev_bytes_received := 0; ev_bytes_acked := 0;
    ev_pid := pid_of pid; ev_tid := tid_of pid; ev_comm := <[15%nat := 0]> (cur_comm e1);
    ev_saddr := t4_saddr t; ev_daddr := t4_daddr t; ev_netns := t4_netns t;
    ev_sport := bswap16 (t4_sport t); ev_dport := bswap16 (t4_dport t);
    ev_ipver := 4; ev_type := TCP_EVENT_TYPE_CONNECT |}] /\
  lookup_elem (connectsock s') pid = None /\
  lookup_elem (tuplepid_ipv4 s') t = None.
Proof.
  intros pid s1 Hu1 Hu2 Ht1 Ht2 Hf Hst. cbv zeta.
  rewrite connect_v4_pair by done. fold pid s1.
  unfold do_trace_connect_v4_return. rewrite Ht1. cbn [negb].
  unfold trace_tcp_set_state_entry, do_trace_tcp_set_state_entry, set_state_ipv4.
  rewrite Hf, Hst, Ht2. cbn -[map_delete map_update connect_event s1].
  rewrite (lookup_map_update_eq _ _ _ Hu2).
  cbn -[map_delete map_update]. by autorewrite with bpf.
Qed.

(** Two states that the programs cannot tell apart. *)
Definition tcp_equiv (s1 s2 : tcp_st) : Prop :=
  (forall k, lookup_elem (connectsock s1) k = lookup_elem (connectsock s2) k) /\
  (forall k, lookup_elem (connectsock_ipv6 s1) k = lookup_elem (connectsock_ipv6 s2) k) /\
  (forall k, lookup_elem (tuplepid_ipv4 s1) k = lookup_elem (tuplepid_ipv4 s2) k) /\
  (forall k, lookup_elem (tuplepid_ipv6 s1) k = lookup_elem (tuplepid_ipv6 s2) k) /\
  config_tcp_response s1 = config_tcp_response s2 /\ perf s1 = perf s2.

#[export] Instance tcp_equiv_equivalence : Equivalence tcp_equiv.
Proof.
  unfold tcp_equiv. split; [done|intros ?? ?|intros ??? ??]; destruct_and?;
    repeat split; intros; congruence.
Qed.

(** An established IPv6 connection between IPv4-mapped addresses whose
    connect was recorded under its IPv4 tuple is reported once, and its IPv4
    entry is removed. *)
Theorem connect_v6_mapped_established e skp t p s :
  read_ipv6_tuple (kmem e skp) = (t, true) ->
  is_ipv4_mapped_ipv6 (t6_saddr t) = true \/ is_ipv4_mapped_ipv6 (t6_daddr t) = true ->
  skc_family (kmem e skp) = AF_INET6 -> skc_state (kmem e skp) = TCP_SYN_SENT ->
  lookup_elem (tuplepid_ipv6 s) t = None ->
  lookup_elem (tuplepid_ipv4 s) (t4_of_t6 t) = Some p ->
  let s' := trace_tcp_set_state_entry e skp TCP_ESTABLISHED s in
  perf s' = perf s ++ [Tcp_ipv6_event (connect_event e (pc_pid_tid p) (pc_comm p)
    (t6_saddr t) (t6_daddr t) (t6_netns t) (t6_sport t) (t6_dport t) 6)] /\
  lookup_elem (tuplepid_ipv4 s') (t4_of_t6 t) = None.
Proof.
  intros Ht Hm Hf Hst H6 H4. cbv zeta.
  unfold trace_tcp_set_state_entry, do_trace_tcp_set_state_entry, set_state_ipv6.
  rewrite Hf, Hst, Ht. cbn -[map_delete connect_event t4_of_t6]. rewrite H6, H4.
  replace (_ || _)%bool with true by (destruct Hm as [-> | ->]; by rewrite ?orb_true_r).
  cbn -[map_delete connect_event t4_of_t6]. by autorewrite with bpf.
Qed.

(** Closing an IPv4-mapped IPv6 socket that never became established leaves
    the entry its connect saved: [tcp_set_state] to [TCP_CLOSE] deletes the IPv6
    tuple only, while the connect programs save such a connection under its IPv4
    tuple. *)
Theorem mapped_close_keeps_entry e skp t p s :
  read_ipv6_tuple (kmem e skp) = (t, true) ->
  skc_family (kmem e skp) = AF_INET6 ->
  lookup_elem (tuplepid_ipv4 s) (t4_of_t6 t) = Some p ->
  lookup_elem (tuplepid_ipv4 (trace_tcp_set_state_entry e skp TCP_CLOSE s)) (t4_of_t6 t) = Some p.
Proof.
  intros Ht Hf H4.
  unfold trace_tcp_set_state_entry, do_trace_tcp_set_state_entry, set_state_ipv6.
  rewrite Hf, Ht. cbn -[map_delete t4_of_t6]. by case_if.
Qed.

(** Each probe hit appends at most one record and never drops one. *)
Theorem run_probe_appends p e s :
  exists l, perf (run_probe p e s) = perf s ++ l /\ (length l <= 1)%nat.
Proof.
  assert (forall s' : tcp_st, perf s' = perf s ->
    exists l, perf s' = perf s ++ l /\ (length l <= 1)%nat) as Hsame.
  { intros s' ->. exists []. rewrite app_nil_r. simpl. auto with lia. }
  assert (forall (s' : tcp_st) ev, perf s' = perf s ++ [ev] ->
    exists l, perf s' = perf s ++ l /\ (length l <= 1)%nat) as Hone.
  { intros s' ev ->. exists [ev]. simpl. auto with lia. }
  destruct p; cbn [run_probe];
    unfold trace_connect_v4_entry, trace_connect_v4_return, fexit_trace_connect_v4_return,
      trace_connect_v6_entry, trace_connect_v6_return, fexit_trace_connect_v6_return,
      do_trace_connect_v4_return, do_trace_connect_v6_return,
      trace_tcp_set_state_entry, fentry_trace_tcp_set_state_entry,
      do_trace_tcp_set_state_entry, set_state_ipv4, set_state_ipv6,
      trace_close_entry, fentry_trace_close_entry, do_trace_close_entry, close_ipv4, close_ipv6,
      trace_accept_return, fexit_trace_accept_return, do_trace_accept_return,
      trace_create_ns, trace_inet_listen, trace_cgroup_migrate,
      trace_ipv4_xmit, fentry_trace_ipv4_xmit, do_trace_ipv4_xmit,
      trace_ipv6_xmit, fentry_trace_ipv6_xmit, do_trace_ipv6_xmit.
  all: repeat match goal with
    | |- context [match lookup_elem ?m ?k with _ => _ end] => destruct (lookup_elem m k)
    | |- context [let '(_, _) := read_ipv4_tuple ?sk in _] => destruct (read_ipv4_tuple sk) as [? []]
    | |- context [let '(_, _) := read_ipv6_tuple ?sk in _] => destruct (read_ipv6_tuple sk) as [? []]
    | |- context [if ?b then _ else _] => destruct b eqn:?
    end.
  all: first [apply Hsame; reflexivity | eapply Hone; reflexivity].
Qed.

End Theorems.

(** ** kprobes against the fentry/fexit programs *)
Section Hash.
Context {ops : BpfMapOps} {Hops : BpfHashMap ops}.

(** Deleting the key an update just wrote gives back a map without it. *)
Lemma lookup_delete_update {K V} `{EqDecision K} (m : bmap K V) k v j :
  lookup_elem m k = None ->
  lookup_elem (map_delete (map_update m k v) k) j = lookup_elem m j.
Proof.
  intros Hk. rewrite lookup_map_delete. case_decide as E; [by subst|].
  unfold map_update. by rewrite lookup_update_ne.
Qed.

(** For a connect that succeeds, the pair of kprobes on [tcp_v4_connect]
    and the single fexit program leave states that no program can tell apart. *)
Theorem kprobe_fexit_connect_v4 e sk s :
  sk <> 0 ->
  lookup_elem (connectsock s) (cur_pid_tgid e) = None ->
  (update_elem (connectsock s) (cur_pid_tgid e) sk).1 = 0 ->
  tcp_equiv (trace_connect_v4_return e 0 (trace_connect_v4_entry e sk s))
            (fexit_trace_connect_v4_return e sk 0 s).
Proof.
  intros Hsk Hnone Hu. rewrite connect_v4_pair by done.
  unfold fexit_trace_connect_v4_return. rewrite (proj2 (Z.eqb_neq _ _) Hsk).
  unfold do_trace_connect_v4_return.
  destruct (read_ipv4_tuple _) as [t []]; cbn [negb]; repeat split;
    simpl; intros; by rewrite lookup_delete_update.
Qed.

(** For a connect that fails at once ([ret] <> 0) the two differ: the pair
    of kprobes saves nothing, the fexit program, which does not look at its
    [ret], saves the tuple. *)
Theorem fexit_connect_v4_ignores_ret e sk ret t s :
  sk <> 0 -> ret <> 0 ->
  (update_elem (connectsock s) (cur_pid_tgid e) sk).1 = 0 ->
  read_ipv4_tuple (kmem e sk) = (t, true) ->
  (update_elem (tuplepid_ipv4 s) t (PidComm (cur_pid_tgid e) (cur_comm e))).1 = 0 ->
  tuplepid_ipv4 (trace_connect_v4_return e ret (trace_connect_v4_entry e sk s)) = tuplepid_ipv4 s /\
  lookup_elem (tuplepid_ipv4 (fexit_trace_connect_v4_return e sk ret s)) t =
    Some (PidComm (cur_pid_tgid e) (cur_comm e)).
Proof.
  intros Hsk Hret Hu Ht Hu2. split.
  - unfold trace_connect_v4_return, trace_connect_v4_entry; simpl.
    rewrite lookup_map_update_eq by done. by rewrite (proj2 (Z.eqb_neq _ _) Hret).
  - unfold fexit_trace_connect_v4_return. rewrite (proj2 (Z.eqb_neq _ _) Hsk).
    unfold do_trace_connect_v4_return. rewrite Ht. cbn [negb].
    cbn -[map_update]. by rewrite lookup_map_update_eq.
Qed.
End Hash.

(** ** Response time and close records *)
Section Records.
Context {ops : BpfMapOps}.

(** A server side socket of the family, that has received data, whose last
    receive is not more than 10 ticks (modulo 2^32) before the last segment's
    arrival and not after its last send, while the probe is enabled. *)
Definition xmit_condition (sk : sock) (family : Z) (config : option Z) : Prop :=
  bytes_received sk <> 0 /\ sk_max_ack_backlog sk <> 0 /\ skc_family sk = family /\
  rcv_tstamp sk <= (lrcvtime sk + 10) mod 2 ^ 32 /\ lrcvtime sk <= lsndtime sk /\
  (config = None \/ config = Some ENABLE_PERF_PROBE).

Lemma xmit_filter_spec sk family config :
  xmit_filter sk family config = true <-> xmit_condition sk family config.
Proof.
  unfold xmit_filter, xmit_condition, check_family, wrap. split.
  - intros H. case_ifs_in H. breflect. destruct config as [c|]; breflect; naive_solver.
  - intros (H1 & H2 & H3 & H4 & H5 & H6).
    rewrite (proj2 (Z.eqb_neq _ _) H1), (proj2 (Z.eqb_neq _ _) H2), (proj2 (Z.eqb_eq _ _) H3).
    rewrite (proj2 (Z.ltb_ge _ _) H4), (proj2 (Z.ltb_ge _ _) H5). simpl.
    by destruct H6 as [-> | ->].
Qed.

(** [__ip_queue_xmit] sends a response record exactly for the sockets and
    times the filter is meant to keep, with the tuple and times of the socket,
    and changes nothing else; otherwise it does nothing at all. *)
Theorem ipv4_xmit_exact e skp s :
  let sk := kmem e skp in
  let tup := Ipv4Tuple (skc_rcv_saddr sk) (skc_daddr sk) (read_netns sk) (inet_sport sk) (skc_dport sk) in
  (xmit_condition sk AF_INET (config_tcp_response s) /\
   skc_rcv_saddr sk <> 0 /\ skc_daddr sk <> 0 /\ inet_sport sk <> 0 /\ skc_dport sk <> 0 /\
   trace_ipv4_xmit e skp s =
     perf_output (Ipv4_xmit_perf (TcpIpv4Resp tup (lsndtime sk) (lrcvtime sk))) s) \/
  (~ (xmit_condition sk AF_INET (config_tcp_response s) /\
      skc_rcv_saddr sk <> 0 /\ skc_daddr sk <> 0 /\ inet_sport sk <> 0 /\ skc_dport sk <> 0) /\
   trace_ipv4_xmit e skp s = s).
Proof.
  intros sk tup. unfold trace_ipv4_xmit, do_trace_ipv4_xmit. fold sk.
  destruct (xmit_filter _ _ _) eqn:Hf; cbn [negb].
  - apply xmit_filter_spec in Hf. unfold read_ipv4_tuple. case_if; cbn [negb].
    + right. split; [|done]. rewrite !orb_true_iff, !Z.eqb_eq in *. tauto.
    + left. breflect. by repeat (split; [done|]).
  - right. split; [|done]. intros (Hc & _). apply xmit_filter_spec in Hc. congruence.
Qed.

(** Closing an AF_INET6 socket whose two addresses are IPv4-mapped sends the
    very record that closing the AF_INET socket with those IPv4 addresses and the
    same ports, counters and namespace would send. *)
Theorem close_mapped_is_v4 e sk4 sk6 a b s :
  in_width 32 a -> in_width 32 b -> in_width 16 (inet_sport sk6) -> in_width 16 (skc_dport sk6) ->
  skc_v6_rcv_saddr sk6 = v4_mapped a -> skc_v6_daddr sk6 = v4_mapped b ->
  sk4 = Sock (skc_state sk6) AF_INET a b (inet_sport sk6) (skc_dport sk6) (skc_num sk6)
          (skc_net_inum sk6) 0 0 (bytes_received sk6) (bytes_acked sk6)
          (sk_max_ack_backlog sk6) (lrcvtime sk6) (rcv_tstamp sk6) (lsndtime sk6) ->
  perf (close_ipv6 e sk6 s) = perf (close_ipv4 e sk4 s).
Proof.
  intros Ha Hb Hs Hd Hsa Hda ->. unfold close_ipv6, close_ipv4, read_ipv6_tuple, read_ipv4_tuple.
  assert (forall c, in_width 32 c -> (v4_mapped c =? 0) = false /\ is_ipv4_mapped_ipv6 (v4_mapped c) = true) as Hm.
  { intros c Hc. split; [apply Z.eqb_neq; unfold v4_mapped, in_width in *; lia|].
    apply is_ipv4_mapped_spec; [unfold v4_mapped, in_width in *; lia|].
    by rewrite last4_v4_mapped. }
  cbn [t6_saddr t6_daddr t4_saddr t4_daddr skc_rcv_saddr skc_daddr inet_sport skc_dport].
  rewrite Hsa, Hda. destruct (Hm a Ha) as [-> Ma], (Hm b Hb) as [-> Mb]. cbn [orb].
  destruct (inet_sport sk6 =? 0) eqn:E1, (skc_dport sk6 =? 0) eqn:E2; cbn [orb];
    repeat rewrite orb_true_r; cbn [negb t6_saddr t6_daddr]; try done.
  rewrite Ma. cbn [orb]. unfold t4_of_t6. cbn [t6_saddr t6_daddr t6_netns t6_sport t6_dport].
  rewrite !last4_v4_mapped by done. breflect.
  unfold evt4_nonzero. cbn [close_event ev_saddr ev_daddr ev_sport ev_dport t4_saddr t4_daddr t4_sport t4_dport].
  rewrite (proj2 (Z.eqb_neq (bswap16 (inet_sport sk6)) 0)) by auto with gy.
  rewrite (proj2 (Z.eqb_neq (bswap16 (skc_dport sk6)) 0)) by auto with gy.
  by destruct (a =? 0), (b =? 0).
Qed.
End Records.

(** ** Witnesses

    A client socket 10.0.0.1:40000 -> 10.0.0.2:443, the same connection made
    through an IPv6 socket, and a server side socket. *)
Module TcpExamples.

Definition ex_comm : list Z := [99; 117; 114; 108; 0; 0; 0; 0; 0; 0; 0; 0; 0; 0; 0; 0].

Definition ex_sock4 : sock :=
  Sock TCP_SYN_SENT AF_INET 0x0100000a 0x0200000a 0x409c 0xbb01 40000 (Some 4026531992)
    0 0 100 200 0 1000 1000 1001.

Definition ex_sock6 : sock :=
  Sock TCP_SYN_SENT AF_INET6 0 0 0x409c 0xbb01 40000 (Some 4026531992)
    (v4_mapped 0x0100000a) (v4_mapped 0x0200000a) 100 200 0 1000 1000 1001.

Definition ex_sock_ser : sock :=
  Sock TCP_ESTABLISHED AF_INET 0x0100000a 0x0200000a 0x409c 0xbb01 40000 None
    0 0 100 200 128 1000 1000 1001.

Definition ex_env : env :=
  Env (Z.shiftl 321 32 + 322) ex_comm 5000
    (fun p => if p =? 1 then ex_sock4 else if p =? 2 then ex_sock6 else ex_sock_ser)
    (fun p => p) (fun _ => 321) (fun _ => 322).

#[local] Existing Instance hash_ops_laws.
#[local] Instance ex_ops : BpfMapOps := hash_ops 16.

Lemma ex_env_wf : env_wf ex_env.
Proof.
  split; [by vm_compute|]. split; [by vm_compute|]. split; [by vm_compute|].
  intros p. unfold sock_wf, ex_env; cbn [kmem]. repeat case_if; vm_compute; intuition discriminate.
Qed.

Definition ex_connected : tcp_st :=
  trace_tcp_set_state_entry ex_env 1 TCP_ESTABLISHED
    (trace_connect_v4_return ex_env 0 (trace_connect_v4_entry ex_env 1 (tcp_init None))).

Definition ex_pid_comm : pid_comm_t := PidComm (cur_pid_tgid ex_env) ex_comm.

Definition ex_t6 : ipv6_tuple_t := (read_ipv6_tuple ex_sock6).1.

(** The state after the connect of the IPv6 socket was recorded. *)
Definition ex_mapped : tcp_st :=
  trace_connect_v6_return ex_env 0 (trace_connect_v6_entry ex_env 2 (tcp_init None)).

Lemma reachable_tcp_inv_witness :
  tcp_inv ex_connected /\ length (perf ex_connected) = 1%nat.
Proof.
  split; [|by vm_compute]. apply reachable_tcp_inv.
  apply (reach_step _ (P_set_state 1 TCP_ESTABLISHED) ex_env); [|apply ex_env_wf].
  apply (reach_step _ (P_connect_v4_return 0) ex_env); [|apply ex_env_wf].
  apply (reach_step _ (P_connect_v4_entry 1) ex_env); [|apply ex_env_wf].
  apply reach_init.
Defined.

Lemma connect_v4_established_witness :
  perf ex_connected = [Tcp_ipv4_event {|
    ev_ts_ns := 5000; ev_bytes_received := 0; ev_bytes_acked := 0;
    ev_pid := 321; ev_tid := 322; ev_comm := ex_comm;
    ev_saddr := 0x0100000a; ev_daddr := 0x0200000a; ev_netns := 4026531992;
    ev_sport := 40000; ev_dport := 443;
    ev_ipver := 4; ev_type := TCP_EVENT_TYPE_CONNECT |}].
Proof.
  exact (proj1 (connect_v4_established ex_env ex_env 1 (read_ipv4_tuple ex_sock4).1
    (tcp_init None) eq_refl eq_refl eq_refl eq_refl eq_refl eq_refl)).
Defined.

Lemma connect_v6_mapped_established_witness :
  length (perf (trace_tcp_set_state_entry ex_env 2 TCP_ESTABLISHED ex_mapped)) = 1%nat.
Proof.
  by rewrite (proj1 (connect_v6_mapped_established ex_env 2 ex_t6 ex_pid_comm ex_mapped
    eq_refl (or_introl eq_refl) eq_refl eq_refl eq_refl eq_refl)).
Defined.

Lemma mapped_close_keeps_entry_witness :
  lookup_elem (tuplepid_ipv4 (trace_tcp_set_state_entry ex_env 2 TCP_CLOSE ex_mapped))
    (t4_of_t6 ex_t6) = Some ex_pid_comm.
Proof. apply (mapped_close_keeps_entry ex_env 2 ex_t6 ex_pid_comm ex_mapped); reflexivity. Defined.

Lemma kprobe_fexit_connect_v4_witness :
  tcp_equiv (trace_connect_v4_return ex_env 0 (trace_connect_v4_entry ex_env 1 (tcp_init None)))
            (fexit_trace_connect_v4_return ex_env 1 0 (tcp_init None)).
Proof. apply (kprobe_fexit_connect_v4 ex_env 1 (tcp_init None)); first [discriminate | reflexivity]. Defined.

Lemma fexit_connect_v4_ignores_ret_witness :
  tuplepid_ipv4 (trace_connect_v4_return ex_env (-110)
    (trace_connect_v4_entry ex_env 1 (tcp_init None))) = tuplepid_ipv4 (tcp_init None) /\
  lookup_elem (tuplepid_ipv4 (fexit_trace_connect_v4_return ex_env 1 (-110) (tcp_init None)))
    (read_ipv4_tuple ex_sock4).1 = Some ex_pid_comm.
Proof.
  apply (fexit_connect_v4_ignores_ret ex_env 1 (-110) (read_ipv4_tuple ex_sock4).1 (tcp_init None));
    first [discriminate | reflexivity].
Defined.

Lemma close_mapped_is_v4_witness :
  perf (close_ipv6 ex_env ex_sock6 (tcp_init None)) = perf (close_ipv4 ex_env
    (Sock TCP_SYN_SENT AF_INET 0x0100000a 0x0200000a 0x409c 0xbb01 40000 (Some 4026531992)
      0 0 100 200 0 1000 1000 1001) (tcp_init None)).
Proof.
  apply (close_mapped_is_v4 _ _ _ 0x0100000a 0x0200000a); first [reflexivity | by vm_compute].
Defined.

End TcpExamples.
