(* ===== verification/IpVs.v ===== *)
(** * IpVs : the IPVS probes, [partha/gy_ebpf_mod.bpf.c].

    Each new or shown IPVS connection that carries TCP is reported with its
    client, virtual and destination addresses and ports. *)
From S2P Require Import Prelude BpfMap BpfCommon.

(** What the programs read of a [struct ip_vs_conn]; a [union nf_inet_addr] is
    its 128 bits, [ip] the first 32 of them. *)
Record ip_vs_conn___gy := IpVsConn {
  vs_cport : Z; vs_dport : Z; vs_vport : Z; vs_af : Z;
  vs_caddr : Z; vs_vaddr : Z; vs_daddr : Z;
  vs_protocol : Z; vs_daf : Z }.

Record ip_vs_conn_event_t := IpVsConnEvent {
  iv_cliaddr : Z; iv_virtaddr : Z; iv_destaddr : Z;
  iv_cliport : Z; iv_virtport : Z; iv_destport : Z; iv_af : Z; iv_daf : Z }.

Definition IPPROTO_TCP : Z := 6.

(** The 32 or 128 bits of an address read into a zeroed union, by family. *)
Definition read_addr (af addr : Z) : Z := if af =? AF_INET then addr mod 2 ^ 32 else addr.

(** [kconn] is the kernel memory behind the pointers; the records sent so far
    are the list. *)
Definition send_ip_vs_conn_info (kconn : Z -> ip_vs_conn___gy) (pconn : Z)
    (perf : list ip_vs_conn_event_t) : list ip_vs_conn_event_t :=
  if pconn =? 0 then perf else
  let c := kconn pconn in
  if negb (vs_protocol c =? IPPROTO_TCP) then perf else
  perf ++ [{|
    iv_cliaddr := read_addr (vs_af c) (vs_caddr c);
    iv_virtaddr := read_addr (vs_af c) (vs_vaddr c);
    iv_destaddr := read_addr (vs_daf c) (vs_daddr c);
    iv_cliport := bswap16 (vs_cport c); iv_virtport := bswap16 (vs_vport c);
    iv_destport := bswap16 (vs_dport c); iv_af := vs_af c; iv_daf := vs_daf c |}].

Definition trace_ip_vs_conn_return (kconn : Z -> ip_vs_conn___gy) (pc1 : Z)
    (perf : list ip_vs_conn_event_t) : list ip_vs_conn_event_t :=
  send_ip_vs_conn_info kconn pc1 perf.

Definition trace_ip_vs_conn_show (kconn : Z -> ip_vs_conn___gy) (seq pc1 : Z)
    (perf : list ip_vs_conn_event_t) : list ip_vs_conn_event_t :=
  if pc1 >? 7 then send_ip_vs_conn_info kconn pc1 perf else perf.

(** An event a consumer can read: ports in host order and the address of the
    family in effect. *)
Definition ip_vs_event_ok (c : ip_vs_conn___gy) (ev : ip_vs_conn_event_t) : Prop :=
  iv_af ev = vs_af c /\ iv_daf ev = vs_daf c /\
  bswap16 (iv_cliport ev) = vs_cport c /\ bswap16 (iv_virtport ev) = vs_vport c /\
  bswap16 (iv_destport ev) = vs_dport c /\
  (vs_af c = AF_INET ->
     iv_cliaddr ev = vs_caddr c mod 2 ^ 32 /\ iv_virtaddr ev = vs_vaddr c mod 2 ^ 32) /\
  (vs_af c <> AF_INET -> iv_cliaddr ev = vs_caddr c /\ iv_virtaddr ev = vs_vaddr c) /\
  (vs_daf c = AF_INET -> iv_destaddr ev = vs_daddr c mod 2 ^ 32) /\
  (vs_daf c <> AF_INET -> iv_destaddr ev = vs_daddr c).

Lemma read_addr_v4 af a : af = AF_INET -> read_addr af a = a mod 2 ^ 32.
Proof. intros ->. unfold read_addr. by rewrite Z.eqb_refl. Qed.

Lemma read_addr_other af a : af <> AF_INET -> read_addr af a = a.
Proof. intros. unfold read_addr. by rewrite (proj2 (Z.eqb_neq _ _)). Qed.

(** A new IPVS connection is reported iff its pointer is not NULL and it
    carries TCP, by one event from which the connection's ports can be read back
    and which has its addresses: the first 32 bits of the kernel's address union for
    an IPv4 family, all of it otherwise. *)
Theorem ip_vs_conn_reported kconn pc perf :
  in_width 16 (vs_cport (kconn pc)) -> in_width 16 (vs_vport (kconn pc)) ->
  in_width 16 (vs_dport (kconn pc)) ->
  (pc <> 0 /\ vs_protocol (kconn pc) = IPPROTO_TCP ->
     exists ev, trace_ip_vs_conn_return kconn pc perf = perf ++ [ev] /\ ip_vs_event_ok (kconn pc) ev) /\
  (~ (pc <> 0 /\ vs_protocol (kconn pc) = IPPROTO_TCP) ->
     trace_ip_vs_conn_return kconn pc perf = perf).
Proof.
  intros Hc Hv Hd. unfold trace_ip_vs_conn_return, send_ip_vs_conn_info. split.
  - intros [Hp Ht]. rewrite (proj2 (Z.eqb_neq _ _) Hp), Ht. cbn [negb Z.eqb IPPROTO_TCP].
    eexists; split; [done|]. unfold ip_vs_event_ok; cbn [iv_af iv_daf iv_cliport iv_virtport
      iv_destport iv_cliaddr iv_virtaddr iv_destaddr].
    rewrite !bswap16_involutive by done.
    split_and!; auto using read_addr_v4, read_addr_other.
  - intros Hno. case_if; [done|]. case_if; [done|]. breflect. tauto.
Qed.

(** A TCP connection 10.0.0.1:40000 -> 10.0.0.9:80 -> 10.0.0.2:8080. *)
Definition ex_vs_conn : ip_vs_conn___gy :=
  IpVsConn 0x409c 0x901f 0x5000 AF_INET 0x0100000a 0x0900000a 0x0200000a IPPROTO_TCP AF_INET.

Lemma ip_vs_conn_reported_witness :
  exists ev, trace_ip_vs_conn_return (fun _ => ex_vs_conn) 4096 [] = [ev] /\ ip_vs_event_ok ex_vs_conn ev.
Proof.
  apply (ip_vs_conn_reported (fun _ => ex_vs_conn) 4096 []); first [by vm_compute | by split].
Defined.
