(* ===== verification/SslCap.v ===== *)
(** * SslCap : the TLS cleartext capture programs, [partha/gy_ssl_cap.bpf.c].

    Uprobes on the TLS library of the captured processes and a probe on
    [tcp_sendmsg] tie a TLS object ([ssl_key]) to its TCP connection
    ([ssl_conn_info]) and copy the cleartext of reads and writes to a ring buffer
    in records that carry TCP-like sequence numbers ([caphdr_t],
    [partha/gy_ssl_cap.h]). *)
From S2P Require Import Prelude BpfMap BpfCommon.

(** ** Data *)
Record ssl_rw_args := SslRwArgs { a_pssl : Z; a_buf : Z; a_pexsize : Z }.

Record ssl_key := SslKey { k_ssl : Z; k_pid : Z }.

#[export] Instance ssl_key_eq_dec : EqDecision ssl_key.
Proof. solve_decision. Defined.

Record ssl_tcp_val := SslTcpVal { v_tkey : ssl_key; v_is_init : bool }.

(** The unions [seraddr] and [cliaddr] are their 128 bits; [ser4addr] and
    [cli4addr] are the low 32 of them. *)
Record addr_tuple := AddrTuple {
  at_seraddr : Z; at_cliaddr : Z; at_netns : Z; at_serport : Z; at_cliport : Z; at_ipver : Z }.

Record ssl_conn_info := SslConnInfo {
  tup : addr_tuple; nxt_cli_seq : Z; nxt_ser_seq : Z;
  is_client : bool; cli_started : bool; ser_started : bool }.

Record caphdr_t := CapHdr {
  h_ts_ns : Z; h_tuple : addr_tuple; h_len : Z; h_pid : Z;
  h_nxt_cli_seq : Z; h_nxt_ser_seq : Z; h_npadbytes : Z; h_is_inbound : bool; h_tcp_flags : Z }.

(** The length of the data behind a header, without the padding. *)
Definition get_act_payload_len (h : caphdr_t) : Z := u32 (h_len h - h_npadbytes h).

Definition get_src_seq_start (h : caphdr_t) : Z :=
  if h_is_inbound h then u32 (h_nxt_cli_seq h - get_act_payload_len h)
  else u32 (h_nxt_ser_seq h - get_act_payload_len h).

(** A submitted ring buffer record: its header and the bytes read from user
    memory (the padding behind them is whatever the ring holds). *)
Record cap_record := CapRecord { r_hdr : caphdr_t; r_payload : list Z }.

(** [sizeof(struct caphdr_t)]: 8 bytes of time, padding to the 16-byte alignment
    of [addr_tuple], its 48 bytes, 4 words, 4 bytes, padded to 96. *)
Definition SIZEOF_caphdr_t : Z := 96.
Definition SSL_SEQ_START : Z := 1024.
Definition SSL_MAX_ONE_RING_SZ : Z := 4096.
Definition SSL_MAX_ONE_PAYLOAD_LEN : Z := SSL_MAX_ONE_RING_SZ - SIZEOF_caphdr_t.
Definition SSL_MAX_TOTAL_PAYLOAD_LEN : Z := 32 * 1024.

Definition GY_TH_FIN : Z := 0x01.
Definition GY_TH_SYN : Z := 0x02.
Definition GY_TH_ACK : Z := 0x10.

(** What the helpers return while a program runs: the current thread, its
    [task_struct] pointer and the [tgid] of its real parent, the time, kernel
    memory, [bpf_probe_read_user] of a number of bytes at a user address ([None]
    on a fault) and of a [size_t], and whether [bpf_ringbuf_reserve] finds room
    behind the records submitted so far. *)
Record ssl_env := SslEnv {
  s_pid_tgid : Z;
  s_current_task : Z;
  s_real_parent_tgid : Z;
  s_ktime_ns : Z;
  s_kmem : Z -> sock;
  s_read_user : Z -> Z -> option (list Z);
  s_read_size_t : Z -> option Z;
  s_ring_room : list cap_record -> bool }.

(** Writing the 32-bit member of a 128-bit union. *)
Definition set_low32 (u v : Z) : Z := u - u mod 2 ^ 32 + v.

(** Fills [ptuple] and returns it with [*pis_client]; [None] (nothing written)
    when the socket is not an IP one or a port is 0. *)
Definition read_addr_tuple (ptuple : addr_tuple) (sk : sock) : option (addr_tuple * bool) :=
  let family := skc_family sk in
  if negb ((family =? AF_INET) || (family =? AF_INET6)) then None else
  let port1 := bswap16 (skc_dport sk) in
  let port2 := bswap16 (inet_sport sk) in
  if (port1 =? 0) || (port2 =? 0) then None else
  let is_inbound := negb (sk_max_ack_backlog sk >? 0) in
  let serport := if is_inbound then port1 else port2 in
  let cliport := if is_inbound then port2 else port1 in
  let netns := match skc_net_inum sk with Some n => n | None => at_netns ptuple end in
  if family =? AF_INET then
    let ser4 := if is_inbound then skc_daddr sk else skc_rcv_saddr sk in
    let cli4 := if is_inbound then skc_rcv_saddr sk else skc_daddr sk in
    Some (AddrTuple (set_low32 (at_seraddr ptuple) ser4) (set_low32 (at_cliaddr ptuple) cli4)
      netns serport cliport 4, is_inbound)
  else
    let ser6 := if is_inbound then skc_v6_daddr sk else skc_v6_rcv_saddr sk in
    let cli6 := if is_inbound then skc_v6_rcv_saddr sk else skc_v6_daddr sk in
    if is_ipv4_mapped_ipv6 ser6 || is_ipv4_mapped_ipv6 cli6 then
      Some (AddrTuple (set_low32 ser6 (last4 ser6)) (set_low32 cli6 (last4 cli6))
        netns serport cliport 4, is_inbound)
    else Some (AddrTuple ser6 cli6 netns serport cliport 6, is_inbound).

(** ** get_cleartext *)

(** [struct ClearArgs] (the connection is passed and returned separately). *)
Record clear_args := ClearArgs {
  c_buf : Z; c_nbytes : Z; c_pid : Z; c_tcp_flags : Z; c_is_write : bool }.

Definition set_seqs (i : ssl_conn_info) (cli ser : Z) (clis sers : bool) : ssl_conn_info :=
  SslConnInfo (tup i) cli ser (is_client i) clis sers.

(** Whether the data of a read or write flows from the server to the client. *)
Definition is_response (i : ssl_conn_info) (is_write : bool) : bool :=
  if is_client i then negb is_write else is_write.

(** The SYN branch: both sequences start afresh. *)
Definition start_seqs (i : ssl_conn_info) (is_resp : bool) : ssl_conn_info :=
  if is_resp then
    let ser := u32 (SSL_SEQ_START + 1) in
    if negb (cli_started i) then set_seqs i (u32 (SSL_SEQ_START + 1)) ser true true
    else set_seqs i SSL_SEQ_START ser (cli_started i) true
  else set_seqs i (u32 (SSL_SEQ_START + 1)) SSL_SEQ_START true false.

(** Counts the bytes in: the connection after, the sequence number of the first
    byte ([startsrcseq]) and the other side's next one ([nxt_dst_seq]). *)
Definition advance_seqs (i : ssl_conn_info) (is_resp : bool) (nbytes : Z) : ssl_conn_info * Z * Z :=
  if is_resp then
    let start := (nbytes >? 0) && negb (ser_started i) in
    let ser := if start then u32 (nxt_ser_seq i + 1) else nxt_ser_seq i in
    let sers := if start then true else ser_started i in
    (set_seqs i (nxt_cli_seq i) (u32 (ser + nbytes)) (cli_started i) sers, ser, nxt_cli_seq i)
  else
    let start := (nbytes >? 0) && negb (cli_started i) in
    let cli := if start then u32 (nxt_cli_seq i + 1) else nxt_cli_seq i in
    let clis := if start then true else cli_started i in
    (set_seqs i (u32 (cli + nbytes)) (nxt_ser_seq i) clis (ser_started i), cli, nxt_ser_seq i).

(** The header both kinds of record get; [srcseq] is the sequence number behind
    the record's last byte. *)
Definition mk_hdr (e : ssl_env) (c : clear_args) (t : addr_tuple) (is_resp : bool)
    (nring rd srcseq nxt_dst_seq : Z) : caphdr_t := {|
  h_ts_ns := s_ktime_ns e; h_tuple := t;
  h_len := u32 (nring - SIZEOF_caphdr_t); h_pid := c_pid c;
  h_nxt_cli_seq := if negb is_resp then srcseq else nxt_dst_seq;
  h_nxt_ser_seq := if negb is_resp then nxt_dst_seq else srcseq;
  h_npadbytes := u16 (nring - (SIZEOF_caphdr_t + rd));
  h_is_inbound := negb is_resp; h_tcp_flags := c_tcp_flags c |}.

(** How the record loop ends: out of its condition or with [break], or with
    [goto done1].  Both carry [nleft] and the ring. *)
Inductive loop_exit := LoopDone (nleft : Z) (ring : list cap_record)
                     | LoopFail (nleft : Z) (ring : list cap_record).

(** The loop over [i]; [n] is the iterations left of
    [SSL_MAX_TOTAL_PAYLOAD_LEN/SSL_MAX_ONE_PAYLOAD_LEN + 1]. *)
Fixpoint clear_loop (e : ssl_env) (c : clear_args) (t : addr_tuple) (is_resp : bool)
    (nloops nxt_dst_seq pend : Z) (n : nat) (i startsrcseq nleft psrc : Z)
    (ring : list cap_record) : loop_exit :=
  match n with
  | O => LoopDone nleft ring
  | S n' =>
      if negb ((i <? nloops) && (psrc <=? pend)) then LoopDone nleft ring else
      let rd := if nleft >? SSL_MAX_ONE_PAYLOAD_LEN then SSL_MAX_ONE_PAYLOAD_LEN else nleft in
      if negb (s_ring_room e ring) then LoopFail nleft ring else
      let startsrcseq := u32 (startsrcseq + rd) in
      let hdr := mk_hdr e c t is_resp SSL_MAX_ONE_RING_SZ rd startsrcseq nxt_dst_seq in
      let data := if (rd >? 0) && (rd <=? SSL_MAX_ONE_PAYLOAD_LEN)
                  then s_read_user e psrc rd else Some [] in
      match data with
      | None => LoopFail nleft ring
      | Some bytes =>
          let ring := ring ++ [CapRecord hdr bytes] in
          let nleft := u32 (nleft - rd) in
          let psrc := psrc + rd in
          if (nleft =? 0) || (psrc >=? pend) then LoopDone nleft ring
          else clear_loop e c t is_resp nloops nxt_dst_seq pend n' (i + 1) startsrcseq nleft psrc ring
      end
  end.

(** The record for the bytes beyond [SSL_MAX_TOTAL_PAYLOAD_LEN]: the last 256 of
    them at most. *)
Definition skip_record (e : ssl_env) (c : clear_args) (t : addr_tuple) (is_resp : bool)
    (nskipped startsrcseq_end nxt_dst_seq : Z) (ring : list cap_record) : list cap_record :=
  if nskipped >? 0 then
    let rd := if nskipped >? 256 then 256 else nskipped in
    if negb (s_ring_room e ring) then ring else
    let hdr := mk_hdr e c t is_resp (256 + SIZEOF_caphdr_t) rd startsrcseq_end nxt_dst_seq in
    match s_read_user e (c_buf c + c_nbytes c - rd) rd with
    | None => ring
    | Some bytes => ring ++ [CapRecord hdr bytes]
    end
  else ring.

(** Returns the result, the connection with its new sequence numbers, and the
    ring. *)
Definition get_cleartext (e : ssl_env) (info : ssl_conn_info) (c : clear_args)
    (ring : list cap_record) : bool * ssl_conn_info * list cap_record :=
  let nbytes := c_nbytes c in
  if nbytes <? 0 then (false, info, ring) else
  let is_resp := is_response info (c_is_write c) in
  let info := if negb (Z.land (c_tcp_flags c) GY_TH_SYN =? 0) then start_seqs info is_resp else info in
  let '(info, startsrcseq, nxt_dst_seq) := advance_seqs info is_resp nbytes in
  let nleft := if nbytes <? SSL_MAX_TOTAL_PAYLOAD_LEN then nbytes else SSL_MAX_TOTAL_PAYLOAD_LEN in
  let nloops := nleft / SSL_MAX_ONE_PAYLOAD_LEN + 1 in
  let nskipped := u32 (nbytes - nleft) in
  let startsrcseq_end := u32 (startsrcseq + nbytes) in
  let pend := c_buf c + nleft in
  match clear_loop e c (tup info) is_resp nloops nxt_dst_seq pend
          (Z.to_nat (SSL_MAX_TOTAL_PAYLOAD_LEN / SSL_MAX_ONE_PAYLOAD_LEN + 1))
          0 startsrcseq nleft (c_buf c) ring with
  | LoopFail nleft ring => (nleft =? 0, info, ring)
  | LoopDone nleft ring =>
      (nleft =? 0, info,
       skip_record e c (tup info) is_resp nskipped startsrcseq_end nxt_dst_seq ring)
  end.

(** ** The programs *)
Section SslCap.
Context {HASH LRU : BpfMapOps}.

Record ssl_st := SslSt {
  ssl_conn_map : @bmap LRU ssl_key ssl_conn_info;
  ssl_unmap : @bmap LRU ssl_key Z;
  ssl_initmap : @bmap LRU ssl_key Z;
  ssl_tcp_unmap : @bmap LRU Z ssl_tcp_val;
  ssl_write_args_map : @bmap HASH Z ssl_rw_args;
  ssl_read_args_map : @bmap HASH Z ssl_rw_args;
  pid_map : @bmap HASH Z Z;
  sslcapring : list cap_record }.

Definition ssl_init : ssl_st :=
  SslSt empty_map empty_map empty_map empty_map empty_map empty_map empty_map [].

Definition set_conn_map m (s : ssl_st) : ssl_st :=
  SslSt m (ssl_unmap s) (ssl_initmap s) (ssl_tcp_unmap s) (ssl_write_args_map s)
    (ssl_read_args_map s) (pid_map s) (sslcapring s).
Definition set_unmap m (s : ssl_st) : ssl_st :=
  SslSt (ssl_conn_map s) m (ssl_initmap s) (ssl_tcp_unmap s) (ssl_write_args_map s)
    (ssl_read_args_map s) (pid_map s) (sslcapring s).
Definition set_initmap m (s : ssl_st) : ssl_st :=
  SslSt (ssl_conn_map s) (ssl_unmap s) m (ssl_tcp_unmap s) (ssl_write_args_map s)
    (ssl_read_args_map s) (pid_map s) (sslcapring s).
Definition set_tcp_unmap m (s : ssl_st) : ssl_st :=
  SslSt (ssl_conn_map s) (ssl_unmap s) (ssl_initmap s) m (ssl_write_args_map s)
    (ssl_read_args_map s) (pid_map s) (sslcapring s).
Definition set_pid_map m (s : ssl_st) : ssl_st :=
  SslSt (ssl_conn_map s) (ssl_unmap s) (ssl_initmap s) (ssl_tcp_unmap s) (ssl_write_args_map s)
    (ssl_read_args_map s) m (sslcapring s).
Definition set_ring r (s : ssl_st) : ssl_st :=
  SslSt (ssl_conn_map s) (ssl_unmap s) (ssl_initmap s) (ssl_tcp_unmap s) (ssl_write_args_map s)
    (ssl_read_args_map s) (pid_map s) r.

(** [is_write ? &ssl_write_args_map : &ssl_read_args_map]. *)
Definition args_map (is_write : bool) (s : ssl_st) : @bmap HASH Z ssl_rw_args :=
  if is_write then ssl_write_args_map s else ssl_read_args_map s.
Definition set_args_map (is_write : bool) m (s : ssl_st) : ssl_st :=
  if is_write then
    SslSt (ssl_conn_map s) (ssl_unmap s) (ssl_initmap s) (ssl_tcp_unmap s) m
      (ssl_read_args_map s) (pid_map s) (sslcapring s)
  else
    SslSt (ssl_conn_map s) (ssl_unmap s) (ssl_initmap s) (ssl_tcp_unmap s) (ssl_write_args_map s)
      m (pid_map s) (sslcapring s).

Definition valid_cap_pid (e : ssl_env) (pid : Z) (checkppid : bool) (s : ssl_st) : bool * ssl_st :=
  let is_valid p := match lookup_elem (pid_map s) p with Some v => v =? 1 | None => false end in
  if is_valid pid then (true, s) else
  if negb checkppid then (false, s) else
  if s_current_task e =? 0 then (false, s) else
  let ppid := s_real_parent_tgid e in
  if ppid =? 0 then (false, s) else
  if is_valid ppid then (true, set_pid_map (map_update (pid_map s) pid 1) s)
  else (false, s).

(** [get_cleartext] on a connection that is in [ssl_conn_map]: the program works
    on the map's own copy. *)
Definition cleartext_mapped (e : ssl_env) (key : ssl_key) (info : ssl_conn_info)
    (c : clear_args) (s : ssl_st) : ssl_st :=
  let '(_, info', ring') := get_cleartext e info c (sslcapring s) in
  set_ring ring' (set_conn_map (store_elem (ssl_conn_map s) key info') s).

Definition ssl_rw_probe (e : ssl_env) (ssl buffer pwritten : Z) (is_write : bool) (s : ssl_st) : ssl_st :=
  let pidtid := s_pid_tgid e in
  let pid := pid_of pidtid in
  let '(ok, s) := valid_cap_pid e pid true s in
  if negb ok then s else
  let tkey := SslKey ssl pid in
  let '(rc, unmap) := delete_elem (ssl_unmap s) tkey in
  let s := set_unmap unmap s in
  let s :=
    if rc =? 0 then
      match lookup_elem (ssl_conn_map s) tkey with
      | Some _ => s
      | None =>
          let '(rc_init, initmap) := delete_elem (ssl_initmap s) tkey in
          let is_init := rc_init =? 0 in
          let s := set_initmap initmap s in
          let other := match lookup_elem (ssl_tcp_unmap s) pidtid with
                       | None => true
                       | Some pval => negb (k_ssl (v_tkey pval) =? ssl)
                       end in
          if other then
            set_tcp_unmap (map_update (ssl_tcp_unmap s) pidtid (SslTcpVal tkey is_init)) s
          else s
      end
    else s in
  let args := SslRwArgs ssl buffer pwritten in
  set_args_map is_write (map_update (args_map is_write s) pidtid args) s.

(** The number of bytes a finished call moved: the return value, or the count
    behind the pointer of the [_ex] calls; [None] when nothing is to be taken. *)
Definition ret_nbytes (e : ssl_env) (args : ssl_rw_args) (rc : Z) : option Z :=
  if a_pexsize args =? 0 then Some rc else
  if negb (rc =? 1) then None else
  match s_read_size_t e (a_pexsize args) with
  | None => None
  | Some count => if swrap 64 count <=? 0 then None else Some (swrap 32 count)
  end.

Definition ssl_ret_rw_probe (e : ssl_env) (rc : Z) (is_write : bool) (s : ssl_st) : ssl_st :=
  let pidtid := s_pid_tgid e in
  let done s := set_args_map is_write (map_delete (args_map is_write s) pidtid) s in
  if rc <=? 0 then done s else
  match lookup_elem (args_map is_write s) pidtid with
  | None => s
  | Some args =>
      match ret_nbytes e args rc with
      | None => done s
      | Some nbytes =>
          let key := SslKey (a_pssl args) (pid_of pidtid) in
          match lookup_elem (ssl_conn_map s) key with
          | None => done (set_unmap (map_update (ssl_unmap s) key 0) s)
          | Some info =>
              done (cleartext_mapped e key info
                (ClearArgs (a_buf args) nbytes (pid_of pidtid) GY_TH_ACK is_write) s)
          end
      end
  end.

Definition ssl_do_handshake (e : ssl_env) (ssl : Z) (s : ssl_st) : ssl_st :=
  let pidtid := s_pid_tgid e in
  let pid := pid_of pidtid in
  let '(ok, s) := valid_cap_pid e pid true s in
  if negb ok then s else
  let tkey := SslKey ssl pid in
  match lookup_elem (ssl_conn_map s) tkey with
  | Some _ => s
  | None => set_tcp_unmap (map_update (ssl_tcp_unmap s) pidtid (SslTcpVal tkey true)) s
  end.

Definition ssl_ret_do_handshake (e : ssl_env) (s : ssl_st) : ssl_st :=
  set_tcp_unmap (map_delete (ssl_tcp_unmap s) (s_pid_tgid e)) s.

Definition ssl_write (e : ssl_env) (ssl buffer num : Z) (s : ssl_st) : ssl_st :=
  ssl_rw_probe e ssl buffer 0 true s.
Definition ssl_ret_write (e : ssl_env) (rc : Z) (s : ssl_st) : ssl_st := ssl_ret_rw_probe e rc true s.
Definition ssl_write_ex (e : ssl_env) (ssl buffer num written : Z) (s : ssl_st) : ssl_st :=
  ssl_rw_probe e ssl buffer written true s.
Definition ssl_ret_write_ex (e : ssl_env) (rc : Z) (s : ssl_st) : ssl_st := ssl_ret_rw_probe e rc true s.
Definition ssl_read (e : ssl_env) (ssl buffer num : Z) (s : ssl_st) : ssl_st :=
  ssl_rw_probe e ssl buffer 0 false s.
Definition ssl_ret_read (e : ssl_env) (rc : Z) (s : ssl_st) : ssl_st := ssl_ret_rw_probe e rc false s.
Definition ssl_read_ex (e : ssl_env) (ssl buffer num readbytes : Z) (s : ssl_st) : ssl_st :=
  ssl_rw_probe e ssl buffer readbytes false s.
Definition ssl_ret_read_ex (e : ssl_env) (rc : Z) (s : ssl_st) : ssl_st := ssl_ret_rw_probe e rc false s.

Definition zero_tuple : addr_tuple := AddrTuple 0 0 0 0 0 0.

Definition upd_tcp_sock (e : ssl_env) (sk : Z) (is_write : bool) (s : ssl_st) : ssl_st :=
  let pidtid := s_pid_tgid e in
  match lookup_elem (ssl_tcp_unmap s) pidtid with
  | None => s
  | Some pval =>
      let done s := set_tcp_unmap (map_delete (ssl_tcp_unmap s) pidtid) s in
      match read_addr_tuple zero_tuple (s_kmem e sk) with
      | None => done s
      | Some (t, client) =>
          let sslinfo := SslConnInfo t 0 0 client false false in
          let '(sslinfo, s) :=
            if v_is_init pval then
              let '(_, info, ring) := get_cleartext e sslinfo
                (ClearArgs 0 0 (pid_of pidtid) GY_TH_SYN true) (sslcapring s) in
              (info, set_ring ring s)
            else (sslinfo, s) in
          done (set_conn_map (map_update (ssl_conn_map s) (v_tkey pval) sslinfo) s)
      end
  end.

Definition handle_ssl_shutdown (e : ssl_env) (ssl pidtid : Z) (is_ssl_free : bool) (s : ssl_st) : ssl_st :=
  let tkey := SslKey ssl (pid_of pidtid) in
  match lookup_elem (ssl_conn_map s) tkey with
  | None =>
      let s := set_unmap (map_delete (ssl_unmap s) tkey) s in
      set_initmap (map_delete (ssl_initmap s) tkey) s
  | Some info =>
      let s := cleartext_mapped e tkey info
        (ClearArgs 0 0 (pid_of pidtid) (Z.lor GY_TH_FIN GY_TH_ACK) true) s in
      set_conn_map (map_delete (ssl_conn_map s) tkey) s
  end.

Definition ssl_shutdown (e : ssl_env) (ssl : Z) (s : ssl_st) : ssl_st :=
  handle_ssl_shutdown e ssl (s_pid_tgid e) false s.
Definition ssl_free (e : ssl_env) (ssl : Z) (s : ssl_st) : ssl_st :=
  handle_ssl_shutdown e ssl (s_pid_tgid e) true s.

(** Both marks of a TLS object seen before its connection is known. *)
Definition mark_unmapped (tkey : ssl_key) (s : ssl_st) : ssl_st :=
  let s := set_unmap (map_update (ssl_unmap s) tkey 0) s in
  set_initmap (map_update (ssl_initmap s) tkey 0) s.

Definition ssl_set_ex_data (e : ssl_env) (ssl : Z) (s : ssl_st) : ssl_st :=
  let pid := pid_of (s_pid_tgid e) in
  let '(ok, s) := valid_cap_pid e pid true s in
  if negb ok then s else
  let tkey := SslKey ssl pid in
  match lookup_elem (ssl_conn_map s) tkey with
  | Some _ => s
  | None => mark_unmapped tkey s
  end.

Definition ssl_set_accept_state (e : ssl_env) (ssl : Z) (s : ssl_st) : ssl_st :=
  let pidtid := s_pid_tgid e in
  let pid := pid_of pidtid in
  let '(ok, s) := valid_cap_pid e pid true s in
  if negb ok then s else
  let tkey := SslKey ssl pid in
  let s :=
    match lookup_elem (ssl_conn_map s) tkey with
    | Some info =>
        let s :=
          if ser_started info || cli_started info then
            cleartext_mapped e tkey info
              (ClearArgs 0 0 (pid_of pidtid) (Z.lor GY_TH_FIN GY_TH_ACK) true) s
          else s in
        set_conn_map (map_delete (ssl_conn_map s) tkey) s
    | None => s
    end in
  mark_unmapped tkey s.

Definition fentry_tcp_sendmsg_entry (e : ssl_env) (sk : Z) (s : ssl_st) : ssl_st :=
  upd_tcp_sock e sk true s.

Definition trace_enter_execve (e : ssl_env) (s : ssl_st) : ssl_st :=
  set_pid_map (map_delete (pid_map s) (pid_of (s_pid_tgid e))) s.

Definition sched_process_exit (e : ssl_env) (s : ssl_st) : ssl_st :=
  let pidtid := s_pid_tgid e in
  let pid := pid_of pidtid in
  let tid := u32 pidtid in
  if pid =? tid then set_pid_map (map_delete (pid_map s) pid) s else s.

(** ** All the steps

    The programs, and what user space does to [pid_map] ([GY_SSLCAP] adds and
    removes the processes to capture). *)
Inductive ssl_step_l :=
| L_handshake (ssl : Z) | L_ret_handshake
| L_write (ssl buffer num : Z) | L_ret_write (rc : Z)
| L_write_ex (ssl buffer num written : Z) | L_ret_write_ex (rc : Z)
| L_read (ssl buffer num : Z) | L_ret_read (rc : Z)
| L_read_ex (ssl buffer num readbytes : Z) | L_ret_read_ex (rc : Z)
| L_shutdown (ssl : Z) | L_free (ssl : Z)
| L_set_ex_data (ssl : Z) | L_set_accept_state (ssl : Z)
| L_tcp_sendmsg (sk : Z) | L_execve | L_exit
| L_user_enable (pid : Z) | L_user_disable (pid : Z).

Definition run_ssl (l : ssl_step_l) (e : ssl_env) (s : ssl_st) : ssl_st :=
  match l with
  | L_handshake ssl => ssl_do_handshake e ssl s
  | L_ret_handshake => ssl_ret_do_handshake e s
  | L_write ssl b n => ssl_write e ssl b n s
  | L_ret_write rc => ssl_ret_write e rc s
  | L_write_ex ssl b n w => ssl_write_ex e ssl b n w s
  | L_ret_write_ex rc => ssl_ret_write_ex e rc s
  | L_read ssl b n => ssl_read e ssl b n s
  | L_ret_read rc => ssl_ret_read e rc s
  | L_read_ex ssl b n r => ssl_read_ex e ssl b n r s
  | L_ret_read_ex rc => ssl_ret_read_ex e rc s
  | L_shutdown ssl => ssl_shutdown e ssl s
  | L_free ssl => ssl_free e ssl s
  | L_set_ex_data ssl => ssl_set_ex_data e ssl s
  | L_set_accept_state ssl => ssl_set_accept_state e ssl s
  | L_tcp_sendmsg sk => fentry_tcp_sendmsg_entry e sk s
  | L_execve => trace_enter_execve e s
  | L_exit => sched_process_exit e s
  | L_user_enable pid => set_pid_map (map_update (pid_map s) pid 1) s
  | L_user_disable pid => set_pid_map (map_delete (pid_map s) pid) s
  end.

End SslCap.

(** ** What a capture writes *)

(** [n] bytes of a memory from address [a]. *)
Definition mem_read (mem : Z -> Z) (a n : Z) : list Z := (fun i => mem (a + i)) <$> seqZ 0 n.

Lemma mem_read_app mem a n m :
  0 <= n -> 0 <= m -> mem_read mem a (n + m) = mem_read mem a n ++ mem_read mem (a + n) m.
Proof.
  intros. unfold mem_read. rewrite seqZ_app, fmap_app by lia. f_equal.
  replace (seqZ (0 + n) m) with (Z.add n <$> seqZ 0 m) by (rewrite fmap_add_seqZ; f_equal; lia).
  rewrite <- list_fmap_compose. apply list_fmap_ext. intros. simpl. f_equal. lia.
Qed.

Lemma length_mem_read mem a n : 0 <= n -> Z.of_nat (length (mem_read mem a n)) = n.
Proof. intros. unfold mem_read. rewrite length_fmap, length_seqZ. lia. Qed.

(** The ring has room and the captured buffer can be read. *)
Definition capture_works (e : ssl_env) (mem : Z -> Z) : Prop :=
  (forall ring, s_ring_room e ring = true) /\
  (forall a n, 0 < n -> s_read_user e a n = Some (mem_read mem a n)).

(** The records carry consecutive bytes of one direction of the stream, the
    first byte of the first one having sequence number [seq]. *)
Fixpoint consecutive (seq : Z) (recs : list cap_record) : Prop :=
  match recs with
  | [] => True
  | r :: rs =>
      get_src_seq_start (r_hdr r) = u32 seq /\
      get_act_payload_len (r_hdr r) = Z.of_nat (length (r_payload r)) /\
      consecutive (seq + Z.of_nat (length (r_payload r))) rs
  end.

Lemma consecutive_cong recs : forall a b,
  u32 a = u32 b -> consecutive a recs -> consecutive b recs.
Proof.
  induction recs as [|r recs IH]; intros a b Hab; [done|]. cbn [consecutive].
  intros (H1 & H2 & H3). split; [congruence|]. split; [done|].
  eapply IH, H3. rewrite <- (wrap_add_l _ a), <- (wrap_add_l _ b). by rewrite Hab.
Qed.

(** What the header of each record of one capture says of its connection. *)
Definition hdr_of (e : ssl_env) (c : clear_args) (t : addr_tuple) (is_resp : bool)
    (nxt_dst_seq : Z) (r : cap_record) : Prop :=
  let h := r_hdr r in
  h_ts_ns h = s_ktime_ns e /\ h_tuple h = t /\ h_pid h = c_pid c /\
  h_tcp_flags h = c_tcp_flags c /\ h_is_inbound h = negb is_resp /\
  (if is_resp then h_nxt_cli_seq h else h_nxt_ser_seq h) = nxt_dst_seq /\
  Z.of_nat (length (r_payload r)) <= SSL_MAX_ONE_PAYLOAD_LEN.

Lemma mk_hdr_len e c t is_resp nring rd srcseq dst :
  SIZEOF_caphdr_t + rd <= nring <= SSL_MAX_ONE_RING_SZ -> 0 <= rd ->
  get_act_payload_len (mk_hdr e c t is_resp nring rd srcseq dst) = rd.
Proof.
  unfold get_act_payload_len, mk_hdr, SIZEOF_caphdr_t, SSL_MAX_ONE_RING_SZ. simpl. intros.
  rewrite (wrap_id 32 (nring - 96)), (wrap_id 16), wrap_id by (unfold in_width; lia). lia.
Qed.

Lemma mk_hdr_start e c t is_resp nring rd seq dst :
  SIZEOF_caphdr_t + rd <= nring <= SSL_MAX_ONE_RING_SZ -> 0 <= rd ->
  get_src_seq_start (mk_hdr e c t is_resp nring rd (u32 (seq + rd)) dst) = u32 seq.
Proof.
  intros. unfold get_src_seq_start. rewrite mk_hdr_len by lia.
  unfold mk_hdr; simpl. destruct is_resp; simpl; rewrite wrap_sub_l; f_equal; lia.
Qed.

Section Loop.
Context (e : ssl_env) (mem : Z -> Z) (Hcap : capture_works e mem).
Context (c : clear_args) (t : addr_tuple) (is_resp : bool) (nxt_dst_seq : Z).

(** The loop writes all that is left, in full records but the last. *)
Lemma clear_loop_works n : forall i seq nleft psrc ring nleft0,
  (0 < n)%nat -> 0 <= i -> 0 <= nleft <= SSL_MAX_ONE_PAYLOAD_LEN * Z.of_nat n ->
  SSL_MAX_ONE_PAYLOAD_LEN * i + nleft = nleft0 -> nleft0 < 2 ^ 32 ->
  exists recs,
    clear_loop e c t is_resp (nleft0 / SSL_MAX_ONE_PAYLOAD_LEN + 1) nxt_dst_seq (psrc + nleft)
      n i seq nleft psrc ring = LoopDone 0 (ring ++ recs) /\
    concat (r_payload <$> recs) = mem_read mem psrc nleft /\
    consecutive seq recs /\ Forall (hdr_of e c t is_resp nxt_dst_seq) recs /\ recs <> [].
Proof.
  destruct Hcap as [Hroom Hread].
  unfold SSL_MAX_ONE_PAYLOAD_LEN, SSL_MAX_ONE_RING_SZ, SIZEOF_caphdr_t in *.
  change (4096 - 96) with 4000 in *.
  induction n as [|n IH]; intros i seq nleft psrc ring nleft0 Hn Hi Hl Hl0 Hw; [lia|].
  cbn [clear_loop]. unfold SSL_MAX_ONE_PAYLOAD_LEN, SSL_MAX_ONE_RING_SZ, SIZEOF_caphdr_t.
  change (4096 - 96) with 4000.
  rewrite (proj2 (Z.ltb_lt i (nleft0 / 4000 + 1))) by zdiv.
  rewrite (proj2 (Z.leb_le psrc (psrc + nleft))) by lia. cbn [andb negb]. rewrite Hroom. cbn [negb].
  set (rd := if nleft >? 4000 then 4000 else nleft).
  assert (0 <= rd <= 4000 /\ rd <= nleft /\ (nleft <= 4000 -> rd = nleft) /\
    (4000 < nleft -> rd = 4000)) as (Hrd & Hrdl & Hlast & Hfull).
  { unfold rd. rewrite Z.gtb_ltb. destruct (Z.ltb_spec 4000 nleft); lia. }
  set (data := if (rd >? 0) && (rd <=? 4000) then s_read_user e psrc rd else Some []).
  assert (data = Some (mem_read mem psrc rd)) as ->.
  { unfold data. destruct (Z.eq_dec rd 0) as [->|]; [done|].
    rewrite Z.gtb_ltb, (proj2 (Z.ltb_lt _ _)), (proj2 (Z.leb_le _ _)) by lia. apply Hread. lia. }
  rewrite (wrap_id 32 (nleft - rd)) by (unfold in_width; lia).
  set (r := CapRecord _ _).
  assert (hdr_of e c t is_resp nxt_dst_seq r) as Hr.
  { unfold hdr_of, r. cbn [r_hdr r_payload]. rewrite length_mem_read by lia.
    unfold mk_hdr, SSL_MAX_ONE_PAYLOAD_LEN, SSL_MAX_ONE_RING_SZ, SIZEOF_caphdr_t; simpl.
    by repeat split; try lia; destruct is_resp. }
  assert (forall rs, consecutive (seq + rd) rs -> consecutive seq (r :: rs)) as Hc.
  { intros rs Hrs. unfold r; cbn [consecutive r_hdr r_payload].
    rewrite length_mem_read, mk_hdr_start, mk_hdr_len; unfold SIZEOF_caphdr_t, SSL_MAX_ONE_RING_SZ; auto; lia. }
  destruct (Z.eq_dec nleft rd) as [Heq|Hne].
  - exists [r]. rewrite (proj2 (Z.eqb_eq (nleft - rd) 0)) by lia. cbn [orb]. rewrite Heq, Z.sub_diag.
    split; [done|]. split; [by cbn; rewrite app_nil_r|].
    split; [by apply Hc|]. by split; [constructor|].
  - assert (4000 < nleft /\ rd = 4000) as [? Hrd4] by lia.
    rewrite (proj2 (Z.eqb_neq (nleft - rd) 0)), Z.geb_leb, (proj2 (Z.leb_gt _ _)) by lia. cbn [orb].
    destruct (IH (i + 1) (u32 (seq + rd)) (nleft - rd) (psrc + rd) (ring ++ [r]) nleft0)
      as (recs & Hrun & Hcat & Hseq & Hall & _); try lia.
    exists (r :: recs). replace (psrc + rd + (nleft - rd)) with (psrc + nleft) in Hrun by lia.
    rewrite Hrun, <- app_assoc. split; [done|]. split.
    + cbn [fmap list_fmap concat]. rewrite Hcat. cbn [r_payload r].
      by rewrite <- mem_read_app, Zplus_minus by lia.
    + split; [|by split; [constructor|]]. apply Hc.
      eapply consecutive_cong; [|done]. by rewrite wrap_wrap.
Qed.
End Loop.

(** The connection and the two sequence numbers a capture works with. *)
Definition capture_seqs (info : ssl_conn_info) (c : clear_args) : ssl_conn_info * Z * Z :=
  let is_resp := is_response info (c_is_write c) in
  advance_seqs
    (if negb (Z.land (c_tcp_flags c) GY_TH_SYN =? 0) then start_seqs info is_resp else info)
    is_resp (c_nbytes c).

(** The record of the skipped bytes, when there are some. *)
Definition tail_ok (e : ssl_env) (mem : Z -> Z) (c : clear_args) (t : addr_tuple)
    (is_resp : bool) (seq dst : Z) (tail : list cap_record) : Prop :=
  if c_nbytes c <=? SSL_MAX_TOTAL_PAYLOAD_LEN then tail = [] else
  let rd := Z.min 256 (c_nbytes c - SSL_MAX_TOTAL_PAYLOAD_LEN) in
  exists r, tail = [r] /\ r_payload r = mem_read mem (c_buf c + c_nbytes c - rd) rd /\
    get_src_seq_start (r_hdr r) = u32 (seq + c_nbytes c - rd) /\
    get_act_payload_len (r_hdr r) = rd /\ hdr_of e c t is_resp dst r.

Lemma skip_record_works e mem c t is_resp seq dst ring :
  capture_works e mem -> SSL_MAX_TOTAL_PAYLOAD_LEN <= c_nbytes c < 2 ^ 31 ->
  exists tail, skip_record e c t is_resp
    (u32 (c_nbytes c - SSL_MAX_TOTAL_PAYLOAD_LEN)) (u32 (seq + c_nbytes c)) dst ring = ring ++ tail /\
    tail_ok e mem c t is_resp seq dst tail.
Proof.
  intros [Hroom Hread] Hn. unfold skip_record, tail_ok, SSL_MAX_TOTAL_PAYLOAD_LEN in *.
  rewrite wrap_id by (unfold in_width; lia). rewrite Z.gtb_ltb.
  destruct (Z.leb_spec (c_nbytes c) (32 * 1024)).
  - rewrite (proj2 (Z.ltb_ge _ _)) by lia. exists []. by rewrite app_nil_r.
  - rewrite (proj2 (Z.ltb_lt _ _)) by lia. rewrite Hroom. cbn [negb]. rewrite Z.gtb_ltb.
    set (rd := if 256 <? c_nbytes c - 32 * 1024 then 256 else c_nbytes c - 32 * 1024).
    assert (rd = Z.min 256 (c_nbytes c - 32 * 1024)) as Hrd
      by (unfold rd; destruct (Z.ltb_spec 256 (c_nbytes c - 32 * 1024)); lia).
    rewrite Hread by lia. eexists; split; [done|]. eexists; split; [done|].
    rewrite <- Hrd. cbn [r_payload r_hdr]. split; [done|].
    rewrite mk_hdr_len by (unfold SIZEOF_caphdr_t, SSL_MAX_ONE_RING_SZ; lia).
    replace (seq + c_nbytes c) with (seq + c_nbytes c - rd + rd) by lia.
    rewrite mk_hdr_start by (unfold SIZEOF_caphdr_t, SSL_MAX_ONE_RING_SZ; lia).
    unfold hdr_of; cbn [r_payload r_hdr]. rewrite length_mem_read by lia.
    split; [f_equal; lia|]. split; [done|].
    unfold mk_hdr, SSL_MAX_ONE_PAYLOAD_LEN, SSL_MAX_ONE_RING_SZ, SIZEOF_caphdr_t; simpl.
    by repeat split; try lia; destruct is_resp.
Qed.

Lemma skip_record_none e c t is_resp endseq dst ring :
  skip_record e c t is_resp 0 endseq dst ring = ring.
Proof. done. Qed.

Lemma get_cleartext_works e mem info c ring :
  capture_works e mem -> 0 <= c_nbytes c < 2 ^ 31 ->
  let is_resp := is_response info (c_is_write c) in
  let '(info', seq, dst) := capture_seqs info c in
  exists recs tail,
    get_cleartext e info c ring = (true, info', ring ++ recs ++ tail) /\
    concat (r_payload <$> recs) =
      mem_read mem (c_buf c) (Z.min (c_nbytes c) SSL_MAX_TOTAL_PAYLOAD_LEN) /\
    consecutive seq recs /\ Forall (hdr_of e c (tup info') is_resp dst) recs /\ recs <> [] /\
    tail_ok e mem c (tup info') is_resp seq dst tail.
Proof.
  intros Hcap Hn is_resp. unfold capture_seqs, get_cleartext. fold is_resp.
  rewrite (proj2 (Z.ltb_ge (c_nbytes c) 0)) by lia.
  destruct (advance_seqs _ _ _) as [[info' seq] dst].
  set (nleft := if c_nbytes c <? SSL_MAX_TOTAL_PAYLOAD_LEN then _ else _).
  assert (nleft = Z.min (c_nbytes c) SSL_MAX_TOTAL_PAYLOAD_LEN) as Hnl.
  { unfold nleft. destruct (Z.ltb_spec (c_nbytes c) SSL_MAX_TOTAL_PAYLOAD_LEN); lia. }
  destruct (clear_loop_works e mem Hcap c (tup info') is_resp dst
    (Z.to_nat (SSL_MAX_TOTAL_PAYLOAD_LEN / SSL_MAX_ONE_PAYLOAD_LEN + 1))
    0 seq nleft (c_buf c) ring nleft) as (recs & Hrun & Hcat & Hseq & Hall & Hne);
    [vm_compute; lia| lia | | lia | | ].
  { change (Z.of_nat _) with 9. unfold SSL_MAX_ONE_PAYLOAD_LEN, SSL_MAX_TOTAL_PAYLOAD_LEN,
      SSL_MAX_ONE_RING_SZ, SIZEOF_caphdr_t in *. lia. }
  { unfold SSL_MAX_TOTAL_PAYLOAD_LEN in *. lia. }
  rewrite Hrun, Z.eqb_refl. rewrite <- Hnl.
  destruct (Z.lt_ge_cases (c_nbytes c) SSL_MAX_TOTAL_PAYLOAD_LEN) as [Hlt|Hge].
  - replace (c_nbytes c - nleft) with 0 by lia. change (u32 0) with 0.
    rewrite skip_record_none. exists recs, []. rewrite app_nil_r.
    split_and!; auto. unfold tail_ok. by rewrite (proj2 (Z.leb_le _ _)) by lia.
  - destruct (skip_record_works e mem c (tup info') is_resp seq dst (ring ++ recs) Hcap)
      as (tail & Htail & Hok); [lia|].
    replace nleft with SSL_MAX_TOTAL_PAYLOAD_LEN in * by lia.
    exists recs, tail. rewrite Htail, <- app_assoc. by split_and!.
Qed.

(** A capture of no bytes (SYN and FIN) sends one record without data. *)
Lemma get_cleartext_empty e info c ring :
  c_nbytes c = 0 -> s_ring_room e ring = true ->
  get_cleartext e info c ring =
    (true, (capture_seqs info c).1.1,
     ring ++ [CapRecord (mk_hdr e c (tup (capture_seqs info c).1.1) (is_response info (c_is_write c))
       SSL_MAX_ONE_RING_SZ 0 (u32 ((capture_seqs info c).1.2 + 0)) (capture_seqs info c).2) []]).
Proof.
  intros Hn Hroom. unfold get_cleartext, capture_seqs. rewrite Hn. change (0 <? 0) with false. cbv iota.
  destruct (advance_seqs _ _ _) as [[info' seq] dst]. cbn [fst snd].
  change (0 <? SSL_MAX_TOTAL_PAYLOAD_LEN) with true. cbv iota.
  change (Z.to_nat _) with (S 8). generalize 8%nat as n. intros n. cbn [clear_loop].
  change (0 <? 0 / SSL_MAX_ONE_PAYLOAD_LEN + 1) with true.
  rewrite Z.add_0_r, (proj2 (Z.leb_le (c_buf c) (c_buf c))), Hroom by lia. cbn [andb negb].
  change (0 >? SSL_MAX_ONE_PAYLOAD_LEN) with false. cbv iota.
  change (0 >? 0) with false. cbn [andb]. change (u32 (0 - 0)) with 0. cbn [Z.eqb orb].
  done.
Qed.

(** C7 : when the ring has room and the buffer can be read, [get_cleartext] of
    [nbytes] bytes (any non-negative [int]) succeeds and appends records that
    carry, in order and without gap in their sequence numbers, exactly the first
    32768 bytes of the buffer (all of it when it is not longer), each at most
    4000 bytes, followed, when bytes were left out, by one record with the last
    256 of them at the sequence numbers they have in the stream.  Every header
    names the connection, process, time, flags and direction of the call. *)
Theorem get_cleartext_complete e mem info c ring info' seq dst :
  capture_works e mem -> 0 <= c_nbytes c < 2 ^ 31 ->
  capture_seqs info c = (info', seq, dst) ->
  let is_resp := is_response info (c_is_write c) in
  exists recs tail,
    get_cleartext e info c ring = (true, info', ring ++ recs ++ tail) /\
    concat (r_payload <$> recs) =
      mem_read mem (c_buf c) (Z.min (c_nbytes c) SSL_MAX_TOTAL_PAYLOAD_LEN) /\
    consecutive seq recs /\ Forall (hdr_of e c (tup info') is_resp dst) recs /\ recs <> [] /\
    tail_ok e mem c (tup info') is_resp seq dst tail.
Proof.
  intros Hcap Hn Hs is_resp. pose proof (get_cleartext_works e mem info c ring Hcap Hn) as H.
  by rewrite Hs in H.
Qed.

(** ** Successive captures of one connection *)
Record capture := Capture { cp_env : ssl_env; cp_mem : Z -> Z; cp_args : clear_args }.

(** A read or write of 1 to 32768 bytes that is captured in full. *)
Definition capture_ok (cp : capture) : Prop :=
  capture_works (cp_env cp) (cp_mem cp) /\
  0 < c_nbytes (cp_args cp) <= SSL_MAX_TOTAL_PAYLOAD_LEN /\
  c_tcp_flags (cp_args cp) = GY_TH_ACK.

Definition cp_data (cp : capture) : list Z :=
  mem_read (cp_mem cp) (c_buf (cp_args cp)) (c_nbytes (cp_args cp)).

(** The calls of [get_cleartext] one after the other, each on the connection as
    the one before left it. *)
Fixpoint run_captures (info : ssl_conn_info) (ring : list cap_record) (cps : list capture)
    : ssl_conn_info * list cap_record :=
  match cps with
  | [] => (info, ring)
  | cp :: cps' =>
      let '(_, info', ring') := get_cleartext (cp_env cp) info (cp_args cp) ring in
      run_captures info' ring' cps'
  end.

(** The sequence number the next byte of a direction will get: a stream that has
    not started skips the number of its SYN. *)
Definition next_seq (info : ssl_conn_info) (is_resp : bool) : Z :=
  if is_resp then if ser_started info then nxt_ser_seq info else u32 (nxt_ser_seq info + 1)
  else if cli_started info then nxt_cli_seq info else u32 (nxt_cli_seq info + 1).

Definition of_direction (is_resp : bool) (recs : list cap_record) : list cap_record :=
  filter (fun r => h_is_inbound (r_hdr r) = negb is_resp) recs.

Lemma consecutive_app l1 : forall seq l2,
  consecutive seq (l1 ++ l2) <->
  consecutive seq l1 /\ consecutive (seq + Z.of_nat (length (concat (r_payload <$> l1)))) l2.
Proof.
  induction l1 as [|r l1 IH]; intros seq l2; cbn [consecutive app fmap list_fmap concat length].
  - change (Z.of_nat (length (@nil Z))) with 0. rewrite Z.add_0_r. tauto.
  - rewrite IH, length_app, Nat2Z.inj_add, Z.add_assoc. tauto.
Qed.

Lemma advance_seqs_next info is_resp n info' seq dst :
  0 < n -> advance_seqs info is_resp n = (info', seq, dst) ->
  seq = next_seq info is_resp /\ is_client info' = is_client info /\
  next_seq info' is_resp = u32 (seq + n) /\
  next_seq info' (negb is_resp) = next_seq info (negb is_resp).
Proof.
  intros Hn. unfold advance_seqs, next_seq. rewrite Z.gtb_ltb, (proj2 (Z.ltb_lt 0 n)) by done.
  destruct is_resp; cbn [andb negb]; [destruct (ser_started info)|destruct (cli_started info)];
    cbn [negb]; intros; by simplify_eq/=.
Qed.

Lemma filter_dir_same (recs : list cap_record) d e c t dst :
  Forall (hdr_of e c t d dst) recs ->
  of_direction d recs = recs /\ of_direction (negb d) recs = [].
Proof.
  unfold of_direction. induction 1 as [|r recs (_ & _ & _ & _ & Hd & _) _ [IH1 IH2]]; [done|].
  rewrite !filter_cons, Hd, IH1, IH2. split.
  - by rewrite decide_True.
  - rewrite decide_False; [done|]. by destruct d.
Qed.

(** One capture seen from both directions. *)
Lemma one_capture info ring cp :
  capture_ok cp ->
  let d := is_response info (c_is_write (cp_args cp)) in
  exists recs info' b, get_cleartext (cp_env cp) info (cp_args cp) ring = (b, info', ring ++ recs) /\
    is_client info' = is_client info /\
    of_direction d recs = recs /\ of_direction (negb d) recs = [] /\
    consecutive (next_seq info d) recs /\ concat (r_payload <$> recs) = cp_data cp /\
    u32 (next_seq info' d) = u32 (next_seq info d + Z.of_nat (length (cp_data cp))) /\
    next_seq info' (negb d) = next_seq info (negb d).
Proof.
  intros (Hcap & Hn & Hf) d.
  assert (0 <= c_nbytes (cp_args cp) < 2 ^ 31) as Hn' by (unfold SSL_MAX_TOTAL_PAYLOAD_LEN in *; lia).
  pose proof (get_cleartext_works _ _ info _ ring Hcap Hn') as H. fold d in H.
  unfold capture_seqs in H. rewrite Hf in H. fold d in H. cbn [negb] in H.
  change (Z.land GY_TH_ACK GY_TH_SYN =? 0) with true in H. cbn [negb] in H.
  destruct (advance_seqs info d _) as [[info' seq] dst] eqn:Ha.
  apply advance_seqs_next in Ha as (-> & Hc & Hs1 & Hs2); [|lia].
  destruct H as (recs & tail & Hrun & Hcat & Hcon & Hall & _ & Htail).
  unfold tail_ok in Htail. rewrite (proj2 (Z.leb_le _ _)) in Htail by lia. subst tail.
  rewrite app_nil_r, Z.min_l in * by lia.
  apply filter_dir_same in Hall as [Hd1 Hd2].
  exists recs, info', true. split_and!; auto. unfold cp_data.
  rewrite length_mem_read by lia. by rewrite Hs1, wrap_wrap.
Qed.

(** C3 : the records of any interleaving of captured reads and writes of one
    connection, when each call is of 1 to 32768 bytes in readable memory with the flag ACK
    and the ring has room for its records, taken by direction, are that direction's
    stream: sequence numbers without gap or overlap from the connection's next one, and
    the bytes of the calls of that direction in the order of the calls. *)
Theorem captures_are_streams cps : forall info ring is_resp,
  Forall capture_ok cps ->
  exists recs, (run_captures info ring cps).2 = ring ++ recs /\
    consecutive (next_seq info is_resp) (of_direction is_resp recs) /\
    concat (r_payload <$> of_direction is_resp recs) =
      concat (cp_data <$> filter (fun cp =>
        is_response info (c_is_write (cp_args cp)) = is_resp) cps).
Proof.
  induction cps as [|cp cps IH]; intros info ring is_resp Hok.
  { exists []. cbn. by rewrite app_nil_r. }
  apply list.Forall_cons in Hok as [Hcp Hok]. cbn [run_captures].
  destruct (one_capture info ring cp Hcp)
    as (recs1 & info' & b & -> & Hcl & Hd1 & Hd2 & Hcon & Hcat & Hs1 & Hs2).
  destruct (IH info' (ring ++ recs1) is_resp Hok) as (recs2 & -> & Hcon2 & Hcat2).
  exists (recs1 ++ recs2). rewrite <- app_assoc. split; [done|].
  unfold of_direction in *. rewrite list.filter_app, filter_cons, fmap_app, concat_app, Hcat2.
  rewrite (list_filter_iff _ (fun cp => is_response info (c_is_write (cp_args cp)) = is_resp) cps)
    by (intros; unfold is_response; by rewrite Hcl).
  case_decide as Hdir.
  - subst is_resp. rewrite Hd1. split; [|by rewrite Hcat].
    apply consecutive_app. split; [done|]. rewrite Hcat.
    eapply consecutive_cong; [exact Hs1|done].
  - assert (is_resp = negb (is_response info (c_is_write (cp_args cp)))) as ->
      by (destruct is_resp, (is_response info (c_is_write (cp_args cp))); done).
    rewrite Hd2. cbn [app fmap list_fmap concat]. split; [|done]. by rewrite <- Hs2.
Qed.

(** ** Only enabled processes are captured *)

Lemma clear_loop_pids e c t is_resp nloops dst pend (P : Z -> Prop) n : forall i seq nleft psrc ring,
  P (c_pid c) -> Forall (fun r => P (h_pid (r_hdr r))) ring ->
  match clear_loop e c t is_resp nloops dst pend n i seq nleft psrc ring with
  | LoopDone _ ring' | LoopFail _ ring' => Forall (fun r => P (h_pid (r_hdr r))) ring'
  end.
Proof.
  induction n as [|n IH]; intros i seq nleft psrc ring HP Hr; cbn [clear_loop]; [done|].
  case_if; [done|]. case_if; [done|].
  destruct (if _ && _ then s_read_user _ _ _ else _) as [bytes|]; [|done].
  case_if; [|apply IH; [done|]]; by apply Forall_snoc.
Qed.

Lemma get_cleartext_pids e info c ring b info' ring' (P : Z -> Prop) :
  get_cleartext e info c ring = (b, info', ring') ->
  P (c_pid c) -> Forall (fun r => P (h_pid (r_hdr r))) ring ->
  Forall (fun r => P (h_pid (r_hdr r))) ring'.
Proof.
  unfold get_cleartext. intros Hg HP Hr. case_if_in Hg; [by simplify_eq|].
  destruct (advance_seqs _ _ _) as [[i s] d].
  pose proof (clear_loop_pids e c (tup i) (is_response info (c_is_write c))) as Hl.
  match type of Hg with context [clear_loop ?e ?c ?t ?r ?nl ?d ?p ?n ?i ?s ?l ?a ?g] =>
    specialize (Hl nl d p P n i s l a g HP Hr); destruct (clear_loop e c t r nl d p n i s l a g) end;
    simplify_eq; [|done].
  unfold skip_record. repeat case_if; try done.
  all: destruct (s_read_user _ _ _); [|done]; by apply Forall_snoc.
Qed.

Section Captured.
Context {HASH LRU : BpfMapOps} {Hhash : BpfMap HASH} {Hlru : BpfMap LRU}.
(** The processes that may be captured. *)
Context (G : Z -> Prop).
Implicit Types (s : @ssl_st HASH LRU).

Definition ssl_inv s : Prop :=
  (forall p, lookup_elem (pid_map s) p = Some 1 -> G p) /\
  (forall k v, lookup_elem (ssl_conn_map s) k = Some v -> G (k_pid k)) /\
  (forall pt v, lookup_elem (ssl_tcp_unmap s) pt = Some v ->
     G (k_pid (v_tkey v)) /\ G (pid_of pt)) /\
  (forall w pt a, lookup_elem (args_map w s) pt = Some a -> G (pid_of pt)) /\
  Forall (fun r => G (h_pid (r_hdr r))) (sslcapring s).

(** User space enables only processes of [G], and a process whose parent is in
    [G] is in [G]. *)
Definition step_allowed (l : ssl_step_l) (e : ssl_env) : Prop :=
  (forall pid, l = L_user_enable pid -> G pid) /\
  (s_real_parent_tgid e <> 0 -> G (s_real_parent_tgid e) -> G (pid_of (s_pid_tgid e))).

Inductive ssl_reachable : @ssl_st HASH LRU -> Prop :=
| ssl_reach_init : ssl_reachable ssl_init
| ssl_reach_step s l e : ssl_reachable s -> step_allowed l e -> ssl_reachable (run_ssl l e s).

Lemma ssl_inv_init : ssl_inv (@ssl_init HASH LRU).
Proof.
  split_and!; try done; simpl; try (intros *; by rewrite lookup_empty_map).
  intros [] pt a; simpl; by rewrite lookup_empty_map.
Qed.

Lemma ssl_inv_unmap m s : ssl_inv s -> ssl_inv (set_unmap m s).
Proof. intros (H1 & H2 & H3 & H4 & H5). by split_and!. Qed.

Lemma ssl_inv_initmap m s : ssl_inv s -> ssl_inv (set_initmap m s).
Proof. intros (H1 & H2 & H3 & H4 & H5). by split_and!. Qed.

Lemma ssl_inv_ring r s :
  ssl_inv s -> Forall (fun r => G (h_pid (r_hdr r))) r -> ssl_inv (set_ring r s).
Proof. intros (H1 & H2 & H3 & H4 & H5) Hr. by split_and!. Qed.

Lemma ssl_inv_conn m s :
  ssl_inv s -> (forall k v, lookup_elem m k = Some v -> G (k_pid k)) -> ssl_inv (set_conn_map m s).
Proof. intros (H1 & H2 & H3 & H4 & H5) Hm. by split_and!. Qed.

Lemma ssl_inv_tcp m s :
  ssl_inv s -> (forall pt v, lookup_elem m pt = Some v -> G (k_pid (v_tkey v)) /\ G (pid_of pt)) ->
  ssl_inv (set_tcp_unmap m s).
Proof. intros (H1 & H2 & H3 & H4 & H5) Hm. by split_and!. Qed.

Lemma ssl_inv_pid m s :
  ssl_inv s -> (forall p, lookup_elem m p = Some 1 -> G p) -> ssl_inv (set_pid_map m s).
Proof. intros (H1 & H2 & H3 & H4 & H5) Hm. by split_and!. Qed.

Lemma ssl_inv_args w m s :
  ssl_inv s -> (forall pt a, lookup_elem m pt = Some a -> G (pid_of pt)) ->
  ssl_inv (set_args_map w m s).
Proof.
  intros (H1 & H2 & H3 & H4 & H5) Hm.
  split_and!; try (by destruct w). intros w' pt a.
  destruct w, w'; simpl; eauto; [apply (H4 false)|apply (H4 true)].
Qed.

Lemma ssl_inv_update_tcp pt k b s :
  ssl_inv s -> G (k_pid k) -> G (pid_of pt) ->
  ssl_inv (set_tcp_unmap (map_update (ssl_tcp_unmap s) pt (SslTcpVal k b)) s).
Proof.
  intros Hs Hk Hp. apply ssl_inv_tcp; [done|]. destruct Hs as (_ & _ & H & _).
  intros pt' v [[-> ->]|Hl]%lookup_map_update_Some; eauto.
Qed.

Lemma ssl_inv_delete_tcp pt s :
  ssl_inv s -> ssl_inv (set_tcp_unmap (map_delete (ssl_tcp_unmap s) pt) s).
Proof.
  intros Hs. apply ssl_inv_tcp; [done|]. destruct Hs as (_ & _ & H & _).
  intros pt' v Hl%lookup_map_delete_Some. eauto.
Qed.

Lemma ssl_inv_delete_conn k s :
  ssl_inv s -> ssl_inv (set_conn_map (map_delete (ssl_conn_map s) k) s).
Proof.
  intros Hs. apply ssl_inv_conn; [done|]. destruct Hs as (_ & H & _).
  intros k' v Hl%lookup_map_delete_Some. eauto.
Qed.

Lemma ssl_inv_delete_pid p s :
  ssl_inv s -> ssl_inv (set_pid_map (map_delete (pid_map s) p) s).
Proof.
  intros Hs. apply ssl_inv_pid; [done|]. destruct Hs as (H & _).
  intros p' Hl%lookup_map_delete_Some. eauto.
Qed.

Lemma ssl_inv_update_pid p s :
  ssl_inv s -> G p -> ssl_inv (set_pid_map (map_update (pid_map s) p 1) s).
Proof.
  intros Hs Hp. apply ssl_inv_pid; [done|]. destruct Hs as (H & _).
  intros p' [[-> _]|Hl]%lookup_map_update_Some; eauto.
Qed.

Lemma ssl_inv_delete_args w pt s :
  ssl_inv s -> ssl_inv (set_args_map w (map_delete (args_map w s) pt) s).
Proof.
  intros Hs. apply ssl_inv_args; [done|]. destruct Hs as (_ & _ & _ & H & _).
  intros pt' a Hl%lookup_map_delete_Some. eauto.
Qed.

Lemma cleartext_mapped_inv e key info c s :
  ssl_inv s -> G (c_pid c) -> G (k_pid key) -> ssl_inv (cleartext_mapped e key info c s).
Proof.
  intros Hs Hc Hk. unfold cleartext_mapped.
  destruct (get_cleartext e info c (sslcapring s)) as [[b info'] ring'] eqn:Hg.
  pose proof Hs as (_ & H2 & _ & _ & H5). apply ssl_inv_ring.
  - apply ssl_inv_conn; [done|]. intros k v. rewrite lookup_store_elem.
    case_decide; [by subst|]. apply H2.
  - by eapply get_cleartext_pids.
Qed.

Lemma valid_cap_pid_inv l e check s ok s' :
  step_allowed l e -> ssl_inv s ->
  valid_cap_pid e (pid_of (s_pid_tgid e)) check s = (ok, s') ->
  ssl_inv s' /\ (ok = true -> G (pid_of (s_pid_tgid e))).
Proof.
  intros (_ & Hparent) Hs. pose proof Hs as (H1 & _). unfold valid_cap_pid.
  assert (forall p, match lookup_elem (pid_map s) p with Some v => v =? 1 | None => false end = true ->
    G p) as Hvalid.
  { intros p. destruct (lookup_elem _ _) eqn:E; [|done]. intros ->%Z.eqb_eq. auto. }
  intros Hv. case_if_in Hv; [simplify_eq; eauto|]. case_if_in Hv; [by simplify_eq|].
  case_if_in Hv; [by simplify_eq|]. case_if_in Hv; [by simplify_eq|].
  case_if_in Hv; simplify_eq; [|done]. breflect.
  assert (G (pid_of (s_pid_tgid e))) by eauto. auto using ssl_inv_update_pid.
Qed.
End Captured.

#[export] Hint Resolve ssl_inv_init ssl_inv_unmap ssl_inv_initmap ssl_inv_update_tcp
  ssl_inv_delete_tcp ssl_inv_delete_conn ssl_inv_delete_pid ssl_inv_update_pid
  ssl_inv_delete_args cleartext_mapped_inv : gy.

Section CapturedSteps.
Context {HASH LRU : BpfMapOps} {Hhash : BpfMap HASH} {Hlru : BpfMap LRU}.
Context (G : Z -> Prop).
Implicit Types (s : @ssl_st HASH LRU).

Lemma rw_probe_inv l e ssl buf pw w s :
  step_allowed G l e -> ssl_inv G s -> ssl_inv G (ssl_rw_probe e ssl buf pw w s).
Proof.
  intros Ha Hs. unfold ssl_rw_probe.
  destruct (valid_cap_pid _ _ _ _) as [ok s1] eqn:Hv.
  destruct (valid_cap_pid_inv G _ _ _ _ _ _ Ha Hs Hv) as [Hs1 Hg].
  destruct ok; cbn [negb]; [|done]. specialize (Hg eq_refl).
  destruct (delete_elem (ssl_unmap s1) _) as [rc unmap].
  match goal with |- ssl_inv G (set_args_map w _ ?s2) =>
    assert (ssl_inv G s2) as Hs2 end.
  { case_if; [|auto with gy]. destruct (lookup_elem (ssl_conn_map _) _); [auto with gy|].
    destruct (delete_elem (ssl_initmap _) _) as [rc2 im]. case_if; auto with gy. }
  apply ssl_inv_args; [done|]. destruct Hs2 as (_ & _ & _ & H & _).
  intros pt a [[-> _]|Hl]%lookup_map_update_Some; eauto.
Qed.

Lemma ret_rw_probe_inv e rc w s : ssl_inv G s -> ssl_inv G (ssl_ret_rw_probe e rc w s).
Proof.
  intros Hs. unfold ssl_ret_rw_probe. case_if; [auto with gy|].
  destruct (lookup_elem (args_map w s) _) as [args|] eqn:Ha; [|done].
  assert (G (pid_of (s_pid_tgid e))) as Hg by (destruct Hs as (_ & _ & _ & H & _); eauto).
  destruct (ret_nbytes _ _ _); [|auto with gy].
  destruct (lookup_elem (ssl_conn_map s) _) as [info|]; auto with gy.
Qed.

Lemma handshake_inv l e ssl s :
  step_allowed G l e -> ssl_inv G s -> ssl_inv G (ssl_do_handshake e ssl s).
Proof.
  intros Ha Hs. unfold ssl_do_handshake.
  destruct (valid_cap_pid _ _ _ _) as [ok s1] eqn:Hv.
  destruct (valid_cap_pid_inv G _ _ _ _ _ _ Ha Hs Hv) as [Hs1 Hg].
  destruct ok; cbn [negb]; [|done]. destruct (lookup_elem _ _); auto with gy.
Qed.

Lemma upd_tcp_sock_inv e sk w s : ssl_inv G s -> ssl_inv G (upd_tcp_sock e sk w s).
Proof.
  intros Hs. unfold upd_tcp_sock.
  destruct (lookup_elem (ssl_tcp_unmap s) _) as [pval|] eqn:Hp; [|done].
  pose proof Hs as (_ & _ & H3 & _ & H5). destruct (H3 _ _ Hp) as [Hk Hg].
  destruct (read_addr_tuple _ _) as [[t client]|]; [|auto with gy].
  match goal with |- context [if v_is_init pval then ?a else ?b] =>
    assert (exists info s1, (if v_is_init pval then a else b) = (info, s1) /\ ssl_inv G s1)
      as (info & s1 & -> & Hs1) end.
  { destruct (v_is_init pval); [|by eauto].
    destruct (get_cleartext _ _ _ _) as [[b info] ring] eqn:Hc.
    eexists _, _. split; [done|]. apply ssl_inv_ring; [done|]. by eapply get_cleartext_pids. }
  apply ssl_inv_delete_tcp, ssl_inv_conn; [done|]. destruct Hs1 as (_ & H & _).
  intros k v [[-> _]|Hl]%lookup_map_update_Some; eauto.
Qed.

Lemma shutdown_inv e ssl f s : ssl_inv G s -> ssl_inv G (handle_ssl_shutdown e ssl (s_pid_tgid e) f s).
Proof.
  intros Hs. unfold handle_ssl_shutdown.
  destruct (lookup_elem _ _) as [info|] eqn:Hl; [|auto with gy].
  pose proof Hs as (_ & H & _). apply H in Hl. auto with gy.
Qed.

Lemma mark_unmapped_inv k s : ssl_inv G s -> ssl_inv G (mark_unmapped k s).
Proof. unfold mark_unmapped. auto with gy. Qed.

Lemma set_ex_data_inv l e ssl s :
  step_allowed G l e -> ssl_inv G s -> ssl_inv G (ssl_set_ex_data e ssl s).
Proof.
  intros Ha Hs. unfold ssl_set_ex_data.
  destruct (valid_cap_pid _ _ _ _) as [ok s1] eqn:Hv.
  destruct (valid_cap_pid_inv G _ _ _ _ _ _ Ha Hs Hv) as [Hs1 Hg].
  destruct ok; cbn [negb]; [|done]. destruct (lookup_elem _ _); auto using mark_unmapped_inv.
Qed.

Lemma set_accept_inv l e ssl s :
  step_allowed G l e -> ssl_inv G s -> ssl_inv G (ssl_set_accept_state e ssl s).
Proof.
  intros Ha Hs. unfold ssl_set_accept_state.
  destruct (valid_cap_pid _ _ _ _) as [ok s1] eqn:Hv.
  destruct (valid_cap_pid_inv G _ _ _ _ _ _ Ha Hs Hv) as [Hs1 Hg].
  destruct ok; cbn [negb]; [|done]. apply mark_unmapped_inv.
  destruct (lookup_elem _ _); [|done]. case_if; auto with gy.
Qed.

Lemma run_ssl_inv l e s : step_allowed G l e -> ssl_inv G s -> ssl_inv G (run_ssl l e s).
Proof.
  intros Ha Hs. pose proof Ha as [He _]. destruct l; cbn [run_ssl];
    eauto using handshake_inv, rw_probe_inv, ret_rw_probe_inv, upd_tcp_sock_inv, shutdown_inv,
      set_ex_data_inv, set_accept_inv.
  all: unfold ssl_ret_do_handshake, trace_enter_execve, sched_process_exit; auto with gy.
  case_if; auto with gy.
Qed.

(** C8 : whatever the order of the probes, cleartext is only ever captured from
    processes user space enabled or that descend from such a process: for every
    set [G] of processes that contains what user space enables and is closed
    under the parent links the programs look at, every record in the ring has a
    pid in [G] (and so have the entries of the program's maps). *)
Theorem only_enabled_captured s :
  ssl_reachable G s -> ssl_inv G s /\ Forall (fun r => G (h_pid (r_hdr r))) (sslcapring s).
Proof.
  intros Hr. enough (ssl_inv G s) as H by (split; [done|]; by destruct H as (_ & _ & _ & _ & ?)).
  induction Hr; eauto using run_ssl_inv with gy.
Qed.

Lemma args_set_get w m s : args_map w (set_args_map w m s) = m.
Proof. by destruct w. Qed.

(** When a read or write call returns, its saved arguments are gone,
    whatever the return value and whether or not the data could be captured. *)
Theorem ret_probe_clears_args e rc w s :
  lookup_elem (args_map w (ssl_ret_rw_probe e rc w s)) (s_pid_tgid e) = None.
Proof.
  unfold ssl_ret_rw_probe. case_if; [by rewrite args_set_get, lookup_map_delete_eq|].
  destruct (lookup_elem (args_map w s) _) as [args|] eqn:Ha; [|done].
  destruct (ret_nbytes _ _ _); [|by rewrite args_set_get, lookup_map_delete_eq].
  destruct (lookup_elem (ssl_conn_map s) _); by rewrite args_set_get, lookup_map_delete_eq.
Qed.

(** A handshake on a connection not known yet, followed by the first
    [tcp_sendmsg] of the same thread on a socket with an IP family and ports,
    binds the TLS object to that socket's addresses, starts both sequences and
    sends one SYN record; the pending mark of the thread is gone. *)
Theorem handshake_binds_socket e1 e2 ssl sk t client s :
  let pid := pid_of (s_pid_tgid e1) in
  let key := SslKey ssl pid in
  lookup_elem (pid_map s) pid = Some 1 ->
  lookup_elem (ssl_conn_map s) key = None ->
  s_pid_tgid e2 = s_pid_tgid e1 ->
  (update_elem (ssl_tcp_unmap s) (s_pid_tgid e1) (SslTcpVal key true)).1 = 0 ->
  (forall info, (update_elem (ssl_conn_map s) key info).1 = 0) ->
  read_addr_tuple zero_tuple (s_kmem e2 sk) = Some (t, client) ->
  s_ring_room e2 (sslcapring s) = true ->
  let s' := fentry_tcp_sendmsg_entry e2 sk (ssl_do_handshake e1 ssl s) in
  let cli_only := if client then (1025, 1024, false) else (1025, 1025, true) in
  lookup_elem (ssl_conn_map s') key =
    Some (SslConnInfo t cli_only.1.1 cli_only.1.2 client true cli_only.2) /\
  lookup_elem (ssl_tcp_unmap s') (s_pid_tgid e1) = None /\
  exists r, sslcapring s' = sslcapring s ++ [r] /\ r_payload r = [] /\
    h_tuple (r_hdr r) = t /\ h_tcp_flags (r_hdr r) = GY_TH_SYN /\ h_pid (r_hdr r) = pid.
Proof.
  intros pid key Hpid Hconn He Hu1 Hu2 Ht Hroom. cbv zeta.
  unfold ssl_do_handshake, valid_cap_pid. fold pid. rewrite Hpid. cbn [Z.eqb Pos.eqb negb].
  fold key. rewrite Hconn. unfold fentry_tcp_sendmsg_entry, upd_tcp_sock. rewrite He.
  cbn [ssl_tcp_unmap set_tcp_unmap]. rewrite lookup_map_update_eq by done.
  rewrite Ht. cbn [v_is_init v_tkey sslcapring]. fold pid.
  rewrite (surjective_pairing (get_cleartext _ _ _ _)), (surjective_pairing (get_cleartext _ _ _ _).1).
  rewrite get_cleartext_empty by done.
  unfold capture_seqs, is_response. cbn [c_is_write c_tcp_flags c_nbytes is_client].
  change (Z.land GY_TH_SYN GY_TH_SYN =? 0) with false. cbn [negb].
  set (r := CapRecord _ _).
  destruct client; cbn [fst snd ssl_conn_map ssl_tcp_unmap set_conn_map set_ring set_tcp_unmap sslcapring].
  all: rewrite lookup_map_update_eq, lookup_map_delete_eq by apply Hu2;
    split; [done|]; split; [done|]; exists r; by split_and!.
Qed.
End CapturedSteps.

(** ** Witnesses *)
Module SslExamples.

Definition ex_mem (a : Z) : Z := a mod 251.

(** A client socket 10.0.0.1:40000 -> 10.0.0.2:443. *)
Definition ex_sock : sock :=
  Sock TCP_ESTABLISHED AF_INET 0x0100000a 0x0200000a 0x409c 0xbb01 40000 (Some 7)
    0 0 0 0 0 0 0 0.

Definition ex_env : ssl_env := {|
  s_pid_tgid := Z.shiftl 321 32 + 322; s_current_task := 1; s_real_parent_tgid := 9;
  s_ktime_ns := 5000; s_kmem := fun _ => ex_sock;
  s_read_user := fun a n => Some (mem_read ex_mem a n);
  s_read_size_t := fun _ => Some 10; s_ring_room := fun _ => true |}.

Definition ex_tuple : addr_tuple := AddrTuple 0x0200000a 0x0100000a 7 443 40000 4.
Definition ex_info : ssl_conn_info := SslConnInfo ex_tuple 1025 1024 true true false.

Definition ex_args (n : Z) (w : bool) : clear_args := ClearArgs 1000 n 321 GY_TH_ACK w.

#[local] Instance ex_hash : BpfMapOps := hash_ops 16.
#[local] Instance ex_lru : BpfMapOps := lru_ops 15.
#[local] Existing Instances hash_ops_laws lru_ops_laws hash_is_map.

Lemma ex_capture_works : capture_works ex_env ex_mem.
Proof. by split. Qed.

(** A write of 9000 bytes: three records, and the next sequence number. *)
Lemma get_cleartext_complete_witness :
  exists recs tail,
    get_cleartext ex_env ex_info (ex_args 9000 true) [] =
      (true, SslConnInfo ex_tuple 10025 1024 true true false, recs ++ tail) /\
    concat (r_payload <$> recs) = mem_read ex_mem 1000 9000 /\ tail = [].
Proof.
  destruct (get_cleartext_complete ex_env ex_mem ex_info (ex_args 9000 true) []
    (SslConnInfo ex_tuple 10025 1024 true true false) 1025 1024
    ex_capture_works ltac:(by vm_compute) eq_refl) as (recs & tail & H1 & H2 & _ & _ & _ & H3).
  exists recs, tail. by split_and!.
Defined.

Definition ex_captures : list capture :=
  [Capture ex_env ex_mem (ex_args 10 true); Capture ex_env ex_mem (ex_args 20 false);
   Capture ex_env ex_mem (ex_args 30 true)].

Lemma captures_are_streams_witness :
  exists recs, (run_captures ex_info [] ex_captures).2 = recs /\
    consecutive 1025 (of_direction false recs) /\
    concat (r_payload <$> of_direction false recs) =
      mem_read ex_mem 1000 10 ++ mem_read ex_mem 1000 30.
Proof.
  destruct (captures_are_streams ex_captures ex_info [] false) as (recs & H1 & H2 & H3).
  - repeat (constructor; [split; [apply ex_capture_works|by vm_compute]|]). constructor.
  - exists recs. split; [done|]. split; [done|]. rewrite H3. by vm_compute.
Defined.

Definition ex_enabled : @ssl_st ex_hash ex_lru := run_ssl (L_user_enable 321) ex_env ssl_init.

Lemma only_enabled_captured_witness :
  Forall (fun r => h_pid (r_hdr r) = 321)
    (sslcapring (run_ssl (L_tcp_sendmsg 5) ex_env (run_ssl (L_handshake 77) ex_env ex_enabled))) /\
  length (sslcapring (run_ssl (L_tcp_sendmsg 5) ex_env (run_ssl (L_handshake 77) ex_env ex_enabled))) = 1%nat.
Proof.
  split; [|by vm_compute].
  apply (only_enabled_captured (HASH := ex_hash) (LRU := ex_lru) (fun pid => pid = 321)).
  assert (forall l, (forall pid, l = L_user_enable pid -> pid = 321) ->
    step_allowed (fun pid => pid = 321) l ex_env) as Ha by (intros l Hl; split; done).
  apply ssl_reach_step; [|by apply Ha]. apply ssl_reach_step; [|by apply Ha].
  apply ssl_reach_step; [apply ssl_reach_init|]. apply Ha. intros ? [= <-]. done.
Defined.

Lemma ret_probe_clears_args_witness :
  lookup_elem (args_map true (ssl_ret_rw_probe ex_env 10 true
    (ssl_rw_probe ex_env 77 1000 0 true ex_enabled))) (s_pid_tgid ex_env) = None.
Proof. apply (ret_probe_clears_args (HASH := ex_hash) (LRU := ex_lru)). Defined.

Lemma handshake_binds_socket_witness :
  lookup_elem (ssl_conn_map (fentry_tcp_sendmsg_entry ex_env 5 (ssl_do_handshake ex_env 77 ex_enabled)))
    (SslKey 77 321) = Some ex_info.
Proof.
  apply (handshake_binds_socket (HASH := ex_hash) (LRU := ex_lru) ex_env ex_env 77 5 ex_tuple true ex_enabled);
    done.
Defined.

End SslExamples.
