(* ===== verification/NetParse.v ===== *)
(** * NetParse : locating headers in captured packets, [common/gy_net_parse.h].

    A captured frame is a buffer of [Bytes]; the header file's functions are
    translated with the reads they make. *)
From S2P Require Import Prelude Bytes.

(** ** Constants and sizes *)
Definition ETHER_TYPE_IPv4 : Z := 0x0800.
Definition ETHER_TYPE_IPv6 : Z := 0x86DD.
Definition ETHER_TYPE_VLAN_8021Q : Z := 0x8100.
Definition ETHER_TYPE_VLAN_8021AD : Z := 0x88A8.

Definition IP_PROTO_IPv6_HOPOPT : Z := 0x00.
Definition IP_PROTO_TCP : Z := 0x06.
Definition IP_PROTO_UDP : Z := 0x11.
Definition IP_PROTO_IPv6_ROUTE : Z := 0x2B.
Definition IP_PROTO_IPv6_FRAGMENT : Z := 0x2C.
Definition IP_PROTO_IPv6_NO_NXT_HDR : Z := 0x3B.
Definition IP_PROTO_IPv6_DST_OPTIONS : Z := 0x3C.

(** Link types of libpcap's [pcap/dlt.h]. *)
Definition DLT_NULL : Z := 0.
Definition DLT_EN10MB : Z := 1.
Definition DLT_IEEE802 : Z := 6.
Definition DLT_RAW : Z := 12.
Definition DLT_LOOP : Z := 108.
Definition DLT_LINUX_SLL : Z := 113.
Definition DLT_IPNET : Z := 226.

Definition SIZE_ETHERNET : Z := 14.
Definition SIZE_NULLHDR : Z := 4.
Definition SIZE_SLL_HDR : Z := 16.
Definition SIZE_IPNET_HDR : Z := 24.
Definition SIZE_ip : Z := 20.
Definition SIZE_ip6_hdr : Z := 40.
Definition SIZE_TCP_HDR : Z := 20.
Definition SIZE_UDP_HDR : Z := 8.
Definition SIZE_ip6_ext : Z := 2.

Definition IPH_AF_INET : Z := 2.
Definition IPH_AF_INET6 : Z := 26.

(** ** get_ip_offset

    [None] is the return value -1; [Some (ip_offset, is_ipv4)] is 0. *)

(** The end of every case: an IPv4 packet, or an IPv6 one when the frame holds
    its header. *)
Definition ip_found (is4 : bool) (off : Z) (v6_fits : bool) : option (Z * bool) :=
  if is4 then Some (off, true) else if v6_fits then Some (off, false) else None.

Definition ether_case (ether_type off : Z) (v6_fits : bool) : option (Z * bool) :=
  if ether_type =? ETHER_TYPE_IPv4 then ip_found true off v6_fits
  else if ether_type =? ETHER_TYPE_IPv6 then ip_found false off v6_fits
  else None.

(** The switch on [pip->ip_v], the high nibble of the packet's first byte. *)
Definition ip_v_case (b0 off : Z) (v6_fits : bool) : option (Z * bool) :=
  let ip_v := Z.shiftr b0 4 in
  if ip_v =? 4 then ip_found true off v6_fits
  else if ip_v =? 6 then ip_found false off v6_fits
  else None.

Definition get_ip_offset (pframe : list Z) (linktype : Z) : acc (option (Z * bool)) :=
  let len := blen pframe in
  if len <? SIZE_ip then Acc None else
  if (linktype =? DLT_EN10MB) || (linktype =? DLT_IEEE802) then
    if len <? SIZE_ETHERNET + SIZE_ip + 4 then Acc None else
    let! ether_type := rd_be16 pframe 12 in
    if ether_type =? ETHER_TYPE_VLAN_8021Q then
      let! ether_type := rd_be16 pframe (SIZE_ETHERNET + 2) in
      Acc (ether_case ether_type (SIZE_ETHERNET + 2)
        (negb (2 + SIZE_ETHERNET + SIZE_ip6_hdr >=? len)))
    else if ether_type =? ETHER_TYPE_VLAN_8021AD then
      let! ether_type := rd_be16 pframe (SIZE_ETHERNET + 4) in
      Acc (ether_case ether_type (SIZE_ETHERNET + 4)
        (negb (4 + SIZE_ETHERNET + SIZE_ip6_hdr >=? len)))
    else
      Acc (ether_case ether_type SIZE_ETHERNET (negb (SIZE_ETHERNET + SIZE_ip6_hdr >=? len)))
  else if linktype =? DLT_LINUX_SLL then
    if len <? SIZE_SLL_HDR + SIZE_ip then Acc None else
    let! ether_type := rd_be16 pframe 14 in
    Acc (ether_case ether_type SIZE_SLL_HDR (negb (len <? SIZE_SLL_HDR + SIZE_ip6_hdr)))
  else if (linktype =? DLT_NULL) || (linktype =? DLT_LOOP) then
    if len <? SIZE_NULLHDR + SIZE_ip then Acc None else
    let! family := rd_le32 pframe 0 in
    let family := if negb (Z.land family 0xFFFF0000 =? 0) then bswap32 family else family in
    if family =? 0 then Acc None else
    let! b0 := rd8 pframe SIZE_NULLHDR in
    Acc (ip_v_case b0 SIZE_NULLHDR (negb (len <? SIZE_NULLHDR + SIZE_ip6_hdr)))
  else if linktype =? DLT_RAW then
    if len <? SIZE_ip then Acc None else
    let! b0 := rd8 pframe 0 in
    Acc (ip_v_case b0 0 (negb (len <? SIZE_ip6_hdr)))
  else if linktype =? DLT_IPNET then
    if len <? SIZE_IPNET_HDR + SIZE_ip then Acc None else
    let! iph_family := rd8 pframe 1 in
    Acc (if iph_family =? IPH_AF_INET then ip_found true SIZE_IPNET_HDR true
         else if iph_family =? IPH_AF_INET6 then
           ip_found false SIZE_IPNET_HDR (negb (len <? SIZE_IPNET_HDR + SIZE_ip6_hdr))
         else None)
  else Acc None.

(** ** Transport headers

    The result of the transport functions: the out parameters when they return
    0.  They return 1 for every packet that is ignored; what they may have
    written to their out parameters before is not used then. *)
Record transport := Transport {
  tr_proto : Z; tr_offset : Z; tr_data_offset : Z; tr_data_len : Z }.

(** The TCP part of both functions: [thdr] is the offset of the TCP header in
    the packet, [tlen] the length the data length is computed from and [tsub] what
    is subtracted from it besides the TCP header and urgent data. *)
Definition tcp_transport (pkt : list Z) (thdr tlen tsub : Z) : acc (option transport) :=
  let pktlen := blen pkt in
  if thdr + SIZE_TCP_HDR >? pktlen then Acc None else
  let! b12 := rd8 pkt (thdr + 12) in
  let size_tcp := Z.shiftl (Z.shiftr b12 4) 2 in
  if (size_tcp <? SIZE_TCP_HDR) || (thdr + size_tcp >? pktlen) then Acc None else
  let! flags := rd8 pkt (thdr + 13) in
  let! urg_len := (if Z.testbit flags 5 then rd_be16 pkt (thdr + 18) else Acc 0) in
  if (urg_len >? 0) && (thdr + size_tcp + urg_len >? pktlen) then Acc None else
  Acc (Some (Transport IP_PROTO_TCP thdr (u32 (thdr + size_tcp + urg_len))
    (u32 (tlen - tsub - size_tcp - urg_len)))).

Definition udp_transport (pkt : list Z) (thdr : Z) : acc (option transport) :=
  let pktlen := blen pkt in
  if thdr + SIZE_UDP_HDR >? pktlen then Acc None else
  let! size_udp := rd_be16 pkt (thdr + 4) in
  if (size_udp <? SIZE_UDP_HDR) || (thdr + size_udp >? pktlen) then Acc None else
  Acc (Some (Transport IP_PROTO_UDP thdr (u32 (thdr + SIZE_UDP_HDR)) (u32 (size_udp - SIZE_UDP_HDR)))).

(** [pkt] holds the [pktlen] bytes from the IPv4 header on.  The length test is
    the caller's part of the contract: the header itself is read unchecked. *)
Definition get_ipv4_transport_offset (pkt : list Z) : acc (option transport) :=
  let pktlen := blen pkt in
  let! off := rd_be16 pkt 6 in
  let! ip_len := rd_be16 pkt 2 in
  if negb (Z.land off 0x1fff =? 0) then Acc None else
  let! b0 := rd8 pkt 0 in
  let size_ip := Z.shiftl (Z.land b0 15) 2 in
  if (size_ip <? SIZE_ip) || (size_ip >=? pktlen) then Acc None else
  let! ip_p := rd8 pkt 9 in
  if ip_p =? IP_PROTO_TCP then
    tcp_transport pkt size_ip (if ip_len >? 0 then ip_len else pktlen) size_ip
  else if ip_p =? IP_PROTO_UDP then udp_transport pkt size_ip
  else Acc None.

(** How the walk over the IPv6 extension headers ends; [NoFuel] never happens
    (theorem [locate_transport_safe]). *)
Inductive walk := Found (r : option transport) | NoFuel.

Fixpoint ipv6_walk (pkt : list Z) (ip_len : Z) (fuel : nat) (ptmp nxthdr : Z) : acc walk :=
  match fuel with
  | O => Acc NoFuel
  | S fuel' =>
      let pktlen := blen pkt in
      if negb (ptmp <? pktlen) then Acc (Found None) else
      if nxthdr =? IP_PROTO_TCP then
        let! r := tcp_transport pkt ptmp (if ip_len >? 0 then ip_len else pktlen - ptmp) 0 in
        Acc (Found r)
      else if nxthdr =? IP_PROTO_UDP then
        let! r := udp_transport pkt ptmp in Acc (Found r)
      else if (nxthdr =? IP_PROTO_IPv6_HOPOPT) || (nxthdr =? IP_PROTO_IPv6_ROUTE) ||
              (nxthdr =? IP_PROTO_IPv6_DST_OPTIONS) then
        if ptmp + SIZE_ip6_ext >? pktlen then Acc (Found None) else
        let! ip6e_nxt := rd8 pkt ptmp in
        let! ip6e_len := rd8 pkt (ptmp + 1) in
        ipv6_walk pkt ip_len fuel' (ptmp + Z.shiftl (ip6e_len + 1) 3) ip6e_nxt
      else Acc (Found None)
  end.

Definition get_ipv6_transport_offset (pkt : list Z) : acc walk :=
  let pktlen := blen pkt in
  let! ip_len := rd_be16 pkt 4 in
  if SIZE_ip6_hdr + SIZE_UDP_HDR >? pktlen then Acc (Found None) else
  let! ip6_nxt := rd8 pkt 6 in
  ipv6_walk pkt ip_len (S (length pkt)) SIZE_ip6_hdr ip6_nxt.

(** ** Bounds *)

(** An offset from which the IP header of the given version is inside the
    frame. *)
Definition ip_offset_ok (pframe : list Z) (r : option (Z * bool)) : Prop :=
  match r with
  | None => True
  | Some (off, is_ipv4) =>
      0 <= off /\ off + (if is_ipv4 then SIZE_ip else SIZE_ip6_hdr) <= blen pframe
  end.

Lemma ip_found_ok pframe is4 off fits :
  0 <= off -> off + SIZE_ip <= blen pframe ->
  (fits = true -> off + SIZE_ip6_hdr <= blen pframe) -> ip_offset_ok pframe (ip_found is4 off fits).
Proof. unfold ip_found. destruct is4, fits; simpl; auto. Qed.

Lemma ether_case_ok pframe ty off fits :
  0 <= off -> off + SIZE_ip <= blen pframe ->
  (fits = true -> off + SIZE_ip6_hdr <= blen pframe) -> ip_offset_ok pframe (ether_case ty off fits).
Proof. intros. unfold ether_case. repeat case_if; try done; by apply ip_found_ok. Qed.

Lemma ip_v_case_ok pframe b off fits :
  0 <= off -> off + SIZE_ip <= blen pframe ->
  (fits = true -> off + SIZE_ip6_hdr <= blen pframe) -> ip_offset_ok pframe (ip_v_case b off fits).
Proof. intros. unfold ip_v_case. repeat case_if; try done; by apply ip_found_ok. Qed.

Ltac sizes := unfold SIZE_ETHERNET, SIZE_NULLHDR, SIZE_SLL_HDR, SIZE_IPNET_HDR, SIZE_ip,
  SIZE_ip6_hdr, SIZE_TCP_HDR, SIZE_UDP_HDR, SIZE_ip6_ext in *.

Lemma get_ip_offset_sat pframe linktype :
  bytes_wf pframe -> sat (ip_offset_ok pframe) (get_ip_offset pframe linktype).
Proof.
  intros Hwf. unfold get_ip_offset. case_if; [done|]. breflect.
  assert (forall a b : Z, negb (a >=? b) = true -> a < b) as Hge by (intros; breflect; done).
  assert (forall a b : Z, negb (a <? b) = true -> b <= a) as Hlt by (intros; breflect; done).
  case_if; [|case_if; [|case_if; [|case_if; [|case_if; [|done]]]]].
  all: try (case_if; [done|]); breflect; sizes; rd_step; intros v Hv.
  - repeat case_if; try rd_step; try intros v2 Hv2; simpl; apply ether_case_ok; sizes; try lia;
      intros Hf%Hge; lia.
  - simpl. apply ether_case_ok; sizes; try lia; intros Hf%Hlt; lia.
  - case_if; [done|]. rd_step. intros b Hb. simpl. apply ip_v_case_ok; sizes; try lia; intros Hf%Hlt; lia.
  - simpl. apply ip_v_case_ok; sizes; try lia; intros Hf%Hlt; lia.
  - cbn [sat]. case_if; [|case_if; [|done]].
    + unfold ip_found, ip_offset_ok. sizes. lia.
    + apply ip_found_ok; sizes; try lia; intros Hf%Hlt; lia.
Qed.

(** What a found transport header guarantees of its packet. *)
Definition transport_ok (pkt : list Z) (minoff : Z) (t : transport) : Prop :=
  minoff <= tr_offset t /\
  tr_offset t + (if tr_proto t =? IP_PROTO_TCP then SIZE_TCP_HDR else SIZE_UDP_HDR) <= tr_data_offset t /\
  tr_data_offset t <= blen pkt /\ in_width 32 (tr_data_len t) /\
  (tr_proto t = IP_PROTO_TCP \/ tr_proto t = IP_PROTO_UDP) /\
  (tr_proto t = IP_PROTO_UDP -> tr_data_offset t + tr_data_len t <= blen pkt).

Lemma nibble_shift b : in_width 8 b -> 0 <= Z.shiftl (Z.shiftr b 4) 2 <= 60.
Proof.
  unfold in_width. intros. rewrite Z.shiftl_mul_pow2, Z.shiftr_div_pow2 by lia.
  change (2 ^ 4) with 16. change (2 ^ 2) with 4. zdiv.
Qed.

Lemma tcp_transport_sat pkt thdr tlen tsub :
  bytes_wf pkt -> blen pkt < 2 ^ 32 -> 0 <= thdr ->
  sat (fun r => match r with
       | Some t => transport_ok pkt thdr t /\
           tr_data_len t = u32 (tlen - tsub - (tr_data_offset t - thdr))
       | None => True end) (tcp_transport pkt thdr tlen tsub).
Proof.
  intros Hwf Hlen Ht. unfold tcp_transport. case_if; [done|]. breflect. sizes.
  rd_step. intros b12 Hb12%nibble_shift. set (size_tcp := Z.shiftl _ 2) in *.
  case_if; [done|]. breflect. rd_step. intros flags _. apply sat_bind.
  apply sat_mono with (in_width 16).
  2: { case_if; [apply rd_be16_sat; [done|lia|lia]|]. simpl. unfold in_width. lia. }
  intros urg Hurg. case_if; [done|]. simpl. unfold transport_ok; simpl. sizes.
  assert (thdr + size_tcp + urg <= blen pkt) as Hu.
  { rewrite andb_false_iff in *. unfold in_width in *.
    match goal with H : _ \/ _ |- _ => destruct H end; breflect; lia. }
  unfold in_width in Hurg. rewrite (wrap_id 32 (thdr + _ + _)) by (unfold in_width; lia).
  split; [|f_equal; lia]. split_and!; try lia; auto with gy. intros [=].
Qed.

Lemma udp_transport_sat pkt thdr :
  bytes_wf pkt -> blen pkt < 2 ^ 32 -> 0 <= thdr ->
  sat (fun r => match r with Some t => transport_ok pkt thdr t /\ tr_proto t = IP_PROTO_UDP
                           | None => True end) (udp_transport pkt thdr).
Proof.
  intros Hwf Hlen Ht. unfold udp_transport. case_if; [done|]. breflect. sizes.
  rd_step. intros size_udp Hs. case_if; [done|]. breflect. simpl. unfold transport_ok; simpl.
  unfold in_width in Hs. sizes. rewrite !wrap_id by (unfold in_width; lia).
  change (IP_PROTO_UDP =? IP_PROTO_TCP) with false. cbv iota.
  split; [|done]. split_and!; auto; try lia. unfold in_width; lia.
Qed.

Lemma get_ipv4_transport_sat pkt :
  bytes_wf pkt -> SIZE_ip <= blen pkt < 2 ^ 32 ->
  sat (fun r => match r with Some t => transport_ok pkt SIZE_ip t | None => True end)
    (get_ipv4_transport_offset pkt).
Proof.
  intros Hwf Hlen. unfold get_ipv4_transport_offset. sizes.
  rd_step. intros off _. rd_step. intros ip_len Hil. case_if; [done|].
  rd_step. intros b0 Hb0. set (size_ip := Z.shiftl _ 2) in *. case_if; [done|]. breflect.
  rd_step. intros ip_p _. case_if; [|case_if; [|done]].
  - eapply sat_mono; [|apply tcp_transport_sat; (done || lia)]. intros [t|]; [|done].
    intros [(? & Ht) _]. split; [lia|done].
  - eapply sat_mono; [|apply udp_transport_sat; (done || lia)]. intros [t|]; [|done].
    intros [(? & Ht) _]. split; [lia|done].
Qed.

Lemma ipv6_walk_sat pkt ip_len fuel : forall ptmp nxthdr,
  bytes_wf pkt -> blen pkt < 2 ^ 32 -> SIZE_ip6_hdr <= ptmp ->
  Z.max 0 (blen pkt - ptmp) < Z.of_nat fuel ->
  sat (fun w => match w with
       | Found (Some t) => transport_ok pkt SIZE_ip6_hdr t
       | Found None => True | NoFuel => False end) (ipv6_walk pkt ip_len fuel ptmp nxthdr).
Proof.
  induction fuel as [|fuel IH]; intros ptmp nxthdr Hwf Hlen Hp Hf; cbn [ipv6_walk]; sizes.
  { lia. }
  case_if; [done|]. breflect. case_if; [|case_if; [|case_if; [|done]]].
  - apply sat_bind. eapply sat_mono; [|apply tcp_transport_sat; (done || lia)].
    intros [t|]; [|done]. intros [(? & Ht) _]. split; [sizes; lia|done].
  - apply sat_bind. eapply sat_mono; [|apply udp_transport_sat; (done || lia)].
    intros [t|]; [|done]. intros [(? & Ht) _]. split; [sizes; lia|done].
  - case_if; [done|]. breflect. rd_step. intros nxt _. rd_step. intros elen Hel.
    unfold in_width in Hel. apply IH; try done; sizes;
      rewrite Z.shiftl_mul_pow2 by lia; change (2 ^ 3) with 8; lia.
Qed.

Lemma get_ipv6_transport_sat pkt :
  bytes_wf pkt -> SIZE_ip6_hdr <= blen pkt < 2 ^ 32 ->
  sat (fun w => match w with
       | Found (Some t) => transport_ok pkt SIZE_ip6_hdr t
       | Found None => True | NoFuel => False end) (get_ipv6_transport_offset pkt).
Proof.
  intros Hwf Hlen. unfold get_ipv6_transport_offset. sizes.
  rd_step. intros ip_len _. case_if; [done|]. breflect. rd_step. intros nxt _.
  apply ipv6_walk_sat; try done; sizes; unfold blen in *; lia.
Qed.

(** ** The two steps together

    As [process_pkt] and [process_dns_response] call them: the IP offset, then
    the transport header of the packet from there on. *)
Definition locate_transport (pframe : list Z) (linktype : Z) : acc (option (Z * bool * walk)) :=
  let! r := get_ip_offset pframe linktype in
  match r with
  | None => Acc None
  | Some (ip_offset, is_ipv4) =>
      if ip_offset >? blen pframe then Acc None else
      let pkt := drop (Z.to_nat ip_offset) pframe in
      if is_ipv4 then
        let! t := get_ipv4_transport_offset pkt in Acc (Some (ip_offset, is_ipv4, Found t))
      else
        let! w := get_ipv6_transport_offset pkt in Acc (Some (ip_offset, is_ipv4, w))
  end.


(** [get_ip_offset] reads only inside the frame, whatever its bytes, length
    and link type, and an offset it returns leaves room for the header of the IP
    version it reports. *)
Theorem get_ip_offset_safe pframe linktype :
  bytes_wf pframe ->
  exists r, get_ip_offset pframe linktype = Acc r /\ ip_offset_ok pframe r.
Proof. intros. by apply sat_Acc, get_ip_offset_sat. Qed.

(** C22 : for every frame of less than 2^32 bytes the two steps together read
    only inside the frame, end (the walk over IPv6 extension headers never runs
    out of its bound), and a TCP or UDP header they report lies inside the packet
    with its payload offset behind it and not after the end; the payload of a UDP
    packet lies inside too. *)
Theorem locate_transport_safe pframe linktype :
  bytes_wf pframe -> blen pframe < 2 ^ 32 ->
  exists r, locate_transport pframe linktype = Acc r /\
    match r with
    | Some (off, is4, Found (Some t)) =>
        0 <= off <= blen pframe /\
        transport_ok (drop (Z.to_nat off) pframe) (if is4 then SIZE_ip else SIZE_ip6_hdr) t
    | Some (_, _, NoFuel) => False
    | _ => True
    end.
Proof.
  intros Hwf Hlen. apply sat_Acc. unfold locate_transport. apply sat_bind.
  eapply sat_mono; [|by apply get_ip_offset_sat].
  intros [[off is4]|]; [|done]. intros [Ho Hfit]. sizes.
  case_if; [done|]. breflect. set (pkt := drop _ _).
  assert (bytes_wf pkt) as Hp by by apply Forall_drop.
  assert (blen pkt = blen pframe - off) as Hl.
  { unfold pkt. rewrite blen_drop by (unfold blen in *; destruct is4; lia). lia. }
  destruct is4; apply sat_bind.
  - eapply sat_mono; [|apply get_ipv4_transport_sat; sizes; (done || lia)].
    intros [t|]; [|done]. intros Ht. split; [lia|done].
  - eapply sat_mono; [|apply get_ipv6_transport_sat; sizes; (done || lia)].
    intros [[t|]|]; try done; intros Ht; split; done || lia.
Qed.

(** ** Data lengths *)



(** The payload length of an IPv4 TCP packet with a total length field
    [ip_len] > 0 is the rest of the packet behind the payload offset, as long as
    [ip_len] covers the headers; for a smaller [ip_len], which the function
    accepts, it is the difference wrapped to 32 bits, more than 2^31. *)
Theorem ipv4_tcp_data_len pkt t ip_len :
  bytes_wf pkt -> SIZE_ip <= blen pkt < 2 ^ 31 ->
  get_ipv4_transport_offset pkt = Acc (Some t) -> tr_proto t = IP_PROTO_TCP ->
  rd_be16 pkt 2 = Acc ip_len -> 0 < ip_len ->
  (tr_data_offset t <= ip_len -> tr_data_offset t + tr_data_len t = ip_len) /\
  (ip_len < tr_data_offset t ->
     tr_data_len t = 2 ^ 32 - (tr_data_offset t - ip_len) /\ 2 ^ 31 < tr_data_len t).
Proof.
  intros Hwf Hlen Hg Htcp Hil Hpos.
  assert (transport_ok pkt SIZE_ip t) as Hok.
  { eapply (sat_elim _ _ _ (get_ipv4_transport_sat pkt Hwf ltac:(lia)) Hg). }
  destruct Hok as (Ho & Hd & Hde & _ & _ & _). rewrite Htcp, Z.eqb_refl in Hd.
  assert (in_width 16 ip_len) as Hw16
    by (eapply (sat_elim _ _ _ (rd_be16_sat pkt Hwf 2 ltac:(lia) ltac:(sizes; lia)) Hil)).
  enough (tr_data_len t = u32 (ip_len - tr_data_offset t)) as ->.
  { sizes. unfold in_width in Hw16. split; intros.
    - rewrite wrap_id by (unfold in_width; lia). lia.
    - unfold wrap. rewrite <- (Z.mod_add _ 1) by lia. rewrite Z.mod_small by lia. lia. }
  unfold get_ipv4_transport_offset in Hg.
  apply acc_bind_Acc in Hg as (off & _ & Hg). rewrite Hil in Hg. cbn [acc_bind] in Hg.
  case_if_in Hg; [done|]. apply acc_bind_Acc in Hg as (b0 & Hb0 & Hg).
  case_if_in Hg; [done|]. apply acc_bind_Acc in Hg as (p & _ & Hg). breflect.
  case_if_in Hg.
  - rewrite Z.gtb_ltb, (proj2 (Z.ltb_lt _ _) Hpos) in Hg.
    sizes. pose proof (tcp_transport_sat pkt (Z.shiftl (Z.land b0 15) 2) ip_len
      (Z.shiftl (Z.land b0 15) 2) Hwf ltac:(lia) ltac:(lia)) as Hs.
    destruct (sat_elim _ _ _ Hs Hg) as [_ ->]. f_equal. lia.
  - case_if_in Hg; [|done]. exfalso.
    sizes. pose proof (udp_transport_sat pkt (Z.shiftl (Z.land b0 15) 2) Hwf ltac:(lia) ltac:(lia)) as Hs.
    destruct (sat_elim _ _ _ Hs Hg) as [_ Hu]. by rewrite Hu in Htcp.
Qed.

(** The walk keeps the payload length field. *)
Lemma ipv6_walk_data_len pkt ip_len fuel : forall ptmp nxthdr t,
  bytes_wf pkt -> blen pkt < 2 ^ 32 -> 0 <= ptmp -> 0 < ip_len ->
  ipv6_walk pkt ip_len fuel ptmp nxthdr = Acc (Found (Some t)) -> tr_proto t = IP_PROTO_TCP ->
  tr_data_len t = u32 (ip_len - (tr_data_offset t - tr_offset t)).
Proof.
  induction fuel as [|fuel IH]; intros ptmp nxthdr t Hwf Hlen Hp Hpos; cbn [ipv6_walk]; [done|].
  intros Hw Ht. case_if_in Hw; [done|]. case_if_in Hw.
  - apply acc_bind_Acc in Hw as (r & Hr & [= ->]).
    rewrite Z.gtb_ltb, (proj2 (Z.ltb_lt _ _) Hpos) in Hr.
    pose proof (tcp_transport_sat pkt ptmp ip_len 0 Hwf Hlen Hp) as Hs.
    destruct (sat_elim _ _ _ Hs Hr) as [_ Hlen']. rewrite Hlen'.
    revert Hr. unfold tcp_transport. intros Hr. case_if_in Hr; [done|].
    repeat (apply acc_bind_Acc in Hr as (? & _ & Hr); try (case_if_in Hr; [done|])).
    simplify_eq/=. f_equal. lia.
  - case_if_in Hw.
    + apply acc_bind_Acc in Hw as (r & Hr & [= ->]).
      pose proof (udp_transport_sat pkt ptmp Hwf Hlen Hp) as Hs.
      destruct (sat_elim _ _ _ Hs Hr) as [_ Hu]. by rewrite Hu in Ht.
    + case_if_in Hw; [|done]. case_if_in Hw; [done|]. breflect.
      apply acc_bind_Acc in Hw as (nxt & _ & Hw). apply acc_bind_Acc in Hw as (el & Hel & Hw).
      sizes. pose proof (sat_elim _ _ _ (rd8_sat pkt Hwf (ptmp + 1) ltac:(lia)) Hel) as [? _].
      refine (IH _ _ t Hwf Hlen _ Hpos Hw Ht). rewrite Z.shiftl_mul_pow2 by lia. lia.
Qed.

(** In an IPv6 TCP packet the end of the payload is computed too far by
    exactly the length of the extension headers: the payload length field counts
    from the fixed header (40 + [ip_len] is the end of the packet), but it is
    taken as counting from the TCP header. *)
Theorem ipv6_tcp_data_end pkt t ip_len :
  bytes_wf pkt -> SIZE_ip6_hdr <= blen pkt < 2 ^ 31 ->
  get_ipv6_transport_offset pkt = Acc (Found (Some t)) -> tr_proto t = IP_PROTO_TCP ->
  rd_be16 pkt 4 = Acc ip_len -> tr_data_offset t - tr_offset t <= ip_len -> 0 < ip_len ->
  tr_data_offset t + tr_data_len t = SIZE_ip6_hdr + ip_len + (tr_offset t - SIZE_ip6_hdr).
Proof.
  intros Hwf Hlen Hg Ht Hil Hle Hpos. sizes.
  assert (transport_ok pkt SIZE_ip6_hdr t) as (Ho & Hd & Hde & _)
    by apply (sat_elim _ _ _ (get_ipv6_transport_sat pkt Hwf ltac:(sizes; lia)) Hg).
  rewrite Ht, Z.eqb_refl in Hd. sizes.
  pose proof (sat_elim _ _ _ (rd_be16_sat pkt Hwf 4 ltac:(lia) ltac:(lia)) Hil) as Hw.
  unfold get_ipv6_transport_offset in Hg. rewrite Hil in Hg. cbn [acc_bind] in Hg.
  case_if_in Hg; [done|]. apply acc_bind_Acc in Hg as (nxt & _ & Hg).
  apply ipv6_walk_data_len in Hg; try done; sizes; try lia. rewrite Hg.
  unfold in_width in Hw. rewrite wrap_id by (unfold in_width; lia). lia.
Qed.

(** ** VLAN tags *)

(** An Ethernet frame with one IEEE 802.1Q tag: the type of the payload follows
    the tag control information, the payload starts at byte 18. *)
Definition vlan_frame (macs : list Z) (tci0 tci1 : Z) (ip : list Z) : list Z :=
  macs ++ [0x81; 0x00; tci0; tci1; 0x08; 0x00] ++ ip.

(** For a tagged IPv4 frame [get_ip_offset] returns an offset two bytes
    before the IP header, that of the frame's inner type field. *)
Theorem vlan_ip_offset_short macs tci0 tci1 ip :
  length macs = 12%nat -> (20 <= length ip)%nat ->
  let frame := vlan_frame macs tci0 tci1 ip in
  get_ip_offset frame DLT_EN10MB = Acc (Some (16, true)) /\
  drop 18 frame = ip /\ drop 16 frame = 0x08 :: 0x00 :: ip.
Proof.
  intros Hm Hip frame. do 12 (destruct macs as [|? macs]; [done|]). destruct macs; [|done].
  split; [|done]. unfold get_ip_offset, frame, vlan_frame, blen. cbn [app length].
  set (n := Z.of_nat _). assert (38 <= n) by lia.
  rewrite (proj2 (Z.ltb_ge n SIZE_ip)), (proj2 (Z.ltb_ge n _)) by (sizes; lia). done.
Qed.

(** ** The TCP header structure *)
Definition GY_TH_FIN : Z := 0x01.
Definition GY_TH_SYN : Z := 0x02.
Definition GY_TH_RST : Z := 0x04.
Definition GY_TH_PUSH : Z := 0x08.
Definition GY_TH_ACK : Z := 0x10.
Definition GY_TH_URG : Z := 0x20.
Definition GY_TH_ECE : Z := 0x40.
Definition GY_TH_CWR : Z := 0x80.

(** The bit-fields [fin] to [cwr] are bits 0 to 7 of [tcpflags]. *)
Record GY_TCP_HDR := TcpHdr {
  th_source : Z; th_dest : Z; th_seq : Z; th_ack_seq : Z; th_doff : Z; th_tcpflags : Z;
  th_window : Z; th_check : Z; th_urg_ptr : Z }.

(** The constructor from the bytes of a header. *)
Definition tcp_hdr_of (buf : list Z) (off : Z) : acc GY_TCP_HDR :=
  let! source := rd_be16 buf off in
  let! dest := rd_be16 buf (off + 2) in
  let! seq := rd_be32 buf (off + 4) in
  let! ack_seq := rd_be32 buf (off + 8) in
  let! b12 := rd8 buf (off + 12) in
  let! flags := rd8 buf (off + 13) in
  let! window := rd_be16 buf (off + 14) in
  let! check := rd_be16 buf (off + 16) in
  let! urg_ptr := rd_be16 buf (off + 18) in
  Acc (TcpHdr source dest seq ack_seq (Z.shiftr b12 4) flags window check
    (if Z.testbit flags 5 then urg_ptr else 0)).

Definition with_flags (h : GY_TCP_HDR) (f : Z) : GY_TCP_HDR :=
  TcpHdr (th_source h) (th_dest h) (th_seq h) (th_ack_seq h) (th_doff h) f
    (th_window h) (th_check h) (th_urg_ptr h).

(** One [if (flags & mask) field = 1]. *)
Definition set_flag (flags mask bit : Z) (h : GY_TCP_HDR) : GY_TCP_HDR :=
  if negb (Z.land flags mask =? 0) then with_flags h (Z.setbit (th_tcpflags h) bit) else h.

Definition set_flags (h : GY_TCP_HDR) (flags : Z) : GY_TCP_HDR :=
  let h := set_flag flags GY_TH_ACK 4 h in
  let h := set_flag flags GY_TH_SYN 1 h in
  let h := set_flag flags GY_TH_FIN 0 h in
  let h := set_flag flags GY_TH_RST 2 h in
  let h := set_flag flags GY_TH_PUSH 3 h in
  let h := set_flag flags GY_TH_URG 5 h in
  let h := set_flag flags GY_TH_ECE 6 h in
  set_flag flags GY_TH_CWR 7 h.

Definition next_expected_src_seq (h : GY_TCP_HDR) (data_len : Z) : Z :=
  u32 (th_seq h + data_len + th_urg_ptr h + (if Z.testbit (th_tcpflags h) 1 then 1 else 0)).

Lemma land_pow2_0 f bit : 0 <= bit -> (Z.land f (2 ^ bit) =? 0) = negb (Z.testbit f bit).
Proof.
  intros Hb. destruct (Z.testbit f bit) eqn:E; simpl.
  - apply Z.eqb_neq. intros H0. assert (Z.testbit (Z.land f (2 ^ bit)) bit = true) as Ht
      by (rewrite Z.land_spec, E, Z.pow2_bits_true; done).
    rewrite H0, Z.bits_0 in Ht. done.
  - apply Z.eqb_eq, Z.bits_inj'. intros n Hn. rewrite Z.land_spec, Z.bits_0.
    destruct (Z.eq_dec n bit) as [->|]; [by rewrite E|].
    rewrite Z.pow2_bits_false by lia. apply andb_false_r.
Qed.

Lemma set_flag_bits flags bit h n :
  0 <= bit -> 0 <= n ->
  Z.testbit (th_tcpflags (set_flag flags (2 ^ bit) bit h)) n =
    (Z.testbit (th_tcpflags h) n || ((n =? bit) && Z.testbit flags n))%bool.
Proof.
  intros Hb Hn. unfold set_flag. rewrite land_pow2_0 by done.
  destruct (Z.testbit flags bit) eqn:E; simpl.
  - rewrite Z.setbit_eqb by done. destruct (Z.eqb_spec bit n) as [->|Hne].
    + by rewrite Z.eqb_refl, E, orb_true_r.
    + rewrite (proj2 (Z.eqb_neq n bit)) by lia. by rewrite orb_false_r.
  - destruct (Z.eqb_spec n bit) as [->|]; [rewrite E|]; by rewrite orb_false_r.
Qed.

(** [set_flags], which sets the header's flag bits one test at a time, adds
    exactly the given flags to those the header has. *)
Theorem set_flags_lor h flags :
  in_width 8 flags -> th_tcpflags (set_flags h flags) = Z.lor (th_tcpflags h) flags.
Proof.
  intros Hf. apply Z.bits_inj'. intros n Hn. unfold set_flags.
  change GY_TH_ACK with (2 ^ 4). change GY_TH_SYN with (2 ^ 1). change GY_TH_FIN with (2 ^ 0).
  change GY_TH_RST with (2 ^ 2). change GY_TH_PUSH with (2 ^ 3). change GY_TH_URG with (2 ^ 5).
  change GY_TH_ECE with (2 ^ 6). change GY_TH_CWR with (2 ^ 7).
  rewrite !set_flag_bits, Z.lor_spec by lia.
  destruct (Z.lt_ge_cases n 8).
  - assert (In n (seqZ 0 8)) as Hin by (apply list_elem_of_In, elem_of_seqZ; lia).
    cbn in Hin. repeat (destruct Hin as [<-|Hin]; [simpl; by rewrite ?orb_false_r|]). done.
  - rewrite !(proj2 (Z.eqb_neq n _)) by lia. simpl. rewrite !orb_false_r.
    replace flags with (flags mod 2 ^ 8) by (by apply Z.mod_small).
    rewrite Z.mod_pow2_bits_high by lia. by rewrite orb_false_r.
Qed.

(** ** Witnesses *)
Module NetExamples.

Definition zeros (n : nat) : list Z := replicate n 0.

(** Raw IPv4, total length 44, TCP, header of 20 bytes, 4 bytes of payload. *)
Definition ex_ipv4 (tot : Z) : list Z :=
  [0x45; 0; 0; tot; 0; 0; 0; 0; 64; 6; 0; 0; 10; 0; 0; 1; 10; 0; 0; 2] ++
  [0x9c; 0x40; 0; 53; 0; 0; 0; 1; 0; 0; 0; 0; 0x50; 0x18; 0; 0; 0; 0; 0; 0] ++ [1; 2; 3; 4].

(** Raw IPv6 with an 8-byte destination options header before TCP: the payload
    length field is 8 + 20 + 4. *)
Definition ex_ipv6 : list Z :=
  [0x60; 0; 0; 0; 0; 32; 0x3C; 64] ++ zeros 32 ++ [6; 0; 0; 0; 0; 0; 0; 0] ++
  [0x9c; 0x40; 0; 53; 0; 0; 0; 1; 0; 0; 0; 0; 0x50; 0x18; 0; 0; 0; 0; 0; 0] ++ [1; 2; 3; 4].


Lemma get_ip_offset_safe_witness :
  exists r, get_ip_offset (ex_ipv4 44) DLT_RAW = Acc r /\ ip_offset_ok (ex_ipv4 44) r.
Proof. apply (get_ip_offset_safe (ex_ipv4 44) DLT_RAW). by apply bytes_wf_dec. Defined.

Lemma locate_transport_safe_witness :
  locate_transport (ex_ipv4 44) DLT_RAW =
    Acc (Some (0, true, Found (Some (Transport IP_PROTO_TCP 20 40 4)))) /\
  transport_ok (ex_ipv4 44) 20 (Transport IP_PROTO_TCP 20 40 4).
Proof.
  destruct (locate_transport_safe (ex_ipv4 44) DLT_RAW (bytes_wf_dec (ex_ipv4 44) eq_refl) eq_refl)
    as (r & Hr & Hok).
  vm_compute in Hr. injection Hr as <-. split; [reflexivity|]. exact (proj2 Hok).
Defined.

(** The same packet with a total length of 30, less than its headers. *)
Lemma ipv4_tcp_data_len_witness :
  tr_data_len (Transport IP_PROTO_TCP 20 40 (2 ^ 32 - 10)) = 2 ^ 32 - (40 - 30) /\
  2 ^ 31 < 2 ^ 32 - 10.
Proof.
  refine (proj2 (ipv4_tcp_data_len (ex_ipv4 30) (Transport IP_PROTO_TCP 20 40 (2 ^ 32 - 10)) 30
    _ _ _ _ _ _) _); first [reflexivity | by apply bytes_wf_dec | by vm_compute].
Defined.

Lemma ipv6_tcp_data_end_witness :
  get_ipv6_transport_offset ex_ipv6 = Acc (Found (Some (Transport IP_PROTO_TCP 48 68 12))) /\
  blen ex_ipv6 = 72 /\ 68 + 12 = 40 + 32 + (48 - 40).
Proof.
  split; [reflexivity|]. split; [reflexivity|].
  apply (ipv6_tcp_data_end ex_ipv6 (Transport IP_PROTO_TCP 48 68 12) 32);
    first [reflexivity | by apply bytes_wf_dec | by vm_compute].
Defined.

Lemma vlan_ip_offset_short_witness :
  get_ip_offset (vlan_frame (zeros 12) 0 5 (ex_ipv4 44)) DLT_EN10MB = Acc (Some (16, true)).
Proof. apply (vlan_ip_offset_short (zeros 12) 0 5 (ex_ipv4 44)); simpl; lia. Defined.

Lemma set_flags_lor_witness :
  th_tcpflags (set_flags (TcpHdr 1 2 3 4 5 GY_TH_ACK 0 0 0) (Z.lor GY_TH_SYN GY_TH_CWR)) = 0x92.
Proof. by rewrite (set_flags_lor (TcpHdr 1 2 3 4 5 GY_TH_ACK 0 0 0) (Z.lor GY_TH_SYN GY_TH_CWR)). Defined.

End NetExamples.
