(* ===== verification/CommLayout.v ===== *)
(** * CommLayout : the messages of the communication protocol,
    [common/gy_comm_proto.h].

    The structures the nodes exchange, field by field, and their layout: the
    messages are sent as the structures lie in memory, so that offsets and sizes
    are part of the protocol.  [sizeof], [alignof] and [field] follow the layout
    rules of the target's C++ ABI (System V AMD64): a member is at the next multiple
    of its alignment, a structure's alignment is the largest of its members' and of
    its [alignas], its size a multiple of its alignment. *)
From S2P Require Import Prelude Bytes.
From stdpp Require Export strings.

#[global] Open Scope Z_scope.

(** ** C types *)
Inductive ctype :=
  | CInt (n : Z)                                  (* integer, enum or float of [n] bytes *)
  | CArr (t : ctype) (n : Z)
  | CAlign (a : Z) (t : ctype)                    (* member with alignas(a) *)
  | CStruct (a : Z) (fs : list (string * ctype)). (* a : alignas, 1 when there is none *)

Definition align_up (n a : Z) : Z := (n + a - 1) / a * a.

Fixpoint alignof (t : ctype) : Z :=
  match t with
  | CInt n => n
  | CArr t _ => alignof t
  | CAlign a t => Z.max a (alignof t)
  | CStruct a fs =>
      (fix go (l : list (string * ctype)) : Z :=
         match l with [] => a | f :: l' => Z.max (alignof f.2) (go l') end) fs
  end.

Fixpoint sizeof (t : ctype) : Z :=
  match t with
  | CInt n => n
  | CArr t n => n * sizeof t
  | CAlign _ t => sizeof t
  | CStruct a fs =>
      align_up
        ((fix go (l : list (string * ctype)) (off : Z) : Z :=
            match l with
            | [] => off
            | f :: l' => go l' (align_up off (alignof f.2) + sizeof f.2)
            end) fs 0)
        (alignof (CStruct a fs))
  end.

(** Offset and type of a member. *)
Fixpoint field_from (fs : list (string * ctype)) (off : Z) (name : string) : option (Z * ctype) :=
  match fs with
  | [] => None
  | (n, t) :: fs' =>
      let o := align_up off (alignof t) in
      if String.eqb n name then Some (o, t) else field_from fs' (o + sizeof t) name
  end.

Definition field (t : ctype) (name : string) : option (Z * ctype) :=
  match t with CStruct _ fs => field_from fs 0 name | _ => None end.

(** [p->name] for a [p] that points to byte [base] of the buffer. *)
Definition rd_fld (t : ctype) (name : string) (buf : list Z) (base : Z) : acc Z :=
  match field t name with
  | Some (o, ft) => rd_le (Z.to_nat (sizeof ft)) buf (base + o)
  | None => Oob
  end.

(** [p->name\[sizeof(name) - 1\] = 0] for a [char] array. *)
Definition term_fld (t : ctype) (name : string) (base : Z) (buf : list Z) : acc (list Z) :=
  match field t name with
  | Some (o, ft) => wr8 buf (base + o + sizeof ft - 1) 0
  | None => Oob
  end.

Definition uint8_t : ctype := CInt 1.
Definition uint16_t : ctype := CInt 2.
Definition uint32_t : ctype := CInt 4.
Definition uint64_t : ctype := CInt 8.
Definition int64_t : ctype := CInt 8.
Definition int_t : ctype := CInt 4.
Definition bool_t : ctype := CInt 1.
Definition char_t : ctype := CInt 1.
Definition float_t : ctype := CInt 4.
Definition pid_t : ctype := CInt 4.
Definition uid_t : ctype := CInt 4.
Definition gid_t : ctype := CInt 4.
Definition time_t : ctype := CInt 8.
Definition size_t : ctype := CInt 8.
Definition ssize_t : ctype := CInt 8.
Definition ino_t : ctype := CInt 8.

#[local] Open Scope string_scope.

(** ** Constants *)
Definition COMM_VERSION_NUM : Z := 1.
Definition MIN_COMM_VERSION_NUM : Z := 1.
Definition MAX_TOTAL_TAG_LEN : Z := 1024.
Definition ACCESS_KEY_LEN : Z := 64.
Definition MAX_ZONE_LEN : Z := 64.
Definition COMM_MAX_ERROR_LEN : Z := 256.
Definition MAX_PROC_CMDLINE_LEN : Z := 256.
Definition MAX_CLUSTER_NAME_LEN : Z := 64.
Definition MAX_INSTANCE_ID_LEN : Z := 128.
Definition MAX_COMM_DATA_SZ : Z := 16 * 1024 * 1024.
Definition MAX_PARTHA_PER_MADHAVA : Z := 512.
Definition MAX_DOMAINNAME_SIZE : Z := 256.
Definition TASK_COMM_LEN : Z := 16.
Definition MAX_PARSE_API_LEN : Z := 16 * 1024.
Definition MAX_PARSE_EXT_LEN : Z := 1400.

(** ** Addresses and identifiers

    [GY_IP_ADDR] is a packed class: its members have no alignment of their own. *)
Definition GY_IP_ADDR : ctype := CStruct 8 [
  ("ip128_be_", CArr uint8_t 16); ("ip32_be_", CArr uint8_t 4);
  ("aftype_", CArr uint8_t 2); ("ipflags_", CArr uint8_t 2)].

Definition IP_PORT : ctype := CStruct 1 [("ipaddr_", GY_IP_ADDR); ("port_", uint16_t)].

Definition NS_IP_PORT : ctype := CStruct 1 [("ip_port_", IP_PORT); ("inode_", ino_t)].

Definition PAIR_IP_PORT : ctype := CStruct 1 [("cli_", IP_PORT); ("ser_", IP_PORT)].

Definition GY_MACHINE_ID : ctype := CStruct 1 [("first", uint64_t); ("second", uint64_t)].

Definition HIST_SERIAL : ctype := CStruct 1 [("count", uint64_t); ("sum", int64_t)].

(** ** Structures nested in messages *)
Definition TOP_TASK : ctype := CStruct 1 [
  ("aggr_task_id_", uint64_t); ("pid_", pid_t); ("ppid_", pid_t); ("rss_mb_", uint32_t);
  ("cpupct_", float_t); ("comm_", CArr char_t TASK_COMM_LEN)].

Definition TOP_PG_TASK : ctype := CStruct 1 [
  ("aggr_task_id_", uint64_t); ("pg_pid_", pid_t); ("cpid_", pid_t); ("ntasks_", int_t);
  ("tot_rss_mb_", uint32_t); ("tot_cpupct_", float_t); ("pg_comm_", CArr char_t TASK_COMM_LEN);
  ("child_comm_", CArr char_t TASK_COMM_LEN)].

Definition TOP_FORK_TASK : ctype := CStruct 1 [
  ("aggr_task_id_", uint64_t); ("pid_", pid_t); ("ppid_", pid_t); ("nfork_per_sec_", int_t);
  ("comm_", CArr char_t TASK_COMM_LEN)].

(** The larger of the bucket counts of [SEMI_LOG_HASH] (14) and [DURATION_HASH]
    (15). *)
Definition MAX_HIST_HASH_BUCKETS : Z := Z.max (12 + 2) (13 + 2).

Definition TASK_ONE : ctype := CStruct 1 [
  ("stats_", CArr HIST_SERIAL MAX_HIST_HASH_BUCKETS); ("total_count_", size_t);
  ("max_val_", ssize_t); ("nbuckets_", uint32_t)].

Definition DEPENDS_ONE : ctype := CStruct 8 [
  ("glob_id_", uint64_t); ("madhava_id_", uint64_t); ("ns_ip_port_", NS_IP_PORT);
  ("is_new_", bool_t); ("is_localhost_", bool_t); ("delete_depends_", bool_t);
  ("is_load_balanced_", bool_t)].

Definition DOWNSTREAM_ONE : ctype := CStruct 1 [
  ("downstream_glob_id_buf_", CArr uint8_t 8); ("downstream_state_", uint8_t);
  ("downstream_issue_", uint8_t); ("downstream_issue_bit_hist_", uint8_t);
  ("src_upstream_tier_", uint8_t)].

Definition STATE_ONE : ctype := CStruct 8 [
  ("nhosts_", uint32_t); ("ntasks_issue_", uint32_t); ("ntaskissue_hosts_", uint32_t);
  ("ntasks_", uint32_t); ("nsvc_issue_", uint32_t); ("nsvcissue_hosts_", uint32_t);
  ("nsvc_", uint32_t); ("total_qps_", uint32_t); ("svc_net_mb_", uint32_t);
  ("ncpu_issue_", uint32_t); ("nmem_issue_", uint32_t)].

(** ** Messages

    Bit-fields that share a byte appear as that byte, under the name of the first. *)
Definition COMM_HEADER : ctype := CStruct 8 [
  ("magic_", uint32_t); ("total_sz_", uint32_t); ("data_type_", uint32_t);
  ("padding_sz_", uint32_t)].

Definition EVENT_NOTIFY : ctype := CStruct 8 [
  ("subtype_", uint32_t); ("nevents_", uint32_t)].

Definition QUERY_CMD : ctype := CStruct 8 [
  ("seqid_", uint64_t); ("timeoutsec_", time_t); ("subtype_", uint32_t);
  ("respformat_", uint32_t)].

Definition QUERY_RESPONSE : ctype := CStruct 8 [
  ("seqid_", uint64_t); ("subtype_", uint32_t); ("respcode_", int_t); ("respformat_", uint32_t);
  ("resp_len_", uint32_t); ("respflags_", uint32_t); ("is_resp_complete_", uint32_t)].

Definition ERROR_NOTIFY : ctype := CStruct 8 [
  ("error_code_", int_t); ("error_string_len_", uint32_t)].

Definition PS_REGISTER_REQ_S : ctype := CStruct 8 [
  ("comm_version_", uint32_t); ("partha_version_", uint32_t); ("min_shyama_version_", uint32_t);
  ("machine_id_hi_", uint64_t); ("machine_id_lo_", uint64_t);
  ("hostname_", CArr char_t MAX_DOMAINNAME_SIZE);
  ("write_access_key_", CArr char_t ACCESS_KEY_LEN);
  ("cluster_name_", CArr char_t MAX_CLUSTER_NAME_LEN); ("region_name_", CArr char_t MAX_ZONE_LEN);
  ("zone_name_", CArr char_t MAX_ZONE_LEN); ("kern_version_num_", uint32_t);
  ("curr_sec_", int64_t); ("last_mdisconn_sec_", int64_t); ("last_madhava_id_", uint64_t);
  ("flags_", uint64_t); ("extra_bytes_", CArr uint8_t 512)].

Definition PS_REGISTER_RESP_S : ctype := CStruct 8 [
  ("error_code_", int_t); ("error_string_", CArr char_t COMM_MAX_ERROR_LEN);
  ("comm_version_", uint32_t); ("shyama_version_", uint32_t); ("shyama_id_", uint64_t);
  ("flags_", uint64_t); ("partha_ident_key_", uint64_t); ("madhava_expiry_sec_", int64_t);
  ("madhava_id_", uint64_t); ("madhava_port_", uint16_t);
  ("madhava_hostname_", CArr char_t MAX_DOMAINNAME_SIZE);
  ("madhava_name_", CArr char_t MAX_CLUSTER_NAME_LEN); ("extra_bytes_", CArr uint8_t 800)].

Definition PM_CONNECT_CMD_S : ctype := CStruct 8 [
  ("comm_version_", uint32_t); ("partha_version_", uint32_t); ("min_madhava_version_", uint32_t);
  ("machine_id_hi_", uint64_t); ("machine_id_lo_", uint64_t); ("partha_ident_key_", uint64_t);
  ("hostname_", CArr char_t MAX_DOMAINNAME_SIZE);
  ("write_access_key_", CArr char_t ACCESS_KEY_LEN);
  ("cluster_name_", CArr char_t MAX_CLUSTER_NAME_LEN); ("region_name_", CArr char_t MAX_ZONE_LEN);
  ("zone_name_", CArr char_t MAX_ZONE_LEN); ("madhava_id_", uint64_t); ("cli_type_", uint32_t);
  ("kern_version_num_", uint32_t); ("curr_sec_", int64_t); ("clock_sec_", int64_t);
  ("process_uptime_sec_", int64_t); ("last_connect_sec_", int64_t); ("flags_", uint64_t);
  ("extra_bytes_", CArr uint8_t 512)].

Definition PM_CONNECT_RESP_S : ctype := CStruct 8 [
  ("error_code_", int_t); ("error_string_", CArr char_t COMM_MAX_ERROR_LEN);
  ("madhava_id_", uint64_t); ("comm_version_", uint32_t); ("madhava_version_", uint32_t);
  ("region_name_", CArr char_t MAX_ZONE_LEN); ("zone_name_", CArr char_t MAX_ZONE_LEN);
  ("madhava_name_", CArr char_t MAX_CLUSTER_NAME_LEN); ("curr_sec_", int64_t);
  ("clock_sec_", uint64_t); ("flags_", uint64_t); ("extra_bytes_", CArr uint8_t 512)].

Definition MS_REGISTER_REQ_S : ctype := CStruct 8 [
  ("comm_version_", uint32_t); ("madhava_version_", uint32_t); ("min_shyama_version_", uint32_t);
  ("madhava_id_", uint64_t); ("madhava_hostname_", CArr char_t MAX_DOMAINNAME_SIZE);
  ("madhava_port_", uint16_t); ("region_name_", CArr char_t MAX_ZONE_LEN);
  ("zone_name_", CArr char_t MAX_ZONE_LEN); ("madhava_name_", CArr char_t MAX_CLUSTER_NAME_LEN);
  ("shyama_secret_", CArr char_t MAX_CLUSTER_NAME_LEN); ("cli_type_", uint32_t);
  ("kern_version_num_", uint32_t); ("curr_sec_", int64_t); ("clock_sec_", int64_t);
  ("max_partha_nodes_", uint32_t); ("last_partha_nodes_", uint32_t);
  ("extra_bytes_", CArr uint8_t 800)].

Definition MS_REGISTER_RESP_S : ctype := CStruct 8 [
  ("error_code_", int_t); ("error_string_", CArr char_t COMM_MAX_ERROR_LEN);
  ("comm_version_", uint32_t); ("shyama_version_", uint32_t); ("shyama_id_", uint64_t);
  ("madhava_id_", uint64_t); ("nmadhava_reg_", uint64_t); ("nmadhava_partha_", uint64_t);
  ("region_name_", CArr char_t MAX_ZONE_LEN); ("zone_name_", CArr char_t MAX_ZONE_LEN);
  ("shyama_name_", CArr char_t MAX_CLUSTER_NAME_LEN); ("curr_sec_", int64_t);
  ("clock_sec_", uint64_t); ("flags_", uint64_t); ("extra_bytes_", CArr uint8_t 512)].

Definition MM_CONNECT_CMD_S : ctype := CStruct 8 [
  ("comm_version_", uint32_t); ("local_version_", uint32_t); ("min_remote_version_", uint32_t);
  ("madhava_hostname_", CArr char_t MAX_DOMAINNAME_SIZE); ("madhava_port_", uint16_t);
  ("region_name_", CArr char_t MAX_ZONE_LEN); ("zone_name_", CArr char_t MAX_ZONE_LEN);
  ("madhava_name_", CArr char_t MAX_CLUSTER_NAME_LEN); ("local_madhava_id_", uint64_t);
  ("remote_madhava_id_", uint64_t); ("cli_type_", uint32_t); ("kern_version_num_", uint32_t);
  ("curr_sec_", int64_t); ("clock_sec_", uint64_t); ("curr_partha_nodes_", uint32_t);
  ("extra_bytes_", CArr uint8_t 512)].

Definition MM_CONNECT_RESP_S : ctype := CStruct 8 [
  ("error_code_", int_t); ("error_string_", CArr char_t COMM_MAX_ERROR_LEN);
  ("comm_version_", uint32_t); ("region_name_", CArr char_t MAX_ZONE_LEN);
  ("zone_name_", CArr char_t MAX_ZONE_LEN); ("madhava_name_", CArr char_t MAX_CLUSTER_NAME_LEN);
  ("curr_sec_", int64_t); ("clock_sec_", uint64_t); ("flags_", uint64_t);
  ("extra_bytes_", CArr uint8_t 512)].

Definition NS_REGISTER_REQ_S : ctype := CStruct 8 [
  ("curr_sec_", int64_t); ("comm_version_", uint32_t); ("node_version_", uint32_t);
  ("min_shyama_version_", uint32_t); ("cli_type_", uint32_t); ("node_port_", uint32_t);
  ("node_hostname_", CArr char_t MAX_DOMAINNAME_SIZE); ("extra_bytes_", CArr uint8_t 128)].

Definition NS_REGISTER_RESP_S : ctype := CStruct 8 [
  ("error_code_", int_t); ("shyama_version_", uint32_t); ("shyama_id_", CArr char_t 32);
  ("error_string_", CArr char_t COMM_MAX_ERROR_LEN); ("extra_bytes_", CArr uint8_t 128)].

Definition NM_CONNECT_CMD_S : ctype := CStruct 8 [
  ("curr_sec_", int64_t); ("comm_version_", uint32_t); ("node_version_", uint32_t);
  ("min_madhava_version_", uint32_t); ("cli_type_", uint32_t); ("node_port_", uint32_t);
  ("node_hostname_", CArr char_t MAX_DOMAINNAME_SIZE); ("extra_bytes_", CArr uint8_t 128)].

Definition NM_CONNECT_RESP_S : ctype := CStruct 8 [
  ("error_code_", int_t); ("madhava_version_", uint32_t); ("madhava_id_", CArr char_t 32);
  ("error_string_", CArr char_t COMM_MAX_ERROR_LEN); ("extra_bytes_", CArr uint8_t 128)].

Definition SM_PARTHA_IDENT_NOTIFY : ctype := CStruct 8 [
  ("machine_id_hi_", uint64_t); ("machine_id_lo_", uint64_t); ("partha_ident_key_", uint64_t);
  ("texpiry_sec_", int64_t); ("is_new_host_", int_t);
  ("hostname_", CArr char_t MAX_DOMAINNAME_SIZE)].

Definition PARTHA_STATUS : ctype := CStruct 8 [
  ("is_ok_", bool_t)].

Definition MADHAVA_PARTHA_STATUS : ctype := CStruct 8 [
  ("madhava_id_", uint64_t); ("npartha_nodes_", uint64_t); ("is_active_madhava_id_", bool_t)].

Definition MADHAVA_SHYAMA_STATUS : ctype := CStruct 8 [
  ("madhava_id_", uint64_t); ("npartha_nodes_", uint64_t); ("approx_partha_conns_", uint64_t)].

Definition SHYAMA_MADHAVA_STATUS : ctype := CStruct 8 [
  ("nmadhava_reg_", uint64_t); ("nmadhava_partha_", uint64_t); ("active_madhava_id_", uint64_t)].

Definition MADHAVA_MADHAVA_STATUS : ctype := CStruct 8 [
  ("madhava_id_", uint64_t); ("npartha_nodes_", uint64_t)].

Definition ERROR_STRING_RESP : ctype := CStruct 8 [
  ("error_string_", CArr char_t COMM_MAX_ERROR_LEN)].

Definition PARTHA_MADHAVA_REQ : ctype := CStruct 8 [
  ("partha_machine_id_hi_", uint64_t); ("partha_machine_id_lo_", uint64_t);
  ("partha_hostname_len_", uint32_t); ("extra_tags_len_", uint32_t)].

Definition PARTHA_MADHAVA_RESP : ctype := CStruct 8 [
  ("madhava_id_", uint64_t); ("madhava_svc_hostname_", CArr char_t MAX_DOMAINNAME_SIZE);
  ("madhava_svc_port_", uint16_t)].

Definition NUM_PARTHA_REQ : ctype := CStruct 8 [
  ("send_state_", bool_t)].

Definition NUM_PARTHA_RESP : ctype := CStruct 8 [
  ("nconnected_", uint64_t); ("nhandled_", uint64_t); ("ngood_", uint64_t); ("nok_", uint64_t);
  ("nbad_", uint64_t); ("nsevere_", uint64_t)].

Definition MADHAVA_LIST : ctype := CStruct 8 [
  ("madhava_id_", uint64_t); ("npartha_nodes_", uint64_t); ("madhava_version_", uint32_t);
  ("madhava_svc_hostname_", CArr char_t MAX_DOMAINNAME_SIZE); ("madhava_svc_port_", uint16_t)].

Definition MP_RESET_STATS : ctype := CStruct 8 [
  ("reset_stats_", bool_t)].

Definition TASK_MINI_ADD : ctype := CStruct 8 [
  ("start_tusec_", uint64_t); ("exit_tusec_", uint64_t); ("task_pid_", pid_t);
  ("task_ppid_", pid_t); ("task_pgid_", pid_t); ("task_comm_", CArr char_t TASK_COMM_LEN);
  ("task_parent_comm_", CArr char_t TASK_COMM_LEN); ("aggr_task_id_", uint64_t);
  ("task_effuid_", uid_t); ("task_effgid_", gid_t); ("is_rt_process_", bool_t);
  ("task_cmdline_len_", uint32_t); ("padding_len_", uint32_t)].

Definition TASK_FULL_ADD : ctype := CStruct 8 [
  ("task_pid_", pid_t); ("task_ppid_", pid_t); ("task_pgid_", pid_t); ("task_sid_", pid_t);
  ("task_nspid_", pid_t); ("task_nspgid_", pid_t); ("task_nssid_", pid_t);
  ("task_comm_", CArr char_t TASK_COMM_LEN); ("task_parent_comm_", CArr char_t TASK_COMM_LEN);
  ("aggr_task_id_", uint64_t); ("task_realuid_", uid_t); ("task_effuid_", uid_t);
  ("task_realgid_", gid_t); ("task_effgid_", gid_t); ("ncpus_allowed_", uint32_t);
  ("nmems_allowed_", uint32_t); ("task_flags_", uint32_t); ("start_tusec_", uint64_t);
  ("task_priority_", int64_t); ("task_nice_", int64_t); ("task_rt_priority_", uint32_t);
  ("task_sched_policy_", uint32_t); ("ntcp_listeners_", int_t); ("is_tcp_server_", bool_t);
  ("is_tcp_client_", bool_t); ("is_parent_tcp_client_", bool_t); ("is_high_cap_", bool_t);
  ("listen_tbl_inherited_", bool_t); ("task_exe_path_len_", uint16_t);
  ("task_cmdline_len_", uint16_t); ("task_tags_len_", uint16_t); ("padding_len_", uint8_t)].

Definition TASK_AGGR_NOTIFY : ctype := CStruct 8 [
  ("aggr_task_id_", uint64_t); ("related_listen_id_", uint64_t);
  ("comm_", CArr char_t TASK_COMM_LEN); ("uid_", uid_t); ("gid_", gid_t);
  ("cmdline_len_", uint16_t); ("tag_len_", uint8_t); ("is_high_cap_", uint8_t);
  ("padding_len_", uint8_t)].

Definition PING_TASK_AGGR : ctype := CStruct 8 [
  ("aggr_task_id_", uint64_t); ("related_listen_id_", uint64_t); ("ntasks_", uint32_t);
  ("keep_task_", bool_t)].

Definition MM_TASK_AGGR_PING : ctype := CStruct 8 [
  ("aggr_task_id_", uint64_t)].

Definition MM_TASK_AGGR_DEL : ctype := CStruct 8 [
  ("aggr_task_id_", uint64_t)].

Definition TASK_TOP_PROCS : ctype := CStruct 8 [
  ("nprocs_", uint16_t); ("npg_procs_", uint16_t); ("nrss_procs_", uint16_t);
  ("nfork_procs_", uint16_t); ("ext_data_len_", uint16_t)].

Definition TASK_HISTOGRAM : ctype := CStruct 8 [
  ("cpu_delay_histogram_", TASK_ONE); ("blkio_delay_histogram_", TASK_ONE);
  ("vol_cs_histogram_", TASK_ONE); ("invol_cs_histogram_", TASK_ONE);
  ("cpu_pct_histogram_", TASK_ONE); ("last_update_tsec_", int64_t); ("aggr_task_id_", uint64_t);
  ("comm_", CArr char_t TASK_COMM_LEN); ("pid_", pid_t)].

Definition NEW_LISTENER : ctype := CStruct 8 [
  ("ns_ip_port_", NS_IP_PORT); ("glob_id_", uint64_t); ("aggr_glob_id_", uint64_t);
  ("related_listen_id_", uint64_t); ("tstart_usec_", uint64_t); ("ser_aggr_task_id_", uint64_t);
  ("is_any_ip_", bool_t); ("is_pre_existing_", bool_t); ("no_aggr_stats_", bool_t);
  ("no_resp_stats_", bool_t); ("comm_", CArr char_t TASK_COMM_LEN); ("start_pid_", pid_t);
  ("cmdline_len_", uint16_t); ("padding_len_", uint8_t)].

Definition LISTENER_INFO_REQ : ctype := CStruct 8 [
  ("ntcp_listeners_", uint32_t)].

Definition LISTENER_DAY_STATS : ctype := CStruct 8 [
  ("glob_id_", uint64_t); ("tcount_5d_", int64_t); ("tsum_5d_", int64_t);
  ("p95_5d_respms_", uint32_t); ("p25_5d_respms_", uint32_t); ("p95_qps_", uint32_t);
  ("p25_qps_", uint32_t); ("p95_nactive_", uint32_t); ("p25_nactive_", uint32_t)].

Definition LISTENERS_INFO_STATS_RESP : ctype := CStruct 8 [
  ("ntcp_listeners_", uint32_t)].

Definition TCP_CONN_NOTIFY : ctype := CStruct 8 [
  ("cli_", IP_PORT); ("ser_", IP_PORT); ("nat_cli_", IP_PORT); ("nat_ser_", IP_PORT);
  ("tusec_start_", uint64_t); ("tusec_close_", uint64_t); ("cli_task_aggr_id_", uint64_t);
  ("cli_related_listen_id_", uint64_t); ("cli_madhava_id_", uint64_t);
  ("cli_ser_machine_id_", GY_MACHINE_ID); ("ser_related_listen_id_", uint64_t);
  ("ser_glob_id_", uint64_t); ("ser_madhava_id_", uint64_t); ("bytes_sent_", uint64_t);
  ("bytes_rcvd_", uint64_t); ("cli_pid_", pid_t); ("ser_pid_", pid_t);
  ("ser_conn_hash_", uint32_t); ("ser_sock_inode_", uint32_t);
  ("cli_comm_", CArr char_t TASK_COMM_LEN); ("ser_comm_", CArr char_t TASK_COMM_LEN);
  ("cli_cmdline_len_", uint16_t); ("is_tcp_connect_event_", bool_t);
  ("is_tcp_accept_event_", bool_t); ("is_loopback_conn_", bool_t); ("is_pre_existing_", bool_t);
  ("notified_before_", bool_t); ("padding_len_", uint8_t)].

Definition NAT_TCP_NOTIFY : ctype := CStruct 8 [
  ("orig_tup_", PAIR_IP_PORT); ("nat_tup_", PAIR_IP_PORT); ("is_snat_", bool_t);
  ("is_dnat_", bool_t); ("is_ipvs_", bool_t)].

Definition MS_TCP_CONN_CLOSE : ctype := CStruct 8 [
  ("tup_", PAIR_IP_PORT); ("close_cli_bytes_sent_", uint64_t);
  ("close_cli_bytes_rcvd_", uint64_t)].

Definition MP_CLI_TCP_INFO : ctype := CStruct 8 [
  ("tup_", PAIR_IP_PORT); ("ser_partha_machine_id_", GY_MACHINE_ID); ("ser_glob_id_", uint64_t);
  ("ser_madhava_id_", uint64_t); ("ser_related_listen_id_", uint64_t);
  ("cli_ser_diff_clusters_", bool_t); ("ser_comm_", CArr char_t TASK_COMM_LEN)].

Definition MP_SER_TCP_INFO : ctype := CStruct 8 [
  ("cli_partha_machine_id_", GY_MACHINE_ID); ("cli_task_aggr_id_", uint64_t);
  ("cli_madhava_id_", uint64_t); ("cli_related_listen_id_", uint64_t);
  ("cli_comm_", CArr char_t TASK_COMM_LEN); ("ser_nat_ip_port_", IP_PORT);
  ("ser_nat_conn_hash_", uint64_t); ("ser_conn_hash_", uint32_t); ("ser_sock_inode_", uint32_t)].

Definition MS_TCP_CONN_NOTIFY : ctype := CStruct 8 [
  ("cli_", IP_PORT); ("ser_", IP_PORT); ("nat_cli_", IP_PORT); ("nat_ser_", IP_PORT);
  ("tusec_mstart_", uint64_t); ("cli_task_aggr_id_", uint64_t);
  ("cli_related_listen_id_", uint64_t); ("ser_glob_id_", uint64_t);
  ("ser_tusec_pstart_", uint64_t); ("ser_nat_conn_hash_", uint64_t); ("ser_conn_hash_", uint32_t);
  ("ser_sock_inode_", uint32_t); ("ser_related_listen_id_", uint64_t);
  ("close_cli_bytes_sent_", uint64_t); ("close_cli_bytes_rcvd_", uint64_t);
  ("cli_ser_partha_machine_id_", GY_MACHINE_ID); ("cli_ser_cluster_hash_", uint64_t);
  ("cli_ser_comm_", CArr char_t TASK_COMM_LEN); ("cli_ser_cmdline_trunc_", CArr char_t 63);
  ("cli_ser_cmdline_len_", uint8_t)].

Definition SHYAMA_SER_TCP_INFO : ctype := CStruct 8 [
  ("ser_glob_id_", uint64_t); ("cli_madhava_id_", uint64_t); ("cli_task_aggr_id_", uint64_t);
  ("cli_related_listen_id_", uint64_t); ("cli_partha_machine_id_", GY_MACHINE_ID);
  ("ser_comm_", CArr char_t TASK_COMM_LEN); ("ser_partha_machine_id_", GY_MACHINE_ID);
  ("ser_nat_ip_port_", IP_PORT); ("ser_nat_conn_hash_", uint64_t); ("ser_conn_hash_", uint32_t);
  ("ser_sock_inode_", uint32_t); ("close_cli_bytes_sent_", uint64_t);
  ("close_cli_bytes_rcvd_", uint64_t); ("tusec_pstart_", uint64_t); ("tusec_mstart_", uint64_t);
  ("cli_comm_", CArr char_t TASK_COMM_LEN); ("cli_cmdline_trunc_", CArr char_t 63);
  ("cli_cmdline_len_", uint8_t)].

Definition SHYAMA_CLI_TCP_INFO : ctype := CStruct 8 [
  ("tup_", PAIR_IP_PORT); ("ser_glob_id_", uint64_t); ("ser_madhava_id_", uint64_t);
  ("ser_related_listen_id_", uint64_t); ("ser_ip_port_", IP_PORT);
  ("cli_task_aggr_id_", uint64_t); ("cli_related_listen_id_", uint64_t);
  ("cli_partha_machine_id_", GY_MACHINE_ID); ("cli_comm_", CArr char_t TASK_COMM_LEN);
  ("ser_partha_machine_id_", GY_MACHINE_ID); ("close_cli_bytes_sent_", uint64_t);
  ("close_cli_bytes_rcvd_", uint64_t); ("tusec_mstart_", uint64_t);
  ("cli_ser_diff_clusters_", bool_t); ("ser_comm_", CArr char_t TASK_COMM_LEN);
  ("ser_cmdline_trunc_", CArr char_t 63); ("ser_cmdline_len_", uint8_t)].

Definition CPU_MEM_STATE_NOTIFY : ctype := CStruct 8 [
  ("cpu_pct_", float_t); ("usercpu_pct_", float_t); ("syscpu_pct_", float_t);
  ("iowait_pct_", float_t); ("cumul_core_cpu_pct_", float_t); ("forks_sec_", uint32_t);
  ("procs_running_", uint32_t); ("cs_sec_", uint32_t); ("cs_p95_sec_", uint32_t);
  ("cs_5min_p95_sec_", uint32_t); ("cpu_p95_", uint32_t); ("cpu_5min_p95_", uint32_t);
  ("fork_p95_sec_", uint32_t); ("fork_5min_p95_sec_", uint32_t); ("procs_p95_", uint32_t);
  ("procs_5min_p95_", uint32_t); ("cpu_state_", uint8_t); ("cpu_issue_", uint8_t);
  ("cpu_issue_bit_hist_", uint8_t); ("cpu_severe_issue_hist_", uint8_t);
  ("cpu_state_string_len_", uint8_t); ("rss_pct_", float_t); ("rss_memory_mb_", uint64_t);
  ("total_memory_mb_", uint64_t); ("cached_memory_mb_", uint64_t);
  ("locked_memory_mb_", uint64_t); ("committed_memory_mb_", uint64_t);
  ("committed_pct_", float_t); ("swap_free_mb_", uint64_t); ("swap_total_mb_", uint64_t);
  ("pg_inout_sec_", uint32_t); ("swap_inout_sec_", uint32_t); ("reclaim_stalls_", uint32_t);
  ("pgmajfault_", uint32_t); ("oom_kill_", uint32_t); ("rss_pct_p95_", uint32_t);
  ("pginout_p95_", uint64_t); ("swpinout_p95_", uint64_t); ("allocstall_p95_", uint64_t);
  ("mem_state_", uint8_t); ("mem_issue_", uint8_t); ("mem_issue_bit_hist_", uint8_t);
  ("mem_severe_issue_hist_", uint8_t); ("mem_state_string_len_", uint8_t);
  ("padding_len_", uint8_t)].

Definition AGGR_TASK_STATE_NOTIFY : ctype := CStruct 8 [
  ("aggr_task_id_", uint64_t); ("onecomm_", CArr char_t TASK_COMM_LEN);
  ("pid_arr_", CArr pid_t 2); ("tcp_kbytes_", uint32_t); ("tcp_conns_", uint32_t);
  ("total_cpu_pct_", float_t); ("rss_mb_", uint32_t); ("cpu_delay_msec_", uint32_t);
  ("vm_delay_msec_", uint32_t); ("blkio_delay_msec_", uint32_t); ("ntasks_total_", uint16_t);
  ("ntasks_issue_", uint16_t); ("curr_state_", uint8_t); ("curr_issue_", uint8_t);
  ("issue_bit_hist_", uint8_t); ("severe_issue_bit_hist_", uint8_t);
  ("issue_string_len_", uint8_t); ("padding_len_", uint8_t)].

Definition LISTENER_STATE_NOTIFY : ctype := CStruct 8 [
  ("glob_id_", uint64_t); ("nqrys_5s_", uint32_t); ("total_resp_5sec_", uint32_t);
  ("nconns_", uint32_t); ("nconns_active_", uint32_t); ("ntasks_", uint32_t);
  ("p95_5s_resp_ms_", uint32_t); ("p95_5min_resp_ms_", uint32_t);
  ("curr_kbytes_inbound_", uint32_t); ("curr_kbytes_outbound_", uint32_t);
  ("ser_errors_", uint32_t); ("cli_errors_", uint32_t); ("tasks_delay_usec_", uint32_t);
  ("tasks_cpudelay_usec_", uint32_t); ("tasks_blkiodelay_usec_", uint32_t);
  ("tasks_user_cpu_", uint32_t); ("tasks_sys_cpu_", uint32_t); ("tasks_rss_mb_", uint32_t);
  ("ntasks_issue_", uint16_t); ("is_http_svc_", bool_t); ("curr_state_", uint8_t);
  ("curr_issue_", uint8_t); ("issue_bit_hist_", uint8_t); ("high_resp_bit_hist_", uint8_t);
  ("last_issue_subsrc_", uint8_t); ("query_flags_", uint8_t); ("issue_string_len_", uint8_t);
  ("padding_len_", uint8_t)].

Definition HOST_STATE_NOTIFY__V000100 : ctype := CStruct 8 [
  ("curr_time_usec_", uint64_t); ("ntasks_issue_", uint32_t); ("ntasks_severe_", uint32_t);
  ("ntasks_", uint32_t); ("nlisten_issue_", uint32_t); ("nlisten_severe_", uint32_t);
  ("nlisten_", uint32_t); ("curr_state_", uint8_t); ("issue_bit_hist_", uint8_t);
  ("cpu_issue_", bool_t); ("mem_issue_", bool_t); ("severe_cpu_issue_", bool_t);
  ("severe_mem_issue_", bool_t)].

Definition HOST_STATE_NOTIFY : ctype := CStruct 8 [
  ("curr_time_usec_", uint64_t); ("ntasks_issue_", uint32_t); ("ntasks_severe_", uint32_t);
  ("ntasks_", uint32_t); ("nlisten_issue_", uint32_t); ("nlisten_severe_", uint32_t);
  ("nlisten_", uint32_t); ("curr_state_", uint8_t); ("issue_bit_hist_", uint8_t);
  ("cpu_issue_", bool_t); ("mem_issue_", bool_t); ("severe_cpu_issue_", bool_t);
  ("severe_mem_issue_", bool_t); ("total_cpu_delayms_", CAlign 8 uint32_t);
  ("total_vm_delayms_", uint32_t); ("total_io_delayms_", uint32_t)].

Definition LISTENER_DEPENDENCY_NOTIFY : ctype := CStruct 8 [
  ("related_listen_id_", uint64_t); ("one_listener_glob_id_", uint64_t); ("ndepends_", uint32_t);
  ("nlisteners_", uint32_t)].

Definition RELSVC_CLUSTER_ONE : ctype := CStruct 8 [
  ("partha_machine_id_", GY_MACHINE_ID); ("madhava_id_", uint64_t);
  ("related_listen_id_", uint64_t)].

Definition LISTENER_CLUSTER_NOTIFY : ctype := CStruct 8 [
  ("related_listen_id_", uint64_t); ("ncluster_elems_", uint32_t)].

Definition MS_SVC_CLUSTER_MESH : ctype := CStruct 8 [
  ("svc_cluster_id_", uint64_t); ("ncluster_elems_", uint32_t);
  ("cluster_name_", CArr char_t MAX_CLUSTER_NAME_LEN); ("init_comm_", CArr char_t TASK_COMM_LEN)].

Definition SM_SVC_CLUSTER_MESH : ctype := CStruct 8 [
  ("svc_cluster_id_", uint64_t); ("ntotal_cluster_svc_", uint32_t); ("nmadhava_elems_", uint32_t);
  ("cluster_name_", CArr char_t MAX_CLUSTER_NAME_LEN); ("init_comm_", CArr char_t TASK_COMM_LEN)].

Definition LISTENER_NAT_IP_EVENT : ctype := CStruct 8 [
  ("nat_ip_port_arr_", CArr IP_PORT 2); ("glob_id_", uint64_t)].

Definition MS_LISTENER_NAT_IP : ctype := CStruct 8 [
  ("partha_machine_id_", GY_MACHINE_ID); ("madhava_id_", uint64_t); ("glob_id_", uint64_t);
  ("cluster_name_", CArr char_t MAX_CLUSTER_NAME_LEN); ("comm_", CArr char_t TASK_COMM_LEN);
  ("nelems_new_", uint8_t); ("nelems_del_", uint8_t)].

Definition SM_SVC_NAT_IP_CLUSTER : ctype := CStruct 8 [
  ("nat_ip_cluster_id_", uint64_t); ("glob_id_", uint64_t); ("nat_ip_port_", IP_PORT);
  ("ntotal_cluster_svc_", uint32_t)].

Definition MM_LISTENER_ISSUE_RESOL : ctype := CStruct 8 [
  ("issue_src_glob_id_", uint64_t); ("issue_src_madhava_id_", uint64_t);
  ("issue_src_time_usec_", uint64_t); ("issue_src_comm_", CArr char_t TASK_COMM_LEN);
  ("ndownstreams_", uint16_t); ("src_is_load_balanced_", bool_t); ("src_state_", uint8_t);
  ("src_issue_", uint8_t); ("issue_bit_hist_", uint8_t); ("padding_len_", uint8_t)].

Definition MM_LISTENER_PING : ctype := CStruct 8 [
  ("glob_id_", uint64_t)].

Definition MM_LISTENER_DELETE : ctype := CStruct 8 [
  ("glob_id_", uint64_t)].

Definition MM_LISTENER_DEPENDS : ctype := CStruct 8 [
  ("glob_id_", uint64_t); ("delete_depends_", bool_t); ("is_load_balanced_", bool_t)].

Definition LISTENER_DOMAIN_NOTIFY : ctype := CStruct 8 [
  ("glob_id_", uint64_t); ("domain_string_len_", uint8_t); ("tag_len_", uint8_t);
  ("padding_len_", uint8_t)].

Definition ACTIVE_CONN_STATS : ctype := CStruct 8 [
  ("listener_glob_id_", uint64_t); ("cli_aggr_task_id_", uint64_t);
  ("ser_comm_", CArr char_t TASK_COMM_LEN); ("cli_comm_", CArr char_t TASK_COMM_LEN);
  ("remote_machine_id_", GY_MACHINE_ID); ("remote_madhava_id_", uint64_t);
  ("bytes_sent_", uint64_t); ("bytes_received_", uint64_t); ("cli_delay_msec_", uint32_t);
  ("ser_delay_msec_", uint32_t); ("max_rtt_msec_", float_t); ("active_conns_", uint16_t);
  ("cli_listener_proc_", uint8_t)].

Definition LISTEN_TASKMAP_NOTIFY : ctype := CStruct 8 [
  ("related_listen_id_", uint64_t); ("ser_comm_", CArr char_t TASK_COMM_LEN);
  ("nlisten_", uint16_t); ("naggr_taskid_", uint16_t)].

Definition HOST_INFO_NOTIFY : ctype := CStruct 8 [
  ("distribution_name_", CArr char_t 128); ("kern_version_string_", CArr char_t 64);
  ("kern_version_num_", uint32_t); ("instance_id_", CArr char_t MAX_INSTANCE_ID_LEN);
  ("cloud_type_", CArr char_t 64); ("processor_model_", CArr char_t 128);
  ("cpu_vendor_", CArr char_t 64); ("cores_online_", uint16_t); ("cores_offline_", uint16_t);
  ("max_cores_", uint16_t); ("isolated_cores_", uint16_t); ("ram_mb_", uint32_t);
  ("corrupted_ram_mb_", uint32_t); ("num_numa_nodes_", uint16_t);
  ("max_cores_per_socket_", uint16_t); ("threads_per_core_", uint16_t);
  ("boot_time_sec_", time_t); ("l1_dcache_kb_", uint32_t); ("l2_cache_kb_", uint32_t);
  ("l3_cache_kb_", uint32_t); ("l4_cache_kb_", uint32_t); ("is_virtual_cpu_", bool_t);
  ("virtualization_type_", CArr char_t 64)].

Definition HOST_CPU_MEM_CHANGE : ctype := CStruct 8 [
  ("cpu_changed_", bool_t); ("new_cores_online_", uint16_t); ("new_cores_offline_", uint16_t);
  ("old_cores_online_", uint16_t); ("old_cores_offline_", uint16_t); ("mem_changed_", bool_t);
  ("new_ram_mb_", uint32_t); ("old_ram_mb_", uint32_t); ("mem_corrupt_changed_", bool_t);
  ("new_corrupted_ram_mb_", uint32_t); ("old_corrupted_ram_mb_", uint32_t)].

Definition NOTIFICATION_MSG : ctype := CStruct 8 [
  ("type_", uint8_t); ("msglen_", uint16_t); ("padding_len_", uint8_t)].

Definition AGGR_TASK_HIST_STATS : ctype := CStruct 8 [
  ("aggr_task_id_", uint64_t); ("starttimeusec_", uint64_t); ("p95_cpu_pct_", uint32_t);
  ("p95_cpu_delay_ms_", uint32_t); ("p95_blkio_delay_ms_", uint32_t); ("nprocs_", uint32_t);
  ("nthreads_", uint32_t); ("max_cores_allowed_", uint16_t); ("cpu_cg_pct_limit_", uint8_t);
  ("max_mem_cg_pct_rss_", uint8_t)].

Definition SM_ALERT_ADEF_NEW : ctype := CStruct 8 [
  ("adef_id_", uint32_t); ("state_", uint8_t); ("asubsys_", int_t); ("isrealtime_", bool_t);
  ("for_partha_", bool_t); ("lenjson_", uint16_t); ("padding_len_", uint8_t)].

Definition SM_ALERT_ADEF_UPD : ctype := CStruct 8 [
  ("adef_id_", uint32_t); ("type_", uint8_t); ("isrealtime_", bool_t); ("for_partha_", bool_t)].

Definition SM_ALERT_STAT_DISABLE : ctype := CStruct 8 [
  ("tdisable_end_", time_t)].

Definition ALERT_STAT_INFO : ctype := CStruct 8 [
  ("talert_", time_t); ("alertid_", uint32_t); ("adef_id_", uint32_t); ("ahdlr_", uint8_t);
  ("asubsys_", int_t); ("numhits_", uint8_t); ("numcheckfor_", uint8_t); ("nrepeats_", uint8_t);
  ("isrealtime_", bool_t); ("lenjson_", uint16_t); ("padding_len_", uint8_t)].

Definition ALERT_STAT_CLOSE : ctype := CStruct 8 [
  ("tlast_hit_", time_t); ("tcurr_", time_t); ("alertid_", uint32_t); ("adef_id_", uint32_t);
  ("is_force_close_", bool_t); ("isrealtime_", bool_t)].

Definition MS_CLUSTER_STATE : ctype := CStruct 8 [
  ("state_", STATE_ONE); ("clustname_", CArr char_t MAX_CLUSTER_NAME_LEN)].

Definition MS_PARTHA_PING : ctype := CStruct 8 [
  ("machine_id_", GY_MACHINE_ID); ("is_deleted_", bool_t)].

Definition MS_REG_PARTHA : ctype := CStruct 8 [
  ("machine_id_", GY_MACHINE_ID); ("comm_version_", uint32_t); ("partha_version_", uint32_t);
  ("hostname_", CArr char_t MAX_DOMAINNAME_SIZE);
  ("cluster_name_", CArr char_t MAX_CLUSTER_NAME_LEN); ("region_name_", CArr char_t MAX_ZONE_LEN);
  ("zone_name_", CArr char_t MAX_ZONE_LEN); ("kern_version_num_", uint32_t)].

Definition API_TRAN : ctype := CStruct 1 [
  ("treq_usec_", uint64_t); ("tres_usec_", uint64_t); ("tupd_usec_", uint64_t);
  ("reqlen_", uint64_t); ("reslen_", uint64_t); ("reqnum_", uint64_t);
  ("response_usec_", uint64_t); ("reaction_usec_", uint64_t); ("tconnect_usec_", uint64_t);
  ("cliip_", GY_IP_ADDR); ("serip_", GY_IP_ADDR); ("glob_id_", uint64_t); ("conn_id_", uint64_t);
  ("comm_", CArr char_t TASK_COMM_LEN); ("errorcode_", int_t); ("app_sleep_ms_", uint32_t);
  ("tran_type_", uint32_t); ("proto_", uint16_t); ("cliport_", uint16_t); ("serport_", uint16_t);
  ("request_len_", uint16_t); ("lenext_", uint16_t); ("padlen_", uint8_t)].

(** [REQ_TRACE_TRAN] adds no member to its base. *)
Definition REQ_TRACE_TRAN : ctype := API_TRAN.

Definition REQ_TRACE_SET : ctype := CStruct 8 [
  ("glob_id_", uint64_t); ("ns_ip_port_", NS_IP_PORT); ("tend_", time_t);
  ("comm_", CArr char_t TASK_COMM_LEN)].

Definition REQ_TRACE_STATUS : ctype := CStruct 8 [
  ("glob_id_", uint64_t); ("ns_ip_port_", NS_IP_PORT); ("nrequests_", uint64_t);
  ("nerrors_", uint64_t); ("comm_", CArr char_t TASK_COMM_LEN); ("proto_", uint16_t);
  ("status_", uint8_t); ("is_ssl_", bool_t); ("errstr_", CArr char_t COMM_MAX_ERROR_LEN)].

Definition SM_REQ_TRACE_DEF_NEW : ctype := CStruct 8 [
  ("reqdefid_", uint32_t); ("tend_", time_t); ("name_", CArr char_t 64);
  ("ncap_glob_id_arr_", uint16_t); ("lencrit_", uint16_t); ("padding_len_", uint8_t)].

Definition SM_REQ_TRACE_DEF_DISABLE : ctype := CStruct 8 [
  ("tend_", time_t); ("reqdefid_", uint32_t)].

