(* ===== verification/CommValid.v ===== *)
(** * CommValid : validation of variable-length messages,
    [common/gy_comm_proto.cc].

    A received message is a buffer of [Bytes] that starts with its [COMM_HEADER].
    The [validate] methods of the messages that carry a sequence of elements of
    variable length are one loop: it is written once, [walk], over a description
    [elem_spec] of the element, and each message is an instance (file [CommMsgs]).
    The theorems say that the loop stays inside the message, what it leaves in it,
    and exactly which messages it accepts. *)
From S2P Require Import Prelude Bytes CommLayout.

#[local] Open Scope Z_scope.

(** ** The message header *)
Record comm_header := CommHeader {
  magic_ : Z; total_sz_ : Z; data_type_ : Z; padding_sz_ : Z }.

Definition get_act_len (h : comm_header) : Z := u32 (total_sz_ h - padding_sz_ h).
Definition get_total_len (h : comm_header) : Z := total_sz_ h.
Definition get_pad_len (h : comm_header) : Z := padding_sz_ h.

(** Where the elements of an event message start. *)
Definition EVENT_FIXED_SZ : Z := sizeof COMM_HEADER + sizeof EVENT_NOTIFY.

(** ** Elements *)

(** The tests on an element besides its size. *)
Inductive check :=
  | AtMost (fs : list string) (m : Z)   (* the sum of the members is at most [m] *)
  | NonZero (f : string)
  | ExactlyOne (f g : string).          (* one of the members is 0 and the other is not *)

Record elem_spec := ElemSpec {
  es_struct : ctype;                   (* the fixed part *)
  es_parts : list (string * Z);        (* what follows: a member with a count, size of one item *)
  es_pad : option string;              (* the member with the length of the padding *)
  es_align8 : bool;                    (* the element's size has to be a multiple of 8 *)
  es_checks : list check;
  es_names : list string;              (* char arrays of the fixed part that get terminated *)
  es_terms : list (list string) }.     (* strings that get terminated: their end is the sum
                                          of these members after the fixed part *)

Fixpoint sum_fields (t : ctype) (fs : list string) (buf : list Z) (pos : Z) : acc Z :=
  match fs with
  | [] => Acc 0
  | f :: fs' =>
      let! v := rd_fld t f buf pos in
      let! r := sum_fields t fs' buf pos in
      Acc (v + r)
  end.

Fixpoint parts_size (t : ctype) (ps : list (string * Z)) (buf : list Z) (pos : Z) : acc Z :=
  match ps with
  | [] => Acc 0
  | (f, n) :: ps' =>
      let! v := rd_fld t f buf pos in
      let! r := parts_size t ps' buf pos in
      Acc (v * n + r)
  end.

(** [get_act_size] and [get_elem_size] of the messages. *)
Definition get_act_size (sp : elem_spec) (buf : list Z) (pos : Z) : acc Z :=
  let! n := parts_size (es_struct sp) (es_parts sp) buf pos in
  Acc (sizeof (es_struct sp) + n).

Definition pad_of (sp : elem_spec) (buf : list Z) (pos : Z) : acc Z :=
  match es_pad sp with
  | Some f => rd_fld (es_struct sp) f buf pos
  | None => Acc 0
  end.

Definition get_elem_size (sp : elem_spec) (buf : list Z) (pos : Z) : acc Z :=
  let! n := get_act_size sp buf pos in
  let! p := pad_of sp buf pos in
  Acc (n + p).

Definition run_check (t : ctype) (c : check) (buf : list Z) (pos : Z) : acc bool :=
  match c with
  | AtMost fs m => let! v := sum_fields t fs buf pos in Acc (v <=? m)
  | NonZero f => let! v := rd_fld t f buf pos in Acc (negb (v =? 0))
  | ExactlyOne f g =>
      let! v := rd_fld t f buf pos in
      let! w := rd_fld t g buf pos in
      Acc (xorb (v =? 0) (w =? 0))
  end.

Fixpoint run_checks (t : ctype) (cs : list check) (buf : list Z) (pos : Z) : acc bool :=
  match cs with
  | [] => Acc true
  | c :: cs' =>
      let! b := run_check t c buf pos in
      if b then run_checks t cs' buf pos else Acc false
  end.

(** Writes of the terminating 0 bytes. *)
Fixpoint term_names (t : ctype) (ns : list string) (pos : Z) (buf : list Z) : acc (list Z) :=
  match ns with
  | [] => Acc buf
  | n :: ns' => let! buf := term_fld t n pos buf in term_names t ns' pos buf
  end.

(** A string's own length is the last of the members summed up for its end; a
    string of length 0 is left alone. *)
Definition term_string (t : ctype) (fs : list string) (pos : Z) (buf : list Z) : acc (list Z) :=
  let! n := rd_fld t (default "" (last fs)) buf pos in
  if n =? 0 then Acc buf else
  let! e := sum_fields t fs buf pos in
  wr8 buf (pos + sizeof t + e - 1) 0.

Fixpoint term_strings (t : ctype) (ts : list (list string)) (pos : Z) (buf : list Z) : acc (list Z) :=
  match ts with
  | [] => Acc buf
  | fs :: ts' => let! buf := term_string t fs pos buf in term_strings t ts' pos buf
  end.

Definition terminate (sp : elem_spec) (pos : Z) (buf : list Z) : acc (list Z) :=
  let! buf := term_names (es_struct sp) (es_names sp) pos buf in
  term_strings (es_struct sp) (es_terms sp) pos buf.

(** The loop of [validate]: [n] elements are left, the next one is at [pos], and
    the message has [totallen] bytes from there on.  Returns the result and the
    message with the strings terminated. *)
Fixpoint walk (sp : elem_spec) (n : nat) (pos totallen : Z) (buf : list Z) : acc (bool * list Z) :=
  match n with
  | O => Acc (true, buf)
  | S n' =>
      if negb (totallen >=? sizeof (es_struct sp)) then Acc (false, buf) else
      let! elem_sz := get_elem_size sp buf pos in
      if totallen <? elem_sz then Acc (false, buf) else
      if es_align8 sp && negb (Z.land elem_sz 7 =? 0) then Acc (false, buf) else
      let! ok := run_checks (es_struct sp) (es_checks sp) buf pos in
      if negb ok then Acc (false, buf) else
      let! buf := terminate sp pos buf in
      walk sp n' (pos + elem_sz) (totallen - elem_sz) buf
  end.

(** [X::validate(phdr, pnotify)]: at most [max] elements behind the event header. *)
Definition validate_events (sp : elem_spec) (max : Z) (h : comm_header) (buf : list Z)
    : acc (bool * list Z) :=
  if get_act_len h <? EVENT_FIXED_SZ then Acc (false, buf) else
  let! nelems := rd_fld EVENT_NOTIFY "nevents_" buf (sizeof COMM_HEADER) in
  if nelems >? max then Acc (false, buf) else
  walk sp (Z.to_nat nelems) EVENT_FIXED_SZ (get_act_len h - EVENT_FIXED_SZ) buf.

(** ** Well-formed descriptions

    A boolean check, evaluated for each message: the members used are members of
    the fixed part, those summed up for the end of a string are among the parts
    behind it and counted in bytes, and terminating a [char] array of the fixed
    part does not touch a member that is used. *)
Definition field_ok (t : ctype) (f : string) : bool :=
  match field t f with
  | Some (o, ft) => (0 <=? o) && (0 <=? sizeof ft) && (o + sizeof ft <=? sizeof t)
  | None => false
  end.

Definition check_fields (c : check) : list string :=
  match c with AtMost fs _ => fs | NonZero f => [f] | ExactlyOne f g => [f; g] end.

Definition es_fields (sp : elem_spec) : list string :=
  (es_parts sp).*1 ++ match es_pad sp with Some f => [f] | None => [] end ++
  mjoin (check_fields <$> es_checks sp) ++ mjoin (es_terms sp).

Fixpoint is_sub (fs : list string) (ps : list (string * Z)) : bool :=
  match fs, ps with
  | [], _ => true
  | _ :: _, [] => false
  | f :: fs', (g, n) :: ps' => if String.eqb f g && (n =? 1) then is_sub fs' ps' else is_sub fs ps'
  end.

Definition name_clear (t : ctype) (n f : string) : bool :=
  match field t n, field t f with
  | Some (o, nt), Some (p, ft) => (o + sizeof nt - 1 <? p) || (p + sizeof ft <=? o + sizeof nt - 1)
  | _, _ => false
  end.

Definition spec_ok (sp : elem_spec) : bool :=
  let t := es_struct sp in
  (1 <=? sizeof t) &&
  forallb (field_ok t) (es_fields sp) &&
  forallb (fun p => 0 <=? p.2) (es_parts sp) &&
  forallb (fun fs => negb (bool_decide (fs = [])) && is_sub fs (es_parts sp)) (es_terms sp) &&
  forallb (fun n => field_ok t n &&
    match field t n with Some (_, ft) => 1 <=? sizeof ft | None => false end &&
    forallb (name_clear t n) (es_fields sp)) (es_names sp).

(** ** Buffers with some bytes cleared *)

(** [b] is [a] with 0 stored at some of the positions of [W]. *)
Definition zeroed (W : Z -> Prop) (a b : list Z) : Prop :=
  length b = length a /\ forall o, rd8 b o = rd8 a o \/ (W o /\ rd8 b o = Acc 0).

Lemma zeroed_refl W a : zeroed W a a.
Proof. split; auto. Qed.

Lemma zeroed_trans W a b c : zeroed W a b -> zeroed W b c -> zeroed W a c.
Proof.
  intros [L1 H1] [L2 H2]. split; [congruence|]. intros o.
  destruct (H2 o) as [->|]; [apply H1|auto].
Qed.

Lemma zeroed_mono (W V : Z -> Prop) a b : (forall o, W o -> V o) -> zeroed W a b -> zeroed V a b.
Proof. intros HV [L H]. split; [done|]. intros o. destruct (H o) as [|[]]; auto. Qed.

Lemma zeroed_blen W a b : zeroed W a b -> blen b = blen a.
Proof. intros [L _]. unfold blen. congruence. Qed.

Lemma zeroed_0 W a b o : zeroed W a b -> rd8 a o = Acc 0 -> rd8 b o = Acc 0.
Proof. intros [_ H] Ha. destruct (H o) as [->|[]]; done. Qed.

Lemma zeroed_agree W a b lo hi :
  zeroed W a b -> (forall o, lo <= o < hi -> ~ W o) -> agree lo hi b a.
Proof. intros [_ H] HW o Ho. destruct (H o) as [|[HWo _]]; [done|]. by destruct (HW o). Qed.

Lemma zeroed_wf W a b : zeroed W a b -> bytes_wf a -> bytes_wf b.
Proof.
  intros [L H] Ha. apply Forall_lookup. intros i x Hx.
  pose proof (lookup_lt_Some _ _ _ Hx) as Hlt.
  assert (rd8 b (Z.of_nat i) = Acc x) as Hb
    by (unfold rd8; rewrite (proj2 (Z.ltb_ge _ _)), Nat2Z.id, Hx by lia; done).
  destruct (H (Z.of_nat i)) as [E|[_ E]]; rewrite Hb in E.
  - symmetry in E. apply rd8_lookup in E as [_ E]. rewrite Nat2Z.id in E. by eapply Forall_lookup_1 in Ha.
  - simplify_eq. by vm_compute.
Qed.

Lemma zeroed_wr8 (W : Z -> Prop) a o : W o -> 0 <= o < blen a ->
  exists b, wr8 a o 0 = Acc b /\ zeroed W a b /\ rd8 b o = Acc 0.
Proof.
  intros HW Ho. rewrite wr8_sat by done. eexists. split; [done|]. rewrite rd8_insert_eq by done.
  split; [|done]. split; [apply length_insert|]. intros p.
  destruct (decide (p = o)) as [->|]; [right; by rewrite rd8_insert_eq|left; apply rd8_insert_ne; lia].
Qed.

(** ** Reading an element *)
Section Element.
Context (sp : elem_spec) (Hok : spec_ok sp = true).

Lemma spec_ok_sizeof : 1 <= sizeof (es_struct sp).
Proof. unfold spec_ok in Hok. breflect. done. Qed.

Lemma spec_ok_field f : f ∈ es_fields sp -> field_ok (es_struct sp) f = true.
Proof.
  intros Hf. unfold spec_ok in Hok. breflect.
  match goal with H : forallb _ (es_fields sp) = true |- _ => rewrite forallb_forall in H; apply H end.
  by apply list_elem_of_In.
Qed.

Lemma spec_ok_parts p : p ∈ es_parts sp -> 0 <= p.2.
Proof.
  intros Hp. unfold spec_ok in Hok. breflect.
  match goal with H : forallb _ (es_parts sp) = true |- _ =>
    rewrite forallb_forall in H; apply list_elem_of_In, H in Hp end.
  breflect. done.
Qed.

Lemma spec_ok_term fs : fs ∈ es_terms sp -> fs <> [] /\ is_sub fs (es_parts sp) = true.
Proof.
  intros Hp. unfold spec_ok in Hok. breflect.
  match goal with H : forallb _ (es_terms sp) = true |- _ =>
    rewrite forallb_forall in H; apply list_elem_of_In, H in Hp end.
  breflect. split; [|done]. by eapply bool_decide_eq_false_1.
Qed.

Lemma spec_ok_name n : n ∈ es_names sp -> field_ok (es_struct sp) n = true /\
  (exists o ft, field (es_struct sp) n = Some (o, ft) /\ 1 <= sizeof ft) /\
  forall f, f ∈ es_fields sp -> name_clear (es_struct sp) n f = true.
Proof.
  intros Hp. unfold spec_ok in Hok. breflect.
  match goal with H : forallb _ (es_names sp) = true |- _ =>
    rewrite forallb_forall in H; apply list_elem_of_In, H in Hp end.
  apply andb_true_iff in Hp as [Hp Hc]. apply andb_true_iff in Hp as [Hp Hs]. split; [done|]. split.
  - destruct (field (es_struct sp) n) as [[o ft]|]; [|done]. breflect. eauto.
  - intros f Hf. rewrite forallb_forall in Hc. by apply Hc, list_elem_of_In.
Qed.

(** The members used of the element at [pos] have the same values. *)
Definition same_fields (pos : Z) (a b : list Z) : Prop :=
  forall f, f ∈ es_fields sp -> rd_fld (es_struct sp) f a pos = rd_fld (es_struct sp) f b pos.

Lemma in_parts p : p ∈ es_parts sp -> p.1 ∈ es_fields sp.
Proof. intros. unfold es_fields. apply elem_of_app. left. by apply list_elem_of_fmap_2. Qed.
Lemma in_pad f : es_pad sp = Some f -> f ∈ es_fields sp.
Proof. intros E. unfold es_fields. rewrite E, !elem_of_app. right. left. by apply list_elem_of_singleton. Qed.
Lemma in_checks c f : c ∈ es_checks sp -> f ∈ check_fields c -> f ∈ es_fields sp.
Proof.
  intros. unfold es_fields. rewrite !elem_of_app. right. right. left.
  apply list_elem_of_join. exists (check_fields c). split; [done|]. by apply list_elem_of_fmap_2.
Qed.
Lemma in_terms fs f : fs ∈ es_terms sp -> f ∈ fs -> f ∈ es_fields sp.
Proof.
  intros. unfold es_fields. rewrite !elem_of_app. right. right. right.
  apply list_elem_of_join. eauto.
Qed.

(** *** Values of the members *)
Context (buf : list Z) (pos : Z) (Hwf : bytes_wf buf) (Hpos : 0 <= pos)
  (Hin : pos + sizeof (es_struct sp) <= blen buf).

Lemma rd_fld_sat f : field_ok (es_struct sp) f = true ->
  sat (fun v => 0 <= v) (rd_fld (es_struct sp) f buf pos).
Proof.
  unfold field_ok, rd_fld. destruct (field (es_struct sp) f) as [[o ft]|]; [|done]. intros. breflect.
  eapply sat_mono; [|apply rd_le_sat; [done|lia..]]. intros v [? _]. done.
Qed.

Lemma sum_fields_sat fs : (forall f, f ∈ fs -> f ∈ es_fields sp) ->
  sat (fun v => 0 <= v) (sum_fields (es_struct sp) fs buf pos).
Proof.
  induction fs as [|f fs IH]; intros Hsub; [done|]. cbn [sum_fields].
  apply sat_bind. eapply sat_mono; [|apply rd_fld_sat, spec_ok_field, Hsub; left]. intros v Hv.
  apply sat_bind. eapply sat_mono; [|apply IH; intros; apply Hsub; by right]. intros r Hr. cbn [sat] in *. lia.
Qed.

Lemma parts_size_sat ps : (forall p, p ∈ ps -> p ∈ es_parts sp) ->
  sat (fun v => 0 <= v) (parts_size (es_struct sp) ps buf pos).
Proof.
  induction ps as [|[f n] ps IH]; intros Hsub; [done|]. cbn [parts_size].
  assert ((f, n) ∈ es_parts sp) as Hp by (apply Hsub; left).
  apply sat_bind. eapply sat_mono; [|apply rd_fld_sat, spec_ok_field, (in_parts (f, n)), Hp]. intros v Hv.
  apply sat_bind. eapply sat_mono; [|apply IH; intros; apply Hsub; by right]. intros r Hr.
  apply spec_ok_parts in Hp. simpl in *. nia.
Qed.

Lemma pad_of_sat : sat (fun v => 0 <= v) (pad_of sp buf pos).
Proof.
  unfold pad_of. destruct (es_pad sp) as [f|] eqn:E; [|done].
  by apply rd_fld_sat, spec_ok_field, in_pad.
Qed.

Lemma get_elem_size_sat :
  sat (fun sz => sizeof (es_struct sp) <= sz) (get_elem_size sp buf pos).
Proof.
  unfold get_elem_size, get_act_size. do 2 apply sat_bind.
  eapply sat_mono; [|apply parts_size_sat; auto]. intros n Hn. cbn [sat]. apply sat_bind.
  eapply sat_mono; [|apply pad_of_sat]. intros p Hp. cbn [sat] in *. lia.
Qed.

Lemma run_check_sat c : c ∈ es_checks sp ->
  sat (fun _ => True) (run_check (es_struct sp) c buf pos).
Proof.
  intros Hc. assert (forall f, f ∈ check_fields c -> f ∈ es_fields sp) as Hf by (intros; by eapply in_checks).
  destruct c as [fs m|f|f g]; cbn [run_check check_fields] in *.
  - apply sat_bind. eapply sat_mono; [|by apply sum_fields_sat]. done.
  - apply sat_bind. eapply sat_mono; [|apply rd_fld_sat, spec_ok_field, Hf; left]. done.
  - apply sat_bind. eapply sat_mono; [|apply rd_fld_sat, spec_ok_field, Hf; left]. intros v _.
    apply sat_bind. eapply sat_mono; [|apply rd_fld_sat, spec_ok_field, Hf; right; left]. done.
Qed.

Lemma run_checks_sat cs : (forall c, c ∈ cs -> c ∈ es_checks sp) ->
  sat (fun _ => True) (run_checks (es_struct sp) cs buf pos).
Proof.
  induction cs as [|c cs IH]; intros Hsub; [done|]. cbn [run_checks]. apply sat_bind.
  eapply sat_mono; [|apply run_check_sat, Hsub; left]. intros [] _; [|done].
  apply IH. intros. apply Hsub. by right.
Qed.

(** The end of a string is inside the parts behind the fixed part. *)
Lemma sum_fields_le fs ps : is_sub fs ps = true -> (forall p, p ∈ ps -> p ∈ es_parts sp) ->
  forall e n, sum_fields (es_struct sp) fs buf pos = Acc e ->
  parts_size (es_struct sp) ps buf pos = Acc n -> e <= n.
Proof.
  revert fs. induction ps as [|[g k] ps IH]; intros [|f fs] Hsub Hps e n He Hn; cbn in He, Hn;
    simplify_eq; try done.
  - assert (0 <= n); [|lia]. by apply (sat_elim _ _ _ (parts_size_sat _ Hps)).
  - apply acc_bind_Acc in Hn as (w & Hw & Hn). apply acc_bind_Acc in Hn as (n' & Hn' & Hn).
    assert ((g, k) ∈ es_parts sp) as Hg by (apply Hps; left).
    assert (0 <= w) as Hw0
      by (refine (sat_elim _ _ _ (rd_fld_sat g _) Hw); by apply spec_ok_field, (in_parts (g, k))).
    pose proof (spec_ok_parts _ Hg) as Hk. simpl in Hk. simplify_eq.
    cbn [is_sub] in Hsub. case_if_in Hsub.
    + breflect. apply String.eqb_eq in H. subst. rewrite Hw in He. cbn [acc_bind] in He.
      apply acc_bind_Acc in He as (r & Hr & He). simplify_eq.
      assert (r <= n'); [|lia]. eapply (IH fs); eauto. intros. apply Hps. by right.
    + assert (e <= n'); [|nia]. eapply (IH (f :: fs)); eauto. intros. apply Hps. by right.
Qed.

Lemma last_le_sum fs e v : (forall f, f ∈ fs -> f ∈ es_fields sp) ->
  sum_fields (es_struct sp) fs buf pos = Acc e ->
  rd_fld (es_struct sp) (default "" (last fs)) buf pos = Acc v -> fs <> [] -> v <= e.
Proof.
  revert e. induction fs as [|f fs IH]; intros e Hsub He Hv Hne; [done|]. cbn [sum_fields] in He.
  apply acc_bind_Acc in He as (w & Hw & He). apply acc_bind_Acc in He as (r & Hr & He). simplify_eq.
  assert (0 <= w) by (refine (sat_elim _ _ _ (rd_fld_sat f _) Hw); apply spec_ok_field, Hsub; left).
  assert (0 <= r) by (refine (sat_elim _ _ _ (sum_fields_sat fs _) Hr); intros; apply Hsub; by right).
  destruct fs as [|f' fs]; [cbn in Hv; rewrite Hw in Hv; simplify_eq; lia|].
  assert (v <= r); [|lia]. apply IH; auto. intros. apply Hsub. by right.
Qed.
End Element.

(** ** Reads that agree *)
Section Agree.
Context (sp : elem_spec) (pos : Z) (a b : list Z) (Hsame : same_fields sp pos a b).

Lemma sum_fields_same fs : (forall f, f ∈ fs -> f ∈ es_fields sp) ->
  sum_fields (es_struct sp) fs a pos = sum_fields (es_struct sp) fs b pos.
Proof.
  induction fs as [|f fs IH]; intros Hsub; [done|]. cbn [sum_fields].
  rewrite Hsame by (apply Hsub; left). rewrite IH; [done|]. intros. apply Hsub. by right.
Qed.

Lemma parts_size_same ps : (forall p, p ∈ ps -> p ∈ es_parts sp) ->
  parts_size (es_struct sp) ps a pos = parts_size (es_struct sp) ps b pos.
Proof.
  induction ps as [|[f n] ps IH]; intros Hsub; [done|]. cbn [parts_size].
  rewrite Hsame by (apply (in_parts sp (f, n)), Hsub; left).
  rewrite IH; [done|]. intros. apply Hsub. by right.
Qed.

Lemma get_elem_size_same : get_elem_size sp a pos = get_elem_size sp b pos.
Proof.
  unfold get_elem_size, get_act_size, pad_of. rewrite parts_size_same by auto.
  destruct (es_pad sp) eqn:E; [|done]. by rewrite Hsame by by apply in_pad.
Qed.

Lemma run_checks_same : run_checks (es_struct sp) (es_checks sp) a pos =
  run_checks (es_struct sp) (es_checks sp) b pos.
Proof.
  assert (forall c, c ∈ es_checks sp -> c ∈ es_checks sp) as Hsub by auto. revert Hsub.
  generalize (es_checks sp) at 1 3 4 as cs. induction cs as [|c cs IH]; intros Hsub; [done|].
  cbn [run_checks].
  assert (run_check (es_struct sp) c a pos = run_check (es_struct sp) c b pos) as ->.
  { assert (forall f, f ∈ check_fields c -> f ∈ es_fields sp) as Hf
      by (intros; eapply in_checks; [apply Hsub; left|done]).
    destruct c as [fs m|f|f g]; cbn [run_check check_fields] in *.
    - by rewrite sum_fields_same.
    - by rewrite Hsame by (apply Hf; left).
    - rewrite (Hsame f) by (apply Hf; left). by rewrite (Hsame g) by (apply Hf; right; left). }
  destruct (run_check _ c b pos) as [[]|]; cbn [acc_bind]; try done.
  apply IH. intros. apply Hsub. by right.
Qed.
End Agree.

(** ** Terminated elements *)

(** The 0 bytes that [terminate] writes are there. *)
Definition terminated (sp : elem_spec) (pos : Z) (buf : list Z) : Prop :=
  (forall n o ft, n ∈ es_names sp -> field (es_struct sp) n = Some (o, ft) ->
     rd8 buf (pos + o + sizeof ft - 1) = Acc 0) /\
  (forall fs v e, fs ∈ es_terms sp ->
     rd_fld (es_struct sp) (default "" (last fs)) buf pos = Acc v -> v <> 0 ->
     sum_fields (es_struct sp) fs buf pos = Acc e ->
     rd8 buf (pos + sizeof (es_struct sp) + e - 1) = Acc 0).

(** Where [terminate] writes. *)
Definition elem_writes (sp : elem_spec) (pos sz o : Z) : Prop :=
  (exists n p ft, n ∈ es_names sp /\ field (es_struct sp) n = Some (p, ft) /\ o = pos + p + sizeof ft - 1) \/
  pos + sizeof (es_struct sp) <= o < pos + sz.

Section Terminate.
Context (sp : elem_spec) (Hok : spec_ok sp = true) (pos sz : Z) (Hpos : 0 <= pos).

Lemma zeroed_same_fields a b :
  zeroed (elem_writes sp pos sz) a b -> same_fields sp pos a b.
Proof.
  intros Hz f Hf. pose proof (spec_ok_field sp Hok f Hf) as Hff. unfold field_ok, rd_fld in *.
  destruct (field (es_struct sp) f) as [[o ft]|] eqn:E; [|done]. breflect.
  symmetry. apply rd_le_agree. eapply zeroed_agree; [done|]. intros x Hx [(n & p & nt & Hn & En & ->)|]; [|lia].
  apply (spec_ok_name sp Hok) in Hn as (_ & _ & Hc). specialize (Hc f Hf). unfold name_clear in Hc.
  rewrite En, E in Hc. apply orb_true_iff in Hc as [Hc|Hc]; breflect; lia.
Qed.

Lemma terminated_zeroed a b :
  zeroed (elem_writes sp pos sz) a b -> terminated sp pos a -> terminated sp pos b.
Proof.
  intros Hz [H1 H2]. pose proof (zeroed_same_fields a b Hz) as Hs. split.
  - intros n o ft Hn Ho. eapply zeroed_0; eauto.
  - intros fs v e Hfs Hv Hne He. eapply zeroed_0; [done|]. eapply H2; eauto.
    + rewrite Hs; [done|]. apply (in_terms sp fs); [done|].
      destruct (spec_ok_term sp Hok fs Hfs) as [Hn _].
      destruct (last fs) as [f|] eqn:El; [by apply last_Some_elem_of|].
      by apply last_None in El.
    + rewrite (sum_fields_same sp pos a b Hs); [done|]. intros. by eapply in_terms.
Qed.

Lemma term_names_ok ns : forall buf, (forall n, n ∈ ns -> n ∈ es_names sp) ->
  pos + sizeof (es_struct sp) <= blen buf ->
  exists buf', term_names (es_struct sp) ns pos buf = Acc buf' /\
    zeroed (elem_writes sp pos sz) buf buf' /\
    forall n o ft, n ∈ ns -> field (es_struct sp) n = Some (o, ft) ->
      rd8 buf' (pos + o + sizeof ft - 1) = Acc 0.
Proof.
  induction ns as [|n ns IH]; intros buf Hsub Hin; cbn [term_names].
  { exists buf. split; [done|]. split; [apply zeroed_refl|]. intros n o ft Hn. by apply elem_of_nil in Hn. }
  assert (n ∈ es_names sp) as Hn by (apply Hsub; left).
  destruct (spec_ok_name sp Hok n Hn) as (Hfo & (o & ft & Ef & Hs1) & _).
  unfold field_ok in Hfo. rewrite Ef in Hfo. breflect. unfold term_fld. rewrite Ef.
  destruct (zeroed_wr8 (elem_writes sp pos sz) buf (pos + o + sizeof ft - 1)) as (b1 & -> & Hz1 & Hr0);
    [left; eauto 10|lia|]. cbn [acc_bind].
  destruct (IH b1) as (b2 & -> & Hz2 & Hall); [intros; apply Hsub; by right|by rewrite (zeroed_blen _ _ _ Hz1)|].
  exists b2. split; [done|]. split; [by eapply zeroed_trans|]. intros m p mt Hm Em.
  apply elem_of_cons in Hm as [->|Hm]; [|eauto]. rewrite Ef in Em. simplify_eq. by eapply zeroed_0.
Qed.

(** One string, and then all of them.  [get_elem_size] has found the element to
    be [sz] bytes. *)
Lemma term_string_ok fs buf : bytes_wf buf -> fs ∈ es_terms sp ->
  get_elem_size sp buf pos = Acc sz -> sizeof (es_struct sp) <= sz -> pos + sz <= blen buf ->
  exists buf', term_string (es_struct sp) fs pos buf = Acc buf' /\
    zeroed (elem_writes sp pos sz) buf buf' /\
    forall v e, rd_fld (es_struct sp) (default "" (last fs)) buf' pos = Acc v -> v <> 0 ->
      sum_fields (es_struct sp) fs buf' pos = Acc e ->
      rd8 buf' (pos + sizeof (es_struct sp) + e - 1) = Acc 0.
Proof.
  intros Hwf Hfs Hsz Hle Hin. destruct (spec_ok_term sp Hok fs Hfs) as [Hne Hsub].
  assert (forall f, f ∈ fs -> f ∈ es_fields sp) as Hff by (intros; by eapply in_terms).
  assert (default "" (last fs) ∈ es_fields sp) as Hl.
  { destruct (last fs) as [f|] eqn:El; [by apply Hff, last_Some_elem_of|by apply last_None in El]. }
  assert (pos + sizeof (es_struct sp) <= blen buf) as Hin' by lia.
  destruct (sat_Acc _ _ (rd_fld_sat sp buf pos Hwf Hpos Hin' _ (spec_ok_field sp Hok _ Hl)))
    as (v & Hv & Hv0).
  unfold term_string. rewrite Hv. cbn [acc_bind]. destruct (Z.eqb_spec v 0) as [->|Hvn].
  { exists buf. split; [done|]. split; [apply zeroed_refl|]. intros v e Hv' Hv1. congruence. }
  destruct (sat_Acc _ _ (sum_fields_sat sp Hok buf pos Hwf Hpos Hin' fs Hff)) as (e & He & He0).
  rewrite He. cbn [acc_bind].
  unfold get_elem_size, get_act_size in Hsz. apply acc_bind_Acc in Hsz as (n & Hn & Hsz).
  apply acc_bind_Acc in Hn as (n' & Hn' & [= <-]). apply acc_bind_Acc in Hsz as (p & Hp & [= Hsz]).
  assert (0 <= p) as Hp0 by apply (sat_elim _ _ _ (pad_of_sat sp Hok buf pos Hwf Hpos Hin') Hp).
  pose proof (sum_fields_le sp Hok buf pos Hwf Hpos Hin' fs (es_parts sp) Hsub ltac:(auto) e n' He Hn').
  pose proof (last_le_sum sp Hok buf pos Hwf Hpos Hin' fs e v Hff He Hv Hne).
  destruct (zeroed_wr8 (elem_writes sp pos sz) buf (pos + sizeof (es_struct sp) + e - 1))
    as (b & -> & Hz & Hr0); [right; lia|pose proof (spec_ok_sizeof sp Hok); lia|].
  exists b. split; [done|]. split; [done|]. intros v' e' _ _ He'.
  rewrite <- (sum_fields_same sp pos buf b (zeroed_same_fields _ _ Hz)), He in He' by done.
  by simplify_eq.
Qed.

Lemma term_strings_ok ts : forall buf, (forall fs, fs ∈ ts -> fs ∈ es_terms sp) -> bytes_wf buf ->
  get_elem_size sp buf pos = Acc sz -> sizeof (es_struct sp) <= sz -> pos + sz <= blen buf ->
  exists buf', term_strings (es_struct sp) ts pos buf = Acc buf' /\
    zeroed (elem_writes sp pos sz) buf buf' /\
    forall fs v e, fs ∈ ts -> rd_fld (es_struct sp) (default "" (last fs)) buf' pos = Acc v -> v <> 0 ->
      sum_fields (es_struct sp) fs buf' pos = Acc e ->
      rd8 buf' (pos + sizeof (es_struct sp) + e - 1) = Acc 0.
Proof.
  induction ts as [|fs ts IH]; intros buf Hsub Hwf Hsz Hle Hin; cbn [term_strings].
  { exists buf. split; [done|]. split; [apply zeroed_refl|]. intros fs v e Hn. by apply elem_of_nil in Hn. }
  assert (fs ∈ es_terms sp) as Hfs by (apply Hsub; left).
  destruct (term_string_ok fs buf) as (b1 & -> & Hz1 & H1); auto. cbn [acc_bind].
  destruct (IH b1) as (b2 & -> & Hz2 & Hall).
  - intros. apply Hsub. by right.
  - by eapply zeroed_wf.
  - rewrite <- Hsz. symmetry. by apply get_elem_size_same, zeroed_same_fields.
  - done.
  - by rewrite (zeroed_blen _ _ _ Hz1).
  - exists b2. split; [done|]. split; [by eapply zeroed_trans|]. intros fs' v e Hin' Hv Hvn He.
    apply elem_of_cons in Hin' as [->|Hin']; [|eauto].
    pose proof (zeroed_same_fields _ _ Hz2) as Hs. eapply zeroed_0; [done|]. eapply H1; [|done|].
    + rewrite Hs; [done|]. destruct (spec_ok_term sp Hok fs Hfs) as [Hne _].
      destruct (last fs) as [f|] eqn:El; [|by apply last_None in El].
      by eapply in_terms, last_Some_elem_of.
    + rewrite (sum_fields_same sp pos _ _ Hs); [done|]. intros. by eapply in_terms.
Qed.

Lemma terminate_ok buf : bytes_wf buf -> get_elem_size sp buf pos = Acc sz ->
  sizeof (es_struct sp) <= sz -> pos + sz <= blen buf ->
  exists buf', terminate sp pos buf = Acc buf' /\ zeroed (elem_writes sp pos sz) buf buf' /\
    terminated sp pos buf'.
Proof.
  intros Hwf Hsz Hle Hin. unfold terminate.
  destruct (term_names_ok (es_names sp) buf) as (b1 & -> & Hz1 & Hn); [auto|lia|]. cbn [acc_bind].
  destruct (term_strings_ok (es_terms sp) b1) as (b2 & -> & Hz2 & Hs); auto.
  - by eapply zeroed_wf.
  - rewrite <- Hsz. symmetry. by apply get_elem_size_same, zeroed_same_fields.
  - by rewrite (zeroed_blen _ _ _ Hz1).
  - exists b2. split; [done|]. split; [by eapply zeroed_trans|]. split; [|eauto].
    intros. eapply zeroed_0; eauto.
Qed.

(** Terminating a terminated element changes nothing. *)
Lemma terminate_id buf : bytes_wf buf -> pos + sizeof (es_struct sp) <= blen buf ->
  terminated sp pos buf -> terminate sp pos buf = Acc buf.
Proof.
  intros Hwf Hin [H1 H2]. unfold terminate.
  assert (term_names (es_struct sp) (es_names sp) pos buf = Acc buf) as ->.
  { assert (forall n, n ∈ es_names sp -> n ∈ es_names sp) as Hsub by auto. revert Hsub.
    generalize (es_names sp) at 1 3 as ns. induction ns as [|n ns IH]; intros Hsub; [done|].
    cbn [term_names]. assert (n ∈ es_names sp) as Hn by (apply Hsub; left).
    destruct (spec_ok_name sp Hok n Hn) as (_ & (o & ft & Ef & _) & _).
    unfold term_fld. rewrite Ef, (rd8_wr8_same _ _ _ (H1 n o ft Hn Ef)). cbn [acc_bind].
    apply IH. intros. apply Hsub. by right. }
  cbn [acc_bind].
  assert (forall fs, fs ∈ es_terms sp -> fs ∈ es_terms sp) as Hsub by auto. revert Hsub.
  generalize (es_terms sp) at 1 3 as ts. induction ts as [|fs ts IH]; intros Hsub; [done|].
  cbn [term_strings]. assert (fs ∈ es_terms sp) as Hfs by (apply Hsub; left).
  assert (forall f, f ∈ fs -> f ∈ es_fields sp) as Hff by (intros; by eapply in_terms).
  destruct (spec_ok_term sp Hok fs Hfs) as [Hne _].
  assert (default "" (last fs) ∈ es_fields sp) as Hl.
  { destruct (last fs) as [f|] eqn:El; [by apply Hff, last_Some_elem_of|by apply last_None in El]. }
  destruct (sat_Acc _ _ (rd_fld_sat sp buf pos Hwf Hpos Hin _ (spec_ok_field sp Hok _ Hl))) as (v & Hv & _).
  destruct (sat_Acc _ _ (sum_fields_sat sp Hok buf pos Hwf Hpos Hin fs Hff)) as (e & He & _).
  assert (term_string (es_struct sp) fs pos buf = Acc buf) as ->.
  { unfold term_string. rewrite Hv. cbn [acc_bind]. destruct (Z.eqb_spec v 0); [done|].
    rewrite He. cbn [acc_bind]. by apply rd8_wr8_same, (H2 fs v e). }
  cbn [acc_bind]. apply IH. intros. apply Hsub. by right.
Qed.
End Terminate.

(** ** Sequences of elements *)

(** The element of [sz] bytes at [pos] is one a message can hold. *)
Definition elem_ok (sp : elem_spec) (buf : list Z) (pos sz : Z) : Prop :=
  get_elem_size sp buf pos = Acc sz /\ sizeof (es_struct sp) <= sz /\
  0 <= pos /\ pos + sz <= blen buf /\
  (es_align8 sp = true -> Z.land sz 7 = 0) /\
  run_checks (es_struct sp) (es_checks sp) buf pos = Acc true /\
  terminated sp pos buf.

(** [n] elements one after the other, from [pos] to [e]. *)
Inductive elems (sp : elem_spec) (buf : list Z) : Z -> nat -> Z -> Prop :=
  | elems_nil pos : elems sp buf pos 0 pos
  | elems_cons pos sz n e :
      elem_ok sp buf pos sz -> elems sp buf (pos + sz) n e -> elems sp buf pos (S n) e.

Section Walk.
Context (sp : elem_spec) (Hok : spec_ok sp = true).

Lemma agree_same_fields pos a b :
  agree pos (pos + sizeof (es_struct sp)) a b -> same_fields sp pos a b.
Proof.
  intros Ha f Hf. pose proof (spec_ok_field sp Hok f Hf) as Hff. unfold field_ok, rd_fld in *.
  destruct (field (es_struct sp) f) as [[o ft]|]; [|done]. breflect.
  apply rd_le_agree. eapply agree_mono; [done|lia..].
Qed.

(** An element is made of its own bytes. *)
Lemma elem_ok_agree a b pos sz : bytes_wf a -> blen b = blen a -> agree pos (pos + sz) a b ->
  elem_ok sp a pos sz -> elem_ok sp b pos sz.
Proof.
  intros Hwf Hlen Ha (Hsz & Hle & Hpos & Hin & Hal & Hc & [Ht1 Ht2]).
  assert (same_fields sp pos a b) as Hs by (apply agree_same_fields; eapply agree_mono; [done|lia..]).
  split_and!; auto; try lia.
  - by rewrite <- (get_elem_size_same sp pos a b Hs).
  - by rewrite <- (run_checks_same sp pos a b Hs).
  - split.
    + intros n o ft Hn Ef. rewrite <- (Ha (pos + o + sizeof ft - 1)); [by eapply Ht1|].
      destruct (spec_ok_name sp Hok n Hn) as (Hfo & (o' & ft' & Ef' & ?) & _).
      rewrite Ef in Ef'. simplify_eq. unfold field_ok in Hfo. rewrite Ef in Hfo. breflect. lia.
    + intros fs v e Hfs Hv Hne He.
      assert (forall f, f ∈ fs -> f ∈ es_fields sp) as Hff by (intros; by eapply in_terms).
      destruct (spec_ok_term sp Hok fs Hfs) as [Hnil Hsub].
      rewrite <- Hs in Hv by (destruct (last fs) eqn:El; [by apply Hff, last_Some_elem_of|by apply last_None in El]).
      rewrite <- (sum_fields_same sp pos a b Hs) in He by done.
      rewrite <- (Ha (pos + sizeof (es_struct sp) + e - 1)); [by eapply Ht2|].
      assert (pos + sizeof (es_struct sp) <= blen a) as Hin' by lia.
      unfold get_elem_size, get_act_size in Hsz. apply acc_bind_Acc in Hsz as (n & Hn & Hsz).
      apply acc_bind_Acc in Hn as (n' & Hn' & [= <-]). apply acc_bind_Acc in Hsz as (p & Hp & [= Hsz]).
      pose proof (sat_elim _ _ _ (pad_of_sat sp Hok a pos Hwf Hpos Hin') Hp) as Hp0.
      pose proof (sum_fields_le sp Hok a pos Hwf Hpos Hin' fs (es_parts sp) Hsub ltac:(auto) e n' He Hn').
      pose proof (last_le_sum sp Hok a pos Hwf Hpos Hin' fs e v Hff He Hv Hnil).
      pose proof (sat_elim _ _ _ (sum_fields_sat sp Hok a pos Hwf Hpos Hin' fs Hff) He) as He0.
      pose proof (spec_ok_sizeof sp Hok). cbn beta in *. lia.
Qed.

Lemma elems_end buf pos n e : elems sp buf pos n e -> pos <= e.
Proof.
  induction 1 as [|pos sz n e (_ & Hle & _) _ IH]; [lia|].
  pose proof (spec_ok_sizeof sp Hok). lia.
Qed.

Lemma elems_agree a b pos n e : bytes_wf a -> blen b = blen a -> agree pos e a b ->
  elems sp a pos n e -> elems sp b pos n e.
Proof.
  intros Hwf Hlen Ha He. induction He as [|pos sz n e Hel Htl IH]; [constructor|].
  pose proof (elems_end _ _ _ _ Htl) as Hend. pose proof (spec_ok_sizeof sp Hok).
  pose proof Hel as (_ & Hle & _). econstructor.
  - eapply elem_ok_agree; eauto. eapply agree_mono; [done|lia..].
  - apply IH. eapply agree_mono; [done|lia..].
Qed.

(** The loop stays inside the message; when it accepts, it has found [n]
    elements. *)
Lemma walk_sound n : forall pos totallen buf,
  bytes_wf buf -> 0 <= pos -> pos + totallen <= blen buf ->
  exists ok buf', walk sp n pos totallen buf = Acc (ok, buf') /\
    zeroed (fun o => pos <= o < pos + totallen) buf buf' /\
    (ok = true -> exists e, elems sp buf' pos n e /\ (n = 0%nat \/ e <= pos + totallen)).
Proof.
  induction n as [|n IH]; intros pos totallen buf Hwf Hpos Hin; cbn [walk].
  { exists true, buf. split; [done|]. split; [apply zeroed_refl|]. intros _. exists pos. eauto using elems. }
  assert (forall W, exists ok buf', Acc (false, buf) = Acc (ok, buf') /\ zeroed W buf buf' /\
    (ok = true -> exists e, elems sp buf' pos (S n) e /\ (S n = 0%nat \/ e <= pos + totallen))) as Hno.
  { intros W. exists false, buf. split; [done|]. split; [apply zeroed_refl|done]. }
  pose proof (spec_ok_sizeof sp Hok) as Hs1. case_if; [apply Hno|]. breflect.
  assert (pos + sizeof (es_struct sp) <= blen buf) as Hin' by lia.
  destruct (sat_Acc _ _ (get_elem_size_sat sp Hok buf pos Hwf Hpos Hin')) as (sz & Hsz & Hle).
  rewrite Hsz. cbn [acc_bind]. case_if; [apply Hno|]. case_if; [apply Hno|].
  destruct (sat_Acc _ _ (run_checks_sat sp Hok buf pos Hwf Hpos Hin' (es_checks sp) ltac:(auto)))
    as (okc & Hc & _).
  rewrite Hc. cbn [acc_bind]. destruct okc; [|apply Hno]. cbn [negb]. breflect.
  destruct (terminate_ok sp Hok pos sz Hpos buf) as (b1 & -> & Hz1 & Ht1); [done..|lia|]. cbn [acc_bind].
  assert (zeroed (fun o => pos <= o < pos + sz) buf b1) as Hz1'.
  { eapply zeroed_mono; [|done]. intros o [(m & p & ft & Hm & Ef & ->)|]; [|lia].
    destruct (spec_ok_name sp Hok m Hm) as (Hfo & (o' & ft' & Ef' & ?) & _). rewrite Ef in Ef'.
    simplify_eq. unfold field_ok in Hfo. rewrite Ef in Hfo. breflect. lia. }
  pose proof (zeroed_blen _ _ _ Hz1) as Hl1. pose proof (zeroed_wf _ _ _ Hz1 Hwf) as Hwf1.
  destruct (IH (pos + sz) (totallen - sz) b1) as (ok & b2 & -> & Hz2 & Hel); [done|lia..|].
  exists ok, b2. split; [done|]. split.
  { eapply zeroed_trans; [eapply zeroed_mono; [|exact Hz1']|eapply zeroed_mono; [|exact Hz2]];
      cbn; intros o Ho; lia. }
  intros Hokt. destruct (Hel Hokt) as (e & He & Hend). exists e.
  split; [|right; pose proof (elems_end _ _ _ _ He); destruct Hend as [->|]; [inversion He; subst|]; lia].
  econstructor; [|done]. pose proof (zeroed_same_fields sp Hok pos sz _ _ Hz1) as Hs.
  eapply (elem_ok_agree b1); [done|by eapply zeroed_blen| |].
  { apply agree_sym. eapply zeroed_agree; [exact Hz2|]. cbn. intros o Ho. lia. }
  split_and!; auto; try lia.
  - by rewrite <- (get_elem_size_same sp pos buf b1 Hs).
  - intros Hal. rewrite Hal in *. by destruct (Z.eqb_spec (Z.land sz 7) 0).
  - by rewrite <- (run_checks_same sp pos buf b1 Hs).
Qed.

(** A message that holds [n] elements is accepted as it is. *)
Lemma walk_complete n : forall pos totallen buf e,
  bytes_wf buf -> pos + totallen <= blen buf ->
  elems sp buf pos n e -> e <= pos + totallen -> walk sp n pos totallen buf = Acc (true, buf).
Proof.
  induction n as [|n IH]; intros pos totallen buf e Hwf Hin He Hle; cbn [walk]; [done|].
  inversion He as [|? sz ? ? Hel Htl]; subst. pose proof (elems_end _ _ _ _ Htl) as Hend.
  destruct Hel as (Hsz & Hge & Hpos & Hb & Hal & Hc & Ht).
  rewrite Z.geb_leb, (proj2 (Z.leb_le _ _)) by lia. cbn [negb]. rewrite Hsz. cbn [acc_bind].
  rewrite (proj2 (Z.ltb_ge _ _)) by lia.
  replace (es_align8 sp && negb (Z.land sz 7 =? 0)) with false
    by (destruct (es_align8 sp); [rewrite Hal by done|]; done).
  rewrite Hc. cbn [acc_bind negb]. rewrite (terminate_id sp Hok pos Hpos) by (done || lia).
  cbn [acc_bind]. eapply IH; eauto. lia. lia.
Qed.
End Walk.
