(* ===== verification/CommMsgs.v ===== *)
(** * CommMsgs : the protocol's header and the validation of its messages,
    [common/gy_comm_proto.h] and [common/gy_comm_proto.cc].

    [COMM_HEADER] with the functions that fill and validate it, then one
    definition per message type: the [elem_spec] of each message with elements of
    variable length and its [validate], the [validate] of the messages of fixed
    size, and the two older loops of the task messages. *)
From S2P Require Import Prelude Bytes CommLayout CommValid.

#[local] Open Scope string_scope.
#[local] Open Scope Z_scope.

(** ** COMM_HEADER *)
Definition COMM_MIN_TYPE : Z := 1.
Definition PS_REGISTER_REQ : Z := 2.
Definition PM_CONNECT_CMD : Z := 3.
Definition MS_REGISTER_REQ : Z := 4.
Definition MM_CONNECT_CMD : Z := 5.
Definition NS_REGISTER_REQ : Z := 6.
Definition NM_CONNECT_CMD : Z := 7.
Definition PS_REGISTER_RESP : Z := 8.
Definition PM_CONNECT_RESP : Z := 9.
Definition MS_REGISTER_RESP : Z := 10.
Definition MM_CONNECT_RESP : Z := 11.
Definition NS_REGISTER_RESP : Z := 12.
Definition NM_CONNECT_RESP : Z := 13.
Definition COMM_EVENT_NOTIFY : Z := 14.
Definition COMM_QUERY_CMD : Z := 15.
Definition COMM_QUERY_RESP : Z := 16.
Definition NS_ALERT_REGISTER : Z := 17.
Definition COMM_MAX_TYPE : Z := 18.

Definition INV_HDR_MAGIC : Z := 0.
Definition PS_ADHOC_MAGIC : Z := 0x05555505.
Definition PM_HDR_MAGIC : Z := 0x05666605.
Definition MS_HDR_MAGIC : Z := 0x05777705.
Definition MM_HDR_MAGIC : Z := 0x05888805.
Definition NS_HDR_MAGIC : Z := 0x05999905.
Definition NM_HDR_MAGIC : Z := 0x05AAAA05.
Definition NS_ADHOC_MAGIC : Z := 0x05B00105.
Definition NM_ADHOC_MAGIC : Z := 0x05C00105.
Definition MAX_HDR_MAGIC : Z := NM_ADHOC_MAGIC + 1.
Definition MIN_HDR_MAGIC : Z := PS_ADHOC_MAGIC - 1.

Inductive HOST_TYPES_E :=
  HOST_INVALID | HOST_PARTHA | HOST_MADHAVA | HOST_SHYAMA | HOST_NODE_WEB.

#[export] Instance host_types_eq_dec : EqDecision HOST_TYPES_E.
Proof. solve_decision. Defined.

Definition get_host_types (magic : Z) : HOST_TYPES_E * HOST_TYPES_E :=
  if magic =? PS_ADHOC_MAGIC then (HOST_PARTHA, HOST_SHYAMA)
  else if magic =? PM_HDR_MAGIC then (HOST_PARTHA, HOST_MADHAVA)
  else if magic =? MS_HDR_MAGIC then (HOST_MADHAVA, HOST_SHYAMA)
  else if magic =? MM_HDR_MAGIC then (HOST_MADHAVA, HOST_MADHAVA)
  else if magic =? NS_HDR_MAGIC then (HOST_NODE_WEB, HOST_SHYAMA)
  else if magic =? NM_HDR_MAGIC then (HOST_NODE_WEB, HOST_MADHAVA)
  else if magic =? NS_ADHOC_MAGIC then (HOST_NODE_WEB, HOST_SHYAMA)
  else if magic =? NM_ADHOC_MAGIC then (HOST_NODE_WEB, HOST_MADHAVA)
  else (HOST_INVALID, HOST_INVALID).

Definition is_host_node (magic : Z) : bool :=
  bool_decide ((get_host_types magic).1 = HOST_NODE_WEB).

(** [nalign] is a power of 2; 64-bit arithmetic. *)
Definition gy_align_up_2 (nsize nalign : Z) : Z :=
  u64 (Z.land (u64 (nsize - 1)) (u64 (- nalign)) + nalign).

Definition set_type_len (data_type total_sz magic : Z) (h : comm_header) : bool * comm_header :=
  let new_total_sz :=
    if negb (is_host_node magic) then u32 (gy_align_up_2 total_sz 8) else total_sz in
  if (new_total_sz <? MAX_COMM_DATA_SZ) && (total_sz >=? sizeof COMM_HEADER) &&
     (data_type >? COMM_MIN_TYPE) && (data_type <? COMM_MAX_TYPE) &&
     (magic >? MIN_HDR_MAGIC) && (magic <? MAX_HDR_MAGIC)
  then (true, CommHeader magic new_total_sz data_type (u32 (new_total_sz - total_sz)))
  else (false, CommHeader INV_HDR_MAGIC (total_sz_ h) (data_type_ h) (padding_sz_ h)).

(** The smallest payload of each message type, [None] for a type no message has. *)
Definition min_payload (data_type : Z) : option Z :=
  if data_type =? COMM_EVENT_NOTIFY then Some (sizeof EVENT_NOTIFY)
  else if data_type =? COMM_QUERY_CMD then Some (sizeof QUERY_CMD)
  else if data_type =? COMM_QUERY_RESP then Some (sizeof QUERY_RESPONSE)
  else if data_type =? PS_REGISTER_REQ then Some (sizeof PS_REGISTER_REQ_S)
  else if data_type =? PM_CONNECT_CMD then Some (sizeof PM_CONNECT_CMD_S)
  else if data_type =? MS_REGISTER_REQ then Some (sizeof MS_REGISTER_REQ_S)
  else if data_type =? MM_CONNECT_CMD then Some (sizeof MM_CONNECT_CMD_S)
  else if data_type =? NS_REGISTER_REQ then Some (sizeof NS_REGISTER_REQ_S)
  else if data_type =? NS_ALERT_REGISTER then Some (sizeof NS_REGISTER_REQ_S)
  else if data_type =? NM_CONNECT_CMD then Some (sizeof NM_CONNECT_CMD_S)
  else if data_type =? PS_REGISTER_RESP then Some (sizeof PS_REGISTER_RESP_S)
  else if data_type =? PM_CONNECT_RESP then Some (sizeof PM_CONNECT_RESP_S)
  else if data_type =? MS_REGISTER_RESP then Some (sizeof MS_REGISTER_RESP_S)
  else if data_type =? MM_CONNECT_RESP then Some (sizeof MM_CONNECT_RESP_S)
  else if data_type =? NS_REGISTER_RESP then Some (sizeof NS_REGISTER_RESP_S)
  else if data_type =? NM_CONNECT_RESP then Some (sizeof NM_CONNECT_RESP_S)
  else None.

(** [COMM_HEADER::validate]; [pdata] is the address of the message. *)
Definition hdr_validate (pdata req_magic : Z) (h : comm_header) : bool :=
  if negb ((magic_ h =? req_magic) &&
           (total_sz_ h <? MAX_COMM_DATA_SZ) && (total_sz_ h >=? sizeof COMM_HEADER) &&
           (padding_sz_ h <? 8) && (data_type_ h >? COMM_MIN_TYPE) && (data_type_ h <? COMM_MAX_TYPE))
  then false else
  if negb (Z.land (total_sz_ h) 7 =? 0) then false else
  if negb (Z.land pdata 7 =? 0) then false else
  let act_total_sz := u32 (total_sz_ h - padding_sz_ h) in
  match min_payload (data_type_ h) with
  | Some n => act_total_sz >=? sizeof COMM_HEADER + n
  | None => false
  end.

Definition is_valid_register_req (h : comm_header) : bool :=
  let ty x := data_type_ h =? x in
  if magic_ h =? PS_ADHOC_MAGIC then ty PS_REGISTER_REQ
  else if magic_ h =? PM_HDR_MAGIC then ty PM_CONNECT_CMD
  else if magic_ h =? MS_HDR_MAGIC then ty MS_REGISTER_REQ
  else if magic_ h =? MM_HDR_MAGIC then ty MM_CONNECT_CMD
  else if magic_ h =? NS_HDR_MAGIC then ty NS_REGISTER_REQ || ty NS_ALERT_REGISTER
  else if magic_ h =? NM_HDR_MAGIC then ty NM_CONNECT_CMD
  else if magic_ h =? NS_ADHOC_MAGIC then true
  else if magic_ h =? NM_ADHOC_MAGIC then true
  else false.

Definition is_adhoc (h : comm_header) : bool :=
  (magic_ h =? PS_ADHOC_MAGIC) || (magic_ h =? NS_ADHOC_MAGIC) || (magic_ h =? NM_ADHOC_MAGIC).

Definition is_node_action (h : comm_header) : bool :=
  is_host_node (magic_ h) && (data_type_ h =? NS_ALERT_REGISTER).

(** The header at the start of a received message. *)
Definition hdr_of_bytes (buf : list Z) : acc comm_header :=
  let! m := rd_fld COMM_HEADER "magic_" buf 0 in
  let! s := rd_fld COMM_HEADER "total_sz_" buf 0 in
  let! d := rd_fld COMM_HEADER "data_type_" buf 0 in
  let! p := rd_fld COMM_HEADER "padding_sz_" buf 0 in
  Acc (CommHeader m s d p).

Definition hdr_bytes (h : comm_header) : list Z :=
  le_bytes 4 (magic_ h) ++ le_bytes 4 (total_sz_ h) ++ le_bytes 4 (data_type_ h) ++
  le_bytes 4 (padding_sz_ h).

(** ** Messages with elements of variable length *)
Definition TASK_AGGR_NOTIFY_spec : elem_spec := {|
  es_struct := TASK_AGGR_NOTIFY; es_parts := [("cmdline_len_", 1); ("tag_len_", 1)];
  es_pad := Some "padding_len_"; es_align8 := true; es_checks := []; es_names := [];
  es_terms := [["cmdline_len_"]; ["cmdline_len_"; "tag_len_"]] |}.
Definition TASK_AGGR_NOTIFY_MAX_NUM_AGGR_TASK : Z := 1200.
Definition TASK_AGGR_NOTIFY_validate : comm_header -> list Z -> acc (bool * list Z) :=
  validate_events TASK_AGGR_NOTIFY_spec TASK_AGGR_NOTIFY_MAX_NUM_AGGR_TASK.

Definition NEW_LISTENER_spec : elem_spec := {|
  es_struct := NEW_LISTENER; es_parts := [("cmdline_len_", 1)];
  es_pad := Some "padding_len_"; es_align8 := true; es_checks := []; es_names := [];
  es_terms := [["cmdline_len_"]] |}.
Definition NEW_LISTENER_MAX_NUM_LISTENERS : Z := 2048.
Definition NEW_LISTENER_validate : comm_header -> list Z -> acc (bool * list Z) :=
  validate_events NEW_LISTENER_spec NEW_LISTENER_MAX_NUM_LISTENERS.

Definition TCP_CONN_NOTIFY_spec : elem_spec := {|
  es_struct := TCP_CONN_NOTIFY; es_parts := [("cli_cmdline_len_", 1)];
  es_pad := Some "padding_len_"; es_align8 := true; es_checks := []; es_names := [];
  es_terms := [["cli_cmdline_len_"]] |}.
Definition TCP_CONN_NOTIFY_MAX_NUM_CONNS : Z := 2048.
Definition TCP_CONN_NOTIFY_validate : comm_header -> list Z -> acc (bool * list Z) :=
  validate_events TCP_CONN_NOTIFY_spec TCP_CONN_NOTIFY_MAX_NUM_CONNS.

Definition AGGR_TASK_STATE_NOTIFY_spec : elem_spec := {|
  es_struct := AGGR_TASK_STATE_NOTIFY; es_parts := [("issue_string_len_", 1)];
  es_pad := Some "padding_len_"; es_align8 := true; es_checks := []; es_names := [];
  es_terms := [["issue_string_len_"]] |}.
Definition AGGR_TASK_STATE_NOTIFY_MAX_NUM_TASKS : Z := 1200.
Definition AGGR_TASK_STATE_NOTIFY_validate : comm_header -> list Z -> acc (bool * list Z) :=
  validate_events AGGR_TASK_STATE_NOTIFY_spec AGGR_TASK_STATE_NOTIFY_MAX_NUM_TASKS.

Definition LISTENER_STATE_NOTIFY_spec : elem_spec := {|
  es_struct := LISTENER_STATE_NOTIFY; es_parts := [("issue_string_len_", 1)];
  es_pad := Some "padding_len_"; es_align8 := true; es_checks := []; es_names := [];
  es_terms := [["issue_string_len_"]] |}.
Definition LISTENER_STATE_NOTIFY_MAX_NUM_LISTENERS : Z := 512.
Definition LISTENER_STATE_NOTIFY_validate : comm_header -> list Z -> acc (bool * list Z) :=
  validate_events LISTENER_STATE_NOTIFY_spec LISTENER_STATE_NOTIFY_MAX_NUM_LISTENERS.

Definition LISTENER_DEPENDENCY_NOTIFY_MAX_DEPENDS_PER_LISTEN : Z := 512.
Definition LISTENER_DEPENDENCY_NOTIFY_spec : elem_spec := {|
  es_struct := LISTENER_DEPENDENCY_NOTIFY; es_parts := [("ndepends_", sizeof DEPENDS_ONE)];
  es_pad := None; es_align8 := false;
  es_checks := [AtMost ["ndepends_"] LISTENER_DEPENDENCY_NOTIFY_MAX_DEPENDS_PER_LISTEN];
  es_names := []; es_terms := [] |}.
Definition LISTENER_DEPENDENCY_NOTIFY_MAX_NUM_LISTENERS : Z := 256.
Definition LISTENER_DEPENDENCY_NOTIFY_validate : comm_header -> list Z -> acc (bool * list Z) :=
  validate_events LISTENER_DEPENDENCY_NOTIFY_spec LISTENER_DEPENDENCY_NOTIFY_MAX_NUM_LISTENERS.

Definition LISTENER_CLUSTER_NOTIFY_MAX_CLUSTER_ELEMS : Z := 1024.
Definition LISTENER_CLUSTER_NOTIFY_spec : elem_spec := {|
  es_struct := LISTENER_CLUSTER_NOTIFY; es_parts := [("ncluster_elems_", sizeof RELSVC_CLUSTER_ONE)];
  es_pad := None; es_align8 := false;
  es_checks := [AtMost ["ncluster_elems_"] LISTENER_CLUSTER_NOTIFY_MAX_CLUSTER_ELEMS];
  es_names := []; es_terms := [] |}.
Definition LISTENER_CLUSTER_NOTIFY_MAX_NUM_LISTENERS : Z := 256.
Definition LISTENER_CLUSTER_NOTIFY_validate : comm_header -> list Z -> acc (bool * list Z) :=
  validate_events LISTENER_CLUSTER_NOTIFY_spec LISTENER_CLUSTER_NOTIFY_MAX_NUM_LISTENERS.

Definition MS_SVC_CLUSTER_MESH_MAX_CLUSTER_ELEMS : Z := 1024.
Definition MS_SVC_CLUSTER_MESH_spec : elem_spec := {|
  es_struct := MS_SVC_CLUSTER_MESH; es_parts := [("ncluster_elems_", sizeof RELSVC_CLUSTER_ONE)];
  es_pad := None; es_align8 := false;
  es_checks := [AtMost ["ncluster_elems_"] MS_SVC_CLUSTER_MESH_MAX_CLUSTER_ELEMS];
  es_names := []; es_terms := [] |}.
Definition MS_SVC_CLUSTER_MESH_MAX_NUM_CLUSTERS : Z := 256.
Definition MS_SVC_CLUSTER_MESH_validate : comm_header -> list Z -> acc (bool * list Z) :=
  validate_events MS_SVC_CLUSTER_MESH_spec MS_SVC_CLUSTER_MESH_MAX_NUM_CLUSTERS.

Definition SM_SVC_CLUSTER_MESH_MAX_CLUSTER_ELEMS : Z := 2048.
Definition SM_SVC_CLUSTER_MESH_spec : elem_spec := {|
  es_struct := SM_SVC_CLUSTER_MESH; es_parts := [("nmadhava_elems_", sizeof RELSVC_CLUSTER_ONE)];
  es_pad := None; es_align8 := false;
  es_checks := [AtMost ["nmadhava_elems_"] SM_SVC_CLUSTER_MESH_MAX_CLUSTER_ELEMS];
  es_names := []; es_terms := [] |}.
Definition SM_SVC_CLUSTER_MESH_MAX_NUM_CLUSTERS : Z := 1024.
Definition SM_SVC_CLUSTER_MESH_validate : comm_header -> list Z -> acc (bool * list Z) :=
  validate_events SM_SVC_CLUSTER_MESH_spec SM_SVC_CLUSTER_MESH_MAX_NUM_CLUSTERS.

Definition MS_LISTENER_NAT_IP_MAX_ELEMS : Z := 8.
Definition MS_LISTENER_NAT_IP_spec : elem_spec := {|
  es_struct := MS_LISTENER_NAT_IP;
  es_parts := [("nelems_new_", sizeof IP_PORT); ("nelems_del_", sizeof IP_PORT)];
  es_pad := None; es_align8 := false;
  es_checks := [AtMost ["nelems_new_"; "nelems_del_"] MS_LISTENER_NAT_IP_MAX_ELEMS];
  es_names := []; es_terms := [] |}.
Definition MS_LISTENER_NAT_IP_MAX_NUM_LISTENERS : Z := 256.
Definition MS_LISTENER_NAT_IP_validate : comm_header -> list Z -> acc (bool * list Z) :=
  validate_events MS_LISTENER_NAT_IP_spec MS_LISTENER_NAT_IP_MAX_NUM_LISTENERS.

Definition MM_LISTENER_ISSUE_RESOL_MAX_DOWNSTREAM_IDS : Z := 2048.
Definition MM_LISTENER_ISSUE_RESOL_spec : elem_spec := {|
  es_struct := MM_LISTENER_ISSUE_RESOL; es_parts := [("ndownstreams_", sizeof DOWNSTREAM_ONE)];
  es_pad := Some "padding_len_"; es_align8 := true;
  es_checks := [AtMost ["ndownstreams_"] MM_LISTENER_ISSUE_RESOL_MAX_DOWNSTREAM_IDS];
  es_names := []; es_terms := [] |}.
Definition MM_LISTENER_ISSUE_RESOL_MAX_NUM_LISTENERS : Z := 512.
Definition MM_LISTENER_ISSUE_RESOL_validate : comm_header -> list Z -> acc (bool * list Z) :=
  validate_events MM_LISTENER_ISSUE_RESOL_spec MM_LISTENER_ISSUE_RESOL_MAX_NUM_LISTENERS.

Definition LISTENER_DOMAIN_NOTIFY_spec : elem_spec := {|
  es_struct := LISTENER_DOMAIN_NOTIFY; es_parts := [("domain_string_len_", 1); ("tag_len_", 1)];
  es_pad := Some "padding_len_"; es_align8 := true; es_checks := []; es_names := [];
  es_terms := [["domain_string_len_"]; ["domain_string_len_"; "tag_len_"]] |}.
Definition LISTENER_DOMAIN_NOTIFY_MAX_NUM_LISTENERS : Z := 512.
Definition LISTENER_DOMAIN_NOTIFY_validate : comm_header -> list Z -> acc (bool * list Z) :=
  validate_events LISTENER_DOMAIN_NOTIFY_spec LISTENER_DOMAIN_NOTIFY_MAX_NUM_LISTENERS.

Definition LISTEN_TASKMAP_NOTIFY_MAX_NUM_LISTENERS : Z := 2048.
Definition LISTEN_TASKMAP_NOTIFY_MAX_NUM_TASKS : Z := 128.
Definition LISTEN_TASKMAP_NOTIFY_spec : elem_spec := {|
  es_struct := LISTEN_TASKMAP_NOTIFY;
  es_parts := [("nlisten_", sizeof uint64_t); ("naggr_taskid_", sizeof uint64_t)];
  es_pad := None; es_align8 := false;
  es_checks := [AtMost ["nlisten_"] LISTEN_TASKMAP_NOTIFY_MAX_NUM_LISTENERS;
                AtMost ["naggr_taskid_"] LISTEN_TASKMAP_NOTIFY_MAX_NUM_TASKS];
  es_names := []; es_terms := [] |}.
Definition LISTEN_TASKMAP_NOTIFY_validate : comm_header -> list Z -> acc (bool * list Z) :=
  validate_events LISTEN_TASKMAP_NOTIFY_spec LISTEN_TASKMAP_NOTIFY_MAX_NUM_LISTENERS.

Definition NOTIFICATION_MSG_spec : elem_spec := {|
  es_struct := NOTIFICATION_MSG; es_parts := [("msglen_", 1)];
  es_pad := Some "padding_len_"; es_align8 := true; es_checks := []; es_names := [];
  es_terms := [["msglen_"]] |}.
Definition NOTIFICATION_MSG_MAX_NUM_MSG : Z := 128.
Definition NOTIFICATION_MSG_validate : comm_header -> list Z -> acc (bool * list Z) :=
  validate_events NOTIFICATION_MSG_spec NOTIFICATION_MSG_MAX_NUM_MSG.

Definition SM_ALERT_ADEF_NEW_spec : elem_spec := {|
  es_struct := SM_ALERT_ADEF_NEW; es_parts := [("lenjson_", 1)];
  es_pad := Some "padding_len_"; es_align8 := true; es_checks := [NonZero "lenjson_"];
  es_names := []; es_terms := [["lenjson_"]] |}.
Definition SM_ALERT_ADEF_NEW_MAX_NUM_DEFS : Z := 128.
Definition SM_ALERT_ADEF_NEW_validate : comm_header -> list Z -> acc (bool * list Z) :=
  validate_events SM_ALERT_ADEF_NEW_spec SM_ALERT_ADEF_NEW_MAX_NUM_DEFS.

Definition ALERT_STAT_INFO_spec : elem_spec := {|
  es_struct := ALERT_STAT_INFO; es_parts := [("lenjson_", 1)];
  es_pad := Some "padding_len_"; es_align8 := true; es_checks := [NonZero "lenjson_"];
  es_names := []; es_terms := [["lenjson_"]] |}.
Definition ALERT_STAT_INFO_MAX_NUM_STATS : Z := 128.
Definition ALERT_STAT_INFO_validate : comm_header -> list Z -> acc (bool * list Z) :=
  validate_events ALERT_STAT_INFO_spec ALERT_STAT_INFO_MAX_NUM_STATS.

Definition SM_REQ_TRACE_DEF_NEW_MAX_GLOB_ID_ARR : Z := 1024.
Definition SM_REQ_TRACE_DEF_NEW_spec : elem_spec := {|
  es_struct := SM_REQ_TRACE_DEF_NEW;
  es_parts := [("ncap_glob_id_arr_", sizeof uint64_t); ("lencrit_", 1)];
  es_pad := Some "padding_len_"; es_align8 := true;
  es_checks := [ExactlyOne "ncap_glob_id_arr_" "lencrit_";
                AtMost ["ncap_glob_id_arr_"] SM_REQ_TRACE_DEF_NEW_MAX_GLOB_ID_ARR];
  es_names := ["name_"]; es_terms := [["lencrit_"]] |}.
Definition SM_REQ_TRACE_DEF_NEW_MAX_NUM_DEFS : Z := 128.
Definition SM_REQ_TRACE_DEF_NEW_validate : comm_header -> list Z -> acc (bool * list Z) :=
  validate_events SM_REQ_TRACE_DEF_NEW_spec SM_REQ_TRACE_DEF_NEW_MAX_NUM_DEFS.

(** The string of the request is terminated, the extension data behind it is not. *)
Definition REQ_TRACE_TRAN_spec : elem_spec := {|
  es_struct := REQ_TRACE_TRAN; es_parts := [("request_len_", 1); ("lenext_", 1)];
  es_pad := Some "padlen_"; es_align8 := true;
  es_checks := [NonZero "request_len_"; AtMost ["request_len_"] MAX_PARSE_API_LEN;
                AtMost ["lenext_"] MAX_PARSE_EXT_LEN];
  es_names := []; es_terms := [["request_len_"]] |}.
Definition REQ_TRACE_TRAN_MAX_NUM_REQS : Z := 256.
Definition get_max_actual_send_size : Z :=
  512 * 1024 + MAX_PARSE_API_LEN + MAX_PARSE_EXT_LEN + sizeof API_TRAN + 512.
Definition REQ_TRACE_TRAN_validate (h : comm_header) (buf : list Z) : acc (bool * list Z) :=
  if get_act_len h <? EVENT_FIXED_SZ then Acc (false, buf) else
  let! nelems := rd_fld EVENT_NOTIFY "nevents_" buf (sizeof COMM_HEADER) in
  if nelems >? REQ_TRACE_TRAN_MAX_NUM_REQS then Acc (false, buf) else
  if get_total_len h >=? get_max_actual_send_size then Acc (false, buf) else
  walk REQ_TRACE_TRAN_spec (Z.to_nat nelems) EVENT_FIXED_SZ (get_act_len h - EVENT_FIXED_SZ) buf.

(** The messages that [validate_events] validates, with their limits. *)
Definition event_specs : list (elem_spec * Z) := [
  (TASK_AGGR_NOTIFY_spec, TASK_AGGR_NOTIFY_MAX_NUM_AGGR_TASK);
  (NEW_LISTENER_spec, NEW_LISTENER_MAX_NUM_LISTENERS);
  (TCP_CONN_NOTIFY_spec, TCP_CONN_NOTIFY_MAX_NUM_CONNS);
  (AGGR_TASK_STATE_NOTIFY_spec, AGGR_TASK_STATE_NOTIFY_MAX_NUM_TASKS);
  (LISTENER_STATE_NOTIFY_spec, LISTENER_STATE_NOTIFY_MAX_NUM_LISTENERS);
  (LISTENER_DEPENDENCY_NOTIFY_spec, LISTENER_DEPENDENCY_NOTIFY_MAX_NUM_LISTENERS);
  (LISTENER_CLUSTER_NOTIFY_spec, LISTENER_CLUSTER_NOTIFY_MAX_NUM_LISTENERS);
  (MS_SVC_CLUSTER_MESH_spec, MS_SVC_CLUSTER_MESH_MAX_NUM_CLUSTERS);
  (SM_SVC_CLUSTER_MESH_spec, SM_SVC_CLUSTER_MESH_MAX_NUM_CLUSTERS);
  (MS_LISTENER_NAT_IP_spec, MS_LISTENER_NAT_IP_MAX_NUM_LISTENERS);
  (MM_LISTENER_ISSUE_RESOL_spec, MM_LISTENER_ISSUE_RESOL_MAX_NUM_LISTENERS);
  (LISTENER_DOMAIN_NOTIFY_spec, LISTENER_DOMAIN_NOTIFY_MAX_NUM_LISTENERS);
  (LISTEN_TASKMAP_NOTIFY_spec, LISTEN_TASKMAP_NOTIFY_MAX_NUM_LISTENERS);
  (NOTIFICATION_MSG_spec, NOTIFICATION_MSG_MAX_NUM_MSG);
  (SM_ALERT_ADEF_NEW_spec, SM_ALERT_ADEF_NEW_MAX_NUM_DEFS);
  (ALERT_STAT_INFO_spec, ALERT_STAT_INFO_MAX_NUM_STATS);
  (SM_REQ_TRACE_DEF_NEW_spec, SM_REQ_TRACE_DEF_NEW_MAX_NUM_DEFS);
  (REQ_TRACE_TRAN_spec, REQ_TRACE_TRAN_MAX_NUM_REQS)].

Lemma event_specs_ok : forallb (fun p => spec_ok p.1) event_specs = true.
Proof. by vm_compute. Qed.

Lemma event_spec_ok sp max : (sp, max) ∈ event_specs -> spec_ok sp = true.
Proof.
  intros Hin. pose proof event_specs_ok as H. rewrite forallb_forall in H.
  by apply (H (sp, max)), list_elem_of_In.
Qed.

(** ** What a validated header says *)
Lemma hdr_of_bytes_wf buf h : bytes_wf buf -> sizeof COMM_HEADER <= blen buf ->
  hdr_of_bytes buf = Acc h ->
  in_width 32 (magic_ h) /\ in_width 32 (total_sz_ h) /\ in_width 32 (data_type_ h) /\
  in_width 32 (padding_sz_ h).
Proof.
  intros Hwf Hlen H. change (sizeof COMM_HEADER) with 16 in Hlen. unfold hdr_of_bytes, rd_fld in H.
  change (field COMM_HEADER "magic_") with (Some (0, uint32_t)) in H.
  change (field COMM_HEADER "total_sz_") with (Some (4, uint32_t)) in H.
  change (field COMM_HEADER "data_type_") with (Some (8, uint32_t)) in H.
  change (field COMM_HEADER "padding_sz_") with (Some (12, uint32_t)) in H.
  change (Z.to_nat (sizeof uint32_t)) with 4%nat in H. cbv iota in H.
  apply acc_bind_Acc in H as (m & Hm & H). apply acc_bind_Acc in H as (s & Hs & H).
  apply acc_bind_Acc in H as (d & Hd & H). apply acc_bind_Acc in H as (p & Hp & [= <-]).
  cbn [magic_ total_sz_ data_type_ padding_sz_].
  split_and!; [refine (sat_elim _ _ _ (rd_le_sat 4 buf Hwf _ _ _) Hm)
    | refine (sat_elim _ _ _ (rd_le_sat 4 buf Hwf _ _ _) Hs)
    | refine (sat_elim _ _ _ (rd_le_sat 4 buf Hwf _ _ _) Hd)
    | refine (sat_elim _ _ _ (rd_le_sat 4 buf Hwf _ _ _) Hp)]; lia.
Qed.

Lemma hdr_validate_spec pdata magic h :
  in_width 32 (padding_sz_ h) -> hdr_validate pdata magic h = true ->
  magic_ h = magic /\ total_sz_ h < MAX_COMM_DATA_SZ /\ Z.land (total_sz_ h) 7 = 0 /\
  Z.land pdata 7 = 0 /\ get_act_len h = total_sz_ h - padding_sz_ h /\ 0 <= padding_sz_ h < 8 /\
  exists n, min_payload (data_type_ h) = Some n /\ sizeof COMM_HEADER + n <= get_act_len h.
Proof.
  intros Hp H. unfold hdr_validate in H. case_if_in H; [done|]. case_if_in H; [done|].
  case_if_in H; [done|]. unfold get_act_len. destruct (min_payload (data_type_ h)) as [n|]; [|done].
  breflect. unfold in_width in Hp. change (sizeof COMM_HEADER) with 16 in *.
  unfold MAX_COMM_DATA_SZ in *.
  rewrite !wrap_id in * by (unfold in_width; lia). split_and!; auto; try lia. exists n. split; [done|lia].
Qed.

(** An event message that passed [COMM_HEADER::validate] and was received in full. *)
Definition event_received (pdata magic : Z) (h : comm_header) (buf : list Z) : Prop :=
  bytes_wf buf /\ hdr_of_bytes buf = Acc h /\ hdr_validate pdata magic h = true /\
  data_type_ h = COMM_EVENT_NOTIFY /\ total_sz_ h <= blen buf.

Lemma hdr_of_bytes_len buf h : hdr_of_bytes buf = Acc h -> 16 <= blen buf.
Proof.
  intros H. unfold hdr_of_bytes in H. do 3 (apply acc_bind_Acc in H as (? & _ & H)).
  apply acc_bind_Acc in H as (p & Hp & _). unfold rd_fld in Hp.
  change (field COMM_HEADER "padding_sz_") with (Some (12, uint32_t)) in Hp. cbv iota in Hp.
  change (Z.to_nat (sizeof uint32_t)) with 4%nat in Hp. cbn [rd_le] in Hp.
  do 3 (apply acc_bind_Acc in Hp as (? & _ & Hp); apply acc_bind_Acc in Hp as (? & Hp & _)).
  apply acc_bind_Acc in Hp as (? & Hp & _). apply rd8_lookup in Hp as [_ Hp].
  apply lookup_lt_Some in Hp. unfold blen. lia.
Qed.

Lemma event_received_act pdata magic h buf : event_received pdata magic h buf ->
  get_act_len h = total_sz_ h - padding_sz_ h /\ EVENT_FIXED_SZ <= get_act_len h <= blen buf /\
  exists n, rd_fld EVENT_NOTIFY "nevents_" buf (sizeof COMM_HEADER) = Acc n /\ in_width 32 n.
Proof.
  intros (Hwf & Hh & Hv & Hd & Hlen).
  destruct (hdr_of_bytes_wf buf h Hwf (hdr_of_bytes_len _ _ Hh) Hh) as (_ & _ & _ & Hp).
  destruct (hdr_validate_spec _ _ _ Hp Hv) as (_ & _ & _ & _ & Ha & Hp8 & n & Hn & Hle).
  rewrite Hd in Hn. change (min_payload COMM_EVENT_NOTIFY) with (Some 8) in Hn.
  injection Hn as <-. change (sizeof COMM_HEADER) with 16 in Hle.
  change EVENT_FIXED_SZ with 24. split; [done|]. split; [lia|].
  unfold rd_fld. change (field EVENT_NOTIFY "nevents_") with (Some (4, uint32_t)). cbv iota.
  apply sat_Acc. apply (rd_le_sat 4 buf Hwf); [done|]. change (sizeof COMM_HEADER + 4) with 20. lia.
Qed.

(** ** Theorems on the messages with elements *)

(** C4 : validating a received message of the 18 kinds of [event_specs] (the messages
    with elements but TASK_MINI_ADD, TASK_FULL_ADD, LISTENER_INFO_REQ and
    CPU_MEM_STATE_NOTIFY; of REQ_TRACE_TRAN without the test of its total length) never
    accesses memory outside the message and changes nothing but 0 bytes it stores behind
    the event header; when it accepts, the message has at most the allowed number of
    elements, one directly after the other and all inside the message, each with an
    admissible size, the message's own conditions satisfied and its strings terminated. *)
Theorem events_validate_sound sp max pdata magic h buf :
  (sp, max) ∈ event_specs -> event_received pdata magic h buf ->
  exists ok buf', validate_events sp max h buf = Acc (ok, buf') /\
    zeroed (fun o => EVENT_FIXED_SZ <= o < get_act_len h) buf buf' /\
    (ok = true -> exists n e,
       rd_fld EVENT_NOTIFY "nevents_" buf (sizeof COMM_HEADER) = Acc (Z.of_nat n) /\
       Z.of_nat n <= max /\ elems sp buf' EVENT_FIXED_SZ n e /\ e <= get_act_len h).
Proof.
  intros Hin Hr. pose proof Hr as (Hwf & _). apply event_received_act in Hr as (_ & [Hge Hle] & n & Hn & Hnw).
  unfold validate_events. rewrite (proj2 (Z.ltb_ge _ _)) by done. rewrite Hn. cbn [acc_bind].
  unfold in_width in Hnw. case_if.
  { exists false, buf. split; [done|]. split; [apply zeroed_refl|done]. }
  breflect. change EVENT_FIXED_SZ with 24 in *.
  destruct (walk_sound sp (event_spec_ok _ _ Hin) (Z.to_nat n) 24 (get_act_len h - 24) buf)
    as (ok & b & -> & Hz & Hel); [done|lia..|].
  exists ok, b. split; [done|]. split; [eapply zeroed_mono; [|done]; cbn; intros o; lia|].
  intros Ht. destruct (Hel Ht) as (e & He & Hend). exists (Z.to_nat n), e. rewrite Z2Nat.id by lia.
  split_and!; [done|lia|done|]. destruct Hend as [H0|]; [|lia].
  rewrite H0 in He. inversion He; subst. lia.
Qed.

Lemma validate_events_complete sp max pdata magic h buf n e :
  (sp, max) ∈ event_specs -> event_received pdata magic h buf ->
  rd_fld EVENT_NOTIFY "nevents_" buf (sizeof COMM_HEADER) = Acc (Z.of_nat n) ->
  Z.of_nat n <= max -> elems sp buf EVENT_FIXED_SZ n e -> e <= get_act_len h ->
  validate_events sp max h buf = Acc (true, buf).
Proof.
  intros Hin Hr Hn Hmax Hel He. pose proof Hr as (Hwf & _).
  apply event_received_act in Hr as (_ & [Hge Hle] & _).
  unfold validate_events. rewrite (proj2 (Z.ltb_ge _ _)) by done. rewrite Hn. cbn [acc_bind].
  rewrite Z.gtb_ltb, (proj2 (Z.ltb_ge _ _)), Nat2Z.id by lia. change EVENT_FIXED_SZ with 24 in *.
  eapply walk_complete; eauto using event_spec_ok; lia.
Qed.

(** The messages accepted unchanged are exactly those that hold, behind the
    event header, the announced and allowed number of well-formed elements. *)
Theorem events_validate_iff sp max pdata magic h buf :
  (sp, max) ∈ event_specs -> event_received pdata magic h buf ->
  validate_events sp max h buf = Acc (true, buf) <->
  exists n e, rd_fld EVENT_NOTIFY "nevents_" buf (sizeof COMM_HEADER) = Acc (Z.of_nat n) /\
    Z.of_nat n <= max /\ elems sp buf EVENT_FIXED_SZ n e /\ e <= get_act_len h.
Proof.
  intros Hin Hr. split.
  - intros Hv. pose proof Hr as (Hwf & _). apply event_received_act in Hr as (_ & [Hge Hle] & n & Hn & Hnw).
    unfold validate_events in Hv. rewrite (proj2 (Z.ltb_ge _ _)) in Hv by done. rewrite Hn in Hv.
    cbn [acc_bind] in Hv. case_if_in Hv; [done|]. breflect. change EVENT_FIXED_SZ with 24 in *.
    unfold in_width in Hnw.
    destruct (walk_sound sp (event_spec_ok _ _ Hin) (Z.to_nat n) 24 (get_act_len h - 24) buf)
      as (ok & b & Hw & _ & Hel); [done|lia..|]. rewrite Hv in Hw. simplify_eq.
    destruct (Hel eq_refl) as (e & He & Hend). exists (Z.to_nat n), e. rewrite Z2Nat.id by lia.
    split_and!; [done|lia|done|]. destruct Hend as [H0|]; [|lia]. rewrite H0 in He. inversion He; subst. lia.
  - intros (n & e & Hn & Hmax & Hel & He). by eapply validate_events_complete.
Qed.

Lemma hdr_of_bytes_agree a b : agree 0 16 a b -> hdr_of_bytes a = hdr_of_bytes b.
Proof.
  intros H. unfold hdr_of_bytes, rd_fld.
  change (field COMM_HEADER "magic_") with (Some (0, uint32_t)).
  change (field COMM_HEADER "total_sz_") with (Some (4, uint32_t)).
  change (field COMM_HEADER "data_type_") with (Some (8, uint32_t)).
  change (field COMM_HEADER "padding_sz_") with (Some (12, uint32_t)).
  change (Z.to_nat (sizeof uint32_t)) with 4%nat. cbv iota.
  rewrite !(rd_le_agree 4 a b); [done|eapply agree_mono; [done|lia..]..].
Qed.

Lemma nevents_agree a b : agree 0 24 a b ->
  rd_fld EVENT_NOTIFY "nevents_" a (sizeof COMM_HEADER) = rd_fld EVENT_NOTIFY "nevents_" b (sizeof COMM_HEADER).
Proof.
  intros H. unfold rd_fld. change (field EVENT_NOTIFY "nevents_") with (Some (4, uint32_t)). cbv iota.
  apply rd_le_agree. change (sizeof COMM_HEADER + 4) with 20. change (Z.to_nat (sizeof uint32_t)) with 4%nat.
  eapply agree_mono; [done|lia..].
Qed.

Lemma event_received_zeroed pdata magic h a b :
  event_received pdata magic h a -> zeroed (fun o => EVENT_FIXED_SZ <= o < get_act_len h) a b ->
  event_received pdata magic h b.
Proof.
  intros (Hwf & Hh & Hv & Hd & Hlen) Hz. split; [by eapply zeroed_wf|].
  split; [|by rewrite (zeroed_blen _ _ _ Hz)].
  rewrite <- Hh. apply hdr_of_bytes_agree. eapply zeroed_agree; [done|]. cbn. intros o Ho.
  change EVENT_FIXED_SZ with 24. lia.
Qed.

(** Validation is idempotent: a message accepted once, with its strings
    terminated, is accepted again by a second pass, which changes nothing (the
    message is validated on receipt and scheduled to another thread). *)
Theorem events_validate_idem sp max pdata magic h buf buf' :
  (sp, max) ∈ event_specs -> event_received pdata magic h buf ->
  validate_events sp max h buf = Acc (true, buf') ->
  event_received pdata magic h buf' /\ validate_events sp max h buf' = Acc (true, buf').
Proof.
  intros Hin Hr Hv. pose proof Hr as (Hwf & _).
  pose proof (event_received_act _ _ _ _ Hr) as (_ & [Hge Hle] & n & Hn & Hnw).
  unfold validate_events in Hv. rewrite (proj2 (Z.ltb_ge _ _)) in Hv by done. rewrite Hn in Hv.
  cbn [acc_bind] in Hv. case_if_in Hv; [done|]. breflect. change EVENT_FIXED_SZ with 24 in *.
  unfold in_width in Hnw.
  destruct (walk_sound sp (event_spec_ok _ _ Hin) (Z.to_nat n) 24 (get_act_len h - 24) buf)
    as (ok & b & Hw & Hz & Hel); [done|lia..|]. rewrite Hv in Hw. simplify_eq.
  assert (zeroed (fun o => EVENT_FIXED_SZ <= o < get_act_len h) buf b) as Hz'
    by (eapply zeroed_mono; [|done]; change EVENT_FIXED_SZ with 24; cbn; intros o; lia).
  pose proof (event_received_zeroed _ _ _ _ _ Hr Hz') as Hr'. split; [done|].
  destruct (Hel eq_refl) as (e & He & Hend).
  eapply (validate_events_complete _ _ _ _ _ _ (Z.to_nat n) e); eauto.
  - rewrite Z2Nat.id by lia. rewrite <- Hn. apply nevents_agree. eapply zeroed_agree; [exact Hz'|].
    cbn. intros o Ho. change EVENT_FIXED_SZ with 24. lia.
  - lia.
  - destruct Hend as [H0|]; [|lia]. rewrite H0 in He. inversion He; subst. lia.
Qed.

(** ** Alignment *)

(** The sizes of the elements are multiples of 8: tested, or by construction. *)
Definition spec_aligned (sp : elem_spec) : bool :=
  (sizeof (es_struct sp) mod 8 =? 0) &&
  (es_align8 sp || (forallb (fun p => p.2 mod 8 =? 0) (es_parts sp) &&
                    bool_decide (es_pad sp = None))).

Lemma event_specs_aligned : forallb (fun p => spec_aligned p.1) event_specs = true.
Proof. by vm_compute. Qed.

Lemma land7_mod8 z : Z.land z 7 = z mod 8.
Proof. change 7 with (Z.ones 3). rewrite Z.land_ones by lia. done. Qed.

Lemma parts_size_aligned t ps buf pos : forall n,
  forallb (fun p : string * Z => p.2 mod 8 =? 0) ps = true ->
  parts_size t ps buf pos = Acc n -> n mod 8 = 0.
Proof.
  induction ps as [|[f k] ps IH]; intros n Hp Hn; cbn in Hp, Hn; [by simplify_eq|].
  apply andb_true_iff in Hp as [Hk Hp]. apply Z.eqb_eq in Hk.
  apply acc_bind_Acc in Hn as (v & _ & Hn). apply acc_bind_Acc in Hn as (r & Hr & [= <-]).
  specialize (IH r Hp Hr). rewrite Z.add_mod, Z.mul_mod, Hk, IH by lia.
  by rewrite Z.mul_0_r.
Qed.

Lemma elem_ok_aligned sp buf pos sz : spec_aligned sp = true -> elem_ok sp buf pos sz -> sz mod 8 = 0.
Proof.
  unfold spec_aligned. intros Hs (Hsz & _ & _ & _ & Hal & _). apply andb_true_iff in Hs as [H8 Hs].
  destruct (es_align8 sp); [by rewrite <- land7_mod8, Hal|]. cbn [orb] in Hs.
  apply andb_true_iff in Hs as [Hp Hnone]. apply bool_decide_eq_true in Hnone.
  unfold get_elem_size, get_act_size, pad_of in Hsz. rewrite Hnone in Hsz.
  apply acc_bind_Acc in Hsz as (n & Hn & [= <-]). apply acc_bind_Acc in Hn as (m & Hm & [= <-]).
  apply Z.eqb_eq in H8. pose proof (parts_size_aligned _ _ _ _ _ Hp Hm).
  rewrite Z.add_0_r, Z.add_mod, H8 by lia. by rewrite H.
Qed.

(** In a message of any of these types, every element starts at a multiple
    of 8 bytes (a message starts at an 8-byte boundary, so that the members of an element are
    accessed aligned). *)
Theorem elements_aligned sp max buf n e :
  (sp, max) ∈ event_specs -> elems sp buf EVENT_FIXED_SZ n e -> e mod 8 = 0.
Proof.
  intros Hin. assert (spec_aligned sp = true) as Ha.
  { pose proof event_specs_aligned as H. rewrite forallb_forall in H.
    by apply (H (sp, max)), list_elem_of_In. }
  enough (forall pos, pos mod 8 = 0 -> elems sp buf pos n e -> e mod 8 = 0) as H by (apply H; done).
  intros pos Hp He. induction He as [|pos sz n e Hel _ IH]; [done|].
  apply IH. rewrite Z.add_mod, Hp, (elem_ok_aligned _ _ _ _ Ha Hel) by lia. done.
Qed.

(** ** The sender's side *)

(** [gy_align_up_2] rounds up to a multiple of the power of 2. *)
Lemma gy_align_up_2_8 n : 0 < n < 2 ^ 63 -> gy_align_up_2 n 8 = align_up n 8.
Proof.
  intros Hn. unfold gy_align_up_2, align_up. rewrite (wrap_id 64 (n - 1)) by (unfold in_width; lia).
  assert (wrap 64 (Z.opp 8) = Z.land (-8) (Z.ones 64)) as -> by done.
  rewrite Z.land_assoc, Z.land_ones by lia.
  assert (Z.land (n - 1) (-8) = (n - 1) / 8 * 8) as ->.
  { change (-8) with (Z.lnot (Z.ones 3)). rewrite <- Z.ldiff_land, Z.ldiff_ones_r by lia.
    by rewrite Z.shiftl_mul_pow2, Z.shiftr_div_pow2 by lia. }
  rewrite (Z.mod_small ((n - 1) / 8 * 8)) by zdiv.
  rewrite wrap_id by (unfold in_width; zdiv). zdiv.
Qed.

Lemma align_up_mult8 n : 0 <= n -> align_up n 8 mod 8 = 0 /\ n <= align_up n 8 < n + 8.
Proof.
  intros. unfold align_up. rewrite Z.mod_mul by lia. split; [done|]. zdiv.
Qed.

(** The rounding wraps for sizes within 7 bytes of 4 GB: the test of the size
    passes and the header announces 0 bytes. *)
Lemma set_type_len_wraps h0 :
  set_type_len COMM_EVENT_NOTIFY (2 ^ 32 - 1) PM_HDR_MAGIC h0 =
  (true, CommHeader PM_HDR_MAGIC 0 COMM_EVENT_NOTIFY 1).
Proof. by vm_compute. Qed.

Lemma set_type_len_validates data_type total_sz magic h0 h n pdata :
  set_type_len data_type total_sz magic h0 = (true, h) -> is_host_node magic = false ->
  0 <= total_sz <= 2 ^ 32 - 8 -> min_payload data_type = Some n -> sizeof COMM_HEADER + n <= total_sz ->
  Z.land pdata 7 = 0 ->
  hdr_validate pdata magic h = true /\ get_act_len h = total_sz /\
  total_sz <= get_total_len h < total_sz + 8 /\ data_type_ h = data_type.
Proof.
  intros Hs Hn Hsz Hm Hge Hp. change (sizeof COMM_HEADER) with 16 in *. unfold set_type_len in Hs.
  rewrite Hn in Hs. cbn [negb] in Hs. change (sizeof COMM_HEADER) with 16 in Hs.
  case_if_in Hs; [|done]. breflect. injection Hs as <-.
  assert (gy_align_up_2 total_sz 8 = align_up total_sz 8) as Ha by (apply gy_align_up_2_8; lia).
  rewrite Ha in *. set (new := u32 (align_up total_sz 8)) in *.
  assert (new mod 8 = 0 /\ total_sz <= new < total_sz + 8) as [Hnew8 Hnew].
  { destruct (align_up_mult8 total_sz) as [? ?]; [lia|]. unfold new.
    rewrite wrap_id; [done|]. unfold in_width.
    zdiv. }
  clearbody new.
  assert (u32 (new - total_sz) = new - total_sz) as Hpad by (apply wrap_id; unfold in_width; lia).
  unfold hdr_validate, get_act_len, get_total_len.
  cbn [magic_ total_sz_ data_type_ padding_sz_]. rewrite Hpad.
  replace (new - (new - total_sz)) with total_sz by lia.
  rewrite (wrap_id 32 total_sz) by (unfold in_width; lia).
  split; [|split; [done|split; [lia|done]]]. change (sizeof COMM_HEADER) with 16.
  rewrite Z.eqb_refl, (proj2 (Z.ltb_lt new MAX_COMM_DATA_SZ)) by done.
  rewrite Z.geb_leb, (proj2 (Z.leb_le 16 new)) by lia. rewrite (proj2 (Z.ltb_lt (new - total_sz) 8)) by lia.
  rewrite Z.gtb_ltb, (proj2 (Z.ltb_lt COMM_MIN_TYPE data_type)), (proj2 (Z.ltb_lt data_type COMM_MAX_TYPE)) by done.
  cbn [andb negb]. rewrite land7_mod8, Hnew8, Hp. cbn [Z.eqb negb]. rewrite Hm.
  rewrite Z.geb_leb. by apply Z.leb_le.
Qed.

Lemma hdr_bytes_roundtrip_aux h rest :
  in_width 32 (magic_ h) -> in_width 32 (total_sz_ h) -> in_width 32 (data_type_ h) ->
  in_width 32 (padding_sz_ h) -> hdr_of_bytes (hdr_bytes h ++ rest) = Acc h.
Proof.
  intros Hm Hs Hd Hp. destruct h as [m s d p]. cbn [magic_ total_sz_ data_type_ padding_sz_] in *.
  unfold hdr_of_bytes, rd_fld, hdr_bytes. cbn [magic_ total_sz_ data_type_ padding_sz_].
  change (field COMM_HEADER "magic_") with (Some (0, uint32_t)).
  change (field COMM_HEADER "total_sz_") with (Some (4, uint32_t)).
  change (field COMM_HEADER "data_type_") with (Some (8, uint32_t)).
  change (field COMM_HEADER "padding_sz_") with (Some (12, uint32_t)).
  change (Z.to_nat (sizeof uint32_t)) with 4%nat. cbv iota.
  rewrite <- !app_assoc.
  rewrite rd_le_first, (rd_le_mid 4 (le_bytes 4 m) _ s) by done. cbn [acc_bind].
  rewrite (app_assoc (le_bytes 4 m)), (rd_le_mid 4 (le_bytes 4 m ++ le_bytes 4 s) _ d) by done.
  cbn [acc_bind]. rewrite (app_assoc (_ ++ _)).
  rewrite (rd_le_mid 4 ((le_bytes 4 m ++ le_bytes 4 s) ++ le_bytes 4 d) _ p) by done. done.
Qed.

(** C23 : what the sender puts into a header and sends to a peer that is not a
    web server, the receiver gets and accepts: the header read from the received bytes
    passes the receiver's [validate] of a message at an aligned address, the length it
    gives is the sender's, and it announces at most 7 bytes more. *)
Theorem hdr_sent_received data_type total_sz magic h0 h n pdata rest :
  set_type_len data_type total_sz magic h0 = (true, h) -> is_host_node magic = false ->
  0 <= total_sz <= 2 ^ 32 - 8 -> min_payload data_type = Some n -> sizeof COMM_HEADER + n <= total_sz ->
  Z.land pdata 7 = 0 ->
  exists h', hdr_of_bytes (hdr_bytes h ++ rest) = Acc h' /\ hdr_validate pdata magic h' = true /\
    get_act_len h' = total_sz /\ total_sz <= get_total_len h' < total_sz + 8 /\
    data_type_ h' = data_type.
Proof.
  intros Hs Hn Hsz Hm Hge Hp.
  destruct (set_type_len_validates _ _ _ _ _ _ _ Hs Hn Hsz Hm Hge Hp) as (Hv & Ha & Ht & Hd).
  exists h. split; [|done]. unfold set_type_len in Hs. case_if_in Hs; [|done]. injection Hs as <-. breflect.
  assert (magic < 2 ^ 32) by (unfold MAX_HDR_MAGIC, NM_ADHOC_MAGIC in *; lia).
  assert (0 < magic) by (unfold MIN_HDR_MAGIC, PS_ADHOC_MAGIC in *; lia).
  unfold get_total_len, COMM_MIN_TYPE, COMM_MAX_TYPE, MAX_COMM_DATA_SZ in *.
  cbn [magic_ total_sz_ data_type_ padding_sz_] in *. apply hdr_bytes_roundtrip_aux;
    cbn [magic_ total_sz_ data_type_ padding_sz_]; first [apply wrap_range; lia | unfold in_width; lia].
Qed.

(** [set_padding_len] of the element at [pos]. *)
Definition set_padding_len (sp : elem_spec) (pos : Z) (buf : list Z) : acc (list Z) :=
  let! currsz := get_act_size sp buf pos in
  let newsz := gy_align_up_2 currsz 8 in
  match es_pad sp with
  | Some f =>
      match field (es_struct sp) f with
      | Some (o, _) => wr8 buf (pos + o) (u8 (newsz - currsz))
      | None => Oob
      end
  | None => Acc buf
  end.

(** The padding's length is a byte apart from the members counted in the size. *)
Definition pad_ok (sp : elem_spec) : bool :=
  match es_pad sp with
  | None => true
  | Some f =>
      match field (es_struct sp) f with
      | Some (o, ft) =>
          (sizeof ft =? 1) && (0 <=? o) && (o + 1 <=? sizeof (es_struct sp)) &&
          forallb (fun p : string * Z => match field (es_struct sp) p.1 with
             | Some (q, qt) => (o <? q) || (q + sizeof qt <=? o)
             | None => false
             end) (es_parts sp)
      | None => false
      end
  end.

Lemma event_specs_pad_ok : forallb (fun p => pad_ok p.1) event_specs = true.
Proof. by vm_compute. Qed.

Lemma parts_size_insert t ps buf pos o v :
  0 <= pos -> 0 <= o ->
  forallb (fun p : string * Z => match field t p.1 with
    | Some (q, qt) => (o <? q) || (q + sizeof qt <=? o) | None => false end) ps = true ->
  forallb (fun p : string * Z => match field t p.1 with
    | Some (q, qt) => 0 <=? sizeof qt | None => false end) ps = true ->
  parts_size t ps (<[Z.to_nat (pos + o) := v]> buf) pos = parts_size t ps buf pos.
Proof.
  intros Hpos Ho. induction ps as [|[f k] ps IH]; cbn [forallb parts_size]; [done|].
  intros [Hf Hps]%andb_true_iff [Hz Hzs]%andb_true_iff. rewrite IH by done.
  unfold rd_fld. cbn [fst] in *. destruct (field t f) as [[q qt]|]; [|done]. breflect.
  rewrite (rd_le_agree _ _ buf); [done|]. intros x Hx. apply rd8_insert_ne; [lia|].
  apply orb_true_iff in Hf as [Hf|Hf]; breflect; lia.
Qed.

(** [set_padding_len] leaves an element whose size is the smallest multiple
    of 8 that holds what it carries, as the receiver's [validate] requires it. *)
Theorem set_padding_len_aligned sp max f pos buf n :
  (sp, max) ∈ event_specs -> es_pad sp = Some f -> bytes_wf buf -> 0 <= pos ->
  pos + sizeof (es_struct sp) <= blen buf -> get_act_size sp buf pos = Acc n -> n < 2 ^ 63 ->
  exists buf' sz, set_padding_len sp pos buf = Acc buf' /\
    get_elem_size sp buf' pos = Acc sz /\ Z.land sz 7 = 0 /\ n <= sz < n + 8.
Proof.
  intros Hin Hpad Hwf Hpos Hb Hn Hn63.
  pose proof (event_spec_ok _ _ Hin) as Hok.
  assert (pad_ok sp = true) as Hp.
  { pose proof event_specs_pad_ok as H. rewrite forallb_forall in H.
    by apply (H (sp, max)), list_elem_of_In. }
  unfold pad_ok in Hp. unfold set_padding_len. rewrite Hpad, Hn in *. cbn [acc_bind].
  destruct (field (es_struct sp) f) as [[o ft]|] eqn:Ef; [|done]. breflect.
  assert (1 <= n) as Hn1.
  { unfold get_act_size in Hn. apply acc_bind_Acc in Hn as (m & Hm & [= <-]).
    pose proof (sat_elim _ _ _ (parts_size_sat sp Hok buf pos Hwf Hpos Hb (es_parts sp) (fun _ H => H)) Hm) as Hm0.
    pose proof (spec_ok_sizeof sp Hok). cbn beta in Hm0. lia. }
  rewrite gy_align_up_2_8 by lia. destruct (align_up_mult8 n) as [H8 Hrng]; [lia|].
  rewrite (wrap_id 8) by (unfold in_width; lia).
  eexists _, (align_up n 8). rewrite wr8_sat by lia. split; [done|]. rewrite land7_mod8.
  split; [|done]. unfold get_elem_size, pad_of, get_act_size in *. rewrite Hpad.
  rewrite parts_size_insert; [|done..|].
  - rewrite Hn. cbn [acc_bind]. unfold rd_fld. rewrite Ef.
    replace (Z.to_nat (sizeof ft)) with 1%nat by lia. cbn [rd_le].
    rewrite rd8_insert_eq by lia. cbn [acc_bind]. f_equal. lia.
  - apply forallb_forall. intros p Hp%list_elem_of_In.
    pose proof (spec_ok_field sp Hok _ (in_parts sp p Hp)) as Hf. unfold field_ok in Hf.
    destruct (field (es_struct sp) p.1) as [[q qt]|]; [|done]. by breflect; apply Z.leb_le.
Qed.

(** ** Witnesses *)
Module MsgExamples.

(** One [NOTIFICATION_MSG] with the message "hi" whose terminating 0 is missing:
    8 bytes fixed, 3 bytes of text, 5 bytes of padding. *)
Definition ex_hdr : comm_header := CommHeader PM_HDR_MAGIC 40 COMM_EVENT_NOTIFY 0.
Definition ex_elem (last : Z) : list Z := [0; 0; 3; 0; 5; 0; 0; 0; 104; 105; last; 0; 0; 0; 0; 0].
Definition ex_msg (last : Z) : list Z :=
  hdr_bytes ex_hdr ++ le_bytes 4 0x319 ++ le_bytes 4 1 ++ ex_elem last.

Lemma ex_in : (NOTIFICATION_MSG_spec, NOTIFICATION_MSG_MAX_NUM_MSG) ∈ event_specs.
Proof. unfold event_specs. do 13 right. left. Qed.

Lemma ex_received last : in_width 8 last -> event_received 4096 PM_HDR_MAGIC ex_hdr (ex_msg last).
Proof.
  intros H. split; [|split_and!; done]. unfold ex_msg, ex_elem.
  repeat (apply Forall_app_2; [repeat (apply Forall_app_2 || apply le_bytes_wf)|]).
  repeat (apply list.Forall_cons; split; [done|]). done.
Qed.

Lemma events_validate_sound_witness :
  exists ok buf', validate_events NOTIFICATION_MSG_spec NOTIFICATION_MSG_MAX_NUM_MSG ex_hdr (ex_msg 33) =
      Acc (ok, buf') /\ ok = true /\ buf' = ex_msg 0 /\
    exists n e, elems NOTIFICATION_MSG_spec buf' EVENT_FIXED_SZ n e /\ e <= get_act_len ex_hdr.
Proof.
  destruct (events_validate_sound _ _ _ _ _ _ ex_in (ex_received 33 ltac:(done)))
    as (ok & b & Hv & _ & Hel).
  exists ok, b. assert (Acc (ok, b) = Acc (true, ex_msg 0)) as [= -> ->] by (rewrite <- Hv; by vm_compute).
  destruct (Hel eq_refl) as (n & e & _ & _ & He & Hle). eauto 10.
Defined.

Lemma events_validate_iff_witness :
  validate_events NOTIFICATION_MSG_spec NOTIFICATION_MSG_MAX_NUM_MSG ex_hdr (ex_msg 0) = Acc (true, ex_msg 0) /\
  exists n e, elems NOTIFICATION_MSG_spec (ex_msg 0) EVENT_FIXED_SZ n e /\ e <= get_act_len ex_hdr.
Proof.
  assert (validate_events NOTIFICATION_MSG_spec NOTIFICATION_MSG_MAX_NUM_MSG ex_hdr (ex_msg 0) =
    Acc (true, ex_msg 0)) as Hv by (by vm_compute).
  split; [done|].
  apply (events_validate_iff _ _ _ _ _ _ ex_in (ex_received 0 ltac:(done))) in Hv
    as (n & e & _ & _ & He & Hle). eauto.
Defined.

Lemma events_validate_idem_witness :
  validate_events NOTIFICATION_MSG_spec NOTIFICATION_MSG_MAX_NUM_MSG ex_hdr (ex_msg 0) = Acc (true, ex_msg 0).
Proof.
  apply (events_validate_idem _ _ _ _ _ (ex_msg 33) (ex_msg 0) ex_in (ex_received 33 ltac:(done))).
  by vm_compute.
Defined.

Lemma elements_aligned_witness : 40 mod 8 = 0.
Proof.
  apply (elements_aligned NOTIFICATION_MSG_spec NOTIFICATION_MSG_MAX_NUM_MSG (ex_msg 0) 1 40 ex_in).
  apply (elems_cons _ _ _ 16); [|apply elems_nil].
  do 6 (split; [by vm_compute|]). split.
  - intros n o ft Hn. by apply elem_of_nil in Hn.
  - intros fs v e Hfs Hv _ He. apply list_elem_of_singleton in Hfs. subst fs.
    vm_compute in He. injection He as <-. by vm_compute.
Defined.

Lemma hdr_sent_received_witness :
  exists h', hdr_of_bytes (hdr_bytes (CommHeader PM_HDR_MAGIC 40 COMM_EVENT_NOTIFY 3) ++ []) = Acc h' /\
    hdr_validate 4096 PM_HDR_MAGIC h' = true /\ get_act_len h' = 37 /\ 37 <= get_total_len h' < 37 + 8 /\
    data_type_ h' = COMM_EVENT_NOTIFY.
Proof.
  apply (hdr_sent_received COMM_EVENT_NOTIFY 37 PM_HDR_MAGIC (CommHeader 0 0 0 0) _ 8 4096); by vm_compute.
Defined.

Lemma set_padding_len_aligned_witness :
  exists buf' sz, set_padding_len NOTIFICATION_MSG_spec 24 (ex_msg 0) = Acc buf' /\
    get_elem_size NOTIFICATION_MSG_spec buf' 24 = Acc sz /\ Z.land sz 7 = 0 /\ 11 <= sz < 11 + 8.
Proof.
  apply (set_padding_len_aligned _ _ "padding_len_" 24 (ex_msg 0) 11 ex_in);
    first [apply (ex_received 0); done | by vm_compute].
Defined.
End MsgExamples.
