(* ===== verification/CommFixed.v ===== *)
(** * CommFixed : the protocol's messages without variable-length elements, and
    the task messages, [common/gy_comm_proto.h] and [common/gy_comm_proto.cc]. *)
From S2P Require Import Prelude Bytes CommLayout CommValid CommMsgs.

#[local] Open Scope string_scope.
#[local] Open Scope Z_scope.

Definition nevents (buf : list Z) : acc Z :=
  rd_fld EVENT_NOTIFY "nevents_" buf (sizeof COMM_HEADER).

(** ** Registration messages, queries and their responses *)

(** A message that consists of the header and one structure, whose [char] arrays
    [names] are terminated before the length is tested. *)
Definition validate_one (t : ctype) (names : list string) (h : comm_header) (buf : list Z)
    : acc (bool * list Z) :=
  let! buf := term_names t names (sizeof COMM_HEADER) buf in
  Acc (get_act_len h =? sizeof COMM_HEADER + sizeof t, buf).

Definition PS_REGISTER_REQ_S_validate : comm_header -> list Z -> acc (bool * list Z) :=
  validate_one PS_REGISTER_REQ_S [].
Definition PS_REGISTER_RESP_S_validate : comm_header -> list Z -> acc (bool * list Z) :=
  validate_one PS_REGISTER_RESP_S ["error_string_"; "madhava_hostname_"; "madhava_name_"].
Definition PM_CONNECT_CMD_S_validate : comm_header -> list Z -> acc (bool * list Z) :=
  validate_one PM_CONNECT_CMD_S [].
Definition PM_CONNECT_RESP_S_validate : comm_header -> list Z -> acc (bool * list Z) :=
  validate_one PM_CONNECT_RESP_S ["error_string_"; "region_name_"; "zone_name_"; "madhava_name_"].
Definition MS_REGISTER_REQ_S_validate : comm_header -> list Z -> acc (bool * list Z) :=
  validate_one MS_REGISTER_REQ_S [].
Definition MS_REGISTER_RESP_S_validate : comm_header -> list Z -> acc (bool * list Z) :=
  validate_one MS_REGISTER_RESP_S ["error_string_"; "region_name_"; "zone_name_"; "shyama_name_"].
Definition MM_CONNECT_CMD_S_validate : comm_header -> list Z -> acc (bool * list Z) :=
  validate_one MM_CONNECT_CMD_S [].
Definition MM_CONNECT_RESP_S_validate : comm_header -> list Z -> acc (bool * list Z) :=
  validate_one MM_CONNECT_RESP_S ["error_string_"; "region_name_"; "zone_name_"; "madhava_name_"].
Definition NS_REGISTER_REQ_S_validate : comm_header -> list Z -> acc (bool * list Z) :=
  validate_one NS_REGISTER_REQ_S [].
Definition NS_REGISTER_RESP_S_validate : comm_header -> list Z -> acc (bool * list Z) :=
  validate_one NS_REGISTER_RESP_S [].
Definition NM_CONNECT_CMD_S_validate : comm_header -> list Z -> acc (bool * list Z) :=
  validate_one NM_CONNECT_CMD_S [].
Definition NM_CONNECT_RESP_S_validate : comm_header -> list Z -> acc (bool * list Z) :=
  validate_one NM_CONNECT_RESP_S [].

(** The message types with their structure and the arrays that get terminated. *)
Definition one_msgs : list (Z * ctype * list string) := [
  (PS_REGISTER_REQ, PS_REGISTER_REQ_S, []);
  (PS_REGISTER_RESP, PS_REGISTER_RESP_S, ["error_string_"; "madhava_hostname_"; "madhava_name_"]);
  (PM_CONNECT_CMD, PM_CONNECT_CMD_S, []);
  (PM_CONNECT_RESP, PM_CONNECT_RESP_S, ["error_string_"; "region_name_"; "zone_name_"; "madhava_name_"]);
  (MS_REGISTER_REQ, MS_REGISTER_REQ_S, []);
  (MS_REGISTER_RESP, MS_REGISTER_RESP_S, ["error_string_"; "region_name_"; "zone_name_"; "shyama_name_"]);
  (MM_CONNECT_CMD, MM_CONNECT_CMD_S, []);
  (MM_CONNECT_RESP, MM_CONNECT_RESP_S, ["error_string_"; "region_name_"; "zone_name_"; "madhava_name_"]);
  (NS_REGISTER_REQ, NS_REGISTER_REQ_S, []);
  (NS_REGISTER_RESP, NS_REGISTER_RESP_S, []);
  (NM_CONNECT_CMD, NM_CONNECT_CMD_S, []);
  (NM_CONNECT_RESP, NM_CONNECT_RESP_S, [])].

Definition ERROR_NOTIFY_validate (h : comm_header) (buf : list Z) : acc bool :=
  let fixed_sz := EVENT_FIXED_SZ + sizeof ERROR_NOTIFY in
  if get_act_len h <? fixed_sz then Acc false else
  let! error_string_len := rd_fld ERROR_NOTIFY "error_string_len_" buf EVENT_FIXED_SZ in
  Acc (negb (get_act_len h <? fixed_sz + error_string_len)).

Definition QUERY_RESPONSE_validate (h : comm_header) (buf : list Z) : acc bool :=
  let fixed_sz := sizeof COMM_HEADER + sizeof QUERY_RESPONSE in
  if get_act_len h <? fixed_sz then Acc false else
  let! resp_len := rd_fld QUERY_RESPONSE "resp_len_" buf (sizeof COMM_HEADER) in
  Acc (get_act_len h =? fixed_sz + resp_len).

Definition PARTHA_MADHAVA_REQ_validate (h : comm_header) (buf : list Z) : acc bool :=
  let pos := sizeof COMM_HEADER + sizeof QUERY_CMD in
  let fixed_sz := pos + sizeof PARTHA_MADHAVA_REQ in
  if get_act_len h <? fixed_sz then Acc false else
  let! hlen := rd_fld PARTHA_MADHAVA_REQ "partha_hostname_len_" buf pos in
  let! tlen := rd_fld PARTHA_MADHAVA_REQ "extra_tags_len_" buf pos in
  if get_act_len h <? fixed_sz + hlen + tlen then Acc false else
  let! hi := rd_fld PARTHA_MADHAVA_REQ "partha_machine_id_hi_" buf pos in
  let! lo := rd_fld PARTHA_MADHAVA_REQ "partha_machine_id_lo_" buf pos in
  if (hi >? 0) && (lo >? 0) then Acc true else
  Acc (negb ((hlen >? MAX_DOMAINNAME_SIZE) || (tlen >? MAX_TOTAL_TAG_LEN))).

(** The responses get the response header of the message as well. *)
Definition resp_len (buf : list Z) : acc Z :=
  rd_fld QUERY_RESPONSE "resp_len_" buf (sizeof COMM_HEADER).
Definition RESP_POS : Z := sizeof COMM_HEADER + sizeof QUERY_RESPONSE.

Definition PARTHA_MADHAVA_RESP_validate (h : comm_header) (buf : list Z) : acc bool :=
  let! rlen := resp_len buf in
  if negb (get_act_len h =? RESP_POS + sizeof PARTHA_MADHAVA_RESP) ||
     negb (rlen =? sizeof PARTHA_MADHAVA_RESP) then Acc false else
  let! id := rd_fld PARTHA_MADHAVA_RESP "madhava_id_" buf RESP_POS in
  let! port := rd_fld PARTHA_MADHAVA_RESP "madhava_svc_port_" buf RESP_POS in
  Acc (negb ((id =? 0) || (port =? 0))).

Definition validate_resp (t : ctype) (h : comm_header) (buf : list Z) : acc bool :=
  let! rlen := resp_len buf in
  Acc ((get_act_len h =? RESP_POS + sizeof t) && (rlen =? sizeof t)).
Definition ERROR_STRING_RESP_validate : comm_header -> list Z -> acc bool := validate_resp ERROR_STRING_RESP.
Definition NUM_PARTHA_RESP_validate : comm_header -> list Z -> acc bool := validate_resp NUM_PARTHA_RESP.

Definition NUM_PARTHA_REQ_validate (h : comm_header) : bool :=
  get_act_len h =? sizeof COMM_HEADER + sizeof QUERY_CMD + sizeof NUM_PARTHA_REQ.

(** ** Events with one structure *)
Definition validate_event (t : ctype) (h : comm_header) : bool :=
  get_act_len h =? EVENT_FIXED_SZ + sizeof t.
Definition PARTHA_STATUS_validate : comm_header -> bool := validate_event PARTHA_STATUS.
Definition MADHAVA_PARTHA_STATUS_validate : comm_header -> bool := validate_event MADHAVA_PARTHA_STATUS.
Definition MADHAVA_SHYAMA_STATUS_validate : comm_header -> bool := validate_event MADHAVA_SHYAMA_STATUS.
Definition SHYAMA_MADHAVA_STATUS_validate : comm_header -> bool := validate_event SHYAMA_MADHAVA_STATUS.
Definition MADHAVA_MADHAVA_STATUS_validate : comm_header -> bool := validate_event MADHAVA_MADHAVA_STATUS.
Definition MP_RESET_STATS_validate : comm_header -> bool := validate_event MP_RESET_STATS.

(** ** Events with an array of structures

    [lim] is the largest number allowed, if there is one. *)
Definition validate_array (t : ctype) (lim : option Z) (h : comm_header) (buf : list Z) : acc bool :=
  let! n := nevents buf in
  Acc ((get_act_len h >=? EVENT_FIXED_SZ + n * sizeof t) &&
       match lim with Some m => n <=? m | None => true end).

Definition SM_PARTHA_IDENT_NOTIFY_validate : comm_header -> list Z -> acc bool :=
  validate_array SM_PARTHA_IDENT_NOTIFY None.
Definition PING_TASK_AGGR_validate : comm_header -> list Z -> acc bool :=
  validate_array PING_TASK_AGGR None.
Definition MM_TASK_AGGR_PING_validate : comm_header -> list Z -> acc bool :=
  validate_array MM_TASK_AGGR_PING None.
Definition MM_TASK_AGGR_DEL_validate : comm_header -> list Z -> acc bool :=
  validate_array MM_TASK_AGGR_DEL None.
Definition TASK_HISTOGRAM_validate : comm_header -> list Z -> acc bool :=
  validate_array TASK_HISTOGRAM None.
Definition MM_LISTENER_PING_validate : comm_header -> list Z -> acc bool :=
  validate_array MM_LISTENER_PING None.
Definition MM_LISTENER_DELETE_validate : comm_header -> list Z -> acc bool :=
  validate_array MM_LISTENER_DELETE None.
Definition MM_LISTENER_DEPENDS_validate : comm_header -> list Z -> acc bool :=
  validate_array MM_LISTENER_DEPENDS None.
Definition AGGR_TASK_HIST_STATS_validate : comm_header -> list Z -> acc bool :=
  validate_array AGGR_TASK_HIST_STATS None.
Definition SM_ALERT_ADEF_UPD_validate : comm_header -> list Z -> acc bool :=
  validate_array SM_ALERT_ADEF_UPD None.
Definition ALERT_STAT_CLOSE_validate : comm_header -> list Z -> acc bool :=
  validate_array ALERT_STAT_CLOSE None.
Definition SM_REQ_TRACE_DEF_DISABLE_validate : comm_header -> list Z -> acc bool :=
  validate_array SM_REQ_TRACE_DEF_DISABLE None.
Definition NAT_TCP_NOTIFY_validate : comm_header -> list Z -> acc bool :=
  validate_array NAT_TCP_NOTIFY (Some 2048).
Definition MS_TCP_CONN_CLOSE_validate : comm_header -> list Z -> acc bool :=
  validate_array MS_TCP_CONN_CLOSE (Some 2048).
Definition MP_CLI_TCP_INFO_validate : comm_header -> list Z -> acc bool :=
  validate_array MP_CLI_TCP_INFO (Some 2048).
Definition MP_SER_TCP_INFO_validate : comm_header -> list Z -> acc bool :=
  validate_array MP_SER_TCP_INFO (Some 2048).
Definition MS_TCP_CONN_NOTIFY_validate : comm_header -> list Z -> acc bool :=
  validate_array MS_TCP_CONN_NOTIFY (Some 2048).
Definition SHYAMA_SER_TCP_INFO_validate : comm_header -> list Z -> acc bool :=
  validate_array SHYAMA_SER_TCP_INFO (Some 2048).
Definition SHYAMA_CLI_TCP_INFO_validate : comm_header -> list Z -> acc bool :=
  validate_array SHYAMA_CLI_TCP_INFO (Some 2048).
Definition LISTENER_NAT_IP_EVENT_validate : comm_header -> list Z -> acc bool :=
  validate_array LISTENER_NAT_IP_EVENT (Some 512).
Definition SM_SVC_NAT_IP_CLUSTER_validate : comm_header -> list Z -> acc bool :=
  validate_array SM_SVC_NAT_IP_CLUSTER (Some 2048).
Definition ACTIVE_CONN_STATS_validate : comm_header -> list Z -> acc bool :=
  validate_array ACTIVE_CONN_STATS (Some 2048).
Definition MS_CLUSTER_STATE_validate : comm_header -> list Z -> acc bool :=
  validate_array MS_CLUSTER_STATE (Some 512).
Definition MS_PARTHA_PING_validate : comm_header -> list Z -> acc bool :=
  validate_array MS_PARTHA_PING (Some MAX_PARTHA_PER_MADHAVA).
Definition REQ_TRACE_SET_validate : comm_header -> list Z -> acc bool :=
  validate_array REQ_TRACE_SET (Some 128).
Definition REQ_TRACE_STATUS_validate : comm_header -> list Z -> acc bool :=
  validate_array REQ_TRACE_STATUS (Some 128).

(** One structure, announced as one event. *)
Definition validate_single (t : ctype) (h : comm_header) (buf : list Z) : acc bool :=
  let! n := nevents buf in
  Acc ((get_act_len h >=? EVENT_FIXED_SZ + sizeof t) && (n =? 1)).
Definition HOST_STATE_NOTIFY__V000100_validate : comm_header -> list Z -> acc bool :=
  validate_single HOST_STATE_NOTIFY__V000100.
Definition HOST_STATE_NOTIFY_validate : comm_header -> list Z -> acc bool :=
  validate_single HOST_STATE_NOTIFY.
Definition HOST_INFO_NOTIFY_validate : comm_header -> list Z -> acc bool :=
  validate_single HOST_INFO_NOTIFY.
Definition HOST_CPU_MEM_CHANGE_validate : comm_header -> list Z -> acc bool :=
  validate_single HOST_CPU_MEM_CHANGE.
Definition SM_ALERT_STAT_DISABLE_validate : comm_header -> list Z -> acc bool :=
  validate_single SM_ALERT_STAT_DISABLE.

Definition MADHAVA_LIST_validate (h : comm_header) (buf : list Z) : acc bool :=
  if get_act_len h <? EVENT_FIXED_SZ then Acc false else
  let! n := nevents buf in
  Acc (get_act_len h =? EVENT_FIXED_SZ + n * sizeof MADHAVA_LIST).

Definition LISTENER_DAY_STATS_MAX_NUM_LISTENERS : Z := 2048.
Definition LISTENER_DAY_STATS_ok (nelems totallen : Z) : bool :=
  (nelems <=? LISTENER_DAY_STATS_MAX_NUM_LISTENERS) && (totallen >=? nelems * sizeof LISTENER_DAY_STATS).
Definition LISTENER_DAY_STATS_validate (h : comm_header) (buf : list Z) : acc bool :=
  if get_act_len h <? EVENT_FIXED_SZ then Acc false else
  let! n := nevents buf in
  Acc (LISTENER_DAY_STATS_ok n (get_act_len h - EVENT_FIXED_SZ)).

Definition LISTENERS_INFO_STATS_RESP_validate (h : comm_header) (buf : list Z) : acc bool :=
  let! rlen := resp_len buf in
  if (get_act_len h <? RESP_POS + sizeof LISTENERS_INFO_STATS_RESP) ||
     (rlen <? sizeof LISTENERS_INFO_STATS_RESP) then Acc false else
  let! n := rd_fld LISTENERS_INFO_STATS_RESP "ntcp_listeners_" buf RESP_POS in
  Acc (LISTENER_DAY_STATS_ok n (rlen - sizeof LISTENERS_INFO_STATS_RESP)).

Fixpoint term_array (t : ctype) (names : list string) (n : nat) (pos : Z) (buf : list Z) : acc (list Z) :=
  match n with
  | O => Acc buf
  | S n' => let! buf := term_names t names pos buf in term_array t names n' (pos + sizeof t) buf
  end.

Definition MS_REG_PARTHA_names : list string := ["hostname_"; "cluster_name_"; "region_name_"; "zone_name_"].
Definition MS_REG_PARTHA_validate (h : comm_header) (buf : list Z) : acc (bool * list Z) :=
  if get_act_len h <? EVENT_FIXED_SZ then Acc (false, buf) else
  let! n := nevents buf in
  if n >? MAX_PARTHA_PER_MADHAVA then Acc (false, buf) else
  if negb (get_act_len h =? EVENT_FIXED_SZ + n * sizeof MS_REG_PARTHA) then Acc (false, buf) else
  let! buf := term_array MS_REG_PARTHA MS_REG_PARTHA_names (Z.to_nat n) EVENT_FIXED_SZ buf in
  Acc (true, buf).

(** The messages whose elements are an array directly behind the event header. *)
Definition array_msgs : list (ctype * option Z) := [
  (SM_PARTHA_IDENT_NOTIFY, None);
  (PING_TASK_AGGR, None);
  (MM_TASK_AGGR_PING, None);
  (MM_TASK_AGGR_DEL, None);
  (TASK_HISTOGRAM, None);
  (MM_LISTENER_PING, None);
  (MM_LISTENER_DELETE, None);
  (MM_LISTENER_DEPENDS, None);
  (AGGR_TASK_HIST_STATS, None);
  (SM_ALERT_ADEF_UPD, None);
  (ALERT_STAT_CLOSE, None);
  (SM_REQ_TRACE_DEF_DISABLE, None);
  (NAT_TCP_NOTIFY, Some 2048);
  (MS_TCP_CONN_CLOSE, Some 2048);
  (MP_CLI_TCP_INFO, Some 2048);
  (MP_SER_TCP_INFO, Some 2048);
  (MS_TCP_CONN_NOTIFY, Some 2048);
  (SHYAMA_SER_TCP_INFO, Some 2048);
  (SHYAMA_CLI_TCP_INFO, Some 2048);
  (LISTENER_NAT_IP_EVENT, Some 512);
  (SM_SVC_NAT_IP_CLUSTER, Some 2048);
  (ACTIVE_CONN_STATS, Some 2048);
  (MS_CLUSTER_STATE, Some 512);
  (MS_PARTHA_PING, Some MAX_PARTHA_PER_MADHAVA);
  (REQ_TRACE_SET, Some 128);
  (REQ_TRACE_STATUS, Some 128)].

(** ** Events with a structure and strings or arrays *)
Definition CPU_MEM_STATE_NOTIFY_spec : elem_spec := {|
  es_struct := CPU_MEM_STATE_NOTIFY;
  es_parts := [("cpu_state_string_len_", 1); ("mem_state_string_len_", 1)];
  es_pad := Some "padding_len_"; es_align8 := false; es_checks := []; es_names := [];
  es_terms := [["cpu_state_string_len_"]; ["cpu_state_string_len_"; "mem_state_string_len_"]] |}.

Definition CPU_MEM_STATE_NOTIFY_validate (h : comm_header) (buf : list Z) : acc (bool * list Z) :=
  if get_act_len h <? EVENT_FIXED_SZ then Acc (false, buf) else
  let! n := nevents buf in
  if negb (n =? 1) then Acc (false, buf) else
  let! sz := get_elem_size CPU_MEM_STATE_NOTIFY_spec buf EVENT_FIXED_SZ in
  if negb (get_act_len h =? EVENT_FIXED_SZ + sz) then Acc (false, buf) else
  let! buf := terminate CPU_MEM_STATE_NOTIFY_spec EVENT_FIXED_SZ buf in
  Acc (true, buf).

Definition TASK_MAX_TOP_N : Z := 15.
Definition TASK_MAX_TOPPG_N : Z := 10.
Definition TASK_MAX_RSS_TOP_N : Z := 8.
Definition TASK_MAX_FORKS_TOP_N : Z := 5.

Definition TASK_TOP_PROCS_spec : elem_spec := {|
  es_struct := TASK_TOP_PROCS;
  es_parts := [("nprocs_", sizeof TOP_TASK); ("npg_procs_", sizeof TOP_PG_TASK);
               ("nrss_procs_", sizeof TOP_TASK); ("nfork_procs_", sizeof TOP_FORK_TASK)];
  es_pad := None; es_align8 := false;
  es_checks := [AtMost ["nprocs_"] TASK_MAX_TOP_N; AtMost ["npg_procs_"] TASK_MAX_TOP_N;
                AtMost ["nrss_procs_"] TASK_MAX_RSS_TOP_N; AtMost ["nfork_procs_"] TASK_MAX_FORKS_TOP_N];
  es_names := []; es_terms := [] |}.

Definition TASK_TOP_PROCS_get_max_elem_size : Z :=
  sizeof TASK_TOP_PROCS + TASK_MAX_TOP_N * sizeof TOP_TASK + TASK_MAX_TOPPG_N * sizeof TOP_PG_TASK +
  TASK_MAX_RSS_TOP_N * sizeof TOP_TASK + TASK_MAX_FORKS_TOP_N * sizeof TOP_FORK_TASK.

Definition TASK_TOP_PROCS_validate (h : comm_header) (buf : list Z) : acc bool :=
  let fixed_sz := EVENT_FIXED_SZ + sizeof TASK_TOP_PROCS in
  if get_act_len h <? fixed_sz then Acc false else
  let! ext := rd_fld TASK_TOP_PROCS "ext_data_len_" buf EVENT_FIXED_SZ in
  if negb (get_act_len h - fixed_sz =? ext) then Acc false else
  let! ok := run_checks TASK_TOP_PROCS (es_checks TASK_TOP_PROCS_spec) buf EVENT_FIXED_SZ in
  if negb ok then Acc false else
  let! sz := get_elem_size TASK_TOP_PROCS_spec buf EVENT_FIXED_SZ in
  Acc (get_act_len h =? EVENT_FIXED_SZ + sz).

Definition MM_LISTENER_ISSUE_RESOL_get_max_elem_size : Z :=
  sizeof MM_LISTENER_ISSUE_RESOL + gy_align_up_2 (sizeof DOWNSTREAM_ONE * sizeof size_t) 8.

(** ** LISTENER_INFO_REQ *)
Definition LISTENER_INFO_REQ_POS : Z := sizeof COMM_HEADER + sizeof QUERY_CMD.

Definition LISTENER_INFO_REQ_validate (h : comm_header) (buf : list Z) : acc (bool * list Z) :=
  let fixed_sz := LISTENER_INFO_REQ_POS + sizeof LISTENER_INFO_REQ in
  if get_act_len h <? fixed_sz then Acc (false, buf) else
  let! n := rd_fld LISTENER_INFO_REQ "ntcp_listeners_" buf LISTENER_INFO_REQ_POS in
  if n >? NEW_LISTENER_MAX_NUM_LISTENERS then Acc (false, buf) else
  walk NEW_LISTENER_spec (Z.to_nat n) fixed_sz (get_act_len h - fixed_sz) buf.

(** ** The task messages

    Their loop keeps a copy of the header whose [total_sz_] it decreases. *)
Definition TASK_MINI_ADD_spec : elem_spec := {|
  es_struct := TASK_MINI_ADD; es_parts := [("task_cmdline_len_", 1)];
  es_pad := Some "padding_len_"; es_align8 := true; es_checks := [NonZero "task_pid_"];
  es_names := ["task_comm_"; "task_parent_comm_"]; es_terms := [["task_cmdline_len_"]] |}.

Definition TASK_FULL_ADD_spec : elem_spec := {|
  es_struct := TASK_FULL_ADD;
  es_parts := [("task_exe_path_len_", 1); ("task_cmdline_len_", 1); ("task_tags_len_", 1)];
  es_pad := Some "padding_len_"; es_align8 := true; es_checks := [];
  es_names := ["task_comm_"; "task_parent_comm_"];
  es_terms := [["task_exe_path_len_"]; ["task_exe_path_len_"; "task_cmdline_len_"];
               ["task_exe_path_len_"; "task_cmdline_len_"; "task_tags_len_"]] |}.

(** [validate(phdr, elem_sz)] of one element at [pos]; [None] is false. *)
Definition task_validate1 (sp : elem_spec) (h : comm_header) (pos : Z) (buf : list Z)
    : acc (option (Z * list Z)) :=
  let fixed_sz := EVENT_FIXED_SZ + sizeof (es_struct sp) in
  if get_act_len h <? fixed_sz then Acc None else
  let! sz := get_elem_size sp buf pos in
  let elem_sz := EVENT_FIXED_SZ + sz in
  if get_act_len h <? elem_sz then Acc None else
  let! ok := run_checks (es_struct sp) (es_checks sp) buf pos in
  if negb ok then Acc None else
  if negb (Z.land elem_sz 7 =? 0) then Acc None else
  let! buf := terminate sp pos buf in
  Acc (Some (elem_sz, buf)).

Definition with_total_sz (s : Z) (h : comm_header) : comm_header :=
  CommHeader (magic_ h) s (data_type_ h) (padding_sz_ h).

(** The loop of [validate(phdr, pnotify)]; [sub] is what is subtracted from the
    [elem_sz] of the element before it is used. *)
Fixpoint task_loop (sp : elem_spec) (sub : Z) (n : nat) (h : comm_header) (pos : Z) (buf : list Z)
    : acc (bool * list Z) :=
  match n with
  | O => Acc (true, buf)
  | S n' =>
      if negb (swrap 32 (total_sz_ h) >? sizeof COMM_HEADER) then Acc (false, buf) else
      let! r := task_validate1 sp h pos buf in
      match r with
      | None => Acc (false, buf)
      | Some (elem_sz, buf) =>
          let elem_sz := elem_sz - sub in
          task_loop sp sub n' (with_total_sz (u32 (total_sz_ h - elem_sz)) h) (pos + elem_sz) buf
      end
  end.

Definition TASK_MINI_ADD_validate (h : comm_header) (buf : list Z) : acc (bool * list Z) :=
  let! n := nevents buf in
  task_loop TASK_MINI_ADD_spec 0 (Z.to_nat n) h EVENT_FIXED_SZ buf.

Definition TASK_FULL_ADD_validate (h : comm_header) (buf : list Z) : acc (bool * list Z) :=
  let! n := nevents buf in
  task_loop TASK_FULL_ADD_spec EVENT_FIXED_SZ (Z.to_nat n) h EVENT_FIXED_SZ buf.

(** ** Theorems *)
Lemma nevents_received pdata magic h buf : event_received pdata magic h buf ->
  exists n, nevents buf = Acc n /\ in_width 32 n.
Proof. intros (_ & _ & n & Hn & Hw)%event_received_act. eauto. Qed.

Lemma array_msgs_ok : forallb (fun p => 0 <=? sizeof p.1) array_msgs = true.
Proof. by vm_compute. Qed.

(** For each of the messages that carry an array, validation reads inside
    the message, and when it accepts, all the announced structures are inside the
    message and not more than the limit. *)
Theorem array_validate_inside t lim pdata magic h buf :
  (t, lim) ∈ array_msgs -> event_received pdata magic h buf ->
  exists b n, validate_array t lim h buf = Acc b /\ nevents buf = Acc n /\
    (b = true <-> (EVENT_FIXED_SZ + n * sizeof t <= get_act_len h /\ forall m, lim = Some m -> n <= m)) /\
    (b = true -> forall k, 0 <= k < n ->
       EVENT_FIXED_SZ <= EVENT_FIXED_SZ + k * sizeof t /\
       EVENT_FIXED_SZ + k * sizeof t + sizeof t <= get_act_len h <= blen buf).
Proof.
  intros Hin Hr. destruct (nevents_received _ _ _ _ Hr) as (n & Hn & Hw).
  destruct (event_received_act _ _ _ _ Hr) as (_ & Hact & _).
  assert (0 <= sizeof t) as Ht.
  { pose proof array_msgs_ok as H. rewrite forallb_forall in H.
    apply list_elem_of_In, (H (t, lim)) in Hin. by apply Z.leb_le in Hin. }
  eexists _, n. unfold validate_array. rewrite Hn. split; [done|]. split; [done|].
  assert (forall b1 b2 P1 P2, (b1 = true <-> P1) -> (b2 = true <-> P2) -> (b1 && b2 = true <-> P1 /\ P2)) as Hand.
  { intros. rewrite andb_true_iff. tauto. }
  split.
  - apply Hand.
    + rewrite Z.geb_leb. apply Z.leb_le.
    + destruct lim as [m|]; [rewrite Z.leb_le|split; done].
      split; [intros H m' [= <-]; done|intros H; by apply H].
  - intros [Hb _]%andb_true_iff k Hk. rewrite Z.geb_leb in Hb. apply Z.leb_le in Hb. nia.
Qed.

(** *** Registration messages *)
Definition names_ok (t : ctype) (names : list string) : bool :=
  forallb (fun n => match field t n with
    | Some (o, ft) => (0 <=? o) && (1 <=? sizeof ft) && (o + sizeof ft <=? sizeof t)
    | None => false end) names.

Lemma term_names_zeroed t pos names : forall buf, names_ok t names = true ->
  0 <= pos -> pos + sizeof t <= blen buf ->
  exists buf', term_names t names pos buf = Acc buf' /\
    zeroed (fun o => pos <= o < pos + sizeof t) buf buf' /\
    forall n o ft, n ∈ names -> field t n = Some (o, ft) -> rd8 buf' (pos + o + sizeof ft - 1) = Acc 0.
Proof.
  induction names as [|n names IH]; intros buf Hok Hpos Hin; cbn [term_names].
  { exists buf. split; [done|]. split; [apply zeroed_refl|]. intros n o ft Hn. by apply elem_of_nil in Hn. }
  cbn [names_ok forallb] in Hok. apply andb_true_iff in Hok as [Hn Hok].
  destruct (field t n) as [[o ft]|] eqn:Ef; [|done]. breflect. unfold term_fld. rewrite Ef.
  destruct (zeroed_wr8 (fun o => pos <= o < pos + sizeof t) buf (pos + o + sizeof ft - 1))
    as (b1 & -> & Hz1 & Hr0); [lia|lia|]. cbn [acc_bind].
  destruct (IH b1) as (b2 & -> & Hz2 & Hall); [done..|by rewrite (zeroed_blen _ _ _ Hz1)|].
  exists b2. split; [done|]. split; [by eapply zeroed_trans|]. intros m p mt Hm Em.
  apply elem_of_cons in Hm as [->|Hm]; [|eauto]. rewrite Ef in Em. simplify_eq. by eapply zeroed_0.
Qed.

Lemma one_msgs_ok : forallb (fun p => names_ok p.1.2 p.2 && bool_decide (min_payload p.1.1 = Some (sizeof p.1.2)))
  one_msgs = true.
Proof. by vm_compute. Qed.

(** The registration messages and their responses are validated inside the
    message, although some of the methods write their terminating 0 bytes before they
    test the length, because [COMM_HEADER::validate] has accepted the message as one of
    that type; afterwards the strings are terminated, and the message is accepted iff it
    is exactly as long as its structure. *)
Theorem one_msg_validate ty t names pdata magic h buf :
  (ty, t, names) ∈ one_msgs -> bytes_wf buf -> hdr_of_bytes buf = Acc h ->
  hdr_validate pdata magic h = true -> data_type_ h = ty -> total_sz_ h <= blen buf ->
  exists b buf', validate_one t names h buf = Acc (b, buf') /\
    zeroed (fun o => sizeof COMM_HEADER <= o < sizeof COMM_HEADER + sizeof t) buf buf' /\
    (forall n o ft, n ∈ names -> field t n = Some (o, ft) ->
       rd8 buf' (sizeof COMM_HEADER + o + sizeof ft - 1) = Acc 0) /\
    (b = true <-> get_act_len h = sizeof COMM_HEADER + sizeof t).
Proof.
  intros Hin Hwf Hh Hv Hty Hlen.
  assert (names_ok t names = true /\ min_payload ty = Some (sizeof t)) as [Hno Hmp].
  { pose proof one_msgs_ok as H. rewrite forallb_forall in H.
    apply list_elem_of_In, (H (ty, t, names)), andb_true_iff in Hin as [? ?%bool_decide_eq_true]. done. }
  destruct (hdr_of_bytes_wf buf h Hwf (hdr_of_bytes_len _ _ Hh) Hh) as (_ & _ & _ & Hp).
  destruct (hdr_validate_spec _ _ _ Hp Hv) as (_ & _ & _ & _ & Ha & Hp8 & n & Hn & Hle).
  rewrite Hty, Hmp in Hn. simplify_eq. change (sizeof COMM_HEADER) with 16 in *.
  destruct (term_names_zeroed t 16 names buf) as (b1 & Ht & Hz & Hall); [done|lia..|].
  unfold validate_one. change (sizeof COMM_HEADER) with 16. rewrite Ht. cbn [acc_bind].
  exists (get_act_len h =? 16 + sizeof t), b1. split_and!; auto. apply Z.eqb_eq.
Qed.

(** *** Task messages *)
Section Task.
Context (sp : elem_spec) (sub : Z) (Hok : spec_ok sp = true)
  (Hsub : sub = 0 \/ sub = EVENT_FIXED_SZ).

(** What the header says about the bytes from [pos] on. *)
Definition task_room (h : comm_header) (pos : Z) (buf : list Z) : Prop :=
  EVENT_FIXED_SZ <= pos /\ 0 <= padding_sz_ h < 8 /\ padding_sz_ h <= total_sz_ h < 2 ^ 31 /\
  pos + (total_sz_ h - padding_sz_ h - EVENT_FIXED_SZ) <= blen buf.

Lemma task_validate1_ok h pos buf : bytes_wf buf -> task_room h pos buf ->
  task_validate1 sp h pos buf = Acc None \/
  exists sz buf', task_validate1 sp h pos buf = Acc (Some (EVENT_FIXED_SZ + sz, buf')) /\
    zeroed (fun o => pos <= o < pos + sz) buf buf' /\ elem_ok sp buf' pos sz /\
    EVENT_FIXED_SZ + sz <= total_sz_ h - padding_sz_ h.
Proof.
  intros Hwf (Hpos & Hp8 & Htot & Hin). unfold task_validate1, get_act_len.
  change EVENT_FIXED_SZ with 24 in *. pose proof (spec_ok_sizeof sp Hok) as Hs1.
  rewrite wrap_id by (unfold in_width; lia). case_if; [by left|]. breflect.
  assert (0 <= pos) as Hpos0 by lia. assert (pos + sizeof (es_struct sp) <= blen buf) as Hin' by lia.
  destruct (sat_Acc _ _ (get_elem_size_sat sp Hok buf pos Hwf Hpos0 Hin')) as (sz & Hsz & Hle).
  rewrite Hsz. cbn [acc_bind]. case_if; [by left|]. breflect.
  destruct (sat_Acc _ _ (run_checks_sat sp Hok buf pos Hwf Hpos0 Hin' (es_checks sp) (fun _ H => H)))
    as (okc & Hc & _).
  rewrite Hc. cbn [acc_bind]. destruct okc; [|by left]. cbn [negb].
  destruct (Z.eqb_spec (Z.land (24 + sz) 7) 0) as [H7|]; [|by left]. cbn [negb].
  destruct (terminate_ok sp Hok pos sz Hpos0 buf) as (b1 & -> & Hz1 & Ht1); [done..|lia|]. cbn [acc_bind].
  right. exists sz, b1. split; [done|].
  assert (zeroed (fun o => pos <= o < pos + sz) buf b1) as Hz'.
  { eapply zeroed_mono; [|done]. intros o [(m & p & ft & Hm & Ef & ->)|]; [|lia].
    destruct (spec_ok_name sp Hok m Hm) as (Hfo & (o' & ft' & Ef' & ?) & _). rewrite Ef in Ef'.
    simplify_eq. unfold field_ok in Hfo. rewrite Ef in Hfo. breflect. lia. }
  pose proof (zeroed_same_fields sp Hok pos sz _ _ Hz1) as Hs. split; [done|]. split; [|lia].
  split_and!; auto; try lia.
  - by rewrite <- (get_elem_size_same sp pos buf b1 Hs).
  - rewrite (zeroed_blen _ _ _ Hz1). lia.
  - intros _. rewrite land7_mod8 in *. clear - H7. zdiv.
  - by rewrite <- (run_checks_same sp pos buf b1 Hs).
Qed.

(** The loop stays inside the message; with [sub] the size of the two headers it
    goes from element to element. *)
Lemma task_loop_ok n : forall h pos buf, bytes_wf buf -> task_room h pos buf ->
  exists ok buf', task_loop sp sub n h pos buf = Acc (ok, buf') /\
    zeroed (fun o => pos <= o) buf buf' /\
    (sub = EVENT_FIXED_SZ -> ok = true -> exists e, elems sp buf' pos n e /\
       (n = 0%nat \/ e <= pos + (total_sz_ h - padding_sz_ h - EVENT_FIXED_SZ))).
Proof.
  induction n as [|n IH]; intros h pos buf Hwf Hroom; cbn [task_loop].
  { exists true, buf. split; [done|]. split; [apply zeroed_refl|]. intros _ _. exists pos. eauto using elems. }
  assert (forall P : list Z -> Prop, exists ok buf', Acc (false, buf) = Acc (ok, buf') /\
    zeroed (fun o => pos <= o) buf buf' /\ (sub = EVENT_FIXED_SZ -> ok = true -> P buf')) as Hno.
  { intros P. exists false, buf. split; [done|]. split; [apply zeroed_refl|done]. }
  case_if; [apply (Hno (fun b => exists e, elems sp b pos (S n) e /\ _))|].
  destruct (task_validate1_ok h pos buf Hwf Hroom) as [->|(sz & b1 & -> & Hz1 & Hel & Hsz)];
    cbn [acc_bind]; [apply (Hno (fun b => exists e, elems sp b pos (S n) e /\ _))|].
  destruct Hroom as (Hpos & Hp8 & Htot & Hin). pose proof Hel as (_ & Hge & _).
  pose proof (spec_ok_sizeof sp Hok) as Hs1. change EVENT_FIXED_SZ with 24 in *.
  set (esz := 24 + sz - sub). assert (0 <= esz <= 24 + sz) as Hesz by (unfold esz; lia).
  assert (sub = 24 -> esz = sz) as Eesz by (unfold esz; lia). clearbody esz.
  rewrite (wrap_id 32) by (unfold in_width; lia).
  destruct (IH (with_total_sz (total_sz_ h - esz) h) (pos + esz) b1) as (ok & b2 & -> & Hz2 & Hsnd).
  - by eapply zeroed_wf.
  - unfold task_room, with_total_sz. cbn [total_sz_ padding_sz_]. change EVENT_FIXED_SZ with 24.
    rewrite (zeroed_blen _ _ _ Hz1). lia.
  - exists ok, b2. split; [done|]. split.
    { eapply zeroed_trans; [eapply zeroed_mono; [|exact Hz1]|eapply zeroed_mono; [|exact Hz2]];
        cbn; intros o Ho; lia. }
    intros Hs24 Hokt. destruct (Hsnd Hs24 Hokt) as (e & He & Hend). exists e.
    specialize (Eesz Hs24). subst esz. cbn [with_total_sz total_sz_ padding_sz_] in Hend.
    split.
    + econstructor; [|done]. eapply (elem_ok_agree sp Hok b1); [by eapply zeroed_wf|by eapply zeroed_blen| |done].
      apply agree_sym. eapply zeroed_agree; [exact Hz2|]. cbn. intros o Ho. lia.
    + right. destruct Hend as [->|]; [inversion He; subst|]; lia.
Qed.
End Task.

Lemma event_received_room pdata magic h buf :
  event_received pdata magic h buf -> task_room h EVENT_FIXED_SZ buf.
Proof.
  intros Hr. pose proof Hr as (Hwf & Hh & Hv & _ & Hlen).
  destruct (hdr_of_bytes_wf buf h Hwf (hdr_of_bytes_len _ _ Hh) Hh) as (_ & Ht & _ & Hp).
  destruct (hdr_validate_spec _ _ _ Hp Hv) as (_ & Hmax & _ & _ & Ha & Hp8 & n & Hn & Hle).
  destruct (event_received_act _ _ _ _ Hr) as (_ & Hact & _). unfold MAX_COMM_DATA_SZ, in_width in *.
  change EVENT_FIXED_SZ with 24 in *. unfold task_room. change EVENT_FIXED_SZ with 24. lia.
Qed.

(** Validating a message with full task descriptions stays inside the
    message and changes only bytes behind the event header; when it accepts, the
    message holds the announced number of well-formed task elements, one after the
    other. *)
Theorem task_full_add_sound pdata magic h buf :
  event_received pdata magic h buf ->
  exists ok buf' n, TASK_FULL_ADD_validate h buf = Acc (ok, buf') /\ nevents buf = Acc (Z.of_nat n) /\
    zeroed (fun o => EVENT_FIXED_SZ <= o) buf buf' /\
    (ok = true -> exists e, elems TASK_FULL_ADD_spec buf' EVENT_FIXED_SZ n e /\ e <= get_act_len h).
Proof.
  intros Hr. destruct (nevents_received _ _ _ _ Hr) as (n & Hn & Hw). unfold in_width in Hw.
  destruct (event_received_act _ _ _ _ Hr) as (Ha & Hact & _). pose proof Hr as (Hwf & _).
  destruct (task_loop_ok TASK_FULL_ADD_spec EVENT_FIXED_SZ ltac:(by vm_compute) (or_intror eq_refl)
    (Z.to_nat n) h EVENT_FIXED_SZ buf Hwf (event_received_room _ _ _ _ Hr)) as (ok & b & Hl & Hz & Hs).
  exists ok, b, (Z.to_nat n). rewrite Z2Nat.id by lia. unfold TASK_FULL_ADD_validate. rewrite Hn.
  split_and!; auto. intros Ht. destruct (Hs eq_refl Ht) as (e & He & Hend). exists e. split; [done|].
  rewrite Ha in *. change EVENT_FIXED_SZ with 24 in *. destruct Hend as [H0|]; [|lia].
  rewrite H0 in He. inversion He; subst. lia.
Qed.

Lemma task_validate1_size sp h pos buf sz elem_sz buf' :
  get_elem_size sp buf pos = Acc sz ->
  task_validate1 sp h pos buf = Acc (Some (elem_sz, buf')) -> elem_sz = EVENT_FIXED_SZ + sz.
Proof.
  intros Hsz H. unfold task_validate1 in H. case_if_in H; [done|]. rewrite Hsz in H. cbn [acc_bind] in H.
  case_if_in H; [done|]. apply acc_bind_Acc in H as (ok & _ & H). case_if_in H; [done|].
  case_if_in H; [done|]. apply acc_bind_Acc in H as (b & _ & H). by simplify_eq.
Qed.

(** The loop for the short task descriptions goes on 24 bytes behind the end
    of an element (it adds the size of the two headers to each element's): a message
    with two well-formed tasks that it fills exactly is rejected, if the second one is
    shorter than its fixed part and these 24 bytes. *)
Theorem task_mini_add_rejects pdata magic h buf sz1 sz2 :
  event_received pdata magic h buf -> nevents buf = Acc 2 ->
  elem_ok TASK_MINI_ADD_spec buf EVENT_FIXED_SZ sz1 ->
  elem_ok TASK_MINI_ADD_spec buf (EVENT_FIXED_SZ + sz1) sz2 ->
  EVENT_FIXED_SZ + sz1 + sz2 = get_act_len h -> sz2 < EVENT_FIXED_SZ + sizeof TASK_MINI_ADD ->
  exists buf', TASK_MINI_ADD_validate h buf = Acc (false, buf').
Proof.
  intros Hr Hn (Hsz1 & _) _ Hfill Hshort. pose proof Hr as (Hwf & _).
  pose proof (event_received_room _ _ _ _ Hr) as Hroom.
  destruct (event_received_act _ _ _ _ Hr) as (Ha & _ & _).
  unfold TASK_MINI_ADD_validate. rewrite Hn. cbn [acc_bind].
  change (Z.to_nat 2) with 2%nat. cbn [task_loop].
  case_if; [by eexists|].
  destruct (task_validate1_ok TASK_MINI_ADD_spec ltac:(by vm_compute) h EVENT_FIXED_SZ buf Hwf Hroom)
    as [->|(sz & b1 & Hv & Hz1 & Hel & Hsz)]; cbn [acc_bind]; [by eexists|].
  rewrite Hv. cbn [acc_bind]. apply (task_validate1_size _ _ _ _ sz1) in Hv; [|done].
  assert (sz = sz1) as -> by lia. clear Hv. case_if; [by eexists|].
  destruct Hroom as (_ & Hp8 & Htot & Hin). pose proof Hel as (_ & Hge & _).
  change (sizeof TASK_MINI_ADD) with 96 in *. change (sizeof (es_struct TASK_MINI_ADD_spec)) with 96 in *.
  change EVENT_FIXED_SZ with 24 in *.
  rewrite (wrap_id 32 (total_sz_ h - (24 + sz1 - 0))) by (unfold in_width; lia).
  assert (get_act_len (with_total_sz (total_sz_ h - (24 + sz1 - 0)) h) = sz2) as Hact2.
  { unfold get_act_len, with_total_sz. cbn [total_sz_ padding_sz_].
    rewrite wrap_id by (unfold in_width; lia). lia. }
  unfold task_validate1. rewrite Hact2. change EVENT_FIXED_SZ with 24.
  change (sizeof (es_struct TASK_MINI_ADD_spec)) with 96.
  rewrite (proj2 (Z.ltb_lt sz2 (24 + 96))) by lia. cbn [acc_bind]. by eexists.
Qed.

(** [CPU_MEM_STATE_NOTIFY::validate] tests that the message holds the event
    header and reads the lengths of the two strings, without a test that the message
    holds the structure they are members of: for a message that ends before them the
    read is outside the message. For a message that holds the structure the validation
    stays inside. *)
Theorem cpu_mem_state_read pdata magic h buf o ft :
  event_received pdata magic h buf -> nevents buf = Acc 1 ->
  field CPU_MEM_STATE_NOTIFY "cpu_state_string_len_" = Some (o, ft) ->
  (blen buf <= EVENT_FIXED_SZ + o -> CPU_MEM_STATE_NOTIFY_validate h buf = Oob) /\
  (EVENT_FIXED_SZ + sizeof CPU_MEM_STATE_NOTIFY <= blen buf -> get_act_len h = blen buf ->
     exists b buf', CPU_MEM_STATE_NOTIFY_validate h buf = Acc (b, buf') /\
       (b = true -> terminated CPU_MEM_STATE_NOTIFY_spec EVENT_FIXED_SZ buf')).
Proof.
  intros Hr Hn Hf. pose proof Hr as (Hwf & _). destruct (event_received_act _ _ _ _ Hr) as (_ & Hact & _).
  unfold CPU_MEM_STATE_NOTIFY_validate. rewrite (proj2 (Z.ltb_ge _ _)) by lia. rewrite Hn.
  cbn [acc_bind]. change (negb (1 =? 1)) with false. cbv iota.
  change (field CPU_MEM_STATE_NOTIFY "cpu_state_string_len_") with (Some (68, uint8_t)) in Hf.
  injection Hf as <- <-. change EVENT_FIXED_SZ with 24 in *. split.
  - intros Hlen. unfold get_elem_size, get_act_size, parts_size. cbn [es_struct es_parts CPU_MEM_STATE_NOTIFY_spec].
    unfold rd_fld at 1. change (field CPU_MEM_STATE_NOTIFY "cpu_state_string_len_") with (Some (68, uint8_t)).
    cbv iota. change (Z.to_nat (sizeof uint8_t)) with 1%nat. cbn [rd_le]. unfold rd8 at 1.
    change (24 + 68 <? 0) with false. cbv iota. rewrite lookup_ge_None_2 by (unfold blen in *; lia). done.
  - intros Hin Hall. assert (spec_ok CPU_MEM_STATE_NOTIFY_spec = true) as Hok by (by vm_compute).
    destruct (sat_Acc _ _ (get_elem_size_sat CPU_MEM_STATE_NOTIFY_spec Hok buf 24 Hwf ltac:(lia) Hin))
      as (sz & Hsz & Hle).
    rewrite Hsz. cbn [acc_bind]. case_if; [exists false, buf; split; [reflexivity|discriminate]|]. breflect.
    destruct (terminate_ok CPU_MEM_STATE_NOTIFY_spec Hok 24 sz ltac:(lia) buf) as (b1 & -> & _ & Ht);
      [assumption..|lia|]. exists true, b1. split; [reflexivity|intros _; exact Ht].
Qed.

(** ** Witnesses *)
Module FixedExamples.

Definition zeros (n : nat) : list Z := replicate n 0.

Definition ex_event (total n : Z) (body : list Z) : list Z :=
  hdr_bytes (CommHeader PM_HDR_MAGIC total COMM_EVENT_NOTIFY 0) ++ le_bytes 4 0x301 ++ le_bytes 4 n ++ body.
Definition ex_hdr (total : Z) : comm_header := CommHeader PM_HDR_MAGIC total COMM_EVENT_NOTIFY 0.

Lemma ex_event_received total n body :
  in_width 32 total -> bytes_wf body -> hdr_validate 4096 PM_HDR_MAGIC (ex_hdr total) = true ->
  total <= 24 + blen body -> event_received 4096 PM_HDR_MAGIC (ex_hdr total) (ex_event total n body).
Proof.
  intros Ht Hb Hv Hle. split_and!.
  - unfold ex_event, hdr_bytes. repeat (apply Forall_app_2 || apply le_bytes_wf). done.
  - unfold ex_event. apply hdr_bytes_roundtrip_aux; done.
  - done.
  - done.
  - cbn [total_sz_ ex_hdr]. unfold ex_event, hdr_bytes, blen in *. rewrite !length_app, !length_le_bytes. lia.
Qed.

Lemma zeros_wf n : bytes_wf (zeros n).
Proof. apply Forall_replicate. by vm_compute. Qed.

Lemma array_validate_inside_witness :
  exists b n, validate_array MM_LISTENER_PING None (ex_hdr 32) (ex_event 32 1 (zeros 8)) = Acc b /\
    nevents (ex_event 32 1 (zeros 8)) = Acc n.
Proof.
  destruct (array_validate_inside MM_LISTENER_PING None 4096 PM_HDR_MAGIC (ex_hdr 32) (ex_event 32 1 (zeros 8)))
    as (b & n & Hv & Hn & _).
  - unfold array_msgs. do 5 right. left.
  - apply ex_event_received; [by vm_compute|apply zeros_wf|by vm_compute|by vm_compute].
  - exists b, n. split; [exact Hv|exact Hn].
Defined.

Definition ex_resp : list Z :=
  hdr_bytes (CommHeader PM_HDR_MAGIC 1024 PM_CONNECT_RESP 0) ++ replicate 1008 255.

Lemma one_msg_validate_witness :
  exists b buf', PM_CONNECT_RESP_S_validate (CommHeader PM_HDR_MAGIC 1024 PM_CONNECT_RESP 0) ex_resp =
    Acc (b, buf') /\ (b = true <-> 1024 = sizeof COMM_HEADER + sizeof PM_CONNECT_RESP_S).
Proof.
  destruct (one_msg_validate PM_CONNECT_RESP PM_CONNECT_RESP_S
    ["error_string_"; "region_name_"; "zone_name_"; "madhava_name_"] 4096 PM_HDR_MAGIC
    (CommHeader PM_HDR_MAGIC 1024 PM_CONNECT_RESP 0) ex_resp) as (b & b' & Hv & _ & _ & Hb).
  - unfold one_msgs. do 3 right. left.
  - apply bytes_wf_dec. by vm_compute.
  - by vm_compute.
  - by vm_compute.
  - reflexivity.
  - by vm_compute.
  - exists b, b'. split; [exact Hv|exact Hb].
Defined.

Lemma task_full_add_sound_witness :
  exists ok buf' n, TASK_FULL_ADD_validate (ex_hdr 184) (ex_event 184 1 (zeros 160)) = Acc (ok, buf') /\
    nevents (ex_event 184 1 (zeros 160)) = Acc (Z.of_nat n).
Proof.
  destruct (task_full_add_sound 4096 PM_HDR_MAGIC (ex_hdr 184) (ex_event 184 1 (zeros 160)))
    as (ok & b & n & Hv & Hn & _).
  - apply ex_event_received; [by vm_compute|apply zeros_wf|by vm_compute|by vm_compute].
  - exists ok, b, n. split; [exact Hv|exact Hn].
Defined.

(** Two tasks without a command line, with process number 1. *)
Definition ex_task : list Z := zeros 16 ++ [1; 0; 0; 0] ++ zeros 76.
Definition ex_minis : list Z := ex_event 216 2 (ex_task ++ ex_task).

Lemma ex_mini_ok pos : pos = 24 \/ pos = 120 -> elem_ok TASK_MINI_ADD_spec ex_minis pos 96.
Proof.
  intros [->| ->]; do 6 (split; [by vm_compute|]); split.
  1, 3: intros n o ft Hn Ef;
    repeat (apply elem_of_cons in Hn as [->|Hn]; [vm_compute in Ef; injection Ef as <- <-; by vm_compute|]);
    by apply elem_of_nil in Hn.
  all: intros fs v e Hfs Hv Hne He; apply list_elem_of_singleton in Hfs; subst fs;
    vm_compute in Hv; injection Hv as <-; by destruct Hne.
Qed.

Lemma task_mini_add_rejects_witness :
  exists buf', TASK_MINI_ADD_validate (ex_hdr 216) ex_minis = Acc (false, buf').
Proof.
  apply (task_mini_add_rejects 4096 PM_HDR_MAGIC (ex_hdr 216) ex_minis 96 96).
  - apply ex_event_received; [by vm_compute| |by vm_compute|by vm_compute].
    apply bytes_wf_dec. by vm_compute.
  - by vm_compute.
  - apply (ex_mini_ok 24). by left.
  - apply (ex_mini_ok 120). by right.
  - by vm_compute.
  - by vm_compute.
Defined.

Lemma cpu_mem_state_read_witness : CPU_MEM_STATE_NOTIFY_validate (ex_hdr 24) (ex_event 24 1 []) = Oob.
Proof.
  apply (cpu_mem_state_read 4096 PM_HDR_MAGIC (ex_hdr 24) (ex_event 24 1 []) 68 uint8_t).
  - apply ex_event_received; [by vm_compute|constructor|by vm_compute|by vm_compute].
  - by vm_compute.
  - by vm_compute.
  - by vm_compute.
Defined.

(** A message with 15 process groups, more than [TASK_MAX_TOPPG_N], is accepted
    and larger than the [get_max_elem_size] of its type. *)
Definition ex_top : list Z :=
  ex_event 2120 1 (le_bytes 2 15 ++ le_bytes 2 15 ++ le_bytes 2 8 ++ le_bytes 2 5 ++ le_bytes 2 2080 ++ zeros 2086).

Lemma top_procs_over_max :
  TASK_TOP_PROCS_validate (ex_hdr 2120) ex_top = Acc true /\
  exists sz, get_elem_size TASK_TOP_PROCS_spec ex_top EVENT_FIXED_SZ = Acc sz /\
    TASK_TOP_PROCS_get_max_elem_size < sz.
Proof. split; [by vm_compute|]. exists 2096. split; by vm_compute. Qed.

(** An element with 100 downstream services, of the 2048 allowed, is larger than
    its type's [get_max_elem_size]. *)
Definition ex_resol : list Z := zeros 40 ++ le_bytes 2 100 ++ zeros 1206.

Lemma issue_resol_over_max :
  exists sz, get_elem_size MM_LISTENER_ISSUE_RESOL_spec ex_resol 0 = Acc sz /\
    run_checks MM_LISTENER_ISSUE_RESOL (es_checks MM_LISTENER_ISSUE_RESOL_spec) ex_resol 0 = Acc true /\
    MM_LISTENER_ISSUE_RESOL_get_max_elem_size < sz.
Proof. exists 1248. split_and!; by vm_compute. Qed.
End FixedExamples.
