(* ===== verification/CommReg.v ===== *)
(** * CommReg : admission of a peer, the [validate_fields] methods of
    [common/gy_comm_proto.cc].

    When a partha, a madhava or the web server registers, its request (already
    accepted by [validate], file [CommFixed]) is examined member by member: the
    strings are terminated, the protocol version lowered to the one spoken here, and
    versions, identities, ports and clocks tested.  The texts written into [ebuf] are
    left out; the error code is the result.  The theorems give the exact condition
    under which a peer is admitted, and what each error code says about the request. *)
From S2P Require Import Prelude Bytes CommLayout CommValid CommMsgs CommFixed.

#[local] Open Scope string_scope.
#[local] Open Scope Z_scope.

(** ** Data *)
Inductive ERR_CODES_E :=
  | ERR_PROTOCOL_VERSION | ERR_MADHAVA_VERSION | ERR_PARTHA_VERSION | ERR_SHYAMA_VERSION
  | ERR_NODE_VERSION | ERR_SYSTEM_TIME_MISMATCH | ERR_INVALID_ACCESS_KEY | ERR_ACCESS_KEY_EXPIRED
  | ERR_ACCESS_KEY_HOSTS_EXCEEDED | ERR_HOST_OVERLOADED | ERR_ID_REUSED | ERR_INVALID_MACHINE_ID
  | ERR_INVALID_ID | ERR_NOT_VALIDATED | ERR_MISMATCH_ID | ERR_MAX_LIMIT | ERR_MADHAVA_UNAVAIL
  | ERR_INVALID_SECRET | ERR_INVALID_REQUEST.

#[global] Instance ERR_CODES_E_eq_dec : EqDecision ERR_CODES_E.
Proof. solve_decision. Defined.

(** The last of [CLI_TYPE_E]. *)
Definition CLI_TYPE_MAX : Z := 4.

(** ** The steps of a [validate_fields] method

    A step changes the message and either gives a value or leaves the method with an
    error code. *)
Definition chk (A : Type) : Type := list Z -> acc ((ERR_CODES_E + A) * list Z).

Definition cret {A} (a : A) : chk A := fun buf => Acc (inr a, buf).

Definition cbind {A B} (m : chk A) (k : A -> chk B) : chk B := fun buf =>
  let! rb := m buf in
  match rb.1 with
  | inl e => Acc (inl e, rb.2)
  | inr a => k a rb.2
  end.

Declare Scope chk_scope.
Notation "'let*' x := m 'in' k" := (cbind m (fun x => k))
  (at level 10, x binder, m at level 100, k at level 200) : chk_scope.
Notation "m ;* k" := (cbind m (fun _ => k)) (at level 100, right associativity) : chk_scope.
#[local] Open Scope chk_scope.

(** [if (c) { errcode = e; return false; }] *)
Definition fail_if (c : bool) (e : ERR_CODES_E) : chk unit := fun buf =>
  Acc (if c then inl e else inr tt, buf).

Definition get (t : ctype) (f : string) (pos : Z) : chk Z := fun buf =>
  let! v := rd_fld t f buf pos in Acc (inr v, buf).

Definition terms (t : ctype) (ns : list string) (pos : Z) : chk unit := fun buf =>
  let! b := term_names t ns pos buf in Acc (inr tt, b).

(** A store of [n] bytes on the little-endian host. *)
Fixpoint wr_le (n : nat) (buf : list Z) (off v : Z) : acc (list Z) :=
  match n with
  | O => Acc buf
  | S n' => let! b := wr8 buf off (v mod 256) in wr_le n' b (off + 1) (v / 256)
  end.

Definition put (t : ctype) (f : string) (pos v : Z) : chk unit := fun buf =>
  match field t f with
  | Some (o, ft) => let! b := wr_le (Z.to_nat (sizeof ft)) buf (pos + o) v in Acc (inr tt, b)
  | None => Oob
  end.

Definition check_version (t : ctype) (pos : Z) : chk unit :=
  let* comm_version := get t "comm_version_" pos in
  if comm_version >? COMM_VERSION_NUM then put t "comm_version_" pos COMM_VERSION_NUM
  else fail_if (comm_version <? MIN_COMM_VERSION_NUM) ERR_PROTOCOL_VERSION.

(** [labs] of a 64-bit value; the program is compiled with wrapping signed
    arithmetic ([-fno-strict-overflow]). *)
Definition labs (d : Z) : Z := if d <? 0 then swrap 64 (- d) else d.

(** [now] is [time(nullptr)]. *)
Definition check_clock (t : ctype) (now pos : Z) : chk unit :=
  let* curr_sec := get t "curr_sec_" pos in
  let diff_sys_sec := swrap 64 (now - swrap 64 curr_sec) in
  fail_if (labs diff_sys_sec >=? 60) ERR_SYSTEM_TIME_MISMATCH.

(** [strcmp] of the string at [off] with [s], the bytes of a C string without its
    terminator: are they equal? *)
Fixpoint strcmp (buf : list Z) (off : Z) (s : list Z) : acc bool :=
  match s with
  | [] => let! b := rd8 buf off in Acc (b =? 0)
  | c :: s' => let! b := rd8 buf off in if b =? c then strcmp buf (off + 1) s' else Acc false
  end.

Definition get_strcmp (t : ctype) (f : string) (s : list Z) (pos : Z) : chk bool := fun buf =>
  match field t f with
  | Some (o, _) => let! b := strcmp buf (pos + o) s in Acc (inr b, buf)
  | None => Oob
  end.

(** ** The requests *)
Definition PS_names : list string :=
  ["hostname_"; "write_access_key_"; "cluster_name_"; "region_name_"; "zone_name_"].

Definition PS_REGISTER_REQ_S_validate_fields (min_partha_version shyama_version now pos : Z) : chk unit :=
  let t := PS_REGISTER_REQ_S in
  terms t PS_names pos ;*
  check_version t pos ;*
  let* partha_version := get t "partha_version_" pos in
  fail_if (partha_version <? min_partha_version) ERR_PARTHA_VERSION ;*
  let* min_shyama_version := get t "min_shyama_version_" pos in
  fail_if (min_shyama_version >? shyama_version) ERR_SHYAMA_VERSION ;*
  let* machine_id_hi := get t "machine_id_hi_" pos in
  let* machine_id_lo := get t "machine_id_lo_" pos in
  fail_if ((machine_id_hi =? 0) && (machine_id_lo =? 0)) ERR_INVALID_MACHINE_ID ;*
  check_clock t now pos.

Definition MM_names : list string :=
  ["madhava_hostname_"; "region_name_"; "zone_name_"; "madhava_name_"].

Definition MM_CONNECT_CMD_S_validate_fields (madhava_id min_madhava_version curr_madhava_version now pos : Z)
    : chk unit :=
  let t := MM_CONNECT_CMD_S in
  terms t MM_names pos ;*
  let* remote_madhava_id := get t "remote_madhava_id_" pos in
  fail_if (negb (remote_madhava_id =? madhava_id)) ERR_MISMATCH_ID ;*
  check_version t pos ;*
  let* local_version := get t "local_version_" pos in
  fail_if (local_version <? min_madhava_version) ERR_MADHAVA_VERSION ;*
  let* min_remote_version := get t "min_remote_version_" pos in
  fail_if (min_remote_version >? curr_madhava_version) ERR_MADHAVA_VERSION ;*
  let* local_madhava_id := get t "local_madhava_id_" pos in
  fail_if (local_madhava_id =? 0) ERR_INVALID_ID ;*
  check_clock t now pos.

Definition PM_CONNECT_CMD_S_validate_fields (madhava_id min_partha_version madhava_version now pos : Z)
    : chk unit :=
  let t := PM_CONNECT_CMD_S in
  terms t PS_names pos ;*
  check_version t pos ;*
  let* partha_version := get t "partha_version_" pos in
  fail_if (partha_version <? min_partha_version) ERR_PARTHA_VERSION ;*
  let* min_madhava_version := get t "min_madhava_version_" pos in
  fail_if (min_madhava_version >? madhava_version) ERR_MADHAVA_VERSION ;*
  let* machine_id_hi := get t "machine_id_hi_" pos in
  let* machine_id_lo := get t "machine_id_lo_" pos in
  fail_if ((machine_id_hi =? 0) && (machine_id_lo =? 0)) ERR_INVALID_MACHINE_ID ;*
  let* id := get t "madhava_id_" pos in
  fail_if (negb (id =? madhava_id)) ERR_MISMATCH_ID ;*
  check_clock t now pos.

Definition MS_names : list string :=
  ["madhava_hostname_"; "region_name_"; "zone_name_"; "madhava_name_"; "shyama_secret_"].

Definition MS_REGISTER_REQ_S_validate_fields (min_madhava_version shyama_version : Z)
    (shyama_secret : list Z) (now pos : Z) : chk unit :=
  let t := MS_REGISTER_REQ_S in
  terms t MS_names pos ;*
  check_version t pos ;*
  let* madhava_version := get t "madhava_version_" pos in
  fail_if (madhava_version <? min_madhava_version) ERR_MADHAVA_VERSION ;*
  let* min_shyama_version := get t "min_shyama_version_" pos in
  fail_if (min_shyama_version >? shyama_version) ERR_SHYAMA_VERSION ;*
  let* same := get_strcmp t "shyama_secret_" shyama_secret pos in
  fail_if (negb same) ERR_INVALID_SECRET ;*
  let* madhava_port := get t "madhava_port_" pos in
  fail_if (madhava_port =? 0) ERR_INVALID_REQUEST ;*
  let* cli_type := get t "cli_type_" pos in
  fail_if (cli_type >=? CLI_TYPE_MAX) ERR_INVALID_REQUEST ;*
  check_clock t now pos ;*
  let* max_partha_nodes := get t "max_partha_nodes_" pos in
  fail_if ((max_partha_nodes =? 0) || (max_partha_nodes >? MAX_PARTHA_PER_MADHAVA)) ERR_INVALID_REQUEST.

Definition NS_REGISTER_REQ_S_validate_fields (min_node_version shyama_version now pos : Z) : chk unit :=
  let t := NS_REGISTER_REQ_S in
  terms t ["node_hostname_"] pos ;*
  check_version t pos ;*
  let* node_version := get t "node_version_" pos in
  fail_if (node_version <? min_node_version) ERR_NODE_VERSION ;*
  let* min_shyama_version := get t "min_shyama_version_" pos in
  fail_if (min_shyama_version >? shyama_version) ERR_SHYAMA_VERSION ;*
  let* node_port := get t "node_port_" pos in
  fail_if (node_port =? 0) ERR_INVALID_REQUEST ;*
  let* cli_type := get t "cli_type_" pos in
  fail_if (cli_type >=? CLI_TYPE_MAX) ERR_INVALID_REQUEST ;*
  check_clock t now pos.

Definition NM_CONNECT_CMD_S_validate_fields (min_node_version madhava_version now pos : Z) : chk unit :=
  let t := NM_CONNECT_CMD_S in
  terms t ["node_hostname_"] pos ;*
  check_version t pos ;*
  let* node_version := get t "node_version_" pos in
  fail_if (node_version <? min_node_version) ERR_NODE_VERSION ;*
  let* min_madhava_version := get t "min_madhava_version_" pos in
  fail_if (min_madhava_version >? madhava_version) ERR_SHYAMA_VERSION ;*
  let* node_port := get t "node_port_" pos in
  fail_if (node_port =? 0) ERR_INVALID_REQUEST ;*
  let* cli_type := get t "cli_type_" pos in
  fail_if (cli_type >=? CLI_TYPE_MAX) ERR_INVALID_REQUEST ;*
  check_clock t now pos.

(** The six requests with what the receiving side gives to the test: its own
    identity, the versions it accepts and has, its secret. *)
Inductive reg_req :=
  | RegPS (min_partha_version shyama_version : Z)
  | RegMM (madhava_id min_madhava_version curr_madhava_version : Z)
  | RegPM (madhava_id min_partha_version madhava_version : Z)
  | RegMS (min_madhava_version shyama_version : Z) (shyama_secret : list Z)
  | RegNS (min_node_version shyama_version : Z)
  | RegNM (min_node_version madhava_version : Z).

Definition validate_fields (r : reg_req) (now pos : Z) : chk unit :=
  match r with
  | RegPS mv sv => PS_REGISTER_REQ_S_validate_fields mv sv now pos
  | RegMM id mv cv => MM_CONNECT_CMD_S_validate_fields id mv cv now pos
  | RegPM id mv cv => PM_CONNECT_CMD_S_validate_fields id mv cv now pos
  | RegMS mv sv s => MS_REGISTER_REQ_S_validate_fields mv sv s now pos
  | RegNS mv sv => NS_REGISTER_REQ_S_validate_fields mv sv now pos
  | RegNM mv cv => NM_CONNECT_CMD_S_validate_fields mv cv now pos
  end.

(** ** Specification *)
Definition req_struct (r : reg_req) : ctype :=
  match r with
  | RegPS _ _ => PS_REGISTER_REQ_S | RegMM _ _ _ => MM_CONNECT_CMD_S | RegPM _ _ _ => PM_CONNECT_CMD_S
  | RegMS _ _ _ => MS_REGISTER_REQ_S | RegNS _ _ => NS_REGISTER_REQ_S | RegNM _ _ => NM_CONNECT_CMD_S
  end.

Definition req_names (r : reg_req) : list string :=
  match r with
  | RegPS _ _ | RegPM _ _ _ => PS_names | RegMM _ _ _ => MM_names | RegMS _ _ _ => MS_names
  | RegNS _ _ | RegNM _ _ => ["node_hostname_"]
  end.

(** The members that are tested, besides the protocol version and the secret. *)
Definition req_nums (r : reg_req) : list string :=
  match r with
  | RegPS _ _ => ["partha_version_"; "min_shyama_version_"; "machine_id_hi_"; "machine_id_lo_"; "curr_sec_"]
  | RegMM _ _ _ => ["remote_madhava_id_"; "local_version_"; "min_remote_version_"; "local_madhava_id_"; "curr_sec_"]
  | RegPM _ _ _ => ["partha_version_"; "min_madhava_version_"; "machine_id_hi_"; "machine_id_lo_";
                    "madhava_id_"; "curr_sec_"]
  | RegMS _ _ _ => ["madhava_version_"; "min_shyama_version_"; "madhava_port_"; "cli_type_"; "curr_sec_";
                    "max_partha_nodes_"]
  | RegNS _ _ => ["node_version_"; "min_shyama_version_"; "node_port_"; "cli_type_"; "curr_sec_"]
  | RegNM _ _ => ["node_version_"; "min_madhava_version_"; "node_port_"; "cli_type_"; "curr_sec_"]
  end.

(** The value of a member; [Oob] does not arise for members inside the buffer. *)
Definition mem (t : ctype) (buf : list Z) (pos : Z) (f : string) : Z :=
  match rd_fld t f buf pos with Acc v => v | Oob => 0 end.

(** The bytes at [off] are the C string [s]. *)
Definition str_at (buf : list Z) (off : Z) (s : list Z) : Prop :=
  (forall i c, s !! i = Some c -> rd8 buf (off + Z.of_nat i) = Acc c) /\
  rd8 buf (off + blen s) = Acc 0.

(** The clocks differ by less than a minute, or by exactly 2^63 seconds, where
    [labs] overflows. *)
Definition clock_ok (now curr_sec : Z) : Prop :=
  Z.abs (now - curr_sec) < 60 \/ curr_sec = now - 2 ^ 63.

(** The peer is let in; [m] gives the members of its request, [sec] says whether a
    string is the secret it sent. *)
Definition admissible (r : reg_req) (now : Z) (m : string -> Z) (sec : list Z -> Prop) : Prop :=
  MIN_COMM_VERSION_NUM <= m "comm_version_" /\ clock_ok now (swrap 64 (m "curr_sec_")) /\
  match r with
  | RegPS mv sv => mv <= m "partha_version_" /\ m "min_shyama_version_" <= sv /\
      (m "machine_id_hi_" <> 0 \/ m "machine_id_lo_" <> 0)
  | RegMM id mv cv => m "remote_madhava_id_" = id /\ mv <= m "local_version_" /\
      m "min_remote_version_" <= cv /\ m "local_madhava_id_" <> 0
  | RegPM id mv cv => mv <= m "partha_version_" /\ m "min_madhava_version_" <= cv /\
      (m "machine_id_hi_" <> 0 \/ m "machine_id_lo_" <> 0) /\ m "madhava_id_" = id
  | RegMS mv sv s => mv <= m "madhava_version_" /\ m "min_shyama_version_" <= sv /\ sec s /\
      m "madhava_port_" <> 0 /\ m "cli_type_" < CLI_TYPE_MAX /\
      0 < m "max_partha_nodes_" <= MAX_PARTHA_PER_MADHAVA
  | RegNS mv sv => mv <= m "node_version_" /\ m "min_shyama_version_" <= sv /\
      m "node_port_" <> 0 /\ m "cli_type_" < CLI_TYPE_MAX
  | RegNM mv cv => mv <= m "node_version_" /\ m "min_madhava_version_" <= cv /\
      m "node_port_" <> 0 /\ m "cli_type_" < CLI_TYPE_MAX
  end.

(** What an error code says about the request. *)
Definition reason (e : ERR_CODES_E) (r : reg_req) (now : Z) (m : string -> Z) (sec : list Z -> Prop) : Prop :=
  match e, r with
  | ERR_PROTOCOL_VERSION, _ => m "comm_version_" < MIN_COMM_VERSION_NUM
  | ERR_SYSTEM_TIME_MISMATCH, _ => ~ clock_ok now (swrap 64 (m "curr_sec_"))
  | ERR_PARTHA_VERSION, (RegPS mv _ | RegPM _ mv _) => m "partha_version_" < mv
  | ERR_SHYAMA_VERSION, (RegPS _ sv | RegMS _ sv _ | RegNS _ sv) => sv < m "min_shyama_version_"
  | ERR_SHYAMA_VERSION, RegNM _ cv => cv < m "min_madhava_version_"
  | ERR_MADHAVA_VERSION, RegPM _ _ cv => cv < m "min_madhava_version_"
  | ERR_MADHAVA_VERSION, RegMS mv _ _ => m "madhava_version_" < mv
  | ERR_MADHAVA_VERSION, RegMM _ mv cv => m "local_version_" < mv \/ cv < m "min_remote_version_"
  | ERR_NODE_VERSION, (RegNS mv _ | RegNM mv _) => m "node_version_" < mv
  | ERR_INVALID_MACHINE_ID, (RegPS _ _ | RegPM _ _ _) => m "machine_id_hi_" = 0 /\ m "machine_id_lo_" = 0
  | ERR_INVALID_ID, RegMM _ _ _ => m "local_madhava_id_" = 0
  | ERR_MISMATCH_ID, RegMM id _ _ => m "remote_madhava_id_" <> id
  | ERR_MISMATCH_ID, RegPM id _ _ => m "madhava_id_" <> id
  | ERR_INVALID_SECRET, RegMS _ _ s => ~ sec s
  | ERR_INVALID_REQUEST, RegMS _ _ _ => m "madhava_port_" = 0 \/ CLI_TYPE_MAX <= m "cli_type_" \/
      m "max_partha_nodes_" = 0 \/ MAX_PARTHA_PER_MADHAVA < m "max_partha_nodes_"
  | ERR_INVALID_REQUEST, (RegNS _ _ | RegNM _ _) => m "node_port_" = 0 \/ CLI_TYPE_MAX <= m "cli_type_"
  | _, _ => False
  end.

(** ** Lemmas *)
Lemma swrap64_range z : - 2 ^ 63 <= swrap 64 z < 2 ^ 63.
Proof.
  unfold swrap. pose proof (wrap_range 64 z ltac:(lia)) as H. unfold in_width in H.
  change (64 - 1) with 63. case_if; breflect; lia.
Qed.

Lemma swrap64_cases z : - 2 ^ 64 <= z < 2 ^ 64 ->
  swrap 64 z = z /\ - 2 ^ 63 <= z < 2 ^ 63 \/
  swrap 64 z = z - 2 ^ 64 /\ 2 ^ 63 <= z \/ swrap 64 z = z + 2 ^ 64 /\ z < - 2 ^ 63.
Proof.
  intros Hz. unfold swrap, wrap. change (64 - 1) with 63.
  case_if; breflect; zdiv.
Qed.

(** The clock test of the code is the one of the specification. *)
Lemma clock_test now c : 0 <= now < 2 ^ 62 ->
  (labs (swrap 64 (now - swrap 64 c)) >=? 60) = false <-> clock_ok now (swrap 64 c).
Proof.
  intros Hn. pose proof (swrap64_range c) as Hc. generalize dependent (swrap 64 c). intros d Hd.
  unfold clock_ok, labs. rewrite Z.geb_leb, Z.leb_gt.
  destruct (swrap64_cases (now - d)) as [[-> H]|[[-> H]|[-> H]]]; [lia| | |].
  - case_if; breflect; [|lia]. destruct (swrap64_cases (- (now - d))) as [[-> ?]|[[-> ?]|[-> ?]]]; lia.
  - case_if; breflect; [|lia].
    destruct (swrap64_cases (- (now - d - 2 ^ 64))) as [[-> ?]|[[-> ?]|[-> ?]]]; lia.
  - lia.
Qed.

Lemma rd_le_nonneg n buf : bytes_wf buf -> forall off v, rd_le n buf off = Acc v -> 0 <= v.
Proof.
  intros Hwf. induction n as [|n IH]; intros off v Hv; cbn [rd_le] in Hv; [by simplify_eq|].
  apply acc_bind_Acc in Hv as (b & (_ & Hb)%rd8_lookup & Hv). apply acc_bind_Acc in Hv as (r & Hr & Hv).
  apply IH in Hr. eapply Forall_lookup_1 in Hb; [|exact Hwf]. unfold in_width in Hb. simplify_eq. lia.
Qed.

Lemma mem_nonneg t buf pos f : bytes_wf buf -> 0 <= mem t buf pos f.
Proof.
  intros Hwf. unfold mem, rd_fld. destruct (field t f) as [[o ft]|]; [|done].
  destruct (rd_le _ _ _) eqn:E; [|done]. by eapply rd_le_nonneg.
Qed.

Lemma wr_le_ok n : forall buf off v, in_width (8 * Z.of_nat n) v -> 0 <= off -> off + Z.of_nat n <= blen buf ->
  exists b, wr_le n buf off v = Acc b /\ length b = length buf /\ (bytes_wf buf -> bytes_wf b) /\
    (forall o, ~ (off <= o < off + Z.of_nat n) -> rd8 b o = rd8 buf o) /\ rd_le n b off = Acc v.
Proof.
  induction n as [|n IH]; intros buf off v Hv H0 H1; cbn [wr_le rd_le].
  { unfold in_width in Hv. simpl in Hv. exists buf. split_and!; auto. f_equal. lia. }
  rewrite wr8_sat by lia. cbn [acc_bind].
  assert (in_width (8 * Z.of_nat n) (v / 256)) as Hv'.
  { unfold in_width in *. replace (8 * Z.of_nat (S n)) with (8 + 8 * Z.of_nat n) in Hv by lia.
    rewrite Z.pow_add_r in Hv by lia. change (2 ^ 8) with 256 in Hv.
    split; [apply Z.div_pos; lia|apply Z.div_lt_upper_bound; lia]. }
  destruct (IH (<[Z.to_nat off:=v mod 256]> buf) (off + 1) (v / 256) Hv') as (b & Hb & Hl & Hw & Ho & Hr);
    [lia|rewrite blen_insert; lia|].
  exists b. rewrite length_insert in Hl. split_and!; [done|done| | |].
  - intros Hwf. apply Hw, bytes_wf_insert; [done|]. apply (wrap_range 8). lia.
  - intros o Hno. rewrite Ho by lia. apply rd8_insert_ne; lia.
  - rewrite Ho, rd8_insert_eq, Hr by lia. cbn [acc_bind]. f_equal. rewrite (Z.div_mod v 256) at 3 by lia. lia.
Qed.

(** [strcmp] stays before the first 0 byte at or after its start. *)
Lemma strcmp_ok s : Forall (fun c => c <> 0) s -> forall buf off e, off <= e ->
  bytes_wf buf -> 0 <= off -> e < blen buf -> rd8 buf e = Acc 0 ->
  exists b, strcmp buf off s = Acc b /\ (b = true <-> str_at buf off s).
Proof.
  intros Hs. induction Hs as [|c s Hc Hs IH]; intros buf off e Hle Hwf H0 He Hz; cbn [strcmp];
    destruct (sat_Acc _ _ (rd8_sat buf Hwf off ltac:(lia))) as (x & Hx & _); rewrite Hx; cbn [acc_bind].
  - exists (x =? 0). split; [done|]. unfold str_at. change (blen []) with 0. rewrite Z.add_0_r, Hx, Z.eqb_eq.
    split; [intros ->; split; done|intros [_ [=]]; done].
  - destruct (Z.eqb_spec x c) as [->|Hne].
    + assert (off <> e) by (intros ->; congruence).
      destruct (IH buf (off + 1) e) as (b & Hb & Hiff); [lia|done|lia|done|done|].
      exists b. split; [done|]. rewrite Hiff. unfold str_at, blen.
      change (length (c :: s)) with (S (length s)).
      replace (off + 1 + Z.of_nat (length s)) with (off + Z.of_nat (S (length s))) by lia.
      split; intros [Hi Hend]; (split; [|done]).
      * intros [|i] d Hd; [rewrite Z.add_0_r; simpl in Hd; congruence|].
        replace (off + Z.of_nat (S i)) with (off + 1 + Z.of_nat i) by lia. by apply Hi.
      * intros i d Hd. replace (off + 1 + Z.of_nat i) with (off + Z.of_nat (S i)) by lia. by apply Hi.
    + exists false. split; [done|]. split; [done|]. intros [Hi _]. specialize (Hi 0%nat c eq_refl).
      rewrite Z.add_0_r in Hi. congruence.
Qed.

(** *** Weakest preconditions of the steps *)
Definition wp {A} (m : chk A) (buf : list Z) (Q : ERR_CODES_E + A -> list Z -> Prop) : Prop :=
  sat (fun rb => Q rb.1 rb.2) (m buf).

Lemma wp_cbind {A B} (m : chk A) (k : A -> chk B) buf Q :
  wp m buf (fun r b => match r with inl e => Q (inl e) b | inr a => wp (k a) b Q end) ->
  wp (cbind m k) buf Q.
Proof. unfold wp, cbind. destruct (m buf) as [[[e|a] b]|]; cbn; auto. Qed.

Lemma wp_fail_if c e buf (Q : ERR_CODES_E + unit -> list Z -> Prop) :
  (c = true -> Q (inl e) buf) -> (c = false -> Q (inr tt) buf) -> wp (fail_if c e) buf Q.
Proof. unfold wp, fail_if. cbn. destruct c; auto. Qed.

(** The members [f] and [g] share no byte. *)
Definition apart (t : ctype) (f g : string) : bool :=
  match field t f, field t g with
  | Some (o, ft), Some (p, gt) => (o + sizeof ft <=? p) || (p + sizeof gt <=? o)
  | _, _ => false
  end.

Definition reg_spec (t : ctype) (names nums : list string) : elem_spec :=
  ElemSpec t [] None false (NonZero <$> "comm_version_" :: nums) names [].

Definition reg_ok (t : ctype) (names nums : list string) : bool :=
  spec_ok (reg_spec t names nums) && forallb (apart t "comm_version_") nums &&
  forallb (apart t "comm_version_") names &&
  match field t "comm_version_" with Some (_, ft) => sizeof ft =? 4 | None => false end.

Section Steps.
Context (t : ctype) (names nums : list string) (Hok : reg_ok t names nums = true).
Context (buf : list Z) (pos : Z) (Hwf : bytes_wf buf) (Hpos : 0 <= pos) (Hin : pos + sizeof t <= blen buf).

(** The message [b] is [buf] with its strings terminated and possibly another
    protocol version. *)
Definition reg_inv (b : list Z) : Prop :=
  length b = length buf /\ bytes_wf b /\
  (forall f, f ∈ nums -> rd_fld t f b pos = rd_fld t f buf pos) /\
  (forall n o ft, n ∈ names -> field t n = Some (o, ft) -> rd8 b (pos + o + sizeof ft - 1) = Acc 0) /\
  (forall o, ~ (pos <= o < pos + sizeof t) -> rd8 b o = rd8 buf o).

(** The version has been left alone so far. *)
Definition version_kept (b : list Z) : Prop :=
  rd_fld t "comm_version_" b pos = rd_fld t "comm_version_" buf pos.

Lemma reg_ok_spec : spec_ok (reg_spec t names nums) = true.
Proof. unfold reg_ok in Hok. breflect. done. Qed.

Lemma reg_fields f : f ∈ es_fields (reg_spec t names nums) <-> f = "comm_version_" \/ f ∈ nums.
Proof.
  unfold es_fields. cbn [reg_spec es_parts es_pad es_checks es_terms]. rewrite !elem_of_app.
  rewrite fmap_nil, !elem_of_nil, <- elem_of_cons, list_elem_of_join. split.
  - intros [[]|[[]|[(l & Hf & Hl)|[]]]].
    apply list_elem_of_fmap in Hl as (c & -> & (g & -> & Hg)%list_elem_of_fmap). by apply list_elem_of_singleton in Hf as ->.
  - intros Hf. right. right. left. exists [f]. split; [by apply list_elem_of_singleton|].
    change [f] with (check_fields (NonZero f)). by do 2 apply list_elem_of_fmap_2.
Qed.

Lemma reg_version : exists o ft, field t "comm_version_" = Some (o, ft) /\ sizeof ft = 4 /\ 0 <= o /\
  o + 4 <= sizeof t /\
  forall f p gt, f ∈ nums \/ f ∈ names -> field t f = Some (p, gt) -> o + 4 <= p \/ p + sizeof gt <= o.
Proof.
  pose proof (spec_ok_field _ reg_ok_spec "comm_version_" (proj2 (reg_fields _) (or_introl eq_refl))) as Hf.
  cbn [reg_spec es_struct] in Hf. unfold field_ok in Hf. unfold reg_ok in Hok. breflect.
  destruct (field t "comm_version_") as [[o ft]|] eqn:E; [|done]. breflect.
  exists o, ft. split_and!; auto; try lia. intros f p gt Hfn Ef.
  assert (apart t "comm_version_" f = true) as Ha.
  { destruct Hfn as [Hfn|Hfn]; apply list_elem_of_In in Hfn;
      match goal with H : forallb _ ?l = true, _ : In f ?l |- _ => rewrite forallb_forall in H; by apply H end. }
  unfold apart in Ha. rewrite E, Ef in Ha. apply orb_true_iff in Ha as [Ha|Ha]; breflect; lia.
Qed.

Lemma wp_terms (Q : ERR_CODES_E + unit -> list Z -> Prop) :
  (forall b, reg_inv b -> version_kept b -> Q (inr tt) b) -> wp (terms t names pos) buf Q.
Proof.
  intros HQ. unfold wp, terms.
  destruct (term_names_ok (reg_spec t names nums) reg_ok_spec pos 0 Hpos names buf) as (b & Hb & Hz & Ht);
    [done|done|].
  cbn [reg_spec es_struct] in *. rewrite Hb. cbn [acc_bind sat fst snd].
  pose proof (zeroed_same_fields _ reg_ok_spec pos 0 _ _ Hz) as Hs. unfold same_fields in Hs.
  cbn [reg_spec es_struct] in Hs.
  apply HQ; [|symmetry; apply Hs, reg_fields; by left]. split_and!; [apply Hz|by eapply zeroed_wf| |done|].
  - intros f Hf. symmetry. apply Hs, reg_fields. by right.
  - intros o Ho. destruct (proj2 Hz o) as [|[[(n & p & ft & Hn & Ef & ->)|Hw] _]]; [done| |].
    + destruct (spec_ok_name _ reg_ok_spec n Hn) as (Hfo & (o' & ft' & Ef' & ?) & _).
      cbn [reg_spec es_struct] in *. unfold field_ok in Hfo. rewrite Ef in Ef', Hfo. simplify_eq. breflect. lia.
    + pose proof (spec_ok_sizeof _ reg_ok_spec) as H1. cbn [reg_spec es_struct] in *. lia.
Qed.

Lemma rd_mem f : f = "comm_version_" \/ f ∈ nums -> rd_fld t f buf pos = Acc (mem t buf pos f).
Proof.
  intros Hf. unfold mem.
  pose proof (rd_fld_sat (reg_spec t names nums) buf pos Hwf Hpos Hin f
    (spec_ok_field _ reg_ok_spec f (proj2 (reg_fields f) Hf))) as Hs.
  cbn [reg_spec es_struct] in Hs. by destruct (rd_fld t f buf pos).
Qed.

Lemma wp_get f b (Q : ERR_CODES_E + Z -> list Z -> Prop) :
  reg_inv b -> f ∈ nums -> Q (inr (mem t buf pos f)) b -> wp (get t f pos) b Q.
Proof.
  intros (_ & _ & Hb & _) Hf HQ. unfold wp, get. rewrite Hb, rd_mem by auto. done.
Qed.

Lemma wp_check_version b (Q : ERR_CODES_E + unit -> list Z -> Prop) : reg_inv b -> version_kept b ->
  (mem t buf pos "comm_version_" < MIN_COMM_VERSION_NUM -> Q (inl ERR_PROTOCOL_VERSION) b) ->
  (forall b', reg_inv b' -> mem t b' pos "comm_version_" = COMM_VERSION_NUM ->
     MIN_COMM_VERSION_NUM <= mem t buf pos "comm_version_" -> Q (inr tt) b') ->
  wp (check_version t pos) b Q.
Proof.
  intros Hb Hv Hno Hyes. apply wp_cbind. unfold wp at 1, get. rewrite Hv, rd_mem by auto. cbn [acc_bind sat fst snd].
  case_if; breflect.
  - unfold wp, put. destruct reg_version as (o & ft & Ef & Hs4 & Ho & Hot & Hap). rewrite Ef, Hs4.
    destruct Hb as (Hl & Hbwf & Hf & Ht & Hout).
    change (Z.to_nat 4) with 4%nat.
    destruct (wr_le_ok 4 b (pos + o) COMM_VERSION_NUM) as (b' & -> & Hl' & Hw' & Ho' & Hr'); [by vm_compute|lia|unfold blen in *; lia|].
    change (Z.of_nat 4) with 4 in Ho'. cbn [acc_bind sat fst snd]. apply Hyes.
    + split_and!; [congruence| | | |].
      * auto.
      * intros f Hfn. rewrite <- (Hf f Hfn). pose proof (spec_ok_field _ reg_ok_spec f (proj2 (reg_fields f) (or_intror Hfn))) as Hfo.
        cbn [reg_spec es_struct] in Hfo. unfold field_ok, rd_fld in *.
        destruct (field t f) as [[p gt]|] eqn:Ep; [|done]. breflect.
        apply rd_le_agree. intros x Hx. apply Ho'. destruct (Hap f p gt (or_introl Hfn) Ep); lia.
      * intros n p gt Hn Ep. destruct (spec_ok_name _ reg_ok_spec n Hn) as (_ & (p' & gt' & Ep' & ?) & _).
        cbn [reg_spec es_struct] in Ep'. rewrite Ep in Ep'. simplify_eq.
        rewrite Ho'; [by apply (Ht n)|]. destruct (Hap n p' gt' (or_intror Hn) Ep); lia.
      * intros x Hx. rewrite Ho' by lia. by apply Hout.
    + unfold mem, rd_fld. rewrite Ef, Hs4. change (Z.to_nat 4) with 4%nat. by rewrite Hr'.
    + unfold COMM_VERSION_NUM, MIN_COMM_VERSION_NUM in *. lia.
  - apply wp_fail_if; intros; breflect; [by apply Hno|]. apply Hyes; [done| |done].
    unfold mem at 1. rewrite Hv, rd_mem by auto. unfold COMM_VERSION_NUM, MIN_COMM_VERSION_NUM in *. lia.
Qed.

Lemma wp_check_clock now b (Q : ERR_CODES_E + unit -> list Z -> Prop) :
  0 <= now < 2 ^ 62 -> reg_inv b -> "curr_sec_" ∈ nums ->
  (~ clock_ok now (swrap 64 (mem t buf pos "curr_sec_")) -> Q (inl ERR_SYSTEM_TIME_MISMATCH) b) ->
  (clock_ok now (swrap 64 (mem t buf pos "curr_sec_")) -> Q (inr tt) b) ->
  wp (check_clock t now pos) b Q.
Proof.
  intros Hnow Hb Hc Hno Hyes. apply wp_cbind, wp_get; [done..|].
  apply wp_fail_if; intros Ht; [apply Hno|apply Hyes; by apply clock_test].
  intros Hck. apply (clock_test _ _ Hnow) in Hck. congruence.
Qed.

Lemma wp_strcmp f o ft s b (Q : ERR_CODES_E + bool -> list Z -> Prop) :
  reg_inv b -> f ∈ names -> field t f = Some (o, ft) -> Forall (fun c => c <> 0) s ->
  (forall r, (r = true <-> str_at b (pos + o) s) -> Q (inr r) b) ->
  wp (get_strcmp t f s pos) b Q.
Proof.
  intros (Hl & Hb & _ & Ht & _) Hf Ef Hs HQ. unfold wp, get_strcmp. rewrite Ef.
  destruct (spec_ok_name _ reg_ok_spec f Hf) as (Hfo & (o' & ft' & Ef' & ?) & _).
  cbn [reg_spec es_struct] in *. unfold field_ok in Hfo. rewrite Ef in Ef', Hfo. simplify_eq. breflect.
  unfold blen in Hin.
  destruct (strcmp_ok s Hs b (pos + o') (pos + o' + sizeof ft' - 1)) as (r & -> & Hr);
    [lia|done|lia|unfold blen; lia|by apply (Ht f)|]. by apply HQ.
Qed.
End Steps.

(** ** Theorems *)

(** A condition an error code names is one of those for admission. *)
Lemma reason_not_admissible e r now m sec : reason e r now m sec -> ~ admissible r now m sec.
Proof.
  intros Hr (Hv & Hc & Ha). destruct e, r; cbn [reason] in Hr; try done; try lia; try tauto.
Qed.

(** The secret given to the test is a C string: no byte of it is 0. *)
Definition secret_wf (r : reg_req) : Prop :=
  match r with RegMS _ _ s => Forall (fun c => c <> 0) s | _ => True end.

(** [s] is the secret in the request [b], if the request has one. *)
Definition sent_secret (r : reg_req) (b : list Z) (pos : Z) (s : list Z) : Prop :=
  match field (req_struct r) "shyama_secret_" with
  | Some (o, _) => str_at b (pos + o) s
  | None => False
  end.

Lemma reqs_ok r : reg_ok (req_struct r) (req_names r) (req_nums r) = true.
Proof. destruct r; by vm_compute. Qed.

(** The postcondition of [validate_fields]. *)
Definition reg_post (r : reg_req) (now pos : Z) (buf : list Z) (res : ERR_CODES_E + unit) (b : list Z) : Prop :=
  let m := mem (req_struct r) buf pos in
  reg_inv (req_struct r) (req_names r) (req_nums r) buf pos b /\
  match res with
  | inr _ => mem (req_struct r) b pos "comm_version_" = COMM_VERSION_NUM /\
      admissible r now m (sent_secret r b pos)
  | inl e => reason e r now m (sent_secret r b pos)
  end.

(** Goes through the steps of the method of the request [r]; the arithmetic of
    the tests is left. *)
Ltac in_list := solve [repeat first [apply list_elem_of_here | apply list_elem_of_further]].
Ltac reg_step r Hwf Hpos Hin Hnow :=
  lazymatch goal with
  | |- wp (terms _ _ _) _ _ =>
      apply (wp_terms (req_struct r) (req_names r) (req_nums r) (reqs_ok r) _ _ Hwf Hpos Hin); intros ? ? ?
  | |- wp (check_version _ _) _ _ =>
      apply (wp_check_version (req_struct r) (req_names r) (req_nums r) (reqs_ok r) _ _ Hwf Hpos Hin);
      [assumption|assumption|intros ?|intros ? ? ? ?]
  | |- wp (check_clock _ _ _) _ _ =>
      apply (wp_check_clock (req_struct r) (req_names r) (req_nums r) (reqs_ok r) _ _ Hwf Hpos Hin _ _ _ Hnow);
      [assumption|in_list|intros ?|intros ?]
  | |- wp (get _ _ _) _ _ =>
      apply (wp_get (req_struct r) (req_names r) (req_nums r) (reqs_ok r) _ _ Hwf Hpos Hin);
      [assumption|in_list|]
  | |- wp (get_strcmp _ _ _ _) _ _ =>
      eapply (wp_strcmp (req_struct r) (req_names r) (req_nums r) (reqs_ok r) _ _ Hpos Hin);
      [assumption|in_list|reflexivity|assumption|intros ? ?]
  | |- wp (fail_if _ _) _ _ => apply wp_fail_if; intros ?
  | |- wp (cbind _ _) _ _ => apply wp_cbind
  end; cbv beta iota.

(** Closes a leaf of the run: the test that was made is the one that is claimed. *)
Ltac reg_close :=
  split; [assumption|]; unfold reason, admissible; cbv beta iota;
  repeat match goal with
  | H : (_ && _) = false |- _ => apply andb_false_iff in H
  | H : (_ || _) = true |- _ => apply orb_true_iff in H
  | H : _ \/ _ |- _ => destruct H
  end; breflect;
  repeat match goal with |- _ /\ _ => split end; try assumption; try lia.

Lemma validate_fields_post r now pos buf : secret_wf r -> bytes_wf buf -> 0 <= pos ->
  0 <= now < 2 ^ 62 -> pos + sizeof (req_struct r) <= blen buf ->
  wp (validate_fields r now pos) buf (reg_post r now pos buf).
Proof.
  intros Hsec Hwf Hpos Hnow Hin. destruct r; cbn [validate_fields secret_wf] in *;
    match goal with |- wp (?f _ _ _ _) _ _ => unfold f | |- wp (?f _ _ _ _ _) _ _ => unfold f end;
    match goal with |- context [reg_post ?r] => repeat reg_step r Hwf Hpos Hin Hnow end.
  all: reg_close.
  - (* the secret was not the one *)
    match goal with H : _ <-> _ |- _ => intros Hs; apply H in Hs end. congruence.
  - match goal with H : _ <-> _ |- _ => by apply H end.
  - match goal with |- 0 < mem ?t ?b ?p ?f => pose proof (mem_nonneg t b p f Hwf) end. lia.
Qed.

(** C24 : the fields of a registration request are tested inside the request.
    Afterwards its strings are terminated and nothing else has changed but the
    protocol version.  The peer is admitted exactly when all the conditions hold:
    versions that each side supports, an identity, the secret where there is one,
    and clocks less than a minute apart (or, by the overflow of [labs], exactly 2^63
    seconds apart); the protocol version is then the one spoken here.  A peer that
    is not admitted gets a code that names a condition that does not hold. *)
Theorem validate_fields_admission r now pos buf :
  secret_wf r -> bytes_wf buf -> 0 <= pos -> 0 <= now < 2 ^ 62 ->
  pos + sizeof (req_struct r) <= blen buf ->
  exists res buf', validate_fields r now pos buf = Acc (res, buf') /\
    length buf' = length buf /\
    (forall o, ~ (pos <= o < pos + sizeof (req_struct r)) -> rd8 buf' o = rd8 buf o) /\
    (forall n o ft, n ∈ req_names r -> field (req_struct r) n = Some (o, ft) ->
       rd8 buf' (pos + o + sizeof ft - 1) = Acc 0) /\
    (forall f, f ∈ req_nums r -> rd_fld (req_struct r) f buf' pos = rd_fld (req_struct r) f buf pos) /\
    let m := mem (req_struct r) buf pos in
    let sec := sent_secret r buf' pos in
    (res = inr tt <-> admissible r now m sec) /\
    (res = inr tt -> mem (req_struct r) buf' pos "comm_version_" = COMM_VERSION_NUM) /\
    (forall e, res = inl e -> reason e r now m sec).
Proof.
  intros Hsec Hwf Hpos Hnow Hin.
  pose proof (validate_fields_post r now pos buf Hsec Hwf Hpos Hnow Hin) as Hw. unfold wp in Hw.
  apply sat_Acc in Hw as ([res b] & -> & (Hl & _ & Hf & Ht & Ho) & Hres). cbn [fst snd] in *.
  exists res, b. split_and!; auto; destruct res as [e|[]]; try done.
  - split; [done|]. intros Ha. destruct (reason_not_admissible _ _ _ _ _ Hres Ha).
  - split; [intros _; apply Hres|done].
  - intros _. apply Hres.
  - by intros e' [= <-].
Qed.

(** ** Concrete requests *)
Module RegExamples.

(** A structure of type [t] with the given members, the rest 0. *)
Definition fill (t : ctype) (vs : list (string * Z)) : list Z :=
  match fold_left (fun m p => m ;* put t p.1 0 p.2) vs (cret tt) (replicate (Z.to_nat (sizeof t)) 0) with
  | Acc (_, b) => b
  | Oob => []
  end.

Definition ex_node : list (string * Z) :=
  [("curr_sec_", 1700000030); ("comm_version_", 7); ("node_version_", 3); ("cli_type_", 0); ("node_port_", 10038)].
Definition ex_ns : list Z := fill NS_REGISTER_REQ_S (("min_shyama_version_", 2) :: ex_node).

Lemma validate_fields_admission_witness :
  exists buf', validate_fields (RegNS 1 2) 1700000000 0 ex_ns = Acc (inr tt, buf') /\
    mem NS_REGISTER_REQ_S buf' 0 "comm_version_" = COMM_VERSION_NUM.
Proof.
  destruct (validate_fields_admission (RegNS 1 2) 1700000000 0 ex_ns) as (res & b & H & _ & _ & _ & _ & Hiff & Hv & _).
  - exact I.
  - apply bytes_wf_dec. by vm_compute.
  - done.
  - by vm_compute.
  - by vm_compute.
  - assert (res = inr tt) as ->.
    { apply Hiff. split; [by vm_compute|]. split; [left; by vm_compute|].
      split; [by vm_compute|]. split; [by vm_compute|]. split; [vm_compute; discriminate|by vm_compute]. }
    exists b. split; [exact H|]. by apply Hv.
Defined.

(** The web server asks for a later madhava and is told about shyama's version. *)
Lemma node_told_shyama_version : exists buf',
  validate_fields (RegNM 1 2) 1700000000 0 (fill NM_CONNECT_CMD_S (("min_madhava_version_", 3) :: ex_node)) =
    Acc (inl ERR_SHYAMA_VERSION, buf').
Proof. eexists. by vm_compute. Qed.

(** A clock 2^63 seconds behind passes. *)
Lemma clock_overflow_accepted : exists buf',
  validate_fields (RegNS 1 2) 1700000000 0
    (fill NS_REGISTER_REQ_S ([("min_shyama_version_", 2)] ++ ex_node ++ [("curr_sec_", u64 (1700000000 - 2 ^ 63))])) =
    Acc (inr tt, buf').
Proof. eexists. by vm_compute. Qed.
End RegExamples.
