(* ===== verification/Histogram.v ===== *)
(** * Histogram : bucket functions and histograms, [common/gy_statistics.h].

    A histogram counts and sums the recorded values per bucket.  The classes that
    map a value to its bucket ([RESP_TIME_HASH], [SEMI_LOG_HASH], ...) are values of
    the record [HashClass]; [HashLaws] is what a histogram needs of them, proved once
    for the classes with a table of thresholds and once for the equidistant ones.  The
    histogram is shown to represent the list of the values recorded since it was
    cleared, through insertions and merges, and its percentiles to be right about that
    list.  Bucket numbers and array indices are [nat]; counters and sums have the width
    of the code. *)

From S2P Require Import Prelude.
From stdpp Require Import sorting.

#[local] Open Scope Z_scope.

Section Counting.
Context {A : Type}.

Fixpoint cnt (p : A -> bool) (xs : list A) : nat :=
  match xs with [] => 0 | x :: xs' => (if p x then 1 else 0) + cnt p xs' end%nat.
End Counting.

(** ** Bucket functions *)
Record HashClass := MkHash {
  nthresholds : list Z;
  min_value : Z;
  max_value : Z;
  hash : Z -> nat }.                      (* [operator()] *)

Definition max_buckets (H : HashClass) : nat := length (nthresholds H) + 2.

(** The loop over the thresholds, from slot [nb] on. *)
Fixpoint find_slot (ths : list Z) (data : Z) (nb : nat) : nat :=
  match ths with
  | [] => (nb + 1)%nat
  | t :: ths' => if data <=? t then (nb + 1)%nat else find_slot ths' data (nb + 1)
  end.

Section Thresholds.
Context (ths : list Z).

Definition mid_slot_num : nat := length ths / 2.
Definition mid_slot_value : Z := nth mid_slot_num ths 0.
Definition table_max : Z := nth (length ths - 1) ths 0 + 1.

(** The search starts in the middle for the larger values. *)
Definition slot_from_mid (data : Z) : nat :=
  let nb := if data >=? mid_slot_value then mid_slot_num else 0%nat in
  find_slot (drop nb ths) data nb.

Definition get_bucket_from_data (data : Z) : nat :=
  if data <? 0 then 0%nat
  else if data >=? table_max then (length ths + 2 - 1)%nat
  else slot_from_mid data.

(** The variant of [RESP_TIME_HASH] makes one unsigned test first. *)
Definition resp_bucket_from_data (data : Z) : nat :=
  if u64 data >=? table_max then
    if data <? 0 then 0%nat
    else if data >=? table_max then (length ths + 2 - 1)%nat
    else slot_from_mid data
  else slot_from_mid data.

(** The argument of [operator()] is an [int]. *)
Definition table_hash : HashClass :=
  MkHash ths 0 table_max (fun data => get_bucket_from_data (swrap 32 data)).
End Thresholds.

Definition RESP_TIME_thresholds : list Z := [1; 10; 30; 60; 100; 150; 200; 300; 450; 700; 1000; 3000; 15000].
Definition RESP_TIME_HASH : HashClass :=
  MkHash RESP_TIME_thresholds 0 (table_max RESP_TIME_thresholds)
    (fun data => resp_bucket_from_data RESP_TIME_thresholds (swrap 64 data)).
Definition SEMI_LOG_HASH : HashClass :=
  table_hash [1; 10; 100; 500; 1000; 5000; 25000; 50000; 100000; 300000; 1000000; 5000000].
Definition SEMI_LOG_HASH_LO : HashClass :=
  table_hash [1; 10; 50; 200; 500; 1000; 3000; 6000; 10000; 15000; 25000; 60000; 150000].
Definition DURATION_HASH : HashClass :=
  table_hash [1; 10; 25; 50; 125; 400; 1000; 3000; 6000; 10000; 25000; 40000; 65000].
Definition HASH_10_5000 : HashClass := table_hash [10; 25; 50; 75; 100; 150; 300; 500; 800; 1000; 2000; 5000].
Definition HASH_5_250 : HashClass := table_hash [5; 10; 20; 40; 60; 80; 100; 140; 200; 250].
Definition HASH_1_3000 : HashClass := table_hash [1; 5; 10; 25; 50; 75; 100; 150; 300; 500; 1000; 3000].

Definition gy_div_round_up (val div : Z) : Z := val / div + (if val mod div =? 0 then 0 else 1).

Definition gy_create_threshold_array (nbuckets : nat) (tmin tmax tdiff : Z) : list Z :=
  ((fun i : nat => tmin + (Z.of_nat i + 1) * tdiff - 1) <$> seq 0 (nbuckets - 1)) ++ [tmax].

(** [FIXED_DIFF_HASH<int64_t, ...>] *)
Section FixedDiff.
Context (tmin tmax diff : Z).

Definition fixed_nbuckets : nat := Z.to_nat (gy_div_round_up (tmax - tmin + 1) diff).

Definition fixed_bucket_from_data (data : Z) : nat :=
  if data <? tmin then 0%nat
  else if data >=? tmax + 1 then (fixed_nbuckets + 2 - 1)%nat
  else Z.to_nat (1 + (data - tmin) / diff).

Definition FIXED_DIFF_HASH : HashClass :=
  MkHash (gy_create_threshold_array fixed_nbuckets tmin tmax diff) tmin (tmax + 1)
    (fun data => fixed_bucket_from_data (swrap 64 data)).
End FixedDiff.

Definition PERCENT_HASH : HashClass := FIXED_DIFF_HASH 0 100 10.

Definition SHRT_MAX : Z := 2 ^ 15 - 1.
Definition INT_MAX : Z := 2 ^ 31 - 1.
Definition LONG_MAX : Z := 2 ^ 63 - 1.

(** [T] is a signed type of [w] bits. *)
Definition T_max (w : Z) : Z := 2 ^ (w - 1) - 1.
Definition T_min (w : Z) : Z := - 2 ^ (w - 1).

Definition get_bucket_max_threshold (H : HashClass) (w : Z) (id : nat) : Z :=
  if (id =? 0)%nat then min_value H - 1
  else if (max_buckets H - 1 <=? id)%nat then
    let lesst := if max_value H >=? INT_MAX then LONG_MAX
                 else if max_value H >? Z.shiftr SHRT_MAX 1 then INT_MAX else SHRT_MAX in
    if lesst <? T_max w then lesst else T_max w
  else nth (id - 1) (nthresholds H) 0.

Fixpoint threshold_index (ths : list Z) (threshold : Z) (i : nat) : option nat :=
  match ths with
  | [] => None
  | t :: ths' => if threshold =? t then Some (i + 1)%nat else threshold_index ths' threshold (i + 1)
  end.

Definition get_bucketid_from_threshold (H : HashClass) (threshold : Z) : nat :=
  match threshold_index (nthresholds H) threshold 0 with
  | Some id => id
  | None => if threshold <? min_value H then 0%nat else (max_buckets H - 1)%nat
  end.

(** ** What a histogram needs of a bucket function *)

(** The bucket of a value: 0 below the minimum, otherwise one more than the number
    of thresholds below the value. *)
Definition bucket_ref (H : HashClass) (data : Z) : nat :=
  if data <? min_value H then 0 else S (cnt (fun t => t <? data) (nthresholds H)).

Class HashLaws (H : HashClass) (w : Z) : Prop := {
  law_sorted : StronglySorted Z.lt (nthresholds H);
  law_min : Forall (fun t => min_value H <= t < max_value H) (nthresholds H);
  law_last : last (nthresholds H) = Some (max_value H - 1);
  law_width : T_min w < min_value H /\ max_value H <= T_max w < 2 ^ 63;
  law_hash : forall data, T_min w <= data <= T_max w -> hash H data = bucket_ref H data }.

(** ** Counting *)
Lemma cnt_app {A} (p : A -> bool) xs ys : cnt p (xs ++ ys) = (cnt p xs + cnt p ys)%nat.
Proof. induction xs as [|x xs IH]; cbn [cnt app]; [done|]. rewrite IH. lia. Qed.

Lemma cnt_le {A} (p : A -> bool) xs : (cnt p xs <= length xs)%nat.
Proof. induction xs as [|x xs IH]; cbn [cnt length]; [done|]. destruct (p x); lia. Qed.

Lemma cnt_all {A} (p : A -> bool) xs : Forall (fun x => p x = true) xs -> cnt p xs = length xs.
Proof. induction 1 as [|x xs Hx _ IH]; cbn [cnt length]; [done|]. rewrite Hx, IH. done. Qed.

Lemma cnt_none {A} (p : A -> bool) xs : Forall (fun x => p x = false) xs -> cnt p xs = 0%nat.
Proof. induction 1 as [|x xs Hx _ IH]; cbn [cnt]; [done|]. by rewrite Hx, IH. Qed.

Lemma cnt_ext {A} (p q : A -> bool) xs : Forall (fun x => p x = q x) xs -> cnt p xs = cnt q xs.
Proof. induction 1 as [|x xs Hx _ IH]; cbn [cnt]; [done|]. by rewrite Hx, IH. Qed.

Lemma cnt_split {A} (p q : A -> bool) xs :
  cnt p xs = (cnt (fun x => p x && q x) xs + cnt (fun x => p x && negb (q x)) xs)%nat.
Proof.
  induction xs as [|x xs IH]; cbn [cnt]; [done|]. rewrite IH. destruct (p x), (q x); cbn [andb negb]; lia.
Qed.

(** ** The bucket functions are the reference *)
Lemma find_slot_cnt ths data : StronglySorted Z.lt ths -> forall nb,
  find_slot ths data nb = (nb + S (cnt (fun t => (t <? data)%Z) ths))%nat.
Proof.
  induction 1 as [|t ths Hs IH Hall]; intros nb; cbn [find_slot cnt]; [lia|].
  destruct (Z.leb_spec data t) as [Hle|Hlt].
  - rewrite (proj2 (Z.ltb_ge t data)) by lia. rewrite cnt_none; [lia|].
    eapply Forall_impl; [exact Hall|]. cbn. intros x Hx. apply Z.ltb_ge. lia.
  - rewrite (proj2 (Z.ltb_lt t data)), IH by lia. lia.
Qed.

Lemma StronglySorted_drop (l : list Z) n : StronglySorted Z.lt l -> StronglySorted Z.lt (drop n l).
Proof.
  intros Hs. revert n. induction Hs; intros [|n]; cbn [drop]; auto using StronglySorted.
Qed.

Lemma sorted_take_lt (l : list Z) n t : StronglySorted Z.lt l -> l !! n = Some t ->
  Forall (fun x => x < t) (take n l).
Proof.
  intros Hs. revert n. induction Hs as [|x l Hs IH Hall]; intros [|n] Hn; cbn in *; try done.
  constructor; [|by apply IH]. eapply Forall_lookup_1 in Hall; [|exact Hn]. done.
Qed.

Section TableLaws.
Context (ths : list Z) (Hs : StronglySorted Z.lt ths) (Hne : ths <> []) (H0 : Forall (fun t => 0 <= t) ths).

Lemma slot_from_mid_cnt data : slot_from_mid ths data = S (cnt (fun t => t <? data) ths).
Proof.
  unfold slot_from_mid. rewrite find_slot_cnt by by apply StronglySorted_drop.
  destruct (Z.geb_spec data (mid_slot_value ths)) as [Hge|Hlt]; [|done].
  assert (mid_slot_num ths < length ths)%nat as Hmid.
  { unfold mid_slot_num. destruct ths; [done|]. apply Nat.div_lt; simpl; lia. }
  destruct (lookup_lt_is_Some_2 ths _ Hmid) as [t Ht].
  assert (mid_slot_value ths = t) as Hv by (unfold mid_slot_value; by apply nth_lookup_Some).
  rewrite <- (take_drop (mid_slot_num ths) ths) at 4. rewrite cnt_app.
  rewrite (cnt_all _ (take _ _)); [rewrite length_take_le by lia; lia|].
  eapply Forall_impl; [by eapply sorted_take_lt|]. cbn. intros x Hx. apply Z.ltb_lt. lia.
Qed.

Lemma table_lt_max : Forall (fun t => 0 <= t < table_max ths) ths.
Proof.
  apply Forall_lookup. intros i t Ht. pose proof (Forall_lookup_1 _ _ _ _ H0 Ht). split; [done|].
  unfold table_max. pose proof (lookup_lt_Some _ _ _ Ht) as Hlt.
  destruct (lookup_lt_is_Some_2 ths (length ths - 1)%nat ltac:(lia)) as [m Hm].
  rewrite (nth_lookup_Some _ _ _ _ Hm).
  destruct (decide (i = length ths - 1)%nat) as [->|Hi]; [rewrite Ht in Hm; simplify_eq; lia|].
  pose proof (sorted_take_lt ths _ m Hs Hm) as Hall.
  assert (take (length ths - 1) ths !! i = Some t) as Hi' by (by rewrite lookup_take_lt by lia).
  pose proof (Forall_lookup_1 _ _ _ _ Hall Hi') as Hlt'. cbn in Hlt'. lia.
Qed.

Lemma table_full data : table_max ths <= data -> cnt (fun t => t <? data) ths = length ths.
Proof.
  intros Hd. apply cnt_all. eapply Forall_impl; [exact table_lt_max|]. cbn. intros x Hx. apply Z.ltb_lt. lia.
Qed.

Lemma table_bucket data : get_bucket_from_data ths data = bucket_ref (table_hash ths) data.
Proof.
  unfold get_bucket_from_data, bucket_ref. cbn [table_hash min_value nthresholds].
  destruct (data <? 0); [done|]. destruct (Z.geb_spec data (table_max ths)) as [Hge|Hlt].
  - rewrite table_full by done. lia.
  - apply slot_from_mid_cnt.
Qed.

Lemma resp_bucket data : table_max ths <= 2 ^ 63 -> - 2 ^ 63 <= data < 2 ^ 63 ->
  resp_bucket_from_data ths data = bucket_ref (table_hash ths) data.
Proof.
  intros Hm Hd. rewrite <- table_bucket. unfold resp_bucket_from_data, get_bucket_from_data.
  destruct (Z.geb_spec (u64 data) (table_max ths)) as [Hge|Hlt]; [done|]. unfold wrap in Hlt.
  rewrite (proj2 (Z.ltb_ge data 0)) by zdiv.
  destruct (Z.geb_spec data (table_max ths)); [zdiv|done].
Qed.
End TableLaws.

Lemma last_table ths : ths <> [] -> last ths = Some (table_max ths - 1).
Proof.
  intros Hne. unfold table_max. destruct ths as [|t ths] using rev_ind; [done|].
  rewrite last_snoc, length_app, app_nth2 by (simpl; lia). f_equal.
  replace (length ths + length [t] - 1 - length ths)%nat with 0%nat by (simpl; lia). simpl. lia.
Qed.

Lemma table_laws ths : StronglySorted Z.lt ths -> ths <> [] -> Forall (fun t => 0 <= t) ths ->
  table_max ths <= T_max 32 -> HashLaws (table_hash ths) 32.
Proof.
  intros Hs Hne H0 Hmax. split; [done|by apply table_lt_max|by apply last_table|by split|]. intros data Hd. cbn [table_hash hash].
  rewrite swrap_id by (unfold T_min, T_max in Hd; lia). by apply table_bucket.
Qed.

(** Decides the premises for a concrete table. *)
Ltac table_tac :=
  apply table_laws; [|discriminate|repeat constructor; lia|vm_compute; discriminate];
  repeat (constructor; [|repeat constructor; lia]); constructor.

#[export] Instance SEMI_LOG_HASH_laws : HashLaws SEMI_LOG_HASH 32.
Proof. table_tac. Qed.
#[export] Instance SEMI_LOG_HASH_LO_laws : HashLaws SEMI_LOG_HASH_LO 32.
Proof. table_tac. Qed.
#[export] Instance DURATION_HASH_laws : HashLaws DURATION_HASH 32.
Proof. table_tac. Qed.
#[export] Instance HASH_10_5000_laws : HashLaws HASH_10_5000 32.
Proof. table_tac. Qed.
#[export] Instance HASH_5_250_laws : HashLaws HASH_5_250 32.
Proof. table_tac. Qed.
#[export] Instance HASH_1_3000_laws : HashLaws HASH_1_3000 32.
Proof. table_tac. Qed.

#[export] Instance RESP_TIME_HASH_laws : HashLaws RESP_TIME_HASH 64.
Proof.
  assert (HashLaws (table_hash RESP_TIME_thresholds) 32) as [Hs Hm Hl _ _] by table_tac.
  split; [done|done|done|by vm_compute|]. intros data Hd. unfold T_min, T_max in Hd. cbn [RESP_TIME_HASH hash].
  rewrite swrap_id by lia. rewrite resp_bucket; [done|done|discriminate| |by vm_compute|lia].
  eapply Forall_impl; [exact Hm|]. cbn. lia.
Qed.

(** A family of thresholds of which exactly the first [q] are below the value. *)
Lemma cnt_seq (f : nat -> Z) data q : forall k s, (q <= k)%nat ->
  (forall i, (s <= i < s + k)%nat -> (f i < data <-> (i < s + q)%nat)) ->
  cnt (fun t => t <? data) (f <$> seq s k) = q.
Proof.
  intros k. revert q. induction k as [|k IH]; intros q s Hq Hf; cbn [seq fmap list_fmap cnt]; [lia|].
  destruct q as [|q].
  - rewrite (proj2 (Z.ltb_ge _ _)), (IH 0%nat (S s)); [lia|lia| |].
    + intros i Hi. rewrite Hf by lia. lia.
    + destruct (Z.lt_ge_cases (f s) data) as [Hlt|]; [|done]. apply Hf in Hlt; lia.
  - rewrite (proj2 (Z.ltb_lt _ _)), (IH q (S s)); [lia|lia| |].
    + intros i Hi. rewrite Hf by lia. lia.
    + apply Hf; lia.
Qed.

Section FixedLaws.
Context (tmin tmax diff : Z) (Hd0 : 0 < diff) (Hdiff : tmin + diff < tmax).
Context (Hlo : T_min 64 < tmin) (Hhi : tmax < T_max 64).

Lemma fixed_nbuckets_eq : Z.of_nat (fixed_nbuckets tmin tmax diff) = (tmax - tmin) / diff + 1.
Proof.
  unfold fixed_nbuckets, gy_div_round_up. set (n := tmax - tmin).
  pose proof (Z.div_mod n diff ltac:(lia)) as Hn. pose proof (Z.mod_pos_bound n diff Hd0) as Hr.
  assert (0 <= n / diff) by (apply Z.div_pos; lia).
  destruct (Z.eq_dec (n mod diff + 1) diff) as [He|Hne].
  - rewrite <- (Z.div_unique (n + 1) diff (n / diff + 1) 0) by nia.
    rewrite <- (Z.mod_unique (n + 1) diff (n / diff + 1) 0) by nia. cbn. lia.
  - rewrite <- (Z.div_unique (n + 1) diff (n / diff) (n mod diff + 1)) by nia.
    rewrite <- (Z.mod_unique (n + 1) diff (n / diff) (n mod diff + 1)) by nia.
    rewrite (proj2 (Z.eqb_neq _ _)) by lia. lia.
Qed.

(** Below the last threshold, the number of thresholds below a value is its
    distance from the minimum in steps. *)
Lemma fixed_cnt data : tmin <= data <= tmax ->
  cnt (fun t => t <? data) (gy_create_threshold_array (fixed_nbuckets tmin tmax diff) tmin tmax diff) =
  Z.to_nat ((data - tmin) / diff).
Proof.
  intros Hd. unfold gy_create_threshold_array. rewrite cnt_app. cbn [cnt].
  rewrite (proj2 (Z.ltb_ge tmax data)) by lia.
  assert (0 <= (data - tmin) / diff <= (tmax - tmin) / diff) as Hq
    by (split; [apply Z.div_pos|apply Z.div_le_mono]; lia).
  pose proof fixed_nbuckets_eq as Hn. rewrite (cnt_seq _ _ (Z.to_nat ((data - tmin) / diff))); [lia|lia|].
  intros i Hi. pose proof (Z.div_mod (data - tmin) diff ltac:(lia)) as Hdm.
  pose proof (Z.mod_pos_bound (data - tmin) diff Hd0) as Hr. split; intros Hlt.
  - assert (Z.of_nat i < (data - tmin) / diff); [|lia]. nia.
  - assert (Z.of_nat i + 1 <= (data - tmin) / diff) by lia. nia.
Qed.

Lemma fixed_sorted : StronglySorted Z.lt (gy_create_threshold_array (fixed_nbuckets tmin tmax diff) tmin tmax diff) /\
  Forall (fun t => tmin <= t < tmax + 1) (gy_create_threshold_array (fixed_nbuckets tmin tmax diff) tmin tmax diff).
Proof.
  pose proof fixed_nbuckets_eq as Hn. pose proof (Z.mul_div_le (tmax - tmin) diff Hd0) as Hq.
  unfold gy_create_threshold_array.
  assert (forall k s, (s + k <= fixed_nbuckets tmin tmax diff - 1)%nat ->
    StronglySorted Z.lt (((fun i : nat => tmin + (Z.of_nat i + 1) * diff - 1) <$> seq s k) ++ [tmax]) /\
    Forall (fun t => tmin + (Z.of_nat s + 1) * diff - 1 <= t < tmax + 1)
      (((fun i : nat => tmin + (Z.of_nat i + 1) * diff - 1) <$> seq s k)) /\ tmin + (Z.of_nat s) * diff <= tmax) as Hk.
  { induction k as [|k IH]; intros s Hk; cbn [seq fmap list_fmap app].
    - split_and!; [repeat constructor|constructor|nia].
    - destruct (IH (S s)) as (Hs & Hf & Hb); [lia|]. split_and!; [constructor; [done|]|constructor|].
      + apply Forall_app. split; [eapply Forall_impl; [exact Hf|]; cbn; nia|constructor; [nia|constructor]].
      + nia.
      + eapply Forall_impl; [exact Hf|]. cbn. nia.
      + nia. }
  destruct (Hk (fixed_nbuckets tmin tmax diff - 1)%nat 0%nat) as (Hs & Hf & _); [lia|]. split; [done|].
  apply Forall_app. split; [eapply Forall_impl; [exact Hf|]; cbn; lia|constructor; [lia|constructor]].
Qed.

#[export] Instance FIXED_DIFF_HASH_laws : HashLaws (FIXED_DIFF_HASH tmin tmax diff) 64.
Proof.
  destruct fixed_sorted as [Hs Hf]. split; [done|done| |cbn; unfold T_min, T_max in *; lia|].
  { cbn [FIXED_DIFF_HASH nthresholds max_value]. unfold gy_create_threshold_array. rewrite last_snoc. f_equal. lia. }
  intros data Hd. unfold T_min, T_max in *.
  cbn [FIXED_DIFF_HASH hash]. rewrite swrap_id by lia. unfold fixed_bucket_from_data, bucket_ref.
  cbn [FIXED_DIFF_HASH min_value nthresholds]. destruct (Z.ltb_spec data tmin); [done|].
  destruct (Z.geb_spec data (tmax + 1)).
  - rewrite cnt_all; [|eapply Forall_impl; [exact Hf|]; cbn; intros t Ht; apply Z.ltb_lt; lia].
    unfold gy_create_threshold_array. rewrite length_app, length_fmap, length_seq. pose proof fixed_nbuckets_eq.
    assert (0 <= (tmax - tmin) / diff) by (apply Z.div_pos; lia). cbn [length]. lia.
  - rewrite fixed_cnt by lia. assert (0 <= (data - tmin) / diff) by (apply Z.div_pos; lia). lia.
Qed.
End FixedLaws.

#[export] Instance PERCENT_HASH_laws : HashLaws PERCENT_HASH 64.
Proof. apply FIXED_DIFF_HASH_laws; by vm_compute. Qed.

(** ** Values and thresholds *)
Lemma sorted_cnt_lookup (l : list Z) data i t : StronglySorted Z.lt l -> l !! i = Some t ->
  (t < data <-> (i < cnt (fun t => (t <? data)%Z) l)%nat).
Proof.
  intros Hs. revert i. induction Hs as [|x l Hs IH Hall]; intros [|i] Hi; cbn in Hi; try done; cbn [cnt].
  - simplify_eq. destruct (Z.ltb_spec t data) as [Hlt|Hge]; [lia|].
    rewrite cnt_none; [lia|]. eapply Forall_impl; [exact Hall|]. cbn. intros y Hy. apply Z.ltb_ge. lia.
  - pose proof (Forall_lookup_1 _ _ _ _ Hall Hi) as Hxt. cbn in Hxt. rewrite (IH i Hi).
    destruct (Z.ltb_spec x data); [lia|]. rewrite cnt_none; [lia|].
    eapply Forall_impl; [exact Hall|]. cbn. intros y Hy. apply Z.ltb_ge. lia.
Qed.

Lemma threshold_index_lookup (l : list Z) t : StronglySorted Z.lt l -> forall i s, l !! i = Some t ->
  threshold_index l t s = Some (s + i + 1)%nat.
Proof.
  induction 1 as [|x l Hs IH Hall]; intros i s Hi; [done|]. cbn [threshold_index].
  destruct i as [|i]; cbn in Hi; [simplify_eq; rewrite Z.eqb_refl; f_equal; lia|].
  pose proof (Forall_lookup_1 _ _ _ _ Hall Hi) as Hxt. cbn in Hxt.
  rewrite (proj2 (Z.eqb_neq _ _)), (IH i) by (done || lia). f_equal. lia.
Qed.

Lemma threshold_index_none (l : list Z) t : forall s, Forall (fun x => x <> t) l -> threshold_index l t s = None.
Proof.
  induction l as [|x l IH]; intros s Hall; [done|]. cbn [threshold_index].
  apply Forall_cons in Hall as [Hx Hall]. rewrite (proj2 (Z.eqb_neq _ _)) by done. by apply IH.
Qed.

Section Laws.
Context (H : HashClass) (w : Z) {L : HashLaws H w}.

(** The largest value of a bucket below the last, as an element of the table. *)
Lemma threshold_lookup id : (0 < id < max_buckets H - 1)%nat ->
  nthresholds H !! (id - 1)%nat = Some (get_bucket_max_threshold H w id).
Proof.
  intros Hid. unfold max_buckets in *.
  destruct (lookup_lt_is_Some_2 (nthresholds H) (id - 1)%nat) as [t Ht]; [lia|].
  unfold get_bucket_max_threshold, max_buckets.
  rewrite (proj2 (Nat.eqb_neq _ _)), (proj2 (Nat.leb_gt _ _)) by lia.
  by rewrite Ht, (nth_lookup_Some _ _ _ _ Ht).
Qed.

Lemma last_threshold id : (0 < id)%nat -> (max_buckets H - 1 <= id)%nat ->
  max_value H <= get_bucket_max_threshold H w id <= T_max w.
Proof.
  intros Hid Hge. unfold get_bucket_max_threshold.
  rewrite (proj2 (Nat.eqb_neq _ _)), (proj2 (Nat.leb_le _ _)) by lia.
  destruct (law_width) as [_ Hw]. change (Z.shiftr SHRT_MAX 1) with 16383.
  unfold LONG_MAX, INT_MAX, SHRT_MAX. cbv zeta.
  repeat case_if; breflect; lia.
Qed.

Lemma hash_ref data : T_min w <= data <= T_max w -> hash H data = bucket_ref H data.
Proof. apply law_hash. Qed.

Lemma bucket_ref_lt data : (bucket_ref H data < max_buckets H)%nat.
Proof.
  unfold bucket_ref, max_buckets. case_if; [lia|]. pose proof (cnt_le (fun t => t <? data) (nthresholds H)). lia.
Qed.

(** A value is in bucket [id] or a lower one iff it is not above the bucket's
    largest value. *)
Lemma bucket_ref_le data id : (id < max_buckets H - 1)%nat ->
  (bucket_ref H data <= id)%nat <-> data <= get_bucket_max_threshold H w id.
Proof.
  intros Hid. unfold bucket_ref. destruct id as [|id].
  - unfold get_bucket_max_threshold. cbn [Nat.eqb]. case_if; breflect; lia.
  - pose proof (threshold_lookup (S id) ltac:(lia)) as Ht. replace (S id - 1)%nat with id in Ht by lia.
    rewrite <- Z.nlt_ge, (sorted_cnt_lookup _ _ _ _ law_sorted Ht).
    pose proof (Forall_lookup_1 _ _ _ _ law_min Ht) as Hm. cbn in Hm.
    destruct (Z.ltb_spec data (min_value H)) as [Hlt|Hge]; [|lia].
    rewrite cnt_none; [lia|]. eapply Forall_impl; [exact law_min|]. cbn. intros x Hx. apply Z.ltb_ge. lia.
Qed.

Lemma bucket_ref_last data : bucket_ref H data = (max_buckets H - 1)%nat <-> max_value H <= data.
Proof.
  pose proof law_last as Hl. rewrite last_lookup in Hl.
  pose proof (lookup_lt_Some _ _ _ Hl) as Hlen. pose proof (bucket_ref_lt data) as Hb.
  pose proof (threshold_lookup (length (nthresholds H))) as Ht. unfold max_buckets in *.
  replace (length (nthresholds H) - 1)%nat with (Init.Nat.pred (length (nthresholds H))) in Ht by lia.
  rewrite Hl in Ht. specialize (Ht ltac:(lia)). injection Ht as Ht.
  pose proof (bucket_ref_le data (length (nthresholds H))) as Hle. unfold max_buckets in Hle.
  rewrite <- Ht in Hle. lia.
Qed.
End Laws.

(** ** Histograms *)
Record hist_serial := HistSerial { count : Z; sum : Z }.      (* [HIST_SERIAL] *)

Definition serial_add (data : Z) (s : hist_serial) : hist_serial :=
  HistSerial (u64 (count s + 1)) (swrap 64 (sum s + data)).

Record histogram := Histogram {
  end_clock_sec_ : Z; stats_ : list hist_serial; total_count_ : Z; max_val_seen_ : Z;
  start_clock_sec_ : Z }.

Record hist_data := HistData { hd_count : Z; hd_data_value : Z; hd_sum : Z }.   (* [HIST_DATA] *)

Section Operations.
Context (H : HashClass) (w : Z).

Definition hist_new (start_clock_sec : Z) : histogram :=
  Histogram start_clock_sec (replicate (max_buckets H) (HistSerial 0 0)) 0 (T_min w) start_clock_sec.

(** [None] is the failed assertion.  [bucketid] is [None] for the default
    argument. *)
Definition add_data (data curr_clock_sec : Z) (bucketid : option nat) (h : histogram)
    : option (histogram * nat) :=
  let bucket := match bucketid with None => hash H data | Some b => b end in
  if negb (bucket <? max_buckets H)%nat then None else
  Some (Histogram
    (if curr_clock_sec =? 0 then end_clock_sec_ h else curr_clock_sec)
    (alter (serial_add data) bucket (stats_ h))
    (u64 (total_count_ h + 1))
    (if max_val_seen_ h <? data then data else max_val_seen_ h)
    (start_clock_sec_ h), bucket).

Definition hist_clear (h : histogram) : histogram :=
  Histogram (start_clock_sec_ h) (replicate (max_buckets H) (HistSerial 0 0)) 0 (T_min w) (start_clock_sec_ h).

Definition serial_merge (s t : hist_serial) : hist_serial :=
  HistSerial (u64 (count s + count t)) (swrap 64 (sum s + sum t)).

Definition update_from_serialized (stats_arr : list hist_serial) (total_count max_val end_clock start_clock : Z)
    (h : histogram) : histogram :=
  Histogram
    (if end_clock_sec_ h >? end_clock then end_clock else end_clock_sec_ h)
    (zip_with serial_merge (stats_ h) stats_arr)
    (u64 (total_count_ h + total_count))
    (if max_val_seen_ h <? max_val then max_val else max_val_seen_ h)
    (if start_clock_sec_ h <? start_clock then start_clock else start_clock_sec_ h).

Definition add_histogram (thist h : histogram) : histogram :=
  update_from_serialized (stats_ thist) (total_count_ thist) (max_val_seen_ thist)
    (end_clock_sec_ thist) (start_clock_sec_ thist) h.

Definition get_serialized (h : histogram) : list hist_serial * Z * Z * Z * Z :=
  (stats_ h, total_count_ h, max_val_seen_ h, end_clock_sec_ h, start_clock_sec_ h).

(** The loop over the buckets: the first one where the running count reaches
    [ncutoff], with the running count and sum; [None] when there is none. *)
Fixpoint pct_loop (stats : list hist_serial) (i : nat) (ncutoff total sm : Z) : option nat * Z * Z :=
  match stats with
  | [] => (None, total, sm)
  | s :: stats' =>
      let total := u64 (total + count s) in
      let sm := swrap 64 (sm + sum s) in
      if total >=? ncutoff then (Some i, total, sm) else pct_loop stats' (i + 1) ncutoff total sm
  end.

(** One percentile of [get_percentiles]; [ncutoff] is the product of the number of
    values and the percentile, in single precision, cut to an integer. *)
Definition get_percentile (ncutoff : Z) (h : histogram) : hist_data :=
  match pct_loop (stats_ h) 0 ncutoff 0 0 with
  | (Some i, total, sm) => HistData total (get_bucket_max_threshold H w i) sm
  | (None, total, sm) =>
      HistData total (get_bucket_max_threshold H w (if total_count_ h >? 0 then max_buckets H else 0%nat)) sm
  end.
End Operations.

Definition get_start_end_time (h : histogram) : Z * Z :=
  (start_clock_sec_ h,
   if end_clock_sec_ h >=? start_clock_sec_ h then end_clock_sec_ h else start_clock_sec_ h).

(** ** Specification: a histogram is the list of the recorded values *)
Definition lsum (xs : list Z) : Z := foldr Z.add 0 xs.

Definition in_bucket (H : HashClass) (i : nat) (x : Z) : bool := (hash H x =? i)%nat.

Record represents (H : HashClass) (w : Z) (h : histogram) (xs : list Z) : Prop := Represents {
  rep_len : length (stats_ h) = max_buckets H;
  rep_stats : forall i s, stats_ h !! i = Some s ->
    count s = u64 (Z.of_nat (cnt (in_bucket H i) xs)) /\
    sum s = swrap 64 (lsum (base.filter (fun x => in_bucket H i x = true) xs));
  rep_total : total_count_ h = u64 (Z.of_nat (length xs));
  rep_max : max_val_seen_ h = foldr Z.max (T_min w) xs }.

(** Ways to build a histogram. *)
Inductive hexp :=
  | HNew (start_clock_sec : Z)
  | HAdd (data curr_clock_sec : Z) (e : hexp)
  | HMerge (e1 e2 : hexp)                     (* [e2] is added to [e1] *)
  | HClear (e : hexp).

Section Eval.
Context (H : HashClass) (w : Z).

Fixpoint heval (e : hexp) : option histogram :=
  match e with
  | HNew c => Some (hist_new H w c)
  | HAdd d c e =>
      match heval e with
      | Some h => match add_data H d c None h with Some (h', _) => Some h' | None => None end
      | None => None
      end
  | HMerge e1 e2 =>
      match heval e1, heval e2 with
      | Some h1, Some h2 => Some (add_histogram h2 h1)
      | _, _ => None
      end
  | HClear e => hist_clear H w <$> heval e
  end.

(** The values in it, and whether all of them are of the type. *)
Fixpoint hvals (e : hexp) : list Z :=
  match e with
  | HNew _ | HClear _ => []
  | HAdd d _ e => d :: hvals e
  | HMerge e1 e2 => hvals e1 ++ hvals e2
  end.

Fixpoint hok (e : hexp) : bool :=
  match e with
  | HNew _ => true
  | HAdd d _ e => (T_min w <=? d) && (d <=? T_max w) && hok e
  | HMerge e1 e2 => hok e1 && hok e2
  | HClear e => hok e
  end.
End Eval.

(** ** The operations respect the specification *)
Lemma lsum_app xs ys : lsum (xs ++ ys) = lsum xs + lsum ys.
Proof. unfold lsum. induction xs as [|x xs IH]; cbn; [done|]. rewrite IH. lia. Qed.

Lemma foldr_max_app m xs ys : foldr Z.max m (xs ++ ys) = Z.max (foldr Z.max m xs) (foldr Z.max m ys).
Proof.
  assert (forall l, m <= foldr Z.max m l) as Hm by (induction l; cbn; lia).
  induction xs as [|x xs IH]; cbn; [specialize (Hm ys); lia|]. rewrite IH. lia.
Qed.

Lemma if_ltb_max a b : (if a <? b then b else a) = Z.max b a.
Proof. destruct (Z.ltb_spec a b); lia. Qed.

Section Refinement.
Context (H : HashClass) (w : Z) {L : HashLaws H w}.

Lemma hash_lt data : T_min w <= data <= T_max w -> (hash H data < max_buckets H)%nat.
Proof. intros Hd. rewrite (hash_ref H w) by done. apply bucket_ref_lt. Qed.

Lemma new_represents c : represents H w (hist_new H w c) [].
Proof.
  split; cbn [hist_new stats_ total_count_ max_val_seen_]; [by rewrite length_replicate| |done|done].
  intros i s [-> _]%lookup_replicate_1. done.
Qed.

Lemma clear_represents h : represents H w (hist_clear H w h) [].
Proof.
  split; cbn [hist_clear stats_ total_count_ max_val_seen_]; [by rewrite length_replicate| |done|done].
  intros i s [-> _]%lookup_replicate_1. done.
Qed.

Lemma add_represents h xs data c : represents H w h xs -> T_min w <= data <= T_max w ->
  exists h', add_data H data c None h = Some (h', hash H data) /\ represents H w h' (data :: xs).
Proof.
  intros [Hl Hs Ht Hm] Hd. unfold add_data. rewrite (proj2 (Nat.ltb_lt _ _)) by by apply hash_lt.
  cbn [negb]. eexists. split; [done|].
  split; cbn [stats_ total_count_ max_val_seen_]; [by rewrite length_alter| | |].
  - intros i s Hi. unfold in_bucket in *. cbn [cnt].
    destruct (Nat.eqb_spec (hash H data) i) as [<-|Hne].
    + rewrite list_lookup_alter_eq in Hi. destruct (stats_ h !! hash H data) as [s0|] eqn:E; [|done].
      cbn in Hi. simplify_eq. destruct (Hs _ _ E) as [Hc Hsum]. unfold serial_add. cbn [count sum].
      rewrite Hc, Hsum, wrap_add_l, swrap_add_l by lia. split; [f_equal; lia|].
      rewrite filter_cons_True by apply Nat.eqb_refl. unfold lsum. cbn [foldr]. f_equal. lia.
    + rewrite list_lookup_alter_ne in Hi by done. destruct (Hs _ _ Hi) as [Hc Hsum].
      rewrite filter_cons_False by (apply Nat.eqb_neq in Hne; rewrite Hne; discriminate). by split.
  - rewrite Ht, wrap_add_l. cbn [length]. f_equal. lia.
  - rewrite Hm, if_ltb_max. done.
Qed.

Lemma merge_represents h xs g ys : represents H w h xs -> represents H w g ys ->
  represents H w (add_histogram g h) (xs ++ ys).
Proof.
  intros [Hl Hs Ht Hm] [Hl' Hs' Ht' Hm'].
  split; cbn [add_histogram update_from_serialized stats_ total_count_ max_val_seen_].
  - rewrite length_zip_with. lia.
  - intros i s Hi. apply lookup_zip_with_Some in Hi as (s1 & s2 & -> & H1 & H2).
    destruct (Hs _ _ H1) as [Hc1 Hu1], (Hs' _ _ H2) as [Hc2 Hu2]. unfold serial_merge. cbn [count sum].
    rewrite Hc1, Hu1, Hc2, Hu2, wrap_add_l, wrap_add_r, swrap_add, cnt_app, filter_app, lsum_app by lia.
    split; [f_equal; lia|done].
  - rewrite Ht, Ht', wrap_add_l, wrap_add_r, length_app. f_equal. lia.
  - rewrite Hm, Hm', if_ltb_max, foldr_max_app. lia.
Qed.

Lemma heval_represents e : hok w e = true -> exists h, heval H w e = Some h /\ represents H w h (hvals e).
Proof.
  induction e as [c|d c e IH|e1 IH1 e2 IH2|e IH]; cbn [hok heval hvals]; intros Hok; breflect.
  - eexists. split; [done|]. apply new_represents.
  - destruct IH as (h & -> & Hr); [done|].
    destruct (add_represents h (hvals e) d c Hr) as (h' & -> & Hr'); [lia|]. eauto.
  - destruct IH1 as (h1 & -> & Hr1); [done|]. destruct IH2 as (h2 & -> & Hr2); [done|].
    eexists. split; [done|]. by apply merge_represents.
  - destruct IH as (h & -> & Hr); [done|]. cbn. eexists. split; [done|]. apply clear_represents.
Qed.
End Refinement.

(** ** Percentiles *)
Section Percentile.
Context (H : HashClass) (w : Z) {L : HashLaws H w} (xs : list Z).
Context (Hlen : Z.of_nat (length xs) < 2 ^ 64).

Definition below (k : nat) (x : Z) : bool := (hash H x <? k)%nat.
Definition cum (k : nat) : Z := Z.of_nat (cnt (below k) xs).
Definition cum_sum (k : nat) : Z := lsum (base.filter (fun x => below k x = true) xs).

Lemma below_S k x : below (S k) x = below k x || in_bucket H k x.
Proof.
  unfold below, in_bucket. apply eq_true_iff_eq. rewrite orb_true_iff, !Nat.ltb_lt, Nat.eqb_eq. lia.
Qed.

Lemma below_excl k x : below k x = true -> in_bucket H k x = false.
Proof. unfold below, in_bucket. rewrite Nat.ltb_lt, Nat.eqb_neq. lia. Qed.

Lemma cum_S k : cum (S k) = cum k + Z.of_nat (cnt (in_bucket H k) xs).
Proof.
  unfold cum. clear Hlen. induction xs as [|x l IH]; cbn [cnt]; [done|].
  rewrite below_S. destruct (below k x) eqn:E; [rewrite (below_excl _ _ E)|];
    destruct (in_bucket H k x); cbn [orb]; lia.
Qed.

Lemma cum_sum_S k : cum_sum (S k) = cum_sum k + lsum (base.filter (fun x => in_bucket H k x = true) xs).
Proof.
  unfold cum_sum. clear Hlen. induction xs as [|x l IH]; [done|]. rewrite !filter_cons, below_S.
  destruct (below k x) eqn:E; [rewrite (below_excl _ _ E)|]; destruct (in_bucket H k x); cbn [orb];
    repeat case_decide; try done; unfold lsum in *; cbn [foldr]; lia.
Qed.

Lemma cum_le k : 0 <= cum k <= Z.of_nat (length xs).
Proof. unfold cum. pose proof (cnt_le (below k) xs). lia. Qed.

Lemma pct_loop_spec ncutoff stats : forall k,
  (forall j s, stats !! j = Some s -> count s = u64 (Z.of_nat (cnt (in_bucket H (k + j)) xs)) /\
     sum s = swrap 64 (lsum (base.filter (fun x => in_bucket H (k + j) x = true) xs))) ->
  (k = 0%nat \/ cum k < ncutoff) ->
  let '(r, total, sm) := pct_loop stats k ncutoff (cum k) (swrap 64 (cum_sum k)) in
  match r with
  | Some i => (k <= i < k + length stats)%nat /\ total = cum (S i) /\ sm = swrap 64 (cum_sum (S i)) /\
      ncutoff <= total /\ (i = 0%nat \/ cum i < ncutoff)
  | None => total = cum (k + length stats) /\ (stats <> [] -> cum (k + length stats) < ncutoff)
  end.
Proof.
  induction stats as [|s stats IH]; intros k Hs Hk; cbn [pct_loop].
  { split; [by rewrite Nat.add_0_r|done]. }
  destruct (Hs 0%nat s eq_refl) as [Hc Hsum]. rewrite Nat.add_0_r in Hc, Hsum.
  rewrite Hc, Hsum, wrap_add_r, swrap_add, <- cum_S, <- cum_sum_S by lia. pose proof (cum_le (S k)) as Hr.
  rewrite wrap_id by (unfold in_width; lia). destruct (Z.geb_spec (cum (S k)) ncutoff) as [Hge|Hlt].
  - cbn [length]. split_and!; try done; lia.
  - replace (k + 1)%nat with (S k) by lia. specialize (IH (S k)).
    destruct (pct_loop stats (S k) ncutoff (cum (S k)) (swrap 64 (cum_sum (S k)))) as [[r total] sm].
    cbn [length]. replace (k + S (length stats))%nat with (S k + length stats)%nat by lia.
    assert (match r with
      | Some i => (S k <= i < S k + length stats)%nat /\ total = cum (S i) /\ sm = swrap 64 (cum_sum (S i)) /\
          ncutoff <= total /\ (i = 0%nat \/ cum i < ncutoff)
      | None => total = cum (S k + length stats) /\ (stats <> [] -> cum (S k + length stats) < ncutoff)
      end) as Hres.
    { apply IH; [|by right]. intros j s' Hj. replace (S k + j)%nat with (k + S j)%nat by lia. by apply Hs. }
    destruct r as [i|]; [destruct Hres as (? & Hres); split; [lia|done]|].
    destruct Hres as [Htot Hend]. split; [done|]. intros _.
    destruct stats; [cbn [length]; by rewrite Nat.add_0_r|by apply Hend].
Qed.
End Percentile.

(** ** A histogram with the last values, [GY_HISTOGRAM_DATA] *)
Record hist_cache := HistCache {
  histogram_ : histogram; datahist_ : list Z; buckethist_ : list nat; curridx_ : nat }.

Section Cache.
Context (H : HashClass) (w : Z) (nhistory : nat).

Definition cache_new (start_clock_sec : Z) : hist_cache :=
  HistCache (hist_new H w start_clock_sec) (replicate nhistory 0) (replicate nhistory 0%nat) 0.

Definition cache_add_data (data curr_clock_sec : Z) (bucketid : option nat) (c : hist_cache)
    : option (hist_cache * nat) :=
  let idx := (curridx_ c mod nhistory)%nat in
  let curridx := (curridx_ c + 1)%nat in
  let curridx := if (nhistory <=? curridx)%nat then 0%nat else curridx in
  match add_data H data curr_clock_sec bucketid (histogram_ c) with
  | Some (h, cid) =>
      Some (HistCache h (<[idx := data]> (datahist_ c)) (<[idx := cid]> (buckethist_ c)) curridx, cid)
  | None => None
  end.

(** [for (i = hi - 1; i >= lo; --i) histarr[n++] = datahist_[i];] *)
Fixpoint copy_down (l : list Z) (hi lo : nat) : list Z :=
  match hi with
  | O => []
  | S i => if (i <? lo)%nat then [] else nth i l 0 :: copy_down l i lo
  end.

Definition get_history (c : hist_cache) : list Z :=
  copy_down (datahist_ c) (curridx_ c) 0 ++ copy_down (datahist_ c) nhistory (curridx_ c).

Fixpoint cache_run (ds : list (Z * Z)) (c : hist_cache) : option hist_cache :=
  match ds with
  | [] => Some c
  | (d, t) :: ds' => match cache_add_data d t None c with Some (c', _) => cache_run ds' c' | None => None end
  end.

Lemma copy_down_0 l n : (n <= length l)%nat -> copy_down l n 0 = reverse (take n l).
Proof.
  induction n as [|n IH]; intros Hn; cbn [copy_down]; [done|]. cbn [Nat.ltb Nat.leb].
  destruct (lookup_lt_is_Some_2 l n Hn) as [x Hx]. rewrite (take_S_r l n x Hx), reverse_snoc, IH by lia.
  by rewrite (nth_lookup_Some _ _ _ _ Hx).
Qed.

Lemma copy_down_from l lo : forall n, (n <= length l)%nat -> copy_down l n lo = reverse (drop lo (take n l)).
Proof.
  induction n as [|n IH]; intros Hn; cbn [copy_down]; [by rewrite take_0, drop_nil|].
  destruct (lookup_lt_is_Some_2 l n Hn) as [x Hx]. rewrite (take_S_r l n x Hx).
  destruct (Nat.ltb_spec n lo).
  - rewrite drop_ge; [done|]. rewrite length_app, length_take. cbn [length]. lia.
  - rewrite drop_app_le by (rewrite length_take; lia). rewrite reverse_snoc, IH by lia.
    by rewrite (nth_lookup_Some _ _ _ _ Hx).
Qed.

(** The array read backwards from the current index is the history. *)
Definition history_inv (c : hist_cache) (xs : list Z) : Prop :=
  length (datahist_ c) = nhistory /\ (curridx_ c < nhistory)%nat /\
  reverse (take (curridx_ c) (datahist_ c)) ++ reverse (drop (curridx_ c) (datahist_ c)) =
    take nhistory (xs ++ replicate nhistory 0).

Lemma get_history_eq c xs : history_inv c xs -> get_history c = take nhistory (xs ++ replicate nhistory 0).
Proof.
  intros (Hl & Hc & <-). unfold get_history.
  rewrite copy_down_0, copy_down_from by lia. by rewrite (take_ge (datahist_ c) nhistory) by lia.
Qed.
(** A new value goes to the front of the history and the oldest one is lost. *)
Lemma history_shift (pre : list Z) x d xs :
  pre ++ [x] = take nhistory (xs ++ replicate nhistory 0) ->
  d :: pre = take nhistory ((d :: xs) ++ replicate nhistory 0).
Proof.
  intros Hp. assert (length (pre ++ [x]) = nhistory) as Hl.
  { rewrite Hp, length_take, length_app, length_replicate. lia. }
  rewrite length_app in Hl. cbn [length] in Hl. destruct nhistory as [|n]; [lia|]. cbn [take app]. f_equal.
  apply (f_equal (take n)) in Hp. rewrite take_take, Nat.min_l in Hp by lia.
  by rewrite take_app_length' in Hp by lia.
Qed.

Lemma cache_add_history {L : HashLaws H w} c xs d t :
  history_inv c xs -> T_min w <= d <= T_max w ->
  exists c', cache_add_data d t None c = Some (c', hash H d) /\ history_inv c' (d :: xs) /\
    add_data H d t None (histogram_ c) = Some (histogram_ c', hash H d).
Proof.
  intros (Hl & Hc & Hh) Hd. unfold cache_add_data, add_data.
  rewrite (proj2 (Nat.ltb_lt _ _)) by by apply (hash_lt H w). cbn [negb].
  rewrite Nat.mod_small by done. eexists. split; [done|]. split; [|done].
  destruct (lookup_lt_is_Some_2 (datahist_ c) (curridx_ c)) as [x Hx]; [lia|].
  rewrite (drop_S _ _ _ Hx), reverse_cons, app_assoc in Hh. apply (history_shift _ _ d) in Hh.
  unfold history_inv. cbn [datahist_ curridx_]. rewrite length_insert. split; [done|].
  destruct (Nat.leb_spec nhistory (curridx_ c + 1)).
  - split; [lia|]. rewrite <- Hh, take_0, drop_0, reverse_nil, app_nil_l.
    rewrite (drop_ge (datahist_ c) (S _)), reverse_nil, app_nil_r by lia.
    rewrite insert_take_drop, (drop_ge (datahist_ c) (S _)) by lia. by rewrite reverse_snoc.
  - split; [lia|]. rewrite <- Hh. replace (curridx_ c + 1)%nat with (S (curridx_ c)) by lia.
    rewrite (take_S_r _ _ d) by (rewrite list_lookup_insert_eq; [done|lia]).
    rewrite take_insert_ge, drop_insert_lt by lia. by rewrite reverse_snoc.
Qed.
End Cache.

(** ** Theorems *)
Section Theorems.
Context (H : HashClass) (w : Z) {L : HashLaws H w}.

Lemma bucketid_roundtrip id : (id < max_buckets H)%nat ->
  get_bucketid_from_threshold H (get_bucket_max_threshold H w id) = id.
Proof.
  intros Hid. unfold get_bucketid_from_threshold.
  destruct (decide (0 < id < max_buckets H - 1)%nat) as [Hmid|Hend].
  { rewrite (threshold_index_lookup _ _ law_sorted (id - 1) 0); [lia|]. by apply threshold_lookup. }
  assert (id = 0 \/ (0 < id /\ max_buckets H - 1 <= id))%nat as [->|[Hp Hge]] by lia.
  - change (get_bucket_max_threshold H w 0) with (min_value H - 1). rewrite threshold_index_none.
    + by rewrite (proj2 (Z.ltb_lt _ _)) by lia.
    + eapply Forall_impl; [exact law_min|]. cbn. lia.
  - pose proof (last_threshold H w id Hp Hge) as Ht. rewrite threshold_index_none.
    + pose proof law_last as Hl. rewrite last_lookup in Hl.
      pose proof (Forall_lookup_1 _ _ _ _ law_min Hl) as Hm. cbn in Hm.
      rewrite (proj2 (Z.ltb_ge _ _)) by lia. lia.
    + eapply Forall_impl; [exact law_min|]. cbn. lia.
Qed.
End Theorems.

(** C25 : every bucket function gives a bucket of the table; the value is above the
    largest value of the bucket before and, except in the last bucket, not above that
    of its own; the last bucket has exactly the values from [max_value] on; larger values
    have no smaller buckets; and a bucket is found again from its largest value. *)
Theorem bucket_correct (H : HashClass) (w data : Z) : HashLaws H w -> T_min w <= data <= T_max w ->
  let b := hash H data in
  (b < max_buckets H)%nat /\
  (b <> (max_buckets H - 1)%nat -> data <= get_bucket_max_threshold H w b) /\
  (b <> 0%nat -> get_bucket_max_threshold H w (b - 1) < data) /\
  (b = (max_buckets H - 1)%nat <-> max_value H <= data) /\
  (forall data', data <= data' <= T_max w -> (b <= hash H data')%nat) /\
  (forall id, (id < max_buckets H)%nat ->
     get_bucketid_from_threshold H (get_bucket_max_threshold H w id) = id).
Proof.
  intros L Hd. cbv zeta. rewrite (hash_ref H w) by done. pose proof (bucket_ref_lt H data) as Hb.
  split_and!; [done| | |by apply (bucket_ref_last H w)| |by apply bucketid_roundtrip].
  - intros Hne. apply (bucket_ref_le H w); lia.
  - intros Hne. apply Z.nle_gt. rewrite <- (bucket_ref_le H w) by lia. lia.
  - intros data' Hd'. rewrite (hash_ref H w) by lia. pose proof (bucket_ref_lt H data') as Hb'.
    destruct (decide (bucket_ref H data' = (max_buckets H - 1)%nat)) as [->|Hne]; [lia|].
    apply (bucket_ref_le H w); [lia|].
    assert (data' <= get_bucket_max_threshold H w (bucket_ref H data')) by (apply (bucket_ref_le H w); lia). lia.
Qed.

(** C26 : a histogram built by any sequence of insertions, merges and clears
    represents the values recorded in it: per bucket their number and sum, their number
    in all and the largest; no insertion fails its assertion. *)
Theorem histogram_refines (H : HashClass) (w : Z) (e : hexp) : HashLaws H w -> hok w e = true ->
  exists h, heval H w e = Some h /\ represents H w h (hvals e).
Proof. intros L Hok. by apply heval_represents. Qed.

(** C27 : for a cut-off between 1 and the number of values, a percentile is the
    largest value of the first bucket up to which there are at least that many values:
    below the last bucket the reported count is the number of recorded values that are
    not larger, and the largest value of the bucket before does not have enough.  For the
    cut-off 0, which a percentile below 100 of a single value gives, the result is below
    the minimum, whatever was recorded. *)
Theorem percentile_correct (H : HashClass) (w : Z) (h : histogram) (xs : list Z) (ncutoff : Z) :
  HashLaws H w -> represents H w h xs -> Forall (fun x => T_min w <= x <= T_max w) xs ->
  Z.of_nat (length xs) < 2 ^ 64 -> 0 <= ncutoff <= Z.of_nat (length xs) ->
  let d := get_percentile H w ncutoff h in
  exists i, (i < max_buckets H)%nat /\ hd_data_value d = get_bucket_max_threshold H w i /\
    ncutoff <= hd_count d /\
    hd_sum d = swrap 64 (lsum (base.filter (fun x => below H (S i) x = true) xs)) /\
    hd_count d = Z.of_nat (cnt (below H (S i)) xs) /\
    ((i < max_buckets H - 1)%nat -> hd_count d = Z.of_nat (cnt (fun x => x <=? hd_data_value d) xs)) /\
    (i <> 0%nat -> Z.of_nat (cnt (fun x => x <=? get_bucket_max_threshold H w (i - 1)) xs) < ncutoff) /\
    (ncutoff = 0 -> i = 0%nat /\ hd_data_value d = min_value H - 1).
Proof.
  intros L [Hl Hs Ht Hm] Hxs Hlen Hcut.
  assert (forall k, (k < max_buckets H - 1)%nat ->
    cnt (below H (S k)) xs = cnt (fun x => x <=? get_bucket_max_threshold H w k) xs) as Hcnt.
  { intros k Hk. apply cnt_ext. eapply Forall_impl; [exact Hxs|]. cbv beta. intros x Hx.
    apply eq_true_iff_eq. unfold below. rewrite Nat.ltb_lt, Z.leb_le, (hash_ref H w) by done.
    rewrite <- (bucket_ref_le H w) by done. lia. }
  assert (cum H xs (max_buckets H) = Z.of_nat (length xs)) as Hall.
  { unfold cum. f_equal. apply cnt_all. eapply Forall_impl; [exact Hxs|]. cbv beta. intros x Hx.
    apply Nat.ltb_lt. by apply (hash_lt H w). }
  pose proof (pct_loop_spec H xs Hlen ncutoff (stats_ h) 0 Hs (or_introl eq_refl)) as Hp.
  assert (cum H xs 0 = 0) as H0 by (unfold cum; rewrite cnt_none; [done|by apply Forall_forall]).
  assert (swrap 64 (cum_sum H xs 0) = 0) as H0'.
  { unfold cum_sum. replace (base.filter _ xs) with (@nil Z); [done|]. clear. induction xs; [done|]. by rewrite filter_cons_False. }
  rewrite H0, H0' in Hp. unfold get_percentile. destruct (pct_loop (stats_ h) 0 ncutoff 0 0) as [[[i|] tot] sm] eqn:E.
  - destruct Hp as (Hi & -> & -> & Hge & Hprev). rewrite Hl in Hi. exists i. cbn [hd_data_value hd_count hd_sum].
    split_and!; try done; [lia| | |].
    + intros Hi'. unfold cum. by rewrite Hcnt.
    + intros Hi0. destruct Hprev as [|Hprev]; [done|]. destruct i as [|i]; [done|].
      replace (S i - 1)%nat with i by lia. rewrite <- Hcnt by lia. done.
    + intros ->. destruct Hprev as [->|Hprev]; [done|]. pose proof (cum_le H xs i). lia.
  - destruct Hp as [-> Hend]. rewrite Hl in Hend. cbn [Nat.add] in Hend. exfalso.
    assert (stats_ h <> []) as Hne by (intros Hn; rewrite Hn in Hl; unfold max_buckets in Hl; simpl in Hl; lia).
    specialize (Hend Hne). lia.
Qed.

(** After the values [xs] have been recorded, oldest first, the history is the
    last of them, latest first, filled up with 0; the histogram represents all of them. *)
Theorem history_correct (H : HashClass) (w : Z) (nhistory : nat) (start : Z) (ds : list (Z * Z)) :
  HashLaws H w -> (0 < nhistory)%nat -> Forall (fun d => T_min w <= d.1 <= T_max w) ds ->
  exists c, cache_run H nhistory ds (cache_new H w nhistory start) = Some c /\
    get_history nhistory c = take nhistory (reverse ds.*1 ++ replicate nhistory 0) /\
    represents H w (histogram_ c) (reverse ds.*1).
Proof.
  intros L Hn Hds.
  assert (forall xs c, history_inv nhistory c xs -> represents H w (histogram_ c) xs ->
    exists c', cache_run H nhistory ds c = Some c' /\
      history_inv nhistory c' (reverse ds.*1 ++ xs) /\ represents H w (histogram_ c') (reverse ds.*1 ++ xs)) as Hrun.
  { induction Hds as [|[d t] ds Hd _ IH]; intros xs c Hc Hr; cbn [cache_run]; [eauto|]. cbn in Hd.
    destruct (cache_add_history H w nhistory c xs d t Hc Hd) as (c1 & -> & Hc1 & Ha).
    destruct (add_represents H w _ xs d t Hr Hd) as (h' & Ha' & Hr'). rewrite Ha in Ha'. simplify_eq.
    destruct (IH (d :: xs) c1 Hc1 Hr') as (c2 & -> & Hc2 & Hr2). exists c2.
    rewrite fmap_cons, reverse_cons, <- app_assoc. cbn. auto. }
  destruct (Hrun [] (cache_new H w nhistory start)) as (c & Hc & Hi & Hr).
  - split_and!; cbn [cache_new datahist_ curridx_]; [by rewrite length_replicate|done|].
    rewrite take_0, reverse_nil, app_nil_l, drop_0, app_nil_l, reverse_replicate.
    by rewrite take_ge by (by rewrite length_replicate).
  - apply new_represents.
  - rewrite app_nil_r in Hi, Hr. exists c. split; [done|]. split; [by apply get_history_eq|done].
Qed.

(** ** Concrete histograms *)
Module HistExamples.

Lemma bucket_correct_witness :
  hash DURATION_HASH 70 = 5%nat /\ 70 <= get_bucket_max_threshold DURATION_HASH 32 5 /\
  get_bucket_max_threshold DURATION_HASH 32 4 < 70.
Proof.
  destruct (bucket_correct DURATION_HASH 32 70 DURATION_HASH_laws) as (_ & Hup & Hlo & _); [by vm_compute|].
  split; [by vm_compute|]. split; [apply Hup|apply Hlo]; by vm_compute.
Defined.

(** Two histograms of delays, merged. *)
Definition ex_hist : hexp :=
  HMerge (HAdd 3 160 (HAdd 7 150 (HNew 100))) (HAdd 70 240 (HClear (HAdd 9 230 (HNew 200)))).

Lemma histogram_refines_witness : exists h, heval DURATION_HASH 32 ex_hist = Some h /\
  represents DURATION_HASH 32 h [3; 7; 70].
Proof. apply (histogram_refines DURATION_HASH 32 ex_hist DURATION_HASH_laws). by vm_compute. Defined.

(** The merged histogram starts when the later and ends when the earlier one
    does. *)
Lemma merge_clocks : exists h, heval DURATION_HASH 32 ex_hist = Some h /\
  start_clock_sec_ h = 200 /\ end_clock_sec_ h = 160.
Proof. eexists. split; [by vm_compute|]. done. Qed.

Lemma percentile_correct_witness : exists h, heval DURATION_HASH 32 ex_hist = Some h /\
  hd_data_value (get_percentile DURATION_HASH 32 2 h) = 10.
Proof.
  destruct (heval_represents DURATION_HASH 32 ex_hist) as (h & He & Hr); [by vm_compute|].
  exists h. split; [exact He|].
  destruct (percentile_correct DURATION_HASH 32 h [3; 7; 70] 2 DURATION_HASH_laws Hr)
    as (i & Hi & Hv & Hge & _ & Hc & _ & Hprev & _).
  - repeat constructor; by vm_compute.
  - by vm_compute.
  - by vm_compute.
  - vm_compute in He. injection He as <-. by vm_compute.
Defined.

(** Every percentile below 100 of a single value is -1. *)
Lemma single_value_percentile : exists h, heval DURATION_HASH 32 (HAdd 70 160 (HNew 100)) = Some h /\
  hd_data_value (get_percentile DURATION_HASH 32 0 h) = -1.
Proof. eexists. split; [by vm_compute|]. by vm_compute. Qed.

Lemma history_correct_witness :
  exists c, cache_run DURATION_HASH 3 [(5, 101); (8, 102); (2, 103); (9, 104)] (cache_new DURATION_HASH 32 3 100) = Some c /\
    get_history 3 c = [9; 2; 8].
Proof.
  destruct (history_correct DURATION_HASH 32 3 100 [(5, 101); (8, 102); (2, 103); (9, 104)] DURATION_HASH_laws)
    as (c & Hc & Hh & _); [lia|repeat constructor; by vm_compute|].
  exists c. split; [exact Hc|exact Hh].
Defined.
End HistExamples.
