(* ===== verification/PrioQueue.v ===== *)
(** * PrioQueue : the bounded priority queue, [BOUNDED_PRIO_QUEUE] of
    [common/gy_statistics.h], and the orders it is used with, [server/gy_msocket.h].

    The queue keeps the best elements that were pushed in a vector arranged as a heap
    by the algorithms of the C++ library.  Those are the class [HeapOps] with the
    contract of the language standard, which is all the code may rely on; an instance
    that sorts is given at the end.  The theorems say which elements a queue holds, that
    every operation leaves a heap where it says so, and for which of the orders of the
    servers the contract's premise, a strict weak order, holds. *)
From S2P Require Import Prelude.
From stdpp Require Import sorting.

#[local] Open Scope Z_scope.

(** ** Orders and heaps *)

(** The requirement of the standard on a comparator. *)
Class StrictWeakOrder {A : Type} (comp : A -> A -> bool) : Prop := {
  swo_irrefl : forall x, comp x x = false;
  swo_trans : forall x y z, comp x y = true -> comp y z = true -> comp x z = true;
  swo_neg_trans : forall x y z, comp x y = false -> comp y z = false -> comp x z = false }.

Section Heap.
Context {A : Type} (comp : A -> A -> bool).

(** No element comes after its parent in the order. *)
Definition is_heap (l : list A) : Prop :=
  forall i x p, l !! i = Some x -> (0 < i)%nat -> l !! ((i - 1) / 2)%nat = Some p -> comp p x = false.

Class HeapOps := {
  push_heap : list A -> list A;
  pop_heap : list A -> list A;
  make_heap : list A -> list A;
  sort_heap : list A -> list A }.

(** The contract of the algorithms: [push_heap] adds the last element to the heap
    before it, [pop_heap] moves the first element to the end and leaves a heap before it. *)
Class HeapLaws (O : HeapOps) : Prop := {
  push_heap_ok : forall l x, is_heap l -> is_heap (push_heap (l ++ [x])) /\ push_heap (l ++ [x]) ≡ₚ l ++ [x];
  pop_heap_ok : forall t l, is_heap (t :: l) ->
    exists l', pop_heap (t :: l) = l' ++ [t] /\ is_heap l' /\ l' ≡ₚ l;
  make_heap_ok : forall l, is_heap (make_heap l) /\ make_heap l ≡ₚ l;
  sort_heap_ok : forall l, is_heap l ->
    StronglySorted (fun x y => comp y x = false) (sort_heap l) /\ sort_heap l ≡ₚ l }.
End Heap.
Arguments HeapOps A : clear implicits.

(** ** The queue *)
Record prio_queue (A : Type) := PrioQ { vecq_ : list A; maxsz_ : Z }.
Arguments PrioQ {A} _ _.
Arguments vecq_ {A} _.
Arguments maxsz_ {A} _.

Section Queue.
Context {A : Type} (comp_ : A -> A -> bool) {O : HeapOps A}.

Definition size (q : prio_queue A) : Z := Z.of_nat (length (vecq_ q)).
Definition with_vec (l : list A) (q : prio_queue A) : prio_queue A := PrioQ l (maxsz_ q).

Definition pq_new (maxsz : Z) : prio_queue A := PrioQ [] (u32 maxsz).

(** [push_back], then the heap is restored. *)
Definition push_back_heap (data : A) (l : list A) : list A :=
  let l := l ++ [data] in
  if (6 <? length l)%nat then push_heap l else make_heap l.

(** [pop_heap] and [pop_back] *)
Definition pop_back_heap (l : list A) : list A := removelast (pop_heap l).

(** [try_emplace_locked] with the test [comp] on the first element; [None] is
    [front()] of an empty vector. *)
Definition try_emplace_locked (comp : A -> bool) (data : A) (q : prio_queue A)
    : option (bool * prio_queue A) :=
  if size q <? maxsz_ q then Some (true, with_vec (push_back_heap data (vecq_ q)) q) else
  match vecq_ q with
  | [] => None
  | top :: _ =>
      if comp top then
        Some (true, with_vec (push_heap (pop_back_heap (vecq_ q) ++ [data])) q)
      else Some (false, q)
  end.

Definition push_locked (data : A) (q : prio_queue A) : option (bool * prio_queue A) :=
  if size q <? maxsz_ q then Some (true, with_vec (push_back_heap data (vecq_ q)) q) else
  match vecq_ q with
  | [] => None
  | top :: _ =>
      if comp_ data top then
        Some (true, with_vec (push_heap (pop_back_heap (vecq_ q) ++ [data])) q)
      else Some (false, q)
  end.

Definition pop_locked (q : prio_queue A) : prio_queue A :=
  match vecq_ q with [] => q | _ => with_vec (pop_back_heap (vecq_ q)) q end.

Definition clear_locked (q : prio_queue A) : prio_queue A := with_vec [] q.
Definition make_heap_locked (q : prio_queue A) : prio_queue A := with_vec (make_heap (vecq_ q)) q.
Definition sort_heap_locked (q : prio_queue A) : prio_queue A := with_vec (sort_heap (vecq_ q)) q.

(** The elements given to the callback until it asks to stop, and the queue
    afterwards. *)
Fixpoint walk_until (stop : A -> bool) (l : list A) : list A :=
  match l with [] => [] | x :: l' => x :: (if stop x then [] else walk_until stop l') end.

Definition walk_queue (stop : A -> bool) (sort_queue heap_on_return : bool) (q : prio_queue A)
    : list A * prio_queue A :=
  match vecq_ q with
  | [] => ([], q)
  | _ =>
      let q := if sort_queue then sort_heap_locked q else q in
      (walk_until stop (vecq_ q), if sort_queue && heap_on_return then make_heap_locked q else q)
  end.

(** [std::remove_if] and [erase]; the number of elements removed. *)
Definition remove_elems (comp : A -> bool) (heap_on_return : bool) (q : prio_queue A) : Z * prio_queue A :=
  match vecq_ q with
  | [] => (0, q)
  | _ =>
      let l := base.filter (fun x => comp x = false) (vecq_ q) in
      let q' := with_vec l q in
      (size q - size q', if heap_on_return then make_heap_locked q' else q')
  end.

Definition set_max_size (new_max_sz : Z) (q : prio_queue A) : prio_queue A :=
  if new_max_sz =? maxsz_ q then q
  else if new_max_sz >? maxsz_ q then PrioQ (vecq_ q) (u32 new_max_sz)
  else
    let q := Nat.iter (Z.to_nat (size q - new_max_sz)) pop_locked q in
    PrioQ (vecq_ q) (u32 new_max_sz).
End Queue.

(** ** Specification

    A client sees a bag of pushed elements.  [sp_heap]: the vector is a heap, so that
    elements may be pushed and popped; [sp_exact]: the queue holds the best [sp_bound] of
    the elements pushed since it was cleared. *)
Inductive pq_op (A : Type) :=
  | OpPush (x : A)
  | OpPop
  | OpWalk (stop : A -> bool) (sort_queue heap_on_return : bool)
  | OpRemove (p : A -> bool) (heap_on_return : bool)
  | OpClear
  | OpMakeHeap
  | OpSortHeap
  | OpSetMax (new_max_sz : Z).
Arguments OpPush {A} _.
Arguments OpPop {A}.
Arguments OpWalk {A} _ _ _.
Arguments OpRemove {A} _ _.
Arguments OpClear {A}.
Arguments OpMakeHeap {A}.
Arguments OpSortHeap {A}.
Arguments OpSetMax {A} _.

Record pq_spec (A : Type) := PqSpec {
  sp_heap : bool; sp_exact : bool; sp_all : list A; sp_bound : Z }.
Arguments PqSpec {A} _ _ _ _.
Arguments sp_heap {A} _.
Arguments sp_exact {A} _.
Arguments sp_all {A} _.
Arguments sp_bound {A} _.

Section Spec.
Context {A : Type} (comp_ : A -> A -> bool) {O : HeapOps A}.

Definition pq_step (op : pq_op A) (q : prio_queue A) : option (prio_queue A) :=
  match op with
  | OpPush x => snd <$> push_locked comp_ x q
  | OpPop => Some (pop_locked q)
  | OpWalk stop s h => Some (snd (walk_queue stop s h q))
  | OpRemove p h => Some (snd (remove_elems p h q))
  | OpClear => Some (clear_locked q)
  | OpMakeHeap => Some (make_heap_locked q)
  | OpSortHeap => Some (sort_heap_locked q)
  | OpSetMax n => Some (set_max_size n q)
  end.

Fixpoint pq_run (ops : list (pq_op A)) (q : prio_queue A) : option (prio_queue A) :=
  match ops with
  | [] => Some q
  | op :: ops' => match pq_step op q with Some q' => pq_run ops' q' | None => None end
  end.

(** What a client may do ([None]: not allowed) and what it knows afterwards. *)
Definition spec_step (op : pq_op A) (s : pq_spec A) : option (pq_spec A) :=
  let '(PqSpec heap exact all bound) := s in
  match op with
  | OpPush x => if heap && (0 <? bound) then Some (PqSpec heap exact (x :: all) bound) else None
  | OpPop => if heap then Some (PqSpec heap false all bound) else None
  | OpWalk _ sort hr =>
      if sort then if heap then Some (PqSpec hr exact all bound) else None else Some s
  | OpRemove _ hr => Some (PqSpec hr false all bound)
  | OpClear => Some (PqSpec true true [] bound)
  | OpMakeHeap => Some (PqSpec true exact all bound)
  | OpSortHeap => if heap then Some (PqSpec false exact all bound) else None
  | OpSetMax n =>
      if (0 <=? n) && (n <? 2 ^ 32) && (heap || (bound <=? n)) then
        Some (PqSpec heap (exact && (n <=? bound)) all n)
      else None
  end.

Fixpoint spec_run (ops : list (pq_op A)) (s : pq_spec A) : option (pq_spec A) :=
  match ops with
  | [] => Some s
  | op :: ops' => match spec_step op s with Some s' => spec_run ops' s' | None => None end
  end.

(** [kept] are the [n] best of [all]: nothing that was dropped comes before an
    element that was kept. *)
Definition top_n (n : nat) (all kept : list A) : Prop :=
  exists dropped, all ≡ₚ kept ++ dropped /\ length kept = min n (length all) /\
    forall k d, k ∈ kept -> d ∈ dropped -> comp_ d k = false.

Record pq_refines (q : prio_queue A) (s : pq_spec A) : Prop := PqRefines {
  pr_bound : maxsz_ q = sp_bound s /\ 0 <= sp_bound s < 2 ^ 32;
  pr_size : size q <= sp_bound s;
  pr_heap : sp_heap s = true -> is_heap comp_ (vecq_ q);
  pr_exact : sp_exact s = true -> top_n (Z.to_nat (sp_bound s)) (sp_all s) (vecq_ q);
  pr_sub : vecq_ q ⊆+ sp_all s }.

(** ** Heaps and the best elements *)
Context {W : StrictWeakOrder comp_} {OL : HeapLaws comp_ O}.

Lemma swo_asym x y : comp_ x y = true -> comp_ y x = false.
Proof.
  intros Hxy. destruct (comp_ y x) eqn:E; [|done].
  pose proof (swo_trans _ _ _ Hxy E) as Hx. by rewrite swo_irrefl in Hx.
Qed.

Lemma heap_front t l x : is_heap comp_ (t :: l) -> x ∈ t :: l -> comp_ t x = false.
Proof.
  intros Hh (i & Hi)%list_elem_of_lookup_1. revert x Hi. induction (lt_wf i) as [i _ IH]. intros x Hi.
  destruct (decide (i = 0)%nat) as [->|Hne]; [cbn in Hi; simplify_eq; apply swo_irrefl|].
  assert ((i - 1) / 2 < i)%nat as Hlt by (apply Nat.Div0.div_lt_upper_bound; lia).
  destruct (lookup_lt_is_Some_2 (t :: l) ((i - 1) / 2)%nat) as [p Hp].
  { pose proof (lookup_lt_Some _ _ _ Hi). lia. }
  eapply swo_neg_trans; [by eapply (IH _ Hlt)|]. eapply (Hh i); [done|lia|done].
Qed.

Lemma is_heap_nil : is_heap comp_ [].
Proof. intros i x p Hi. by rewrite lookup_nil in Hi. Qed.

Lemma pop_back_heap_ok t l : is_heap comp_ (t :: l) ->
  is_heap comp_ (pop_back_heap (t :: l)) /\ pop_back_heap (t :: l) ≡ₚ l.
Proof.
  intros Hh. unfold pop_back_heap. destruct (pop_heap_ok comp_ t l Hh) as (l' & -> & Hl' & Hp).
  by rewrite removelast_last.
Qed.

Lemma push_back_heap_ok x l : is_heap comp_ l ->
  is_heap comp_ (push_back_heap x l) /\ push_back_heap x l ≡ₚ x :: l.
Proof.
  intros Hh. unfold push_back_heap. cbv zeta. pose proof (Permutation_cons_append l x) as E.
  case_if; [destruct (push_heap_ok comp_ l x Hh) as [Hp Hq]|destruct (make_heap_ok comp_ (l ++ [x])) as [Hp Hq]];
    (split; [exact Hp|by rewrite Hq, E]).
Qed.

#[global] Instance top_n_proper n : Proper ((≡ₚ) ==> (≡ₚ) ==> iff) (top_n n).
Proof.
  assert (forall a a' k k', a ≡ₚ a' -> k ≡ₚ k' -> top_n n a k -> top_n n a' k') as Himp.
  { intros a a' k k' Ha Hk (d & Hp & Hl & Hd). exists d. rewrite <- Ha, <- Hk. split_and!; [done|done|].
    intros x y Hx Hy. apply Hd; [by rewrite Hk|done]. }
  intros a a' Ha k k' Hk. split; apply Himp; done || by symmetry.
Qed.

Lemma top_n_push_room n x all kept : (length kept < n)%nat -> top_n n all kept -> top_n n (x :: all) (x :: kept).
Proof.
  intros Hlt (d & Hp & Hl & Hd). exists d. assert (length all = length kept) as Hall by lia.
  assert (d = []) as ->.
  { apply Permutation_length in Hp. rewrite length_app in Hp. destruct d; [done|simpl in Hp; lia]. }
  split_and!; [by rewrite Hp|cbn [length]; lia|]. intros k y _ Hy. by apply elem_of_nil in Hy.
Qed.

Lemma top_n_push_replace n x t all rest : length (t :: rest) = n -> comp_ x t = true ->
  (forall k, k ∈ t :: rest -> comp_ t k = false) -> top_n n all (t :: rest) -> top_n n (x :: all) (x :: rest).
Proof.
  intros Hn Hx Hmin (d & Hp & Hl & Hd). exists (t :: d). split_and!.
  - rewrite Hp. cbn. rewrite <- Permutation_middle. done.
  - cbn [length] in *. lia.
  - intros k y Hk Hy. apply elem_of_cons in Hk, Hy.
    destruct Hy as [->|Hy], Hk as [->|Hk].
    + by apply swo_asym.
    + apply Hmin. by right.
    + destruct (comp_ y x) eqn:E; [|done]. rewrite <- (Hd t y); [|left|done].
      symmetry. by eapply swo_trans.
    + apply Hd; [by right|done].
Qed.

Lemma top_n_push_drop n x t all rest : length (t :: rest) = n -> comp_ x t = false ->
  (forall k, k ∈ t :: rest -> comp_ t k = false) -> top_n n all (t :: rest) -> top_n n (x :: all) (t :: rest).
Proof.
  intros Hn Hx Hmin (d & Hp & Hl & Hd). exists (x :: d). split_and!.
  - rewrite Hp. apply Permutation_middle.
  - cbn [length] in *. lia.
  - intros k y Hk [->|Hy]%elem_of_cons; [|by apply Hd]. eapply swo_neg_trans; [exact Hx|by apply Hmin].
Qed.

Lemma top_n_pop n t all rest : (forall k, k ∈ t :: rest -> comp_ t k = false) ->
  top_n n all (t :: rest) -> top_n (length rest) all rest.
Proof.
  intros Hmin (d & Hp & Hl & Hd). exists (t :: d). split_and!.
  - rewrite Hp. cbn. apply Permutation_middle.
  - apply Permutation_length in Hp. rewrite length_app in Hp. cbn [length] in *. lia.
  - intros k y Hk [->|Hy]%elem_of_cons; [apply Hmin; by right|]. apply Hd; [by right|done].
Qed.

(** *** One operation *)
Lemma top_n_same n all kept kept' : kept' ≡ₚ kept -> top_n n all kept -> top_n n all kept'.
Proof. by intros ->. Qed.

Lemma front_all t l : is_heap comp_ (t :: l) -> forall k, k ∈ t :: l -> comp_ t k = false.
Proof. intros Hh k. by apply heap_front. Qed.

Lemma push_refines x q heap exact all bound :
  pq_refines q (PqSpec heap exact all bound) -> heap = true -> 0 < bound ->
  exists b q', push_locked comp_ x q = Some (b, q') /\ pq_refines q' (PqSpec heap exact (x :: all) bound) /\
    (if b then x ∈ vecq_ q' else q' = q /\ forall k, k ∈ vecq_ q -> comp_ x k = false).
Proof.
  intros [[Hm Hb] Hsz Hh Hex Hsub] -> Hpos. cbn [sp_bound sp_heap sp_exact sp_all] in *.
  specialize (Hh eq_refl). unfold push_locked. rewrite Hm. unfold size in *.
  destruct (Z.ltb_spec (Z.of_nat (length (vecq_ q))) bound) as [Hlt|Hge].
  - destruct (push_back_heap_ok x (vecq_ q) Hh) as [Hh' Hp]. eexists true, _. split; [done|]. split.
    + split; cbn [with_vec vecq_ maxsz_ sp_bound sp_heap sp_exact sp_all]; unfold size; cbn [with_vec vecq_].
      * done.
      * rewrite Hp. cbn [length]. lia.
      * done.
      * intros He. rewrite Hp. apply top_n_push_room; [lia|]. auto.
      * rewrite Hp. by apply submseteq_skip.
    + cbn [with_vec vecq_]. rewrite Hp. left.
  - destruct (vecq_ q) as [|t rest] eqn:Eq; [cbn in Hge; lia|]. pose proof (front_all _ _ Hh) as Hmin.
    destruct (comp_ x t) eqn:Ex.
    + destruct (pop_back_heap_ok t rest Hh) as [Hh1 Hp1]. destruct (push_heap_ok comp_ _ x Hh1) as [Hh2 Hp2].
      assert (push_heap (pop_back_heap (t :: rest) ++ [x]) ≡ₚ x :: rest) as Hp3
        by (etrans; [exact Hp2|]; by rewrite <- Permutation_cons_append, Hp1).
      eexists true, _. split; [done|]. split.
      * split; cbn [with_vec vecq_ maxsz_ sp_bound sp_heap sp_exact sp_all]; unfold size; cbn [with_vec vecq_].
        -- done.
        -- rewrite Hp3. cbn [length] in *. lia.
        -- done.
        -- intros He. rewrite Hp3. eapply top_n_push_replace; [|done|done|by auto]. lia.
        -- rewrite Hp3. apply submseteq_skip. etrans; [|exact Hsub]. by apply submseteq_cons.
      * cbn [with_vec vecq_]. rewrite Hp3. left.
    + exists false, q. split; [done|]. split.
      * split; cbn [sp_bound sp_heap sp_exact sp_all]; unfold size; rewrite ?Eq; try done.
        -- intros He. apply top_n_push_drop; auto; lia.
        -- by apply submseteq_cons.
      * split; [done|]. intros k Hk. eapply swo_neg_trans; [exact Ex|by apply Hmin].
Qed.

Lemma pop_ok q : is_heap comp_ (vecq_ q) ->
  is_heap comp_ (vecq_ (pop_locked q)) /\ maxsz_ (pop_locked q) = maxsz_ q /\
  length (vecq_ (pop_locked q)) = (length (vecq_ q) - 1)%nat /\ vecq_ (pop_locked q) ⊆+ vecq_ q /\
  forall n all, top_n n all (vecq_ q) -> top_n (length (vecq_ q) - 1) all (vecq_ (pop_locked q)).
Proof.
  intros Hh. unfold pop_locked. destruct (vecq_ q) as [|t rest] eqn:Eq.
  - rewrite Eq. split_and!; try done. intros n all (d & Hp & Hl & Hd). exists d. split_and!; [done|cbn; lia|done].
  - destruct (pop_back_heap_ok t rest Hh) as [Hh1 Hp1]. cbn [with_vec vecq_ maxsz_].
    split_and!; [done|done|rewrite Hp1; cbn; lia|rewrite Hp1; by apply submseteq_cons|]. intros n all Ht.
    rewrite Hp1. replace (length (t :: rest) - 1)%nat with (length rest) by (cbn; lia).
    eapply top_n_pop; [by apply front_all|exact Ht].
Qed.

(** [k] elements removed from the front leave the best of the others. *)
Lemma iter_pop_ok k q : is_heap comp_ (vecq_ q) ->
  let q' := Nat.iter k pop_locked q in
  is_heap comp_ (vecq_ q') /\ maxsz_ q' = maxsz_ q /\
  length (vecq_ q') = (length (vecq_ q) - k)%nat /\ vecq_ q' ⊆+ vecq_ q /\
  forall n all, top_n n all (vecq_ q) -> top_n (length (vecq_ q')) all (vecq_ q').
Proof.
  intros Hh. induction k as [|k IH]; cbv zeta.
  - split_and!; [done|done|cbn; lia|done|]. intros n all (d & Hp & Hl & Hd). exists d.
    split_and!; [done| |done]. apply Permutation_length in Hp. rewrite length_app in Hp. cbn. cbn in *. lia.
  - destruct IH as (Hh1 & Hm1 & Hl1 & Hs1 & Ht1). cbn [Nat.iter nat_rect].
    change (nat_rect _ q _ k) with (Nat.iter k pop_locked q).
    destruct (pop_ok _ Hh1) as (Hh2 & Hm2 & Hl2 & Hs2 & Ht2).
    split_and!; [done|congruence|lia|by etrans|]. intros n all Ht. rewrite Hl2. eapply Ht2. by eapply Ht1.
Qed.

Lemma top_n_full n m all kept : length kept = n -> (n <= m)%nat ->
  top_n m all kept -> top_n n all kept.
Proof.
  intros <- Hm (d & Hp & Hl & Hd). exists d. split_and!; [done| |done].
  apply Permutation_length in Hp. rewrite length_app in Hp. lia.
Qed.

(** Fewer elements than [m] were pushed in all, and all are kept. *)
Lemma top_n_all n m all kept : (length kept < n)%nat -> top_n n all kept -> (length kept <= m)%nat -> top_n m all kept.
Proof. intros Hn (d & Hp & Hl & Hd) Hm. exists d. split_and!; [done|lia|done]. Qed.

(** Changing the vector by a permutation. *)
Lemma perm_refines q l heap heap' exact all bound :
  pq_refines q (PqSpec heap exact all bound) -> l ≡ₚ vecq_ q -> (heap' = true -> is_heap comp_ l) ->
  pq_refines (with_vec l q) (PqSpec heap' exact all bound).
Proof.
  intros [Hm Hsz Hh Hex Hsub] Hp Hl. cbn [sp_bound sp_heap sp_exact sp_all] in *.
  split; unfold size in *; cbn [with_vec vecq_ maxsz_ sp_bound sp_heap sp_exact sp_all]; rewrite ?Hp; auto.
Qed.

Lemma flag_refines q heap heap' exact all bound : pq_refines q (PqSpec heap exact all bound) ->
  (heap' = true -> is_heap comp_ (vecq_ q)) -> pq_refines q (PqSpec heap' exact all bound).
Proof. intros Hr Hh. destruct q as [l m]. by apply (perm_refines (PrioQ l m) l heap). Qed.

Lemma walk_refines stop sort hr q heap exact all bound s' : pq_refines q (PqSpec heap exact all bound) ->
  spec_step (OpWalk stop sort hr) (PqSpec heap exact all bound) = Some s' ->
  pq_refines (walk_queue stop sort hr q).2 s'.
Proof.
  intros Hr Hs. cbn [spec_step] in Hs. unfold walk_queue.
  destruct sort; [|simplify_eq; by destruct (vecq_ q)]. destruct heap; [|done]. simplify_eq.
  destruct (vecq_ q) as [|t rest] eqn:Eq.
  - cbn [snd]. eapply flag_refines; [exact Hr|]. rewrite Eq. intros _. apply is_heap_nil.
  - pose proof Hr as [_ _ Hh _ _]. cbn [sp_heap] in Hh.
    destruct (sort_heap_ok comp_ (vecq_ q) (Hh eq_refl)) as [_ Hp]. cbn [snd andb].
    destruct hr; unfold make_heap_locked, sort_heap_locked; cbn [with_vec vecq_ maxsz_].
    + destruct (make_heap_ok comp_ (sort_heap (vecq_ q))) as [Hh' Hp'].
      apply (perm_refines q _ true); [exact Hr|by rewrite Hp'|done].
    + by apply (perm_refines q _ true).
Qed.

Lemma remove_refines p hr q heap exact all bound : pq_refines q (PqSpec heap exact all bound) ->
  pq_refines (remove_elems p hr q).2 (PqSpec hr false all bound).
Proof.
  intros [Hm Hsz Hh Hex Hsub]. cbn [sp_bound sp_heap sp_exact sp_all] in *. unfold remove_elems.
  destruct (vecq_ q) as [|t rest] eqn:Eq.
  - cbn [snd]. split; cbn [sp_bound sp_heap sp_exact sp_all]; rewrite ?Eq; try done.
  - rewrite <- Eq in *. set (l := base.filter (fun x => p x = false) (vecq_ q)).
    assert (l ⊆+ vecq_ q) as Hl by apply sublist_submseteq, sublist_filter.
    pose proof (submseteq_length _ _ Hl) as Hlen. unfold size in *. cbn [snd].
    destruct hr; [destruct (make_heap_ok comp_ l) as [Hh' Hp']|];
      split; unfold size in *; cbn [make_heap_locked with_vec vecq_ maxsz_ sp_bound sp_heap sp_exact sp_all];
      rewrite ?Hp'; try done; try lia; by etrans.
Qed.

Lemma set_max_refines n q heap exact all bound s' : pq_refines q (PqSpec heap exact all bound) ->
  spec_step (OpSetMax n) (PqSpec heap exact all bound) = Some s' -> pq_refines (set_max_size n q) s'.
Proof.
  intros [[Hm Hb] Hsz Hh Hex Hsub] Hs. cbn [sp_bound sp_heap sp_exact sp_all] in *. cbn [spec_step] in Hs.
  case_if_in Hs; [|done]. injection Hs as <-. breflect. unfold set_max_size. rewrite Hm.
  assert (u32 n = n) as Hn by (apply wrap_id; unfold in_width; lia).
  destruct (Z.eqb_spec n bound) as [->|Hne].
  { split; cbn [sp_bound sp_heap sp_exact sp_all]; auto. intros [He _]%andb_true_iff. auto. }
  destruct (Z.gtb_spec n bound) as [Hgt|Hle].
  { split; unfold size in *; cbn [vecq_ maxsz_ sp_bound sp_heap sp_exact sp_all]; auto; try lia. }
  assert (heap = true) as ->.
  { match goal with H : _ || _ = true |- _ => apply orb_true_iff in H as [|]; breflect; [done|lia] end. }
  unfold size in *.
  destruct (iter_pop_ok (Z.to_nat (Z.of_nat (length (vecq_ q)) - n)) q (Hh eq_refl))
    as (Hh' & Hm' & Hl' & Hs' & Ht'). set (q' := Nat.iter _ pop_locked q) in *. clearbody q'.
  split; unfold size in *; cbn [vecq_ maxsz_ sp_bound sp_heap sp_exact sp_all]; auto; try lia; [|by etrans].
  intros [He _]%andb_true_iff. specialize (Hex He). specialize (Ht' _ _ Hex).
  destruct Hex as (d & Hp & Hl & Hd). destruct Ht' as (d' & Hp' & Hlen' & Hd').
  exists d'. split_and!; [done| |done]. lia.
Qed.

Lemma step_refines op q s s' : pq_refines q s -> spec_step op s = Some s' ->
  exists q', pq_step op q = Some q' /\ pq_refines q' s'.
Proof.
  intros Hr Hs. destruct s as [heap exact all bound].
  destruct op as [x| |stop sort hr|p hr| | | |n]; cbn [pq_step].
  - cbn [spec_step] in Hs. destruct heap; [|done]. destruct (Z.ltb_spec 0 bound); [|done]. simplify_eq/=.
    destruct (push_refines x q true exact all bound Hr) as (b & q' & -> & Hr' & _); [done|done|]. eauto.
  - cbn [spec_step] in Hs. destruct heap; [|done]. simplify_eq. eexists. split; [done|].
    destruct Hr as [Hm Hsz Hh Hex Hsub]. cbn [sp_bound sp_heap sp_exact sp_all] in *.
    destruct (pop_ok q (Hh eq_refl)) as (Hh' & Hm' & Hl' & Hs' & _).
    split; unfold size in *; cbn [sp_bound sp_heap sp_exact sp_all]; [by rewrite Hm'|lia|done|done|by etrans].
  - eexists. split; [done|]. by eapply walk_refines.
  - cbn [spec_step] in Hs. simplify_eq. eexists. split; [done|]. by eapply remove_refines.
  - cbn [spec_step] in Hs. simplify_eq. eexists. split; [done|]. destruct Hr as [[Hm Hb] Hsz Hh Hex Hsub].
    split; unfold size; cbn [clear_locked with_vec vecq_ maxsz_ sp_bound sp_heap sp_exact sp_all length] in *;
      try done; try lia. intros _. exists []. split_and!; [done|cbn; lia|].
    intros k d Hk. by apply elem_of_nil in Hk.
  - cbn [spec_step] in Hs. simplify_eq. eexists. split; [done|].
    destruct (make_heap_ok comp_ (vecq_ q)) as [Hh Hp]. by eapply perm_refines.
  - cbn [spec_step] in Hs. destruct heap; [|done]. simplify_eq. eexists. split; [done|].
    pose proof Hr as [_ _ Hh _ _]. destruct (sort_heap_ok comp_ (vecq_ q) (Hh eq_refl)) as [_ Hp].
    by eapply perm_refines.
  - eexists. split; [done|]. by eapply set_max_refines.
Qed.
End Spec.

(** [try_emplace] with a test that agrees with the order is [push]. *)
Lemma try_emplace_push {A} (comp_ : A -> A -> bool) {O : HeapOps A} comp x q :
  (forall t, comp t = comp_ x t) -> try_emplace_locked comp x q = push_locked comp_ x q.
Proof.
  intros Hc. unfold try_emplace_locked, push_locked. case_if; [done|]. destruct (vecq_ q); [done|]. by rewrite Hc.
Qed.

(** ** An implementation of the algorithms *)
Section Sorting.
Context {A : Type} (comp : A -> A -> bool).

Fixpoint ins (x : A) (l : list A) : list A :=
  match l with [] => [x] | y :: l' => if comp x y then y :: ins x l' else x :: y :: l' end.
Definition hsort (l : list A) : list A := foldr ins [] l.

Definition sort_ops : HeapOps A := {|
  push_heap := hsort;
  pop_heap l := match l with [] => [] | t :: l' => hsort l' ++ [t] end;
  make_heap := hsort;
  sort_heap l := reverse (hsort l) |}.

Lemma ins_perm x l : ins x l ≡ₚ x :: l.
Proof. induction l as [|y l IH]; cbn [ins]; [done|]. case_if; [rewrite IH; constructor|done]. Qed.

Lemma hsort_perm l : hsort l ≡ₚ l.
Proof. induction l as [|x l IH]; cbn [hsort foldr]; [done|]. rewrite ins_perm. by f_equiv. Qed.

Context {W : StrictWeakOrder comp}.

Lemma ins_sorted x l : StronglySorted (fun a b => comp a b = false) l ->
  StronglySorted (fun a b => comp a b = false) (ins x l).
Proof.
  induction 1 as [|y l Hs IH Hall]; cbn [ins]; [repeat constructor|]. destruct (comp x y) eqn:E.
  - constructor; [done|]. rewrite ins_perm. constructor; [by apply swo_asym|done].
  - constructor; [by constructor|]. constructor; [done|]. eapply Forall_impl; [exact Hall|].
    intros z Hz. by eapply swo_neg_trans.
Qed.

Lemma hsort_sorted l : StronglySorted (fun a b => comp a b = false) (hsort l).
Proof. induction l; cbn [hsort foldr]; [constructor|by apply ins_sorted]. Qed.

Lemma sorted_heap l : StronglySorted (fun a b => comp a b = false) l -> is_heap comp l.
Proof.
  intros Hs i x p Hi Hpos Hp. assert ((i - 1) / 2 < i)%nat as Hlt by (apply Nat.Div0.div_lt_upper_bound; lia).
  generalize dependent ((i - 1) / 2)%nat. intros j Hp Hlt. rewrite <- (take_drop i l) in Hs.
  eapply (StronglySorted_app_1_elem_of _ _ _ _ _ Hs).
  - apply list_elem_of_lookup. exists j. by rewrite lookup_take_lt.
  - apply list_elem_of_lookup. exists 0%nat. by rewrite lookup_drop, Nat.add_0_r.
Qed.

Lemma reverse_sorted l : StronglySorted (fun a b => comp a b = false) l ->
  StronglySorted (fun a b => comp b a = false) (reverse l).
Proof.
  induction 1 as [|x l Hs IH Hall]; [constructor|]. rewrite reverse_cons.
  apply StronglySorted_app. split_and!; [|done|repeat constructor].
  intros a b Ha Hb. apply list_elem_of_singleton in Hb as ->. rewrite elem_of_reverse in Ha.
  by eapply Forall_forall in Hall.
Qed.

#[export] Instance sort_laws : HeapLaws comp sort_ops.
Proof.
  split; cbn [push_heap pop_heap make_heap sort_heap sort_ops].
  - intros l x _. split; [apply sorted_heap, hsort_sorted|apply hsort_perm].
  - intros t l _. exists (hsort l). split; [done|]. split; [apply sorted_heap, hsort_sorted|apply hsort_perm].
  - intros l. split; [apply sorted_heap, hsort_sorted|apply hsort_perm].
  - intros l _. split; [apply reverse_sorted, hsort_sorted|]. rewrite reverse_Permutation. apply hsort_perm.
Qed.
End Sorting.

(** ** The orders of the servers, [server/gy_msocket.h] *)

(** The members of [LISTENER_STATE_NOTIFY] that the orders look at. *)
Record listener_state := ListenerState {
  l_curr_state_ : Z; l_tasks_delay_usec_ : Z; l_nqrys_5s_ : Z; l_nconns_active_ : Z;
  l_curr_kbytes_inbound_ : Z; l_curr_kbytes_outbound_ : Z }.

Definition LISTEN_TOPN_is_comp_issue (lhs rhs : listener_state) : bool :=
  (l_curr_state_ lhs >? l_curr_state_ rhs) ||
  ((l_curr_state_ lhs =? l_curr_state_ rhs) && (l_tasks_delay_usec_ lhs >? l_tasks_delay_usec_ rhs)).
Definition LISTEN_TOPN_is_comp_qps (lhs rhs : listener_state) : bool := l_nqrys_5s_ lhs >? l_nqrys_5s_ rhs.
Definition LISTEN_TOPN_is_comp_active_conn (lhs rhs : listener_state) : bool :=
  l_nconns_active_ lhs >? l_nconns_active_ rhs.
Definition LISTEN_TOPN_is_comp_net (lhs rhs : listener_state) : bool :=
  u32 (l_curr_kbytes_inbound_ lhs + l_curr_kbytes_outbound_ lhs) >?
  u32 (l_curr_kbytes_inbound_ rhs + l_curr_kbytes_outbound_ rhs).

(** Those of [AGGR_TASK_STATE_NOTIFY]. *)
Record task_state := TaskState {
  t_tcp_kbytes_ : Z; t_rss_mb_ : Z; t_cpu_delay_msec_ : Z; t_vm_delay_msec_ : Z; t_blkio_delay_msec_ : Z;
  t_ntasks_issue_ : Z; t_severe_issue_bit_hist_ : Z }.

Definition MAGGR_TASK_STATE_is_comp_net (lhs rhs : task_state) : bool := t_tcp_kbytes_ lhs >? t_tcp_kbytes_ rhs.
Definition MAGGR_TASK_STATE_is_comp_rss (lhs rhs : task_state) : bool := t_rss_mb_ lhs >? t_rss_mb_ rhs.
Definition MAGGR_TASK_STATE_is_comp_cpu_delay (lhs rhs : task_state) : bool :=
  t_cpu_delay_msec_ lhs >? t_cpu_delay_msec_ rhs.
Definition MAGGR_TASK_STATE_is_comp_vm_delay (lhs rhs : task_state) : bool :=
  t_vm_delay_msec_ lhs >? t_vm_delay_msec_ rhs.
Definition MAGGR_TASK_STATE_is_comp_io_delay (lhs rhs : task_state) : bool :=
  t_blkio_delay_msec_ lhs >? t_blkio_delay_msec_ rhs.

Definition MTASK_ISSUE_is_comp_issue (lhs rhs : task_state) : bool :=
  (t_ntasks_issue_ lhs >? t_ntasks_issue_ rhs) ||
  ((0 =? Z.land (t_severe_issue_bit_hist_ rhs) 1) &&
   (negb (t_ntasks_issue_ lhs =? 0) && negb (Z.land (t_severe_issue_bit_hist_ lhs) 1 =? 0))).

(** The messages are ordered by time. *)
Definition ORDER_NOTIFY (lhs rhs : Z) : bool := lhs >? rhs.

(** An order by a key. *)
Lemma key_order {A} (key : A -> Z) : StrictWeakOrder (fun x y => key x >? key y).
Proof. split; intros *; rewrite ?Z.gtb_ltb, ?Z.ltb_lt, ?Z.ltb_ge; lia. Qed.

#[export] Instance top_issue_order : StrictWeakOrder LISTEN_TOPN_is_comp_issue.
Proof.
  split; unfold LISTEN_TOPN_is_comp_issue; intros *;
    rewrite ?orb_true_iff, ?orb_false_iff, ?andb_true_iff, ?andb_false_iff, ?Z.gtb_ltb, ?Z.ltb_lt, ?Z.ltb_ge,
      ?Z.eqb_eq, ?Z.eqb_neq; lia.
Qed.
#[export] Instance top_qps_order : StrictWeakOrder LISTEN_TOPN_is_comp_qps.
Proof. apply key_order. Qed.
#[export] Instance top_active_conn_order : StrictWeakOrder LISTEN_TOPN_is_comp_active_conn.
Proof. apply key_order. Qed.
#[export] Instance top_listener_net_order : StrictWeakOrder LISTEN_TOPN_is_comp_net.
Proof. apply (key_order (fun l => u32 (l_curr_kbytes_inbound_ l + l_curr_kbytes_outbound_ l))). Qed.
#[export] Instance top_task_net_order : StrictWeakOrder MAGGR_TASK_STATE_is_comp_net.
Proof. apply key_order. Qed.
#[export] Instance top_rss_order : StrictWeakOrder MAGGR_TASK_STATE_is_comp_rss.
Proof. apply key_order. Qed.
#[export] Instance top_cpu_delay_order : StrictWeakOrder MAGGR_TASK_STATE_is_comp_cpu_delay.
Proof. apply key_order. Qed.
#[export] Instance top_vm_delay_order : StrictWeakOrder MAGGR_TASK_STATE_is_comp_vm_delay.
Proof. apply key_order. Qed.
#[export] Instance top_io_delay_order : StrictWeakOrder MAGGR_TASK_STATE_is_comp_io_delay.
Proof. apply key_order. Qed.
#[export] Instance notify_order : StrictWeakOrder ORDER_NOTIFY.
Proof. apply (key_order id). Qed.

(** ** Theorems *)

(** C28 : for a strict weak order and heap algorithms that keep their contract, a
    queue implements its specification: every sequence of operations that the
    specification allows runs without touching the front of an empty vector; the queue
    never holds more than its bound, nor anything that was not pushed; it is a heap
    where the specification says so; and as long as nothing was removed or the bound
    raised, it holds the best of all the elements pushed since it was cleared. *)
Theorem queue_refines {A} (comp : A -> A -> bool) (O : HeapOps A) (maxsz : Z) (ops : list (pq_op A)) s :
  StrictWeakOrder comp -> HeapLaws comp O -> 0 <= maxsz < 2 ^ 32 ->
  spec_run ops (PqSpec true true [] maxsz) = Some s ->
  exists q, pq_run comp ops (pq_new maxsz) = Some q /\ pq_refines comp q s.
Proof.
  intros W OL Hm. assert (pq_refines comp (pq_new maxsz) (PqSpec true true [] maxsz)) as H0.
  { split; unfold pq_new, size; cbn [vecq_ maxsz_ sp_bound sp_heap sp_exact sp_all length]; try done; try lia.
    - by rewrite wrap_id.
    - intros _. exists []. split_and!; [done|cbn; lia|]. intros k d Hk. by apply elem_of_nil in Hk. }
  revert H0. generalize (pq_new (A := A) maxsz) as q, (PqSpec (A := A) true true [] maxsz) as s0.
  induction ops as [|op ops IH]; intros q s0 Hr Hs; cbn [spec_run pq_run] in *; [simplify_eq; eauto|].
  destruct (spec_step op s0) as [s1|] eqn:E; [|done].
  destruct (step_refines comp op q s0 s1 Hr E) as (q1 & -> & Hr1). by eapply IH.
Qed.

(** The order of the queue of tasks with issues is not an order: of two tasks,
    one with more tasks in trouble and one with a severe issue, each comes before the
    other, so that the premise of the heap algorithms fails. *)
Theorem task_issue_not_order :
  (exists a b, MTASK_ISSUE_is_comp_issue a b = true /\ MTASK_ISSUE_is_comp_issue b a = true) /\
  ~ StrictWeakOrder MTASK_ISSUE_is_comp_issue.
Proof.
  assert (exists a b, MTASK_ISSUE_is_comp_issue a b = true /\ MTASK_ISSUE_is_comp_issue b a = true) as Hex.
  { exists (TaskState 0 0 0 0 0 1 1), (TaskState 0 0 0 0 0 2 0). split; by vm_compute. }
  split; [done|]. intros W. destruct Hex as (a & b & Hab & Hba).
  pose proof (swo_asym MTASK_ISSUE_is_comp_issue a b Hab). congruence.
Qed.

(** ** Concrete queues *)
Module QueueExamples.

(** The three largest of six numbers. *)
Definition ex_ops : list (pq_op Z) :=
  OpWalk (fun _ => false) true true :: (OpPush <$> [5; 1; 9; 3; 7; 2]) ++ [OpSetMax 2; OpSortHeap].

#[local] Instance ex_ops_heap : HeapOps Z := sort_ops ORDER_NOTIFY.

Lemma queue_refines_witness :
  exists q, pq_run ORDER_NOTIFY ex_ops (pq_new 3) = Some q /\ vecq_ q = [9; 7] /\
    top_n ORDER_NOTIFY 2 [2; 7; 3; 9; 1; 5] (vecq_ q).
Proof.
  destruct (queue_refines ORDER_NOTIFY ex_ops_heap 3 ex_ops (PqSpec false true [2; 7; 3; 9; 1; 5] 2)
    notify_order (sort_laws ORDER_NOTIFY)) as (q & Hq & Hr).
  - lia.
  - by vm_compute.
  - exists q. split; [exact Hq|]. split.
    + vm_compute in Hq. by injection Hq as <-.
    + apply (pr_exact _ _ _ Hr). reflexivity.
Defined.

(** A push into a queue of size 0 takes the front of an empty vector. *)
Lemma push_size_0 x : push_locked ORDER_NOTIFY x (pq_new 0) = None.
Proof. done. Qed.
End QueueExamples.
