(* ===== verification/JHash.v ===== *)
(** * JHash : the hash function of the address tables (common/jhash.h).

    [jhash] hashes bytes, [jhash2] is the version for 32-bit words that the
    address classes call; the theorem states that the latter computes the former
    on the bytes of the words. *)
From S2P Require Import Prelude Bytes.

Definition JHASH_GOLDEN_RATIO : Z := 0x9e3779b9.

(** The three words of the state. *)
Record jstate := JState { ja : Z; jb : Z; jc : Z }.

Definition jhash_mix (s : jstate) : jstate :=
  let '(JState a b c) := s in
  let a := Z.lxor (u32 (u32 (a - b) - c)) (Z.shiftr c 13) in
  let b := Z.lxor (u32 (u32 (b - c) - a)) (u32 (Z.shiftl a 8)) in
  let c := Z.lxor (u32 (u32 (c - a) - b)) (Z.shiftr b 13) in
  let a := Z.lxor (u32 (u32 (a - b) - c)) (Z.shiftr c 12) in
  let b := Z.lxor (u32 (u32 (b - c) - a)) (u32 (Z.shiftl a 16)) in
  let c := Z.lxor (u32 (u32 (c - a) - b)) (Z.shiftr b 5) in
  let a := Z.lxor (u32 (u32 (a - b) - c)) (Z.shiftr c 3) in
  let b := Z.lxor (u32 (u32 (b - c) - a)) (u32 (Z.shiftl a 10)) in
  let c := Z.lxor (u32 (u32 (c - a) - b)) (Z.shiftr b 15) in
  JState a b c.

(** The word stored at four bytes. *)
Definition word (k0 k1 k2 k3 : Z) : Z :=
  u32 (u32 (u32 (k0 + u32 (Z.shiftl k1 8)) + u32 (Z.shiftl k2 16)) + u32 (Z.shiftl k3 24)).

(** The loop of [jhash]: twelve bytes at a time; the state and the bytes left. *)
Fixpoint jhash_loop (s : jstate) (k : list Z) : jstate * list Z :=
  match k with
  | k0 :: k1 :: k2 :: k3 :: k4 :: k5 :: k6 :: k7 :: k8 :: k9 :: k10 :: k11 :: k' =>
      let '(JState a b c) := s in
      jhash_loop (jhash_mix (JState (u32 (a + word k0 k1 k2 k3)) (u32 (b + word k4 k5 k6 k7))
        (u32 (c + word k8 k9 k10 k11)))) k'
  | _ => (s, k)
  end.

(** One case of the fall-through switch: byte [i] is added when there are more
    than [i] bytes left. *)
Definition add_byte (k : list Z) (i : nat) (sh x : Z) : Z :=
  match k !! i with Some b => u32 (x + u32 (Z.shiftl b sh)) | None => x end.

Definition jhash (key : list Z) (initval : Z) : Z :=
  let '(JState a b c, k) :=
    jhash_loop (JState JHASH_GOLDEN_RATIO JHASH_GOLDEN_RATIO initval) key in
  let c := u32 (c + u32 (blen key)) in
  let c := add_byte k 8 8 (add_byte k 9 16 (add_byte k 10 24 c)) in
  let b := add_byte k 4 0 (add_byte k 5 8 (add_byte k 6 16 (add_byte k 7 24 b))) in
  let a := add_byte k 0 0 (add_byte k 1 8 (add_byte k 2 16 (add_byte k 3 24 a))) in
  jc (jhash_mix (JState a b c)).

Fixpoint jhash2_loop (s : jstate) (k : list Z) : jstate * list Z :=
  match k with
  | k0 :: k1 :: k2 :: k' =>
      let '(JState a b c) := s in
      jhash2_loop (jhash_mix (JState (u32 (a + k0)) (u32 (b + k1)) (u32 (c + k2)))) k'
  | _ => (s, k)
  end.

Definition jhash2 (k : list Z) (initval : Z) : Z :=
  let '(JState a b c, r) :=
    jhash2_loop (JState JHASH_GOLDEN_RATIO JHASH_GOLDEN_RATIO initval) k in
  let c := u32 (c + u32 (u32 (blen k) * 4)) in
  let b := match r !! 1%nat with Some w => u32 (b + w) | None => b end in
  let a := match r !! 0%nat with Some w => u32 (a + w) | None => a end in
  jc (jhash_mix (JState a b c)).

Definition jhash_3words (a b c initval : Z) : Z :=
  jc (jhash_mix (JState (u32 (a + JHASH_GOLDEN_RATIO)) (u32 (b + JHASH_GOLDEN_RATIO))
    (u32 (c + initval)))).
Definition jhash_2words (a b initval : Z) : Z := jhash_3words a b 0 initval.
Definition jhash_1word (a initval : Z) : Z := jhash_3words a 0 0 initval.

(** ** Words and bytes *)

(** The bytes of the words on the little-endian host. *)
Definition word_bytes (ws : list Z) : list Z := ws ≫= le_bytes 4.

Lemma u32_shiftl_byte b sh : in_width 8 b -> 0 <= sh <= 24 -> u32 (Z.shiftl b sh) = b * 2 ^ sh.
Proof.
  intros Hb Hs. rewrite Z.shiftl_mul_pow2 by lia. apply wrap_id. unfold in_width in *.
  pose proof (Z.pow_le_mono_r 2 sh 24 ltac:(lia) ltac:(lia)).
  pose proof (Z.mul_le_mono_nonneg b 255 (2 ^ sh) (2 ^ 24)).
  change (2 ^ 8) with 256 in *. change (2 ^ 32) with 4294967296. change (2 ^ 24) with 16777216 in *.
  split; [apply Z.mul_nonneg_nonneg|]; lia.
Qed.

Lemma word_sum b0 b1 b2 b3 :
  in_width 8 b0 -> in_width 8 b1 -> in_width 8 b2 -> in_width 8 b3 ->
  word b0 b1 b2 b3 = b0 + b1 * 256 + b2 * 65536 + b3 * 16777216.
Proof.
  intros. unfold word. rewrite !u32_shiftl_byte by (done || lia).
  change (2 ^ 8) with 256. change (2 ^ 16) with 65536. change (2 ^ 24) with 16777216.
  unfold in_width in *. change (2 ^ 8) with 256 in *.
  repeat rewrite ?wrap_add_l, <- ?Z.add_assoc.
  apply wrap_id. unfold in_width. change (2 ^ 32) with 4294967296. lia.
Qed.

Lemma word_le_bytes w : in_width 32 w ->
  word (w mod 256) (w / 256 mod 256) (w / 256 / 256 mod 256) (w / 256 / 256 / 256 mod 256) = w.
Proof.
  intros Hw. rewrite word_sum by (apply (wrap_range 8); lia).
  unfold in_width in Hw. change (2 ^ 32) with 4294967296 in Hw. zdiv.
Qed.

(** Adding the four bytes of a word one by one adds the word. *)
Lemma add_bytes_word x b0 b1 b2 b3 :
  in_width 8 b0 -> in_width 8 b1 -> in_width 8 b2 -> in_width 8 b3 ->
  u32 (u32 (u32 (u32 (x + u32 (Z.shiftl b3 24)) + u32 (Z.shiftl b2 16)) + u32 (Z.shiftl b1 8))
    + u32 (Z.shiftl b0 0)) = u32 (x + word b0 b1 b2 b3).
Proof.
  intros. rewrite word_sum, !u32_shiftl_byte by (done || lia).
  repeat rewrite ?wrap_add_l, <- ?Z.add_assoc. f_equal. lia.
Qed.

(** Lists by three elements at a time. *)
Lemma list_ind3 {A} (P : list A -> Prop) :
  (forall l, (length l < 3)%nat -> P l) ->
  (forall x y z l, P l -> P (x :: y :: z :: l)) -> forall l, P l.
Proof.
  intros H0 H3. fix IH 1. intros [|x [|y [|z l]]]; [apply H0; simpl; lia..|]. apply H3, IH.
Qed.

Lemma jhash_loop_words ws : Forall (in_width 32) ws -> forall s,
  jhash_loop s (word_bytes ws) = ((jhash2_loop s ws).1, word_bytes (jhash2_loop s ws).2).
Proof.
  induction ws as [ws Hl|x y z ws IH] using list_ind3; intros Hws s.
  - destruct ws as [|x [|y [|z ws]]]; [done..|]. simpl in Hl. lia.
  - rewrite !list.Forall_cons in Hws. destruct Hws as (Hx & Hy & Hz & Hws), s as [a b c].
    unfold word_bytes in *. cbn [mbind list_bind le_bytes app jhash_loop jhash2_loop].
    rewrite !word_le_bytes by done. by apply IH.
Qed.

Lemma jhash2_loop_rest ws : forall s,
  (length (jhash2_loop s ws).2 < 3)%nat /\
  (Forall (in_width 32) ws -> Forall (in_width 32) (jhash2_loop s ws).2).
Proof.
  induction ws as [ws Hl|x y z ws IH] using list_ind3; intros s.
  - destruct ws as [|x [|y [|z ws]]]; [done..|]. simpl in Hl. lia.
  - destruct s. cbn [jhash2_loop]. split; [apply IH|].
    rewrite !list.Forall_cons. intros (_ & _ & _ & H). by apply IH.
Qed.

Lemma blen_word_bytes ws : blen (word_bytes ws) = 4 * blen ws.
Proof.
  unfold blen, word_bytes. induction ws as [|w ws IH]; [done|].
  rewrite bind_cons, length_app, length_le_bytes. rewrite length_cons. lia.
Qed.

(** The version of the hash for words computes the hash of the bytes of the
    words: on every list of 32-bit words and every start value, [jhash2] equals
    [jhash] on the little-endian bytes. *)
Theorem jhash2_is_jhash ws initval : Forall (in_width 32) ws ->
  jhash2 ws initval = jhash (word_bytes ws) initval.
Proof.
  intros Hws. unfold jhash2, jhash. rewrite jhash_loop_words by done.
  set (s := JState _ _ _). destruct (jhash2_loop_rest ws s) as [Hl Hr].
  specialize (Hr Hws). rewrite blen_word_bytes.
  replace (u32 (u32 (blen ws) * 4)) with (u32 (4 * blen ws))
    by (unfold wrap; rewrite Zmult_mod_idemp_l; f_equal; lia).
  destruct (jhash2_loop s ws) as [[a b c] r]. cbn [fst snd] in *.
  destruct r as [|x [|y [|z r]]]; [done|..|simpl in Hl; lia];
    rewrite ?list.Forall_cons in Hr; unfold word_bytes;
    cbn [mbind list_bind le_bytes app]; unfold add_byte; simpl lookup; cbv iota beta;
    rewrite !add_bytes_word by apply (wrap_range 8 _ ltac:(lia));
    rewrite !word_le_bytes by tauto; done.
Qed.

Module JHashExamples.
Lemma jhash2_is_jhash_witness :
  jhash2 [0x0100000a; 1; 2; 0xfffffffe; 7] 0xceedfead =
  jhash [10; 0; 0; 1; 1; 0; 0; 0; 2; 0; 0; 0; 254; 255; 255; 255; 7; 0; 0; 0] 0xceedfead.
Proof.
  apply (jhash2_is_jhash [0x0100000a; 1; 2; 0xfffffffe; 7]).
  repeat (constructor; [by vm_compute|]). constructor.
Defined.
End JHashExamples.
