(* ===== verification/IpAddr.v ===== *)
(** * IpAddr : IP addresses and address-port pairs (common/gy_common_inc.h).

    [GY_IP_ADDR] and [IP_PORT] with the classification of an address, equality,
    hashing and the conversions from and to socket addresses.  The 128-bit and
    32-bit members hold the bytes of the address in network order, so that byte
    [i] of the address is byte [i] of the integer on the little-endian host. *)
From S2P Require Import Prelude Bytes BpfCommon JHash.

(** ** IP_ADDR_TYPE_E *)
Definition IP_MISC : Z := 0.
Definition IPv4_ANY : Z := Z.shiftl 1 0.
Definition IPv4_MULTICAST : Z := Z.shiftl 1 1.
Definition IPv4_LINK_LOCAL : Z := Z.shiftl 1 2.
Definition IPv4_LOOPBACK : Z := Z.shiftl 1 3.
Definition IPv4_GLOBAL_ADDR : Z := Z.shiftl 1 4.
Definition IPv4_PRIVATE_ADDR : Z := Z.shiftl 1 5.
Definition IPv6_ANY : Z := Z.shiftl 1 6.
Definition IPv6_v4_MAPPED_v6 : Z := Z.shiftl 1 7.
Definition IPv6_NAT64_v4 : Z := Z.shiftl 1 8.
Definition IPv6_LINK_LOCAL : Z := Z.shiftl 1 9.
Definition IPv6_MULTICAST : Z := Z.shiftl 1 10.
Definition IPv6_6_TO_4_TUNNEL : Z := Z.shiftl 1 11.
Definition IPv6_LOOPBACK : Z := Z.shiftl 1 12.
Definition IPv6_GLOBAL_ADDR : Z := Z.shiftl 1 13.
Definition IPv6_UNIQUE_LOCAL : Z := Z.shiftl 1 14.

(** [embedded_ipv4_] is a union with [ip32_be_]. *)
Record GY_IP_ADDR := GyIpAddr {
  ip128_be_ : Z;
  ip32_be_ : Z;
  aftype_ : Z;
  ipflags_ : Z;
}.

Definition GY_IP_ADDR_default : GY_IP_ADDR := GyIpAddr 0 0 AF_INET IP_MISC.

(** ** Classification *)

(** The integer a [memcpy] of these bytes gives. *)
Fixpoint of_le (bs : list Z) : Z :=
  match bs with [] => 0 | b :: bs' => b + 256 * of_le bs' end.

(** The four bytes from offset [i] of the address. *)
Definition ipv4_at (ip128 i : Z) : Z :=
  of_le [byte_of ip128 i; byte_of ip128 (i + 1); byte_of ip128 (i + 2); byte_of ip128 (i + 3)].

(** The type flags and the value given to [embedded_ipv4_]. *)
Definition get_ipv6_type_flags (ip128 : Z) : Z * Z :=
  let pipbuf := byte_of ip128 in
  if ip128 =? 0 then (IPv6_ANY, 0) else
  if (0 =? Z.land ip128 (Z.ones 64)) && (Z.shiftl 1 56 =? Z.shiftr ip128 64)
  then (IPv6_LOOPBACK, 0) else
  if Z.land (pipbuf 0) 0xF0 =? 0x20 then
    if (pipbuf 0 =? 0x20) && (pipbuf 1 =? 0x02) then (IPv6_6_TO_4_TUNNEL, ipv4_at ip128 2)
    else if negb ((pipbuf 0 =? 0x20) && (pipbuf 1 =? 0x01) && (pipbuf 2 =? 0x0d) && (pipbuf 3 =? 0xb8))
    then (IPv6_GLOBAL_ADDR, 0) else (IP_MISC, 0)
  else
  if (0 =? Z.land ip128 (Z.ones 64)) &&
     ((pipbuf 8 =? 0) && (pipbuf 9 =? 0) && (pipbuf 10 =? 0xFF) && (pipbuf 11 =? 0xFF))
  then (IPv6_v4_MAPPED_v6, ipv4_at ip128 12) else
  if (pipbuf 0 =? 0) && (pipbuf 1 =? 0x64) && (pipbuf 2 =? 0xFF) && (pipbuf 3 =? 0x9B)
  then (IPv6_NAT64_v4, ipv4_at ip128 12) else
  if pipbuf 0 =? 0xFE then
    if 0x80 =? Z.land (pipbuf 1) 0xF0 then (IPv6_LINK_LOCAL, 0) else (IP_MISC, 0)
  else if (pipbuf 0 =? 0xFC) || (pipbuf 0 =? 0xFD) then (IPv6_UNIQUE_LOCAL, 0)
  else if pipbuf 0 =? 0xFF then (IPv6_MULTICAST, 0)
  else (IP_MISC, 0).

Definition get_ipv4_type_flags (ip32 : Z) : Z :=
  let pipbuf := byte_of ip32 in
  if ip32 =? 0 then IPv4_ANY else
  if pipbuf 0 =? 0x7F then IPv4_LOOPBACK else
  if (pipbuf 0 =? 0x0A) || (pipbuf 0 =? 0xAC) && (0x10 =? Z.land (pipbuf 1) 0xF0) ||
     (pipbuf 0 =? 0xC0) && (pipbuf 1 =? 0xA8) then IPv4_PRIVATE_ADDR else
  if 0xE0 =? Z.land (pipbuf 0) 0xE0 then IPv4_MULTICAST else
  if (pipbuf 0 =? 0xA9) && (pipbuf 1 =? 0xFE) then IPv4_LINK_LOCAL else
  IPv4_GLOBAL_ADDR.

(** ** Operations of GY_IP_ADDR *)
Definition set_ip_v4 (ip32_be : Z) : GY_IP_ADDR :=
  GyIpAddr 0 ip32_be AF_INET (get_ipv4_type_flags ip32_be).

Definition set_ip_v6 (ip128_be : Z) : GY_IP_ADDR :=
  let '(flags, embedded) := get_ipv6_type_flags ip128_be in
  GyIpAddr ip128_be embedded AF_INET6 flags.

(** [set_ip] of a text: [inet_pton] is the C library's; the result is [None]
    for a text that is not an address. *)
Definition set_ip_str (inet_pton : Z -> list Z -> option (list Z)) (pipstr : list Z) : option GY_IP_ADDR :=
  if existsb (Z.eqb 58 (* ':' *)) pipstr
  then (fun b => set_ip_v6 (of_le b)) <$> inet_pton AF_INET6 pipstr
  else (fun b => set_ip_v4 (of_le b)) <$> inet_pton AF_INET pipstr.

(** The conversion from [IPv4_v6]. *)
Definition set_ip_v4_v6 (is_v6 : bool) (addr : Z) : GY_IP_ADDR :=
  if negb is_v6 then set_ip_v4 addr else set_ip_v6 addr.

Definition ip_eq (lhs rhs : GY_IP_ADDR) : bool :=
  if negb (ip32_be_ lhs =? 0) || negb (ip32_be_ rhs =? 0)
  then ip32_be_ lhs =? ip32_be_ rhs
  else ip128_be_ lhs =? ip128_be_ rhs.

Definition has_flag (a : GY_IP_ADDR) (mask : Z) : bool := negb (Z.land (ipflags_ a) mask =? 0).

Definition is_ipv4_addr (a : GY_IP_ADDR) : bool := aftype_ a =? AF_INET.
Definition is_ipv6_addr (a : GY_IP_ADDR) : bool := aftype_ a =? AF_INET6.
Definition is_pure_ipv6 (a : GY_IP_ADDR) : bool := (aftype_ a =? AF_INET6) && (ip32_be_ a =? 0).
Definition is_embedded_ipv4 (a : GY_IP_ADDR) : bool :=
  (aftype_ a =? AF_INET6) && negb (ip32_be_ a =? 0).
Definition get_sockfamily (a : GY_IP_ADDR) : Z :=
  if negb (is_pure_ipv6 a) then AF_INET else AF_INET6.
Definition is_multicast (a : GY_IP_ADDR) : bool := has_flag a (Z.lor IPv4_MULTICAST IPv6_MULTICAST).
Definition is_link_local_addr (a : GY_IP_ADDR) : bool :=
  has_flag a (Z.lor IPv4_LINK_LOCAL IPv6_LINK_LOCAL).
Definition is_global_ip (a : GY_IP_ADDR) : bool :=
  has_flag a (Z.lor IPv4_GLOBAL_ADDR IPv6_GLOBAL_ADDR).
Definition is_private_ip (a : GY_IP_ADDR) : bool :=
  has_flag a (Z.lor IPv4_PRIVATE_ADDR IPv6_UNIQUE_LOCAL).
Definition is_loopback (a : GY_IP_ADDR) : bool := has_flag a (Z.lor IPv4_LOOPBACK IPv6_LOOPBACK).
Definition is_any_address (a : GY_IP_ADDR) : bool := has_flag a (Z.lor IPv4_ANY IPv6_ANY).
Definition is_mapped_ipv4 (a : GY_IP_ADDR) : bool := has_flag a IPv6_v4_MAPPED_v6.
Definition is_nat64_ipv4 (a : GY_IP_ADDR) : bool := has_flag a IPv6_NAT64_v4.
Definition is_ipv6_v4_tunnel (a : GY_IP_ADDR) : bool := has_flag a IPv6_6_TO_4_TUNNEL.
Definition is_valid_ip (a : GY_IP_ADDR) : bool := negb ((ip32_be_ a =? 0) && (ip128_be_ a =? 0)).
Definition is_init (a : GY_IP_ADDR) : bool := negb (ipflags_ a =? IP_MISC).

(** The bytes copied; their number is the value returned. *)
Definition get_as_inaddr (a : GY_IP_ADDR) : list Z :=
  if negb (ip32_be_ a =? 0) then le_bytes 4 (ip32_be_ a) else le_bytes 16 (ip128_be_ a).

(** A buffer of bytes seen as [uint32_t]s. *)
Fixpoint words_of (bs : list Z) : list Z :=
  match bs with
  | b0 :: b1 :: b2 :: b3 :: bs' => of_le [b0; b1; b2; b3] :: words_of bs'
  | _ => []
  end.

Definition IP_HASH_SEED : Z := 0xceedfead.

Definition get_hash (a : GY_IP_ADDR) : Z := jhash2 (words_of (get_as_inaddr a)) IP_HASH_SEED.

(** ** IP_PORT *)
Record IP_PORT := IpPort { ipaddr_ : GY_IP_ADDR; port_ : Z }.

Definition EPHEMERAL_PORT_START : Z := 16000.

Definition ip_port_eq (lhs rhs : IP_PORT) : bool :=
  (port_ lhs =? port_ rhs) && ip_eq (ipaddr_ lhs) (ipaddr_ rhs).

Definition is_ephemeral_port (p : IP_PORT) : bool := port_ p >=? EPHEMERAL_PORT_START.

Definition ip_port_hash_bytes (ignore_ip : bool) (p : IP_PORT) : list Z :=
  (if negb ignore_ip then get_as_inaddr (ipaddr_ p) else []) ++
  [u8 (Z.shiftr (port_ p) 8); Z.land (port_ p) 0xFF; 0; 0].

Definition ip_port_get_hash (ignore_ip : bool) (p : IP_PORT) : Z :=
  jhash2 (words_of (ip_port_hash_bytes ignore_ip p)) IP_HASH_SEED.

(** [ONLY_PORT]: the comparison that lets the any-address match every address. *)
Definition only_port_eq (lhs rhs : IP_PORT) : bool :=
  (port_ lhs =? port_ rhs) &&
  (is_any_address (ipaddr_ lhs) || is_any_address (ipaddr_ rhs) || ip_eq (ipaddr_ lhs) (ipaddr_ rhs)).

(** *** Socket addresses, as bytes: the family, the port and the address of
    [sockaddr_in] are at offsets 0, 2 and 4, those of [sockaddr_in6] at 0, 2 and 8. *)
Definition SIZEOF_sockaddr_in : Z := 16.
Definition SIZEOF_sockaddr_in6 : Z := 28.

(** The exception for another family or length is [None]. *)
Definition ip_port_of_sockaddr (sa : list Z) (addrlen : Z) : acc (option IP_PORT) :=
  let! family := rd_le 2 sa 0 in
  if (family =? AF_INET) && (addrlen >=? SIZEOF_sockaddr_in) then
    let! ip := rd_le 4 sa 4 in
    let! port := rd_be16 sa 2 in
    Acc (Some (IpPort (set_ip_v4 ip) port))
  else if (family =? AF_INET6) && (addrlen >=? SIZEOF_sockaddr_in6) then
    let! ip := rd_le 16 sa 8 in
    let! port := rd_be16 sa 2 in
    Acc (Some (IpPort (set_ip_v6 ip) port))
  else Acc None.

(** The constructor of GY_IP_ADDR from the same. *)
Definition ip_of_sockaddr (sa : list Z) (addrlen : Z) : acc (option GY_IP_ADDR) :=
  let! family := rd_le 2 sa 0 in
  if (family =? AF_INET) && (addrlen >=? SIZEOF_sockaddr_in) then
    let! ip := rd_le 4 sa 4 in Acc (Some (set_ip_v4 ip))
  else if (family =? AF_INET6) && (addrlen >=? SIZEOF_sockaddr_in6) then
    let! ip := rd_le 16 sa 8 in Acc (Some (set_ip_v6 ip))
  else Acc None.

(** [memcpy] of [bs] to offset [off]. *)
Definition wr_bytes (buf : list Z) (off : Z) (bs : list Z) : acc (list Z) :=
  if (0 <=? off) && (off + blen bs <=? blen buf)
  then Acc (take (Z.to_nat off) buf ++ bs ++ drop (Z.to_nat off + length bs) buf) else Oob.

(** [get_as_sockaddr]: the storage, the length and the family. *)
Definition get_as_sockaddr (p : IP_PORT) (sa : list Z) : acc (list Z * Z * Z) :=
  let port_be := [u8 (Z.shiftr (port_ p) 8); Z.land (port_ p) 0xFF] in
  if negb (is_pure_ipv6 (ipaddr_ p)) then
    let! sa := wr_bytes sa 0 (replicate (Z.to_nat SIZEOF_sockaddr_in) 0) in
    let! sa := wr_bytes sa 0 (le_bytes 2 AF_INET) in
    let! sa := wr_bytes sa 2 port_be in
    let! sa := wr_bytes sa 4 (get_as_inaddr (ipaddr_ p)) in
    Acc (sa, SIZEOF_sockaddr_in, AF_INET)
  else
    let! sa := wr_bytes sa 0 (replicate (Z.to_nat SIZEOF_sockaddr_in6) 0) in
    let! sa := wr_bytes sa 0 (le_bytes 2 AF_INET6) in
    let! sa := wr_bytes sa 2 port_be in
    let! sa := wr_bytes sa 8 (get_as_inaddr (ipaddr_ p)) in
    Acc (sa, SIZEOF_sockaddr_in6, AF_INET6).

(** ** Bytes of the integers *)
Lemma byte_of_0 b r : in_width 8 b -> byte_of (b + 256 * r) 0 = b.
Proof.
  intros Hb. unfold byte_of. change 255 with (Z.ones 8). rewrite Z.land_ones, Z.shiftr_0_r by lia.
  rewrite Z.mul_comm, Z.mod_add by lia. by apply Z.mod_small.
Qed.

Lemma byte_of_S b r i : in_width 8 b -> 0 <= i -> byte_of (b + 256 * r) (i + 1) = byte_of r i.
Proof.
  intros Hb Hi. unfold byte_of. f_equal. replace (8 * (i + 1)) with (8 + 8 * i) by lia.
  rewrite <- Z.shiftr_shiftr by lia. f_equal. rewrite Z.shiftr_div_pow2 by lia.
  change (2 ^ 8) with 256. rewrite Z.mul_comm, Z.div_add by lia. rewrite Z.div_small by done. lia.
Qed.

Lemma byte_of_of_le bs : bytes_wf bs -> forall i, 0 <= i ->
  byte_of (of_le bs) i = default 0 (bs !! Z.to_nat i).
Proof.
  induction 1 as [|b bs Hb Hbs IH]; intros i Hi.
  - cbn [of_le]. unfold byte_of. by rewrite Z.shiftr_0_l.
  - destruct (Z.eq_dec i 0) as [->|]; [by apply byte_of_0|]. cbn [of_le].
    replace i with (i - 1 + 1) at 1 by lia. rewrite byte_of_S, IH by (done || lia).
    by replace (Z.to_nat i) with (S (Z.to_nat (i - 1))) by lia.
Qed.

Lemma of_le_app a b : of_le (a ++ b) = of_le a + 2 ^ (8 * blen a) * of_le b.
Proof.
  unfold blen. induction a as [|x a IH]; cbn [of_le app length].
  - change (8 * Z.of_nat 0) with 0. rewrite Z.pow_0_r. lia.
  - rewrite IH. replace (8 * Z.of_nat (S (length a))) with (8 + 8 * Z.of_nat (length a)) by lia.
    rewrite Z.pow_add_r by lia. lia.
Qed.

Lemma of_le_range bs : bytes_wf bs -> in_width (8 * blen bs) (of_le bs).
Proof.
  unfold blen. induction 1 as [|b bs Hb Hbs IH]; [done|]. cbn [of_le length]. unfold in_width in *.
  replace (8 * Z.of_nat (S (length bs))) with (8 + 8 * Z.of_nat (length bs)) by lia.
  rewrite Z.pow_add_r by lia. change (2 ^ 8) with 256 in *. lia.
Qed.

Lemma le_bytes_of_le bs : bytes_wf bs -> le_bytes (length bs) (of_le bs) = bs.
Proof.
  induction 1 as [|b bs Hb Hbs IH]; [done|]. cbn [of_le length le_bytes].
  rewrite Z.mul_comm, Z.mod_add, Z.div_add by lia.
  rewrite Z.mod_small, Z.div_small by done. by rewrite Z.add_0_l, IH.
Qed.

Lemma of_le_le_bytes n : forall v, in_width (8 * Z.of_nat n) v -> of_le (le_bytes n v) = v.
Proof.
  induction n as [|n IH]; intros v Hv; cbn [of_le le_bytes].
  { unfold in_width in Hv. simpl in Hv. lia. }
  rewrite IH; [rewrite (Z.div_mod v 256) at 3 by lia; lia|].
  unfold in_width in *. replace (8 * Z.of_nat (S n)) with (8 + 8 * Z.of_nat n) in Hv by lia.
  rewrite Z.pow_add_r in Hv by lia. change (2 ^ 8) with 256 in Hv.
  split; [apply Z.div_pos; lia|apply Z.div_lt_upper_bound; lia].
Qed.

Lemma le_bytes_inj n v w : in_width (8 * Z.of_nat n) v -> in_width (8 * Z.of_nat n) w ->
  le_bytes n v = le_bytes n w -> v = w.
Proof. intros Hv Hw E. rewrite <- (of_le_le_bytes n v), <- (of_le_le_bytes n w) by done. by rewrite E. Qed.

(** Equality of two values of the same width byte by byte. *)
Fixpoint list_eqb (a b : list Z) : bool :=
  match a, b with
  | x :: a', y :: b' => (x =? y) && list_eqb a' b'
  | [], [] => true
  | _, _ => false
  end.

Lemma of_le_eqb a : bytes_wf a -> forall b, bytes_wf b -> length a = length b ->
  (of_le a =? of_le b) = list_eqb a b.
Proof.
  induction 1 as [|x a Hx Ha IH]; intros b Hb Hl; destruct b as [|y b]; try done; [].
  apply list.Forall_cons in Hb as [Hy Hb]. cbn [of_le list_eqb]. rewrite <- IH by auto.
  unfold in_width in Hx, Hy. change (2 ^ 8) with 256 in *.
  apply eq_true_iff_eq. rewrite andb_true_iff, !Z.eqb_eq. lia.
Qed.

Lemma of_le_eqb_0 a : bytes_wf a -> (of_le a =? 0) = list_eqb a (replicate (length a) 0).
Proof.
  intros Ha. replace 0 with (of_le (replicate (length a) 0)) at 1.
  - apply of_le_eqb; [done|by apply Forall_replicate|by rewrite length_replicate].
  - induction (length a) as [|n IH]; [done|]. cbn [replicate of_le]. lia.
Qed.

(** The low and the high 64 bits of a 128-bit address are its two halves. *)
Lemma halves64 a : bytes_wf a -> (8 <= length a)%nat ->
  Z.land (of_le a) (Z.ones 64) = of_le (take 8 a) /\ Z.shiftr (of_le a) 64 = of_le (drop 8 a).
Proof.
  intros Ha Hl. rewrite <- (take_drop 8 a) in Ha |- * at 1 3. apply Forall_app in Ha as [Ha _].
  pose proof (of_le_range _ Ha) as H. rewrite of_le_app. unfold blen in *.
  rewrite length_take_le in * by done. change (8 * Z.of_nat 8) with 64 in *.
  rewrite Z.land_ones, Z.shiftr_div_pow2, Z.mul_comm, Z.mod_add, Z.div_add by lia.
  rewrite Z.mod_small, Z.div_small by done. done.
Qed.

(** ** Reference: tables of address blocks *)

(** The block of the addresses that share the first [len] bits of [p]. *)
Fixpoint in_prefix (len : nat) (p a : list Z) : bool :=
  match p, a with
  | x :: p', y :: a' =>
      if Nat.ltb len 8 then Z.shiftr y (Z.of_nat (8 - len)) =? Z.shiftr x (Z.of_nat (8 - len))
      else (y =? x) && in_prefix (len - 8) p' a'
  | _, _ => true
  end.

(** A block with the flags of its addresses and, for those that carry an IPv4
    address, its offset. *)
Record block := Block { bl_prefix : list Z; bl_len : nat; bl_flags : Z; bl_ipv4 : option nat }.

Fixpoint classify (bls : list block) (a : list Z) : Z * Z :=
  match bls with
  | [] => (IP_MISC, 0)
  | bl :: bls' =>
      if in_prefix (bl_len bl) (bl_prefix bl) a
      then (bl_flags bl, match bl_ipv4 bl with Some o => of_le (take 4 (drop o a)) | None => 0 end)
      else classify bls' a
  end.

(** The blocks of the standards: RFC 1122, 1918, 5771 and 3927; RFC 4291, 3056, 3849, 6052
    and 4193. *)
Definition ipv4_std : list block := [
  Block [0; 0; 0; 0] 32%nat IPv4_ANY None;
  Block [127] 8%nat IPv4_LOOPBACK None;
  Block [10] 8%nat IPv4_PRIVATE_ADDR None;
  Block [172; 16] 12%nat IPv4_PRIVATE_ADDR None;
  Block [192; 168] 16%nat IPv4_PRIVATE_ADDR None;
  Block [224] 4%nat IPv4_MULTICAST None;
  Block [169; 254] 16%nat IPv4_LINK_LOCAL None;
  Block [] 0%nat IPv4_GLOBAL_ADDR None ].

Definition nat64_prefix : list Z := [0x00; 0x64; 0xff; 0x9b] ++ replicate 8 0.

Definition ipv6_std : list block := [
  Block (replicate 16 0) 128%nat IPv6_ANY None;
  Block (replicate 15 0 ++ [1]) 128%nat IPv6_LOOPBACK None;
  Block [0x20; 0x02] 16%nat IPv6_6_TO_4_TUNNEL (Some 2%nat);
  Block [0x20; 0x01; 0x0d; 0xb8] 32%nat IP_MISC None;
  Block [0x20] 3%nat IPv6_GLOBAL_ADDR None;
  Block (replicate 10 0 ++ [0xff; 0xff]) 96%nat IPv6_v4_MAPPED_v6 (Some 12%nat);
  Block nat64_prefix 96%nat IPv6_NAT64_v4 (Some 12%nat);
  Block [0xfe; 0x80] 10%nat IPv6_LINK_LOCAL None;
  Block [0xfc] 7%nat IPv6_UNIQUE_LOCAL None;
  Block [0xff] 8%nat IPv6_MULTICAST None ].

(** The addresses that the masks of the code classify otherwise: 240.0.0.0/4, taken as
    multicast; 3000::/4, not taken as global; fe80::/10 outside fe80::/12, not taken as
    link-local; and 64:ff9b::/32 outside the well-known /96, taken as NAT64. *)
Definition other_v4 (a : list Z) : bool := in_prefix 4 [240] a.
Definition other_v6 (a : list Z) : bool :=
  in_prefix 4 [0x30] a ||
  (in_prefix 10 [0xfe; 0x80] a && negb (in_prefix 12 [0xfe; 0x80] a)) ||
  (in_prefix 32 (take 4 nat64_prefix) a && negb (in_prefix 96 nat64_prefix a)).

(** The blocks of the masks of the code. *)
Definition ipv4_blocks : list block := [
  Block [0; 0; 0; 0] 32%nat IPv4_ANY None;
  Block [127] 8%nat IPv4_LOOPBACK None;
  Block [10] 8%nat IPv4_PRIVATE_ADDR None;
  Block [172; 16] 12%nat IPv4_PRIVATE_ADDR None;
  Block [192; 168] 16%nat IPv4_PRIVATE_ADDR None;
  Block [224] 3%nat IPv4_MULTICAST None;
  Block [169; 254] 16%nat IPv4_LINK_LOCAL None;
  Block [] 0%nat IPv4_GLOBAL_ADDR None ].

Definition ipv6_blocks : list block := [
  Block (replicate 16 0) 128%nat IPv6_ANY None;
  Block (replicate 15 0 ++ [1]) 128%nat IPv6_LOOPBACK None;
  Block [0x20; 0x02] 16%nat IPv6_6_TO_4_TUNNEL (Some 2%nat);
  Block [0x20; 0x01; 0x0d; 0xb8] 32%nat IP_MISC None;
  Block [0x20] 4%nat IPv6_GLOBAL_ADDR None;
  Block (replicate 10 0 ++ [0xff; 0xff]) 96%nat IPv6_v4_MAPPED_v6 (Some 12%nat);
  Block (take 4 nat64_prefix) 32%nat IPv6_NAT64_v4 (Some 12%nat);
  Block [0xfe; 0x80] 12%nat IPv6_LINK_LOCAL None;
  Block [0xfc] 7%nat IPv6_UNIQUE_LOCAL None;
  Block [0xff] 8%nat IPv6_MULTICAST None ].

(** A fact that is decided by computing on all bytes. *)
Lemma byte_case (P : Z -> bool) b :
  forallb P (seqZ 0 256) = true -> in_width 8 b -> P b = true.
Proof.
  intros H Hb. rewrite forallb_forall in H. apply H.
  apply list_elem_of_In, elem_of_seqZ. unfold in_width in Hb. change (2 ^ 8) with 256 in Hb. lia.
Qed.

Lemma high_nibble b c d : in_width 8 b -> d = 16 * c ->
  (Z.land b 0xF0 =? d) = (Z.shiftr b 4 =? c).
Proof.
  intros Hb ->. assert (Z.land b 0xF0 = 16 * Z.shiftr b 4) as ->.
  { apply Z.eqb_eq. by apply (byte_case (fun b => Z.land b 0xF0 =? 16 * Z.shiftr b 4)). }
  apply eq_true_iff_eq. rewrite !Z.eqb_eq. lia.
Qed.

Lemma high_bits3 b : in_width 8 b -> (Z.land b 0xE0 =? 0xE0) = (Z.shiftr b 5 =? 7).
Proof.
  intros Hb. apply eqb_true_iff.
  by apply (byte_case (fun b => eqb (Z.land b 0xE0 =? 0xE0) (Z.shiftr b 5 =? 7))).
Qed.

Lemma high_bits7 b : in_width 8 b -> (b =? 0xFC) || (b =? 0xFD) = (Z.shiftr b 1 =? 126).
Proof.
  intros Hb. apply eqb_true_iff.
  by apply (byte_case (fun b => eqb ((b =? 0xFC) || (b =? 0xFD)) (Z.shiftr b 1 =? 126))).
Qed.

(** Computes the shifts by constants. *)
Ltac const_shifts :=
  repeat match goal with
  | |- context [Z.shiftr ?x ?k] =>
      first [ is_var x; let k' := eval vm_compute in k in progress change (Z.shiftr x k) with (Z.shiftr x k')
            | assert_fails (is_var x); let v := eval vm_compute in (Z.shiftr x k) in
              change (Z.shiftr x k) with v ]
  end.

(** Splits on the comparison of a byte with a constant, or on another test. *)
Ltac byte_tests :=
  repeat (match goal with
  | |- context [?x =? ?c] => is_var x; destruct (Z.eqb_spec x c); [subst x|]
  | |- context [Z.shiftr ?x ?n =? ?c] => is_var x; destruct (Z.eqb_spec (Z.shiftr x n) c)
  end; cbn; const_shifts; cbn; try reflexivity; try congruence).

Lemma ipv4_flags_blocks a : bytes_wf a -> length a = 4%nat ->
  get_ipv4_type_flags (of_le a) = (classify ipv4_blocks a).1.
Proof.
  intros Hwf Hl. destruct a as [|a0 [|a1 [|a2 [|a3 [|]]]]]; try done; [].
  unfold get_ipv4_type_flags. rewrite !byte_of_of_le by (done || lia).
  simpl default.
  rewrite of_le_eqb_0 by done.
  unfold bytes_wf in Hwf. rewrite !list.Forall_cons in Hwf. destruct Hwf as (H0 & H1 & _ & _).
  rewrite !(Z.eqb_sym _ (Z.land _ _)), (high_nibble a1 1 16), high_bits3 by done.
  cbn. const_shifts. byte_tests.
Qed.

Lemma ipv6_flags_blocks a : bytes_wf a -> length a = 16%nat ->
  get_ipv6_type_flags (of_le a) = classify ipv6_blocks a.
Proof.
  intros Hwf Hl.
  destruct a as [|a0 [|a1 [|a2 [|a3 [|a4 [|a5 [|a6 [|a7 [|a8 [|a9 [|a10 [|a11 [|a12 [|a13 [|a14 [|a15 [|]
    ]]]]]]]]]]]]]]]]; try discriminate Hl; [].
  unfold get_ipv6_type_flags, ipv4_at. rewrite !byte_of_of_le by (done || lia). simpl default.
  destruct (halves64 _ Hwf) as [-> ->]; [simpl; lia|].
  rewrite !(Z.eqb_sym _ (of_le _)), !of_le_eqb_0 by (done || by apply Forall_take).
  change (Z.shiftl 1 56) with (of_le [0; 0; 0; 0; 0; 0; 0; 1]).
  rewrite of_le_eqb by (done || (by apply bytes_wf_dec) || by apply Forall_drop).
  unfold bytes_wf in Hwf. rewrite !list.Forall_cons in Hwf. destruct Hwf as (H0 & H1 & _).
  rewrite (Z.eqb_sym 128), (high_nibble a0 2 32), (high_nibble a1 8 128), high_bits7 by done.
  cbn. const_shifts. byte_tests.
Qed.

(** *** The masks of the code and the standards *)
Lemma multicast_block b a : in_width 8 b -> in_prefix 4 [240] (b :: a) = false ->
  in_prefix 3 [224] (b :: a) = in_prefix 4 [224] (b :: a).
Proof.
  intros Hb E. change ((Z.shiftr b 4 =? 15) = false) in E. change ((Z.shiftr b 5 =? 7) = (Z.shiftr b 4 =? 14)).
  pose proof (byte_case (fun b => (Z.shiftr b 4 =? 15) || eqb (Z.shiftr b 5 =? 7) (Z.shiftr b 4 =? 14)) b
    ltac:(by vm_compute) Hb) as H. cbn beta in H. rewrite E in H. by apply eqb_prop in H.
Qed.

Lemma global_block b a : in_width 8 b -> in_prefix 4 [0x30] (b :: a) = false ->
  in_prefix 4 [0x20] (b :: a) = in_prefix 3 [0x20] (b :: a).
Proof.
  intros Hb E. change ((Z.shiftr b 4 =? 3) = false) in E. change ((Z.shiftr b 4 =? 2) = (Z.shiftr b 5 =? 1)).
  pose proof (byte_case (fun b => (Z.shiftr b 4 =? 3) || eqb (Z.shiftr b 4 =? 2) (Z.shiftr b 5 =? 1)) b
    ltac:(by vm_compute) Hb) as H. cbn beta in H. rewrite E in H. by apply eqb_prop in H.
Qed.

(** A narrow block and a wide one differ only on the addresses of the wide one outside. *)
Lemma narrow_wide (n w : bool) : (n = true -> w = true) -> w && negb n = false -> n = w.
Proof. destruct n, w; cbn; intros H ?; try done. by rewrite H. Qed.

Lemma link_local_block b0 b1 a : in_width 8 b1 ->
  in_prefix 12 [0xfe; 0x80] (b0 :: b1 :: a) = true -> in_prefix 10 [0xfe; 0x80] (b0 :: b1 :: a) = true.
Proof.
  intros Hb. change ((b0 =? 0xfe) && (Z.shiftr b1 4 =? 8) = true -> (b0 =? 0xfe) && (Z.shiftr b1 6 =? 2) = true).
  rewrite !andb_true_iff. intros [Hfe E]. split; [done|].
  pose proof (byte_case (fun b => negb (Z.shiftr b 4 =? 8) || (Z.shiftr b 6 =? 2)) b1 ltac:(by vm_compute) Hb) as H2.
  cbn beta in H2. by rewrite E in H2.
Qed.

Lemma nat64_block a : in_prefix 96 nat64_prefix a = true -> in_prefix 32 (take 4 nat64_prefix) a = true.
Proof.
  destruct a as [|a0 [|a1 [|a2 [|a3 a]]]]; try done; unfold nat64_prefix; cbn -[Z.eqb Z.shiftr]; rewrite !andb_true_iff; [naive_solver..|].
  intros (? & ? & ? & ? & _). by split_and!.
Qed.

Lemma ipv4_masks_std a : bytes_wf a -> length a = 4%nat -> other_v4 a = false -> classify ipv4_blocks a = classify ipv4_std a.
Proof.
  intros Hwf Hl Ho. destruct a as [|b a]; [done|]. apply list.Forall_cons in Hwf as [Hb _].
  unfold ipv4_blocks, ipv4_std. cbn [classify bl_len bl_prefix bl_flags bl_ipv4].
  by rewrite (multicast_block b a Hb Ho).
Qed.

Lemma ipv6_masks_std a : bytes_wf a -> length a = 16%nat -> other_v6 a = false -> classify ipv6_blocks a = classify ipv6_std a.
Proof.
  intros Hwf Hl Ho. destruct a as [|b0 [|b1 a]]; [done|done|].
  unfold bytes_wf in Hwf. rewrite !list.Forall_cons in Hwf. destruct Hwf as (H0 & H1 & _).
  unfold other_v6 in Ho. apply orb_false_iff in Ho as [Ho H64]. apply orb_false_iff in Ho as [Hg Hll].
  unfold ipv6_blocks, ipv6_std. cbn [classify bl_len bl_prefix bl_flags bl_ipv4].
  rewrite (global_block b0 (b1 :: a) H0 Hg), (narrow_wide _ _ (link_local_block b0 b1 a H1) Hll).
  by rewrite (narrow_wide _ _ (nat64_block (b0 :: b1 :: a)) H64).
Qed.

(** C29 : the classification of addresses.  For every IPv4 address outside 240.0.0.0/4 and
    every IPv6 address outside 3000::/4, fe90::/12 to feb0::/12 and the part of
    64:ff9b::/32 that is not 64:ff9b::/96, the flags set are those of the first block of the
    tables of the standards it lies in, and [embedded_ipv4_] gets the IPv4 address that the
    6to4, NAT64 and IPv4-mapped blocks carry, otherwise 0. *)
Theorem classification_correct :
  (forall a, bytes_wf a -> length a = 4%nat -> other_v4 a = false ->
     set_ip_v4 (of_le a) = GyIpAddr 0 (of_le a) AF_INET (classify ipv4_std a).1) /\
  (forall a, bytes_wf a -> length a = 16%nat -> other_v6 a = false ->
     set_ip_v6 (of_le a) = GyIpAddr (of_le a) (classify ipv6_std a).2 AF_INET6 (classify ipv6_std a).1).
Proof.
  split; intros a Ha Hl Ho.
  - unfold set_ip_v4. by rewrite ipv4_flags_blocks, ipv4_masks_std.
  - unfold set_ip_v6. rewrite ipv6_flags_blocks, ipv6_masks_std by done. by destruct (classify _ _).
Qed.

(** ** Well-formed addresses *)

(** The values the class can have: the initial one and those its setters give. *)
Inductive ip_wf : GY_IP_ADDR -> Prop :=
  | ip_wf_default : ip_wf GY_IP_ADDR_default
  | ip_wf_v4 v : in_width 32 v -> ip_wf (set_ip_v4 v)
  | ip_wf_v6 v : in_width 128 v -> ip_wf (set_ip_v6 v).
#[export] Hint Constructors ip_wf : gy.

Lemma v6_bytes v : in_width 128 v -> exists a, bytes_wf a /\ length a = 16%nat /\ v = of_le a.
Proof.
  intros Hv. exists (le_bytes 16 v). split; [apply le_bytes_wf|].
  split; [apply length_le_bytes|by rewrite of_le_le_bytes].
Qed.

Lemma v4_bytes v : in_width 32 v -> exists a, bytes_wf a /\ length a = 4%nat /\ v = of_le a.
Proof.
  intros Hv. exists (le_bytes 4 v). split; [apply le_bytes_wf|].
  split; [apply length_le_bytes|by rewrite of_le_le_bytes].
Qed.

(** The flags with which an IPv6 address may carry an IPv4 address. *)
Definition embedding_flags : list Z := [IPv6_6_TO_4_TUNNEL; IPv6_v4_MAPPED_v6; IPv6_NAT64_v4].

(** All flags an address may have: one bit of [IP_ADDR_TYPE_E], or none. *)
Definition v4_flags : list Z :=
  [IPv4_ANY; IPv4_LOOPBACK; IPv4_PRIVATE_ADDR; IPv4_MULTICAST; IPv4_LINK_LOCAL; IPv4_GLOBAL_ADDR].
Definition v6_flags : list Z :=
  embedding_flags ++ [IP_MISC; IPv6_ANY; IPv6_LOOPBACK; IPv6_GLOBAL_ADDR; IPv6_LINK_LOCAL;
    IPv6_UNIQUE_LOCAL; IPv6_MULTICAST].

Ltac in_list := apply (bool_decide_unpack _); exact I.

Lemma ipv4_at_range ip i : in_width 32 (ipv4_at ip i).
Proof.
  unfold ipv4_at. eapply (of_le_range [_; _; _; _]). repeat constructor; apply byte_of_range.
Qed.

Lemma v4_flags_type v : get_ipv4_type_flags v ∈ v4_flags.
Proof. unfold get_ipv4_type_flags. repeat (case_if; [in_list|]). in_list. Qed.

Lemma v6_flags_type v :
  let '(flags, embedded) := get_ipv6_type_flags v in
  flags ∈ v6_flags /\ in_width 32 embedded /\ (embedded <> 0 -> flags ∈ embedding_flags).
Proof.
  unfold get_ipv6_type_flags. repeat case_if; (split; [in_list|]);
    (split; [by (apply ipv4_at_range || done)|]); try congruence; intros _; in_list.
Qed.

(** C30 : the invariant of the class.  In every address the setters can make,
    the members are within their widths, the family is IPv4 or IPv6, the flags are
    one flag of that family or none, an IPv4 address has no 128-bit part, and an
    IPv6 address has a 32-bit part only with one of the flags that announce it. *)
Theorem ip_addr_type a : ip_wf a ->
  in_width 128 (ip128_be_ a) /\ in_width 32 (ip32_be_ a) /\ in_width 15 (ipflags_ a) /\
  (aftype_ a = AF_INET /\ ip128_be_ a = 0 /\ ipflags_ a ∈ IP_MISC :: v4_flags \/
   aftype_ a = AF_INET6 /\ ipflags_ a ∈ v6_flags /\
     (ip32_be_ a <> 0 -> ipflags_ a ∈ embedding_flags)).
Proof.
  assert (forall f, f ∈ IP_MISC :: v4_flags ++ v6_flags -> in_width 15 f) as Hw.
  { intros f Hf. apply in_widthb_spec. revert f Hf. apply (proj1 (list.Forall_forall _ _)).
    by apply (bool_decide_unpack _). }
  intros [|v Hv|v Hv].
  - split_and!; try done. left. split_and!; [done..|left].
  - pose proof (v4_flags_type v) as Hf. split_and!; try done; [|left].
    + apply Hw. right. by apply elem_of_app; left.
    + split_and!; [done..|by right].
  - unfold set_ip_v6. pose proof (v6_flags_type v) as Hf.
    destruct (get_ipv6_type_flags v) as [f e], Hf as (Hf & He & Hm). split_and!; try done; [|by right].
    apply Hw. right. by apply elem_of_app; right.
Qed.

(** ** Equality and hashing *)

(** The members are within their widths. *)
Definition ip_in_width (a : GY_IP_ADDR) : Prop :=
  in_width 128 (ip128_be_ a) /\ in_width 32 (ip32_be_ a).

Lemma ip_wf_width a : ip_wf a -> ip_in_width a.
Proof.
  intros [|v Hv|v Hv]; [done..|]. unfold set_ip_v6, ip_in_width. pose proof (v6_flags_type v) as H.
  destruct (get_ipv6_type_flags v). simpl. tauto.
Qed.
#[export] Hint Resolve ip_wf_width : gy.

Lemma ip_eq_inaddr a b : ip_in_width a -> ip_in_width b ->
  (ip_eq a b = true <-> get_as_inaddr a = get_as_inaddr b).
Proof.
  intros [Ha1 Ha2] [Hb1 Hb2]. unfold ip_eq, get_as_inaddr.
  destruct (Z.eqb_spec (ip32_be_ a) 0) as [Ea|Ea], (Z.eqb_spec (ip32_be_ b) 0) as [Eb|Eb];
    cbn [negb orb]; rewrite Z.eqb_eq.
  - split; [by intros ->|apply (le_bytes_inj 16); done].
  - split; [congruence|]. intros H. by apply (f_equal length) in H; rewrite !length_le_bytes in H.
  - split; [congruence|]. intros H. by apply (f_equal length) in H; rewrite !length_le_bytes in H.
  - split; [by intros ->|apply (le_bytes_inj 4); done].
Qed.

(** The four bytes behind the address determine the port. *)
Lemma port_bytes_inj p q : in_width 16 p -> in_width 16 q ->
  u8 (Z.shiftr p 8) = u8 (Z.shiftr q 8) -> Z.land p 0xFF = Z.land q 0xFF -> p = q.
Proof.
  intros Hp Hq. change 0xFF with (Z.ones 8). rewrite !Z.land_ones, !Z.shiftr_div_pow2 by lia.
  unfold wrap, in_width in *. change (2 ^ 16) with 65536 in *. change (2 ^ 8) with 256. intros. zdiv.
Qed.

(** Equality and hashing agree.  On all addresses the class can hold,
    equality of address-port pairs is equality of the bytes that are hashed: it is
    an equivalence, and equal pairs (and addresses) have equal hash values. *)
Theorem ip_port_eq_hash p q :
  ip_wf (ipaddr_ p) -> ip_wf (ipaddr_ q) -> in_width 16 (port_ p) -> in_width 16 (port_ q) ->
  (ip_port_eq p q = true <-> ip_port_hash_bytes false p = ip_port_hash_bytes false q) /\
  (ip_port_eq p q = true -> ip_port_get_hash false p = ip_port_get_hash false q) /\
  (ip_eq (ipaddr_ p) (ipaddr_ q) = true -> get_hash (ipaddr_ p) = get_hash (ipaddr_ q)).
Proof.
  intros Hp%ip_wf_width Hq%ip_wf_width Pp Pq.
  assert (ip_port_eq p q = true <-> ip_port_hash_bytes false p = ip_port_hash_bytes false q) as Heq.
  { unfold ip_port_eq, ip_port_hash_bytes. rewrite andb_true_iff, Z.eqb_eq, ip_eq_inaddr by done.
    split; [by intros [-> ->]|]. intros H. apply app_inj_2 in H as [Ha [= H1 H2]]; [|done].
    split; [by apply port_bytes_inj|done]. }
  split; [done|]. unfold ip_port_get_hash, get_hash. split.
  - intros H. by rewrite (proj1 Heq H).
  - intros H. by rewrite (proj1 (ip_eq_inaddr _ _ Hp Hq) H).
Qed.

(** Two 6to4 addresses of the same site compare equal.  Addresses of a
    6to4 network 2002:a.b.c.d::/48 with an IPv4 part that is not 0 are equal
    whatever their last 80 bits are, and equal to the IPv4 address. *)
Theorem sixto4_site_equal v r r' :
  bytes_wf v -> length v = 4%nat -> of_le v <> 0 ->
  bytes_wf r -> length r = 10%nat -> bytes_wf r' -> length r' = 10%nat ->
  let a := set_ip_v6 (of_le ([0x20; 0x02] ++ v ++ r)) in
  let b := set_ip_v6 (of_le ([0x20; 0x02] ++ v ++ r')) in
  ip_eq a b = true /\ ip_eq a (set_ip_v4 (of_le v)) = true /\
  (r <> r' -> ip128_be_ a <> ip128_be_ b).
Proof.
  intros Hv Lv Nv Hr Lr Hr' Lr'.
  assert (forall s, bytes_wf s -> length s = 10%nat ->
    set_ip_v6 (of_le ([0x20; 0x02] ++ v ++ s)) =
    GyIpAddr (of_le ([0x20; 0x02] ++ v ++ s)) (of_le v) AF_INET6 IPv6_6_TO_4_TUNNEL) as E.
  { intros s Hs Ls. unfold set_ip_v6. rewrite ipv6_flags_blocks.
    - destruct v as [|v0 [|v1 [|v2 [|v3 [|]]]]]; try discriminate Lv. reflexivity.
    - repeat (constructor; [done|]). by apply Forall_app.
    - rewrite !length_app, Lv, Ls. done. }
  cbv zeta. rewrite !E by done. unfold ip_eq. cbn [ip32_be_ ip128_be_ set_ip_v4].
  rewrite (proj2 (Z.eqb_neq _ _) Nv), Z.eqb_refl. split_and!; [done..|].
  intros Hne Heq. apply Hne. rewrite !of_le_app in Heq.
  assert (of_le r = of_le r') as Hor by (unfold blen in Heq; rewrite Lv in Heq; simpl length in Heq;
    change (8 * Z.of_nat 4) with 32 in Heq; change (8 * Z.of_nat 2) with 16 in Heq; lia).
  rewrite <- (le_bytes_of_le r), <- (le_bytes_of_le r') by done. by rewrite Lr, Lr', Hor.
Qed.

(** ** Socket addresses *)
Lemma set_ip_v6_ip128 v : ip128_be_ (set_ip_v6 v) = v.
Proof. unfold set_ip_v6. by destruct (get_ipv6_type_flags v). Qed.

Lemma wr_bytes_ok buf (off : nat) bs : (off + length bs <= length buf)%nat ->
  wr_bytes buf (Z.of_nat off) bs = Acc (take off buf ++ bs ++ drop (off + length bs) buf).
Proof.
  intros H. unfold wr_bytes, blen.
  rewrite (proj2 (Z.leb_le _ _)), (proj2 (Z.leb_le _ _)) by lia. cbn [andb]. by rewrite Nat2Z.id.
Qed.

(** The stores of [get_as_sockaddr]: the structure of [sz] bytes is zeroed, then
    its family, port and address (at [off]) are stored. *)
Lemma sockaddr_stores (sz off : nat) f0 f1 p0 p1 ad sa :
  (4 <= off <= sz)%nat -> (sz <= length sa)%nat -> (off + length ad <= length sa)%nat ->
  exists s1 s2 s3,
    wr_bytes sa 0 (replicate sz 0) = Acc s1 /\ wr_bytes s1 0 [f0; f1] = Acc s2 /\
    wr_bytes s2 2 [p0; p1] = Acc s3 /\
    wr_bytes s3 (Z.of_nat off) ad = Acc ([f0; f1; p0; p1] ++ replicate (off - 4) 0 ++ ad ++
      drop (off + length ad) (replicate sz 0 ++ drop sz sa)).
Proof.
  intros Ho Hsz Had. destruct sz as [|[|[|[|sz]]]]; [lia..|]. eexists _, _, _.
  split; [apply (wr_bytes_ok _ 0); rewrite length_replicate; lia|].
  rewrite take_0, length_replicate. cbn [app replicate Nat.add].
  split; [apply (wr_bytes_ok _ 0); simpl; lia|]. cbn [take app drop length Nat.add].
  split; [apply (wr_bytes_ok _ 2); simpl; lia|]. cbn [take app drop length Nat.add].
  rewrite drop_0, wr_bytes_ok by (cbn [length]; rewrite length_app, length_replicate, length_drop; lia).
  destruct off as [|[|[|[|off]]]]; [lia..|]. cbn [take app Nat.add drop]. do 5 f_equal.
  replace (S (S (S (S off))) - 4)%nat with off by lia.
  rewrite take_app_le, take_replicate by (rewrite length_replicate; lia). do 2 f_equal. lia.
Qed.

Lemma port_bytes_read sa p : in_width 16 p ->
  sa !! 2%nat = Some (u8 (Z.shiftr p 8)) -> sa !! 3%nat = Some (Z.land p 0xFF) ->
  rd_be16 sa 2 = Acc p.
Proof.
  intros Hp H2 H3. unfold rd_be16, rd8. change (Z.to_nat 2) with 2%nat.
  change (Z.to_nat (2 + 1)) with 3%nat. change (2 <? 0) with false.
  change (2 + 1 <? 0) with false. rewrite H2, H3. cbn [acc_bind]. f_equal.
  change 0xFF with (Z.ones 8). rewrite Z.land_ones by lia.
  rewrite lor_shiftl_add by (lia || apply (wrap_range 8); lia). rewrite Z.shiftr_div_pow2 by lia.
  unfold wrap, in_width in *. change (2 ^ 16) with 65536 in *. change (2 ^ 8) with 256. zdiv.
Qed.

(** What the constructor reads back from these bytes. *)
Lemma sockaddr_reads_v4 p rest v : in_width 16 p -> in_width 32 v ->
  ip_port_of_sockaddr ([2; 0; u8 (Z.shiftr p 8); Z.land p 0xFF] ++ le_bytes 4 v ++ rest)
    SIZEOF_sockaddr_in = Acc (Some (IpPort (set_ip_v4 v) p)).
Proof.
  intros Hp Hv. unfold ip_port_of_sockaddr.
  rewrite (rd_le_mid 4 [_; _; _; _]), (port_bytes_read _ p) by done. done.
Qed.

Lemma sockaddr_reads_v6 p rest v : in_width 16 p -> in_width 128 v ->
  ip_port_of_sockaddr ([10; 0; u8 (Z.shiftr p 8); Z.land p 0xFF] ++ [0; 0; 0; 0] ++ le_bytes 16 v ++ rest)
    SIZEOF_sockaddr_in6 = Acc (Some (IpPort (set_ip_v6 v) p)).
Proof.
  intros Hp Hv. unfold ip_port_of_sockaddr.
  rewrite app_assoc, (rd_le_mid 16 _ rest v), (port_bytes_read _ p) by done. done.
Qed.

(** The bytes that [get_as_sockaddr] stores. *)
Lemma get_as_sockaddr_v6 a port sa : is_pure_ipv6 a = true -> (28 <= length sa)%nat ->
  exists rest, get_as_sockaddr (IpPort a port) sa =
    Acc ([10; 0; u8 (Z.shiftr port 8); Z.land port 0xFF] ++ [0; 0; 0; 0] ++
      le_bytes 16 (ip128_be_ a) ++ rest, SIZEOF_sockaddr_in6, AF_INET6).
Proof.
  intros Hp Hsa. unfold get_as_sockaddr. cbn [ipaddr_ port_]. rewrite Hp. cbn [negb].
  unfold is_pure_ipv6, get_as_inaddr in *. breflect. rewrite H0. cbn [negb Z.eqb].
  destruct (sockaddr_stores 28 8 10 0 (u8 (Z.shiftr port 8)) (Z.land port 0xFF)
    (le_bytes 16 (ip128_be_ a)) sa) as (s1 & s2 & s3 & E1 & E2 & E3 & E4);
    [lia..|rewrite length_le_bytes; lia|].
  change (Z.to_nat SIZEOF_sockaddr_in6) with 28%nat. change (le_bytes 2 AF_INET6) with [10; 0].
  change (Z.of_nat 8) with 8 in E4. rewrite E1. cbn [acc_bind]. rewrite E2. cbn [acc_bind].
  rewrite E3. cbn [acc_bind]. rewrite E4. by eexists.
Qed.

Lemma get_as_sockaddr_v4 a port sa : is_pure_ipv6 a = false -> (20 <= length sa)%nat ->
  (ip32_be_ a = 0 -> ip128_be_ a = 0) ->
  exists rest, get_as_sockaddr (IpPort a port) sa =
    Acc ([2; 0; u8 (Z.shiftr port 8); Z.land port 0xFF] ++ le_bytes 4 (ip32_be_ a) ++ rest,
      SIZEOF_sockaddr_in, AF_INET).
Proof.
  intros Hp Hsa H0. unfold get_as_sockaddr. cbn [ipaddr_ port_]. rewrite Hp. cbn [negb].
  assert (exists r, get_as_inaddr a = le_bytes 4 (ip32_be_ a) ++ r) as [r Hr].
  { unfold get_as_inaddr. destruct (Z.eqb_spec (ip32_be_ a) 0) as [E|E]; cbn [negb].
    - exists (replicate 12 0). by rewrite H0, E.
    - exists []. by rewrite app_nil_r. }
  assert (length (get_as_inaddr a) <= 16)%nat as Hl
    by (unfold get_as_inaddr; case_if; rewrite length_le_bytes; lia).
  destruct (sockaddr_stores 16 4 2 0 (u8 (Z.shiftr port 8)) (Z.land port 0xFF)
    (get_as_inaddr a) sa) as (s1 & s2 & s3 & E1 & E2 & E3 & E4); [lia..|].
  change (Z.to_nat SIZEOF_sockaddr_in) with 16%nat. change (le_bytes 2 AF_INET) with [2; 0].
  change (Z.of_nat 4) with 4 in E4. rewrite E1. cbn [acc_bind]. rewrite E2. cbn [acc_bind].
  rewrite E3. cbn [acc_bind]. rewrite E4, Hr. cbn [Nat.sub replicate]. rewrite app_nil_l, <- !app_assoc. by eexists.
Qed.

(** C39 : socket addresses round trip.  Storing any address and port the classes
    can hold as a socket address stays inside the storage, and reading the storage
    back succeeds and gives a pair equal to the stored one, identical to it when
    the address is an IPv6 address without embedded IPv4 address or an IPv4 one. *)
Theorem sockaddr_roundtrip p sa :
  ip_wf (ipaddr_ p) -> in_width 16 (port_ p) -> SIZEOF_sockaddr_in6 <= blen sa ->
  exists sa' len p',
    get_as_sockaddr p sa = Acc (sa', len, get_sockfamily (ipaddr_ p)) /\
    ip_port_of_sockaddr sa' len = Acc (Some p') /\ ip_port_eq p' p = true /\
    (is_init (ipaddr_ p) = true -> is_embedded_ipv4 (ipaddr_ p) = false -> p' = p).
Proof.
  intros Hip Hport Hsa. destruct p as [a port]. cbn [ipaddr_ port_] in *.
  pose proof (ip_wf_width _ Hip) as [Hw1 Hw2]. unfold blen, SIZEOF_sockaddr_in6 in Hsa.
  unfold get_sockfamily, ip_port_eq. cbn [ipaddr_ port_].
  destruct (is_pure_ipv6 a) eqn:Hpure; cbn [negb].
  - destruct (get_as_sockaddr_v6 a port sa Hpure) as [rest ->]; [lia|].
    eexists _, _, _. split; [done|]. split; [by apply sockaddr_reads_v6|].
    replace (set_ip_v6 (ip128_be_ a)) with a.
    + cbn [port_ ipaddr_]. rewrite Z.eqb_refl. split; [|done]. by apply ip_eq_inaddr.
    + destruct Hip as [|v|v]; [done..|]. by rewrite set_ip_v6_ip128.
  - assert (ip32_be_ a = 0 -> ip128_be_ a = 0) as H0.
    { destruct Hip as [|v|v]; [done..|]. unfold set_ip_v6, is_pure_ipv6 in *.
      destruct (get_ipv6_type_flags v). cbn in *. intros ->. done. }
    destruct (get_as_sockaddr_v4 a port sa Hpure) as [rest ->]; [lia|done|].
    eexists _, _, _. split; [done|]. split; [by apply sockaddr_reads_v4|].
    cbn [port_ ipaddr_]. rewrite Z.eqb_refl. split.
    + unfold ip_eq. cbn [ip32_be_ ip128_be_ set_ip_v4]. rewrite Z.eqb_refl.
      destruct (Z.eqb_spec (ip32_be_ a) 0) as [E|]; [|done]. by rewrite (H0 E).
    + destruct Hip as [|v|v]; [done..|]. unfold is_pure_ipv6, is_embedded_ipv4, set_ip_v6 in *.
      destruct (get_ipv6_type_flags v). cbn in *. by destruct (z0 =? 0).
Qed.

Module IpExamples.
(** 10.0.0.1, ::ffff:10.0.0.1, 2001:4860::8888 and ::. *)
Definition ex_v4 : list Z := [10; 0; 0; 1].
Definition ex_mapped : list Z := replicate 10 0 ++ [0xff; 0xff; 10; 0; 0; 1].
Definition ex_v6 : list Z := [0x20; 0x01; 0x48; 0x60] ++ replicate 10 0 ++ [0x88; 0x88].
Definition ex_storage : list Z := replicate 128 0xaa.

Lemma classification_correct_witness :
  set_ip_v4 (of_le ex_v4) = GyIpAddr 0 0x0100000a AF_INET IPv4_PRIVATE_ADDR /\
  set_ip_v6 (of_le ex_mapped) = GyIpAddr (of_le ex_mapped) 0x0100000a AF_INET6 IPv6_v4_MAPPED_v6 /\
  set_ip_v4 (of_le [239; 1; 1; 1]) = GyIpAddr 0 0x010101ef AF_INET IPv4_MULTICAST.
Proof.
  split; [apply (proj1 classification_correct ex_v4); [by apply bytes_wf_dec|done..]|].
  split; [apply (proj2 classification_correct ex_mapped); [by apply bytes_wf_dec|done..]|].
  apply (proj1 classification_correct [239; 1; 1; 1]); [by apply bytes_wf_dec|done..].
Defined.

(** The addresses that the masks classify otherwise: 250.1.1.1, 3001::, fe90:: and
    64:ff9b:1::. *)
Lemma masks_differ :
  ipflags_ (set_ip_v4 (of_le [250; 1; 1; 1])) = IPv4_MULTICAST /\
  ipflags_ (set_ip_v6 (of_le ([0x30; 1] ++ replicate 14 0))) = IP_MISC /\
  ipflags_ (set_ip_v6 (of_le ([0xfe; 0x90] ++ replicate 14 0))) = IP_MISC /\
  ipflags_ (set_ip_v6 (of_le ([0; 0x64; 0xff; 0x9b; 0; 1] ++ replicate 10 0))) = IPv6_NAT64_v4.
Proof. by vm_compute. Qed.

Lemma ip_addr_type_witness : ip32_be_ (set_ip_v6 (of_le ex_mapped)) <> 0 /\
  ipflags_ (set_ip_v6 (of_le ex_mapped)) ∈ embedding_flags.
Proof.
  assert (ip_wf (set_ip_v6 (of_le ex_mapped))) as Hw by (apply ip_wf_v6; by vm_compute).
  assert (ip32_be_ (set_ip_v6 (of_le ex_mapped)) <> 0) as Hn by (vm_compute; discriminate).
  split; [exact Hn|]. destruct (ip_addr_type _ Hw) as (_ & _ & _ & [(H & _)|(_ & _ & H)]).
  - vm_compute in H. discriminate H.
  - exact (H Hn).
Defined.

Lemma ip_port_eq_hash_witness :
  ip_port_get_hash false (IpPort (set_ip_v4 (of_le ex_v4)) 443) =
  ip_port_get_hash false (IpPort (set_ip_v6 (of_le ex_mapped)) 443).
Proof.
  refine (proj1 (proj2 (ip_port_eq_hash (IpPort (set_ip_v4 (of_le ex_v4)) 443)
    (IpPort (set_ip_v6 (of_le ex_mapped)) 443) (ip_wf_v4 _ _) (ip_wf_v6 _ _) _ _)) _); by vm_compute.
Defined.

Lemma sixto4_site_equal_witness :
  ip_eq (set_ip_v6 (of_le ([0x20; 0x02] ++ ex_v4 ++ replicate 10 1)))
        (set_ip_v6 (of_le ([0x20; 0x02] ++ ex_v4 ++ replicate 10 2))) = true /\
  ip128_be_ (set_ip_v6 (of_le ([0x20; 0x02] ++ ex_v4 ++ replicate 10 1))) <>
  ip128_be_ (set_ip_v6 (of_le ([0x20; 0x02] ++ ex_v4 ++ replicate 10 2))).
Proof.
  destruct (sixto4_site_equal ex_v4 (replicate 10 1) (replicate 10 2)) as (H1 & _ & H2);
    try (by apply bytes_wf_dec); [done..|]. split; [exact H1|]. by apply H2.
Defined.

Lemma sockaddr_roundtrip_witness : exists sa',
  get_as_sockaddr (IpPort (set_ip_v6 (of_le ex_v6)) 443) ex_storage = Acc (sa', 28, AF_INET6) /\
  ip_port_of_sockaddr sa' 28 = Acc (Some (IpPort (set_ip_v6 (of_le ex_v6)) 443)).
Proof.
  destruct (sockaddr_roundtrip (IpPort (set_ip_v6 (of_le ex_v6)) 443) ex_storage)
    as (sa' & len & p' & H1 & H2 & _ & H3); [constructor; by vm_compute|by vm_compute..|].
  rewrite H3 in H2 by reflexivity. exists sa'. vm_compute in H1. injection H1 as <- <-. by vm_compute.
Defined.
End IpExamples.
