(* ===== verification/RecvLoop.v ===== *)
(** * RecvLoop : how the servers receive messages (handle_recv of
    server/gy_mconnhdlr.cc; server/gy_shconnhdlr.cc has the same code).

    The bytes of a connection are received into a buffer, cut into messages, and
    the messages are handed over in batches to the second level of threads
    together with the buffer they lie in.  The model keeps the buffers the thread
    owns in a heap; a buffer that was handed over or freed is not in it any more,
    and every access through a null pointer, to a buffer that is not owned or
    outside a buffer is the outcome [Fault].  An exception or a return value of
    -1, after which the caller closes the connection, is the outcome [Closed]. *)
From stdpp Require Import gmap.
From S2P Require Import Prelude Bytes IpAddr CommLayout CommValid CommMsgs CommReg.

#[local] Open Scope Z_scope.

(** ** Data *)

(** The threads of the second level; shyama calls the first one TTYPE_L2_DB. *)
Inductive TTYPE_E := TTYPE_L2_DB_RD | TTYPE_L2_MISC | TTYPE_L2_ALERT.

#[export] Instance ttype_eq_dec : EqDecision TTYPE_E.
Proof. solve_decision. Defined.

(** What is done with a message of known length: an exception; the return of -1,
    with an error response for a rejected registration; nothing further; handing
    it over to a thread; handing over a registration request. *)
Inductive decision :=
  | Throw
  | Return (err : option ERR_CODES_E)
  | Skip
  | Schedule (dest : TTYPE_E)
  | Register (dest : TTYPE_E).

(** An address: a buffer and an offset; [None] is the null pointer. *)
Definition addr : Type := option nat * Z.

Record DB_WRITE_ONE := DbWriteOne { pwrbuf_ : addr; wrlen_ : Z; db_type_ : Z }.

Record DB_WRITE_ARR := DbWriteArr {
  dbonearr_ : list DB_WRITE_ONE;
  pbufstart_ : option nat;
  dest_thr_type_ : TTYPE_E;
}.
Definition MAX_DBS : nat := 8.

(** A batch as the queue of the other thread gets it: the buffer with its
    contents, and the messages as addresses. *)
Record batch := Batch { bt_buf : nat; bt_bytes : list Z; bt_arr : DB_WRITE_ARR }.

Record EDIR_STATS := EdirStats {
  pdirbuf_ : option nat;
  max_buf_sz_ : Z;
  data_sz_ : Z;
  nrequests_ : Z;
  pending_sz_ : Z;
}.

(** The state of a connection with the local variables of [handle_recv]. *)
Record l1_state := L1State {
  heap : gmap nat (list Z);
  next_buf : nat;
  rdstat_ : EDIR_STATS;
  sent : list batch;
  dbarr : DB_WRITE_ARR;
  prdbuf : addr;
  max_buf_sz : Z;
  data_sz : Z;
  hdr : comm_header;
}.

Inductive res (A : Type) := Ok (a : A) (s : l1_state) | Closed (s : l1_state) | Fault.
Arguments Ok {A} a s.
Arguments Closed {A} s.
Arguments Fault {A}.

Definition M (A : Type) : Type := l1_state -> res A.
Definition ret {A} (a : A) : M A := fun s => Ok a s.
Definition bind {A B} (m : M A) (k : A -> M B) : M B := fun s =>
  match m s with Ok a s' => k a s' | Closed s' => Closed s' | Fault => Fault end.
Definition throw {A} : M A := fun s => Closed s.
Definition fault {A} : M A := fun _ => Fault.
Definition gets {A} (f : l1_state -> A) : M A := fun s => Ok (f s) s.

Declare Scope l1_scope.
Notation "'do' x <- m ; k" := (bind m (fun x => k))
  (at level 10, x binder, m at level 100, k at level 200) : l1_scope.
Notation "m ;; k" := (bind m (fun _ => k)) (at level 100, right associativity) : l1_scope.
#[local] Open Scope l1_scope.

Definition set_heap (h : gmap nat (list Z)) : M unit := fun s =>
  Ok tt (L1State h (next_buf s) (rdstat_ s) (sent s) (dbarr s) (prdbuf s) (max_buf_sz s) (data_sz s) (hdr s)).
Definition set_rdstat (r : EDIR_STATS) : M unit := fun s =>
  Ok tt (L1State (heap s) (next_buf s) r (sent s) (dbarr s) (prdbuf s) (max_buf_sz s) (data_sz s) (hdr s)).
Definition set_dbarr (d : DB_WRITE_ARR) : M unit := fun s =>
  Ok tt (L1State (heap s) (next_buf s) (rdstat_ s) (sent s) d (prdbuf s) (max_buf_sz s) (data_sz s) (hdr s)).
Definition set_locals (p : addr) (m d : Z) : M unit := fun s =>
  Ok tt (L1State (heap s) (next_buf s) (rdstat_ s) (sent s) (dbarr s) p m d (hdr s)).
Definition set_hdr (h : comm_header) : M unit := fun s =>
  Ok tt (L1State (heap s) (next_buf s) (rdstat_ s) (sent s) (dbarr s) (prdbuf s) (max_buf_sz s) (data_sz s) h).

(** ** Memory *)

(** The [len] bytes at an address. *)
Definition load (p : addr) (len : Z) : M (list Z) := fun s =>
  match p.1 ≫= fun b => heap s !! b with
  | None => Fault
  | Some bytes =>
      if (0 <=? p.2) && (0 <=? len) && (p.2 + len <=? blen bytes)
      then Ok (take (Z.to_nat len) (drop (Z.to_nat p.2) bytes)) s else Fault
  end.

Definition store (p : addr) (bs : list Z) : M unit := fun s =>
  match p.1 with
  | None => Fault
  | Some b =>
      match heap s !! b with
      | None => Fault
      | Some bytes =>
          match wr_bytes bytes p.2 bs with
          | Acc bytes' => set_heap (<[b := bytes']> (heap s)) s
          | Oob => Fault
          end
      end
  end.

(** [memcpy] and [memmove]. *)
Definition memcpy (dst src : addr) (len : Z) : M unit :=
  do bs <- load src len; store dst bs.

Definition free (p : option nat) : M unit := fun s =>
  match p with None => Ok tt s | Some b => set_heap (delete b (heap s)) s end.

Section Loop.

(** [poolarr.safe_malloc(n, ...)] gives a buffer of [act_size n] bytes. *)
Context (act_size : Z -> Z).
(** Whether the queue of the other thread has room for one more batch. *)
Context (accepts : list batch -> bool).
(** The message magic of the connection, and the handling of one message: the
    decision and the message with the bytes its validation changed. *)
Context (comm_magic : Z) (handle : comm_header -> list Z -> acc (decision * list Z)).

Definition safe_malloc (n : Z) : M nat := fun s =>
  let b := next_buf s in
  Ok b (L1State (<[b := replicate (Z.to_nat (act_size n)) 0]> (heap s)) (S b) (rdstat_ s) (sent s)
    (dbarr s) (prdbuf s) (max_buf_sz s) (data_sz s) (hdr s)).

(** ** EDIR_STATS *)
Definition set_buf (b : nat) (new_maxbufsz new_datasz : Z) : M unit :=
  do r <- gets rdstat_;
  if (data_sz_ r >? 0) || (new_datasz >? new_maxbufsz) then free (Some b) ;; throw else
  free (pdirbuf_ r) ;;
  set_rdstat (EdirStats (Some b) new_maxbufsz new_datasz (nrequests_ r) (pending_sz_ r)).

Definition reset_buf (to_dealloc : bool) : M unit :=
  do r <- gets rdstat_;
  (if to_dealloc then free (pdirbuf_ r) else ret tt) ;;
  set_rdstat (EdirStats None 0 0 (nrequests_ r) (pending_sz_ r)).

(** The result is whether nothing is pending any more. *)
Definition pending_recv_seen (nbytes : Z) : M bool :=
  do r <- gets rdstat_;
  if negb (pending_sz_ r =? 0) then
    if pending_sz_ r >=? nbytes then
      set_rdstat (EdirStats (pdirbuf_ r) (max_buf_sz_ r) (data_sz_ r) (nrequests_ r) 0) ;; ret true
    else
      set_rdstat (EdirStats (pdirbuf_ r) (max_buf_sz_ r) (data_sz_ r) (nrequests_ r)
        (u32 (pending_sz_ r - nbytes))) ;; ret false
  else ret true.

(** ** Batches *)
Definition set_variables : M unit :=
  do r <- gets rdstat_; set_locals (pdirbuf_ r, 0) (max_buf_sz_ r) (data_sz_ r).

Definition ndbs (d : DB_WRITE_ARR) : nat := length (dbonearr_ d).

(** The array is moved to the queue with its buffer, or its buffer is freed when
    the queue is full; either way the array is empty afterwards. *)
Definition send_db_array : M bool := fun s =>
  let d := dbarr s in
  let empty := DbWriteArr [] None (dest_thr_type_ d) in
  match pbufstart_ d with
  | None => (set_dbarr empty ;; ret true) s
  | Some b =>
      match heap s !! b with
      | None => Fault
      | Some bytes =>
          let ok := accepts (sent s) in
          Ok ok (L1State (delete b (heap s)) (next_buf s) (rdstat_ s)
            (if ok then sent s ++ [Batch b bytes d] else sent s) empty
            (prdbuf s) (max_buf_sz s) (data_sz s) (hdr s))
      end
  end.

(** Adds a message to the batch.  A batch is for one kind of thread, and has one
    message when it is for [TTYPE_L2_DB_RD]. *)
Definition schedule_db_array (pwrbuf : addr) (wrlen data_type : Z) (dest : TTYPE_E) : M unit :=
  do d <- gets dbarr;
  if Nat.leb MAX_DBS (ndbs d) then throw else
  (if (bool_decide (dest <> dest_thr_type_ d) || bool_decide (dest = TTYPE_L2_DB_RD)) &&
      negb (Nat.eqb (ndbs d) 0)
   then
     do data_sz <- gets data_sz;
     let maxcopy := Z.max wrlen data_sz in
     let n := Z.max 4096 maxcopy in
     do palloc <- safe_malloc n;
     memcpy (Some palloc, 0) pwrbuf maxcopy ;;
     do _ <- send_db_array;
     reset_buf false ;;
     set_buf palloc (act_size n) maxcopy ;;
     set_variables
   else ret tt) ;;
  do d <- gets dbarr;
  do r <- gets rdstat_;
  let one := DbWriteOne pwrbuf wrlen data_type in
  set_dbarr (if Nat.eqb (ndbs d) 0 then DbWriteArr [one] (pdirbuf_ r) dest
             else DbWriteArr (dbonearr_ d ++ [one]) (pbufstart_ d) (dest_thr_type_ d)).

(** ** The messages in the buffer *)
Definition hdr_set_total (h : comm_header) (total : Z) : comm_header :=
  CommHeader (magic_ h) total (data_type_ h) (padding_sz_ h).

(** The header of the next message; with too few bytes for it, only the number of
    bytes to wait for is set. *)
Definition read_hdr : M unit :=
  do n <- gets data_sz; do p <- gets prdbuf;
  if n >=? sizeof COMM_HEADER then
    do bs <- load p (sizeof COMM_HEADER);
    match hdr_of_bytes bs with
    | Oob => fault
    | Acc h => set_hdr h ;; if negb (hdr_validate p.2 comm_magic h) then throw else ret tt
    end
  else
    do h <- gets hdr; set_hdr (hdr_set_total h (sizeof COMM_HEADER)).

(** A buffer that cannot hold the message, or one with messages of the batch when
    the next message is not complete, is replaced by a new one. *)
Definition make_room : M unit :=
  do n <- gets data_sz; do mx <- gets max_buf_sz; do p <- gets prdbuf;
  do total <- gets (fun s => total_sz_ (hdr s)); do d <- gets dbarr;
  if (n <? total) && negb (Nat.eqb (ndbs d) 0) || (mx <? total) then
    let sz := Z.max 4096 (Z.max total n) in
    do palloc <- safe_malloc sz;
    memcpy (Some palloc, 0) p n ;;
    (if negb (Nat.eqb (ndbs d) 0) then do _ <- send_db_array; reset_buf false
     else reset_buf true) ;;
    set_buf palloc (act_size sz) n ;;
    set_variables
  else ret tt.

(** Moves the bytes left to the start of the buffer. *)
Definition move_to_start : M unit :=
  do n <- gets data_sz; do p <- gets prdbuf; do r <- gets rdstat_;
  memcpy (pdirbuf_ r, 0) p n ;;
  set_rdstat (EdirStats (pdirbuf_ r) (max_buf_sz_ r) n (nrequests_ r) (pending_sz_ r)) ;;
  set_variables.

(** The switch over the type of a complete message. *)
Definition dispatch : M unit :=
  do r <- gets rdstat_;
  set_rdstat (EdirStats (pdirbuf_ r) (max_buf_sz_ r) (data_sz_ r) (nrequests_ r + 1) (pending_sz_ r)) ;;
  do h <- gets hdr; do p <- gets prdbuf;
  do m <- load p (total_sz_ h);
  match handle h m with
  | Oob => fault
  | Acc (dec, m') =>
      store p m' ;;
      match dec with
      | Throw | Return _ => throw
      | Skip => ret tt
      | Schedule dest => schedule_db_array p (total_sz_ h) (data_type_ h) dest
      | Register dest =>
          schedule_db_array p (total_sz_ h) (data_type_ h) dest ;;
          do ok <- send_db_array; reset_buf false ;;
          if ok : bool then ret tt else throw
      end
  end.

(** Behind the switch: goes to the next message, hands over a full batch, and
    makes sure that a header fits behind the data. *)
Definition advance (is_again : bool) : M unit :=
  do n <- gets data_sz; do mx <- gets max_buf_sz; do p <- gets prdbuf;
  do total <- gets (fun s => total_sz_ (hdr s));
  (if negb (n =? 0) then set_locals (p.1, p.2 + total) (mx - total) (n - total) else ret tt) ;;
  do n <- gets data_sz; do mx <- gets max_buf_sz; do p <- gets prdbuf;
  do d <- gets dbarr; do r <- gets rdstat_;
  if (n <? 0) || (mx <? n) then throw else
  if Nat.eqb (ndbs d) MAX_DBS || negb (Nat.eqb (ndbs d) 0) && (mx - n <? sizeof COMM_HEADER) then
    let sz := if n >? 4096 then n + 1024 else 4096 in
    do palloc <-
      (if negb is_again || (n >? 0) || ((mx - n <? sizeof COMM_HEADER) && (mx >? 0)) then
         do palloc <- safe_malloc sz;
         (if n >? 0 then memcpy (Some palloc, 0) p n else ret tt) ;;
         ret (Some palloc)
       else ret None);
    do _ <- send_db_array;
    reset_buf false ;;
    match palloc with
    | Some b => set_buf b (act_size sz) n ;; set_variables
    | None => ret tt
    end
  else if negb (n =? data_sz_ r) && (mx - n <? sizeof COMM_HEADER) then move_to_start
  else ret tt.

(** The inner loop: it ends when the data is used up or a message is incomplete. *)
Fixpoint msg_loop (fuel : nat) (is_again : bool) : M unit :=
  match fuel with
  | O => fault
  | S fuel' =>
      read_hdr ;; make_room ;;
      do n <- gets data_sz; do total <- gets (fun s => total_sz_ (hdr s)); do r <- gets rdstat_;
      if n <? total then
        if negb (n =? data_sz_ r) then move_to_start else ret tt
      else
        dispatch ;; advance is_again ;;
        do n <- gets data_sz;
        if n >? 0 then msg_loop fuel' is_again else ret tt
  end.

(** ** handle_recv *)

(** The result of one [recv]. *)
Inductive sock_ev := Recv (bs : list Z) | Eintr | Eagain | Eof | Err.

(** The connection is closed; what is in the batch is still handed over unless it
    is for a reader of the database. *)
Definition recv_failed : M Z :=
  do d <- gets dbarr;
  (if negb (Nat.eqb (ndbs d) 0) && bool_decide (dest_thr_type_ d <> TTYPE_L2_DB_RD)
   then do _ <- send_db_array; ret tt else ret tt) ;;
  throw.

(** One successful [recv] of [bs] and the messages it completes. *)
Definition recv_data (bs : list Z) (is_again : bool) : M unit :=
  do p <- gets prdbuf; do mx <- gets max_buf_sz; do n <- gets data_sz;
  store (p.1, p.2 + n) bs ;;
  do r <- gets rdstat_;
  set_rdstat (EdirStats (pdirbuf_ r) (max_buf_sz_ r) (data_sz_ r + blen bs) (nrequests_ r) (pending_sz_ r)) ;;
  set_locals p mx (n + blen bs) ;;
  msg_loop (S (Z.to_nat (n + blen bs))) is_again.

(** One round of the outer loop; the result is whether bytes are still pending. *)
Definition recv_step (bs : list Z) (is_again is_pendrecv : bool) : M bool :=
  do is_pendrecv <-
    (if is_pendrecv then do seen <- pending_recv_seen (blen bs); ret (negb seen) else ret false);
  recv_data bs is_again ;; ret is_pendrecv.

(** The outer loop; the result is the number of bytes received.  Its limit on the
    number of reads is [INT_MAX - 1] for every caller and is not modelled. *)
Fixpoint recv_loop (evs : list sock_ev) (is_pendrecv : bool) (totbytes : Z) : M Z :=
  set_variables ;;
  do mx <- gets max_buf_sz; do n <- gets data_sz;
  let max_bytes := mx - n in
  if max_bytes <=? 0 then throw else
  match evs with
  | [] | Eagain :: _ => ret totbytes
  | Eintr :: evs' => recv_loop evs' is_pendrecv totbytes
  | Err :: _ | Eof :: _ => recv_failed
  | Recv bs :: evs' =>
      let is_again := blen bs <? max_bytes in
      do is_pendrecv <- recv_step bs is_again is_pendrecv;
      let totbytes := totbytes + blen bs in
      if is_again then ret totbytes else recv_loop evs' is_pendrecv totbytes
  end.

(** Behind the loop: what is in the batch is handed over. *)
Definition finish (totbytes : Z) : M unit :=
  do d <- gets dbarr; do n <- gets data_sz; do p <- gets prdbuf; do h <- gets hdr;
  do r <- gets rdstat_;
  if negb (Nat.eqb (ndbs d) 0) then
    let sz := Z.max 4096 (n + 1024) in
    do palloc <-
      (if n >? 0 then
         do palloc <- safe_malloc sz; memcpy (Some palloc, 0) p n ;; ret (Some palloc)
       else ret None);
    do _ <- send_db_array;
    reset_buf false ;;
    match palloc with
    | Some b => set_buf b (act_size sz) n
    | None => reset_buf true
    end
  else if n =? 0 then reset_buf true
  else if totbytes >? 0 then
    set_rdstat (EdirStats (pdirbuf_ r) (max_buf_sz_ r) (data_sz_ r) (nrequests_ r) (u32 (total_sz_ h - n)))
  else ret tt.

(** The start: an empty batch, and a buffer when there is none. *)
Definition prepare : M bool :=
  set_dbarr (DbWriteArr [] None TTYPE_L2_MISC) ;;
  set_hdr (CommHeader INV_HDR_MAGIC 0 COMM_MIN_TYPE 0) ;;
  do r <- gets rdstat_;
  (if pdirbuf_ r is None then do palloc <- safe_malloc 4096; set_buf palloc (act_size 4096) 0
   else ret tt) ;;
  ret (pending_sz_ r >? 0).

Definition handle_recv (evs : list sock_ev) : M unit :=
  do is_pendrecv <- prepare;
  do totbytes <- recv_loop evs is_pendrecv 0;
  finish totbytes.
End Loop.

(** A connection nothing was received on yet. *)
Definition l1_init : l1_state :=
  L1State ∅ 0 (EdirStats None 0 0 0 0) [] (DbWriteArr [] None TTYPE_L2_MISC) (None, 0) 0 0
    (CommHeader INV_HDR_MAGIC 0 COMM_MIN_TYPE 0).

(** ** What the other threads get

    The messages of a batch: a message that does not lie in the buffer of its
    batch is [None], since its buffer may already be freed. *)
Definition one_msg (b : nat) (bytes : list Z) (o : DB_WRITE_ONE) : option (list Z) :=
  if bool_decide ((pwrbuf_ o).1 = Some b)
  then Some (take (Z.to_nat (wrlen_ o)) (drop (Z.to_nat (pwrbuf_ o).2) bytes)) else None.

Definition arr_msgs (b : nat) (bytes : list Z) (d : DB_WRITE_ARR) : list (TTYPE_E * option (list Z)) :=
  (fun o => (dest_thr_type_ d, one_msg b bytes o)) <$> dbonearr_ d.

Definition sent_msgs (l : list batch) : list (TTYPE_E * option (list Z)) :=
  l ≫= fun bt => arr_msgs (bt_buf bt) (bt_bytes bt) (bt_arr bt).

(** ** Specification: a stream of bytes as messages

    The messages to hand over, and the bytes left of the stream, or [None] when a
    message closes the connection. *)
Section Spec.
Context (comm_magic : Z) (handle : comm_header -> list Z -> acc (decision * list Z)).

Fixpoint parse_n (n : nat) (s : list Z) : list (TTYPE_E * list Z) * option (list Z) :=
  match n with
  | O => ([], None)
  | S n' =>
      if blen s <? sizeof COMM_HEADER then ([], Some s) else
      match hdr_of_bytes (take 16 s) with
      | Oob => ([], None)
      | Acc h =>
          if negb (hdr_validate 0 comm_magic h) then ([], None) else
          if blen s <? total_sz_ h then ([], Some s) else
          let rest := drop (Z.to_nat (total_sz_ h)) s in
          match handle h (take (Z.to_nat (total_sz_ h)) s) with
          | Acc (Schedule dest, m) => let '(ms, r) := parse_n n' rest in ((dest, m) :: ms, r)
          | Acc (Skip, _) => parse_n n' rest
          | _ => ([], None)
          end
      end
  end.

Definition parse (s : list Z) : list (TTYPE_E * list Z) * option (list Z) := parse_n (S (length s)) s.

Lemma hdr_validate_total p h : hdr_validate p comm_magic h = true ->
  16 <= total_sz_ h < MAX_COMM_DATA_SZ /\ Z.land (total_sz_ h) 7 = 0 /\ Z.land p 7 = 0.
Proof.
  unfold hdr_validate. change (sizeof COMM_HEADER) with 16. intros H. case_ifs_in H. breflect. lia.
Qed.

Lemma hdr_validate_aligned p h : Z.land p 7 = 0 ->
  hdr_validate p comm_magic h = hdr_validate 0 comm_magic h.
Proof. intros H. unfold hdr_validate. by rewrite H. Qed.

Lemma parse_n_fuel n : forall m s, (length s < n)%nat -> (length s < m)%nat -> parse_n n s = parse_n m s.
Proof.
  induction n as [|n IH]; intros m s Hn Hm; [lia|]. destruct m as [|m]; [lia|]. cbn [parse_n].
  case_if; [done|]. destruct (hdr_of_bytes (take 16 s)) as [h|]; [|done].
  destruct (hdr_validate 0 comm_magic h) eqn:Hv; [|done]. cbn [negb].
  apply hdr_validate_total in Hv. case_if; [done|]. unfold blen in *. breflect.
  assert (length (drop (Z.to_nat (total_sz_ h)) s) < length s)%nat as Hd
    by (rewrite length_drop; lia).
  destruct (handle h _) as [[[]]|]; try done; rewrite (IH m) by lia; done.
Qed.

(** One message of the stream. *)
Lemma parse_eq s : parse s =
  if blen s <? sizeof COMM_HEADER then ([], Some s) else
  match hdr_of_bytes (take 16 s) with
  | Oob => ([], None)
  | Acc h =>
      if negb (hdr_validate 0 comm_magic h) then ([], None) else
      if blen s <? total_sz_ h then ([], Some s) else
      let rest := drop (Z.to_nat (total_sz_ h)) s in
      match handle h (take (Z.to_nat (total_sz_ h)) s) with
      | Acc (Schedule dest, m) => let '(ms, r) := parse rest in ((dest, m) :: ms, r)
      | Acc (Skip, _) => parse rest
      | _ => ([], None)
      end
  end.
Proof.
  unfold parse at 1. cbn [parse_n]. case_if; [done|].
  destruct (hdr_of_bytes (take 16 s)) as [h|]; [|done].
  destruct (hdr_validate 0 comm_magic h) eqn:Hv; [|done]. cbn [negb].
  apply hdr_validate_total in Hv. case_if; [done|]. unfold blen in *. breflect.
  assert (length (drop (Z.to_nat (total_sz_ h)) s) < length s)%nat as Hd
    by (rewrite length_drop; lia).
  cbv zeta. unfold parse.
  destruct (handle h _) as [[[]]|]; try done; rewrite (parse_n_fuel _ (S (length (drop (Z.to_nat (total_sz_ h)) s)))) by lia; done.
Qed.
(** A stream that is cut somewhere. *)
Lemma parse_app n : forall x y, (length x < n)%nat ->
  match (parse x).2 with
  | Some r => parse (x ++ y) = ((parse x).1 ++ (parse (r ++ y)).1, (parse (r ++ y)).2)
  | None => parse (x ++ y) = ((parse x).1, None)
  end.
Proof.
  induction n as [|n IH]; intros x y Hn; [lia|]. rewrite (parse_eq x).
  case_if; [cbn [fst snd app]; by destruct (parse (x ++ y))|]. breflect. change (sizeof COMM_HEADER) with 16 in *.
  rewrite (parse_eq (x ++ y)). change (sizeof COMM_HEADER) with 16.
  assert (blen (x ++ y) = blen x + blen y) as Hb by (unfold blen; rewrite length_app; lia).
  pose proof (Zle_0_nat (length y)) as Hy. fold (blen y) in Hy.
  rewrite (proj2 (Z.ltb_ge (blen (x ++ y)) 16)) by lia.
  rewrite (take_app_le x y 16) by (unfold blen in *; lia).
  destruct (hdr_of_bytes (take 16 x)) as [h|] eqn:Hh; [|done].
  destruct (hdr_validate 0 comm_magic h) eqn:Hv; [|done]. cbn [negb].
  destruct (hdr_validate_total _ _ Hv) as (Ht & _).
  destruct (blen x <? total_sz_ h) eqn:Hlt; breflect.
  { cbn [fst snd app]. rewrite (parse_eq (x ++ y)). change (sizeof COMM_HEADER) with 16.
    rewrite (proj2 (Z.ltb_ge (blen (x ++ y)) 16)) by lia.
    rewrite (take_app_le x y 16), Hh, Hv by (unfold blen in *; lia). cbn [negb].
    by destruct (if blen (x ++ y) <? total_sz_ h then _ else _). }
  rewrite (proj2 (Z.ltb_ge (blen (x ++ y)) _)) by lia.
  set (t := Z.to_nat (total_sz_ h)). assert (t <= length x)%nat as Htl by (unfold blen in *; lia).
  rewrite take_app_le, drop_app_le by done. cbv zeta.
  specialize (IH (drop t x) y). rewrite length_drop in IH. specialize (IH ltac:(lia)).
  destruct (handle h (take t x)) as [[[] m]|]; try done.
  destruct (parse (drop t x)) as [ms [r|]]; cbn [fst snd] in *; by rewrite IH.
Qed.

(** What is left of a stream has no message. *)
Lemma parse_rest n : forall x r, (length x < n)%nat -> (parse x).2 = Some r -> parse r = ([], Some r).
Proof.
  induction n as [|n IH]; intros x r Hn; [lia|]. rewrite (parse_eq x). case_if.
  { intros [= <-]. rewrite parse_eq. by case_if. }
  destruct (hdr_of_bytes (take 16 x)) as [h|] eqn:Hh; [|done].
  destruct (hdr_validate 0 comm_magic h) eqn:Hv; [|done]. cbn [negb].
  destruct (hdr_validate_total _ _ Hv) as (Ht & _). case_if.
  { intros [= <-]. rewrite parse_eq, Heqb, Hh, Hv, Heqb0. done. }
  breflect. change (sizeof COMM_HEADER) with 16 in *. cbv zeta.
  set (t := Z.to_nat (total_sz_ h)). specialize (IH (drop t x) r). rewrite length_drop in IH.
  unfold blen in *. destruct (handle h (take t x)) as [[[] m]|]; try done; [by apply IH; lia|].
  destruct (parse (drop t x)) as [ms o]. cbn. intros ->. by apply IH; [lia|].
Qed.
(** ** Streams for one kind of threads

    Of the handling of a message: it stays inside the message, keeps its length,
    and gives it to the threads [dest0] if to any. *)
Context (dest0 : TTYPE_E).

Definition one_dest (h : comm_header) (m : list Z) : bool :=
  match handle h m with
  | Acc (dec, m') => Nat.eqb (length m') (length m) &&
      match dec with Schedule dest => bool_decide (dest = dest0) | Register _ => false | _ => true end
  | Oob => false
  end.

(** Every message up to the first one that closes the connection is such. *)
Fixpoint stream_n (n : nat) (s : list Z) : bool :=
  match n with
  | O => true
  | S n' =>
      if blen s <? sizeof COMM_HEADER then true else
      match hdr_of_bytes (take 16 s) with
      | Oob => true
      | Acc h =>
          if negb (hdr_validate 0 comm_magic h) then true else
          if blen s <? total_sz_ h then true else
          let m := take (Z.to_nat (total_sz_ h)) s in
          one_dest h m &&
          match handle h m with
          | Acc (Schedule _, _) | Acc (Skip, _) => stream_n n' (drop (Z.to_nat (total_sz_ h)) s)
          | _ => true
          end
      end
  end.
Definition stream_ok (s : list Z) : bool := stream_n (S (length s)) s.

Lemma stream_n_fuel n : forall m s, (length s < n)%nat -> (length s < m)%nat -> stream_n n s = stream_n m s.
Proof.
  induction n as [|n IH]; intros m s Hn Hm; [lia|]. destruct m as [|m]; [lia|]. cbn [stream_n].
  case_if; [done|]. destruct (hdr_of_bytes (take 16 s)) as [h|]; [|done].
  destruct (hdr_validate 0 comm_magic h) eqn:Hv; [|done]. cbn [negb].
  apply hdr_validate_total in Hv. case_if; [done|]. unfold blen in *. breflect.
  cbv zeta. rewrite (IH m) by (rewrite length_drop; lia). done.
Qed.

Lemma stream_eq s : stream_ok s =
  if blen s <? sizeof COMM_HEADER then true else
  match hdr_of_bytes (take 16 s) with
  | Oob => true
  | Acc h =>
      if negb (hdr_validate 0 comm_magic h) then true else
      if blen s <? total_sz_ h then true else
      let m := take (Z.to_nat (total_sz_ h)) s in
      one_dest h m &&
      match handle h m with
      | Acc (Schedule _, _) | Acc (Skip, _) => stream_ok (drop (Z.to_nat (total_sz_ h)) s)
      | _ => true
      end
  end.
Proof.
  unfold stream_ok at 1. cbn [stream_n]. case_if; [done|].
  destruct (hdr_of_bytes (take 16 s)) as [h|]; [|done].
  destruct (hdr_validate 0 comm_magic h) eqn:Hv; [|done]. cbn [negb].
  apply hdr_validate_total in Hv. case_if; [done|]. unfold blen in *. breflect.
  cbv zeta. unfold stream_ok.
  rewrite (stream_n_fuel _ (S (length (drop (Z.to_nat (total_sz_ h)) s)))) by (rewrite length_drop; lia).
  done.
Qed.

(** A part of such a stream, and what is left of it with what follows. *)
Lemma stream_app n : forall x y, (length x < n)%nat -> stream_ok (x ++ y) = true ->
  stream_ok x = true /\ forall r, (parse x).2 = Some r -> stream_ok (r ++ y) = true.
Proof.
  induction n as [|n IH]; intros x y Hn; [lia|]. intros Hxy. pose proof Hxy as H.
  rewrite (stream_eq x), (parse_eq x).
  case_if; [split; [done|]; by intros r [= <-]|]. breflect. change (sizeof COMM_HEADER) with 16 in *.
  rewrite (stream_eq (x ++ y)) in H. change (sizeof COMM_HEADER) with 16 in H.
  assert (blen (x ++ y) = blen x + blen y) as Hb by (unfold blen; rewrite length_app; lia).
  pose proof (Zle_0_nat (length y)) as Hy. fold (blen y) in Hy.
  rewrite (proj2 (Z.ltb_ge (blen (x ++ y)) 16)), (take_app_le x y 16) in H by (unfold blen in *; lia).
  destruct (hdr_of_bytes (take 16 x)) as [h|] eqn:Hh; [|by split].
  destruct (hdr_validate 0 comm_magic h) eqn:Hv; [|by split]. cbn [negb] in *.
  destruct (hdr_validate_total _ _ Hv) as (Ht & _).
  destruct (blen x <? total_sz_ h) eqn:Hlt; breflect; [split; [done|]; by intros r [= <-]|].
  rewrite (proj2 (Z.ltb_ge (blen (x ++ y)) _)) in H by lia.
  set (t := Z.to_nat (total_sz_ h)) in *. assert (t <= length x)%nat as Htl by (unfold blen in *; lia).
  rewrite take_app_le, drop_app_le in H by done. cbv zeta in *.
  specialize (IH (drop t x) y). rewrite length_drop in IH. specialize (IH ltac:(lia)).
  apply andb_prop in H as [-> H]. cbn [andb].
  destruct (handle h (take t x)) as [[[] m]|]; try done.
  - by apply IH.
  - destruct (IH H) as [-> IHr]. split; [done|]. by destruct (parse (drop t x)).
Qed.
End Spec.
#[global] Arguments parse : simpl never.
#[global] Arguments hdr_validate : simpl never.

(** ** Correctness *)

(** A step that does not fault: [Q] holds of its result, or [QC] where it closes
    the connection. *)
Definition wp {A} (m : M A) (Q : A -> l1_state -> Prop) (QC : l1_state -> Prop) (s : l1_state) : Prop :=
  match m s with Ok a s' => Q a s' | Closed s' => QC s' | Fault => False end.

Lemma wp_bind {A B} (m : M A) (k : A -> M B) Q QC s :
  wp m (fun a => wp (k a) Q QC) QC s -> wp (bind m k) Q QC s.
Proof. unfold wp, bind. by destruct (m s). Qed.

Lemma wp_bind_inv {A B} (m : M A) (k : A -> M B) Q QC s :
  wp (bind m k) Q QC s -> wp m (fun a => wp (k a) Q QC) QC s.
Proof. unfold wp, bind. by destruct (m s). Qed.

Lemma wp_mono {A} (m : M A) (P Q : A -> l1_state -> Prop) (PC QC : l1_state -> Prop) s :
  (forall a s', P a s' -> Q a s') -> (forall s', PC s' -> QC s') -> wp m P PC s -> wp m Q QC s.
Proof. intros HP HC. unfold wp. destruct (m s); auto. Qed.

Lemma wp_mono_eq {A} (m : M A) (P Q : A -> l1_state -> Prop) (PC QC : l1_state -> Prop) s :
  (forall a s', m s = Ok a s' -> P a s' -> Q a s') -> (forall s', PC s' -> QC s') ->
  wp m P PC s -> wp m Q QC s.
Proof. intros HP HC. unfold wp. destruct (m s); auto. Qed.

Lemma wp_gets {A} (f : l1_state -> A) Q QC s : Q (f s) s -> wp (gets f) Q QC s.
Proof. done. Qed.

(** The memory of a connection with the buffer [b] of contents [bytes]: the data
    not looked at yet is [D], at [off]. *)
Definition view (hp : gmap nat (list Z)) (nx b : nat) (bytes : list Z) (off : Z) (D : list Z) : Prop :=
  hp !! b = Some bytes /\ (b < nx)%nat /\ 0 <= off /\ off mod 8 = 0 /\ off + blen D <= blen bytes /\
  take (length D) (drop (Z.to_nat off) bytes) = D /\ bytes_wf D.

(** The state of the loop. *)
Definition mk_state hp nx b (bytes : list Z) off (D : list Z) arr snt req pend h : l1_state :=
  L1State hp nx (EdirStats (Some b) (blen bytes) (off + blen D) req pend) snt arr
    (Some b, off) (blen bytes - off) (blen D) h.

Lemma load_ok s b bytes off len : heap s !! b = Some bytes -> 0 <= off -> 0 <= len ->
  off + len <= blen bytes ->
  load (Some b, off) len s = Ok (take (Z.to_nat len) (drop (Z.to_nat off) bytes)) s.
Proof.
  intros H ? ? ?. unfold load. cbn [fst snd mbind option_bind]. rewrite H.
  rewrite !(proj2 (Z.leb_le _ _)) by lia. done.
Qed.

Lemma store_ok s b bytes (off : nat) bs : heap s !! b = Some bytes ->
  (off + length bs <= length bytes)%nat ->
  store (Some b, Z.of_nat off) bs s =
  set_heap (<[b := take off bytes ++ bs ++ drop (off + length bs) bytes]> (heap s)) s.
Proof. intros H Hl. unfold store. cbn [fst snd]. rewrite H, wr_bytes_ok by done. done. Qed.

Lemma load_data s hp nx b bytes off D len : view hp nx b bytes off D -> heap s = hp ->
  0 <= len <= blen D -> load (Some b, off) len s = Ok (take (Z.to_nat len) D) s.
Proof.
  intros (Hb & _ & Ho & _ & Hl & HD & _) Hs Hlen. rewrite (load_ok _ b bytes) by (congruence || lia).
  rewrite <- HD, take_take. unfold blen in *. by replace (Z.to_nat len `min` length D)%nat with (Z.to_nat len) by lia.
Qed.

(** What does not depend on the later part of a buffer. *)
Definition refs_ok (dest0 : TTYPE_E) (b : nat) (lim : Z) (arr : DB_WRITE_ARR) : Prop :=
  Forall (fun o => exists k, pwrbuf_ o = (Some b, k) /\ 0 <= k /\ 0 <= wrlen_ o /\ k + wrlen_ o <= lim)
    (dbonearr_ arr) /\
  (dbonearr_ arr <> [] -> pbufstart_ arr = Some b /\ dest_thr_type_ arr = dest0).

Lemma arr_msgs_agree dest0 b lim arr bytes bytes' : refs_ok dest0 b lim arr ->
  take (Z.to_nat lim) bytes = take (Z.to_nat lim) bytes' -> arr_msgs b bytes arr = arr_msgs b bytes' arr.
Proof.
  intros [Hr _] Heq. unfold arr_msgs. apply list_fmap_ext. intros i o Ho. f_equal.
  eapply Forall_lookup_1 in Hr as (k & Hk & ? & ? & ?); [|exact Ho].
  unfold one_msg. rewrite Hk. cbn [fst snd]. case_bool_decide; [|done]. f_equal.
  rewrite !take_drop_commute. f_equal.
  replace (Z.to_nat k + Z.to_nat (wrlen_ o))%nat
    with (Z.to_nat (k + wrlen_ o) `min` Z.to_nat lim)%nat by lia.
  by rewrite <- !take_take, Heq.
Qed.

Lemma refs_ok_nil dest0 b lim start d : refs_ok dest0 b lim (DbWriteArr [] start d).
Proof. split; [constructor|done]. Qed.

Lemma refs_ok_mono dest0 b lim lim' arr : lim <= lim' -> refs_ok dest0 b lim arr -> refs_ok dest0 b lim' arr.
Proof.
  intros Hl [Hr Hs]. split; [|done]. eapply Forall_impl; [exact Hr|].
  intros o (k & Hk & ? & ? & ?). exists k. split; [done|]. lia.
Qed.

Section Correct.
Context (act_size : Z -> Z) (Hact : forall n, n <= act_size n).
Context (accepts : list batch -> bool) (Hacc : forall l, accepts l = true).
Context (comm_magic : Z) (handle : comm_header -> list Z -> acc (decision * list Z)).
Context (dest0 : TTYPE_E) (Hdest0 : dest0 <> TTYPE_L2_DB_RD).

#[local] Abbreviation stream_ok := (stream_ok comm_magic handle dest0).

Implicit Types (D : list Z) (O : list (TTYPE_E * option (list Z))).

(** At the head of the inner loop, with the data [D]; [O] is what the other
    threads have got or will get of the batch. *)
Inductive loop_st D O (s : l1_state) : Prop :=
  LoopSt hp nx b bytes off arr snt req pend h :
    s = mk_state hp nx b bytes off D arr snt req pend h ->
    view hp nx b bytes off D -> refs_ok dest0 b off arr -> (ndbs arr < MAX_DBS)%nat ->
    sent_msgs snt ++ arr_msgs b bytes arr = O -> loop_st D O s.

(** The buffer a batch was handed over with, when no new one was needed. *)
Definition no_buf O (s : l1_state) : Prop :=
  pdirbuf_ (rdstat_ s) = None /\ data_sz_ (rdstat_ s) = 0 /\ data_sz s = 0 /\
  dbonearr_ (dbarr s) = [] /\ sent_msgs (sent s) = O.

Definition pad_to (sz : Z) D : list Z := D ++ replicate (Z.to_nat (act_size sz) - length D) 0.

Lemma blen_pad_to sz D : 0 <= sz -> blen D <= sz -> blen (pad_to sz D) = act_size sz.
Proof.
  intros H0 Hl. unfold pad_to, blen in *. rewrite length_app, length_replicate.
  pose proof (Hact sz). lia.
Qed.

Lemma view_fresh hp nx sz D : bytes_wf D -> 0 <= sz -> blen D <= sz ->
  hp !! nx = Some (pad_to sz D) -> view hp (S nx) nx (pad_to sz D) 0 D.
Proof.
  intros Hwf H0 Hl Hhp. pose proof (Hact sz). split_and!; try done; try lia.
  - rewrite blen_pad_to by done. lia.
  - unfold pad_to. by rewrite drop_0, take_app_length.
Qed.

(** A new buffer with a copy of the data. *)
Lemma alloc_copy {B} s hp nx b bytes off D sz (k : nat -> M B) :
  view hp nx b bytes off D -> heap s = hp -> next_buf s = nx -> blen D <= sz ->
  (do palloc <- safe_malloc act_size sz; memcpy (Some palloc, 0) (Some b, off) (blen D) ;; k palloc) s =
  k nx (L1State (<[nx := pad_to sz D]> hp) (S nx) (rdstat_ s) (sent s) (dbarr s) (prdbuf s)
    (max_buf_sz s) (data_sz s) (hdr s)).
Proof.
  intros Hv Hhp Hnx Hsz. pose proof (Hact sz) as Ha. unfold blen in Hsz.
  unfold bind at 1. cbn [safe_malloc]. rewrite Hhp, Hnx. unfold bind at 1, memcpy, bind at 1.
  assert (nx <> b) as Hne by (destruct Hv as (_ & ? & _); lia).
  erewrite (load_data _ _ (S nx) b bytes off D).
  - cbn [Z.to_nat]. unfold blen. rewrite Nat2Z.id, firstn_all.
    erewrite (store_ok _ nx _ 0) by
      (cbn [heap]; rewrite ?lookup_insert_eq; try done; rewrite length_replicate; lia).
    cbn [set_heap heap next_buf rdstat_ sent dbarr prdbuf max_buf_sz data_sz hdr].
    rewrite insert_insert_eq. unfold pad_to. rewrite take_0, app_nil_l, Nat.add_0_l, drop_replicate. done.
  - destruct Hv as (Hb & Hx & Hr). split; [|split; [lia|exact Hr]].
    rewrite lookup_insert_ne by done. exact Hb.
  - done.
  - unfold blen. lia.
Qed.

(** The batch is handed over with its buffer. *)
Lemma send_ok s b bytes : heap s !! b = Some bytes -> pbufstart_ (dbarr s) = Some b ->
  send_db_array accepts s =
  Ok true (L1State (delete b (heap s)) (next_buf s) (rdstat_ s) (sent s ++ [Batch b bytes (dbarr s)])
    (DbWriteArr [] None (dest_thr_type_ (dbarr s))) (prdbuf s) (max_buf_sz s) (data_sz s) (hdr s)).
Proof. intros Hb Hs. unfold send_db_array. by rewrite Hs, Hb, Hacc. Qed.

Lemma sent_msgs_snoc l b bytes arr :
  sent_msgs (l ++ [Batch b bytes arr]) = sent_msgs l ++ arr_msgs b bytes arr.
Proof. unfold sent_msgs. rewrite bind_app. cbn. by rewrite app_nil_r. Qed.

(** The new buffer [nx] becomes that of the connection. *)
Lemma set_buf_ok s nx cap D : data_sz_ (rdstat_ s) = 0 -> pdirbuf_ (rdstat_ s) = None ->
  blen D <= cap ->
  (set_buf nx cap (blen D) ;; set_variables) s =
  Ok tt (L1State (heap s) (next_buf s)
    (EdirStats (Some nx) cap (blen D) (nrequests_ (rdstat_ s)) (pending_sz_ (rdstat_ s)))
    (sent s) (dbarr s) (Some nx, 0) cap (blen D) (hdr s)).
Proof.
  intros H0 Hn Hc. unfold set_buf, set_variables, set_locals, bind, gets. cbn [rdstat_].
  rewrite H0, Hn. rewrite (Z.gtb_ltb (blen D)), (proj2 (Z.ltb_ge _ _)) by lia. done.
Qed.

(** The state with a fresh buffer that holds the data and an empty batch. *)
Lemma loop_st_fresh s O hp nx sz D start d snt req pend h :
  bytes_wf D -> 0 <= sz -> blen D <= sz -> hp !! nx = Some (pad_to sz D) -> sent_msgs snt = O ->
  s = L1State hp (S nx) (EdirStats (Some nx) (act_size sz) (blen D) req pend) snt
        (DbWriteArr [] start d) (Some nx, 0) (act_size sz) (blen D) h ->
  loop_st D O s.
Proof.
  intros Hwf H0 Hl Hhp HO ->. pose proof (blen_pad_to sz D H0 Hl) as Hp.
  eapply (LoopSt _ _ _ hp (S nx) nx (pad_to sz D) 0 (DbWriteArr [] start d) snt req pend h).
  - unfold mk_state. by rewrite Hp, Z.sub_0_r, Z.add_0_l.
  - by apply view_fresh.
  - apply refs_ok_nil.
  - cbv; lia.
  - cbn. by rewrite app_nil_r.
Qed.

(** The fresh buffer [nx] replaces the one the connection had. *)
Lemma set_fresh_ok D O s hp nx sz : bytes_wf D -> 0 <= sz -> blen D <= sz ->
  hp !! nx = Some (pad_to sz D) -> heap s = hp -> next_buf s = S nx ->
  data_sz_ (rdstat_ s) = 0 -> pdirbuf_ (rdstat_ s) = None -> dbonearr_ (dbarr s) = [] ->
  sent_msgs (sent s) = O ->
  wp (set_buf nx (act_size sz) (blen D) ;; set_variables)
    (fun _ s' => loop_st D O s' /\ hdr s' = hdr s /\ max_buf_sz s' = act_size sz /\
      dbonearr_ (dbarr s') = []) (fun _ => False) s.
Proof.
  intros Hwf Hsz Hl Hhp Eh Ex H0 Hp Hd HO. pose proof (Hact sz) as Ha.
  unfold wp. rewrite set_buf_ok by (done || lia). split; [|split_and!; done].
  rewrite Eh, Ex. destruct (dbarr s) as [l st d]. cbn in Hd. subst l.
  by refine (loop_st_fresh _ _ _ _ sz _ _ _ _ _ _ _ Hwf Hsz Hl Hhp HO eq_refl).
Qed.

Lemma arr_msgs_nil b bytes arr : dbonearr_ arr = [] -> arr_msgs b bytes arr = [].
Proof. unfold arr_msgs. by intros ->. Qed.

Lemma make_room_ok D O s : loop_st D O s -> 0 <= total_sz_ (hdr s) ->
  wp (make_room act_size accepts)
    (fun _ s' => loop_st D O s' /\ hdr s' = hdr s /\ total_sz_ (hdr s) <= max_buf_sz s' /\
      (blen D < total_sz_ (hdr s) -> dbonearr_ (dbarr s') = []))
    (fun _ => False) s.
Proof.
  intros [hp nx b bytes off arr snt req pend h -> Hv Hr Hn HO] Ht.
  assert (nx <> b) as Hne by (destruct Hv as (_ & ? & _); lia).
  pose proof Hv as (Hb & _ & _ & _ & Hfit & _ & Hwf).
  unfold wp, make_room. unfold bind at 1 2 3 4 5, gets. cbn [data_sz max_buf_sz prdbuf hdr dbarr mk_state] in *.
  match goal with |- context [if ?c then _ else _] => destruct c eqn:Hc end.
  - set (sz := Z.max 4096 (Z.max (total_sz_ h) (blen D))). pose proof (Hact sz) as Ha.
    rewrite (alloc_copy _ hp nx b bytes off) by (done || lia).
    cbn [rdstat_ sent dbarr prdbuf max_buf_sz data_sz hdr].
    set (hp' := <[nx := pad_to sz D]> hp).
    assert (delete b hp' !! nx = Some (pad_to sz D)) as Hnx
      by (rewrite lookup_delete_ne by done; apply lookup_insert_eq).
    unfold bind at 1. destruct (Nat.eqb (ndbs arr) 0) eqn:H0; cbn [negb].
    + (* nothing in the batch: the old buffer is freed *)
      apply Nat.eqb_eq, nil_length_inv in H0. rewrite arr_msgs_nil, app_nil_r in HO by done.
      eapply wp_mono, (set_fresh_ok D O); try done; try lia.
      intros _ s' (H1 & H2 & H3 & H4). rewrite H3. split_and!; try done. lia.
    + apply Nat.eqb_neq in H0. destruct Hr as [Hr Hs].
      destruct Hs as [Hs Hd]; [intros E; unfold ndbs in H0; by rewrite E in H0|].
      unfold bind at 1. erewrite (send_ok _ b bytes); [|cbn [heap]; unfold hp'; by rewrite lookup_insert_ne|exact Hs].
      eapply wp_mono, (set_fresh_ok D O); try done; try lia; [|cbn; by rewrite sent_msgs_snoc].
      intros _ s' (H1 & H2 & H3 & H4). rewrite H3. split_and!; try done. lia.
  - split; [by econstructor|]. split; [done|]. cbn [max_buf_sz dbarr mk_state].
    apply orb_false_iff in Hc as [Hc Hm]. breflect. split; [lia|]. intros Hlt.
    rewrite (proj2 (Z.ltb_lt _ _) Hlt) in Hc. cbn in Hc. apply negb_false_iff, Nat.eqb_eq in Hc.
    by apply nil_length_inv.
Qed.

Lemma hdr_of_16_bytes D : 16 <= blen D -> bytes_wf D -> exists h, hdr_of_bytes (take 16 D) = Acc h.
Proof.
  intros Hl Hwf. assert (bytes_wf (take 16 D)) as Hw by by apply Forall_take.
  assert (blen (take 16 D) = 16) as Hl' by (unfold blen in *; rewrite length_take; lia).
  assert (forall off, 0 <= off -> off + 4 <= 16 -> exists v, rd_le 4 (take 16 D) off = Acc v) as Hrd.
  { intros off H0 H1. destruct (sat_Acc _ _ (rd_le_sat 4 (take 16 D) Hw off H0 ltac:(lia))) as (v & Hv & _).
    eauto. }
  destruct (Hrd 0) as [v0 E0]; [lia..|]. destruct (Hrd 4) as [v1 E1]; [lia..|].
  destruct (Hrd 8) as [v2 E2]; [lia..|]. destruct (Hrd 12) as [v3 E3]; [lia..|].
  exists (CommHeader v0 v1 v2 v3). unfold hdr_of_bytes, rd_fld.
  change (field COMM_HEADER "magic_") with (Some (0, uint32_t)).
  change (field COMM_HEADER "total_sz_") with (Some (4, uint32_t)).
  change (field COMM_HEADER "data_type_") with (Some (8, uint32_t)).
  change (field COMM_HEADER "padding_sz_") with (Some (12, uint32_t)). cbv iota.
  change (Z.to_nat (sizeof uint32_t)) with 4%nat. rewrite !Z.add_0_l, E0, E1, E2, E3. done.
Qed.

Lemma loop_st_set_hdr D O s h : loop_st D O s -> exists s', set_hdr h s = Ok tt s' /\ loop_st D O s' /\ hdr s' = h.
Proof.
  intros [hp nx b bytes off arr snt req pend h0 -> Hv Hr Hn HO]. eexists. split; [done|].
  split; [by econstructor|done].
Qed.

(** The header of the next message, when there is one. *)
Lemma read_hdr_ok D O s : loop_st D O s ->
  wp (read_hdr comm_magic)
    (fun _ s' => loop_st D O s' /\
      (blen D < 16 /\ total_sz_ (hdr s') = 16 \/
       hdr_of_bytes (take 16 D) = Acc (hdr s') /\ hdr_validate 0 comm_magic (hdr s') = true))
    (fun s' => parse comm_magic handle D = ([], None) /\ loop_st D O s') s.
Proof.
  intros Hs. pose proof Hs as [hp nx b bytes off arr snt req pend h0 E Hv Hr Hn HO].
  unfold wp, read_hdr. unfold bind at 1 2, gets. rewrite E. cbn [data_sz prdbuf mk_state].
  change (sizeof COMM_HEADER) with 16. destruct (blen D >=? 16) eqn:Hl.
  - breflect. pose proof Hv as (_ & _ & _ & Ho & _ & _ & Hwf).
    unfold bind at 1. rewrite <- E, (load_data s hp nx b bytes off D) by (done || (by rewrite E) || lia).
    change (Z.to_nat 16) with 16%nat. destruct (hdr_of_16_bytes D Hl Hwf) as [h Hh]. rewrite Hh.
    destruct (loop_st_set_hdr D O s h Hs) as (s' & Es & Hs' & Hhd). unfold bind. rewrite Es. cbn [snd].
    rewrite hdr_validate_aligned by (by rewrite land7_mod8).
    destruct (hdr_validate 0 comm_magic h) eqn:Hval; cbn [negb throw ret].
    + split; [done|]. right. by rewrite Hhd.
    + split; [|done]. rewrite parse_eq, (proj2 (Z.ltb_ge _ _)), Hh, Hval by done. done.
  - breflect. unfold bind. rewrite <- E.
    destruct (loop_st_set_hdr D O s (hdr_set_total (hdr s) 16) Hs) as (s' & -> & Hs' & Hhd).
    split; [done|]. left. by rewrite Hhd.
Qed.

(** The data of the buffer is moved to its start; the batch is empty. *)
Lemma move_to_start_ok D O s : loop_st D O s -> dbonearr_ (dbarr s) = [] ->
  wp move_to_start
    (fun _ s' => loop_st D O s' /\ hdr s' = hdr s /\ max_buf_sz s <= max_buf_sz s' /\
      prdbuf s' = (pdirbuf_ (rdstat_ s'), 0) /\ dbonearr_ (dbarr s') = [])
    (fun _ => False) s.
Proof.
  intros [hp nx b bytes off arr snt req pend h -> Hv Hr Hn HO] Hd. cbn [dbarr mk_state] in Hd.
  pose proof Hv as (Hb & Hx & Ho & _ & Hfit & HD & Hwf). rewrite arr_msgs_nil, app_nil_r in HO by done.
  unfold wp, move_to_start, memcpy. unfold bind at 1 2 3 4 5, gets. cbn [data_sz prdbuf rdstat_ pdirbuf_ mk_state].
  pose proof (Zle_0_nat (length D)).
  rewrite (load_data _ hp nx b bytes off D) by (done || unfold blen; lia).
  unfold blen at 1. rewrite Nat2Z.id, firstn_all.
  erewrite (store_ok _ b bytes 0) by (done || unfold blen in *; lia).
  set (bytes' := take 0 bytes ++ D ++ _).
  assert (blen bytes' = blen bytes) as Hl
    by (unfold bytes', blen in *; rewrite !length_app, length_drop, take_0; simpl; lia).
  cbn. split.
  - eapply (LoopSt _ _ _ (<[b := bytes']> hp) nx b bytes' 0 arr snt); try done.
    + unfold mk_state. by rewrite Hl, Z.sub_0_r, Z.add_0_l.
    + split_and!; try done; [apply lookup_insert_eq|lia|].
      unfold bytes'. by rewrite take_0, drop_0, app_nil_l, take_app_length.
    + destruct arr. cbn in Hd. subst. apply refs_ok_nil.
    + by rewrite arr_msgs_nil, app_nil_r.
  - split_and!; try done. lia.
Qed.

Definition msgs_of (ms : list (TTYPE_E * list Z)) : list (TTYPE_E * option (list Z)) :=
  (fun p => (p.1, Some p.2)) <$> ms.

(** Behind the switch, before the local variables move on: the message at [off]
    has its final contents, and belongs to the batch if it is to be handed over. *)
Inductive dispatched D (total : Z) O (s : l1_state) : Prop :=
  Dispatched hp nx b bytes off arr snt req pend h :
    s = mk_state hp nx b bytes off D arr snt req pend h -> total_sz_ h = total ->
    view hp nx b bytes (off + total) (drop (Z.to_nat total) D) -> 0 <= off ->
    refs_ok dest0 b (off + total) arr -> (ndbs arr <= MAX_DBS)%nat ->
    sent_msgs snt ++ arr_msgs b bytes arr = O -> dispatched D total O s.

(** The buffer after a message in it was changed. *)
Lemma view_store hp nx b bytes (off : nat) D total m :
  view hp nx b bytes (Z.of_nat off) D -> (total <= length D)%nat -> length m = total ->
  Z.of_nat total mod 8 = 0 ->
  let bytes' := take off bytes ++ m ++ drop (off + total) bytes in
  view (<[b := bytes']> hp) nx b bytes' (Z.of_nat off + Z.of_nat total) (drop total D) /\
  blen bytes' = blen bytes /\ take off bytes' = take off bytes /\
  take total (drop off bytes') = m.
Proof.
  intros (Hb & Hx & _ & Ho & Hfit & HD & Hwf) Ht Hm Ht8 bytes'. unfold blen in Hfit.
  assert (length (take off bytes) = off) as Hto by (rewrite length_take; lia).
  assert (length bytes' = length bytes) as Hl
    by (unfold bytes'; rewrite !length_app, length_drop, Hto, Hm; lia).
  assert (drop (off + total) bytes' = drop (off + total) bytes) as Hdr.
  { unfold bytes'. rewrite app_assoc, drop_app_length'; [done|]. rewrite length_app. lia. }
  split; [|split; [unfold blen; by rewrite Hl|split]].
  - split_and!; try done; try lia.
    + apply lookup_insert_eq.
    + rewrite Z.add_mod, Ho, Ht8 by lia. done.
    + unfold blen. rewrite length_drop. lia.
    + replace (Z.to_nat (Z.of_nat off + Z.of_nat total)) with (off + total)%nat by lia.
      transitivity (drop total (take (length D) (drop (Z.to_nat (Z.of_nat off)) bytes))); [|by rewrite HD].
      rewrite Hdr, Nat2Z.id, length_drop, skipn_firstn_comm, drop_drop. done.
    + by apply Forall_drop.
  - unfold bytes'. by rewrite take_app_length'.
  - unfold bytes'. rewrite drop_app_length' by done. by rewrite take_app_length'.
Qed.

(** The first message of the data, handled. *)
Lemma stream_head D h : bytes_wf D -> hdr_of_bytes (take 16 D) = Acc h -> hdr_validate 0 comm_magic h = true ->
  total_sz_ h <= blen D -> stream_ok D = true ->
  let tot := Z.to_nat (total_sz_ h) in let rest := drop tot D in
  exists dec m, handle h (take tot D) = Acc (dec, m) /\ length m = tot /\
    match dec with
    | Schedule dest => dest = dest0 /\ stream_ok rest = true /\
        parse comm_magic handle D = ((dest0, m) :: (parse comm_magic handle rest).1, (parse comm_magic handle rest).2)
    | Skip => stream_ok rest = true /\ parse comm_magic handle D = parse comm_magic handle rest
    | Register _ => False
    | _ => parse comm_magic handle D = ([], None)
    end.
Proof.
  intros Hwf Hh Hval Hlen Hst tot rest. destruct (hdr_validate_total _ _ _ Hval) as (Htot & _).
  assert ((blen D <? sizeof COMM_HEADER) = false) as H16 by (apply Z.ltb_ge; change (sizeof COMM_HEADER) with 16; lia).
  pose proof (parse_eq comm_magic handle D) as Hp. rewrite H16, Hh, Hval, (proj2 (Z.ltb_ge _ _) Hlen) in Hp.
  rewrite stream_eq, H16, Hh, Hval, (proj2 (Z.ltb_ge _ _) Hlen) in Hst. cbn [negb] in *. cbv zeta in *.
  fold tot rest in Hp, Hst. apply andb_prop in Hst as [Hone Hst]. unfold one_dest in Hone.
  destruct (handle h (take tot D)) as [[dec m]|] eqn:Hhd; [|done]. exists dec, m. split; [done|].
  apply andb_prop in Hone as [Hl Hdec]. apply Nat.eqb_eq in Hl. unfold blen in Hlen.
  split; [rewrite Hl, length_take; lia|].
  destruct dec; try done. apply bool_decide_eq_true_1 in Hdec as ->. split; [done|]. split; [done|].
  by destruct (parse comm_magic handle rest).
Qed.

(** A message of the buffer is added to the batch. *)
Lemma schedule_ok D O hp nx b bytes (o : nat) arr snt req pend h m :
  view hp nx b bytes (Z.of_nat o + total_sz_ h) (drop (Z.to_nat (total_sz_ h)) D) ->
  refs_ok dest0 b (Z.of_nat o) arr -> (ndbs arr < MAX_DBS)%nat -> 0 <= total_sz_ h ->
  take (Z.to_nat (total_sz_ h)) (drop o bytes) = m -> sent_msgs snt ++ arr_msgs b bytes arr = O ->
  wp (schedule_db_array act_size accepts (Some b, Z.of_nat o) (total_sz_ h) (data_type_ h) dest0)
    (fun _ => dispatched D (total_sz_ h) (O ++ msgs_of [(dest0, m)])) (fun _ => False)
    (mk_state hp nx b bytes (Z.of_nat o) D arr snt req pend h).
Proof.
  intros Hv Hr Hn Htot Hm HO. unfold schedule_db_array. apply wp_bind, wp_gets. cbn [dbarr mk_state].
  rewrite (proj2 (Nat.leb_gt _ _)) by done.
  assert (dbonearr_ arr <> [] -> pbufstart_ arr = Some b /\ dest_thr_type_ arr = dest0) as Hs by apply Hr.
  assert ((bool_decide (dest0 <> dest_thr_type_ arr) || bool_decide (dest0 = TTYPE_L2_DB_RD)) &&
    negb (Nat.eqb (ndbs arr) 0) = false) as ->.
  { destruct (Nat.eqb_spec (ndbs arr) 0) as [|Hne]; [apply andb_false_r|]. cbn [negb]. rewrite andb_true_r.
    destruct Hs as [_ ->]; [intros E; unfold ndbs in Hne; by rewrite E in Hne|].
    rewrite !bool_decide_eq_false_2; [done|done|by intros []]. }
  unfold wp. cbn.
  set (one := DbWriteOne (Some b, Z.of_nat o) (total_sz_ h) (data_type_ h)).
  set (arr' := if Nat.eqb (ndbs arr) 0 then _ else _).
  assert (dbonearr_ arr' = dbonearr_ arr ++ [one] /\ pbufstart_ arr' = Some b /\ dest_thr_type_ arr' = dest0)
    as (Ha1 & Ha2 & Ha3).
  { unfold arr'. destruct (Nat.eqb_spec (ndbs arr) 0) as [E|E].
    - unfold ndbs in E. apply nil_length_inv in E. by rewrite E.
    - destruct Hs as [? ?]; [intros E'; unfold ndbs in E; by rewrite E' in E|]. done. }
  eapply (Dispatched _ _ _ _ hp nx b bytes (Z.of_nat o) arr' snt); try done.
  - lia.
  - split; [|done]. rewrite Ha1. apply Forall_snoc. split.
    + eapply Forall_impl; [apply Hr|]. intros x (k & Hk & ? & ? & ?). exists k. split; [done|]. lia.
    + exists (Z.of_nat o). cbn. split; [done|]. lia.
  - unfold ndbs in *. rewrite Ha1, length_app. cbn. unfold MAX_DBS in *. lia.
  - rewrite <- HO, <- app_assoc. f_equal. unfold arr_msgs. rewrite Ha1, Ha3, fmap_app. f_equal.
    + apply list_fmap_ext. intros i x Hx'. f_equal. by destruct Hs as [_ ->]; [intros E; rewrite E in Hx'|].
    + cbn. unfold one_msg. cbn [pwrbuf_ fst snd wrlen_ one]. rewrite bool_decide_eq_true_2 by done.
      by rewrite Nat2Z.id, Hm.
Qed.

Lemma dispatch_ok D O s h : loop_st D O s -> hdr s = h -> hdr_of_bytes (take 16 D) = Acc h ->
  hdr_validate 0 comm_magic h = true -> total_sz_ h <= blen D -> stream_ok D = true ->
  wp (dispatch act_size accepts handle)
    (fun _ s' => exists ms, dispatched D (total_sz_ h) (O ++ msgs_of ms) s' /\
      stream_ok (drop (Z.to_nat (total_sz_ h)) D) = true /\
      parse comm_magic handle D =
        (ms ++ (parse comm_magic handle (drop (Z.to_nat (total_sz_ h)) D)).1,
         (parse comm_magic handle (drop (Z.to_nat (total_sz_ h)) D)).2))
    (fun s' => parse comm_magic handle D = ([], None) /\ sent s' = sent s) s.
Proof.
  intros [hp nx b bytes off arr snt req pend h0 -> Hv Hr Hn HO] Eh Hh Hval Hlen Hst.
  cbn [hdr mk_state] in Eh. subst h0. destruct (hdr_validate_total _ _ _ Hval) as (Htot & Ht8 & _).
  rewrite land7_mod8 in Ht8. pose proof Hv as (Hb & Hx & Ho & _ & Hfit & _ & Hwf).
  destruct (stream_head D h Hwf Hh Hval Hlen Hst) as (dec & m & Hhd & Hm & Hdec).
  set (tot := Z.to_nat (total_sz_ h)) in *. assert (Z.of_nat tot = total_sz_ h) as Etot by lia.
  assert (tot <= length D)%nat as Htl by (unfold blen in Hlen; lia).
  unfold wp, dispatch. unfold bind at 1 2 3 4 5, gets, set_rdstat. cbn [rdstat_ hdr prdbuf mk_state pdirbuf_ max_buf_sz_ data_sz_ nrequests_ pending_sz_].
  erewrite (load_data _ hp nx b bytes off D) by (done || lia). fold tot. rewrite Hhd.
  rewrite <- (Z2Nat.id off Ho) in *. set (o := Z.to_nat off) in *.
  destruct (view_store hp nx b bytes o D tot m Hv Htl Hm) as (Hv' & Hl' & Hpre & Hmsg); [by rewrite Etot|].
  unfold bind at 1. erewrite (store_ok _ b bytes o) by (done || unfold blen in *; lia). rewrite Hm.
  set (bytes' := take o bytes ++ m ++ drop (o + tot) bytes) in *. rewrite Etot in Hv'.
  cbn [set_heap heap next_buf rdstat_ sent dbarr prdbuf max_buf_sz data_sz hdr].
  assert (arr_msgs b bytes' arr = arr_msgs b bytes arr) as Harr.
  { eapply arr_msgs_agree; [exact Hr|]. by rewrite Nat2Z.id. }
  destruct dec as [|e| |dest|dest]; cbn [throw ret]; [by split..| | |done].
  - destruct Hdec as [Hst' Hp]. exists []. rewrite app_nil_r. split; [|by rewrite Hp; destruct (parse _ _ (drop tot D))].
    eapply (Dispatched _ _ _ _ _ nx b bytes' (Z.of_nat o) arr snt); [by unfold mk_state; rewrite Hl'|..]; try done.
    + lia.
    + eapply refs_ok_mono; [|exact Hr]. lia.
    + lia.
    + by rewrite Harr.
  - destruct Hdec as (-> & Hst' & Hp).
    pose proof (schedule_ok D O _ nx b bytes' o arr snt (req + 1) pend h m Hv' Hr Hn ltac:(lia) Hmsg) as Hs.
    rewrite Harr in Hs. specialize (Hs HO). unfold mk_state in Hs |- *. rewrite Hl' in Hs.
    eapply wp_mono in Hs; [exact Hs|..|done]. intros u s' Hd. by exists [(dest0, m)].
Qed.

(** The local variables have moved behind the message. *)
Lemma advance_locals hp nx b bytes off D total arr snt req pend h :
  0 <= total <= blen D ->
  mk_state hp nx b bytes (off + total) (drop (Z.to_nat total) D) arr snt req pend h =
  L1State hp nx (EdirStats (Some b) (blen bytes) (off + blen D) req pend) snt arr
    (Some b, off + total) (blen bytes - off - total) (blen D - total) h.
Proof.
  intros Ht. unfold mk_state. assert (blen (drop (Z.to_nat total) D) = blen D - total) as ->
    by (unfold blen in *; rewrite length_drop; lia).
  replace (off + total + (blen D - total)) with (off + blen D) by lia.
  by replace (blen bytes - (off + total)) with (blen bytes - off - total) by lia.
Qed.

(** A batch that is full, or whose buffer has no room left, is handed over. *)
Lemma hand_over_ok D' O is_again hp nx b bytes off arr snt req pend h :
  let mx := blen bytes - off in let n := blen D' in
  let sz := if n >? 4096 then n + 1024 else 4096 in
  view hp nx b bytes off D' -> refs_ok dest0 b off arr -> dbonearr_ arr <> [] ->
  sent_msgs snt ++ arr_msgs b bytes arr = O ->
  wp (do palloc <-
        (if negb is_again || (n >? 0) || ((mx - n <? sizeof COMM_HEADER) && (mx >? 0)) then
           do palloc <- safe_malloc act_size sz;
           (if n >? 0 then memcpy (Some palloc, 0) (Some b, off) n else ret tt) ;;
           ret (Some palloc)
         else ret None);
      do _ <- send_db_array accepts;
      reset_buf false ;;
      match palloc with
      | Some b => set_buf b (act_size sz) n ;; set_variables
      | None => ret tt
      end)
    (fun _ s' => loop_st D' O s' \/ D' = [] /\ is_again = true /\ no_buf O s')
    (fun _ => False) (mk_state hp nx b bytes off D' arr snt req pend h).
Proof.
  intros mx n sz Hv [Hr Hs] Hne HO. destruct (Hs Hne) as [Hst _].
  pose proof Hv as (Hb & Hx & _ & _ & _ & _ & Hwf). pose proof (Zle_0_nat (length D')) as Hn0.
  assert (nx <> b) as Hnb by lia.
  assert (n <= sz /\ 0 <= sz) as [Hsz Hsz0] by (unfold sz, n, blen; case_if; breflect; lia).
  match goal with |- context [if ?c then _ else ret None] => destruct c eqn:Hc end.
  - (* a new buffer *)
    set (s1 := L1State (<[nx := pad_to sz D']> hp) (S nx)
      (EdirStats (Some b) (blen bytes) (off + n) req pend) snt arr (Some b, off) mx n h).
    assert ((do palloc <- safe_malloc act_size sz;
        (if n >? 0 then memcpy (Some palloc, 0) (Some b, off) n else ret tt) ;; ret (Some palloc))
        (mk_state hp nx b bytes off D' arr snt req pend h) = Ok (Some nx) s1) as E.
    { destruct (n >? 0) eqn:Hpos.
      - by rewrite (alloc_copy _ hp nx b bytes off D').
      - breflect. assert (D' = []) as -> by (apply nil_length_inv; unfold n, blen in Hpos; lia).
        unfold s1, pad_to. cbn. by rewrite Nat.sub_0_r. }
    apply wp_bind. unfold wp at 1. rewrite E. apply wp_bind. unfold wp at 1.
    rewrite (send_ok _ b bytes); [|cbn; by rewrite lookup_insert_ne|done].
    apply wp_bind. unfold wp at 1. cbn [reset_buf]. unfold reset_buf, bind, gets, ret, set_rdstat at 1.
    cbn [rdstat_ pdirbuf_ nrequests_ pending_sz_]. 
    eapply wp_mono, (set_fresh_ok D' O _ (delete b (<[nx := pad_to sz D']> hp)) nx sz); try done.
    + intros _ s' (? & _). by left.
    + rewrite lookup_delete_ne by done. apply lookup_insert_eq.
    + cbn. by rewrite sent_msgs_snoc.
  - apply orb_false_iff in Hc as [Hc _]. apply orb_false_iff in Hc as [Ha Hpos]. breflect.
    assert (D' = []) as -> by (apply nil_length_inv; unfold n, blen in Hpos; lia).
    apply wp_bind. unfold wp at 1. cbn [ret]. apply wp_bind. unfold wp at 1.
    rewrite (send_ok _ b bytes) by done. cbn. right. split_and!; try done.
    unfold no_buf. cbn. split_and!; try done. by rewrite sent_msgs_snoc.
Qed.

Lemma advance_ok D total O s is_again : dispatched D total O s -> 0 < total <= blen D ->
  let D' := drop (Z.to_nat total) D in
  wp (advance act_size accepts is_again)
    (fun _ s' => loop_st D' O s' \/ D' = [] /\ is_again = true /\ no_buf O s')
    (fun _ => False) s.
Proof.
  intros [hp nx b bytes off arr snt req pend h -> Et Hv Ho Hr Hn HO] Ht D'. fold D' in Hv.
  unfold advance. do 4 (apply wp_bind, wp_gets). cbn [data_sz max_buf_sz prdbuf hdr mk_state].
  rewrite (proj2 (Z.eqb_neq _ _)) by lia. cbn [negb]. apply wp_bind.
  unfold wp at 1. cbn [set_locals]. unfold set_locals.
  cbn [heap next_buf rdstat_ sent dbarr hdr mk_state fst snd]. rewrite Et, <- advance_locals by lia. fold D'.
  set (s1 := mk_state _ _ _ _ _ D' _ _ _ _ _). do 5 (apply wp_bind, wp_gets).
  cbn [data_sz max_buf_sz prdbuf dbarr rdstat_ s1 mk_state data_sz_].
  pose proof Hv as (_ & _ & _ & _ & Hfit & _ & _). pose proof (Zle_0_nat (length D')).
  assert ((blen D' <? 0) || (blen bytes - (off + total) <? blen D') = false) as ->
    by (apply orb_false_iff; split; apply Z.ltb_ge; unfold blen in *; lia).
  match goal with |- context [if ?c then _ else _] => destruct c eqn:Hc end.
  - apply hand_over_ok; try done. intros E. unfold ndbs in Hc. rewrite E in Hc. done.
  - apply orb_false_iff in Hc as [H8 Hroom]. apply Nat.eqb_neq in H8.
    assert (loop_st D' O s1) as Hs1 by (econstructor; [reflexivity|done|done|unfold ndbs, MAX_DBS in *; lia|done]).
    case_if; [|by left]. breflect.
    eapply wp_mono, (move_to_start_ok D' O s1 Hs1); [intros _ s' (? & _); by left|done|].
    rewrite (proj2 (Z.ltb_lt _ _)), andb_true_r in Hroom by done.
    apply negb_false_iff, Nat.eqb_eq in Hroom. by apply nil_length_inv.
Qed.

(** Where the inner loop ends: an incomplete message at the start of the buffer,
    which has room for the rest of it, or no data any more. *)
Definition loop_end D O (is_again : bool) (s : l1_state) : Prop :=
  loop_st D O s /\ D <> [] /\ dbonearr_ (dbarr s) = [] /\ blen D < max_buf_sz s /\
    prdbuf s = (pdirbuf_ (rdstat_ s), 0) \/
  D = [] /\ (loop_st [] O s \/ is_again = true /\ no_buf O s).

(** An incomplete message ends the loop. *)
Lemma incomplete_ok D O s is_again : loop_st D O s -> D <> [] -> blen D < total_sz_ (hdr s) ->
  total_sz_ (hdr s) <= max_buf_sz s -> dbonearr_ (dbarr s) = [] ->
  wp (if negb (blen D =? data_sz_ (rdstat_ s)) then move_to_start else ret tt)
    (fun _ => loop_end D O is_again) (fun _ => False) s.
Proof.
  intros Hs Hne Hlt Hmx Hd. case_if.
  - eapply wp_mono, move_to_start_ok; [|done|done..].
    intros _ s' (H1 & H2 & H3 & H4 & H5). left. split_and!; try done. lia.
  - destruct Hs as [hp nx b bytes off arr snt req pend h -> Hv Hr Hn HO]. breflect. cbn in *.
    assert (off = 0) as -> by lia. left. split_and!; try done; [by econstructor|cbn in *; lia].
Qed.

(** The other threads have got a part of [O]. *)
Definition sent_part O (s : l1_state) : Prop := exists rest, O = sent_msgs (sent s) ++ rest.

Lemma loop_st_sent D O s : loop_st D O s -> sent_part O s.
Proof. intros [hp nx b bytes off arr snt req pend h -> Hv Hr Hn HO]. by eexists. Qed.

Lemma sent_part_app O O' s : sent_part O s -> sent_part (O ++ O') s.
Proof. intros [rest ->]. exists (rest ++ O'). by rewrite app_assoc. Qed.

(** The inner loop goes through the messages of the data. *)
Lemma msg_loop_ok fuel : forall D O s is_again, loop_st D O s -> D <> [] -> (length D < fuel)%nat ->
  stream_ok D = true ->
  wp (msg_loop act_size accepts comm_magic handle fuel is_again)
    (fun _ s' => exists ms r, parse comm_magic handle D = (ms, Some r) /\
      loop_end r (O ++ msgs_of ms) is_again s')
    (fun s' => exists ms, parse comm_magic handle D = (ms, None) /\ sent_part (O ++ msgs_of ms) s') s.
Proof.
  induction fuel as [|fuel IH]; intros D O s is_again Hs Hne Hf Hst; [lia|]. cbn [msg_loop].
  apply wp_bind. eapply wp_mono, read_hdr_ok, Hs.
  2: { intros s' [Hp Hs']. exists []. split; [done|]. rewrite app_nil_r. by eapply loop_st_sent. }
  intros _ s1 [Hs1 Hh]. apply wp_bind.
  assert (16 <= total_sz_ (hdr s1)) as Htot
    by (destruct Hh as [[_ ->]|[_ Hv]]; [lia|apply hdr_validate_total in Hv; lia]).
  eapply wp_mono, make_room_ok; [|done|done|lia]. intros _ s2 (Hs2 & Eh & Hmx & Hd). rewrite <- Eh in *.
  do 3 (apply wp_bind, wp_gets).
  assert (data_sz s2 = blen D) as -> by (by destruct Hs2 as [????????????]; subst).
  destruct (blen D <? total_sz_ (hdr s2)) eqn:Hlt; breflect.
  - eapply wp_mono, (incomplete_ok D O s2 is_again); [|done..|by apply Hd]. intros u s3 Hend. cbv beta in Hend. exists [], D.
    rewrite app_nil_r. split; [|done]. rewrite parse_eq. change (sizeof COMM_HEADER) with 16.
    destruct Hh as [[H16 _]|[Hh Hv]]; [by rewrite (proj2 (Z.ltb_lt _ _) H16)|].
    case_if; [done|]. by rewrite Hh, Hv, (proj2 (Z.ltb_lt _ _) Hlt).
  - destruct Hh as [[H16 E]|[Hh Hv]]; [lia|]. apply wp_bind.
    eapply wp_mono, (dispatch_ok D O s2 (hdr s2)); try done.
    2: { intros s3 [Hp Es]. exists []. split; [done|]. rewrite app_nil_r.
         destruct (loop_st_sent _ _ _ Hs2) as [rest ->]. exists rest. by rewrite Es. }
    intros _ s3 (ms & Hdis & Hst' & Hp). apply wp_bind.
    eapply wp_mono, advance_ok; [|done|exact Hdis|lia]. intros u s4 H4. cbv beta in H4.
    set (D' := drop _ D) in *. apply wp_bind, wp_gets.
    assert (length D' < length D)%nat as Hl by (unfold D', blen in *; rewrite length_drop; lia).
    destruct (nil_or_length_pos D') as [E|Hpos].
    + assert (data_sz s4 = 0) as ->
        by (destruct H4 as [[????????????]|(_ & _ & _ & _ & ? & _)]; [by subst; rewrite E|done]).
      cbn. exists ms, []. rewrite Hp, E. cbn. rewrite app_nil_r. split; [done|]. right. split; [done|].
      rewrite E in H4. tauto.
    + assert (D' <> []) as Hne' by (by intros ->).
      destruct H4 as [Hs4|(? & _)]; [|done].
      assert (data_sz s4 = blen D') as -> by (by destruct Hs4 as [????????????]; subst).
      rewrite (Z.gtb_ltb (blen D')), (proj2 (Z.ltb_lt _ _)) by (unfold blen; lia).
      rewrite Hp. eapply wp_mono, (IH D'); [..|done|done|lia|done].
      * intros _ s' (ms' & r & -> & Hend). exists (ms ++ ms'), r. split; [done|].
        unfold msgs_of in *. by rewrite fmap_app, app_assoc.
      * intros s' (ms' & -> & Hend). exists (ms ++ ms'). split; [done|].
        unfold msgs_of in *. by rewrite fmap_app, app_assoc.
Qed.

(** ** Calls *)

(** The connection has a buffer, with [r] at its start and room behind it. *)
Definition has_buf r O (s : l1_state) : Prop := exists b bytes,
  pdirbuf_ (rdstat_ s) = Some b /\ max_buf_sz_ (rdstat_ s) = blen bytes /\
  data_sz_ (rdstat_ s) = blen r /\ view (heap s) (next_buf s) b bytes 0 r /\
  blen r < blen bytes /\ sent_msgs (sent s) = O.

(** Between calls: the bytes [r] of an incomplete message are kept, and the
    messages [O] have been handed over. *)
Definition ready r O (s : l1_state) : Prop :=
  has_buf r O s \/
  r = [] /\ pdirbuf_ (rdstat_ s) = None /\ data_sz_ (rdstat_ s) = 0 /\ sent_msgs (sent s) = O.

(** At the head of the outer loop. *)
Definition at_head r O (s : l1_state) : Prop := has_buf r O s /\ dbonearr_ (dbarr s) = [].

Lemma set_variables_head r O s : at_head r O s -> exists s',
  set_variables s = Ok tt s' /\ at_head r O s' /\ loop_st r O s' /\ rdstat_ s' = rdstat_ s.
Proof.
  intros [(b & bytes & Hp & Hm & Hd & Hv & Hl & HO) Ha]. eexists. split; [done|]. cbn.
  split; [|split; [|done]].
  - split; [|done]. by exists b, bytes.
  - destruct s as [hp nx [pb mb db rq pn] snt [one st d] p mx n h]. cbn in *. subst.
    eapply (LoopSt _ _ _ hp nx b bytes 0 (DbWriteArr [] st d) snt rq pn h); try done.
    + unfold mk_state. by rewrite Z.sub_0_r, Z.add_0_l.
    + cbv; lia.
    + by rewrite app_nil_r.
Qed.

(** The received bytes are stored behind the data. *)
Lemma view_recv hp nx b bytes r c : view hp nx b bytes 0 r -> bytes_wf c ->
  blen r + blen c <= blen bytes ->
  let bytes' := take (length r) bytes ++ c ++ drop (length r + length c) bytes in
  view (<[b := bytes']> hp) nx b bytes' 0 (r ++ c) /\ blen bytes' = blen bytes.
Proof.
  intros (Hb & Hx & _ & _ & _ & HD & Hwf) Hc Hl bytes'. change (Z.to_nat 0) with 0%nat in HD.
  rewrite drop_0 in HD. unfold blen in Hl.
  assert (length bytes' = length bytes) as Hlen
    by (unfold bytes'; rewrite !length_app, length_drop, length_take; lia).
  split; [|unfold blen; lia]. split_and!; try done.
  - apply lookup_insert_eq.
  - unfold blen. rewrite length_app. lia.
  - change (Z.to_nat 0) with 0%nat. rewrite drop_0. unfold bytes'. rewrite HD, app_assoc.
    by rewrite take_app_length.
  - by apply Forall_app.
Qed.

Lemma recv_data_ok r O s c is_again : loop_st r O s -> at_head r O s -> bytes_wf c ->
  0 < blen c <= max_buf_sz_ (rdstat_ s) - blen r -> stream_ok (r ++ c) = true ->
  wp (recv_data act_size accepts comm_magic handle c is_again)
    (fun _ s' => exists ms r', parse comm_magic handle (r ++ c) = (ms, Some r') /\
      loop_end r' (O ++ msgs_of ms) is_again s')
    (fun s' => exists ms, parse comm_magic handle (r ++ c) = (ms, None) /\ sent_part (O ++ msgs_of ms) s') s.
Proof.
  intros [hp nx b bytes off arr snt req pend h -> Hv Hr Hn HO] [(b' & bytes' & Hp & Hm & Hd & Hv0 & _) Ha] Hwc Hc Hst.
  cbn [rdstat_ pdirbuf_ mk_state max_buf_sz_ data_sz_ dbarr heap next_buf] in *. injection Hp as <-.
  assert (off = 0) as -> by lia.
  destruct (view_recv hp nx b bytes r c Hv Hwc ltac:(lia)) as [Hv' Hl'].
  unfold recv_data. do 3 (apply wp_bind, wp_gets). cbn [prdbuf max_buf_sz data_sz mk_state fst snd].
  apply wp_bind. unfold wp at 1.
  replace (0 + blen r) with (Z.of_nat (length r)) by (unfold blen; lia).
  erewrite (store_ok _ b bytes) by (try apply Hv; unfold blen in *; lia).
  set (bytes1 := take (length r) bytes ++ _) in *. cbn [set_heap].
  apply wp_bind, wp_gets. apply wp_bind. unfold wp at 1. cbn -[wp msg_loop].
  apply wp_bind. unfold wp at 1. cbn -[wp msg_loop].
  assert (blen (r ++ c) = blen r + blen c) as Hlrc by (unfold blen; rewrite length_app; lia).
  apply msg_loop_ok.
  - eapply (LoopSt _ _ _ (<[b := bytes1]> hp) nx b bytes1 0 arr snt req pend h); try done.
    + unfold mk_state. by rewrite Hl', Hlrc, !Z.sub_0_r, Z.add_0_l.
    + by rewrite arr_msgs_nil in * by done.
  - intros E. apply (f_equal length) in E. rewrite length_app in E. unfold blen in *. simpl in E. lia.
  - unfold blen in *. rewrite length_app. lia.
  - done.
Qed.

Lemma recv_step_ok r O s c is_again ip : at_head r O s -> bytes_wf c ->
  0 < blen c <= max_buf_sz_ (rdstat_ s) - data_sz_ (rdstat_ s) -> stream_ok (r ++ c) = true ->
  wp (set_variables ;; recv_step act_size accepts comm_magic handle c is_again ip)
    (fun _ s' => exists ms r', parse comm_magic handle (r ++ c) = (ms, Some r') /\
      loop_end r' (O ++ msgs_of ms) is_again s')
    (fun s' => exists ms, parse comm_magic handle (r ++ c) = (ms, None) /\ sent_part (O ++ msgs_of ms) s') s.
Proof.
  intros Hh Hwc Hc Hst. destruct (set_variables_head r O s Hh) as (s1 & E & Hh1 & Hs1 & Er).
  apply wp_bind. unfold wp at 1. rewrite E. unfold recv_step. rewrite <- Er in Hc.
  assert (forall s2, loop_st r O s2 -> at_head r O s2 -> max_buf_sz_ (rdstat_ s2) = max_buf_sz_ (rdstat_ s1) ->
    forall x : bool, wp (recv_data act_size accepts comm_magic handle c is_again ;; ret x)
    (fun _ s' => exists ms r', parse comm_magic handle (r ++ c) = (ms, Some r') /\
      loop_end r' (O ++ msgs_of ms) is_again s')
    (fun s' => exists ms, parse comm_magic handle (r ++ c) = (ms, None) /\ sent_part (O ++ msgs_of ms) s') s2) as Hdata.
  { intros s2 H1 H2 H3 x. apply wp_bind.
    eapply wp_mono, (recv_data_ok r O s2 c is_again); [by intros u s' H|done|done|done|done| |done].
    rewrite H3. destruct Hh1 as [(b & bytes & _ & _ & Hd & _) _]. lia. }
  apply wp_bind. destruct ip; [|by apply Hdata]. apply wp_bind.
  unfold pending_recv_seen. apply wp_bind, wp_gets. destruct Hs1 as [hp nx b bytes off arr snt req pend h -> Hv Hr Hn HO].
  cbn [rdstat_ pending_sz_ mk_state]. repeat case_if; apply Hdata; try done; try (by econstructor).
Qed.

(** An incomplete message is kept for the next round. *)
Lemma loop_end_head r O is_again s : loop_end r O is_again s -> r <> [] -> at_head r O s.
Proof.
  intros [(Hs & _ & Hd & Hl & Hp)|[-> _]] Hne; [|done].
  destruct Hs as [hp nx b bytes off arr snt req pend h -> Hv Hr Hn HO]. cbn in *.
  injection Hp as ->. rewrite Z.sub_0_r in Hl. rewrite arr_msgs_nil, app_nil_r in HO by done.
  split; [|done]. by exists b, bytes.
Qed.

(** The end of a call leaves the incomplete message and hands over the rest. *)
Lemma finish_ok r O s tot : loop_end r O true s ->
  wp (finish act_size accepts tot) (fun _ => ready r O) (fun _ => False) s.
Proof.
  intros Hend. unfold finish. do 5 (apply wp_bind, wp_gets).
  destruct Hend as [(Hs & Hne & Hd & Hl & Hp)|[-> [Hs|[_ (Hp & Hd0 & Hn & Hd & HO)]]]].
  - pose proof (loop_end_head r O true s ltac:(left; split_and!; done) Hne) as [Hb _].
    destruct Hs as [hp nx b bytes off arr snt req pend h -> Hv Hr Hn HO]. cbn [dbarr data_sz mk_state] in *.
    unfold ndbs. rewrite Hd. cbn [length Nat.eqb negb].
    rewrite (proj2 (Z.eqb_neq _ _)) by (unfold blen; destruct r; [done|simpl; lia]).
    destruct (tot >? 0); [|by left]. left.
    destruct Hb as (b' & bytes' & ? & ? & ? & ? & ? & ?). by exists b', bytes'.
  - destruct Hs as [hp nx b bytes off arr snt req pend h -> Hv Hr Hn HO]. cbn [dbarr data_sz mk_state].
    destruct (Nat.eqb_spec (ndbs arr) 0) as [E|E]; cbn [negb].
    + unfold ndbs in E. apply nil_length_inv in E. rewrite arr_msgs_nil, app_nil_r in HO by done.
      right. by split_and!.
    + apply wp_bind. unfold wp at 1. cbn [ret]. change (blen [] >? 0) with false. cbv iota. unfold ret at 1.
      apply wp_bind. unfold wp at 1. destruct Hr as [_ Hst].
      destruct Hst as [Hst _]; [intros E'; unfold ndbs in E; by rewrite E' in E|].
      rewrite (send_ok _ b bytes); [|apply Hv|done]. right. cbn. split_and!; try done.
      by rewrite sent_msgs_snoc.
  - unfold ndbs. rewrite Hd, Hn. cbn. unfold wp, reset_buf, bind, gets. rewrite Hp. right. by split_and!.
Qed.

(** The reads of one call: bytes within the room of the buffer, and a read that
    fills the buffer does not end at the end of a message.  (After a read that
    does not fill it, the loop ends.) *)
Fixpoint reads_ok (cs : list (list Z)) (ip : bool) (r : list Z) (s : l1_state) : Prop :=
  match cs with
  | [] => True
  | c :: cs' =>
      let room := max_buf_sz_ (rdstat_ s) - data_sz_ (rdstat_ s) in
      bytes_wf c /\ 0 < blen c <= room /\
      if blen c <? room then cs' = [] else
      forall r', (parse comm_magic handle (r ++ c)).2 = Some r' -> r' <> [] /\
      forall ip' s', (set_variables ;; recv_step act_size accepts comm_magic handle c false ip) s = Ok ip' s' ->
        reads_ok cs' ip' r' s'
  end.

(** The result of a call that received [x] behind [r]. *)
Definition call_spec r O (x : list Z) {A} (m : M A) (s : l1_state) : Prop :=
  wp m
    (fun _ s' => exists ms r', parse comm_magic handle (r ++ x) = (ms, Some r') /\ ready r' (O ++ msgs_of ms) s')
    (fun s' => exists ms, parse comm_magic handle (r ++ x) = (ms, None) /\ sent_part (O ++ msgs_of ms) s') s.

Lemma msgs_of_app a b : msgs_of (a ++ b) = msgs_of a ++ msgs_of b.
Proof. apply fmap_app. Qed.

(** A call that received [c], after which [r'] was left, and then [x]. *)
Lemma call_spec_cons {A} r O c x ms r' (m : M A) s :
  parse comm_magic handle (r ++ c) = (ms, Some r') ->
  call_spec r' (O ++ msgs_of ms) x m s -> call_spec r O (c ++ x) m s.
Proof.
  intros Hp. pose proof (parse_app comm_magic handle _ (r ++ c) x (Nat.lt_succ_diag_r _)) as Ha.
  rewrite Hp in Ha. cbn [fst snd] in Ha. rewrite <- app_assoc in Ha.
  apply wp_mono.
  - intros _ s' (ms' & r2 & E & H). rewrite E in Ha. exists (ms ++ ms'), r2.
    split; [done|]. by rewrite msgs_of_app, app_assoc.
  - intros s' (ms' & E & H). rewrite E in Ha. exists (ms ++ ms').
    split; [done|]. by rewrite msgs_of_app, app_assoc.
Qed.

Lemma parse_closed r c x ms : parse comm_magic handle (r ++ c) = (ms, None) ->
  parse comm_magic handle (r ++ c ++ x) = (ms, None).
Proof.
  intros Hp. pose proof (parse_app comm_magic handle _ (r ++ c) x (Nat.lt_succ_diag_r _)) as Ha.
  rewrite Hp in Ha. cbn [fst snd] in Ha. by rewrite <- app_assoc in Ha.
Qed.

Lemma at_head_room r O s : at_head r O s ->
  0 < max_buf_sz_ (rdstat_ s) - data_sz_ (rdstat_ s).
Proof. intros [(b & bytes & _ & -> & -> & _ & ? & _) _]. lia. Qed.

(** One round of the outer loop. *)
Lemma recv_loop_cons c cs ip tot r O s : at_head r O s ->
  let is_again := blen c <? max_buf_sz_ (rdstat_ s) - data_sz_ (rdstat_ s) in
  recv_loop act_size accepts comm_magic handle (Recv c :: cs) ip tot s =
  (do ip' <- (set_variables ;; recv_step act_size accepts comm_magic handle c is_again ip);
   if is_again then ret (tot + blen c)
   else recv_loop act_size accepts comm_magic handle cs ip' (tot + blen c)) s.
Proof.
  intros Hh is_again. pose proof (at_head_room _ _ _ Hh) as Hroom.
  cbn [recv_loop]. unfold set_variables, bind, gets, set_locals. cbn -[recv_step recv_loop].
  rewrite (proj2 (Z.leb_gt _ _)) by lia. fold is_again. done.
Qed.

Lemma recv_loop_nil ip tot r O s : at_head r O s -> exists s', set_variables s = Ok tt s' /\
  recv_loop act_size accepts comm_magic handle [] ip tot s = Ok tot s' /\ loop_end r O true s'.
Proof.
  intros Hh. pose proof (at_head_room _ _ _ Hh) as Hroom.
  destruct (set_variables_head r O s Hh) as (s1 & E & Hh1 & Hs1 & Er). exists s1.
  assert (max_buf_sz s1 = max_buf_sz_ (rdstat_ s1) /\ data_sz s1 = data_sz_ (rdstat_ s1) /\
    prdbuf s1 = (pdirbuf_ (rdstat_ s1), 0)) as (Em & En & Ep)
    by (revert E; unfold set_variables, bind, gets, set_locals; intros [= <-]; done).
  split; [done|]. split.
  - cbn [recv_loop]. unfold bind, gets. rewrite E, Em, En, Er, (proj2 (Z.leb_gt _ _)) by lia. done.
  - destruct Hh1 as [(b & bytes & Hb & Hm & Hd & _ & Hl & _) Ha].
    destruct (decide (r = [])) as [->|Hne]; [right; tauto|]. left. split_and!; try done. lia.
Qed.

(** The outer loop with what follows it. *)
Lemma recv_loop_ok cs : forall r O s ip tot, at_head r O s -> parse comm_magic handle r = ([], Some r) ->
  reads_ok cs ip r s -> stream_ok (r ++ concat cs) = true ->
  call_spec r O (concat cs)
    (do tot <- recv_loop act_size accepts comm_magic handle (Recv <$> cs) ip tot; finish act_size accepts tot) s.
Proof.
  induction cs as [|c cs IH]; intros r O s ip tot Hh Hp Hok Hst; cbn [concat fmap list_fmap].
  - destruct (recv_loop_nil ip tot r O s Hh) as (s1 & _ & E & Hend).
    apply wp_bind. unfold wp at 1. rewrite E. eapply wp_mono, finish_ok; [|done|exact Hend].
    intros u s' H. exists [], r. by rewrite !app_nil_r.
  - destruct Hok as (Hwc & Hc & Hrest). cbn [concat] in Hst. rewrite app_assoc in Hst.
    destruct (stream_app _ _ _ _ _ _ (Nat.lt_succ_diag_r _) Hst) as [Hst1 Hst2].
    apply wp_bind. unfold wp at 1.
    rewrite (recv_loop_cons c _ ip tot r O s Hh). set (again := blen c <? _) in *.
    match goal with |- match ?m s with _ => _ end => change (wp m (fun tot => wp (finish act_size accepts tot)
      (fun _ s' => exists ms r', parse comm_magic handle (r ++ c ++ concat cs) = (ms, Some r') /\ ready r' (O ++ msgs_of ms) s')
      (fun s' => exists ms, parse comm_magic handle (r ++ c ++ concat cs) = (ms, None) /\ sent_part (O ++ msgs_of ms) s'))
      (fun s' => exists ms, parse comm_magic handle (r ++ c ++ concat cs) = (ms, None) /\ sent_part (O ++ msgs_of ms) s') s) end.
    apply wp_bind. eapply wp_mono_eq, (recv_step_ok r O s c again ip Hh Hwc Hc Hst1).
    2: { intros s' (ms & Hp' & Hs'). exists ms. split; [by apply parse_closed|done]. }
    intros ip' s2 Es (ms & r' & Hp' & Hend).
    assert (parse comm_magic handle r' = ([], Some r')) as Hr'
      by (eapply (parse_rest _ _ _ (r ++ c)); [apply Nat.lt_succ_diag_r|by rewrite Hp']).
    enough (call_spec r O (c ++ concat cs) (do tot <- (if again then ret (tot + blen c)
      else recv_loop act_size accepts comm_magic handle (Recv <$> cs) ip' (tot + blen c)); finish act_size accepts tot) s2)
      as H by (apply wp_bind_inv; exact H).
    eapply call_spec_cons; [exact Hp'|]. destruct again.
    + subst cs. apply wp_bind. unfold wp at 1. cbn [ret]. eapply wp_mono, finish_ok; [|done|exact Hend].
      intros u s' H. exists [], r'. cbn [concat]. rewrite !app_nil_r. done.
    + rewrite Hp' in Hrest. destruct (Hrest r' eq_refl) as [Hne Hk].
      apply IH; [by eapply loop_end_head|done|by eapply Hk|]. apply Hst2. by rewrite Hp'.
Qed.

Lemma prepare_ok r O s : ready r O s ->
  wp (prepare act_size) (fun _ s' => at_head r O s') (fun _ => False) s.
Proof.
  intros Hr. unfold prepare. apply wp_bind. unfold wp at 1. cbn [set_dbarr]. apply wp_bind. unfold wp at 1. cbn [set_hdr].
  apply wp_bind, wp_gets. cbn [rdstat_]. apply wp_bind.
  destruct Hr as [(b & bytes & Hp & Hm & Hd & Hv & Hl & HO)|(-> & Hp & Hd & HO)]; rewrite Hp.
  - unfold wp, ret. split; [|done]. by exists b, bytes.
  - apply wp_bind. unfold wp at 1. cbn [safe_malloc]. unfold wp.
    pose proof (Hact 4096) as Ha. pose proof (blen_pad_to 4096 [] ltac:(lia) ltac:(done)) as Hb.
    unfold set_buf, bind, gets. cbn [rdstat_]. rewrite Hd, Hp.
    rewrite (Z.gtb_ltb 0 (act_size 4096)), (proj2 (Z.ltb_ge _ _)) by lia. cbn -[pad_to Z.to_nat].
    split; [|done]. exists (next_buf s), (pad_to 4096 []). cbn -[pad_to Z.to_nat].
    rewrite Hb. split_and!; try done; [|change (blen []) with 0; lia].
    apply view_fresh; [constructor|lia|done|].
    unfold pad_to. rewrite lookup_insert_eq. cbn -[Z.to_nat]. by rewrite Nat.sub_0_r.
Qed.

Lemma handle_recv_ok r O s cs : ready r O s -> parse comm_magic handle r = ([], Some r) ->
  (forall ip s1, prepare act_size s = Ok ip s1 -> reads_ok cs ip r s1) -> stream_ok (r ++ concat cs) = true ->
  call_spec r O (concat cs) (handle_recv act_size accepts comm_magic handle (Recv <$> cs)) s.
Proof.
  intros Hr Hp Hok Hst. unfold handle_recv. apply wp_bind. eapply wp_mono_eq, prepare_ok, Hr; [|done].
  intros ip s1 E Hh. by apply recv_loop_ok; [..|apply Hok|].
Qed.

(** Calls of [handle_recv] with the reads of each. *)
Fixpoint recv_calls (calls : list (list (list Z))) : M unit :=
  match calls with
  | [] => ret tt
  | cs :: calls' => handle_recv act_size accepts comm_magic handle (Recv <$> cs) ;; recv_calls calls'
  end.

Fixpoint calls_ok (calls : list (list (list Z))) (r : list Z) (s : l1_state) : Prop :=
  match calls with
  | [] => True
  | cs :: calls' =>
      (forall ip s1, prepare act_size s = Ok ip s1 -> reads_ok cs ip r s1) /\
      forall s' r', handle_recv act_size accepts comm_magic handle (Recv <$> cs) s = Ok tt s' ->
        (parse comm_magic handle (r ++ concat cs)).2 = Some r' -> calls_ok calls' r' s'
  end.

Lemma recv_calls_ok calls : forall r O s, ready r O s -> parse comm_magic handle r = ([], Some r) ->
  calls_ok calls r s -> stream_ok (r ++ concat (concat calls)) = true ->
  call_spec r O (concat (concat calls)) (recv_calls calls) s.
Proof.
  induction calls as [|cs calls IH]; intros r O s Hr Hp Hok Hst; cbn [recv_calls].
  - exists [], r. cbn [concat]. by rewrite !app_nil_r.
  - destruct Hok as [Hcs Hok]. cbn [concat] in *. rewrite concat_app in *.
    rewrite app_assoc in Hst. destruct (stream_app _ _ _ _ _ _ (Nat.lt_succ_diag_r _) Hst) as [Hst1 Hst2].
    apply wp_bind. eapply wp_mono_eq, handle_recv_ok; [..|exact Hr|done|done|done].
    2: { intros s' (ms & Hp' & Hs'). exists ms. split; [by apply parse_closed|done]. }
    intros [] s1 E (ms & r' & Hp' & Hr'). eapply call_spec_cons; [exact Hp'|].
    apply IH; [done|..|by apply (Hok s1 r' E); rewrite Hp'|by apply Hst2; rewrite Hp'].
    eapply (parse_rest _ _ _ (r ++ concat cs)); [apply Nat.lt_succ_diag_r|by rewrite Hp'].
Qed.

End Correct.
