(* ===== verification/Dispatch.v ===== *)
(** * Dispatch : what the servers do with one received message, by its type (the
    switch of [handle_recv] in server/gy_mconnhdlr.cc for madhava and in
    server/gy_shconnhdlr.cc for shyama).

    A message is accepted according to whether its connection is registered and to
    which kind of host it belongs, is validated, and is then handed over to other
    threads, handled at once, or closes the connection.  What handling at once does
    to objects other than the connection is not modelled. *)
From stdpp Require Import gmap.
From S2P Require Import Prelude Bytes IpAddr CommLayout CommValid CommMsgs CommFixed CommReg RecvLoop.

#[local] Open Scope string_scope.
#[local] Open Scope Z_scope.

(** ** Enumerators *)
Definition NOTIFY_MIN_TYPE : Z := 0x100.
Definition NOTIFY_PARTHA_STATUS : Z := 0x101.
Definition NOTIFY_MADHAVA_PARTHA_STATUS : Z := 0x102.
Definition NOTIFY_MADHAVA_SHYAMA_STATUS : Z := 0x103.
Definition NOTIFY_SHYAMA_MADHAVA_STATUS : Z := 0x104.
Definition NOTIFY_MADHAVA_MADHAVA_STATUS : Z := 0x105.
Definition NOTIFY_MADHAVA_LIST : Z := 0x106.
Definition NOTIFY_TASK_MINI_ADD : Z := 0x301.
Definition NOTIFY_TASK_FULL_ADD : Z := 0x302.
Definition NOTIFY_TASK_TOP_PROCS : Z := 0x303.
Definition NOTIFY_TASK_HISTOGRAM : Z := 0x304.
Definition NOTIFY_TASK_AGGR : Z := 0x305.
Definition NOTIFY_PING_TASK_AGGR : Z := 0x306.
Definition NOTIFY_NEW_LISTENER : Z := 0x307.
Definition NOTIFY_LISTENER_DAY_STATS : Z := 0x308.
Definition NOTIFY_LISTENER_STATE : Z := 0x309.
Definition NOTIFY_LISTENER_DEPENDENCY : Z := 0x30A.
Definition NOTIFY_LISTENER_NAT_IP_EVENT : Z := 0x30B.
Definition NOTIFY_TCP_CONN : Z := 0x30C.
Definition NOTIFY_NAT_TCP : Z := 0x30D.
Definition NOTIFY_MP_CLI_TCP_INFO : Z := 0x30E.
Definition NOTIFY_CPU_MEM_STATE : Z := 0x30F.
Definition NOTIFY_AGGR_TASK_STATE : Z := 0x310.
Definition NOTIFY_HOST_STATE__V000100 : Z := 0x311.
Definition NOTIFY_ACTIVE_CONN_STATS : Z := 0x312.
Definition NOTIFY_LISTENER_DOMAIN_EVENT : Z := 0x313.
Definition NOTIFY_LISTEN_TASKMAP_EVENT : Z := 0x314.
Definition NOTIFY_MP_RESET_STATS : Z := 0x315.
Definition NOTIFY_MP_SER_TCP_INFO : Z := 0x316.
Definition NOTIFY_HOST_INFO : Z := 0x317.
Definition NOTIFY_HOST_CPU_MEM_CHANGE : Z := 0x318.
Definition NOTIFY_NOTIFICATION_MSG : Z := 0x319.
Definition NOTIFY_AGGR_TASK_HIST_STATS : Z := 0x31A.
Definition NOTIFY_LISTEN_CLUSTER_INFO : Z := 0x31B.
Definition NOTIFY_HOST_STATE : Z := 0x31C.
Definition NOTIFY_REQ_TRACE_TRAN : Z := 0x31D.
Definition NOTIFY_REQ_TRACE_SET : Z := 0x31E.
Definition NOTIFY_REQ_TRACE_STATUS : Z := 0x31F.
Definition NOTIFY_PM_EVT_MAX : Z := 0x320.
Definition NOTIFY_MS_TCP_CONN : Z := 0x501.
Definition NOTIFY_MS_TCP_CONN_CLOSE : Z := 0x502.
Definition NOTIFY_SHYAMA_SER_TCP_INFO : Z := 0x503.
Definition NOTIFY_SHYAMA_CLI_TCP_INFO : Z := 0x504.
Definition NOTIFY_MS_SVC_CLUSTER_MESH : Z := 0x505.
Definition NOTIFY_SM_SVC_CLUSTER_MESH : Z := 0x506.
Definition NOTIFY_MS_LISTENER_NAT_IP : Z := 0x507.
Definition NOTIFY_SM_SVC_NAT_IP_CLUSTER : Z := 0x508.
Definition NOTIFY_SM_ALERT_ADEF_NEW : Z := 0x509.
Definition NOTIFY_SM_ALERT_ADEF_UPD : Z := 0x50A.
Definition NOTIFY_SM_ALERT_STAT_DISABLE : Z := 0x50B.
Definition NOTIFY_ALERT_STAT_INFO : Z := 0x50C.
Definition NOTIFY_ALERT_STAT_CLOSE : Z := 0x50D.
Definition NOTIFY_MS_CLUSTER_STATE : Z := 0x50E.
Definition NOTIFY_MS_PARTHA_PING : Z := 0x50F.
Definition NOTIFY_MS_REG_PARTHA : Z := 0x510.
Definition NOTIFY_SM_REQ_TRACE_DEF_NEW : Z := 0x511.
Definition NOTIFY_SM_REQ_TRACE_DEF_DISABLE : Z := 0x512.
Definition NOTIFY_MS_EVT_MAX : Z := 0x513.
Definition NOTIFY_MM_TASK_AGGR_PING : Z := 0x701.
Definition NOTIFY_MM_TASK_AGGR_DEL : Z := 0x702.
Definition NOTIFY_MM_TCP_CONN_TASK_CLOSE : Z := 0x703.
Definition NOTIFY_MM_AGGR_TASK_STATE : Z := 0x704.
Definition NOTIFY_MM_LISTENER_ISSUE_RESOL : Z := 0x705.
Definition NOTIFY_MM_LISTENER_PING : Z := 0x706.
Definition NOTIFY_MM_LISTENER_DELETE : Z := 0x707.
Definition NOTIFY_MM_LISTENER_DEPENDS : Z := 0x708.
Definition NOTIFY_MM_ACTIVE_CONN_STATS : Z := 0x709.
Definition NOTIFY_MM_EVT_MAX : Z := 0x70A.
Definition NOTIFY_SM_PARTHA_IDENT : Z := 0x901.
Definition NOTIFY_SM_EVT_MAX : Z := 0x902.
Definition NOTIFY_PING_CONN : Z := 0xA01.
Definition NOTIFY_JSON_EVENT : Z := 0xA02.
Definition NOTIFY_ERROR : Z := 0xB01.
Definition NOTIFY_MAX_TYPE : Z := 0xB02.

Definition QUERY_WEB_JSON : Z := 1.
Definition CRUD_GENERIC_JSON : Z := 2.
Definition CRUD_ALERT_JSON : Z := 3.
Definition QUERY_LISTENER_INFO_STATS : Z := 200.
Definition QUERY_PARTHA_MADHAVA : Z := 201.

Definition RESP_NUM_PARTHA : Z := 2.
Definition RESP_WEB_JSON : Z := 1000.
Definition RESP_BINARY : Z := 0.

Definition CLI_TYPE_REQ_ONLY : Z := 1.
Definition ERR_SUCCESS : Z := 0.

(** ** The connection *)

(** [cb_tbl_] has the callbacks that wait for the response to a query, with
    whether they are valid; [cb_called] lists the calls made.  [has_madhava_] is
    whether [get_madhava_shared] gives an object. *)
Record conn := Conn {
  is_registered_ : bool;
  host_type_ : HOST_TYPES_E;
  cli_type_ : Z;
  has_madhava_ : bool;
  cb_tbl_ : gmap Z bool;
  cb_called : list Z;
}.

Definition set_registered (c : conn) : conn :=
  Conn true (host_type_ c) (cli_type_ c) (has_madhava_ c) (cb_tbl_ c) (cb_called c).

(** The callback of [seqid] is removed, and called if it is valid. *)
Definition extract_recv_cb (seqid : Z) (c : conn) : conn :=
  match cb_tbl_ c !! seqid with
  | Some valid => Conn (is_registered_ c) (host_type_ c) (cli_type_ c) (has_madhava_ c)
      (delete seqid (cb_tbl_ c)) (if valid : bool then cb_called c ++ [seqid] else cb_called c)
  | None => c
  end.

(** The callback of [seqid] is called and kept. *)
Definition find_recv_cb (seqid : Z) (c : conn) : conn :=
  match cb_tbl_ c !! seqid with
  | Some true => Conn (is_registered_ c) (host_type_ c) (cli_type_ c) (has_madhava_ c)
      (cb_tbl_ c) (cb_called c ++ [seqid])
  | _ => c
  end.

Definition validator : Type := comm_header -> list Z -> acc (bool * list Z).
Definition keeps (v : comm_header -> list Z -> acc bool) : validator := fun h m =>
  let! ok := v h m in Acc (ok, m).
Definition of_header (v : comm_header -> bool) : validator := fun h m => Acc (v h, m).
Definition always : validator := fun _ m => Acc (true, m).

Definition case_t : Type := conn -> comm_header -> list Z -> acc (decision * list Z * conn).

(** ** Notifications

    All cases have this form: an exception unless the peer is registered and of
    the kind [host], if one is required, and the message is valid. *)
Definition notify (host : option HOST_TYPES_E) (v : validator) (dec : decision) : case_t := fun c h m =>
  if negb (is_registered_ c) ||
     match host with Some t => bool_decide (host_type_ c <> t) | None => false end
  then Acc (Throw, m, c) else
  let! r := v h m in
  Acc (if r.1 : bool then dec else Throw, r.2, c).

(** *** Madhava *)
Definition madhava_NOTIFY_TCP_CONN : case_t :=
  notify (Some HOST_PARTHA) TCP_CONN_NOTIFY_validate (Schedule TTYPE_L2_MISC).
Definition madhava_NOTIFY_LISTENER_STATE : case_t :=
  notify (Some HOST_PARTHA) LISTENER_STATE_NOTIFY_validate (Schedule TTYPE_L2_MISC).
Definition madhava_NOTIFY_AGGR_TASK_STATE : case_t :=
  notify (Some HOST_PARTHA) AGGR_TASK_STATE_NOTIFY_validate (Schedule TTYPE_L2_MISC).
Definition madhava_NOTIFY_ACTIVE_CONN_STATS : case_t :=
  notify (Some HOST_PARTHA) (keeps ACTIVE_CONN_STATS_validate) (Schedule TTYPE_L2_MISC).
Definition madhava_NOTIFY_MM_ACTIVE_CONN_STATS : case_t :=
  notify (Some HOST_MADHAVA) (keeps ACTIVE_CONN_STATS_validate) (Schedule TTYPE_L2_MISC).
Definition madhava_NOTIFY_LISTEN_TASKMAP_EVENT : case_t :=
  notify (Some HOST_PARTHA) LISTEN_TASKMAP_NOTIFY_validate (Schedule TTYPE_L2_MISC).
Definition madhava_NOTIFY_TASK_MINI_ADD : case_t :=
  notify (Some HOST_PARTHA) TASK_MINI_ADD_validate (Schedule TTYPE_L2_MISC).
Definition madhava_NOTIFY_TASK_FULL_ADD : case_t :=
  notify (Some HOST_PARTHA) TASK_FULL_ADD_validate (Schedule TTYPE_L2_MISC).
Definition madhava_NOTIFY_TASK_TOP_PROCS : case_t :=
  notify (Some HOST_PARTHA) (keeps TASK_TOP_PROCS_validate) (Schedule TTYPE_L2_MISC).
Definition madhava_NOTIFY_TASK_HISTOGRAM : case_t :=
  notify (Some HOST_PARTHA) (keeps TASK_HISTOGRAM_validate) (Schedule TTYPE_L2_MISC).
Definition madhava_NOTIFY_NEW_LISTENER : case_t :=
  notify (Some HOST_PARTHA) NEW_LISTENER_validate (Schedule TTYPE_L2_MISC).
Definition madhava_NOTIFY_LISTENER_DEPENDENCY : case_t :=
  notify (Some HOST_PARTHA) LISTENER_DEPENDENCY_NOTIFY_validate (Schedule TTYPE_L2_MISC).
Definition madhava_NOTIFY_LISTENER_NAT_IP_EVENT : case_t :=
  notify (Some HOST_PARTHA) (keeps LISTENER_NAT_IP_EVENT_validate) (Schedule TTYPE_L2_MISC).
Definition madhava_NOTIFY_LISTENER_DOMAIN_EVENT : case_t :=
  notify (Some HOST_PARTHA) LISTENER_DOMAIN_NOTIFY_validate (Schedule TTYPE_L2_MISC).
Definition madhava_NOTIFY_LISTEN_CLUSTER_INFO : case_t :=
  notify (Some HOST_PARTHA) LISTENER_CLUSTER_NOTIFY_validate (Schedule TTYPE_L2_MISC).
Definition madhava_NOTIFY_SM_ALERT_ADEF_NEW : case_t :=
  notify (Some HOST_SHYAMA) SM_ALERT_ADEF_NEW_validate (Schedule TTYPE_L2_ALERT).
Definition madhava_NOTIFY_SM_ALERT_ADEF_UPD : case_t :=
  notify (Some HOST_SHYAMA) (keeps SM_ALERT_ADEF_UPD_validate) (Schedule TTYPE_L2_ALERT).
Definition madhava_NOTIFY_SM_ALERT_STAT_DISABLE : case_t :=
  notify (Some HOST_SHYAMA) (keeps SM_ALERT_STAT_DISABLE_validate) (Schedule TTYPE_L2_ALERT).
Definition madhava_NOTIFY_LISTENER_DAY_STATS : case_t :=
  notify (Some HOST_PARTHA) (keeps LISTENER_DAY_STATS_validate) (Schedule TTYPE_L2_MISC).
Definition madhava_NOTIFY_NAT_TCP : case_t :=
  notify (Some HOST_PARTHA) (keeps NAT_TCP_NOTIFY_validate) (Schedule TTYPE_L2_MISC).
Definition madhava_NOTIFY_SHYAMA_CLI_TCP_INFO : case_t :=
  notify (Some HOST_SHYAMA) (keeps SHYAMA_CLI_TCP_INFO_validate) (Schedule TTYPE_L2_MISC).
Definition madhava_NOTIFY_SHYAMA_SER_TCP_INFO : case_t :=
  notify (Some HOST_SHYAMA) (keeps SHYAMA_SER_TCP_INFO_validate) (Schedule TTYPE_L2_MISC).
Definition madhava_NOTIFY_SM_SVC_CLUSTER_MESH : case_t :=
  notify (Some HOST_SHYAMA) SM_SVC_CLUSTER_MESH_validate (Schedule TTYPE_L2_MISC).
Definition madhava_NOTIFY_SM_SVC_NAT_IP_CLUSTER : case_t :=
  notify (Some HOST_SHYAMA) (keeps SM_SVC_NAT_IP_CLUSTER_validate) (Schedule TTYPE_L2_MISC).
Definition madhava_NOTIFY_MM_LISTENER_ISSUE_RESOL : case_t :=
  notify (Some HOST_MADHAVA) MM_LISTENER_ISSUE_RESOL_validate (Schedule TTYPE_L2_MISC).
Definition madhava_NOTIFY_MM_LISTENER_DEPENDS : case_t :=
  notify (Some HOST_MADHAVA) (keeps MM_LISTENER_DEPENDS_validate) (Schedule TTYPE_L2_MISC).
Definition madhava_NOTIFY_MM_LISTENER_PING : case_t :=
  notify (Some HOST_MADHAVA) (keeps MM_LISTENER_PING_validate) (Schedule TTYPE_L2_MISC).
Definition madhava_NOTIFY_MM_LISTENER_DELETE : case_t :=
  notify (Some HOST_MADHAVA) (keeps MM_LISTENER_DELETE_validate) (Schedule TTYPE_L2_MISC).
Definition madhava_NOTIFY_TASK_AGGR : case_t :=
  notify (Some HOST_PARTHA) TASK_AGGR_NOTIFY_validate (Schedule TTYPE_L2_MISC).
Definition madhava_NOTIFY_AGGR_TASK_HIST_STATS : case_t :=
  notify (Some HOST_PARTHA) (keeps AGGR_TASK_HIST_STATS_validate) (Schedule TTYPE_L2_MISC).
Definition madhava_NOTIFY_PING_TASK_AGGR : case_t :=
  notify (Some HOST_PARTHA) (keeps PING_TASK_AGGR_validate) (Schedule TTYPE_L2_MISC).
Definition madhava_NOTIFY_MM_TASK_AGGR_PING : case_t :=
  notify (Some HOST_MADHAVA) (keeps MM_TASK_AGGR_PING_validate) (Schedule TTYPE_L2_MISC).
Definition madhava_NOTIFY_MM_TASK_AGGR_DEL : case_t :=
  notify (Some HOST_MADHAVA) (keeps MM_TASK_AGGR_DEL_validate) (Schedule TTYPE_L2_MISC).
Definition madhava_NOTIFY_MM_AGGR_TASK_STATE : case_t :=
  notify (Some HOST_MADHAVA) AGGR_TASK_STATE_NOTIFY_validate (Schedule TTYPE_L2_MISC).
Definition madhava_NOTIFY_CPU_MEM_STATE : case_t :=
  notify (Some HOST_PARTHA) CPU_MEM_STATE_NOTIFY_validate (Schedule TTYPE_L2_MISC).
Definition madhava_NOTIFY_HOST_STATE : case_t :=
  notify (Some HOST_PARTHA) (keeps HOST_STATE_NOTIFY_validate) (Schedule TTYPE_L2_MISC).
Definition madhava_NOTIFY_HOST_STATE__V000100 : case_t :=
  notify (Some HOST_PARTHA) (keeps HOST_STATE_NOTIFY__V000100_validate) (Schedule TTYPE_L2_MISC).
Definition madhava_NOTIFY_HOST_INFO : case_t :=
  notify (Some HOST_PARTHA) (keeps HOST_INFO_NOTIFY_validate) (Schedule TTYPE_L2_MISC).
Definition madhava_NOTIFY_HOST_CPU_MEM_CHANGE : case_t :=
  notify (Some HOST_PARTHA) (keeps HOST_CPU_MEM_CHANGE_validate) (Schedule TTYPE_L2_MISC).
Definition madhava_NOTIFY_NOTIFICATION_MSG : case_t :=
  notify (Some HOST_PARTHA) NOTIFICATION_MSG_validate (Schedule TTYPE_L2_MISC).
Definition madhava_NOTIFY_MADHAVA_LIST : case_t :=
  notify (Some HOST_SHYAMA) (keeps MADHAVA_LIST_validate) (Schedule TTYPE_L2_MISC).
Definition madhava_NOTIFY_SM_PARTHA_IDENT : case_t :=
  notify (Some HOST_SHYAMA) (keeps SM_PARTHA_IDENT_NOTIFY_validate) Skip.
Definition madhava_NOTIFY_SHYAMA_MADHAVA_STATUS : case_t :=
  notify (Some HOST_SHYAMA) (of_header SHYAMA_MADHAVA_STATUS_validate) Skip.
Definition madhava_NOTIFY_PARTHA_STATUS : case_t :=
  notify (Some HOST_PARTHA) (of_header PARTHA_STATUS_validate) Skip.
Definition madhava_NOTIFY_MADHAVA_MADHAVA_STATUS : case_t :=
  notify None (of_header MADHAVA_MADHAVA_STATUS_validate) Skip.
Definition madhava_NOTIFY_PING_CONN : case_t := notify None always Skip.
Definition madhava_NOTIFY_SM_REQ_TRACE_DEF_NEW : case_t :=
  notify (Some HOST_SHYAMA) SM_REQ_TRACE_DEF_NEW_validate (Schedule TTYPE_L2_MISC).
Definition madhava_NOTIFY_SM_REQ_TRACE_DEF_DISABLE : case_t :=
  notify (Some HOST_SHYAMA) (keeps SM_REQ_TRACE_DEF_DISABLE_validate) (Schedule TTYPE_L2_MISC).
Definition madhava_NOTIFY_REQ_TRACE_STATUS : case_t :=
  notify (Some HOST_PARTHA) (keeps REQ_TRACE_STATUS_validate) (Schedule TTYPE_L2_MISC).
Definition madhava_notify : list (Z * case_t) := [
  (NOTIFY_TCP_CONN, madhava_NOTIFY_TCP_CONN);
  (NOTIFY_LISTENER_STATE, madhava_NOTIFY_LISTENER_STATE);
  (NOTIFY_AGGR_TASK_STATE, madhava_NOTIFY_AGGR_TASK_STATE);
  (NOTIFY_ACTIVE_CONN_STATS, madhava_NOTIFY_ACTIVE_CONN_STATS);
  (NOTIFY_MM_ACTIVE_CONN_STATS, madhava_NOTIFY_MM_ACTIVE_CONN_STATS);
  (NOTIFY_LISTEN_TASKMAP_EVENT, madhava_NOTIFY_LISTEN_TASKMAP_EVENT);
  (NOTIFY_TASK_MINI_ADD, madhava_NOTIFY_TASK_MINI_ADD);
  (NOTIFY_TASK_FULL_ADD, madhava_NOTIFY_TASK_FULL_ADD);
  (NOTIFY_TASK_TOP_PROCS, madhava_NOTIFY_TASK_TOP_PROCS);
  (NOTIFY_TASK_HISTOGRAM, madhava_NOTIFY_TASK_HISTOGRAM);
  (NOTIFY_NEW_LISTENER, madhava_NOTIFY_NEW_LISTENER);
  (NOTIFY_LISTENER_DEPENDENCY, madhava_NOTIFY_LISTENER_DEPENDENCY);
  (NOTIFY_LISTENER_NAT_IP_EVENT, madhava_NOTIFY_LISTENER_NAT_IP_EVENT);
  (NOTIFY_LISTENER_DOMAIN_EVENT, madhava_NOTIFY_LISTENER_DOMAIN_EVENT);
  (NOTIFY_LISTEN_CLUSTER_INFO, madhava_NOTIFY_LISTEN_CLUSTER_INFO);
  (NOTIFY_SM_ALERT_ADEF_NEW, madhava_NOTIFY_SM_ALERT_ADEF_NEW);
  (NOTIFY_SM_ALERT_ADEF_UPD, madhava_NOTIFY_SM_ALERT_ADEF_UPD);
  (NOTIFY_SM_ALERT_STAT_DISABLE, madhava_NOTIFY_SM_ALERT_STAT_DISABLE);
  (NOTIFY_LISTENER_DAY_STATS, madhava_NOTIFY_LISTENER_DAY_STATS);
  (NOTIFY_NAT_TCP, madhava_NOTIFY_NAT_TCP);
  (NOTIFY_SHYAMA_CLI_TCP_INFO, madhava_NOTIFY_SHYAMA_CLI_TCP_INFO);
  (NOTIFY_SHYAMA_SER_TCP_INFO, madhava_NOTIFY_SHYAMA_SER_TCP_INFO);
  (NOTIFY_SM_SVC_CLUSTER_MESH, madhava_NOTIFY_SM_SVC_CLUSTER_MESH);
  (NOTIFY_SM_SVC_NAT_IP_CLUSTER, madhava_NOTIFY_SM_SVC_NAT_IP_CLUSTER);
  (NOTIFY_MM_LISTENER_ISSUE_RESOL, madhava_NOTIFY_MM_LISTENER_ISSUE_RESOL);
  (NOTIFY_MM_LISTENER_DEPENDS, madhava_NOTIFY_MM_LISTENER_DEPENDS);
  (NOTIFY_MM_LISTENER_PING, madhava_NOTIFY_MM_LISTENER_PING);
  (NOTIFY_MM_LISTENER_DELETE, madhava_NOTIFY_MM_LISTENER_DELETE);
  (NOTIFY_TASK_AGGR, madhava_NOTIFY_TASK_AGGR);
  (NOTIFY_AGGR_TASK_HIST_STATS, madhava_NOTIFY_AGGR_TASK_HIST_STATS);
  (NOTIFY_PING_TASK_AGGR, madhava_NOTIFY_PING_TASK_AGGR);
  (NOTIFY_MM_TASK_AGGR_PING, madhava_NOTIFY_MM_TASK_AGGR_PING);
  (NOTIFY_MM_TASK_AGGR_DEL, madhava_NOTIFY_MM_TASK_AGGR_DEL);
  (NOTIFY_MM_AGGR_TASK_STATE, madhava_NOTIFY_MM_AGGR_TASK_STATE);
  (NOTIFY_CPU_MEM_STATE, madhava_NOTIFY_CPU_MEM_STATE);
  (NOTIFY_HOST_STATE, madhava_NOTIFY_HOST_STATE);
  (NOTIFY_HOST_STATE__V000100, madhava_NOTIFY_HOST_STATE__V000100);
  (NOTIFY_HOST_INFO, madhava_NOTIFY_HOST_INFO);
  (NOTIFY_HOST_CPU_MEM_CHANGE, madhava_NOTIFY_HOST_CPU_MEM_CHANGE);
  (NOTIFY_NOTIFICATION_MSG, madhava_NOTIFY_NOTIFICATION_MSG);
  (NOTIFY_MADHAVA_LIST, madhava_NOTIFY_MADHAVA_LIST);
  (NOTIFY_SM_PARTHA_IDENT, madhava_NOTIFY_SM_PARTHA_IDENT);
  (NOTIFY_SHYAMA_MADHAVA_STATUS, madhava_NOTIFY_SHYAMA_MADHAVA_STATUS);
  (NOTIFY_PARTHA_STATUS, madhava_NOTIFY_PARTHA_STATUS);
  (NOTIFY_MADHAVA_MADHAVA_STATUS, madhava_NOTIFY_MADHAVA_MADHAVA_STATUS);
  (NOTIFY_PING_CONN, madhava_NOTIFY_PING_CONN);
  (NOTIFY_SM_REQ_TRACE_DEF_NEW, madhava_NOTIFY_SM_REQ_TRACE_DEF_NEW);
  (NOTIFY_SM_REQ_TRACE_DEF_DISABLE, madhava_NOTIFY_SM_REQ_TRACE_DEF_DISABLE);
  (NOTIFY_REQ_TRACE_STATUS, madhava_NOTIFY_REQ_TRACE_STATUS)].

(** *** Shyama *)
Definition shyama_NOTIFY_MS_TCP_CONN : case_t :=
  notify (Some HOST_MADHAVA) (keeps MS_TCP_CONN_NOTIFY_validate) (Schedule TTYPE_L2_MISC).
Definition shyama_NOTIFY_MS_TCP_CONN_CLOSE : case_t :=
  notify (Some HOST_MADHAVA) (keeps MS_TCP_CONN_CLOSE_validate) (Schedule TTYPE_L2_MISC).
Definition shyama_NOTIFY_NAT_TCP : case_t :=
  notify (Some HOST_MADHAVA) (keeps NAT_TCP_NOTIFY_validate) (Schedule TTYPE_L2_MISC).
Definition shyama_NOTIFY_MS_CLUSTER_STATE : case_t :=
  notify (Some HOST_MADHAVA) (keeps MS_CLUSTER_STATE_validate) (Schedule TTYPE_L2_MISC).
Definition shyama_NOTIFY_MS_PARTHA_PING : case_t :=
  notify (Some HOST_MADHAVA) (keeps MS_PARTHA_PING_validate) (Schedule TTYPE_L2_DB_RD).
Definition shyama_NOTIFY_MS_SVC_CLUSTER_MESH : case_t :=
  notify (Some HOST_MADHAVA) MS_SVC_CLUSTER_MESH_validate (Schedule TTYPE_L2_MISC).
Definition shyama_NOTIFY_MS_LISTENER_NAT_IP : case_t :=
  notify (Some HOST_MADHAVA) MS_LISTENER_NAT_IP_validate (Schedule TTYPE_L2_MISC).
Definition shyama_NOTIFY_MS_REG_PARTHA : case_t :=
  notify (Some HOST_MADHAVA) MS_REG_PARTHA_validate (Schedule TTYPE_L2_MISC).
Definition shyama_NOTIFY_ALERT_STAT_INFO : case_t :=
  notify (Some HOST_MADHAVA) ALERT_STAT_INFO_validate (Schedule TTYPE_L2_ALERT).
Definition shyama_NOTIFY_ALERT_STAT_CLOSE : case_t :=
  notify (Some HOST_MADHAVA) (keeps ALERT_STAT_CLOSE_validate) (Schedule TTYPE_L2_ALERT).
Definition shyama_NOTIFY_MADHAVA_SHYAMA_STATUS : case_t :=
  notify (Some HOST_MADHAVA) (of_header MADHAVA_SHYAMA_STATUS_validate) Skip.
Definition shyama_NOTIFY_PING_CONN : case_t := notify None always Skip.
Definition shyama_notify : list (Z * case_t) := [
  (NOTIFY_MS_TCP_CONN, shyama_NOTIFY_MS_TCP_CONN);
  (NOTIFY_MS_TCP_CONN_CLOSE, shyama_NOTIFY_MS_TCP_CONN_CLOSE);
  (NOTIFY_NAT_TCP, shyama_NOTIFY_NAT_TCP);
  (NOTIFY_MS_CLUSTER_STATE, shyama_NOTIFY_MS_CLUSTER_STATE);
  (NOTIFY_MS_PARTHA_PING, shyama_NOTIFY_MS_PARTHA_PING);
  (NOTIFY_MS_SVC_CLUSTER_MESH, shyama_NOTIFY_MS_SVC_CLUSTER_MESH);
  (NOTIFY_MS_LISTENER_NAT_IP, shyama_NOTIFY_MS_LISTENER_NAT_IP);
  (NOTIFY_MS_REG_PARTHA, shyama_NOTIFY_MS_REG_PARTHA);
  (NOTIFY_ALERT_STAT_INFO, shyama_NOTIFY_ALERT_STAT_INFO);
  (NOTIFY_ALERT_STAT_CLOSE, shyama_NOTIFY_ALERT_STAT_CLOSE);
  (NOTIFY_MADHAVA_SHYAMA_STATUS, shyama_NOTIFY_MADHAVA_SHYAMA_STATUS);
  (NOTIFY_PING_CONN, shyama_NOTIFY_PING_CONN)].

(** The [switch] over the type of the notification; other types are ignored. *)
Fixpoint switch (cases : list (Z * case_t)) (ty : Z) : case_t :=
  match cases with
  | [] => fun c _ m => Acc (Skip, m, c)
  | (k, f) :: cases' => if ty =? k then f else switch cases' ty
  end.

Definition event_notify (cases : list (Z * case_t)) : case_t := fun c h m =>
  let! ty := rd_fld EVENT_NOTIFY "subtype_" m (sizeof COMM_HEADER) in
  switch cases ty c h m.

(** ** Queries and responses *)
Definition query (dest : TTYPE_E) : case_t := fun c _ m =>
  Acc (if is_registered_ c then Schedule dest else Throw, m, c).

Definition madhava_query : list (Z * case_t) := [
  (QUERY_LISTENER_INFO_STATS,
    notify (Some HOST_PARTHA) LISTENER_INFO_REQ_validate (Schedule TTYPE_L2_DB_RD));
  (QUERY_WEB_JSON, query TTYPE_L2_DB_RD);
  (CRUD_GENERIC_JSON, query TTYPE_L2_DB_RD);
  (CRUD_ALERT_JSON, query TTYPE_L2_DB_RD)].

(** Needs no registration. *)
Definition shyama_QUERY_PARTHA_MADHAVA : case_t := fun c h m =>
  let! ok := PARTHA_MADHAVA_REQ_validate h m in
  Acc (if ok : bool then Skip else Throw, m, c).

Definition shyama_query : list (Z * case_t) := [
  (QUERY_PARTHA_MADHAVA, shyama_QUERY_PARTHA_MADHAVA);
  (QUERY_WEB_JSON, query TTYPE_L2_DB_RD);
  (CRUD_GENERIC_JSON, query TTYPE_L2_DB_RD);
  (CRUD_ALERT_JSON, query TTYPE_L2_ALERT)].

Definition query_cmd (is_conn_closed : bool) (cases : list (Z * case_t)) : case_t := fun c h m =>
  if negb is_conn_closed && negb (cli_type_ c =? CLI_TYPE_REQ_ONLY) then
    let! ty := rd_fld QUERY_CMD "subtype_" m (sizeof COMM_HEADER) in
    switch cases ty c h m
  else Acc (Skip, m, c).

(** A response in a text format. *)
Definition resp_web_json : case_t := fun c _ m =>
  let! fmt := rd_fld QUERY_RESPONSE "respformat_" m (sizeof COMM_HEADER) in
  let! seqid := rd_fld QUERY_RESPONSE "seqid_" m (sizeof COMM_HEADER) in
  let! done := rd_fld QUERY_RESPONSE "is_resp_complete_" m (sizeof COMM_HEADER) in
  Acc (Skip, m,
    if negb (fmt =? RESP_BINARY) && (seqid >? 0) then
      if negb (done =? 0) then extract_recv_cb seqid c else find_recv_cb seqid c
    else c).

Definition resp_num_partha : case_t := fun c h m =>
  let! fmt := rd_fld QUERY_RESPONSE "respformat_" m (sizeof COMM_HEADER) in
  let! seqid := rd_fld QUERY_RESPONSE "seqid_" m (sizeof COMM_HEADER) in
  let! done := rd_fld QUERY_RESPONSE "is_resp_complete_" m (sizeof COMM_HEADER) in
  if (fmt =? RESP_BINARY) && (seqid >? 0) && negb (done =? 0) then
    let! ok := NUM_PARTHA_RESP_validate h m in
    if negb ok then Acc (Throw, m, c) else Acc (Skip, m, extract_recv_cb seqid c)
  else Acc (Skip, m, c).

Definition query_resp (cases : list (Z * case_t)) : case_t := fun c h m =>
  if negb (is_registered_ c) then Acc (Throw, m, c) else
  let! ok := QUERY_RESPONSE_validate h m in
  if negb ok then Acc (Return None, m, c) else
  let! ty := rd_fld QUERY_RESPONSE "subtype_" m (sizeof COMM_HEADER) in
  switch cases ty c h m.

Definition madhava_resp : list (Z * case_t) := [(RESP_WEB_JSON, resp_web_json)].
Definition shyama_resp : list (Z * case_t) :=
  [(RESP_NUM_PARTHA, resp_num_partha); (RESP_WEB_JSON, resp_web_json)].

(** ** Registration

    Requests of the peers. *)
Definition register (v : validator) (r : reg_req) (now : Z) : case_t := fun c h m =>
  if is_registered_ c then Acc (Throw, m, c) else
  let! vm := v h m in
  if negb vm.1 then Acc (Return None, vm.2, c) else
  let! fm := validate_fields r now (sizeof COMM_HEADER) vm.2 in
  match fm.1 with
  | inl errcode => Acc (Return (Some errcode), fm.2, c)
  | inr _ => Acc (Register TTYPE_L2_MISC, fm.2, c)
  end.

(** The responses to the requests madhava has sent itself. *)
Definition handle_madhava_reg_resp (c : conn) (m : list Z) : acc (bool * list Z * conn) :=
  if negb (has_madhava_ c) then Acc (false, m, c) else
  let! err := rd_fld MM_CONNECT_RESP_S "error_code_" m (sizeof COMM_HEADER) in
  if negb (err =? ERR_SUCCESS) then
    let! m := term_names MM_CONNECT_RESP_S ["error_string_"] (sizeof COMM_HEADER) m in
    Acc (false, m, c)
  else Acc (true, m, set_registered c).

Definition handle_shyama_reg_resp (gmadhava_id : Z) (c : conn) (m : list Z) : acc (bool * list Z * conn) :=
  let! err := rd_fld MS_REGISTER_RESP_S "error_code_" m (sizeof COMM_HEADER) in
  if negb (err =? ERR_SUCCESS) then Acc (false, m, c) else
  let! id := rd_fld MS_REGISTER_RESP_S "madhava_id_" m (sizeof COMM_HEADER) in
  if negb (gmadhava_id =? id) then Acc (false, m, c) else
  Acc (true, m, set_registered c).

Definition reg_resp (host : HOST_TYPES_E) (v : validator)
    (f : conn -> list Z -> acc (bool * list Z * conn)) : case_t := fun c h m =>
  if is_registered_ c || bool_decide (host_type_ c <> host) then Acc (Throw, m, c) else
  let! vm := v h m in
  if negb vm.1 then Acc (Return None, vm.2, c) else
  let! r := f c vm.2 in
  Acc (if r.1.1 : bool then Skip else Return None, r.1.2, r.2).

(** ** The servers *)
Record madhava := Madhava {
  gmadhava_id_ : Z;
  gmin_partha_version : Z;
  gmin_node_version : Z;
  gversion_num : Z;
}.

Definition madhava_dispatch (cfg : madhava) (now : Z) (is_conn_closed : bool) : case_t := fun c h m =>
  let ty := data_type_ h in
  if ty =? COMM_EVENT_NOTIFY then event_notify madhava_notify c h m
  else if ty =? COMM_QUERY_CMD then query_cmd is_conn_closed madhava_query c h m
  else if ty =? COMM_QUERY_RESP then query_resp madhava_resp c h m
  else if ty =? MS_REGISTER_RESP then
    reg_resp HOST_SHYAMA MS_REGISTER_RESP_S_validate (handle_shyama_reg_resp (gmadhava_id_ cfg)) c h m
  else if ty =? MM_CONNECT_CMD then
    register MM_CONNECT_CMD_S_validate (RegMM (gmadhava_id_ cfg) (gversion_num cfg) (gversion_num cfg)) now c h m
  else if ty =? MM_CONNECT_RESP then
    reg_resp HOST_MADHAVA MM_CONNECT_RESP_S_validate handle_madhava_reg_resp c h m
  else if ty =? PM_CONNECT_CMD then
    register PM_CONNECT_CMD_S_validate
      (RegPM (gmadhava_id_ cfg) (gmin_partha_version cfg) (gversion_num cfg)) now c h m
  else if ty =? NM_CONNECT_CMD then
    register NM_CONNECT_CMD_S_validate (RegNM (gmin_node_version cfg) (gversion_num cfg)) now c h m
  else Acc (Throw, m, c).

Record shyama := Shyama {
  sh_min_partha_version : Z;
  sh_min_madhava_version : Z;
  sh_min_node_version : Z;
  sh_version_num : Z;
  shyama_secret_ : list Z;
}.

Definition shyama_dispatch (cfg : shyama) (now : Z) (is_conn_closed : bool) : case_t := fun c h m =>
  let ty := data_type_ h in
  if ty =? COMM_EVENT_NOTIFY then event_notify shyama_notify c h m
  else if ty =? COMM_QUERY_CMD then query_cmd is_conn_closed shyama_query c h m
  else if ty =? PS_REGISTER_REQ then
    register PS_REGISTER_REQ_S_validate (RegPS (sh_min_partha_version cfg) (sh_version_num cfg)) now c h m
  else if ty =? MS_REGISTER_REQ then
    register MS_REGISTER_REQ_S_validate
      (RegMS (sh_min_madhava_version cfg) (sh_version_num cfg) (shyama_secret_ cfg)) now c h m
  else if ty =? NS_REGISTER_REQ then
    register NS_REGISTER_REQ_S_validate (RegNS (sh_min_node_version cfg) (sh_version_num cfg)) now c h m
  else if ty =? COMM_QUERY_RESP then query_resp shyama_resp c h m
  else Acc (Throw, m, c).

(** ** Which peers can do what *)

(** A message as [handle_recv] has it when it comes to the switch. *)
Definition received (magic : Z) (h : comm_header) (m : list Z) : Prop :=
  bytes_wf m /\ hdr_of_bytes m = Acc h /\ hdr_validate 0 magic h = true /\ total_sz_ h <= blen m.

(** The kinds of hosts whose notifications reach each kind of threads. *)
Definition madhava_may (host : HOST_TYPES_E) (dest : TTYPE_E) : Prop :=
  match dest with
  | TTYPE_L2_MISC => host = HOST_PARTHA \/ host = HOST_MADHAVA \/ host = HOST_SHYAMA
  | TTYPE_L2_ALERT => host = HOST_SHYAMA
  | TTYPE_L2_DB_RD => False
  end.
Definition shyama_may (host : HOST_TYPES_E) (dest : TTYPE_E) : Prop := host = HOST_MADHAVA.

(** The test a registration request of each type has to pass. *)
Definition madhava_req (cfg : madhava) (ty : Z) : option reg_req :=
  if ty =? MM_CONNECT_CMD then Some (RegMM (gmadhava_id_ cfg) (gversion_num cfg) (gversion_num cfg))
  else if ty =? PM_CONNECT_CMD then Some (RegPM (gmadhava_id_ cfg) (gmin_partha_version cfg) (gversion_num cfg))
  else if ty =? NM_CONNECT_CMD then Some (RegNM (gmin_node_version cfg) (gversion_num cfg))
  else None.
Definition shyama_req (cfg : shyama) (ty : Z) : option reg_req :=
  if ty =? PS_REGISTER_REQ then Some (RegPS (sh_min_partha_version cfg) (sh_version_num cfg))
  else if ty =? MS_REGISTER_REQ then
    Some (RegMS (sh_min_madhava_version cfg) (sh_version_num cfg) (shyama_secret_ cfg))
  else if ty =? NS_REGISTER_REQ then Some (RegNS (sh_min_node_version cfg) (sh_version_num cfg))
  else None.

(** What is known about a message for which [dec] was decided: [may] for the
    notifications, [asks] for the queries, [req] for the registrations. *)
Definition policy (may asks : HOST_TYPES_E -> TTYPE_E -> Prop) (req : Z -> option reg_req)
    (now : Z) (is_conn_closed : bool) (c : conn) (h : comm_header) (m : list Z) (dec : decision) : Prop :=
  match dec with
  | Schedule dest => is_registered_ c = true /\
      (data_type_ h = COMM_EVENT_NOTIFY /\ may (host_type_ c) dest \/
       data_type_ h = COMM_QUERY_CMD /\ is_conn_closed = false /\ cli_type_ c <> CLI_TYPE_REQ_ONLY /\
         asks (host_type_ c) dest)
  | Register dest => is_registered_ c = false /\ dest = TTYPE_L2_MISC /\
      exists r sec, req (data_type_ h) = Some r /\
        get_act_len h = sizeof COMM_HEADER + sizeof (req_struct r) /\
        admissible r now (mem (req_struct r) m (sizeof COMM_HEADER)) sec
  | _ => True
  end.

(** What a message can change of its connection in the switch of a receiving thread: a
    registration response, and nothing else there, makes it registered. *)
Definition conn_change (c c' : conn) (h : comm_header) : Prop :=
  host_type_ c' = host_type_ c /\ cli_type_ c' = cli_type_ c /\
  (is_registered_ c' = is_registered_ c \/
   is_registered_ c = false /\ (data_type_ h = MS_REGISTER_RESP /\ host_type_ c = HOST_SHYAMA \/
                                data_type_ h = MM_CONNECT_RESP /\ host_type_ c = HOST_MADHAVA)).

Lemma conn_change_refl c h : conn_change c c h.
Proof. repeat split. by left. Qed.

Lemma switch_ind (P : case_t -> Prop) cases ty :
  Forall (fun e => P e.2) cases -> P (fun c _ m => Acc (Skip, m, c)) -> P (switch cases ty).
Proof. intros Hc Hd. induction Hc as [|[k f] cases Hf _ IH]; cbn [switch]; [done|]. by case_if. Qed.

(** A case that accepts a message from [hosts] for [dests] only. *)
Definition case_ok (may : HOST_TYPES_E -> TTYPE_E -> Prop) (f : case_t) : Prop :=
  forall c h m dec m' c', f c h m = Acc (dec, m', c') ->
    host_type_ c' = host_type_ c /\ cli_type_ c' = cli_type_ c /\ is_registered_ c' = is_registered_ c /\
    match dec with
    | Schedule dest => is_registered_ c = true /\ may (host_type_ c) dest
    | Register _ => False
    | _ => True
    end.

Lemma case_ok_skip may : case_ok may (fun c _ m => Acc (Skip, m, c)).
Proof. by intros c h m dec m' c' [= <- <- <-]. Qed.

Lemma case_ok_notify (may : HOST_TYPES_E -> TTYPE_E -> Prop) host v dec :
  match dec with
  | Schedule dest => match host with Some t => may t dest | None => False end
  | Register _ => False
  | _ => True
  end -> case_ok may (notify host v dec).
Proof.
  intros Hmay c h m dec' m' c' H. unfold notify in H. case_if_in H; [by simplify_eq|].
  apply orb_false_elim in Heqb as [Hreg Hhost]. apply negb_false_iff in Hreg.
  apply acc_bind_Acc in H as ([[] m1] & _ & [= <- <- <-]); cbn; [|done]. split_and!; try done.
  destruct dec; try done. destruct host as [t|]; [|done]. apply bool_decide_eq_false_1 in Hhost.
  assert (host_type_ c = t) as -> by (by destruct (decide (host_type_ c = t))). done.
Qed.

Lemma case_ok_query (may : HOST_TYPES_E -> TTYPE_E -> Prop) dest :
  (forall t, may t dest) -> case_ok may (query dest).
Proof. intros Hm c h m dec m' c' [= <- <- <-]. by destruct (is_registered_ c). Qed.

Lemma cb_same seqid c : let same c' := host_type_ c' = host_type_ c /\ cli_type_ c' = cli_type_ c /\
  is_registered_ c' = is_registered_ c in same (extract_recv_cb seqid c) /\ same (find_recv_cb seqid c).
Proof. unfold extract_recv_cb, find_recv_cb. by destruct (cb_tbl_ c !! seqid) as [[]|]. Qed.

(** Takes [H : let! x := .. in .. = Acc _] apart. *)
Ltac acc_inv H :=
  repeat match type of H with acc_bind _ _ = Acc _ => apply acc_bind_Acc in H as (? & ? & H) end.

Lemma case_ok_web_json may : case_ok may resp_web_json.
Proof.
  intros c h m dec m' c' H. unfold resp_web_json in H. acc_inv H. simplify_eq.
  match goal with |- context [find_recv_cb ?s c] => destruct (cb_same s c) as [[? []] [? []]] end.
  by repeat case_if.
Qed.

Lemma case_ok_num_partha may : case_ok may resp_num_partha.
Proof.
  intros c h m dec m' c' H. unfold resp_num_partha in H. acc_inv H. case_if_in H; [|by simplify_eq].
  acc_inv H. case_if_in H; simplify_eq; [done|].
  match goal with |- context [extract_recv_cb ?s c] => destruct (cb_same s c) as [[? []] _] end. done.
Qed.

Lemma case_ok_partha_madhava may : case_ok may shyama_QUERY_PARTHA_MADHAVA.
Proof. intros c h m dec m' c' H. unfold shyama_QUERY_PARTHA_MADHAVA in H. acc_inv H. simplify_eq. by case_if. Qed.

Ltac solve_case := cbn [snd];
  first [apply case_ok_web_json | apply case_ok_num_partha | apply case_ok_partha_madhava
        | apply case_ok_query; by cbn; auto | apply case_ok_notify; by cbn; auto].
Ltac all_cases l := unfold l; repeat (apply list.Forall_cons; split; [solve_case|]); constructor.

Lemma madhava_notify_ok : Forall (fun e => case_ok madhava_may e.2) madhava_notify.
Proof. all_cases madhava_notify. Qed.
Lemma shyama_notify_ok : Forall (fun e => case_ok shyama_may e.2) shyama_notify.
Proof. all_cases shyama_notify. Qed.
Lemma madhava_query_ok : Forall (fun e => case_ok (fun _ dest => dest = TTYPE_L2_DB_RD) e.2) madhava_query.
Proof. all_cases madhava_query. Qed.
Lemma shyama_query_ok : Forall (fun e => case_ok (fun _ dest => dest <> TTYPE_L2_MISC) e.2) shyama_query.
Proof. all_cases shyama_query. Qed.
Lemma madhava_resp_ok : Forall (fun e => case_ok (fun _ _ => False) e.2) madhava_resp.
Proof. all_cases madhava_resp. Qed.
Lemma shyama_resp_ok : Forall (fun e => case_ok (fun _ _ => False) e.2) shyama_resp.
Proof. all_cases shyama_resp. Qed.

Section Policy.
Context (may asks : HOST_TYPES_E -> TTYPE_E -> Prop) (req : Z -> option reg_req) (now : Z) (closed : bool).

(** A case of the switch over the type of the message. *)
Definition type_ok (ty : Z) (f : case_t) : Prop :=
  forall magic c h m dec m' c', data_type_ h = ty -> received magic h m -> f c h m = Acc (dec, m', c') ->
    policy may asks req now closed c h m dec /\ conn_change c c' h.

Lemma type_ok_throw ty : type_ok ty (fun c _ m => Acc (Throw, m, c)).
Proof. intros magic c h m dec m' c' _ _ [= <- <- <-]. split; [done|apply conn_change_refl]. Qed.

(** From a case of one of the inner switches. *)
Lemma inner_ok (may' : HOST_TYPES_E -> TTYPE_E -> Prop) f c h m dec m' c' : case_ok may' f ->
  (forall dest, is_registered_ c = true -> may' (host_type_ c) dest -> policy may asks req now closed c h m (Schedule dest)) ->
  f c h m = Acc (dec, m', c') -> policy may asks req now closed c h m dec /\ conn_change c c' h.
Proof.
  intros Hf Hm H. apply Hf in H as (Ht & Hc & Hr & Hd). split; [|repeat split; try done; by left].
  destruct dec; try done. destruct Hd. by apply Hm.
Qed.

Lemma type_ok_event cases : Forall (fun e => case_ok may e.2) cases ->
  type_ok COMM_EVENT_NOTIFY (event_notify cases).
Proof.
  intros Hc magic c h m dec m' c' Hty _ H. unfold event_notify in H. acc_inv H.
  eapply (inner_ok may); [apply (switch_ind (case_ok may)); [exact Hc|apply case_ok_skip]|..|exact H].
  intros dest Hr Hm. split; [done|]. by left.
Qed.

Lemma type_ok_query cases : Forall (fun e => case_ok asks e.2) cases ->
  type_ok COMM_QUERY_CMD (query_cmd closed cases).
Proof.
  intros Hc magic c h m dec m' c' Hty _ H. unfold query_cmd in H.
  case_if_in H; [|simplify_eq; split; [done|apply conn_change_refl]]. breflect. acc_inv H.
  eapply (inner_ok asks); [apply (switch_ind (case_ok asks)); [exact Hc|apply case_ok_skip]|..|exact H].
  intros dest Hr Hm. split; [done|]. right. by split_and!.
Qed.

Lemma type_ok_resp cases : Forall (fun e => case_ok (fun _ _ => False) e.2) cases ->
  type_ok COMM_QUERY_RESP (query_resp cases).
Proof.
  intros Hc magic c h m dec m' c' Hty _ H. unfold query_resp in H.
  case_if_in H; [simplify_eq; split; [done|apply conn_change_refl]|]. acc_inv H.
  case_if_in H; [simplify_eq; split; [done|apply conn_change_refl]|]. acc_inv H.
  by eapply (inner_ok (fun _ _ => False)); [apply (switch_ind (case_ok (fun _ _ => False))); [exact Hc|apply case_ok_skip]|..|exact H].
Qed.

(** The registration requests all have the same validation. *)
Lemma type_ok_register r ty : req ty = Some r -> min_payload ty = Some (sizeof (req_struct r)) ->
  secret_wf r -> 0 <= now < 2 ^ 62 -> type_ok ty (register (validate_one (req_struct r) []) r now).
Proof.
  intros Hreq Hmin Hsec Hnow magic c h m dec m' c' Hty (Hwf & Hh & Hv & Hl) H. unfold register in H.
  destruct (is_registered_ c) eqn:Hr; [simplify_eq; split; [done|apply conn_change_refl]|].
  unfold validate_one in H. cbn [term_names acc_bind fst snd] in H.
  case_if_in H; [simplify_eq; split; [done|apply conn_change_refl]|]. breflect.
  destruct (hdr_of_bytes_wf m h Hwf (hdr_of_bytes_len _ _ Hh) Hh) as (_ & _ & _ & Hp).
  destruct (hdr_validate_spec _ _ _ Hp Hv) as (_ & _ & _ & _ & Ha & Hp8 & n & Hn & Hle).
  rewrite Hty, Hmin in Hn. injection Hn as <-.
  pose proof (validate_fields_post r now (sizeof COMM_HEADER) m Hsec Hwf ltac:(done) Hnow ltac:(lia)) as Hpost.
  unfold wp, CommReg.wp in Hpost. apply acc_bind_Acc in H as ([res b] & Hvf & H). rewrite Hvf in Hpost.
  destruct Hpost as [_ Hpost]. cbn [fst snd] in *.
  destruct res as [e|[]]; simplify_eq; (split; [|apply conn_change_refl]); [done|].
  split; [done|]. split; [done|]. destruct Hpost as [_ Hadm]. exists r, (sent_secret r m' (sizeof COMM_HEADER)).
  by split_and!.
Qed.

Lemma type_ok_reg_resp ty host v f :
  (ty = MS_REGISTER_RESP /\ host = HOST_SHYAMA \/ ty = MM_CONNECT_RESP /\ host = HOST_MADHAVA) ->
  (forall c m b m' c', f c m = Acc (b, m', c') -> c' = c \/ c' = set_registered c) ->
  type_ok ty (reg_resp host v f).
Proof.
  intros Hty' Hf magic c h m dec m' c' Hty _ H. unfold reg_resp in H.
  destruct (is_registered_ c) eqn:Hr; cbn [orb] in H; [simplify_eq; split; [done|apply conn_change_refl]|].
  case_if_in H; [simplify_eq; split; [done|apply conn_change_refl]|].
  apply bool_decide_eq_false_1 in Heqb. assert (host_type_ c = host) as Hh by (by destruct (decide (host_type_ c = host))).
  acc_inv H. case_if_in H; [simplify_eq; split; [done|apply conn_change_refl]|].
  apply acc_bind_Acc in H as ([[b m1] c1] & E & H). cbn in H. simplify_eq. split; [by destruct b|].
  apply Hf in E as [->| ->]; [apply conn_change_refl|]. split_and!; [done..|]. right. split; [done|]. subst. tauto.
Qed.
End Policy.

Lemma handle_shyama_reg_resp_conn id c m b m' c' :
  handle_shyama_reg_resp id c m = Acc (b, m', c') -> c' = c \/ c' = set_registered c.
Proof.
  intros H. unfold handle_shyama_reg_resp in H. acc_inv H. case_if_in H; [simplify_eq; by left|].
  acc_inv H. case_if_in H; simplify_eq; auto.
Qed.
Lemma handle_madhava_reg_resp_conn c m b m' c' :
  handle_madhava_reg_resp c m = Acc (b, m', c') -> c' = c \/ c' = set_registered c.
Proof.
  intros H. unfold handle_madhava_reg_resp in H. case_if_in H; [simplify_eq; by left|]. acc_inv H.
  case_if_in H; [acc_inv H; simplify_eq; by left|]. simplify_eq. by right.
Qed.

(** Goes through the cases of the switch over the type of the message. *)
Ltac by_type H t := match type of H with (if _ =? ?ty then _ else _) = _ =>
  destruct (Z.eqb_spec (data_type_ t) ty) as [Hty|_]; cbv iota in H; [|by_type H t] | _ => idtac end.

Lemma madhava_dispatch_ok cfg now closed magic c h m dec m' c' :
  0 <= now < 2 ^ 62 -> received magic h m -> madhava_dispatch cfg now closed c h m = Acc (dec, m', c') ->
  policy madhava_may (fun _ dest => dest = TTYPE_L2_DB_RD) (madhava_req cfg) now closed c h m dec /\
  conn_change c c' h.
Proof.
  intros Hnow Hr H. unfold madhava_dispatch in H. cbv zeta in H. by_type H h; revert Hr H.
  - eapply type_ok_event; [apply madhava_notify_ok|done].
  - eapply (type_ok_query madhava_may (fun _ dest => dest = TTYPE_L2_DB_RD)); [apply madhava_query_ok|done].
  - eapply type_ok_resp; [apply madhava_resp_ok|done].
  - eapply type_ok_reg_resp; [by left|apply handle_shyama_reg_resp_conn|done].
  - refine (type_ok_register _ _ _ _ _ (RegMM _ _ _) MM_CONNECT_CMD eq_refl _ _ Hnow _ _ _ _ _ _ _ Hty); [by vm_compute|done].
  - eapply type_ok_reg_resp; [by right|apply handle_madhava_reg_resp_conn|done].
  - refine (type_ok_register _ _ _ _ _ (RegPM _ _ _) PM_CONNECT_CMD eq_refl _ _ Hnow _ _ _ _ _ _ _ Hty); [by vm_compute|done].
  - refine (type_ok_register _ _ _ _ _ (RegNM _ _) NM_CONNECT_CMD eq_refl _ _ Hnow _ _ _ _ _ _ _ Hty); [by vm_compute|done].
  - eapply type_ok_throw; done.
Qed.

(** C5 : what a peer can do in the switch of the receiving threads of madhava.  Nothing
    is handed over for a peer that is not registered but its registration request, which
    has then the length of its structure and satisfies all the conditions of admission.
    Notifications reach the alert threads from shyama only, the other threads from partha,
    madhava and shyama hosts only; queries are taken only on open connections that are not
    for notifications alone, and go to the readers of the database.  In this switch a
    message never changes the kind of a connection, and only the response to a request
    madhava sent itself makes the connection registered (peers that ask for a registration
    are registered later, by the threads the request is handed to). *)
Theorem madhava_peer_policy cfg now closed magic c h m dec m' c' :
  0 <= now < 2 ^ 62 -> received magic h m -> madhava_dispatch cfg now closed c h m = Acc (dec, m', c') ->
  policy madhava_may (fun _ dest => dest = TTYPE_L2_DB_RD) (madhava_req cfg) now closed c h m dec /\
  conn_change c c' h.
Proof. apply madhava_dispatch_ok. Qed.

(** What a peer can do at shyama: as for madhava, but notifications are taken
    from madhava hosts only, and queries do not reach the threads they go to. *)
Theorem shyama_peer_policy cfg now closed magic c h m dec m' c' :
  Forall (fun x => x <> 0) (shyama_secret_ cfg) ->
  0 <= now < 2 ^ 62 -> received magic h m -> shyama_dispatch cfg now closed c h m = Acc (dec, m', c') ->
  policy shyama_may (fun _ dest => dest <> TTYPE_L2_MISC) (shyama_req cfg) now closed c h m dec /\
  conn_change c c' h.
Proof.
  intros Hsec Hnow Hr H. unfold shyama_dispatch in H. cbv zeta in H. by_type H h; revert Hr H.
  - eapply type_ok_event; [apply shyama_notify_ok|done].
  - eapply (type_ok_query shyama_may (fun _ dest => dest <> TTYPE_L2_MISC)); [apply shyama_query_ok|done].
  - refine (type_ok_register _ _ _ _ _ (RegPS _ _) PS_REGISTER_REQ eq_refl _ _ Hnow _ _ _ _ _ _ _ Hty); [by vm_compute|done].
  - refine (type_ok_register _ _ _ _ _ (RegMS _ _ _) MS_REGISTER_REQ eq_refl _ _ Hnow _ _ _ _ _ _ _ Hty); [by vm_compute|done].
  - refine (type_ok_register _ _ _ _ _ (RegNS _ _) NS_REGISTER_REQ eq_refl _ _ Hnow _ _ _ _ _ _ _ Hty); [by vm_compute|done].
  - eapply type_ok_resp; [apply shyama_resp_ok|done].
  - eapply type_ok_throw; done.
Qed.

(** ** Messages are handled inside their bytes

    What a validation promises to the dispatch: on a received event it touches
    only the message, and the message keeps its length. *)
Class Inside (v : validator) : Prop :=
  inside magic h m : event_received 0 magic h m ->
    exists ok m', v h m = Acc (ok, m') /\ length m' = length m.

Lemma always_inside : Inside always.
Proof. intros magic h m _. by exists true, m. Qed.

Lemma of_header_inside v : Inside (of_header v).
Proof. intros magic h m _. by exists (v h), m. Qed.

(** The validations that look only at the number of events. *)
Lemma nevents_inside (v : comm_header -> list Z -> acc bool) :
  (forall h m n, nevents m = Acc n -> exists ok, v h m = Acc ok) -> Inside (keeps v).
Proof.
  intros Hv magic h m Hr. destruct (nevents_received _ _ _ _ Hr) as (n & Hn & _).
  destruct (Hv h m n Hn) as [ok E]. exists ok, m. unfold keeps. by rewrite E.
Qed.

Lemma array_inside t lim : Inside (keeps (validate_array t lim)).
Proof. apply nevents_inside. intros h m n Hn. unfold validate_array. rewrite Hn. by eexists. Qed.
Lemma single_inside t : Inside (keeps (validate_single t)).
Proof. apply nevents_inside. intros h m n Hn. unfold validate_single. rewrite Hn. by eexists. Qed.
Lemma madhava_list_inside : Inside (keeps MADHAVA_LIST_validate).
Proof.
  apply nevents_inside. intros h m n Hn. unfold MADHAVA_LIST_validate. rewrite Hn. cbn [acc_bind].
  case_if; by eexists.
Qed.

Lemma events_inside sp max : spec_ok sp = true -> Inside (validate_events sp max).
Proof.
  intros Hok magic h m Hr. pose proof Hr as (Hwf & _).
  apply event_received_act in Hr as (_ & [Hge Hle] & n & Hn & Hnw).
  unfold validate_events. rewrite (proj2 (Z.ltb_ge _ _)) by done. rewrite Hn. cbn [acc_bind].
  case_if; [by exists false, m|]. change EVENT_FIXED_SZ with 24 in *.
  destruct (walk_sound sp Hok (Z.to_nat n) 24 (get_act_len h - 24) m) as (ok & b & -> & [Hl _] & _);
    [done|lia..|]. by exists ok, b.
Qed.

(** The handling of a message of type [ty] by a registered peer of a kind in [P]. *)
Definition case_in (P : HOST_TYPES_E -> Prop) (ty : Z) (f : case_t) : Prop :=
  forall magic c h m, is_registered_ c = true -> P (host_type_ c) -> received magic h m -> data_type_ h = ty ->
    exists dec m' c', f c h m = Acc (dec, m', c') /\ length m' = length m.

Lemma skip_in P ty : case_in P ty (fun c _ m => Acc (Skip, m, c)).
Proof. intros magic c h m _ _ _ _. by eexists _, m, c. Qed.

Lemma query_in P ty dest : case_in P ty (query dest).
Proof. intros magic c h m _ _ _ _. by eexists _, m, c. Qed.

Lemma notify_in (P : HOST_TYPES_E -> Prop) host v dec :
  match host with Some t => P t -> Inside v | None => Inside v end ->
  case_in P COMM_EVENT_NOTIFY (notify host v dec).
Proof.
  intros Hv magic c h m Hreg Hp Hr Hty. unfold notify. rewrite Hreg. cbn [negb orb].
  assert (Inside v -> exists dec' m' c',
    (let! r := v h m in Acc (if r.1 : bool then dec else Throw, r.2, c)) = Acc (dec', m', c') /\
    length m' = length m) as Hok.
  { intros Hi. destruct (Hi magic h m) as (ok & m' & E & Hl); [by destruct Hr as (? & ? & ? & ?)|].
    rewrite E. by eexists _, m', c. }
  destruct host as [t|]; [|by apply Hok].
  destruct (decide (host_type_ c = t)) as [<-|Hne].
  - rewrite bool_decide_eq_false_2 by tauto. by apply Hok, Hv.
  - rewrite bool_decide_eq_true_2 by done. by eexists _, m, c.
Qed.

(** A query of another kind of peer is refused before it is validated. *)
Lemma notify_refused_in (P : HOST_TYPES_E -> Prop) ty t v dec : ~ P t -> case_in P ty (notify (Some t) v dec).
Proof.
  intros Hn magic c h m Hreg Hp _ _. unfold notify. rewrite Hreg, bool_decide_eq_true_2; [by eexists _, m, c|].
  intros E. by rewrite E in Hp.
Qed.

(** A member behind the header of a message that is long enough for it. *)
Lemma rd_member t f o ft magic h m ty : field t f = Some (o, ft) -> received magic h m ->
  data_type_ h = ty -> min_payload ty = Some (sizeof t) ->
  0 <= o -> 0 <= sizeof ft -> o + sizeof ft <= sizeof t ->
  exists v, rd_fld t f m (sizeof COMM_HEADER) = Acc v.
Proof.
  intros Hf (Hwf & Hh & Hv & Hl) Hty Hmin Ho Hs Ht.
  destruct (hdr_of_bytes_wf m h Hwf (hdr_of_bytes_len _ _ Hh) Hh) as (_ & _ & _ & Hp).
  destruct (hdr_validate_spec _ _ _ Hp Hv) as (_ & _ & _ & _ & Ha & Hp8 & n & Hn & Hle).
  rewrite Hty, Hmin in Hn. injection Hn as <-. change (sizeof COMM_HEADER) with 16 in *.
  unfold rd_fld. rewrite Hf. destruct (sat_Acc _ _ (rd_le_sat (Z.to_nat (sizeof ft)) m Hwf (16 + o) ltac:(lia) ltac:(lia)))
    as (v & -> & _). by exists v.
Qed.

Ltac member Hr Hty := eapply rd_member; [reflexivity|exact Hr|exact Hty|reflexivity|done..].

Lemma event_notify_in P cases : Forall (fun e => case_in P COMM_EVENT_NOTIFY e.2) cases ->
  case_in P COMM_EVENT_NOTIFY (event_notify cases).
Proof.
  intros Hc magic c h m Hreg Hp Hr Hty. unfold event_notify.
  assert (exists v, rd_fld EVENT_NOTIFY "subtype_" m (sizeof COMM_HEADER) = Acc v) as [v ->] by member Hr Hty.
  cbn [acc_bind]. eapply (switch_ind (case_in P COMM_EVENT_NOTIFY)); eauto using skip_in.
Qed.

Lemma query_cmd_in P closed cases : Forall (fun e => case_in P COMM_QUERY_CMD e.2) cases ->
  case_in P COMM_QUERY_CMD (query_cmd closed cases).
Proof.
  intros Hc magic c h m Hreg Hp Hr Hty. unfold query_cmd. case_if; [|by eexists _, m, c].
  assert (exists v, rd_fld QUERY_CMD "subtype_" m (sizeof COMM_HEADER) = Acc v) as [v ->] by member Hr Hty.
  cbn [acc_bind]. eapply (switch_ind (case_in P COMM_QUERY_CMD)); eauto using skip_in.
Qed.

Lemma query_resp_in P cases : Forall (fun e => case_in P COMM_QUERY_RESP e.2) cases ->
  case_in P COMM_QUERY_RESP (query_resp cases).
Proof.
  intros Hc magic c h m Hreg Hp Hr Hty. unfold query_resp. rewrite Hreg. cbn [negb].
  assert (exists ok, QUERY_RESPONSE_validate h m = Acc ok) as [ok ->].
  { unfold QUERY_RESPONSE_validate. case_if; [by eexists|].
    assert (exists v, rd_fld QUERY_RESPONSE "resp_len_" m (sizeof COMM_HEADER) = Acc v) as [v ->] by member Hr Hty.
    by eexists. }
  cbn [acc_bind]. case_if; [by eexists _, m, c|].
  assert (exists v, rd_fld QUERY_RESPONSE "subtype_" m (sizeof COMM_HEADER) = Acc v) as [v ->] by member Hr Hty.
  cbn [acc_bind]. eapply (switch_ind (case_in P COMM_QUERY_RESP)); eauto using skip_in.
Qed.

Lemma resp_web_json_in P : case_in P COMM_QUERY_RESP resp_web_json.
Proof.
  intros magic c h m Hreg Hp Hr Hty. unfold resp_web_json.
  assert (exists v, rd_fld QUERY_RESPONSE "respformat_" m (sizeof COMM_HEADER) = Acc v) as [v1 ->] by member Hr Hty.
  assert (exists v, rd_fld QUERY_RESPONSE "seqid_" m (sizeof COMM_HEADER) = Acc v) as [v2 ->] by member Hr Hty.
  assert (exists v, rd_fld QUERY_RESPONSE "is_resp_complete_" m (sizeof COMM_HEADER) = Acc v) as [v3 ->] by member Hr Hty.
  by eexists _, m, _.
Qed.

Definition server_peer (t : HOST_TYPES_E) : Prop := t <> HOST_PARTHA.

Ltac solve_inside :=
  first [apply always_inside | apply of_header_inside | apply array_inside | apply single_inside
        | apply madhava_list_inside | apply events_inside; by vm_compute].
Ltac solve_in := cbn [snd];
  first [apply resp_web_json_in | apply query_in | apply notify_refused_in; by intros []
        | apply notify_in; cbn; intros; solve_inside].

Lemma madhava_notify_in : Forall (fun e => case_in server_peer COMM_EVENT_NOTIFY e.2) madhava_notify.
Proof. unfold madhava_notify. repeat (apply list.Forall_cons; split; [solve_in|]). constructor. Qed.
Lemma madhava_query_in : Forall (fun e => case_in server_peer COMM_QUERY_CMD e.2) madhava_query.
Proof. unfold madhava_query. repeat (apply list.Forall_cons; split; [solve_in|]). constructor. Qed.
Lemma madhava_resp_in : Forall (fun e => case_in server_peer COMM_QUERY_RESP e.2) madhava_resp.
Proof. unfold madhava_resp. repeat (apply list.Forall_cons; split; [solve_in|]). constructor. Qed.

(** A registered peer that is not a partha host. *)
Lemma madhava_dispatch_in cfg now closed magic c h m :
  is_registered_ c = true -> server_peer (host_type_ c) -> received magic h m ->
  exists dec m' c', madhava_dispatch cfg now closed c h m = Acc (dec, m', c') /\ length m' = length m.
Proof.
  intros Hreg Hp Hr. unfold madhava_dispatch. cbv zeta. unfold register, reg_resp. rewrite Hreg.
  destruct (Z.eqb_spec (data_type_ h) COMM_EVENT_NOTIFY);
    [by apply (event_notify_in server_peer _ madhava_notify_in magic)|].
  destruct (Z.eqb_spec (data_type_ h) COMM_QUERY_CMD);
    [by apply (query_cmd_in server_peer _ _ madhava_query_in magic)|].
  destruct (Z.eqb_spec (data_type_ h) COMM_QUERY_RESP);
    [by apply (query_resp_in server_peer _ madhava_resp_in magic)|].
  exists Throw, m, c. split; [|done]. by repeat case_if.
Qed.

(** Whatever a registered madhava, shyama or node host sends, madhava handles
    each received message inside the bytes of the message, without an exception of
    the memory model, and the message keeps its length. *)
Theorem madhava_peer_inside cfg now closed magic c h m :
  is_registered_ c = true -> server_peer (host_type_ c) -> received magic h m ->
  exists dec m' c', madhava_dispatch cfg now closed c h m = Acc (dec, m', c') /\ length m' = length m.
Proof. apply madhava_dispatch_in. Qed.

(** ** The receive loop with the real dispatch *)
Definition madhava_handle (cfg : madhava) (now : Z) (is_conn_closed : bool) (c : conn)
    (h : comm_header) (m : list Z) : acc (decision * list Z) :=
  let! r := madhava_dispatch cfg now is_conn_closed c h m in Acc r.1.

Lemma rd8_take n buf o : o < Z.of_nat n -> rd8 (take n buf) o = rd8 buf o.
Proof. intros Ho. unfold rd8. case_if; [done|]. breflect. by rewrite lookup_take_lt by lia. Qed.

Lemma received_take magic h s : bytes_wf s -> hdr_of_bytes (take 16 s) = Acc h ->
  hdr_validate 0 magic h = true -> total_sz_ h <= blen s ->
  received magic h (take (Z.to_nat (total_sz_ h)) s).
Proof.
  intros Hwf Hh Hv Hl. destruct (hdr_validate_total _ _ _ Hv) as ([H16 _] & _).
  split_and!; [by apply Forall_take| |done|unfold blen in *; rewrite length_take; lia].
  rewrite <- Hh. apply hdr_of_bytes_agree. intros o Ho. rewrite !rd8_take by lia. done.
Qed.

(** A registered madhava host that uses its connection for notifications only
    fulfils what the receive loop asks of the handling of messages: whatever bytes
    it sends, every message is handled inside its bytes and all that is handed over
    is for the same kind of threads, which are not the readers of the database. *)
Theorem madhava_event_stream cfg now closed magic c s :
  0 <= now < 2 ^ 62 -> is_registered_ c = true -> host_type_ c = HOST_MADHAVA ->
  cli_type_ c = CLI_TYPE_REQ_ONLY -> bytes_wf s ->
  stream_ok magic (madhava_handle cfg now closed c) TTYPE_L2_MISC s = true.
Proof.
  intros Hnow Hreg Hhost Hcli. unfold stream_ok. generalize (S (length s)) as n. intros n. revert s.
  induction n as [|n IH]; intros s Hwf; [done|]. cbn [stream_n]. case_if; [done|].
  destruct (hdr_of_bytes (take 16 s)) as [h|] eqn:Hh; [|done].
  destruct (hdr_validate 0 magic h) eqn:Hv; [|done]. cbn [negb]. case_if; [done|]. breflect.
  pose proof (received_take magic h s Hwf Hh Hv ltac:(lia)) as Hr.
  destruct (madhava_dispatch_in cfg now closed magic c h _ Hreg ltac:(by unfold server_peer; rewrite Hhost) Hr)
    as (dec & m' & c' & E & Hl).
  destruct (madhava_dispatch_ok cfg now closed magic c h _ dec m' c' Hnow Hr E) as [Hpol _].
  cbv zeta. unfold one_dest, madhava_handle. rewrite E. cbn [acc_bind fst]. rewrite Hl, Nat.eqb_refl. cbn [andb].
  destruct dec as [|e| |dest|dest]; try done; [by apply IH, Forall_drop| |].
  - destruct Hpol as [_ [[_ Hmay]|(_ & _ & Hne & _)]]; [|done]. rewrite Hhost in Hmay.
    destruct dest; cbn in Hmay; try done. rewrite bool_decide_eq_true_2 by done. by apply IH, Forall_drop.
  - destruct Hpol as [Hf _]. by rewrite Hreg in Hf.
Qed.

(** ** Concrete connections and messages *)
Module DispatchExamples.
#[local] Open Scope list_scope.
#[local] Open Scope l1_scope.

Definition ex_cfg : madhava := Madhava 77 1 1 2.
Definition ex_shyama : shyama := Shyama 1 1 1 2 [115; 101; 99].
Definition ex_now : Z := 1700000000.
Definition ex_conn (reg : bool) (host : HOST_TYPES_E) (cli : Z) : conn := Conn reg host cli false ∅ [].

(** A message of [total] bytes with the subtype at the start of its body. *)
Definition ex_msg (magic ty total : Z) (body : list Z) : list Z :=
  hdr_bytes (CommHeader magic total ty 0) ++ body ++ replicate (Z.to_nat total - 16 - length body) 0.
Definition ex_hdr (magic ty total : Z) : comm_header := CommHeader magic total ty 0.

(** [MM_LISTENER_PING] of one listener, whose identity is [id]. *)
Definition ping (total id : Z) : list Z :=
  ex_msg MM_HDR_MAGIC COMM_EVENT_NOTIFY total (le_bytes 4 NOTIFY_MM_LISTENER_PING ++ le_bytes 4 1 ++ le_bytes 8 id).

(** A query with the number [seqid]. *)
Definition web_query (seqid : Z) : list Z :=
  ex_msg NM_HDR_MAGIC COMM_QUERY_CMD 48 (le_bytes 8 seqid ++ le_bytes 8 0 ++ le_bytes 4 QUERY_WEB_JSON).

(** A registration request of a partha host. *)
Definition pm_connect : list Z :=
  ex_msg PM_HDR_MAGIC PM_CONNECT_CMD (16 + sizeof PM_CONNECT_CMD_S)
    (RegExamples.fill PM_CONNECT_CMD_S [("comm_version_", 1); ("partha_version_", 1); ("machine_id_hi_", 5);
       ("madhava_id_", 77); ("curr_sec_", ex_now)]).

Definition peer : conn := ex_conn true HOST_MADHAVA CLI_TYPE_REQ_ONLY.
Definition peer_handle : comm_header -> list Z -> acc (decision * list Z) := madhava_handle ex_cfg ex_now false peer.

Lemma ping_received : received MM_HDR_MAGIC (ex_hdr MM_HDR_MAGIC COMM_EVENT_NOTIFY 32) (ping 32 9).
Proof. split_and!; [apply bytes_wf_dec; by vm_compute|by vm_compute..]. Qed.

Lemma madhava_peer_policy_witness :
  madhava_dispatch ex_cfg ex_now false peer (ex_hdr MM_HDR_MAGIC COMM_EVENT_NOTIFY 32) (ping 32 9) =
    Acc (Schedule TTYPE_L2_MISC, ping 32 9, peer) /\ conn_change peer peer (ex_hdr MM_HDR_MAGIC COMM_EVENT_NOTIFY 32).
Proof.
  assert (madhava_dispatch ex_cfg ex_now false peer (ex_hdr MM_HDR_MAGIC COMM_EVENT_NOTIFY 32) (ping 32 9) =
    Acc (Schedule TTYPE_L2_MISC, ping 32 9, peer)) as H by (by vm_compute). split; [exact H|].
  apply (madhava_peer_policy ex_cfg ex_now false MM_HDR_MAGIC peer _ (ping 32 9) _ _ peer
    ltac:(by vm_compute) ping_received H).
Defined.

Lemma madhava_peer_inside_witness : exists dec m' c',
  madhava_dispatch ex_cfg ex_now false peer (ex_hdr MM_HDR_MAGIC COMM_EVENT_NOTIFY 32) (ping 32 9) =
    Acc (dec, m', c') /\ length m' = length (ping 32 9).
Proof.
  apply (madhava_peer_inside ex_cfg ex_now false MM_HDR_MAGIC peer _ (ping 32 9));
    [done|done|exact ping_received].
Defined.

(** A reg notification at shyama. *)
Definition ms_ping : list Z :=
  ex_msg MS_HDR_MAGIC COMM_EVENT_NOTIFY (24 + sizeof MS_PARTHA_PING) (le_bytes 4 NOTIFY_MS_PARTHA_PING ++ le_bytes 4 1).
Definition ms_hdr : comm_header := ex_hdr MS_HDR_MAGIC COMM_EVENT_NOTIFY (24 + sizeof MS_PARTHA_PING).

Lemma shyama_peer_policy_witness :
  policy shyama_may (fun _ dest => dest <> TTYPE_L2_MISC) (shyama_req ex_shyama) ex_now false
    (ex_conn true HOST_MADHAVA 0) ms_hdr ms_ping (Schedule TTYPE_L2_DB_RD).
Proof.
  apply (shyama_peer_policy ex_shyama ex_now false MS_HDR_MAGIC (ex_conn true HOST_MADHAVA 0) ms_hdr ms_ping _
    ms_ping (ex_conn true HOST_MADHAVA 0)); [by repeat constructor|by vm_compute| |by vm_compute].
  split_and!; [apply bytes_wf_dec; by vm_compute|by vm_compute..].
Defined.

Lemma madhava_event_stream_witness :
  stream_ok MM_HDR_MAGIC peer_handle TTYPE_L2_MISC (ping 32 1 ++ ping 48 2 ++ take 20 (ping 32 3)) = true.
Proof.
  apply (madhava_event_stream ex_cfg ex_now false MM_HDR_MAGIC peer); [by vm_compute|done..|].
  apply bytes_wf_dec. by vm_compute.
Defined.

(** Two calls; the first ends inside the third message. *)
Definition ex_calls : list (list (list Z)) :=
  [[ping 32 1 ++ ping 48 2 ++ take 20 (ping 32 3)]; [drop 20 (ping 32 3)]].

Definition recv (magic : Z) (handle : comm_header -> list Z -> acc (decision * list Z)) : list sock_ev -> M unit :=
  handle_recv (fun n => n) (fun _ => true) magic handle.

Lemma ex_calls_ok : calls_ok (fun n => n) (fun _ => true) MM_HDR_MAGIC peer_handle ex_calls [] l1_init.
Proof.
  cbn [calls_ok ex_calls]. split; [|intros s1 r1 H1 Hr1; split; [|done]].
  - intros ip s1 H. vm_compute in H. injection H as <- <-. split; [apply bytes_wf_dec; by vm_compute|].
    split; [by vm_compute|]. by vm_compute.
  - vm_compute in H1. injection H1 as <-. vm_compute in Hr1. injection Hr1 as <-.
    intros ip s1 H. vm_compute in H. injection H as <- <-. split; [apply bytes_wf_dec; by vm_compute|].
    split; [by vm_compute|]. by vm_compute.
Qed.


(** ** Where the loop does not keep to the specification *)
Definition sent_of {A} (r : res A) : option (list (TTYPE_E * option (list Z))) :=
  match r with Ok _ s | Closed s => Some (sent_msgs (sent s)) | Fault => None end.

(** A read that fills the buffer and ends at the end of a message makes the
    last message be handed over twice: the size of the data the connection records
    still counts that message when the loop reads it again, and so the message is
    also kept for the next call. *)
Theorem full_read_sends_twice :
  sent_of ((do _ <- recv MM_HDR_MAGIC peer_handle [Recv (ping 2048 1 ++ ping 2048 2); Eagain];
            recv MM_HDR_MAGIC peer_handle [Recv (ping 32 3)]) l1_init) =
    Some [(TTYPE_L2_MISC, Some (ping 2048 1)); (TTYPE_L2_MISC, Some (ping 2048 2));
          (TTYPE_L2_MISC, Some (ping 2048 2)); (TTYPE_L2_MISC, Some (ping 32 3))] /\
  parse MM_HDR_MAGIC peer_handle (ping 2048 1 ++ ping 2048 2 ++ ping 32 3) =
    ([(TTYPE_L2_MISC, ping 2048 1); (TTYPE_L2_MISC, ping 2048 2); (TTYPE_L2_MISC, ping 32 3)], Some []).
Proof. split; by vm_compute. Qed.

(** Of two queries in one read, the second is handed over with an address in
    the buffer that was handed over, and may be freed, with the first. *)
Theorem second_query_dangling :
  let handle := madhava_handle ex_cfg ex_now false (ex_conn true HOST_NODE_WEB 0) in
  sent_of (recv NM_HDR_MAGIC handle [Recv (web_query 1 ++ web_query 2)] l1_init) =
    Some [(TTYPE_L2_DB_RD, Some (web_query 1)); (TTYPE_L2_DB_RD, None)] /\
  parse NM_HDR_MAGIC handle (web_query 1 ++ web_query 2) =
    ([(TTYPE_L2_DB_RD, web_query 1); (TTYPE_L2_DB_RD, web_query 2)], Some []).
Proof. split; by vm_compute. Qed.

(** A registration request is handed over at once and the connection is left
    without a buffer; bytes behind the request in the same read are then moved to
    a null address, while the same request alone is handed over. *)
Theorem bytes_behind_registration_fault :
  let handle := madhava_handle ex_cfg ex_now false (ex_conn false HOST_INVALID 0) in
  recv PM_HDR_MAGIC handle [Recv (pm_connect ++ [1; 2; 3])] l1_init = Fault /\
  sent_of (recv PM_HDR_MAGIC handle [Recv pm_connect] l1_init) = Some [(TTYPE_L2_MISC, Some pm_connect)].
Proof. split; by vm_compute. Qed.
End DispatchExamples.
