(* ===== verification/DnsMapping.v ===== *)
(** * DnsMapping : the domain names of addresses, from captured DNS responses
    (common/gy_dns_mapping.cc and gy_dns_mapping.h, with the string buffer
    [STR_WR_BUF] of common/gy_common_inc.h).

    A captured frame is cut down to the DNS message in it, the answers of the
    message give pairs of a domain and an address, and each pair is entered into
    a table.  Loading and saving the table and the capture itself are I/O and are
    not modelled. *)
From stdpp Require Import gmap.
From S2P Require Import Prelude Bytes NetParse JHash IpAddr.

#[local] Open Scope Z_scope.

(** ** Strings *)
Definition MAX_DOMAINNAME_SIZE : Z := 256.

(** A [STR_WR_BUF] over [MAX_DOMAINNAME_SIZE] bytes: its contents. *)
Definition maxsz_ : Z := MAX_DOMAINNAME_SIZE - 1.

Definition append (strbuf bs : list Z) : list Z :=
  if blen strbuf >=? maxsz_ then strbuf else strbuf ++ take (Z.to_nat (maxsz_ - blen strbuf)) bs.
Definition append_char (strbuf : list Z) (c : Z) : list Z :=
  if (blen strbuf >=? maxsz_) || (c =? 0) then strbuf else strbuf ++ [c].
(** [set_last_char] of a 0 character. *)
Definition truncate_last (strbuf : list Z) : list Z :=
  take (length strbuf - 1) strbuf.

(** The C string at the start of a buffer that ends with a 0 byte. *)
Fixpoint c_str (bs : list Z) : list Z :=
  match bs with [] => [] | c :: bs' => if c =? 0 then [] else c :: c_str bs' end.

(** [GY_STRNCPY] and [GY_STRNCPY_0] to an array of [len] bytes. *)
Definition strncpy (src : list Z) (len : Z) : list Z := take (Z.to_nat (len - 1)) (c_str src).

(** ** Parsing a response

    [buf] holds the captured bytes from the message on, of which the first [pend]
    are the message.  A position is an offset from its start. *)
Definition DOT : Z := 46.

(** A name in the form of labels; the result is the position behind it and the
    name, [None] where the function returns 1. *)
Fixpoint name_loop (fuel : nat) (buf : list Z) (pend ptmp : Z) (strbuf : list Z)
    : acc (option (Z * list Z)) :=
  match fuel with
  | O => Oob
  | S fuel' =>
      let! n := rd8 buf ptmp in
      let ptmp := ptmp + 1 in
      if ptmp + n >=? pend then Acc None else
      if n =? 0 then Acc (Some (ptmp, truncate_last strbuf)) else
      let! label := (if ptmp + n <=? blen buf then Acc (take (Z.to_nat n) (drop (Z.to_nat ptmp) buf)) else Oob) in
      let strbuf := append_char (append strbuf label) DOT in
      let ptmp := ptmp + n in
      if ptmp + 4 <? pend then name_loop fuel' buf pend ptmp strbuf else Acc (Some (ptmp, strbuf))
  end.

Definition read_name (buf : list Z) (pend ptmp : Z) : acc (option (Z * list Z)) :=
  if ptmp + 5 >=? pend then Acc None else
  let! r := name_loop (S (Z.to_nat pend)) buf pend ptmp [] in
  match r with
  | Some (ptmp, strbuf) => Acc (if blen strbuf =? 0 then None else Some (ptmp, strbuf))
  | None => Acc None
  end.

(** The questions: for each its offset and its name. *)
Fixpoint read_questions (n : nat) (buf : list Z) (pend ptmp : Z) : acc (option (Z * list (Z * list Z))) :=
  match n with
  | O => Acc (Some (ptmp, []))
  | S n' =>
      let! r := read_name buf pend ptmp in
      match r with
      | None => Acc None
      | Some (ptmp', name) =>
          if ptmp' + 4 >=? pend then Acc None else
          let! r := read_questions n' buf pend (ptmp' + 4) in
          match r with
          | None => Acc None
          | Some (ptmp'', qs) => Acc (Some (ptmp'', (u16 ptmp, name) :: qs))
          end
      end
  end.

(** The name a pointer stands for. *)
Definition find_name (qs : list (Z * list Z)) (tdata : Z) : option (list Z) :=
  if Nat.ltb 1 (length qs) then snd <$> find (fun q => q.1 =? tdata) qs else snd <$> head qs.

(** The name of an answer and the position behind it. *)
Definition read_answer_name (qs : list (Z * list Z)) (buf : list Z) (pend ptmp : Z)
    : acc (option (Z * list Z)) :=
  let! b := rd8 buf ptmp in
  if Z.land b 0xC0 =? 0xC0 then
    let! tdata := rd_be16 buf ptmp in
    match find_name qs (Z.land tdata 0x0FFF) with
    | Some name => Acc (Some (ptmp + 2, name))
    | None => Acc None
    end
  else read_name buf pend ptmp.

(** The data of an answer: the position behind it and the address, if it has one. *)
Definition read_rdata (nqueries : Z) (buf : list Z) (pend ptmp : Z) : acc (option (Z * option GY_IP_ADDR)) :=
  let! type := rd_be16 buf ptmp in
  let ptmp := ptmp + 8 in
  if type =? 0x1 then
    if ptmp + 2 + 4 >? pend then Acc None else
    let! rdlen := rd_be16 buf ptmp in
    if negb (rdlen =? 4) then Acc None else
    let! ip4 := rd_le 4 buf (ptmp + 2) in
    Acc (Some (ptmp + 2 + 4, Some (set_ip_v4 ip4)))
  else if type =? 0x1c then
    if ptmp + 2 + 16 >? pend then Acc None else
    let! rdlen := rd_be16 buf ptmp in
    if negb (rdlen =? 16) then Acc None else
    let! ip6 := rd_le 16 buf (ptmp + 2) in
    Acc (Some (ptmp + 2 + 16, Some (set_ip_v6 ip6)))
  else if (type =? 0x5) && (nqueries =? 1) then
    if ptmp + 2 >? pend then Acc None else
    let! rdlen := rd_be16 buf ptmp in
    Acc (Some (ptmp + 2 + rdlen, None))
  else Acc None.

(** The answers; the entries made stay when a later answer is rejected. *)
Fixpoint read_answers (n : nat) (qs : list (Z * list Z)) (nqueries : Z) (buf : list Z) (pend ptmp : Z)
    (adds : list (list Z * GY_IP_ADDR)) : acc (Z * list (list Z * GY_IP_ADDR)) :=
  match n with
  | O => Acc (0, adds)
  | S n' =>
      if ptmp + 15 >? pend then Acc (1, adds) else
      let! r := read_answer_name qs buf pend ptmp in
      match r with
      | None => Acc (1, adds)
      | Some (ptmp, name) =>
          let! r := read_rdata nqueries buf pend ptmp in
          match r with
          | None => Acc (1, adds)
          | Some (ptmp, Some addr) => read_answers n' qs nqueries buf pend ptmp (adds ++ [(c_str name, addr)])
          | Some (ptmp, None) => read_answers n' qs nqueries buf pend ptmp adds
          end
      end
  end.

(** The result is the value returned with the calls of [add_dns_entry]. *)
Definition parse_dns_response (buf : list Z) (len : Z) : acc (Z * list (list Z * GY_IP_ADDR)) :=
  if len <? 32 then Acc (1, []) else
  let! f0 := rd8 buf 2 in
  let! f1 := rd8 buf 3 in
  if (Z.land f0 0x80 =? 0) || negb (Z.land f1 0x0F =? 0) then Acc (1, []) else
  let! nqueries := rd_be16 buf 4 in
  if (nqueries =? 0) || (nqueries >? 8) then Acc (1, []) else
  let! nanswers := rd_be16 buf 6 in
  if nanswers =? 0 then Acc (1, []) else
  let nanswers := if nanswers >? 16 then 16 else nanswers in
  let! r := read_questions (Z.to_nat nqueries) buf len 12 in
  match r with
  | None => Acc (1, [])
  | Some (ptmp, qs) => read_answers (Z.to_nat nanswers) qs nqueries buf len ptmp []
  end.

(** ** From the frame to the message *)
Definition DNS_PORT : Z := 53.

(** The messages of a TCP segment, each behind its length. *)
Fixpoint tcp_messages (fuel : nat) (buf : list Z) (data_len : Z) (adds : list (list Z * GY_IP_ADDR))
    : acc (Z * list (list Z * GY_IP_ADDR)) :=
  match fuel with
  | O => Oob
  | S fuel' =>
      let! msglen := rd_be16 buf 0 in
      if msglen >? swrap 32 (swrap 32 data_len - 2) then Acc (1, adds) else
      let! r := parse_dns_response (drop 2 buf) msglen in
      let data_len := u32 (data_len - 2 - msglen) in
      if swrap 32 data_len >? 2
      then tcp_messages fuel' (drop (2 + Z.to_nat msglen) buf) data_len (adds ++ r.2)
      else Acc (r.1, adds ++ r.2)
  end.

Definition process_dns_response (pframe : list Z) (linktype : Z) : acc (Z * list (list Z * GY_IP_ADDR)) :=
  let! r := locate_transport pframe linktype in
  match r with
  | Some (ip_offset, _, Found (Some t)) =>
      let pkt := drop (Z.to_nat ip_offset) pframe in
      let caplen := blen pkt in
      if (tr_offset t >? caplen) ||
         (tr_data_len t >? 0) && ((u32 (tr_data_offset t + tr_data_len t) >? caplen) || (tr_data_offset t <? tr_offset t))
      then Acc (1, []) else
      if (tr_data_len t <? 32) || negb (tr_proto t =? IP_PROTO_UDP) && negb (tr_proto t =? IP_PROTO_TCP)
      then Acc (1, []) else
      let! source := rd_be16 pkt (tr_offset t) in
      if negb (source =? DNS_PORT) then Acc (1, []) else
      let data := drop (Z.to_nat (tr_data_offset t)) pkt in
      if tr_proto t =? IP_PROTO_UDP then parse_dns_response data (tr_data_len t)
      else tcp_messages (S (length data)) data (tr_data_len t) []
  | _ => Acc (1, [])
  end.

(** ** The table *)
Record DNS_ENTRY := DnsEntry {
  domain : list Z;
  dstaddr : GY_IP_ADDR;
  tusec_added : Z;
  tusec_access : Z;
}.

(** The elements of the hash table; a lookup finds an element with an equal
    address, which has an equal hash as well. *)
Abbreviation dnstable := (list DNS_ENTRY).

Definition lookup_single_elem (t : dnstable) (addr : GY_IP_ADDR) : option DNS_ENTRY :=
  find (fun e => ip_eq (dstaddr e) addr) t.
Definition update_elem (t : dnstable) (addr : GY_IP_ADDR) (f : DNS_ENTRY -> DNS_ENTRY) : dnstable :=
  (fun e => if ip_eq (dstaddr e) addr then f e else e) <$> t.

Definition add_dns_entry (tusec : Z) (pdomain : list Z) (addr : GY_IP_ADDR) (t : dnstable) : Z * dnstable :=
  match lookup_single_elem t addr with
  | Some _ =>
      (1, update_elem t addr (fun e =>
        DnsEntry (if bool_decide (c_str (domain e) = c_str pdomain) then domain e
                  else strncpy pdomain MAX_DOMAINNAME_SIZE) (dstaddr e) (tusec_added e) tusec))
  | None => (0, t ++ [DnsEntry (strncpy pdomain MAX_DOMAINNAME_SIZE) addr tusec tusec])
  end.

Definition add_dns_entries (tusec : Z) (adds : list (list Z * GY_IP_ADDR)) (t : dnstable) : dnstable :=
  fold_left (fun t p => (add_dns_entry tusec p.1 p.2 t).2) adds t.

Definition get_domain_from_ip (addr : GY_IP_ADDR) (maxsz tusec : Z) (t : dnstable) : option (list Z) * dnstable :=
  match lookup_single_elem t addr with
  | Some e => (Some (strncpy (domain e) maxsz),
      update_elem t addr (fun e => DnsEntry (domain e) (dstaddr e) (tusec_added e) tusec))
  | None => (None, t)
  end.

Definition GY_USEC_PER_MINUTE : Z := 60 * 1000000.
Definition GY_USEC_PER_HOUR : Z := 60 * GY_USEC_PER_MINUTE.

(** [approx] is the estimate of the number of elements the table gives, which is
    replaced by their number when the last count is more than 30 seconds old. *)
Definition check_for_deletion (approx tlast_check tcur tusec : Z) (t : dnstable) : Z * dnstable :=
  let slow := tcur - tlast_check >? 30 in
  let approxcount := if slow then Z.of_nat (length t) else approx in
  let tlast_check := if slow then tcur else tlast_check in
  if approxcount <? 1000 then (tlast_check, t) else
  let '(tmin_access, tmin_added) :=
    if approxcount <? 3000 then (u64 (tusec - 1 * GY_USEC_PER_HOUR), u64 (tusec - 12 * GY_USEC_PER_HOUR))
    else (u64 (tusec - 30 * GY_USEC_PER_MINUTE), u64 (tusec - 60 * GY_USEC_PER_MINUTE)) in
  (tlast_check, filter (fun e => ~ (tusec_access e < tmin_access /\ tusec_added e < tmin_added)) t).

(** ** Bounds *)
Definition name_ok (bs : list Z) : Prop := bytes_wf bs /\ blen bs <= maxsz_.

Lemma append_ok strbuf bs : name_ok strbuf -> bytes_wf bs -> name_ok (append strbuf bs).
Proof.
  intros [Hw Hl] Hb. unfold append. case_if; [done|]. breflect.
  split; [apply Forall_app; split; [done|by apply Forall_take]|].
  unfold blen in *. rewrite length_app, length_take. lia.
Qed.

Lemma append_char_ok strbuf c : name_ok strbuf -> in_width 8 c -> name_ok (append_char strbuf c).
Proof.
  intros [Hw Hl] Hc. unfold append_char. case_if; [done|]. breflect.
  split; [apply Forall_app; split; [done|constructor; [done|constructor]]|].
  unfold blen in *. rewrite length_app. cbn [length]. lia.
Qed.

Lemma truncate_last_ok strbuf : name_ok strbuf -> name_ok (truncate_last strbuf).
Proof.
  intros [Hw Hl]. split; [by apply Forall_take|]. unfold truncate_last, blen in *. rewrite length_take. lia.
Qed.

(** A C string of at most the size of the arrays. *)
Definition domain_ok (bs : list Z) : Prop := Forall (fun c => c <> 0) bs /\ blen bs <= maxsz_.

Lemma c_str_nonzero bs : Forall (fun c => c <> 0) (c_str bs).
Proof. induction bs as [|c bs IH]; cbn [c_str]; [constructor|]. case_if; [constructor|]. breflect. by constructor. Qed.

Lemma c_str_length bs : (length (c_str bs) <= length bs)%nat.
Proof. induction bs as [|c bs IH]; cbn [c_str]; [done|]. case_if; cbn [length]; lia. Qed.

Lemma c_str_id bs : Forall (fun c => c <> 0) bs -> c_str bs = bs.
Proof.
  induction 1 as [|c bs Hc _ IH]; cbn [c_str]; [done|]. by rewrite (proj2 (Z.eqb_neq _ _)), IH by done.
Qed.

Lemma c_str_domain bs : name_ok bs -> domain_ok (c_str bs).
Proof. intros [_ Hl]. split; [apply c_str_nonzero|]. pose proof (c_str_length bs). unfold blen in *. lia. Qed.

Section Bounds.
Context (buf : list Z) (pend : Z) (Hwf : bytes_wf buf).

Lemma name_loop_sat fuel : pend <= blen buf -> forall ptmp strbuf, name_ok strbuf ->
  0 <= ptmp < pend -> pend - ptmp < Z.of_nat fuel ->
  sat (fun r => match r with Some (p, name) => ptmp < p < pend /\ name_ok name | None => True end)
    (name_loop fuel buf pend ptmp strbuf).
Proof.
  intros Hlen. induction fuel as [|fuel IH]; intros ptmp strbuf Hs Hp Hf; [lia|]. cbn [name_loop].
  apply sat_bind. eapply sat_mono; [|apply rd8_sat; [done|lia]]. intros n Hn. unfold in_width in Hn.
  case_if; [done|]. breflect. case_if; [breflect; split; [lia|by apply truncate_last_ok]|]. breflect.
  rewrite (proj2 (Z.leb_le _ _)) by lia. cbn [acc_bind].
  assert (name_ok (append_char (append strbuf (take (Z.to_nat n) (drop (Z.to_nat (ptmp + 1)) buf))) DOT)) as Hs'.
  { apply append_char_ok; [|by vm_compute]. apply append_ok; [done|by apply Forall_take, Forall_drop]. }
  case_if; breflect.
  - eapply sat_mono; [|apply IH; [done|lia|lia]]. intros [[p name]|]; [|done]. intros [? ?]. split; [lia|done].
  - split; [lia|done].
Qed.

Lemma read_name_sat ptmp : pend <= blen buf -> 0 <= ptmp ->
  sat (fun r => match r with Some (p, name) => ptmp < p < pend /\ name_ok name | None => True end)
    (read_name buf pend ptmp).
Proof.
  intros Hlen Hp. unfold read_name. case_if; [done|]. breflect. apply sat_bind.
  eapply sat_mono; [|apply name_loop_sat; [done|split; [constructor|by vm_compute]|lia|lia]].
  intros [[p name]|]; [|done]. intros [? ?]. by case_if.
Qed.

Lemma read_questions_sat n : pend <= blen buf -> forall ptmp, 0 <= ptmp ->
  sat (fun r => match r with
    | Some (p, qs) => ptmp <= p /\ length qs = n /\ Forall (fun q => name_ok q.2) qs
    | None => True end) (read_questions n buf pend ptmp).
Proof.
  intros Hlen. induction n as [|n IH]; intros ptmp Hp; cbn [read_questions]; [by repeat split; [lia|constructor]|].
  apply sat_bind. eapply sat_mono; [|by apply read_name_sat]. intros [[p name]|]; [|done]. intros [Hp' Hn].
  case_if; [done|]. apply sat_bind. eapply sat_mono; [|apply IH; lia].
  intros [[p' qs]|]; [|done]. cbn. intros (? & ? & ?). split_and!; [lia|lia|by constructor].
Qed.

(** A pointer that names no question is the only failure. *)
Lemma find_name_ok qs tdata name : Forall (fun q => name_ok q.2) qs -> find_name qs tdata = Some name -> name_ok name.
Proof.
  intros Hq H. unfold find_name in H. case_if_in H; apply fmap_Some in H as (q & H & ->).
  - apply List.find_some in H as [Hin _]. rewrite list.Forall_forall in Hq. by apply Hq, list_elem_of_In.
  - apply head_Some_elem_of in H. rewrite list.Forall_forall in Hq. by apply Hq.
Qed.

Lemma read_answer_name_sat qs ptmp : pend <= blen buf -> Forall (fun q => name_ok q.2) qs ->
  0 <= ptmp -> ptmp + 15 <= pend ->
  sat (fun r => match r with Some (p, name) => ptmp < p < pend /\ name_ok name | None => True end)
    (read_answer_name qs buf pend ptmp).
Proof.
  intros Hlen Hq Hp Hp15. unfold read_answer_name. apply sat_bind.
  eapply sat_mono; [|apply rd8_sat; [done|lia]]. intros b _. case_if; [|by apply read_name_sat].
  apply sat_bind. eapply sat_mono; [|apply rd_be16_sat; [done|lia|lia]]. intros tdata _.
  destruct (find_name qs (Z.land tdata 0x0FFF)) as [name|] eqn:E; [|done]. split; [lia|]. by eapply find_name_ok.
Qed.

(** The type of an answer is read without a test that it is inside the message. *)
Lemma read_rdata_sat nqueries ptmp : pend < blen buf -> 0 <= ptmp < pend ->
  sat (fun r => match r with
    | Some (p, a) => ptmp < p /\ match a with Some addr => ip_wf addr | None => True end
    | None => True end) (read_rdata nqueries buf pend ptmp).
Proof.
  intros Hlen Hp. unfold read_rdata. apply sat_bind.
  eapply sat_mono; [|apply rd_be16_sat; [done|lia|lia]]. intros type _. cbv zeta.
  case_if; [|case_if; [|case_if; [|done]]]; (case_if; [done|]); breflect; apply sat_bind;
    (eapply sat_mono; [|apply rd_be16_sat; [done|lia|lia]]); intros rdlen Hr; unfold in_width in Hr.
  - case_if; [done|]. apply sat_bind. eapply sat_mono; [|apply (rd_le_sat 4); [done|lia|lia]].
    intros ip Hip. split; [lia|]. by apply ip_wf_v4.
  - case_if; [done|]. apply sat_bind. eapply sat_mono; [|apply (rd_le_sat 16); [done|lia|lia]].
    intros ip Hip. split; [lia|]. by apply ip_wf_v6.
  - cbn. split; [lia|done].
Qed.

Definition adds_ok (adds : list (list Z * GY_IP_ADDR)) : Prop :=
  Forall (fun p => domain_ok p.1 /\ ip_wf p.2) adds.

Lemma read_answers_sat n qs nqueries : pend < blen buf -> Forall (fun q => name_ok q.2) qs ->
  forall ptmp adds, 0 <= ptmp -> adds_ok adds ->
  sat (fun r => (r.1 = 0 \/ r.1 = 1) /\ adds_ok r.2 /\ (length r.2 <= length adds + n)%nat)
    (read_answers n qs nqueries buf pend ptmp adds).
Proof.
  intros Hlen Hq. induction n as [|n IH]; intros ptmp adds Hp Ha; cbn [read_answers].
  { split; [by left|]. split; [done|cbn; lia]. }
  case_if; [split; [by right|split; [done|cbn; lia]]|]. breflect. apply sat_bind.
  eapply sat_mono; [|apply read_answer_name_sat; [lia|done|done|lia]].
  intros [[p name]|]; [intros [Hp' Hn]|intros _; split; [by right|split; [done|cbn; lia]]].
  apply sat_bind. eapply sat_mono; [|apply read_rdata_sat; [done|lia]].
  intros [[p' [addr|]]|]; [intros [? Hw]|intros [? _]|intros _; split; [by right|split; [done|cbn; lia]]].
  - eapply sat_mono; [|apply IH; [lia|apply Forall_app; split; [done|constructor; [split; [|done]|constructor]]]].
    + intros r (? & ? & ?). rewrite length_app in *. cbn [length] in *. split_and!; auto. lia.
    + by apply c_str_domain.
  - eapply sat_mono; [|apply IH; [lia|done]]. intros r (? & ? & ?). split_and!; auto. lia.
Qed.
End Bounds.

(** C10 : parsing any DNS response ends, returns 0 or 1, reads at most one byte
    behind the message, and enters at most 16 pairs, each of a domain that is a C
    string that fits its array and a well-formed address. *)
Theorem parse_dns_bounded buf len : bytes_wf buf -> len < blen buf ->
  exists ret adds, parse_dns_response buf len = Acc (ret, adds) /\ (ret = 0 \/ ret = 1) /\
    (length adds <= 16)%nat /\ adds_ok adds.
Proof.
  intros Hwf Hlen. enough (sat (fun r => (r.1 = 0 \/ r.1 = 1) /\ adds_ok r.2 /\ (length r.2 <= 16)%nat)
    (parse_dns_response buf len)) as H.
  { apply sat_Acc in H as ([ret adds] & -> & ? & ? & ?). by exists ret, adds. }
  assert (sat (fun r : Z * list (list Z * GY_IP_ADDR) => (r.1 = 0 \/ r.1 = 1) /\ adds_ok r.2 /\
    (length r.2 <= 16)%nat) (Acc (1, []))) as Hrej by (split; [by right|split; [constructor|cbn; lia]]).
  unfold parse_dns_response. case_if; [done|]. breflect.
  do 2 (apply sat_bind; eapply sat_mono; [|apply rd8_sat; [done|lia]]; intros ? _). case_if; [done|].
  apply sat_bind; eapply sat_mono; [|apply rd_be16_sat; [done|lia|lia]]; intros nq _. case_if; [done|].
  apply sat_bind; eapply sat_mono; [|apply rd_be16_sat; [done|lia|lia]]; intros na Hna. case_if; [done|].
  apply sat_bind. eapply sat_mono; [|apply read_questions_sat; [done|lia|lia]].
  intros [[p qs]|]; [intros (? & _ & Hq)|done].
  eapply sat_mono; [|apply read_answers_sat; [done|done|done|lia|constructor]].
  intros r (? & ? & Hl). split_and!; auto. cbn [length] in Hl. unfold in_width in Hna.
  assert ((if na >? 16 then 16 else na) <= 16) by (case_if; breflect; lia). lia.
Qed.

(** ** Responses as a server sends them

    One question, whose name is given by its labels, and answers that refer to it
    by a pointer: addresses and canonical names. *)
Inductive answer := RecA (ip : Z) | RecAAAA (ip : Z) | RecCNAME (rdata : list Z).

Definition be16 (v : Z) : list Z := [v / 256; v mod 256].
Definition enc_label (l : list Z) : list Z := Z.of_nat (length l) :: l.
Definition enc_name (labels : list (list Z)) : list Z := concat (enc_label <$> labels) ++ [0].
Definition rec_type (a : answer) : Z := match a with RecA _ => 1 | RecAAAA _ => 0x1c | RecCNAME _ => 5 end.
Definition rec_data (a : answer) : list Z :=
  match a with RecA ip => le_bytes 4 ip | RecAAAA ip => le_bytes 16 ip | RecCNAME d => d end.
(** [class_ttl] is the class and the time to live of the record. *)
Definition enc_answer (class_ttl : list Z) (a : answer) : list Z :=
  [0xC0; 12] ++ be16 (rec_type a) ++ class_ttl ++ be16 (blen (rec_data a)) ++ rec_data a.
Definition enc_response (id flags counts qtype class_ttl : list Z) (labels : list (list Z))
    (answers : list answer) (rest : list Z) : list Z :=
  id ++ flags ++ be16 1 ++ be16 (Z.of_nat (length answers)) ++ counts ++
  enc_name labels ++ qtype ++ concat (enc_answer class_ttl <$> answers) ++ rest.

(** The name as text. *)
Definition dotted (labels : list (list Z)) : list Z := concat ((fun l => l ++ [DOT]) <$> labels).
Definition text (labels : list (list Z)) : list Z := truncate_last (dotted labels).

Definition label_ok (l : list Z) : Prop :=
  (0 < length l <= 63)%nat /\ Forall (fun c => c <> 0) l.
Definition answer_ok (a : answer) : Prop :=
  match a with
  | RecA ip => in_width 32 ip
  | RecAAAA ip => in_width 128 ip
  | RecCNAME d => 3 <= blen d < 65536
  end.

Definition entry_of (name : list Z) (a : answer) : option (list Z * GY_IP_ADDR) :=
  match a with
  | RecA ip => Some (name, set_ip_v4 ip)
  | RecAAAA ip => Some (name, set_ip_v6 ip)
  | RecCNAME _ => None
  end.

(** *** Reading behind a prefix *)
Create Rewrite HintDb blen.
Lemma blen_app a b : blen (a ++ b) = blen a + blen b.
Proof. unfold blen. rewrite length_app. lia. Qed.
Lemma blen_cons x a : blen (x :: a) = 1 + blen a.
Proof. unfold blen. cbn [length]. lia. Qed.
Lemma blen_nil : blen [] = 0.
Proof. done. Qed.
Lemma blen_be16 v : blen (be16 v) = 2.
Proof. done. Qed.
Lemma blen_le_bytes n v : blen (le_bytes n v) = Z.of_nat n.
Proof. unfold blen. by rewrite length_le_bytes. Qed.
#[local] Hint Rewrite blen_app blen_cons blen_nil blen_be16 blen_le_bytes : blen.
Lemma blen_nonneg a : 0 <= blen a.
Proof. unfold blen. lia. Qed.

Lemma rd_be16_app_r a b o : 0 <= o -> rd_be16 (a ++ b) (blen a + o) = rd_be16 b o.
Proof. intros Ho. unfold rd_be16. rewrite <- Z.add_assoc, !rd8_app_r by lia. done. Qed.

Lemma rd8_at a b : rd8 (a ++ b) (blen a) = rd8 b 0.
Proof. rewrite <- (Z.add_0_r (blen a)). by apply rd8_app_r. Qed.
Lemma rd_be16_at a b : rd_be16 (a ++ b) (blen a) = rd_be16 b 0.
Proof. rewrite <- (Z.add_0_r (blen a)). by apply rd_be16_app_r. Qed.

Lemma rd_be16_be16 v pre rest off : off = blen pre -> in_width 16 v ->
  rd_be16 (pre ++ be16 v ++ rest) off = Acc v.
Proof.
  intros -> Hv. rewrite rd_be16_at.
  unfold rd_be16, be16. cbn [app]. change (rd8 (v / 256 :: v mod 256 :: rest) 0) with (Acc (v / 256)).
  change (rd8 (v / 256 :: v mod 256 :: rest) (0 + 1)) with (Acc (v mod 256)). cbn [acc_bind].
  unfold in_width in Hv. f_equal. rewrite lor_shiftl_add by (try apply Z.mod_pos_bound; try apply Z.div_pos; lia).
  rewrite (Z.div_mod v 256) at 3 by lia. lia.
Qed.

Section RoundTrip.
Context (pend : Z).

Lemma dotted_cons l labels : dotted (l :: labels) = l ++ DOT :: dotted labels.
Proof. unfold dotted. cbn. by rewrite <- app_assoc. Qed.

Lemma append_label strbuf l : blen strbuf + blen l + 1 <= maxsz_ ->
  append_char (append strbuf l) DOT = strbuf ++ l ++ [DOT].
Proof.
  intros Hl. pose proof (blen_nonneg l). unfold append. rewrite Z.geb_leb, (proj2 (Z.leb_gt _ _)) by lia.
  rewrite take_ge by (unfold blen in *; lia). unfold append_char. rewrite blen_app.
  rewrite Z.geb_leb, (proj2 (Z.leb_gt _ _)) by lia. by rewrite <- app_assoc.
Qed.

(** The labels of a name, with enough bytes behind them. *)
Lemma name_loop_enc fuel : forall labels pre post strbuf, Forall label_ok labels ->
  blen strbuf + blen (dotted labels) <= maxsz_ -> (length labels < fuel)%nat ->
  blen pre + blen (enc_name labels) + 5 <= pend ->
  name_loop fuel (pre ++ enc_name labels ++ post) pend (blen pre) strbuf =
    Acc (Some (blen pre + blen (enc_name labels), truncate_last (strbuf ++ dotted labels))).
Proof.
  induction fuel as [|fuel IH]; intros labels pre post strbuf Hok Hsz Hf Hpend; [lia|]. cbn [name_loop].
  rewrite rd8_at.
  destruct labels as [|l labels].
  { change (rd8 (enc_name [] ++ post) 0) with (Acc 0). cbn [acc_bind]. change (blen (enc_name [])) with 1 in *.
    rewrite Z.geb_leb, (proj2 (Z.leb_gt _ _)) by lia. cbn [Z.eqb]. by rewrite app_nil_r. }
  apply list.Forall_cons in Hok as [[Hl Hnz] Hok].
  assert (enc_name (l :: labels) = Z.of_nat (length l) :: l ++ enc_name labels) as E
    by (unfold enc_name, enc_label; cbn; by rewrite <- app_assoc).
  rewrite E in *. rewrite dotted_cons in *. autorewrite with blen in *.
  pose proof (blen_nonneg (enc_name labels)). cbn [app].
  change (rd8 (Z.of_nat (length l) :: (l ++ enc_name labels) ++ post) 0) with (Acc (Z.of_nat (length l))).
  cbn [acc_bind]. fold (blen l). rewrite Z.geb_leb, (proj2 (Z.leb_gt _ _)) by lia.
  rewrite (proj2 (Z.eqb_neq (blen l) 0)) by (unfold blen; lia).
  rewrite (proj2 (Z.leb_le _ _)) by (pose proof (blen_nonneg post); lia).
  cbn [acc_bind].
  replace (pre ++ blen l :: (l ++ enc_name labels) ++ post)
    with ((pre ++ [blen l]) ++ l ++ enc_name labels ++ post) by (rewrite <- !app_assoc; done).
  replace (take (Z.to_nat (blen l)) _) with l.
  2: { rewrite drop_app_length' by (unfold blen; rewrite length_app; cbn [length]; lia).
       by rewrite take_app_length' by (unfold blen; lia). }
  rewrite append_label by (pose proof (blen_nonneg (dotted labels)); lia).
  rewrite (proj2 (Z.ltb_lt _ _)) by (assert (1 <= blen (enc_name labels)) by (unfold enc_name; rewrite blen_app; pose proof (blen_nonneg (concat (enc_label <$> labels))); change (blen [0]) with 1; lia); lia).
  replace ((pre ++ [blen l]) ++ l ++ enc_name labels ++ post)
    with ((pre ++ [blen l] ++ l) ++ enc_name labels ++ post) by (rewrite <- !app_assoc; done).
  replace (blen pre + 1 + blen l) with (blen (pre ++ [blen l] ++ l))
    by (rewrite !blen_app; change (blen [blen l]) with 1; lia).
  rewrite IH; [|done|rewrite !blen_app; change (blen [DOT]) with 1; lia|cbn [length] in Hf; lia|
    rewrite !blen_app; change (blen [blen l]) with 1; lia].
  do 3 f_equal; [rewrite !blen_app; change (blen [blen l]) with 1; lia|].
  by rewrite <- !app_assoc.
Qed.

Context (class_ttl : list Z) (Hct : length class_ttl = 6%nat) (off : Z) (name : list Z).

Lemma blen_answer a : blen (enc_answer class_ttl a) = 12 + blen (rec_data a).
Proof. unfold enc_answer, be16. autorewrite with blen. change (blen []) with 0. unfold blen in *. rewrite Hct. lia. Qed.

Lemma rec_data_size a : answer_ok a -> 3 <= blen (rec_data a) < 65536.
Proof. destruct a; cbn; [done..|]. tauto. Qed.

(** One answer behind a prefix. *)
Lemma read_answer_name_enc pre a post : 0 <= pend ->
  read_answer_name [(off, name)] (pre ++ enc_answer class_ttl a ++ post) pend (blen pre) =
  Acc (Some (blen pre + 2, name)).
Proof.
  intros _. unfold read_answer_name. by rewrite rd8_at, rd_be16_at.
Qed.

Lemma read_rdata_enc pre a post : answer_ok a ->
  blen pre + blen (enc_answer class_ttl a) <= pend ->
  read_rdata 1 (pre ++ enc_answer class_ttl a ++ post) pend (blen pre + 2) =
  Acc (Some (blen pre + blen (enc_answer class_ttl a),
    match a with RecA ip => Some (set_ip_v4 ip) | RecAAAA ip => Some (set_ip_v6 ip) | RecCNAME _ => None end)).
Proof.
  intros Ha Hpend. pose proof (rec_data_size a Ha) as Hsz. pose proof (blen_answer a) as Hlen.
  rewrite Hlen in *. assert (blen class_ttl = 6) as Hc by (unfold blen; lia).
  assert (pre ++ enc_answer class_ttl a ++ post =
    (pre ++ [0xC0; 12]) ++ be16 (rec_type a) ++ class_ttl ++ be16 (blen (rec_data a)) ++ rec_data a ++ post) as E1
    by (unfold enc_answer; rewrite <- !app_assoc; done).
  assert (pre ++ enc_answer class_ttl a ++ post =
    (pre ++ [0xC0; 12] ++ be16 (rec_type a) ++ class_ttl) ++ be16 (blen (rec_data a)) ++ rec_data a ++ post) as E2
    by (unfold enc_answer; rewrite <- !app_assoc; done).
  assert (pre ++ enc_answer class_ttl a ++ post =
    (pre ++ [0xC0; 12] ++ be16 (rec_type a) ++ class_ttl ++ be16 (blen (rec_data a))) ++ rec_data a ++ post) as E3
    by (unfold enc_answer; rewrite <- !app_assoc; done).
  assert (rd_be16 (pre ++ enc_answer class_ttl a ++ post) (blen pre + 2) = Acc (rec_type a)) as R1.
  { rewrite E1. apply rd_be16_be16; [by autorewrite with blen|by destruct a]. }
  assert (rd_be16 (pre ++ enc_answer class_ttl a ++ post) (blen pre + 2 + 8) = Acc (blen (rec_data a))) as R2.
  { rewrite E2. apply rd_be16_be16; [|unfold in_width; lia]. autorewrite with blen. rewrite Hc. lia. }
  unfold read_rdata. rewrite R1. cbn [acc_bind]. cbv zeta.
  destruct a as [ip|ip|d]; cbn [rec_type rec_data] in *; cbn [Z.eqb Pos.eqb andb];
    rewrite ?blen_le_bytes in *; rewrite Z.gtb_ltb, (proj2 (Z.ltb_ge _ _)), R2 by lia; cbn [acc_bind].
  - rewrite E3, rd_le_mid; [| |done].
    + cbn [acc_bind negb]. do 3 f_equal. lia.
    + autorewrite with blen. rewrite Hc. lia.
  - rewrite E3, rd_le_mid; [| |done].
    + cbn [acc_bind negb]. do 3 f_equal. lia.
    + autorewrite with blen. rewrite Hc. lia.
  - do 3 f_equal. lia.
Qed.

Lemma read_answers_enc n : forall answers pre post adds, Forall answer_ok answers -> (n <= length answers)%nat ->
  blen pre + blen (concat (enc_answer class_ttl <$> answers)) <= pend ->
  read_answers n [(off, name)] 1 (pre ++ concat (enc_answer class_ttl <$> answers) ++ post) pend (blen pre) adds =
  Acc (0, adds ++ omap (entry_of (c_str name)) (take n answers)).
Proof.
  induction n as [|n IH]; intros answers pre post adds Hok Hn Hpend; cbn [read_answers].
  { by rewrite app_nil_r. }
  destruct answers as [|a answers]; [cbn in Hn; lia|]. apply list.Forall_cons in Hok as [Ha Hok].
  cbn [fmap list_fmap concat] in *. rewrite blen_app in Hpend. rewrite <- app_assoc.
  pose proof (blen_answer a). pose proof (rec_data_size a Ha). pose proof (blen_nonneg pre).
  pose proof (blen_nonneg (concat (enc_answer class_ttl <$> answers))).
  rewrite Z.gtb_ltb, (proj2 (Z.ltb_ge _ _)) by lia.
  rewrite read_answer_name_enc by lia. cbn [acc_bind]. rewrite read_rdata_enc by (done || lia). cbn [acc_bind].
  rewrite !(app_assoc pre). rewrite <- blen_app.
  assert (blen (pre ++ enc_answer class_ttl a) + blen (concat (enc_answer class_ttl <$> answers)) <= pend) as Hp'
    by (rewrite blen_app; lia).
  cbn [length] in Hn.
  destruct a; rewrite IH by (done || lia); cbn [take omap list_omap entry_of]; rewrite <- ?app_assoc; done.
Qed.
End RoundTrip.

(** *** Sizes of the parts *)
Lemma enc_name_size labels : labels <> [] -> Forall label_ok labels -> 3 <= blen (enc_name labels).
Proof.
  intros Hne Hok. destruct labels as [|l labels]; [done|]. apply list.Forall_cons in Hok as [[Hl _] _].
  unfold enc_name, enc_label. cbn [fmap list_fmap concat]. autorewrite with blen.
  pose proof (blen_nonneg (concat ((fun l => Z.of_nat (length l) :: l) <$> labels))). unfold blen in *. lia.
Qed.

Lemma enc_name_labels labels : (length labels <= length (enc_name labels))%nat.
Proof.
  unfold enc_name. rewrite length_app. induction labels as [|l labels IH]; cbn in *; [lia|]. rewrite length_app. lia.
Qed.

Lemma enc_answers_size class_ttl answers : length class_ttl = 6%nat -> answers <> [] -> Forall answer_ok answers ->
  15 <= blen (concat (enc_answer class_ttl <$> answers)).
Proof.
  intros Hct Hne Hok. destruct answers as [|a answers]; [done|]. apply list.Forall_cons in Hok as [Ha _].
  cbn [fmap list_fmap concat]. rewrite blen_app, (blen_answer class_ttl Hct). pose proof (rec_data_size a Ha).
  pose proof (blen_nonneg (concat (enc_answer class_ttl <$> answers))). lia.
Qed.

Lemma text_size labels : labels <> [] -> Forall label_ok labels -> 0 < blen (text labels).
Proof.
  intros Hne Hok. destruct labels as [|l labels]; [done|]. apply list.Forall_cons in Hok as [[Hl _] _].
  unfold text, truncate_last. rewrite dotted_cons. unfold blen. rewrite length_take, length_app. cbn [length]. lia.
Qed.

Lemma text_c_str labels : Forall label_ok labels -> c_str (text labels) = text labels.
Proof.
  intros Hok. apply c_str_id. unfold text, truncate_last. apply Forall_take. unfold dotted.
  induction Hok as [|l ls [_ Hl] _ IH]; cbn; [constructor|].
  apply Forall_app. split; [|done]. apply Forall_app. split; [done|]. constructor; [done|constructor].
Qed.

(** The question. *)
Lemma read_questions_enc pend hdr labels qtype post : labels <> [] -> Forall label_ok labels ->
  blen (dotted labels) <= maxsz_ -> blen hdr + blen (enc_name labels) + 5 <= pend ->
  read_questions 1 (hdr ++ enc_name labels ++ qtype ++ post) pend (blen hdr) =
  Acc (Some (blen hdr + blen (enc_name labels) + 4, [(u16 (blen hdr), text labels)])).
Proof.
  intros Hne Hok Hdot Hpend. pose proof (enc_name_size labels Hne Hok). pose proof (text_size labels Hne Hok).
  pose proof (enc_name_labels labels). pose proof (blen_nonneg hdr). cbn [read_questions]. unfold read_name.
  rewrite Z.geb_leb, (proj2 (Z.leb_gt _ _)) by lia.
  rewrite name_loop_enc by (done || unfold blen in *; lia). cbn [acc_bind app]. fold (text labels).
  rewrite (proj2 (Z.eqb_neq _ 0)) by lia. by rewrite Z.geb_leb, (proj2 (Z.leb_gt _ _)) by lia.
Qed.

(** C11 : a response with one question and answers that refer to it, of addresses
    and canonical names, gives exactly the pairs of the question's name and the
    addresses of the first 16 answers, in order, whatever follows the answers in
    the message and the message in the capture. *)
Theorem parse_dns_roundtrip id flags counts qtype class_ttl labels answers rest post f0 f1 :
  length id = 2%nat -> flags = [f0; f1] -> Z.testbit f0 7 = true -> Z.land f1 15 = 0 ->
  length counts = 4%nat -> length qtype = 4%nat -> length class_ttl = 6%nat ->
  labels <> [] -> Forall label_ok labels -> blen (dotted labels) <= maxsz_ ->
  answers <> [] -> Z.of_nat (length answers) < 65536 -> Forall answer_ok answers ->
  let msg := enc_response id flags counts qtype class_ttl labels answers rest in
  parse_dns_response (msg ++ post) (blen msg) = Acc (0, omap (entry_of (text labels)) (take 16 answers)).
Proof.
  intros Hid -> Hf0 Hf1 Hcounts Hq Hct Hlab Hlok Hdot Hans Hnans Hok msg.
  assert (Z.land f0 128 <> 0) as Hb7.
  { intros E. apply (f_equal (fun z => Z.testbit z 7)) in E. rewrite Z.land_spec, Hf0 in E. done. }
  destruct id as [|i0 [|i1 [|]]]; try done. destruct counts as [|c0 [|c1 [|c2 [|c3 [|]]]]]; try done.
  set (ansb := concat (enc_answer class_ttl <$> answers)).
  set (na := Z.of_nat (length answers)). assert (0 < na < 65536) as Hna by (unfold na; destruct answers; [done|cbn [length] in *; lia]).
  set (hdr := [i0; i1; f0; f1] ++ be16 1 ++ be16 na ++ [c0; c1; c2; c3]).
  assert (msg ++ post = hdr ++ enc_name labels ++ qtype ++ ansb ++ rest ++ post) as E.
  { unfold msg, enc_response, hdr. fold na ansb. rewrite <- !app_assoc. done. }
  assert (blen hdr = 12) as Hh by done. pose proof (blen_nonneg rest) as Hr0.
  assert (blen msg = 12 + blen (enc_name labels) + 4 + blen ansb + blen rest) as Hmsg.
  { apply (f_equal blen) in E. rewrite !blen_app, Hh in E. assert (blen qtype = 4) by (unfold blen; lia). lia. }
  pose proof (enc_name_size labels Hlab Hlok) as Hn3.
  pose proof (enc_answers_size class_ttl answers Hct Hans Hok) as Ha15. fold ansb in Ha15.
  unfold parse_dns_response. rewrite (proj2 (Z.ltb_ge _ _)) by lia. rewrite E.
  change (rd8 (hdr ++ _) 2) with (Acc f0). change (rd8 (hdr ++ _) 3) with (Acc f1). cbn [acc_bind].
  rewrite (proj2 (Z.eqb_neq _ _) Hb7), Hf1. cbn [orb negb Z.eqb].
  change (rd_be16 (hdr ++ _) 4) with (Acc 1). cbn [acc_bind orb Z.eqb Z.gtb Z.compare Pos.compare Pos.compare_cont].
  assert (rd_be16 (hdr ++ enc_name labels ++ qtype ++ ansb ++ rest ++ post) 6 = Acc na) as ->.
  { unfold hdr. rewrite <- !app_assoc. rewrite (app_assoc [i0; i1; f0; f1]).
    apply rd_be16_be16; [done|]. unfold in_width. lia. }
  cbn [acc_bind]. rewrite (proj2 (Z.eqb_neq na 0)) by lia. change (Z.to_nat 1) with 1%nat.
  rewrite <- Hh, read_questions_enc by (done || lia). cbn [acc_bind].
  rewrite (app_assoc (enc_name labels)), (app_assoc hdr).
  replace (blen hdr + blen (enc_name labels) + 4) with (blen (hdr ++ enc_name labels ++ qtype))
    by (rewrite !blen_app; unfold blen; lia).
  unfold ansb in *. rewrite read_answers_enc; [|done|done| |rewrite !blen_app, Hh; unfold blen in *; lia].
  - cbn [app]. do 2 f_equal. f_equal.
    + by rewrite text_c_str.
    + case_if; breflect; [done|]. unfold na in *. rewrite Nat2Z.id. rewrite !take_ge by lia. done.
  - case_if; breflect; lia.
Qed.

(** ** The table as a map

    From the bytes that identify an address to the name, the time it was added and
    the time of the last access. *)
Abbreviation dns_map := (gmap (list Z) (list Z * Z * Z)).

Definition entry_key (e : DNS_ENTRY) : list Z := get_as_inaddr (dstaddr e).
Definition entry_val (e : DNS_ENTRY) : list Z * Z * Z := (domain e, tusec_added e, tusec_access e).
Definition abs (t : dnstable) : dns_map := list_to_map ((fun e => (entry_key e, entry_val e)) <$> t).

Inductive dns_op :=
  | AddEntry (tusec : Z) (pdomain : list Z) (addr : GY_IP_ADDR)
  | GetDomain (addr : GY_IP_ADDR) (maxsz tusec : Z)
  | CheckDeletion (approx tlast_check tcur tusec : Z).

(** The result of an operation: the domain found. *)
Definition run_op (o : dns_op) (t : dnstable) : option (list Z) * dnstable :=
  match o with
  | AddEntry tusec d a => (None, (add_dns_entry tusec d a t).2)
  | GetDomain a maxsz tusec => get_domain_from_ip a maxsz tusec t
  | CheckDeletion approx tl tc tu => (None, (check_for_deletion approx tl tc tu t).2)
  end.

Definition outdated (n tusec : Z) (v : list Z * Z * Z) : Prop :=
  if n <? 1000 then False else
  if n <? 3000 then v.2 < u64 (tusec - GY_USEC_PER_HOUR) /\ v.1.2 < u64 (tusec - 12 * GY_USEC_PER_HOUR)
  else v.2 < u64 (tusec - 30 * GY_USEC_PER_MINUTE) /\ v.1.2 < u64 (tusec - GY_USEC_PER_HOUR).
#[global] Instance outdated_dec n tusec v : Decision (outdated n tusec v).
Proof. unfold outdated. repeat case_match; apply _. Defined.

Definition spec_op (o : dns_op) (m : dns_map) : option (list Z) * dns_map :=
  match o with
  | AddEntry tusec d a =>
      let k := get_as_inaddr a in
      let added := match m !! k with Some (_, added, _) => added | None => tusec end in
      (None, <[k := (strncpy d MAX_DOMAINNAME_SIZE, added, tusec)]> m)
  | GetDomain a maxsz tusec =>
      match m !! get_as_inaddr a with
      | Some (d, added, _) => (Some (strncpy d maxsz), <[get_as_inaddr a := (d, added, tusec)]> m)
      | None => (None, m)
      end
  | CheckDeletion approx tl tc tu =>
      let n := if tc - tl >? 30 then Z.of_nat (size m) else approx in
      (None, filter (fun kv => ~ outdated n tu kv.2) m)
  end.

(** What a clean-up may remove.  The comment on the clean-up of 3000 elements or more says
    that all elements added over an hour ago are removed, the code keeps those accessed in
    the last half hour: the specification allows both. *)
Definition may_remove (n tusec : Z) (v : list Z * Z * Z) : Prop :=
  if n <? 3000 then outdated n tusec v else v.1.2 < u64 (tusec - GY_USEC_PER_HOUR).

Definition spec_step (o : dns_op) (m : dns_map) (r : option (list Z)) (m' : dns_map) : Prop :=
  match o with
  | CheckDeletion approx tl tc tu =>
      let n := if tc - tl >? 30 then Z.of_nat (size m) else approx in
      r = None /\ m' ⊆ m /\
      (forall k v, m !! k = Some v -> outdated n tu v -> m' !! k = None) /\
      (forall k v, m !! k = Some v -> m' !! k = None -> may_remove n tu v)
  | _ => spec_op o m = (r, m')
  end.

Inductive spec_runs : list dns_op -> dns_map -> list (option (list Z)) -> dns_map -> Prop :=
  | RunsNil m : spec_runs [] m [] m
  | RunsCons o ops m r m1 rs m2 : spec_step o m r m1 -> spec_runs ops m1 rs m2 -> spec_runs (o :: ops) m (r :: rs) m2.

Definition op_ok (o : dns_op) : Prop :=
  match o with AddEntry _ _ a | GetDomain a _ _ => ip_in_width a | CheckDeletion _ _ _ _ => True end.

(** No two elements for the same address, and proper names. *)
Definition table_ok (t : dnstable) : Prop :=
  NoDup (entry_key <$> t) /\ Forall (fun e => domain_ok (domain e) /\ ip_in_width (dstaddr e)) t.

Lemma strncpy_ok d n : 1 <= n <= MAX_DOMAINNAME_SIZE -> domain_ok (strncpy d n).
Proof.
  intros Hn. unfold strncpy. split; [apply Forall_take, c_str_nonzero|].
  unfold blen, maxsz_. rewrite length_take. lia.
Qed.

Lemma keys_fmap (t : dnstable) : ((fun e => (entry_key e, entry_val e)) <$> t).*1 = entry_key <$> t.
Proof. rewrite <- list_fmap_compose. done. Qed.

Lemma lookup_key t addr : Forall (fun e => domain_ok (domain e) /\ ip_in_width (dstaddr e)) t -> ip_in_width addr ->
  lookup_single_elem t addr = find (fun e => bool_decide (entry_key e = get_as_inaddr addr)) t.
Proof.
  intros Ht Ha. unfold lookup_single_elem. induction Ht as [|e t [_ He] _ IH]; cbn [find]; [done|].
  assert (ip_eq (dstaddr e) addr = bool_decide (entry_key e = get_as_inaddr addr)) as ->; [|by rewrite IH].
  pose proof (ip_eq_inaddr _ _ He Ha) as Hiff. unfold entry_key. case_bool_decide; [by apply Hiff|].
  destruct (ip_eq (dstaddr e) addr); [|done]. tauto.
Qed.

Lemma abs_lookup t k : table_ok t ->
  abs t !! k = entry_val <$> find (fun e => bool_decide (entry_key e = k)) t.
Proof.
  intros [Hnd _]. unfold abs. induction t as [|e t IH]; cbn [fmap list_fmap list_to_map foldr find fst snd]; [done|].
  apply list.NoDup_cons in Hnd as [_ Hnd]. case_bool_decide as E.
  - by rewrite E, lookup_insert_eq.
  - rewrite lookup_insert_ne by done. by apply IH.
Qed.

(** A change of the element of an address. *)
Lemma update_abs t addr f v : table_ok t -> ip_in_width addr ->
  is_Some (lookup_single_elem t addr) ->
  (forall e, e ∈ t -> entry_key e = get_as_inaddr addr -> entry_key (f e) = entry_key e /\ entry_val (f e) = v /\
     domain_ok (domain (f e)) /\ ip_in_width (dstaddr (f e))) ->
  table_ok (update_elem t addr f) /\ abs (update_elem t addr f) = <[get_as_inaddr addr := v]> (abs t).
Proof.
  intros [Hnd Hok] Ha Hs Hf.
  assert (forall e, e ∈ t -> ip_eq (dstaddr e) addr = bool_decide (entry_key e = get_as_inaddr addr)) as Heq.
  { intros e He. rewrite list.Forall_forall in Hok. destruct (Hok e He) as [_ Hw].
    pose proof (ip_eq_inaddr _ _ Hw Ha) as Hiff. unfold entry_key. case_bool_decide; [by apply Hiff|].
    destruct (ip_eq (dstaddr e) addr); [|done]. tauto. }
  rewrite lookup_key in Hs by done. unfold update_elem, table_ok, abs.
  induction t as [|e t IH]; [by destruct Hs|].
  cbn [fmap list_fmap list_to_map foldr fst snd find] in *.
  rewrite (Heq e) in * by (apply list_elem_of_here). apply list.NoDup_cons in Hnd as [Hni Hnd].
  apply list.Forall_cons in Hok as [Hoe Hok]. case_bool_decide as E.
  - destruct (Hf e) as (Hk & Hv & Hd & Hw); [apply list_elem_of_here|done|].
    assert (((fun e => if ip_eq (dstaddr e) addr then f e else e) <$> t) = t) as ->.
    { rewrite <- (list_fmap_id t) at 2. apply list_fmap_ext. intros i x Hx. apply list_elem_of_lookup_2 in Hx.
      rewrite Heq by (by apply list_elem_of_further). case_bool_decide as Ex; [|done].
      destruct Hni. rewrite E, <- Ex. by apply list_elem_of_fmap_2. }
    rewrite Hk, Hv, E. split; [|by rewrite insert_insert_eq].
    rewrite <- E. split; [by constructor|by constructor].
  - destruct IH as [[IH1 IH2] IH3]; [done|done|done|intros; apply Hf; [by apply list_elem_of_further|done]|
      intros; apply Heq; by apply list_elem_of_further|].
    split; [split; [constructor; [|done]|by constructor]|].
    + intros Hin. apply Hni. apply list_elem_of_fmap in Hin as (x & Hx & Hin).
      apply list_elem_of_fmap in Hin as (y & -> & Hy). rewrite Hx.
      case_match eqn:Ey; [|by apply list_elem_of_fmap_2].
      rewrite Heq in Ey by (by apply list_elem_of_further). apply bool_decide_eq_true in Ey.
      destruct (Hf y) as (-> & _); [by apply list_elem_of_further|done|]. by apply list_elem_of_fmap_2.
    + rewrite IH3. by rewrite insert_insert_ne by done.
Qed.

Lemma find_none_key t k : find (fun e => bool_decide (entry_key e = k)) t = None -> k ∉ entry_key <$> t.
Proof.
  intros H Hin. apply list_elem_of_fmap in Hin as (e & -> & He). apply list_elem_of_In in He.
  apply (List.find_none _ _ H) in He. by apply bool_decide_eq_false in He.
Qed.

(** The element found is the only one for its address. *)
Lemma key_unique t addr e e' : NoDup (entry_key <$> t) ->
  find (fun e => bool_decide (entry_key e = get_as_inaddr addr)) t = Some e ->
  e' ∈ t -> entry_key e' = get_as_inaddr addr -> e' = e.
Proof.
  intros Hnd H He' Hk. apply List.find_some in H as [Hin Hk']. apply bool_decide_eq_true in Hk'.
  apply list_elem_of_In, list_elem_of_lookup in Hin as [i Hi]. apply list_elem_of_lookup in He' as [j Hj].
  assert (i = j) as ->; [|by simplify_eq].
  eapply (NoDup_lookup (entry_key <$> t)); [done|by rewrite list_lookup_fmap, Hi|].
  rewrite list_lookup_fmap, Hj. cbn. congruence.
Qed.

Lemma add_refines tusec d a t : table_ok t -> ip_in_width a ->
  table_ok (run_op (AddEntry tusec d a) t).2 /\
  abs (run_op (AddEntry tusec d a) t).2 = (spec_op (AddEntry tusec d a) (abs t)).2.
Proof.
  intros Ht Ha. pose proof Ht as [Hnd Hok]. cbn [run_op spec_op snd]. unfold add_dns_entry.
  pose proof (lookup_key t a Hok Ha) as Hl. rewrite abs_lookup, <- Hl by done.
  destruct (lookup_single_elem t a) as [e|] eqn:E; cbn [fmap option_fmap option_map snd].
  - apply update_abs; [done|done|by rewrite E|]. intros e' He' Hk.
    assert (e' = e) as -> by (by eapply key_unique).
    rewrite list.Forall_forall in Hok. destruct (Hok e He') as [[Hz Hsz] Hw].
    assert ((if bool_decide (c_str (domain e) = c_str d) then domain e else strncpy d MAX_DOMAINNAME_SIZE) =
      strncpy d MAX_DOMAINNAME_SIZE) as ->.
    { case_bool_decide as Ed; [|done]. unfold strncpy. rewrite <- Ed, (c_str_id _ Hz).
      rewrite take_ge; [done|]. unfold blen, maxsz_ in Hsz. lia. }
    split_and!; [done|done|by apply strncpy_ok|done].
  - split.
    + split.
      * rewrite fmap_app. apply list.NoDup_app. split; [done|]. split; [|apply NoDup_singleton].
        intros k Hk Hin. apply list_elem_of_singleton in Hin as ->. symmetry in Hl.
        apply find_none_key in Hl. by apply Hl.
      * apply Forall_app. split; [done|]. constructor; [|constructor]. split; [by apply strncpy_ok|done].
    + unfold abs. rewrite fmap_app. cbn [fmap list_fmap]. rewrite list_to_map_snoc; [done|].
      rewrite keys_fmap. symmetry in Hl. by apply find_none_key in Hl.
Qed.

Lemma get_refines a maxsz tusec t : table_ok t -> ip_in_width a ->
  let o := GetDomain a maxsz tusec in
  table_ok (run_op o t).2 /\ abs (run_op o t).2 = (spec_op o (abs t)).2 /\ (run_op o t).1 = (spec_op o (abs t)).1.
Proof.
  intros Ht Ha. pose proof Ht as [Hnd Hok]. cbn [run_op spec_op]. unfold get_domain_from_ip.
  pose proof (lookup_key t a Hok Ha) as Hl. rewrite abs_lookup, <- Hl by done.
  destruct (lookup_single_elem t a) as [e|] eqn:E; cbn [fmap option_fmap option_map fst snd]; [|done].
  enough (table_ok (update_elem t a (fun e => DnsEntry (domain e) (dstaddr e) (tusec_added e) tusec)) /\
    abs (update_elem t a (fun e => DnsEntry (domain e) (dstaddr e) (tusec_added e) tusec)) =
    <[get_as_inaddr a := (domain e, tusec_added e, tusec)]> (abs t)) as [? ?] by done.
  apply update_abs; [done|done|by rewrite E|]. intros e' He' Hk.
  assert (e' = e) as -> by (by eapply key_unique).
  rewrite list.Forall_forall in Hok. destruct (Hok e He') as [Hd Hw]. done.
Qed.

Lemma abs_filter (P : list Z * Z * Z -> Prop) `{!forall v, Decision (P v)} t : table_ok t ->
  let t' := filter (fun e => P (entry_val e)) t in
  table_ok t' /\ abs t' = filter (fun kv => P kv.2) (abs t).
Proof.
  intros [Hnd Hok]. cbv zeta. unfold abs, table_ok. induction t as [|e t IH].
  { cbn. split; [split; constructor|]. by rewrite map_filter_empty. }
  cbn [fmap list_fmap list_to_map foldr fst snd] in *. apply list.NoDup_cons in Hnd as [Hni Hnd].
  apply list.Forall_cons in Hok as [Hoe Hok]. destruct (IH Hnd Hok) as [[IH1 IH2] IH3].
  assert ((list_to_map ((fun e => (entry_key e, entry_val e)) <$> t) : dns_map) !! entry_key e = None) as Hnone.
  { apply not_elem_of_list_to_map. by rewrite keys_fmap. }
  rewrite filter_cons. destruct (decide (P (entry_val e))) as [Hp|Hp].
  - cbn [fmap list_fmap list_to_map foldr fst snd]. rewrite IH3, map_filter_insert_True by done.
    split; [|done]. split; [|by constructor]. constructor; [|done].
    intros Hin. apply Hni. apply list_elem_of_fmap in Hin as (x & -> & Hx). apply list_elem_of_filter in Hx as [_ Hx].
    by apply list_elem_of_fmap_2.
  - rewrite IH3, map_filter_insert_False, delete_id by done. done.
Qed.

Lemma abs_size t : table_ok t -> size (abs t) = length t.
Proof.
  intros [Hnd _]. unfold abs. induction t as [|e t IH]; [apply map_size_empty|].
  cbn [fmap list_fmap list_to_map foldr fst snd length] in *. apply list.NoDup_cons in Hnd as [Hni Hnd].
  rewrite map_size_insert_None, IH; [done|done|]. apply not_elem_of_list_to_map. by rewrite keys_fmap.
Qed.

Lemma check_refines approx tl tc tu t : table_ok t ->
  let o := CheckDeletion approx tl tc tu in
  table_ok (run_op o t).2 /\ abs (run_op o t).2 = (spec_op o (abs t)).2.
Proof.
  intros Ht. cbn [run_op spec_op snd]. unfold check_for_deletion. rewrite (abs_size t Ht).
  set (n := if tc - tl >? 30 then _ else _).
  assert (forall t', t' = filter (fun e => ~ outdated n tu (entry_val e)) t ->
    table_ok t' /\ abs t' = filter (fun kv => ~ outdated n tu kv.2) (abs t)) as Hf.
  { intros t' ->. exact (@abs_filter (fun v => ~ outdated n tu v) (fun v => _) t Ht). }
  apply Hf. destruct (n <? 1000) eqn:E1; cbn [snd].
  - assert (forall e, ~ outdated n tu (entry_val e)) as Hall by (intros e; unfold outdated; rewrite E1; tauto).
    clear Ht Hf. clearbody n. induction t as [|e t IH]; [done|]. rewrite filter_cons_True by done. by f_equal.
  - destruct (n <? 3000) eqn:E2; cbn [snd]; apply list_filter_iff; intros e; unfold outdated; rewrite E1, E2;
      cbn; rewrite ?Z.mul_1_l; done.
Qed.

(** The results of a sequence of operations, and the state after it. *)
Fixpoint run_all {S : Type} (step : dns_op -> S -> option (list Z) * S) (ops : list dns_op) (s : S)
    : list (option (list Z)) * S :=
  match ops with
  | [] => ([], s)
  | o :: ops' =>
      let r := step o s in
      let rs := run_all step ops' r.2 in (r.1 :: rs.1, rs.2)
  end.

(** One operation: the one of the code is among those that the specification allows. *)
Lemma op_refines o t : op_ok o -> table_ok t ->
  table_ok (run_op o t).2 /\ spec_step o (abs t) (run_op o t).1 (abs (run_op o t).2).
Proof.
  intros Ho Ht. destruct o as [tusec d a|a maxsz tusec|approx tl tc tu]; cbn [op_ok] in Ho; unfold spec_step.
  - destruct (add_refines tusec d a t Ht Ho) as [H1 H2]. split; [done|]. by rewrite H2.
  - destruct (get_refines a maxsz tusec t Ht Ho) as (H1 & H2 & H3). split; [done|]. rewrite H2, H3. by destruct (spec_op _ _).
  - destruct (check_refines approx tl tc tu t Ht) as [H1 H2]. split; [done|]. rewrite H2. cbn [spec_op snd].
    split_and!; [done|apply map_filter_subseteq|..]; intros k v Hk.
    + intros Hout. apply map_lookup_filter_None. right. intros v' Hv'. rewrite Hk in Hv'. injection Hv' as <-. cbn. tauto.
    + intros [Hn|Hn]%map_lookup_filter_None; [congruence|]. specialize (Hn v Hk). cbn in Hn. apply dec_stable in Hn.
      unfold may_remove. unfold outdated in *. repeat case_match; tauto.
Qed.

(** C9 : the table of the names implements a map from addresses to names, with the
    times of adding and of the last access, for every sequence of additions,
    lookups and clean-ups: it never has two elements for the same address, a name
    added is found until a clean-up removes it or another name replaces it.  A
    clean-up removes nothing below 1000 elements; below 3000 exactly the elements added
    over 12 hours ago and not accessed in the last hour; otherwise only elements added
    over an hour ago, and all of these that were not accessed in the last half hour
    (what becomes of the ones accessed since then is left open). *)
Theorem dns_table_refines ops t : Forall op_ok ops -> table_ok t ->
  table_ok (run_all run_op ops t).2 /\
  spec_runs ops (abs t) (run_all run_op ops t).1 (abs (run_all run_op ops t).2).
Proof.
  intros Hops. revert t. induction Hops as [|o ops Ho _ IH]; intros t Ht; [by split; [|constructor]|]. cbn.
  destruct (op_refines o t Ho Ht) as [H1 H2]. destruct (IH _ H1) as [H3 H4]. split; [done|]. by econstructor.
Qed.

(** ** Concrete responses *)
Module DnsExamples.

Definition ex_labels : list (list Z) := [[119; 119; 119]; [103; 121]; [105; 111]].
Definition ex_resp : list Z :=
  enc_response [1; 2] [0x81; 0x80] [0; 0; 0; 0] [0; 1; 0; 1] [0; 1; 0; 0; 0; 60] ex_labels
    [RecCNAME [3; 97; 98; 99; 0]; RecA 0x0100007F; RecAAAA 1] [].

Lemma parse_dns_bounded_witness : exists ret adds,
  parse_dns_response (ex_resp ++ [0]) (blen ex_resp) = Acc (ret, adds) /\ (length adds <= 16)%nat.
Proof.
  destruct (parse_dns_bounded (ex_resp ++ [0]) (blen ex_resp)) as (ret & adds & H & _ & Hl & _).
  - apply bytes_wf_dec. by vm_compute.
  - by vm_compute.
  - by exists ret, adds.
Defined.

Lemma parse_dns_roundtrip_witness :
  parse_dns_response (ex_resp ++ []) (blen ex_resp) =
    Acc (0, [([119; 119; 119; 46; 103; 121; 46; 105; 111], set_ip_v4 0x0100007F);
             ([119; 119; 119; 46; 103; 121; 46; 105; 111], set_ip_v6 1)]).
Proof.
  refine (parse_dns_roundtrip [1; 2] [0x81; 0x80] [0; 0; 0; 0] [0; 1; 0; 1] [0; 1; 0; 0; 0; 60] ex_labels
    [RecCNAME [3; 97; 98; 99; 0]; RecA 0x0100007F; RecAAAA 1] [] [] 0x81 0x80 _ _ _ _ _ _ _ _ _ _ _ _ _);
    first [done | repeat (apply list.Forall_cons; split); try apply list.Forall_nil_2;
      first [by vm_compute | split; [cbn; lia | by repeat (apply list.Forall_cons; split)]]].
Defined.

Definition ex_ops : list dns_op :=
  [AddEntry 5 [97] (set_ip_v4 1); AddEntry 6 [98] (set_ip_v4 1); GetDomain (set_ip_v4 1) 256 7].

Lemma dns_table_refines_witness : exists m,
  (run_all run_op ex_ops []).1 = [None; None; Some [98]] /\ spec_runs ex_ops ∅ [None; None; Some [98]] m.
Proof.
  eexists. split; [by vm_compute|].
  exact (proj2 (dns_table_refines ex_ops [] ltac:(repeat constructor; by vm_compute) ltac:(split; constructor))).
Defined.

(** A response that ends one byte behind the name of an answer makes the
    parser read the type of the answer across the end of the message. *)
Theorem answer_type_read_behind_end :
  let msg := [1; 2; 0x81; 0x80; 0; 1; 0; 1; 0; 0; 0; 0; 1; 97; 0; 0; 1; 0; 1] ++
             13 :: replicate 13 98 ++ [0] in
  parse_dns_response msg (blen msg) = Oob.
Proof. by vm_compute. Qed.

(** For a TCP segment of port 53 without data, whose IP header gives a total
    length below that of the headers, the length of the data wraps around and
    passes the tests, and two bytes behind the captured packet are read. *)
Theorem tcp_segment_read_behind_end :
  let ip := [0x45; 0; 0; 20; 0; 0; 0; 0; 64; 6; 0; 0; 127; 0; 0; 1; 127; 0; 0; 1] in
  let tcp := [0; 53; 1; 1; 0; 0; 0; 0; 0; 0; 0; 0; 0x50; 0x10; 0; 0; 0; 0; 0; 0] in
  process_dns_response (ip ++ tcp) DLT_RAW = Oob.
Proof. by vm_compute. Qed.
End DnsExamples.
