(* ===== verification/Doubles.v ===== *)
(** * Doubles : the C type [double] and the comparisons of common/gy_common_inc.h.

    A [double] is an IEEE 754 number of 64 bits, in the specification of the
    Standard Library with 53 bits of precision.  All NaNs are one value.  A
    conversion to an integer type that the language leaves undefined is [Oob]. *)
From Stdlib Require Import SpecFloat.
From S2P Require Import Prelude Bytes.

#[local] Open Scope Z_scope.

Abbreviation dbl := spec_float.

Definition dadd : dbl -> dbl -> dbl := SFadd 53 1024.
Definition dsub : dbl -> dbl -> dbl := SFsub 53 1024.
Definition dmul : dbl -> dbl -> dbl := SFmul 53 1024.
Definition ddiv : dbl -> dbl -> dbl := SFdiv 53 1024.

(** The conversion of an integer, rounded to the nearest double. *)
Definition dbl_of_int (z : Z) : dbl := binary_normalize 53 1024 z 0 false.

(** The integer part of a finite double. *)
Definition dtrunc (d : dbl) : option Z :=
  match d with
  | S754_zero _ => Some 0
  | S754_finite s m e =>
      let a := if 0 <=? e then Z.pos m * 2 ^ e else Z.pos m / 2 ^ (- e) in
      Some (if s then - a else a)
  | _ => None
  end.

(** Values of a [w]-bit signed type. *)
Definition in_signedb (w z : Z) : bool := (- 2 ^ (w - 1) <=? z) && (z <? 2 ^ (w - 1)).
Definition in_signed (w z : Z) : Prop := - 2 ^ (w - 1) <= z < 2 ^ (w - 1).

Definition dbl_to_int (w : Z) (d : dbl) : acc Z :=
  match dtrunc d with
  | Some z => if in_signedb w z then Acc z else Oob
  | None => Oob
  end.

(** ** The bytes of a double, as the integer a little-endian host reads there *)
Definition bits_of_dbl (d : dbl) : Z :=
  match d with
  | S754_zero s => if s then 2 ^ 63 else 0
  | S754_infinity s => (if s then 2 ^ 63 else 0) + 2047 * 2 ^ 52
  | S754_nan => 2047 * 2 ^ 52 + 2 ^ 51
  | S754_finite s m e =>
      (if s then 2 ^ 63 else 0) +
      (if Z.pos m <? 2 ^ 52 then Z.pos m else (e + 1075) * 2 ^ 52 + (Z.pos m - 2 ^ 52))
  end.

Definition dbl_of_bits (b : Z) : dbl :=
  let s := 2 ^ 63 <=? b in
  let ex := b / 2 ^ 52 mod 2 ^ 11 in
  let fr := b mod 2 ^ 52 in
  if ex =? 2047 then (if fr =? 0 then S754_infinity s else S754_nan) else
  if ex =? 0 then
    match fr with
    | Z.pos m => S754_finite s m (-1074)
    | _ => S754_zero s
    end
  else S754_finite s (Z.to_pos (fr + 2 ^ 52)) (ex - 1075).

(** ** Comparisons *)
Definition DBL_EPSILON : dbl := S754_finite false 4503599627370496 (-104).   (* 2^-52 *)
Definition dbl_1e_7 : dbl := S754_finite false 7555786372591432 (-76).
Definition dbl_1e_12 : dbl := S754_finite false 4951760157141521 (-92).

(** [std::max]: the first argument unless it is less than the second. *)
Definition dmax (a b : dbl) : dbl := if SFltb a b then b else a.

Definition gy_is_dbl_equal (a b : dbl) : bool :=
  if SFeqb a b then true else
  let diff := SFabs (dsub a b) in
  let reltol := dmul (dmax (SFabs a) (SFabs b)) dbl_1e_7 in
  SFltb diff reltol || SFltb diff dbl_1e_12.

(** ** The bytes of a double give the double back *)
Lemma digits2_pos_size m : 2 ^ (Z.pos (digits2_pos m) - 1) <= Z.pos m < 2 ^ Z.pos (digits2_pos m).
Proof.
  induction m as [m IH|m IH|]; cbn [digits2_pos]; [| |done].
  all: rewrite Pos2Z.inj_succ, Z.pow_succ_r by lia;
    replace (Z.succ (Z.pos (digits2_pos m)) - 1) with (Z.succ (Z.pos (digits2_pos m) - 1)) by lia;
    rewrite Z.pow_succ_r by lia; lia.
Qed.

(** A finite double is a normal number or has the smallest exponent. *)
Lemma valid_finite s m e : valid_binary 53 1024 (S754_finite s m e) = true ->
  (2 ^ 52 <= Z.pos m < 2 ^ 53 /\ -1074 <= e <= 971) \/ (Z.pos m < 2 ^ 52 /\ e = -1074).
Proof.
  cbn [valid_binary]. unfold bounded, canonical_mantissa. intros [H1 H2]%andb_true_iff.
  apply Z.eqb_eq in H1. apply Z.leb_le in H2. unfold fexp, emin in H1. pose proof (digits2_pos_size m) as Hd.
  set (p := Z.pos (digits2_pos m)) in *. destruct (Z.le_gt_cases p 52).
  - right. split; [|lia]. eapply Z.lt_le_trans; [apply Hd|]. apply Z.pow_le_mono_r; lia.
  - left. assert (p = 53) as E by lia. rewrite E in Hd. change (53 - 1) with 52 in Hd. lia.
Qed.

(** Splitting the bits into sign, exponent and fraction. *)
Lemma bits_fields (s : bool) ex fr : 0 <= ex < 2 ^ 11 -> 0 <= fr < 2 ^ 52 ->
  let b := (if s then 2 ^ 63 else 0) + (ex * 2 ^ 52 + fr) in
  (2 ^ 63 <=? b) = s /\ b / 2 ^ 52 mod 2 ^ 11 = ex /\ b mod 2 ^ 52 = fr.
Proof.
  intros Hex Hfr b.
  assert (b = ((if s then 2 ^ 11 else 0) + ex) * 2 ^ 52 + fr) as E by (unfold b; destruct s; lia).
  assert (b / 2 ^ 52 = (if s then 2 ^ 11 else 0) + ex) as Ed.
  { rewrite E, Z.div_add_l, (Z.div_small fr) by lia. lia. }
  split_and!.
  - unfold b. destruct s; [apply Z.leb_le|apply Z.leb_gt]; lia.
  - rewrite Ed. destruct s; [|by rewrite Z.mod_small].
    rewrite Z.add_comm. rewrite <- (Z.mul_1_l (2 ^ 11)) at 1. rewrite Z.mod_add by lia. by apply Z.mod_small.
  - rewrite E, Z.add_comm, Z.mod_add by lia. by apply Z.mod_small.
Qed.

Lemma dbl_of_bits_fields (s : bool) ex fr : 0 <= ex < 2 ^ 11 -> 0 <= fr < 2 ^ 52 ->
  dbl_of_bits ((if s then 2 ^ 63 else 0) + (ex * 2 ^ 52 + fr)) =
  if ex =? 2047 then (if fr =? 0 then S754_infinity s else S754_nan) else
  if ex =? 0 then match fr with Z.pos m => S754_finite s m (-1074) | _ => S754_zero s end
  else S754_finite s (Z.to_pos (fr + 2 ^ 52)) (ex - 1075).
Proof.
  intros Hex Hfr. destruct (bits_fields s ex fr Hex Hfr) as (E1 & E2 & E3). unfold dbl_of_bits. by rewrite E1, E2, E3.
Qed.

Lemma dbl_of_bits_of_dbl d : valid_binary 53 1024 d = true -> dbl_of_bits (bits_of_dbl d) = d.
Proof.
  intros Hv. destruct d as [s|s| |s m e]; [by destruct s..|done|]. unfold bits_of_dbl.
  destruct (valid_finite s m e Hv) as [[Hm He]|[Hm ->]].
  - rewrite (proj2 (Z.ltb_ge _ _)) by lia. rewrite dbl_of_bits_fields by lia.
    rewrite (proj2 (Z.eqb_neq (e + 1075) 2047)), (proj2 (Z.eqb_neq (e + 1075) 0)) by lia.
    replace (Z.pos m - 2 ^ 52 + 2 ^ 52) with (Z.pos m) by lia. cbn [Z.to_pos]. f_equal. lia.
  - rewrite (proj2 (Z.ltb_lt _ _)) by lia.
    change (Z.pos m) with (0 * 2 ^ 52 + Z.pos m) at 1. by rewrite dbl_of_bits_fields by lia.
Qed.

Lemma bits_of_dbl_range d : valid_binary 53 1024 d = true -> in_width 64 (bits_of_dbl d).
Proof.
  intros Hv. unfold in_width, bits_of_dbl. destruct d as [s|s| |s m e]; [by destruct s..|done|].
  destruct (valid_finite s m e Hv) as [[Hm He]|[Hm ->]].
  - rewrite (proj2 (Z.ltb_ge _ _)) by lia. destruct s; lia.
  - rewrite (proj2 (Z.ltb_lt _ _)) by lia. destruct s; lia.
Qed.

(** ** Integers of up to 53 bits are exact *)
Lemma iter_xO m d : Z.pos (Pos.iter xO m d) = Z.pos m * 2 ^ Z.pos d.
Proof.
  induction d as [|d IH] using Pos.peano_ind; [cbn; lia|].
  rewrite Pos.iter_succ, Pos2Z.inj_succ, Z.pow_succ_r by lia. rewrite Pos2Z.inj_xO, IH. lia.
Qed.

Lemma digits_iter_xO m d : Z.pos (digits2_pos (Pos.iter xO m d)) = Z.pos (digits2_pos m) + Z.pos d.
Proof.
  induction d as [|d IH] using Pos.peano_ind; [cbn; lia|].
  rewrite Pos.iter_succ. cbn [digits2_pos]. rewrite !Pos2Z.inj_succ, IH. lia.
Qed.

(** A mantissa of 53 bits is not rounded. *)
Lemma round_exact s m e : Z.pos (digits2_pos m) = 53 -> -1074 <= e <= 971 ->
  binary_round_aux 53 1024 s (Z.pos m) e loc_Exact = S754_finite s m e.
Proof.
  intros Hd He. unfold binary_round_aux, shr_fexp. cbn [Zdigits2]. rewrite Hd.
  assert (fexp 53 1024 (53 + e) - e = 0) as E by (unfold fexp, emin; lia). rewrite E.
  cbn [shr shr_record_of_loc loc_of_shr_record round_nearest_even shr_m Zdigits2].
  rewrite Hd, E. cbn [shr shr_m shr_record_of_loc]. by rewrite (proj2 (Z.leb_le e _)) by lia.
Qed.

Lemma digits2_le m w : Z.pos m < 2 ^ w -> 0 < w -> Z.pos (digits2_pos m) <= w.
Proof.
  intros Hm Hw. destruct (digits2_pos_size m) as [Hd _]. apply Z.le_ngt. intros Hlt.
  assert (2 ^ w <= 2 ^ (Z.pos (digits2_pos m) - 1)) by (apply Z.pow_le_mono_r; lia). lia.
Qed.

Lemma binary_round_small s m : Z.pos m < 2 ^ 53 ->
  exists m' e, binary_round 53 1024 s m 0 = S754_finite s m' e /\ -52 <= e <= 0 /\ Z.pos m' = Z.pos m * 2 ^ (- e) /\ 2 ^ 52 <= Z.pos m'.
Proof.
  intros Hm. pose proof (digits2_le m 53 Hm ltac:(lia)) as Hd. unfold binary_round, shl_align. rewrite Z.add_0_r.
  assert (fexp 53 1024 (Z.pos (digits2_pos m)) - 0 = Z.pos (digits2_pos m) - 53) as -> by (unfold fexp, emin; lia).
  destruct (Z.pos (digits2_pos m) - 53) as [|d|d] eqn:E; [|lia|].
  - exists m, 0. assert (Z.pos (digits2_pos m) = 53) as E53 by lia. rewrite round_exact by lia.
    destruct (digits2_pos_size m) as [H _]. rewrite E53 in H. change (53 - 1) with 52 in H. split_and!; [done|lia..].
  - exists (Pos.iter xO m d), (Z.neg d).
    assert (fexp 53 1024 (Z.pos (digits2_pos m)) = Z.neg d) as -> by (unfold fexp, emin; lia).
    assert (Z.pos (digits2_pos (Pos.iter xO m d)) = 53) as E53 by (rewrite digits_iter_xO; lia).
    rewrite round_exact by lia. destruct (digits2_pos_size (Pos.iter xO m d)) as [H _]. rewrite E53 in H.
    change (53 - 1) with 52 in H. split_and!; [done|lia|lia|by rewrite iter_xO|done].
Qed.

Lemma dtrunc_of_int z : - 2 ^ 53 < z < 2 ^ 53 -> dtrunc (dbl_of_int z) = Some z.
Proof.
  intros Hz. unfold dbl_of_int, binary_normalize. destruct z as [|m|m]; [done| |].
  - destruct (binary_round_small false m ltac:(lia)) as (m1 & e1 & -> & He & Em & _). cbn [dtrunc]. f_equal.
    case_if; breflect; [assert (e1 = 0) as -> by lia; cbn in Em; lia|]. rewrite Em. apply Z.div_mul. apply Z.pow_nonzero; lia.
  - destruct (binary_round_small true m ltac:(lia)) as (m1 & e1 & -> & He & Em & _). cbn [dtrunc]. f_equal.
    case_if; breflect; [assert (e1 = 0) as -> by lia; cbn in Em; lia|]. rewrite Em, Z.div_mul by (apply Z.pow_nonzero; lia). done.
Qed.

Lemma binary_round_opp s m : SFopp (binary_round 53 1024 s m 0) = binary_round 53 1024 (negb s) m 0.
Proof.
  unfold binary_round, binary_round_aux. destruct (shl_align _ _ _) as [mz ez].
  destruct (shr_fexp _ _ (Z.pos mz) _ _) as [r1 e1]. destruct (shr_fexp _ _ (round_nearest_even _ _) _ _) as [r2 e2].
  destruct (shr_m r2); [done| |done]. by destruct (e2 <=? 1024 - 53).
Qed.

Lemma dbl_of_int_opp z : z <> 0 -> SFopp (dbl_of_int z) = dbl_of_int (- z).
Proof. intros Hn. unfold dbl_of_int, binary_normalize. destruct z as [|m|m]; [done|apply binary_round_opp..]. Qed.

(** ** A number divided by itself *)
Lemma ddiv_self m e : ddiv (S754_finite false m e) (S754_finite false m e) = dbl_of_int 1.
Proof.
  unfold ddiv, SFdiv. cbn [xorb]. unfold SFdiv_core_binary.
  replace (Zdigits2 (Z.pos m) + e - (Zdigits2 (Z.pos m) + e)) with 0 by lia. rewrite Z.sub_diag.
  change (Z.min (fexp 53 1024 0) 0) with (-53). change (0 - -53) with 53. cbn iota.
  rewrite Z.shiftl_mul_pow2 by lia.
  assert (Z.div_eucl (Z.pos m * 2 ^ 53) (Z.pos m) = (2 ^ 53, 0)) as ->.
  { rewrite (surjective_pairing (Z.div_eucl _ _)), Z.mul_comm.
    change (Z.div_eucl (2 ^ 53 * Z.pos m) (Z.pos m)).1 with (2 ^ 53 * Z.pos m / Z.pos m).
    change (Z.div_eucl (2 ^ 53 * Z.pos m) (Z.pos m)).2 with ((2 ^ 53 * Z.pos m) mod Z.pos m).
    rewrite Z.div_mul, Z.mod_mul by lia. done. }
  unfold new_location, new_location_even, new_location_odd. destruct (Z.even (Z.pos m)); vm_compute; reflexivity.
Qed.
Lemma ddiv_int_self n : 0 < n < 2 ^ 53 -> ddiv (dbl_of_int n) (dbl_of_int n) = dbl_of_int 1.
Proof.
  intros Hn. unfold dbl_of_int at 1 2, binary_normalize. destruct n as [|m|m]; try lia.
  destruct (binary_round_small false m ltac:(lia)) as (m1 & e1 & -> & _). apply ddiv_self.
Qed.
