(* ===== verification/Criterion.v ===== *)
(** * Criterion : one condition of a filter (common/gy_query_criteria.h).

    A filter of a query or of an alert is built from conditions that compare a
    column of a record, possibly after an arithmetic operation, with a constant,
    another column or a list of constants.  [CRITERION_ONE] is such a condition and
    [match_criterian] its evaluation.  The columns of the record are given by the
    functions [get_num_field], [get_str_field] and [get_bool_field] of the caller,
    regular expressions by [PartialMatch] of the RE2 library.

    An operation the language leaves undefined, such as the remainder of a division
    by 0, which stops the process, is [Oob]. *)
From Stdlib Require Import SpecFloat.
From S2P Require Import Prelude Bytes Doubles.

#[local] Open Scope Z_scope.

(** ** Enumerations *)
Inductive COMPARATORS_E :=
  | COMP_EQ | COMP_NEQ | COMP_LT | COMP_LE | COMP_GT | COMP_GE | COMP_BIT2 | COMP_BIT3
  | COMP_SUBSTR | COMP_NOTSUBSTR | COMP_LIKE | COMP_NOTLIKE | COMP_IN | COMP_NOTIN.

#[global] Instance COMPARATORS_E_eq_dec : EqDecision COMPARATORS_E.
Proof. solve_decision. Defined.

Inductive NUMBER_TYPES_E := NUM_INT8 | NUM_INT16 | NUM_INT32 | NUM_INT64 | NUM_DOUBLE | NUM_NAN.

#[global] Instance NUMBER_TYPES_E_eq_dec : EqDecision NUMBER_TYPES_E.
Proof. solve_decision. Defined.

Inductive JSON_TYPES_E := JSON_NUMBER | JSON_STRING | JSON_BOOL.

#[global] Instance JSON_TYPES_E_eq_dec : EqDecision JSON_TYPES_E.
Proof. solve_decision. Defined.

Inductive DB_STR_TYPE_E := DB_STR_NONE | DB_STR_TEXT | DB_STR_OCHAR | DB_RAW_STRING.

#[global] Instance DB_STR_TYPE_E_eq_dec : EqDecision DB_STR_TYPE_E.
Proof. solve_decision. Defined.

(** A subsystem is its number in [SUBSYS_CLASS_E]. *)
Definition SUBSYS_HOST : Z := 0.

(** What the conversion of a column to the database is applied to. *)
Inductive operand := OperStr (s : list Z) | OperNum (z : Z).

(** A column: its name, its hash, its types and its column in the database. *)
Record JSON_DB_MAPPING := JsonDbMapping {
  jsonfield : list Z;
  dbcolname : list Z;
  jsoncrc : Z;
  map_subsys : Z;
  jsontype : JSON_TYPES_E;
  numtype : NUMBER_TYPES_E;
  dbtype : list Z;
  dbstrtype : DB_STR_TYPE_E;
  oper : option (operand -> list Z);
}.

(** ** Values

    The union of a number is the 64-bit integer of its bytes. *)
Record NUMBER_CRITERION := NumberCriterion {
  num_union : Z;
  num_type : NUMBER_TYPES_E;
  num_isvalid : bool;
}.

Definition num_none : NUMBER_CRITERION := NumberCriterion 0 NUM_NAN false.
Definition num_int8 (val : Z) : NUMBER_CRITERION := NumberCriterion (u8 val) NUM_INT8 true.
Definition num_int16 (val : Z) : NUMBER_CRITERION := NumberCriterion (u16 val) NUM_INT16 true.
Definition num_int32 (val : Z) : NUMBER_CRITERION := NumberCriterion (u32 val) NUM_INT32 true.
Definition num_int64 (val : Z) : NUMBER_CRITERION := NumberCriterion (u64 val) NUM_INT64 true.
Definition num_dbl (val : dbl) : NUMBER_CRITERION := NumberCriterion (bits_of_dbl val) NUM_DOUBLE true.

(** [int8], [int16], [int32], [int64] and [dbl], the members of the union. *)
Definition get_int (w : Z) (n : NUMBER_CRITERION) : Z := swrap w (num_union n).
Definition get_dbl (n : NUMBER_CRITERION) : dbl := dbl_of_bits (num_union n).

(** Stores to the members: the bytes behind a shorter one stay. *)
Definition set_int (w : Z) (n : NUMBER_CRITERION) (v : Z) : NUMBER_CRITERION :=
  NumberCriterion (num_union n - wrap w (num_union n) + wrap w v) (num_type n) (num_isvalid n).
Definition set_dbl (n : NUMBER_CRITERION) (d : dbl) : NUMBER_CRITERION :=
  NumberCriterion (bits_of_dbl d) (num_type n) (num_isvalid n).

Record BOOL_CRITERION := BoolCriterion { bool_value : bool; bool_isvalid : bool }.

(** ** Arithmetic *)
Inductive math_oper := MATH_ADD | MATH_SUB | MATH_MUL | MATH_DIV | MATH_MOD | MATH_AND | MATH_OR.

#[global] Instance math_oper_eq_dec : EqDecision math_oper.
Proof. solve_decision. Defined.

Definition is_div (op : math_oper) : bool := match op with MATH_DIV | MATH_MOD => true | _ => false end.

(** [x op= i2] for a member [x] of [w] bits: computed in 64 bits, where it must not
    overflow, and stored. *)
Definition int_by_int (w : Z) (op : math_oper) (n : NUMBER_CRITERION) (i2 : Z) : acc NUMBER_CRITERION :=
  let x := get_int w n in
  let chk v := if in_signedb 64 v then Acc (set_int w n v) else Oob in
  match op with
  | MATH_ADD => chk (x + i2)
  | MATH_SUB => chk (x - i2)
  | MATH_MUL => chk (x * i2)
  | MATH_DIV => if i2 =? 0 then Oob else chk (Z.quot x i2)
  | MATH_MOD => if i2 =? 0 then Oob else if in_signedb 64 (Z.quot x i2) then Acc (set_int w n (Z.rem x i2)) else Oob
  | MATH_AND => Acc (set_int w n (Z.land x i2))
  | MATH_OR => Acc (set_int w n (Z.lor x i2))
  end.

(** [x op= d2] for a member [x] of [w] bits, computed as a double; for the last
    three operations [d2] is converted to 64 bits. *)
Definition int_by_dbl (w : Z) (op : math_oper) (n : NUMBER_CRITERION) (d2 : dbl) : acc NUMBER_CRITERION :=
  let x := dbl_of_int (get_int w n) in
  let store d := let! v := dbl_to_int w d in Acc (set_int w n v) in
  match op with
  | MATH_ADD => store (dadd x d2)
  | MATH_SUB => store (dsub x d2)
  | MATH_MUL => store (dmul x d2)
  | MATH_DIV => store (ddiv x d2)
  | MATH_MOD | MATH_AND | MATH_OR => let! i2 := dbl_to_int 64 d2 in int_by_int w op n i2
  end.

Definition dbl_by_dbl (op : math_oper) (n : NUMBER_CRITERION) (d2 : dbl) : bool * NUMBER_CRITERION :=
  let x := get_dbl n in
  match op with
  | MATH_ADD => (true, set_dbl n (dadd x d2))
  | MATH_SUB => (true, set_dbl n (dsub x d2))
  | MATH_MUL => (true, set_dbl n (dmul x d2))
  | MATH_DIV => (true, set_dbl n (ddiv x d2))
  | MATH_MOD | MATH_AND | MATH_OR => (false, n)
  end.

(** The width of the member that [num_type] selects, for the integer types. *)
Definition int_width (t : NUMBER_TYPES_E) : Z :=
  match t with NUM_INT8 => 8 | NUM_INT16 => 16 | NUM_INT32 => 32 | _ => 64 end.

Definition d_is_zero (d : dbl) : bool := SFeqb d (S754_zero false).
Definition d_one : dbl := dbl_of_int 1.

(** The second operand: a divisor 0 is replaced by 1.  The 32-bit product with an
    integer is computed on the member [int8]. *)
Definition apply_math_oper (op : math_oper) (n num2 : NUMBER_CRITERION) : acc (bool * NUMBER_CRITERION) :=
  match num_type num2 with
  | NUM_DOUBLE =>
      let d2 := get_dbl num2 in
      let d2 := if d_is_zero d2 && is_div op then d_one else d2 in
      match num_type n with
      | NUM_DOUBLE => Acc (dbl_by_dbl op n d2)
      | t => let! n := int_by_dbl (int_width t) op n d2 in Acc (true, n)
      end
  | t2 =>
      let i2 := get_int (int_width t2) num2 in
      let i2 := if (i2 =? 0) && is_div op then 1 else i2 in
      match num_type n, op with
      | NUM_DOUBLE, _ => Acc (dbl_by_dbl op n (dbl_of_int i2))
      | NUM_INT32, MATH_MUL => let! n := int_by_int 8 op n i2 in Acc (true, n)
      | t, _ => let! n := int_by_int (int_width t) op n i2 in Acc (true, n)
      end
  end.

(** ** Strings *)
Fixpoint is_prefix (p s : list Z) : bool :=
  match p, s with
  | [], _ => true
  | a :: p', b :: s' => (a =? b) && is_prefix p' s'
  | _, [] => false
  end.
Fixpoint memmem (s p : list Z) : bool :=
  is_prefix p s || match s with [] => false | _ :: s' => memmem s' p end.

(** ** The condition

    [pfield1_] is not null and [is_valid_] holds for every object a constructor
    with arguments makes; an object of the default constructor is [None] in
    [match_criterian]. *)
Record CRITERION_ONE := CriterionOne {
  pfield1_ : JSON_DB_MAPPING;
  subsys_ : Z;
  fieldtype_ : JSON_TYPES_E;
  comp_ : COMPARATORS_E;
  valtype_ : JSON_TYPES_E;
  is_valid_ : bool;
  is_timestamp_sec_ : bool;
  is_time_func_ : bool;
  math_oper_ : option math_oper;
  hash_ : Z;
  pfield2_ : option JSON_DB_MAPPING;
  field2_const_ : dbl;
  numval_ : option NUMBER_CRITERION;
  strval_ : option (list Z);
  boolval_ : option BOOL_CRITERION;
  pexpr_val_ : option JSON_DB_MAPPING;
  pregex_ : option (option (list Z));
  force_double_ : bool;
  pnumarray_ : option (list NUMBER_CRITERION);
  pstrarray_ : option (list (list Z));
}.

Section Match.
Context (PartialMatch : list Z -> list Z -> bool).

(** [w]-bit integers; the last two comparisons are made on [int]. *)
Definition match_num_criterian (c : CRITERION_ONE) (w : Z) (input crit : Z) : bool :=
  match comp_ c with
  | COMP_EQ => input =? crit
  | COMP_NEQ => negb (input =? crit)
  | COMP_LT => input <? crit
  | COMP_LE => input <=? crit
  | COMP_GT => input >? crit
  | COMP_GE => input >=? crit
  | COMP_BIT2 => Z.land (swrap 32 input) 3 =? 3
  | COMP_BIT3 => Z.land (swrap 32 input) 7 =? 7
  | COMP_IN | COMP_NOTIN =>
      let bret := bool_decide (comp_ c = COMP_IN) in
      match pnumarray_ c with
      | Some arr => if existsb (fun e => input =? get_int w e) arr then bret else negb bret
      | None => false
      end
  | _ => false
  end.

Definition match_dbl_criterian (c : CRITERION_ONE) (input crit : dbl) : acc bool :=
  match comp_ c with
  | COMP_EQ => Acc (gy_is_dbl_equal input crit)
  | COMP_NEQ => Acc (negb (gy_is_dbl_equal input crit))
  | COMP_LT => Acc (SFltb input crit && SFltb DBL_EPSILON (dsub crit input))
  | COMP_LE => Acc (gy_is_dbl_equal input crit || SFltb input crit)
  | COMP_GT => Acc (SFltb crit input && SFltb DBL_EPSILON (dsub input crit))
  | COMP_GE => Acc (gy_is_dbl_equal input crit || SFltb crit input)
  | COMP_BIT2 => let! i := dbl_to_int 32 input in Acc (Z.land i 3 =? 3)
  | COMP_BIT3 => let! i := dbl_to_int 32 input in Acc (Z.land i 7 =? 7)
  | COMP_IN | COMP_NOTIN =>
      let bret := bool_decide (comp_ c = COMP_IN) in
      match pnumarray_ c with
      | Some arr => Acc (if existsb (fun e => gy_is_dbl_equal input (get_dbl e)) arr then bret else negb bret)
      | None => Acc false
      end
  | _ => Acc false
  end.

(** [crit] is [None] for a null pointer, which occurs with a list of strings. *)
Definition match_str_criterian (c : CRITERION_ONE) (input : list Z) (crit : option (list Z)) : bool :=
  let equal := match crit with Some s => bool_decide (input = s) | None => false end in
  let sub := match crit with Some s => (blen s <=? blen input) && memmem input s | None => false end in
  match comp_ c with
  | COMP_EQ => equal
  | COMP_NEQ => negb equal
  | COMP_SUBSTR => sub
  | COMP_NOTSUBSTR => negb sub
  | COMP_LIKE => match pregex_ c with Some (Some re) => PartialMatch re input | _ => false end
  | COMP_NOTLIKE => match pregex_ c with Some (Some re) => negb (PartialMatch re input) | _ => false end
  | COMP_IN | COMP_NOTIN =>
      let bret := bool_decide (comp_ c = COMP_IN) in
      match pstrarray_ c with
      | Some arr => if existsb (fun s => bool_decide (input = s)) arr then bret else negb bret
      | None => false
      end
  | _ => false
  end.

Definition match_bool_criterian (c : CRITERION_ONE) (input crit : bool) : bool :=
  match comp_ c with
  | COMP_EQ => eqb input crit
  | COMP_NEQ => negb (eqb input crit)
  | _ => false
  end.

(** The columns of the record; a string is [None] for a null pointer. *)
Record fields := Fields {
  get_num_field : JSON_DB_MAPPING -> Z -> NUMBER_CRITERION;
  get_str_field : JSON_DB_MAPPING -> Z -> option (list Z);
  get_bool_field : JSON_DB_MAPPING -> Z -> BOOL_CRITERION;
}.

Context (f : fields).

(** The number in the column after the arithmetic, [None] where there is none. *)
Definition left_number (c : CRITERION_ONE) : acc (option NUMBER_CRITERION) :=
  let n1 := get_num_field f (pfield1_ c) (subsys_ c) in
  if negb (num_isvalid n1) then Acc None else
  let n1 := if force_double_ c then num_dbl (dbl_of_int (get_int 64 n1)) else n1 in
  match math_oper_ c with
  | None => Acc (Some n1)
  | Some op =>
      let ni2 := match pfield2_ c with
        | Some field => get_num_field f field (subsys_ c)
        | None => num_dbl (field2_const_ c) end in
      if negb (num_isvalid ni2) then Acc None else
      let! r := apply_math_oper op n1 ni2 in
      Acc (if r.1 then Some r.2 else None)
  end.

(** The value it is compared with, and the type of the comparison. *)
Definition right_number (c : CRITERION_ONE) (tcurr : Z) : option (NUMBER_CRITERION * NUMBER_TYPES_E) :=
  let n1 := get_num_field f (pfield1_ c) (subsys_ c) in
  let type := if force_double_ c then NUM_DOUBLE else num_type n1 in
  match numval_ c with
  | Some v =>
      let n2 := if negb (is_time_func_ c) || (tcurr =? 0) then v else num_int64 tcurr in
      Some (n2, if force_double_ c then NUM_DOUBLE else num_type n2)
  | None =>
      match pexpr_val_ c with
      | Some field =>
          let n2 := get_num_field f field (subsys_ c) in
          if num_isvalid n2 then Some (n2, type) else None
      | None => if pnumarray_ c is Some _ then Some (num_none, type) else None
      end
  end.

Definition match_number (c : CRITERION_ONE) (tcurr : Z) : acc bool :=
  let! l := left_number c in
  match l with
  | None => Acc false
  | Some n1 =>
      match right_number c tcurr with
      | None => Acc false
      | Some (n2, type) =>
          match type with
          | NUM_DOUBLE => match_dbl_criterian c (get_dbl n1) (get_dbl n2)
          | NUM_NAN => Acc false
          | _ => Acc (match_num_criterian c (int_width type) (get_int (int_width type) n1) (get_int (int_width type) n2))
          end
      end
  end.

Definition match_string (c : CRITERION_ONE) : bool :=
  match get_str_field f (pfield1_ c) (subsys_ c) with
  | None => false
  | Some n1 =>
      match strval_ c with
      | Some s => match_str_criterian c n1 (Some s)
      | None =>
          match pexpr_val_ c with
          | Some field =>
              match get_str_field f field (subsys_ c) with
              | Some n2 => match_str_criterian c n1 (Some n2)
              | None => false
              end
          | None => if pstrarray_ c is Some _ then match_str_criterian c n1 None else false
          end
      end
  end.

Definition match_boolean (c : CRITERION_ONE) : bool :=
  let n1 := get_bool_field f (pfield1_ c) (subsys_ c) in
  if negb (bool_isvalid n1) then false else
  match boolval_ c with
  | Some b => match_bool_criterian c (bool_value n1) (bool_value b)
  | None =>
      match pexpr_val_ c with
      | Some field =>
          let n2 := get_bool_field f field (subsys_ c) in
          if bool_isvalid n2 then match_bool_criterian c (bool_value n1) (bool_value n2) else false
      | None => false
      end
  end.

Definition match_criterian (tcurr : Z) (c : CRITERION_ONE) : acc bool :=
  if negb (is_valid_ c) then Acc false else
  if bool_decide (fieldtype_ c = JSON_NUMBER) || is_timestamp_sec_ c then match_number c tcurr
  else match fieldtype_ c with
  | JSON_STRING => Acc (match_string c)
  | JSON_BOOL => Acc (match_boolean c)
  | JSON_NUMBER => Acc false
  end.
End Match.

(** ** Integers *)
Lemma in_signedb_spec w z : in_signedb w z = true <-> in_signed w z.
Proof. unfold in_signedb, in_signed. rewrite andb_true_iff, Z.leb_le, Z.ltb_lt. done. Qed.

Definition int_type (t : NUMBER_TYPES_E) : bool :=
  match t with NUM_INT8 | NUM_INT16 | NUM_INT32 | NUM_INT64 => true | _ => false end.

Lemma int_width_pos t : 0 < int_width t <= 64.
Proof. by destruct t. Qed.

(** A number of an integer type with the value [x]. *)
Definition num_int (t : NUMBER_TYPES_E) (x : Z) : NUMBER_CRITERION := NumberCriterion (wrap (int_width t) x) t true.

Lemma pow_split w : 0 < w <= 64 -> 2 ^ 64 = 2 ^ w * 2 ^ (64 - w).
Proof. intros Hw. rewrite <- Z.pow_add_r by lia. f_equal. lia. Qed.

Lemma get_set_int w n v : 0 < w <= 64 -> get_int w (set_int w n v) = swrap w v.
Proof.
  intros Hw. unfold get_int, set_int. cbn [num_union]. apply swrap_congr. unfold wrap.
  rewrite <- (Zplus_mod_idemp_l (num_union n - num_union n mod 2 ^ w)), Zminus_mod_idemp_r, Z.sub_diag, Zmod_0_l, Z.add_0_l.
  by rewrite Zmod_mod.
Qed.

Lemma get_int_num_int t x : in_signed (int_width t) x -> get_int (int_width t) (num_int t x) = x.
Proof.
  intros Hx. pose proof (int_width_pos t). unfold get_int, num_int. cbn [num_union].
  rewrite (swrap_congr _ _ x) by apply wrap_wrap. apply swrap_id; [lia|done].
Qed.

(** A shorter member read as 64 bits: the bytes behind it are 0. *)
Lemma get_int64_num_int t x : in_signed (int_width t) x -> 0 <= x \/ int_width t = 64 -> get_int 64 (num_int t x) = x.
Proof.
  intros Hx [Hp|E].
  - pose proof (int_width_pos t) as Hw. unfold in_signed in Hx. unfold get_int, num_int. cbn [num_union].
    assert (2 ^ (int_width t - 1) <= 2 ^ 63) by (apply Z.pow_le_mono_r; lia).
    assert (2 ^ (int_width t - 1) <= 2 ^ int_width t) by (apply Z.pow_le_mono_r; lia).
    rewrite wrap_id by (unfold in_width; lia). apply swrap_id; [lia|]. change (64 - 1) with 63. lia.
  - rewrite <- E in *. by apply get_int_num_int.
Qed.

(** *** Arithmetic on integer columns *)

(** The operation on integers; a divisor 0 counts as 1. *)
Definition int_op (op : math_oper) (x y : Z) : Z :=
  let y := if (y =? 0) && is_div op then 1 else y in
  match op with
  | MATH_ADD => x + y | MATH_SUB => x - y | MATH_MUL => x * y
  | MATH_DIV => Z.quot x y | MATH_MOD => Z.rem x y
  | MATH_AND => Z.land x y | MATH_OR => Z.lor x y
  end.

Lemma in_signed_mono w z : 0 < w <= 64 -> in_signed w z -> in_signed 64 z.
Proof.
  unfold in_signed. intros Hw Hz. assert (2 ^ (w - 1) <= 2 ^ (64 - 1)) by (apply Z.pow_le_mono_r; lia). lia.
Qed.

Lemma quot_in_signed x y : y <> 0 -> in_signed 64 x -> ~ (x = - 2 ^ 63 /\ y = -1) -> in_signed 64 (Z.quot x y).
Proof.
  unfold in_signed. intros Hy Hx Hn. change (64 - 1) with 63 in *.
  assert (Z.abs (Z.quot x y) <= Z.abs x).
  { rewrite <- Z.quot_abs by done. apply Z.quot_le_upper_bound; [lia|]. nia. }
  destruct (Z.eq_dec x (- 2 ^ 63)) as [->|]; [|lia].
  destruct (Z.eq_dec y 1) as [->|]; [rewrite Z.quot_1_r; lia|].
  assert (Z.abs (Z.quot (- 2 ^ 63) y) < 2 ^ 63); [|lia].
  rewrite <- Z.quot_abs by done. change (Z.abs (- 2 ^ 63)) with (2 ^ 63). apply Z.quot_lt; lia.
Qed.

Lemma int_by_int_value w op n y : 0 < w <= 64 -> (is_div op = true -> y <> 0) ->
  in_signed 64 (match op with MATH_MOD => Z.quot (get_int w n) y | _ => int_op op (get_int w n) y end) ->
  int_by_int w op n y = Acc (set_int w n (int_op op (get_int w n) y)).
Proof.
  intros Hw Hy Hr. unfold int_by_int. cbv zeta.
  assert ((if (y =? 0) && is_div op then 1 else y) = y) as E.
  { destruct (Z.eqb_spec y 0) as [->|]; [|done]. destruct (is_div op) eqn:E; [by destruct Hy|done]. }
  unfold int_op in *. rewrite E in *.
  destruct op; cbn [is_div] in *; rewrite ?(proj2 (Z.eqb_neq y 0) (Hy eq_refl)); try done;
    by rewrite (proj2 (in_signedb_spec _ _)).
Qed.

(** An operation between two integer columns gives the exact result where it
    fits the first column, a divisor 0 counting as 1; the one exception is the
    product of a 32-bit column.  The remainder of the smallest 64-bit integer and -1
    is undefined. *)
Theorem apply_math_oper_exact op t1 t2 x y : int_type t1 = true -> int_type t2 = true ->
  in_signed (int_width t1) x -> in_signed (int_width t2) y ->
  ~ (t1 = NUM_INT32 /\ op = MATH_MUL) -> (op = MATH_MOD -> ~ (x = - 2 ^ 63 /\ y = -1)) ->
  in_signed (int_width t1) (int_op op x y) ->
  exists n, apply_math_oper op (num_int t1 x) (num_int t2 y) = Acc (true, n) /\ num_type n = t1 /\
    get_int (int_width t1) n = int_op op x y.
Proof.
  intros Ht1 Ht2 Hx Hy Hmul Hmod Hr. pose proof (int_width_pos t1) as Hw.
  set (y' := if (y =? 0) && is_div op then 1 else y).
  assert (int_op op x y' = int_op op x y) as Ey.
  { unfold int_op. fold y'. destruct ((y' =? 0) && is_div op) eqn:E; [|done]. apply andb_true_iff in E as [E1 E2].
    apply Z.eqb_eq in E1. unfold y' in E1. rewrite E2, andb_true_r in E1. case_if_in E1; breflect; congruence. }
  assert (is_div op = true -> y' <> 0) as Hy'.
  { intros E. unfold y'. rewrite E, andb_true_r. case_if; [done|]. by breflect. }
  assert (int_by_int (int_width t1) op (num_int t1 x) y' =
    Acc (set_int (int_width t1) (num_int t1 x) (int_op op x y))) as E.
  { rewrite int_by_int_value; rewrite ?get_int_num_int by done; [by rewrite Ey|done|done|]. destruct op; try (rewrite Ey; by eapply in_signed_mono).
    apply quot_in_signed; [by apply Hy'|by eapply in_signed_mono|]. unfold y'. intros [-> Hy1]. case_if_in Hy1; [done|]. by apply Hmod. }
  exists (set_int (int_width t1) (num_int t1 x) (int_op op x y)). split; [|split; [done|]].
  - unfold apply_math_oper. change (num_type (num_int t2 y)) with t2. change (num_type (num_int t1 x)) with t1.
    destruct t2; try done; rewrite get_int_num_int by done; fold y';
      destruct t1; try done; destruct op; try (by rewrite E); by destruct Hmul.
  - rewrite get_set_int by done. apply swrap_id; [lia|done].
Qed.

(** *** Comparison of an integer column with a constant *)
Definition int_compare (comp : COMPARATORS_E) (x k : Z) : bool :=
  match comp with
  | COMP_EQ => bool_decide (x = k) | COMP_NEQ => bool_decide (x <> k)
  | COMP_LT => bool_decide (x < k) | COMP_LE => bool_decide (x <= k)
  | COMP_GT => bool_decide (k < x) | COMP_GE => bool_decide (k <= x)
  | _ => false
  end.

Definition ordering (comp : COMPARATORS_E) : bool :=
  match comp with COMP_EQ | COMP_NEQ | COMP_LT | COMP_LE | COMP_GT | COMP_GE => true | _ => false end.

Lemma match_num_ordering c w x k : ordering (comp_ c) = true -> match_num_criterian c w x k = int_compare (comp_ c) x k.
Proof.
  intros Hc. unfold match_num_criterian, int_compare. rewrite ?Z.gtb_ltb, ?Z.geb_leb.
  destruct (comp_ c); try done; apply eq_iff_eq_true;
    rewrite ?negb_true_iff, ?bool_decide_eq_true, ?Z.eqb_eq, ?Z.eqb_neq, ?Z.ltb_lt, ?Z.leb_le; done.
Qed.

(** A condition on a numeric column of the form the parser makes. *)
Definition plain_number (c : CRITERION_ONE) : Prop :=
  is_valid_ c = true /\ fieldtype_ c = JSON_NUMBER /\ force_double_ c = false /\ math_oper_ c = None /\ is_time_func_ c = false.

(** A condition that compares an integer column with an integer constant. *)
Lemma match_int_column PartialMatch f tcurr c t x k : plain_number c -> ordering (comp_ c) = true ->
  int_type t = true -> in_signed (int_width t) x -> 0 <= x \/ t = NUM_INT64 -> in_signed 64 k ->
  get_num_field f (pfield1_ c) (subsys_ c) = num_int t x -> numval_ c = Some (num_int64 k) ->
  match_criterian PartialMatch f tcurr c = Acc (int_compare (comp_ c) x k).
Proof.
  intros (Hv & Hf & Hfd & Hmo & Htf) Hc Ht Hx Hpos Hk Hfield Hnum.
  unfold match_criterian, match_number, left_number, right_number. rewrite Hv, Hf, Hfd, Hmo, Htf, Hnum, Hfield.
  cbn [negb orb bool_decide num_isvalid num_int acc_bind num_type num_int64 int_width].
  rewrite bool_decide_true by done. cbn [orb].
  rewrite match_num_ordering by done. do 2 f_equal.
  - apply get_int64_num_int; [done|]. destruct Hpos as [?| ->]; [by left|by right].
  - by apply (get_int_num_int NUM_INT64).
Qed.

(** ** Strings *)
Lemma is_prefix_spec p s : is_prefix p s = true <-> exists b, s = p ++ b.
Proof.
  revert s. induction p as [|a p IH]; intros s; cbn; [split; [by exists s|done]|].
  destruct s as [|x s]; [split; [done|by intros (b & ?)]|]. rewrite andb_true_iff, Z.eqb_eq, IH.
  split; [intros [-> (b & ->)]; by exists b|intros (b & [= -> ->]); split; [done|by exists b]].
Qed.

Lemma memmem_spec s p : memmem s p = true <-> exists a b, s = a ++ p ++ b.
Proof.
  induction s as [|x s IH]; cbn [memmem]; rewrite orb_true_iff, is_prefix_spec.
  - split; [intros [(b & E)|]; [by exists [], b|done]|]. intros (a & b & E). left. exists [].
    symmetry in E. apply app_eq_nil in E as [_ E]. apply app_eq_nil in E as [-> _]. done.
  - rewrite IH. split.
    + intros [(b & ->)|(a & b & ->)]; [by exists [], b|by exists (x :: a), b].
    + intros ([|y a] & b & E); [left; by exists b|right]. injection E as -> ->. by exists a, b.
Qed.

(** What a condition on a string column says; [pattern] is the regular expression of
    the comparators with one, [in_list] the list of the last two. *)
Definition string_rel (PartialMatch : list Z -> list Z -> bool) (comp : COMPARATORS_E) (input value pattern : list Z)
    (in_list : list (list Z)) : Prop :=
  match comp with
  | COMP_EQ => input = value
  | COMP_NEQ => input <> value
  | COMP_SUBSTR => exists a b, input = a ++ value ++ b
  | COMP_NOTSUBSTR => ~ exists a b, input = a ++ value ++ b
  | COMP_LIKE => PartialMatch pattern input = true
  | COMP_NOTLIKE => PartialMatch pattern input = false
  | COMP_IN => input ∈ in_list
  | COMP_NOTIN => input ∉ in_list
  | _ => False
  end.

(** The values the parser gives a condition on a string column. *)
Definition string_values (c : CRITERION_ONE) (value pattern : list Z) (in_list : list (list Z)) : Prop :=
  match comp_ c with
  | COMP_IN | COMP_NOTIN => strval_ c = None /\ pexpr_val_ c = None /\ pstrarray_ c = Some in_list
  | _ => strval_ c = Some value /\ pregex_ c = Some (Some pattern)
  end.

Lemma substr_spec s p : (blen p <=? blen s) && memmem s p = true <-> exists a b, s = a ++ p ++ b.
Proof.
  rewrite andb_true_iff, memmem_spec, Z.leb_le. split; [tauto|]. intros H. split; [|done].
  destruct H as (a & b & ->). unfold blen. rewrite !length_app. lia.
Qed.

Lemma existsb_eq_spec (input : list Z) arr : existsb (fun s => bool_decide (input = s)) arr = true <-> input ∈ arr.
Proof.
  rewrite existsb_exists, list_elem_of_In. split; [intros (s & Hs & ->%bool_decide_eq_true); done|].
  intros H. exists input. by rewrite bool_decide_true.
Qed.

(** A condition on a string column holds exactly when the column and the constants of
    the condition are in the relation its comparator names. *)
Lemma match_string_column PartialMatch f tcurr c input value pattern in_list :
  is_valid_ c = true -> fieldtype_ c = JSON_STRING -> is_timestamp_sec_ c = false ->
  get_str_field f (pfield1_ c) (subsys_ c) = Some input -> string_values c value pattern in_list ->
  exists b, match_criterian PartialMatch f tcurr c = Acc b /\
    (b = true <-> string_rel PartialMatch (comp_ c) input value pattern in_list).
Proof.
  intros Hv Hf Hts Hin Hvals. eexists. split.
  { unfold match_criterian. rewrite Hv, Hf, Hts. cbn. reflexivity. }
  unfold match_string, string_values, match_str_criterian, string_rel in *. rewrite Hin.
  destruct (comp_ c) eqn:Ec; destruct Hvals as (E1 & E2); try destruct E2 as (E2 & E3); rewrite ?E1, ?E2, ?E3;
    rewrite ?Ec; cbn [negb]; try done;
    rewrite ?negb_true_iff, ?bool_decide_eq_true, ?bool_decide_eq_false, ?substr_spec; try done.
  - rewrite <- not_true_iff_false, substr_spec. done.
  - rewrite <- existsb_eq_spec. by destruct (existsb _ _).
  - rewrite <- existsb_eq_spec. by destruct (existsb _ _).
Qed.

(** ** Concrete conditions *)
Module CriterionExamples.

Definition ex_col (t : NUMBER_TYPES_E) (jt : JSON_TYPES_E) (crc : Z) : JSON_DB_MAPPING :=
  JsonDbMapping [120] [120] crc 2 jt t [114] DB_STR_NONE None.

(** A condition [x comp 50] as the parser makes it. *)
Definition ex_crit (t : NUMBER_TYPES_E) (comp : COMPARATORS_E) (k : Z) (op : option math_oper)
    (field2 : option JSON_DB_MAPPING) : CRITERION_ONE :=
  CriterionOne (ex_col t JSON_NUMBER 1) 2 JSON_NUMBER comp JSON_NUMBER true false false op 77 field2
    (S754_zero false) (Some (num_int64 k)) None None None None false None None.

Definition ex_fields (n1 n2 : NUMBER_CRITERION) (s : list Z) : fields :=
  Fields (fun col _ => if jsoncrc col =? 1 then n1 else n2) (fun _ _ => Some s) (fun _ _ => BoolCriterion true true).

Definition no_regex : list Z -> list Z -> bool := fun _ _ => false.

Definition ten : dbl := dbl_of_int 10.
Definition half : dbl := ddiv (dbl_of_int 1) (dbl_of_int 2).

Lemma apply_math_oper_exact_witness : exists n,
  apply_math_oper MATH_DIV (num_int NUM_INT16 (-7)) (num_int NUM_INT64 2) = Acc (true, n) /\
  get_int 16 n = -3.
Proof.
  destruct (apply_math_oper_exact MATH_DIV NUM_INT16 NUM_INT64 (-7) 2) as (n & H1 & _ & H2);
    [done|done|by vm_compute|by vm_compute|by intros [? ?]|discriminate|by vm_compute|]. by exists n.
Defined.

(** A column of type double is compared with an integral constant by the bits
    of the double: the condition [x > 50] holds for a column of value 10. *)
Theorem double_column_compared_as_bits :
  match_criterian no_regex (ex_fields (num_dbl ten) num_none []) 0 (ex_crit NUM_DOUBLE COMP_GT 50 None None) = Acc true /\
  SFltb ten (dbl_of_int 50) = true.
Proof. by vm_compute. Qed.

(** The value of a 32-bit column is read as 64 bits with 0 behind it, so that
    [x < 0] does not hold for a column of value -1. *)
Theorem negative_column_read_as_positive :
  match_criterian no_regex (ex_fields (num_int32 (-1)) num_none []) 0 (ex_crit NUM_INT32 COMP_LT 0 None None) = Acc false /\
  get_int 64 (num_int32 (-1)) = 2 ^ 32 - 1.
Proof. by vm_compute. Qed.

(** The product of two 32-bit columns multiplies only the lowest byte of the
    first one: 1000 * 2 gives 976. *)
Theorem int32_product_of_low_byte :
  apply_math_oper MATH_MUL (num_int32 1000) (num_int32 2) = Acc (true, num_int32 976).
Proof. by vm_compute. Qed.

(** The remainder of an integer column and a column of type double between 0
    and 1 divides by 0, which stops the process. *)
Theorem remainder_by_fraction_traps :
  match_criterian no_regex (ex_fields (num_int32 7) (num_dbl half) []) 0
    (ex_crit NUM_INT32 COMP_GT 1 (Some MATH_MOD) (Some (ex_col NUM_DOUBLE JSON_NUMBER 2))) = Oob.
Proof. by vm_compute. Qed.
End CriterionExamples.
