(* ===== verification/CriteriaSet.v ===== *)
(** * CriteriaSet : filters in disjunctive normal form (common/gy_query_criteria.h
    and gy_query_criteria.cc, with the groups of common/gy_boolparse.cc).

    A filter is normalised, by the library boolstuff, to a disjunction of
    conjunctions of conditions.  [CRITERIA_SET] keeps the conjunctions of one
    condition, or the only conjunction, in the group of level 1 and the others in
    groups of level 2.  A set is evaluated with a cache of the results of its
    conditions, and either completely or for some subsystems only. *)
From stdpp Require Import gmap.
From S2P Require Import Prelude Bytes Criterion.

#[local] Open Scope Z_scope.

Inductive CRIT_RET_E := CRIT_FAIL | CRIT_PASS | CRIT_SKIP.

#[global] Instance CRIT_RET_E_eq_dec : EqDecision CRIT_RET_E.
Proof. solve_decision. Defined.

Inductive GROUP_OPER_E := OPER_OR | OPER_AND.

#[global] Instance GROUP_OPER_E_eq_dec : EqDecision GROUP_OPER_E.
Proof. solve_decision. Defined.

(** [crits] are the [ncrit_] conditions made in the array. *)
Record CRITERIA_ONE_GROUP := CriteriaOneGroup {
  crits : list CRITERION_ONE;
  maxcrit_ : nat;
  oper_ : GROUP_OPER_E;
  level_ : Z;
}.

Definition empty_group : CRITERIA_ONE_GROUP := CriteriaOneGroup [] 0 OPER_OR 0.

(** ** Evaluation *)

(** [pallowed_subsys_arr] is [None] for a null pointer. *)
Definition is_subsystem_allowed (subsys : Z) (allowed : option (list Z)) : bool :=
  match allowed with
  | Some arr => existsb (fun s => subsys =? s) arr
  | None => true
  end.

Section Match.
(** The evaluation of one condition, [match_criterian]. *)
Context (matchc : CRITERION_ONE -> acc bool).

Definition max_cmap_entries : nat := 64.

(** The result of a condition, from the cache where it is there. *)
Definition match_cached (c : CRITERION_ONE) (fmap : gmap Z bool) : acc (bool * gmap Z bool) :=
  let fhash := hash_ c in
  if negb (fhash =? 0) && bool_decide (size fmap < max_cmap_entries)%nat then
    match fmap !! fhash with
    | Some bret => Acc (bret, fmap)
    | None => let! bret := matchc c in Acc (bret, <[fhash := bret]> fmap)
    end
  else
    match (if negb (fhash =? 0) then fmap !! fhash else None) with
    | Some bret => Acc (bret, fmap)
    | None => let! bret := matchc c in Acc (bret, fmap)
    end.

Fixpoint group_loop (allowed : option (list Z)) (oper : GROUP_OPER_E) (cs : list CRITERION_ONE)
    (neval nskip : nat) (iseval : bool) (fmap : gmap Z bool) : acc (CRIT_RET_E * gmap Z bool) :=
  match cs with
  | [] =>
      Acc (if iseval && bool_decide (oper = OPER_AND) then CRIT_PASS else
           if Nat.eqb neval 0 || negb (Nat.eqb nskip 0) then CRIT_SKIP else CRIT_FAIL, fmap)
  | c :: cs' =>
      if negb (is_subsystem_allowed (subsys_ c) allowed)
      then group_loop allowed oper cs' neval (S nskip) iseval fmap else
      let! r := match_cached c fmap in
      let '(bret, fmap) := r in
      match bret, oper with
      | true, OPER_OR => Acc (CRIT_PASS, fmap)
      | true, OPER_AND => group_loop allowed oper cs' (S neval) nskip true fmap
      | false, OPER_AND => Acc (CRIT_FAIL, fmap)
      | false, OPER_OR => group_loop allowed oper cs' (S neval) nskip iseval fmap
      end
  end.

Definition match_criteria_group (g : CRITERIA_ONE_GROUP) (allowed : option (list Z)) (fmap : gmap Z bool)
    : acc (CRIT_RET_E * gmap Z bool) :=
  group_loop allowed (oper_ g) (crits g) 0 0 false fmap.
End Match.

Record CRITERIA_SET := CriteriaSet {
  l1_grp_ : CRITERIA_ONE_GROUP;
  l2_grps : list CRITERIA_ONE_GROUP;
  psubsys_arr_ : list Z;
  total_crit_ : nat;
  l1_oper_ : GROUP_OPER_E;
}.

Definition empty_set : CRITERIA_SET := CriteriaSet empty_group [] [] 0 OPER_OR.

Section MatchSet.
Context (matchc : CRITERION_ONE -> acc bool).

(** The groups in order, with the numbers of those that passed, failed and were
    skipped so far. *)
Fixpoint set_loop (allowed : option (list Z)) (l1_oper : GROUP_OPER_E) (gs : list CRITERIA_ONE_GROUP)
    (npass nfail nskip : nat) (fmap : gmap Z bool) : acc CRIT_RET_E :=
  match gs with
  | [] =>
      Acc (if negb (Nat.eqb npass 0) && Nat.eqb nskip 0 then CRIT_PASS else
           if negb (Nat.eqb nskip 0) && Nat.eqb nfail 0 then CRIT_SKIP else CRIT_FAIL)
  | g :: gs' =>
      let! r := match_criteria_group matchc g allowed fmap in
      let '(cret, fmap) := r in
      match cret, l1_oper with
      | CRIT_PASS, OPER_OR => Acc CRIT_PASS
      | CRIT_PASS, OPER_AND => set_loop allowed l1_oper gs' (S npass) nfail nskip fmap
      | CRIT_SKIP, _ => set_loop allowed l1_oper gs' npass nfail (S nskip) fmap
      | CRIT_FAIL, OPER_AND => Acc CRIT_FAIL
      | CRIT_FAIL, OPER_OR => set_loop allowed l1_oper gs' npass (S nfail) nskip fmap
      end
  end.

Definition match_criteria (s : CRITERIA_SET) (allowed : option (list Z)) : acc CRIT_RET_E :=
  if Nat.eqb (total_crit_ s) 0 then Acc CRIT_SKIP else
  if negb (match allowed with
     | Some arr => existsb (fun n => existsb (fun x => x =? n) (psubsys_arr_ s)) arr
     | None => true end) then Acc CRIT_SKIP else
  set_loop allowed (l1_oper_ s)
    ((if Nat.eqb (length (crits (l1_grp_ s))) 0 then [] else [l1_grp_ s]) ++ l2_grps s) 0 0 0 ∅.
End MatchSet.

(** ** Subsystems *)

(** The loop of [has_subsystem] of a group and of a set. *)
Fixpoint has_subsystem_loop (subsys : Z) (match_all : bool) (i : nat) (bret : bool) (l : list Z) : bool :=
  match l with
  | [] => bret
  | x :: l' =>
      if x =? subsys then
        if negb match_all then true else
        if negb bret && Nat.ltb 0 i then false else has_subsystem_loop subsys match_all (S i) true l'
      else if bret && match_all then false else has_subsystem_loop subsys match_all (S i) bret l'
  end.

Definition group_has_subsystem (g : CRITERIA_ONE_GROUP) (subsys : Z) (match_all : bool) : bool :=
  has_subsystem_loop subsys match_all 0 false (subsys_ <$> crits g).
Definition set_has_subsystem (s : CRITERIA_SET) (subsys : Z) (match_all : bool) : bool :=
  has_subsystem_loop subsys match_all 0 false (psubsys_arr_ s).

(** [false] where an exception is thrown. *)
Definition validate_multihost_criteria (s : CRITERIA_SET) : bool :=
  if Nat.eqb (total_crit_ s) 0 || negb (set_has_subsystem s SUBSYS_HOST false) then true else
  let is_or := bool_decide (l1_oper_ s = OPER_OR) in
  let bad g all := negb (group_has_subsystem g SUBSYS_HOST all) && is_or in
  if negb (Nat.eqb (length (crits (l1_grp_ s))) 0) && bad (l1_grp_ s) is_or then false else
  negb (existsb (fun g => bad g false) (l2_grps s)).

(** ** The groups of a parsed filter, [GY_BOOLPARSE]

    [groups] are the texts of the conditions of each conjunction. *)
Definition MAX_ONE_GROUP_CRITERIA : nat := 64.
Definition MAX_CRITERIA_GROUPS : nat := MAX_ONE_GROUP_CRITERIA.
Definition MAX_QUERY_CRITERIA : nat := 256.

Record GY_BOOLPARSE := GyBoolparse {
  groups : list (list (list Z));
  ncritgroups_ : nat;
  nl2groups_ : nat;
  nl1_crit_ : nat;
  max1crit_ : nat;
  bp_total_crit_ : nat;
  is_l1_and_ : bool;
}.

Fixpoint count_groups (ncritgroups : nat) (gs : list (list (list Z))) (nl2 nl1 max1 total : nat)
    : option (nat * nat * nat * nat) :=
  match gs with
  | [] => Some (nl2, nl1, max1, total)
  | g :: gs' =>
      let ncrit := length g in
      if Nat.ltb MAX_ONE_GROUP_CRITERIA ncrit then None else
      let total := (total + ncrit)%nat in
      if Nat.ltb MAX_QUERY_CRITERIA total then None else
      let max1 := if Nat.ltb max1 ncrit then ncrit else max1 in
      if Nat.ltb 1 ncritgroups then
        if Nat.ltb 1 ncrit then count_groups ncritgroups gs' (S nl2) nl1 max1 total
        else count_groups ncritgroups gs' nl2 (nl1 + ncrit) max1 total
      else count_groups ncritgroups gs' nl2 nl1 max1 total
  end.

(** [terms] are the terms of the disjunctive normal form; [None] where an exception
    is thrown. *)
Definition gy_boolparse (terms : list (list (list Z))) : option GY_BOOLPARSE :=
  let n := length terms in
  if Nat.ltb MAX_CRITERIA_GROUPS n then None else
  match count_groups n terms 0 0 0 0 with
  | None => None
  | Some (nl2, nl1, max1, total) =>
      Some (if Nat.eqb n 1 then GyBoolparse terms n nl2 total max1 total true
            else GyBoolparse terms n nl2 nl1 max1 total false)
  end.

(** The filter with a single condition does not go through the library. *)
Definition gy_boolparse_one (firstcrit : list Z) : GY_BOOLPARSE :=
  GyBoolparse [[firstcrit]] 1 0 1 1 1 true.

(** ** Construction of the set *)
Definition dollar_a : list Z := [36; 97; 36].
Definition dollar_b : list Z := [36; 98; 36].

Section Populate.
(** The constructor of [CRITERION_ONE] for a text and its hash; [None] where it
    throws an exception. *)
Context (mk_criterion : list Z -> Z -> option CRITERION_ONE) (fnv1_hash : list Z -> Z).

(** [None] where an exception is thrown; otherwise the condition, where there is
    room for it. *)
Definition add_criterion (check_dollar_quote : bool) (g : CRITERIA_ONE_GROUP) (text : list Z)
    : option (CRITERIA_ONE_GROUP * option CRITERION_ONE) :=
  if Nat.ltb (length (crits g)) (maxcrit_ g) then
    if check_dollar_quote && (memmem text dollar_a || memmem text dollar_b) then None else
    match mk_criterion text (fnv1_hash text) with
    | None => None
    | Some c => Some (CriteriaOneGroup (crits g ++ [c]) (maxcrit_ g) (oper_ g) (level_ g), Some c)
    end
  else Some (g, None).

(** The conditions of a conjunction; the numbers of conditions and the subsystems
    seen are counted on. *)
Fixpoint add_all (check : bool) (g : CRITERIA_ONE_GROUP) (total : nat) (subs : list Z) (texts : list (list Z))
    : option (CRITERIA_ONE_GROUP * nat * list Z) :=
  match texts with
  | [] => Some (g, total, subs)
  | t :: texts' =>
      match add_criterion check g t with
      | None => None
      | Some (g, None) => add_all check g total subs texts'
      | Some (g, Some c) =>
          add_all check g (S total) (if bool_decide (subsys_ c ∈ subs) then subs else subs ++ [subsys_ c]) texts'
      end
  end.

Fixpoint add_groups (check : bool) (ntotal nl2 : nat) (l1 : CRITERIA_ONE_GROUP) (l2 : list CRITERIA_ONE_GROUP)
    (total : nat) (subs : list Z) (gs : list (list (list Z)))
    : option (CRITERIA_ONE_GROUP * list CRITERIA_ONE_GROUP * nat * list Z) :=
  match gs with
  | [] => Some (l1, l2, total, subs)
  | texts :: gs' =>
      if Nat.ltb 1 (length texts) && negb (Nat.eqb ntotal 1) then
        if Nat.ltb (length l2) nl2 then
          match add_all check (CriteriaOneGroup [] (length texts) OPER_AND 2) total subs texts with
          | None => None
          | Some (g, total, subs) => add_groups check ntotal nl2 l1 (l2 ++ [g]) total subs gs'
          end
        else add_groups check ntotal nl2 l1 l2 total subs gs'
      else
        match add_all check l1 total subs texts with
        | None => None
        | Some (l1, total, subs) => add_groups check ntotal nl2 l1 l2 total subs gs'
        end
  end.

Definition populate_groups (bp : GY_BOOLPARSE) (allowed : list Z) (is_multihost : bool) : option CRITERIA_SET :=
  if Nat.ltb MAX_CRITERIA_GROUPS (ncritgroups_ bp) || Nat.ltb MAX_ONE_GROUP_CRITERIA (max1crit_ bp) then None else
  let l1_oper := if is_l1_and_ bp then OPER_AND else OPER_OR in
  let l1 := if Nat.eqb (nl1_crit_ bp) 0 then empty_group else CriteriaOneGroup [] (nl1_crit_ bp) l1_oper 1 in
  match add_groups is_multihost (ncritgroups_ bp) (nl2groups_ bp) l1 [] 0 [] (groups bp) with
  | None => None
  | Some (l1, l2, total, subs) =>
      if Nat.eqb total 0 then None else
      if negb (forallb (fun s => existsb (fun a => a =? s) allowed) subs) then None else
      if Nat.ltb 2 (length subs) then None else
      let s := CriteriaSet l1 l2 subs total l1_oper in
      if is_multihost && negb (validate_multihost_criteria s) then None else Some s
  end.
End Populate.

(** ** Specification

    The value of a filter is that of its disjunctive normal form. *)
Definition dnf (v : CRITERION_ONE -> bool) (cgs : list (list CRITERION_ONE)) : bool :=
  existsb (forallb v) cgs.

(** What a group gives for the conditions of the subsystems [ok], the others being
    unknown. *)
Definition group_result (v ok : CRITERION_ONE -> bool) (oper : GROUP_OPER_E) (cs : list CRITERION_ONE) : CRIT_RET_E :=
  let known := List.filter ok cs in
  match oper with
  | OPER_OR => if existsb v known then CRIT_PASS else
               if Nat.eqb (length known) 0 || negb (forallb ok cs) then CRIT_SKIP else CRIT_FAIL
  | OPER_AND => if negb (forallb v known) then CRIT_FAIL else
                if Nat.eqb (length known) 0 then CRIT_SKIP else CRIT_PASS
  end.

Section Eval.
Context (matchc : CRITERION_ONE -> acc bool) (v : CRITERION_ONE -> bool).

(** The conditions of a set are evaluated without undefined operations, and equal
    texts, so equal hashes, have equal results. *)
Definition evaluable (cs : list CRITERION_ONE) : Prop :=
  (forall c, c ∈ cs -> matchc c = Acc (v c)) /\
  (forall c1 c2, c1 ∈ cs -> c2 ∈ cs -> hash_ c1 = hash_ c2 -> v c1 = v c2).

Context (univ : list CRITERION_ONE) (Huniv : evaluable univ).

Definition cache_ok (fmap : gmap Z bool) : Prop :=
  forall c b, c ∈ univ -> fmap !! hash_ c = Some b -> b = v c.

Lemma cache_insert fmap c : c ∈ univ -> cache_ok fmap -> cache_ok (<[hash_ c := v c]> fmap).
Proof.
  intros Hc Hok c' b Hc'. destruct (decide (hash_ c = hash_ c')) as [E|E].
  - rewrite E, lookup_insert_eq. intros [= <-]. destruct Huniv as [_ H]. by apply H.
  - rewrite lookup_insert_ne by done. by apply Hok.
Qed.

Lemma match_cached_ok c fmap : c ∈ univ -> cache_ok fmap ->
  exists fmap', match_cached matchc c fmap = Acc (v c, fmap') /\ cache_ok fmap'.
Proof.
  intros Hc Hok. unfold match_cached. destruct Huniv as [Hm _]. rewrite (Hm c Hc).
  destruct (fmap !! hash_ c) as [b|] eqn:E; repeat case_if;
    try (apply Hok in E; [|done]; subst b); cbn [acc_bind]; eauto using cache_insert.
Qed.

Context (allowed : option (list Z)).
Abbreviation ok := (fun c => is_subsystem_allowed (subsys_ c) allowed).

(** The group loop, with the counters of the conditions before. *)
Lemma group_loop_or cs : forall neval nskip fmap, cs ⊆ univ -> cache_ok fmap ->
  exists fmap', cache_ok fmap' /\ group_loop matchc allowed OPER_OR cs neval nskip false fmap =
    Acc (if existsb v (List.filter ok cs) then CRIT_PASS else
         if Nat.eqb (neval + length (List.filter ok cs)) 0 || negb (Nat.eqb nskip 0) || negb (forallb ok cs)
         then CRIT_SKIP else CRIT_FAIL, fmap').
Proof.
  induction cs as [|c cs IH]; intros neval nskip fmap Hsub Hok; cbn.
  { exists fmap. by rewrite Nat.add_0_r, orb_false_r. }
  assert (c ∈ univ /\ cs ⊆ univ) as [Hc Hsub'] by set_solver.
  destruct (is_subsystem_allowed (subsys_ c) allowed) eqn:E; cbn [negb andb].
  - destruct (match_cached_ok c fmap Hc Hok) as (fmap1 & -> & Hok1). cbn. destruct (v c); cbn; [by exists fmap1|].
    destruct (IH (S neval) nskip fmap1 Hsub' Hok1) as (fmap2 & Hok2 & ->). exists fmap2. by rewrite Nat.add_succ_r.
  - destruct (IH neval (S nskip) fmap Hsub' Hok) as (fmap2 & Hok2 & ->). exists fmap2.
    cbn [Nat.eqb negb]. by rewrite !orb_true_r.
Qed.

Lemma group_loop_and cs : forall neval nskip fmap, cs ⊆ univ -> cache_ok fmap ->
  exists fmap', cache_ok fmap' /\
    group_loop matchc allowed OPER_AND cs neval nskip (negb (Nat.eqb neval 0)) fmap =
    Acc (if negb (forallb v (List.filter ok cs)) then CRIT_FAIL else
         if Nat.eqb (neval + length (List.filter ok cs)) 0 then CRIT_SKIP else CRIT_PASS, fmap').
Proof.
  induction cs as [|c cs IH]; intros neval nskip fmap Hsub Hok; cbn.
  { exists fmap. rewrite Nat.add_0_r. by destruct neval. }
  assert (c ∈ univ /\ cs ⊆ univ) as [Hc Hsub'] by set_solver.
  destruct (is_subsystem_allowed (subsys_ c) allowed) eqn:E; cbn [negb].
  - destruct (match_cached_ok c fmap Hc Hok) as (fmap1 & -> & Hok1). cbn. destruct (v c); cbn; [|by exists fmap1].
    destruct (IH (S neval) nskip fmap1 Hsub' Hok1) as (fmap2 & Hok2 & E2). cbn [Nat.eqb negb] in E2. rewrite E2.
    exists fmap2. by rewrite Nat.add_succ_r.
  - apply (IH neval (S nskip) fmap Hsub' Hok).
Qed.

Lemma match_group_result g fmap : crits g ⊆ univ -> cache_ok fmap ->
  exists fmap', cache_ok fmap' /\
    match_criteria_group matchc g allowed fmap = Acc (group_result v ok (oper_ g) (crits g), fmap').
Proof.
  intros Hsub Hok. unfold match_criteria_group, group_result. destruct (oper_ g).
  - destruct (group_loop_or (crits g) 0 0 fmap Hsub Hok) as (fmap' & Hok' & ->). exists fmap'.
    cbn [plus Nat.eqb negb]. by rewrite orb_false_r.
  - destruct (group_loop_and (crits g) 0 0 fmap Hsub Hok) as (fmap' & Hok' & E). exists fmap'. split; [done|exact E].
Qed.

(** The results of the groups, as the loop over them combines them. *)
Fixpoint combine_results (l1_oper : GROUP_OPER_E) (rs : list CRIT_RET_E) (npass nfail nskip : nat) : CRIT_RET_E :=
  match rs with
  | [] => if negb (Nat.eqb npass 0) && Nat.eqb nskip 0 then CRIT_PASS else
          if negb (Nat.eqb nskip 0) && Nat.eqb nfail 0 then CRIT_SKIP else CRIT_FAIL
  | r :: rs' =>
      match r, l1_oper with
      | CRIT_PASS, OPER_OR => CRIT_PASS
      | CRIT_PASS, OPER_AND => combine_results l1_oper rs' (S npass) nfail nskip
      | CRIT_SKIP, _ => combine_results l1_oper rs' npass nfail (S nskip)
      | CRIT_FAIL, OPER_AND => CRIT_FAIL
      | CRIT_FAIL, OPER_OR => combine_results l1_oper rs' npass (S nfail) nskip
      end
  end.

Lemma set_loop_results l1_oper gs : forall npass nfail nskip fmap,
  Forall (fun g => crits g ⊆ univ) gs -> cache_ok fmap ->
  set_loop matchc allowed l1_oper gs npass nfail nskip fmap =
  Acc (combine_results l1_oper ((fun g => group_result v ok (oper_ g) (crits g)) <$> gs) npass nfail nskip).
Proof.
  induction gs as [|g gs IH]; intros npass nfail nskip fmap Hgs Hok; [done|]. cbn.
  apply list.Forall_cons in Hgs as [Hg Hgs].
  destruct (match_group_result g fmap Hg Hok) as (fmap' & Hok' & ->). cbn.
  destruct (group_result v ok (oper_ g) (crits g)), l1_oper; try done; by apply IH.
Qed.
End Eval.

(** ** The groups of a set *)

(** The groups in the order of their evaluation. *)
Definition set_groups (s : CRITERIA_SET) : list CRITERIA_ONE_GROUP :=
  (if Nat.eqb (length (crits (l1_grp_ s))) 0 then [] else [l1_grp_ s]) ++ l2_grps s.

(** [s] represents the conjunctions [cgs]: the only one is the group of level 1, or
    those of one condition are, as a disjunction, and the others are the groups of
    level 2. *)
Definition single {A} (l : list A) : bool := Nat.leb (length l) 1.
Definition and_group (cs : list CRITERION_ONE) : CRITERIA_ONE_GROUP := CriteriaOneGroup cs (length cs) OPER_AND 2.

Definition represents (s : CRITERIA_SET) (cgs : list (list CRITERION_ONE)) : Prop :=
  Forall (fun cs => cs <> []) cgs /\ cgs <> [] /\ total_crit_ s <> 0%nat /\
  (forall x, x ∈ psubsys_arr_ s <-> exists c, c ∈ concat cgs /\ subsys_ c = x) /\
  ((exists cs, cgs = [cs] /\ crits (l1_grp_ s) = cs /\ oper_ (l1_grp_ s) = OPER_AND /\
      l2_grps s = [] /\ l1_oper_ s = OPER_AND) \/
   (l1_oper_ s = OPER_OR /\ oper_ (l1_grp_ s) = OPER_OR /\
      crits (l1_grp_ s) = concat (List.filter single cgs) /\
      l2_grps s = and_group <$> List.filter (fun cs => negb (single cs)) cgs)).

(** ** Sets made from a parsed filter *)
Section PopulateSpec.
Context (mk_criterion : list Z -> Z -> option CRITERION_ONE) (fnv1_hash : list Z -> Z).

(** [c] is the condition of the text [t]. *)
Definition made (t : list Z) (c : CRITERION_ONE) : Prop := mk_criterion t (fnv1_hash t) = Some c.

(** The subsystems [subs'] are [subs] and those of the conditions [cs]. *)
Definition subs_of (subs subs' : list Z) (cs : list CRITERION_ONE) : Prop :=
  forall x, x ∈ subs' <-> x ∈ subs \/ exists c, c ∈ cs /\ subsys_ c = x.

Lemma subs_of_nil subs : subs_of subs subs [].
Proof. unfold subs_of. set_solver. Qed.

Lemma subs_of_app subs0 subs1 subs2 a b : subs_of subs0 subs1 a -> subs_of subs1 subs2 b -> subs_of subs0 subs2 (a ++ b).
Proof. unfold subs_of. intros H1 H2 x. rewrite (H2 x), (H1 x). set_solver. Qed.

Lemma subs_of_one subs c :
  subs_of subs (if bool_decide (subsys_ c ∈ subs) then subs else subs ++ [subsys_ c]) [c].
Proof. unfold subs_of. intros x. case_bool_decide; set_solver. Qed.

Lemma add_all_spec check texts : forall g total subs g' total' subs',
  (length (crits g) + length texts <= maxcrit_ g)%nat ->
  add_all mk_criterion fnv1_hash check g total subs texts = Some (g', total', subs') ->
  exists cs, Forall2 made texts cs /\ g' = CriteriaOneGroup (crits g ++ cs) (maxcrit_ g) (oper_ g) (level_ g) /\
    total' = (total + length cs)%nat /\ subs_of subs subs' cs.
Proof.
  induction texts as [|t texts IH]; intros g total subs g' total' subs' Hroom; cbn.
  { intros [= <- <- <-]. exists []. rewrite app_nil_r, Nat.add_0_r. destruct g. split_and!; auto using subs_of_nil. }
  cbn in Hroom. unfold add_criterion. rewrite (proj2 (Nat.ltb_lt _ _)) by lia. case_if; [done|].
  destruct (mk_criterion t (fnv1_hash t)) as [c|] eqn:Ec; [|done]. intros H.
  apply IH in H as (cs & Hcs & -> & -> & Hsubs); [|cbn; rewrite length_app; cbn; lia].
  exists (c :: cs). cbn. split_and!; [by constructor|by rewrite <- app_assoc|lia|].
  eapply (subs_of_app _ _ _ [c]); [apply subs_of_one|done].
Qed.

Lemma single_length {A B} (P : A -> B -> Prop) l k : Forall2 P l k -> single l = single k.
Proof. intros H. unfold single. by rewrite (Forall2_length H). Qed.

Lemma add_groups_spec check ntotal nl2 gs : (ntotal <> 1)%nat ->
  forall l1 l2 total subs l1' l2' total' subs', Forall (fun g => g <> []) gs ->
  (length (crits l1) + length (List.filter single gs) <= maxcrit_ l1)%nat ->
  (length l2 + length (List.filter (fun g => negb (single g)) gs) <= nl2)%nat ->
  add_groups mk_criterion fnv1_hash check ntotal nl2 l1 l2 total subs gs = Some (l1', l2', total', subs') ->
  exists cgs, Forall2 (Forall2 made) gs cgs /\
    crits l1' = crits l1 ++ concat (List.filter single cgs) /\ oper_ l1' = oper_ l1 /\
    l2' = l2 ++ (and_group <$> List.filter (fun g => negb (single g)) cgs) /\
    total' = (total + length (concat cgs))%nat /\ subs_of subs subs' (concat cgs).
Proof.
  intros Hn. apply Nat.eqb_neq in Hn.
  induction gs as [|texts gs IH]; intros l1 l2 total subs l1' l2' total' subs' Hne Hr1 Hr2; cbn [add_groups].
  { intros [= <- <- <- <-]. exists []. cbn. rewrite !app_nil_r, Nat.add_0_r. split_and!; auto using subs_of_nil. }
  apply list.Forall_cons in Hne as [Ht Hne]. rewrite Hn, andb_true_r. cbn in Hr1, Hr2.
  destruct (Nat.ltb 1 (length texts)) eqn:El.
  - assert (single texts = false) as Es by (unfold single; apply Nat.leb_gt; by apply Nat.ltb_lt in El).
    rewrite Es in Hr1, Hr2. cbn in Hr1, Hr2. rewrite (proj2 (Nat.ltb_lt _ _)) by lia.
    destruct (add_all _ _ _ _ _ _ texts) as [[[g1 total1] subs1]|] eqn:Ea; [|done]. intros H.
    apply add_all_spec in Ea as (cs & Hcs & -> & -> & Hs1); [|cbn; lia].
    apply IH in H as (cgs & Hg & E1 & E1' & E2 & -> & Hs2); [|done|done|rewrite length_app; cbn; lia].
    exists (cs :: cgs). cbn. rewrite <- (single_length _ _ _ Hcs), Es. cbn.
    split_and!; [by constructor|done|done| |rewrite length_app; lia|by eapply subs_of_app].
    rewrite E2, <- app_assoc. cbn. unfold and_group. by rewrite (Forall2_length Hcs).
  - assert (single texts = true) as Es by (unfold single; apply Nat.leb_le; by apply Nat.ltb_ge in El).
    assert (length texts = 1%nat) as E1 by (unfold single in Es; apply Nat.leb_le in Es; destruct texts; cbn in *; [done|lia]).
    rewrite Es in Hr1, Hr2. cbn in Hr1, Hr2.
    destruct (add_all _ _ _ l1 _ _ texts) as [[[g1 total1] subs1]|] eqn:Ea; [|done]. intros H.
    apply add_all_spec in Ea as (cs & Hcs & -> & -> & Hs1); [|lia].
    assert (length cs = 1%nat) as Ecs by (by rewrite <- (Forall2_length Hcs)).
    apply IH in H as (cgs & Hg & E2 & E2' & E3 & -> & Hs2); [|done|cbn; rewrite length_app; lia|done].
    exists (cs :: cgs). cbn. rewrite <- (single_length _ _ _ Hcs), Es. cbn.
    split_and!; [by constructor|rewrite E2; cbn; by rewrite <- app_assoc|done|done|rewrite length_app; lia|by eapply subs_of_app].
Qed.

(** The numbers [GY_BOOLPARSE] counts. *)
Lemma count_groups_spec n gs : forall nl2 nl1 max1 total nl2' nl1' max1' total', Forall (fun g => g <> []) gs ->
  count_groups n gs nl2 nl1 max1 total = Some (nl2', nl1', max1', total') ->
  total' = (total + length (concat gs))%nat /\
  (1 < n -> nl2' = nl2 + length (List.filter (fun g => negb (single g)) gs) /\
            nl1' = nl1 + length (List.filter single gs))%nat /\
  (n <= 1 -> nl2' = nl2 /\ nl1' = nl1)%nat.
Proof.
  induction gs as [|g gs IH]; intros nl2 nl1 max1 total nl2' nl1' max1' total' Hne; cbn [count_groups].
  { intros [= <- <- <- <-]. cbn. rewrite !Nat.add_0_r. done. }
  apply list.Forall_cons in Hne as [Hg Hne]. do 2 (case_if; [done|]).
  destruct (Nat.ltb 1 n) eqn:En; [destruct (Nat.ltb 1 (length g)) eqn:Eg|];
    intros H; apply IH in H as (-> & H1 & H2); try done; rewrite ?Nat.ltb_lt, ?Nat.ltb_ge in *; cbn [List.filter concat];
    rewrite length_app.
  - assert (single g = false) as -> by (by apply Nat.leb_gt). cbn. destruct H1 as [-> ->]; [done|]. lia.
  - assert (single g = true) as -> by (by apply Nat.leb_le). cbn. destruct H1 as [-> ->]; [done|].
    destruct g; cbn in *; [done|]. lia.
  - destruct H2 as [-> ->]; [done|]. lia.
Qed.

Lemma gy_boolparse_spec terms bp : Forall (fun g => g <> []) terms -> terms <> [] -> gy_boolparse terms = Some bp ->
  groups bp = terms /\ ncritgroups_ bp = length terms /\
  ((length terms = 1%nat /\ is_l1_and_ bp = true /\ nl1_crit_ bp = length (concat terms)) \/
   (length terms <> 1%nat /\ is_l1_and_ bp = false /\
    nl2groups_ bp = length (List.filter (fun g => negb (single g)) terms) /\
    nl1_crit_ bp = length (List.filter single terms))).
Proof.
  intros Hne Hn. unfold gy_boolparse. case_if; [done|].
  destruct (count_groups _ _ _ _ _ _) as [[[[nl2 nl1] max1] total]|] eqn:E; [|done].
  apply count_groups_spec in E as (-> & H1 & H2); [|done].
  destruct terms as [|t [|t2 terms]]; [done| |]; cbn in *.
  - intros [= <-]. cbn. apply list.Forall_cons in Hne as [Ht _]. destruct t; [done|]. cbn. split_and!; [done..|left; done].
  - intros [= <-]. cbn. destruct H1 as [-> ->]; [lia|]. split_and!; [done|done|right; done].
Qed.

Lemma nonempty_made terms cgs : Forall2 (Forall2 made) terms cgs -> Forall (fun g => g <> []) terms ->
  Forall (fun cs => cs <> []) cgs.
Proof.
  induction 1 as [|t cs terms cgs Ht _ IH]; intros Hne; [constructor|]. apply list.Forall_cons in Hne as [Hn Hne].
  constructor; [|by apply IH]. intros ->. by inversion Ht; subst.
Qed.

Lemma populated_one check nl2 texts l1 l2 total subs : texts <> [] ->
  add_groups mk_criterion fnv1_hash check 1 nl2 (CriteriaOneGroup [] (length texts) OPER_AND 1) [] 0 [] [texts] =
    Some (l1, l2, total, subs) -> total <> 0%nat ->
  exists cgs, Forall2 (Forall2 made) [texts] cgs /\ represents (CriteriaSet l1 l2 subs total OPER_AND) cgs.
Proof.
  intros Ht. cbn [add_groups]. change (Nat.eqb 1 1) with true. cbn [negb]. rewrite andb_false_r.
  destruct (add_all _ _ _ _ _ _ texts) as [[[g1 total1] subs1]|] eqn:Eall; [|done]. intros [= <- <- <- <-] Hnz.
  apply add_all_spec in Eall as (cs & Hcs & -> & -> & Hs); [|cbn; lia].
  assert (Forall2 (Forall2 made) [texts] [cs]) as HF by (constructor; [done|constructor]).
  exists [cs]. split; [done|]. unfold represents, subs_of in *. cbn. rewrite app_nil_r.
  split_and!; [by apply (nonempty_made [texts]); [|constructor; [|constructor]]|done|done|set_solver|left; by exists cs].
Qed.

Lemma populated_many check n l1 l2 total subs max1 level terms : Forall (fun g => g <> []) terms -> terms <> [] ->
  (n <> 1)%nat -> (length (List.filter single terms) <= max1)%nat -> total <> 0%nat ->
  add_groups mk_criterion fnv1_hash check n (length (List.filter (fun g => negb (single g)) terms))
    (CriteriaOneGroup [] max1 OPER_OR level) [] 0 [] terms = Some (l1, l2, total, subs) ->
  exists cgs, Forall2 (Forall2 made) terms cgs /\ represents (CriteriaSet l1 l2 subs total OPER_OR) cgs.
Proof.
  intros Hne Hn Hn1 Hmax Hnz Ea.
  apply add_groups_spec in Ea as (cgs & Hcgs & E1 & E1' & E2 & E3 & Hs); [|done|done|done|done].
  exists cgs. split; [done|]. unfold represents, subs_of in *. cbn in *.
  split_and!; [by eapply nonempty_made|intros ->; by inversion Hcgs; subst|done|set_solver|right; done].
Qed.

Lemma populate_represents terms bp allowed mh s : Forall (fun g => g <> []) terms -> terms <> [] ->
  gy_boolparse terms = Some bp -> populate_groups mk_criterion fnv1_hash bp allowed mh = Some s ->
  exists cgs, Forall2 (Forall2 made) terms cgs /\ represents s cgs /\
    (mh = true -> validate_multihost_criteria s = true).
Proof.
  intros Hne Hn Hbp. destruct (gy_boolparse_spec _ _ Hne Hn Hbp) as (Eg & Enc & Hcases).
  unfold populate_groups. rewrite Eg, Enc. case_if; [done|].
  destruct (add_groups _ _ _ _ _ _ _ _ _ _) as [[[[l1 l2] total] subs]|] eqn:Ea; [|done].
  destruct (Nat.eqb total 0) eqn:Et; [done|]. apply Nat.eqb_neq in Et.
  do 2 (case_if; [done|]). destruct (mh && _) eqn:Ev; [done|]. intros [= <-].
  assert (exists cgs, Forall2 (Forall2 made) terms cgs /\ represents (CriteriaSet l1 l2 subs total
    (if is_l1_and_ bp then OPER_AND else OPER_OR)) cgs) as (cgs & H1 & H2);
    [|exists cgs; split_and!; [done|done|intros ->; by apply negb_false_iff in Ev]].
  destruct Hcases as [(H1 & E1 & Hc)|(H1 & E1 & H2 & H3)]; rewrite E1 in *.
  - destruct terms as [|texts [|]]; try done. cbn [concat] in Hc. rewrite app_nil_r in Hc.
    apply list.Forall_cons in Hne as [Ht _]. rewrite Hc, (proj2 (Nat.eqb_neq _ 0)) in Ea by (by destruct texts).
    by eapply populated_one.
  - rewrite H2 in Ea. destruct (Nat.eqb (nl1_crit_ bp) 0) eqn:E0.
    + apply Nat.eqb_eq in E0. apply (populated_many mh (length terms) _ _ _ _ 0 0); try done. lia.
    + apply (populated_many mh (length terms) _ _ _ _ (nl1_crit_ bp) 1); try done. lia.
Qed.
End PopulateSpec.

(** ** Evaluation of a set *)

(** The value of a group whose conditions are all known. *)
Definition group_value (u : CRITERION_ONE -> bool) (g : CRITERIA_ONE_GROUP) : bool :=
  match oper_ g with OPER_OR => existsb u (crits g) | OPER_AND => forallb u (crits g) end.

Definition pass_fail (b : bool) : CRIT_RET_E := if b then CRIT_PASS else CRIT_FAIL.

Lemma combine_or bs : forall nfail, combine_results OPER_OR (pass_fail <$> bs) 0 nfail 0 = pass_fail (existsb id bs).
Proof. induction bs as [|[] bs IH]; intros nfail; [done..|]. apply IH. Qed.

(** A disjunction, by its conjunctions of one condition and the others. *)
Lemma dnf_split u cgs : Forall (fun cs => cs <> []) cgs ->
  dnf u cgs = existsb u (concat (List.filter single cgs)) ||
              existsb (forallb u) (List.filter (fun cs => negb (single cs)) cgs).
Proof.
  unfold dnf. induction 1 as [|cs cgs Hcs _ IH]; [done|]. cbn. rewrite IH.
  destruct (single cs) eqn:E; cbn.
  - destruct cs as [|c [|]]; [done| |done]. cbn. rewrite andb_true_r. by rewrite orb_assoc.
  - by rewrite !orb_assoc, (orb_comm (forallb u cs)).
Qed.

Section EvalSet.
Context (s : CRITERIA_SET) (cgs : list (list CRITERION_ONE)) (Hrep : represents s cgs).

Lemma existsb_fmap {A B} (f : A -> B) (p : B -> bool) l : existsb p (f <$> l) = existsb (fun x => p (f x)) l.
Proof. induction l as [|x l IH]; [done|]. cbn. by rewrite IH. Qed.

(** The disjunction of the values of the groups is that of the conjunctions. *)
Lemma groups_dnf u : l1_oper_ s = OPER_OR -> existsb (group_value u) (set_groups s) = dnf u cgs.
Proof.
  destruct Hrep as (Hne & _ & _ & _ & [(cs & _ & _ & _ & _ & E)|(_ & E1 & E2 & E3)]); [congruence|]. intros _.
  rewrite dnf_split by done. unfold set_groups. rewrite E3, existsb_app, existsb_fmap, <- E2. f_equal.
  unfold group_value. destruct (crits (l1_grp_ s)) eqn:E; [done|].
  cbn [length Nat.eqb existsb]. by rewrite E1, orb_false_r, E.
Qed.

Lemma groups_sub : Forall (fun g => crits g ⊆ concat cgs) (set_groups s).
Proof.
  destruct Hrep as (_ & _ & _ & _ & [(cs & -> & E1 & _ & E2 & _)|(_ & _ & E1 & E2)]); unfold set_groups; rewrite E2.
  - rewrite app_nil_r. case_if; [constructor|]. constructor; [|constructor]. by rewrite E1; cbn; rewrite app_nil_r.
  - apply Forall_app. split.
    + case_if; [constructor|]. constructor; [|constructor]. rewrite E1. intros c. rewrite !list_elem_of_In, !in_concat.
      intros (cs & Hcs & Hc). apply filter_In in Hcs as [Hcs _]. eauto.
    + apply Forall_fmap, List.Forall_forall. intros cs [Hcs _]%filter_In c. cbn.
      rewrite !list_elem_of_In, in_concat. eauto.
Qed.

Context (matchc : CRITERION_ONE -> acc bool) (v : CRITERION_ONE -> bool) (Hev : evaluable matchc v (concat cgs)).

Lemma cache_ok_empty univ : cache_ok v univ ∅.
Proof. intros c b _ H. by rewrite lookup_empty in H. Qed.

(** A set whose groups all pass or fail by the values [u] of the conditions. *)
Lemma match_set_value u allowed : existsb (fun n => bool_decide (n ∈ psubsys_arr_ s)) (default (psubsys_arr_ s) allowed) = true ->
  Forall (fun g => group_result v (fun c => is_subsystem_allowed (subsys_ c) allowed) (oper_ g) (crits g) =
                   pass_fail (group_value u g)) (set_groups s) ->
  match_criteria matchc s allowed = Acc (pass_fail (dnf u cgs)).
Proof.
  intros Hsub Hgs. unfold match_criteria. fold (set_groups s).
  pose proof Hrep as (_ & _ & Htot & _ & Hcases). rewrite (proj2 (Nat.eqb_neq _ 0) Htot).
  assert (match allowed with
     | Some arr => existsb (fun n => existsb (fun x => x =? n) (psubsys_arr_ s)) arr
     | None => true end = true) as ->.
  { destruct allowed as [arr|]; [|done]. cbn in Hsub. rewrite <- Hsub. clear Hsub Hgs. induction arr as [|n arr IH]; [done|].
    cbn. rewrite IH. f_equal. apply eq_iff_eq_true. rewrite bool_decide_eq_true, existsb_exists, list_elem_of_In.
    split; [intros (x & Hx & ->%Z.eqb_eq); done|intros H; exists n; by rewrite Z.eqb_refl]. }
  cbn [negb]. rewrite (set_loop_results matchc v (concat cgs)) by eauto using groups_sub, cache_ok_empty. f_equal.
  erewrite (list_fmap_ext _ (fun g => pass_fail (group_value u g)));
    [|intros i g Hg; by apply (Forall_lookup_1 _ _ _ _ Hgs Hg)].
  destruct (l1_oper_ s) eqn:E.
  - rewrite <- groups_dnf by done. rewrite (list_fmap_compose (group_value u) pass_fail), combine_or. by rewrite existsb_fmap.
  - destruct Hcases as [(cs & -> & E1 & E2 & E3 & _)|(E4 & _)]; [|congruence].
    unfold set_groups, dnf. rewrite E1, E3, app_nil_r. destruct Hrep as (Hne & _).
    apply list.Forall_cons in Hne as [Hcs _]. rewrite (proj2 (Nat.eqb_neq _ 0)) by (by destruct cs).
    cbn. unfold group_value. rewrite E2, E1, orb_false_r. by destruct (forallb u cs).
Qed.

Lemma filter_all {A} (p : A -> bool) l : (forall x, x ∈ l -> p x = true) -> List.filter p l = l.
Proof. induction l as [|x l IH]; intros H; [done|]. cbn. rewrite H by (by left). f_equal. apply IH. intros; apply H; by right. Qed.

(** With every subsystem, every group passes or fails. *)
Lemma group_result_all g : crits g <> [] ->
  group_result v (fun _ => true) (oper_ g) (crits g) = pass_fail (group_value v g).
Proof.
  intros Hg. unfold group_result, group_value, pass_fail.
  rewrite filter_all by done.
  assert (forallb (fun _ : CRITERION_ONE => true) (crits g) = true) as -> by (by apply forallb_forall).
  destruct (crits g) as [|c l]; [done|]. destruct (oper_ g); cbn [length Nat.eqb negb orb]; [done|].
  by destruct (forallb v (c :: l)).
Qed.

Lemma groups_nonempty : Forall (fun g => crits g <> []) (set_groups s).
Proof.
  destruct Hrep as (Hne & _ & _ & _ & Hcases). unfold set_groups. apply Forall_app. split.
  - destruct (crits (l1_grp_ s)) eqn:E; [constructor|]. constructor; [by rewrite E|constructor].
  - destruct Hcases as [(cs & _ & _ & _ & E3 & _)|(_ & _ & _ & E3)]; rewrite E3; [constructor|].
    apply Forall_fmap, List.Forall_forall. intros cs [Hcs _]%filter_In. cbn.
    rewrite List.Forall_forall in Hne. by apply Hne.
Qed.

Lemma match_set_all : match_criteria matchc s None = Acc (pass_fail (dnf v cgs)).
Proof.
  apply match_set_value; cbn.
  - destruct Hrep as (Hne & Hn & _ & Hsubs & _). destruct cgs as [|[|c cs] rest]; [done|by apply list.Forall_cons in Hne as [Hne _]|].
    apply existsb_exists. exists (subsys_ c). split; [apply list_elem_of_In|apply bool_decide_eq_true]; apply Hsubs;
      exists c; (split; [by left|done]).
  - eapply list.Forall_impl; [apply groups_nonempty|]. cbn. apply group_result_all.
Qed.
End EvalSet.

(** ** The conditions on the host first

    A query over many hosts is first evaluated with the conditions on the host
    only, to choose the hosts.  [validate_multihost_criteria] rejects the sets for
    which this would not be right. *)
Lemma has_subsystem_any subsys l : forall i bret,
  has_subsystem_loop subsys false i bret l = bret || existsb (fun x => x =? subsys) l.
Proof.
  induction l as [|x l IH]; intros i bret; cbn; [by rewrite orb_false_r|].
  destruct (x =? subsys); cbn; [by rewrite orb_true_r|]. by rewrite andb_false_r, IH.
Qed.

Lemma has_subsystem_all subsys l : l <> [] ->
  has_subsystem_loop subsys true 0 false l = forallb (fun x => x =? subsys) l.
Proof.
  assert (forall i, has_subsystem_loop subsys true i true l = forallb (fun x => x =? subsys) l) as H1.
  { induction l as [|x l IH]; intros i; [done|]. cbn. by destruct (x =? subsys). }
  assert (forall i, has_subsystem_loop subsys true (S i) false l = false) as H2.
  { clear H1. induction l as [|x l IH]; intros i; [done|]. cbn. by destruct (x =? subsys). }
  destruct l as [|x l]; [done|]. intros _. specialize (H1 0%nat). specialize (H2 0%nat). cbn in *.
  destruct (x =? subsys); [done|]. clear H1 H2. generalize 0%nat.
  induction l as [|y l IH]; intros i; [done|]. cbn. by destruct (y =? subsys).
Qed.

(** A condition of another subsystem may hold. *)
Definition host_value (v : CRITERION_ONE -> bool) (c : CRITERION_ONE) : bool :=
  if subsys_ c =? SUBSYS_HOST then v c else true.

Definition is_host (c : CRITERION_ONE) : bool := is_subsystem_allowed (subsys_ c) (Some [SUBSYS_HOST]).

Lemma is_host_spec c : is_host c = (subsys_ c =? SUBSYS_HOST).
Proof. unfold is_host. cbn. by rewrite orb_false_r. Qed.

Lemma forallb_host v cs : forallb (host_value v) cs = forallb v (List.filter is_host cs).
Proof.
  induction cs as [|c cs IH]; [done|]. cbn [forallb List.filter]. rewrite IH, is_host_spec. unfold host_value.
  by destruct (subsys_ c =? SUBSYS_HOST).
Qed.

(** A group with a condition on the host, all of whose conditions are on the host
    where it is a disjunction, passes or fails. *)
Definition host_group (g : CRITERIA_ONE_GROUP) : bool :=
  match oper_ g with
  | OPER_OR => forallb is_host (crits g)
  | OPER_AND => existsb is_host (crits g)
  end.

Lemma group_result_host v g : crits g <> [] -> host_group g = true ->
  group_result v is_host (oper_ g) (crits g) = pass_fail (group_value (host_value v) g).
Proof.
  intros Hg Hh. unfold group_result, group_value, host_group in *. destruct (oper_ g).
  - assert (forall c, c ∈ crits g -> is_host c = true) as Hall.
    { intros c Hc. rewrite forallb_forall in Hh. by apply Hh, list_elem_of_In. }
    rewrite filter_all, Hh by done. destruct (crits g) as [|c0 l] eqn:E; [done|]. cbn [length Nat.eqb negb orb].
    assert (existsb v (c0 :: l) = existsb (host_value v) (c0 :: l)) as ->; [|by destruct (existsb _ _)].
    clear Hg Hh E. induction (c0 :: l) as [|c l' IH]; [done|]. cbn. rewrite IH by (intros; apply Hall; by right).
    specialize (Hall c ltac:(by left)). rewrite is_host_spec in Hall. unfold host_value. by rewrite Hall.
  - rewrite forallb_host. apply existsb_exists in Hh as (c & Hc & Hch).
    destruct (List.filter is_host (crits g)) eqn:E.
    + exfalso. assert (In c (List.filter is_host (crits g))) as H by (by apply filter_In). by rewrite E in H.
    + cbn [length Nat.eqb]. by destruct (forallb v (c0 :: l)).
Qed.

Section HostPhase.
Context (s : CRITERIA_SET) (cgs : list (list CRITERION_ONE)) (Hrep : represents s cgs).
Context (matchc : CRITERION_ONE -> acc bool) (v : CRITERION_ONE -> bool) (Hev : evaluable matchc v (concat cgs)).

Lemma existsb_is_host cs : existsb (fun x => x =? SUBSYS_HOST) (subsys_ <$> cs) = existsb is_host cs.
Proof. rewrite existsb_fmap. induction cs as [|c cs IH]; [done|]. cbn. by rewrite IH, orb_false_r. Qed.
Lemma forallb_is_host cs : forallb (fun x => x =? SUBSYS_HOST) (subsys_ <$> cs) = forallb is_host cs.
Proof. induction cs as [|c cs IH]; [done|]. cbn. by rewrite IH, orb_false_r. Qed.

Lemma set_has_host : set_has_subsystem s SUBSYS_HOST false = existsb is_host (concat cgs).
Proof.
  unfold set_has_subsystem. rewrite has_subsystem_any. cbn [orb]. apply eq_iff_eq_true. rewrite !existsb_exists.
  destruct Hrep as (_ & _ & _ & Hs & _). split.
  - intros (x & Hx & ->%Z.eqb_eq). apply list_elem_of_In, Hs in Hx as (c & Hc & E). exists c.
    rewrite is_host_spec, E. split; [by apply list_elem_of_In|done].
  - intros (c & Hc & Hh). rewrite is_host_spec in Hh. exists (subsys_ c). split; [|done].
    apply list_elem_of_In, Hs. exists c. split; [by apply list_elem_of_In|done].
Qed.

(** What a valid set with a condition on the host looks like. *)
Lemma validated_groups : validate_multihost_criteria s = true -> existsb is_host (concat cgs) = true ->
  Forall (fun g => host_group g = true) (set_groups s).
Proof.
  intros Hval Hhost. pose proof Hrep as (Hne & _ & Htot & _ & Hcases). unfold validate_multihost_criteria in Hval.
  rewrite (proj2 (Nat.eqb_neq _ 0) Htot), set_has_host, Hhost in Hval. cbn [orb negb] in Hval.
  destruct Hcases as [(cs & -> & E1 & E2 & E3 & E4)|(E4 & E1 & E2 & E3)].
  - unfold set_groups. rewrite E3, app_nil_r. case_if; [constructor|]. constructor; [|constructor].
    unfold host_group. rewrite E2, E1. cbn [concat] in Hhost. by rewrite app_nil_r in Hhost.
  - rewrite E4 in Hval. rewrite bool_decide_true in Hval by done. rewrite !andb_true_r in Hval.
    case_if_in Hval; [done|]. unfold set_groups. apply Forall_app. split.
    + destruct (crits (l1_grp_ s)) as [|c l] eqn:El; [constructor|]. constructor; [|constructor].
      unfold group_has_subsystem in Heqb. rewrite El in Heqb. cbn [length Nat.eqb negb andb] in Heqb.
      apply negb_false_iff in Heqb. rewrite has_subsystem_all, forallb_is_host in Heqb by done.
      unfold host_group. by rewrite E1, El.
    + apply negb_true_iff in Hval. apply List.Forall_forall. intros g Hg. unfold host_group.
      destruct (group_has_subsystem g SUBSYS_HOST false) eqn:Eh.
      * unfold group_has_subsystem in Eh. rewrite has_subsystem_any, existsb_is_host in Eh. cbn [orb] in Eh.
        rewrite E3 in Hg. apply in_map_iff in Hg as (cs & <- & _). done.
      * exfalso. assert (existsb (fun g => negb (group_has_subsystem g SUBSYS_HOST false) && true) (l2_grps s) = true)
          as Hx by (apply existsb_exists; exists g; by rewrite Eh). congruence.
Qed.

Lemma host_phase : validate_multihost_criteria s = true ->
  match_criteria matchc s (Some [SUBSYS_HOST]) =
  Acc (if existsb is_host (concat cgs) then pass_fail (dnf (host_value v) cgs) else CRIT_SKIP).
Proof.
  intros Hval. destruct (existsb is_host (concat cgs)) eqn:Eh.
  - apply (match_set_value s cgs Hrep matchc v Hev).
    + pose proof set_has_host as E. rewrite Eh in E. unfold set_has_subsystem in E. rewrite has_subsystem_any in E.
      cbn [orb default existsb] in *. apply orb_true_iff. left. apply bool_decide_eq_true.
      apply existsb_exists in E as (x & Hx & ->%Z.eqb_eq). by apply list_elem_of_In.
    + apply List.Forall_forall. intros g Hg. apply (group_result_host v).
      * pose proof (groups_nonempty s cgs Hrep) as H. rewrite List.Forall_forall in H. by apply H.
      * pose proof (validated_groups Hval Eh) as H. rewrite List.Forall_forall in H. by apply H.
  - unfold match_criteria. pose proof Hrep as (_ & _ & Htot & _). rewrite (proj2 (Nat.eqb_neq _ 0) Htot).
    pose proof set_has_host as E. rewrite Eh in E. unfold set_has_subsystem in E. rewrite has_subsystem_any in E.
    cbn [orb existsb] in *. by rewrite E.
Qed.

(** The value with the conditions on the host only is the largest one of all the
    values that agree on these. *)
Lemma host_value_largest : dnf (host_value v) cgs = false <->
  forall v', (forall c, subsys_ c = SUBSYS_HOST -> v' c = v c) -> dnf v' cgs = false.
Proof.
  split.
  - intros H v' Hv'. unfold dnf in *. destruct (existsb (forallb v') cgs) eqn:E; [|done].
    apply existsb_exists in E as (cs & Hcs & Hall). rewrite <- H. symmetry. apply existsb_exists. exists cs. split; [done|].
    apply forallb_forall. intros c Hc. rewrite forallb_forall in Hall. specialize (Hall c Hc). unfold host_value.
    case_if; [|done]. breflect. by rewrite <- Hv'.
  - intros H. apply H. intros c Hc. unfold host_value. by rewrite Hc.
Qed.
End HostPhase.

(** ** Theorems *)

(** C12 : a filter evaluates to its disjunctive normal form: for the terms of the
    parsed filter, the set made from them passes if all the conditions of one of
    the terms hold and fails otherwise, whatever the cache of results and the early
    exits do, provided that the conditions are evaluated without undefined
    operations and that conditions with equal hashes have equal results. *)
Theorem match_criteria_is_dnf mk_criterion fnv1_hash terms bp allowed mh s matchc v :
  Forall (fun g => g <> []) terms -> terms <> [] -> gy_boolparse terms = Some bp ->
  populate_groups mk_criterion fnv1_hash bp allowed mh = Some s ->
  (forall t c, t ∈ concat terms -> made mk_criterion fnv1_hash t c -> matchc c = Acc (v c)) ->
  (forall t1 t2 c1 c2, t1 ∈ concat terms -> t2 ∈ concat terms -> made mk_criterion fnv1_hash t1 c1 ->
     made mk_criterion fnv1_hash t2 c2 -> hash_ c1 = hash_ c2 -> v c1 = v c2) ->
  exists cgs, Forall2 (Forall2 (made mk_criterion fnv1_hash)) terms cgs /\
    match_criteria matchc s None = Acc (pass_fail (dnf v cgs)).
Proof.
  intros Hne Hn Hbp Hpop Hm Hh.
  destruct (populate_represents _ _ _ _ _ _ _ Hne Hn Hbp Hpop) as (cgs & Hmade & Hrep & _).
  exists cgs. split; [done|]. apply (match_set_all s cgs Hrep).
  assert (forall c, c ∈ concat cgs -> exists t, t ∈ concat terms /\ made mk_criterion fnv1_hash t c) as Hin.
  { clear -Hmade. intros c. induction Hmade as [|ts cs terms cgs Hts _ IH]; cbn; [set_solver|].
    rewrite elem_of_app. intros [Hc|Hc]; [|destruct (IH Hc) as (t & ? & ?); exists t; set_solver].
    apply list_elem_of_lookup in Hc as (i & Hi). destruct (Forall2_lookup_r _ _ _ _ _ Hts Hi) as (t & Ht & ?).
    exists t. split; [|done]. apply elem_of_app. left. by eapply list_elem_of_lookup_2. }
  split.
  - intros c Hc. destruct (Hin c Hc) as (t & ? & ?). eauto.
  - intros c1 c2 H1 H2. destruct (Hin c1 H1) as (t1 & ? & ?), (Hin c2 H2) as (t2 & ? & ?). eauto.
Qed.

(** C32 : for a set that was validated for a query over many hosts, the evaluation
    of only the conditions on the host fails exactly when no results of the other
    conditions can make the filter pass, so that a host can be left out. *)
Theorem host_phase_definite s cgs matchc v : represents s cgs -> validate_multihost_criteria s = true ->
  evaluable matchc v (concat cgs) ->
  match_criteria matchc s (Some [SUBSYS_HOST]) = Acc CRIT_FAIL <->
  forall v', (forall c, subsys_ c = SUBSYS_HOST -> v' c = v c) -> dnf v' cgs = false.
Proof.
  intros Hrep Hval Hev. rewrite (host_phase s cgs Hrep matchc v Hev Hval), <- host_value_largest.
  destruct (existsb is_host (concat cgs)) eqn:Eh.
  - by destruct (dnf (host_value v) cgs).
  - split; [done|]. intros H. exfalso. destruct Hrep as (Hne & Hn & _). destruct cgs as [|cs rest]; [done|].
    cbn in H. apply orb_false_iff in H as [H _]. rewrite forallb_host in H.
    destruct (List.filter is_host cs) eqn:E; [done|]. assert (In c (List.filter is_host cs)) as Hc by (rewrite E; by left).
    apply filter_In in Hc as [Hc Hch]. assert (existsb is_host (concat (cs :: rest)) = true); [|congruence].
    apply existsb_exists. exists c. split; [|done]. apply in_concat. exists cs. split; [by left|done].
Qed.
