(* ===== verification/StrNum.v ===== *)
(** * StrNum : numbers in text ([string_to_number] of common/gy_common_inc.h).

    Integers and doubles are written as [printf] does, and read as [strtol] with base
    0 or 10 and [strtod] do, from a string that ends with its last byte (or with a 0
    byte, which no number contains).  What is read comes with the number of bytes
    used; 0 bytes stand for no conversion. *)
From Stdlib Require Import SpecFloat String Ascii.
From S2P Require Import Prelude Bytes Doubles Criterion.

#[local] Open Scope Z_scope.

(** The bytes of a string literal. *)
Definition str (s : string) : list Z := (fun a => Z.of_N (N_of_ascii a)) <$> list_ascii_of_string s.

(** ** Formats of the C library *)

(** [%d] and [%ld]. *)
Fixpoint digits_loop (fuel : nat) (z : Z) (acc : list Z) : list Z :=
  match fuel with
  | O => acc
  | S fuel' =>
      let acc := (48 + z mod 10) :: acc in
      if z / 10 =? 0 then acc else digits_loop fuel' (z / 10) acc
  end.
Definition digits (z : Z) : list Z := digits_loop (S (Z.to_nat (Z.log2 z))) z [].
Definition fmt_d (z : Z) : list Z := if z <? 0 then 45 :: digits (- z) else digits z.

(** [%.<p>g]: the value [n / d] rounded to [p] decimal digits, with the exponent of
    the first. *)
Fixpoint find_exp (fuel : nat) (x n d : Z) : Z :=
  match fuel with
  | O => x
  | S fuel' => if (if 0 <=? x then 10 ^ x * d <=? n else d <=? n * 10 ^ (- x)) then x else find_exp fuel' (x - 1) n d
  end.
Definition round_half_even (n d : Z) : Z :=
  let q := n / d in
  let r := n mod d in
  if (2 * r >? d) || (2 * r =? d) && Z.odd q then q + 1 else q.
Definition scale (p n d : Z) : Z * Z :=
  let x := find_exp 640 308 n d in
  let k := x - p + 1 in
  let q := if 0 <=? k then round_half_even n (d * 10 ^ k) else round_half_even (n * 10 ^ (- k)) d in
  if q =? 10 ^ p then (10 ^ (p - 1), x + 1) else (q, x).

Fixpoint strip_zeros (l : list Z) : list Z :=
  match l with 48 :: l' => strip_zeros l' | _ => l end.
(** Digits behind the point, without the zeros at the end. *)
Definition fraction (ds : list Z) : list Z :=
  let ds := reverse (strip_zeros (reverse ds)) in
  if ds is [] then [] else 46 :: ds.
Definition fmt_exp (x : Z) : list Z :=
  101 :: (if x <? 0 then 45 else 43) :: (if Z.abs x <? 10 then 48 :: digits (Z.abs x) else digits (Z.abs x)).

Definition fmt_g (p : Z) (v : dbl) : list Z :=
  match v with
  | S754_zero s => if s then str "-0" else str "0"
  | S754_infinity s => if s then str "-inf" else str "inf"
  | S754_nan => str "nan"
  | S754_finite s m e =>
      let '(q, x) := if 0 <=? e then scale p (Z.pos m * 2 ^ e) 1 else scale p (Z.pos m) (2 ^ (- e)) in
      let ds := digits q in
      (if s then [45] else []) ++
      (if (x <? -4) || (p <=? x) then take 1 ds ++ fraction (drop 1 ds) ++ fmt_exp x
       else if x <? 0 then 48 :: fraction (replicate (Z.to_nat (- x - 1)) 48 ++ ds)
       else take (Z.to_nat (x + 1)) ds ++ fraction (drop (Z.to_nat (x + 1)) ds))
  end.

(** ** Characters *)
Definition is_space_tab (c : Z) : bool := (c =? 32) || (c =? 9).
Definition isspace (c : Z) : bool := (c =? 32) || (9 <=? c) && (c <=? 13).
Definition isdigit (c : Z) : bool := (48 <=? c) && (c <=? 57).
Definition isalpha (c : Z) : bool := (65 <=? c) && (c <=? 90) || (97 <=? c) && (c <=? 122).
Definition gy_tolower_ascii (c : Z) : Z := if (65 <=? c) && (c <=? 90) then c + 32 else c.

(** The value of a digit, up to base 36. *)
Definition digit_val (c : Z) : Z :=
  if isdigit c then c - 48 else if isalpha c then gy_tolower_ascii c - 97 + 10 else 36.

(** The longest prefix whose characters satisfy [p]. *)
Fixpoint span (p : Z -> bool) (l : list Z) : list Z * list Z :=
  match l with
  | [] => ([], [])
  | c :: l' => if p c then let '(a, b) := span p l' in (c :: a, b) else ([], l)
  end.
Definition skip (p : Z -> bool) (l : list Z) : list Z := (span p l).2.

(** The character at the start, 0 at the end of the string. *)
Definition char0 (l : list Z) : Z := default 0 (head l).

Definition digits_val (base : Z) (ds : list Z) : Z := fold_left (fun v c => v * base + digit_val c) ds 0.

(** ** strtol *)
Definition LONG_MAX : Z := 2 ^ 63 - 1.
Definition LONG_MIN : Z := - 2 ^ 63.

(** The value, the bytes used, and whether the value was out of range. *)
Definition strtol (base0 : Z) (s : list Z) : Z * nat * bool :=
  let s1 := skip isspace s in
  let neg := char0 s1 =? 45 in
  let s2 := if neg || (char0 s1 =? 43) then drop 1 s1 else s1 in
  let hex := ((base0 =? 0) || (base0 =? 16)) && (char0 s2 =? 48) && (gy_tolower_ascii (char0 (drop 1 s2)) =? 120) &&
             (digit_val (char0 (drop 2 s2)) <? 16) in
  let base := if base0 =? 0 then (if hex then 16 else if char0 s2 =? 48 then 8 else 10) else base0 in
  let s3 := if hex then drop 2 s2 else s2 in
  let '(ds, rest) := span (fun c => digit_val c <? base) s3 in
  if ds is [] then (0, 0%nat, false) else
  let v := if neg then - digits_val base ds else digits_val base ds in
  let used := (length s - length rest)%nat in
  if v >? LONG_MAX then (LONG_MAX, used, true) else
  if v <? LONG_MIN then (LONG_MIN, used, true) else (v, used, false).

(** ** strtod *)
Definition is_hexdigit (c : Z) : bool := digit_val c <? 16.

(** [m * 10^e], correctly rounded. *)
Definition dbl_of_decimal (m e : Z) : dbl :=
  match m with
  | Z.pos p => if 0 <=? e then dbl_of_int (m * 10 ^ e) else ddiv (S754_finite false p 0) (S754_finite false (Z.to_pos (10 ^ (- e))) 0)
  | _ => S754_zero false
  end.
Definition dbl_of_binary (m e : Z) : dbl := binary_normalize 53 1024 m e false.

(** An exponent behind the letter [mark], with the value and the rest. *)
Definition exponent (mark : Z) (s : list Z) : Z * list Z :=
  if negb (gy_tolower_ascii (char0 s) =? mark) then (0, s) else
  let s1 := drop 1 s in
  let neg := char0 s1 =? 45 in
  let s2 := if neg || (char0 s1 =? 43) then drop 1 s1 else s1 in
  let '(ds, rest) := span isdigit s2 in
  if ds is [] then (0, s) else (if neg then - digits_val 10 ds else digits_val 10 ds, rest).

(** Digits with an optional point: the digits without it, the number of those
    behind it, and the rest. *)
Definition mantissa (isd : Z -> bool) (s : list Z) : list Z * nat * list Z :=
  let '(a, r) := span isd s in
  if char0 r =? 46 then
    let '(b, r') := span isd (drop 1 r) in
    if (a ++ b) is [] then ([], 0%nat, s) else (a ++ b, length b, r')
  else (a, 0%nat, r).

Definition lower_prefix (p s : list Z) : bool := is_prefix p (gy_tolower_ascii <$> s).

Definition is_nchar (c : Z) : bool := isalpha c || isdigit c || (c =? 95).

Definition strtod_abs (s : list Z) : dbl * list Z :=
  let '(hds, hfrac, hrest) := mantissa is_hexdigit (drop 2 s) in
  if lower_prefix [48; 120] s && negb (Nat.eqb (length hds) 0) then
    let '(e, rest) := exponent 112 hrest in
    (dbl_of_binary (digits_val 16 hds) (e - 4 * Z.of_nat hfrac), rest)
  else
    let '(ds, frac, rest) := mantissa isdigit s in
    if negb (Nat.eqb (length ds) 0) then
      let '(e, rest) := exponent 101 rest in
      (dbl_of_decimal (digits_val 10 ds) (e - Z.of_nat frac), rest)
    else if lower_prefix [105; 110; 102; 105; 110; 105; 116; 121] s then (S754_infinity false, drop 8 s)
    else if lower_prefix [105; 110; 102] s then (S754_infinity false, drop 3 s)
    else if lower_prefix [110; 97; 110] s then
      (S754_nan, match drop 3 s with
                 | 40 :: r => let r' := skip is_nchar r in if char0 r' =? 41 then drop 1 r' else drop 3 s
                 | r => r end)
    else (S754_nan, s).

(** The digits of a number, other than 0. *)
Definition nonzero_digits (s : list Z) : bool :=
  let '(hds, _, _) := mantissa is_hexdigit (drop 2 s) in
  let '(ds, _, _) := mantissa isdigit s in
  existsb (fun c => negb (c =? 48)) (if lower_prefix [48; 120] s && negb (Nat.eqb (length hds) 0) then hds else ds).

(** The value, the bytes used, and whether it overflowed or is a number other than 0
    too small for a normal double. *)
Definition strtod (s : list Z) : dbl * nat * bool :=
  let s1 := skip isspace s in
  let neg := char0 s1 =? 45 in
  let s2 := if neg || (char0 s1 =? 43) then drop 1 s1 else s1 in
  let '(v, rest) := strtod_abs s2 in
  if Nat.eqb (length rest) (length s2) then (S754_zero false, 0%nat, false) else
  let erange := match v with
    | S754_infinity _ => isdigit (char0 s2) || (char0 s2 =? 46)
    | S754_zero _ => nonzero_digits s2
    | S754_finite _ m _ => Z.pos m <? 2 ^ 52
    | S754_nan => false end in
  ((if neg then SFopp v else v), (length s - length rest)%nat, erange).

(** ** string_to_number *)
Definition string_to_int64 (s : list Z) : option (Z * nat) :=
  let '(v, used, erange) := strtol 0 s in
  if erange || Nat.eqb used 0 then None else Some (v, used).

(** For [int8_t], [int16_t] and [int32_t], whose largest and smallest values are
    rejected. *)
Definition string_to_int (w : Z) (s : list Z) : option (Z * nat) :=
  let '(v, used, erange) := strtol 0 s in
  if erange || (v >=? 2 ^ (w - 1) - 1) || (v <=? - 2 ^ (w - 1)) || Nat.eqb used 0 then None else Some (v, used).

Definition string_to_double (s : list Z) : option (dbl * nat) :=
  let '(v, used, erange) := strtod s in
  if erange && (match v with S754_infinity neg => negb neg | S754_zero _ => true | _ => false end) || Nat.eqb used 0
  then None else Some (v, used).

(** ** Integers written and read back *)
Lemma digit_char z : 0 <= z < 10 -> isdigit (48 + z) = true /\ digit_val (48 + z) = z.
Proof.
  intros Hz. assert (isdigit (48 + z) = true) as H by (unfold isdigit; apply andb_true_iff; split; apply Z.leb_le; lia).
  split; [done|]. unfold digit_val. rewrite H. lia.
Qed.

Lemma digits_loop_acc fuel : forall z acc, digits_loop fuel z acc = digits_loop fuel z [] ++ acc.
Proof.
  induction fuel as [|fuel IH]; intros z acc; cbn; [done|]. case_if; [done|].
  rewrite IH, (IH _ [_]), <- app_assoc. done.
Qed.

Lemma digits_val_snoc base ds c : digits_val base (ds ++ [c]) = digits_val base ds * base + digit_val c.
Proof. unfold digits_val. by rewrite fold_left_app. Qed.

Lemma digits_loop_spec fuel : forall z, 0 <= z < 10 * 2 ^ Z.of_nat fuel ->
  let ds := digits_loop (S fuel) z [] in
  digits_val 10 ds = z /\ Forall (fun c => isdigit c = true) ds /\ ds <> [].
Proof.
  induction fuel as [|fuel IH]; intros z Hz ds; unfold ds; clear ds.
  - change (10 * 2 ^ Z.of_nat 0) with 10 in Hz. cbn [digits_loop]. rewrite Z.div_small, Z.mod_small by done.
    destruct (digit_char z Hz) as [Hd Hv]. cbn [Z.eqb]. unfold digits_val. cbn [fold_left]. rewrite Hv.
    split_and!; [lia|by repeat constructor|done].
  - change (digits_loop (S (S fuel)) z [])
      with (if z / 10 =? 0 then [48 + z mod 10] else digits_loop (S fuel) (z / 10) [48 + z mod 10]).
    assert (0 <= z mod 10 < 10) as Hm by (apply Z.mod_pos_bound; lia). destruct (digit_char (z mod 10) Hm) as [Hd Hv].
    case_if; breflect.
    + split_and!; [|by repeat constructor|done]. unfold digits_val. cbn [fold_left]. rewrite Hv. zdiv.
    + rewrite digits_loop_acc. rewrite Nat2Z.inj_succ, Z.pow_succ_r in Hz by lia.
      destruct (IH (z / 10)) as (E & HF & Hne); [zdiv|]. split_and!.
      * rewrite digits_val_snoc, E, Hv. zdiv.
      * apply Forall_app. split; [done|by repeat constructor].
      * by destruct (digits_loop (S fuel) (z / 10) []).
Qed.

Lemma digits_spec z : 0 <= z -> digits_val 10 (digits z) = z /\ Forall (fun c => isdigit c = true) (digits z) /\ digits z <> [].
Proof.
  intros Hz. apply digits_loop_spec. split; [done|]. destruct (Z.eq_dec z 0) as [->|Hn]; [done|].
  pose proof (Z.log2_nonneg z). rewrite Z2Nat.id by done. pose proof (Z.log2_spec z ltac:(lia)) as [_ Hl].
  rewrite Z.pow_succ_r in Hl by done. lia.
Qed.

Lemma span_all p a : Forall (fun c => p c = true) a -> span p a = (a, []).
Proof. induction 1 as [|c a Hc _ IH]; cbn; [done|]. by rewrite Hc, IH. Qed.

Lemma char0_digit ds : Forall (fun c => isdigit c = true) ds -> ds <> [] -> isdigit (char0 ds) = true.
Proof. by destruct 1. Qed.

Lemma isdigit_range c : isdigit c = true <-> 48 <= c <= 57.
Proof. unfold isdigit. rewrite andb_true_iff, !Z.leb_le. lia. Qed.

(** The digits of a number are not the start of a hexadecimal one. *)
Lemma digits_not_hex ds : Forall (fun c => isdigit c = true) ds -> lower_prefix [48; 120] ds = false.
Proof.
  intros H. unfold lower_prefix. destruct H as [|c ds Hc H]; [done|]. cbn [is_prefix fmap list_fmap].
  destruct H as [|c2 ds Hc2 _]; cbn [is_prefix fmap list_fmap]; [apply andb_false_r|].
  apply isdigit_range in Hc2. unfold gy_tolower_ascii at 2. case_if; breflect; [lia|].
  rewrite (proj2 (Z.eqb_neq 120 c2)) by lia. apply andb_false_r.
Qed.

Lemma strtod_abs_digits k : 0 <= k -> strtod_abs (digits k) = (dbl_of_decimal k 0, []).
Proof.
  intros Hk. destruct (digits_spec k Hk) as (E & HF & Hne). unfold strtod_abs.
  destruct (mantissa is_hexdigit (drop 2 (digits k))) as [[hds hfrac] hrest]. rewrite digits_not_hex by done. cbn [andb].
  unfold mantissa. rewrite span_all by done. cbn [char0 head default Z.eqb].
  assert (negb (Nat.eqb (length (digits k)) 0) = true) as -> by (by destruct (digits k)).
  cbn [exponent char0 head default gy_tolower_ascii]. change (exponent 101 []) with (0, @nil Z). by rewrite E.
Qed.

Lemma skip_digits ds : Forall (fun c => isdigit c = true) ds -> ds <> [] -> skip isspace ds = ds.
Proof.
  intros H Hne. destruct H as [|c ds Hc _]; [done|]. unfold skip. cbn [span]. apply isdigit_range in Hc.
  assert (isspace c = false) as ->; [|done]. unfold isspace. apply orb_false_iff. split; [apply Z.eqb_neq; lia|].
  apply andb_false_iff. right. apply Z.leb_gt. lia.
Qed.

(** A normal or zero result of the conversion. *)
Lemma dbl_of_decimal_int k : 0 <= k < 2 ^ 53 -> dbl_of_decimal k 0 = dbl_of_int k /\
  match dbl_of_int k with S754_zero s => k = 0 /\ s = false | S754_finite s m e => 2 ^ 52 <= Z.pos m | _ => False end.
Proof.
  intros Hk. destruct k as [|p|p]; [done| |lia]. split; [cbn [dbl_of_decimal Z.leb Z.compare]; by rewrite Z.mul_1_r|].
  unfold dbl_of_int, binary_normalize. destruct (binary_round_small false p ltac:(lia)) as (m & e & E & He & Em & Hn). by rewrite E.
Qed.

(** An integer of up to 53 bits, written in decimal, is read back as the double of this
    integer, with all its bytes used. *)
Lemma string_to_double_of_int k : - 2 ^ 53 < k < 2 ^ 53 -> k <> 0 ->
  string_to_double (fmt_d k) = Some (dbl_of_int k, length (fmt_d k)).
Proof.
  intros Hk Hn. unfold string_to_double, strtod, fmt_d.
  assert (forall a, 0 < a < 2 ^ 53 -> digits a <> [] /\ strtod_abs (digits a) = (dbl_of_int a, []) /\
    match dbl_of_int a with S754_finite s m e => (Z.pos m <? 2 ^ 52) = false | _ => False end /\
    skip isspace (digits a) = digits a /\ (char0 (digits a) =? 45) = false /\ (char0 (digits a) =? 43) = false) as Ha.
  { intros a Ha. destruct (digits_spec a) as (E & HF & Hne); [lia|].
    destruct (dbl_of_decimal_int a) as [E1 E2]; [lia|]. pose proof (char0_digit _ HF Hne) as Hc. apply isdigit_range in Hc.
    rewrite strtod_abs_digits, E1 by lia. split_and!; auto using skip_digits; [|apply Z.eqb_neq; lia|apply Z.eqb_neq; lia].
    destruct (dbl_of_int a); try done; [lia|]. apply Z.ltb_ge. lia. }
  destruct (Z.ltb_spec k 0).
  - destruct (Ha (- k)) as (H1 & H2 & H3 & H4 & _); [lia|].
    assert (skip isspace (45 :: digits (- k)) = 45 :: digits (- k)) as -> by done. cbv zeta.
    change (char0 (45 :: digits (- k)) =? 45) with true. change (drop 1 (45 :: digits (- k))) with (digits (- k)). cbn [orb]. rewrite H2.
    assert (dbl_of_int k = SFopp (dbl_of_int (- k))) as -> by (rewrite dbl_of_int_opp, Z.opp_involutive by lia; done).
    destruct (dbl_of_int (- k)) as [| | |s m e] eqn:Ed; try done. rewrite H3. cbn [andb orb length].
    assert (Nat.eqb 0 (length (digits (- k))) = false) as -> by (by destruct (digits (- k))). done.
  - destruct (Ha k) as (H1 & H2 & H3 & H4 & H5 & H6); [lia|]. rewrite H4, H5, H6. cbn [orb]. rewrite H2.
    destruct (dbl_of_int k) as [| | |s m e] eqn:Ed; try done. rewrite H3. cbn [andb orb length].
    assert (Nat.eqb 0 (length (digits k)) = false) as -> by (by destruct (digits k)).
    rewrite Nat.sub_0_r. cbn [orb]. by destruct (digits k).
Qed.
