(* ===== verification/CriteriaSql.v ===== *)
(** * CriteriaSql : filters as conditions of an SQL query (the [set_db_filter]
    methods and [get_db_filter_criteria] of common/gy_query_criteria.h).

    The text is built from pieces ([tok]) whose texts are appended to the query, so
    that what it means can be stated on the pieces.  An exception is [None]. *)
From Stdlib Require Import SpecFloat String.
From S2P Require Import Prelude Bytes Doubles Criterion CriteriaSet StrNum.

#[local] Open Scope Z_scope.

(** ** Values *)
Definition quote : list Z := [39].
Definition cast (field : JSON_DB_MAPPING) : list Z := str "::" ++ dbtype field.

Definition str_set_db_filter (s : list Z) (field : JSON_DB_MAPPING) : list Z :=
  (match oper field with
   | None => quote ++ s ++ quote
   | Some f =>
       let q := if bool_decide (dbstrtype field <> DB_STR_NONE) then quote else [] in
       q ++ f (OperStr s) ++ q
   end) ++
  (if bool_decide (dbstrtype field <> DB_STR_OCHAR) then cast field else []).

(** [(intptr_t)dbl] is the conversion of the double. *)
Definition num_set_db_filter (n : NUMBER_CRITERION) (field : JSON_DB_MAPPING) : acc (list Z) :=
  if negb (num_isvalid n) then Acc [] else
  let! text := match oper field with
    | None =>
        Acc (match num_type n with
             | NUM_DOUBLE => fmt_g 4 (get_dbl n)
             | t => fmt_d (get_int (int_width t) n)
             end)
    | Some f =>
        let! z := match num_type n with
          | NUM_DOUBLE => dbl_to_int 64 (get_dbl n)
          | t => Acc (get_int (int_width t) n) end in
        let q := if bool_decide (dbstrtype field <> DB_STR_NONE) then quote else [] in
        Acc (q ++ f (OperNum z) ++ q)
    end in
  Acc (text ++ (if bool_decide (num_type n <> NUM_DOUBLE) then cast field else [])).

Definition bool_set_db_filter (b : BOOL_CRITERION) (field : JSON_DB_MAPPING) : list Z :=
  if negb (bool_isvalid b) then [] else
  (match oper field with
   | None => if bool_value b then str "true" else str "false"
   | Some f =>
       let q := if bool_decide (dbstrtype field <> DB_STR_NONE) then quote else [] in
       q ++ f (OperNum (if bool_value b then 1 else 0)) ++ q
   end) ++ cast field.

(** ** One condition *)
Definition oper_char (op : math_oper) : list Z :=
  match op with
  | MATH_ADD => str "+" | MATH_SUB => str "-" | MATH_MUL => str "*" | MATH_DIV => str "/"
  | MATH_MOD => str "%" | MATH_AND => str "&" | MATH_OR => str "|"
  end.

Definition comp_text (comp : COMPARATORS_E) : option (list Z) :=
  match comp with
  | COMP_EQ => Some (str " = ") | COMP_NEQ => Some (str " != ") | COMP_LT => Some (str " < ") | COMP_LE => Some (str " <= ")
  | COMP_GT => Some (str " > ") | COMP_GE => Some (str " >= ") | COMP_LIKE => Some (str " ~ ") | COMP_NOTLIKE => Some (str " !~ ")
  | COMP_IN => Some (str " in ") | COMP_NOTIN => Some (str " not in ") | _ => None
  end.

(** Elements with a comma between them. *)
Fixpoint commas (l : list (list Z)) : list Z :=
  match l with [] => [] | [x] => x | x :: l' => x ++ [44] ++ commas l' end.

Fixpoint map_acc {A B} (f : A -> acc B) (l : list A) : acc (list B) :=
  match l with [] => Acc [] | x :: l' => let! y := f x in let! ys := map_acc f l' in Acc (y :: ys) end.

(** The left side of a comparison. *)
Definition left_sql (c : CRITERION_ONE) (prefix : list Z) : acc (list Z) :=
  let col := prefix ++ dbcolname (pfield1_ c) in
  match math_oper_ c with
  | None => Acc (str "(" ++ col)
  | Some op =>
      match pfield2_ c with
      | Some field2 =>
          let col2 := prefix ++ dbcolname field2 in
          Acc (if is_div op then str "((" ++ col ++ str " " ++ oper_char op ++ str " nullif(" ++ col2 ++ str ", 0))"
               else str "((" ++ col ++ str " " ++ oper_char op ++ str " " ++ col2 ++ str ")")
      | None =>
          if negb (is_timestamp_sec_ c)
          then Acc (str "((" ++ col ++ str " " ++ oper_char op ++ str " " ++ fmt_g 3 (field2_const_ c) ++ str ")")
          else let! z := dbl_to_int 64 (field2_const_ c) in
               Acc (str "((" ++ col ++ str " " ++ oper_char op ++ str " '" ++ fmt_d z ++ str " sec'::interval)")
      end
  end.

(** The value of a comparison. *)
Definition right_sql (c : CRITERION_ONE) (prefix : list Z) : acc (option (list Z)) :=
  match strval_ c with
  | Some s => Acc (Some (str_set_db_filter s (pfield1_ c)))
  | None =>
      match numval_ c with
      | Some n =>
          if negb (is_time_func_ c) then let! t := num_set_db_filter n (pfield1_ c) in Acc (Some t)
          else Acc (Some (str " now() "))
      | None =>
          match boolval_ c with
          | Some b => Acc (Some (bool_set_db_filter b (pfield1_ c)))
          | None =>
              match pexpr_val_ c with
              | Some field =>
                  if bool_decide (dbcolname field = []) then Acc None else Acc (Some (prefix ++ dbcolname field))
              | None =>
                  match pnumarray_ c with
                  | Some arr =>
                      let! ts := map_acc (fun n => num_set_db_filter n (pfield1_ c)) arr in
                      Acc (Some (str "(" ++ commas ts ++ str ")"))
                  | None =>
                      match pstrarray_ c with
                      | Some arr => Acc (Some (str "(" ++ commas ((fun s => str_set_db_filter s (pfield1_ c)) <$> arr) ++ str ")"))
                      | None => Acc None
                      end
                  end
              end
          end
      end
  end.

(** The condition on the last bits. *)
Definition bits_sql (c : CRITERION_ONE) (prefix : list Z) (n : Z) : option (list Z) :=
  let col := prefix ++ dbcolname (pfield1_ c) in
  let test := str "::int & " ++ fmt_d n ++ str ") = " ++ fmt_d n ++ str ")" in
  if bool_decide (numtype (pfield1_ c) = NUM_NAN) then None else
  Some (match math_oper_ c with
        | Some op =>
            str "(((" ++ col ++ str " " ++ oper_char op ++ str " " ++
            (match pfield2_ c with Some field2 => prefix ++ dbcolname field2 | None => fmt_g 3 (field2_const_ c) end) ++
            str ")" ++ test
        | None => str "((" ++ col ++ test
        end).

(** Here the exceptions of a null pointer and of the database schema are [None]. *)
Definition set_db_filter (c : CRITERION_ONE) (prefix fallback : list Z) : acc (option (list Z)) :=
  if negb (is_valid_ c) then Acc (Some fallback) else
  if bool_decide (dbcolname (pfield1_ c) = []) then Acc None else
  if match math_oper_ c, pfield2_ c with Some _, Some field2 => bool_decide (dbcolname field2 = []) | _, _ => false end
  then Acc None else
  match comp_ c with
  | COMP_BIT2 => Acc (bits_sql c prefix 3)
  | COMP_BIT3 => Acc (bits_sql c prefix 7)
  | comp =>
      match strval_ c with
      | Some s =>
          if bool_decide (comp = COMP_SUBSTR \/ comp = COMP_NOTSUBSTR) then
            if bool_decide (dbstrtype (pfield1_ c) = DB_STR_NONE) then Acc None else
            Acc (Some (str "(strpos(" ++ prefix ++ dbcolname (pfield1_ c) ++ str ", " ++ str_set_db_filter s (pfield1_ c) ++
              str ") " ++ (if bool_decide (comp = COMP_SUBSTR) then str "!=" else str "=") ++ str " 0)"))
          else
            let! l := left_sql c prefix in
            match comp_text comp with
            | None => Acc None
            | Some op => let! r := right_sql c prefix in Acc (option_map (fun r => l ++ op ++ r ++ str ")") r)
            end
      | None =>
          let! l := left_sql c prefix in
          match comp_text comp with
          | None => Acc None
          | Some op => let! r := right_sql c prefix in Acc (option_map (fun r => l ++ op ++ r ++ str ")") r)
          end
      end
  end.

(** ** Groups and sets *)
(** A piece of the text; [TCrit] is a condition of a group with the operator [o]. *)
Inductive tok := TOpen | TClose | TSetOpen | TSetClose | TOr | TAnd | TTrue | TFalse | TCrit (c : CRITERION_ONE) (host_alias : bool) (o : GROUP_OPER_E).

Definition oper_tok (o : GROUP_OPER_E) : tok := match o with OPER_OR => TOr | OPER_AND => TAnd end.
(** [cfallback]. *)
Definition fallback_tok (o : GROUP_OPER_E) : tok := match o with OPER_OR => TFalse | OPER_AND => TTrue end.

Section Groups.
Context (subsys : Z) (add_multihost : bool).

(** The subsystems whose conditions are used. *)
Definition sub_arr : list Z := if add_multihost && negb (subsys =? SUBSYS_HOST) then [subsys; SUBSYS_HOST] else [subsys].
Definition sql_ok (c : CRITERION_ONE) : bool := is_subsystem_allowed (subsys_ c) (Some sub_arr).
Definition use_host_alias (c : CRITERION_ONE) : bool :=
  (add_multihost && negb (subsys =? SUBSYS_HOST)) && (subsys_ c =? SUBSYS_HOST).

Fixpoint group_sql_loop (o : GROUP_OPER_E) (cs : list CRITERION_ONE) (iseval : bool) : list tok * bool :=
  match cs with
  | [] => ([], iseval)
  | c :: cs' =>
      let last := if cs' is [] then true else false in
      if negb (sql_ok c) then
        let '(r, ev) := group_sql_loop o cs' iseval in
        ((if iseval && last then [fallback_tok o] else []) ++ r, ev)
      else
        let '(r, ev) := group_sql_loop o cs' true in
        ((if iseval then [] else [TOpen]) ++ [TCrit c (use_host_alias c) o] ++ (if last then [] else [oper_tok o]) ++ r, ev)
  end.

Definition group_set_db_filter (g : CRITERIA_ONE_GROUP) (fallback : tok) : list tok :=
  let '(r, iseval) := group_sql_loop (oper_ g) (crits g) false in
  if iseval then r ++ [TClose] else [fallback].

Fixpoint l2_sql (l1_oper : GROUP_OPER_E) (gs : list CRITERIA_ONE_GROUP) : list tok :=
  match gs with
  | [] => []
  | [g] => group_set_db_filter g (fallback_tok l1_oper)
  | g :: gs' => group_set_db_filter g (fallback_tok l1_oper) ++ [oper_tok l1_oper] ++ l2_sql l1_oper gs'
  end.

Definition get_db_filter_criteria (s : CRITERIA_SET) (fallback : tok) : list tok :=
  if Nat.eqb (total_crit_ s) 0 then [fallback] else
  if negb (existsb (fun x => x =? subsys) (psubsys_arr_ s)) then [fallback] else
  [TSetOpen] ++
  (if Nat.eqb (length (crits (l1_grp_ s))) 0 then [] else
     group_set_db_filter (l1_grp_ s) (fallback_tok (l1_oper_ s)) ++
     (if l2_grps s is [] then [] else [oper_tok (l1_oper_ s)])) ++
  l2_sql (l1_oper_ s) (l2_grps s) ++ [TSetClose].
End Groups.

(** *** The text *)
Section Text.
Context (table_alias_prefix host_table_alias : list Z).

Definition tok_text (t : tok) : acc (option (list Z)) :=
  match t with
  | TOpen => Acc (Some (str "(")) | TClose => Acc (Some (str ")"))
  | TSetOpen => Acc (Some (str " ( ")) | TSetClose => Acc (Some (str " ) "))
  | TOr => Acc (Some (str " or ")) | TAnd => Acc (Some (str " and "))
  | TTrue => Acc (Some (str "(true)")) | TFalse => Acc (Some (str "(false)"))
  | TCrit c host o => set_db_filter c (if host then host_table_alias else table_alias_prefix)
                        (match o with OPER_OR => str "(false)" | OPER_AND => str "(true)" end)
  end.

(** The text in a buffer of [maxsz] bytes that must not be filled. *)
Definition sql_text (maxsz : Z) (ts : list tok) : acc (option (list Z)) :=
  let! texts := map_acc tok_text ts in
  match mapM id texts with
  | None => Acc None
  | Some texts => let t := concat texts in Acc (if blen t >=? maxsz - 1 then None else Some t)
  end.
End Text.

(** ** What the text means

    The value of an SQL condition, with [and] before [or], given the values of the
    conditions on a row. *)
Section Sql.
Context (u : CRITERION_ONE -> bool).

Fixpoint sql_or (fuel : nat) (ts : list tok) : option (bool * list tok) :=
  match fuel with
  | O => None
  | S fuel' =>
      match sql_and fuel' ts with
      | Some (b, TOr :: ts') =>
          match sql_or fuel' ts' with Some (r, ts'') => Some (b || r, ts'') | None => None end
      | x => x
      end
  end
with sql_and (fuel : nat) (ts : list tok) : option (bool * list tok) :=
  match fuel with
  | O => None
  | S fuel' =>
      match sql_atom fuel' ts with
      | Some (b, TAnd :: ts') =>
          match sql_and fuel' ts' with Some (r, ts'') => Some (b && r, ts'') | None => None end
      | x => x
      end
  end
with sql_atom (fuel : nat) (ts : list tok) : option (bool * list tok) :=
  match fuel with
  | O => None
  | S fuel' =>
      match ts with
      | TTrue :: ts' => Some (true, ts')
      | TFalse :: ts' => Some (false, ts')
      | TCrit c _ _ :: ts' => Some (u c, ts')
      | TOpen :: ts' => match sql_or fuel' ts' with Some (b, TClose :: r) => Some (b, r) | _ => None end
      | TSetOpen :: ts' => match sql_or fuel' ts' with Some (b, TSetClose :: r) => Some (b, r) | _ => None end
      | _ => None
      end
  end.

Definition sql_eval (ts : list tok) : option bool :=
  match sql_or (3 * length ts + 2) ts with Some (b, []) => Some b | _ => None end.

(** *** Conditions in parentheses, with one operator between them *)
Definition oper_fun (o : GROUP_OPER_E) : bool -> bool -> bool := match o with OPER_OR => orb | OPER_AND => andb end.

Inductive sql_expr : list tok -> bool -> Prop :=
  | expr_true : sql_expr [TTrue] true
  | expr_false : sql_expr [TFalse] false
  | expr_crit c h o : sql_expr [TCrit c h o] (u c)
  | expr_paren o ts b : sql_chain o ts b -> sql_expr (TOpen :: ts ++ [TClose]) b
  | expr_set o ts b : sql_chain o ts b -> sql_expr (TSetOpen :: ts ++ [TSetClose]) b
with sql_chain : GROUP_OPER_E -> list tok -> bool -> Prop :=
  | chain_one o ts b : sql_expr ts b -> sql_chain o ts b
  | chain_more o ts b rest r : sql_expr ts b -> sql_chain o rest r ->
      sql_chain o (ts ++ oper_tok o :: rest) (oper_fun o b r).

Scheme sql_expr_mind := Induction for sql_expr Sort Prop
  with sql_chain_mind := Induction for sql_chain Sort Prop.
Combined Scheme sql_mind from sql_expr_mind, sql_chain_mind.

Definition not_oper (ts : list tok) : Prop := match ts with TOr :: _ | TAnd :: _ => False | _ => True end.

Lemma sql_and_one f ts b rest : sql_atom f (ts ++ rest) = Some (b, rest) -> match rest with TAnd :: _ => False | _ => True end ->
  sql_and (S f) (ts ++ rest) = Some (b, rest).
Proof. intros H Hr. cbn [sql_and]. rewrite H. by destruct rest as [|[] ?]. Qed.

Lemma sql_or_one f ts b rest : sql_and f (ts ++ rest) = Some (b, rest) -> not_oper rest ->
  sql_or (S f) (ts ++ rest) = Some (b, rest).
Proof. intros H Hr. cbn [sql_or]. rewrite H. by destruct rest as [|[] ?]. Qed.

(** A chain is evaluated at the level of its operator. *)
Definition chain_parses (o : GROUP_OPER_E) (ts : list tok) (b : bool) : Prop :=
  forall rest f, not_oper rest ->
  match o with
  | OPER_OR => (3 * length ts + 2 <= f)%nat -> sql_or f (ts ++ rest) = Some (b, rest)
  | OPER_AND => (3 * length ts + 1 <= f)%nat -> sql_and f (ts ++ rest) = Some (b, rest)
  end.

Lemma chain_parses_or o ts b rest f : chain_parses o ts b -> not_oper rest -> (3 * length ts + 2 <= f)%nat ->
  sql_or f (ts ++ rest) = Some (b, rest).
Proof.
  intros H Hr Hf. destruct o; [by apply (H rest f Hr)|]. destruct f as [|f]; [lia|].
  apply sql_or_one; [|done]. apply (H rest f Hr). lia.
Qed.

Lemma sql_parse :
  (forall ts b, sql_expr ts b -> forall rest f, (3 * length ts <= f)%nat -> sql_atom f (ts ++ rest) = Some (b, rest)) /\
  (forall o ts b, sql_chain o ts b -> chain_parses o ts b).
Proof.
  apply sql_mind.
  - intros rest [|f]; [cbn; lia|done].
  - intros rest [|f]; [cbn; lia|done].
  - intros c h o rest [|f]; [cbn; lia|done].
  - intros o ts b _ IH rest f Hf. cbn in Hf. rewrite length_app in Hf. cbn in Hf. destruct f as [|f]; [lia|].
    cbn [app sql_atom]. rewrite <- app_assoc. cbn [app]. by rewrite (chain_parses_or o ts b (TClose :: rest) f) by (done || lia).
  - intros o ts b _ IH rest f Hf. cbn in Hf. rewrite length_app in Hf. cbn in Hf. destruct f as [|f]; [lia|].
    cbn [app sql_atom]. rewrite <- app_assoc. cbn [app]. by rewrite (chain_parses_or o ts b (TSetClose :: rest) f) by (done || lia).
  - intros o ts b _ IH rest f Hr. destruct o; intros Hf.
    + destruct f as [|[|f]]; [lia..|]. apply sql_or_one; [|done]. apply sql_and_one; [|by destruct rest as [|[] ?]].
      apply IH. lia.
    + destruct f as [|f]; [lia|]. apply sql_and_one; [|by destruct rest as [|[] ?]]. apply IH. lia.
  - intros o ts b rest' r _ IH1 _ IH2 rest f Hr. rewrite length_app. cbn [length].
    destruct o; intros Hf; rewrite <- app_assoc; cbn [app oper_tok].
    + destruct f as [|f]; [lia|]. cbn [sql_or]. destruct f as [|f]; [lia|]. rewrite (sql_and_one f ts b) by (done || (apply IH1; lia)).
      by rewrite (IH2 rest (S f) Hr) by lia.
    + destruct f as [|f]; [lia|]. cbn [sql_and]. rewrite IH1 by lia. by rewrite (IH2 rest f Hr) by lia.
Qed.

Lemma sql_eval_expr ts b : sql_expr ts b -> sql_eval ts = Some b.
Proof.
  intros H. unfold sql_eval. rewrite <- (app_nil_r ts) at 2.
  rewrite (chain_parses_or OPER_OR ts b []); [done| |done|lia]. apply sql_parse. by constructor.
Qed.

(** ** The filter of a set *)
Context (subsys : Z) (add_multihost : bool).
Abbreviation ok := (sql_ok subsys add_multihost).

Definition known_value (o : GROUP_OPER_E) (cs : list CRITERION_ONE) : bool :=
  match o with OPER_OR => existsb u (List.filter ok cs) | OPER_AND => forallb u (List.filter ok cs) end.

Lemma expr_fallback o : sql_expr [fallback_tok o] (match o with OPER_OR => false | OPER_AND => true end).
Proof. destruct o; constructor. Qed.

Lemma chain_crit o c h cs r : ok c = true -> sql_chain o r (known_value o cs) ->
  sql_chain o (TCrit c h o :: oper_tok o :: r) (known_value o (c :: cs)).
Proof.
  intros E Hr. replace (known_value o (c :: cs)) with (oper_fun o (u c) (known_value o cs))
    by (unfold known_value; cbn [List.filter]; rewrite E; by destruct o).
  apply (chain_more o [TCrit c h o]); [constructor|done].
Qed.

Lemma chain_last o c h : ok c = true -> sql_chain o [TCrit c h o] (known_value o [c]).
Proof.
  intros E. replace (known_value o [c]) with (u c); [do 2 constructor|].
  unfold known_value. cbn [List.filter]. rewrite E. destruct o; cbn; by rewrite ?orb_false_r, ?andb_true_r.
Qed.

Lemma known_skip o c cs : ok c = false -> known_value o (c :: cs) = known_value o cs.
Proof. intros E. unfold known_value. cbn [List.filter]. by rewrite E. Qed.

(** Behind a condition of the group. *)
Lemma group_sql_cont o cs : cs <> [] ->
  exists r, group_sql_loop subsys add_multihost o cs true = (r, true) /\ sql_chain o r (known_value o cs).
Proof.
  induction cs as [|c cs IH]; [done|]. intros _. cbn [group_sql_loop].
  destruct (ok c) eqn:E; cbn [negb]; destruct cs as [|c' cs].
  - eexists. split; [done|]. by apply chain_last.
  - destruct IH as (r & -> & Hr); [done|]. eexists. split; [done|]. by apply chain_crit.
  - eexists. split; [done|]. rewrite known_skip by done. constructor. destruct o; constructor.
  - destruct IH as (r & -> & Hr); [done|]. exists r. split; [done|]. by rewrite known_skip.
Qed.

Lemma group_sql_start o cs :
  if List.filter ok cs is [] then group_sql_loop subsys add_multihost o cs false = ([], false)
  else exists r, group_sql_loop subsys add_multihost o cs false = (TOpen :: r, true) /\ sql_chain o r (known_value o cs).
Proof.
  induction cs as [|c cs IH]; [done|]. cbn [List.filter group_sql_loop].
  destruct (ok c) eqn:E; cbn [negb].
  - destruct cs as [|c' cs].
    + eexists. split; [done|]. by apply chain_last.
    + destruct (group_sql_cont o (c' :: cs)) as (r & -> & Hr); [done|]. eexists. split; [done|]. by apply chain_crit.
  - destruct (List.filter ok cs) eqn:Ef.
    + by rewrite IH.
    + destruct IH as (r & -> & Hr). exists r. split; [done|]. by rewrite known_skip.
Qed.

(** The value of a group; one without conditions of the subsystem is left out. *)
Definition group_sql_value (l1_oper : GROUP_OPER_E) (g : CRITERIA_ONE_GROUP) : bool :=
  if List.filter ok (crits g) is [] then (match l1_oper with OPER_OR => false | OPER_AND => true end)
  else known_value (oper_ g) (crits g).

Lemma group_sql_expr l1_oper g :
  sql_expr (group_set_db_filter subsys add_multihost g (fallback_tok l1_oper)) (group_sql_value l1_oper g).
Proof.
  unfold group_set_db_filter, group_sql_value. pose proof (group_sql_start (oper_ g) (crits g)) as H.
  destruct (List.filter ok (crits g)).
  - rewrite H. apply expr_fallback.
  - destruct H as (r & -> & Hr). by eapply expr_paren.
Qed.

Definition groups_sql_value (l1_oper : GROUP_OPER_E) (gs : list CRITERIA_ONE_GROUP) : bool :=
  match l1_oper with
  | OPER_OR => existsb (group_sql_value l1_oper) gs
  | OPER_AND => forallb (group_sql_value l1_oper) gs
  end.

Lemma l2_sql_chain l1_oper gs : gs <> [] ->
  sql_chain l1_oper (l2_sql subsys add_multihost l1_oper gs) (groups_sql_value l1_oper gs).
Proof.
  induction gs as [|g gs IH]; [done|]. intros _. destruct gs as [|g' gs].
  - cbn [l2_sql]. replace (groups_sql_value l1_oper [g]) with (group_sql_value l1_oper g)
      by (destruct l1_oper; cbn; by rewrite ?orb_false_r, ?andb_true_r). constructor. apply group_sql_expr.
  - cbn [l2_sql app]. specialize (IH ltac:(done)).
    replace (groups_sql_value l1_oper (g :: g' :: gs))
      with (oper_fun l1_oper (group_sql_value l1_oper g) (groups_sql_value l1_oper (g' :: gs))) by (by destruct l1_oper).
    constructor; [apply group_sql_expr|done].
Qed.
End Sql.

Section SqlSet.
Context (u : CRITERION_ONE -> bool) (subsys : Z) (add_multihost : bool).
Abbreviation ok := (sql_ok subsys add_multihost).
Context (s : CRITERIA_SET) (cgs : list (list CRITERION_ONE)) (Hrep : represents s cgs).

(** The value of the disjunction of the terms with a condition of the subsystem,
    cut down to these conditions. *)
Definition known_term (cs : list CRITERION_ONE) : bool :=
  if List.filter ok cs is [] then false else forallb u (List.filter ok cs).
Definition known_dnf : bool := existsb known_term cgs.

Lemma set_groups_nonempty : set_groups s <> [].
Proof.
  destruct Hrep as (Hne & Hn & _ & _ & Hcases). unfold set_groups.
  destruct Hcases as [(cs & -> & E1 & _)|(_ & _ & E1 & E2)].
  - apply list.Forall_cons in Hne as [Hcs _]. rewrite E1. by destruct cs.
  - rewrite E1, E2. destruct cgs as [|cs rest]; [done|]. apply list.Forall_cons in Hne as [Hcs _].
    cbn [List.filter]. destruct (single cs); cbn [negb concat].
    + by destruct cs.
    + by destruct (if Nat.eqb _ 0 then _ else _).
Qed.

Lemma filter_tokens fallback : get_db_filter_criteria subsys add_multihost s fallback =
  if existsb (fun x => x =? subsys) (psubsys_arr_ s)
  then TSetOpen :: l2_sql subsys add_multihost (l1_oper_ s) (set_groups s) ++ [TSetClose] else [fallback].
Proof.
  unfold get_db_filter_criteria. destruct Hrep as (_ & _ & Htot & _). rewrite (proj2 (Nat.eqb_neq _ 0) Htot).
  destruct (existsb _ _); [|done]. cbn [negb app]. f_equal. rewrite app_assoc. f_equal. unfold set_groups.
  destruct (Nat.eqb _ 0); [done|]. cbn [app l2_sql]. destruct (l2_grps s); [by rewrite !app_nil_r|]. by rewrite <- app_assoc.
Qed.

(** The terms of one condition. *)
Lemma known_singles css : Forall (fun cs => cs <> []) css -> forallb single css = true ->
  existsb u (List.filter ok (concat css)) = existsb known_term css.
Proof.
  induction 1 as [|cs css Hcs _ IH]; [done|]. cbn [forallb concat existsb]. intros [Hs Hss]%andb_true_iff.
  rewrite List.filter_app, existsb_app, IH by done. f_equal. unfold known_term.
  destruct cs as [|c [|]]; [done| |done]. cbn [List.filter]. destruct (ok c); [|done]. cbn. by rewrite orb_false_r, andb_true_r.
Qed.

Lemma existsb_partition {A} (p q : A -> bool) l :
  existsb p l = existsb p (List.filter q l) || existsb p (List.filter (fun x => negb (q x)) l).
Proof.
  induction l as [|x l IH]; [done|]. cbn. rewrite IH. destruct (q x); cbn; [by rewrite orb_assoc|].
  by rewrite !orb_assoc, (orb_comm (p x)).
Qed.

Lemma forallb_filter {A} (q : A -> bool) l : forallb q (List.filter q l) = true.
Proof. apply forallb_forall. by intros x [_ H]%filter_In. Qed.

Lemma Forall_filter {A} (P : A -> Prop) (q : A -> bool) l : Forall P l -> Forall P (List.filter q l).
Proof. rewrite !List.Forall_forall. intros H x [Hx _]%filter_In. by apply H. Qed.

Lemma groups_value_known : existsb ok (concat cgs) = true ->
  groups_sql_value u subsys add_multihost (l1_oper_ s) (set_groups s) = known_dnf.
Proof.
  intros Hex. pose proof Hrep as (Hne & Hn & _ & _ & Hcases). unfold known_dnf.
  destruct Hcases as [(cs & -> & E1 & E2 & E3 & E4)|(E4 & E1 & E2 & E3)]; rewrite E4; unfold groups_sql_value.
  - apply list.Forall_cons in Hne as [Hcs _]. unfold set_groups. rewrite E3, E1, app_nil_r.
    rewrite (proj2 (Nat.eqb_neq _ 0)) by (by destruct cs). cbn. rewrite andb_true_r, orb_false_r.
    unfold group_sql_value, known_term, known_value. rewrite E1, E2. destruct (List.filter ok cs) eqn:Ef; [|done].
    exfalso. apply existsb_exists in Hex as (c & Hc & Hok). cbn in Hc. rewrite app_nil_r in Hc.
    assert (In c (List.filter ok cs)) as H by (by apply filter_In). by rewrite Ef in H.
  - rewrite (existsb_partition known_term single cgs). unfold set_groups. rewrite existsb_app, E3, existsb_fmap. f_equal.
    rewrite <- known_singles by auto using Forall_filter, forallb_filter. rewrite <- E2.
    destruct (crits (l1_grp_ s)) eqn:El; [done|]. cbn [length Nat.eqb existsb]. rewrite orb_false_r, <- El.
    unfold group_sql_value, known_value. rewrite E1. by destruct (List.filter ok (crits (l1_grp_ s))).
Qed.
End SqlSet.

(** C13 : a filter that represents the disjunction [cgs] is written for a subsystem as the
    given fallback when it has no condition of that subsystem, and otherwise as a
    well-formed SQL condition.  Whatever the database finds for the single conditions on a
    row, the value of this text is that of the disjunction in which every term is cut down
    to its conditions of the subsystem (and of the host, where these are joined) and the
    terms without any are left out; where all conditions are of these subsystems, it is the
    value of the filter. *)
Theorem db_filter_value u subsys add_multihost s cgs fallback : represents s cgs ->
  (subsys ∉ psubsys_arr_ s -> get_db_filter_criteria subsys add_multihost s fallback = [fallback]) /\
  (subsys ∈ psubsys_arr_ s ->
   sql_eval u (get_db_filter_criteria subsys add_multihost s fallback) = Some (known_dnf u subsys add_multihost cgs)) /\
  (forallb (sql_ok subsys add_multihost) (concat cgs) = true -> known_dnf u subsys add_multihost cgs = dnf u cgs).
Proof.
  intros Hrep. rewrite (filter_tokens subsys add_multihost s cgs Hrep fallback). split_and!.
  - intros Hsub. replace (existsb _ _) with false; [done|]. symmetry. apply not_true_is_false. intros (x & Hx & E)%existsb_exists.
    apply Z.eqb_eq in E as ->. apply Hsub. by apply list_elem_of_In.
  - intros Hsub. assert (existsb (fun x => x =? subsys) (psubsys_arr_ s) = true) as ->.
    { apply existsb_exists. exists subsys. split; [by apply list_elem_of_In|apply Z.eqb_refl]. }
    apply sql_eval_expr. rewrite <- (groups_value_known u subsys add_multihost s cgs Hrep).
    + eapply expr_set. apply l2_sql_chain. by eapply set_groups_nonempty.
    + apply existsb_exists. destruct Hrep as (_ & _ & _ & Hs & _). apply Hs in Hsub as (c & Hc & E). exists c.
      split; [by apply list_elem_of_In|]. unfold sql_ok, sub_arr. case_if; cbn; by rewrite E, Z.eqb_refl.
  - intros Hall. unfold known_dnf, dnf. destruct Hrep as (Hne & _). induction Hne as [|cs cgs Hcs _ IH]; [done|].
    cbn in *. rewrite forallb_app in Hall. apply andb_true_iff in Hall as [H1 H2]. rewrite IH by done. f_equal.
    unfold known_term. rewrite filter_all; [by destruct cs|]. intros c Hc. rewrite forallb_forall in H1.
    by apply H1, list_elem_of_In.
Qed.
