(* ===== verification/CriterionParse.v ===== *)
(** * CriterionParse : from the text of a filter to its conditions (the constructor of
    [CRITERION_ONE] in common/gy_query_criteria.cc and [GY_BOOLPARSE] in
    common/gy_boolparse.cc).

    The text of one condition is [<column> <comparator> <value>], with an optional
    arithmetic operation on the column.  A pointer into the text is the rest of the
    text from there on.  An exception is [None], a conversion the language leaves
    undefined is [Oob].

    The regular expressions of RE2 ([re_ok] says which patterns are accepted), the
    text of a time ([iso8601], which depends on the time zone of the process) and the
    current time are parameters. *)
From Stdlib Require Import SpecFloat String.
From stdpp Require Import sets.
From S2P Require Import Prelude Bytes Doubles Criterion CriteriaSet CriteriaSql StrNum.

#[local] Open Scope Z_scope.

(** ** Computations that may throw *)
Definition pr_bind {A B} (m : acc (option A)) (k : A -> acc (option B)) : acc (option B) :=
  let! r := m in match r with Some a => k a | None => Acc None end.
Notation "'do' x <- m ; k" := (pr_bind m (fun x => k))
  (at level 10, x binder, m at level 100, k at level 200).
Definition ret {A} (a : A) : acc (option A) := Acc (Some a).
Definition throw {A} : acc (option A) := Acc None.
(** Goes on unless [b]. *)
Notation "'throw_if' b ; k" := (if b then throw else k) (at level 10, b at level 100, k at level 200).
Definition of_option {A} (o : option A) : acc (option A) := Acc o.

(** ** Hashes and comparators *)
Definition fnv1_hash (s : list Z) : Z :=
  fold_left (fun hash c => u32 (Z.lxor hash (u32 (swrap 8 c)) * 0x01000193)) s 0x811C9DC5.

Record COMPARE_MAPPING := CompareMapping {
  compstr : list Z;
  compval : COMPARATORS_E;
  valid_number : bool;
  valid_string : bool;
  valid_bool : bool;
  valid_expr : bool;
}.

Definition comparator_map : list COMPARE_MAPPING :=
  [CompareMapping (str "=") COMP_EQ true true true true;
   CompareMapping (str "!=") COMP_NEQ true true true true;
   CompareMapping (str "<") COMP_LT true false false true;
   CompareMapping (str "<=") COMP_LE true false false true;
   CompareMapping (str ">") COMP_GT true false false true;
   CompareMapping (str ">=") COMP_GE true false false true;
   CompareMapping (str "bit2") COMP_BIT2 true false false false;
   CompareMapping (str "bit3") COMP_BIT3 true false false false;
   CompareMapping (str "substr") COMP_SUBSTR false true false false;
   CompareMapping (str "notsubstr") COMP_NOTSUBSTR false true false false;
   CompareMapping (str "like") COMP_LIKE false true false false;
   CompareMapping (str "notlike") COMP_NOTLIKE false true false false;
   CompareMapping (str "in") COMP_IN true true false false;
   CompareMapping (str "notin") COMP_NOTIN true true false false;
   CompareMapping (str "==") COMP_EQ true true true true;
   CompareMapping (str "~") COMP_LIKE false true false false;
   CompareMapping (str "~=") COMP_LIKE false true false false;
   CompareMapping (str "=~") COMP_LIKE false true false false;
   CompareMapping (str "!~") COMP_NOTLIKE false true false false].

Definition get_comparator (s : list Z) : option COMPARE_MAPPING :=
  find (fun m => fnv1_hash (compstr m) =? fnv1_hash s) comparator_map.

Definition comp_isvalid (m : COMPARE_MAPPING) (t : JSON_TYPES_E) : bool :=
  match t with JSON_NUMBER => valid_number m | JSON_STRING => valid_string m | JSON_BOOL => valid_bool m end.

Definition get_jsoncrc_mapping (s : list Z) (cols : list JSON_DB_MAPPING) : option JSON_DB_MAPPING :=
  find (fun m => fnv1_hash s =? jsoncrc m) cols.

Definition not_dot (c : Z) : bool := negb (c =? 46).

(** The column of a name; a name with a dot is looked up by what follows the dot.
    The result [Some None] is a null pointer. *)
Definition get_expr_field (name : list Z) (cols : list JSON_DB_MAPPING) (subsys_str : list Z)
    : option (option JSON_DB_MAPPING) :=
  let '(pre, rest) := span not_dot name in
  match rest with
  | _ :: col =>
      match get_jsoncrc_mapping col cols with
      | Some m => Some (Some m)
      | None => if bool_decide (pre = subsys_str) then Some None else None
      end
  | [] => Some (get_jsoncrc_mapping name cols)
  end.

(** A column that must be there. *)
Definition need_field (name : list Z) (cols : list JSON_DB_MAPPING) (subsys_str : list Z) : acc (option JSON_DB_MAPPING) :=
  match get_expr_field name cols subsys_str with Some (Some m) => ret m | _ => throw end.

(** ** Values *)
Definition not_space (c : Z) : bool := negb (is_space_tab c).
Definition is_sep (c : Z) : bool := is_space_tab c || (c =? 44).
Definition not_quote (c : Z) : bool := negb (c =? 39).

Definition num_valid_start (s : list Z) : bool :=
  let c := char0 s in
  isdigit (if (c =? 45) || (c =? 43) then char0 (drop 1 s) else c).

Definition str_valid_start (s : list Z) : bool := char0 s =? 39.

Definition bool_true : list Z := str "true".
Definition bool_false : list Z := str "false".
Definition bool_valid_string (s : list Z) : bool := is_prefix bool_true s || is_prefix bool_false s.

(** The constructor of [NUMBER_CRITERION] from text, [None] for one that is not valid. *)
Definition number_from_text (s : list Z) (t : NUMBER_TYPES_E) : option NUMBER_CRITERION :=
  let check (r : option (NUMBER_CRITERION * nat)) :=
    match r with
    | Some (n, used) =>
        let c := char0 (drop used s) in
        if (c =? 0) || is_sep c then Some n else None
    | None => None
    end in
  match t with
  | NUM_INT8 | NUM_INT16 | NUM_INT32 =>
      check (option_map (fun '(v, used) => (NumberCriterion (wrap (int_width t) v) t true, used)) (string_to_int (int_width t) s))
  | NUM_INT64 => check (option_map (fun '(v, used) => (num_int64 v, used)) (string_to_int64 s))
  | NUM_DOUBLE => check (option_map (fun '(v, used) => (num_dbl v, used)) (string_to_double s))
  | NUM_NAN => None
  end.

Definition MAX_COMP_IN_ELEMS : nat := 64.

(** The elements of a list of numbers: the text from the start of each on. *)
Fixpoint num_in_elems (fuel : nat) (s : list Z) : acc (option (list (list Z))) :=
  match fuel with
  | O => throw
  | S fuel' =>
      let s := skip is_sep s in
      if negb (num_valid_start s) then (if s is [] then ret [] else throw) else
      let rest := skip (fun c => negb (is_sep c)) (drop 1 s) in
      if rest is [] then ret [s] else
      do l <- num_in_elems fuel' rest;
      ret (s :: l)
  end.

Definition parse_num_in_clause (s : list Z) (t : NUMBER_TYPES_E) : acc (option (list NUMBER_CRITERION)) :=
  do starts <- num_in_elems (S MAX_COMP_IN_ELEMS) s;
  throw_if Nat.ltb MAX_COMP_IN_ELEMS (length starts);
  of_option (mapM (fun s => number_from_text s t) starts).

(** The elements of a list of strings. *)
Fixpoint str_in_elems (fuel : nat) (s : list Z) : acc (option (list (list Z))) :=
  match fuel with
  | O => throw
  | S fuel' =>
      let s := skip is_sep s in
      if s is [] then ret [] else
      throw_if negb (str_valid_start s);
      let '(val, rest) := span not_quote (drop 1 s) in
      throw_if (if rest is [] then true else false);
      throw_if (if val is [] then true else false);
      let rest := drop 1 rest in
      if rest is [] then ret [val] else
      do l <- str_in_elems fuel' rest;
      ret (val :: l)
  end.

Definition parse_str_in_clause (s : list Z) : acc (option (list (list Z))) :=
  do vals <- str_in_elems (S MAX_COMP_IN_ELEMS) s;
  throw_if Nat.ltb MAX_COMP_IN_ELEMS (length vals) || Nat.eqb (length vals) 0;
  ret vals.

Definition ign_case : list Z := str "(?i)".
Definition set_ign_case (s : list Z) : list Z := if is_prefix ign_case s then s else ign_case ++ s.

(** ** The constructor *)
Definition MAX_ONE_CRITERION_LEN : Z := 4096.

Definition math_of_char (c : Z) : option math_oper :=
  match c with
  | 43 => Some MATH_ADD | 45 => Some MATH_SUB | 42 => Some MATH_MUL | 47 => Some MATH_DIV
  | 37 => Some MATH_MOD | 38 => Some MATH_AND | 124 => Some MATH_OR | _ => None
  end.

Definition is_integral (d : dbl) : bool :=
  match dtrunc d with Some z => SFeqb (dbl_of_int z) d | None => match d with S754_nan => false | _ => true end end.

(** The value part of a condition. *)
Record value := Value {
  v_math : option (math_oper * dbl);
  v_time_func : bool;
  v_num : option NUMBER_CRITERION;
  v_str : option (list Z);
  v_bool : option BOOL_CRITERION;
  v_expr : option JSON_DB_MAPPING;
  v_regex : option (option (list Z));
  v_force_double : bool;
  v_numarr : option (list NUMBER_CRITERION);
  v_strarr : option (list (list Z));
}.
Definition no_value : value := Value None false None None None None None false None None.
Definition expr_value (m : JSON_DB_MAPPING) : value := Value None false None None None (Some m) None false None None.

(** The word at [s] as a column of the type [t], with the rest. *)
Definition expr_field (s : list Z) (cols : list JSON_DB_MAPPING) (subsys_str : list Z) (pcomp : COMPARE_MAPPING)
    : acc (option (option JSON_DB_MAPPING * list Z)) :=
  throw_if negb (valid_expr pcomp);
  let '(word, rest) := span (fun c => negb (is_sep c)) s in
  match get_expr_field word cols subsys_str with Some m => ret (m, rest) | None => throw end.

Section Parse.
Context (re_ok : list Z -> bool) (iso8601 : list Z -> Z) (tnow : Z) (allocregex : bool).
Context (cols : list JSON_DB_MAPPING).

(** A value for a numeric column; the text behind it is [None] for a list, which
    takes the rest of the text. *)
Definition number_value (field : JSON_DB_MAPPING) (ts : bool) (pcomp : COMPARE_MAPPING) (subsys_str s : list Z)
    : acc (option (value * option (list Z))) :=
  if negb (num_valid_start s) then
    do '(m, rest) <- expr_field s cols subsys_str pcomp;
    match m with
    | Some m => throw_if bool_decide (jsontype m <> JSON_NUMBER); ret (expr_value m, Some rest)
    | None => throw
    end
  else if bool_decide (compval pcomp = COMP_IN \/ compval pcomp = COMP_NOTIN) then
    do arr <- parse_num_in_clause s (numtype field);
    ret (Value None false None None None None None false (Some arr) None, None)
  else
    match string_to_double s with
    | None => throw
    | Some (d, used) =>
        let rest := Some (drop used s) in
        if negb (is_integral d) then
          ret (Value None false (Some (num_dbl d)) None None None None
                 (bool_decide (numtype field <> NUM_DOUBLE) && negb ts) None None, rest)
        else
          let! z := dbl_to_int 64 d in
          ret (Value None false (Some (num_int64 z)) None None None None false None None, rest)
    end.

(** [now()], followed by [+ n] or [- n], which is moved to the column. *)
Definition now_value (has_math : bool) (s : list Z) : acc (option (value * list Z)) :=
  let v math := Value math true (Some (num_int64 tnow)) None None None None false None None in
  if has_math then ret (v None, s) else
  let s := skip is_space_tab s in
  if Nat.ltb 3 (length s) && ((char0 s =? 43) || (char0 s =? 45)) && is_space_tab (char0 (drop 1 s)) then
    let num := drop 2 s in
    match string_to_int64 num with
    | None => throw
    | Some (fval, used) =>
        throw_if char0 (drop used num) =? 46;
        ret (v (Some (if char0 s =? 43 then MATH_SUB else MATH_ADD, dbl_of_int fval)), drop used num)
    end
  else ret (v None, s).

(** A value for a string column, which may be a time. *)
Definition string_value (field : JSON_DB_MAPPING) (ts has_math : bool) (pcomp : COMPARE_MAPPING) (subsys_str s : list Z)
    : acc (option (value * option (list Z))) :=
  if negb (str_valid_start s) then
    do '(m, rest) <- expr_field s cols subsys_str pcomp;
    match m with
    | Some m => throw_if bool_decide (jsontype m <> JSON_STRING); ret (expr_value m, Some rest)
    | None =>
        throw_if negb (ts && is_prefix (str "now()") s);
        do '(v, rest) <- now_value has_math rest;
        ret (v, Some rest)
    end
  else if bool_decide (compval pcomp = COMP_IN \/ compval pcomp = COMP_NOTIN) then
    throw_if ts;
    do arr <- parse_str_in_clause s;
    ret (Value None false None None None None None false None (Some arr), None)
  else
    let '(val, rest) := span not_quote (drop 1 s) in
    throw_if (if rest is [] then true else false);
    let rest := drop 1 rest in
    throw_if (if rest is [] then false else negb (is_space_tab (char0 rest)));
    let tsec := iso8601 val in
    throw_if ts && (tsec =? 0);
    let num := if ts then Some (num_int64 tsec) else None in
    if bool_decide (compval pcomp = COMP_LIKE \/ compval pcomp = COMP_NOTLIKE) then
      throw_if ts;
      let pat := set_ign_case val in
      throw_if allocregex && negb (re_ok pat);
      ret (Value None false num (Some pat) None None (Some (if allocregex then Some pat else None)) false None None, Some rest)
    else ret (Value None false num (Some val) None None None false None None, Some rest).

Definition bool_value_of (pcomp : COMPARE_MAPPING) (subsys_str s : list Z) : acc (option (value * option (list Z))) :=
  if negb (bool_valid_string s) then
    do '(m, rest) <- expr_field s cols subsys_str pcomp;
    match m with
    | Some m => throw_if bool_decide (jsontype m <> JSON_BOOL); ret (expr_value m, Some rest)
    | None => throw
    end
  else
    let b := is_prefix bool_true s in
    ret (Value None false None None (Some (BoolCriterion b true)) None None false None None,
         Some (drop (if b then 4 else 5) s)).

(** The operation on the column: the operation with its constant, the second column,
    whether the column is converted to a double, the comparator and the rest. *)
Definition math_part (field : JSON_DB_MAPPING) (ts : bool) (subsys_str : list Z) (op : math_oper) (s : list Z)
    : acc (option (option JSON_DB_MAPPING * dbl * bool * list Z * list Z)) :=
  throw_if ts && negb (bool_decide (op = MATH_ADD \/ op = MATH_SUB));
  let s := skip is_space_tab s in
  throw_if (if s is [] then true else false);
  let '(word, rest) := span not_space s in
  throw_if (if rest is [] then true else false);
  do '(field2, const, force) <-
    (if Nat.leb (length s) 3 || negb (isalpha (char0 s)) then
       match string_to_double s with
       | None => throw
       | Some (d, used) =>
           throw_if d_is_zero d && is_div op;
           let after := drop used s in
           throw_if (if after is [] then false else negb (is_space_tab (char0 after)));
           ret (None, d, negb (is_integral d) && bool_decide (numtype field <> NUM_DOUBLE) && negb ts)
       end
     else
       let '(pre, dot) := span not_dot word in
       do m <- need_field (if dot is [] then word else drop 1 dot) cols subsys_str;
       throw_if bool_decide (jsontype m <> JSON_NUMBER);
       ret (Some m, S754_zero false, false));
  let s := skip is_space_tab rest in
  throw_if (if s is [] then true else false);
  let '(operstr, rest) := span not_space s in
  throw_if (if rest is [] then true else false);
  ret (field2, const, force, operstr, rest).

(** The subsystem named in front of the column. *)
Definition subsys_prefix (subsys : Z) (subsys_str s : list Z) : Z * list Z * list Z :=
  if is_prefix (subsys_str ++ [46]) s then (subsys, subsys_str, drop (length subsys_str + 1) s) else
  if is_prefix (str "host.") s then (SUBSYS_HOST, if subsys =? SUBSYS_HOST then subsys_str else str "host", drop 5 s)
  else (subsys, subsys_str, s).

Definition criterion_one (text : list Z) (hash subsys : Z) (subsys_str : list Z) : acc (option CRITERION_ONE) :=
  throw_if (if cols is [] then true else false) || (blen text >=? MAX_ONE_CRITERION_LEN);
  let s := skip (fun c => is_space_tab c || (c =? 40)) text in
  throw_if (if s is [] then true else false);
  let '(subsys1, sub_str1, s) := subsys_prefix subsys subsys_str s in
  throw_if Nat.leb (length s) 2;
  let '(fieldstr, s) := span not_space s in
  throw_if (if s is [] then true else false);
  do field <- need_field fieldstr cols sub_str1;
  let to_host := negb (subsys1 =? SUBSYS_HOST) && (map_subsys field =? SUBSYS_HOST) in
  let subsys2 := if to_host then SUBSYS_HOST else subsys1 in
  let sub_str2 := if to_host then str "host" else sub_str1 in
  let fieldtype := jsontype field in
  let ts := bool_decide (fieldtype = JSON_STRING) && bool_decide (dbtype field = str "timestamptz") in
  let s := skip is_space_tab s in
  throw_if (if s is [] then true else false);
  let '(operstr, s) := span not_space s in
  throw_if (if s is [] then true else false);
  let math := if Nat.eqb (length operstr) 1 && (bool_decide (fieldtype = JSON_NUMBER) || ts)
              then math_of_char (char0 operstr) else None in
  do '(field2, const, force, operstr, s) <-
    (match math with
     | Some op => math_part field ts sub_str2 op s
     | None => ret (None, S754_zero false, false, operstr, s)
     end);
  do pcomp <- of_option (get_comparator operstr);
  throw_if negb (comp_isvalid pcomp fieldtype) &&
    negb (ts && bool_decide (compval pcomp = COMP_LT \/ compval pcomp = COMP_LE \/ compval pcomp = COMP_GT \/ compval pcomp = COMP_GE));
  let s := skip is_space_tab s in
  throw_if (if s is [] then true else false);
  do '(v, rest) <-
    (match fieldtype with
     | JSON_NUMBER => number_value field ts pcomp sub_str2 s
     | JSON_STRING => string_value field ts (if math is Some _ then true else false) pcomp sub_str2 s
     | JSON_BOOL => bool_value_of pcomp sub_str2 s
     end);
  let c := CriterionOne field subsys2 fieldtype (compval pcomp) fieldtype true ts (v_time_func v)
    (match v_math v with Some (op, _) => Some op | None => math end) hash field2
    (match v_math v with Some (_, d) => d | None => const end)
    (v_num v) (v_str v) (v_bool v) (v_expr v) (v_regex v) (force || v_force_double v) (v_numarr v) (v_strarr v) in
  match rest with
  | None => ret c
  | Some r =>
      let r := skip is_space_tab r in
      throw_if (if r is [] then false else negb ((char0 r =? 125) || (char0 r =? 41)));
      ret c
  end.
End Parse.

(** ** The conditions of a filter

    [replace_expr_criteria] writes the filter with a number in the place of each
    condition in braces.  The text written is [strbuf], the distinct conditions are
    [mapvec]; the words [and] and [or] become [&] and [|]. *)
Definition LBRACE : Z := 123.
Definition RBRACE : Z := 125.
Definition not_lbrace (c : Z) : bool := negb (c =? LBRACE).

Definition get_trim_str (s : list Z) : list Z := reverse (skip is_space_tab (reverse (skip is_space_tab s))).

(** A filter without braces must not contain the words [and] and [or] outside of
    strings; [prev] is the character before. *)
Fixpoint bare_loop (fuel : nat) (prev : Z) (s : list Z) : bool :=
  match fuel with
  | O => true
  | S fuel' =>
      if Nat.leb (length s) 4 then true else
      let c := gy_tolower_ascii (char0 s) in
      let at_ i := gy_tolower_ascii (char0 (drop i s)) in
      if c =? 39 then
        let '(inside, rest) := span not_quote (drop 1 s) in
        let rest := if rest is [] then drop (length s - 1) s else rest in
        bare_loop fuel' (char0 rest) (drop 1 rest)
      else if (c =? 97) && is_space_tab prev && (at_ 1%nat =? 110) && (at_ 2%nat =? 100) && is_space_tab (char0 (drop 3 s))
      then false
      else if (c =? 111) && is_space_tab prev && (at_ 1%nat =? 114) && is_space_tab (char0 (drop 2 s)) then false
      else bare_loop fuel' (char0 s) (drop 1 s)
  end.

(** The text of a condition up to its closing brace, and the rest behind it. *)
Fixpoint crit_text (fuel : nat) (s : list Z) : option (list Z * list Z) :=
  match fuel with
  | O => None
  | S fuel' =>
      match s with
      | [] => None
      | c :: s' =>
          if c =? RBRACE then Some ([], s')
          else if c =? 39 then
            let '(inside, rest) := span not_quote s' in
            match rest with
            | [] => None
            | q :: rest' =>
                match crit_text fuel' rest' with
                | Some (t, r) => Some (c :: inside ++ q :: t, r)
                | None => None
                end
            end
          else if c =? LBRACE then None
          else match crit_text fuel' s' with Some (t, r) => Some (c :: t, r) | None => None end
      end
  end.

(** The number of a condition: that of one with the same hash, or the next one. *)
Fixpoint crit_index (i : nat) (t : list Z) (mapvec : list (list Z)) : option nat :=
  match mapvec with
  | [] => None
  | m :: mapvec' => if fnv1_hash m =? fnv1_hash t then Some i else crit_index (S i) t mapvec'
  end.

(** Spaces and closing parentheses behind a condition, but not the last character
    of the filter: those written, the place of the last of them and the rest. *)
Definition is_space_paren (c : Z) : bool := is_space_tab c || (c =? 41).
Fixpoint skip_close (s nxt : list Z) : list Z * list Z * list Z :=
  match s with
  | [] => ([], nxt, s)
  | c :: s' =>
      if (if s' is [] then true else false) || negb (is_space_paren c) then ([], nxt, s)
      else let '(w, nxt', r) := skip_close s' s in (c :: w, nxt', r)
  end.

(** The same for spaces, and for spaces and opening parentheses. *)
Fixpoint skip_open (p : Z -> bool) (s : list Z) : list Z * list Z :=
  match s with
  | [] => ([], s)
  | c :: s' =>
      if (if s' is [] then true else false) || negb (p c) then ([], s)
      else let '(w, r) := skip_open p s' in (c :: w, r)
  end.

(** One turn for a condition whose brace is at [s], then the operator behind it.
    [pre] is the text in front of the brace that is still to be written.  The
    result is the text, the conditions, and what is to be written at the end. *)
Fixpoint crit_loop (fuel : nat) (pre s : list Z) (strbuf : list Z) (mapvec : list (list Z))
    : option (list Z * list (list Z) * list Z) :=
  match fuel with
  | O => None
  | S fuel' =>
      if Nat.leb (length s) 1 then Some (strbuf, mapvec, pre ++ s) else
      let '(before, s1) := span not_lbrace s in
      if s1 is [] then Some (strbuf, mapvec, pre ++ s) else
      if Nat.leb (length s1) 2 then None else
      let strbuf := strbuf ++ pre ++ before in
      match crit_text (length s1) (drop 1 s1) with
      | None => None
      | Some (t, s2) =>
          let t := get_trim_str t in
          if Nat.ltb (length t) 5 then None else
          let '(id, mapvec) := match crit_index 0 t mapvec with
            | Some i => (i, mapvec) | None => (length mapvec, mapvec ++ [t]) end in
          let strbuf := strbuf ++ fmt_d (Z.of_nat id) in
          let '(w, nxt, s3) := skip_close s2 s2 in
          let strbuf := strbuf ++ w in
          if Nat.ltb (length s3) 5 then Some (strbuf, mapvec, nxt) else
          let at_ i := gy_tolower_ascii (char0 (drop i s3)) in
          let is_and := at_ 0%nat =? 97 in
          if is_and && negb ((at_ 1%nat =? 110) && (at_ 2%nat =? 100) && is_space_tab (at_ 3%nat)) then None else
          if negb is_and && negb ((at_ 0%nat =? 111) && (at_ 1%nat =? 114) && is_space_tab (at_ 2%nat)) then None else
          let strbuf := strbuf ++ (if is_and then str " & " else str " | ") in
          let '(_, s4) := skip_open is_space_tab (drop (if is_and then 4 else 3) s3) in
          if Nat.leb (length s4) 1 then Some (strbuf, mapvec, nxt) else
          let '(open, s5) := skip_open (fun c => is_space_tab c || (c =? 40)) s4 in
          if Nat.leb (length s5) 1 then Some (strbuf, mapvec, s4) else
          if negb (char0 s5 =? LBRACE) then None else
          crit_loop fuel' [] s5 (strbuf ++ open) mapvec
      end
  end.

(** The text for the library, the conditions, and the condition of a filter that
    has only one. *)
Definition replace_expr_criteria (input : list Z) : option (list Z * list (list Z) * list Z) :=
  let '(before, s) := span not_lbrace input in
  if s is [] then
    if bare_loop (length input) (char0 input) (drop 1 input) then Some ([], [], input) else None
  else if negb (forallb (fun c => is_space_tab c || (c =? 40)) before) then None else
  match crit_loop (length input) before s [] [] with
  | None => None
  | Some (strbuf, mapvec, rest) =>
      Some (match mapvec with
            | [] => (strbuf, mapvec, input)
            | [m] => (strbuf, mapvec, m)
            | _ => (strbuf ++ rest, mapvec, [])
            end)
  end.

(** *** The terms

    [dnf_terms] is the library: for the text it gives the terms of the disjunctive
    normal form, each the names of its variables, those that occur negated second,
    or [None] for an error. *)
Section Terms.
Context (dnf_terms : list Z -> option (list (list (list Z) * list (list Z)))).

Definition term_texts (mapvec : list (list Z)) (term : list (list Z) * list (list Z)) : option (list (list Z)) :=
  if negb (Nat.eqb (length term.2) 0) then None else
  mapM (fun name =>
    let '(id, used, erange) := strtol 10 name in
    if erange || Nat.eqb used 0 || (id <? 0) then None else mapvec !! Z.to_nat id) term.1.

(** The whole constructor; [None] is an exception, and [Some None] a filter without
    conditions. *)
Definition boolparse_filter (filter : list Z) : option (option GY_BOOLPARSE) :=
  if filter is [] then Some None else
  if Nat.ltb 8192 (length filter) then None else
  let s := get_trim_str filter in
  if s is [] then Some None else
  match replace_expr_criteria s with
  | None => None
  | Some (strbuf, mapvec, firstcrit) =>
      if Nat.leb (length mapvec) 1 then Some (Some (gy_boolparse_one firstcrit)) else
      if Nat.leb 1023 (length strbuf) then None else
      match dnf_terms strbuf with
      | None => None
      | Some terms =>
          match mapM (term_texts mapvec) terms with
          | None => None
          | Some texts => option_map Some (gy_boolparse texts)
          end
      end
  end.
End Terms.

(** ** Strings of a condition contain no quotes *)
Lemma span_spec p l : let '(a, b) := span p l in
  l = a ++ b /\ Forall (fun c => p c = true) a /\ (forall c b', b = c :: b' -> p c = false).
Proof.
  induction l as [|c l IH]; cbn; [done|]. destruct (p c) eqn:E.
  - destruct (span p l) as [a b]. destruct IH as (-> & Ha & Hb). split_and!; [done|by constructor|done].
  - split_and!; [done|constructor|by intros ? ? [= <- <-]].
Qed.

Lemma span_app p a b : Forall (fun c => p c = true) a -> (if head b is Some c then p c = false else True) ->
  span p (a ++ b) = (a, b).
Proof.
  induction 1 as [|c a Hc _ IH]; intros Hb; cbn.
  - destruct b as [|c b]; [done|]. cbn in *. by rewrite Hb.
  - rewrite Hc, IH by done. done.
Qed.

Lemma skip_none p s : (if head s is Some c then p c = false else True) -> skip p s = s.
Proof. intros H. unfold skip. change s with ([] ++ s) at 1. by rewrite span_app. Qed.

Definition no_quote (s : list Z) : Prop := Forall (fun c => not_quote c = true) s.

(** Results that are no exception satisfy [P]. *)
Definition prsat {A} (P : A -> Prop) (m : acc (option A)) : Prop :=
  match m with Acc (Some a) => P a | _ => True end.

Lemma prsat_bind {A B} (P : B -> Prop) (m : acc (option A)) (k : A -> acc (option B)) :
  prsat (fun a => prsat P (k a)) m -> prsat P (pr_bind m k).
Proof. by destruct m as [[a|]|]. Qed.
Lemma prsat_true {A} (m : acc (option A)) : prsat (fun _ => True) m.
Proof. by destruct m as [[a|]|]. Qed.
Lemma prsat_mono {A} (P Q : A -> Prop) (m : acc (option A)) : (forall a, P a -> Q a) -> prsat P m -> prsat Q m.
Proof. destruct m as [[a|]|]; cbn; auto. Qed.
Lemma prsat_throw_if {A} (P : A -> Prop) (b : bool) (m : acc (option A)) :
  (b = false -> prsat P m) -> prsat P (if b then throw else m).
Proof. destruct b; cbn; auto. Qed.

Lemma str_in_elems_no_quote fuel : forall s, prsat (Forall no_quote) (str_in_elems fuel s).
Proof.
  induction fuel as [|fuel IH]; intros s; cbn [str_in_elems]; [done|].
  destruct (skip is_sep s) as [|c s1]; [cbn; constructor|]. apply prsat_throw_if. intros _.
  pose proof (span_spec not_quote (drop 1 (c :: s1))) as Hs. destruct (span _ _) as [val rest]. destruct Hs as (_ & Hv & _).
  do 2 (apply prsat_throw_if; intros _). destruct (drop 1 rest) as [|c2 s2]; [by repeat constructor|].
  apply prsat_bind. eapply prsat_mono; [|apply IH]. intros els Hels. by constructor.
Qed.

Lemma ign_case_no_quote s : no_quote s -> no_quote (set_ign_case s).
Proof.
  intros Hs. unfold set_ign_case. case_if; [done|]. apply Forall_app. split; [|done].
  unfold ign_case. by repeat constructor.
Qed.

(** The strings of a value. *)
Definition value_no_quote (v : value) : Prop :=
  (forall s, v_str v = Some s -> no_quote s) /\ (forall arr, v_strarr v = Some arr -> Forall no_quote arr).

Section NoQuote.
Context (re_ok : list Z -> bool) (iso8601 : list Z -> Z) (tnow : Z) (allocregex : bool) (cols : list JSON_DB_MAPPING).
Abbreviation good := (fun r : value * option (list Z) => value_no_quote r.1).

(** A value without strings. *)
Ltac nostr := by split; cbn; intros; simplify_eq.

Lemma number_value_no_quote field ts pcomp ss s : prsat good (number_value cols field ts pcomp ss s).
Proof.
  unfold number_value. case_if.
  - apply prsat_bind. eapply prsat_mono; [|apply prsat_true]. intros [[m|] rest] _; [|done].
    apply prsat_throw_if. intros _. nostr.
  - case_if.
    + apply prsat_bind. eapply prsat_mono; [|apply prsat_true]. intros arr _. nostr.
    + destruct (string_to_double s) as [[d used]|]; [|done]. case_if; [nostr|]. destruct (dbl_to_int 64 d); [nostr|done].
Qed.

Lemma now_value_no_quote has_math s : prsat (fun r => value_no_quote r.1) (now_value tnow has_math s).
Proof.
  unfold now_value. case_if; [nostr|]. case_if; [|nostr].
  destruct (string_to_int64 _) as [[z used]|]; [|done]. apply prsat_throw_if. intros _. nostr.
Qed.

Lemma string_value_no_quote field ts hm pcomp ss s :
  prsat good (string_value re_ok iso8601 tnow allocregex cols field ts hm pcomp ss s).
Proof.
  unfold string_value. case_if.
  - apply prsat_bind. eapply prsat_mono; [|apply prsat_true]. intros [[m|] rest] _; apply prsat_throw_if; intros _; [nostr|].
    apply prsat_bind. eapply prsat_mono; [|apply now_value_no_quote]. by intros [v r].
  - case_if.
    + apply prsat_throw_if. intros _. apply prsat_bind. unfold parse_str_in_clause. apply prsat_bind.
      eapply prsat_mono; [|apply str_in_elems_no_quote]. intros vals Hv. apply prsat_throw_if. intros _.
      split; cbn; intros; by simplify_eq.
    + pose proof (span_spec not_quote (drop 1 s)) as Hs. destruct (span _ _) as [val rest]. destruct Hs as (_ & Hv & _).
      do 3 (apply prsat_throw_if; intros _). case_if.
      * do 2 (apply prsat_throw_if; intros _). split; cbn; intros; simplify_eq. by apply ign_case_no_quote.
      * split; cbn; intros; by simplify_eq.
Qed.

Lemma bool_value_no_quote pcomp ss s : prsat good (bool_value_of cols pcomp ss s).
Proof.
  unfold bool_value_of. case_if; [|nostr]. apply prsat_bind. eapply prsat_mono; [|apply prsat_true].
  intros [[m|] rest] _; [|done]. apply prsat_throw_if. intros _. nostr.
Qed.

(** The strings of a condition made from text. *)
Definition strings_of (c : CRITERION_ONE) (s : list Z) : Prop :=
  strval_ c = Some s \/ exists arr, pstrarray_ c = Some arr /\ s ∈ arr.

Lemma criterion_no_quote text hash subsys ss :
  prsat (fun c => forall s, strings_of c s -> no_quote s)
    (criterion_one re_ok iso8601 tnow allocregex cols text hash subsys ss).
Proof.
  unfold criterion_one. do 2 (apply prsat_throw_if; intros _).
  destruct (subsys_prefix _ _ _) as [[subsys1 sub1] s1]. apply prsat_throw_if. intros _.
  destruct (span not_space s1) as [fieldstr s2]. apply prsat_throw_if. intros _.
  apply prsat_bind. eapply prsat_mono; [|apply prsat_true]. intros field _. apply prsat_throw_if. intros _.
  destruct (span not_space _) as [operstr s3]. apply prsat_throw_if. intros _.
  apply prsat_bind. eapply prsat_mono; [|apply prsat_true]. intros [[[[field2 const] force] oper2] s4] _.
  apply prsat_bind. eapply prsat_mono; [|apply prsat_true]. intros pcomp _. do 2 (apply prsat_throw_if; intros _).
  apply prsat_bind. eapply (prsat_mono good).
  - intros [v rest] [H1 H2]. cbn in H1, H2.
    assert (forall c, strval_ c = v_str v -> pstrarray_ c = v_strarr v -> forall s, strings_of c s -> no_quote s) as Hc.
    { intros c E1 E2 s [H|(arr & H & Hs)]; [apply H1; congruence|].
      rewrite E2 in H. apply H2 in H. rewrite list.Forall_forall in H. by apply H. }
    destruct rest as [r|]; [apply prsat_throw_if; intros _|]; unfold ret, prsat; by apply Hc.
  - destruct (jsontype field); auto using number_value_no_quote, string_value_no_quote, bool_value_no_quote.
Qed.
End NoQuote.

(** C14 : a string that reaches the SQL text of a condition made from the text of a
    filter contains no quote: the text of the value is the string between two quotes
    and a type, and the string cannot end the literal. *)
Theorem sql_string_closed re_ok iso8601 tnow allocregex cols text hash subsys ss c s :
  criterion_one re_ok iso8601 tnow allocregex cols text hash subsys ss = Acc (Some c) -> strings_of c s ->
  oper (pfield1_ c) = None -> no_quote (dbtype (pfield1_ c)) ->
  exists tail, str_set_db_filter s (pfield1_ c) = quote ++ s ++ quote ++ tail /\ no_quote s /\ no_quote tail.
Proof.
  intros Hc Hs Ho Hd. pose proof (criterion_no_quote re_ok iso8601 tnow allocregex cols text hash subsys ss) as H.
  rewrite Hc in H. specialize (H s Hs). unfold str_set_db_filter. rewrite Ho, <- !app_assoc. eexists. split_and!; [done|done|].
  case_if; [|constructor]. unfold cast. apply Forall_app. split; [by repeat constructor|done].
Qed.

(** ** Conditions on strings, from text to evaluation *)

(** A word: no spaces, tabs or dots. *)
Definition word (s : list Z) : Prop := s <> [] /\ Forall (fun c => not_space c && not_dot c = true) s.

Lemma word_not_space s : word s -> Forall (fun c => not_space c = true) s.
Proof. intros [_ H]. eapply list.Forall_impl; [apply H|]. by intros c [? _]%andb_true_iff. Qed.
Lemma word_not_dot s : word s -> Forall (fun c => not_dot c = true) s.
Proof. intros [_ H]. eapply list.Forall_impl; [apply H|]. by intros c [_ ?]%andb_true_iff. Qed.

Lemma not_prefix p name rest : Forall (fun c => not_space c = true) p -> Forall (fun c => not_dot c = true) name ->
  is_prefix (p ++ [46]) (name ++ 32 :: rest) = false.
Proof.
  intros Hp Hn. revert name Hn. induction Hp as [|c p Hc _ IH]; intros [|d name] Hn; cbn [app is_prefix]; [done| | |].
  - apply list.Forall_cons in Hn as [Hd _]. apply negb_true_iff, Z.eqb_neq in Hd. by rewrite (proj2 (Z.eqb_neq 46 d)).
  - destruct (Z.eqb_spec c 32) as [->|]; done.
  - apply list.Forall_cons in Hn as [_ Hn]. rewrite IH by done. apply andb_false_r.
Qed.

Lemma not_nil_app (a : list Z) c b : (if a ++ c :: b is [] then true else false) = false.
Proof. by destruct a. Qed.

(** The text of a condition. *)
Definition crit_string (name op val : list Z) : list Z := name ++ [32] ++ op ++ [32; 39] ++ val ++ [39].

Definition plain_string_comp (comp : COMPARATORS_E) : bool :=
  match comp with COMP_EQ | COMP_NEQ | COMP_SUBSTR | COMP_NOTSUBSTR => true | _ => false end.

Section FromText.
Context (re_ok : list Z -> bool) (iso8601 : list Z -> Z) (tnow : Z) (allocregex : bool) (cols : list JSON_DB_MAPPING).
Context (subsys : Z) (ss : list Z) (Hss : Forall (fun c => not_space c = true) ss).
Context (name : list Z) (Hname : word name) (Hparen : char0 name <> 40).
Context (field : JSON_DB_MAPPING) (Hfield : get_jsoncrc_mapping name cols = Some field).

Definition cond_subsys : Z := if negb (subsys =? SUBSYS_HOST) && (map_subsys field =? SUBSYS_HOST) then SUBSYS_HOST else subsys.

(** The start of the text, up to the comparator. *)
Lemma name_parsed rest : exists c n, name = c :: n /\
  skip (fun c => is_space_tab c || (c =? 40)) (name ++ 32 :: rest) = name ++ 32 :: rest /\
  subsys_prefix subsys ss (name ++ 32 :: rest) = (subsys, ss, name ++ 32 :: rest) /\
  span not_space (name ++ 32 :: rest) = (name, 32 :: rest).
Proof.
  destruct name as [|c n] eqn:En; [by destruct Hname|]. exists c, n. split; [done|].
  pose proof (word_not_space _ Hname) as Hsp. pose proof (word_not_dot _ Hname) as Hdt. split_and!.
  - apply skip_none. cbn. apply list.Forall_cons in Hsp as [Hc _]. unfold not_space in Hc.
    apply negb_true_iff in Hc. rewrite Hc. cbn in *. by apply Z.eqb_neq.
  - unfold subsys_prefix. rewrite not_prefix by done.
    change (str "host.") with (str "host" ++ [46]). rewrite not_prefix; [done|by repeat constructor|done].
  - by apply span_app.
Qed.

Lemma need_field_name s : need_field name cols s = ret field.
Proof.
  unfold need_field, get_expr_field. rewrite <- (app_nil_r name) at 1. rewrite span_app by (done || by apply word_not_dot).
  by rewrite Hfield.
Qed.

Context (op : list Z) (Hop : op <> []) (Hops : Forall (fun c => not_space c = true) op).
Context (m : COMPARE_MAPPING) (Hm : get_comparator op = Some m).

Lemma comparator_parsed rest : skip is_space_tab (32 :: op ++ 32 :: rest) = op ++ 32 :: rest /\
  span not_space (op ++ 32 :: rest) = (op, 32 :: rest).
Proof.
  split; [|by apply span_app]. destruct op as [|c o]; [by destruct (Hop eq_refl)|]. unfold skip. cbn.
  apply list.Forall_cons in Hops as [Hc _]. unfold not_space in Hc. apply negb_true_iff in Hc. by rewrite Hc.
Qed.

Lemma string_condition_parsed val hash : jsontype field = JSON_STRING -> dbtype field <> str "timestamptz" ->
  valid_string m = true -> plain_string_comp (compval m) = true -> no_quote val ->
  blen (crit_string name op val) < MAX_ONE_CRITERION_LEN ->
  criterion_one re_ok iso8601 tnow allocregex cols (crit_string name op val) hash subsys ss =
  Acc (Some (CriterionOne field cond_subsys JSON_STRING (compval m) JSON_STRING true false false None hash None
    (S754_zero false) None (Some val) None None None false None None)).
Proof.
  intros Ht Hts Hv Hpc Hval Hlen. unfold criterion_one.
  assert ((if cols is [] then true else false) = false) as -> by (by destruct cols).
  rewrite Z.geb_leb, (proj2 (Z.leb_gt _ _)) by done. cbn [orb]. unfold crit_string. cbn [app].
  destruct (name_parsed (op ++ 32 :: 39 :: val ++ [39])) as (c & n & En & -> & -> & ->).
  rewrite not_nil_app, (proj2 (Nat.leb_gt _ 2)) by (rewrite En; repeat (rewrite length_app || cbn [length app]); lia).
  rewrite need_field_name. cbn [pr_bind ret acc_bind]. rewrite Ht. cbn [bool_decide].
  rewrite (bool_decide_true (JSON_STRING = JSON_STRING)) by done. rewrite (bool_decide_false (dbtype field = _)) by done.
  destruct (comparator_parsed (39 :: val ++ [39])) as [-> ->].
  rewrite not_nil_app.
  rewrite (bool_decide_false (JSON_STRING = JSON_NUMBER)) by done. cbn [andb orb]. rewrite andb_false_r.
  cbn [pr_bind ret acc_bind]. unfold of_option. rewrite Hm. cbn [pr_bind acc_bind comp_isvalid]. rewrite Hv. cbn [negb andb].
  assert (skip is_space_tab (32 :: 39 :: val ++ [39]) = 39 :: val ++ [39]) as -> by done.
  unfold string_value. cbn [str_valid_start char0 head default negb Z.eqb Pos.eqb].
  rewrite bool_decide_false by (by destruct (compval m); intros []).
  change (drop 1 (39 :: val ++ [39])) with (val ++ [39]). rewrite span_app by done. cbn [andb].
  rewrite bool_decide_false by (by destruct (compval m); intros []).
  done.
Qed.
End FromText.

(** C31 : a condition on a string column that is not a time, as text, is parsed and
    evaluated to what it says: for [<column> <comparator> '<value>'] with one of the
    comparators =, ==, !=, substr and notsubstr and a value without quotes, the condition
    is accepted and holds of a record that has the column exactly when the column of the
    record and the value are in the relation of the comparator. *)
Theorem string_filter_means PartialMatch re_ok iso8601 tnow allocregex cols subsys ss name field op m val hash f tcurr input :
  Forall (fun c => not_space c = true) ss -> word name -> char0 name <> 40 -> get_jsoncrc_mapping name cols = Some field ->
  op <> [] -> Forall (fun c => not_space c = true) op -> get_comparator op = Some m ->
  jsontype field = JSON_STRING -> dbtype field <> str "timestamptz" -> valid_string m = true ->
  plain_string_comp (compval m) = true -> no_quote val -> blen (crit_string name op val) < MAX_ONE_CRITERION_LEN ->
  get_str_field f field (cond_subsys subsys field) = Some input ->
  exists c b, criterion_one re_ok iso8601 tnow allocregex cols (crit_string name op val) hash subsys ss = Acc (Some c) /\
    match_criterian PartialMatch f tcurr c = Acc b /\
    (b = true <-> string_rel PartialMatch (compval m) input val [] []).
Proof.
  intros Hss Hname Hparen Hfield Hop Hops Hm Ht Hts Hv Hpc Hval Hlen Hin.
  do 2 eexists. split; [by apply (string_condition_parsed _ _ _ _ _ _ _ Hss _ Hname Hparen _ Hfield _ Hop Hops _ Hm)|].
  unfold match_criterian. cbn [is_valid_ negb fieldtype_ is_timestamp_sec_].
  rewrite bool_decide_false by done. cbn [orb]. split; [done|]. unfold match_string. cbn [pfield1_ subsys_ strval_].
  rewrite Hin. unfold match_str_criterian, string_rel. cbn [comp_]. destruct (compval m); try done.
  - by rewrite bool_decide_eq_true.
  - by rewrite negb_true_iff, bool_decide_eq_false.
  - apply substr_spec.
  - by rewrite negb_true_iff, <- not_true_iff_false, substr_spec.
Qed.

(** ** Conditions on integers, from text to evaluation *)
Definition crit_number (name op : list Z) (k : Z) : list Z := name ++ [32] ++ op ++ [32] ++ fmt_d k.

Lemma SFeqb_refl s m e : SFeqb (S754_finite s m e) (S754_finite s m e) = true.
Proof. unfold SFeqb. cbn. destruct s; rewrite Z.compare_refl, Pos.compare_cont_refl; done. Qed.

Lemma int_constant_read k : - 2 ^ 53 < k < 2 ^ 53 ->
  exists d, string_to_double (fmt_d k) = Some (d, length (fmt_d k)) /\ is_integral d = true /\ dbl_to_int 64 d = Acc k.
Proof.
  intros Hk. destruct (Z.eq_dec k 0) as [->|Hn]; [by eexists|]. exists (dbl_of_int k).
  split; [by apply string_to_double_of_int|]. pose proof (dtrunc_of_int k Hk) as Et.
  unfold is_integral, dbl_to_int. rewrite Et. split.
  - destruct (dbl_of_int k) eqn:E; [done|done|done|apply SFeqb_refl].
  - by rewrite (proj2 (in_signedb_spec 64 k)) by (unfold in_signed; lia).
Qed.

Lemma fmt_d_start k : num_valid_start (fmt_d k) = true /\ exists c s, fmt_d k = c :: s /\ is_space_tab c = false.
Proof.
  unfold fmt_d, num_valid_start. destruct (Z.ltb_spec k 0).
  - destruct (digits_spec (- k)) as (_ & HF & Hne); [lia|]. split; [|by exists 45, (digits (- k))].
    change (char0 (45 :: digits (- k))) with 45. cbn [Z.eqb Pos.eqb orb]. change (drop 1 (45 :: digits (- k))) with (digits (- k)).
    by apply char0_digit.
  - destruct (digits_spec k) as (_ & HF & Hne); [lia|]. pose proof (char0_digit _ HF Hne) as Hc. destruct (digits k) as [|c ds]; [done|].
    change (char0 (c :: ds)) with c in *. pose proof Hc as Hr. apply isdigit_range in Hr.
    rewrite (proj2 (Z.eqb_neq c 45)), (proj2 (Z.eqb_neq c 43)) by lia. split; [done|]. exists c, ds. split; [done|].
    unfold is_space_tab. apply orb_false_iff. split; apply Z.eqb_neq; lia.
Qed.

(** A condition on an integer column, as text, is parsed and evaluated to what
    it says: for [<column> <comparator> <integer>] with an integer of up to 53 bits,
    the condition is accepted and holds of a record exactly when the integers are in
    the order of the comparator; the column has 64 bits or a value that is not
    negative. *)
Theorem integer_filter_means PartialMatch re_ok iso8601 tnow allocregex cols subsys ss name field op m k hash f tcurr t x :
  Forall (fun c => not_space c = true) ss -> word name -> char0 name <> 40 -> get_jsoncrc_mapping name cols = Some field ->
  op <> [] -> Forall (fun c => not_space c = true) op -> get_comparator op = Some m -> math_of_char (char0 op) = None ->
  jsontype field = JSON_NUMBER -> valid_number m = true -> ordering (compval m) = true ->
  - 2 ^ 53 < k < 2 ^ 53 -> blen (crit_number name op k) < MAX_ONE_CRITERION_LEN ->
  get_num_field f field (cond_subsys subsys field) = num_int t x ->
  int_type t = true -> in_signed (int_width t) x -> 0 <= x \/ t = NUM_INT64 ->
  exists c, criterion_one re_ok iso8601 tnow allocregex cols (crit_number name op k) hash subsys ss = Acc (Some c) /\
    match_criterian PartialMatch f tcurr c = Acc (int_compare (compval m) x k).
Proof.
  intros Hss Hname Hparen Hfield Hop Hops Hm Hmath Ht Hv Hord Hk Hlen Hcol Htt Hx Hpos.
  exists (CriterionOne field (cond_subsys subsys field) JSON_NUMBER (compval m) JSON_NUMBER true false false None hash None
    (S754_zero false) (Some (num_int64 k)) None None None None false None None). split.
  - unfold criterion_one. assert ((if cols is [] then true else false) = false) as -> by (by destruct cols).
    rewrite Z.geb_leb, (proj2 (Z.leb_gt _ _)) by done. cbn [orb]. unfold crit_number. cbn [app].
    destruct (name_parsed cols subsys ss Hss name Hname Hparen field Hfield (op ++ 32 :: fmt_d k)) as (c & n & En & -> & -> & ->).
    rewrite not_nil_app, (proj2 (Nat.leb_gt _ 2))
      by (rewrite En; repeat (rewrite length_app || cbn [length app]); destruct op; [by destruct (Hop eq_refl)|cbn [length]; lia]).
    rewrite (need_field_name cols name Hname field Hfield). cbn [pr_bind ret acc_bind]. rewrite Ht.
    rewrite (bool_decide_false (JSON_NUMBER = JSON_STRING)) by done. cbn [andb].
    edestruct comparator_parsed as [-> ->]; [done..|]. rewrite not_nil_app.
    rewrite (bool_decide_true (JSON_NUMBER = JSON_NUMBER)) by done. cbn [orb]. rewrite andb_true_r, Hmath.
    assert ((if Nat.eqb (length op) 1 then @None math_oper else None) = None) as -> by (by destruct (Nat.eqb _ _)).
    cbn [pr_bind ret acc_bind]. unfold of_option. rewrite Hm. cbn [pr_bind acc_bind comp_isvalid]. rewrite Hv. cbn [negb andb].
    destruct (fmt_d_start k) as [Hst (c0 & s0 & E0 & Hc0)].
    assert (skip is_space_tab (32 :: fmt_d k) = fmt_d k) as -> by (rewrite E0; unfold skip; cbn; by rewrite Hc0).
    rewrite E0 at 1. unfold number_value. rewrite Hst. cbn [negb].
    rewrite bool_decide_false by (by destruct (compval m); intros []).
    destruct (int_constant_read k Hk) as (d & -> & -> & ->). rewrite drop_all. done.
  - match goal with |- match_criterian _ _ _ ?c = _ => apply (match_int_column PartialMatch f tcurr c t x k) end; try done. unfold in_signed. lia.
Qed.

(** ** Concrete filters *)
Module FilterExamples.

Definition mapping (name : string) (sub : Z) (jt : JSON_TYPES_E) (nt : NUMBER_TYPES_E) : JSON_DB_MAPPING :=
  JsonDbMapping (str name) (str name) (fnv1_hash (str name)) sub jt nt (str "text") DB_STR_TEXT None.
Definition ex_cols : list JSON_DB_MAPPING :=
  [mapping "host" SUBSYS_HOST JSON_STRING NUM_NAN; mapping "name" 3 JSON_STRING NUM_NAN;
   mapping "port" 3 JSON_NUMBER NUM_INT32; mapping "cpu" 3 JSON_NUMBER NUM_DOUBLE].
Definition parse (text : list Z) (hash : Z) : acc (option CRITERION_ONE) :=
  criterion_one (fun _ => true) (fun _ => 0) 1000 true ex_cols text hash 3 (str "svc").
Definition mk (text : list Z) (hash : Z) : option CRITERION_ONE :=
  match parse text hash with Acc (Some c) => Some c | _ => None end.

(** A record, by the names of the columns. *)
Definition ex_record (host name : string) (port : Z) (cpu : dbl) : fields :=
  Fields (fun col _ => if jsoncrc col =? fnv1_hash (str "port") then num_int NUM_INT32 port else num_dbl cpu)
    (fun col _ => Some (if jsoncrc col =? fnv1_hash (str "host") then str host else str name))
    (fun _ _ => BoolCriterion true true).

(** ( host = 'h1' and name substr 'web' ) or port > 1000 *)
Definition ex_terms : list (list (list Z)) :=
  [[str "host = 'h1'"; str "name substr 'web'"]; [str "host != 'h2'"; str "port > 1000"]].
Definition the_bp : GY_BOOLPARSE := default (gy_boolparse_one []) (gy_boolparse ex_terms).
Definition the_set : CRITERIA_SET := default empty_set (populate_groups mk fnv1_hash the_bp [3; SUBSYS_HOST] true).
Definition the_record : fields := ex_record "h1" "myweb" 80 (dbl_of_int 1).
Definition evalc (c : CRITERION_ONE) : acc bool := match_criterian (fun _ _ => false) the_record 0 c.
Definition valc (c : CRITERION_ONE) : bool := match evalc c with Acc b => b | Oob => false end.
Definition the_groups : list (list CRITERION_ONE) :=
  (fun g : list (list Z) => omap (fun t => mk t (fnv1_hash t)) g) <$> ex_terms.

(** The conditions of the example. *)
Lemma ex_texts t : t ∈ concat ex_terms -> exists c, mk t (fnv1_hash t) = Some c /\ evalc c = Acc (valc c) /\ hash_ c = fnv1_hash t.
Proof.
  cbn. intros H. repeat (apply elem_of_cons in H as [->|H]); [..|by apply elem_of_nil in H]; eexists;
    (split; [vm_compute; reflexivity|]); by vm_compute.
Qed.

Lemma ex_hashes t1 t2 : t1 ∈ concat ex_terms -> t2 ∈ concat ex_terms -> fnv1_hash t1 = fnv1_hash t2 -> t1 = t2.
Proof.
  assert (forallb (fun t1 => forallb (fun t2 => implb (fnv1_hash t1 =? fnv1_hash t2) (bool_decide (t1 = t2)))
    (concat ex_terms)) (concat ex_terms) = true) as H by (by vm_compute).
  intros H1 H2 E. rewrite forallb_forall in H. apply list_elem_of_In in H1, H2. specialize (H _ H1).
  rewrite forallb_forall in H. specialize (H _ H2). rewrite E, Z.eqb_refl in H. by apply bool_decide_eq_true in H.
Qed.

Lemma match_criteria_is_dnf_witness : exists cgs, Forall2 (Forall2 (made mk fnv1_hash)) ex_terms cgs /\
  match_criteria evalc the_set None = Acc (pass_fail (dnf valc cgs)).
Proof.
  apply (match_criteria_is_dnf mk fnv1_hash ex_terms the_bp [3; SUBSYS_HOST] true the_set evalc valc).
  - by repeat constructor.
  - done.
  - by vm_compute.
  - by vm_compute.
  - intros t c Ht Hc. destruct (ex_texts t Ht) as (c' & E & H & _). unfold made in Hc. congruence.
  - intros t1 t2 c1 c2 H1 H2 E1 E2 Eh. destruct (ex_texts t1 H1) as (c1' & F1 & _ & G1), (ex_texts t2 H2) as (c2' & F2 & _ & G2).
    unfold made in E1, E2. assert (t1 = t2) as -> by (apply ex_hashes; congruence). congruence.
Defined.

Lemma elem_of_subsystems (cs : list CRITERION_ONE) x : (exists c, c ∈ cs /\ subsys_ c = x) <-> x ∈ subsys_ <$> cs.
Proof. rewrite list_elem_of_fmap. split; intros (c & ? & ?); by exists c. Qed.

Lemma ex_represents : represents the_set the_groups.
Proof.
  unfold represents. split_and!; [by repeat constructor|done|by vm_compute| |right; by vm_compute].
  intros x. change (psubsys_arr_ the_set) with [SUBSYS_HOST; 3].
  assert (subsys_ <$> concat the_groups = [0; 3; 0; 3]) as E by (by vm_compute).
  rewrite (elem_of_subsystems (concat the_groups)), E. set_solver.
Qed.

Lemma ex_evaluable : evaluable evalc valc (concat the_groups).
Proof.
  assert (forall c, c ∈ concat the_groups -> exists t, t ∈ concat ex_terms /\ mk t (fnv1_hash t) = Some c) as Hin.
  { intros c Hc. change (concat the_groups) with (omap (fun t => mk t (fnv1_hash t)) (concat ex_terms)) in Hc.
    apply list_elem_of_omap in Hc as (t & Ht & Hc). by exists t. }
  split.
  - intros c Hc. destruct (Hin c Hc) as (t & Ht & E). destruct (ex_texts t Ht) as (c' & E' & H & _). congruence.
  - intros c1 c2 H1 H2 Eh. destruct (Hin c1 H1) as (t1 & Ht1 & E1), (Hin c2 H2) as (t2 & Ht2 & E2).
    destruct (ex_texts t1 Ht1) as (c1' & F1 & _ & G1), (ex_texts t2 Ht2) as (c2' & F2 & _ & G2).
    assert (t1 = t2) as -> by (apply ex_hashes; congruence). congruence.
Qed.

Lemma host_phase_definite_witness : validate_multihost_criteria the_set = true /\
  match_criteria evalc the_set (Some [SUBSYS_HOST]) <> Acc CRIT_FAIL.
Proof.
  split; [by vm_compute|]. intros H.
  apply (host_phase_definite the_set the_groups evalc valc ex_represents ltac:(by vm_compute) ex_evaluable) with (v' := valc) in H;
    [|done]. vm_compute in H. discriminate.
Defined.

Lemma ex_subsystems x : x ∈ psubsys_arr_ the_set <-> x = SUBSYS_HOST \/ x = 3.
Proof. change (psubsys_arr_ the_set) with [SUBSYS_HOST; 3]. by rewrite elem_of_cons, list_elem_of_singleton. Qed.

Lemma db_filter_value_witness : sql_eval valc (get_db_filter_criteria 3 true the_set TTrue) = Some true /\
  get_db_filter_criteria 77 true the_set TTrue = [TTrue].
Proof.
  split.
  - destruct (db_filter_value valc 3 true the_set the_groups TTrue ex_represents) as (_ & H & E).
    rewrite H by (apply ex_subsystems; by right). rewrite E by (by vm_compute). by vm_compute.
  - refine (proj1 (db_filter_value valc 77 true the_set the_groups TTrue ex_represents) _).
    rewrite ex_subsystems. by intros [[=]|[=]].
Defined.

(** The hypotheses of a theorem on one concrete condition. *)
Ltac ex_hyp := solve [ vm_compute; reflexivity | repeat constructor | vm_compute; discriminate
  | vm_compute; split; reflexivity | split; [vm_compute; discriminate | repeat constructor]
  | vm_compute; repeat split; discriminate | left; vm_compute; discriminate ].

Lemma string_filter_means_witness : exists c b,
  criterion_one (fun _ => true) (fun _ => 0) 1000 true ex_cols (crit_string (str "name") (str "substr") (str "web")) 5 3 (str "svc") =
    Acc (Some c) /\ match_criterian (fun _ _ => false) the_record 0 c = Acc b /\ b = true.
Proof.
  destruct (string_filter_means (fun _ _ => false) (fun _ => true) (fun _ => 0) 1000 true ex_cols 3 (str "svc") (str "name")
    (mapping "name" 3 JSON_STRING NUM_NAN) (str "substr") (CompareMapping (str "substr") COMP_SUBSTR false true false false)
    (str "web") 5 the_record 0 (str "myweb")) as (c & b & H1 & H2 & H3);
    [ex_hyp..|exists c, b; split_and!; [exact H1|exact H2|]].
  apply H3. by exists (str "my"), [].
Defined.

Lemma integer_filter_means_witness : exists c,
  criterion_one (fun _ => true) (fun _ => 0) 1000 true ex_cols (crit_number (str "port") (str "<=") (-5)) 5 3 (str "svc") =
    Acc (Some c) /\ match_criterian (fun _ _ => false) the_record 0 c = Acc false.
Proof.
  destruct (integer_filter_means (fun _ _ => false) (fun _ => true) (fun _ => 0) 1000 true ex_cols 3 (str "svc") (str "port")
    (mapping "port" 3 JSON_NUMBER NUM_INT32) (str "<=") (CompareMapping (str "<=") COMP_LE true false false true)
    (-5) 5 the_record 0 NUM_INT32 80) as (c & H1 & H2);
    [ex_hyp..|exists c; split; [exact H1|rewrite H2; vm_compute; reflexivity]].
Defined.

Definition ex_criterion : CRITERION_ONE :=
  match mk (str "name in 'a','b'") 5 with Some c => c | None => CriterionExamples.ex_crit NUM_INT8 COMP_EQ 0 None None end.

Lemma sql_string_closed_witness : exists tail,
  str_set_db_filter (str "a") (pfield1_ ex_criterion) = quote ++ str "a" ++ quote ++ tail /\ no_quote tail.
Proof.
  destruct (sql_string_closed (fun _ => true) (fun _ => 0) 1000 true ex_cols (str "name in 'a','b'") 5 3 (str "svc") ex_criterion (str "a"))
    as (tail & H1 & _ & H2);
    [vm_compute; reflexivity| |vm_compute; reflexivity|vm_compute; repeat constructor|exists tail; split; [exact H1|exact H2]].
  right. exists [str "a"; str "b"]. split; [vm_compute; reflexivity|left].
Defined.

(** Of two parentheses that close a filter without a space between them the
    first is written twice, so that the text for the parser of logical expressions
    has more closing than opening parentheses. *)
Theorem closing_parenthesis_duplicated :
  replace_expr_criteria (str "({ a = 11 } and ({ b = 22 } or { c = 33 }))") =
  Some (str "(0  & (1  | 2)))", [str "a = 11"; str "b = 22"; str "c = 33"], []).
Proof. by vm_compute. Qed.

(** An integral constant that does not fit 64 bits is converted all the same,
    which is undefined. *)
Theorem large_constant_undefined : parse (str "port > 1e30") 5 = Oob.
Proof. by vm_compute. Qed.

(** The constant of an arithmetic operation is written to the SQL text with
    three digits: 1234 becomes 1230. *)
Theorem constant_written_with_three_digits :
  (let! r := parse (str "port + 1234 > 2000") 5 in
   match r with Some c => left_sql c [] | None => Oob end) = Acc (str "((port + 1.23e+03)").
Proof. by vm_compute. Qed.
End FilterExamples.
