(* ===== verification/AlertDef.v ===== *)
(** * AlertDef : definitions of alerts (the constructor of [ALERTDEF_COMMON] in
    common/gy_alerts.cc, [get_time_modifier_secs] and the tables of the subsystems in
    common/gy_query_common.cc).

    A definition comes as a JSON object.  The parser of JSON (RapidJSON) gives the
    object as its members in order; the texts of times, the escaping of names and the
    options of the query (its filter, columns and SQL text) are parameters.  An
    exception is [None]; a conversion from double to int that does not fit is
    undefined and [Oob]. *)
From Stdlib Require Import String.
From S2P Require Import Prelude Bytes Doubles CriteriaSet StrNum CriterionParse.

#[local] Open Scope Z_scope.

(** ** Enumerations and tables *)
Inductive ADEF_STATE_E :=
  ADEFSTATE_DISABLED | ADEFSTATE_MUTED | ADEFSTATE_INHIBITED | ADEFSTATE_SILENCED | ADEFSTATE_ENABLED.
Inductive ADEF_HDLR_E := AHDLR_PARTHA | AHDLR_MADHAVA | AHDLR_SHYAMA.
Inductive ALERT_KEY_TYPE_E := AKEY_INVALID | AKEY_ID | AKEY_MACHID | AKEY_VOID_PTR.

#[export] Instance ADEF_STATE_E_eq_dec : EqDecision ADEF_STATE_E.
Proof. solve_decision. Defined.
#[export] Instance ALERT_KEY_TYPE_E_eq_dec : EqDecision ALERT_KEY_TYPE_E.
Proof. solve_decision. Defined.

Definition MAX_ALERT_NUM_CHECK_FOR : Z := 60.
Definition MAX_ALERT_QUERY_PERIOD_SEC : Z := 7 * 3600 * 24.
Definition MIN_ALERT_QUERY_INTERVAL_SEC : Z := 60.
Definition DFLT_ALERT_QUERY_INTERVAL_SEC : Z := 60.
Definition MIN_ALERT_REPEAT_INTERVAL_SEC : Z := 900.
Definition DFLT_ALERT_REPEAT_INTERVAL_SEC : Z := 2 * 3600.
Definition MIN_ALERT_FORCE_CLOSE_SEC : Z := 30 * 60.
Definition MAX_ALERT_FORCE_CLOSE_SEC : Z := 3600 * 24.
Definition DFLT_ALERT_FORCE_CLOSE_SEC : Z := 10 * 3600.
Definition MAX_GROUP_WAIT_SEC : Z := 600.
Definition DFLT_GROUP_WAIT_SEC : Z := 30.
Definition MAX_ALERT_NAME_LEN : Z := 512.

(** The names, update intervals, keys, handlers and least query periods of the
    subsystems ([subsys_class_list], [subsys_stats_list] and [subsys_aggr_list] as it is
    after startup, where the entries of the EXT subsystems are filled in), in the order
    of [SUBSYS_CLASS_E]; [paggrinfo] tells whether the pointer is set. *)
Record SUBSYS_STATS := SubsysStats {
  jsonstr : list Z;
  upd_inter_sec : Z;
  akeytype : ALERT_KEY_TYPE_E;
  ahandler : ADEF_HDLR_E;
  paggrinfo : bool;
  minqrysec : Z;
}.
Definition subsys_stats_list : list SUBSYS_STATS :=
  [SubsysStats (str "host") 300 AKEY_INVALID AHDLR_MADHAVA true 10;
   SubsysStats (str "hoststate") 2 AKEY_MACHID AHDLR_MADHAVA true 10;
   SubsysStats (str "cpumem") 2 AKEY_MACHID AHDLR_MADHAVA true 10;
   SubsysStats (str "svcstate") 5 AKEY_ID AHDLR_MADHAVA true 10;
   SubsysStats (str "svcinfo") 300 AKEY_ID AHDLR_MADHAVA true 300;
   SubsysStats (str "extsvcstate") 5 AKEY_ID AHDLR_MADHAVA true 10;
   SubsysStats (str "svcsumm") 5 AKEY_MACHID AHDLR_MADHAVA true 10;
   SubsysStats (str "activeconn") 15 AKEY_ID AHDLR_MADHAVA true 25;
   SubsysStats (str "extactiveconn") 15 AKEY_ID AHDLR_MADHAVA true 25;
   SubsysStats (str "clientconn") 15 AKEY_ID AHDLR_MADHAVA true 25;
   SubsysStats (str "extclientconn") 15 AKEY_ID AHDLR_MADHAVA true 25;
   SubsysStats (str "svcprocmap") 300 AKEY_INVALID AHDLR_MADHAVA false 0;
   SubsysStats (str "notifymsg") 60 AKEY_INVALID AHDLR_MADHAVA false 0;
   SubsysStats (str "procstate") 5 AKEY_ID AHDLR_MADHAVA true 10;
   SubsysStats (str "procinfo") 300 AKEY_ID AHDLR_MADHAVA true 300;
   SubsysStats (str "extprocstate") 5 AKEY_ID AHDLR_MADHAVA true 10;
   SubsysStats (str "topcpu") 10 AKEY_ID AHDLR_MADHAVA false 0;
   SubsysStats (str "toppgcpu") 10 AKEY_ID AHDLR_MADHAVA false 0;
   SubsysStats (str "toprss") 10 AKEY_ID AHDLR_MADHAVA false 0;
   SubsysStats (str "topfork") 10 AKEY_ID AHDLR_MADHAVA false 0;
   SubsysStats (str "hostinfo") 60 AKEY_INVALID AHDLR_MADHAVA true 60;
   SubsysStats (str "clusterstate") 5 AKEY_ID AHDLR_SHYAMA true 10;
   SubsysStats (str "svcmeshclust") 300 AKEY_INVALID AHDLR_SHYAMA false 0;
   SubsysStats (str "svcipclust") 360 AKEY_INVALID AHDLR_SHYAMA false 0;
   SubsysStats (str "alerts") 60 AKEY_INVALID AHDLR_SHYAMA true 60;
   SubsysStats (str "alertdef") 60 AKEY_INVALID AHDLR_SHYAMA false 0;
   SubsysStats (str "inhibits") 60 AKEY_INVALID AHDLR_SHYAMA false 0;
   SubsysStats (str "silences") 60 AKEY_INVALID AHDLR_SHYAMA false 0;
   SubsysStats (str "actions") 60 AKEY_INVALID AHDLR_SHYAMA false 0;
   SubsysStats (str "madhavalist") 60 AKEY_INVALID AHDLR_SHYAMA false 0;
   SubsysStats (str "tags") 60 AKEY_INVALID AHDLR_SHYAMA false 0;
   SubsysStats (str "shyamastatus") 60 AKEY_INVALID AHDLR_SHYAMA false 0;
   SubsysStats (str "madhavastatus") 60 AKEY_INVALID AHDLR_MADHAVA false 0;
   SubsysStats (str "parthalist") 60 AKEY_INVALID AHDLR_MADHAVA false 0;
   SubsysStats (str "cgroupstate") 15 AKEY_INVALID AHDLR_PARTHA false 0;
   SubsysStats (str "tracereq") 5 AKEY_INVALID AHDLR_MADHAVA true 10;
   SubsysStats (str "exttracereq") 5 AKEY_INVALID AHDLR_MADHAVA true 10;
   SubsysStats (str "traceconn") 5 AKEY_INVALID AHDLR_MADHAVA false 0;
   SubsysStats (str "traceuniq") 600 AKEY_INVALID AHDLR_MADHAVA true 600;
   SubsysStats (str "tracedef") 60 AKEY_INVALID AHDLR_SHYAMA false 0;
   SubsysStats (str "tracestatus") 60 AKEY_INVALID AHDLR_MADHAVA true 60;
   SubsysStats (str "tracehistory") 60 AKEY_INVALID AHDLR_MADHAVA false 0].

(** The first subsystem whose name has the hash of [name], with its number. *)
Definition find_subsys (name : list Z) : option (nat * SUBSYS_STATS) :=
  list_find (fun s => fnv1_hash name = fnv1_hash (jsonstr s)) subsys_stats_list.

(** ** Definitions *)
Record ALERTDEF_COMMON := AlertdefCommon {
  adef_id_ : Z;
  state_ : ADEF_STATE_E;
  ahdlr_ : ADEF_HDLR_E;
  akeytype_ : ALERT_KEY_TYPE_E;
  asubsys_ : Z;
  isrealtime_ : bool;
  manual_resolve_ : bool;
  numcheckfor_ : Z;
  subsys_inter_sec_ : Z;
  query_period_sec_ : Z;
  query_interval_sec_ : Z;
  repeataftersec_ : Z;
  forceclosesec_ : Z;
  groupwaitsec_ : Z;
  tstart_sec_ : Z;
  tend_sec_ : Z;
}.

Definition is_enabled (d : ALERTDEF_COMMON) : bool := bool_decide (state_ d = ADEFSTATE_ENABLED).

Definition is_muted_state (d : ALERTDEF_COMMON) : bool :=
  match state_ d with ADEFSTATE_MUTED | ADEFSTATE_INHIBITED | ADEFSTATE_SILENCED => true | _ => false end.

Definition set_state (st : ADEF_STATE_E) (d : ALERTDEF_COMMON) : ALERTDEF_COMMON :=
  AlertdefCommon (adef_id_ d) st (ahdlr_ d) (akeytype_ d) (asubsys_ d) (isrealtime_ d) (manual_resolve_ d) (numcheckfor_ d)
    (subsys_inter_sec_ d) (query_period_sec_ d) (query_interval_sec_ d) (repeataftersec_ d) (forceclosesec_ d) (groupwaitsec_ d)
    (tstart_sec_ d) (tend_sec_ d).

Definition GY_USEC_PER_SEC : Z := 1000000.

Definition get_nextcheck_tusec (d : ALERTDEF_COMMON) (currtusec curr_numhits : Z) : Z :=
  let npend := u8 (if curr_numhits <? numcheckfor_ d then numcheckfor_ d - curr_numhits else 1) in
  let nfor := if npend >? 1 then
                if subsys_inter_sec_ d >=? 60 then 2 else if npend <? 10 then npend else 10
              else 1 in
  let nxt_tusec := u64 (currtusec + (nfor * subsys_inter_sec_ d + 15) * GY_USEC_PER_SEC) in
  if (nfor >? 3) && (u64 (nxt_tusec - currtusec) >? 100 * GY_USEC_PER_SEC)
  then u64 (currtusec + (3 * subsys_inter_sec_ d + 15) * GY_USEC_PER_SEC)
  else nxt_tusec.

(** ** Time modifiers: 30s, 10m, 6h, 2d *)

(** [string_to_number] for [size_t] on a text that starts with a digit. *)
Definition string_to_size (s : list Z) : option Z :=
  let ds := (span isdigit s).1 in
  let v := digits_val 10 ds in
  if (if ds is [] then true else false) || (2 ^ 64 <=? v) then None else Some v.

(** The digits and spaces before the unit, and the unit. *)
Fixpoint time_unit (first : bool) (s : list Z) : option Z :=
  match s with
  | [] => Some 1
  | c :: s' =>
      if isdigit c then time_unit false s' else
      if first then None else
      if gy_tolower_ascii c =? 115 then Some 1 else
      if gy_tolower_ascii c =? 109 then Some 60 else
      if gy_tolower_ascii c =? 104 then Some 3600 else
      if gy_tolower_ascii c =? 100 then Some (3600 * 24) else
      if is_space_tab c then time_unit false s' else None
  end.

Definition get_time_modifier_secs (s : list Z) (neversec : Z) : option Z :=
  if (if s is [] then true else false) || (char0 s =? 0) then None else
  let s := skip is_space_tab s in
  if (if s is [] then true else false) || (128 <=? blen s) then None else
  if lower_prefix (str "never") s then Some neversec else
  match time_unit true s, string_to_size s with
  | Some multiplier, Some num => Some (u64 (num * multiplier))
  | _, _ => None
  end.

(** ** JSON *)
Inductive jval := JNull | JBool (b : bool) | JInt (z : Z) | JDouble (d : dbl) | JString (s : list Z) | JOther.
Abbreviation jdoc := (list (list Z * jval)).

Fixpoint FindMember (name : list Z) (j : jdoc) : option jval :=
  match j with
  | [] => None
  | (n, v) :: j' => if bool_decide (n = name) then Some v else FindMember name j'
  end.
Definition has_member (name : list Z) (j : jdoc) : bool := if FindMember name j is Some _ then true else false.
Definition cstr (s : list Z) : list Z := (span (fun c => negb (c =? 0)) s).1.

(** [(int)GetDouble()], and the seconds of a member that is a number or a text. *)
Definition seconds_of (v : jval) (neversec : Z) : acc (option Z) :=
  match v with
  | JInt z => let! r := dbl_to_int 32 (dbl_of_int z) in ret r
  | JDouble d => let! r := dbl_to_int 32 d in ret r
  | JString s => do num <- of_option (get_time_modifier_secs s neversec); ret (swrap 32 num)
  | _ => throw
  end.

Section Constructor.
Context (iso8601 : list Z -> Z) (json_plain : list Z -> bool) (queryopt_ok : bool -> jdoc -> bool).

(** [validate_json_name] with the arguments of this constructor. *)
Definition name_ok (name : list Z) : bool :=
  (blen name <? MAX_ALERT_NAME_LEN) && negb (if name is [] then true else false) && isalpha (char0 name) &&
  forallb (fun c => negb (existsb (fun x => x =? c) [39; 92; 34; 59; 36])) (cstr name) && json_plain name.

(** The start and the end, with the state that follows from them. *)
Definition start_time (j : jdoc) (tcurr : Z) : acc (option (Z * ADEF_STATE_E)) :=
  match FindMember (str "startsat") j with
  | Some (JString s) =>
      throw_if iso8601 s =? 0;
      ret (iso8601 s, if iso8601 s >? tcurr + 60 then ADEFSTATE_DISABLED else ADEFSTATE_ENABLED)
  | Some _ => throw
  | None => ret (tcurr, ADEFSTATE_ENABLED)
  end.

Definition end_time (j : jdoc) (tcurr tstart : Z) (st : ADEF_STATE_E) : acc (option (Z * ADEF_STATE_E)) :=
  match FindMember (str "endsat") j with
  | Some (JString s) =>
      let tend := iso8601 s in
      if tend =? 0 then ret (LONG_MAX - 1, st) else
      throw_if tend <? tstart;
      ret (tend, if tend <=? tcurr + 5 then ADEFSTATE_DISABLED else st)
  | Some _ => throw
  | None => ret (LONG_MAX - 1, st)
  end.

(** [create_queryopt_obj]: whether the alert is a realtime alert, and the period of
    the query. *)
Definition create_queryopt_obj (j : jdoc) : acc (option (bool * Z)) :=
  do type <- (match FindMember (str "alerttype") j with
              | None => ret None
              | Some (JString s) =>
                  if bool_decide (cstr s = str "realtime") then ret (Some true)
                  else if bool_decide (cstr s = str "dbaggr") then ret (Some false) else throw
              | Some _ => throw
              end);
  do '(rt, period) <-
    (match FindMember (str "queryperiod") j with
     | None => throw_if bool_decide (type = Some false); ret (true, 0)
     | Some v =>
         throw_if bool_decide (type = Some true);
         do period <- (match v with
                       | JInt z => if in_signedb 32 z then (if z <? 0 then Oob else ret z) else throw
                       | JString s => do num <- of_option (get_time_modifier_secs s 0); ret (u32 num)
                       | _ => throw
                       end);
         if period <? 10 then ret (true, 0) else
         throw_if period >? MAX_ALERT_QUERY_PERIOD_SEC;
         ret (false, period)
     end);
  throw_if bool_decide (has_member (str "aggrfilter") j = rt);
  throw_if negb rt && (match FindMember (str "aggroper") j with Some (JString _) | None => false | Some _ => true end);
  ret (rt, period).

Definition num_check_for (j : jdoc) : acc (option Z) :=
  match FindMember (str "numcheckfor") j with
  | None => ret 1
  | Some (JInt z) =>
      throw_if negb (in_signedb 32 z);
      throw_if (z >? MAX_ALERT_NUM_CHECK_FOR) || (z <? 0);
      ret (if z >? 1 then z else 1)
  | Some _ => throw
  end.

Definition query_every (j : jdoc) (rt : bool) (inter : Z) : acc (option Z) :=
  if rt then ret DFLT_ALERT_QUERY_INTERVAL_SEC else
  do sec <- (match FindMember (str "queryevery") j with
             | None => ret DFLT_ALERT_QUERY_INTERVAL_SEC
             | Some v =>
                 do r <- seconds_of v 0;
                 throw_if (r <? MIN_ALERT_QUERY_INTERVAL_SEC) && negb (r =? 0);
                 ret (if negb (r =? DFLT_ALERT_QUERY_INTERVAL_SEC) && negb (r =? 0) then r else DFLT_ALERT_QUERY_INTERVAL_SEC)
             end);
  ret (if sec <? inter then inter else sec).

Definition repeat_after (j : jdoc) : acc (option Z) :=
  match FindMember (str "repeatafter") j with
  | None => ret DFLT_ALERT_REPEAT_INTERVAL_SEC
  | Some v =>
      do r <- seconds_of v 0;
      throw_if (r <? MIN_ALERT_REPEAT_INTERVAL_SEC) && negb (r =? 0);
      ret r
  end.

Definition group_wait (j : jdoc) : acc (option Z) :=
  match FindMember (str "groupwait") j with
  | None => ret DFLT_GROUP_WAIT_SEC
  | Some v => do r <- seconds_of v 0; throw_if u32 r >? MAX_GROUP_WAIT_SEC; ret r
  end.

Definition force_close (j : jdoc) : acc (option Z) :=
  match FindMember (str "forceclose") j with
  | None => ret DFLT_ALERT_FORCE_CLOSE_SEC
  | Some v =>
      do r <- seconds_of v MAX_ALERT_FORCE_CLOSE_SEC;
      throw_if (r >? MAX_ALERT_FORCE_CLOSE_SEC) || (r <? MIN_ALERT_FORCE_CLOSE_SEC);
      ret r
  end.

(** The constructor, for a definition whose id is given. *)
Definition alertdef_common (j : jdoc) (adef_id tcurr : Z) : acc (option ALERTDEF_COMMON) :=
  do _ <- (match FindMember (str "alertname") j with
           | Some (JString name) => throw_if negb (name_ok name); ret tt
           | _ => throw
           end);
  do '(tstart, st) <- start_time j tcurr;
  do '(tend, st) <- end_time j tcurr tstart st;
  throw_if has_member (str "queryopt") j || has_member (str "starttime") j || has_member (str "multiqueryarr") j;
  do '(n, sub) <- (match FindMember (str "subsys") j with
                   | Some (JString s) => of_option (find_subsys s)
                   | _ => throw
                   end);
  throw_if bool_decide (akeytype sub = AKEY_INVALID);
  do '(rt, period) <- create_queryopt_obj j;
  throw_if negb rt && negb (paggrinfo sub);
  throw_if negb (queryopt_ok rt j);
  let period := if negb rt && (period <? minqrysec sub) then minqrysec sub else period in
  let manual := match FindMember (str "manualresolve") j with Some (JBool b) => b | _ => false end in
  do ncheck <- num_check_for j;
  do every <- query_every j rt (upd_inter_sec sub);
  do rep <- repeat_after j;
  do wait <- group_wait j;
  do close <- force_close j;
  ret (AlertdefCommon adef_id st (ahandler sub) (akeytype sub) (Z.of_nat n) rt manual ncheck (upd_inter_sec sub) period every
    rep close wait tstart tend).
End Constructor.

(** ** What an accepted definition fulfils *)
Record alertdef_wf (iso8601 : list Z -> Z) (adef_id tcurr : Z) (c : ALERTDEF_COMMON) : Prop := AlertdefWf {
  wf_id : adef_id_ c = adef_id;
  wf_key : akeytype_ c = AKEY_ID \/ akeytype_ c = AKEY_MACHID;
  wf_inter : 2 <= subsys_inter_sec_ c <= 300;
  wf_check : 1 <= numcheckfor_ c <= MAX_ALERT_NUM_CHECK_FOR;
  wf_repeat : repeataftersec_ c = 0 \/ MIN_ALERT_REPEAT_INTERVAL_SEC <= repeataftersec_ c < 2 ^ 31;
  wf_close : MIN_ALERT_FORCE_CLOSE_SEC <= forceclosesec_ c <= MAX_ALERT_FORCE_CLOSE_SEC;
  wf_wait : 0 <= groupwaitsec_ c <= MAX_GROUP_WAIT_SEC;
  wf_period : if isrealtime_ c then query_period_sec_ c = 0
              else 10 <= query_period_sec_ c <= MAX_ALERT_QUERY_PERIOD_SEC /\ subsys_inter_sec_ c <= query_interval_sec_ c;
  wf_start : tstart_sec_ c = tcurr \/ exists s, tstart_sec_ c = iso8601 s /\ iso8601 s <> 0;
}.

Lemma seconds_of_range v never : prsat (fun r => - 2 ^ 31 <= r < 2 ^ 31) (seconds_of v never).
Proof.
  assert (forall d, prsat (fun r => - 2 ^ 31 <= r < 2 ^ 31) (let! r := dbl_to_int 32 d in ret r)) as Hd.
  { intros d. unfold dbl_to_int. destruct (dtrunc d) as [z|]; [|done]. unfold in_signedb. case_if; [|done]. breflect. cbn. lia. }
  destruct v; try apply Hd; try done. cbn [seconds_of]. apply prsat_bind. eapply prsat_mono; [|apply prsat_true].
  intros num _. cbn [prsat ret]. unfold swrap. pose proof (wrap_range 32 num ltac:(lia)) as Hr. unfold in_width in Hr.
  change (2 ^ (32 - 1)) with (2 ^ 31). cbv zeta. destruct (_ <? _) eqn:E; breflect; lia.
Qed.

(** A member that is not there gives the default. *)
Ltac member_default := match goal with |- prsat _ (match FindMember ?n ?j with _ => _ end) => destruct (FindMember n j) as [v|]; [|cbn; lia] end.

Lemma num_check_for_range j : prsat (fun r => 1 <= r <= MAX_ALERT_NUM_CHECK_FOR) (num_check_for j).
Proof.
  unfold num_check_for, MAX_ALERT_NUM_CHECK_FOR. destruct (FindMember _ j) as [v|]; [|cbn; lia]. destruct v; try done.
  do 2 (apply prsat_throw_if; intros ?). breflect. cbn. case_if; breflect; lia.
Qed.

Lemma repeat_after_range j : prsat (fun r => r = 0 \/ MIN_ALERT_REPEAT_INTERVAL_SEC <= r < 2 ^ 31) (repeat_after j).
Proof.
  unfold repeat_after. destruct (FindMember _ j) as [v|]; [|by right]. apply prsat_bind. eapply prsat_mono; [|apply seconds_of_range].
  intros r Hr; cbv beta in Hr. apply prsat_throw_if. intros H. cbn [prsat ret]. apply andb_false_iff in H as [H|H]; breflect; [right; lia|by left].
Qed.

Lemma group_wait_range j : prsat (fun r => 0 <= r <= MAX_GROUP_WAIT_SEC) (group_wait j).
Proof.
  unfold group_wait, MAX_GROUP_WAIT_SEC. destruct (FindMember _ j) as [v|]; [|done]. apply prsat_bind. eapply prsat_mono; [|apply seconds_of_range].
  intros r Hr; cbv beta in Hr. apply prsat_throw_if. intros H. breflect. cbn. destruct (Z.le_gt_cases 0 r).
  - rewrite wrap_id in H by (unfold in_width; lia). lia.
  - exfalso. replace (u32 r) with (r + 2 ^ 32) in H; [lia|]. symmetry. unfold wrap. rewrite <- (Z.mod_add r 1) by done.
    apply Z.mod_small. lia.
Qed.

Lemma force_close_range j : prsat (fun r => MIN_ALERT_FORCE_CLOSE_SEC <= r <= MAX_ALERT_FORCE_CLOSE_SEC) (force_close j).
Proof.
  unfold force_close. destruct (FindMember _ j) as [v|]; [|done]. apply prsat_bind. eapply prsat_mono; [|apply seconds_of_range].
  intros r Hr; cbv beta in Hr. apply prsat_throw_if. intros H. breflect. cbn. lia.
Qed.

Lemma query_every_range j rt inter : prsat (fun r => rt = false -> inter <= r) (query_every j rt inter).
Proof.
  unfold query_every. destruct rt; [done|]. apply prsat_bind. eapply prsat_mono; [|apply prsat_true]. intros sec _. cbn. case_if; breflect; lia.
Qed.

Lemma create_queryopt_range j : prsat (fun r => if r.1 : bool then r.2 = 0 else 10 <= r.2 <= MAX_ALERT_QUERY_PERIOD_SEC) (create_queryopt_obj j).
Proof.
  unfold create_queryopt_obj. apply prsat_bind. eapply prsat_mono; [|apply prsat_true]. intros type _. apply prsat_bind.
  apply prsat_mono with (P := fun r : bool * Z => if r.1 : bool then r.2 = 0 else 10 <= r.2 <= MAX_ALERT_QUERY_PERIOD_SEC).
  { intros [rt period] Hr. by do 2 (apply prsat_throw_if; intros _). }
  destruct (FindMember _ j) as [v|]; apply prsat_throw_if; intros _; [|done]. apply prsat_bind. eapply prsat_mono; [|apply prsat_true].
  intros period _. case_if; [done|]. apply prsat_throw_if. intros H. breflect. cbn. lia.
Qed.

Lemma start_time_ok iso j tcurr : prsat (fun r => r.1 = tcurr \/ exists s, r.1 = iso s /\ iso s <> 0) (start_time iso j tcurr).
Proof.
  unfold start_time. destruct (FindMember _ j) as [v|]; [|by left]. destruct v; try done. apply prsat_throw_if. intros H. breflect. right. by eexists.
Qed.

(** The subsystems with a key for alerts. *)
Definition subsys_alert_ok (s : SUBSYS_STATS) : bool :=
  match akeytype s with
  | AKEY_INVALID => true
  | AKEY_ID | AKEY_MACHID => (2 <=? upd_inter_sec s) && (upd_inter_sec s <=? 300) && (minqrysec s <=? 300)
  | AKEY_VOID_PTR => false
  end.
Lemma alert_subsys_inter name n sub : find_subsys name = Some (n, sub) -> akeytype sub <> AKEY_INVALID ->
  (akeytype sub = AKEY_ID \/ akeytype sub = AKEY_MACHID) /\ 2 <= upd_inter_sec sub <= 300 /\ minqrysec sub <= 300.
Proof.
  unfold find_subsys. intros (H & _ & _)%list_find_Some Hk. apply list_elem_of_lookup_2, list_elem_of_In in H.
  assert (forallb subsys_alert_ok subsys_stats_list = true) as Hall by (vm_compute; reflexivity).
  rewrite forallb_forall in Hall. specialize (Hall _ H). unfold subsys_alert_ok in Hall.
  destruct (akeytype sub); try done; breflect; (split; [by auto|lia]).
Qed.

Lemma alertdef_common_wf iso json_plain queryopt_ok j adef_id tcurr c :
  alertdef_common iso json_plain queryopt_ok j adef_id tcurr = Acc (Some c) -> alertdef_wf iso adef_id tcurr c.
Proof.
  intros H. enough (prsat (alertdef_wf iso adef_id tcurr) (alertdef_common iso json_plain queryopt_ok j adef_id tcurr)) as Hp by (by rewrite H in Hp).
  clear H c. unfold alertdef_common. apply prsat_bind. eapply prsat_mono; [|apply prsat_true]. intros _ _.
  apply prsat_bind. eapply prsat_mono; [|apply start_time_ok]. intros [tstart st] Hstart.
  apply prsat_bind. eapply prsat_mono; [|apply prsat_true]. intros [tend st'] _. apply prsat_throw_if. intros _.
  apply prsat_bind. destruct (FindMember (str "subsys") j) as [v|]; [|done]. destruct v as [| | | |s|]; try done.
  unfold of_option. destruct (find_subsys s) as [[n sub]|] eqn:Hs; [|done]. cbn [prsat]. apply prsat_throw_if. intros Hk%bool_decide_eq_false.
  destruct (alert_subsys_inter s n sub Hs Hk) as (Hkey & Hinter & Hmin).
  apply prsat_bind. eapply prsat_mono; [|apply create_queryopt_range]. intros [rt period] Hq. cbn [fst snd] in Hq. do 2 (apply prsat_throw_if; intros _).
  apply prsat_bind. eapply prsat_mono; [|apply num_check_for_range]. intros ncheck Hn.
  apply prsat_bind. eapply prsat_mono; [|apply query_every_range]. intros every He.
  apply prsat_bind. eapply prsat_mono; [|apply repeat_after_range]. intros rep Hr.
  apply prsat_bind. eapply prsat_mono; [|apply group_wait_range]. intros wait Hw.
  apply prsat_bind. eapply prsat_mono; [|apply force_close_range]. intros close Hc.
  cbn [prsat ret]. split; cbn; try done. destruct rt; cbn [negb andb]; [done|]. unfold MAX_ALERT_QUERY_PERIOD_SEC in *.
  split; [case_if; breflect; lia|by apply He].
Qed.

(** Every definition of an alert that is accepted is within its bounds: the number
    of hits it asks for, the times after which it is repeated and closed and for which
    it is grouped, the period and the interval of its query, and the update interval
    and the key of its subsystem. *)
Theorem accepted_alertdef_wf iso json_plain queryopt_ok j adef_id tcurr c :
  alertdef_common iso json_plain queryopt_ok j adef_id tcurr = Acc (Some c) -> alertdef_wf iso adef_id tcurr c.
Proof. apply alertdef_common_wf. Qed.

Module AlertDefExamples.
(** A realtime alert on the state of services. *)
Definition ex_json : jdoc :=
  [(str "alertname", JString (str "svc-slow")); (str "subsys", JString (str "svcstate")); (str "filter", JString (str "{ state = 'Bad' }"));
   (str "numcheckfor", JInt 3); (str "repeatafter", JString (str "1h")); (str "forceclose", JString (str "never"))].
Definition ex_alertdef : ALERTDEF_COMMON :=
  AlertdefCommon 7 ADEFSTATE_ENABLED AHDLR_MADHAVA AKEY_ID 3 true false 3 5 0 60 3600 86400 30 1000 (LONG_MAX - 1).

Lemma accepted_alertdef_wf_witness : alertdef_wf (fun _ => 0) 7 1000 ex_alertdef.
Proof.
  apply (accepted_alertdef_wf (fun _ => 0) (fun _ => true) (fun _ _ => true) ex_json). vm_compute. reflexivity.
Defined.
End AlertDefExamples.
