(* ===== verification/AlertRt.v ===== *)
(** * AlertRt : realtime alerts of madhava (server/gy_malerts.h, server/gy_malerts.cc).

    A record that fulfils the filter of a definition is a hit of the key of the record
    (a service, a process, a host).  The thread that receives the record counts the
    hits of the key and sends a message to the handler thread when the key is new or
    the definition has been hit often enough; the handler keeps one [MRT_ALERT_STATS]
    per key in the table of the definition and one entry per [MRT_ALERT_STATS] in the
    multimap [atimemap_], ordered by the time of its next check.  The handler sends the
    alerts to shyama, and closes those that are not hit any more or are too old.

    Pointers to the pool objects [MRT_ALERT_STATS] and [MRT_ADEF_ELEM] are numbers, the
    objects in use are the maps [stats] and [elems]; the result of an allocation, the
    clocks and the state of the connection to shyama are the input of a step.  An
    object is gone once it is removed from its table.  Each operation is one step: the
    tables are RCU tables with one writer, the handler thread. *)
From stdpp Require Import gmap sets sorting.
From S2P Require Import Prelude JHash Bytes CommLayout AlertDef.

#[local] Open Scope Z_scope.

(** ** Constants and enumerations *)
Definition MAX_TOTAL_ALERTS_PER_MIN : Z := 3000.
Definition MAX_TOTAL_ALERTS_PER_HOUR : Z := 30000.
Definition GY_USEC_PER_YEAR : Z := 31557600 * GY_USEC_PER_SEC.
Definition SUBSYS_PROCSTATE : Z := 13.
Definition SUBSYS_EXTPROCSTATE : Z := 15.

Definition ALERT_ASTAT_ID : Z := 0.
Definition ALERT_ASTAT_MACHID : Z := 1.
Definition ALERT_ADEF_NEW : Z := 2.
Definition ALERT_ADEF_ENABLE : Z := 3.
Definition ALERT_ADEF_DISABLE : Z := 4.
Definition ALERT_ADEF_MUTE : Z := 5.
Definition ALERT_ADEF_SILENCE : Z := 6.
Definition ALERT_ADEF_INHIBIT : Z := 7.
Definition ALERT_ADEF_DELETE : Z := 8.
Definition ALERT_ADEF_MAX : Z := 9.

Inductive MALERT_STATE_E := MALERT_PENDING | MALERT_FIRED.

#[export] Instance MALERT_STATE_E_eq_dec : EqDecision MALERT_STATE_E.
Proof. solve_decision. Defined.

(** ** Definitions of alerts *)

(** The key of an object: an id, or the two halves of a machine id. *)
Abbreviation akey := (Z + Z * Z)%type.

(** [avar_tbl_] maps the keys to the objects. *)
Record MRT_ALERTDEF := MrtAlertdef {
  com : ALERTDEF_COMMON;
  avar_tbl_ : gmap akey Z;
  multi_iter_chk_sec_ : Z;
  is_deleted_ : bool;
}.

(** The constructor, after that of the base class; [None] where it throws. *)
Definition mrt_alertdef (c : ALERTDEF_COMMON) : option MRT_ALERTDEF :=
  match akeytype_ c with
  | AKEY_ID | AKEY_MACHID =>
      let inter := subsys_inter_sec_ c in
      let multi :=
        if inter <? 60 then
          if negb (asubsys_ c =? SUBSYS_PROCSTATE) && negb (asubsys_ c =? SUBSYS_EXTPROCSTATE)
          then u16 (inter + Z.min (Z.shiftr inter 1 + 1) 10)
          else u16 (Z.max (2 * inter) 23)
        else u16 (inter + 30) in
      Some (MrtAlertdef c ∅ multi false)
  | _ => None
  end.

(** [is_deleted_.store(mo_relaxed)]: the value stored is the memory order, which is 0. *)
Definition set_deleted (d : MRT_ALERTDEF) : MRT_ALERTDEF :=
  MrtAlertdef (com d) (avar_tbl_ d) (multi_iter_chk_sec_ d) false.

Definition has_id_tbl (d : MRT_ALERTDEF) : bool := negb (bool_decide (akeytype_ (com d) = AKEY_MACHID)).
Definition key_of (d : MRT_ALERTDEF) (id : Z) (machid : Z * Z) : akey := if has_id_tbl d then inl id else inr machid.

(** [MRT_ADEF_ELEM::is_valid]: the start time is kept in 32 bits. *)
Definition elem_valid (d : MRT_ALERTDEF) : bool := negb (u32 (tstart_sec_ (com d)) =? 0).

(** ** The state of one key *)
Record MRT_ALERT_STATS := MrtAlertStats {
  tstart_ : Z;
  tlast_hit_ : Z;
  tlast_alert_ : Z;
  trepeat_alert_ : Z;
  tforce_close_ : Z;
  tmsg_sent_ : Z;
  tlast_validate_ : Z;
  machid_ : Z * Z;
  id_ : Z;
  pdefelem_ : Z;
  tnextchkusec_ : Z;
  alertid_ : Z;
  stat_multi_ : Z;
  numhits_ : Z;
  stat_numcheckfor_ : Z;
  nrepeats_ : Z;
  stat_state_ : MALERT_STATE_E;
}.

(** [ALERT_STAT_HASH]: the 32 bit words of its members. *)
Definition lo32 (z : Z) : Z := u32 z.
Definition hi32 (z : Z) : Z := u32 (Z.shiftr z 32).
Definition ALERT_STAT_HASH (machid : Z * Z) (id adef_id madhava_id tstart : Z) : Z :=
  jhash2 [lo32 machid.1; hi32 machid.1; lo32 machid.2; hi32 machid.2; lo32 id; hi32 id;
          lo32 madhava_id; hi32 madhava_id; lo32 adef_id; lo32 tstart] 0xceedfead.

Definition set_hit (tcurr n : Z) (p : MRT_ALERT_STATS) : MRT_ALERT_STATS :=
  MrtAlertStats (tstart_ p) tcurr (tlast_alert_ p) (trepeat_alert_ p) (tforce_close_ p) (tmsg_sent_ p)
    (tlast_validate_ p) (machid_ p) (id_ p) (pdefelem_ p) (tnextchkusec_ p) (alertid_ p) (stat_multi_ p) n
    (stat_numcheckfor_ p) (nrepeats_ p) (stat_state_ p).
Definition set_fired (tforce : Z) (p : MRT_ALERT_STATS) : MRT_ALERT_STATS :=
  MrtAlertStats (tstart_ p) (tlast_hit_ p) (tlast_alert_ p) (trepeat_alert_ p) tforce (tmsg_sent_ p)
    (tlast_validate_ p) (machid_ p) (id_ p) (pdefelem_ p) (tnextchkusec_ p) (alertid_ p) (stat_multi_ p) (numhits_ p)
    (stat_numcheckfor_ p) (nrepeats_ p) MALERT_FIRED.
Definition set_repeats (n : Z) (p : MRT_ALERT_STATS) : MRT_ALERT_STATS :=
  MrtAlertStats (tstart_ p) (tlast_hit_ p) (tlast_alert_ p) (trepeat_alert_ p) (tforce_close_ p) (tmsg_sent_ p)
    (tlast_validate_ p) (machid_ p) (id_ p) (pdefelem_ p) (tnextchkusec_ p) (alertid_ p) (stat_multi_ p) (numhits_ p)
    (stat_numcheckfor_ p) n (stat_state_ p).
Definition set_alert (tcurr trepeat : Z) (p : MRT_ALERT_STATS) : MRT_ALERT_STATS :=
  MrtAlertStats (tstart_ p) (tlast_hit_ p) tcurr trepeat (tforce_close_ p) (tmsg_sent_ p)
    (tlast_validate_ p) (machid_ p) (id_ p) (pdefelem_ p) (tnextchkusec_ p) (alertid_ p) (stat_multi_ p) (numhits_ p)
    (stat_numcheckfor_ p) (nrepeats_ p) (stat_state_ p).
Definition set_nextchk (tusec : Z) (p : MRT_ALERT_STATS) : MRT_ALERT_STATS :=
  MrtAlertStats (tstart_ p) (tlast_hit_ p) (tlast_alert_ p) (trepeat_alert_ p) (tforce_close_ p) (tmsg_sent_ p)
    (tlast_validate_ p) (machid_ p) (id_ p) (pdefelem_ p) tusec (alertid_ p) (stat_multi_ p) (numhits_ p)
    (stat_numcheckfor_ p) (nrepeats_ p) (stat_state_ p).
Definition set_validate (tcurr : Z) (p : MRT_ALERT_STATS) : MRT_ALERT_STATS :=
  MrtAlertStats (tstart_ p) (tlast_hit_ p) (tlast_alert_ p) (trepeat_alert_ p) (tforce_close_ p) (tmsg_sent_ p)
    tcurr (machid_ p) (id_ p) (pdefelem_ p) (tnextchkusec_ p) (alertid_ p) (stat_multi_ p) (numhits_ p)
    (stat_numcheckfor_ p) (nrepeats_ p) (stat_state_ p).

(** ** Messages and the state of the handler *)
Record MALERT_MSG := MalertMsg {
  msg_machid_ : Z * Z;
  msg_id_ : Z;
  tmsg_ : Z;
  pjson_ : bool;
  lenjson_ : Z;
  msg_adef_id_ : Z;
  lenact_json_ : Z;
  msg_numhits_ : Z;
  type_ : Z;
  msg_state_ : ADEF_STATE_E;
}.

(** [MALERT_MSG::validate] *)
Definition msg_validate (m : MALERT_MSG) : bool := type_ m <? ALERT_ADEF_MAX.

Definition set_json (lenjson lenact : Z) (m : MALERT_MSG) : MALERT_MSG :=
  MalertMsg (msg_machid_ m) (msg_id_ m) (tmsg_ m) true lenjson (msg_adef_id_ m) (u16 lenact) (msg_numhits_ m) (type_ m)
    (msg_state_ m).

(** What is sent to shyama. *)
Inductive shyama_msg :=
  | SAlert (talert alertid adef_id : Z) (ahdlr : ADEF_HDLR_E) (asubsys numhits numcheckfor nrepeats lenjson : Z)
  | SClose (tlast_hit tcurr alertid adef_id : Z) (is_force_close : bool).

Record MRT_ALERT_HDLR := MrtAlertHdlr {
  adeftbl_ : gmap Z Z;
  elems : gmap Z MRT_ALERTDEF;
  stats : gmap Z MRT_ALERT_STATS;
  atimemap_ : list (Z * Z);
  aqueue_ : list MALERT_MSG;
  tdisable_end_ : Z;
  tlast_timemap_chk_ : Z;
  tlast_stat_chk_ : Z;
  tlastprint : Z;
  sent : list shyama_msg;
}.

Definition set_adeftbl (t : gmap Z Z) (h : MRT_ALERT_HDLR) : MRT_ALERT_HDLR :=
  MrtAlertHdlr t (elems h) (stats h) (atimemap_ h) (aqueue_ h) (tdisable_end_ h) (tlast_timemap_chk_ h) (tlast_stat_chk_ h) (tlastprint h) (sent h).
Definition set_elems (t : gmap Z MRT_ALERTDEF) (h : MRT_ALERT_HDLR) : MRT_ALERT_HDLR :=
  MrtAlertHdlr (adeftbl_ h) t (stats h) (atimemap_ h) (aqueue_ h) (tdisable_end_ h) (tlast_timemap_chk_ h) (tlast_stat_chk_ h) (tlastprint h) (sent h).
Definition set_stats (t : gmap Z MRT_ALERT_STATS) (h : MRT_ALERT_HDLR) : MRT_ALERT_HDLR :=
  MrtAlertHdlr (adeftbl_ h) (elems h) t (atimemap_ h) (aqueue_ h) (tdisable_end_ h) (tlast_timemap_chk_ h) (tlast_stat_chk_ h) (tlastprint h) (sent h).
Definition set_timemap (t : list (Z * Z)) (h : MRT_ALERT_HDLR) : MRT_ALERT_HDLR :=
  MrtAlertHdlr (adeftbl_ h) (elems h) (stats h) t (aqueue_ h) (tdisable_end_ h) (tlast_timemap_chk_ h) (tlast_stat_chk_ h) (tlastprint h) (sent h).
Definition set_queue (q : list MALERT_MSG) (h : MRT_ALERT_HDLR) : MRT_ALERT_HDLR :=
  MrtAlertHdlr (adeftbl_ h) (elems h) (stats h) (atimemap_ h) q (tdisable_end_ h) (tlast_timemap_chk_ h) (tlast_stat_chk_ h) (tlastprint h) (sent h).
Definition set_times (tmap tstat tprint : Z) (h : MRT_ALERT_HDLR) : MRT_ALERT_HDLR :=
  MrtAlertHdlr (adeftbl_ h) (elems h) (stats h) (atimemap_ h) (aqueue_ h) (tdisable_end_ h) tmap tstat tprint (sent h).
Definition send (o : shyama_msg) (h : MRT_ALERT_HDLR) : MRT_ALERT_HDLR :=
  MrtAlertHdlr (adeftbl_ h) (elems h) (stats h) (atimemap_ h) (aqueue_ h) (tdisable_end_ h) (tlast_timemap_chk_ h) (tlast_stat_chk_ h) (tlastprint h) (sent h ++ [o]).

Definition upd_stat (l : Z) (p : MRT_ALERT_STATS) (h : MRT_ALERT_HDLR) : MRT_ALERT_HDLR := set_stats (<[l := p]> (stats h)) h.

(** ** The multimap [atimemap_]: a list in the order of its keys *)

(** A new element comes behind those with the same key. *)
Fixpoint mm_insert (k l : Z) (m : list (Z * Z)) : list (Z * Z) :=
  match m with
  | [] => [(k, l)]
  | (k', l') :: m' => if k <? k' then (k, l) :: m else (k', l') :: mm_insert k l m'
  end.

(** Erases the first element of [equal_range(key)] that points to [l]. *)
Fixpoint mm_erase (k l : Z) (m : list (Z * Z)) : list (Z * Z) :=
  match m with
  | [] => []
  | (k', l') :: m' => if (k' =? k) && (l' =? l) then m' else (k', l') :: mm_erase k l m'
  end.

Definition mm_has (k l : Z) (m : list (Z * Z)) : bool := existsb (fun e => (e.1 =? k) && (e.2 =? l)) m.

(** ** Hits *)

(** The lambda of [is_astat_msg]: the object, the number of hits and whether a
    message is to be sent. *)
Definition on_hit (tcurr : Z) (p : MRT_ALERT_STATS) : MRT_ALERT_STATS * Z * bool :=
  let numhits := u8 (numhits_ p + 1) in
  let toldlasthit := tlast_hit_ p in
  if (numhits >? 1) && (stat_numcheckfor_ p >? 1) && (toldlasthit + stat_multi_ p <=? tcurr)
  then (set_hit tcurr 1 p, numhits, false) else
  if numhits >=? stat_numcheckfor_ p then
    if (tlast_alert_ p =? 0) && ((tmsg_sent_ p =? 0) || (tcurr >? tmsg_sent_ p + 60))
    then (set_hit tcurr numhits p, numhits, true) else
    if tlast_alert_ p =? 0 then (set_hit tcurr 1 p, numhits, false) else
    if (tcurr >=? trepeat_alert_ p) && (trepeat_alert_ p >? 0)
    then (set_hit tcurr numhits p, numhits, true)
    else (set_hit tcurr 1 p, numhits, false)
  else (set_hit tcurr numhits p, numhits, false).

Definition is_astat_msg (h : MRT_ALERT_HDLR) (d : MRT_ALERTDEF) (id : Z) (machid : Z * Z) (tcurr : Z)
    : MRT_ALERT_HDLR * option MALERT_MSG :=
  let msg numhits :=
    if has_id_tbl d
    then MalertMsg machid id tcurr false 0 (adef_id_ (com d)) 0 numhits ALERT_ASTAT_ID ADEFSTATE_ENABLED
    else MalertMsg machid 0 tcurr false 0 (adef_id_ (com d)) 0 numhits ALERT_ASTAT_MACHID ADEFSTATE_ENABLED in
  match avar_tbl_ d !! key_of d id machid with
  | None => (h, Some (msg 1))
  | Some l =>
      match stats h !! l with
      | None => (h, Some (msg 1))
      | Some p =>
          let '(p', numhits, isalert) := on_hit tcurr p in
          (upd_stat l p' h, if isalert then Some (msg numhits) else None)
      end
  end.

Definition alert_hdr_size : Z := sizeof COMM_HEADER + sizeof EVENT_NOTIFY + sizeof ALERT_STAT_INFO.

(** The queue takes no more than its capacity. *)
Definition queue_write (m : MALERT_MSG) (h : MRT_ALERT_HDLR) : MRT_ALERT_HDLR :=
  if Z.of_nat (length (aqueue_ h)) <? MAX_TOTAL_ALERTS_PER_MIN then set_queue (aqueue_ h ++ [m]) h else h.

Definition send_rt_amsg (m : MALERT_MSG) (szjson : Z) (h : MRT_ALERT_HDLR) : MRT_ALERT_HDLR :=
  queue_write (if szjson >? 0 then set_json (alert_hdr_size + szjson + 1 + 8) (szjson + 1) m else m) h.

(** One definition in the loop over the definitions that apply to a record: [pass] is
    the result of the filter, [szjson] the length of the text of the record. *)
Definition rt_record (e : Z) (pass : bool) (id : Z) (machid : Z * Z) (tcurr szjson : Z) (h : MRT_ALERT_HDLR)
    : MRT_ALERT_HDLR :=
  match elems h !! e with
  | None => h
  | Some d =>
      if is_deleted_ d || negb (is_enabled (com d)) then h else
      if negb pass then h else
      match is_astat_msg h d id machid tcurr with
      | (h, None) => h
      | (h, Some m) => send_rt_amsg m szjson h
      end
  end.

(** ** Messages of shyama *)

(** One definition of [handle_adef_new]; those that are not evaluated in realtime go to
    the handlers of database alerts. *)
Definition handle_adef_new (tcurr adef_id lenjson : Z) (state : ADEF_STATE_E) (isrealtime for_partha : bool) (h : MRT_ALERT_HDLR)
    : MRT_ALERT_HDLR :=
  if lenjson <=? 1 then h else
  if for_partha then h else
  if isrealtime then queue_write (MalertMsg (0, 0) 0 tcurr true (lenjson - 1) adef_id 0 0 ALERT_ADEF_NEW state) h else h.

Definition handle_adef_upd (tcurr adef_id type : Z) (isrealtime : bool) (h : MRT_ALERT_HDLR) : MRT_ALERT_HDLR :=
  if type <=? ALERT_ADEF_NEW then h else
  if isrealtime then queue_write (MalertMsg (0, 0) 0 tcurr false 0 adef_id 0 0 type ADEFSTATE_ENABLED) h else h.

Definition handle_astat_disable (tend : Z) (h : MRT_ALERT_HDLR) : MRT_ALERT_HDLR :=
  MrtAlertHdlr (adeftbl_ h) (elems h) (stats h) (atimemap_ h) (aqueue_ h) tend (tlast_timemap_chk_ h) (tlast_stat_chk_ h)
    (tlastprint h) (sent h).

(** ** The handler thread *)
Section Handler.
(** The id of the madhava, and the definition made from the JSON text of a message:
    [None] where the text is not JSON, [Some None] where the constructor throws. *)
Context (g_madhava_id : Z) (alertdef_of : MALERT_MSG -> Z -> option (option ALERTDEF_COMMON)).

(** The two constructors: [id] is 0 for an object with the key of a host. *)
Definition mrt_alert_stats (id : Z) (machid : Z * Z) (pdefelem : Z) (d : MRT_ALERTDEF) (tcurr numcheckfor : Z)
    (state : MALERT_STATE_E) : MRT_ALERT_STATS :=
  MrtAlertStats tcurr tcurr 0 0 0 0 (tcurr + 60) machid id pdefelem 0
    (ALERT_STAT_HASH machid id (adef_id_ (com d)) g_madhava_id tcurr) (multi_iter_chk_sec_ d) 1 (u8 numcheckfor) 0 state.

(** What the environment decides in one round of the handler: the time before the
    message is handled, the time in microseconds, whether there is a connection to
    shyama, the results of [mempool_.malloc] and [defpool_.malloc], and the time read
    again for the statistics. *)
Record rt_env := RtEnv {
  e_tcurr : Z;
  e_usec : Z;
  e_conn : bool;
  e_stat : option Z;
  e_elem : option Z;
  e_tprint : Z;
}.
Context (env : rt_env).

Definition new_alerts_disabled (h : MRT_ALERT_HDLR) (tcurr : Z) : bool := tcurr <? tdisable_end_ h.

Definition send_shyama_rtalert (m : MALERT_MSG) (p : MRT_ALERT_STATS) (d : ALERTDEF_COMMON) (tcurr : Z) (h : MRT_ALERT_HDLR)
    : MRT_ALERT_HDLR :=
  if new_alerts_disabled h tcurr then h else
  if negb (pjson_ m) || (lenjson_ m <=? alert_hdr_size) || (lenact_json_ m =? 0) then h else
  if negb (e_conn env) then h else
  send (SAlert (tmsg_ m) (alertid_ p) (adef_id_ d) (ahdlr_ d) (asubsys_ d) (msg_numhits_ m) (u8 (numcheckfor_ d))
    (nrepeats_ p) (lenact_json_ m)) h.

(** The next check of an object is moved to a new time. *)
Definition rekey (l newtusec : Z) (p : MRT_ALERT_STATS) (h : MRT_ALERT_HDLR) : MRT_ALERT_HDLR :=
  let oldtusec := tnextchkusec_ p in
  let h := upd_stat l (set_nextchk newtusec p) h in
  if mm_has oldtusec l (atimemap_ h)
  then set_timemap (mm_insert newtusec l (mm_erase oldtusec l (atimemap_ h))) h else h.

Definition common_astats_update (m : MALERT_MSG) (l : Z) (p : MRT_ALERT_STATS) (d : ALERTDEF_COMMON) (tcurr : Z)
    (is_fired isnew : bool) (h : MRT_ALERT_HDLR) : MRT_ALERT_HDLR :=
  if isnew && negb is_fired then h else
  let tlast_alert := tlast_alert_ p in
  let alert := is_fired && ((tlast_alert =? 0) || (tlast_alert + repeataftersec_ d <? tcurr)) in
  if alert && negb (tlast_alert =? 0) && (repeataftersec_ d =? 0) then h else
  let '(p, h) :=
    if alert then
      let p := if tlast_alert =? 0 then set_fired (tcurr + forceclosesec_ d) p
               else set_repeats (u8 (nrepeats_ p + 1)) p in
      let h := send_shyama_rtalert m p d tcurr h in
      let p := set_alert tcurr (if repeataftersec_ d >? 0 then tcurr + repeataftersec_ d else 0) p in
      (p, upd_stat l p h)
    else (p, h) in
  if isnew then h else rekey l (get_nextcheck_tusec d (e_usec env) 1) p h.

(** [upd_astat_id] and [upd_astat_machid]: they differ in the key and the constructor
    of the object. *)
Definition upd_astat (m : MALERT_MSG) (e : Z) (d : MRT_ALERTDEF) (id : Z) (tcurr : Z) (h : MRT_ALERT_HDLR) : MRT_ALERT_HDLR :=
  let key := key_of d id (msg_machid_ m) in
  let is_fired := msg_numhits_ m >=? numcheckfor_ (com d) in
  match avar_tbl_ d !! key with
  | None =>
      match e_stat env with
      | None => h
      | Some l =>
          let tnext := get_nextcheck_tusec (com d) (e_usec env) (msg_numhits_ m) in
          let p := set_nextchk tnext (mrt_alert_stats id (msg_machid_ m) e d (tmsg_ m) (numcheckfor_ (com d))
            (if is_fired then MALERT_FIRED else MALERT_PENDING)) in
          let d' := MrtAlertdef (com d) (<[key := l]> (avar_tbl_ d)) (multi_iter_chk_sec_ d) (is_deleted_ d) in
          let h := set_elems (<[e := d']> (elems h)) (upd_stat l p h) in
          let h := set_timemap (mm_insert tnext l (atimemap_ h)) h in
          common_astats_update m l p (com d) tcurr is_fired true h
      end
  | Some l =>
      match stats h !! l with
      | None => h
      | Some p => common_astats_update m l p (com d) tcurr is_fired false h
      end
  end.

Definition upd_astat_id (m : MALERT_MSG) (e : Z) (d : MRT_ALERTDEF) (tcurr : Z) (h : MRT_ALERT_HDLR) : MRT_ALERT_HDLR :=
  upd_astat m e d (msg_id_ m) tcurr h.
Definition upd_astat_machid (m : MALERT_MSG) (e : Z) (d : MRT_ALERTDEF) (tcurr : Z) (h : MRT_ALERT_HDLR) : MRT_ALERT_HDLR :=
  upd_astat m e d 0 tcurr h.

Definition handle_astat_msg (m : MALERT_MSG) (tcurr : Z) (h : MRT_ALERT_HDLR) : MRT_ALERT_HDLR :=
  if msg_adef_id_ m =? 0 then h else
  match adeftbl_ h !! msg_adef_id_ m with
  | None => h
  | Some e =>
      match elems h !! e with
      | None => h
      | Some d =>
          if negb (is_enabled (com d)) then h else
          if type_ m =? ALERT_ASTAT_ID then
            if has_id_tbl d && negb (msg_id_ m =? 0) then upd_astat_id m e d tcurr h else h
          else if has_id_tbl d then h else upd_astat_machid m e d tcurr h
      end
  end.

(** One object in the walk of [handle_def_reset] over the table of definition [e]. *)
Definition reset_one (e : Z) (only_pending : bool) (kl : akey * Z) (h : MRT_ALERT_HDLR) : MRT_ALERT_HDLR :=
  match elems h !! e, stats h !! kl.2 with
  | Some d, Some p =>
      if only_pending && negb (bool_decide (stat_state_ p = MALERT_PENDING)) then h else
      let d := MrtAlertdef (com d) (delete kl.1 (avar_tbl_ d)) (multi_iter_chk_sec_ d) (is_deleted_ d) in
      let h := set_timemap (mm_erase (tnextchkusec_ p) kl.2 (atimemap_ h)) h in
      set_stats (delete kl.2 (stats h)) (set_elems (<[e := d]> (elems h)) h)
  | _, _ => h
  end.

Definition handle_def_reset (e : Z) (is_deleted only_pending : bool) (h : MRT_ALERT_HDLR) : MRT_ALERT_HDLR :=
  match elems h !! e with
  | None => h
  | Some d =>
      let d := if is_deleted then set_deleted d else d in
      let h := set_elems (<[e := d]> (elems h)) h in
      foldr (reset_one e only_pending) h (map_to_list (avar_tbl_ d))
  end.

Definition set_alert_state (adef_id : Z) (type : Z) (state : ADEF_STATE_E) (h : MRT_ALERT_HDLR) : MRT_ALERT_HDLR :=
  if adef_id =? 0 then h else
  match adeftbl_ h !! adef_id with
  | None => h
  | Some e =>
      match elems h !! e with
      | None => h
      | Some d =>
          let c := set_state state (com d) in
          let h := set_elems (<[e := MrtAlertdef c (avar_tbl_ d) (multi_iter_chk_sec_ d) (is_deleted_ d)]> (elems h)) h in
          let h := if type >=? ALERT_ADEF_DISABLE
                   then handle_def_reset e (type =? ALERT_ADEF_DELETE) (is_muted_state c) h else h in
          if type =? ALERT_ADEF_DELETE
          then set_adeftbl (delete adef_id (adeftbl_ h)) (set_elems (delete e (elems h)) h) else h
      end
  end.

Definition add_new_def (m : MALERT_MSG) (tcurr : Z) (h : MRT_ALERT_HDLR) : MRT_ALERT_HDLR :=
  if msg_adef_id_ m =? 0 then h else
  match alertdef_of m tcurr with
  | None => h
  | Some oc =>
      let h := set_alert_state (msg_adef_id_ m) ALERT_ADEF_DELETE ADEFSTATE_DISABLED h in
      match oc ≫= mrt_alertdef, e_elem env with
      | Some d, Some e =>
          match adeftbl_ h !! msg_adef_id_ m with
          | Some _ => h
          | None => set_adeftbl (<[msg_adef_id_ m := e]> (adeftbl_ h)) (set_elems (<[e := d]> (elems h)) h)
          end
      | _, _ => h
      end
  end.

(** ** Checks of the objects *)

(** [del_from_def_table_locked]: the object leaves the table of its definition. *)
Definition del_from_def_table (l : Z) (p : MRT_ALERT_STATS) (d : MRT_ALERTDEF) (h : MRT_ALERT_HDLR) : MRT_ALERT_HDLR :=
  let key := key_of d (id_ p) (machid_ p) in
  let d' := MrtAlertdef (com d) (if bool_decide (avar_tbl_ d !! key = Some l) then delete key (avar_tbl_ d) else avar_tbl_ d)
    (multi_iter_chk_sec_ d) (is_deleted_ d) in
  set_stats (delete l (stats h)) (set_elems (<[pdefelem_ p := d']> (elems h)) h).

(** An element that is inserted while [nextit] points to the head of [rest] comes
    before it or behind it. *)
Definition mm_insert_walk (k l : Z) (vis rest : list (Z * Z)) : list (Z * Z) * list (Z * Z) :=
  match rest with
  | [] => (mm_insert k l vis, [])
  | (k', _) :: _ => if k <? k' then (mm_insert k l vis, rest) else (vis, mm_insert k l rest)
  end.

(** What becomes of the element [(tusec, l)]. *)
Inductive checked :=
  | ChkErase (h : MRT_ALERT_HDLR)
  | ChkKeep (h : MRT_ALERT_HDLR)
  | ChkMove (h : MRT_ALERT_HDLR) (k : Z).

Definition close_msg (force : bool) (p : MRT_ALERT_STATS) (d : MRT_ALERTDEF) (tcurr : Z) (h : MRT_ALERT_HDLR) : MRT_ALERT_HDLR :=
  if e_conn env then send (SClose (tlast_hit_ p) tcurr (alertid_ p) (adef_id_ (com d)) force) h else h.

Definition check_one (check_all : bool) (tcurr tusec l : Z) (h : MRT_ALERT_HDLR) : checked :=
  let currusec := u64 (tcurr * GY_USEC_PER_SEC) in
  match stats h !! l with
  | None => ChkErase h
  | Some p =>
      if tnextchkusec_ p >? tusec then ChkErase h else
      match elems h !! pdefelem_ p with
      | None => ChkErase h
      | Some d =>
          if negb (elem_valid d) then ChkErase h else
          let p := set_validate tcurr p in
          let h := upd_stat l p h in
          if tlast_hit_ p + stat_multi_ p <=? tcurr then
            let h := if bool_decide (stat_state_ p <> MALERT_PENDING) then close_msg false p d tcurr h else h in
            ChkErase (del_from_def_table l p d h)
          else if (tlast_alert_ p >? 0) && (tcurr >=? tforce_close_ p) then
            ChkErase (del_from_def_table l p d (close_msg true p d tcurr h))
          else if check_all && (tusec >? u64 (currusec + GY_USEC_PER_SEC)) then ChkKeep h
          else
            let k := get_nextcheck_tusec (com d) currusec (if numhits_ p >=? stat_numcheckfor_ p then 1 else numhits_ p) in
            ChkMove (upd_stat l (set_nextchk k p) h) k
      end
  end.

(** The loop over the multimap: [vis] has been passed, [rest] is still to come; [n] is
    the number of checks left. *)
Fixpoint timemap_loop (n : nat) (check_all : bool) (tcurr : Z) (vis rest : list (Z * Z)) (h : MRT_ALERT_HDLR) : MRT_ALERT_HDLR :=
  match rest, n with
  | [], _ => set_timemap vis h
  | _, O => set_timemap (vis ++ rest) h
  | (tusec, l) :: rest', S n' =>
      let minusec := u64 (u64 (tcurr * GY_USEC_PER_SEC) + (if check_all then GY_USEC_PER_YEAR else 0)) in
      if tusec >=? u64 (minusec + GY_USEC_PER_SEC) then set_timemap (vis ++ rest) h else
      match check_one check_all tcurr tusec l h with
      | ChkErase h => timemap_loop n' check_all tcurr vis rest' h
      | ChkKeep h => timemap_loop n' check_all tcurr (vis ++ [(tusec, l)]) rest' h
      | ChkMove h k => let '(vis, rest') := mm_insert_walk k l vis rest' in timemap_loop n' check_all tcurr vis rest' h
      end
  end.

(** [nchecks++ > MAX_TOTAL_ALERTS_PER_HOUR * 10] ends the loop. *)
Definition max_checks : nat := Z.to_nat (MAX_TOTAL_ALERTS_PER_HOUR * 10 + 1).

Definition validate_timemap (tcurr : Z) (check_all : bool) (h : MRT_ALERT_HDLR) : MRT_ALERT_HDLR :=
  timemap_loop max_checks check_all tcurr [] (atimemap_ h) h.

(** One object in the walk of [validate_stats]. *)
Definition validate_one (tcurr : Z) (e : Z) (kl : akey * Z) (h : MRT_ALERT_HDLR) : MRT_ALERT_HDLR :=
  match elems h !! e, stats h !! kl.2 with
  | Some d, Some p =>
      if tlast_validate_ p <? tcurr - 150 then
        let d := MrtAlertdef (com d) (delete kl.1 (avar_tbl_ d)) (multi_iter_chk_sec_ d) (is_deleted_ d) in
        set_stats (delete kl.2 (stats h)) (set_elems (<[e := d]> (elems h)) h)
      else h
  | _, _ => h
  end.

Definition validate_stats (tcurr : Z) (h : MRT_ALERT_HDLR) : MRT_ALERT_HDLR :=
  foldr (fun ie h => match elems h !! ie.2 with
                     | None => h
                     | Some d => foldr (validate_one tcurr ie.2) h (map_to_list (avar_tbl_ d))
                     end) h (map_to_list (adeftbl_ h)).

(** ** One round of the loop of [handle_rt_alerts] *)
Definition handle_msg (m : MALERT_MSG) (tcurr : Z) (h : MRT_ALERT_HDLR) : MRT_ALERT_HDLR :=
  if negb (msg_validate m) then h else
  if (type_ m =? ALERT_ASTAT_ID) || (type_ m =? ALERT_ASTAT_MACHID) then handle_astat_msg m tcurr h else
  if type_ m =? ALERT_ADEF_NEW then (if pjson_ m && negb (lenjson_ m =? 0) then add_new_def m tcurr h else h) else
  if type_ m =? ALERT_ADEF_ENABLE then set_alert_state (msg_adef_id_ m) ALERT_ADEF_ENABLE ADEFSTATE_ENABLED h else
  if type_ m =? ALERT_ADEF_DISABLE then set_alert_state (msg_adef_id_ m) ALERT_ADEF_DISABLE ADEFSTATE_DISABLED h else
  if type_ m =? ALERT_ADEF_MUTE then set_alert_state (msg_adef_id_ m) ALERT_ADEF_MUTE ADEFSTATE_MUTED h else
  if type_ m =? ALERT_ADEF_SILENCE then set_alert_state (msg_adef_id_ m) ALERT_ADEF_SILENCE ADEFSTATE_SILENCED h else
  if type_ m =? ALERT_ADEF_INHIBIT then set_alert_state (msg_adef_id_ m) ALERT_ADEF_INHIBIT ADEFSTATE_INHIBITED h else
  if type_ m =? ALERT_ADEF_DELETE then set_alert_state (msg_adef_id_ m) ALERT_ADEF_DELETE ADEFSTATE_DISABLED h else h.

(** The time of the first element before the wait, in seconds. *)
Definition first_time (tcurr : Z) (h : MRT_ALERT_HDLR) : Z :=
  match atimemap_ h with [] => tcurr + 30 + 1000 | (k, _) :: _ => k / GY_USEC_PER_SEC end.

(** The checks of all objects, every minute; those of the tables every three. *)
Definition periodic_checks (tcurr : Z) (h : MRT_ALERT_HDLR) : MRT_ALERT_HDLR :=
  let h := validate_timemap tcurr true (set_times tcurr (tlast_stat_chk_ h) (tlastprint h) h) in
  if tcurr >? tlast_stat_chk_ h + 180
  then validate_stats tcurr (set_times (tlast_timemap_chk_ h) tcurr (tlastprint h) h) else h.

(** The statistics are printed every five minutes; the time is read again. *)
Definition print_checks (tcurr : Z) (h : MRT_ALERT_HDLR) : Z * MRT_ALERT_HDLR :=
  if tcurr >=? tlastprint h + 300
  then (e_tprint env, set_times (tlast_timemap_chk_ h) (tlast_stat_chk_ h) (e_tprint env) h) else (tcurr, h).

Definition rt_checks (tcurr tmap1 : Z) (h : MRT_ALERT_HDLR) : MRT_ALERT_HDLR :=
  let is_all := tcurr >? tlast_timemap_chk_ h + 60 in
  let h := if is_all then periodic_checks tcurr h else h in
  let '(tcurr, h) := print_checks tcurr h in
  if negb is_all && (tmap1 <=? tcurr) then validate_timemap tcurr false h else h.

(** [t0] is the time before the wait; the message is the first of the queue, if one
    arrives in time. *)
Definition rt_round (t0 : Z) (h : MRT_ALERT_HDLR) : MRT_ALERT_HDLR :=
  let tmap1 := first_time (t0 + 1) h in
  let h := match aqueue_ h with
           | [] => h
           | m :: q => handle_msg m (e_tcurr env) (set_queue q h)
           end in
  rt_checks (e_tcurr env) tmap1 h.
End Handler.

(** ** The definition in a message *)

(** The definition that the JSON text of a message gives ([None]: there is no text, or
    it is not JSON; [Some None]: the constructor throws). *)
Definition parsed_alertdef (iso8601 : list Z -> Z) (json_plain : list Z -> bool) (queryopt_ok : bool -> jdoc -> bool)
    (parse_json : MALERT_MSG -> option jdoc) (m : MALERT_MSG) (tcurr : Z) : option (option ALERTDEF_COMMON) :=
  (fun j => match alertdef_common iso8601 json_plain queryopt_ok j (msg_adef_id_ m) tcurr with Acc r => r | Oob => None end)
    <$> parse_json m.
