(* ===== verification/AlertInv.v ===== *)
(** * AlertInv : the invariants of the realtime alerts of [AlertRt] and what they give.

    The tables of the definitions, the objects in use and the multimap of the next
    checks agree in every reachable state ([alert_tables_agree]); a fired alert that is
    not hit any more is closed ([unhit_alert_closed]); the handler is told of an alert
    after the hits in a row that its definition asks for ([first_message_at_streak]),
    and sends and repeats it as the definition says ([alert_sent_iff]). *)
From Stdlib Require Import String.
From stdpp Require Import gmap sets sorting.
From S2P Require Import Prelude StrNum AlertDef AlertRt.

#[local] Open Scope Z_scope.

(** ** Facts on the multimap *)
Abbreviation by_key := (fun a b : Z * Z => a.1 <= b.1).
Definition mm_sorted (m : list (Z * Z)) : Prop := StronglySorted by_key m.

Lemma mm_insert_perm k l m : mm_insert k l m ≡ₚ (k, l) :: m.
Proof. induction m as [|[k' l'] m IH]; cbn; [done|]. case_if; [done|]. rewrite IH. apply Permutation_swap. Qed.

Lemma mm_insert_sorted k l m : mm_sorted m -> mm_sorted (mm_insert k l m).
Proof.
  unfold mm_sorted. induction m as [|[k' l'] m IH]; intros H; cbn; [by repeat constructor|].
  apply StronglySorted_inv in H as [H HF]. case_if; breflect.
  - constructor; [by constructor|]. constructor; [cbn; lia|]. eapply list.Forall_impl; [done|]. cbn. lia.
  - constructor; [by apply IH|]. rewrite mm_insert_perm. constructor; [cbn; lia|done].
Qed.

Lemma mm_has_spec k l m : mm_has k l m = true <-> (k, l) ∈ m.
Proof.
  unfold mm_has. rewrite existsb_exists. split.
  - intros ([k' l'] & Hin & [E1%Z.eqb_eq E2%Z.eqb_eq]%andb_true_iff). cbn in *. subst. by apply list_elem_of_In.
  - intros Hin. exists (k, l). cbn. rewrite !Z.eqb_refl. by apply list_elem_of_In in Hin.
Qed.

Lemma mm_erase_perm k l m : (k, l) ∈ m -> m ≡ₚ (k, l) :: mm_erase k l m.
Proof.
  induction m as [|[k' l'] m IH]; intros H; [by apply elem_of_nil in H|]. cbn. case_if; breflect; [by subst|].
  apply elem_of_cons in H as [[= -> ->]|H]; [|rewrite (IH H) at 1; apply Permutation_swap].
  by rewrite !Z.eqb_refl in *.
Qed.

Lemma mm_erase_subseq k l m : sublist (mm_erase k l m) m.
Proof. induction m as [|[k' l'] m IH]; cbn; [done|]. case_if; by constructor. Qed.

Lemma mm_sorted_sublist m1 m2 : sublist m1 m2 -> mm_sorted m2 -> mm_sorted m1.
Proof.
  unfold mm_sorted. induction 1 as [|x m1 m2 Hs IH|x m1 m2 Hs IH]; intros H; [done|..];
    apply StronglySorted_inv in H as [H HF]; [|by apply IH].
  constructor; [by apply IH|]. apply list.Forall_forall. intros y Hy. rewrite list.Forall_forall in HF. apply HF.
  eapply elem_of_submseteq; [done|by apply sublist_submseteq].
Qed.

Lemma mm_insert_walk_perm k l vis rest : let '(v, r) := mm_insert_walk k l vis rest in v ++ r ≡ₚ (k, l) :: vis ++ rest.
Proof.
  destruct rest as [|[k' l'] rest]; cbn; [by rewrite !app_nil_r, mm_insert_perm|].
  case_if; [by rewrite mm_insert_perm|]. rewrite (mm_insert_perm k l rest). by rewrite <- !Permutation_middle, Permutation_swap.
Qed.

Lemma mm_insert_walk_sorted k l vis rest : mm_sorted (vis ++ rest) ->
  let '(v, r) := mm_insert_walk k l vis rest in mm_sorted (v ++ r).
Proof.
  unfold mm_sorted. intros H. destruct rest as [|[k' l'] rest]; cbn [mm_insert_walk].
  - rewrite app_nil_r in *. by apply mm_insert_sorted.
  - apply StronglySorted_app in H as (Hvr & Hv & Hr). pose proof Hr as [Hr' HF]%StronglySorted_inv.
    rewrite list.Forall_forall in HF. case_if; breflect; apply StronglySorted_app; split_and!; try done.
    + intros x1 x2 H1 H2. rewrite mm_insert_perm in H1. apply elem_of_cons in H1 as [->|H1]; [|by apply Hvr].
      apply elem_of_cons in H2 as [->|H2]; cbn; [lia|]. specialize (HF _ H2). cbn in HF. lia.
    + by apply mm_insert_sorted.
    + intros x1 x2 H1 H2. rewrite mm_insert_perm in H2. apply elem_of_cons in H2 as [->|H2]; [|by apply Hvr].
      specialize (Hvr x1 (k', l') H1 ltac:(left)). cbn in *. lia.
    + by apply mm_insert_sorted.
Qed.

(** ** The invariant of the handler *)

(** The elements the objects in use have in [atimemap_]. *)
Definition entries (m : gmap Z MRT_ALERT_STATS) : list (Z * Z) := (fun lp => (tnextchkusec_ lp.2, lp.1)) <$> map_to_list m.

Lemma elem_of_entries m t l : (t, l) ∈ entries m <-> exists p, m !! l = Some p /\ tnextchkusec_ p = t.
Proof.
  unfold entries. rewrite list_elem_of_fmap. split.
  - intros ([l' p] & [= -> ->] & H%elem_of_map_to_list). by exists p.
  - intros (p & H & <-). exists (l, p). by rewrite elem_of_map_to_list.
Qed.

Lemma entries_insert m l p : m !! l = None -> entries (<[l := p]> m) ≡ₚ (tnextchkusec_ p, l) :: entries m.
Proof. intros H. unfold entries. by rewrite map_to_list_insert. Qed.

Lemma entries_delete m l p : m !! l = Some p -> entries m ≡ₚ (tnextchkusec_ p, l) :: entries (delete l m).
Proof. intros H. unfold entries. by rewrite <- (map_to_list_delete m l p H). Qed.

Lemma entries_update m l p p' : m !! l = Some p ->
  (tnextchkusec_ p, l) :: entries (<[l := p']> m) ≡ₚ (tnextchkusec_ p', l) :: entries m.
Proof.
  intros H. rewrite <- (insert_delete_eq m l p'), entries_insert by (by rewrite lookup_delete_eq).
  rewrite (entries_delete m l p H). apply Permutation_swap.
Qed.

Lemma entries_same m l p p' : m !! l = Some p -> tnextchkusec_ p' = tnextchkusec_ p -> entries (<[l := p']> m) ≡ₚ entries m.
Proof. intros H E. pose proof (entries_update m l p p' H) as HP. rewrite E in HP. by apply Permutation_cons_inv in HP. Qed.

(** The tables of the definitions, and the objects: the object [l] is in the table of
    its definition under its key, and there is nothing else in the tables. *)
Record tbl_inv (h : MRT_ALERT_HDLR) : Prop := TblInv {
  inv_defs : forall id e, adeftbl_ h !! id = Some e <-> exists d, elems h !! e = Some d /\ adef_id_ (com d) = id;
  inv_valid : forall e d, elems h !! e = Some d -> elem_valid d = true;
  inv_tbl : forall e d k l, elems h !! e = Some d ->
    avar_tbl_ d !! k = Some l <-> exists p, stats h !! l = Some p /\ pdefelem_ p = e /\ key_of d (id_ p) (machid_ p) = k;
  inv_elem : forall l p, stats h !! l = Some p -> is_Some (elems h !! pdefelem_ p);
}.

(** [m] has one element per object in use, and is in the order of the times. *)
Definition times_inv (h : MRT_ALERT_HDLR) (m : list (Z * Z)) : Prop := m ≡ₚ entries (stats h) /\ mm_sorted m.

Definition rt_inv (h : MRT_ALERT_HDLR) : Prop := tbl_inv h /\ times_inv h (atimemap_ h).

(** [tbl_inv] and [times_inv] do not depend on the other fields. *)
Lemma tbl_inv_ext h h' : adeftbl_ h' = adeftbl_ h -> elems h' = elems h -> stats h' = stats h -> tbl_inv h -> tbl_inv h'.
Proof. intros E1 E2 E3 [H1 H2 H3 H4]. split; rewrite ?E1, ?E2, ?E3; done. Qed.

Lemma times_inv_ext h h' m : stats h' = stats h -> times_inv h m -> times_inv h' m.
Proof. intros E. unfold times_inv. by rewrite E. Qed.

Lemma times_inv_elem h m t l : times_inv h m -> (t, l) ∈ m -> exists p, stats h !! l = Some p /\ tnextchkusec_ p = t.
Proof. intros [HP _] H. rewrite HP in H. by apply elem_of_entries. Qed.

Lemma stat_elem h l p : tbl_inv h -> stats h !! l = Some p -> exists d, elems h !! pdefelem_ p = Some d /\
  avar_tbl_ d !! key_of d (id_ p) (machid_ p) = Some l.
Proof. intros H Hl. destruct (inv_elem h H l p Hl) as [d Hd]. exists d. split; [done|]. apply (inv_tbl h H _ _ _ _ Hd). by exists p. Qed.

(** The same object with other values in the fields that are not its key. *)
Definition same_key (p p' : MRT_ALERT_STATS) : Prop := pdefelem_ p' = pdefelem_ p /\ id_ p' = id_ p /\ machid_ p' = machid_ p.

Lemma tbl_inv_upd h l p p' : tbl_inv h -> stats h !! l = Some p -> same_key p p' -> tbl_inv (upd_stat l p' h).
Proof.
  intros [H1 H2 H3 H4] Hl (Ee & Ei & Em). split; cbn [upd_stat set_stats adeftbl_ elems stats]; [done|done|..].
  - intros e d k l' Hd. rewrite (H3 e d k l' Hd). destruct (decide (l' = l)) as [->|Hn].
    + rewrite lookup_insert_eq, Hl. split; intros (q & [= <-] & Hq); [exists p'|exists p]; by rewrite ?Ee, ?Ei, ?Em in *.
    + by rewrite lookup_insert_ne by done.
  - intros l' q. destruct (decide (l' = l)) as [->|Hn].
    + rewrite lookup_insert_eq. intros [= <-]. rewrite Ee. by apply (H4 l).
    + rewrite lookup_insert_ne by done. apply H4.
Qed.

(** The state without the object [l]. *)
Definition drop_stat (l : Z) (p : MRT_ALERT_STATS) (d : MRT_ALERTDEF) (h : MRT_ALERT_HDLR) : MRT_ALERT_HDLR :=
  set_stats (delete l (stats h)) (set_elems (<[pdefelem_ p := MrtAlertdef (com d)
    (delete (key_of d (id_ p) (machid_ p)) (avar_tbl_ d)) (multi_iter_chk_sec_ d) (is_deleted_ d)]> (elems h)) h).

Lemma drop_stat_inv h l p d : tbl_inv h -> stats h !! l = Some p -> elems h !! pdefelem_ p = Some d -> tbl_inv (drop_stat l p d h).
Proof.
  intros [H1 H2 H3 H4] Hl Hd. split; cbn [drop_stat set_stats set_elems adeftbl_ elems stats].
  - intros id e. rewrite H1. destruct (decide (e = pdefelem_ p)) as [->|Hn]; [|by rewrite lookup_insert_ne].
    rewrite lookup_insert_eq, Hd. split; intros (d' & [= <-] & E); by eexists.
  - intros e d'. destruct (decide (e = pdefelem_ p)) as [->|Hn]; [|rewrite lookup_insert_ne by done; apply H2].
    rewrite lookup_insert_eq. intros [= <-]. by apply (H2 (pdefelem_ p) d).
  - intros e d' k l' Hd'. destruct (decide (e = pdefelem_ p)) as [->|Hn].
    + rewrite lookup_insert_eq in Hd'. injection Hd' as <-. cbn [avar_tbl_].
      change (key_of (MrtAlertdef _ _ _ _)) with (key_of d). rewrite lookup_delete_Some, (H3 _ d k l' Hd).
      setoid_rewrite lookup_delete_Some. split.
      * intros (Hk & q & Hq & Eq & Ek). exists q. split_and!; try done. intros ->. rewrite Hl in Hq. injection Hq as <-. congruence.
      * intros (q & (Hll & Hq) & Eq & Ek). split; [|by exists q]. intros Ek'. apply Hll.
        assert (avar_tbl_ d !! k = Some l') as E1 by (apply (H3 _ d k l' Hd); by exists q).
        assert (avar_tbl_ d !! k = Some l) as E2 by (apply (H3 _ d k l Hd); by exists p). congruence.
    + rewrite lookup_insert_ne in Hd' by done. rewrite (H3 e d' k l' Hd'). setoid_rewrite lookup_delete_Some.
      split; intros (q & Hq); exists q; [|naive_solver]. destruct Hq as (Hq & Eq & Ek). split_and!; try done. congruence.
  - intros l' q [Hll Hq]%lookup_delete_Some. destruct (decide (pdefelem_ q = pdefelem_ p)) as [->|Hn];
      [rewrite lookup_insert_eq; by eexists|rewrite lookup_insert_ne by done; by apply (H4 l')].
Qed.

Lemma drop_stat_times h l p d m m' : times_inv h m -> stats h !! l = Some p -> m ≡ₚ (tnextchkusec_ p, l) :: m' ->
  mm_sorted m' -> times_inv (drop_stat l p d h) m'.
Proof.
  intros [HP Hs] Hl Hm Hs'. split; [|done]. cbn [drop_stat set_stats stats]. rewrite (entries_delete _ _ _ Hl), Hm in HP.
  by apply Permutation_cons_inv in HP.
Qed.

(** A new object. *)
Lemma new_stat_inv h l p d k : tbl_inv h -> stats h !! l = None -> elems h !! pdefelem_ p = Some d ->
  key_of d (id_ p) (machid_ p) = k -> avar_tbl_ d !! k = None ->
  tbl_inv (set_elems (<[pdefelem_ p := MrtAlertdef (com d) (<[k := l]> (avar_tbl_ d)) (multi_iter_chk_sec_ d) (is_deleted_ d)]> (elems h))
    (upd_stat l p h)).
Proof.
  intros [H1 H2 H3 H4] Hl Hd Hk Hn0. split; cbn [upd_stat set_stats set_elems adeftbl_ elems stats].
  - intros id e. rewrite H1. destruct (decide (e = pdefelem_ p)) as [->|Hn]; [|by rewrite lookup_insert_ne].
    rewrite lookup_insert_eq, Hd. split; intros (d' & [= <-] & E); by eexists.
  - intros e d'. destruct (decide (e = pdefelem_ p)) as [->|Hn]; [|rewrite lookup_insert_ne by done; apply H2].
    rewrite lookup_insert_eq. intros [= <-]. by apply (H2 (pdefelem_ p) d).
  - intros e d' k' l' Hd'. destruct (decide (e = pdefelem_ p)) as [->|Hn].
    + rewrite lookup_insert_eq in Hd'. injection Hd' as <-. cbn [avar_tbl_]. change (key_of (MrtAlertdef _ _ _ _)) with (key_of d).
      rewrite lookup_insert_Some, (H3 _ d k' l' Hd). setoid_rewrite lookup_insert_Some. split.
      * intros [[<- <-]|(Hne & q & Hq & Eq & Ek)]; [exists p; by eauto|]. exists q. split_and!; try done. right. split; [congruence|done].
      * intros (q & [[-> ->]|[Hne Hq]] & Eq & Ek); [left; split; congruence|]. right. split; [|by exists q]. intros ->.
        assert (avar_tbl_ d !! k' = Some l') as E1 by (apply (H3 _ d k' l' Hd); by exists q). congruence.
    + rewrite lookup_insert_ne in Hd' by done. rewrite (H3 e d' k' l' Hd'). setoid_rewrite lookup_insert_Some.
      split; intros (q & Hq & Eq & Ek); exists q; split_and!; try done; [right; split; [congruence|done]|].
      destruct Hq as [[-> ->]|[_ ?]]; [congruence|done].
  - intros l' q [[_ <-]|[Hll Hq]]%lookup_insert_Some; [rewrite lookup_insert_eq; by eexists|].
    destruct (decide (pdefelem_ q = pdefelem_ p)) as [->|Hn];
      [rewrite lookup_insert_eq; by eexists|rewrite lookup_insert_ne by done; by apply (H4 l')].
Qed.

(** A definition whose own fields change. *)
Lemma def_upd_inv h e d d' : tbl_inv h -> elems h !! e = Some d -> adef_id_ (com d') = adef_id_ (com d) ->
  akeytype_ (com d') = akeytype_ (com d) -> tstart_sec_ (com d') = tstart_sec_ (com d) -> avar_tbl_ d' = avar_tbl_ d ->
  tbl_inv (set_elems (<[e := d']> (elems h)) h).
Proof.
  intros [H1 H2 H3 H4] Hd Ei Ek Et Ea. split; cbn [set_elems adeftbl_ elems stats].
  - intros id e'. rewrite H1. destruct (decide (e' = e)) as [->|Hn]; [|by rewrite lookup_insert_ne].
    rewrite lookup_insert_eq, Hd. split; intros (d0 & [= <-] & E); eexists; split; [done|congruence|done|congruence].
  - intros e' d0. destruct (decide (e' = e)) as [->|Hn]; [|rewrite lookup_insert_ne by done; apply H2].
    rewrite lookup_insert_eq. intros [= <-]. unfold elem_valid. rewrite Et. by apply (H2 e d).
  - intros e' d0 k l. destruct (decide (e' = e)) as [->|Hn]; [|rewrite lookup_insert_ne by done; apply H3].
    rewrite lookup_insert_eq. intros [= <-]. rewrite Ea, (H3 e d k l Hd). unfold key_of, has_id_tbl. by rewrite Ek.
  - intros l p Hp. destruct (decide (pdefelem_ p = e)) as [->|Hn]; [rewrite lookup_insert_eq; by eexists|].
    rewrite lookup_insert_ne by done. by apply (H4 l).
Qed.

(** ** The operations keep the invariant *)
Lemma rt_inv_upd h l p p' : rt_inv h -> stats h !! l = Some p -> same_key p p' -> tnextchkusec_ p' = tnextchkusec_ p ->
  rt_inv (upd_stat l p' h).
Proof.
  intros [Ht [HP Hs]] Hl Hk Hn. split; [by apply (tbl_inv_upd h l p)|]. split; [|done].
  cbn [upd_stat set_stats atimemap_ stats]. by rewrite (entries_same _ _ _ _ Hl Hn).
Qed.

Lemma rt_inv_ext h h' : adeftbl_ h' = adeftbl_ h -> elems h' = elems h -> stats h' = stats h -> atimemap_ h' = atimemap_ h ->
  rt_inv h -> rt_inv h'.
Proof. intros E1 E2 E3 E4 [H1 H2]. split; [by apply (tbl_inv_ext h)|]. rewrite E4. by apply (times_inv_ext h). Qed.

Lemma same_key_refl p : same_key p p.
Proof. done. Qed.
#[local] Hint Resolve same_key_refl : gy.

(** [on_hit] changes the time of the last hit and the number of hits only. *)
Lemma on_hit_same tcurr p : exists n, (on_hit tcurr p).1.1 = set_hit tcurr n p.
Proof. unfold on_hit. repeat case_if; by eexists. Qed.

Lemma queue_write_inv m h : rt_inv h -> rt_inv (queue_write m h).
Proof. unfold queue_write. intros. case_if; [|done]. by apply (rt_inv_ext h). Qed.

Lemma rt_record_inv e pass id machid tcurr szjson h : rt_inv h -> rt_inv (rt_record e pass id machid tcurr szjson h).
Proof.
  intros H. unfold rt_record. destruct (elems h !! e) as [d|]; [|done]. do 2 (case_if; [done|]).
  unfold is_astat_msg. destruct (avar_tbl_ d !! _) as [l|]; [|by apply queue_write_inv].
  destruct (stats h !! l) as [p|] eqn:Hl; [|by apply queue_write_inv].
  destruct (on_hit tcurr p) as [[p' n] b] eqn:E. destruct (on_hit_same tcurr p) as [n' En]. rewrite E in En. cbn in En. subst p'.
  assert (rt_inv (upd_stat l (set_hit tcurr n' p) h)) by (by apply (rt_inv_upd h l p)).
  destruct b; [by apply queue_write_inv|done].
Qed.

Lemma send_inv o h : rt_inv h -> rt_inv (send o h).
Proof. by apply rt_inv_ext. Qed.

Section Preserve.
Context (g_madhava_id : Z) (alertdef_of : MALERT_MSG -> Z -> option (option ALERTDEF_COMMON)) (env : rt_env).

Lemma send_shyama_fields m p d tcurr h : let h' := send_shyama_rtalert env m p d tcurr h in
  adeftbl_ h' = adeftbl_ h /\ elems h' = elems h /\ stats h' = stats h /\ atimemap_ h' = atimemap_ h.
Proof. unfold send_shyama_rtalert. by repeat case_if. Qed.

Lemma send_shyama_inv m p d tcurr h : rt_inv h -> rt_inv (send_shyama_rtalert env m p d tcurr h).
Proof. destruct (send_shyama_fields m p d tcurr h) as (E1 & E2 & E3 & E4). by apply rt_inv_ext. Qed.

Lemma rekey_inv l k p h : rt_inv h -> stats h !! l = Some p -> rt_inv (rekey l k p h).
Proof.
  intros [Ht [HP Hs]] Hl. assert ((tnextchkusec_ p, l) ∈ atimemap_ h) as Hin by (rewrite HP; apply elem_of_entries; by exists p).
  unfold rekey. cbn [upd_stat set_stats atimemap_]. rewrite (proj2 (mm_has_spec _ _ _) Hin).
  assert (tbl_inv (upd_stat l (set_nextchk k p) h)) as Ht' by (by apply (tbl_inv_upd h l p)).
  split; [by apply (tbl_inv_ext (upd_stat l (set_nextchk k p) h))|].
  split; cbn [set_timemap atimemap_ set_stats stats upd_stat].
  - rewrite mm_insert_perm. apply (Permutation_cons_inv (a := (tnextchkusec_ p, l))).
    rewrite (entries_update _ _ _ (set_nextchk k p) Hl), Permutation_swap, <- (mm_erase_perm _ _ _ Hin). by f_equiv.
  - apply mm_insert_sorted. eapply mm_sorted_sublist; [apply mm_erase_subseq|done].
Qed.

Lemma common_update_inv m l p d tcurr fired isnew h : rt_inv h -> stats h !! l = Some p ->
  rt_inv (common_astats_update env m l p d tcurr fired isnew h).
Proof.
  intros H Hl. unfold common_astats_update. case_if; [done|]. case_if; [done|].
  destruct (fired && _).
  - match goal with |- rt_inv (if _ then upd_stat _ ?q ?g else _) => set (p' := q); set (h' := g) end.
    assert (stats h' !! l = Some p) as Hl' by (unfold h'; by rewrite (proj1 (proj2 (proj2 (send_shyama_fields m _ d tcurr h))))).
    assert (rt_inv (upd_stat l p' h')) as H'.
    { apply (rt_inv_upd _ l p); [by apply send_shyama_inv|done|..]; unfold p'; by destruct (tlast_alert_ p =? 0). }
    destruct isnew; [done|]. apply rekey_inv; [done|]. cbn [upd_stat set_stats stats]. by rewrite lookup_insert_eq.
  - destruct isnew; [done|]. by apply rekey_inv.
Qed.

(** The object the pool gives is not in use. *)
Lemma upd_astat_inv m e d id tcurr h : rt_inv h -> elems h !! e = Some d ->
  (forall l, e_stat env = Some l -> stats h !! l = None) -> rt_inv (upd_astat g_madhava_id env m e d id tcurr h).
Proof.
  intros [Ht [HP Hs]] Hd Hfresh. unfold upd_astat. destruct (avar_tbl_ d !! _) as [l|] eqn:Hk.
  - destruct (stats h !! l) as [p|] eqn:Hl; [|done]. by apply common_update_inv.
  - destruct (e_stat env) as [l|]; [|done]. specialize (Hfresh l eq_refl).
    match goal with |- rt_inv (common_astats_update _ _ _ ?q _ _ _ _ _) => set (p := q) end.
    apply common_update_inv; [|cbn [set_timemap set_elems upd_stat set_stats stats]; by rewrite lookup_insert_eq].
    pose proof (new_stat_inv h l p d (key_of d id (msg_machid_ m)) Ht Hfresh Hd eq_refl Hk) as Ht'.
    split; [refine (tbl_inv_ext _ _ _ _ _ Ht'); reflexivity|].
    split; cbn [set_timemap set_elems upd_stat set_stats stats atimemap_]; [|by apply mm_insert_sorted].
    by rewrite mm_insert_perm, entries_insert, HP.
Qed.

Lemma handle_astat_msg_inv m tcurr h : rt_inv h -> (forall l, e_stat env = Some l -> stats h !! l = None) ->
  rt_inv (handle_astat_msg g_madhava_id env m tcurr h).
Proof.
  intros H Hf. unfold handle_astat_msg. case_if; [done|]. destruct (adeftbl_ h !! _) as [e|]; [|done].
  destruct (elems h !! e) as [d|] eqn:Hd; [|done]. repeat (case_if; [try done|]); try done; by apply upd_astat_inv.
Qed.

(** ** Definitions *)

(** Erasing an object together with its element of the multimap. *)
Lemma reset_drop e k l p d h : rt_inv h -> elems h !! e = Some d -> avar_tbl_ d !! k = Some l -> stats h !! l = Some p ->
  pdefelem_ p = e /\ key_of d (id_ p) (machid_ p) = k /\
  rt_inv (set_timemap (mm_erase (tnextchkusec_ p) l (atimemap_ h)) (drop_stat l p d h)).
Proof.
  intros [Ht Hm] Hd Hk Hl. apply (inv_tbl h Ht e d k l Hd) in Hk as (p' & Hl' & He & Hk).
  rewrite Hl in Hl'. injection Hl' as <-. split_and!; [done..|]. rewrite <- He in Hd.
  assert ((tnextchkusec_ p, l) ∈ atimemap_ h) as Hin by (rewrite (proj1 Hm); apply elem_of_entries; by exists p).
  split; [refine (tbl_inv_ext _ _ _ _ _ (drop_stat_inv h l p d Ht Hl Hd)); reflexivity|].
  refine (times_inv_ext (drop_stat l p d h) _ _ eq_refl _). apply (drop_stat_times h l p d (atimemap_ h)); [done|done|..].
  - by apply mm_erase_perm.
  - eapply mm_sorted_sublist; [apply mm_erase_subseq|apply Hm].
Qed.

(** Messages to shyama are added, the times of the loop and the queue stay. *)
Record misc_frame (h h' : MRT_ALERT_HDLR) : Prop := MiscFrame {
  mf_queue : aqueue_ h' = aqueue_ h;
  mf_disable : tdisable_end_ h' = tdisable_end_ h;
  mf_chk : tlast_timemap_chk_ h' = tlast_timemap_chk_ h;
  mf_stat : tlast_stat_chk_ h' = tlast_stat_chk_ h;
  mf_print : tlastprint h' = tlastprint h;
  mf_sent : exists o, sent h' = sent h ++ o;
}.

Lemma misc_frame_same h h' : aqueue_ h' = aqueue_ h -> tdisable_end_ h' = tdisable_end_ h ->
  tlast_timemap_chk_ h' = tlast_timemap_chk_ h -> tlast_stat_chk_ h' = tlast_stat_chk_ h -> tlastprint h' = tlastprint h ->
  sent h' = sent h -> misc_frame h h'.
Proof. intros. split; try done. exists []. by rewrite app_nil_r. Qed.
#[local] Hint Extern 1 (misc_frame _ _) => (by apply misc_frame_same) : gy.

Lemma misc_frame_trans h1 h2 h3 : misc_frame h1 h2 -> misc_frame h2 h3 -> misc_frame h1 h3.
Proof.
  intros [A B C D E [o1 Ho1]] [A' B' C' D' E' [o2 Ho2]]. split; try congruence. exists (o1 ++ o2). by rewrite Ho2, Ho1, app_assoc.
Qed.

(** What the walk leaves: the other definitions are as before, the table of [e] has
    lost the keys walked over, or keeps some of them. *)
Record walked (e : Z) (h h' : MRT_ALERT_HDLR) : Prop := Walked {
  walked_inv : rt_inv h';
  walked_tbl : adeftbl_ h' = adeftbl_ h;
  walked_other : forall e', e' <> e -> elems h' !! e' = elems h !! e';
  walked_com : com <$> (elems h' !! e) = com <$> (elems h !! e);
  walked_sub : forall l, stats h' !! l = stats h !! l \/ stats h' !! l = None;
  walked_keep : forall l p, stats h !! l = Some p -> pdefelem_ p <> e -> stats h' !! l = Some p;
  walked_misc : misc_frame h h';
}.

Lemma walked_refl e h : rt_inv h -> walked e h h.
Proof. intros H. split; auto with gy. Qed.

Lemma reset_one_walked e only k l h0 h : walked e h0 h -> (forall d, elems h !! e = Some d -> avar_tbl_ d !! k = Some l) ->
  walked e h0 (reset_one e only (k, l) h) /\
  forall d, elems (reset_one e only (k, l) h) !! e = Some d -> exists d0, elems h !! e = Some d0 /\
    (avar_tbl_ d = avar_tbl_ d0 /\ only = true \/ avar_tbl_ d = delete k (avar_tbl_ d0)).
Proof.
  intros Hw Hk. unfold reset_one. cbn [fst snd]. destruct (elems h !! e) as [d|] eqn:Hd.
  2: { split; [done|]. rewrite Hd. done. }
  specialize (Hk d eq_refl). pose proof (walked_inv _ _ _ Hw) as Hinv.
  destruct (proj1 (inv_tbl h (proj1 Hinv) e d k l Hd) Hk) as (p & Hl & _). rewrite Hl. case_if.
  { split; [done|]. intros d' Hd'. rewrite Hd in Hd'. injection Hd' as <-. exists d. split; [done|]. left. by breflect. }
  destruct (reset_drop e k l p d h Hinv Hd Hk Hl) as (He & Hkk & Hr). unfold drop_stat in Hr. rewrite He, Hkk in Hr.
  destruct Hw as [W1 W2 W3 W4 W5 W6 W7]. split.
  - split; cbn [set_stats set_elems set_timemap adeftbl_ elems stats] in *; [done|done|..].
    + intros e' He'. rewrite lookup_insert_ne by done. by apply W3.
    + rewrite lookup_insert_eq. by rewrite Hd in W4.
    + intros l'. destruct (decide (l' = l)) as [->|Hn]; [right; by rewrite lookup_delete_eq|]. rewrite lookup_delete_ne by done. apply W5.
    + intros l' q Hq Hqe. specialize (W6 l' q Hq Hqe). rewrite lookup_delete_ne; [done|]. intros ->. congruence.
    + eapply misc_frame_trans; [done|]. by apply misc_frame_same.
  - intros d'. cbn [set_stats set_elems set_timemap elems]. rewrite lookup_insert_eq. intros [= <-]. exists d. by split; [|right].
Qed.

(** The whole walk; when it is not restricted to pending objects the table is empty
    in the end. *)
Lemma reset_walk e only d h L : rt_inv h -> elems h !! e = Some d -> NoDup L.*1 ->
  (forall k l, (k, l) ∈ L -> avar_tbl_ d !! k = Some l) ->
  walked e h (foldr (reset_one e only) h L) /\
  forall d', elems (foldr (reset_one e only) h L) !! e = Some d' ->
    (forall k, k ∉ L.*1 -> avar_tbl_ d' !! k = avar_tbl_ d !! k) /\ (only = false -> forall k, k ∈ L.*1 -> avar_tbl_ d' !! k = None).
Proof.
  intros H Hd. induction L as [|[k l] L IH]; intros Hnd HL.
  { split; [by apply walked_refl|]. cbn. intros d' Hd'. rewrite Hd in Hd'. injection Hd' as <-. split; [done|]. intros _ k Hk.
    by apply elem_of_nil in Hk. }
  cbn in Hnd. apply list.NoDup_cons in Hnd as [Hn Hnd]. destruct IH as [Hw IH]; [done|intros; apply HL; by right|]. cbn [foldr].
  destruct (reset_one_walked e only k l h (foldr (reset_one e only) h L) Hw) as [Hw' Ht].
  { intros d' Hd'. rewrite (proj1 (IH d' Hd') k Hn). apply HL. left. }
  split; [done|]. intros d' Hd'. destruct (Ht d' Hd') as (d0 & Hd0 & Hc). destruct (IH d0 Hd0) as [I1 I2]. cbn [fmap list_fmap fst]. split.
  - intros k' Hk'. rewrite not_elem_of_cons in Hk'. destruct Hk' as [Hkk HkL]. rewrite <- (I1 k' HkL).
    destruct Hc as [[-> _]| ->]; [done|]. by rewrite lookup_delete_ne.
  - intros -> k' Hk'. destruct Hc as [[_ ?]| ->]; [done|]. destruct (decide (k' = k)) as [->|Hkk]; [by rewrite lookup_delete_eq|].
    rewrite lookup_delete_ne by done. apply I2; [done|]. by apply elem_of_cons in Hk' as [?|?].
Qed.

Lemma handle_def_reset_walked e del only d h : rt_inv h -> elems h !! e = Some d -> exists d',
  walked e h (handle_def_reset e del only h) /\ elems (handle_def_reset e del only h) !! e = Some d' /\
  (only = false -> avar_tbl_ d' = ∅).
Proof.
  intros H Hd. unfold handle_def_reset. rewrite Hd. set (d1 := if del then set_deleted d else d). set (h1 := set_elems _ h).
  assert (com d1 = com d /\ avar_tbl_ d1 = avar_tbl_ d) as [Ec Ea] by (by destruct del).
  assert (rt_inv h1) as H1.
  { destruct H as [Ht Hm]. split; [apply (def_upd_inv h e d d1 Ht Hd); congruence|]. by apply (times_inv_ext h). }
  assert (elems h1 !! e = Some d1) as Hd1 by (cbn; by rewrite lookup_insert_eq).
  destruct (reset_walk e only d1 h1 (map_to_list (avar_tbl_ d1)) H1 Hd1) as [Hw Ht].
  { apply NoDup_fst_map_to_list. } { by intros k l ?%elem_of_map_to_list. }
  destruct Hw as [W1 W2 W3 W4 W5 W6 W7]. rewrite Hd1 in W4. cbn in W4.
  destruct (elems (foldr _ h1 _) !! e) as [d'|] eqn:Hd'; [|done]. exists d'. injection W4 as W4. split_and!; [split|done|].
  - done.
  - by rewrite W2.
  - intros e' He'. rewrite (W3 e' He'). cbn. by rewrite lookup_insert_ne.
  - rewrite Hd', Hd. cbn. by rewrite W4, Ec.
  - apply W5.
  - apply W6.
  - eapply misc_frame_trans; [|done]. by apply misc_frame_same.
  - intros ->. destruct (Ht d' eq_refl) as [_ I2]. apply map_eq. intros k. rewrite lookup_empty.
    destruct (avar_tbl_ d1 !! k) as [l|] eqn:Hk.
    + apply I2; [done|]. apply list_elem_of_fmap. exists (k, l). by rewrite elem_of_map_to_list.
    + rewrite (proj1 (Ht d' eq_refl)); [done|]. intros Hin. apply list_elem_of_fmap in Hin as ([k' l] & -> & Hin%elem_of_map_to_list).
      cbn in Hk. congruence.
Qed.

(** Deleting a definition without objects, and adding one. *)
Lemma delete_def_inv h e d : rt_inv h -> elems h !! e = Some d -> avar_tbl_ d = ∅ ->
  rt_inv (set_adeftbl (delete (adef_id_ (com d)) (adeftbl_ h)) (set_elems (delete e (elems h)) h)).
Proof.
  intros [[H1 H2 H3 H4] Hm] Hd He. split; [|by apply (times_inv_ext h)].
  assert (forall l p, stats h !! l = Some p -> pdefelem_ p <> e) as Hno.
  { intros l p Hl Hp. assert (avar_tbl_ d !! key_of d (id_ p) (machid_ p) = Some l) as Hk by (apply (H3 e d _ l Hd); by exists p).
    by rewrite He, lookup_empty in Hk. }
  split; cbn [set_adeftbl set_elems adeftbl_ elems stats].
  - intros id e'. rewrite lookup_delete_Some, H1. split.
    + intros (Hn & d' & Hd' & Hi). exists d'. split; [|done]. rewrite lookup_delete_ne; [done|]. intros ->. congruence.
    + intros (d' & [Hn Hd']%lookup_delete_Some & Hi). split; [|by exists d']. intros Ei. apply Hn.
      assert (adeftbl_ h !! id = Some e) as E1 by (apply H1; by exists d).
      assert (adeftbl_ h !! id = Some e') as E2 by (apply H1; by exists d'). congruence.
  - intros e' d' [_ Hd']%lookup_delete_Some. by apply (H2 e').
  - intros e' d' k l [_ Hd']%lookup_delete_Some. by apply H3.
  - intros l p Hl. rewrite lookup_delete_ne by (symmetry; by apply (Hno l)). by apply (H4 l).
Qed.

Lemma add_def_inv h e d : rt_inv h -> elems h !! e = None -> adeftbl_ h !! adef_id_ (com d) = None -> elem_valid d = true ->
  avar_tbl_ d = ∅ -> rt_inv (set_adeftbl (<[adef_id_ (com d) := e]> (adeftbl_ h)) (set_elems (<[e := d]> (elems h)) h)).
Proof.
  intros [[H1 H2 H3 H4] Hm] He Hi Hv Ha. split; [|by apply (times_inv_ext h)].
  assert (forall l p, stats h !! l = Some p -> pdefelem_ p <> e) as Hno.
  { intros l p Hl Hp. destruct (H4 l p Hl) as [d' Hd']. congruence. }
  split; cbn [set_adeftbl set_elems adeftbl_ elems stats].
  - intros id e'. rewrite lookup_insert_Some, H1. split.
    + intros [[<- <-]|(Hn & d' & Hd' & Hid)]; [exists d; by rewrite lookup_insert_eq|].
      exists d'. rewrite lookup_insert_ne by congruence. done.
    + intros (d' & [[<- <-]|[Hn Hd']]%lookup_insert_Some & Hid); [by left|]. right. split; [|by exists d'].
      intros E. assert (adeftbl_ h !! id = Some e') as E2 by (apply H1; by exists d'). congruence.
  - intros e' d' [[_ <-]|[_ Hd']]%lookup_insert_Some; [done|by apply (H2 e')].
  - intros e' d' k l [[<- <-]|[_ Hd']]%lookup_insert_Some; [|by apply H3]. rewrite Ha, lookup_empty.
    split; [done|]. intros (p & Hl & Hp & _). by apply Hno in Hl.
  - intros l p Hl. rewrite lookup_insert_ne by (symmetry; by apply (Hno l)). by apply (H4 l).
Qed.

(** What the change of the state of a definition leaves of the other ones. *)
Definition others_kept (h h' : MRT_ALERT_HDLR) (adef_id : Z) : Prop :=
  forall e d, elems h' !! e = Some d -> exists d0, elems h !! e = Some d0 /\ (d = d0 \/ adef_id_ (com d) = adef_id) /\
    subsys_inter_sec_ (com d) = subsys_inter_sec_ (com d0).

Lemma set_alert_state_spec adef_id type st h : adef_id <> 0 -> rt_inv h ->
  (type = ALERT_ADEF_DELETE -> st = ADEFSTATE_DISABLED) ->
  let h' := set_alert_state adef_id type st h in
  rt_inv h' /\ (forall l, stats h' !! l = stats h !! l \/ stats h' !! l = None) /\ others_kept h h' adef_id /\
  (type = ALERT_ADEF_DELETE -> adeftbl_ h' !! adef_id = None) /\
  (forall l p d, stats h !! l = Some p -> elems h !! pdefelem_ p = Some d -> adef_id_ (com d) <> adef_id ->
    stats h' !! l = Some p /\ elems h' !! pdefelem_ p = Some d) /\ misc_frame h h'.
Proof.
  intros Hz Hinv Hdel. unfold set_alert_state. rewrite (proj2 (Z.eqb_neq _ _) Hz).
  destruct (adeftbl_ h !! adef_id) as [e|] eqn:Hi; [|split_and!; auto with gy; intros ? d' ?; exists d'; auto].
  destruct (proj1 (inv_defs h (proj1 Hinv) adef_id e) Hi) as (d & Hd & Hid). rewrite Hd.
  set (c := set_state st (com d)). set (d1 := MrtAlertdef c _ _ _). set (h1 := set_elems _ h).
  assert (rt_inv h1) as H1.
  { destruct Hinv as [Ht Hm]. split; [by apply (def_upd_inv h e d)|by apply (times_inv_ext h)]. }
  assert (elems h1 !! e = Some d1) as Hd1 by (cbn; by rewrite lookup_insert_eq).
  assert (exists d2, walked e h1 (if type >=? ALERT_ADEF_DISABLE then handle_def_reset e (type =? ALERT_ADEF_DELETE) (is_muted_state c) h1 else h1) /\
    elems (if type >=? ALERT_ADEF_DISABLE then handle_def_reset e (type =? ALERT_ADEF_DELETE) (is_muted_state c) h1 else h1) !! e = Some d2 /\
    (type = ALERT_ADEF_DELETE -> avar_tbl_ d2 = ∅)) as (d2 & [W1 W2 W3 W4 W5 W6 W7] & Hd2 & Hempty).
  { case_if; breflect; [|exists d1; split_and!; [by apply walked_refl|done|unfold ALERT_ADEF_DISABLE, ALERT_ADEF_DELETE in *; lia]].
    destruct (handle_def_reset_walked e (type =? ALERT_ADEF_DELETE) (is_muted_state c) d1 h1 H1 Hd1) as (d2 & Hw & Hd2 & He).
    exists d2. split_and!; [done|done|]. intros Ht. apply He. unfold c, is_muted_state. cbn. by rewrite (Hdel Ht). }
  set (h2 := if type >=? ALERT_ADEF_DISABLE then _ else _) in *.
  rewrite Hd1, Hd2 in W4. cbn in W4. injection W4 as W4.
  assert (forall l, stats h2 !! l = stats h !! l \/ stats h2 !! l = None) as Hst by apply W5.
  assert (others_kept h h2 adef_id) as Ho.
  { intros e' d' Hd'. destruct (decide (e' = e)) as [->|Hn].
    - exists d. rewrite Hd2 in Hd'. injection Hd' as <-. rewrite W4. by split_and!; [|right|].
    - exists d'. rewrite <- Hd', (W3 e' Hn). cbn. rewrite lookup_insert_ne by done. auto. }
  assert (forall l p d', stats h !! l = Some p -> elems h !! pdefelem_ p = Some d' -> adef_id_ (com d') <> adef_id ->
    pdefelem_ p <> e /\ stats h2 !! l = Some p /\ elems h2 !! pdefelem_ p = Some d') as Hkeep.
  { intros l p d' Hl Hd' Hne. assert (pdefelem_ p <> e) as Hpe by (intros E; rewrite E in Hd'; congruence).
    split_and!; [done|by apply W6|]. rewrite (W3 _ Hpe). cbn. by rewrite lookup_insert_ne. }
  assert (misc_frame h h2) as Hmf by (eapply misc_frame_trans; [|done]; by apply misc_frame_same).
  case_if; breflect.
  - split_and!.
    + replace adef_id with (adef_id_ (com d2)) by (by rewrite W4). by apply delete_def_inv; auto.
    + apply Hst.
    + intros e' d'. cbn. intros [_ Hd']%lookup_delete_Some. by apply Ho.
    + intros _. cbn. by rewrite lookup_delete_eq.
    + intros l p d' Hl Hd' Hne. destruct (Hkeep l p d' Hl Hd' Hne) as (Hpe & ? & ?). cbn. by rewrite lookup_delete_ne.
    + eapply misc_frame_trans; [done|]. by apply misc_frame_same.
  - split_and!; [done|apply Hst|done|done| |done]. intros l p d' Hl Hd' Hne. by destruct (Hkeep l p d' Hl Hd' Hne) as (_ & ? & ?).
Qed.

(** The definitions made from messages, and the objects the pools give. *)
Definition defs_ok : Prop := forall m tcurr c, 0 < tcurr < 2 ^ 32 -> alertdef_of m tcurr = Some (Some c) ->
  adef_id_ c = msg_adef_id_ m /\ u32 (tstart_sec_ c) <> 0 /\ in_width 16 (numcheckfor_ c) /\ in_width 16 (subsys_inter_sec_ c).

(** What a message about the definition [adef_id] leaves: objects are removed, but none
    of the other definitions. *)
Record def_after (adef_id : Z) (h h' : MRT_ALERT_HDLR) : Prop := DefAfter {
  da_inv : rt_inv h';
  da_sub : forall l, stats h' !! l = stats h !! l \/ stats h' !! l = None;
  da_defs : (forall e d, elems h !! e = Some d -> in_width 16 (subsys_inter_sec_ (com d))) ->
    forall e d, elems h' !! e = Some d -> in_width 16 (subsys_inter_sec_ (com d));
  da_keep : forall l p d, stats h !! l = Some p -> elems h !! pdefelem_ p = Some d -> adef_id_ (com d) <> adef_id ->
    stats h' !! l = Some p /\ elems h' !! pdefelem_ p = Some d;
  da_misc : misc_frame h h';
}.

Lemma def_after_refl adef_id h : rt_inv h -> def_after adef_id h h.
Proof. intros H. split; auto with gy. Qed.

Lemma set_alert_state_after adef_id type st h : rt_inv h -> (type = ALERT_ADEF_DELETE -> st = ADEFSTATE_DISABLED) ->
  def_after adef_id h (set_alert_state adef_id type st h).
Proof.
  intros H Hst. destruct (decide (adef_id = 0)) as [->|Hz]; [by apply def_after_refl|].
  destruct (set_alert_state_spec adef_id type st h Hz H Hst) as (H1 & H2 & H3 & _ & H4 & H5). split; try done.
  intros Hw e d Hd. destruct (H3 e d Hd) as (d0 & Hd0 & _ & ->). by apply (Hw e).
Qed.

Lemma add_new_def_after m tcurr h : defs_ok -> 0 < tcurr < 2 ^ 32 -> rt_inv h ->
  (forall e d, e_elem env = Some e -> elems h !! e = Some d -> adef_id_ (com d) = msg_adef_id_ m) ->
  def_after (msg_adef_id_ m) h (add_new_def alertdef_of env m tcurr h).
Proof.
  intros Hok Htc Hinv Hfresh. unfold add_new_def. case_if; [by apply def_after_refl|]. breflect.
  destruct (alertdef_of m tcurr) as [oc|] eqn:Hc; [|by apply def_after_refl].
  destruct (set_alert_state_spec (msg_adef_id_ m) ALERT_ADEF_DELETE ADEFSTATE_DISABLED h) as (_ & _ & Ho & Hn & _); [done..|].
  pose proof (set_alert_state_after (msg_adef_id_ m) ALERT_ADEF_DELETE ADEFSTATE_DISABLED h Hinv (fun _ => eq_refl)) as Hda.
  set (h1 := set_alert_state _ _ _ h) in *.
  destruct oc as [c|]; [|done]. cbn [mbind option_bind]. destruct (mrt_alertdef c) as [d|] eqn:Hd; [|done].
  destruct (e_elem env) as [e|]; [|done]. destruct (Hok _ _ _ Htc Hc) as (Hid & Ht & _ & Hw). specialize (Hn eq_refl). rewrite Hn.
  unfold mrt_alertdef in Hd. assert (com d = c /\ avar_tbl_ d = ∅) as [Ec Ea] by (clear -Hd; destruct (akeytype_ c); naive_solver).
  assert (elems h1 !! e = None) as He.
  { destruct (elems h1 !! e) as [d0|] eqn:Hd0; [|done]. exfalso.
    assert (adef_id_ (com d0) = msg_adef_id_ m) as Hi0
      by (destruct (Ho e d0 Hd0) as (d1 & H0 & [->|?] & _); [by apply (Hfresh e)|done]).
    assert (adeftbl_ h1 !! msg_adef_id_ m = Some e) as E by (apply (inv_defs _ (proj1 (da_inv _ _ _ Hda))); by exists d0). congruence. }
  destruct Hda as [D1 D2 D3 D4 D5].
  pose proof (add_def_inv h1 e d D1 He) as HA. rewrite Ec, Hid in HA. split.
  - apply HA; [done| |done]. unfold elem_valid. rewrite Ec. by apply negb_true_iff, Z.eqb_neq.
  - apply D2.
  - intros Hwf e' d'. cbn. intros [[<- <-]|[Hne Hd']]%lookup_insert_Some; [by rewrite Ec|by apply (D3 Hwf e')].
  - intros l p d' Hl Hd' Hne. destruct (D4 l p d' Hl Hd' Hne) as [K1 K2]. split; [done|]. cbn. rewrite lookup_insert_ne; [done|]. congruence.
  - eapply misc_frame_trans; [done|]. by apply misc_frame_same.
Qed.

(** ** The walk over the multimap *)
Lemma nextcheck_bounds c t n : in_width 16 (subsys_inter_sec_ c) -> 0 <= t < 2 ^ 63 ->
  t + 15 * GY_USEC_PER_SEC <= get_nextcheck_tusec c t n <= t + 196620 * GY_USEC_PER_SEC.
Proof.
  intros Hi Ht. unfold get_nextcheck_tusec. set (npend := u8 _).
  set (nfor := if npend >? 1 then _ else 1). unfold in_width in Hi. unfold GY_USEC_PER_SEC in *.
  assert (1 <= nfor <= 2 \/ 1 <= nfor <= 10 /\ subsys_inter_sec_ c < 60) as Hn by (unfold nfor; repeat case_if; breflect; lia).
  assert (0 <= nfor * subsys_inter_sec_ c <= 196605) as Hq by (destruct Hn as [Hn|[Hn Hi']]; nia).
  set (q := nfor * subsys_inter_sec_ c) in *. clearbody q nfor.
  rewrite (wrap_id 64 (t + (q + 15) * 1000000)), (wrap_id 64 (t + (3 * subsys_inter_sec_ c + 15) * 1000000))
    by (unfold in_width; lia). case_if; lia.
Qed.

(** An object that is closed at the time [tcurr]: it was not hit any more, or it is
    too old. *)
Definition hit_timeout (tcurr : Z) (p : MRT_ALERT_STATS) : bool := tlast_hit_ p + stat_multi_ p <=? tcurr.
Definition expired (tcurr : Z) (p : MRT_ALERT_STATS) : bool := (tlast_alert_ p >? 0) && (tcurr >=? tforce_close_ p).
Definition closes (tcurr : Z) (p : MRT_ALERT_STATS) : bool := hit_timeout tcurr p || expired tcurr p.

(** An object that was checked and kept. *)
Definition kept (tcurr : Z) (p p' : MRT_ALERT_STATS) : Prop := exists k, p' = set_nextchk k (set_validate tcurr p).

Lemma kept_trans tcurr p p' p'' : kept tcurr p p' -> kept tcurr p' p'' -> kept tcurr p p''.
Proof. intros [k ->] [k' ->]. by exists k'. Qed.

Lemma check_one_spec ca tcurr tusec l p h : tbl_inv h -> stats h !! l = Some p -> tnextchkusec_ p = tusec ->
  exists d, elems h !! pdefelem_ p = Some d /\
  let p1 := set_validate tcurr p in
  let h1 := upd_stat l p1 h in
  let currusec := u64 (tcurr * GY_USEC_PER_SEC) in
  let k := get_nextcheck_tusec (com d) currusec (if numhits_ p >=? stat_numcheckfor_ p then 1 else numhits_ p) in
  check_one env ca tcurr tusec l h =
    if closes tcurr p then
      ChkErase (drop_stat l p1 d
        (if hit_timeout tcurr p && bool_decide (stat_state_ p = MALERT_PENDING) then h1
         else close_msg env (negb (hit_timeout tcurr p)) p1 d tcurr h1))
    else if ca && (tusec >? u64 (currusec + GY_USEC_PER_SEC)) then ChkKeep h1
    else ChkMove (upd_stat l (set_nextchk k p1) h1) k.
Proof.
  intros Ht Hl Hk. destruct (stat_elem h l p Ht Hl) as (d & Hd & Htb). exists d. split; [done|]. cbn zeta.
  unfold check_one. rewrite Hl, Hk. rewrite Z.gtb_ltb, Z.ltb_irrefl, Hd, (inv_valid h Ht _ _ Hd). cbn [negb].
  assert (forall h', del_from_def_table l (set_validate tcurr p) d h' = drop_stat l (set_validate tcurr p) d h') as Hdel.
  { intros h'. unfold del_from_def_table. cbn [id_ machid_ set_validate]. by rewrite bool_decide_true. }
  unfold closes, hit_timeout, expired. cbn [set_validate tlast_hit_ stat_multi_ tlast_alert_ tforce_close_ stat_state_ numhits_ stat_numcheckfor_].
  destruct (tlast_hit_ p + stat_multi_ p <=? tcurr) eqn:E; cbn [orb andb negb].
  - rewrite Hdel. by destruct (stat_state_ p).
  - destruct (_ && _) eqn:E2; [by rewrite Hdel|done].
Qed.

(** What becomes of the object [l] between [h] and [h']. *)
Definition close_sent (tcurr : Z) (p : MRT_ALERT_STATS) (h' : MRT_ALERT_HDLR) : Prop :=
  stat_state_ p = MALERT_FIRED -> e_conn env = true ->
  exists adef_id force, SClose (tlast_hit_ p) tcurr (alertid_ p) adef_id force ∈ sent h'.

Inductive stat_after (tcurr : Z) (p : MRT_ALERT_STATS) (l : Z) (h' : MRT_ALERT_HDLR) : Prop :=
  | SaKept p' : stats h' !! l = Some p' -> kept tcurr p p' -> closes tcurr p = false -> stat_after tcurr p l h'
  | SaClosed : stats h' !! l = None -> closes tcurr p = true -> close_sent tcurr p h' -> stat_after tcurr p l h'.

(** What the walk does not change. *)
Record walk_frame (h h' : MRT_ALERT_HDLR) : Prop := WalkFrame {
  wf_defs : adeftbl_ h' = adeftbl_ h;
  wf_elems : forall e, com <$> (elems h' !! e) = com <$> (elems h !! e);
  wf_misc : misc_frame h h';
}.

Lemma walk_frame_refl h : walk_frame h h.
Proof. split; auto with gy. Qed.
Lemma walk_frame_trans h1 h2 h3 : walk_frame h1 h2 -> walk_frame h2 h3 -> walk_frame h1 h3.
Proof. intros [A1 B1 C1] [A2 B2 C2]. split; [congruence|congruence|by eapply misc_frame_trans]. Qed.

Lemma close_sent_mono tcurr p h h' : walk_frame h h' -> close_sent tcurr p h -> close_sent tcurr p h'.
Proof. intros [_ _ [_ _ _ _ _ [o Ho]]] H Hs Hc. destruct (H Hs Hc) as (a & f & Hin). exists a, f. rewrite Ho. set_solver. Qed.

Lemma close_msg_frame force p d tcurr h : walk_frame h (close_msg env force p d tcurr h).
Proof. unfold close_msg. case_if; [|apply walk_frame_refl]. split; [done|done|]. split; try done. by eexists. Qed.
Lemma close_msg_same force p d tcurr h : let h' := close_msg env force p d tcurr h in
  adeftbl_ h' = adeftbl_ h /\ elems h' = elems h /\ stats h' = stats h.
Proof. unfold close_msg. by case_if. Qed.

(** One check: the invariant, the frame, the object. *)
Lemma checked_step ca tcurr tusec l p h m m' : tbl_inv h -> times_inv h m -> stats h !! l = Some p -> tnextchkusec_ p = tusec ->
  m ≡ₚ (tusec, l) :: m' -> mm_sorted m' ->
  match check_one env ca tcurr tusec l h with
  | ChkErase h' => tbl_inv h' /\ times_inv h' m' /\ walk_frame h h' /\ stat_after tcurr p l h' /\ forall l', l' <> l -> stats h' !! l' = stats h !! l'
  | ChkKeep h' => tbl_inv h' /\ times_inv h' m /\ walk_frame h h' /\ stat_after tcurr p l h' /\ (forall l', l' <> l -> stats h' !! l' = stats h !! l') /\
      ca = true /\ u64 (u64 (tcurr * GY_USEC_PER_SEC) + GY_USEC_PER_SEC) < tusec
  | ChkMove h' k => tbl_inv h' /\ (forall m2, m2 ≡ₚ (k, l) :: m' -> mm_sorted m2 -> times_inv h' m2) /\ walk_frame h h' /\ stat_after tcurr p l h' /\
      (forall l', l' <> l -> stats h' !! l' = stats h !! l') /\
      (exists d n, elems h !! pdefelem_ p = Some d /\ k = get_nextcheck_tusec (com d) (u64 (tcurr * GY_USEC_PER_SEC)) n) /\
      (ca = true -> tusec <= u64 (u64 (tcurr * GY_USEC_PER_SEC) + GY_USEC_PER_SEC))
  end.
Proof.
  intros Ht Hm Hl Hk Hp Hs'. destruct (check_one_spec ca tcurr tusec l p h Ht Hl Hk) as (d & Hd & ->). cbn zeta.
  set (p1 := set_validate tcurr p). set (h1 := upd_stat l p1 h).
  assert (stats h1 !! l = Some p1) as Hl1 by (cbn; by rewrite lookup_insert_eq).
  assert (forall l', l' <> l -> stats h1 !! l' = stats h !! l') as Hn1 by (intros; cbn; by rewrite lookup_insert_ne).
  assert (tbl_inv h1) as Ht1 by (by apply (tbl_inv_upd h l p)).
  assert (times_inv h1 m) as Hm1 by (destruct Hm as [HP Hs]; split; [|done]; cbn; by rewrite (entries_same _ _ _ _ Hl)).
  assert (walk_frame h h1) as F1 by (split; auto with gy).
  destruct (closes tcurr p) eqn:Ec; [|case_if].
  - set (h2 := if _ && _ then h1 else _).
    assert (walk_frame h1 h2 /\ adeftbl_ h2 = adeftbl_ h1 /\ elems h2 = elems h1 /\ stats h2 = stats h1) as (F2 & E1 & E2 & E3).
    { unfold h2. case_if; [split_and!; [apply walk_frame_refl|done..]|]. split; [apply close_msg_frame|apply close_msg_same]. }
    assert (close_sent tcurr p h2) as Hcs.
    { intros Hst Hc. unfold h2. rewrite (bool_decide_false _) by (by rewrite Hst). rewrite andb_false_r. unfold close_msg. rewrite Hc.
      exists (adef_id_ (com d)), (negb (hit_timeout tcurr p)). cbn. set_solver. }
    assert (tbl_inv h2) as Ht2 by (by apply (tbl_inv_ext h1)).
    assert (stats h2 !! l = Some p1) as Hl2 by (by rewrite E3).
    assert (elems h2 !! pdefelem_ p1 = Some d) as Hd2 by (by rewrite E2).
    assert (walk_frame h2 (drop_stat l p1 d h2)) as F3.
    { split; [done| |auto with gy]. intros e. cbn. destruct (decide (e = pdefelem_ p1)) as [->|Hn];
        [rewrite lookup_insert_eq; by rewrite Hd2|by rewrite lookup_insert_ne]. }
    split_and!.
    + by apply drop_stat_inv.
    + apply (drop_stat_times h2 l p1 d m); [by apply (times_inv_ext h1)|done|by rewrite Hp, <- Hk|done].
    + eapply walk_frame_trans; [|done]. by eapply walk_frame_trans.
    + apply SaClosed; [cbn; by rewrite lookup_delete_eq|done|by eapply close_sent_mono].
    + intros l' Hn. cbn. rewrite lookup_delete_ne, E3 by done. by apply Hn1.
  - breflect. split_and!; try done. apply (SaKept _ _ _ _ p1); [done| |done]. by exists (tnextchkusec_ p).
  - set (k := get_nextcheck_tusec _ _ _). set (p2 := set_nextchk k p1). split_and!.
    + by apply (tbl_inv_upd h1 l p1).
    + intros m2 Hm2 Hs2. split; [|done]. cbn. rewrite insert_insert_eq. apply (Permutation_cons_inv (a := (tnextchkusec_ p, l))).
      rewrite (entries_update _ _ _ p2 Hl), Hm2, Permutation_swap. f_equiv. rewrite Hk, <- Hp. apply Hm.
    + split; auto with gy.
    + apply (SaKept _ _ _ _ p2); [cbn; by rewrite lookup_insert_eq|by exists k|done].
    + intros l' Hn. cbn. rewrite !lookup_insert_ne by done. done.
    + by exists d, (if numhits_ p >=? stat_numcheckfor_ p then 1 else numhits_ p).
    + intros ->. cbn [andb] in *. by breflect.
Qed.

Record loop_ok (tcurr : Z) (h h' : MRT_ALERT_HDLR) : Prop := LoopOk {
  lo_inv : rt_inv h';
  lo_frame : walk_frame h h';
  lo_stats : forall l p, stats h !! l = Some p -> stats h' !! l = Some p \/ stat_after tcurr p l h';
  lo_none : forall l, stats h !! l = None -> stats h' !! l = None;
}.

Lemma stat_after_trans tcurr p l h1 h2 : stat_after tcurr p l h1 -> loop_ok tcurr h1 h2 -> stat_after tcurr p l h2.
Proof.
  intros [p' Hl Hk Hc|Hl Hc Hs] [_ Hf H1 H2].
  - destruct (H1 l p' Hl) as [H|[p'' Hl' Hk' _|Hl' Hc' _]].
    + by apply (SaKept _ _ _ _ p').
    + apply (SaKept _ _ _ _ p''); [done|by eapply kept_trans|done].
    + destruct Hk as [k ->]. unfold closes, hit_timeout, expired in *. cbn in Hc'. congruence.
  - apply SaClosed; [by apply H2|done|by eapply close_sent_mono].
Qed.

Lemma loop_ok_step tcurr l p h h1 h2 : stats h !! l = Some p -> stat_after tcurr p l h1 -> walk_frame h h1 ->
  (forall l', l' <> l -> stats h1 !! l' = stats h !! l') -> loop_ok tcurr h1 h2 -> loop_ok tcurr h h2.
Proof.
  intros Hl Ha Hf Ho H2. pose proof (stat_after_trans _ _ _ _ _ Ha H2) as Ha2. destruct H2 as [I F S N].
  split; [done|by eapply walk_frame_trans|..].
  - intros l' q Hq. destruct (decide (l' = l)) as [->|Hn]; [|apply S; by rewrite Ho].
    rewrite Hl in Hq. injection Hq as <-. by right.
  - intros l' Hq. destruct (decide (l' = l)) as [->|Hn]; [congruence|]. apply N. by rewrite Ho.
Qed.

Lemma loop_ok_end tcurr m h : tbl_inv h -> times_inv h m -> loop_ok tcurr h (set_timemap m h).
Proof.
  intros Ht Hm. split; [split; [by apply (tbl_inv_ext h)|by apply (times_inv_ext h)]| |by left|done].
  split; auto with gy.
Qed.

Lemma sorted_drop_mid vis x rest : mm_sorted (vis ++ x :: rest) -> mm_sorted (vis ++ rest).
Proof. apply mm_sorted_sublist. apply sublist_app; [done|]. by constructor. Qed.

Lemma timemap_loop_ok n ca tcurr vis rest h : tbl_inv h -> times_inv h (vis ++ rest) ->
  loop_ok tcurr h (timemap_loop env n ca tcurr vis rest h).
Proof.
  revert vis rest h. induction n as [|n IH]; intros vis rest h Ht Hm.
  { destruct rest as [|[t l] rest]; cbn; apply loop_ok_end; auto. by rewrite app_nil_r in Hm. }
  destruct rest as [|[tusec l] rest]; cbn [timemap_loop]; [apply loop_ok_end; [done|]; by rewrite app_nil_r in Hm|].
  case_if; [by apply loop_ok_end|].
  destruct (times_inv_elem h _ tusec l Hm) as (p & Hl & Hk); [set_solver|].
  pose proof (checked_step ca tcurr tusec l p h _ (vis ++ rest) Ht Hm Hl Hk) as Hc.
  specialize (Hc ltac:(by rewrite <- Permutation_middle) (sorted_drop_mid _ _ _ (proj2 Hm))).
  destruct (check_one env ca tcurr tusec l h) as [h'|h'|h' k].
  - destruct Hc as (Ht' & Hm' & Hf & Ha & Ho). apply (loop_ok_step tcurr l p h h'); auto.
  - destruct Hc as (Ht' & Hm' & Hf & Ha & Ho & _). apply (loop_ok_step tcurr l p h h'); auto. apply IH; [done|]. by rewrite <- app_assoc.
  - destruct Hc as (Ht' & Hm' & Hf & Ha & Ho & _).
    pose proof (mm_insert_walk_perm k l vis rest) as Hwp.
    pose proof (mm_insert_walk_sorted k l vis rest (sorted_drop_mid _ _ _ (proj2 Hm))) as Hws.
    destruct (mm_insert_walk k l vis rest) as [v r]. apply (loop_ok_step tcurr l p h h'); auto.
Qed.

(** The elements that are due. *)
Definition due (tcurr : Z) (e : Z * Z) : bool := e.1 <=? u64 (u64 (tcurr * GY_USEC_PER_SEC) + GY_USEC_PER_SEC).
Definition ndue (tcurr : Z) (m : list (Z * Z)) : nat := length (List.filter (due tcurr) m).

#[local] Instance ndue_perm tcurr : Proper (Permutation ==> eq) (ndue tcurr).
Proof.
  unfold ndue. intros m m'. induction 1 as [|x m m' _ IH|x y m|m1 m2 m3 _ IH1 _ IH2]; cbn; [done|..|congruence].
  - destruct (due tcurr x); cbn; by rewrite IH.
  - by destruct (due tcurr x), (due tcurr y).
Qed.

Lemma mm_insert_walk_rest k l vis rest v r : mm_insert_walk k l vis rest = (v, r) ->
  (r = rest \/ r ≡ₚ (k, l) :: rest).
Proof.
  unfold mm_insert_walk. destruct rest as [|[k' l'] rest]; [intros [= _ <-]; by left|].
  case_if; intros [= _ <-]; [by left|]. right. apply (mm_insert_perm k l ((k', l') :: rest)).
Qed.

(** The times at which definitions are checked again. *)
Definition nexts_below (tcurr B : Z) (h : MRT_ALERT_HDLR) : Prop := forall e d n, elems h !! e = Some d ->
  u64 (u64 (tcurr * GY_USEC_PER_SEC) + GY_USEC_PER_SEC) < get_nextcheck_tusec (com d) (u64 (tcurr * GY_USEC_PER_SEC)) n < B.

Lemma nexts_below_frame tcurr B h h' : walk_frame h h' -> nexts_below tcurr B h -> nexts_below tcurr B h'.
Proof.
  intros Hf H e d n Hd. pose proof (wf_elems _ _ Hf e) as E. rewrite Hd in E.
  destruct (elems h !! e) as [d0|] eqn:Hd0; [|done]. cbn in E. injection E as E. rewrite E. by apply (H e).
Qed.

(** With enough checks left the walk over all elements checks each of them. *)
Lemma timemap_loop_full n tcurr vis rest h : tbl_inv h -> times_inv h (vis ++ rest) ->
  (length rest + ndue tcurr rest <= n)%nat ->
  let B := u64 (u64 (u64 (tcurr * GY_USEC_PER_SEC) + GY_USEC_PER_YEAR) + GY_USEC_PER_SEC) in
  Forall (fun e => e.1 < B) rest -> nexts_below tcurr B h ->
  forall t l p, (t, l) ∈ rest -> stats h !! l = Some p -> stat_after tcurr p l (timemap_loop env n true tcurr vis rest h).
Proof.
  cbn zeta. revert vis rest h. induction n as [|n IH]; intros vis rest h Ht Hm Hn HB Hnx t l p Hin Hl.
  { destruct rest; [by apply elem_of_nil in Hin|cbn in Hn; lia]. }
  destruct rest as [|[tusec l1] rest]; [by apply elem_of_nil in Hin|]. cbn [timemap_loop].
  apply list.Forall_cons in HB as [HB1 HB]. cbn [fst] in HB1. rewrite Z.geb_leb, (proj2 (Z.leb_gt _ _)) by done.
  destruct (times_inv_elem h _ tusec l1 Hm) as (p1 & Hl1 & Hk1); [set_solver|].
  pose proof (checked_step true tcurr tusec l1 p1 h _ (vis ++ rest) Ht Hm Hl1 Hk1) as Hc.
  specialize (Hc ltac:(by rewrite <- Permutation_middle) (sorted_drop_mid _ _ _ (proj2 Hm))).
  assert (Hn' : (length rest + ndue tcurr rest <= n)%nat) by (unfold ndue in *; cbn in Hn; destruct (due tcurr _); cbn in Hn; lia).
  destruct (check_one env true tcurr tusec l1 h) as [h'|h'|h' k].
  - destruct Hc as (Ht' & Hm' & Hf & Ha & Ho).
    destruct (decide (l = l1)) as [->|Hne]; [rewrite Hl in Hl1; injection Hl1 as <-; by eapply stat_after_trans; [|apply timemap_loop_ok]|].
    apply (IH _ _ _ Ht' Hm' Hn' HB (nexts_below_frame _ _ _ _ Hf Hnx) t); [by apply elem_of_cons in Hin as [[=]|?]|by rewrite Ho].
  - destruct Hc as (Ht' & Hm' & Hf & Ha & Ho & _). replace (vis ++ (tusec, l1) :: rest) with ((vis ++ [(tusec, l1)]) ++ rest) in Hm' by (by rewrite <- app_assoc).
    destruct (decide (l = l1)) as [->|Hne]; [rewrite Hl in Hl1; injection Hl1 as <-; by eapply stat_after_trans; [|apply timemap_loop_ok]|].
    apply (IH _ _ _ Ht' Hm' Hn' HB (nexts_below_frame _ _ _ _ Hf Hnx) t); [by apply elem_of_cons in Hin as [[=]|?]|by rewrite Ho].
  - destruct Hc as (Ht' & Hm' & Hf & Ha & Ho & (d & num & Hd & Hkk) & Hdue).
    pose proof (mm_insert_walk_perm k l1 vis rest) as Hwp.
    pose proof (mm_insert_walk_sorted k l1 vis rest (sorted_drop_mid _ _ _ (proj2 Hm))) as Hws.
    destruct (mm_insert_walk k l1 vis rest) as [v r] eqn:Ew. specialize (Hm' (v ++ r) Hwp Hws).
    destruct (decide (l = l1)) as [->|Hne]; [rewrite Hl in Hl1; injection Hl1 as <-; by eapply stat_after_trans; [|apply timemap_loop_ok]|].
    assert (t <> tusec \/ l <> l1) by auto. apply elem_of_cons in Hin as [[=]|Hin]; [done|].
    pose proof (Hnx _ _ num Hd) as Hbk. rewrite <- Hkk in Hbk.
    destruct (mm_insert_walk_rest _ _ _ _ _ _ Ew) as [->|Hr].
    + apply (IH _ _ _ Ht' Hm' Hn' HB (nexts_below_frame _ _ _ _ Hf Hnx) t); [done|by rewrite Ho].
    + apply (IH _ _ _ Ht' Hm') with (t := t); [| |by apply (nexts_below_frame _ _ h)|by rewrite Hr; right|by rewrite Ho].
      * rewrite Hr. unfold ndue. cbn. unfold due at 1. cbn [fst].
        rewrite (proj2 (Z.leb_gt _ _)) by lia. fold (ndue tcurr rest).
        unfold ndue in Hn. cbn [List.filter length] in Hn. unfold due at 1 in Hn. cbn [fst] in Hn.
        rewrite (proj2 (Z.leb_le _ _)) in Hn by auto. cbn in Hn. unfold ndue. lia.
      * rewrite Hr. constructor; [cbn; lia|done].
Qed.

Lemma timemap_loop_keys n ca tcurr vis rest h B : tbl_inv h -> times_inv h (vis ++ rest) -> nexts_below tcurr B h ->
  Forall (fun e => e.1 < B) (vis ++ rest) -> Forall (fun e => e.1 < B) (atimemap_ (timemap_loop env n ca tcurr vis rest h)).
Proof.
  revert vis rest h. induction n as [|n IH]; intros vis rest h Ht Hm Hnx HB.
  { destruct rest as [|[t l] rest]; cbn; [by rewrite app_nil_r in HB|done]. }
  destruct rest as [|[tusec l] rest]; cbn [timemap_loop]; [by rewrite app_nil_r in HB|]. case_if; [done|].
  destruct (times_inv_elem h _ tusec l Hm) as (p & Hl & Hk); [set_solver|].
  pose proof (checked_step ca tcurr tusec l p h _ (vis ++ rest) Ht Hm Hl Hk) as Hc.
  specialize (Hc ltac:(by rewrite <- Permutation_middle) (sorted_drop_mid _ _ _ (proj2 Hm))).
  assert (HB' : Forall (fun e => e.1 < B) (vis ++ rest)) by (rewrite <- Permutation_middle in HB; by apply list.Forall_cons in HB as [_ HB]).
  destruct (check_one env ca tcurr tusec l h) as [h'|h'|h' k].
  - destruct Hc as (Ht' & Hm' & Hf & _). apply IH; auto. by eapply nexts_below_frame.
  - destruct Hc as (Ht' & Hm' & Hf & _). apply IH; rewrite <- ?app_assoc; auto. by eapply nexts_below_frame.
  - destruct Hc as (Ht' & Hm' & Hf & _ & _ & (d & num & Hd & Hkk) & _).
    pose proof (mm_insert_walk_perm k l vis rest) as Hwp.
    pose proof (mm_insert_walk_sorted k l vis rest (sorted_drop_mid _ _ _ (proj2 Hm))) as Hws.
    destruct (mm_insert_walk k l vis rest) as [v r]. apply IH; auto; [by eapply nexts_below_frame|].
    rewrite Hwp. constructor; [|done]. cbn. pose proof (Hnx _ _ num Hd) as Hb. rewrite <- Hkk in Hb. lia.
Qed.

(** ** Rounds of the handler *)
Lemma validate_stats_id tcurr h : (forall l p, stats h !! l = Some p -> tcurr - 150 <= tlast_validate_ p) -> validate_stats tcurr h = h.
Proof.
  intros H. unfold validate_stats. induction (map_to_list (adeftbl_ h)) as [|[id e] L IH]; cbn [foldr]; [done|]. rewrite IH. cbn [snd].
  destruct (elems h !! e) as [d|]; [|done]. induction (map_to_list (avar_tbl_ d)) as [|[k l] M IHM]; cbn [foldr]; [done|]. rewrite IHM.
  unfold validate_one. cbn [snd]. destruct (elems h !! e); [|done]. destruct (stats h !! l) as [p|] eqn:Hl; [|done].
  by rewrite (proj2 (Z.ltb_ge _ _)) by (by eapply H).
Qed.

(** The number of objects of [mempool_], and how far the next checks are ahead. *)
Definition POOL_STATS : nat := Z.to_nat (MAX_TOTAL_ALERTS_PER_HOUR + 128).
Definition KEY_AHEAD : Z := 1000000 * GY_USEC_PER_SEC.

Record rt_ok (T : Z) (h : MRT_ALERT_HDLR) : Prop := RtOk {
  ok_inv : rt_inv h;
  ok_defs : forall e d, elems h !! e = Some d -> in_width 16 (subsys_inter_sec_ (com d));
  ok_size : (size (stats h) <= POOL_STATS)%nat;
  ok_keys : forall l p, stats h !! l = Some p -> tnextchkusec_ p < T * GY_USEC_PER_SEC + KEY_AHEAD;
}.

Lemma entries_length m : length (entries m) = size m.
Proof. unfold entries. by rewrite length_fmap, length_map_to_list. Qed.

Lemma usec_bounds tcurr : 0 <= tcurr < 2 ^ 40 -> u64 (tcurr * GY_USEC_PER_SEC) = tcurr * GY_USEC_PER_SEC /\
  u64 (tcurr * GY_USEC_PER_SEC + GY_USEC_PER_SEC) = tcurr * GY_USEC_PER_SEC + GY_USEC_PER_SEC /\
  u64 (u64 (tcurr * GY_USEC_PER_SEC + GY_USEC_PER_YEAR) + GY_USEC_PER_SEC) = tcurr * GY_USEC_PER_SEC + GY_USEC_PER_YEAR + GY_USEC_PER_SEC.
Proof.
  intros H. unfold GY_USEC_PER_YEAR, GY_USEC_PER_SEC. split_and!; rewrite ?(wrap_id 64 (tcurr * 1000000 + 31557600 * 1000000));
    try apply wrap_id; unfold in_width; lia.
Qed.

Lemma nexts_below_ok T tcurr h : rt_ok T h -> 0 <= tcurr < 2 ^ 40 -> nexts_below tcurr (tcurr * GY_USEC_PER_SEC + KEY_AHEAD) h.
Proof.
  intros H Ht e d n Hd. destruct (usec_bounds tcurr Ht) as (-> & -> & _).
  pose proof (nextcheck_bounds (com d) (tcurr * GY_USEC_PER_SEC) n (ok_defs _ _ H e d Hd)) as Hb. unfold KEY_AHEAD, GY_USEC_PER_SEC in *. lia.
Qed.

Lemma frame_defs h h' : walk_frame h h' -> (forall e d, elems h !! e = Some d -> in_width 16 (subsys_inter_sec_ (com d))) ->
  forall e d, elems h' !! e = Some d -> in_width 16 (subsys_inter_sec_ (com d)).
Proof.
  intros Hf H e d Hd. pose proof (wf_elems _ _ Hf e) as E. rewrite Hd in E.
  destruct (elems h !! e) as [d0|] eqn:Hd0; [|done]. cbn in E. injection E as E. rewrite E. by apply (H e).
Qed.

Lemma loop_size tcurr h h' : loop_ok tcurr h h' -> (size (stats h') <= size (stats h))%nat.
Proof.
  intros H. rewrite <- !(size_dom (D := gset Z)). apply subseteq_size. intros l. rewrite !elem_of_dom. intros [p Hp].
  destruct (stats h !! l) eqn:E; [by eexists|]. rewrite (lo_none _ _ _ H l E) in Hp. done.
Qed.

Lemma keys_stats h B : rt_inv h ->
  Forall (fun e => e.1 < B) (atimemap_ h) <-> (forall l p, stats h !! l = Some p -> tnextchkusec_ p < B).
Proof.
  intros [_ Hm]. rewrite list.Forall_forall. split.
  - intros H l p Hl. apply (H (tnextchkusec_ p, l)). rewrite (proj1 Hm). apply elem_of_entries. by exists p.
  - intros H [k l] Hin. destruct (times_inv_elem h _ k l Hm Hin) as (p & Hl & <-). by apply (H l).
Qed.

Lemma times_length h : rt_inv h -> length (atimemap_ h) = size (stats h).
Proof. intros [_ [HP _]]. by rewrite HP, entries_length. Qed.

Lemma ndue_le tcurr m : (ndue tcurr m <= length m)%nat.
Proof. apply List.filter_length_le. Qed.

Lemma nexts_weaken tcurr B B' h : B <= B' -> nexts_below tcurr B h -> nexts_below tcurr B' h.
Proof. intros HB H e d n Hd. specialize (H e d n Hd). lia. Qed.

(** One walk: the invariant, and in a walk over all elements every object is checked. *)
Lemma validate_timemap_ok T tcurr ca h : rt_ok T h -> 0 <= tcurr < 2 ^ 40 ->
  let h' := validate_timemap env tcurr ca h in
  loop_ok tcurr h h' /\ rt_ok (Z.max T tcurr) h' /\
  (ca = true -> T <= tcurr + 86400 -> forall l p, stats h !! l = Some p -> stat_after tcurr p l h').
Proof.
  intros H Ht. cbn zeta. unfold validate_timemap. destruct (ok_inv _ _ H) as [Htb Hm].
  pose proof (timemap_loop_ok max_checks ca tcurr [] (atimemap_ h) h Htb Hm) as Hl.
  pose proof (nexts_below_ok T tcurr h H Ht) as Hnx. split; [done|]. split.
  - split; [apply Hl|by eapply frame_defs; [apply Hl|apply H]|etrans; [by eapply loop_size|apply H]|].
    apply keys_stats; [apply Hl|].
    apply timemap_loop_keys; [done|done|eapply nexts_weaken; [|done]; unfold GY_USEC_PER_SEC; lia|].
    eapply list.Forall_impl; [apply keys_stats; [apply H|apply (ok_keys _ _ H)]|]. cbn. unfold GY_USEC_PER_SEC. lia.
  - intros -> HT l p Hp. destruct (usec_bounds tcurr Ht) as (E1 & E2 & E3).
    apply (timemap_loop_full max_checks tcurr [] (atimemap_ h) h Htb Hm) with (t := tnextchkusec_ p); [|rewrite E1, E3..| |done].
    + pose proof (ndue_le tcurr (atimemap_ h)). pose proof (ok_size _ _ H). rewrite (times_length h (ok_inv _ _ H)) in *.
      unfold POOL_STATS, max_checks, MAX_TOTAL_ALERTS_PER_HOUR in *. lia.
    + eapply list.Forall_impl; [apply keys_stats; [apply H|apply (ok_keys _ _ H)]|]. cbn. unfold GY_USEC_PER_YEAR, KEY_AHEAD, GY_USEC_PER_SEC. lia.
    + eapply nexts_weaken; [|done]. unfold GY_USEC_PER_YEAR, KEY_AHEAD, GY_USEC_PER_SEC. lia.
    + rewrite (proj1 Hm). apply elem_of_entries. by exists p.
Qed.

(** An object after a message was handled: the message does not change its hits. *)
Record astat_keep (p q : MRT_ALERT_STATS) : Prop := AstatKeep {
  ak_hit : tlast_hit_ q = tlast_hit_ p;
  ak_multi : stat_multi_ q = stat_multi_ p;
  ak_alertid : alertid_ q = alertid_ p;
  ak_key : same_key p q;
  ak_fired : stat_state_ p = MALERT_FIRED -> stat_state_ q = MALERT_FIRED;
}.

Lemma astat_keep_refl p : astat_keep p p.
Proof. by split. Qed.

(** The time of the next check is one that [get_nextcheck_tusec] gives. *)
Definition next_of (h : MRT_ALERT_HDLR) (q : MRT_ALERT_STATS) : Prop :=
  exists e d n, elems h !! e = Some d /\ tnextchkusec_ q = get_nextcheck_tusec (com d) (e_usec env) n.

Lemma send_shyama_frame m p d tcurr h : walk_frame h (send_shyama_rtalert env m p d tcurr h).
Proof. unfold send_shyama_rtalert. repeat (case_if; [apply walk_frame_refl|]). split; [done|done|]. split; try done. by eexists. Qed.

Lemma upd_stat_frame l p h : walk_frame h (upd_stat l p h).
Proof. split; auto with gy. Qed.

Lemma rekey_spec l k p h : let h' := rekey l k p h in
  walk_frame h h' /\ stats h' = <[l := set_nextchk k p]> (stats h).
Proof. unfold rekey. case_if; (split; [split; auto with gy|done]). Qed.

Lemma common_update_spec m l p e d c tcurr fired isnew h : stats h !! l = Some p -> elems h !! e = Some d -> com d = c ->
  let h' := common_astats_update env m l p c tcurr fired isnew h in
  walk_frame h h' /\ exists q, stats h' = <[l := q]> (stats h) /\ astat_keep p q /\ (tnextchkusec_ q = tnextchkusec_ p \/ next_of h q).
Proof.
  intros Hl Hd <-. cbn zeta.
  assert (exists q, stats h = <[l := q]> (stats h) /\ astat_keep p q /\ (tnextchkusec_ q = tnextchkusec_ p \/ next_of h q)) as Hsame
    by (exists p; rewrite insert_id by done; split_and!; [done|by apply astat_keep_refl|by left]).
  unfold common_astats_update. case_if; [split; [apply walk_frame_refl|done]|]. case_if; [split; [apply walk_frame_refl|done]|].
  destruct (fired && _).
  - match goal with |- context [upd_stat l ?q ?g] => set (p' := q); set (h1 := g) end.
    assert (walk_frame h h1 /\ stats h1 = stats h) as [F1 E1] by (split; [apply send_shyama_frame|apply (send_shyama_fields m _ (com d) tcurr h)]).
    assert (astat_keep p p' /\ tnextchkusec_ p' = tnextchkusec_ p) as [Hp' Hn'] by (unfold p'; by destruct (tlast_alert_ p =? 0)).
    assert (walk_frame h (upd_stat l p' h1)) as F2 by (eapply walk_frame_trans; [done|apply upd_stat_frame]).
    destruct isnew; [split; [done|exists p'; cbn; rewrite E1; auto]|].
    destruct (rekey_spec l (get_nextcheck_tusec (com d) (e_usec env) 1) p' (upd_stat l p' h1)) as [F3 E3].
    split; [by eapply walk_frame_trans|]. exists (set_nextchk (get_nextcheck_tusec (com d) (e_usec env) 1) p').
    rewrite E3. cbn [upd_stat set_stats stats]. rewrite insert_insert_eq, E1. split_and!; [done|by destruct Hp'|right]. by exists e, d, 1.
  - destruct isnew; [split; [apply walk_frame_refl|done]|].
    destruct (rekey_spec l (get_nextcheck_tusec (com d) (e_usec env) 1) p h) as [F3 E3]. split; [done|].
    exists (set_nextchk (get_nextcheck_tusec (com d) (e_usec env) 1) p). rewrite E3. split_and!; [done|by split|right]. by exists e, d, 1.
Qed.

(** The objects after a message: those there were, with the same hits, and perhaps
    the new one. *)
Record msg_after (h h' : MRT_ALERT_HDLR) : Prop := MsgAfter {
  ma_frame : walk_frame h h';
  ma_old : forall l p, stats h !! l = Some p -> exists q, stats h' !! l = Some q /\ astat_keep p q /\
    (tnextchkusec_ q = tnextchkusec_ p \/ next_of h q);
  ma_new : forall l q, stats h !! l = None -> stats h' !! l = Some q -> e_stat env = Some l /\ next_of h q;
}.

Lemma msg_after_refl h : msg_after h h.
Proof.
  split; [apply walk_frame_refl| |congruence]. intros l p Hl. exists p. split_and!; [done|by apply astat_keep_refl|by left].
Qed.

Lemma upd_astat_after m e d id tcurr h : elems h !! e = Some d -> (forall l, e_stat env = Some l -> stats h !! l = None) ->
  msg_after h (upd_astat g_madhava_id env m e d id tcurr h).
Proof.
  intros Hd Hf. unfold upd_astat. destruct (avar_tbl_ d !! _) as [l|] eqn:Hk.
  - destruct (stats h !! l) as [p|] eqn:Hl; [|apply msg_after_refl].
    destruct (common_update_spec m l p e d (com d) tcurr (msg_numhits_ m >=? numcheckfor_ (com d)) false h Hl Hd eq_refl) as (F & q & E & Hq & Hn).
    split; [done|..]; rewrite E.
    + intros l' p' Hl'. destruct (decide (l' = l)) as [->|Hne]; [rewrite lookup_insert_eq|rewrite lookup_insert_ne by done].
      * exists q. rewrite Hl in Hl'. by injection Hl' as <-.
      * exists p'. split_and!; [done|by apply astat_keep_refl|by left].
    + intros l' q' Hl'. destruct (decide (l' = l)) as [->|Hne]; [congruence|]. rewrite lookup_insert_ne by done. congruence.
  - destruct (e_stat env) as [l|] eqn:He; [|apply msg_after_refl]. specialize (Hf l eq_refl).
    match goal with |- msg_after h (common_astats_update _ _ _ ?q _ _ _ _ _) => set (p := q) end.
    match goal with |- msg_after h (common_astats_update _ _ _ _ _ _ _ _ ?g) => set (h1 := g) end.
    assert (stats h1 = <[l := p]> (stats h)) as E1 by done.
    assert (walk_frame h h1) as F1.
    { split; [done| |auto with gy]. intros e'. cbn. destruct (decide (e' = e)) as [->|Hne];
        [rewrite lookup_insert_eq; by rewrite Hd|by rewrite lookup_insert_ne]. }
    assert (exists d1, elems h1 !! e = Some d1 /\ com d1 = com d) as (d1 & Hd1 & Ec) by (eexists; split; [cbn; by rewrite lookup_insert_eq|done]).
    destruct (common_update_spec m l p e d1 (com d) tcurr (msg_numhits_ m >=? numcheckfor_ (com d)) true h1) as (F & q & E & Hq & Hn);
      [rewrite E1; by rewrite lookup_insert_eq|done|done|].
    assert (next_of h q) as Hnq.
    { destruct Hn as [Hn|(e' & d' & n & Hd' & Hn)]; [exists e, d, (msg_numhits_ m); by rewrite Hn|].
      pose proof (wf_elems _ _ F1 e') as Ee. rewrite Hd' in Ee. destruct (elems h !! e') as [d0|] eqn:Hd0; [|done].
      cbn in Ee. injection Ee as Ee. exists e', d0, n. by rewrite <- Ee. }
    split; [by eapply walk_frame_trans|..]; rewrite E, E1, insert_insert_eq.
    + intros l' p' Hl'. rewrite lookup_insert_ne by congruence. exists p'. split_and!; [done|by apply astat_keep_refl|by left].
    + intros l' q' Hl'. destruct (decide (l' = l)) as [->|Hne]; [rewrite lookup_insert_eq; intros [= <-]; done|].
      rewrite lookup_insert_ne by done. congruence.
Qed.

Lemma handle_astat_after m tcurr h : (forall l, e_stat env = Some l -> stats h !! l = None) ->
  msg_after h (handle_astat_msg g_madhava_id env m tcurr h).
Proof.
  intros Hf. unfold handle_astat_msg. case_if; [apply msg_after_refl|].
  destruct (adeftbl_ h !! _) as [e|]; [|apply msg_after_refl]. destruct (elems h !! e) as [d|] eqn:Hd; [|apply msg_after_refl].
  repeat (case_if; [try apply msg_after_refl|]); try apply msg_after_refl; by apply upd_astat_after.
Qed.

(** What is assumed of the environment in a round that comes not before the time
    [T]: the clock does not go back, a round takes less than an hour, and the pools
    give objects that are not in use, no more than they have. *)
Record env_ok (T : Z) (h : MRT_ALERT_HDLR) : Prop := EnvOk {
  eo_time : 0 <= T <= e_tcurr env /\ 0 < e_tcurr env < 2 ^ 32;
  eo_usec : 0 <= e_usec env < (e_tcurr env + 3600) * GY_USEC_PER_SEC;
  eo_print : e_tcurr env <= e_tprint env <= e_tcurr env + 3600;
  eo_stat : forall l, e_stat env = Some l -> stats h !! l = None /\ (size (stats h) < POOL_STATS)%nat;
  eo_elem : forall e d m q, e_elem env = Some e -> elems h !! e = Some d -> aqueue_ h = m :: q -> adef_id_ (com d) = msg_adef_id_ m;
}.

Definition is_def_msg (m : MALERT_MSG) : bool := negb (type_ m =? ALERT_ASTAT_ID) && negb (type_ m =? ALERT_ASTAT_MACHID).

Lemma handle_msg_after m tcurr h : defs_ok -> 0 < tcurr < 2 ^ 32 -> rt_inv h -> (forall l, e_stat env = Some l -> stats h !! l = None) ->
  (forall e d, e_elem env = Some e -> elems h !! e = Some d -> adef_id_ (com d) = msg_adef_id_ m) ->
  let h' := handle_msg g_madhava_id alertdef_of env m tcurr h in
  rt_inv h' /\ if is_def_msg m then def_after (msg_adef_id_ m) h h' else msg_after h h'.
Proof.
  intros Hok Htc Hinv Hf He. cbn zeta. unfold handle_msg, is_def_msg.
  assert (forall b, rt_inv h /\ if b : bool then def_after (msg_adef_id_ m) h h else msg_after h h) as Hsame
    by (intros []; split; auto using def_after_refl, msg_after_refl).
  case_if; [done|]. destruct (type_ m =? ALERT_ASTAT_ID); cbn [orb negb andb];
    [split; [by apply handle_astat_msg_inv|by apply handle_astat_after]|].
  destruct (type_ m =? ALERT_ASTAT_MACHID); cbn [orb negb andb];
    [split; [by apply handle_astat_msg_inv|by apply handle_astat_after]|].
  assert (forall type st, (type = ALERT_ADEF_DELETE -> st = ADEFSTATE_DISABLED) ->
    rt_inv (set_alert_state (msg_adef_id_ m) type st h) /\ def_after (msg_adef_id_ m) h (set_alert_state (msg_adef_id_ m) type st h)) as Hs.
  { intros type st Hst. pose proof (set_alert_state_after (msg_adef_id_ m) type st h Hinv Hst). split; [|done]. by eapply da_inv. }
  case_if; [case_if; [|exact (Hsame true)]|].
  - pose proof (add_new_def_after m tcurr h Hok Htc Hinv He). split; [|done]. by eapply da_inv.
  - repeat (case_if; [by apply Hs|]). exact (Hsame true).
Qed.

Lemma handle_msg_ok m T h q : defs_ok -> aqueue_ h = m :: q -> env_ok T h -> rt_ok (T + 3600) h ->
  rt_ok (e_tcurr env + 3600) (handle_msg g_madhava_id alertdef_of env m (e_tcurr env) (set_queue q h)).
Proof.
  intros Hok Hq [E1 E2 E3 E4 E5] [O1 O2 O3 O4].
  assert (rt_inv (set_queue q h)) as Hi by (by apply (rt_inv_ext h)).
  destruct (handle_msg_after m (e_tcurr env) (set_queue q h) Hok (proj2 E1) Hi) as [Hinv Ha]; [by intros l [? _]%E4|by intros e d He Hd; eapply E5|].
  set (h' := handle_msg _ _ _ _ _ _) in *.
  assert (Hk : forall l p, stats h !! l = Some p -> tnextchkusec_ p < (e_tcurr env + 3600) * GY_USEC_PER_SEC + KEY_AHEAD)
    by (intros l p Hl; specialize (O4 l p Hl); unfold GY_USEC_PER_SEC, KEY_AHEAD in *; lia).
  destruct (is_def_msg m).
  - destruct Ha as [_ D2 D3 _ _]. split; [done|by apply D3|..].
    + etrans; [|exact O3]. rewrite <- !(size_dom (D := gset Z)). apply subseteq_size. intros l. rewrite !elem_of_dom.
      destruct (D2 l) as [->| ->]; [done|by intros [? ?]].
    + intros l p Hl. destruct (D2 l) as [D|D]; [apply (Hk l p)|]; by rewrite D in Hl.
  - destruct Ha as [F M1 M2]. split; [done|by apply (frame_defs (set_queue q h))|..].
    + destruct (e_stat env) as [l|] eqn:El.
      * destruct (E4 l eq_refl) as [Hl Hs]. transitivity (size (<[l := ()]> ((fun _ => ()) <$> stats h)));
          [|by rewrite map_size_insert_None, map_size_fmap by (by rewrite lookup_fmap, Hl)].
        rewrite <- !(size_dom (D := gset Z)). apply subseteq_size. intros l'. rewrite !elem_of_dom. intros [p Hp].
        destruct (decide (l' = l)) as [->|Hne]; [rewrite lookup_insert_eq; by eexists|]. rewrite lookup_insert_ne, lookup_fmap by done.
        destruct (stats h !! l') as [p'|] eqn:El'; [by eexists|]. exfalso. apply Hne. destruct (M2 l' p El' Hp) as [[= E] _]. done.
      * etrans; [|exact O3]. rewrite <- !(size_dom (D := gset Z)). apply subseteq_size. intros l'. rewrite !elem_of_dom. intros [p Hp].
        destruct (stats h !! l') as [p'|] eqn:El'; [by eexists|]. by destruct (M2 l' p El' Hp) as [? _].
    + assert (forall p, next_of (set_queue q h) p -> tnextchkusec_ p < (e_tcurr env + 3600) * GY_USEC_PER_SEC + KEY_AHEAD) as Hnx.
      { intros p (e & d & n & Hd & ->). pose proof (nextcheck_bounds (com d) (e_usec env) n (O2 e d Hd)) as Hb.
        unfold KEY_AHEAD, GY_USEC_PER_SEC in *. lia. }
      intros l p Hp. destruct (stats h !! l) as [p0|] eqn:El; [|by apply Hnx, (M2 l)].
      destruct (M1 l p0 El) as (p' & Hp' & _ & Hn). rewrite Hp in Hp'. injection Hp' as <-.
      destruct Hn as [->|Hn]; [by apply (Hk l)|by apply Hnx].
Qed.

Lemma rt_ok_ext T h h' : adeftbl_ h' = adeftbl_ h -> elems h' = elems h -> stats h' = stats h -> atimemap_ h' = atimemap_ h ->
  rt_ok T h -> rt_ok T h'.
Proof. intros E1 E2 E3 E4 [H1 H2 H3 H4]. split; rewrite ?E2, ?E3; [by apply (rt_inv_ext h)|done..]. Qed.

(** What the checks of a round do: [t] is the time of the walk. *)
Record checks_after (h h' : MRT_ALERT_HDLR) : Prop := ChecksAfter {
  ca_ok : rt_ok (e_tcurr env + 3600) h';
  ca_chk : tlast_timemap_chk_ h' = if e_tcurr env >? tlast_timemap_chk_ h + 60 then e_tcurr env else tlast_timemap_chk_ h;
  ca_defs : forall e, com <$> (elems h' !! e) = com <$> (elems h !! e);
  ca_queue : aqueue_ h' = aqueue_ h;
  ca_sent : exists o, sent h' = sent h ++ o;
  ca_stats : forall l p, stats h !! l = Some p -> stats h' !! l = Some p \/ exists t, stat_after t p l h';
  ca_all : e_tcurr env > tlast_timemap_chk_ h + 60 -> forall l p, stats h !! l = Some p -> stat_after (e_tcurr env) p l h';
}.

Lemma stat_after_ext t p l h h' : stats h' = stats h -> sent h' = sent h -> stat_after t p l h -> stat_after t p l h'.
Proof.
  intros E1 E2 [q Hl Hk Hc|Hl Hc Hs]; [apply (SaKept _ _ _ _ q)|apply SaClosed]; rewrite ?E1; try done.
  unfold close_sent in *. by rewrite E2.
Qed.

(** The walk over all elements: every object is checked, so that [validate_stats] has
    nothing to delete. *)
Lemma periodic_checks_after h : rt_ok (e_tcurr env + 3600) h -> 0 <= e_tcurr env < 2 ^ 39 ->
  exists h2 b c, periodic_checks env (e_tcurr env) h = set_times (e_tcurr env) b c h2 /\ rt_ok (e_tcurr env + 3600) h2 /\
  walk_frame (set_times (e_tcurr env) (tlast_stat_chk_ h) (tlastprint h) h) h2 /\
  forall l p, stats h !! l = Some p -> stat_after (e_tcurr env) p l h2.
Proof.
  intros H Ht. unfold periodic_checks. set (h1 := set_times _ _ _ h).
  assert (rt_ok (e_tcurr env + 3600) h1) as H1 by (by apply (rt_ok_ext _ h)).
  destruct (validate_timemap_ok _ (e_tcurr env) true h1 H1 ltac:(lia)) as (L & R & A).
  rewrite Z.max_l in R by lia. specialize (A eq_refl ltac:(lia)). set (h2 := validate_timemap env _ true h1) in *.
  pose proof (mf_chk _ _ (wf_misc _ _ (lo_frame _ _ _ L))) as Echk. cbn in Echk. exists h2.
  assert (forall a b c, validate_stats (e_tcurr env) (set_times a b c h2) = set_times a b c h2) as V.
  { intros a b c. apply validate_stats_id. cbn [set_times stats]. intros l p Hl.
    destruct (stats h1 !! l) as [p0|] eqn:Hl1; [|by rewrite (lo_none _ _ _ L l Hl1) in Hl].
    destruct (A l p0 Hl1) as [q Hq [k ->] _|Hq _ _]; rewrite Hq in Hl; [|done]. injection Hl as <-. cbn. lia. }
  case_if; [rewrite V, Echk; by do 2 eexists; split_and!; [|done|apply L|exact A]|].
  exists (tlast_stat_chk_ h2), (tlastprint h2). split_and!; [|done|apply L|exact A]. rewrite <- Echk. by destruct h2.
Qed.

Lemma print_checks_spec tcurr h : exists c, (print_checks env tcurr h).2 = set_times (tlast_timemap_chk_ h) (tlast_stat_chk_ h) c h /\
  ((print_checks env tcurr h).1 = tcurr \/ (print_checks env tcurr h).1 = e_tprint env).
Proof. unfold print_checks. case_if; [by exists (e_tprint env); auto|]. exists (tlastprint h). split; [by destruct h|by left]. Qed.

Lemma rt_checks_after tmap1 h : rt_ok (e_tcurr env + 3600) h -> 0 <= e_tcurr env < 2 ^ 39 ->
  e_tcurr env <= e_tprint env <= e_tcurr env + 3600 -> checks_after h (rt_checks env (e_tcurr env) tmap1 h).
Proof.
  intros H Ht Hp. unfold rt_checks. destruct (e_tcurr env >? tlast_timemap_chk_ h + 60) eqn:Eall; cbn [negb andb].
  - destruct (periodic_checks_after h H Ht) as (h2 & b & c & -> & R & F & A).
    destruct (print_checks_spec (e_tcurr env) (set_times (e_tcurr env) b c h2)) as (c' & E & _).
    destruct (print_checks _ _ _) as [t h3]. cbn in E. subst h3. destruct F as [F1 F2 [F3 _ _ _ _ F4]].
    assert (forall l p, stats h !! l = Some p -> stat_after (e_tcurr env) p l (set_times (e_tcurr env) b c' h2)) as A'
      by (intros l p Hl; by apply (stat_after_ext _ _ _ h2), A).
    split; cbn; rewrite ?Eall; try done; [by apply (rt_ok_ext _ h2)|]. intros l p Hl. right. exists (e_tcurr env). by apply A'.
  - destruct (print_checks_spec (e_tcurr env) h) as (c & E & Etime). destruct (print_checks _ _ _) as [t h3]. cbn in E, Etime. subst h3.
    set (h3 := set_times _ _ c h). assert (rt_ok (e_tcurr env + 3600) h3) as H3 by (by apply (rt_ok_ext _ h)).
    breflect. case_if.
    + destruct (validate_timemap_ok _ t false h3 H3 ltac:(lia)) as (L & R & _). rewrite Z.max_l in R by lia.
      destruct (lo_frame _ _ _ L) as [F1 F2 [F3 _ F5 _ _ F4]]. split; try done; try (intros; lia).
      * rewrite F5. cbn. rewrite Z.gtb_ltb, (proj2 (Z.ltb_ge _ _)) by lia. done.
      * intros l p Hl. destruct (lo_stats _ _ _ L l p Hl) as [?|?]; [by left|right; by exists t].
    + split; try done; try (intros; lia); try by left.
      * cbn. rewrite Z.gtb_ltb, (proj2 (Z.ltb_ge _ _)) by lia. done.
      * exists []. by rewrite app_nil_r.
Qed.

(** One round, for an object whose definition the message is not about. *)
Lemma rt_round_after T t0 h : defs_ok -> rt_ok (T + 3600) h -> env_ok T h ->
  let h' := rt_round g_madhava_id alertdef_of env t0 h in
  rt_ok (e_tcurr env + 3600) h' /\ (exists o, sent h' = sent h ++ o) /\
  tlast_timemap_chk_ h' = (if e_tcurr env >? tlast_timemap_chk_ h + 60 then e_tcurr env else tlast_timemap_chk_ h) /\
  forall l p d, stats h !! l = Some p -> elems h !! pdefelem_ p = Some d ->
    (forall m q, aqueue_ h = m :: q -> is_def_msg m = true -> msg_adef_id_ m <> adef_id_ (com d)) ->
    exists q, astat_keep p q /\
      ((exists d', stats h' !! l = Some q /\ elems h' !! pdefelem_ p = Some d' /\ com d' = com d /\
        ~ (e_tcurr env > tlast_timemap_chk_ h + 60 /\ hit_timeout (e_tcurr env) p = true)) \/
       exists t, close_sent t q h').
Proof.
  intros Hok Hrt Henv. cbn zeta. unfold rt_round. pose proof (eo_time _ _ Henv) as Ht.
  set (h1 := match aqueue_ h with [] => h | m :: q => _ end).
  assert (rt_ok (e_tcurr env + 3600) h1 /\ tlast_timemap_chk_ h1 = tlast_timemap_chk_ h /\ (exists o, sent h1 = sent h ++ o) /\
    forall l p d, stats h !! l = Some p -> elems h !! pdefelem_ p = Some d ->
      (forall m q, aqueue_ h = m :: q -> is_def_msg m = true -> msg_adef_id_ m <> adef_id_ (com d)) ->
      exists q d', astat_keep p q /\ stats h1 !! l = Some q /\ elems h1 !! pdefelem_ p = Some d' /\ com d' = com d)
    as (R1 & C1 & [o1 S1] & K1).
  { unfold h1. destruct (aqueue_ h) as [|m q] eqn:Eq.
    - split_and!; [|done|exists []; by rewrite app_nil_r|].
      + destruct Hrt as [A B C D]. split; try done. intros l p Hl. specialize (D l p Hl). unfold KEY_AHEAD, GY_USEC_PER_SEC in *. lia.
      + intros l p d Hl Hd _. exists p, d. by split_and!; [apply astat_keep_refl|..].
    - split; [by apply (handle_msg_ok m T)|].
      destruct (handle_msg_after m (e_tcurr env) (set_queue q h) Hok (proj2 Ht)) as [_ Ha];
        [by apply (rt_inv_ext h), Hrt|by intros l [? _]%(eo_stat _ _ Henv)|by intros e d He Hd; eapply (eo_elem _ _ Henv)|].
      destruct (is_def_msg m) eqn:Edef.
      + destruct Ha as [_ _ _ D4 [_ _ F3 _ _ F6]]. split_and!; [done|done|]. intros l p d Hl Hd Hn.
        destruct (D4 l p d Hl Hd) as [K1 K2]; [apply not_eq_sym; by eapply Hn|]. exists p, d. by split_and!; [apply astat_keep_refl|..].
      + destruct Ha as [[_ F2 [_ _ F3 _ _ F6]] M1 _]. split_and!; [done|done|]. intros l p d Hl Hd _.
        destruct (M1 l p Hl) as (q' & Hq' & Hk & _). pose proof (F2 (pdefelem_ p)) as Ee. cbn in Ee. rewrite Hd in Ee.
        destruct (elems (handle_msg _ _ _ _ _ _) !! pdefelem_ p) as [d'|]; [|done]. injection Ee as Ee. exists q', d'. done. }
  pose proof (rt_checks_after (first_time (t0 + 1) h) h1 R1 ltac:(lia) (eo_print _ _ Henv)) as [A B C D [o2 S2] F G].
  rewrite C1 in *. split_and!; [done|exists (o1 ++ o2); by rewrite S2, S1, app_assoc|done|].
  intros l p d Hl Hd Hm. destruct (K1 l p d Hl Hd Hm) as (q & d' & Hk & Hq & Hd' & Ec).
  assert (forall t, stat_after t q l (rt_checks env (e_tcurr env) (first_time (t0 + 1) h) h1) ->
    (exists q', stats (rt_checks env (e_tcurr env) (first_time (t0 + 1) h) h1) !! l = Some q' /\ astat_keep q q' /\ hit_timeout t q = false) \/
    close_sent t q (rt_checks env (e_tcurr env) (first_time (t0 + 1) h) h1)) as Hsa.
  { intros t [q' Hq' [k ->] Hc|_ _ Hs]; [left|by right]. eexists. split_and!; [done|by split|]. unfold closes in Hc.
    by apply orb_false_iff in Hc as [? _]. }
  assert (exists d2, elems (rt_checks env (e_tcurr env) (first_time (t0 + 1) h) h1) !! pdefelem_ p = Some d2 /\ com d2 = com d) as (d2 & Hd2 & Ec2).
  { pose proof (C (pdefelem_ p)) as Ee. rewrite Hd' in Ee. destruct (elems (rt_checks _ _ _ _) !! _) as [d2|]; [|done].
    injection Ee as Ee. exists d2. split; [done|congruence]. }
  assert (hit_timeout (e_tcurr env) q = hit_timeout (e_tcurr env) p) as Eh by (unfold hit_timeout; by rewrite (ak_hit _ _ Hk), (ak_multi _ _ Hk)).
  assert (forall q', astat_keep q q' -> astat_keep p q') as Htr.
  { intros q' [K K' K'' (? & ? & ?) K3]. destruct Hk as [J J' J'' (? & ? & ?) J3]. split; try congruence; [|auto]. split_and!; congruence. }
  destruct (decide (e_tcurr env > tlast_timemap_chk_ h + 60)) as [Hall|Hall].
  - destruct (Hsa _ (G Hall l q Hq)) as [(q' & Hq' & Hk' & Hnt)|Hs].
    + exists q'. split; [by apply Htr|]. left. exists d2. split_and!; [done..|]. intros [_ Hto]. congruence.
    + exists q. split; [done|]. right. by eexists.
  - destruct (F l q Hq) as [Hq'|[t Hs]].
    + exists q. split; [done|]. left. exists d2. split_and!; [done..|]. tauto.
    + destruct (Hsa t Hs) as [(q' & Hq' & Hk' & _)|Hs'].
      * exists q'. split; [by apply Htr|]. left. exists d2. split_and!; [done..|]. tauto.
      * exists q. split; [done|]. right. by eexists.
Qed.
End Preserve.

(** ** Sequences of events *)
Section Events.
Context (g_madhava_id : Z) (alertdef_of : MALERT_MSG -> Z -> option (option ALERTDEF_COMMON)).

(** A record that is compared with a definition, the messages of shyama, and a round
    of the handler. *)
Inductive rt_event :=
  | EvRecord (e : Z) (pass : bool) (id : Z) (machid : Z * Z) (tcurr szjson : Z)
  | EvAdefNew (tcurr adef_id lenjson : Z) (state : ADEF_STATE_E) (isrealtime for_partha : bool)
  | EvAdefUpd (tcurr adef_id type : Z) (isrealtime : bool)
  | EvDisable (tend : Z)
  | EvRound (t0 : Z) (env : rt_env).

Definition rt_step (ev : rt_event) (h : MRT_ALERT_HDLR) : MRT_ALERT_HDLR :=
  match ev with
  | EvRecord e pass id machid tcurr szjson => rt_record e pass id machid tcurr szjson h
  | EvAdefNew tcurr adef_id lenjson state rt par => handle_adef_new tcurr adef_id lenjson state rt par h
  | EvAdefUpd tcurr adef_id type rt => handle_adef_upd tcurr adef_id type rt h
  | EvDisable tend => handle_astat_disable tend h
  | EvRound t0 env => rt_round g_madhava_id alertdef_of env t0 h
  end.

Definition run (evs : list rt_event) (h : MRT_ALERT_HDLR) : MRT_ALERT_HDLR := fold_left (fun h ev => rt_step ev h) evs h.

(** The time of the last round. *)
Definition ev_time (now : Z) (ev : rt_event) : Z := match ev with EvRound _ env => e_tcurr env | _ => now end.

Fixpoint evs_ok (now : Z) (h : MRT_ALERT_HDLR) (evs : list rt_event) : Prop :=
  match evs with
  | [] => True
  | ev :: evs' => (match ev with EvRound _ env => env_ok env now h | _ => True end) /\ evs_ok (ev_time now ev) (rt_step ev h) evs'
  end.

Lemma queue_write_fields m h : let h' := queue_write m h in
  adeftbl_ h' = adeftbl_ h /\ elems h' = elems h /\ stats h' = stats h /\ atimemap_ h' = atimemap_ h /\ sent h' = sent h /\
  tlast_timemap_chk_ h' = tlast_timemap_chk_ h.
Proof. unfold queue_write. by case_if. Qed.

(** A record changes the hits of the object of its key, if anything. *)
Lemma rt_record_spec e pass id machid tcurr szjson h : let h' := rt_record e pass id machid tcurr szjson h in
  (adeftbl_ h' = adeftbl_ h /\ elems h' = elems h /\ atimemap_ h' = atimemap_ h /\ sent h' = sent h /\
   tlast_timemap_chk_ h' = tlast_timemap_chk_ h) /\
  (stats h' = stats h \/ exists d l p n, pass = true /\ elems h !! e = Some d /\ avar_tbl_ d !! key_of d id machid = Some l /\
    stats h !! l = Some p /\ stats h' = <[l := set_hit tcurr n p]> (stats h)).
Proof.
  cbn zeta. unfold rt_record. destruct (elems h !! e) as [d|] eqn:Hd; [|by split; [|left]]. case_if; [by split; [|left]|].
  destruct pass; [|by split; [|left]]. cbn [negb]. unfold is_astat_msg, send_rt_amsg.
  assert (forall m h1, let h' := queue_write m h1 in (adeftbl_ h' = adeftbl_ h1 /\ elems h' = elems h1 /\ atimemap_ h' = atimemap_ h1 /\
    sent h' = sent h1 /\ tlast_timemap_chk_ h' = tlast_timemap_chk_ h1) /\ stats h' = stats h1) as Hq.
  { intros m h1. destruct (queue_write_fields m h1) as (? & ? & ? & ? & ? & ?). done. }
  destruct (avar_tbl_ d !! key_of d id machid) as [l|] eqn:Hk; [|split; [apply Hq|left; apply Hq]].
  destruct (stats h !! l) as [p|] eqn:Hl; [|split; [apply Hq|left; apply Hq]].
  destruct (on_hit tcurr p) as [[p' n] b] eqn:E. destruct (on_hit_same tcurr p) as [n' En]. rewrite E in En. cbn in En. subst p'.
  destruct b; (split; [|right; exists d, l, p, n'; split_and!; [done..|]]); try apply (Hq _ (upd_stat _ _ _)); done.
Qed.

Lemma rt_step_ok now ev h : defs_ok alertdef_of -> rt_ok (now + 3600) h ->
  (match ev with EvRound _ env => env_ok env now h | _ => True end) -> rt_ok (ev_time now ev + 3600) (rt_step ev h).
Proof.
  intros Hd H He. destruct ev as [e pass id machid tcurr szjson|tcurr adef_id lenjson st rt par|tcurr adef_id type rt|tend|t0 env]; cbn [ev_time rt_step].
  - destruct (rt_record_spec e pass id machid tcurr szjson h) as [(E1 & E2 & E3 & _ & _) Hs]. destruct H as [A B C D].
    split; [by apply rt_record_inv|by rewrite E2|..]; destruct Hs as [->|(d & l & p & n & _ & _ & _ & Hl & ->)]; try done.
    + by rewrite map_size_insert_Some.
    + intros l' q [[<- <-]|[_ Hq]]%lookup_insert_Some; [exact (D l p Hl)|by apply (D l')].
  - unfold handle_adef_new. repeat (case_if; [try done|]); try done.
    destruct (queue_write_fields (MalertMsg (0, 0) 0 tcurr true (lenjson - 1) adef_id 0 0 ALERT_ADEF_NEW st) h) as (? & ? & ? & ? & _). by apply (rt_ok_ext _ h).
  - unfold handle_adef_upd. case_if; [done|]. case_if; [|done].
    destruct (queue_write_fields (MalertMsg (0, 0) 0 tcurr false 0 adef_id 0 0 type ADEFSTATE_ENABLED) h) as (? & ? & ? & ? & _). by apply (rt_ok_ext _ h).
  - by apply (rt_ok_ext _ h).
  - by apply (rt_round_after g_madhava_id alertdef_of env now t0 h Hd H He).
Qed.

Definition evs_time (now : Z) (evs : list rt_event) : Z := fold_left ev_time evs now.

Lemma run_ok evs now h : defs_ok alertdef_of -> rt_ok (now + 3600) h -> evs_ok now h evs -> rt_ok (evs_time now evs + 3600) (run evs h).
Proof.
  revert now h. induction evs as [|ev evs IH]; intros now h Hd H Hev; [done|].
  destruct Hev as [He Hev]. apply (IH (ev_time now ev)); [done| |done]. by apply rt_step_ok.
Qed.

Definition init_hdlr (t : Z) : MRT_ALERT_HDLR := MrtAlertHdlr ∅ ∅ ∅ [] [] 0 t t t [].

Lemma init_ok T t : rt_ok T (init_hdlr t).
Proof.
  split; [split; [split|]|..]; cbn; try done.
  - intros id e. rewrite lookup_empty. split; [done|]. by intros (d & ? & _).
  - split; [|constructor]. done.
  - unfold POOL_STATS. rewrite map_size_empty. lia.
Qed.

(** C16 : in every state the realtime handler reaches, from its start, by records,
    messages of shyama and rounds of its loop, the tables of the definitions and the
    multimap of the next checks agree: each object in use is in the table of its
    definition under its key, the multimap has exactly one element for it, under the
    time of its next check, and no element for anything else; the elements are in the
    order of the times. *)
Theorem alert_tables_agree t now evs : defs_ok alertdef_of -> evs_ok now (init_hdlr t) evs -> rt_inv (run evs (init_hdlr t)).
Proof. intros Hd Hev. apply (run_ok evs now (init_hdlr t) Hd (init_ok _ t) Hev). Qed.

(** ** Alerts that are not hit any more are closed *)

(** Nothing happens to the key [k] of the definition [c], at [e]: no record with the
    key fulfils the filter, no message changes the definition; shyama is connected. *)
Definition ckey (c : ALERTDEF_COMMON) (id : Z) (machid : Z * Z) : akey := key_of (MrtAlertdef c ∅ 0 false) id machid.

Fixpoint quiet (e : Z) (c : ALERTDEF_COMMON) (k : akey) (h : MRT_ALERT_HDLR) (evs : list rt_event) : Prop :=
  match evs with
  | [] => True
  | ev :: evs' =>
      (match ev with
       | EvRecord e' pass id machid _ _ => e' = e -> pass = true -> ckey c id machid <> k
       | EvRound _ env => e_conn env = true /\
           forall m q, aqueue_ h = m :: q -> is_def_msg m = true -> msg_adef_id_ m <> adef_id_ c
       | _ => True
       end) /\ quiet e c k (rt_step ev h) evs'
  end.

Lemma rt_step_sent now ev h : defs_ok alertdef_of -> rt_ok (now + 3600) h ->
  (match ev with EvRound _ env => env_ok env now h | _ => True end) -> exists o, sent (rt_step ev h) = sent h ++ o.
Proof.
  intros Hd H He. assert (exists o, sent h = sent h ++ o) as Hs by (exists []; by rewrite app_nil_r).
  destruct ev; cbn [rt_step]; unfold handle_adef_new, handle_adef_upd.
  - destruct (rt_record_spec e pass id machid tcurr szjson h) as [(_ & _ & _ & -> & _) _]. done.
  - repeat (case_if; [try done|]); try done. by rewrite (proj1 (proj2 (proj2 (proj2 (proj2 (queue_write_fields _ h)))))).
  - repeat (case_if; [try done|]); try done. by rewrite (proj1 (proj2 (proj2 (proj2 (proj2 (queue_write_fields _ h)))))).
  - done.
  - by apply (rt_round_after g_madhava_id alertdef_of env now t0 h Hd H He).
Qed.

Lemma run_sent evs now h : defs_ok alertdef_of -> rt_ok (now + 3600) h -> evs_ok now h evs -> exists o, sent (run evs h) = sent h ++ o.
Proof.
  revert now h. induction evs as [|ev evs IH]; intros now h Hd H Hev; [exists []; by rewrite app_nil_r|].
  destruct Hev as [He Hev]. destruct (rt_step_sent now ev h Hd H He) as [o1 E1].
  destruct (IH (ev_time now ev) (rt_step ev h) Hd (rt_step_ok now ev h Hd H He) Hev) as [o2 E2].
  exists (o1 ++ o2). change (run (ev :: evs) h) with (run evs (rt_step ev h)). by rewrite E2, E1, app_assoc.
Qed.

Definition closed_in (p : MRT_ALERT_STATS) (h : MRT_ALERT_HDLR) : Prop :=
  exists t a f, SClose (tlast_hit_ p) t (alertid_ p) a f ∈ sent h.

(** What is known of the object [l], which was [p] in a state with the time [chk] of
    the last walk over all elements. *)
Record still_open (l : Z) (p : MRT_ALERT_STATS) (c : ALERTDEF_COMMON) (chk : Z) (h : MRT_ALERT_HDLR) (q : MRT_ALERT_STATS) : Prop := StillOpen {
  so_stat : stats h !! l = Some q;
  so_keep : astat_keep p q;
  so_def : exists d, elems h !! pdefelem_ p = Some d /\ com d = c;
  so_chk : tlast_timemap_chk_ h = chk \/ tlast_timemap_chk_ h < tlast_hit_ p + stat_multi_ p;
}.

Lemma quiet_step now ev h l p c : defs_ok alertdef_of -> rt_ok (now + 3600) h ->
  (match ev with EvRound _ env => env_ok env now h | _ => True end) ->
  quiet (pdefelem_ p) c (ckey c (id_ p) (machid_ p)) h [ev] -> stat_state_ p = MALERT_FIRED ->
  still_open l p c (tlast_timemap_chk_ h) h p ->
  closed_in p (rt_step ev h) \/ exists q, still_open l p c (tlast_timemap_chk_ h) (rt_step ev h) q /\
    (match ev with EvRound _ env => e_tcurr env <= tlast_timemap_chk_ (rt_step ev h) + 60 | _ => True end).
Proof.
  intros Hdo H He [Hq _] Hf [Hl Hk (d & Hd & Hc) _].
  assert (forall h', stats h' = stats h -> elems h' = elems h -> tlast_timemap_chk_ h' = tlast_timemap_chk_ h ->
    exists q, still_open l p c (tlast_timemap_chk_ h) h' q /\ True) as Hsame.
  { intros h' E1 E2 E3. exists p. split; [|done]. split; rewrite ?E1, ?E2; [done|done|by exists d|by left]. }
  destruct ev as [e pass id machid tcurr szjson|tcurr adef_id lenjson st rt par|tcurr adef_id type rt|tend|t0 env]; cbn [rt_step].
  - right. destruct (rt_record_spec e pass id machid tcurr szjson h) as [(E1 & E2 & E3 & _ & E5) Hs].
    destruct Hs as [Es|(d' & l' & p' & n & Hpass & Hd' & Hk' & Hl' & Es)]; [by apply Hsame|].
    assert (l' <> l) as Hne.
    { intros ->. rewrite Hl in Hl'. injection Hl' as <-.
      apply (inv_tbl h (proj1 (ok_inv _ _ H)) e d' _ l Hd') in Hk' as (p2 & Hl2 & Hpe & Hkey). rewrite Hl in Hl2. injection Hl2 as <-.
      rewrite Hpe, Hd' in Hd. injection Hd as <-. apply (Hq (eq_sym Hpe) Hpass). rewrite <- Hc. symmetry. exact Hkey. }
    exists p. split; [|done]. split; rewrite ?Es, ?E2; [by rewrite lookup_insert_ne|done|by exists d|by left].
  - right. unfold handle_adef_new. repeat (case_if; [try by apply Hsame|]); try by apply Hsame.
    apply Hsame; apply (queue_write_fields _ h).
  - right. unfold handle_adef_upd. repeat (case_if; [try by apply Hsame|]); try by apply Hsame.
    apply Hsame; apply (queue_write_fields _ h).
  - right. by apply Hsame.
  - destruct Hq as [Hconn Hq].
    destruct (rt_round_after g_madhava_id alertdef_of env now t0 h Hdo H He) as (_ & _ & Hchk & Hst).
    destruct (Hst l p d Hl Hd) as (q & Hkq & [(d' & Hlq & Hd' & Ed & Hnc)|[t Hs]]); [intros m q Em Edm; rewrite Hc; by eapply Hq|..].
    + right. exists q. split.
      * split; [done|done|exists d'; by rewrite Ed|]. rewrite Hchk. case_if; [|by left]. right. breflect.
        destruct (hit_timeout (e_tcurr env) p) eqn:Eh; [exfalso; apply Hnc; split; [lia|done]|]. unfold hit_timeout in Eh. breflect. lia.
      * rewrite Hchk. case_if; breflect; lia.
    + left. destruct (Hs (ak_fired _ _ Hkq Hf) Hconn) as (a & f & Hin). exists t, a, f. by rewrite <- (ak_hit _ _ Hkq), <- (ak_alertid _ _ Hkq).
Qed.

Lemma quiet_run evs now h l p c : defs_ok alertdef_of -> rt_ok (now + 3600) h -> evs_ok now h evs ->
  quiet (pdefelem_ p) c (ckey c (id_ p) (machid_ p)) h evs -> stat_state_ p = MALERT_FIRED ->
  still_open l p c (tlast_timemap_chk_ h) h p ->
  closed_in p (run evs h) \/ exists q, still_open l p c (tlast_timemap_chk_ h) (run evs h) q /\
    (forall t0 env, list.last evs = Some (EvRound t0 env) -> e_tcurr env <= tlast_timemap_chk_ (run evs h) + 60).
Proof.
  revert now h p. induction evs as [|ev evs IH]; intros now h p Hd H Hev Hq Hf Hso; [right; by exists p|].
  destruct Hev as [He Hev]. change (run (ev :: evs) h) with (run evs (rt_step ev h)). destruct Hq as [Hq1 Hq2].
  pose proof (rt_step_ok now ev h Hd H He) as H1.
  destruct (quiet_step now ev h l p c Hd H He (conj Hq1 I) Hf Hso) as [(t & a & f & Hin)|(q & Hsq & Hlast)].
  - left. destruct (run_sent evs _ _ Hd H1 Hev) as [o Eo]. exists t, a, f. rewrite Eo. set_solver.
  - destruct Hsq as [Q1 Q2 Q3 Q4]. pose proof Q2 as [K1 K2 K3 (K4 & K5 & K6) K7].
    destruct (IH (ev_time now ev) (rt_step ev h) q Hd H1 Hev) as [(t & a & f & Hin)|(q' & [R1 R2 R3 R4] & Hl')].
    + by rewrite K4, K5, K6.
    + auto.
    + split; [done|by apply astat_keep_refl|by rewrite K4|by left].
    + left. exists t, a, f. by rewrite <- K1, <- K3.
    + right. exists q'. rewrite K4 in R3. rewrite K1, K2 in R4. split.
      * split; [done| |done|destruct R4 as [->|?]; [done|by right]].
        destruct R2 as [L1 L2 L3 (L4 & L5 & L6) L7]. split; try congruence; [|auto]. split_and!; congruence.
      * intros t0 env. destruct evs as [|ev' evs]; [cbn [list.last]; intros [= ->]; apply Hlast|apply Hl'].
Qed.

(** C15 : an alert that was fired and is not hit any more is closed: while shyama is
    connected in every round of the handler and no message about the definition of the
    alert (as a reset, a disabling or a deletion) is handled, once a round comes at least a
    minute after the end of the interval in which the next hit was due, and more than a
    minute after the last walk, the message that closes the alert has been sent, whatever
    happened to other alerts in between. *)
Theorem unhit_alert_closed evs now h l p d t0 env : defs_ok alertdef_of -> rt_ok (now + 3600) h -> evs_ok now h evs ->
  stats h !! l = Some p -> stat_state_ p = MALERT_FIRED -> elems h !! pdefelem_ p = Some d ->
  quiet (pdefelem_ p) (com d) (ckey (com d) (id_ p) (machid_ p)) h evs ->
  list.last evs = Some (EvRound t0 env) -> e_tcurr env >= tlast_hit_ p + stat_multi_ p + 60 ->
  e_tcurr env > tlast_timemap_chk_ h + 60 ->
  exists t a f, SClose (tlast_hit_ p) t (alertid_ p) a f ∈ sent (run evs h).
Proof.
  intros Hd H Hev Hl Hf Hdd Hq Hlast H1 H2.
  destruct (quiet_run evs now h l p (com d) Hd H Hev Hq Hf) as [Hc|(q & [_ _ _ Hchk] & Ht)]; [|done|].
  - split; [done|by apply astat_keep_refl|by exists d|by left].
  - specialize (Ht t0 env Hlast). lia.
Qed.
End Events.

(** ** When alerts are sent *)

(** For each hit of an object, whether a message is sent to the handler. *)
Fixpoint hit_alerts (ts : list Z) (p : MRT_ALERT_STATS) : list bool :=
  match ts with
  | [] => []
  | t :: ts' => let '(p', _, b) := on_hit t p in b :: hit_alerts ts' p'
  end.

(** The number of hits in a row, each less than [multi] seconds after the one before,
    up to each of the times [ts]. *)
Fixpoint streaks (multi prev n : Z) (ts : list Z) : list Z :=
  match ts with
  | [] => []
  | t :: ts' => let n' := if prev + multi <=? t then 1 else n + 1 in n' :: streaks multi t n' ts'
  end.

(** C33 : the handler is told of a pending alert exactly when it has been hit as many
    times in a row as the definition asks for, where hits are in a row when less than
    the interval of the definition lies between them. *)
Theorem first_message_at_streak ts p : 2 <= stat_numcheckfor_ p <= 255 -> 1 <= numhits_ p < stat_numcheckfor_ p ->
  tlast_alert_ p = 0 -> tmsg_sent_ p = 0 ->
  existsb (fun b => b) (hit_alerts ts p) =
  existsb (fun n => stat_numcheckfor_ p <=? n) (streaks (stat_multi_ p) (tlast_hit_ p) (numhits_ p) ts).
Proof.
  revert p. induction ts as [|t ts IH]; intros p Hn Hh Ha Hs; [done|]. cbn [hit_alerts streaks]. unfold on_hit.
  rewrite (wrap_id 8) by (unfold in_width; lia). rewrite Ha, Hs. cbn [Z.eqb andb orb].
  rewrite !Z.gtb_ltb, !(proj2 (Z.ltb_lt _ _)) by lia. cbn [andb].
  destruct (tlast_hit_ p + stat_multi_ p <=? t) eqn:E; cbn [existsb].
  - rewrite (proj2 (Z.leb_gt _ 1)) by lia. cbn [orb]. rewrite IH; cbn; (done || lia).
  - rewrite Z.geb_leb. destruct (stat_numcheckfor_ p <=? numhits_ p + 1) eqn:E2; cbn [existsb orb]; [done|].
    breflect. rewrite IH; cbn; (done || lia).
Qed.

(** A message for an object there is sends an alert to shyama exactly when the
    definition was hit often enough and the object has no alert yet, or its last alert
    lies longer back than the repeat interval of a definition that repeats; the alert
    has the id of the object and counts the repeats. *)
Theorem alert_sent_iff g env m tcurr h e d l p : adeftbl_ h !! msg_adef_id_ m = Some e -> elems h !! e = Some d ->
  msg_adef_id_ m <> 0 -> is_enabled (com d) = true -> has_id_tbl d = true -> type_ m = ALERT_ASTAT_ID -> msg_id_ m <> 0 ->
  avar_tbl_ d !! key_of d (msg_id_ m) (msg_machid_ m) = Some l -> stats h !! l = Some p ->
  tdisable_end_ h <= tcurr -> pjson_ m = true -> alert_hdr_size < lenjson_ m -> lenact_json_ m <> 0 -> e_conn env = true ->
  0 <= repeataftersec_ (com d) ->
  let again := (0 <? repeataftersec_ (com d)) && (tlast_alert_ p + repeataftersec_ (com d) <? tcurr) in
  sent (handle_astat_msg g env m tcurr h) = sent h ++
    (if (numcheckfor_ (com d) <=? msg_numhits_ m) && ((tlast_alert_ p =? 0) || again)
     then [SAlert (tmsg_ m) (alertid_ p) (adef_id_ (com d)) (ahdlr_ (com d)) (asubsys_ (com d)) (msg_numhits_ m)
             (u8 (numcheckfor_ (com d))) (if tlast_alert_ p =? 0 then nrepeats_ p else u8 (nrepeats_ p + 1)) (lenact_json_ m)]
     else []).
Proof.
  intros Hi Hd Hm He Ht Hty Hid Hk Hl Hdis Hj Hlen Hact Hconn Hrep. cbn zeta. unfold handle_astat_msg.
  rewrite (proj2 (Z.eqb_neq _ _) Hm), Hi, Hd, He, Ht, Hty, (proj2 (Z.eqb_neq _ _) Hid). cbn [negb andb Z.eqb ALERT_ASTAT_ID].
  unfold upd_astat_id, upd_astat. rewrite Hk, Hl, Z.geb_leb. unfold common_astats_update. cbn [andb].
  assert (forall q h1, sent (rekey l (get_nextcheck_tusec (com d) (e_usec env) 1) q h1) = sent h1) as Hre
    by (intros q h1; unfold rekey; by case_if).
  assert (forall q, sent (send_shyama_rtalert env m q (com d) tcurr h) = sent h ++ [SAlert (tmsg_ m) (alertid_ q) (adef_id_ (com d))
    (ahdlr_ (com d)) (asubsys_ (com d)) (msg_numhits_ m) (u8 (numcheckfor_ (com d))) (nrepeats_ q) (lenact_json_ m)]) as Hsend.
  { intros q. unfold send_shyama_rtalert, new_alerts_disabled. rewrite (proj2 (Z.ltb_ge _ _)), Hj, (proj2 (Z.leb_gt _ _)) by done.
    rewrite (proj2 (Z.eqb_neq _ _) Hact), Hconn. done. }
  destruct (numcheckfor_ (com d) <=? msg_numhits_ m); cbn [andb]; [|rewrite Hre; by rewrite app_nil_r].
  destruct (tlast_alert_ p =? 0) eqn:E0; cbn [orb negb andb]; [rewrite Hre; exact (Hsend (set_fired (tcurr + forceclosesec_ (com d)) p))|].
  destruct (repeataftersec_ (com d) =? 0) eqn:Er.
  - apply Z.eqb_eq in Er. rewrite Er, andb_true_r. change (0 <? 0) with false. cbn [andb].
    case_if; [by rewrite app_nil_r|]. rewrite andb_true_r in *. match goal with H : (_ <? tcurr) = false |- _ => rewrite H end. rewrite Hre. by rewrite app_nil_r.
  - rewrite andb_false_r, (proj2 (Z.ltb_lt 0 _)) by (breflect; lia). cbn [andb]. case_if; rewrite Hre; [exact (Hsend (set_repeats (u8 (nrepeats_ p + 1)) p))|by rewrite app_nil_r].
Qed.

(** ** The definitions that the constructor accepts *)

(** The handler relies on [defs_ok]; the constructor of [ALERTDEF_COMMON] gives it, as
    long as the times of the texts fit in the 32 bits in which they are kept. *)
Lemma parsed_defs_ok iso8601 json_plain queryopt_ok parse_json :
  (forall s, 0 <= iso8601 s < 2 ^ 32) -> defs_ok (parsed_alertdef iso8601 json_plain queryopt_ok parse_json).
Proof.
  intros Hiso m tcurr c Ht H. unfold parsed_alertdef in H. destruct (parse_json m) as [j|]; [|done]. cbn in H.
  destruct (alertdef_common _ _ _ _ _ _) as [[c'|]|] eqn:E; try done. injection H as ->.
  destruct (alertdef_common_wf _ _ _ _ _ _ _ E) as [W1 _ W3 W4 _ _ _ _ W9]. unfold MAX_ALERT_NUM_CHECK_FOR in *.
  assert (0 < tstart_sec_ c < 2 ^ 32) as Hs.
  { destruct W9 as [->|(s & -> & Hn)]; [done|]. specialize (Hiso s). lia. }
  split_and!; [done| |unfold in_width; lia..]. rewrite wrap_id by (unfold in_width; lia). lia.
Qed.

(** ** A concrete run *)
Module AlertExamples.

(** The JSON text of the definition, which asks for two hits. *)
Definition ex_json : jdoc :=
  [(str "alertname", JString (str "svc")); (str "subsys", JString (str "svcstate")); (str "filter", JString (str "{ state = 'Bad' }"));
   (str "numcheckfor", JInt 2); (str "repeatafter", JString (str "15m"))].
Definition ex_parse (m : MALERT_MSG) (t : Z) : option (option ALERTDEF_COMMON) :=
  parsed_alertdef (fun _ => 0) (fun _ => true) (fun _ _ => true) (fun _ => Some ex_json) m t.
Definition ex_def (id : Z) : ALERTDEF_COMMON :=
  AlertdefCommon id ADEFSTATE_ENABLED AHDLR_MADHAVA AKEY_ID 3 true false 2 5 0 60 900 36000 30 1001 (2 ^ 63 - 2).

Lemma ex_defs_ok : defs_ok ex_parse.
Proof. by apply parsed_defs_ok. Qed.

Definition ex_env (t : Z) (st el : option Z) : rt_env := RtEnv t (t * GY_USEC_PER_SEC + 5) true st el t.

(** A definition that asks for two hits; the first hit makes the object, the second
    one fires the alert. *)
Definition ex_start : list rt_event :=
  [EvAdefNew 1000 7 100 ADEFSTATE_ENABLED true false; EvRound 1000 (ex_env 1001 None (Some 1));
   EvRecord 1 true 55 (3, 4) 1002 20; EvRound 1002 (ex_env 1003 (Some 10) None);
   EvRecord 1 true 55 (3, 4) 1004 20; EvRound 1004 (ex_env 1005 None None)].
Definition ex_run (evs : list rt_event) (h : MRT_ALERT_HDLR) : MRT_ALERT_HDLR := run 99 ex_parse evs h.
Definition ex_fired : MRT_ALERT_HDLR := ex_run ex_start (init_hdlr 1000).

(** Then it is not hit any more. *)
Definition ex_rest : list rt_event :=
  [EvRecord 1 true 56 (3, 4) 1010 20; EvRound 1011 (ex_env 1012 (Some 11) None); EvRound 1074 (ex_env 1075 None None)].

Ltac ex_env_ok := split; [cbn; lia|cbn; unfold GY_USEC_PER_SEC; lia|cbn; lia
  |cbn [e_stat ex_env]; intros l [= <-]; (split; [vm_compute; reflexivity|apply Nat.ltb_lt; vm_compute; reflexivity])
  |cbn [e_elem ex_env]; intros e d m q [= <-] Hd; (vm_compute in Hd; discriminate Hd)].
Ltac ex_evs_ok := repeat (split; [try exact I; ex_env_ok|]); exact I.

Lemma ex_start_ok : evs_ok 99 ex_parse 1000 (init_hdlr 1000) ex_start.
Proof. ex_evs_ok. Qed.

Lemma alert_tables_agree_witness : rt_inv ex_fired.
Proof. apply (alert_tables_agree 99 ex_parse 1000 1000 ex_start ex_defs_ok). ex_evs_ok. Defined.

Lemma ex_fired_ok : rt_ok (1005 + 3600) ex_fired.
Proof. exact (run_ok 99 ex_parse ex_start 1000 (init_hdlr 1000) ex_defs_ok (init_ok _ _) ex_start_ok). Qed.
Definition ex_stat : MRT_ALERT_STATS := default (mrt_alert_stats 99 0 (0, 0) 0 (MrtAlertdef (ex_def 7) ∅ 0 false) 0 0 MALERT_PENDING) (stats ex_fired !! 10).
Definition ex_d : MRT_ALERTDEF := default (MrtAlertdef (ex_def 7) ∅ 0 false) (elems ex_fired !! 1).

Lemma unhit_alert_closed_witness : exists t a f,
  SClose 1004 t (alertid_ ex_stat) a f ∈ sent (ex_run ex_rest ex_fired).
Proof.
  apply (unhit_alert_closed 99 ex_parse ex_rest 1005 ex_fired 10 ex_stat ex_d 1074 (ex_env 1075 None None) ex_defs_ok ex_fired_ok).
  - ex_evs_ok.
  - vm_compute. reflexivity.
  - vm_compute. reflexivity.
  - vm_compute. reflexivity.
  - split; [intros _ _; vm_compute; discriminate|]. split; [split; [reflexivity|]|split; [split; [reflexivity|]|exact I]];
      intros m q Hq; vm_compute in Hq; (discriminate Hq || (injection Hq as <- _; vm_compute; discriminate)).
  - reflexivity.
  - vm_compute. discriminate.
  - vm_compute. reflexivity.
Defined.

(** The times at which an object that waits for three hits is hit: two in a row, and
    then three. *)
Definition ex_pending : MRT_ALERT_STATS := mrt_alert_stats 99 5 (0, 0) 1 (MrtAlertdef (ex_def 7) ∅ 8 false) 100 3 MALERT_PENDING.

Lemma first_message_at_streak_witness :
  existsb (fun b => b) (hit_alerts [105; 120; 125] ex_pending) = false /\
  existsb (fun b => b) (hit_alerts [105; 120; 125; 130] ex_pending) = true.
Proof.
  split; (rewrite (first_message_at_streak _ ex_pending); [vm_compute; reflexivity|cbn; vm_compute; split; discriminate
    |vm_compute; split; [discriminate|reflexivity]|reflexivity|reflexivity]).
Defined.

(** A message for the object that was fired, after the repeat interval. *)
Definition ex_msg : MALERT_MSG := MalertMsg (3, 4) 55 2000 true 500 7 100 2 ALERT_ASTAT_ID ADEFSTATE_ENABLED.

Lemma alert_sent_iff_witness : sent (handle_astat_msg 99 (ex_env 2000 None None) ex_msg 2000 ex_fired) =
  sent ex_fired ++ [SAlert 2000 (alertid_ ex_stat) 7 AHDLR_MADHAVA 3 2 2 1 100].
Proof.
  rewrite (alert_sent_iff 99 (ex_env 2000 None None) ex_msg 2000 ex_fired 1 ex_d 10 ex_stat);
    [vm_compute; reflexivity|vm_compute; first [reflexivity | discriminate]..].
Defined.

(** The state that shyama sends with a definition is not used: a definition that
    is disabled there is evaluated here. *)
Theorem new_definition_ignores_state st : rt_step 99 ex_parse (EvRound 1000 (ex_env 1001 None (Some 1)))
    (rt_step 99 ex_parse (EvAdefNew 1000 7 100 st true false) (init_hdlr 1000)) =
  rt_step 99 ex_parse (EvRound 1000 (ex_env 1001 None (Some 1)))
    (rt_step 99 ex_parse (EvAdefNew 1000 7 100 ADEFSTATE_ENABLED true false) (init_hdlr 1000)).
Proof. by destruct st; vm_compute. Qed.
End AlertExamples.
