(* ===== verification/HostConns.v ===== *)
(** * HostConns : the connections of one host (common/gy_host_conn_flist.h).

    [HOST_CONN_FLIST] keeps the connections of a peer, latest first, and for each kind
    of client the node of the connection to use.  Shyama keeps one for each madhava and
    each node server, madhava for each partha and each madhava, partha for its madhava.

    Nodes of the list are known by their addresses, which the allocator chooses; the
    connections that still exist (the weak pointers that have not expired) are the set
    [live]; both and the times are inputs of the operations.  A connection is the number
    of its object, 0 is the null pointer. *)
From stdpp Require Import gmap sets list.
From S2P Require Import Prelude Bytes CommReg.

#[local] Open Scope Z_scope.

Record HOST_CONN_L1 := HostConnL1 {
  weakconn_ : Z;
  pconn_ : Z;
  host_type_ : Z;
  cli_type_ : Z;
}.

(** The constructor keeps the kind within its bounds. *)
Definition host_conn_l1 (weakconn pconn host_type cli_type : Z) : HOST_CONN_L1 :=
  HostConnL1 weakconn pconn host_type (cli_type mod CLI_TYPE_MAX).

Record HOST_CONN_FLIST := HostConnFlist {
  listconn_ : list (Z * HOST_CONN_L1);
  nconns_ : Z;
  last_connect_tusec_ : Z;
  last_disconnect_tusec_ : Z;
  last_check_time_ : Z;
  plast_cli_type_ : gmap Z Z;
}.

Definition empty_flist : HOST_CONN_FLIST := HostConnFlist [] 0 0 0 0 ∅.

Inductive CB_RET_E := CB_OK | CB_DELETE_ELEM | CB_BREAK_LOOP | CB_DELETE_BREAK.

(** ** Operations *)
Fixpoint node_at (a : Z) (l : list (Z * HOST_CONN_L1)) : option HOST_CONN_L1 :=
  match l with
  | [] => None
  | (a', c) :: l' => if a' =? a then Some c else node_at a l'
  end.

(** The first node with the property, and the list without it ([erase_after]). *)
Fixpoint erase_first (P : HOST_CONN_L1 -> bool) (l : list (Z * HOST_CONN_L1)) : option (Z * HOST_CONN_L1 * list (Z * HOST_CONN_L1)) :=
  match l with
  | [] => None
  | (a, c) :: l' => if P c then Some (a, c, l') else
      match erase_first P l' with Some (e, l2) => Some (e, (a, c) :: l2) | None => None end
  end.

(** The pointer to a node that is erased becomes null. *)
Definition unset_last (a : Z) (c : HOST_CONN_L1) (pl : gmap Z Z) : gmap Z Z :=
  if bool_decide (pl !! cli_type_ c = Some a) then delete (cli_type_ c) pl else pl.

(** The kinds without a pointer get the first node of their kind. *)
Definition fill_last (l : list (Z * HOST_CONN_L1)) (pl : gmap Z Z) : gmap Z Z :=
  foldl (fun pl '(a, c) =>
    if (cli_type_ c <? CLI_TYPE_MAX) && bool_decide (pl !! cli_type_ c = None) then <[cli_type_ c := a]> pl else pl) pl l.

Definition expired (live : gset Z) (c : HOST_CONN_L1) : bool := negb (bool_decide (weakconn_ c ∈ live)).
Definition closed (live : gset Z) (c : HOST_CONN_L1) : bool := (pconn_ c =? 0) || expired live c.
Definition is_cli_active (live : gset Z) (c : HOST_CONN_L1) : bool := negb (pconn_ c =? 0) && negb (expired live c).

Definition clear_closed_conns_locked (live : gset Z) (tcurr tusec : Z) (h : HOST_CONN_FLIST) : HOST_CONN_FLIST * Z :=
  match erase_first (closed live) (listconn_ h) with
  | None => (HostConnFlist (listconn_ h) (nconns_ h) (last_connect_tusec_ h) (last_disconnect_tusec_ h) tcurr (plast_cli_type_ h), 0)
  | Some (a, c, l) =>
      let pl := unset_last a c (plast_cli_type_ h) in
      let pl := if bool_decide (plast_cli_type_ h !! cli_type_ c = Some a) then fill_last l pl else pl in
      (HostConnFlist l (u64 (nconns_ h - 1)) (last_connect_tusec_ h) tusec tcurr pl, 1)
  end.

Section Ops.
Context (max_conn_per_host : Z).

(** [None]: the exception. *)
Definition add_conn (live : gset Z) (tcurr tusec addr : Z) (c : HOST_CONN_L1) (h : HOST_CONN_FLIST) : HOST_CONN_FLIST * option Z :=
  let add h :=
    let h := HostConnFlist ((addr, c) :: listconn_ h) (u64 (nconns_ h + 1)) tusec (last_disconnect_tusec_ h) (last_check_time_ h)
               (<[cli_type_ c := addr]> (plast_cli_type_ h)) in
    (h, Some (nconns_ h)) in
  if nconns_ h >? max_conn_per_host then
    let '(h, nfree) := clear_closed_conns_locked live tcurr tusec h in
    if nfree =? 0 then (h, None) else add h
  else add h.
End Ops.

Definition del_conn (pconn tusec : Z) (h : HOST_CONN_FLIST) : HOST_CONN_FLIST * Z :=
  match erase_first (fun c => pconn_ c =? pconn) (listconn_ h) with
  | None => (h, nconns_ h)
  | Some (a, c, l) =>
      let h := HostConnFlist l (u64 (nconns_ h - 1)) (last_connect_tusec_ h) tusec (last_check_time_ h) (unset_last a c (plast_cli_type_ h)) in
      (h, nconns_ h)
  end.

(** [weakconn_.lock()] of the node at an address; there is none if the pointer dangles. *)
Definition lock_node (live : gset Z) (a : Z) (h : HOST_CONN_FLIST) : acc (option Z) :=
  match node_at a (listconn_ h) with
  | None => Oob
  | Some c => Acc (if expired live c then None else Some (weakconn_ c))
  end.

Definition is_cli_type_avail (live : gset Z) (ctype : Z) (h : HOST_CONN_FLIST) : acc (HOST_CONN_FLIST * bool) :=
  let walk :=
    match list_find (fun e => is_true ((cli_type_ e.2 =? ctype) && is_cli_active live e.2)) (listconn_ h) with
    | Some (_, (a, c)) => (HostConnFlist (listconn_ h) (nconns_ h) (last_connect_tusec_ h) (last_disconnect_tusec_ h) (last_check_time_ h)
                             (<[cli_type_ c := a]> (plast_cli_type_ h)), true)
    | None => (h, false)
    end in
  match plast_cli_type_ h !! ctype with
  | None => Acc walk
  | Some a => let! r := lock_node live a h in match r with Some _ => Acc (h, true) | None => Acc walk end
  end.

Definition get_last_conn (live : gset Z) (ctype tcurr tusec : Z) (h : HOST_CONN_FLIST) : acc (HOST_CONN_FLIST * option Z) :=
  let close_chked := tcurr - last_check_time_ h >? 300 in
  let h := if close_chked then (clear_closed_conns_locked live tcurr tusec h).1 else h in
  match plast_cli_type_ h !! ctype with
  | None => Acc (h, None)
  | Some a =>
      let! r := lock_node live a h in
      if close_chked then Acc (h, r) else
      match r with
      | Some w => Acc (h, Some w)
      | None =>
          let h := (clear_closed_conns_locked live tcurr tusec h).1 in
          match plast_cli_type_ h !! ctype with
          | None => Acc (h, None)
          | Some a => let! r := lock_node live a h in Acc (h, r)
          end
      end
  end.

(** [walk_conn_list]: [CB_DELETE_BREAK] does not end the walk. *)
Fixpoint walk_loop {S} (walk : HOST_CONN_L1 -> S -> CB_RET_E * S) (l : list (Z * HOST_CONN_L1)) (n : Z) (pl : gmap Z Z) (s : S)
    : list (Z * HOST_CONN_L1) * Z * gmap Z Z * bool * S * Z :=
  match l with
  | [] => ([], n, pl, false, s, 0)
  | (a, c) :: l' =>
      let '(r, s) := walk c s in
      match r with
      | CB_BREAK_LOOP => (l, n, pl, false, s, 1)
      | CB_DELETE_ELEM | CB_DELETE_BREAK =>
          let '(l2, n2, pl2, _, s2, k) := walk_loop walk l' (u64 (n - 1)) (unset_last a c pl) s in (l2, n2, pl2, true, s2, k + 1)
      | CB_OK =>
          let '(l2, n2, pl2, d, s2, k) := walk_loop walk l' n pl s in ((a, c) :: l2, n2, pl2, d, s2, k + 1)
      end
  end.

Definition walk_conn_list {S} (walk : HOST_CONN_L1 -> S -> CB_RET_E * S) (tusec : Z) (s : S) (h : HOST_CONN_FLIST)
    : HOST_CONN_FLIST * S * Z :=
  let '(l, n, pl, d, s, k) := walk_loop walk (listconn_ h) (nconns_ h) (plast_cli_type_ h) s in
  (HostConnFlist l n (last_connect_tusec_ h) (if d then tusec else last_disconnect_tusec_ h) (last_check_time_ h) pl, s, k).

Definition get_num_conns (h : HOST_CONN_FLIST) : Z := nconns_ h.
Definition get_last_oper_time (h : HOST_CONN_FLIST) : Z := Z.max (last_connect_tusec_ h) (last_disconnect_tusec_ h).

(** [close_all_conns] of the servers: every connection is told to close and leaves the
    list. *)
Definition close_all_conns (live : gset Z) (tusec : Z) (h : HOST_CONN_FLIST) : HOST_CONN_FLIST * list Z :=
  let '(h, closed, _) := walk_conn_list (fun c cl => (CB_DELETE_ELEM, if is_cli_active live c then cl ++ [pconn_ c] else cl)) tusec [] h in
  (h, closed).

(** ** The invariant *)
Definition ptr_ok (l : list (Z * HOST_CONN_L1)) (pl : gmap Z Z) : Prop :=
  forall t a, pl !! t = Some a -> exists c, (a, c) ∈ l /\ cli_type_ c = t.

Record conn_inv (h : HOST_CONN_FLIST) : Prop := ConnInv {
  ci_nodup : NoDup (listconn_ h).*1;
  ci_count : nconns_ h = Z.of_nat (length (listconn_ h));
  ci_ptr : ptr_ok (listconn_ h) (plast_cli_type_ h);
}.

Lemma node_at_elem a l c : NoDup l.*1 -> (a, c) ∈ l -> node_at a l = Some c.
Proof.
  induction l as [|[a' c'] l IH]; cbn; intros Hn Hin; [by apply elem_of_nil in Hin|]. apply list.NoDup_cons in Hn as [Hn1 Hn].
  apply elem_of_cons in Hin as [[= -> ->]|Hin]; [by rewrite Z.eqb_refl|].
  destruct (a' =? a) eqn:E; [|by apply IH]. apply Z.eqb_eq in E as ->. exfalso. apply Hn1. by apply (list_elem_of_fmap_2 fst l (a, c)).
Qed.

Lemma erase_first_spec P l a c l2 : erase_first P l = Some (a, c, l2) ->
  P c = true /\ exists l1 l3, l = l1 ++ (a, c) :: l3 /\ l2 = l1 ++ l3 /\ forallb (fun e => negb (P e.2)) l1 = true.
Proof.
  revert l2. induction l as [|[a' c'] l IH]; cbn; intros l2 H; [done|]. destruct (P c') eqn:E.
  - injection H as -> -> ->. split; [done|]. by exists [], l2.
  - destruct (erase_first P l) as [[[a1 c1] l4]|]; [|done]. injection H as -> -> <-.
    destruct (IH l4 eq_refl) as (? & l1 & l3 & -> & -> & Hf). split; [done|]. exists ((a', c') :: l1), l3. cbn. by rewrite E, Hf.
Qed.

(** Erasing a node and unsetting the pointer to it keeps the invariant. *)
Lemma unlink_inv l1 l3 a c n pl : NoDup (l1 ++ (a, c) :: l3).*1 -> n = Z.of_nat (length (l1 ++ (a, c) :: l3)) -> n < 2 ^ 64 ->
  ptr_ok (l1 ++ (a, c) :: l3) pl -> NoDup (l1 ++ l3).*1 /\ u64 (n - 1) = Z.of_nat (length (l1 ++ l3)) /\ ptr_ok (l1 ++ l3) (unset_last a c pl).
Proof.
  intros Hn -> Hlt Hp.
  assert (forall c', (a, c') ∈ l1 ++ (a, c) :: l3 -> c' = c) as Hc.
  { intros c' Hin%(node_at_elem _ _ _ Hn). rewrite (node_at_elem a _ c Hn) in Hin by set_solver. by injection Hin. }
  rewrite fmap_app, fmap_cons in Hn. rewrite length_app in *. cbn [length] in *.
  split_and!; [|rewrite wrap_id by (unfold in_width; lia); rewrite length_app; lia|].
  - rewrite fmap_app. rewrite <- Permutation_middle in Hn. by apply list.NoDup_cons in Hn as [_ ?].
  - intros t b Hb. assert (b <> a /\ pl !! t = Some b) as [Hne Hb'].
    { unfold unset_last in Hb. case_bool_decide as E; [apply lookup_delete_Some in Hb as [Hne Hb]|]; (split; [|done]); intros ->;
        destruct (Hp t a Hb) as (c' & ->%Hc & <-); done. }
    destruct (Hp t b Hb') as (c' & Hin & Ht). exists c'. split; [|done]. set_solver.
Qed.

Lemma erase_first_inv P l a c l2 pl n : erase_first P l = Some (a, c, l2) -> NoDup l.*1 -> n = Z.of_nat (length l) -> n < 2 ^ 64 ->
  ptr_ok l pl -> NoDup l2.*1 /\ u64 (n - 1) = Z.of_nat (length l2) /\ ptr_ok l2 (unset_last a c pl).
Proof. intros (_ & l1 & l3 & -> & -> & _)%erase_first_spec. apply unlink_inv. Qed.

Lemma fill_last_ok l l0 pl : ptr_ok (l0 ++ l) pl -> ptr_ok (l0 ++ l) (fill_last l pl).
Proof.
  unfold fill_last. revert l0 pl. induction l as [|[a c] l IH]; intros l0 pl Hp; [done|]. cbn [foldl].
  replace (l0 ++ (a, c) :: l) with ((l0 ++ [(a, c)]) ++ l) in * by (by rewrite <- app_assoc). apply IH. case_if; [|done].
  intros t b [[<- <-]|[_ Hb]]%lookup_insert_Some; [|by apply Hp]. exists c. set_solver.
Qed.

Lemma clear_inv live tcurr tusec h : conn_inv h -> nconns_ h < 2 ^ 64 ->
  let r := clear_closed_conns_locked live tcurr tusec h in conn_inv r.1 /\ nconns_ r.1 = nconns_ h - r.2.
Proof.
  intros [H1 H2 H3] Hlt. cbn zeta. unfold clear_closed_conns_locked. destruct (erase_first _ _) as [[[a c] l]|] eqn:E; cbn.
  - destruct (erase_first_inv _ _ _ _ _ _ _ E H1 H2 Hlt H3) as (G1 & G2 & G3).
    assert (1 <= nconns_ h) by (apply erase_first_spec in E as (_ & l1 & l3 & E & _); rewrite H2, E, length_app; cbn; lia).
    split; [|rewrite wrap_id by (unfold in_width; lia); lia]. split; cbn; [done..|].
    case_if; [|done]. by apply (fill_last_ok l []).
  - split; [done|lia].
Qed.

Lemma add_inv mx live tcurr tusec addr c h : conn_inv h -> nconns_ h <= mx + 1 -> mx < 2 ^ 63 ->
  let h' := (add_conn mx live tcurr tusec addr c h).1 in NoDup (listconn_ h').*1 -> conn_inv h' /\ nconns_ h' <= mx + 1.
Proof.
  intros H Hm Hmx. cbn zeta. unfold add_conn.
  assert (forall g, conn_inv g -> nconns_ g <= mx -> NoDup (addr :: (listconn_ g).*1) ->
    conn_inv (HostConnFlist ((addr, c) :: listconn_ g) (u64 (nconns_ g + 1)) tusec (last_disconnect_tusec_ g) (last_check_time_ g)
      (<[cli_type_ c := addr]> (plast_cli_type_ g))) /\ u64 (nconns_ g + 1) <= mx + 1) as Hadd.
  { intros g [G1 G2 G3] Hg Hn. rewrite wrap_id by (unfold in_width; lia). split; [|lia]. split; cbn; [done|lia|].
    intros t a [[<- <-]|[_ Ha]]%lookup_insert_Some; [exists c; set_solver|]. destruct (G3 t a Ha) as (c' & ? & ?). exists c'. set_solver. }
  case_if; breflect.
  - destruct (clear_inv live tcurr tusec h H ltac:(lia)) as [H1 H2]. destruct (clear_closed_conns_locked _ _ _ _) as [g k] eqn:Ek.
    cbn [fst snd] in H1, H2. case_if; breflect; cbn; [intros _; split; [done|lia]|]. intros Hn. apply Hadd; [done| |done]. unfold clear_closed_conns_locked in Ek.
    destruct (erase_first _ _) as [[[? ?] ?]|]; injection Ek as <- <-; [lia|done].
  - cbn. intros Hn. apply Hadd; [done|lia|done].
Qed.

Lemma del_inv pconn tusec h : conn_inv h -> nconns_ h < 2 ^ 64 ->
  let h' := (del_conn pconn tusec h).1 in conn_inv h' /\ nconns_ h' <= nconns_ h.
Proof.
  intros [H1 H2 H3] Hlt. cbn zeta. unfold del_conn. destruct (erase_first _ _) as [[[a c] l]|] eqn:E; cbn; [|split; [done|lia]].
  destruct (erase_first_inv _ _ _ _ _ _ _ E H1 H2 Hlt H3) as (G1 & G2 & G3). split; [done|].
  assert (1 <= nconns_ h) by (apply erase_first_spec in E as (_ & l1 & l3 & E & _); rewrite H2, E, length_app; cbn; lia).
  rewrite wrap_id by (unfold in_width; lia). lia.
Qed.

(** The walk: [l0] has been passed and is kept. *)
Lemma walk_loop_inv {S} (walk : HOST_CONN_L1 -> S -> CB_RET_E * S) l : forall l0 n pl s,
  NoDup (l0 ++ l).*1 -> n = Z.of_nat (length (l0 ++ l)) -> n < 2 ^ 64 -> ptr_ok (l0 ++ l) pl ->
  let '(l2, n2, pl2, _, _, _) := walk_loop walk l n pl s in
  NoDup (l0 ++ l2).*1 /\ n2 = Z.of_nat (length (l0 ++ l2)) /\ n2 <= n /\ ptr_ok (l0 ++ l2) pl2.
Proof.
  induction l as [|[a c] l IH]; intros l0 n pl s Hn Hl Hlt Hp; cbn [walk_loop]; [split_and!; (done || lia)|].
  destruct (walk c s) as [r s1].
  assert (let '(l2, n2, pl2, _, _, _) := walk_loop walk l (u64 (n - 1)) (unset_last a c pl) s1 in
    NoDup (l0 ++ l2).*1 /\ n2 = Z.of_nat (length (l0 ++ l2)) /\ n2 <= n /\ ptr_ok (l0 ++ l2) pl2) as Hdel.
  { destruct (unlink_inv l0 l a c n pl Hn Hl Hlt Hp) as (G1 & G2 & G3).
    assert (u64 (n - 1) <= n) by (rewrite Hl, length_app; cbn [length]; rewrite wrap_id by (rewrite Hl, length_app in Hlt; cbn [length] in Hlt; unfold in_width; lia); lia).
    specialize (IH l0 (u64 (n - 1)) (unset_last a c pl) s1 G1 G2 ltac:(lia) G3).
    destruct (walk_loop _ _ _ _ _) as [[[[[l2 n2] pl2] d] s2] k]. destruct IH as (? & ? & ? & ?). split_and!; (done || lia). }
  destruct r.
  - specialize (IH (l0 ++ [(a, c)]) n pl s1). rewrite <- !app_assoc in IH. specialize (IH Hn Hl Hlt Hp).
    destruct (walk_loop _ _ _ _ _) as [[[[[l2 n2] pl2] d] s2] k]. by rewrite <- !app_assoc in IH.
  - destruct (walk_loop _ _ _ _ _) as [[[[[l2 n2] pl2] d] s2] k]. done.
  - split_and!; (done || lia).
  - destruct (walk_loop _ _ _ _ _) as [[[[[l2 n2] pl2] d] s2] k]. done.
Qed.

Lemma lock_node_ok live h t a : conn_inv h -> plast_cli_type_ h !! t = Some a -> exists c, (a, c) ∈ listconn_ h /\ cli_type_ c = t /\
  lock_node live a h = Acc (if expired live c then None else Some (weakconn_ c)).
Proof.
  intros [H1 _ H3] Ha. destruct (H3 t a Ha) as (c & Hin & Ht). exists c. split_and!; [done..|]. unfold lock_node. by rewrite (node_at_elem _ _ _ H1 Hin).
Qed.

(** What [get_last_conn] returns is a connection of the kind that still exists. *)
Definition conn_of_kind (live : gset Z) (ctype : Z) (h : HOST_CONN_FLIST) (w : Z) : Prop :=
  w ∈ live /\ exists a c, (a, c) ∈ listconn_ h /\ cli_type_ c = ctype /\ weakconn_ c = w.

Lemma locked_of_kind live h a c w : (a, c) ∈ listconn_ h -> (if expired live c then None else Some (weakconn_ c)) = Some w ->
  conn_of_kind live (cli_type_ c) h w.
Proof. unfold expired. case_bool_decide; intros Hin [= <-]. split; [done|by exists a, c]. Qed.

Lemma get_last_conn_ok live ctype tcurr tusec h : conn_inv h -> nconns_ h < 2 ^ 64 ->
  exists h' r, get_last_conn live ctype tcurr tusec h = Acc (h', r) /\ conn_inv h' /\ nconns_ h' <= nconns_ h /\
    (forall w, r = Some w -> conn_of_kind live ctype h' w).
Proof.
  intros H Hlt. unfold get_last_conn.
  assert (forall g, conn_inv g -> nconns_ g < 2 ^ 64 -> let g' := (clear_closed_conns_locked live tcurr tusec g).1 in
    conn_inv g' /\ nconns_ g' <= nconns_ g) as Hclr.
  { intros g Hg Hgl. destruct (clear_inv live tcurr tusec g Hg Hgl) as [G1 G2]. split; [done|]. rewrite G2. unfold clear_closed_conns_locked.
    destruct (erase_first _ _) as [[[? ?] ?]|]; cbn; lia. }
  set (chk := _ >? 300). set (h1 := if chk then _ else h). assert (conn_inv h1 /\ nconns_ h1 <= nconns_ h) as [H1 Hl1]
    by (unfold h1; case_if; [by apply Hclr|split; [done|lia]]).
  assert (forall g, conn_inv g -> nconns_ g <= nconns_ h -> exists h' r, match plast_cli_type_ g !! ctype with None => Acc (g, None)
    | Some a => let! r := lock_node live a g in Acc (g, r) end = Acc (h', r) /\ conn_inv h' /\ nconns_ h' <= nconns_ h /\
    (forall w, r = Some w -> conn_of_kind live ctype h' w)) as Hone.
  { intros g Hg Hgl. destruct (plast_cli_type_ g !! ctype) as [a|] eqn:Ea; [|by exists g, None].
    destruct (lock_node_ok live g ctype a Hg Ea) as (c & Hin & <- & ->). cbn. eexists g, _. split_and!; [done..|].
    intros w. by apply (locked_of_kind live g a). }
  destruct (plast_cli_type_ h1 !! ctype) as [a|] eqn:Ea; [|by exists h1, None].
  destruct (lock_node_ok live h1 ctype a H1 Ea) as (c & Hin & Ht & ->). cbn [acc_bind].
  destruct chk; [eexists h1, _; split_and!; [done..|]; intros w; rewrite <- Ht; by apply (locked_of_kind live h1 a)|].
  destruct (if expired live c then None else _) as [w|] eqn:Ew.
  - exists h1, (Some w). split_and!; [done..|]. intros w' [= <-]. rewrite <- Ht. by apply (locked_of_kind live h1 a).
  - destruct (Hclr h1 H1 ltac:(lia)) as [Hc1 Hc2]. by apply Hone; [|lia].
Qed.

(** The pointer of a kind stays on a connection that is open. *)
Lemma fill_last_keep l pl t a : pl !! t = Some a -> fill_last l pl !! t = Some a.
Proof.
  unfold fill_last. revert pl. induction l as [|[b c] l IH]; intros pl Hp; [done|]. cbn [foldl]. apply IH.
  case_if; [|done]. rewrite lookup_insert_ne; [done|]. intros <-. case_bool_decide as E; [by rewrite E in Hp|].
  by rewrite andb_false_r in *.
Qed.

Lemma clear_keeps_last live tcurr tusec h t a c : conn_inv h -> plast_cli_type_ h !! t = Some a ->
  (a, c) ∈ listconn_ h -> is_cli_active live c = true ->
  let h' := (clear_closed_conns_locked live tcurr tusec h).1 in plast_cli_type_ h' !! t = Some a /\ (a, c) ∈ listconn_ h'.
Proof.
  intros [H1 _ _] Ha Hin Hc. cbn zeta. unfold clear_closed_conns_locked.
  destruct (erase_first _ _) as [[[b d] l]|] eqn:E; [|done]. cbn [fst plast_cli_type_ listconn_].
  apply erase_first_spec in E as (Hd & l1 & l3 & El & -> & _).
  assert (Hne : (a, c) <> (b, d)).
  { intros [= -> ->]. unfold closed, is_cli_active in *. destruct (pconn_ d =? 0), (expired live d); done. }
  assert (Hab : a <> b).
  { intros ->. apply Hne. apply (node_at_elem b _ c) in Hin as Hn; [|done]. rewrite (node_at_elem b _ d) in Hn; [congruence|done|].
    rewrite El. set_solver. }
  split; [|rewrite El in Hin; set_solver].
  assert (Hu : unset_last b d (plast_cli_type_ h) !! t = Some a).
  { unfold unset_last. case_bool_decide as Eb; [|done]. rewrite lookup_delete_ne; [done|]. intros <-. congruence. }
  case_if; [by apply fill_last_keep|done].
Qed.

(** A pointer to an open connection gives that connection. *)
Lemma get_last_conn_found live ctype tcurr tusec h a c : conn_inv h -> plast_cli_type_ h !! ctype = Some a ->
  (a, c) ∈ listconn_ h -> is_cli_active live c = true ->
  exists h', get_last_conn live ctype tcurr tusec h = Acc (h', Some (weakconn_ c)).
Proof.
  intros H Ha Hin Hc. unfold get_last_conn.
  assert (Hlock : forall g, NoDup (listconn_ g).*1 -> (a, c) ∈ listconn_ g -> lock_node live a g = Acc (Some (weakconn_ c))).
  { intros g Hn Hg. unfold lock_node. rewrite (node_at_elem _ _ _ Hn Hg). unfold is_cli_active in Hc.
    by destruct (expired live c), (pconn_ c =? 0). }
  destruct (_ >? 300).
  - destruct (clear_keeps_last live tcurr tusec h ctype a c H Ha Hin Hc) as [Ha' Hin']. rewrite Ha', Hlock; [by eexists|..|done].
    unfold clear_closed_conns_locked. destruct (erase_first _ _) as [[[b d] l]|] eqn:E; [|apply H].
    apply erase_first_spec in E as (_ & l1 & l3 & El & -> & _). destruct H as [H _ _]. rewrite El, fmap_app, fmap_cons in H.
    cbn [fst listconn_]. rewrite fmap_app. rewrite <- Permutation_middle in H. by apply list.NoDup_cons in H as [_ ?].
  - rewrite Ha, Hlock; [by eexists|apply H|done].
Qed.

Lemma avail_ok live ctype h : conn_inv h -> exists h' b, is_cli_type_avail live ctype h = Acc (h', b) /\ conn_inv h' /\ nconns_ h' = nconns_ h /\
  (b = true <-> exists a c, (a, c) ∈ listconn_ h /\ cli_type_ c = ctype /\ expired live c = false /\ (pconn_ c <> 0 \/ plast_cli_type_ h !! ctype = Some a)).
Proof.
  intros H. unfold is_cli_type_avail.
  assert (exists h' b, (match list_find (fun e => is_true ((cli_type_ e.2 =? ctype) && is_cli_active live e.2)) (listconn_ h) with
    | Some (_, (a, c)) => (HostConnFlist (listconn_ h) (nconns_ h) (last_connect_tusec_ h) (last_disconnect_tusec_ h) (last_check_time_ h)
                             (<[cli_type_ c := a]> (plast_cli_type_ h)), true)
    | None => (h, false) end) = (h', b) /\ conn_inv h' /\ nconns_ h' = nconns_ h /\
    (b = true <-> exists a c, (a, c) ∈ listconn_ h /\ cli_type_ c = ctype /\ expired live c = false /\ pconn_ c <> 0)) as Hw.
  { destruct (list_find _ _) as [[i [a c]]|] eqn:E.
    - apply list_find_Some in E as (E1 & E2 & _). cbn [snd] in E2. unfold is_cli_active in E2.
      apply list_elem_of_lookup_2 in E1. eexists _, true. split_and!; [done| |done|].
      + destruct H as [H1 H2 H3]. split; cbn; [done..|]. intros t b [[<- <-]|[_ Hb]]%lookup_insert_Some; [by exists c|by apply H3].
      + split; [|done]. intros _. exists a, c. destruct (expired live c), (cli_type_ c =? ctype) eqn:E3, (pconn_ c =? 0) eqn:E4; try done. breflect. done.
    - exists h, false. split_and!; [done..|]. split; [done|]. intros (a & c & Hin & Ht & He & Hp). exfalso.
      apply list_find_None in E. rewrite list.Forall_forall in E. apply (E _ Hin). cbn. unfold is_cli_active.
      rewrite He, (proj2 (Z.eqb_eq _ _) Ht), (proj2 (Z.eqb_neq _ _) Hp). done. }
  destruct Hw as (h' & b & Hw & H1 & H2 & H3). destruct (plast_cli_type_ h !! ctype) as [a|] eqn:Ea.
  - destruct (lock_node_ok live h ctype a H Ea) as (c & Hin & Ht & ->). cbn [acc_bind]. destruct (expired live c) eqn:Ee.
    + exists h', b. rewrite Hw. split_and!; [done..|]. rewrite H3. split; intros (a' & c' & ? & ? & He & Hp); exists a', c'; [by auto|].
      split_and!; try done. destruct Hp as [|[= ->]]; [done|]. exfalso. destruct H as [H _ _].
      assert (Some c' = Some c) as [= ->] by (rewrite <- (node_at_elem a' _ c' H), <- (node_at_elem a' _ c H); done). congruence.
    + exists h, true. split_and!; [done..|]. split; [|done]. intros _. exists a, c. by auto.
  - exists h', b. rewrite Hw. split_and!; [done..|]. rewrite H3. split; intros (a' & c' & ? & ? & He & Hp); exists a', c'; [by auto|].
    split_and!; try done. by destruct Hp.
Qed.

(** ** Reachable lists *)
Inductive flist_step (mx : Z) (h : HOST_CONN_FLIST) : HOST_CONN_FLIST -> Prop :=
  | StAdd live tcurr tusec addr w p ht ct :
      let h' := (add_conn mx live tcurr tusec addr (host_conn_l1 w p ht ct) h).1 in NoDup (listconn_ h').*1 -> flist_step mx h h'
  | StDel pconn tusec : flist_step mx h (del_conn pconn tusec h).1
  | StClear live tcurr tusec : flist_step mx h (clear_closed_conns_locked live tcurr tusec h).1
  | StAvail live ctype h' b : is_cli_type_avail live ctype h = Acc (h', b) -> flist_step mx h h'
  | StLast live ctype tcurr tusec h' r : get_last_conn live ctype tcurr tusec h = Acc (h', r) -> flist_step mx h h'
  | StWalk S (walk : HOST_CONN_L1 -> S -> CB_RET_E * S) tusec s : flist_step mx h (walk_conn_list walk tusec s h).1.1.

Lemma flist_step_inv mx h h' : mx < 2 ^ 63 -> flist_step mx h h' -> conn_inv h -> nconns_ h <= mx + 1 -> conn_inv h' /\ nconns_ h' <= mx + 1.
Proof.
  intros Hmx Hs H Hm. assert (nconns_ h < 2 ^ 64) as Hlt by lia. destruct Hs.
  - by apply add_inv.
  - destruct (del_inv pconn tusec h H Hlt). split; [done|lia].
  - destruct (clear_inv live tcurr tusec h H Hlt) as [H1 H2]. split; [done|]. rewrite H2. unfold clear_closed_conns_locked.
    destruct (erase_first _ _) as [[[? ?] ?]|]; cbn; lia.
  - destruct (avail_ok live ctype h H) as (h1 & b1 & E & H1 & H2 & _). rewrite E in H0. injection H0 as -> ->. split; [done|lia].
  - destruct (get_last_conn_ok live ctype tcurr tusec h H Hlt) as (h1 & r1 & E & H1 & H2 & _). rewrite E in H0. injection H0 as -> ->. split; [done|lia].
  - destruct H as [H1 H2 H3]. pose proof (walk_loop_inv walk (listconn_ h) [] (nconns_ h) (plast_cli_type_ h) s H1 H2 Hlt H3) as Hw.
    unfold walk_conn_list. destruct (walk_loop _ _ _ _ _) as [[[[[l2 n2] pl2] d] s2] k]. cbn in *. destruct Hw as (? & ? & ? & ?). split; [done|lia].
Qed.

Lemma reachable_inv mx h : 0 <= mx < 2 ^ 63 -> rtc (flist_step mx) empty_flist h -> conn_inv h /\ nconns_ h <= mx + 1.
Proof.
  intros Hmx Hr. assert (conn_inv empty_flist /\ nconns_ empty_flist <= mx + 1) as H0.
  { split; [|cbn; lia]. split; cbn; [constructor|done|]. intros t a. by rewrite lookup_empty. }
  revert H0. induction Hr as [g|g g' h Hs _ IH]; [done|]. intros [Hg Hm]. apply IH. by eapply flist_step_inv; [lia|..].
Qed.

(** C35 : in every state a list of connections reaches, its count is the number of
    connections, at most one more than the limit, and the pointer kept for a kind of client
    is null or points to a node of that kind, so that looking for a connection of a kind
    never follows a dangling pointer.  When the pointer of the kind is on an open connection,
    that connection is what is found, also when closed ones are cleared first; what is found
    is always a connection of the kind that still exists; with a null pointer, and no clearing
    due, none is found, although the list may hold one.  The test for a connection of a kind
    is exact. *)
Theorem host_conns_safe mx h : 0 <= mx < 2 ^ 63 -> rtc (flist_step mx) empty_flist h ->
  nconns_ h = Z.of_nat (length (listconn_ h)) /\ nconns_ h <= mx + 1 /\
  forall live ctype tcurr tusec,
    (exists h' r, get_last_conn live ctype tcurr tusec h = Acc (h', r) /\
       (forall a c, plast_cli_type_ h !! ctype = Some a -> (a, c) ∈ listconn_ h -> is_cli_active live c = true ->
          r = Some (weakconn_ c)) /\
       (forall w, r = Some w -> conn_of_kind live ctype h' w) /\
       (plast_cli_type_ h !! ctype = None -> tcurr - last_check_time_ h <= 300 -> r = None)) /\
    (exists h' b, is_cli_type_avail live ctype h = Acc (h', b) /\
       (b = true <-> exists a c, (a, c) ∈ listconn_ h /\ cli_type_ c = ctype /\ expired live c = false /\
          (pconn_ c <> 0 \/ plast_cli_type_ h !! ctype = Some a))).
Proof.
  intros Hmx Hr. destruct (reachable_inv mx h Hmx Hr) as [H Hm]. split_and!; [apply H|done|]. intros live ctype tcurr tusec. split.
  - destruct (get_last_conn_ok live ctype tcurr tusec h H ltac:(lia)) as (h' & r & E & _ & _ & Hw). exists h', r.
    split_and!; [done| |done|].
    + intros a c Ha Hin Hc. destruct (get_last_conn_found live ctype tcurr tusec h a c H Ha Hin Hc) as [g Eg]. congruence.
    + intros Ha Ht. unfold get_last_conn in E. replace (_ >? 300) with false in E by lia. rewrite Ha in E. congruence.
  - destruct (avail_ok live ctype h H) as (h' & b & ? & _ & _ & ?). by exists h', b.
Qed.

Module HostConnExamples.
(** Two connections of the same kind; the later one is closed. *)
Definition ex_h1 : HOST_CONN_FLIST := (add_conn 64 {[ 7 ]} 100 100 1000 (host_conn_l1 7 7 2 3) empty_flist).1.
Definition ex_h2 : HOST_CONN_FLIST := (add_conn 64 {[ 7; 8 ]} 101 101 1001 (host_conn_l1 8 8 2 3) ex_h1).1.
Definition ex_h3 : HOST_CONN_FLIST := (del_conn 8 102 ex_h2).1.

Lemma host_conns_safe_witness : nconns_ ex_h3 = 1 /\ exists h' r, get_last_conn {[ 7; 8 ]} 3 103 103 ex_h2 = Acc (h', r) /\
  r = Some 8.
Proof.
  assert (rtc (flist_step 64) empty_flist ex_h2) as H2.
  { eapply rtc_l; [apply (StAdd 64 empty_flist {[ 7 ]} 100 100 1000 7 7 2 3); apply NoDup_singleton|].
    apply rtc_once, (StAdd 64 ex_h1 {[ 7; 8 ]} 101 101 1001 8 8 2 3). change (NoDup [1001; 1000]). apply list.NoDup_cons. split; [set_solver|apply NoDup_singleton]. }
  split; [reflexivity|]. destruct (host_conns_safe 64 ex_h2 ltac:(lia) H2) as (_ & _ & H).
  destruct (H {[ 7; 8 ]} 3 103 103) as [(h' & r & E & Hf & _) _]. exists h', r. split; [done|].
  apply (Hf 1001 (host_conn_l1 8 8 2 3)); [by vm_compute|by apply elem_of_cons; left|by vm_compute].
Defined.

(** [get_last_conn] does not look at the list when the pointer of a kind is null,
    and [del_conn] leaves it null: after the later of two connections of a kind is
    closed, no connection is found although the other one still exists, which
    [is_cli_type_avail] reports. *)
Theorem last_conn_lost : (let! r := get_last_conn {[ 7 ]} 3 103 103 ex_h3 in Acc r.2) = Acc None /\
  (let! r := is_cli_type_avail {[ 7 ]} 3 ex_h3 in Acc r.2) = Acc true.
Proof. split; vm_compute; reflexivity. Qed.
End HostConnExamples.
