(* ===== verification/Placement.v ===== *)
(** * Placement : the hosts and the madhavas known to shyama (server/gy_shconnhdlr.cc).

    A partha registers with shyama, which gives it a madhava ([assign_partha_madhava],
    [handle_misc_partha_reg]); a madhava registers with shyama
    ([handle_misc_madhava_reg]) and tells it how many hosts it has, which hosts it has
    had before and which it has lost.  A periodic pass removes the madhavas that are
    gone ([sync_partha_madhava_node_stats]) and the hosts that are gone
    ([cleanup_db_partha_entries]).

    [MADHAVA_INFO] objects are shared: the table of the madhavas and [curr_madhava_]
    hold them, the hosts point to them weakly.  An object is a number that is not used
    again, [mads] has the objects that exist; a weak pointer has expired when its object
    is not there.  The order of a walk over a hash table, the clocks, the connections
    that exist and whether the queue of a thread takes a message are inputs ([env]).
    Text is a list of characters without the final 0; the arrays a name is copied
    between have the same sizes.  Each operation is one step. *)
From stdpp Require Import gmap sets list.
From S2P Require Import Prelude Bytes HostConns.

#[local] Open Scope Z_scope.

Definition ERR_SUCCESS : Z := 0.
Definition ERR_ID_REUSED : Z := 111.
Definition ERR_MAX_LIMIT : Z := 116.
Definition ERR_MADHAVA_UNAVAIL : Z := 117.
Definition ERR_BLOCKING_ERROR : Z := 503.
Definition HOST_MADHAVA : Z := 2.
Definition CLI_TYPE_RESP_REQ : Z := 3.
Definition MAX_MADHAVA_PER_SHYAMA : Z := 1024.
Definition MAX_PERSISTENT_CONNS_PER_HOST : Z := 64.
Definition USEC_PER_SEC : Z := 1000000.
Definition MAX_HOST_DISCONNECT_RAM_USEC : Z := 24 * 3600 * USEC_PER_SEC.
Definition CONN_FLAGS_RESET_STATS : Z := 1.
Definition CONN_FLAGS_SEND_PARTHAS : Z := 2.

Abbreviation text := (list Z).
Abbreviation machine_id := (Z * Z)%type.

(** ** State *)
Record MADHAVA_INFO := MadhavaInfo {
  madhava_id_ : Z;
  listener_port_ : text * Z;
  m_region_name_ : text;
  m_zone_name_ : text;
  madhava_name_ : text;
  last_reg_tusec_ : Z;
  last_par_assign_tusec_ : Z;
  last_status_csec_ : Z;
  npartha_nodes_ : Z;
  max_partha_nodes_ : Z;
  curr_par_adds_ : Z;
  last_par_adds_ : Z;
  prev_instance_ : text * Z;
  tignore_till_ : Z;
  conn_list : HOST_CONN_FLIST;
}.

Record PARTHA_INFO := ParthaInfo {
  hostname_ : text;
  cluster_name_ : text;
  region_name_ : text;
  zone_name_ : text;
  last_register_tusec_ : Z;
  partha_ident_key_ : Z;
  new_registered_ : bool;
  tdb_updated_ : Z;
  tinit_ : Z;
  madhava_weak_ : Z;
  p_madhava_id_ : Z;
}.

Record ParthaDbStat := ParthaDb {
  db_cluster_name_ : text;
  db_region_name_ : text;
  db_zone_name_ : text;
  db_madhava_id_ : Z;
  tdel_after_ : Z;
  tping_ : Z;
}.

Record SHSTATE := ShState {
  mads : gmap Z MADHAVA_INFO;
  next_obj : Z;
  madhava_tbl_ : gmap Z Z;
  partha_tbl_ : gmap machine_id PARTHA_INFO;
  pardbmap_ : gmap machine_id ParthaDbStat;
  curr_madhava_ : option Z;
  curr_madhava_id_ : Z;
  nmadhava_partha_ : Z;
  last_new_madhava_cusec_ : Z;
  last_mn_db_upd_tusec_ : Z;
}.

(** What an operation reads from outside. *)
Record env := Env {
  e_usec_time : Z;
  e_usec_clock : Z;
  e_order : list Z;
  e_hosts : list machine_id;
  e_live : gset Z;
  e_mad_l1 : bool;
  e_par_l1 : bool;
}.
Definition e_time (e : env) : Z := e_usec_time e / USEC_PER_SEC.
Definition e_sec_clock (e : env) : Z := e_usec_clock e / USEC_PER_SEC.

Definition set_mads (t : gmap Z MADHAVA_INFO) (st : SHSTATE) : SHSTATE :=
  ShState t (next_obj st) (madhava_tbl_ st) (partha_tbl_ st) (pardbmap_ st) (curr_madhava_ st) (curr_madhava_id_ st) (nmadhava_partha_ st)
    (last_new_madhava_cusec_ st) (last_mn_db_upd_tusec_ st).
Definition set_hosts (pt : gmap machine_id PARTHA_INFO) (pd : gmap machine_id ParthaDbStat) (st : SHSTATE) : SHSTATE :=
  ShState (mads st) (next_obj st) (madhava_tbl_ st) pt pd (curr_madhava_ st) (curr_madhava_id_ st) (nmadhava_partha_ st)
    (last_new_madhava_cusec_ st) (last_mn_db_upd_tusec_ st).
Definition set_curr (o : option Z) (id : Z) (st : SHSTATE) : SHSTATE :=
  ShState (mads st) (next_obj st) (madhava_tbl_ st) (partha_tbl_ st) (pardbmap_ st) o id (nmadhava_partha_ st)
    (last_new_madhava_cusec_ st) (last_mn_db_upd_tusec_ st).
Definition set_nmadhava (n : Z) (st : SHSTATE) : SHSTATE :=
  ShState (mads st) (next_obj st) (madhava_tbl_ st) (partha_tbl_ st) (pardbmap_ st) (curr_madhava_ st) (curr_madhava_id_ st) n
    (last_new_madhava_cusec_ st) (last_mn_db_upd_tusec_ st).
Definition set_tbl (t : gmap Z MADHAVA_INFO) (n : Z) (tbl : gmap Z Z) (tnew : Z) (st : SHSTATE) : SHSTATE :=
  ShState t n tbl (partha_tbl_ st) (pardbmap_ st) (curr_madhava_ st) (curr_madhava_id_ st) (nmadhava_partha_ st) tnew (last_mn_db_upd_tusec_ st).

Definition set_adds (curr last : Z) (m : MADHAVA_INFO) : MADHAVA_INFO :=
  MadhavaInfo (madhava_id_ m) (listener_port_ m) (m_region_name_ m) (m_zone_name_ m) (madhava_name_ m) (last_reg_tusec_ m)
    (last_par_assign_tusec_ m) (last_status_csec_ m) (npartha_nodes_ m) (max_partha_nodes_ m) curr last (prev_instance_ m) (tignore_till_ m) (conn_list m).
Definition set_status (csec npartha : Z) (m : MADHAVA_INFO) : MADHAVA_INFO :=
  MadhavaInfo (madhava_id_ m) (listener_port_ m) (m_region_name_ m) (m_zone_name_ m) (madhava_name_ m) (last_reg_tusec_ m)
    (last_par_assign_tusec_ m) csec npartha (max_partha_nodes_ m) (curr_par_adds_ m) (last_par_adds_ m) (prev_instance_ m) (tignore_till_ m) (conn_list m).
Definition set_conns (tassign : Z) (c : HOST_CONN_FLIST) (m : MADHAVA_INFO) : MADHAVA_INFO :=
  MadhavaInfo (madhava_id_ m) (listener_port_ m) (m_region_name_ m) (m_zone_name_ m) (madhava_name_ m) (last_reg_tusec_ m)
    tassign (last_status_csec_ m) (npartha_nodes_ m) (max_partha_nodes_ m) (curr_par_adds_ m) (last_par_adds_ m) (prev_instance_ m) (tignore_till_ m) c.
Definition set_instance (dp prev : text * Z) (till : Z) (c : HOST_CONN_FLIST) (m : MADHAVA_INFO) : MADHAVA_INFO :=
  MadhavaInfo (madhava_id_ m) dp (m_region_name_ m) (m_zone_name_ m) (madhava_name_ m) (last_reg_tusec_ m)
    (last_par_assign_tusec_ m) (last_status_csec_ m) (npartha_nodes_ m) (max_partha_nodes_ m) (curr_par_adds_ m) (last_par_adds_ m) prev till c.

(** ** The choice of a madhava *)

(** The request of a partha. *)
Record PS_REGISTER_REQ := PsRegisterReq {
  rq_machid : machine_id;
  rq_hostname : text;
  rq_cluster : text;
  rq_region : text;
  rq_zone : text;
  last_mdisconn_sec_ : Z;
  curr_sec_ : Z;
  last_madhava_id_ : Z;
}.

(** What the scan changes: the objects, the count of madhavas with hosts, and the
    numbers of madhavas passed over. *)
Record scan := Scan {
  s_mads : gmap Z MADHAVA_INFO;
  s_nmad : Z;
  regionerr : Z;
  zoneerr : Z;
}.

Definition check_madhava (q : PS_REGISTER_REQ) (min_csec ign_madid : Z) (ign_zone ign_region : bool) (o : Z) (s : scan) : scan * bool :=
  match s_mads s !! o with
  | None => (s, false)
  | Some m =>
      if negb (negb (madhava_id_ m =? ign_madid) && (last_status_csec_ m >? min_csec)) then (s, false) else
      let named := bool_decide (rq_region q <> []) && bool_decide (rq_zone q <> []) && negb ign_region in
      if named && bool_decide (rq_region q <> m_region_name_ m)
      then (Scan (s_mads s) (s_nmad s) (regionerr s + 1) (zoneerr s), false) else
      if named && negb ign_zone && bool_decide (rq_zone q <> m_zone_name_ m)
      then (Scan (s_mads s) (s_nmad s) (regionerr s) (zoneerr s + 1), false) else
      let npar := npartha_nodes_ m in
      if u32 (npar + 1) <? max_partha_nodes_ m then
        let nc := u32 (curr_par_adds_ m + 1) in
        let nl := last_par_adds_ m in
        let s := Scan (<[o := set_adds nc nl m]> (s_mads s)) (s_nmad s) (regionerr s) (zoneerr s) in
        if u32 (npar + nc + nl) <? max_partha_nodes_ m
        then (Scan (s_mads s) (if npar =? 0 then u64 (s_nmad s + 1) else s_nmad s) (regionerr s) (zoneerr s), true)
        else (s, false)
      else (s, false)
  end.

(** The walk over the table, until a madhava is found. *)
Fixpoint walk_mads (tbl : gmap Z Z) (check : Z -> scan -> scan * bool) (order : list Z) (s : scan) : scan * option Z :=
  match order with
  | [] => (s, None)
  | id :: order' =>
      match tbl !! id with
      | None => walk_mads tbl check order' s
      | Some o => let '(s, b) := check o s in if b then (s, Some o) else walk_mads tbl check order' s
      end
  end.

Definition min_status_csec (e : env) : Z := u64 (Z.max (e_sec_clock e - 600) 60).

(** The walks of [assign_partha_madhava] from [next2] on. *)
Definition walk_all (e : env) (tbl : gmap Z Z) (q : PS_REGISTER_REQ) (ign_madid : Z) (s : scan) : scan * option Z :=
  let walk igm iz ir s := walk_mads tbl (check_madhava q (min_status_csec e) igm iz ir) (e_order e) s in
  let '(s, r) := walk ign_madid false false s in
  if r is Some _ then (s, r) else
  let iz := zoneerr s >? 0 in
  let '(s, r) := if iz then walk ign_madid true false s else (s, None) in
  if r is Some _ then (s, r) else
  let ir := regionerr s >? 0 in
  let '(s, r) := if ir then walk ign_madid iz true s else (s, None) in
  if r is Some _ then (s, r) else
  if negb (ign_madid =? 0) then walk 0 iz ir s else (s, None).

Definition assign_partha_madhava (e : env) (q : PS_REGISTER_REQ) (ign_madid : Z) (st : SHSTATE) : SHSTATE * option Z :=
  let check := check_madhava q (min_status_csec e) ign_madid false false in
  let done s st := set_nmadhava (s_nmad s) (set_mads (s_mads s) st) in
  let s := Scan (mads st) (nmadhava_partha_ st) 0 0 in
  let dbstat := pardbmap_ st !! rq_machid q in
  let st := set_hosts (partha_tbl_ st) (delete (rq_machid q) (pardbmap_ st)) st in
  let '(s, r) :=
    match dbstat with
    | Some d =>
        if (db_madhava_id_ d =? ign_madid) || bool_decide (rq_region q <> db_region_name_ d) || bool_decide (rq_zone q <> db_zone_name_ d)
        then (s, None) else
        match madhava_tbl_ st !! db_madhava_id_ d with
        | Some o => let '(s, b) := check o s in (s, if b then Some o else None)
        | None => (s, None)
        end
    | None => (s, None)
    end in
  if r is Some _ then (done s st, r) else
  let '(s, r) :=
    match curr_madhava_ st with
    | Some o => let '(s, b) := check o s in (s, if b then Some o else None)
    | None => (s, None)
    end in
  if r is Some _ then (done s st, r) else
  let '(s, r) := walk_all e (madhava_tbl_ st) q ign_madid s in
  match r with
  | None => (done s st, None)
  | Some o => (set_curr (Some o) (default 0 (madhava_id_ <$> (s_mads s !! o))) (done s st), Some o)
  end.

(** ** Registration of a host *)
Record PS_REGISTER_RESP := PsRegisterResp {
  error_code_ : Z;
  rs_ident_key : Z;
  madhava_expiry_sec_ : Z;
  rs_madhava_id : Z;
  rs_madhava_port : Z;
  rs_madhava_hostname : text;
  rs_madhava_name : text;
}.

(** What shyama sends: the key of a host to the connection of its madhava, the response
    to the host, and the order to close a connection. *)
Inductive sh_msg :=
  | SM_PARTHA_IDENT (conn : Z) (machid : machine_id) (key texpiry_sec : Z) (is_new_host : bool) (hostname : text)
  | PS_RESPONSE (r : PS_REGISTER_RESP)
  | MS_RESPONSE (error flags nmadhava_reg nmadhava_partha : Z)
  | CLOSE_CONN (conn : Z).

Section Registration.
Context (gy_cityhash64 : list Z -> Z) (min_madhava_ : Z).

(** The bytes of a buffer that holds a string, padded with 0. *)
Definition padded (n : nat) (s : text) : list Z := take (n - 1) s ++ replicate (n - length (take (n - 1) s)) 0.
Definition le64 (z : Z) : list Z := (fun i => u8 (Z.shiftr z (8 * Z.of_nat i))) <$> seq 0 8.
Definition ident_key (p : PARTHA_INFO) (tusec : Z) : Z :=
  gy_cityhash64 (le64 tusec ++ padded 64 (cluster_name_ p) ++ padded 256 (hostname_ p)).
Definition set_ident_key (tusec : Z) (p : PARTHA_INFO) : PARTHA_INFO :=
  ParthaInfo (hostname_ p) (cluster_name_ p) (region_name_ p) (zone_name_ p) tusec (ident_key p tusec) (new_registered_ p)
    (tdb_updated_ p) (tinit_ p) (madhava_weak_ p) (p_madhava_id_ p).
Definition upd_pinfo (q : PS_REGISTER_REQ) (p : PARTHA_INFO) : PARTHA_INFO :=
  ParthaInfo (rq_hostname q) (rq_cluster q) (rq_region q) (rq_zone q) (last_register_tusec_ p) (partha_ident_key_ p) (new_registered_ p)
    (tdb_updated_ p) (tinit_ p) (madhava_weak_ p) (p_madhava_id_ p).
Definition set_madhava (o id : Z) (p : PARTHA_INFO) : PARTHA_INFO :=
  ParthaInfo (hostname_ p) (cluster_name_ p) (region_name_ p) (zone_name_ p) (last_register_tusec_ p) (partha_ident_key_ p) (new_registered_ p)
    (tdb_updated_ p) (tinit_ p) o id.
Definition new_pinfo (t : Z) : PARTHA_INFO := ParthaInfo [] [] [] [] 0 0 true 0 t 0 0.

Definition error_resp (code : Z) : PS_REGISTER_RESP := PsRegisterResp code 0 0 0 0 [] [].
Definition set_error (code : Z) (r : PS_REGISTER_RESP) : PS_REGISTER_RESP :=
  PsRegisterResp code (rs_ident_key r) (madhava_expiry_sec_ r) (rs_madhava_id r) (rs_madhava_port r) (rs_madhava_hostname r) (rs_madhava_name r).

(** [send_par]: nothing is sent when the queue of the thread is full. *)
Definition send_par (e : env) (r : PS_REGISTER_RESP) : list sh_msg := if e_par_l1 e then [PS_RESPONSE r] else [].

(** [send_madhava_key], and then the response to the host. *)
Definition send_madhava_key (e : env) (q : PS_REGISTER_REQ) (o : Z) (is_new : bool) (r : PS_REGISTER_RESP) (st : SHSTATE)
    : acc (SHSTATE * list sh_msg) :=
  match mads st !! o with
  | None => Acc (st, send_par e r)
  | Some m =>
      let! '(conns, shr) := get_last_conn (e_live e) CLI_TYPE_RESP_REQ (e_time e) (e_usec_time e) (conn_list m) in
      match shr with
      | None => Acc (set_mads (<[o := set_conns (last_par_assign_tusec_ m) conns m]> (mads st)) st, send_par e (set_error ERR_MADHAVA_UNAVAIL r))
      | Some conn =>
          let st := set_mads (<[o := set_conns (e_usec_time e) conns m]> (mads st)) st in
          let ident := SM_PARTHA_IDENT conn (rq_machid q) (rs_ident_key r) (e_time e + 300) is_new (rq_hostname q) in
          (* the message is in the send list of the connection before its thread is told *)
          Acc (st, ident :: send_par e (if e_mad_l1 e then r else set_error ERR_BLOCKING_ERROR r))
      end
  end.

(** Whether the host has been trying the madhava it was given for half an hour. *)
Definition not_accepted (e : env) (q : PS_REGISTER_REQ) (p : PARTHA_INFO) (m : MADHAVA_INFO) : bool :=
  (last_mdisconn_sec_ q >? 0) && (curr_sec_ q >? last_mdisconn_sec_ q + 1800) && (madhava_id_ m =? last_madhava_id_ q) &&
  (last_register_tusec_ p <? u64 (e_usec_time e - 5 * 60 * USEC_PER_SEC)) && (last_register_tusec_ p >? 0).

Definition handle_misc_partha_reg (e : env) (q : PS_REGISTER_REQ) (st : SHSTATE) : acc (SHSTATE * list sh_msg) :=
  let machid := rq_machid q in
  (* [parlam]: the host is known and its madhava is there, or it is deleted *)
  let '(found, ign_madid, errbyreassign) :=
    match partha_tbl_ st !! machid with
    | None => (None, 0, false)
    | Some p =>
        match mads st !! madhava_weak_ p with
        | None => (None, last_madhava_id_ q, true)
        | Some m => if not_accepted e q p m then (None, last_madhava_id_ q, true) else (Some (p, m), 0, false)
        end
    end in
  match found with
  | Some (p, m) =>
      let p := set_ident_key (e_usec_time e) (upd_pinfo q p) in
      let r := PsRegisterResp ERR_SUCCESS (partha_ident_key_ p) (e_time e + 300 - 5) (madhava_id_ m) (listener_port_ m).2 (listener_port_ m).1
                 (madhava_name_ m) in
      send_madhava_key e q (madhava_weak_ p) false r (set_hosts (<[machid := p]> (partha_tbl_ st)) (pardbmap_ st) st)
  | None =>
      let st := if errbyreassign : bool then set_hosts (delete machid (partha_tbl_ st)) (pardbmap_ st) st else st in
      if Z.of_nat (size (madhava_tbl_ st)) <? min_madhava_ then Acc (st, send_par e (error_resp ERR_MADHAVA_UNAVAIL)) else
      if errbyreassign then Acc (st, send_par e (error_resp ERR_MADHAVA_UNAVAIL)) else
      if u64 (last_new_madhava_cusec_ st + 15 * USEC_PER_SEC) >? e_usec_clock e
      then Acc (st, send_par e (error_resp ERR_MADHAVA_UNAVAIL)) else
      let '(st, r) := assign_partha_madhava e q ign_madid st in
      match r ≫= (fun o => m ← mads st !! o; Some (o, m)) with
      | None => Acc (st, send_par e (error_resp ERR_MADHAVA_UNAVAIL))
      | Some (o, m) =>
          let p := set_ident_key (e_usec_time e) (set_madhava o (madhava_id_ m) (upd_pinfo q (new_pinfo (e_time e)))) in
          let r := PsRegisterResp ERR_SUCCESS (partha_ident_key_ p) 0 (madhava_id_ m) (listener_port_ m).2 (listener_port_ m).1 [] in
          send_madhava_key e q o true r (set_hosts (<[machid := p]> (partha_tbl_ st)) (pardbmap_ st) st)
      end
  end.

(** ** Madhavas *)
Record MS_REGISTER_REQ := MsRegisterReq {
  mq_madhava_id : Z;
  mq_hostname : text;
  mq_port : Z;
  mq_name : text;
  mq_region : text;
  mq_zone : text;
  mq_last_partha_nodes : Z;
  mq_max_partha_nodes : Z;
  mq_cli_type : Z;
}.

Definition new_madhava (q : MS_REGISTER_REQ) : MADHAVA_INFO :=
  MadhavaInfo (mq_madhava_id q) (mq_hostname q, mq_port q) [] [] [] 0 0 0 0 0 0 0 ([], 0) 0 empty_flist.

(** The data of the request, and the connection [conn] at the node [addr]. *)
Definition update_madhava (e : env) (q : MS_REGISTER_REQ) (c : HOST_CONN_FLIST) (m : MADHAVA_INFO) : MADHAVA_INFO :=
  MadhavaInfo (madhava_id_ m) (listener_port_ m) (mq_region q) (mq_zone q) (mq_name q) (e_usec_time e)
    (last_par_assign_tusec_ m) (last_status_csec_ m) (mq_last_partha_nodes q) (mq_max_partha_nodes q) (curr_par_adds_ m) (last_par_adds_ m)
    (prev_instance_ m) (tignore_till_ m) c.

(** The second result of [accept_instance] tells whether the request is refused: the
    instance was replaced by another one less than two minutes ago. *)
Definition accept_instance (e : env) (q : MS_REGISTER_REQ) (m : MADHAVA_INFO) : MADHAVA_INFO * list sh_msg * bool :=
  let dp := (mq_hostname q, mq_port q) in
  if bool_decide (listener_port_ m = dp) then (m, [], false) else
  if bool_decide (prev_instance_ m = dp) && (e_usec_time e / USEC_PER_SEC <? u64 (tignore_till_ m))
  then (m, [MS_RESPONSE ERR_ID_REUSED 0 0 0], true) else
  let '(c, closed) := close_all_conns (e_live e) (e_usec_time e) (conn_list m) in
  (set_instance dp (listener_port_ m) (e_time e + 120) c m, CLOSE_CONN <$> closed, false).

(** The end of the registration: [add_conn] may throw, which leaves the data updated and
    the connection unregistered. *)
Definition add_madhava_conn (e : env) (q : MS_REGISTER_REQ) (conn addr o : Z) (m : MADHAVA_INFO) (is_new : bool) (n : Z) (msgs : list sh_msg)
    (st : SHSTATE) : SHSTATE * list sh_msg :=
  let '(c, r) := add_conn MAX_PERSISTENT_CONNS_PER_HOST (e_live e) (e_time e) (e_usec_time e) addr (host_conn_l1 conn conn HOST_MADHAVA (mq_cli_type q))
                   (conn_list m) in
  let st := set_mads (<[o := update_madhava e q c m]> (mads st)) st in
  match r with
  | None => (st, msgs)
  | Some _ =>
      let flags := if is_new && (mq_last_partha_nodes q >? 0) then Z.lor CONN_FLAGS_RESET_STATS CONN_FLAGS_SEND_PARTHAS else 0 in
      (st, msgs ++ [MS_RESPONSE ERR_SUCCESS flags n (nmadhava_partha_ st)])
  end.

Definition handle_misc_madhava_reg (e : env) (q : MS_REGISTER_REQ) (conn addr : Z) (st : SHSTATE) : SHSTATE * list sh_msg :=
  let id := mq_madhava_id q in
  let n := Z.of_nat (size (madhava_tbl_ st)) in
  match (o ← madhava_tbl_ st !! id; m ← mads st !! o; Some (o, m)) with
  | Some (o, m) =>
      let '(m, msgs, refused) := accept_instance e q m in
      if refused : bool then (st, msgs) else add_madhava_conn e q conn addr o m false n msgs st
  | None =>
      if n >=? MAX_MADHAVA_PER_SHYAMA then (st, [MS_RESPONSE ERR_MAX_LIMIT 0 0 0]) else
      let o := next_obj st in
      let st := set_tbl (<[o := new_madhava q]> (mads st)) (o + 1) (<[id := o]> (madhava_tbl_ st)) (e_usec_clock e) st in
      add_madhava_conn e q conn addr o (new_madhava q) true (n + 1) [] st
  end.
End Registration.

(** [NOTIFY_MADHAVA_SHYAMA_STATUS] on a connection of the madhava [o]. *)
Definition madhava_status (e : env) (o madhava_id npartha : Z) (st : SHSTATE) : SHSTATE :=
  match mads st !! o with
  | Some m => if madhava_id =? madhava_id_ m then set_mads (<[o := set_status (e_sec_clock e) npartha m]> (mads st)) st else st
  | None => st
  end.

(** The destructor of a connection of the madhava [o]. *)
Definition conn_destroyed (e : env) (o conn : Z) (st : SHSTATE) : SHSTATE :=
  match mads st !! o with
  | Some m => set_mads (<[o := set_conns (last_par_assign_tusec_ m) (del_conn conn (e_usec_time e) (conn_list m)).1 m]> (mads st)) st
  | None => st
  end.

(** One host that the madhava [o] had before shyama was started. *)
Definition reg_partha_one (e : env) (o id : Z) (st : SHSTATE) (r : machine_id * (text * text * text * text)) : SHSTATE :=
  let '(machid, (host, cluster, region, zone)) := r in
  match partha_tbl_ st !! machid with
  | Some _ => st
  | None => set_hosts (<[machid := ParthaInfo host cluster region zone 0 0 false 0 (e_time e) o id]> (partha_tbl_ st))
              (delete machid (pardbmap_ st)) st
  end.

Definition handle_madhava_reg_partha (e : env) (o : Z) (hosts : list (machine_id * (text * text * text * text))) (st : SHSTATE) : SHSTATE :=
  match mads st !! o with
  | None => st
  | Some m => foldl (reg_partha_one e o (madhava_id_ m)) st hosts
  end.

(** One host that the madhava [madid] reports: it has it, or has lost it. *)
Definition set_db_updated (t : Z) (p : PARTHA_INFO) : PARTHA_INFO :=
  ParthaInfo (hostname_ p) (cluster_name_ p) (region_name_ p) (zone_name_ p) (last_register_tusec_ p) (partha_ident_key_ p) (new_registered_ p)
    t (tinit_ p) (madhava_weak_ p) (p_madhava_id_ p).

Definition ping_one (e : env) (madid : Z) (st : SHSTATE) (r : machine_id * bool) : SHSTATE :=
  let '(machid, is_deleted) := r in
  let tcurr := e_time e in
  let tdel := tcurr + 3 * 24 * 3600 in
  match partha_tbl_ st !! machid with
  | None =>
      match pardbmap_ st !! machid with
      | None => st
      | Some d =>
          let d' := if is_deleted
                    then if tdel_after_ d =? 0
                         then ParthaDb (db_cluster_name_ d) (db_region_name_ d) (db_zone_name_ d) (db_madhava_id_ d) tdel (tping_ d) else d
                    else ParthaDb (db_cluster_name_ d) (db_region_name_ d) (db_zone_name_ d) madid (tdel_after_ d) tcurr in
          set_hosts (partha_tbl_ st) (<[machid := d']> (pardbmap_ st)) st
      end
  | Some p =>
      if negb (p_madhava_id_ p =? madid) then st else
      if is_deleted then
        let tping := default tcurr (tping_ <$> (pardbmap_ st !! machid)) in
        set_hosts (delete machid (partha_tbl_ st))
          (<[machid := ParthaDb (cluster_name_ p) (region_name_ p) (zone_name_ p) madid tdel tping]> (pardbmap_ st)) st
      else set_hosts (<[machid := set_db_updated tcurr p]> (partha_tbl_ st)) (pardbmap_ st) st
  end.

Definition handle_ms_partha_ping (e : env) (o : Z) (hosts : list (machine_id * bool)) (st : SHSTATE) : SHSTATE :=
  match mads st !! o with
  | None => st
  | Some m => foldl (ping_one e (madhava_id_ m)) st hosts
  end.

(** ** The periodic passes *)

(** One madhava: the hosts added in this pass become those of the last one; a madhava
    without connections for a day leaves the table and the object is freed.  The
    results count the madhavas with hosts: deleted, and with a recent status. *)
Definition sync_one (e : env) (acc : SHSTATE * Z * Z) (id : Z) : SHSTATE * Z * Z :=
  let '(st, nmaddel_with_par, nmad) := acc in
  let tlast := last_mn_db_upd_tusec_ st in
  match (o ← madhava_tbl_ st !! id; m ← mads st !! o; Some (o, m)) with
  | None => acc
  | Some (o, m) =>
      let last_oper := get_last_oper_time (conn_list m) in
      let nconn := get_num_conns (conn_list m) in
      let m := set_adds 0 (curr_par_adds_ m) m in
      let nmad := if (nconn >? 0) && (last_status_csec_ m >? u64 (e_sec_clock e - 10)) && negb (npartha_nodes_ m =? 0) then nmad + 1 else nmad in
      if negb (last_oper >? tlast) && (nconn =? 0) && (tlast - last_oper >? MAX_HOST_DISCONNECT_RAM_USEC) then
        let st := set_tbl (delete o (mads st)) (next_obj st) (delete id (madhava_tbl_ st)) (last_new_madhava_cusec_ st) st in
        let st := if bool_decide (curr_madhava_ st = Some o) then set_curr None (curr_madhava_id_ st) st else st in
        (st, if negb (npartha_nodes_ m =? 0) then nmaddel_with_par + 1 else nmaddel_with_par, nmad)
      else (set_mads (<[o := m]> (mads st)) st, nmaddel_with_par, nmad)
  end.

Definition sync_partha_madhava_node_stats (e : env) (st : SHSTATE) : SHSTATE :=
  let old := nmadhava_partha_ st in
  let '(st, ndel, nmad) := foldl (sync_one e) (st, 0, 0) (e_order e) in
  let last_mad := u64 (old - ndel) in
  (* [compare_exchange_strong(last_mad, nmad)] *)
  let n := if (nmad >? last_mad) && (nmadhava_partha_ st =? last_mad) then nmad else nmadhava_partha_ st in
  ShState (mads st) (next_obj st) (madhava_tbl_ st) (partha_tbl_ st) (pardbmap_ st) (curr_madhava_ st) (curr_madhava_id_ st) n
    (last_new_madhava_cusec_ st) (e_usec_time e).

(** The hosts known from the database, in the order of the walk, up to [maxdel]
    deletions; then the registered hosts. *)
Definition cleanup_db_one (tcurr tmin_ping : Z) (acc : SHSTATE * Z) (machid : machine_id) : SHSTATE * Z :=
  let '(st, ndel) := acc in
  if ndel >=? 25000 then acc else
  match pardbmap_ st !! machid with
  | None => acc
  | Some d =>
      if ((tdel_after_ d >? 0) && (tdel_after_ d <? tcurr)) || ((tping_ d <? tmin_ping) && (tping_ d >? 0))
      then (set_hosts (partha_tbl_ st) (delete machid (pardbmap_ st)) st, ndel + 1) else acc
  end.
Fixpoint cleanup_hosts (tmin_ping : Z) (hosts : list machine_id) (st : SHSTATE) (ndel : Z) : SHSTATE :=
  match hosts with
  | [] => st
  | machid :: hosts' =>
      match partha_tbl_ st !! machid with
      | Some p =>
          if (tdb_updated_ p <? tmin_ping) && (tinit_ p <? tmin_ping) then
            let st := set_hosts (delete machid (partha_tbl_ st)) (pardbmap_ st) st in
            if ndel + 1 <? 25000 then cleanup_hosts tmin_ping hosts' st (ndel + 1) else st
          else cleanup_hosts tmin_ping hosts' st ndel
      | None => cleanup_hosts tmin_ping hosts' st ndel
      end
  end.
Definition cleanup_db_partha_entries (e : env) (tprocstart : Z) (st : SHSTATE) : SHSTATE :=
  let tcurr := e_time e in
  let tmin_ping := tcurr - 30 * 3600 in
  let tmin_ping := if (tmin_ping <? tprocstart) && (tprocstart >? 0) then 0 else tmin_ping in
  let '(st, ndel) := foldl (cleanup_db_one tcurr tmin_ping) (st, 0) (e_hosts e) in
  cleanup_hosts tmin_ping (e_hosts e) st ndel.
