(* ===== verification/PlacementInv.v ===== *)
(** * PlacementInv : the invariants of [Placement] and what they give.

    The tables of shyama agree in every reachable state ([placement_tables_agree]); a
    host is given the nearest madhava with room ([partha_gets_nearest]); what a host is
    told agrees with the tables and with what its madhava was told before
    ([registration_consistent]). *)
From stdpp Require Import gmap sets list.
From S2P Require Import Prelude Bytes HostConns Placement.

#[local] Open Scope Z_scope.

(** ** The invariant *)
Definition conns_ok (t : gmap Z MADHAVA_INFO) : Prop :=
  forall o m, t !! o = Some m -> conn_inv (conn_list m) /\ nconns_ (conn_list m) <= MAX_PERSISTENT_CONNS_PER_HOST + 1.

(** No host is in both tables. *)
Definition apart (pt : gmap machine_id PARTHA_INFO) (pd : gmap machine_id ParthaDbStat) : Prop := forall k, is_Some (pt !! k) -> pd !! k = None.

Record place_inv (st : SHSTATE) : Prop := PlaceInv {
  pi_tbl : forall id o, madhava_tbl_ st !! id = Some o <-> madhava_id_ <$> (mads st !! o) = Some id;
  pi_fresh : forall o, is_Some (mads st !! o) -> o < next_obj st;
  pi_curr : forall o, curr_madhava_ st = Some o -> is_Some (mads st !! o);
  pi_host : forall k p, partha_tbl_ st !! k = Some p -> madhava_weak_ p < next_obj st /\
    forall m, mads st !! madhava_weak_ p = Some m -> madhava_id_ m = p_madhava_id_ p;
  pi_disj : apart (partha_tbl_ st) (pardbmap_ st);
  pi_conns : conns_ok (mads st);
}.

(** The same objects with the same ids. *)
Definition same_ids (t t' : gmap Z MADHAVA_INFO) : Prop := forall o, madhava_id_ <$> (t' !! o) = madhava_id_ <$> (t !! o).

#[global] Instance same_ids_preorder : PreOrder same_ids.
Proof. split; [done|]. intros t1 t2 t3 H1 H2 o. by rewrite H2. Qed.

Lemma same_ids_insert t o m m' : t !! o = Some m -> madhava_id_ m' = madhava_id_ m -> same_ids t (<[o := m']> t).
Proof. intros Ho Hm o'. destruct (decide (o' = o)) as [->|Hn]; [by rewrite lookup_insert_eq, Ho; cbn; rewrite Hm|by rewrite lookup_insert_ne]. Qed.

Lemma same_ids_some t t' o : same_ids t t' -> is_Some (t' !! o) <-> is_Some (t !! o).
Proof. intros H. specialize (H o). destruct (t !! o), (t' !! o); cbn in H; naive_solver. Qed.

Lemma conns_ok_insert t o m : conns_ok t -> conn_inv (conn_list m) /\ nconns_ (conn_list m) <= MAX_PERSISTENT_CONNS_PER_HOST + 1 ->
  conns_ok (<[o := m]> t).
Proof. intros H Hm o' m' [[<- <-]|[_ Hm']]%lookup_insert_Some; [done|by apply (H o')]. Qed.

Lemma place_inv_mads st t : place_inv st -> same_ids (mads st) t -> conns_ok t -> place_inv (set_mads t st).
Proof.
  intros [H1 H2 H3 H4 H5 H6] Hs Hc. split; cbn; try done.
  - intros id o. by rewrite Hs.
  - intros o Ho. apply H2. by apply (same_ids_some _ t).
  - intros o Ho. apply (same_ids_some (mads st) t); [done|]. by apply H3.
  - intros k p Hp. destruct (H4 k p Hp) as [Hf Hi]. split; [done|]. intros m Hm. specialize (Hs (madhava_weak_ p)). rewrite Hm in Hs. cbn in Hs.
    destruct (mads st !! madhava_weak_ p) as [m0|] eqn:E; [|done]. injection Hs as ->. by apply Hi.
Qed.

Lemma place_inv_nmad st n : place_inv st -> place_inv (set_nmadhava n st).
Proof. intros [H1 H2 H3 H4 H5 H6]. by split. Qed.

Lemma place_inv_hosts st pt pd : place_inv st -> apart pt pd ->
  (forall k p, pt !! k = Some p -> madhava_weak_ p < next_obj st /\ forall m, mads st !! madhava_weak_ p = Some m -> madhava_id_ m = p_madhava_id_ p) ->
  place_inv (set_hosts pt pd st).
Proof. intros [H1 H2 H3 H4 H5 H6] Hd Hh. by split. Qed.

(** A host that is added or changed. *)
Lemma place_inv_host st k p pd : place_inv st -> apart (partha_tbl_ st) pd -> pd !! k = None -> madhava_weak_ p < next_obj st ->
  (forall m, mads st !! madhava_weak_ p = Some m -> madhava_id_ m = p_madhava_id_ p) -> place_inv (set_hosts (<[k := p]> (partha_tbl_ st)) pd st).
Proof.
  intros H Hd Hk Hw Hi. apply place_inv_hosts; [done|intros k' [<-|[_ Hk']]%lookup_insert_is_Some; [done|by apply Hd]|].
  intros k' p' [[<- <-]|[_ Hp]]%lookup_insert_Some; [done|by apply (pi_host st H k')].
Qed.

(** ** The scan *)
Lemma check_same q mc ig iz ir o s : let r := check_madhava q mc ig iz ir o s in
  same_ids (s_mads s) (s_mads r.1) /\ (conns_ok (s_mads s) -> conns_ok (s_mads r.1)) /\ (r.2 = true -> is_Some (s_mads s !! o)).
Proof.
  cbn zeta. unfold check_madhava. destruct (s_mads s !! o) as [m|] eqn:E; [|by split_and!].
  repeat (case_if; [by split_and!|]). cbn zeta.
  assert (same_ids (s_mads s) (<[o := set_adds (u32 (curr_par_adds_ m + 1)) (last_par_adds_ m) m]> (s_mads s))) by (by eapply same_ids_insert).
  assert (conns_ok (s_mads s) -> conns_ok (<[o := set_adds (u32 (curr_par_adds_ m + 1)) (last_par_adds_ m) m]> (s_mads s))) as Hc
    by (intros Hc; apply conns_ok_insert; [done|exact (Hc o m E)]).
  repeat case_if; split_and!; cbn; try done.
Qed.

Lemma walk_same tbl check order : (forall o s, let r := check o s in
    same_ids (s_mads s) (s_mads r.1) /\ (conns_ok (s_mads s) -> conns_ok (s_mads r.1)) /\ (r.2 = true -> is_Some (s_mads s !! o))) ->
  forall s, let r := walk_mads tbl check order s in
    same_ids (s_mads s) (s_mads r.1) /\ (conns_ok (s_mads s) -> conns_ok (s_mads r.1)) /\ (forall o, r.2 = Some o -> is_Some (s_mads s !! o)).
Proof.
  intros Hc. induction order as [|id order IH]; intros s; cbn zeta; [by split_and!|]. cbn [walk_mads].
  destruct (tbl !! id) as [o|]; [|apply IH]. destruct (Hc o s) as (H1 & H2 & H3). destruct (check o s) as [s1 b]. cbn [fst snd] in *.
  destruct b; [cbn; split_and!; try done; by intros o' [= <-]; apply H3|]. destruct (IH s1) as (G1 & G2 & G3).
  split_and!; [by etrans|by auto|]. intros o' Ho. apply (same_ids_some _ (s_mads s1)); [done|by apply G3].
Qed.

(** What a scan keeps. *)
Definition scan_ok (s : scan) (r : scan * option Z) : Prop :=
  same_ids (s_mads s) (s_mads r.1) /\ (conns_ok (s_mads s) -> conns_ok (s_mads r.1)) /\ (forall o, r.2 = Some o -> is_Some (s_mads s !! o)).

Lemma scan_ok_refl s : scan_ok s (s, None).
Proof. by split_and!. Qed.

Lemma scan_ok_trans s s1 r : scan_ok s (s1, None) -> scan_ok s1 r -> scan_ok s r.
Proof.
  intros (H1 & H2 & _) (G1 & G2 & G3). cbn [fst] in *. split_and!; [by etrans|by auto|]. intros o Ho. apply (same_ids_some _ (s_mads s1)); [done|by apply G3].
Qed.

Lemma scan_ok_weak s s1 r r' : scan_ok s (s1, r) -> (forall o, r' = Some o -> is_Some (s_mads s !! o)) -> scan_ok s (s1, r').
Proof. intros (H1 & H2 & _) H. by split_and!. Qed.

Lemma check_scan_ok q mc ig iz ir o s : scan_ok s (let '(s1, b) := check_madhava q mc ig iz ir o s in (s1, if b then Some o else None)).
Proof.
  destruct (check_same q mc ig iz ir o s) as (H1 & H2 & H3). destruct (check_madhava _ _ _ _ _ _ _) as [s1 b].
  cbn [fst snd] in *. split_and!; [done..|]. intros o'. destruct b; intros [= <-]. by apply H3.
Qed.

Lemma walk_all_ok e tbl q ig s : scan_ok s (walk_all e tbl q ig s).
Proof.
  unfold walk_all. assert (forall igm iz ir s0, scan_ok s0 (walk_mads tbl (check_madhava q (min_status_csec e) igm iz ir) (e_order e) s0)) as Hw
    by (intros igm iz ir s0; apply walk_same; intros o s1; apply check_same).
  pose proof (Hw ig false false s) as H1. destruct (walk_mads _ _ _ s) as [s1 [o|]]; [done|]. eapply scan_ok_trans; [done|]. clear H1.
  assert (scan_ok s1 (if zoneerr s1 >? 0 then walk_mads tbl (check_madhava q (min_status_csec e) ig true false) (e_order e) s1 else (s1, None))) as H2
    by (case_if; [apply Hw|apply scan_ok_refl]).
  destruct (if zoneerr s1 >? 0 then _ else _) as [s2 [o|]]; [done|]. eapply scan_ok_trans; [done|]. clear H2.
  assert (scan_ok s2 (if regionerr s2 >? 0 then walk_mads tbl (check_madhava q (min_status_csec e) ig (zoneerr s1 >? 0) true) (e_order e) s2
    else (s2, None))) as H3 by (case_if; [apply Hw|apply scan_ok_refl]).
  destruct (if regionerr s2 >? 0 then _ else _) as [s3 [o|]]; [done|]. eapply scan_ok_trans; [done|]. clear H3.
  case_if; [apply Hw|apply scan_ok_refl].
Qed.

(** The scan of [assign_partha_madhava]. *)
Definition assign_scan (e : env) (q : PS_REGISTER_REQ) (ig : Z) (st : SHSTATE) (r : SHSTATE * option Z) : Prop :=
  exists s c ci, r.1 = set_curr c ci (set_nmadhava (s_nmad s) (set_mads (s_mads s) (set_hosts (partha_tbl_ st) (delete (rq_machid q) (pardbmap_ st)) st))) /\
    scan_ok (Scan (mads st) (nmadhava_partha_ st) 0 0) (s, r.2) /\ (c = curr_madhava_ st \/ c = r.2).

Lemma assign_scan_ok e q ig st : assign_scan e q ig st (assign_partha_madhava e q ig st).
Proof.
  unfold assign_partha_madhava. set (s0 := Scan _ _ 0 0). set (st1 := set_hosts _ _ st).
  assert (forall s, s = set_curr (curr_madhava_ s) (curr_madhava_id_ s) s) as Hcur by (by intros []).
  set (r1 := match pardbmap_ st !! rq_machid q with None => _ | Some d => _ end). assert (scan_ok s0 r1) as H1.
  { unfold r1. destruct (pardbmap_ st !! rq_machid q) as [d|]; [|apply scan_ok_refl]. case_if; [apply scan_ok_refl|].
    destruct (madhava_tbl_ st1 !! _) as [o|]; [apply check_scan_ok|apply scan_ok_refl]. }
  destruct r1 as [s1 [o|]].
  { exists s1, (curr_madhava_ st), (curr_madhava_id_ st). split_and!; [done..|by left]. }
  set (r2 := match curr_madhava_ st1 with None => _ | Some o => _ end). assert (scan_ok s1 r2) as H2.
  { unfold r2. destruct (curr_madhava_ st1) as [o|]; [apply check_scan_ok|apply scan_ok_refl]. }
  destruct r2 as [s2 [o|]].
  { exists s2, (curr_madhava_ st), (curr_madhava_id_ st). split_and!; [done|by eapply scan_ok_trans|by left]. }
  pose proof (walk_all_ok e (madhava_tbl_ st1) q ig s2) as H3. destruct (walk_all _ _ _ _ _) as [s3 r].
  assert (scan_ok s0 (s3, r)) as H by (eapply scan_ok_trans; [by eapply scan_ok_trans|done]).
  destruct r as [o|]; [exists s3, (Some o), (default 0 (madhava_id_ <$> (s_mads s3 !! o)))|exists s3, (curr_madhava_ st), (curr_madhava_id_ st)];
    (split_and!; [done..|by auto]).
Qed.

Lemma delete_apart pt pd (k : machine_id) : apart pt pd -> apart pt (delete k pd).
Proof. intros H k' Hk. rewrite lookup_delete_None. right. by apply H. Qed.

Lemma assign_inv e q ig st : place_inv st -> let r := assign_partha_madhava e q ig st in
  place_inv r.1 /\ (forall o, r.2 = Some o -> is_Some (mads r.1 !! o)) /\ partha_tbl_ r.1 = partha_tbl_ st /\
  pardbmap_ r.1 = delete (rq_machid q) (pardbmap_ st) /\ next_obj r.1 = next_obj st /\ madhava_tbl_ r.1 = madhava_tbl_ st.
Proof.
  intros H. destruct (assign_scan_ok e q ig st) as (s & c & ci & E & (S1 & S2 & S3) & Hc). destruct (assign_partha_madhava e q ig st) as [st' r].
  cbn [fst snd] in *. subst st'. cbn in *. assert (forall o, is_Some (s_mads s !! o) <-> is_Some (mads st !! o)) as Hs by (intros o; by apply same_ids_some).
  split_and!; try done; [|intros o Ho; by apply Hs, S3].
  assert (place_inv (set_nmadhava (s_nmad s) (set_mads (s_mads s) (set_hosts (partha_tbl_ st) (delete (rq_machid q) (pardbmap_ st)) st)))) as [I1 I2 I3 I4 I5 I6].
  { apply place_inv_nmad, place_inv_mads; [|done|apply S2, H].
    apply place_inv_hosts; [done|apply delete_apart, H|apply H]. }
  split; try done. cbn. intros o. destruct Hc as [->| ->]; intros Ho; apply Hs; [by apply H|by apply S3].
Qed.

Lemma close_all_empty live tusec c : listconn_ (close_all_conns live tusec c).1 = [].
Proof.
  unfold close_all_conns, walk_conn_list.
  assert (forall l n pl (s : list Z), let '(l2, _, _, _, _, _) := walk_loop (fun c cl => (CB_DELETE_ELEM, if is_cli_active live c then cl ++ [pconn_ c] else cl)) l n pl s in l2 = []) as H.
  { induction l as [|[a c0] l IH]; intros n pl s; cbn [walk_loop]; [done|].
    specialize (IH (u64 (n - 1)) (unset_last a c0 pl) (if is_cli_active live c0 then s ++ [pconn_ c0] else s)).
    by destruct (walk_loop _ _ _ _ _) as [[[[[l2 n2] pl2] d] s2] k]. }
  specialize (H (listconn_ c) (nconns_ c) (plast_cli_type_ c) []). by destruct (walk_loop _ _ _ _ _) as [[[[[l2 n2] pl2] d] s2] k].
Qed.

(** A madhava that is new: the object has a number of its own. *)
Lemma new_madhava_inv st q tnew : place_inv st -> (forall o m, mads st !! o = Some m -> madhava_id_ m <> mq_madhava_id q) ->
  place_inv (set_tbl (<[next_obj st := new_madhava q]> (mads st)) (next_obj st + 1) (<[mq_madhava_id q := next_obj st]> (madhava_tbl_ st)) tnew st).
Proof.
  intros [H1 H2 H3 H4 H5 H6] Hid. assert (mads st !! next_obj st = None) as Hf.
  { destruct (mads st !! next_obj st) eqn:E; [|done]. specialize (H2 (next_obj st) ltac:(by eexists)). lia. }
  split; cbn; try done.
  - intros id o. destruct (decide (o = next_obj st)) as [->|Ho].
    + rewrite (lookup_insert_eq (mads st)). cbn. split.
      * intros [[<- _]|[Hn Hl]]%lookup_insert_Some; [done|]. apply H1 in Hl. by rewrite Hf in Hl.
      * intros [= <-]. apply lookup_insert_eq.
    + rewrite (lookup_insert_ne (mads st)) by done. rewrite <- H1. destruct (decide (id = mq_madhava_id q)) as [->|Hn].
      * rewrite lookup_insert_eq. split; [intros [= E]; by destruct Ho|]. intros Hl. apply H1 in Hl. destruct (mads st !! o) as [m|] eqn:Em; [|done].
        injection Hl as Hl. by destruct (Hid o m Em).
      * by rewrite lookup_insert_ne.
  - intros o [<-|[_ Ho]]%lookup_insert_is_Some; [lia|]. apply H2 in Ho. lia.
  - intros o Ho. apply lookup_insert_is_Some. destruct (decide (next_obj st = o)); [by left|right]. split; [done|by apply H3].
  - intros k p Hp. destruct (H4 k p Hp) as [Hw Hi]. split; [lia|]. intros m Hm. rewrite lookup_insert_ne in Hm by lia. by apply Hi.
  - apply conns_ok_insert; [done|]. split; [|done]. split; cbn; [constructor|done|]. intros t a. by rewrite lookup_empty.
Qed.

(** ** The operations keep the invariant *)
Lemma set_conns_inv st o m t c : place_inv st -> mads st !! o = Some m -> conn_inv c /\ nconns_ c <= MAX_PERSISTENT_CONNS_PER_HOST + 1 ->
  place_inv (set_mads (<[o := set_conns t c m]> (mads st)) st).
Proof. intros H Ho Hc. apply place_inv_mads; [done|by eapply same_ids_insert|apply conns_ok_insert; [apply H|done]]. Qed.

Lemma send_madhava_key_inv e q o b r st : place_inv st -> exists st' l, send_madhava_key e q o b r st = Acc (st', l) /\ place_inv st' /\
  partha_tbl_ st' = partha_tbl_ st /\ same_ids (mads st) (mads st').
Proof.
  intros H. unfold send_madhava_key. destruct (mads st !! o) as [m|] eqn:E; [|by exists st, (send_par e r)].
  destruct (pi_conns st H o m E) as [Hc Hn]. unfold MAX_PERSISTENT_CONNS_PER_HOST in Hn.
  destruct (get_last_conn_ok (e_live e) CLI_TYPE_RESP_REQ (e_time e) (e_usec_time e) (conn_list m) Hc ltac:(lia)) as (c & shr & -> & Hc' & Hn' & _).
  cbn [acc_bind]. assert (forall t, place_inv (set_mads (<[o := set_conns t c m]> (mads st)) st) /\ same_ids (mads st) (<[o := set_conns t c m]> (mads st))) as Hs
    by (intros t; split; [apply set_conns_inv; [done..|]; unfold MAX_PERSISTENT_CONNS_PER_HOST; split; [done|lia]|by eapply same_ids_insert]).
  destruct shr as [conn|]; (eexists _, _; split; [done|]); cbn; (split_and!; [apply Hs|done|apply Hs]).
Qed.

Section RegInv.
Context (city : list Z -> Z) (minm : Z).

Lemma partha_reg_inv e q st : place_inv st -> exists st' l, handle_misc_partha_reg city minm e q st = Acc (st', l) /\ place_inv st'.
Proof.
  intros H. unfold handle_misc_partha_reg. set (fnd := match partha_tbl_ st !! _ with None => _ | Some _ => _ end).
  assert (match fnd with (Some (p, m), _, _) => partha_tbl_ st !! rq_machid q = Some p /\ mads st !! madhava_weak_ p = Some m
    | (None, _, false) => partha_tbl_ st !! rq_machid q = None | _ => True end) as Hf.
  { unfold fnd. destruct (partha_tbl_ st !! _) as [p|] eqn:E; [|done]. destruct (mads st !! _) as [m|] eqn:E2; [|done]. by case_if. }
  destruct fnd as [[[[p m]|] ig] err].
  - destruct Hf as [Hp Hm]. cbn. destruct (pi_host st H _ _ Hp) as [Hw Hi].
    set (p' := set_ident_key city (e_usec_time e) (upd_pinfo q p)).
    assert (place_inv (set_hosts (<[rq_machid q := p']> (partha_tbl_ st)) (pardbmap_ st) st)) as H'.
    { apply place_inv_host; [done|apply H|apply H; by eexists|done|]. cbn. intros m' Hm'. by apply Hi. }
    destruct (send_madhava_key_inv e q (madhava_weak_ p) false (PsRegisterResp ERR_SUCCESS (ident_key city (upd_pinfo q p) (e_usec_time e))
      (e_time e + 300 - 5) (madhava_id_ m) (listener_port_ m).2 (listener_port_ m).1 (madhava_name_ m)) _ H') as (st' & l & -> & ? & _). by exists st', l.
  - set (st1 := if err : bool then _ else st). assert (place_inv st1) as H1.
    { unfold st1. destruct err; [|done]. apply place_inv_hosts; [done| |].
      - intros k [p Hk]. apply H. apply lookup_delete_Some in Hk as [_ Hk]. by eexists.
      - intros k p [_ Hk]%lookup_delete_Some. by apply (pi_host st H k). }
    assert (partha_tbl_ st1 !! rq_machid q = None) as Hn1 by (unfold st1; destruct err; [apply lookup_delete_eq|done]).
    case_if; [by exists st1, (send_par e (error_resp ERR_MADHAVA_UNAVAIL))|]. destruct err; [by exists st1, (send_par e (error_resp ERR_MADHAVA_UNAVAIL))|].
    case_if; [by exists st1, (send_par e (error_resp ERR_MADHAVA_UNAVAIL))|].
    destruct (assign_inv e q ig st1 H1) as (H2 & Hr & Ept & Epd & En & _). destruct (assign_partha_madhava e q ig st1) as [st2 r]. cbn [fst snd] in *.
    destruct (r ≫= _) as [[o m]|] eqn:Er; [|by exists st2, (send_par e (error_resp ERR_MADHAVA_UNAVAIL))].
    destruct r as [o'|]; [|done]. cbn in Er. destruct (mads st2 !! o') as [m'|] eqn:Em; [|done]. injection Er as -> ->.
    set (p' := set_ident_key city (e_usec_time e) (set_madhava o (madhava_id_ m) (upd_pinfo q (new_pinfo (e_time e))))).
    assert (place_inv (set_hosts (<[rq_machid q := p']> (partha_tbl_ st2)) (pardbmap_ st2) st2)) as H'.
    { apply place_inv_host; [done|apply H2|rewrite Epd; apply lookup_delete_eq|cbn; apply H2; by eexists|]. cbn. intros m' Hm'. congruence. }
    match goal with |- context [send_madhava_key e q o true ?rs ?s] => destruct (send_madhava_key_inv e q o true rs s H') as (st' & l & -> & ? & _) end.
    by exists st', l.
Qed.

Lemma close_all_inv live tusec c : conn_inv c -> nconns_ c <= MAX_PERSISTENT_CONNS_PER_HOST + 1 ->
  let r := close_all_conns live tusec c in conn_inv r.1 /\ nconns_ r.1 <= MAX_PERSISTENT_CONNS_PER_HOST + 1.
Proof.
  intros [H1 H2 H3] Hn. cbn zeta. unfold close_all_conns, walk_conn_list, MAX_PERSISTENT_CONNS_PER_HOST in *.
  pose proof (walk_loop_inv (fun c cl => (CB_DELETE_ELEM, if is_cli_active live c then cl ++ [pconn_ c] else cl)) (listconn_ c) []
    (nconns_ c) (plast_cli_type_ c) [] H1 H2 ltac:(lia) H3) as Hw.
  destruct (walk_loop _ _ _ _ _) as [[[[[l2 n2] pl2] d] s2] k]. cbn in *. destruct Hw as (? & ? & ? & ?). split; [done|lia].
Qed.

(** The address of the node for a new connection is not in use. *)
Definition addr_free (addr : Z) (st : SHSTATE) : Prop := forall o m, mads st !! o = Some m -> addr ∉ (listconn_ (conn_list m)).*1.

Lemma add_conn_fresh mx live tcurr tusec addr c h : conn_inv h -> nconns_ h <= mx + 1 -> mx < 2 ^ 63 -> addr ∉ (listconn_ h).*1 ->
  let h' := (add_conn mx live tcurr tusec addr c h).1 in conn_inv h' /\ nconns_ h' <= mx + 1.
Proof.
  intros H Hn Hm Ha. apply add_inv; [done..|]. unfold add_conn.
  assert (NoDup (addr :: (listconn_ h).*1)) as Hh by (apply list.NoDup_cons; split; [done|apply H]).
  case_if; [|done]. unfold clear_closed_conns_locked. destruct (erase_first _ _) as [[[a c1] l]|] eqn:E; [|cbn; apply H].
  cbn. apply erase_first_spec in E as (_ & l1 & l3 & E & -> & _). rewrite E in Hh, Ha. rewrite fmap_app in Hh, Ha. cbn in Hh, Ha.
  rewrite <- Permutation_middle in Hh. rewrite fmap_app. apply list.NoDup_cons in Hh as [Hh1 Hh]. apply list.NoDup_cons in Hh as [_ Hh].
  apply list.NoDup_cons. split; [set_solver|done].
Qed.

Lemma madhava_reg_inv e q conn addr st : place_inv st -> addr_free addr st -> place_inv (handle_misc_madhava_reg e q conn addr st).1.
Proof.
  intros H Ha. unfold handle_misc_madhava_reg.
  assert (forall o m0 m is_new n msgs g, place_inv g -> mads g !! o = Some m0 -> madhava_id_ m = madhava_id_ m0 ->
    conn_inv (conn_list m) /\ nconns_ (conn_list m) <= MAX_PERSISTENT_CONNS_PER_HOST + 1 -> addr ∉ (listconn_ (conn_list m)).*1 ->
    place_inv (add_madhava_conn e q conn addr o m is_new n msgs g).1) as Hadd.
  { intros o m0 m is_new n msgs g Hg Ho Hid [Hc Hn] Haddr. unfold add_madhava_conn.
    pose proof (add_conn_fresh MAX_PERSISTENT_CONNS_PER_HOST (e_live e) (e_time e) (e_usec_time e) addr
      (host_conn_l1 conn conn HOST_MADHAVA (mq_cli_type q)) (conn_list m) Hc Hn ltac:(done) Haddr) as [Hc' Hn'].
    destruct (add_conn _ _ _ _ _ _ _) as [c r]. cbn [fst] in *.
    assert (place_inv (set_mads (<[o := update_madhava e q c m]> (mads g)) g)) as Hs.
    { apply place_inv_mads; [done|by eapply same_ids_insert; [|cbn]|apply conns_ok_insert; [apply Hg|done]]. }
    by destruct r. }
  destruct (madhava_tbl_ st !! mq_madhava_id q) as [o|] eqn:Et; cbn [mbind option_bind].
  - destruct (mads st !! o) as [m|] eqn:Em; cbn [mbind option_bind].
    2:{ exfalso. apply (pi_tbl st H) in Et. by rewrite Em in Et. }
    assert (let '(m', _, _) := accept_instance e q m in madhava_id_ m' = madhava_id_ m /\
      (conn_inv (conn_list m') /\ nconns_ (conn_list m') <= MAX_PERSISTENT_CONNS_PER_HOST + 1) /\ addr ∉ (listconn_ (conn_list m')).*1) as Hacc.
    { pose proof (pi_conns st H o m Em) as Hc. pose proof (Ha o m Em) as Ham. unfold accept_instance. repeat (case_if; [done|]).
      destruct Hc as [Hc Hn]. pose proof (close_all_inv (e_live e) (e_usec_time e) (conn_list m) Hc Hn) as Hcl.
      pose proof (close_all_empty (e_live e) (e_usec_time e) (conn_list m)) as Hemp. destruct (close_all_conns _ _ _) as [c cl].
      cbn [fst] in *. split_and!; cbn; [done|apply Hcl|apply Hcl|]. rewrite Hemp. set_solver. }
    destruct (accept_instance e q m) as [[m' msgs] refused]. destruct Hacc as (? & ? & ?). destruct refused; [done|]. by eapply Hadd.
  - case_if; [done|]. apply (Hadd _ (new_madhava q)); [| |done| |].
    + apply new_madhava_inv; [done|]. intros o m Hm E. assert (madhava_tbl_ st !! mq_madhava_id q = Some o) as Hx; [|congruence].
      apply H. rewrite Hm. cbn. by rewrite E.
    + cbn. apply lookup_insert_eq.
    + split; [|done]. split; cbn; [constructor|done|]. intros t a. by rewrite lookup_empty.
    + cbn. set_solver.
Qed.
End RegInv.

Lemma status_inv e o id n st : place_inv st -> place_inv (madhava_status e o id n st).
Proof.
  intros H. unfold madhava_status. destruct (mads st !! o) as [m|] eqn:E; [|done]. case_if; [|done].
  apply place_inv_mads; [done|by eapply same_ids_insert|apply conns_ok_insert; [apply H|exact (pi_conns st H o m ltac:(done))]].
Qed.

Lemma destroyed_inv e o conn st : place_inv st -> place_inv (conn_destroyed e o conn st).
Proof.
  intros H. unfold conn_destroyed. destruct (mads st !! o) as [m|] eqn:E; [|done]. apply set_conns_inv; [done..|].
  destruct (pi_conns st H o m E) as [Hc Hn]. unfold MAX_PERSISTENT_CONNS_PER_HOST in *. destruct (del_inv conn (e_usec_time e) (conn_list m) Hc ltac:(lia)).
  split; [done|lia].
Qed.

Lemma foldl_inv {A} (P : SHSTATE -> Prop) (f : SHSTATE -> A -> SHSTATE) l st : (forall s a, P s -> P (f s a)) -> P st -> P (foldl f st l).
Proof. intros Hf. revert st. induction l as [|a l IH]; intros st H; [done|]. apply IH. by apply Hf. Qed.

(** The hosts change, the madhavas do not. *)
Definition same_mads (st st' : SHSTATE) : Prop := mads st' = mads st /\ next_obj st' = next_obj st.

Lemma reg_partha_inv e o hosts st : place_inv st -> place_inv (handle_madhava_reg_partha e o hosts st).
Proof.
  intros H. unfold handle_madhava_reg_partha. destruct (mads st !! o) as [m|] eqn:E; [|done].
  apply (foldl_inv (fun s => place_inv s /\ mads s !! o = Some m)); [|done].
  intros s [k [[[host cl] reg] zone]] [Hs Ho]. unfold reg_partha_one. destruct (partha_tbl_ s !! k) eqn:Ek; [done|]. split; [|done].
  apply place_inv_host; [done|apply delete_apart, Hs|apply lookup_delete_eq|cbn; apply Hs; by eexists|]. cbn. intros m' Hm'. congruence.
Qed.

Lemma ping_inv e o hosts st : place_inv st -> place_inv (handle_ms_partha_ping e o hosts st).
Proof.
  intros H. unfold handle_ms_partha_ping. destruct (mads st !! o) as [m|]; [|done]. apply foldl_inv; [|done].
  intros s [k del] Hs. unfold ping_one. destruct (partha_tbl_ s !! k) as [p|] eqn:Ek.
  - case_if; [done|]. destruct del.
    + apply place_inv_hosts; [done| |].
      * intros k' Hk'. rewrite lookup_insert_ne; [|by intros <-; rewrite lookup_delete_eq in Hk'; destruct Hk']. apply Hs.
        destruct Hk' as [p' [_ Hk']%lookup_delete_Some]. by eexists.
      * intros k' p' [_ Hk']%lookup_delete_Some. by apply (pi_host s Hs k').
    + destruct (pi_host s Hs k p Ek). apply place_inv_host; [done|apply Hs|apply Hs; by eexists|done|done].
  - destruct (pardbmap_ s !! k) as [d|] eqn:Ed; [|done]. apply place_inv_hosts; [done| |apply Hs].
    intros k' Hk'. rewrite lookup_insert_ne; [by apply Hs|]. intros <-. rewrite Ek in Hk'. by destruct Hk'.
Qed.

Lemma sync_one_inv e acc id : place_inv acc.1.1 -> place_inv (sync_one e acc id).1.1.
Proof.
  destruct acc as [[st nd] nm]. cbn [fst]. intros H. unfold sync_one. destruct (madhava_tbl_ st !! id) as [o|] eqn:Et; [|done]. cbn [mbind option_bind].
  destruct (mads st !! o) as [m|] eqn:Em; [|done]. cbn [mbind option_bind].
  assert (madhava_id_ m = id) as Hid by (apply (pi_tbl st H) in Et; rewrite Em in Et; by injection Et).
  destruct (negb _ && _ && _).
  - destruct H as [H1 H2 H3 H4 H5 H6].
    assert (forall o', is_Some (delete o (mads st) !! o') -> o' <> o /\ is_Some (mads st !! o')) as Hdel.
    { intros o' [m' [Hn Hm']%lookup_delete_Some]. split; [done|by eexists]. }
    assert (place_inv (set_curr (if bool_decide (curr_madhava_ st = Some o) then None else curr_madhava_ st) (curr_madhava_id_ st)
      (set_tbl (delete o (mads st)) (next_obj st) (delete id (madhava_tbl_ st)) (last_new_madhava_cusec_ st) st))) as Hp.
    { split; cbn; try done.
      - intros id' o'. destruct (decide (o' = o)) as [->|Hn].
        + rewrite (lookup_delete_eq (mads st)). split; [|done]. intros [Hne Hl]%lookup_delete_Some. exfalso. apply H1 in Hl. rewrite Em in Hl.
          cbn in Hl. congruence.
        + rewrite (lookup_delete_ne (mads st)) by done. rewrite <- H1. destruct (decide (id' = id)) as [->|Hi]; [|by rewrite lookup_delete_ne].
          rewrite lookup_delete_eq, Et. split; [done|intros [= E]; by destruct Hn].
      - intros o' [_ Ho']%Hdel. by apply H2.
      - intros o'. case_bool_decide as Eo; [done|]. intros Ho'. rewrite lookup_delete_ne by (intros ->; congruence). by apply H3.
      - intros k p Hp. destruct (H4 k p Hp) as [Hw Hi]. split; [done|]. intros m' [_ Hm']%lookup_delete_Some. by apply Hi.
      - intros o' m' [_ Hm']%lookup_delete_Some. by apply (H6 o'). }
    cbn [set_tbl curr_madhava_ fst]. destruct (bool_decide (curr_madhava_ st = Some o)); [exact Hp|by destruct Hp].
  - apply place_inv_mads; [done|by eapply same_ids_insert|apply conns_ok_insert; [apply H|exact (pi_conns st H o m ltac:(done))]].
Qed.

Lemma sync_inv e st : place_inv st -> place_inv (sync_partha_madhava_node_stats e st).
Proof.
  intros H. unfold sync_partha_madhava_node_stats.
  assert (forall l acc, place_inv acc.1.1 -> place_inv (foldl (sync_one e) acc l).1.1) as Hf.
  { induction l as [|id l IH]; intros acc Ha; [done|]. apply IH. by apply sync_one_inv. }
  specialize (Hf (e_order e) (st, 0, 0) H). destruct (foldl _ _ _) as [[st' nd] nm]. cbn [fst] in Hf. by destruct Hf.
Qed.

Lemma cleanup_inv e t st : place_inv st -> place_inv (cleanup_db_partha_entries e t st).
Proof.
  intros H. unfold cleanup_db_partha_entries. set (tm := if (_ : bool) then 0 else _).
  assert (forall l acc, place_inv acc.1 -> place_inv (foldl (cleanup_db_one (e_time e) tm) acc l).1) as Hf.
  { induction l as [|k l IH]; intros [s nd] Ha; [done|]. apply IH. unfold cleanup_db_one. case_if; [done|].
    destruct (pardbmap_ s !! k); [|done]. case_if; [|done]. apply place_inv_hosts; [done|apply delete_apart, Ha|apply Ha]. }
  specialize (Hf (e_hosts e) (st, 0) H). destruct (foldl _ _ _) as [st' nd]. cbn [fst] in Hf. revert st' nd Hf.
  induction (e_hosts e) as [|k l IH]; intros s nd Hs; [done|]. cbn [cleanup_hosts]. destruct (partha_tbl_ s !! k) as [p|]; [|by apply IH].
  case_if; [|by apply IH]. assert (place_inv (set_hosts (delete k (partha_tbl_ s)) (pardbmap_ s) s)) as Hd.
  { apply place_inv_hosts; [done| |].
    - intros k' [p' [_ Hk']%lookup_delete_Some]. apply Hs. by eexists.
    - intros k' p' [_ Hk']%lookup_delete_Some. by apply (pi_host s Hs k'). }
  case_if; [by apply IH|done].
Qed.

(** ** Runs *)
Section Runs.
Context (gy_cityhash64 : list Z -> Z) (min_madhava_ : Z).

Inductive place_step (st : SHSTATE) : SHSTATE -> Prop :=
  | StPartha e q st' l : handle_misc_partha_reg gy_cityhash64 min_madhava_ e q st = Acc (st', l) -> place_step st st'
  | StMadhava e q conn addr : addr_free addr st -> place_step st (handle_misc_madhava_reg e q conn addr st).1
  | StStatus e o id n : place_step st (madhava_status e o id n st)
  | StDestroyed e o conn : place_step st (conn_destroyed e o conn st)
  | StRegPartha e o hosts : place_step st (handle_madhava_reg_partha e o hosts st)
  | StPing e o hosts : place_step st (handle_ms_partha_ping e o hosts st)
  | StSync e : place_step st (sync_partha_madhava_node_stats e st)
  | StCleanup e t : place_step st (cleanup_db_partha_entries e t st).

(** The start: the hosts that the database knows. *)
Definition start (db : gmap machine_id ParthaDbStat) : SHSTATE := ShState ∅ 0 ∅ ∅ db None 0 0 0 0.

Lemma start_inv db : place_inv (start db).
Proof.
  split; cbn; try done; intros o [m Hm]; by rewrite lookup_empty in Hm.
Qed.

Lemma place_step_inv st st' : place_step st st' -> place_inv st -> place_inv st'.
Proof.
  intros Hs H. destruct Hs; auto using madhava_reg_inv, status_inv, destroyed_inv, reg_partha_inv, ping_inv, sync_inv, cleanup_inv.
  destruct (partha_reg_inv gy_cityhash64 min_madhava_ e q st H) as (st1 & l1 & E & H1). rewrite E in H0. by injection H0 as <- <-.
Qed.

Lemma reachable_place_inv db st : rtc place_step (start db) st -> place_inv st.
Proof. intros Hr. pose proof (start_inv db) as H0. revert H0. induction Hr as [st|st st1 st2 Hs _ IH]; [done|]. intros H. apply IH. by eapply place_step_inv. Qed.
End Runs.

(** ** The choice is the best one *)
(** A recent status, and room for one more host when the tries of the last passes, also
    refused ones, are counted as hosts given, as the code counts them. *)
Definition has_room (e : env) (m : MADHAVA_INFO) : bool :=
  (last_status_csec_ m >? min_status_csec e) && (npartha_nodes_ m + (curr_par_adds_ m + 1) + last_par_adds_ m <? max_partha_nodes_ m).

(** How far a madhava is from the host: same zone, same region, elsewhere.  A host
    without region or zone has no preference. *)
Definition rank (q : PS_REGISTER_REQ) (m : MADHAVA_INFO) : Z :=
  if negb (bool_decide (rq_region q <> []) && bool_decide (rq_zone q <> [])) then 0 else
  if bool_decide (rq_region q <> m_region_name_ m) then 2 else if bool_decide (rq_zone q <> m_zone_name_ m) then 1 else 0.

Definition counts_ok (t : gmap Z MADHAVA_INFO) : Prop := forall o m, t !! o = Some m -> madhava_id_ m <> 0 /\
  0 <= npartha_nodes_ m < 2 ^ 30 /\ 0 <= curr_par_adds_ m < 2 ^ 30 /\ 0 <= last_par_adds_ m < 2 ^ 30 /\ 0 <= max_partha_nodes_ m < 2 ^ 30.

Section Best.
Context (e : env) (q : PS_REGISTER_REQ) (t0 : gmap Z MADHAVA_INFO).

(** An object during the scan: only its count of additions may have grown, by at most
    [n], and then it had no room. *)
Definition grown (n : Z) (m m' : MADHAVA_INFO) : Prop :=
  exists c, m' = set_adds c (last_par_adds_ m) m /\ curr_par_adds_ m <= c <= curr_par_adds_ m + n /\ (c = curr_par_adds_ m \/ has_room e m = false).
Definition track (n : Z) (s : scan) : Prop :=
  (forall o m, t0 !! o = Some m -> exists m', s_mads s !! o = Some m' /\ grown n m m') /\ (forall o, t0 !! o = None -> s_mads s !! o = None) /\
  0 <= regionerr s /\ 0 <= zoneerr s.

Lemma grown_refl n m : 0 <= n -> grown n m m.
Proof. intros Hn. exists (curr_par_adds_ m). split_and!; [by destruct m|lia|lia|by left]. Qed.

Lemma grown_mono n n' m m' : n <= n' -> grown n m m' -> grown n' m m'.
Proof. intros Hn (c & ? & ? & ?). exists c. split_and!; [done|lia|lia|done]. Qed.

Lemma track_mono n n' s : n <= n' -> track n s -> track n' s.
Proof. intros Hn (H1 & H2 & H3). split_and!; try done; [|apply H3..]. intros o m Ho. destruct (H1 o m Ho) as (m' & ? & ?). exists m'. split; [done|by eapply grown_mono]. Qed.

(** Whether a madhava is passed over because of its region or zone. *)
Definition passes (iz ir : bool) (m : MADHAVA_INFO) : bool :=
  if ir then true else if iz then rank q m <=? 1 else rank q m =? 0.

(** A madhava with room is passed over only because of its place, which is counted. *)
Definition passed_over (iz ir : bool) (s : scan) (m : MADHAVA_INFO) : Prop :=
  has_room e m = true -> passes iz ir m = false /\ (rank q m = 2 -> 0 < regionerr s) /\ (rank q m = 1 -> 0 < zoneerr s).
Definition errs_le (s s' : scan) : Prop := regionerr s <= regionerr s' /\ zoneerr s <= zoneerr s'.

Lemma passed_over_mono iz ir s s' m : errs_le s s' -> passed_over iz ir s m -> passed_over iz ir s' m.
Proof. intros [H1 H2] H Hr. destruct (H Hr) as (? & Hx & Hy). split_and!; [done|intros E; specialize (Hx E); lia|intros E; specialize (Hy E); lia]. Qed.

(** The madhava that is found. *)
Definition found_at (iz ir : bool) (s : scan) (o : Z) : Prop := exists m, t0 !! o = Some m /\ has_room e m = true /\ passes iz ir m = true /\
  s_mads s !! o = Some (set_adds (curr_par_adds_ m + 1) (last_par_adds_ m) m).

Lemma check_tracked iz ir n o s m : counts_ok t0 -> track n s -> 0 <= n <= 2 ^ 29 -> t0 !! o = Some m ->
  let r := check_madhava q (min_status_csec e) 0 iz ir o s in
  if r.2 then found_at iz ir r.1 o else track (n + 1) r.1 /\ errs_le s r.1 /\ passed_over iz ir r.1 m.
Proof.
  intros Hc Ht Hn Ho. destruct (Hc o m Ho) as (Hid & Hb1 & Hb2 & Hb3 & Hb4). assert (Ht' := Ht). destruct Ht as (T1 & T2 & T3 & T4).
  destruct (T1 o m Ho) as (m' & Hm' & c & -> & Hcb & Hroom). unfold check_madhava. rewrite Hm'. cbn zeta. cbn [madhava_id_ set_adds last_status_csec_].
  rewrite (proj2 (Z.eqb_neq _ _) Hid). cbn [negb andb].
  assert (track (n + 1) s) as Htn by (by apply (track_mono n); [lia|]).
  destruct (last_status_csec_ m >? min_status_csec e) eqn:Ef; cbn [negb].
  2:{ split_and!; [done|split; cbn; lia|]. intros Hr. unfold has_room in Hr. by rewrite Ef in Hr. }
  set (named := bool_decide (rq_region q <> []) && bool_decide (rq_zone q <> [])). cbn [m_region_name_ m_zone_name_ set_adds].
  assert (rank q m = if negb named then 0 else if bool_decide (rq_region q <> m_region_name_ m) then 2
    else if bool_decide (rq_zone q <> m_zone_name_ m) then 1 else 0) as Hrank by done.
  destruct (named && negb ir && bool_decide (rq_region q <> m_region_name_ m)) eqn:E1.
  { apply andb_true_iff in E1 as [[En Eir]%andb_true_iff Er]. rewrite En, Er in Hrank. cbn in Hrank. destruct ir; [done|]. cbn [fst snd].
    split_and!; [destruct Htn as (Q1 & Q2 & _); unfold track; split_and!; cbn; [exact Q1|exact Q2|lia|lia]|split; cbn; lia|]. intros _. unfold passes. rewrite Hrank. split_and!; [by destruct iz|cbn; lia|done]. }
  destruct (named && negb ir && negb iz && bool_decide (rq_zone q <> m_zone_name_ m)) eqn:E2.
  { apply andb_true_iff in E2 as [[[En Eir]%andb_true_iff Eiz]%andb_true_iff Ez]. rewrite En, Eir in E1. cbn in E1.
    rewrite En, E1, Ez in Hrank. cbn in Hrank. destruct ir, iz; try done. cbn [fst snd].
    split_and!; [destruct Htn as (Q1 & Q2 & _); unfold track; split_and!; cbn; [exact Q1|exact Q2|lia|lia]|split; cbn; lia|]. intros _. unfold passes. rewrite Hrank. split_and!; [done|done|cbn; lia]. }
  assert (passes iz ir m = true) as Hpass.
  { unfold passes. destruct ir; [done|]. cbn [negb] in *. rewrite !andb_true_r in *. rewrite Hrank. destruct named; [|by destruct iz].
    cbn [andb negb] in *. rewrite E1. destruct iz; [by case_if|]. cbn in E2. by rewrite E2. }
  cbn [npartha_nodes_ max_partha_nodes_ curr_par_adds_ last_par_adds_ set_adds].
  rewrite (wrap_id 32 (c + 1)), !(wrap_id 32) by (unfold in_width; lia).
  assert (has_room e m = (npartha_nodes_ m + (curr_par_adds_ m + 1) + last_par_adds_ m <? max_partha_nodes_ m)) as Hr by (unfold has_room; by rewrite Ef).
  destruct (npartha_nodes_ m + 1 <? max_partha_nodes_ m) eqn:Eg; breflect.
  2:{ split_and!; [done|split; cbn; lia|]. intros H. rewrite Hr in H. breflect. lia. }
  destruct (npartha_nodes_ m + (c + 1) + last_par_adds_ m <? max_partha_nodes_ m) eqn:Eh; breflect.
  - assert (c = curr_par_adds_ m) as ->. { destruct Hroom as [->|Hx]; [done|]. rewrite Hr in Hx. breflect. lia. }
    cbn [fst snd]. exists m. split_and!; [done|rewrite Hr; apply Z.ltb_lt; lia|done|]. cbn. by rewrite lookup_insert_eq.
  - split_and!; [unfold track; split_and!; cbn; [| |lia|lia]|split; cbn; lia|].
    + intros o' m1 Ho1. destruct (decide (o' = o)) as [->|Hne].
      * rewrite Ho in Ho1. injection Ho1 as <-. rewrite lookup_insert_eq. eexists. split; [done|]. exists (c + 1). split_and!; [done|lia|lia|].
        right. destruct Hroom as [->|Hx]; [|done]. rewrite Hr. apply Z.ltb_ge. lia.
      * rewrite lookup_insert_ne by done. destruct (T1 o' m1 Ho1) as (m2 & ? & ?). exists m2. split; [done|]. by eapply grown_mono; [|done]; lia.
    + intros o' Ho'. rewrite lookup_insert_ne by congruence. by apply T2.
    + intros Hx. rewrite Hr in Hx. destruct Hroom as [->|Hy]; [breflect; lia|]. rewrite Hr in Hy. congruence.
Qed.

Lemma walk_tracked tbl iz ir order : counts_ok t0 -> (forall id o, tbl !! id = Some o -> is_Some (t0 !! o)) ->
  forall n s, track n s -> 0 <= n -> n + Z.of_nat (length order) <= 2 ^ 29 ->
  let r := walk_mads tbl (check_madhava q (min_status_csec e) 0 iz ir) order s in
  match r.2 with
  | Some o => found_at iz ir r.1 o
  | None => track (n + Z.of_nat (length order)) r.1 /\ errs_le s r.1 /\
      forall id o m, id ∈ order -> tbl !! id = Some o -> t0 !! o = Some m -> passed_over iz ir r.1 m
  end.
Proof.
  intros Hc Htbl. induction order as [|id order IH]; intros n s Ht Hn Hlen; cbn zeta.
  { cbn. rewrite Z.add_0_r. split_and!; [done|split; cbn; lia|]. intros id o m Hin. by apply elem_of_nil in Hin. }
  cbn [length] in Hlen. rewrite Nat2Z.inj_succ in Hlen. cbn [walk_mads]. destruct (tbl !! id) as [o|] eqn:Et.
  - destruct (Htbl id o Et) as [m Hm]. pose proof (check_tracked iz ir n o s m Hc Ht ltac:(lia) Hm) as Hck. cbn zeta in Hck.
    destruct (check_madhava _ _ _ _ _ _ _) as [s1 b]. cbn [fst snd] in Hck. destruct b; [done|]. destruct Hck as (T1 & E1 & P1).
    specialize (IH (n + 1) s1 T1 ltac:(lia) ltac:(lia)). cbn zeta in IH. destruct (walk_mads _ _ _ _) as [s2 [o'|]]; cbn [fst snd] in *; [done|].
    destruct IH as (T2 & E2 & P2). cbn [length]. rewrite Nat2Z.inj_succ. split_and!; [by eapply track_mono; [|done]; lia|unfold errs_le in *; lia|].
    intros id' o' m' [->|Hin]%elem_of_cons Hi Hm'; [|by apply (P2 id' o')]. rewrite Et in Hi. injection Hi as ->. rewrite Hm in Hm'. injection Hm' as ->.
    by eapply passed_over_mono.
  - specialize (IH n s Ht Hn ltac:(lia)). cbn zeta in IH. destruct (walk_mads _ _ _ _) as [s2 [o'|]]; cbn [fst snd] in *; [done|].
    destruct IH as (T2 & E2 & P2). cbn [length]. rewrite Nat2Z.inj_succ. split_and!; [by eapply track_mono; [|done]; lia|done|].
    intros id' o' m' [->|Hin]%elem_of_cons Hi Hm'; [congruence|by apply (P2 id' o')].
Qed.

Lemma rank_range m : rank q m = 0 \/ rank q m = 1 \/ rank q m = 2.
Proof. unfold rank. repeat case_if; auto. Qed.

(** The madhava that is found is nearest among those with room. *)
Definition nearest (s : scan) (o : Z) : Prop := exists m, t0 !! o = Some m /\ has_room e m = true /\
  s_mads s !! o = Some (set_adds (curr_par_adds_ m + 1) (last_par_adds_ m) m) /\
  forall o' m', t0 !! o' = Some m' -> has_room e m' = true -> rank q m <= rank q m'.

Lemma found_nearest iz ir s o k : found_at iz ir s o -> (forall m, passes iz ir m = true -> rank q m <= k) ->
  (forall o' m', t0 !! o' = Some m' -> has_room e m' = true -> k <= rank q m') -> nearest s o.
Proof.
  intros (m & Hm & Hr & Hp & Hs) Hk Ho. exists m. split_and!; [done..|]. intros o' m' Hm' Hr'. specialize (Hk m Hp). specialize (Ho o' m' Hm' Hr'). lia.
Qed.

Lemma walk_all_best tbl n s : counts_ok t0 -> (forall id o, tbl !! id = Some o -> is_Some (t0 !! o)) ->
  (forall o m, t0 !! o = Some m -> exists id, id ∈ e_order e /\ tbl !! id = Some o) -> track n s -> 0 <= n -> n + 3 * Z.of_nat (length (e_order e)) <= 2 ^ 29 ->
  let r := walk_all e tbl q 0 s in
  match r.2 with Some o => nearest r.1 o | None => forall o m, t0 !! o = Some m -> has_room e m = false end.
Proof.
  intros Hc Htbl Hcov Ht Hn Hlen. cbn zeta. unfold walk_all. set (len := Z.of_nat (length (e_order e))) in *.
  assert (0 <= len) as Hl0 by (unfold len; lia).
  pose proof (walk_tracked tbl false false (e_order e) Hc Htbl n s Ht Hn ltac:(fold len; lia)) as W1. cbn zeta in W1. fold len in W1.
  destruct (walk_mads _ _ _ s) as [s1 [o|]]; cbn [fst snd] in *.
  { apply (found_nearest _ _ _ _ 0 W1); [|intros o' m' _ _; destruct (rank_range m') as [->|[->| ->]]; lia].
    unfold passes. intros m Hm. breflect. lia. }
  destruct W1 as (T1 & E1 & P1).
  assert (forall o m, t0 !! o = Some m -> passed_over false false s1 m) as Q1 by (intros o m Hm; destruct (Hcov o m Hm) as (id & ? & ?); by apply (P1 id o)).
  assert (forall o m, t0 !! o = Some m -> has_room e m = true -> 1 <= rank q m) as R1.
  { intros o m Hm Hr. destruct (Q1 o m Hm Hr) as (Hp & _). unfold passes in Hp. destruct (rank_range m) as [E|[->| ->]]; [by rewrite E in Hp|lia..]. }
  assert (let r := if zoneerr s1 >? 0 then walk_mads tbl (check_madhava q (min_status_csec e) 0 true false) (e_order e) s1 else (s1, None) in
    match r.2 with Some o => nearest r.1 o | None => track (n + 2 * len) r.1 /\ (forall o m, t0 !! o = Some m -> has_room e m = true -> 2 <= rank q m /\ 0 < regionerr r.1) end) as W2.
  { cbn zeta. destruct (zoneerr s1 >? 0) eqn:Ez.
    - pose proof (walk_tracked tbl true false (e_order e) Hc Htbl (n + len) s1 T1 ltac:(lia) ltac:(fold len; lia)) as W2. cbn zeta in W2. fold len in W2.
      destruct (walk_mads _ _ _ s1) as [s2 [o|]]; cbn [fst snd] in *.
      + apply (found_nearest _ _ _ _ 1 W2); [|done]. unfold passes. intros m Hm. breflect. lia.
      + destruct W2 as (T2 & E2 & P2). split; [by eapply track_mono; [|done]; lia|]. intros o m Hm Hr. destruct (Hcov o m Hm) as (id & Hin & Hid).
        destruct (P2 id o m Hin Hid Hm Hr) as (Hp & Hx & _). unfold passes in Hp. breflect. assert (rank q m = 2) as E by (destruct (rank_range m) as [?|[?|?]]; lia).
        split; [lia|]. by apply Hx.
    - cbn [fst snd]. split; [by eapply track_mono; [|done]; lia|]. intros o m Hm Hr. destruct (Q1 o m Hm Hr) as (Hp & Hx & Hy). specialize (R1 o m Hm Hr).
      rewrite Z.gtb_ltb in Ez. breflect. destruct (rank_range m) as [E|[E|E]]; [lia|specialize (Hy E); lia|]. split; [lia|by apply Hx]. }
  cbn zeta in W2. destruct (if zoneerr s1 >? 0 then _ else _) as [s2 [o|]]; cbn [fst snd] in W2 |- *; [done|]. destruct W2 as (T2 & R2).
  assert (let r := if regionerr s2 >? 0 then walk_mads tbl (check_madhava q (min_status_csec e) 0 (zoneerr s1 >? 0) true) (e_order e) s2 else (s2, None) in
    match r.2 with Some o => nearest r.1 o | None => forall o m, t0 !! o = Some m -> has_room e m = false end) as W3.
  { cbn zeta. destruct (regionerr s2 >? 0) eqn:Er.
    - pose proof (walk_tracked tbl (zoneerr s1 >? 0) true (e_order e) Hc Htbl (n + 2 * len) s2 T2 ltac:(lia) ltac:(fold len; lia)) as W3. cbn zeta in W3.
      destruct (walk_mads _ _ _ s2) as [s3 [o|]]; cbn [fst snd] in *.
      + apply (found_nearest _ _ _ _ 2 W3); [|intros o' m' Hm' Hr'; by apply (R2 o' m')]. intros m _. destruct (rank_range m) as [->|[->| ->]]; lia.
      + destruct W3 as (_ & _ & P3). intros o m Hm. destruct (has_room e m) eqn:Hr; [|done]. destruct (Hcov o m Hm) as (id & Hin & Hid).
        by destruct (P3 id o m Hin Hid Hm Hr) as (Hp & _).
    - cbn [fst snd]. intros o m Hm. destruct (has_room e m) eqn:Hr; [|done]. destruct (R2 o m Hm Hr). rewrite Z.gtb_ltb in Er. breflect. lia. }
  cbn zeta in W3. destruct (if regionerr s2 >? 0 then _ else _) as [s3 [o|]]; cbn [fst snd] in W3 |- *; [done|]. cbn. done.
Qed.
End Best.

Lemma track_start e t n : track e t 0 (Scan t n 0 0).
Proof. unfold track. split_and!; cbn; [|done|lia|lia]. intros o m Ho. exists m. split; [done|]. by apply grown_refl. Qed.

(** The result of one more check, that of the madhava of the host before or of the
    current madhava. *)
Lemma check_one_best e q t0 n s (oo : option Z) : counts_ok t0 -> track e t0 n s -> 0 <= n <= 2 ^ 29 -> (forall o, oo = Some o -> is_Some (t0 !! o)) ->
  let r := match oo with Some o => let '(s, b) := check_madhava q (min_status_csec e) 0 false false o s in (s, if b : bool then Some o else None) | None => (s, None) end in
  match r.2 with Some o => nearest e q t0 r.1 o | None => track e t0 (n + 1) r.1 end.
Proof.
  intros Hc Ht Hn Ho. destruct oo as [o|]; cbn zeta; [|cbn; by eapply track_mono; [|done]; lia].
  destruct (Ho o eq_refl) as [m Hm]. pose proof (check_tracked e q t0 false false n o s m Hc Ht Hn Hm) as H. cbn zeta in H.
  destruct (check_madhava _ _ _ _ _ _ _) as [s1 b]. cbn [fst snd] in *. destruct b; [|apply H].
  apply (found_nearest e q t0 _ _ _ _ 0 H); [unfold passes; intros m' Hm'; breflect; lia|].
  intros o' m' _ _. destruct (rank_range q m') as [->|[->| ->]]; lia.
Qed.

Lemma nearest_room e q t0 s o : counts_ok t0 -> nearest e q t0 s o -> exists m m', t0 !! o = Some m /\ s_mads s !! o = Some m' /\
  has_room e m = true /\ npartha_nodes_ m' + curr_par_adds_ m' + last_par_adds_ m' < max_partha_nodes_ m' /\
  forall o' m', t0 !! o' = Some m' -> has_room e m' = true -> rank q m <= rank q m'.
Proof.
  intros Hc (m & Hm & Hr & Hs & Hn). eexists m, _. split_and!; [done..| |done]. cbn. unfold has_room in Hr. breflect. lia.
Qed.

(** C17 : a host that is new or has lost its madhava is given a madhava with a recent
    status that has room for it even when every try of the last passes is counted as a host
    given, and no madhava with this room is nearer: those of its region and zone come first,
    then those of its region, then the others.  When none is given, no madhava has room
    when the tries are counted as hosts.  (The counters [curr_par_adds_] and
    [last_par_adds_] grow with refused tries too; a madhava that has room only when these
    are not counted may be passed over.)  The counts are below 2^30, the walk visits every
    madhava of the table and there are at most 2^27. *)
Theorem partha_gets_nearest e q st : place_inv st -> counts_ok (mads st) ->
  (forall id, is_Some (madhava_tbl_ st !! id) -> id ∈ e_order e) -> Z.of_nat (length (e_order e)) <= 2 ^ 27 ->
  let r := assign_partha_madhava e q 0 st in
  match r.2 with
  | Some o => exists m m', mads st !! o = Some m /\ mads r.1 !! o = Some m' /\ has_room e m = true /\
      npartha_nodes_ m' + curr_par_adds_ m' + last_par_adds_ m' < max_partha_nodes_ m' /\
      forall o' m', mads st !! o' = Some m' -> has_room e m' = true -> rank q m <= rank q m'
  | None => forall o m, mads st !! o = Some m -> has_room e m = false
  end.
Proof.
  intros H Hc Hcov Hlen. cbn zeta. unfold assign_partha_madhava.
  assert (forall id o, madhava_tbl_ st !! id = Some o -> is_Some (mads st !! o)) as Htbl.
  { intros id o Ho. apply H in Ho. destruct (mads st !! o) as [m|]; [by eexists|done]. }
  assert (forall o m, mads st !! o = Some m -> exists id, id ∈ e_order e /\ madhava_tbl_ st !! id = Some o) as Hcov'.
  { intros o m Hm. exists (madhava_id_ m). assert (madhava_tbl_ st !! madhava_id_ m = Some o) as Ht by (apply H; by rewrite Hm).
    split; [|done]. apply Hcov. by eexists. }
  set (s0 := Scan _ _ 0 0). set (st1 := set_hosts _ _ st).
  set (r1 := match pardbmap_ st !! rq_machid q with None => _ | Some d => _ end).
  assert (match r1.2 with Some o => nearest e q (mads st) r1.1 o | None => track e (mads st) 1 r1.1 end) as H1.
  { assert (track e (mads st) 1 s0) as T1 by (eapply track_mono; [|by apply (track_start e)]; lia).
    unfold r1. destruct (pardbmap_ st !! rq_machid q) as [d|]; [|done]. case_if; [done|].
    pose proof (check_one_best e q (mads st) 0 s0 (madhava_tbl_ st1 !! db_madhava_id_ d) Hc (track_start e _ _) ltac:(lia)) as Hx. cbn zeta in Hx.
    destruct (madhava_tbl_ st1 !! db_madhava_id_ d) as [o|] eqn:Eo; [|done]. apply Hx. intros o' [= <-]. by apply (Htbl (db_madhava_id_ d)). }
  destruct r1 as [s1 [o|]]; cbn [fst snd] in H1; [by apply nearest_room|].
  pose proof (check_one_best e q (mads st) 1 s1 (curr_madhava_ st1) Hc H1 ltac:(lia) (pi_curr st H)) as H2. cbn zeta in H2.
  set (r2 := match curr_madhava_ st1 with None => _ | Some o => _ end) in *.
  destruct r2 as [s2 [o|]]; cbn [fst snd] in H2; [by apply nearest_room|].
  pose proof (walk_all_best e q (mads st) (madhava_tbl_ st1) 2 s2 Hc Htbl Hcov' H2 ltac:(lia) ltac:(lia)) as H3. cbn zeta in H3.
  destruct (walk_all _ _ _ _ _) as [s3 [o|]]; cbn [fst snd] in H3 |- *; [by apply nearest_room|done].
Qed.

(** ** What a host is told *)

(** The madhava [o] has been sent the key of the response on one of its connections,
    before the response. *)
Definition key_sent (e : env) (q : PS_REGISTER_REQ) (is_new : bool) (o : Z) (r : PS_REGISTER_RESP) (st' : SHSTATE) (l : list sh_msg) : Prop :=
  exists conn m, mads st' !! o = Some m /\ conn_of_kind (e_live e) CLI_TYPE_RESP_REQ (conn_list m) conn /\
    l = [SM_PARTHA_IDENT conn (rq_machid q) (rs_ident_key r) (e_time e + 300) is_new (rq_hostname q); PS_RESPONSE r].

Lemma send_madhava_key_spec e q o b r0 st st' l r : place_inv st -> is_Some (mads st !! o) -> send_madhava_key e q o b r0 st = Acc (st', l) ->
  PS_RESPONSE r ∈ l -> error_code_ r = ERR_SUCCESS -> r = r0 /\ key_sent e q b o r0 st' l.
Proof.
  intros H [m Hm] E Hr He. unfold send_madhava_key in E. rewrite Hm in E. destruct (pi_conns st H o m Hm) as [Hc Hn]. unfold MAX_PERSISTENT_CONNS_PER_HOST in Hn.
  destruct (get_last_conn_ok (e_live e) CLI_TYPE_RESP_REQ (e_time e) (e_usec_time e) (conn_list m) Hc ltac:(lia)) as (c & shr & Eg & _ & _ & Hk).
  rewrite Eg in E. cbn [acc_bind] in E. assert (forall r1, PS_RESPONSE r ∈ send_par e r1 -> r = r1 /\ send_par e r1 = [PS_RESPONSE r1]) as Hp.
  { unfold send_par. intros r1. case_if; [|by intros ?%elem_of_nil]. by intros [= ->]%list_elem_of_singleton. }
  destruct shr as [conn|].
  - injection E as <- <-. apply elem_of_cons in Hr as [Hr|Hr]; [done|]. destruct (Hp _ Hr) as [-> Es]. rewrite Es. destruct (e_mad_l1 e); [|done].
    split; [done|]. exists conn, (set_conns (e_usec_time e) c m). split_and!; [apply lookup_insert_eq|by apply Hk|done].
  - injection E as <- <-. by destruct (Hp _ Hr) as [-> _].
Qed.

Section RegSpec.
Context (gy_cityhash64 : list Z -> Z) (min_madhava_ : Z).
Abbreviation reg := (handle_misc_partha_reg gy_cityhash64 min_madhava_).

(** The host is known and shyama does not give it another madhava. *)
Definition known_host (e : env) (q : PS_REGISTER_REQ) (st : SHSTATE) (p : PARTHA_INFO) (m : MADHAVA_INFO) : Prop :=
  partha_tbl_ st !! rq_machid q = Some p /\ mads st !! madhava_weak_ p = Some m /\ not_accepted e q p m = false.

Lemma reg_cases e q st st' l : place_inv st -> reg e q st = Acc (st', l) ->
  (exists p m, known_host e q st p m /\
     send_madhava_key e q (madhava_weak_ p) false
       (PsRegisterResp ERR_SUCCESS (ident_key gy_cityhash64 (upd_pinfo q p) (e_usec_time e)) (e_time e + 300 - 5) (madhava_id_ m) (listener_port_ m).2 (listener_port_ m).1
          (madhava_name_ m))
       (set_hosts (<[rq_machid q := set_ident_key gy_cityhash64 (e_usec_time e) (upd_pinfo q p)]> (partha_tbl_ st)) (pardbmap_ st) st) = Acc (st', l)) \/
  ((forall p m, ~ known_host e q st p m) /\ (
    (exists c, c <> ERR_SUCCESS /\ l = send_par e (error_resp c)) \/
    (exists o m st2, assign_partha_madhava e q 0 st = (st2, Some o) /\ partha_tbl_ st !! rq_machid q = None /\ mads st2 !! o = Some m /\
       let p := set_ident_key gy_cityhash64 (e_usec_time e) (set_madhava o (madhava_id_ m) (upd_pinfo q (new_pinfo (e_time e)))) in
       send_madhava_key e q o true (PsRegisterResp ERR_SUCCESS (partha_ident_key_ p) 0 (madhava_id_ m) (listener_port_ m).2 (listener_port_ m).1 [])
         (set_hosts (<[rq_machid q := p]> (partha_tbl_ st2)) (pardbmap_ st2) st2) = Acc (st', l)))).
Proof.
  intros H. unfold handle_misc_partha_reg, known_host. destruct (partha_tbl_ st !! rq_machid q) as [p|] eqn:Ep.
  - destruct (mads st !! madhava_weak_ p) as [m|] eqn:Em; [destruct (not_accepted e q p m) eqn:En|].
    + cbn [fst snd]. intros E. right. split; [intros p0 m0 (Hp0 & Hm0 & Hn0); try injection Hp0 as <-; congruence|]. left. exists ERR_MADHAVA_UNAVAIL. split; [done|]. cbv beta iota zeta in E. case_if_in E; by injection E as _ <-.
    + intros E. left. exists p, m. by split_and!.
    + intros E. right. split; [intros p0 m0 (Hp0 & Hm0 & Hn0); try injection Hp0 as <-; congruence|]. left. exists ERR_MADHAVA_UNAVAIL. split; [done|]. cbv beta iota zeta in E. case_if_in E; by injection E as _ <-.
  - intros E. right. split; [intros p0 m0 (Hp0 & Hm0 & Hn0); try injection Hp0 as <-; congruence|].
    cbv beta iota zeta in E. case_if_in E; [left; exists ERR_MADHAVA_UNAVAIL; by injection E as _ <-|]. case_if_in E; [left; exists ERR_MADHAVA_UNAVAIL; by injection E as _ <-|].
    destruct (assign_partha_madhava e q 0 st) as [st2 r] eqn:Ea.
    destruct r as [o|]; [|left; exists ERR_MADHAVA_UNAVAIL; by injection E as _ <-]. cbn in E.
    destruct (mads st2 !! o) as [m|] eqn:Em; cbn in E; [|left; exists ERR_MADHAVA_UNAVAIL; by injection E as _ <-].
    right. exists o, m, st2. by split_and!.
Qed.

(** C18 : when a host is told that it is registered, the madhava it is told to use is
    alive, is the one recorded for the host, and has been sent the key of the host on a
    connection of its own, before the host is told; a host that is known keeps its
    madhava, and its key is good for five minutes. *)
Theorem registration_consistent e q st st' l r : place_inv st -> reg e q st = Acc (st', l) -> PS_RESPONSE r ∈ l -> error_code_ r = ERR_SUCCESS ->
  exists p m is_new, partha_tbl_ st' !! rq_machid q = Some p /\ mads st' !! madhava_weak_ p = Some m /\
    rs_madhava_id r = madhava_id_ m /\ p_madhava_id_ p = madhava_id_ m /\ rs_ident_key r = partha_ident_key_ p /\
    key_sent e q is_new (madhava_weak_ p) r st' l /\
    (forall p0 m0, known_host e q st p0 m0 -> is_new = false /\ madhava_weak_ p = madhava_weak_ p0 /\ madhava_expiry_sec_ r = e_time e + 295).
Proof.
  intros H E Hr He. destruct (reg_cases e q st st' l H E) as [(p & m & Hk & Es)|(Hk & [(c & Hc & ->)|(o & m & st2 & Ea & Hn & Hm & Es)])].
  - destruct Hk as (Hp & Hm & Hna). set (p' := set_ident_key gy_cityhash64 (e_usec_time e) (upd_pinfo q p)) in *. set (st1 := set_hosts _ _ st) in *.
    assert (place_inv st1) as H1.
    { destruct (pi_host st H _ _ Hp) as [Hw Hi]. apply place_inv_host; [done|apply H|apply H; by eexists|done|]. cbn. intros m' Hm'. by apply Hi. }
    destruct (send_madhava_key_spec _ _ _ _ _ _ _ _ _ H1 ltac:(by eexists) Es Hr He) as [-> Hks].
    destruct (send_madhava_key_inv e q (madhava_weak_ p) false (PsRegisterResp ERR_SUCCESS (ident_key gy_cityhash64 (upd_pinfo q p) (e_usec_time e)) (e_time e + 300 - 5)
      (madhava_id_ m) (listener_port_ m).2 (listener_port_ m).1 (madhava_name_ m)) st1 H1) as (st2 & l2 & Es2 & H2 & Ept & Hsame).
    rewrite Es in Es2. injection Es2 as <- <-. destruct Hks as (conn & m' & Hm' & Hconn & El).
    exists p', m', false. assert (madhava_id_ m' = madhava_id_ m) as Hid.
    { specialize (Hsame (madhava_weak_ p)). rewrite Hm' in Hsame. cbn in Hsame. rewrite Hm in Hsame. by injection Hsame. }
    split_and!; [rewrite Ept; apply lookup_insert_eq|done|done| |done|by exists conn, m'|].
    + cbn. destruct (pi_host st H _ _ Hp) as [_ Hi]. specialize (Hi m Hm). by rewrite Hid.
    + intros p0 m0 (Hp0 & _ & _). rewrite Hp in Hp0. injection Hp0 as <-. split_and!; [done|done|cbn; lia].
  - unfold send_par in Hr. destruct (e_par_l1 e); [|by apply elem_of_nil in Hr]. apply list_elem_of_singleton in Hr as [= ->]. by destruct Hc.
  - cbn zeta in Es. set (p' := set_ident_key _ _ _) in *. set (st3 := set_hosts _ _ st2) in *.
    destruct (assign_inv e q 0 st H) as (H2 & _ & _ & Epd & _). rewrite Ea in H2, Epd. cbn [fst] in *. assert (place_inv st3) as H3.
    { apply place_inv_host; [done|apply H2|rewrite Epd; apply lookup_delete_eq|cbn; apply H2; by eexists|]. cbn. intros m' Hm'. congruence. }
    destruct (send_madhava_key_spec _ _ _ _ _ _ _ _ _ H3 ltac:(by eexists) Es Hr He) as [-> Hks].
    destruct (send_madhava_key_inv e q o true (PsRegisterResp ERR_SUCCESS (partha_ident_key_ p') 0 (madhava_id_ m) (listener_port_ m).2 (listener_port_ m).1 []) st3 H3)
      as (st4 & l2 & Es2 & H4 & Ept & Hsame). rewrite Es in Es2. injection Es2 as <- <-. destruct Hks as (conn & m' & Hm' & Hconn & El).
    exists p', m', true. assert (madhava_id_ m' = madhava_id_ m) as Hid.
    { specialize (Hsame o). rewrite Hm' in Hsame. cbn in Hsame. rewrite Hm in Hsame. by injection Hsame. }
    split_and!; [rewrite Ept; apply lookup_insert_eq|done|done|by rewrite Hid|done|by exists conn, m'|]. intros p0 m0 Hk0. by destruct (Hk p0 m0).
Qed.
End RegSpec.

(** C34 : in every state shyama reaches, the table of the madhavas has exactly the
    objects that exist, each under its id; the current madhava exists; the madhava a
    host points to, while it exists, is the one whose id is recorded for the host; no
    host is both registered and kept as a host of the past; the lists of connections
    are sound, so that a registration never follows a dangling pointer. *)
Theorem placement_tables_agree gy_cityhash64 min_madhava_ db st : rtc (place_step gy_cityhash64 min_madhava_) (start db) st ->
  place_inv st /\ forall e q, exists st' l, handle_misc_partha_reg gy_cityhash64 min_madhava_ e q st = Acc (st', l).
Proof.
  intros Hr. pose proof (reachable_place_inv _ _ _ _ Hr) as H. split; [done|]. intros e q.
  destruct (partha_reg_inv gy_cityhash64 min_madhava_ e q st H) as (st' & l & ? & _). by exists st', l.
Qed.

Module PlacementExamples.
Definition ex_env (t c : Z) : env := Env (t * USEC_PER_SEC) (c * USEC_PER_SEC) [10; 20] [] {[ 101; 102 ]} true true.
Definition ex_hash (l : list Z) : Z := foldl Z.add 0 l.

(** Two madhavas of the region [1], in the zones [1] and [2]. *)
Definition ex_mad (id zone : Z) : MS_REGISTER_REQ := MsRegisterReq id [109; id] 1000 [id] [1] [zone] 0 100 3.
Definition ex_st1 : SHSTATE := (handle_misc_madhava_reg (ex_env 1000 100) (ex_mad 10 1) 101 1001 (start ∅)).1.
Definition ex_st2 : SHSTATE := (handle_misc_madhava_reg (ex_env 1000 100) (ex_mad 20 2) 102 1002 ex_st1).1.
Definition ex_status (t c : Z) (st : SHSTATE) : SHSTATE := madhava_status (ex_env t c) 1 20 5 (madhava_status (ex_env t c) 0 10 5 st).
Definition ex_st : SHSTATE := ex_status 1010 110 ex_st2.

(** A host of the zone [2]. *)
Definition ex_q (disconn curr last_id : Z) : PS_REGISTER_REQ := PsRegisterReq (1, 2) [104] [99] [1] [2] disconn curr last_id.

Lemma ex_reachable : rtc (place_step ex_hash 1) (start ∅) ex_st.
Proof.
  eapply rtc_l; [apply (StMadhava ex_hash 1 (start ∅) (ex_env 1000 100) (ex_mad 10 1) 101 1001)|].
  { intros o m Hm. cbn [mads start] in Hm. by rewrite lookup_empty in Hm. }
  eapply rtc_l; [apply (StMadhava ex_hash 1 ex_st1 (ex_env 1000 100) (ex_mad 20 2) 102 1002)|].
  { intros o m Hm. assert (mads ex_st1 = {[ 0 := default (new_madhava (ex_mad 0 0)) (mads ex_st1 !! 0) ]}) as E by (vm_compute; reflexivity).
    rewrite E in Hm. apply lookup_singleton_Some in Hm as [_ <-]. vm_compute. intros H. by inversion H as [|? ? ? H']; subst; inversion H'. }
  eapply rtc_l; [apply StStatus|]. eapply rtc_l; [apply StStatus|]. apply rtc_refl.
Qed.

Lemma placement_tables_agree_witness : place_inv ex_st.
Proof. apply (placement_tables_agree ex_hash 1 ∅ ex_st ex_reachable). Defined.

Lemma ex_inv : place_inv ex_st.
Proof. apply (reachable_place_inv _ _ _ _ ex_reachable). Qed.

Lemma ex_mads : mads ex_st = <[0 := default (new_madhava (ex_mad 0 0)) (mads ex_st !! 0)]> {[ 1 := default (new_madhava (ex_mad 0 0)) (mads ex_st !! 1) ]}.
Proof. vm_compute. reflexivity. Qed.

Lemma ex_counts : counts_ok (mads ex_st).
Proof.
  intros o m. rewrite ex_mads. intros [[_ <-]|[_ [_ <-]%lookup_singleton_Some]]%lookup_insert_Some; vm_compute; repeat split; discriminate.
Qed.

(** The host is given the madhava of its zone. *)
Lemma partha_gets_nearest_witness : (assign_partha_madhava (ex_env 1200 200) (ex_q 0 1200 0) 0 ex_st).2 = Some 1 /\
  exists m, mads ex_st !! 1 = Some m /\ has_room (ex_env 1200 200) m = true /\
    forall o' m', mads ex_st !! o' = Some m' -> has_room (ex_env 1200 200) m' = true -> rank (ex_q 0 1200 0) m <= rank (ex_q 0 1200 0) m'.
Proof.
  assert ((assign_partha_madhava (ex_env 1200 200) (ex_q 0 1200 0) 0 ex_st).2 = Some 1) as E by (vm_compute; reflexivity).
  split; [exact E|]. pose proof (partha_gets_nearest (ex_env 1200 200) (ex_q 0 1200 0) ex_st ex_inv ex_counts) as H. cbn zeta in H.
  rewrite E in H. destruct H as (m & m' & H1 & _ & H2 & _ & H3).
  - intros id [o Ho]. assert (madhava_tbl_ ex_st = <[10 := 0]> {[ 20 := 1 ]}) as Et by (vm_compute; reflexivity).
    rewrite Et in Ho. apply lookup_insert_Some in Ho as [[<- _]|[_ [<- _]%lookup_singleton_Some]]; cbn; set_solver.
  - cbn. lia.
  - exists m. split; [exact H1|]. split; [exact H2|exact H3].
Defined.

(** The registration of the host. *)
Definition ex_reg (t c : Z) (q : PS_REGISTER_REQ) (st : SHSTATE) : SHSTATE * list sh_msg :=
  match handle_misc_partha_reg ex_hash 1 (ex_env t c) q st with Acc r => r | Oob => (st, []) end.
Definition ex_resp (l : list sh_msg) : PS_REGISTER_RESP := match l with [_; PS_RESPONSE r] => r | [PS_RESPONSE r] => r | _ => error_resp 1 end.
Definition ex_r1 : SHSTATE * list sh_msg := ex_reg 1200 200 (ex_q 0 1200 0) ex_st.

Lemma registration_consistent_witness : exists p m is_new, partha_tbl_ ex_r1.1 !! (1, 2) = Some p /\ mads ex_r1.1 !! madhava_weak_ p = Some m /\
  rs_madhava_id (ex_resp ex_r1.2) = madhava_id_ m /\ key_sent (ex_env 1200 200) (ex_q 0 1200 0) is_new (madhava_weak_ p) (ex_resp ex_r1.2) ex_r1.1 ex_r1.2.
Proof.
  destruct (registration_consistent ex_hash 1 (ex_env 1200 200) (ex_q 0 1200 0) ex_st ex_r1.1 ex_r1.2 (ex_resp ex_r1.2) ex_inv)
    as (p & m & b & H1 & H2 & H3 & _ & _ & H4 & _).
  - vm_compute. reflexivity.
  - apply (list_elem_of_lookup_2 _ 1). vm_compute. reflexivity.
  - vm_compute. reflexivity.
  - exists p, m, b. split; [exact H1|]. split; [exact H2|]. split; [exact H3|exact H4].
Defined.

(** The response to a new host does not set the time until which its key is good:
    the host takes the key as expired and registers again. *)
Theorem new_host_key_expired : error_code_ (ex_resp ex_r1.2) = ERR_SUCCESS /\ madhava_expiry_sec_ (ex_resp ex_r1.2) = 0 /\
  let r2 := ex_reg 1201 201 (ex_q 0 1201 0) ex_r1.1 in
  error_code_ (ex_resp r2.2) = ERR_SUCCESS /\ madhava_expiry_sec_ (ex_resp r2.2) = 1201 + 295.
Proof. vm_compute. split_and!; reflexivity. Qed.

(** Half an hour later, still not accepted; and ten seconds after that. *)
Definition ex_rejected : SHSTATE * list sh_msg := ex_reg 5000 4000 (ex_q 1500 5000 20) (ex_status 4990 3990 ex_r1.1).
Definition ex_again : SHSTATE * list sh_msg := ex_reg 5010 4010 (ex_q 1500 5010 20) ex_rejected.1.

(** A host that its madhava has not accepted for half an hour loses it, and is
    given the same madhava when it registers again, although another one has room: the
    id of the madhava to avoid is not kept for the registration that follows. *)
Theorem reassigned_to_same_madhava : rs_madhava_id (ex_resp ex_r1.2) = 20 /\ error_code_ (ex_resp ex_rejected.2) = ERR_MADHAVA_UNAVAIL /\
  error_code_ (ex_resp ex_again.2) = ERR_SUCCESS /\ rs_madhava_id (ex_resp ex_again.2) = 20 /\
  (has_room (ex_env 5010 4010) <$> (mads ex_rejected.1 !! 0)) = Some true.
Proof. vm_compute. split_and!; reflexivity. Qed.
End PlacementExamples.
