(* ===== verification/ObjState.v ===== *)
(** * ObjState : what the classifiers of services, processes and hosts share
      (common/gy_json_field_maps.h, common/gy_common_inc.h, common/gy_statistics.h).

    The states of an object, the eight bit histories of its issues, the difference of
    two readings of a counter, the arrays of the last readings, single precision
    numbers, and the percentile of a histogram by its share. *)
From Stdlib Require Import SpecFloat.
From S2P Require Import Prelude Bytes Doubles Histogram.

#[local] Open Scope Z_scope.

(** ** States *)
Inductive OBJ_STATE_E :=
  | STATE_IDLE | STATE_GOOD | STATE_OK | STATE_BAD | STATE_SEVERE | STATE_DOWN.

#[export] Instance OBJ_STATE_E_eq_dec : EqDecision OBJ_STATE_E.
Proof. solve_decision. Defined.

Definition state_num (s : OBJ_STATE_E) : Z :=
  match s with
  | STATE_IDLE => 0 | STATE_GOOD => 1 | STATE_OK => 2 | STATE_BAD => 3 | STATE_SEVERE => 4 | STATE_DOWN => 5
  end.

(** [state >= STATE_BAD] and [state >= STATE_SEVERE]. *)
Definition at_least_bad (s : OBJ_STATE_E) : bool := state_num STATE_BAD <=? state_num s.
Definition at_least_severe (s : OBJ_STATE_E) : bool := state_num STATE_SEVERE <=? state_num s.

(** ** Histories of eight bits *)
(** [hist <<= 1; if (b) hist |= 1;] on a [uint8_t]. *)
Definition hist_push (b : bool) (hist : Z) : Z := Z.lor (u8 (Z.shiftl hist 1)) (Z.b2z b).

(** [__builtin_popcount] of a number of [n] bits. *)
Fixpoint popcount (n : nat) (z : Z) : Z :=
  match n with O => 0 | S n => Z.b2z (Z.testbit z (Z.of_nat n)) + popcount n z end.
Definition gy_count_bits_set (num : Z) : Z := popcount 32 num.

(** ** Arrays of the last readings, the newest first *)
(** With a shift of one, the only one that the callers use; the first element stays. *)
Definition array_shift_right {A} (l : list A) : list A :=
  match l with [] => [] | x :: _ => take (length l) (x :: l) end.

(** [array_shift_right(arr, n); arr[0] = x;] *)
Definition push_front {A} (x : A) (l : list A) : list A := <[0%nat := x]> (array_shift_right l).

(** ** Counters *)
Definition GY_NSEC_PER_SEC : Z := 1000000000.
Definition GY_NSEC_PER_MSEC : Z := 1000000.

(** [w] is the width of the counters, which are unsigned in the callers. *)
Definition gy_diff_counter (w newstat oldstat : Z) : Z :=
  if newstat >=? oldstat then newstat - oldstat else
  let maxdiff := 2 ^ w - 1 - oldstat in
  wrap w (newstat + maxdiff).

(** For an unsigned type: half of the largest value is the limit. *)
Definition gy_diff_counter_safe (w newstat oldstat : Z) : Z :=
  let ret := gy_diff_counter w newstat oldstat in
  if ret >? Z.shiftr (2 ^ w - 1) 1 then 0 else ret.

(** ** Single precision *)
Abbreviation flt := spec_float.
Definition fadd : flt -> flt -> flt := SFadd 24 128.
Definition fmul : flt -> flt -> flt := SFmul 24 128.
Definition fdiv : flt -> flt -> flt := SFdiv 24 128.
Definition flt_of_int (z : Z) : flt := binary_normalize 24 128 z 0 false.
Definition F0 : flt := S754_zero false.

Definition round_to (prec emax : Z) (d : spec_float) : spec_float :=
  match d with S754_finite s m e => binary_round prec emax s m e | _ => d end.
Definition flt_of_dbl : dbl -> flt := round_to 24 128.
Definition dbl_of_flt : flt -> dbl := round_to 53 1024.

(** [a > b] and [a >= b]. *)
Definition fgt (a b : spec_float) : bool := SFltb b a.
Definition fge (a b : spec_float) : bool := SFleb b a.

(** [std::max] *)
Definition fmax (a b : flt) : flt := if SFltb a b then b else a.

(** [lround]: to the nearest integer, halves away from zero.  The arguments are finite. *)
Definition lround (d : dbl) : Z :=
  match d with
  | S754_finite s m e =>
      let a := if 0 <=? e then Z.pos m * 2 ^ e
               else (2 * Z.pos m + 2 ^ (- e)) / 2 ^ (1 - e) in
      if s then - a else a
  | _ => 0
  end.

Definition gy_div_round_near (val div : Z) : Z := lround (ddiv (dbl_of_int val) (dbl_of_int div)).

(** [gy_div_round_near((a - b), GY_NSEC_PER_SEC)] on [uint64_t] clocks, assigned to a
    [uint64_t], and one when that is zero. *)
Definition clock_diff_secs (a b : Z) : Z :=
  let d := u64 (gy_div_round_near (swrap 64 (a - b)) GY_NSEC_PER_SEC) in
  if d =? 0 then 1 else d.

(** ** Percentiles *)
(** [ncutoff] of [get_percentiles]; [pct] is the [float] of the caller. *)
Definition pct_cutoff (total_count : Z) (pct : flt) : Z :=
  let multiplier := flt_of_dbl (ddiv (dbl_of_flt pct) (dbl_of_int 100)) in
  default 0 (dtrunc (fmul (flt_of_int total_count) multiplier)).

(** The [data_value] of one percentile of a histogram of [int]. *)
Definition hist_pct (H : HashClass) (pct : flt) (h : histogram) : Z :=
  hd_data_value (get_percentile H 32 (pct_cutoff (total_count_ h) pct) h).

Definition P95 : flt := flt_of_int 95.
Definition P25 : flt := flt_of_int 25.
(** [99.9f] *)
Definition P999 : flt := S754_finite false 13094093 (-17).

(** ** Laws *)
Lemma length_push_front {A} (x : A) l : length (push_front x l) = length l.
Proof.
  unfold push_front, array_shift_right. rewrite length_insert. destruct l; [done|].
  rewrite length_take. simpl. lia.
Qed.

Lemma push_front_0 {A} (x : A) l : l <> [] -> push_front x l !! 0%nat = Some x.
Proof.
  intros Hl. unfold push_front. apply list_lookup_insert_eq.
  unfold array_shift_right. destruct l; [done|]. rewrite length_take. simpl. lia.
Qed.

Lemma push_front_S {A} (x : A) l i : (S i < length l)%nat -> push_front x l !! S i = l !! i.
Proof.
  intros Hi. unfold push_front, array_shift_right. destruct l as [|y l]; [simpl in Hi; lia|].
  rewrite list_lookup_insert_ne by lia. rewrite lookup_take_lt by done. done.
Qed.

Lemma Forall_push_front {A} (P : A -> Prop) x l : P x -> Forall P l -> Forall P (push_front x l).
Proof.
  intros Hx Hl. apply list.Forall_forall. intros y [i Hi]%list_elem_of_lookup.
  pose proof (lookup_lt_Some _ _ _ Hi) as Hlen. rewrite length_push_front in Hlen. destruct i as [|i].
  - rewrite push_front_0 in Hi by (by destruct l). by simplify_eq.
  - rewrite push_front_S in Hi by done. rewrite list.Forall_forall in Hl. eapply Hl, list_elem_of_lookup_2, Hi.
Qed.

Lemma hist_push_range b hist : in_width 8 (hist_push b hist).
Proof.
  unfold hist_push. pose proof (wrap_range 8 (Z.shiftl hist 1) ltac:(lia)) as Hw.
  assert (Hb : 0 <= Z.b2z b < 2 ^ 1) by (destruct b; simpl; lia).
  split; [apply Z.lor_nonneg; unfold in_width in Hw; lia|].
  assert (Hz : Z.lor (u8 (Z.shiftl hist 1)) (Z.b2z b) = Z.lor (u8 (Z.shiftl hist 1)) (Z.b2z b) mod 2 ^ 8).
  { apply Z.bits_inj'. intros n Hn. destruct (Z.lt_ge_cases n 8).
    - by rewrite Z.mod_pow2_bits_low by lia.
    - rewrite Z.mod_pow2_bits_high by lia. rewrite Z.lor_spec. unfold wrap.
      rewrite Z.mod_pow2_bits_high by lia. destruct b; simpl; [|apply Z.bits_0].
      destruct n; [lia|done..]. }
  rewrite Hz. apply Z.mod_pos_bound. lia.
Qed.

Lemma hist_push_bit0 b hist : Z.testbit (hist_push b hist) 0 = b.
Proof.
  unfold hist_push. rewrite Z.lor_spec. unfold wrap. rewrite Z.mod_pow2_bits_low by lia.
  rewrite Z.shiftl_spec_low by lia. by destruct b.
Qed.

Lemma hist_push_bitS b hist i : 0 <= i -> i < 7 -> Z.testbit (hist_push b hist) (i + 1) = Z.testbit hist i.
Proof.
  intros Hi H7. unfold hist_push. rewrite Z.lor_spec. unfold wrap. rewrite Z.mod_pow2_bits_low by lia.
  rewrite Z.shiftl_spec by lia. replace (i + 1 - 1) with i by lia.
  replace (Z.testbit (Z.b2z b) (i + 1)) with false; [by rewrite orb_false_r|].
  destruct b; [|by rewrite Z.bits_0]. simpl. destruct (i + 1) eqn:E; [lia|done|done].
Qed.

(** The bits of [hist] are the property [p] of the entries of the array [l]. *)
Definition tracks {A} (p : A -> bool) (hist : Z) (l : list A) : Prop :=
  in_width 8 hist /\ (length l <= 8)%nat /\
  forall i x, l !! i = Some x -> Z.testbit hist (Z.of_nat i) = p x.

Lemma tracks_push {A} (p : A -> bool) hist l x :
  tracks p hist l -> tracks p (hist_push (p x) hist) (push_front x l).
Proof.
  intros (Hw & Hl & Hb). split; [apply hist_push_range|]. split; [by rewrite length_push_front|].
  intros i y Hy. pose proof (lookup_lt_Some _ _ _ Hy) as Hi. rewrite length_push_front in Hi.
  destruct i as [|i].
  - rewrite push_front_0 in Hy by (destruct l; [simpl in Hi; lia|done]). simplify_eq. apply hist_push_bit0.
  - rewrite push_front_S in Hy by done. rewrite <- (Hb i y Hy).
    replace (Z.of_nat (S i)) with (Z.of_nat i + 1) by lia. apply hist_push_bitS; lia.
Qed.

(** A [p] among the first [n] entries is what a mask of [n] ones finds. *)
Lemma tracks_recent {A} (p : A -> bool) hist l n : tracks p hist l -> (n <= length l)%nat ->
  (Z.land hist (Z.ones (Z.of_nat n)) >? 0) = existsb p (take n l).
Proof.
  intros (Hw & Hl & Hb) Hn. apply Bool.eq_iff_eq_true. rewrite existsb_exists. split.
  - intros Hgt. breflect. destruct (decide (Exists (fun x => p x = true) (take n l))) as [He|He].
    { apply Exists_exists in He as (x & Hx & Hp). by exists x. }
    exfalso. assert (Z.land hist (Z.ones (Z.of_nat n)) = 0); [|lia].
    apply Z.bits_inj'. intros k Hk. rewrite Z.land_spec, Z.bits_0.
    destruct (Z.lt_ge_cases k (Z.of_nat n)); [|by rewrite Z.ones_spec_high, andb_false_r by lia].
    destruct (lookup_lt_is_Some_2 l (Z.to_nat k)) as [x Hx]; [lia|].
    rewrite Z.ones_spec_low, andb_true_r by lia. rewrite <- (Z2Nat.id k), (Hb _ x Hx) by lia.
    destruct (p x) eqn:Hp; [|done]. destruct He. apply Exists_exists. exists x.
    split; [|done]. apply list_elem_of_In, list_elem_of_lookup. exists (Z.to_nat k). rewrite lookup_take_lt by lia. done.
  - intros (x & Hx & Hp). apply list_elem_of_In, list_elem_of_lookup in Hx as [i Hi].
    apply lookup_take_Some in Hi as [Hi Hin].
    assert (Ht : Z.testbit (Z.land hist (Z.ones (Z.of_nat n))) (Z.of_nat i) = true).
    { rewrite Z.land_spec, (Hb i x Hi), Hp, Z.ones_spec_low by lia. done. }
    assert (0 <= Z.land hist (Z.ones (Z.of_nat n))) by (apply Z.land_nonneg; left; apply Hw).
    assert (Z.land hist (Z.ones (Z.of_nat n)) <> 0).
    { intros E. rewrite E, Z.bits_0 in Ht. done. }
    apply Z.gtb_lt. lia.
Qed.

Lemma at_least_severe_bad s : at_least_severe s = true -> at_least_bad s = true.
Proof. by destruct s. Qed.

(** The difference is that of the counters, but one less when the counter has wrapped. *)
Lemma gy_diff_counter_eq w newstat oldstat : 0 <= w -> in_width w newstat -> in_width w oldstat ->
  gy_diff_counter w newstat oldstat =
  wrap w (newstat - oldstat - (if newstat <? oldstat then 1 else 0)).
Proof.
  unfold in_width, gy_diff_counter, wrap. intros Hw Hn Ho. case_if; breflect.
  - replace (newstat <? oldstat) with false by lia. rewrite Z.mod_small; lia.
  - replace (newstat <? oldstat) with true by lia.
    rewrite <- (Z_mod_plus_full (newstat - oldstat - 1) 1 (2 ^ w)). f_equal. lia.
Qed.
