(* ===== verification/TimeHist.v ===== *)
(** * TimeHist : histograms over windows of time, [TIME_HISTOGRAM] and [TIME_HIST_CACHE] of
      common/gy_statistics.h and [SlabHistogramBuckets] of thirdparty/SlabHistogramBucket.h.

    A histogram of this kind keeps in each bucket a time series of several levels, one for
    each window of time (5 seconds, 5 minutes, ..., all).  The time series is that of the
    library folly, an interface here: [TimeSeriesOps] has its operations and [TimeSeries]
    the documented behaviour that the code relies on.  The threads that see many values
    count them in a cache per thread, which is emptied into the histogram when the second
    changes.  After any calls, the level without a limit has the values added since it was
    cleared, those in the cache left out, and its percentiles are those of the values. *)
From Stdlib Require Import SpecFloat.
From S2P Require Import Prelude Bytes Doubles Histogram ObjState.

#[local] Open Scope Z_scope.

(** ** The time series of a bucket, [folly::MultiLevelTimeSeries<int64_t>] *)
(** Times are in seconds; the levels are given by their durations, 0 for all. *)
Class TimeSeriesOps := {
  TS : Type;
  ts_new : list Z -> TS;
  ts_addValue : Z -> Z -> TS -> TS;                      (* time, value *)
  ts_addValueAggregated : Z -> Z -> Z -> TS -> TS;       (* time, sum, number *)
  ts_update : Z -> TS -> TS;
  ts_clear : TS -> TS;
  ts_count : nat -> TS -> Z; ts_sum : nat -> TS -> Z;    (* of a level *)
  ts_count_in : Z -> Z -> TS -> Z; ts_sum_in : Z -> Z -> TS -> Z }.   (* between two times *)

(** The sums and numbers of a list of additions. *)
Definition esum (l : list (Z * Z)) : Z := lsum (map fst l).
Definition ecount (l : list (Z * Z)) : Z := lsum (map snd l).
Definition eabs (l : list (Z * Z)) : Z := lsum (map (fun e => Z.abs e.1) l).

(** [ts_holds durations t l flushed]: [l] are the sums and numbers added to [t] since it was
    cleared; they are seen by the queries once [update] has been called.  A level whose
    duration is 0 forgets nothing, another one may. *)
Class TimeSeries (ops : TimeSeriesOps) := {
  ts_holds : list Z -> TS -> list (Z * Z) -> bool -> Prop;
  holds_new : forall d, ts_holds d (ts_new d) [] true;
  addValue_one : forall now v t, ts_addValue now v t = ts_addValueAggregated now v 1 t;
  holds_add : forall d t l f now s n,
    ts_holds d t l f -> ts_holds d (ts_addValueAggregated now s n t) ((s, n) :: l) false;
  holds_update : forall d t l f now, ts_holds d t l f -> ts_holds d (ts_update now t) l true;
  holds_clear : forall d t l f, ts_holds d t l f -> ts_holds d (ts_clear t) [] true;
  count_all : forall d t l lvl, ts_holds d t l true -> d !! lvl = Some 0 ->
    Forall (fun e => 0 <= e.2) l -> ecount l < 2 ^ 64 -> ts_count lvl t = ecount l;
  sum_all : forall d t l lvl, ts_holds d t l true -> d !! lvl = Some 0 ->
    eabs l < 2 ^ 63 -> ts_sum lvl t = esum l;
  count_level : forall d t l f lvl, ts_holds d t l f -> (lvl < length d)%nat ->
    Forall (fun e => 0 <= e.2) l -> ecount l < 2 ^ 64 -> 0 <= ts_count lvl t <= ecount l }.

(** ** The levels *)
Definition Level_5s_5min_5days_all : list Z := [5; 300; 5 * 24 * 3600; 0].
Definition Level_300_all : list Z := [300; 0].

(** [None] is -1. *)
Fixpoint level_from (ds : list Z) (time_offset : Z) (i : nat) : option nat :=
  match ds with
  | [] => None
  | d :: ds => if time_offset =? d then Some i else level_from ds time_offset (i + 1)
  end.
Definition get_level_from_time_offset (ds : list Z) (time_offset : Z) : option nat := level_from ds time_offset 0.

Section TimeHist.
Context `{ops : TimeSeriesOps} (H : HashClass) (dist_seconds : list Z).

(** ** The buckets, [SlabHistogramBuckets] and [TimeseriesSlabHistogram] *)
(** The values outside the range are sorted out before the bucket function is asked. *)
Definition getBucketIdx (buckets_ : list TS) (value : Z) : nat :=
  if value <? min_value H then 0%nat
  else if value >=? max_value H then (length buckets_ - 1)%nat
  else hash H value.

(** The loop of [getPercentileBucketIdx] over the counts of the buckets. *)
Fixpoint pct_bucket (counts : list Z) (pct : dbl) (totalCount curCount : Z) (idx : nat) : nat :=
  match counts with
  | [] => idx
  | c :: counts =>
      if c =? 0 then pct_bucket counts pct totalCount curCount (idx + 1) else
      let curCount := u64 (curCount + c) in
      if SFleb pct (ddiv (dbl_of_int curCount) (dbl_of_int totalCount)) then idx
      else pct_bucket counts pct totalCount curCount (idx + 1)
  end.

Definition slab_count (countFromBucket : TS -> Z) (buckets_ : list TS) : Z :=
  fold_left (fun a c => u64 (a + c)) (map countFromBucket buckets_) 0.
Definition slab_sum (sumFromBucket : TS -> Z) (buckets_ : list TS) : Z :=
  fold_left (fun a s => swrap 64 (a + s)) (map sumFromBucket buckets_) 0.

(** The process is aborted when the percentile is not a share.  With more than 100 buckets
    the array of the counts is freed before it is used. *)
Definition getPercentileBucketIdx (pct : dbl) (countFromBucket : TS -> Z) (buckets_ : list TS) : acc nat :=
  if negb (SFleb (dbl_of_int 0) pct && SFleb pct (dbl_of_int 1)) then Oob else
  if (100 <? length buckets_)%nat then Oob else
  let totalCount := slab_count countFromBucket buckets_ in
  if totalCount =? 0 then Acc 1%nat else Acc (pct_bucket (map countFromBucket buckets_) pct totalCount 0 0).

(** ** The histogram *)
Record TIME_HISTOGRAM := TimeHistogram {
  buckets_ : list TS; haveNotSeenValue_ : bool; singleUniqueValue_ : bool; firstValue_ : option Z;
  inittime : Z; last_flush_time : Z; last_add_time : Z }.

Definition th_new (now : Z) : TIME_HISTOGRAM :=
  TimeHistogram (replicate (max_buckets H) (ts_new dist_seconds)) true false None now 0 0.

Definition maybeHandleSingleUniqueValue (value : Z) (h : TIME_HISTOGRAM) : TIME_HISTOGRAM :=
  let set hns suv fv := TimeHistogram (buckets_ h) hns suv fv (inittime h) (last_flush_time h) (last_add_time h) in
  if haveNotSeenValue_ h then set false true (Some value)
  else if singleUniqueValue_ h && bool_decide (firstValue_ h <> Some value)
  then set (haveNotSeenValue_ h) false (firstValue_ h) else h.

Definition th_set_buckets (b : list TS) (h : TIME_HISTOGRAM) : TIME_HISTOGRAM :=
  TimeHistogram b (haveNotSeenValue_ h) (singleUniqueValue_ h) (firstValue_ h) (inittime h)
    (last_flush_time h) (last_add_time h).
Definition th_set_times (flush add : Z) (h : TIME_HISTOGRAM) : TIME_HISTOGRAM :=
  TimeHistogram (buckets_ h) (haveNotSeenValue_ h) (singleUniqueValue_ h) (firstValue_ h) (inittime h) flush add.

Definition addValue (now value : Z) (h : TIME_HISTOGRAM) : acc (nat * TIME_HISTOGRAM) :=
  let idx := getBucketIdx (buckets_ h) value in
  if (idx <? length (buckets_ h))%nat then
    Acc (idx, maybeHandleSingleUniqueValue value (th_set_buckets (alter (ts_addValue now value) idx (buckets_ h)) h))
  else Oob.

(** The calls that follow return 0: nothing in them throws. *)
Definition flush_locked (tnow : Z) (h : TIME_HISTOGRAM) : TIME_HISTOGRAM :=
  th_set_times tnow (last_add_time h) (th_set_buckets (map (ts_update (tnow - 1)) (buckets_ h)) h).

Definition th_add_data (data tnow : Z) (flush_data : bool) (h : TIME_HISTOGRAM) : acc (nat * TIME_HISTOGRAM) :=
  let! r := addValue tnow data h in
  let h := th_set_times (last_flush_time r.2) tnow r.2 in
  Acc (r.1, if flush_data then flush_locked tnow h else h).

Fixpoint add_items (items : list (Z * Z)) (h : TIME_HISTOGRAM) : acc TIME_HISTOGRAM :=
  match items with
  | [] => Acc h
  | (t, data) :: items =>
      let h := if t >? last_add_time h then th_set_times (last_flush_time h) t h else h in
      let! r := addValue t data h in add_items items r.2
  end.

Definition add_multi_data (items : list (Z * Z)) (flush_data : bool) (h : TIME_HISTOGRAM) : acc TIME_HISTOGRAM :=
  let! h := add_items items h in
  Acc (if flush_data then flush_locked (last_add_time h) h else h).

(** The loop runs over the buckets that both arrays have. *)
Definition add_histogram_data (tnow : Z) (pcache : list hist_serial) (flush_data : bool) (h : TIME_HISTOGRAM)
    : acc TIME_HISTOGRAM :=
  if negb (length pcache =? max_buckets H)%nat then Oob else
  let n := min (length (buckets_ h)) (length pcache) in
  let b := zip_with (fun t s => ts_addValueAggregated tnow (sum s) (count s) t) (take n (buckets_ h)) (take n pcache)
           ++ drop n (buckets_ h) in
  let cnt := fold_left (fun a s => u64 (a + count s)) (take n pcache) 0 in
  if cnt =? 0 then Acc (th_set_buckets b h) else
  let h := TimeHistogram b false false (firstValue_ h) (inittime h) (last_flush_time h)
             (if tnow >? last_add_time h then tnow else last_add_time h) in
  Acc (if flush_data then flush_locked tnow h else h).

Definition clear_all_data (h : TIME_HISTOGRAM) : TIME_HISTOGRAM :=
  th_set_times 0 0 (th_set_buckets (map ts_clear (buckets_ h)) h).

(** The sums and counts of a level; the array of the caller has [nbucketsin] entries.
    [None] for a level that does not exist. *)
Definition get_level_data (level nbucketsin : nat) (ignore_sum : bool) (h : TIME_HISTOGRAM) : option (list hist_serial) :=
  if (length dist_seconds <=? level)%nat then None else
  let b := take nbucketsin (buckets_ h) in
  Some (map (fun t => HistSerial (ts_count level t) (if ignore_sum then 0 else ts_sum level t)) b
        ++ replicate (nbucketsin - length b) (HistSerial 0 0)).

(** ** Statistics *)
Record th_stats := ThStats { data_values : list Z; tcount : Z; tsum : Z; mean_val : dbl }.

Fixpoint pct_values (percentiles : list flt) (countf : TS -> Z) (b : list TS) : acc (list Z) :=
  match percentiles with
  | [] => Acc []
  | p :: ps =>
      let! idx := getPercentileBucketIdx (ddiv (dbl_of_flt p) (dbl_of_int 100)) countf b in
      let! vs := pct_values ps countf b in
      let v := get_bucket_max_threshold H 64 idx in
      Acc ((if v <? 0 then 0 else v) :: vs)
  end.

Definition stats_by (percentiles : list flt) (countf sumf : TS -> Z) (h : TIME_HISTOGRAM) : acc th_stats :=
  let! vs := pct_values percentiles countf (buckets_ h) in
  let n := swrap 64 (slab_count countf (buckets_ h)) in
  let s := slab_sum sumf (buckets_ h) in
  Acc (ThStats vs n s (ddiv (dbl_of_int s) (dbl_of_int (if n =? 0 then 1 else n)))).

Definition get_stats_for_period (starttime endtime : Z) (percentiles : list flt) (h : TIME_HISTOGRAM) : acc th_stats :=
  stats_by percentiles (ts_count_in starttime (endtime + 1)) (ts_sum_in starttime (endtime + 1)) h.

(** [tnow] is the time of the call, used for an offset that has no level. *)
Definition th_get_stats (time_offset tnow : Z) (percentiles : list flt) (h : TIME_HISTOGRAM) : acc th_stats :=
  match get_level_from_time_offset dist_seconds time_offset with
  | None => get_stats_for_period (tnow - time_offset) tnow percentiles h
  | Some level => stats_by percentiles (ts_count level) (ts_sum level) h
  end.

Definition get_stats_with_flush (time_offset tnow : Z) (percentiles : list flt) (h : TIME_HISTOGRAM)
    : acc (th_stats * TIME_HISTOGRAM) :=
  let h := flush_locked tnow h in
  let! s := th_get_stats time_offset tnow percentiles h in Acc (s, h).

Definition get_stats_for_period_with_flush (starttime endtime tnow : Z) (percentiles : list flt) (h : TIME_HISTOGRAM)
    : acc (th_stats * TIME_HISTOGRAM) :=
  let h := flush_locked tnow h in
  let! s := get_stats_for_period starttime endtime percentiles h in Acc (s, h).

Definition get_total_records_for_period (starttime endtime : Z) (h : TIME_HISTOGRAM) : Z * Z :=
  (swrap 64 (slab_count (ts_count_in starttime endtime) (buckets_ h)), slab_sum (ts_sum_in starttime endtime) (buckets_ h)).

(** ** The cache of a thread *)
Record TIME_HIST_CACHE := TimeHistCache { cache : list hist_serial; tcurrbucket : Z }.

Definition thc_new (now : Z) : TIME_HIST_CACHE := TimeHistCache (replicate (max_buckets H) (HistSerial 0 0)) now.

Definition flush_to_histogram (c : TIME_HIST_CACHE) (h : TIME_HISTOGRAM) : acc (TIME_HIST_CACHE * TIME_HISTOGRAM) :=
  let! h := add_histogram_data (tcurrbucket c) (cache c) false h in
  Acc (TimeHistCache (replicate (max_buckets H) (HistSerial 0 0)) (tcurrbucket c), h).

(** A failed assertion is [Oob]. *)
Definition add_cache (data tnow : Z) (c : TIME_HIST_CACHE) (h : TIME_HISTOGRAM)
    : acc (nat * TIME_HIST_CACHE * TIME_HISTOGRAM) :=
  let bucket := hash H data in
  if negb (bucket <? max_buckets H)%nat then Oob else
  let! r := if tnow =? tcurrbucket c then Acc (c, h) else
            let! r := flush_to_histogram c h in Acc (TimeHistCache (cache r.1) tnow, r.2) in
  Acc (bucket, TimeHistCache (alter (serial_add data) bucket (cache r.1)) (tcurrbucket r.1), r.2).
End TimeHist.

(** ** Specification: the values added *)
(** [bucket_ref] as a bucket function, right for every value. *)
Definition ref_hash (H : HashClass) : HashClass := MkHash (nthresholds H) (min_value H) (max_value H) (bucket_ref H).

Definition vals_in (H : HashClass) (i : nat) (xs : list Z) : list Z :=
  base.filter (fun x => in_bucket (ref_hash H) i x = true) xs.
Definition abs_sum (xs : list Z) : Z := lsum (map Z.abs xs).

(** The calls on a histogram and the cache of one thread. *)
Inductive thop :=
  | TAdd (data tnow : Z) (flush_data : bool)
  | TMulti (items : list (Z * Z)) (flush_data : bool)
  | TCache (data tnow : Z)
  | TCacheFlush
  | TFlush (tnow : Z)
  | TClear.

Definition op_vals (o : thop) : list Z :=
  match o with
  | TAdd d _ _ => [d] | TMulti items _ => map snd items | TCache d _ => [d] | _ => []
  end.

(** The values in the histogram, those in the cache, and the second of the cache. *)
Definition op_spec (o : thop) (s : list Z * list Z * Z) : list Z * list Z * Z :=
  let '(xs, ys, t) := s in
  match o with
  | TAdd d _ _ => (d :: xs, ys, t)
  | TMulti items _ => (rev (map snd items) ++ xs, ys, t)
  | TCache d tnow => if tnow =? t then (xs, d :: ys, t) else (ys ++ xs, [d], tnow)
  | TCacheFlush => (ys ++ xs, [], t)
  | TFlush _ => (xs, ys, t)
  | TClear => ([], ys, t)
  end.
Definition spec_run (os : list thop) (s : list Z * list Z * Z) : list Z * list Z * Z :=
  fold_left (fun s o => op_spec o s) os s.

Section Run.
Context `{ops : TimeSeriesOps} (H : HashClass) (dist_seconds : list Z).

Definition op_step (o : thop) (s : TIME_HIST_CACHE * TIME_HISTOGRAM) : acc (TIME_HIST_CACHE * TIME_HISTOGRAM) :=
  let '(c, h) := s in
  match o with
  | TAdd d tnow fl => let! r := th_add_data H d tnow fl h in Acc (c, r.2)
  | TMulti items fl => let! h := add_multi_data H items fl h in Acc (c, h)
  | TCache d tnow => let! r := add_cache H d tnow c h in Acc (r.1.2, r.2)
  | TCacheFlush => flush_to_histogram H c h
  | TFlush tnow => Acc (c, flush_locked tnow h)
  | TClear => Acc (c, clear_all_data h)
  end.

Fixpoint th_run (os : list thop) (s : TIME_HIST_CACHE * TIME_HISTOGRAM) : acc (TIME_HIST_CACHE * TIME_HISTOGRAM) :=
  match os with [] => Acc s | o :: os => let! s := op_step o s in th_run os s end.
End Run.

(** ** The operations respect the specification *)
Lemma abs_sum_app xs ys : abs_sum (xs ++ ys) = abs_sum xs + abs_sum ys.
Proof. unfold abs_sum. by rewrite map_app, lsum_app. Qed.

Lemma abs_sum_cons x xs : abs_sum (x :: xs) = Z.abs x + abs_sum xs.
Proof. done. Qed.

Lemma abs_sum_pos xs : 0 <= abs_sum xs.
Proof. unfold abs_sum, lsum. induction xs; cbn; lia. Qed.

Lemma lsum_abs_sum xs : Z.abs (lsum xs) <= abs_sum xs.
Proof. unfold abs_sum, lsum. induction xs; cbn in *; lia. Qed.

Lemma vals_in_abs_sum H i xs : abs_sum (vals_in H i xs) <= abs_sum xs.
Proof.
  unfold vals_in. induction xs as [|x xs IH]; [done|]. rewrite filter_cons. unfold abs_sum, lsum in *.
  case_decide; cbn in *; lia.
Qed.

Lemma vals_in_app H i xs ys : vals_in H i (xs ++ ys) = vals_in H i xs ++ vals_in H i ys.
Proof. apply list.filter_app. Qed.

Lemma vals_in_cons H i x xs :
  vals_in H i (x :: xs) = if in_bucket (ref_hash H) i x then x :: vals_in H i xs else vals_in H i xs.
Proof. unfold vals_in. rewrite filter_cons. destruct (in_bucket _ i x); by case_decide. Qed.

Section Rep.
Context `{ops : TimeSeriesOps} {TSL : TimeSeries ops} (H : HashClass) (w : Z) {L : HashLaws H w} (dist_seconds : list Z).

(** A bucket has been given the values of [xs] that belong into it. *)
Definition bucket_rep (xs : list Z) (fl : bool) (i : nat) (t : TS) : Prop := exists l f,
  ts_holds dist_seconds t l f /\ (fl = true -> f = true) /\ Forall (fun e => 0 <= e.2) l /\
  ecount l = Z.of_nat (cnt (in_bucket (ref_hash H) i) xs) /\
  esum l = lsum (vals_in H i xs) /\ eabs l <= abs_sum (vals_in H i xs).

Definition th_rep (h : TIME_HISTOGRAM) (xs : list Z) (fl : bool) : Prop :=
  length (buckets_ h) = max_buckets H /\ forall i t, buckets_ h !! i = Some t -> bucket_rep xs fl i t.

Definition cache_rep (c : TIME_HIST_CACHE) (ys : list Z) : Prop :=
  length (cache c) = max_buckets H /\ forall i s, cache c !! i = Some s ->
    count s = Z.of_nat (cnt (in_bucket (ref_hash H) i) ys) /\ sum s = lsum (vals_in H i ys).

Lemma bucket_new i : bucket_rep [] true i (ts_new dist_seconds).
Proof. exists [], true. split_and!; try done. apply holds_new. Qed.

(** An addition of values that all belong into the bucket, or of none. *)
Lemma bucket_add xs ys fl i t now s n : bucket_rep xs fl i t ->
  n = Z.of_nat (cnt (in_bucket (ref_hash H) i) ys) -> s = lsum (vals_in H i ys) ->
  bucket_rep (ys ++ xs) false i (ts_addValueAggregated now s n t).
Proof.
  intros (l & f & Hh & _ & Hp & Hc & Hs & Ha) -> ->. eexists _, false. split; [by eapply holds_add|].
  split; [done|]. split; [constructor; [simpl; lia|done]|].
  unfold ecount, esum, eabs, lsum in *. cbn [map foldr fst snd]. rewrite vals_in_app, cnt_app, foldr_app, abs_sum_app.
  split_and!; [lia| |].
  - pose proof (lsum_app (vals_in H i ys) (vals_in H i xs)) as E. unfold lsum in E. rewrite foldr_app in E. lia.
  - pose proof (lsum_abs_sum (vals_in H i ys)) as E. unfold lsum in E. lia.
Qed.

Lemma bucket_other xs ys fl i t : bucket_rep xs fl i t -> cnt (in_bucket (ref_hash H) i) ys = 0%nat ->
  vals_in H i ys = [] -> bucket_rep (ys ++ xs) false i t.
Proof.
  intros (l & f & Hh & _ & Hp & Hc & Hs & Ha) E1 E2. exists l, f.
  rewrite cnt_app, vals_in_app, E1, E2. by split_and!.
Qed.

Lemma getBucketIdx_ref (b : list TS) v : length b = max_buckets H -> getBucketIdx H b v = bucket_ref H v.
Proof.
  intros Hl. unfold getBucketIdx. rewrite Hl. destruct (Z.ltb_spec v (min_value H)) as [Hlt|Hge].
  - unfold bucket_ref. by rewrite (proj2 (Z.ltb_lt _ _)) by done.
  - destruct (Z.geb_spec v (max_value H)).
    + symmetry. by apply (bucket_ref_last H w).
    + apply law_hash. pose proof (law_width (H:=H) (w:=w)). lia.
Qed.

Lemma in_ref i x : in_bucket (ref_hash H) i x = (bucket_ref H x =? i)%nat.
Proof. done. Qed.

Lemma addValue_rep now v h xs fl : th_rep h xs fl ->
  exists h', addValue H now v h = Acc (bucket_ref H v, h') /\ th_rep h' (v :: xs) false.
Proof.
  intros [Hl Hb]. unfold addValue. rewrite getBucketIdx_ref by done.
  rewrite Hl, (proj2 (Nat.ltb_lt _ _)) by apply bucket_ref_lt. eexists. split; [done|].
  set (h1 := th_set_buckets _ h). assert (th_rep h1 (v :: xs) false) as [Hl1 Hb1].
  { split; [simpl; by rewrite length_alter|]. intros i t. simpl. rewrite list_lookup_alter.
    change (v :: xs) with ([v] ++ xs). case_decide as E.
    - subst. destruct (buckets_ h !! bucket_ref H v) as [t0|] eqn:Ht; [|done]. intros [= <-].
      rewrite addValue_one. eapply bucket_add; [by apply Hb| |];
        rewrite ?vals_in_cons; cbn [cnt]; rewrite in_ref, Nat.eqb_refl; cbn; [done|lia].
    - intros Ht. eapply bucket_other; [by apply Hb| |];
        rewrite ?vals_in_cons; cbn [cnt]; rewrite in_ref, (proj2 (Nat.eqb_neq _ _)) by done; done. }
  unfold maybeHandleSingleUniqueValue. by repeat case_if; split.
Qed.

Lemma rep_times a b h xs fl : th_rep h xs fl -> th_rep (th_set_times a b h) xs fl.
Proof. done. Qed.

Lemma flush_rep tnow h xs fl : th_rep h xs fl -> th_rep (flush_locked tnow h) xs true.
Proof.
  intros [Hl Hb]. split; [simpl; by rewrite length_map|]. intros i t. simpl. rewrite list_lookup_fmap.
  destruct (buckets_ h !! i) as [t0|] eqn:Ht; [|done]. intros [= <-].
  destruct (Hb i t0 Ht) as (l & f & Hh & _ & Hr). exists l, true. split; [by eapply holds_update|]. done.
Qed.

Lemma clear_rep h xs fl : th_rep h xs fl -> th_rep (clear_all_data h) [] true.
Proof.
  intros [Hl Hb]. split; [simpl; by rewrite length_map|]. intros i t. simpl. rewrite list_lookup_fmap.
  destruct (buckets_ h !! i) as [t0|] eqn:Ht; [|done]. intros [= <-].
  destruct (Hb i t0 Ht) as (l & f & Hh & _ & Hr). exists [], true. split; [by eapply holds_clear|]. done.
Qed.

Lemma new_rep now : th_rep (th_new H dist_seconds now) [] true.
Proof.
  split; [simpl; by rewrite length_replicate|]. intros i t [-> _]%lookup_replicate. apply bucket_new.
Qed.

Lemma flush_if_rep (b : bool) tnow h xs fl : th_rep h xs fl -> exists fl', th_rep (if b then flush_locked tnow h else h) xs fl'.
Proof. destruct b; eauto using flush_rep. Qed.

Lemma add_items_rep items : forall h xs fl, th_rep h xs fl ->
  exists h' fl', add_items H items h = Acc h' /\ th_rep h' (rev (map snd items) ++ xs) fl'.
Proof.
  induction items as [|[t d] items IH]; intros h xs fl Hr; cbn [add_items map rev].
  { by exists h, fl. }
  set (h1 := if t >? last_add_time h then _ else h).
  assert (th_rep h1 xs fl) as Hr1 by (unfold h1; by case_if).
  destruct (addValue_rep t d _ _ _ Hr1) as (h2 & -> & Hr2). cbn [acc_bind snd].
  destruct (IH _ _ _ Hr2) as (h3 & fl3 & -> & Hr3). exists h3, fl3. split; [done|].
  by rewrite <- app_assoc.
Qed.

(** The cache is emptied into the histogram. *)
Lemma add_histogram_rep tnow c h xs ys fl : th_rep h xs fl -> cache_rep c ys ->
  exists h' fl', add_histogram_data H tnow (cache c) false h = Acc h' /\ th_rep h' (ys ++ xs) fl'.
Proof.
  intros [Hl Hb] [Hcl Hc]. unfold add_histogram_data. rewrite Hl, Hcl, Nat.eqb_refl. cbn [negb].
  rewrite Nat.min_id, (take_ge (buckets_ h)), (take_ge (cache c)), (drop_ge (buckets_ h)), app_nil_r by lia.
  set (b := zip_with _ _ _).
  assert (forall x, buckets_ x = b -> th_rep x (ys ++ xs) false) as Hb'.
  { intros x Ex. split; [rewrite Ex; unfold b; rewrite length_zip_with_l_eq; lia|]. intros i t. rewrite Ex. unfold b.
    intros (t0 & s & -> & Ht & Hs)%lookup_zip_with_Some. destruct (Hc i s Hs) as [E1 E2].
    by eapply bucket_add; [apply Hb| |]. }
  case_if; eexists _, false; (split; [done|]); by apply Hb'.
Qed.

Lemma cache_zero t : cache_rep (TimeHistCache (replicate (max_buckets H) (HistSerial 0 0)) t) [].
Proof. split; [apply length_replicate|]. by intros i s [-> _]%lookup_replicate. Qed.

Lemma flush_cache_rep c h xs ys fl : th_rep h xs fl -> cache_rep c ys ->
  exists c' h' fl', flush_to_histogram H c h = Acc (c', h') /\ th_rep h' (ys ++ xs) fl' /\
    cache_rep c' [] /\ tcurrbucket c' = tcurrbucket c.
Proof.
  intros Hr Hc. unfold flush_to_histogram.
  destruct (add_histogram_rep (tcurrbucket c) c h xs ys fl Hr Hc) as (h' & fl' & -> & Hr').
  eexists _, h', fl'. split; [done|]. split; [done|]. split; [apply cache_zero|done].
Qed.

Lemma cache_put c ys d t : cache_rep c ys -> T_min w <= d <= T_max w ->
  Z.of_nat (length (d :: ys)) < 2 ^ 53 -> abs_sum (d :: ys) < 2 ^ 63 ->
  cache_rep (TimeHistCache (alter (serial_add d) (hash H d) (cache c)) t) (d :: ys).
Proof.
  intros [Hl Hc] Hd Hn Ha. split; [simpl; by rewrite length_alter|]. intros i s. simpl.
  rewrite (law_hash d Hd), list_lookup_alter, vals_in_cons. cbn [cnt]. rewrite in_ref. case_decide as E.
  - subst. rewrite Nat.eqb_refl. destruct (cache c !! bucket_ref H d) as [s0|] eqn:Hs; [|done]. intros [= <-].
    destruct (Hc _ _ Hs) as [E1 E2]. cbn [serial_add count sum]. rewrite E1, E2.
    assert (cnt (in_bucket (ref_hash H) (bucket_ref H d)) ys <= length ys)%nat by apply cnt_le.
    assert (abs_sum (vals_in H (bucket_ref H d) ys) <= abs_sum ys) by apply vals_in_abs_sum.
    pose proof (lsum_abs_sum (vals_in H (bucket_ref H d) ys)). simpl length in Hn. unfold abs_sum in Ha. unfold lsum in Ha at 1.
    cbn [map foldr] in Ha. fold (lsum (map Z.abs ys)) (abs_sum ys) in Ha. simpl.
    split; [rewrite wrap_id; [lia|unfold in_width; lia]|]. rewrite swrap_id by lia.
    change (lsum (d :: ?l)) with (d + lsum l). lia.
  - rewrite (proj2 (Nat.eqb_neq _ _)) by done. apply Hc.
Qed.

Lemma add_cache_rep d tnow c h xs ys fl : th_rep h xs fl -> cache_rep c ys -> T_min w <= d <= T_max w ->
  Z.of_nat (length (d :: ys)) < 2 ^ 53 -> abs_sum (d :: ys) < 2 ^ 63 ->
  exists c' h' fl', add_cache H d tnow c h = Acc (hash H d, c', h') /\
    let s := if tnow =? tcurrbucket c then (xs, d :: ys, tnow) else (ys ++ xs, [d], tnow) in
    th_rep h' s.1.1 fl' /\ cache_rep c' s.1.2 /\ tcurrbucket c' = s.2.
Proof.
  intros Hr Hc Hd Hn Ha. unfold add_cache. pose proof (law_hash d Hd) as Eh.
  rewrite (proj2 (Nat.ltb_lt _ _)) by (rewrite Eh; apply bucket_ref_lt). cbn [negb].
  destruct (Z.eqb_spec tnow (tcurrbucket c)) as [->|Hne]; cbn [acc_bind fst snd].
  - eexists _, h, fl. split; [done|]. split; [done|]. split; [by apply cache_put|done].
  - destruct (flush_cache_rep c h xs ys fl Hr Hc) as (c1 & h1 & fl1 & -> & Hr1 & Hc1 & _).
    cbn [acc_bind fst snd cache tcurrbucket]. eexists _, h1, fl1. split; [done|]. split; [done|].
    split; [|done]. apply cache_put; [done|done|simpl length in *; lia|].
    change (d :: ys) with ([d] ++ ys) in Ha. rewrite abs_sum_app in Ha. pose proof (abs_sum_pos ys). lia.
Qed.

(** ** Runs *)
Definition op_ok (o : thop) : Prop := match o with TCache d _ => T_min w <= d <= T_max w | _ => True end.

Definition run_rep (st : TIME_HIST_CACHE * TIME_HISTOGRAM) (s : list Z * list Z * Z) : Prop :=
  (exists fl, th_rep st.2 s.1.1 fl) /\ cache_rep st.1 s.1.2 /\ tcurrbucket st.1 = s.2.

(** What the values of a state and those to come may be at most. *)
Definition fits (s : list Z * list Z * Z) (vs : list Z) : Prop :=
  Z.of_nat (length (s.1.1 ++ s.1.2 ++ vs)) < 2 ^ 53 /\ abs_sum (s.1.1 ++ s.1.2 ++ vs) < 2 ^ 63.

Lemma op_step_rep o st s vs : run_rep st s -> op_ok o -> fits s (op_vals o ++ vs) ->
  exists st', op_step H o st = Acc st' /\ run_rep st' (op_spec o s).
Proof.
  destruct st as [c h], s as [[xs ys] t]. intros ([fl Hr] & Hc & Ht) Hok [Hn Ha]. cbn [fst snd] in *. subst t.
  destruct o as [d tnow b|items b|d tnow| |tnow|]; cbn [op_step op_spec].
  - unfold th_add_data. destruct (addValue_rep tnow d h xs fl Hr) as (h1 & -> & Hr1). cbn [acc_bind fst snd].
    eexists. split; [done|]. split; [|done]. cbn [fst snd]. eapply flush_if_rep. by apply rep_times.
  - unfold add_multi_data. destruct (add_items_rep items h xs fl Hr) as (h1 & fl1 & -> & Hr1). cbn [acc_bind].
    eexists. split; [done|]. split; [|done]. cbn [fst snd]. by eapply flush_if_rep.
  - cbn [op_vals app] in *. rewrite !length_app in Hn. rewrite !abs_sum_app in Ha. cbn [length] in Hn.
    change (d :: vs) with ([d] ++ vs) in Ha. rewrite abs_sum_app in Ha.
    pose proof (abs_sum_pos xs). pose proof (abs_sum_pos vs).
    destruct (add_cache_rep d tnow c h xs ys fl) as (c1 & h1 & fl1 & -> & Hr1 & Hc1 & Ht1); try done.
    { cbn [length]. lia. }
    { change (d :: ys) with ([d] ++ ys). rewrite abs_sum_app. lia. }
    eexists. split; [done|]. cbn [acc_bind fst snd]. destruct (tnow =? tcurrbucket c) eqn:E; breflect; subst;
      (split; [by exists fl1|]); done.
  - destruct (flush_cache_rep c h xs ys fl Hr Hc) as (c1 & h1 & fl1 & E & Hr1 & Hc1 & Ht1).
    eexists. split; [exact E|]. split; [by exists fl1|]. done.
  - eexists. split; [done|]. split; [|done]. exists true. by eapply flush_rep.
  - eexists. split; [done|]. split; [|done]. exists true. by eapply clear_rep.
Qed.

Lemma fits_step o s vs : fits s (op_vals o ++ vs) -> fits (op_spec o s) vs.
Proof.
  destruct s as [[xs ys] t]. unfold fits. cbn [fst snd]. rewrite !length_app, !abs_sum_app. intros [Hn Ha].
  pose proof (abs_sum_pos xs). pose proof (abs_sum_pos ys). pose proof (abs_sum_pos (op_vals o)).
  assert (forall l, abs_sum (rev l) = abs_sum l) as Hrev.
  { intros l. unfold abs_sum. rewrite map_rev. generalize (map Z.abs l). clear. intros l. induction l as [|x l IH]; [done|].
    cbn [rev]. rewrite lsum_app, IH. unfold lsum. cbn. lia. }
  destruct o as [d tnow b|items b|d tnow| |tnow|]; cbn [op_spec op_vals fst snd] in *;
    try destruct (tnow =? t); cbn [fst snd] in *;
    rewrite ?length_app, ?abs_sum_app, ?length_rev, ?Hrev in *;
    rewrite ?abs_sum_cons in *; cbn [length] in *; change (abs_sum []) with 0 in *; lia.
Qed.

Lemma th_run_rep os : forall st s, run_rep st s -> Forall op_ok os -> fits s (concat (map op_vals os)) ->
  exists st', th_run H os st = Acc st' /\ run_rep st' (spec_run os s) /\ fits (spec_run os s) [].
Proof.
  induction os as [|o os IH]; intros st s Hr Hok Hf; cbn [th_run].
  { by exists st. }
  apply list.Forall_cons in Hok as [Ho Hok]. cbn [map concat] in Hf.
  destruct (op_step_rep o st s _ Hr Ho Hf) as (st1 & -> & Hr1). cbn [acc_bind].
  apply (IH _ _ Hr1 Hok). by apply fits_step.
Qed.
End Rep.

(** ** Statistics of the level without a limit *)
(** The values that are not above the largest value of bucket [j]. *)
Definition upto (H : HashClass) (j : nat) (xs : list Z) : Z :=
  if (j <? max_buckets H - 1)%nat then Z.of_nat (cnt (fun x => x <=? get_bucket_max_threshold H 64 j) xs)
  else Z.of_nat (length xs).

(** Their share of all values reaches the percentile [p]. *)
Definition reached (H : HashClass) (xs : list Z) (p : flt) (j : nat) : Prop :=
  SFleb (ddiv (dbl_of_flt p) (dbl_of_int 100))
    (ddiv (dbl_of_int (upto H j xs)) (dbl_of_int (Z.of_nat (length xs)))) = true.

(** [v] is the percentile [p]: the largest value of the first bucket with values in it where
    the share is reached.  It is cut to zero, and the first bucket is taken without values. *)
Definition pct_right (H : HashClass) (xs : list Z) (p : flt) (v : Z) : Prop := exists idx,
  v = Z.max 0 (get_bucket_max_threshold H 64 idx) /\
  if decide (xs = []) then idx = 1%nat else
    reached H xs p idx /\ (exists x, x ∈ xs /\ bucket_ref H x = idx) /\
    forall x, x ∈ xs -> (bucket_ref H x < idx)%nat -> ~ reached H xs p (bucket_ref H x).

(** The percentiles that do not abort the process. *)
Definition valid_pct (p : flt) : bool :=
  let s := ddiv (dbl_of_flt p) (dbl_of_int 100) in SFleb (dbl_of_int 0) s && SFleb s (dbl_of_int 1).

Lemma level_from_lookup ds off : forall i l, level_from ds off i = Some l -> (i <= l)%nat /\ ds !! (l - i)%nat = Some off.
Proof.
  induction ds as [|d ds IH]; intros i l; cbn [level_from]; [done|]. case_if; breflect.
  - intros [= <-]. split; [lia|]. rewrite Nat.sub_diag. by subst.
  - intros [Hl Hd]%IH. split; [lia|]. by replace (l - i)%nat with (S (l - (i + 1))) by lia.
Qed.

Lemma max_bucket H (xs : list Z) : xs <> [] -> exists x, x ∈ xs /\ forall y, y ∈ xs -> (bucket_ref H y <= bucket_ref H x)%nat.
Proof.
  induction xs as [|x xs IH]; [done|]. intros _. destruct (decide (xs = [])) as [->|Hne].
  - exists x. split; [left|]. intros y ->%list_elem_of_singleton. done.
  - destruct (IH Hne) as (m & Hm & Hmax). destruct (decide (bucket_ref H m <= bucket_ref H x)%nat).
    + exists x. split; [left|]. intros y [->|Hy]%elem_of_cons; [done|]. specialize (Hmax y Hy). lia.
    + exists m. split; [by right|]. intros y [->|Hy]%elem_of_cons; [lia|by apply Hmax].
Qed.

Section Stats.
Context (H : HashClass) (w : Z) {L : HashLaws H w} (xs : list Z).
#[local] Abbreviation R := (ref_hash H).

Lemma cum_all : cum R xs (max_buckets H) = Z.of_nat (length xs).
Proof. unfold cum. rewrite cnt_all; [done|]. apply list.Forall_forall. intros x _. apply Nat.ltb_lt. apply bucket_ref_lt. Qed.

Lemma cum_sum_all : cum_sum R xs (max_buckets H) = lsum xs.
Proof.
  unfold cum_sum. induction xs as [|x l IH]; [done|]. rewrite filter_cons_True.
  - unfold lsum in *. cbn [foldr]. by rewrite IH.
  - apply Nat.ltb_lt, bucket_ref_lt.
Qed.

Lemma cum_zero : cum R xs 0 = 0.
Proof. unfold cum. rewrite cnt_none; [done|]. by apply list.Forall_forall. Qed.

Lemma cum_sum_zero : cum_sum R xs 0 = 0.
Proof. unfold cum_sum. induction xs as [|x l IH]; [done|]. by rewrite filter_cons_False. Qed.

Lemma upto_cum j : upto H j xs = cum R xs (S j).
Proof.
  unfold upto. case_if; rewrite ?Nat.ltb_lt, ?Nat.ltb_ge in *.
  - unfold cum. f_equal. apply cnt_ext. apply list.Forall_forall. intros x _. unfold below. cbn [hash ref_hash].
    apply Bool.eq_iff_eq_true. rewrite Z.leb_le, Nat.ltb_lt, Nat.lt_succ_r, (bucket_ref_le H w) by done.
    unfold get_bucket_max_threshold. case_if; [done|]. by rewrite (proj2 (Nat.leb_gt _ _)) by lia.
  - unfold cum. rewrite cnt_all; [done|]. apply list.Forall_forall. intros x _. apply Nat.ltb_lt. cbn [hash ref_hash].
    pose proof (bucket_ref_lt H x). lia.
Qed.

Lemma cnt_some j : cnt (in_bucket R j) xs <> 0%nat <-> exists x, x ∈ xs /\ bucket_ref H x = j.
Proof.
  split.
  - intros Hn. destruct (decide (Exists (fun x => bucket_ref H x = j) xs)) as [He|He].
    + apply list.Exists_exists in He. destruct He as (x & Hx & E). by exists x.
    + destruct Hn. apply cnt_none. apply list.Forall_forall. intros x Hx. apply Nat.eqb_neq. intros E.
      destruct He. apply list.Exists_exists. by exists x.
  - intros (x & Hx & E) H0. induction xs as [|y l IH]; [by apply elem_of_nil in Hx|]. cbn [cnt] in H0.
    apply elem_of_cons in Hx as [->|Hx]; [|by apply IH; destruct (in_bucket R j y)].
    unfold in_bucket in H0. cbn [hash ref_hash] in H0. rewrite E, Nat.eqb_refl in H0. done.
Qed.

(** The numbers of a range of buckets. *)
Definition counts_from (k : nat) (cs : list Z) : Prop :=
  forall j c, cs !! j = Some c -> c = Z.of_nat (cnt (in_bucket R (k + j)) xs).

Lemma counts_cons k c cs : counts_from k (c :: cs) -> c = Z.of_nat (cnt (in_bucket R k) xs) /\ counts_from (S k) cs.
Proof.
  intros Hc. split; [rewrite (Hc 0%nat c eq_refl); by rewrite Nat.add_0_r|].
  intros j c' Hj. rewrite (Hc (S j) c' Hj). by replace (k + S j)%nat with (S k + j)%nat by lia.
Qed.

Context (Hlen : Z.of_nat (length xs) < 2 ^ 53).

Lemma fold_counts cs : forall k, counts_from k cs ->
  fold_left (fun a c => u64 (a + c)) cs (cum R xs k) = cum R xs (k + length cs).
Proof.
  induction cs as [|c cs IH]; intros k Hc; cbn [fold_left length]; [by rewrite Nat.add_0_r|].
  apply counts_cons in Hc as [-> Hc]. rewrite <- cum_S, wrap_id.
  - rewrite (IH (S k) Hc). f_equal. lia.
  - pose proof (cum_le R xs (S k)). unfold in_width. lia.
Qed.

Lemma fold_sums (ss : list Z) : forall k, (forall j s, ss !! j = Some s -> s = lsum (vals_in H (k + j) xs)) ->
  fold_left (fun a s => swrap 64 (a + s)) ss (swrap 64 (cum_sum R xs k)) = swrap 64 (cum_sum R xs (k + length ss)).
Proof.
  induction ss as [|s ss IH]; intros k Hs; cbn [fold_left length]; [by rewrite Nat.add_0_r|].
  rewrite (Hs 0%nat s eq_refl), Nat.add_0_r, swrap_add_l, <- cum_sum_S by lia.
  rewrite (IH (S k)); [f_equal; f_equal; lia|]. intros j s' Hj. rewrite (Hs (S j) s' Hj). do 2 f_equal. lia.
Qed.

Lemma pct_bucket_spec p cs : forall k, counts_from k cs ->
  (forall x, x ∈ xs -> (bucket_ref H x < k)%nat -> ~ reached H xs p (bucket_ref H x)) ->
  let idx := pct_bucket cs (ddiv (dbl_of_flt p) (dbl_of_int 100)) (Z.of_nat (length xs)) (cum R xs k) k in
  (forall x, x ∈ xs -> (bucket_ref H x < idx)%nat -> ~ reached H xs p (bucket_ref H x)) /\
  (idx = (k + length cs)%nat \/ reached H xs p idx /\ exists x, x ∈ xs /\ bucket_ref H x = idx).
Proof.
  induction cs as [|c cs IH]; intros k Hc Hk; cbn [pct_bucket length]; [split; [done|]; left; lia|].
  apply counts_cons in Hc as [-> Hc]. rewrite Nat.add_1_r, <- plus_n_Sm. specialize (IH (S k) Hc).
  pose proof (cnt_some k) as Hsome. pose proof (cum_S R xs k) as ES. pose proof (cum_le R xs (S k)) as Hle.
  destruct (Z.eqb_spec (Z.of_nat (cnt (in_bucket R k) xs)) 0) as [E0|E0].
  - rewrite E0, Z.add_0_r in ES. rewrite ES in IH. apply IH. intros x Hx Hlt.
    destruct (decide (bucket_ref H x = k)) as [Ek|]; [|apply Hk; [done|lia]].
    exfalso. assert (cnt (in_bucket R k) xs <> 0%nat); [apply Hsome; by exists x|lia].
  - rewrite <- ES, wrap_id by (unfold in_width; lia). destruct (SFleb _ _) eqn:Er.
    + split; [done|]. right. split; [by unfold reached; rewrite upto_cum|]. apply Hsome. lia.
    + apply IH. intros x Hx Hlt. destruct (decide (bucket_ref H x = k)) as [->|]; [|apply Hk; [done|lia]].
      unfold reached. by rewrite upto_cum, Er.
Qed.
End Stats.

Section AllTime.
Context `{ops : TimeSeriesOps} {TSL : TimeSeries ops} (H : HashClass) (w : Z) {L : HashLaws H w} (dist_seconds : list Z).
Context (h : TIME_HISTOGRAM) (xs : list Z) (lvl : nat).
Context (Hr : th_rep H dist_seconds h xs true) (Hlvl : dist_seconds !! lvl = Some 0).
Context (Hlen : Z.of_nat (length xs) < 2 ^ 53) (Habs : abs_sum xs < 2 ^ 63).

Lemma all_counts : counts_from H xs 0 (map (ts_count lvl) (buckets_ h)).
Proof.
  intros i c. rewrite list_lookup_fmap. destruct (buckets_ h !! i) as [t|] eqn:Ht; [|done]. intros [= <-].
  destruct Hr as [_ Hb]. destruct (Hb i t Ht) as (l & f & Hh & Hf & Hp & Hc & _). rewrite (Hf eq_refl) in Hh.
  pose proof (cnt_le (in_bucket (ref_hash H) i) xs). rewrite (count_all _ _ l _ Hh Hlvl Hp); [done|lia].
Qed.

Lemma all_sums i s : map (ts_sum lvl) (buckets_ h) !! i = Some s -> s = lsum (vals_in H i xs).
Proof.
  rewrite list_lookup_fmap. destruct (buckets_ h !! i) as [t|] eqn:Ht; [|done]. intros [= <-].
  destruct Hr as [_ Hb]. destruct (Hb i t Ht) as (l & f & Hh & Hf & _ & _ & Hs & Ha). rewrite (Hf eq_refl) in Hh.
  pose proof (vals_in_abs_sum H i xs). rewrite (sum_all _ _ l _ Hh Hlvl); [done|lia].
Qed.

Lemma slab_count_all : slab_count (ts_count lvl) (buckets_ h) = Z.of_nat (length xs).
Proof.
  unfold slab_count. rewrite <- (cum_zero H xs) at 1. rewrite (fold_counts H xs Hlen _ 0 all_counts), length_map.
  destruct Hr as [-> _]. apply cum_all.
Qed.

Lemma slab_sum_all : slab_sum (ts_sum lvl) (buckets_ h) = lsum xs.
Proof.
  unfold slab_sum. change 0 with (swrap 64 0). rewrite <- (cum_sum_zero H xs) at 1.
  rewrite (fold_sums H xs _ 0 all_sums), length_map. destruct Hr as [-> _]. rewrite cum_sum_all.
  pose proof (lsum_abs_sum xs). apply swrap_id; lia.
Qed.

(** The share is reached at the bucket of the largest value at the latest. *)
Lemma reached_last p : valid_pct p = true -> xs <> [] ->
  exists x, x ∈ xs /\ reached H xs p (bucket_ref H x).
Proof.
  intros Hp Hne. destruct (max_bucket H xs Hne) as (x & Hx & Hmax). exists x. split; [done|].
  unfold reached. rewrite (upto_cum H w xs).
  assert (cum (ref_hash H) xs (S (bucket_ref H x)) = Z.of_nat (length xs)) as ->.
  { unfold cum. rewrite cnt_all; [done|]. apply list.Forall_forall. intros y Hy. apply Nat.ltb_lt. cbn [hash ref_hash].
    specialize (Hmax y Hy). lia. }
  assert (length xs <> 0%nat) by (by destruct xs). rewrite ddiv_int_self by lia.
  unfold valid_pct in Hp. by apply andb_true_iff in Hp as [_ Hp].
Qed.

Lemma percentile_idx p : valid_pct p = true -> (max_buckets H <= 100)%nat -> exists idx,
  getPercentileBucketIdx (ddiv (dbl_of_flt p) (dbl_of_int 100)) (ts_count lvl) (buckets_ h) = Acc idx /\
  if decide (xs = []) then idx = 1%nat else
    reached H xs p idx /\ (exists x, x ∈ xs /\ bucket_ref H x = idx) /\
    forall x, x ∈ xs -> (bucket_ref H x < idx)%nat -> ~ reached H xs p (bucket_ref H x).
Proof.
  intros Hp H100. unfold getPercentileBucketIdx. unfold valid_pct in Hp. rewrite Hp. cbn [negb].
  rewrite (proj2 (Nat.ltb_ge _ _)) by (destruct Hr as [-> _]; lia). rewrite slab_count_all.
  case_decide as Hxs; [subst; eexists; by split|].
  assert (length xs <> 0%nat) by (by destruct xs). rewrite (proj2 (Z.eqb_neq _ _)) by lia.
  pose proof (pct_bucket_spec H w xs Hlen p _ 0 all_counts) as Hspec. rewrite cum_zero in Hspec.
  destruct Hspec as [Hlow Hres]; [intros; lia|]. eexists. split; [done|].
  destruct Hres as [E|[? ?]]; [exfalso|done].
  destruct (reached_last p Hp Hxs) as (x & Hx & Hrx). apply (Hlow x Hx); [|done]. rewrite E, length_map.
  destruct Hr as [-> _]. pose proof (bucket_ref_lt H x). lia.
Qed.

Lemma pct_values_right ps : (max_buckets H <= 100)%nat -> Forall (fun p => valid_pct p = true) ps ->
  exists vs, pct_values H ps (ts_count lvl) (buckets_ h) = Acc vs /\ Forall2 (pct_right H xs) ps vs.
Proof.
  intros H100. induction 1 as [|p ps Hp _ IH]; cbn [pct_values]; [by exists []|].
  destruct (percentile_idx p Hp H100) as (idx & -> & Hidx). cbn [acc_bind].
  destruct IH as (vs & -> & Hvs). cbn [acc_bind]. eexists. split; [done|]. constructor; [|done].
  exists idx. split; [|done]. case_if; breflect; lia.
Qed.

Lemma stats_all ps : (max_buckets H <= 100)%nat -> Forall (fun p => valid_pct p = true) ps ->
  exists vs, stats_by H ps (ts_count lvl) (ts_sum lvl) h =
    Acc (ThStats vs (Z.of_nat (length xs)) (lsum xs)
           (ddiv (dbl_of_int (lsum xs)) (dbl_of_int (Z.max 1 (Z.of_nat (length xs)))))) /\
    Forall2 (pct_right H xs) ps vs.
Proof.
  intros H100 Hps. destruct (pct_values_right ps H100 Hps) as (vs & E & Hvs). exists vs. split; [|done].
  unfold stats_by. rewrite E. cbn [acc_bind]. rewrite slab_count_all, slab_sum_all, swrap_id by lia.
  do 4 f_equal. case_if; breflect; lia.
Qed.
End AllTime.

(** C40 : after any calls on a histogram and the cache of a thread, the statistics of the
    level without a limit are those of the values added since the histogram was last
    cleared, except those still in the cache: their number, sum and mean, and each
    percentile is the upper bound of the first bucket with values where the share of the
    values not above that bound reaches it.  The cache counts exactly the other values.
    No call fails, for fewer than 2^53 values whose absolute values sum up to less than
    2^63. *)
Theorem time_histogram_refines `{ops : TimeSeriesOps} {TSL : TimeSeries ops} (H : HashClass) (w : Z) (dist_seconds : list Z)
    (lvl : nat) (os : list thop) (start tnow : Z) (ps : list flt) :
  HashLaws H w -> (max_buckets H <= 100)%nat -> get_level_from_time_offset dist_seconds 0 = Some lvl ->
  Forall (op_ok w) os -> Forall (fun p => valid_pct p = true) ps ->
  Z.of_nat (length (concat (map op_vals os))) < 2 ^ 53 -> abs_sum (concat (map op_vals os)) < 2 ^ 63 ->
  let '(xs, ys, _) := spec_run os ([], [], start) in
  exists c h vs, th_run H os (thc_new H start, th_new H dist_seconds start) = Acc (c, h) /\
    get_stats_with_flush H dist_seconds 0 tnow ps h =
      Acc (ThStats vs (Z.of_nat (length xs)) (lsum xs)
             (ddiv (dbl_of_int (lsum xs)) (dbl_of_int (Z.max 1 (Z.of_nat (length xs))))), flush_locked tnow h) /\
    Forall2 (pct_right H xs) ps vs /\ cache_rep H c ys.
Proof.
  intros L H100 Hlvl Hok Hps Hn Ha.
  destruct (th_run_rep H w dist_seconds os (thc_new H start, th_new H dist_seconds start) ([], [], start))
    as ([c h] & Erun & Hrep & Hfit); [|done|by split|].
  { split; [exists true; apply new_rep|]. split; [apply cache_zero|done]. }
  destruct (spec_run os ([], [], start)) as [[xs ys] t]. destruct Hrep as ([fl Hr] & Hc & _), Hfit as [Hn' Ha'].
  cbn [fst snd] in *. rewrite !length_app in Hn'. rewrite !abs_sum_app in Ha'. pose proof (abs_sum_pos ys). cbn in Hn', Ha'.
  destruct (level_from_lookup _ _ _ _ Hlvl) as [_ Hl0]. rewrite Nat.sub_0_r in Hl0.
  destruct (stats_all H w dist_seconds (flush_locked tnow h) xs lvl) with (ps := ps) as (vs & E & Hvs);
    [by eapply flush_rep|done|lia|unfold abs_sum in *; lia|done|done|].
  exists c, h, vs. split_and!; try done. unfold get_stats_with_flush, th_get_stats. rewrite Hlvl, E. done.
Qed.

(** A level counts no more than the values added. *)
Lemma fold_le H xs (cs : list Z) (Hlen : Z.of_nat (length xs) < 2 ^ 53) : forall k a,
  (forall j c, cs !! j = Some c -> 0 <= c <= Z.of_nat (cnt (in_bucket (ref_hash H) (k + j)) xs)) ->
  0 <= a <= cum (ref_hash H) xs k ->
  0 <= fold_left (fun a c => u64 (a + c)) cs a <= cum (ref_hash H) xs (k + length cs).
Proof.
  induction cs as [|c cs IH]; intros k a Hc Ha; cbn [fold_left length]; [by rewrite Nat.add_0_r|].
  pose proof (Hc 0%nat c eq_refl) as H0. rewrite Nat.add_0_r in H0.
  pose proof (cum_S (ref_hash H) xs k). pose proof (cum_le (ref_hash H) xs (S k)).
  replace (k + S (length cs))%nat with (S k + length cs)%nat by lia. apply IH.
  - intros j c' Hj. specialize (Hc (S j) c' Hj). by replace (S k + j)%nat with (k + S j)%nat by lia.
  - rewrite wrap_id by (unfold in_width; lia). lia.
Qed.

Lemma level_count_le `{ops : TimeSeriesOps} {TSL : TimeSeries ops} (H : HashClass) (dist_seconds : list Z) h xs fl lvl :
  th_rep H dist_seconds h xs fl -> (lvl < length dist_seconds)%nat -> Z.of_nat (length xs) < 2 ^ 53 ->
  0 <= slab_count (ts_count lvl) (buckets_ h) <= Z.of_nat (length xs).
Proof.
  intros [Hl Hb] Hlvl Hn. rewrite <- (cum_all H xs), <- Hl, <- (length_map (ts_count lvl)).
  apply (fold_le H xs _ Hn 0).
  - intros i c. rewrite list_lookup_fmap. destruct (buckets_ h !! i) as [t|] eqn:Ht; [|done]. intros [= <-].
    destruct (Hb i t Ht) as (l & f & Hh & _ & Hp & Hc & _). rewrite Nat.add_0_l, <- Hc. eapply count_level; [done..|].
    pose proof (cnt_le (in_bucket (ref_hash H) i) xs). lia.
  - rewrite cum_zero. lia.
Qed.

(** ** A time series that keeps every addition *)
Record log_ts := LogTs { lt_dur : list Z; lt_log : list (Z * (Z * Z)); lt_pending : list (Z * (Z * Z)); lt_now : Z }.

Definition lt_entries (lvl : nat) (t : log_ts) : list (Z * Z) :=
  match lt_dur t !! lvl with
  | Some d => map snd (base.filter (fun e => d = 0 \/ lt_now t - d < e.1) (lt_log t))
  | None => []
  end.
Definition lt_between (a b : Z) (t : log_ts) : list (Z * Z) :=
  map snd (base.filter (fun e => a <= e.1 < b) (lt_log t)).

#[export] Instance log_ops : TimeSeriesOps := {|
  TS := log_ts;
  ts_new d := LogTs d [] [] 0;
  ts_addValue now v t := LogTs (lt_dur t) (lt_log t) ((now, (v, 1)) :: lt_pending t) (lt_now t);
  ts_addValueAggregated now s n t := LogTs (lt_dur t) (lt_log t) ((now, (s, n)) :: lt_pending t) (lt_now t);
  ts_update now t := LogTs (lt_dur t) (lt_pending t ++ lt_log t) [] (Z.max now (lt_now t));
  ts_clear t := LogTs (lt_dur t) [] [] 0;
  ts_count lvl t := ecount (lt_entries lvl t); ts_sum lvl t := esum (lt_entries lvl t);
  ts_count_in a b t := ecount (lt_between a b t); ts_sum_in a b t := esum (lt_between a b t) |}.

Lemma ecount_filter (P : Z * (Z * Z) -> Prop) `{forall e, Decision (P e)} l : Forall (fun e => 0 <= e.2) (map snd l) ->
  0 <= ecount (map snd (base.filter P l)) <= ecount (map snd l).
Proof.
  induction l as [|e l IH]; intros Hp; [done|]. cbn [map] in Hp. apply list.Forall_cons in Hp as [He Hp]. specialize (IH Hp).
  rewrite filter_cons. unfold ecount, lsum in *. case_decide; cbn in *; lia.
Qed.

Lemma filter_level0 (l : list (Z * (Z * Z))) now : base.filter (fun e => 0 = 0 \/ now - 0 < e.1) l = l.
Proof. induction l as [|e l IH]; [done|]. rewrite filter_cons_True by (by left). by rewrite IH. Qed.

Definition log_holds (d : list Z) (t : log_ts) (l : list (Z * Z)) (f : bool) : Prop :=
  lt_dur t = d /\ map snd (lt_pending t ++ lt_log t) = l /\ (f = true -> lt_pending t = []).

#[export] Instance log_series : TimeSeries log_ops.
Proof.
  refine (@Build_TimeSeries log_ops log_holds _ _ _ _ _ _ _ _); unfold log_holds; cbn.
  - done.
  - done.
  - intros d t l f now s n (Hd & <- & _). by split_and!.
  - intros d t l f now (Hd & <- & _). by split_and!.
  - intros d t l f (Hd & _). by split_and!.
  - intros d t l lvl (<- & <- & Hp) Hlvl _ _. rewrite (Hp eq_refl). unfold lt_entries. by rewrite Hlvl, filter_level0.
  - intros d t l lvl (<- & <- & Hp) Hlvl _. rewrite (Hp eq_refl). unfold lt_entries. by rewrite Hlvl, filter_level0.
  - intros d t l f lvl (<- & <- & _) Hlvl Hp _. unfold lt_entries. rewrite map_app in *. apply Forall_app in Hp as [Hp1 Hp2].
    destruct (lookup_lt_is_Some_2 _ _ Hlvl) as [dur ->].
    pose proof (ecount_filter (fun e => dur = 0 \/ lt_now t - dur < e.1) _ Hp2).
    assert (0 <= ecount (map snd (lt_pending t))) as H0.
    { clear -Hp1. unfold ecount, lsum. induction Hp1; cbn in *; lia. }
    unfold ecount in *. rewrite map_app, lsum_app. lia.
Defined.

(** Responses of a service: two seconds through the cache, one directly, and a clearing. *)
Definition ex_th_ops : list thop :=
  [TAdd 40 99 true; TClear; TCache 5 100; TCache 25 100; TCache 700 101; TMulti [(101, 20000); (101, -3)] false;
   TCacheFlush; TCache 90 102].
Definition P50 : flt := flt_of_int 50.

Lemma time_histogram_refines_witness :
  let '(xs, ys, _) := spec_run ex_th_ops ([], [], 99) in
  xs = [700; -3; 20000; 25; 5] /\ ys = [90] /\
  exists c h vs, th_run RESP_TIME_HASH ex_th_ops (thc_new RESP_TIME_HASH 99, th_new RESP_TIME_HASH Level_5s_5min_5days_all 99) =
      Acc (c, h) /\
    get_stats_with_flush RESP_TIME_HASH Level_5s_5min_5days_all 0 103 [P25; P50; P95] h =
      Acc (ThStats vs 5 20727 (ddiv (dbl_of_int 20727) (dbl_of_int 5)), flush_locked 103 h) /\
    Forall2 (pct_right RESP_TIME_HASH xs) [P25; P50; P95] vs /\ cache_rep RESP_TIME_HASH c ys.
Proof.
  split; [done|]. split; [done|].
  apply (time_histogram_refines RESP_TIME_HASH 64 Level_5s_5min_5days_all 3 ex_th_ops 99 103 [P25; P50; P95]); try done.
  - apply _.
  - vm_compute. lia.
  - unfold ex_th_ops, op_ok, T_min, T_max. repeat constructor; lia.
  - repeat constructor.
Defined.

(** The same calls evaluated: the percentiles, and the level of five seconds. *)
Lemma ex_th_ops_stats :
  match th_run RESP_TIME_HASH ex_th_ops (thc_new RESP_TIME_HASH 99, th_new RESP_TIME_HASH Level_5s_5min_5days_all 99) with
  | Acc (_, h) =>
      match get_stats_with_flush RESP_TIME_HASH Level_5s_5min_5days_all 0 103 [P25; P50; P95] h,
            get_stats_with_flush RESP_TIME_HASH Level_5s_5min_5days_all 5 106 [P95] h with
      | Acc (s, _), Acc (s5, _) => (data_values s, tcount s, data_values s5, tcount s5) = ([10; 30; 32767], 5, [32767], 3)
      | _, _ => False
      end
  | Oob => False
  end.
Proof. vm_compute. reflexivity. Qed.
