(* ===== verification/HostState.v ===== *)
(** * HostState : the state of a host (common/gy_sys_stat.h, common/gy_sys_stat.cc,
      common/gy_file_api.cc, common/gy_socket_stat.cc).

    Every two seconds the agent reads /proc/stat, /proc/meminfo and /proc/vmstat, keeps
    the last readings, classifies the processors and the memory and records the verdicts
    in arrays and in bit histories.  Every five seconds the recent verdicts and the
    numbers of processes and services with issues give the state of the host, which is
    sent to madhava.

    The numbers scanned from the files and the clocks are the input of a step.  The time
    histograms, built on a library, are a parameter: a type with the operation that adds
    a value and the percentiles and counts it gives.  A conversion of a number to an
    integer type that the language leaves undefined is [Oob]. *)
From Stdlib Require Import SpecFloat.
From S2P Require Import Prelude Bytes Doubles Histogram ObjState TimeHist.

#[local] Open Scope Z_scope.

Definition CPU_SATURATION_PERCENT : Z := 80.
Definition CPU_LOW_USE_PERCENT : Z := 30.
Definition CPU_IOWAIT_LOW_PERCENT : Z := 10.
Definition CPU_IDLE_PERCENT : Z := 10.
Definition MEM_RSS_SATURATION_PCT : Z := 80.
Definition MEM_RSS_LOW_USE_PCT : Z := 30.
Definition MEM_COMMIT_SATURATION_PCT : Z := 95.
Definition MAX_SYS_HIST_STATS : nat := 5.
Definition MAX_SYS_ISSUE_HIST : nat := 8.

Inductive CPU_ISSUE_SOURCE :=
  | ISSUE_CPU_NONE | ISSUE_CPU_SATURATED | ISSUE_CORE_SATURATED | ISSUE_CPU_IOWAIT
  | ISSUE_CPU_CONTEXT_SWITCH | ISSUE_FORKS_HIGH | ISSUE_PROCS_RUNNING_HIGH.

Inductive MEM_ISSUE_SOURCE :=
  | ISSUE_MEM_NONE | ISSUE_RSS_SATURATED | ISSUE_COMMIT_SATURATED | ISSUE_MEM_PG_INOUT
  | ISSUE_MEM_SWP_INOUT | ISSUE_MEM_ALLOCSTALL | ISSUE_OOM_KILL | ISSUE_SWAP_FULL.

#[export] Instance CPU_ISSUE_SOURCE_eq_dec : EqDecision CPU_ISSUE_SOURCE.
Proof. solve_decision. Defined.
#[export] Instance MEM_ISSUE_SOURCE_eq_dec : EqDecision MEM_ISSUE_SOURCE.
Proof. solve_decision. Defined.

(** ** Processors: the counters of /proc/stat *)
Record CPU_ONE_STATS := CpuOne {
  cpu_user : Z; cpu_nice : Z; cpu_sys : Z; cpu_idle : Z; cpu_iowait : Z; cpu_steal : Z;
  cpu_hardirq : Z; cpu_softirq : Z; cpu_guest : Z; cpu_guest_nice : Z;
  co_clock_nsec : Z; pct_user : flt; pct_sys : flt; pct_iowait : flt }.

Definition CPU_ONE_ZERO : CPU_ONE_STATS := CpuOne 0 0 0 0 0 0 0 0 0 0 0 F0 F0 F0.

Definition set_idle_iowait (idle iowait : Z) (s : CPU_ONE_STATS) : CPU_ONE_STATS :=
  CpuOne (cpu_user s) (cpu_nice s) (cpu_sys s) idle iowait (cpu_steal s) (cpu_hardirq s) (cpu_softirq s)
    (cpu_guest s) (cpu_guest_nice s) (co_clock_nsec s) (pct_user s) (pct_sys s) (pct_iowait s).
Definition set_co_clock (c : Z) (s : CPU_ONE_STATS) : CPU_ONE_STATS :=
  CpuOne (cpu_user s) (cpu_nice s) (cpu_sys s) (cpu_idle s) (cpu_iowait s) (cpu_steal s) (cpu_hardirq s)
    (cpu_softirq s) (cpu_guest s) (cpu_guest_nice s) c (pct_user s) (pct_sys s) (pct_iowait s).
Definition set_co_pcts (u s' w : flt) (s : CPU_ONE_STATS) : CPU_ONE_STATS :=
  CpuOne (cpu_user s) (cpu_nice s) (cpu_sys s) (cpu_idle s) (cpu_iowait s) (cpu_steal s) (cpu_hardirq s)
    (cpu_softirq s) (cpu_guest s) (cpu_guest_nice s) (co_clock_nsec s) u s' w.

(** The sum of the times that are not part of another one. *)
Definition all_ticks (s : CPU_ONE_STATS) : Z :=
  u64 (cpu_user s + cpu_nice s + cpu_sys s + cpu_iowait s + cpu_idle s + cpu_steal s + cpu_hardirq s + cpu_softirq s).

Definition ULONG_MAX : Z := 2 ^ 64 - 1.

(** The elapsed ticks, and the old readings with the times that restart from zero reset. *)
Definition get_diffticks (pnew pold : CPU_ONE_STATS) : Z * CPU_ONE_STATS :=
  let nu := u64 (cpu_user pnew - cpu_guest pnew) in
  let ou := u64 (cpu_user pold - cpu_guest pold) in
  let ishift := if nu <? ou then ou - nu else 0 in
  let nn := u64 (cpu_nice pnew - cpu_guest_nice pnew) in
  let on := u64 (cpu_nice pold - cpu_guest_nice pold) in
  let ishift := if nn <? on then u64 (ishift + (on - nn)) else ishift in
  let restarted new old := (new <? old) && (old <? ULONG_MAX - 0x7ffff) in
  let pold := set_idle_iowait
    (if restarted (cpu_idle pnew) (cpu_idle pold) then 0 else cpu_idle pold)
    (if restarted (cpu_iowait pnew) (cpu_iowait pold) then 0 else cpu_iowait pold) pold in
  (u64 (all_ticks pnew - all_ticks pold + ishift), pold).

(** [gy_diff_counter_safe(new, old) * 100.0f/diffticks] *)
Definition ticks_pct (new old diffticks : Z) : flt :=
  fdiv (fmul (flt_of_int (gy_diff_counter_safe 64 (u64 new) (u64 old))) (flt_of_int 100)) (flt_of_int diffticks).

(** The new readings with their percentages; they replace the old ones. *)
Definition calc_cpu_pct (pnew pold : CPU_ONE_STATS) (diffticks : Z) : CPU_ONE_STATS :=
  let diffticks := if diffticks =? 0 then 1 else diffticks in
  set_co_pcts
    (ticks_pct (cpu_user pnew + cpu_nice pnew) (cpu_user pold + cpu_nice pold) diffticks)
    (ticks_pct (cpu_sys pnew + cpu_hardirq pnew + cpu_softirq pnew)
               (cpu_sys pold + cpu_hardirq pold + cpu_softirq pold) diffticks)
    (ticks_pct (cpu_iowait pnew) (cpu_iowait pold) diffticks) pnew.

(** What is scanned from /proc/stat: the line of all cores, the lines of the cores with
    their numbers, and the three counters where they are found. *)
Record proc_stat := ProcStat {
  ps_cpu : CPU_ONE_STATS; ps_cores : list (Z * CPU_ONE_STATS);
  ps_ctxt : option Z; ps_processes : option Z; ps_procs_running : option Z }.

Section Cpu.
(** The time histograms: [th_add] adds a value at a time; [th_pct h secs pct] is a
    percentile over the last [secs] seconds (0 for all), [th_count] the number of values. *)
Context {TH : Type} (th_add : Z -> Z -> TH -> TH) (th_pct : TH -> Z -> Z -> Z) (th_count : TH -> Z -> Z).

Record SYS_CPU_STATS := SysCpu {
  max_cores_possible : Z; curr_cores_online : Z;
  pcpuarr : list CPU_ONE_STATS; pcore_cpu_hist : list (list flt);
  overall_stats : CPU_ONE_STATS;
  cumul_context_switch : Z; curr_context_switch : Z; cumul_forks : Z;
  curr_clock_nsec : Z; last_clock_nsec : Z;
  usercpu_pct_hist : list flt; syscpu_pct_hist : list flt; cpu_pct_hist : list flt;
  context_switch_hist : list Z; fork_hist : list Z; procs_running_hist : list Z;
  cpu_issue_hist : list (OBJ_STATE_E * CPU_ISSUE_SOURCE); cpu_issue_bit_hist : Z; cpu_severe_issue_bit_hist : Z;
  cumul_core_cpu_pct : flt;
  cpu_p95_ : Z; cpu_5min_p95_ : Z; cs_p95_ : Z; cs_5min_p95_ : Z;
  fork_p95_ : Z; fork_5min_p95_ : Z; procs_p95_ : Z; procs_5min_p95_ : Z;
  cpuhistogram : TH; cshistogram : TH; fork_histogram : TH; procs_running_histogram : TH }.

(** The fields as the constructor leaves them before it reads for the first time. *)
Definition cpu_init (ncpu nonline : nat) (th : TH * TH * TH * TH) : SYS_CPU_STATS :=
  let hist {A} (x : A) := replicate MAX_SYS_HIST_STATS x in
  SysCpu (Z.of_nat ncpu) (Z.of_nat (min nonline ncpu))
    (replicate ncpu CPU_ONE_ZERO) (replicate ncpu (hist F0)) CPU_ONE_ZERO
    0 0 0 0 0 (hist F0) (hist F0) (hist F0) (hist 0) (hist 0) (hist 0)
    (replicate MAX_SYS_ISSUE_HIST (STATE_IDLE, ISSUE_CPU_NONE)) 0 0 F0
    0 0 0 0 0 0 0 0 th.1.1.1 th.1.1.2 th.1.2 th.2.

(** The loop over the lines of the cores; it ends at a number that is too large. *)
Fixpoint read_cores (to_calc : bool) (clock ncores : Z) (lines : list (Z * CPU_ONE_STATS))
    (arr : list CPU_ONE_STATS) : list CPU_ONE_STATS :=
  match lines with
  | [] => arr
  | (corenum, tstat1) :: lines =>
      if corenum >=? ncores then arr else
      let one pstats :=
        let pstats := set_co_clock clock pstats in
        if to_calc then
          let tstat1 := set_co_clock clock tstat1 in
          let '(diffticks, pstats) := get_diffticks tstat1 pstats in
          calc_cpu_pct tstat1 pstats diffticks
        else pstats in
      read_cores to_calc clock ncores lines (alter one (Z.to_nat corenum) arr)
  end.

Definition is_offline (clock : Z) (s : CPU_ONE_STATS) : bool := co_clock_nsec s <? clock.
Definition clear_offline (clock : Z) (s : CPU_ONE_STATS) : CPU_ONE_STATS :=
  if is_offline clock s then set_co_pcts F0 F0 F0 s else s.
Definition core_pct (s : CPU_ONE_STATS) : flt := fadd (pct_user s) (pct_sys s).

(** [clock] is the monotonic clock and [tnow] the time of the call.  The number is the
    result of the call.  The array [pcore_cpu_hist] is copied element by element before
    it is shifted, and so stays as it is. *)
Definition get_cpu_stats (clock tnow : Z) (inp : option proc_stat) (c : SYS_CPU_STATS)
    : acc (Z * SYS_CPU_STATS) :=
  match inp with
  | None => Acc (-1, c)
  | Some ps =>
      let to_calc := negb (last_clock_nsec c =? 0) && negb (curr_clock_nsec c =? 0) in
      if to_calc && (u64 (clock - curr_clock_nsec c) <? GY_NSEC_PER_SEC) then Acc (1, c) else
      let overall :=
        if to_calc then
          let tstat := set_co_clock clock (ps_cpu ps) in
          let '(diffticks, pold) := get_diffticks tstat (overall_stats c) in
          calc_cpu_pct tstat pold diffticks
        else overall_stats c in
      let arr := read_cores to_calc clock (max_cores_possible c) (ps_cores ps) (pcpuarr c) in
      let counter found cumul :=
        match found with Some v => (gy_diff_counter_safe 64 v cumul, v) | None => (0, cumul) end in
      let '(cswitch, cumul_cs) := counter (ps_ctxt ps) (cumul_context_switch c) in
      let '(processes, cumul_f) := counter (ps_processes ps) (cumul_forks c) in
      let procs_running := default 0 (ps_procs_running ps) in
      if negb to_calc then
        Acc (0, SysCpu (max_cores_possible c) (curr_cores_online c) arr (pcore_cpu_hist c) overall
          cumul_cs (curr_context_switch c) cumul_f clock (curr_clock_nsec c)
          (usercpu_pct_hist c) (syscpu_pct_hist c) (cpu_pct_hist c) (context_switch_hist c) (fork_hist c)
          (procs_running_hist c) (cpu_issue_hist c) (cpu_issue_bit_hist c) (cpu_severe_issue_bit_hist c)
          (cumul_core_cpu_pct c) (cpu_p95_ c) (cpu_5min_p95_ c) (cs_p95_ c) (cs_5min_p95_ c) (fork_p95_ c)
          (fork_5min_p95_ c) (procs_p95_ c) (procs_5min_p95_ c) (cpuhistogram c) (cshistogram c)
          (fork_histogram c) (procs_running_histogram c)) else
      let noffline := Z.of_nat (length (base.filter (fun s => is_offline clock s = true) arr)) in
      let arr := map (clear_offline clock) arr in
      let cumpct := fold_left (fun a s => fadd a (core_pct s)) arr F0 in
      let user := push_front (pct_user overall) (usercpu_pct_hist c) in
      let sys := push_front (pct_sys overall) (syscpu_pct_hist c) in
      let pct := fadd (pct_user overall) (pct_sys overall) in
      let online := u32 (max_cores_possible c - noffline) in
      let online := if curr_cores_online c =? online then curr_cores_online c
                    else if online =? 0 then 1 else online in
      let! pct_int := dbl_to_int 64 pct in
      Acc (0, SysCpu (max_cores_possible c) online arr (pcore_cpu_hist c) overall
        cumul_cs cswitch cumul_f clock (curr_clock_nsec c)
        user sys (push_front pct (cpu_pct_hist c))
        (<[0%nat := cswitch]> (context_switch_hist c))
        (push_front (u32 processes) (fork_hist c))
        (push_front (u32 procs_running) (procs_running_hist c))
        (cpu_issue_hist c) (cpu_issue_bit_hist c) (cpu_severe_issue_bit_hist c) cumpct
        (cpu_p95_ c) (cpu_5min_p95_ c) (cs_p95_ c) (cs_5min_p95_ c) (fork_p95_ c)
        (fork_5min_p95_ c) (procs_p95_ c) (procs_5min_p95_ c)
        (th_add pct_int tnow (cpuhistogram c)) (th_add (swrap 64 cswitch) tnow (cshistogram c))
        (th_add (u32 processes) tnow (fork_histogram c)) (th_add (u32 procs_running) tnow (procs_running_histogram c)))
  end.

(** ** Processors: the verdict *)
Definition nthf (i : nat) (l : list flt) : flt := nth i l F0.

(** [now] is above the saturation, or was and is still above half of it. *)
Definition saturated (now last : flt) : bool :=
  fgt now (flt_of_int CPU_SATURATION_PERCENT) ||
  (fgt last (flt_of_int CPU_SATURATION_PERCENT) && fgt now (flt_of_int (Z.shiftr CPU_SATURATION_PERCENT 1))).

(** The loop over the cores: [core_saturated], [core_in_use] and [iowait_issue]. *)
Fixpoint scan_cores (cores : list (list flt * CPU_ONE_STATS)) (core_in_use : bool) : bool * bool * bool :=
  match cores with
  | [] => (false, core_in_use, false)
  | (hist, one) :: cores =>
      let corecurr := nthf 0 hist in
      let corelast := nthf 1 hist in
      if saturated corecurr corelast then (true, core_in_use, false)
      else if fgt corecurr (flt_of_int CPU_LOW_USE_PERCENT) && fgt corelast (flt_of_int CPU_LOW_USE_PERCENT)
      then scan_cores cores true
      else if negb core_in_use then
        if fgt (pct_iowait one) (flt_of_int CPU_IOWAIT_LOW_PERCENT) then (true, core_in_use, true)
        else scan_cores cores core_in_use
      else scan_cores cores core_in_use
  end.

(** The percentiles that a call with [update_stats] keeps. *)
Definition cpu_update_stats (c : SYS_CPU_STATS) : SYS_CPU_STATS :=
  SysCpu (max_cores_possible c) (curr_cores_online c) (pcpuarr c) (pcore_cpu_hist c) (overall_stats c)
    (cumul_context_switch c) (curr_context_switch c) (cumul_forks c) (curr_clock_nsec c) (last_clock_nsec c)
    (usercpu_pct_hist c) (syscpu_pct_hist c) (cpu_pct_hist c) (context_switch_hist c) (fork_hist c)
    (procs_running_hist c) (cpu_issue_hist c) (cpu_issue_bit_hist c) (cpu_severe_issue_bit_hist c)
    (cumul_core_cpu_pct c)
    (th_pct (cpuhistogram c) 0 95) (th_pct (cpuhistogram c) 300 95)
    (th_pct (cshistogram c) 0 95) (th_pct (cshistogram c) 300 95)
    (th_pct (fork_histogram c) 0 95) (th_pct (fork_histogram c) 300 95)
    (th_pct (procs_running_histogram c) 0 95) (th_pct (procs_running_histogram c) 300 95)
    (cpuhistogram c) (cshistogram c) (fork_histogram c) (procs_running_histogram c).

Definition core_issue (iowait_issue : bool) : CPU_ISSUE_SOURCE :=
  if iowait_issue then ISSUE_CPU_IOWAIT else ISSUE_CORE_SATURATED.

(** The verdict on many context switches: the part under [morecs > currcore * 150 * diffsecs].
    [None] goes on behind it. *)
Definition cs_verdict (c : SYS_CPU_STATS) (currpct morecs maxforks maxprocs currcore diffsecs : Z)
    : option (OBJ_STATE_E * CPU_ISSUE_SOURCE) :=
  let per_core n := u64 (u32 (currcore * n) * diffsecs) in
  let tcounta := th_count (cshistogram c) 0 in
  let cs_p95 := th_pct (cshistogram c) 0 95 in
  let cs_p90 := th_pct (cshistogram c) 0 90 in
  let fork_p95 := th_pct (fork_histogram c) 0 95 in
  let procs_p95 := th_pct (procs_running_histogram c) 0 95 in
  let smorecs := swrap 64 morecs in
  let forks_high := (maxforks >? fork_p95) && (maxforks >? u64 (50 * diffsecs)) in
  let procs_high := (maxprocs >? procs_p95) &&
    fgt (dbl_of_int maxprocs) (dmul (ddiv (dbl_of_int 3) (dbl_of_int 2)) (dbl_of_int currcore)) in
  let consistent :=
    if morecs >? per_core 10000 then Some (STATE_BAD, ISSUE_CPU_CONTEXT_SWITCH)
    else if morecs >? per_core 1000 then Some (STATE_OK, ISSUE_CPU_CONTEXT_SWITCH)
    else None in
  if tcounta >? 100 then
    if smorecs >? cs_p90 then
      if (currpct >? CPU_LOW_USE_PERCENT) && (smorecs >? cs_p95) then
        Some (if morecs >? per_core 5000 then STATE_SEVERE else STATE_BAD, ISSUE_CPU_CONTEXT_SWITCH)
      else if currpct >? CPU_LOW_USE_PERCENT then
        Some (if maxforks >? fork_p95 then STATE_SEVERE else STATE_BAD, ISSUE_CPU_CONTEXT_SWITCH)
      else if forks_high then Some (STATE_BAD, ISSUE_FORKS_HIGH)
      else if procs_high then Some (STATE_BAD, ISSUE_PROCS_RUNNING_HIGH)
      else Some (STATE_OK, ISSUE_CPU_CONTEXT_SWITCH)
    else if forks_high then Some (STATE_BAD, ISSUE_FORKS_HIGH)
    else if procs_high then Some (STATE_BAD, ISSUE_PROCS_RUNNING_HIGH)
    else consistent
  else consistent.

Definition cpu_get_curr_state (update_stats : bool) (c : SYS_CPU_STATS)
    : acc (OBJ_STATE_E * CPU_ISSUE_SOURCE * SYS_CPU_STATS) :=
  let! currpct := dbl_to_int 32 (nthf 0 (cpu_pct_hist c)) in
  let! lastpct := dbl_to_int 32 (nthf 1 (cpu_pct_hist c)) in
  let! iowaitpct := dbl_to_int 32 (pct_iowait (overall_stats c)) in
  let morecs := Z.max (nth 0 (context_switch_hist c) 0) (nth 1 (context_switch_hist c) 0) in
  let maxforks := Z.max (nth 0 (fork_hist c) 0) (nth 1 (fork_hist c) 0) in
  let maxprocs := Z.max (nth 0 (procs_running_hist c) 0) (nth 1 (procs_running_hist c) 0) in
  let currcore := curr_cores_online c in
  let diffsecs := clock_diff_secs (curr_clock_nsec c) (last_clock_nsec c) in
  let per_core n := u64 (u32 (currcore * n) * diffsecs) in
  let p75_5 := th_pct (cpuhistogram c) 300 75 in
  let tcount5 := th_count (cpuhistogram c) 300 in
  let tcounta := th_count (cshistogram c) 0 in
  let c := if update_stats then cpu_update_stats c else c in
  let verdict :=
    if (currpct >? CPU_SATURATION_PERCENT) ||
       ((lastpct >? CPU_SATURATION_PERCENT) && (currpct >? Z.shiftr CPU_SATURATION_PERCENT 1)) then
      let is_prolonged := p75_5 >=? currpct in
      if (currpct >? 95) && (lastpct >? 95) && (tcount5 >? 20) && is_prolonged
      then (STATE_SEVERE, ISSUE_CPU_SATURATED) else (STATE_BAD, ISSUE_CPU_SATURATED)
    else
    let '(core_saturated, core_in_use, iowait_issue) := scan_cores (zip (pcore_cpu_hist c) (pcpuarr c)) false in
    if (currpct <? CPU_LOW_USE_PERCENT) && (lastpct <? CPU_LOW_USE_PERCENT) &&
       (iowaitpct <? CPU_IOWAIT_LOW_PERCENT) && (morecs <=? per_core 200) then
      if core_saturated then (STATE_OK, core_issue iowait_issue)
      else if (currpct <? CPU_IDLE_PERCENT) && (lastpct <? CPU_IDLE_PERCENT) && negb core_in_use
      then (STATE_IDLE, ISSUE_CPU_NONE)
      else if (currpct <? cpu_p95_ c + 5) || (tcounta <? 300) then (STATE_GOOD, ISSUE_CPU_NONE)
      else (STATE_OK, ISSUE_CPU_NONE)
    else
    let after_iowait :=
      match (if morecs >? per_core 150
             then cs_verdict c currpct morecs maxforks maxprocs currcore diffsecs else None) with
      | Some v => v
      | None => if core_saturated then (STATE_OK, core_issue iowait_issue) else (STATE_GOOD, ISSUE_CPU_NONE)
      end in
    if iowaitpct >=? CPU_IOWAIT_LOW_PERCENT then
      if (currpct >? CPU_LOW_USE_PERCENT) || (iowaitpct >=? CPU_LOW_USE_PERCENT) then
        (if iowaitpct >=? CPU_SATURATION_PERCENT then STATE_SEVERE else STATE_BAD, ISSUE_CPU_IOWAIT)
      else if morecs <=? per_core 100 then (STATE_OK, ISSUE_CPU_IOWAIT)
      else after_iowait
    else after_iowait in
  Acc (verdict, c).

(** The first part of [SYSTEM_STATS::get_stats]: what is recorded of a verdict. *)
Definition cpu_record (v : OBJ_STATE_E * CPU_ISSUE_SOURCE) (c : SYS_CPU_STATS) : SYS_CPU_STATS :=
  SysCpu (max_cores_possible c) (curr_cores_online c) (pcpuarr c) (pcore_cpu_hist c) (overall_stats c)
    (cumul_context_switch c) (curr_context_switch c) (cumul_forks c) (curr_clock_nsec c) (last_clock_nsec c)
    (usercpu_pct_hist c) (syscpu_pct_hist c) (cpu_pct_hist c) (context_switch_hist c) (fork_hist c)
    (procs_running_hist c) (push_front v (cpu_issue_hist c))
    (hist_push (at_least_bad v.1) (cpu_issue_bit_hist c))
    (hist_push (at_least_severe v.1) (cpu_severe_issue_bit_hist c))
    (cumul_core_cpu_pct c) (cpu_p95_ c) (cpu_5min_p95_ c) (cs_p95_ c) (cs_5min_p95_ c) (fork_p95_ c)
    (fork_5min_p95_ c) (procs_p95_ c) (procs_5min_p95_ c)
    (cpuhistogram c) (cshistogram c) (fork_histogram c) (procs_running_histogram c).

Definition cpu_step (clock tnow : Z) (inp : option proc_stat) (c : SYS_CPU_STATS) : acc (Z * SYS_CPU_STATS) :=
  let! r := get_cpu_stats clock tnow inp c in
  let '(ret, c) := r in
  if negb (ret =? 0) then Acc (ret, c) else
  let! s := cpu_get_curr_state true c in
  let '(v, c) := s in
  Acc (0, cpu_record v c).
End Cpu.
#[global] Arguments SYS_CPU_STATS : clear implicits.

(** ** Memory: /proc/meminfo *)
(** The numbers of kilobytes in the file. *)
Record meminfo := MemInfo {
  MemTotal : Z; MemFree : Z; Buffers : Z; Cached : Z; Mlocked : Z; SwapTotal : Z; SwapFree : Z;
  Shmem : Z; Slab : Z; CommitLimit : Z; Committed_AS : Z }.

(** The fields that [get_host_meminfo] fills. *)
Record mem_fields := MemFields {
  total_memory : Z; rss_memory : Z; pct_rss : flt; free_immed_memory : Z; cached_memory : Z; locked_memory : Z;
  committed_memory : Z; pct_committed : flt; total_swap : Z; free_swap : Z }.

(** The call when every number of the file is found: its result and the fields, where
    [f] are the fields before. *)
Definition get_host_meminfo (m : meminfo) (f : mem_fields) : Z * mem_fields :=
  let bytes kb := u64 (Z.shiftl kb 10) in
  let valtotal := bytes (MemTotal m) in
  if valtotal =? 0 then
    (1, MemFields 0 0 (pct_rss f) (free_immed_memory f) (cached_memory f) (locked_memory f) (committed_memory f)
          (pct_committed f) (total_swap f) (free_swap f)) else
  let val := u64 (bytes (MemFree m) + bytes (Buffers m) + bytes (Cached m) + bytes (Slab m)) in
  let val := if val >? valtotal then valtotal else val in
  let valrss := u64 (valtotal - val + bytes (Shmem m)) in
  let valrss := if valrss >? valtotal then valtotal else valrss in
  let pct a b := fdiv (fmul (flt_of_int a) (flt_of_int 100)) (flt_of_int b) in
  let limit := bytes (CommitLimit m) in
  let limit := if limit =? 0 then 1 else limit in
  (0, MemFields valtotal valrss (pct valrss valtotal) (bytes (MemFree m)) (bytes (Cached m)) (bytes (Mlocked m))
    (bytes (Committed_AS m)) (pct (bytes (Committed_AS m)) limit) (bytes (SwapTotal m)) (bytes (SwapFree m))).

(** /proc/vmstat *)
Record vmstat := VmStat {
  pgpgin : Z; pgpgout : Z; pswpin : Z; pswpout : Z; allocstall : Z; pgmajfault : Z; oom_kill : Z }.

Definition PAGE_HASH : HashClass := SEMI_LOG_HASH.

Record SYS_MEM_STATS := SysMem {
  mem_now : mem_fields;     (* its percentages are those at the front of the arrays *)
  pct_rss_hist : list flt; pct_committed_hist : list flt;
  pginout_hist : list Z; swpinout_hist : list Z; allocstall_hist : list Z; pgmajfault_hist : list Z;
  oom_kill_hist : list Z;
  mem_issue_hist : list (OBJ_STATE_E * option MEM_ISSUE_SOURCE);
  mem_issue_bit_hist : Z; mem_severe_issue_bit_hist : Z;
  last_pginout : Z; last_swpinout : Z; last_allocstall : Z; last_pgmajfault : Z; last_oom_kill : Z;
  mem_curr_clock_nsec : Z; mem_last_clock_nsec : Z;
  pct_rss_p95_ : Z; pginout_p95_ : Z; swpinout_p95_ : Z; allocstall_p95_ : Z;
  pct_rss_histogram : histogram; pginout_histogram : histogram; swpinout_histogram : histogram;
  allocstall_histogram : histogram }.

Definition mem_init (clock_sec : Z) : SYS_MEM_STATS :=
  let hist {A} (x : A) := replicate MAX_SYS_HIST_STATS x in
  SysMem (MemFields 0 0 F0 0 0 0 0 F0 0 0) (hist F0) (hist F0) (hist 0) (hist 0) (hist 0) (hist 0) (hist 0)
    (replicate MAX_SYS_ISSUE_HIST (STATE_IDLE, Some ISSUE_MEM_NONE)) 0 0
    0 0 0 0 0 0 0 0 0 0 0
    (hist_new PERCENT_HASH 32 clock_sec) (hist_new PAGE_HASH 32 clock_sec)
    (hist_new PAGE_HASH 32 clock_sec) (hist_new PAGE_HASH 32 clock_sec).

(** [add_data] of a histogram of [int]; its assertion on the bucket ends the process. *)
Definition hist_add (H : HashClass) (data clock_sec : Z) (h : histogram) : acc histogram :=
  match add_data H (swrap 32 data) clock_sec None h with Some (h, _) => Acc h | None => Oob end.

(** The input of one call: /proc/meminfo as it is scanned, or the fields that a failed
    call leaves; and the same of /proc/vmstat, which has no effect when it fails.  The
    result of a failed call is -1 (with [true]) or 1. *)
Definition mem_input : Type := (bool * mem_fields + meminfo) * (bool + vmstat).
Definition failed (b : bool) : Z := if b then -1 else 1.

Definition get_mem_stats (clock : Z) (inp : mem_input) (m : SYS_MEM_STATS) : acc (Z * SYS_MEM_STATS) :=
  let to_calc := negb (mem_last_clock_nsec m =? 0) && negb (mem_curr_clock_nsec m =? 0) in
  if to_calc && (u64 (clock - mem_curr_clock_nsec m) <? GY_NSEC_PER_SEC) then Acc (1, m) else
  let currsec := clock / GY_NSEC_PER_SEC in
  let shifted f :=
    SysMem f (<[0%nat := pct_rss f]> (array_shift_right (pct_rss_hist m)))
      (<[0%nat := pct_committed f]> (array_shift_right (pct_committed_hist m)))
      (array_shift_right (pginout_hist m)) (array_shift_right (swpinout_hist m))
      (array_shift_right (allocstall_hist m)) (array_shift_right (pgmajfault_hist m))
      (array_shift_right (oom_kill_hist m))
      (mem_issue_hist m) (mem_issue_bit_hist m) (mem_severe_issue_bit_hist m)
      (last_pginout m) (last_swpinout m) (last_allocstall m) (last_pgmajfault m) (last_oom_kill m)
      clock (mem_curr_clock_nsec m) (pct_rss_p95_ m) (pginout_p95_ m) (swpinout_p95_ m) (allocstall_p95_ m)
      (pct_rss_histogram m) (pginout_histogram m) (swpinout_histogram m) (allocstall_histogram m) in
  let '(ret, f) := match inp.1 with
    | inl (b, f) => (failed b, f)
    | inr mi => get_host_meminfo mi (mem_now m)
    end in
  let m := shifted f in
  if negb (ret =? 0) then Acc (ret, m) else
      match inp.2 with
      | inl b => Acc (failed b, m)
      | inr v =>
          let pg := u64 (pgpgin v + pgpgout v) in
          let swp := u64 (pswpin v + pswpout v) in
          let diff new old := u32 (gy_diff_counter_safe 64 new old) in
          let set hist new old := if to_calc then <[0%nat := diff new old]> hist else hist in
          let pg_hist := set (pginout_hist m) pg (last_pginout m) in
          let swp_hist := set (swpinout_hist m) swp (last_swpinout m) in
          let alloc_hist := set (allocstall_hist m) (allocstall v) (last_allocstall m) in
          let add H x h := if to_calc then hist_add H x currsec h else Acc h in
          let! rss_int := (if to_calc then dbl_to_int 32 (pct_rss f) else Acc 0) in
          let! h_rss := add PERCENT_HASH rss_int (pct_rss_histogram m) in
          let! h_pg := add PAGE_HASH (nth 0 pg_hist 0) (pginout_histogram m) in
          let! h_swp := add PAGE_HASH (nth 0 swp_hist 0) (swpinout_histogram m) in
          let! h_alloc := add PAGE_HASH (nth 0 alloc_hist 0) (allocstall_histogram m) in
          Acc (0, SysMem f (pct_rss_hist m) (pct_committed_hist m) pg_hist swp_hist alloc_hist
            (set (pgmajfault_hist m) (pgmajfault v) (last_pgmajfault m))
            (set (oom_kill_hist m) (oom_kill v) (last_oom_kill m))
            (mem_issue_hist m) (mem_issue_bit_hist m) (mem_severe_issue_bit_hist m)
            pg swp (allocstall v) (pgmajfault v) (oom_kill v)
            clock (mem_last_clock_nsec m) (pct_rss_p95_ m) (pginout_p95_ m) (swpinout_p95_ m) (allocstall_p95_ m)
            h_rss h_pg h_swp h_alloc)
      end.

(** ** Memory: the verdict *)
Definition GY_UP_GB (n : Z) : Z := u64 (Z.shiftl n 30).

Definition max2 (l : list Z) : Z := swrap 32 (Z.max (nth 0 l 0) (nth 1 l 0)).

(** The issue is [None] when the call does not assign it. *)
Definition mem_get_curr_state (update_stats : bool) (m : SYS_MEM_STATS)
    : OBJ_STATE_E * option MEM_ISSUE_SOURCE * SYS_MEM_STATS :=
  if negb (nth 0 (oom_kill_hist m) 0 =? 0) || negb (nth 1 (oom_kill_hist m) 0 =? 0)
  then (STATE_SEVERE, Some ISSUE_OOM_KILL, m) else
  let currpct := nthf 0 (pct_rss_hist m) in
  let lastpct := nthf 1 (pct_rss_hist m) in
  let commitpct := fmax (nthf 0 (pct_committed_hist m)) (nthf 1 (pct_committed_hist m)) in
  let maxvalpg := max2 (pginout_hist m) in
  let maxvalswp := max2 (swpinout_hist m) in
  let maxallocstall := max2 (allocstall_hist m) in
  let maxflt := max2 (pgmajfault_hist m) in
  let p_pg := hist_pct PAGE_HASH P95 (pginout_histogram m) in
  let p_swp := hist_pct PAGE_HASH P95 (swpinout_histogram m) in
  let p_alloc := hist_pct PAGE_HASH P95 (allocstall_histogram m) in
  let m := if update_stats then
      SysMem (mem_now m) (pct_rss_hist m) (pct_committed_hist m) (pginout_hist m) (swpinout_hist m)
        (allocstall_hist m) (pgmajfault_hist m) (oom_kill_hist m) (mem_issue_hist m) (mem_issue_bit_hist m)
        (mem_severe_issue_bit_hist m) (last_pginout m) (last_swpinout m) (last_allocstall m) (last_pgmajfault m)
        (last_oom_kill m) (mem_curr_clock_nsec m) (mem_last_clock_nsec m)
        (hist_pct PERCENT_HASH P95 (pct_rss_histogram m)) p_pg p_swp p_alloc
        (pct_rss_histogram m) (pginout_histogram m) (swpinout_histogram m) (allocstall_histogram m)
    else m in
  let sat := flt_of_int MEM_RSS_SATURATION_PCT in
  let verdict :=
    if negb (maxallocstall =? 0) && negb (maxvalpg =? 0) && (maxallocstall >? p_alloc) then
      if (maxallocstall >? 50) && (maxvalswp >? 50) then (STATE_SEVERE, Some ISSUE_MEM_ALLOCSTALL)
      else (STATE_BAD, Some ISSUE_MEM_ALLOCSTALL)
    else if negb (maxvalswp =? 0) && negb (maxvalpg =? 0) then
      if maxvalpg >? p_pg then (STATE_SEVERE, Some ISSUE_MEM_PG_INOUT)
      else if maxvalswp >? p_swp then (STATE_SEVERE, Some ISSUE_MEM_SWP_INOUT)
      else if negb (maxallocstall =? 0) then (STATE_BAD, Some ISSUE_MEM_ALLOCSTALL)
      else if fgt currpct sat then (STATE_BAD, Some ISSUE_MEM_SWP_INOUT)
      else (STATE_OK, Some ISSUE_MEM_SWP_INOUT)
    else if negb (maxvalpg =? 0) && (maxvalpg >? p_pg) then (STATE_BAD, None)
    else if maxvalpg >? 100 then (STATE_OK, Some ISSUE_MEM_PG_INOUT)
    else if fgt currpct sat ||
            (fgt lastpct sat && fgt currpct (flt_of_int (Z.shiftr MEM_RSS_SATURATION_PCT 1))) then
      if fge currpct (flt_of_int (pct_rss_p95_ m + 15)) then (STATE_BAD, Some ISSUE_RSS_SATURATED)
      else (STATE_OK, Some ISSUE_RSS_SATURATED)
    else if fgt commitpct (flt_of_int MEM_COMMIT_SATURATION_PCT) then (STATE_OK, Some ISSUE_COMMIT_SATURATED)
    else if (free_swap (mem_now m) <? GY_UP_GB 2) && (total_swap (mem_now m) >=? GY_UP_GB 8)
    then (STATE_OK, Some ISSUE_SWAP_FULL)
    else if fgt (flt_of_int MEM_RSS_LOW_USE_PCT) currpct && (maxflt =? 0) && (maxvalpg <? 1000)
    then (STATE_IDLE, Some ISSUE_MEM_NONE)
    else (STATE_GOOD, Some ISSUE_MEM_NONE) in
  (verdict, m).

Definition mem_record (v : OBJ_STATE_E * option MEM_ISSUE_SOURCE) (m : SYS_MEM_STATS) : SYS_MEM_STATS :=
  SysMem (mem_now m) (pct_rss_hist m) (pct_committed_hist m) (pginout_hist m) (swpinout_hist m)
    (allocstall_hist m) (pgmajfault_hist m) (oom_kill_hist m) (push_front v (mem_issue_hist m))
    (hist_push (at_least_bad v.1) (mem_issue_bit_hist m))
    (hist_push (at_least_severe v.1) (mem_severe_issue_bit_hist m))
    (last_pginout m) (last_swpinout m) (last_allocstall m) (last_pgmajfault m)
    (last_oom_kill m) (mem_curr_clock_nsec m) (mem_last_clock_nsec m)
    (pct_rss_p95_ m) (pginout_p95_ m) (swpinout_p95_ m) (allocstall_p95_ m)
    (pct_rss_histogram m) (pginout_histogram m) (swpinout_histogram m) (allocstall_histogram m).

Definition mem_step (clock : Z) (inp : mem_input) (m : SYS_MEM_STATS) : acc (Z * SYS_MEM_STATS) :=
  let! r := get_mem_stats clock inp m in
  let '(ret, m) := r in
  if negb (ret =? 0) then Acc (ret, m) else
  let '(v, m) := mem_get_curr_state true m in
  Acc (0, mem_record v m).

(** ** The whole host *)
Section Host.
Context {TH : Type} (th_add : Z -> Z -> TH -> TH) (th_pct : TH -> Z -> Z -> Z) (th_count : TH -> Z -> Z).

Record SYSTEM_STATS := SystemStats { cpustats : SYS_CPU_STATS TH; memstats : SYS_MEM_STATS }.

(** The clock and the time of the readings and the contents of the files. *)
Record sys_input := SysInput {
  in_clock_cpu : Z; in_tnow : Z; in_stat : option proc_stat; in_clock_mem : Z; in_mem : mem_input }.

(** Without the message to madhava; the number is the result. *)
Definition get_stats (i : sys_input) (s : SYSTEM_STATS) : acc (Z * SYSTEM_STATS) :=
  let! r := cpu_step th_add th_pct th_count (in_clock_cpu i) (in_tnow i) (in_stat i) (cpustats s) in
  let '(ret, c) := r in
  if negb (ret =? 0) then Acc (ret, SystemStats c (memstats s)) else
  let! r := mem_step (in_clock_mem i) (in_mem i) (memstats s) in
  let '(ret, m) := r in
  Acc (ret, SystemStats c m).

Fixpoint get_stats_run (ins : list sys_input) (s : SYSTEM_STATS) : acc SYSTEM_STATS :=
  match ins with
  | [] => Acc s
  | i :: ins => let! r := get_stats i s in get_stats_run ins r.2
  end.

(** A host right after the constructors of both parts have read for the first time;
    there is none when one of them fails. *)
Definition sys_start (ncpu nonline : nat) (th : TH * TH * TH * TH) (clock_sec : Z) (i : sys_input) : acc SYSTEM_STATS :=
  let! c := get_cpu_stats th_add (in_clock_cpu i) (in_tnow i) (in_stat i) (cpu_init ncpu nonline th) in
  let! m := get_mem_stats (in_clock_mem i) (in_mem i) (mem_init clock_sec) in
  if (c.1 =? 0) && (m.1 =? 0) then Acc (SystemStats c.2 m.2) else Oob.

Definition is_recent_cpu_issue (bitmap : Z) (s : SYSTEM_STATS) : bool :=
  Z.land (cpu_issue_bit_hist (cpustats s)) bitmap >? 0.
Definition is_recent_mem_issue (bitmap : Z) (s : SYSTEM_STATS) : bool :=
  Z.land (mem_issue_bit_hist (memstats s)) bitmap >? 0.
Definition is_severe_cpu_issue (bitmap : Z) (s : SYSTEM_STATS) : bool :=
  Z.land (cpu_severe_issue_bit_hist (cpustats s)) bitmap >? 0.
Definition is_severe_mem_issue (bitmap : Z) (s : SYSTEM_STATS) : bool :=
  Z.land (mem_severe_issue_bit_hist (memstats s)) bitmap >? 0.

Record issue_stats := IssueStats {
  is_cpu : bool; is_mem : bool; is_severe_cpu : bool; is_severe_mem : bool; is_cpu_idle : bool; is_mem_idle : bool }.

(** With the flags [cpu_idle] and [mem_idle] of the caller, which are [false]. *)
Definition get_issue_stats (bitmap : Z) (s : SYSTEM_STATS) : issue_stats :=
  let nslots := gy_count_bits_set bitmap in
  let nslots := Z.to_nat (if nslots >? Z.of_nat MAX_SYS_HIST_STATS then Z.of_nat MAX_SYS_HIST_STATS else nslots) in
  let idle {B} (h : list (OBJ_STATE_E * B)) := existsb (fun v => bool_decide (v.1 = STATE_IDLE)) (take nslots h) in
  IssueStats (is_recent_cpu_issue bitmap s) (is_recent_mem_issue bitmap s)
    (is_severe_cpu_issue bitmap s) (is_severe_mem_issue bitmap s)
    (idle (cpu_issue_hist (cpustats s))) (idle (mem_issue_hist (memstats s))).
End Host.
#[global] Arguments SYSTEM_STATS : clear implicits.

(** ** The state of the host, from all of its parts *)
Definition host_state (cpu_issue mem_issue severe_cpu_issue severe_mem_issue cpu_idle : bool)
    (ntaskissue ntasksevere nlistissue nlistsevere : Z) : OBJ_STATE_E :=
  let tasks := negb (ntaskissue =? 0) in
  let lists := negb (nlistissue =? 0) in
  let tsevere := negb (ntasksevere =? 0) in
  let lsevere := negb (nlistsevere =? 0) in
  if (tsevere || lsevere) && (severe_cpu_issue || severe_mem_issue) then STATE_SEVERE
  else if negb cpu_issue && negb mem_issue && negb tasks && negb lists then
    if cpu_idle then STATE_IDLE else STATE_GOOD
  else if (tasks || lists) && (cpu_issue || mem_issue) then
    if (ntaskissue >? 5) || (nlistissue >? 5) then STATE_SEVERE else STATE_BAD
  else if cpu_issue || mem_issue then
    if severe_cpu_issue || severe_mem_issue then STATE_BAD else STATE_OK
  else if lists then
    if lsevere || tasks then (if nlistissue >? 5 then STATE_SEVERE else STATE_BAD)
    else if nlistissue >? 2 then STATE_BAD else STATE_OK
  else if tasks && (tsevere || (ntaskissue >? 5)) then STATE_BAD
  else STATE_OK.

(** The fields of [curr_host_status_]. *)
Record HOST_STATE := HostState {
  hs_time_usec : Z; hs_ntasks_issue : Z; hs_ntasks_severe : Z; hs_ntasks : Z;
  hs_nlisten_issue : Z; hs_nlisten_severe : Z; hs_nlisten : Z; hs_curr_state : OBJ_STATE_E;
  hs_issue_bit_hist : Z; hs_cpu_issue : bool; hs_mem_issue : bool; hs_severe_cpu : bool; hs_severe_mem : bool;
  hs_cpu_delayms : Z; hs_vm_delayms : Z; hs_io_delayms : Z }.

(** [delays] are the last delays of the task handler in msec; the message to madhava
    is a copy of the result. *)
Definition host_status_update (tusec : Z) (i : issue_stats) (ntaskissue ntasksevere ntasks nlistissue nlistsevere nlisten : Z)
    (delays : Z * Z * Z) (h : HOST_STATE) : HOST_STATE :=
  let curr_state := host_state (is_cpu i) (is_mem i) (is_severe_cpu i) (is_severe_mem i) (is_cpu_idle i)
                      ntaskissue ntasksevere nlistissue nlistsevere in
  HostState tusec ntaskissue ntasksevere ntasks nlistissue nlistsevere nlisten curr_state
    (hist_push (at_least_bad curr_state) (hs_issue_bit_hist h))
    (is_cpu i) (is_mem i) (is_severe_cpu i) (is_severe_mem i) delays.1.1 delays.1.2 delays.2.

(** ** The levels of the host state *)
Section Levels.
Context (cpu mem scpu smem idle : bool) (nt nts nl nls : Z).
#[local] Abbreviation st := (host_state cpu mem scpu smem idle nt nts nl nls).
#[local] Abbreviation some n := (negb (n =? 0)).

Definition level_severe : bool :=
  (some nts || some nls) && (scpu || smem) ||
  (some nt || some nl) && (cpu || mem) && ((nt >? 5) || (nl >? 5)) ||
  (nl >? 5) && (some nls || some nt).
Definition level_bad : bool :=
  level_severe || (some nt || some nl) && (cpu || mem) || (cpu || mem) && (scpu || smem) ||
  some nl && (some nls || some nt) || (nl >? 2) || some nt && (some nts || (nt >? 5)).
Definition level_ok : bool := level_bad || cpu || mem || some nt || some nl.

Lemma host_state_levels :
  at_least_severe st = level_severe /\ at_least_bad st = level_bad /\
  (state_num STATE_OK <=? state_num st) = level_ok /\
  (state_num STATE_GOOD <=? state_num st) = level_ok || negb idle.
Proof.
  unfold level_ok, level_bad, level_severe, host_state.
  destruct (Z.eqb_spec nt 0); destruct (Z.eqb_spec nl 0); subst;
  repeat match goal with |- context [?a =? 0] => destruct (a =? 0) end;
  repeat match goal with |- context [?a >? ?b] => destruct (Z.gtb_spec a b) end; try lia;
  destruct cpu, mem, scpu, smem, idle; repeat split; reflexivity.
Qed.
End Levels.

(** With severe issues among the issues, the host is fine exactly when nothing is bad. *)
Lemma level_ok_consistent cpu mem scpu smem nt nts nl nls :
  (scpu = true -> cpu = true) -> (smem = true -> mem = true) -> 0 <= nts <= nt -> 0 <= nls <= nl ->
  level_ok cpu mem scpu smem nt nts nl nls = cpu || mem || (nt >? 0) || (nl >? 0).
Proof.
  intros Hc Hm Ht Hl. unfold level_ok, level_bad, level_severe.
  destruct (Z.gtb_spec nt 0), (Z.gtb_spec nl 0).
  1-3: replace (negb (nt =? 0)) with (nt >? 0) by lia; replace (negb (nl =? 0)) with (nl >? 0) by lia;
    repeat match goal with H : _ < _ |- _ => apply Z.gtb_lt in H; rewrite H; clear H end;
    by rewrite ?orb_true_r.
  replace nts with 0 by lia. replace nls with 0 by lia. replace nt with 0 by lia. replace nl with 0 by lia.
  destruct cpu, mem, scpu, smem; cbn; try done; by specialize (Hc eq_refl) || by specialize (Hm eq_refl).
Qed.

Lemma state_num_le s t : (at_least_severe s = true -> at_least_severe t = true) ->
  (at_least_bad s = true -> at_least_bad t = true) ->
  ((state_num STATE_OK <=? state_num s) = true -> (state_num STATE_OK <=? state_num t) = true) ->
  ((state_num STATE_GOOD <=? state_num s) = true -> (state_num STATE_GOOD <=? state_num t) = true) ->
  s <> STATE_DOWN -> state_num s <= state_num t.
Proof. destruct s, t; cbn; intros H1 H2 H3 H4 H5; try lia; try (by specialize (H1 eq_refl));
  try (by specialize (H2 eq_refl)); try (by specialize (H3 eq_refl)); try (by specialize (H4 eq_refl)); done. Qed.

Lemma host_state_not_down cpu mem scpu smem idle nt nts nl nls :
  host_state cpu mem scpu smem idle nt nts nl nls <> STATE_DOWN.
Proof. unfold host_state. repeat case_match; discriminate. Qed.

(** More issues: flags that were set stay set and numbers only grow; idle only goes. *)
Definition no_better (a b : bool) : Prop := a = true -> b = true.

Lemma no_better_or a a' b b' : no_better a a' -> no_better b b' -> no_better (a || b) (a' || b').
Proof. unfold no_better. destruct a, b, a', b'; auto. Qed.
Lemma no_better_and a a' b b' : no_better a a' -> no_better b b' -> no_better (a && b) (a' && b').
Proof. unfold no_better. destruct a, b, a', b'; auto. Qed.
Lemma no_better_some n n' : 0 <= n <= n' -> no_better (negb (n =? 0)) (negb (n' =? 0)).
Proof. unfold no_better. lia. Qed.
Lemma no_better_gt k n n' : 0 <= n <= n' -> no_better (n >? k) (n' >? k).
Proof. unfold no_better. lia. Qed.
#[local] Hint Resolve no_better_or no_better_and no_better_some no_better_gt : gy.

(** The state of a host never improves when something gets worse: with more
    processes or services in trouble, more severe ones, more flags of the processors and
    the memory, or processors that are not idle any more, the state is the same or
    worse. *)
Theorem host_state_monotone cpu mem scpu smem idle nt nts nl nls cpu' mem' scpu' smem' idle' nt' nts' nl' nls' :
  no_better cpu cpu' -> no_better mem mem' -> no_better scpu scpu' -> no_better smem smem' ->
  no_better idle' idle -> 0 <= nt <= nt' -> 0 <= nts <= nts' -> 0 <= nl <= nl' -> 0 <= nls <= nls' ->
  state_num (host_state cpu mem scpu smem idle nt nts nl nls) <=
  state_num (host_state cpu' mem' scpu' smem' idle' nt' nts' nl' nls').
Proof.
  intros Hc Hm Hsc Hsm Hi Ht Hts Hl Hls.
  destruct (host_state_levels cpu mem scpu smem idle nt nts nl nls) as (A1 & A2 & A3 & A4).
  destruct (host_state_levels cpu' mem' scpu' smem' idle' nt' nts' nl' nls') as (B1 & B2 & B3 & B4).
  assert (S : no_better (level_severe cpu mem scpu smem nt nts nl nls)
                        (level_severe cpu' mem' scpu' smem' nt' nts' nl' nls')).
  { unfold level_severe. auto 10 with gy. }
  assert (B : no_better (level_bad cpu mem scpu smem nt nts nl nls)
                        (level_bad cpu' mem' scpu' smem' nt' nts' nl' nls')).
  { unfold level_bad. auto 10 with gy. }
  assert (O : no_better (level_ok cpu mem scpu smem nt nts nl nls)
                        (level_ok cpu' mem' scpu' smem' nt' nts' nl' nls')).
  { unfold level_ok. auto 10 with gy. }
  clear Hc Hm Hsc Hsm Ht Hts Hl Hls. unfold no_better in *.
  apply state_num_le; [by rewrite A1, B1|by rewrite A2, B2|by rewrite A3, B3| |apply host_state_not_down].
  rewrite A4, B4. apply no_better_or; [exact O|]. clear -Hi. unfold no_better.
  destruct idle, idle'; cbn; auto.
Qed.

Lemma host_state_monotone_witness :
  state_num (host_state true false false false true 2 0 1 0) <= state_num (host_state true false false false false 6 1 1 0).
Proof. apply (host_state_monotone true false false false true 2 0 1 0 true false false false false 6 1 1 0); unfold no_better; lia || auto. Defined.

(** ** What holds of every host *)
Section HostRuns.
Context {TH : Type} (th_add : Z -> Z -> TH -> TH) (th_pct : TH -> Z -> Z -> Z) (th_count : TH -> Z -> Z).

(** The bits are those of the recorded verdicts. *)
Definition hist_ok {B} (l : list (OBJ_STATE_E * B)) (bits sbits : Z) : Prop :=
  tracks (fun v => at_least_bad v.1) bits l /\ tracks (fun v => at_least_severe v.1) sbits l /\
  length l = MAX_SYS_ISSUE_HIST.

Lemma hist_ok_push {B} (v : OBJ_STATE_E * B) l bits sbits : hist_ok l bits sbits ->
  hist_ok (push_front v l) (hist_push (at_least_bad v.1) bits) (hist_push (at_least_severe v.1) sbits).
Proof.
  intros (Hb & Hs & Hl). split; [|split; [|by rewrite length_push_front]].
  - apply (tracks_push (fun v => at_least_bad v.1)), Hb.
  - apply (tracks_push (fun v => at_least_severe v.1)), Hs.
Qed.

Lemma hist_ok_init {B} (b : B) : hist_ok (replicate MAX_SYS_ISSUE_HIST (STATE_IDLE, b)) 0 0.
Proof.
  split; [|split; [|done]]; (split; [unfold in_width; lia|split; [done|]]);
    intros i x Hx; apply lookup_replicate in Hx as [-> _]; by rewrite Z.bits_0.
Qed.

Record cpu_inv (c : SYS_CPU_STATS TH) : Prop := CpuInv {
  ci_hist : hist_ok (cpu_issue_hist c) (cpu_issue_bit_hist c) (cpu_severe_issue_bit_hist c);
  ci_cores : Forall (fun h => h = replicate MAX_SYS_HIST_STATS F0) (pcore_cpu_hist c);
  ci_cs : nth 1 (context_switch_hist c) 0 = 0;
  ci_issue : Forall (fun v => v.2 <> ISSUE_CORE_SATURATED) (cpu_issue_hist c) }.

Lemma cpu_init_inv ncpu nonline th : cpu_inv (cpu_init ncpu nonline th).
Proof.
  constructor; [apply hist_ok_init|by apply Forall_replicate|done|by apply Forall_replicate].
Qed.

Lemma get_cpu_stats_inv clock tnow inp c : cpu_inv c ->
  forall r, get_cpu_stats th_add clock tnow inp c = Acc r -> cpu_inv r.2.
Proof.
  intros Hc r. pose proof Hc as [H1 H2 H3 H4]. unfold get_cpu_stats.
  destruct inp as [ps|]; [|by intros [= <-]]. case_if; [by intros [= <-]|].
  destruct (match ps_ctxt ps with Some v => _ | None => _ end) as [cswitch cumul_cs].
  destruct (match ps_processes ps with Some v => _ | None => _ end) as [processes cumul_f].
  case_if; [intros [= <-]; by split|]. destruct (dbl_to_int 64 _); [|done]. cbn [acc_bind]. intros [= <-].
  split; cbn [snd pcore_cpu_hist context_switch_hist cpu_issue_hist]; try done.
  destruct (context_switch_hist c) as [|? [|? ?]]; done.
Qed.

(** A core whose history is empty is never found saturated. *)
Lemma scan_cores_idle cores b : Forall (fun h => h.1 = replicate MAX_SYS_HIST_STATS F0) cores ->
  (scan_cores cores b).1.1 = true -> (scan_cores cores b).2 = true.
Proof.
  intros Hc. revert b. induction Hc as [|[h one] cores Hh Hc IH]; intros b; [done|]. cbn in Hh. subst h.
  cbn [scan_cores].
  replace (saturated _ _) with false by (by vm_compute).
  replace (fgt (nthf 0 _) _) with false by (by vm_compute). cbn [andb].
  destruct (negb b); [|apply IH]. case_if; [done|apply IH].
Qed.

Lemma cs_verdict_issue (c : SYS_CPU_STATS TH) currpct morecs maxforks maxprocs currcore diffsecs :
  from_option (fun v => v.2 <> ISSUE_CORE_SATURATED) True
    (cs_verdict th_pct th_count c currpct morecs maxforks maxprocs currcore diffsecs).
Proof. unfold cs_verdict. repeat case_match; done. Qed.

Lemma cpu_get_curr_state_inv upd c : cpu_inv c ->
  forall r, cpu_get_curr_state th_pct th_count upd c = Acc r -> cpu_inv r.2 /\ r.1.2 <> ISSUE_CORE_SATURATED.
Proof.
  intros Hc r. unfold cpu_get_curr_state.
  do 3 (destruct (dbl_to_int _ _); [|done]; cbn [acc_bind]).
  set (c' := if upd then _ else c).
  assert (Hc' : cpu_inv c') by (destruct Hc; subst c'; destruct upd; done).
  assert (Hz : Forall (fun h => h.1 = replicate MAX_SYS_HIST_STATS F0) (zip (pcore_cpu_hist c') (pcpuarr c'))).
  { apply list.Forall_forall. intros [h o] Hin. apply elem_of_zip_l in Hin.
    pose proof (ci_cores _ Hc') as Hf. rewrite list.Forall_forall in Hf. by apply Hf. }
  pose proof (scan_cores_idle _ false Hz) as Hs.
  destruct (scan_cores _ false) as [[core_saturated core_in_use] iowait]. cbn [fst snd] in Hs.
  intros [= <-]. split; [done|]. cbn [fst snd].
  repeat first
    [ case_if; cbn [fst snd]; try discriminate
    | match goal with |- context [cs_verdict ?p ?k ?c ?a1 ?a2 ?a3 ?a4 ?a5 ?a6] =>
        pose proof (cs_verdict_issue c a1 a2 a3 a4 a5 a6); destruct (cs_verdict p k c a1 a2 a3 a4 a5 a6);
        cbn [from_option fst snd] in * end ];
  try (by rewrite Hs); try done.
Qed.

Lemma cpu_record_inv v c : cpu_inv c -> v.2 <> ISSUE_CORE_SATURATED -> cpu_inv (cpu_record v c).
Proof.
  intros [H1 H2 H3 H4] Hv. split; cbn [cpu_record cpu_issue_hist cpu_issue_bit_hist cpu_severe_issue_bit_hist]; try done.
  - by apply hist_ok_push.
  - by apply Forall_push_front.
Qed.

Lemma cpu_step_inv clock tnow inp c r : cpu_inv c ->
  cpu_step th_add th_pct th_count clock tnow inp c = Acc r -> cpu_inv r.2.
Proof.
  intros Hc H. unfold cpu_step in H. apply acc_bind_Acc in H as ([ret c1] & H1 & H).
  pose proof (get_cpu_stats_inv _ _ _ _ Hc _ H1) as Hc1. cbn in Hc1. case_if_in H; [by simplify_eq|].
  apply acc_bind_Acc in H as ([v c2] & H2 & H). simplify_eq.
  destruct (cpu_get_curr_state_inv _ _ Hc1 _ H2). by apply cpu_record_inv.
Qed.

Definition mem_inv (m : SYS_MEM_STATS) : Prop :=
  hist_ok (mem_issue_hist m) (mem_issue_bit_hist m) (mem_severe_issue_bit_hist m).

Lemma get_mem_stats_inv clock inp m r : mem_inv m -> get_mem_stats clock inp m = Acc r -> mem_inv r.2.
Proof.
  intros Hm H. unfold get_mem_stats in H. case_if_in H; [by simplify_eq|].
  destruct (match inp.1 with inl _ => _ | inr _ => _ end) as [ret f].
  case_if_in H; [by simplify_eq|]. destruct inp.2; [by simplify_eq|].
  repeat (apply acc_bind_Acc in H as (? & _ & H)). by simplify_eq.
Qed.

Lemma mem_step_inv clock inp m r : mem_inv m -> mem_step clock inp m = Acc r -> mem_inv r.2.
Proof.
  intros Hm H. unfold mem_step in H. apply acc_bind_Acc in H as ([ret m1] & H1 & H).
  pose proof (get_mem_stats_inv _ _ _ _ Hm H1) as Hm1. cbn in Hm1. case_if_in H; [by simplify_eq|].
  destruct (mem_get_curr_state true m1) as [v m2] eqn:E. simplify_eq. cbn. apply hist_ok_push.
  unfold mem_get_curr_state in E. case_if_in E; by simplify_eq.
Qed.

Definition sys_inv (s : SYSTEM_STATS TH) : Prop := cpu_inv (cpustats s) /\ mem_inv (memstats s).

(** The hosts that the agent can be in: started, and then any readings. *)
Definition sys_reach (s : SYSTEM_STATS TH) : Prop :=
  exists ncpu nonline th clock_sec i0 ins s0,
    sys_start th_add ncpu nonline th clock_sec i0 = Acc s0 /\
    get_stats_run th_add th_pct th_count ins s0 = Acc s.

Lemma get_stats_inv i s r : sys_inv s -> get_stats th_add th_pct th_count i s = Acc r -> sys_inv r.2.
Proof.
  intros [Hc Hm] H. unfold get_stats in H. apply acc_bind_Acc in H as ([ret c1] & H1 & H).
  pose proof (cpu_step_inv _ _ _ _ _ Hc H1) as Hc1. case_if_in H; [by simplify_eq|].
  apply acc_bind_Acc in H as ([ret2 m1] & H2 & H). simplify_eq.
  split; [done|]. by apply (mem_step_inv _ _ _ _ Hm H2).
Qed.

Lemma sys_reach_inv s : sys_reach s -> sys_inv s.
Proof.
  intros (ncpu & nonline & th & clock_sec & i0 & ins & s0 & H0 & H).
  assert (Hs0 : sys_inv s0).
  { unfold sys_start in H0. apply acc_bind_Acc in H0 as (c & Hc & H0). apply acc_bind_Acc in H0 as (m & Hm & H0).
    case_if_in H0; [|done]. simplify_eq. split.
    - apply (get_cpu_stats_inv _ _ _ _ (cpu_init_inv ncpu nonline th) _ Hc).
    - apply (get_mem_stats_inv _ _ (mem_init clock_sec) _ (hist_ok_init _) Hm). }
  clear H0. revert s0 Hs0 H. induction ins as [|i ins IH]; intros s0 Hs0 H; cbn in H; [by simplify_eq|].
  apply acc_bind_Acc in H as (r & Hr & H). apply (IH r.2); [|done]. by apply (get_stats_inv i s0).
Qed.

Lemma existsb_mono {A} (p q : A -> bool) l : (forall x, p x = true -> q x = true) ->
  existsb p l = true -> existsb q l = true.
Proof. rewrite !existsb_exists. intros Hpq (x & Hx & Hp). eauto. Qed.

(** In every host, the recent flags of the processors and the memory say that one
    of the last three verdicts was bad, or severe; a severe issue is always an issue, and
    the idle flags say that one of these verdicts was idle. *)
Lemma recent_issues_are_verdicts s : sys_reach s ->
  let i := get_issue_stats 7 s in
  let last3 {B} (l : list (OBJ_STATE_E * B)) p := existsb (fun v => p v.1) (take 3 l) in
  is_cpu i = last3 (cpu_issue_hist (cpustats s)) at_least_bad /\
  is_mem i = last3 (mem_issue_hist (memstats s)) at_least_bad /\
  is_severe_cpu i = last3 (cpu_issue_hist (cpustats s)) at_least_severe /\
  is_severe_mem i = last3 (mem_issue_hist (memstats s)) at_least_severe /\
  is_cpu_idle i = last3 (cpu_issue_hist (cpustats s)) (fun s => bool_decide (s = STATE_IDLE)) /\
  is_mem_idle i = last3 (mem_issue_hist (memstats s)) (fun s => bool_decide (s = STATE_IDLE)) /\
  (is_severe_cpu i = true -> is_cpu i = true) /\ (is_severe_mem i = true -> is_mem i = true).
Proof.
  intros Hs. apply sys_reach_inv in Hs as [[(Hb & Hs & Hl) _ _ _] (Hmb & Hms & Hml)]. cbn zeta.
  assert (E : forall {B} (p : OBJ_STATE_E -> bool) hist (l : list (OBJ_STATE_E * B)),
    tracks (fun v => p v.1) hist l -> length l = MAX_SYS_ISSUE_HIST ->
    (Z.land hist 7 >? 0) = existsb (fun v => p v.1) (take 3 l)).
  { intros B p hist l Ht Hlen. apply (tracks_recent _ _ _ 3 Ht). rewrite Hlen. unfold MAX_SYS_ISSUE_HIST. lia. }
  unfold get_issue_stats, is_recent_cpu_issue, is_recent_mem_issue, is_severe_cpu_issue, is_severe_mem_issue.
  cbn [is_cpu is_mem is_severe_cpu is_severe_mem is_cpu_idle is_mem_idle].
  rewrite (E _ _ _ _ Hb Hl), (E _ _ _ _ Hs Hl), (E _ _ _ _ Hmb Hml), (E _ _ _ _ Hms Hml).
  split_and!; try done; apply existsb_mono; intros v; apply at_least_severe_bad.
Qed.

(** No host ever reports saturated cores, however busy single cores are, and the
    number of context switches before the current one is always taken as zero: the
    history of the cores is shifted in a copy, that of the switches is not shifted. *)
Lemma core_saturation_never_reported s : sys_reach s ->
  Forall (fun v => v.2 <> ISSUE_CORE_SATURATED) (cpu_issue_hist (cpustats s)) /\
  Forall (fun h => h = replicate MAX_SYS_HIST_STATS F0) (pcore_cpu_hist (cpustats s)) /\
  nth 1 (context_switch_hist (cpustats s)) 0 = 0.
Proof. intros Hs. apply sys_reach_inv in Hs as [[? ? ? ?] _]. done. Qed.
End HostRuns.

(** A host with two cores, of which the first is always busy and the second idle. *)
Definition ex_one (user idle : Z) : CPU_ONE_STATS := CpuOne user 0 0 idle 0 0 0 0 0 0 0 F0 F0 F0.
Definition ex_meminfo : meminfo := MemInfo 8000000 4000000 100000 1000000 0 0 0 1000 1000 8000000 2000000.
Definition ex_sys_in (sec : Z) : sys_input :=
  SysInput (sec * GY_NSEC_PER_SEC) sec
    (Some (ProcStat (ex_one (100 * sec) (100 * sec)) [(0, ex_one (100 * sec) 0); (1, ex_one 0 (100 * sec))]
             (Some (50 * sec)) (Some (3 * sec)) (Some 1)))
    (sec * GY_NSEC_PER_SEC) (inr ex_meminfo, inr (VmStat (2000 * sec) 0 0 0 0 0 0)).

(** The time histograms of [SYS_CPU_STATS]: each has its bucket function, all have the
    levels of five minutes and of all values. *)
Inductive cpu_th_kind := CPU_TIME_HISTOGRAM | CSWITCH_TIME_HISTOGRAM | FORKS_TIME_HISTOGRAM | PROCS_TIME_HISTOGRAM.
Definition cpu_hash (k : cpu_th_kind) : HashClass :=
  match k with
  | CPU_TIME_HISTOGRAM => PERCENT_HASH | CSWITCH_TIME_HISTOGRAM => SEMI_LOG_HASH
  | FORKS_TIME_HISTOGRAM => HASH_10_5000 | PROCS_TIME_HISTOGRAM => HASH_5_250
  end.
Definition cpu_th : Type := cpu_th_kind * TIME_HISTOGRAM.
Definition ex_add (v t : Z) (h : cpu_th) : cpu_th :=
  match th_add_data (cpu_hash h.1) v t true h.2 with Acc r => (h.1, r.2) | Oob => h end.
Definition ex_stats (h : cpu_th) (secs pct : Z) : th_stats :=
  match th_get_stats (cpu_hash h.1) Level_300_all secs 0 [flt_of_int pct] h.2 with Acc s => s | Oob => ThStats [] 0 0 F0 end.
Definition ex_pct (h : cpu_th) (secs pct : Z) : Z := nth 0 (data_values (ex_stats h secs pct)) 0.
Definition ex_count (h : cpu_th) (secs : Z) : Z := tcount (ex_stats h secs 95).
Definition ex_ths (now : Z) : cpu_th * cpu_th * cpu_th * cpu_th :=
  let new k := (k, th_new (cpu_hash k) Level_300_all now) in
  (new CPU_TIME_HISTOGRAM, new CSWITCH_TIME_HISTOGRAM, new FORKS_TIME_HISTOGRAM, new PROCS_TIME_HISTOGRAM).

Abbreviation ex_sys_start := (sys_start ex_add 2 2 (ex_ths 9) 10 (ex_sys_in 10)).
Abbreviation ex_sys_run :=
  (let! s := ex_sys_start in get_stats_run ex_add ex_pct ex_count [ex_sys_in 12; ex_sys_in 14; ex_sys_in 16] s).
Definition is_acc {A} (x : acc A) : bool := match x with Acc _ => true | Oob => false end.
Definition acc_or {A} (d : A) (x : acc A) : A := match x with Acc a => a | Oob => d end.
Lemma acc_or_ok {A} (d : A) x : is_acc x = true -> x = Acc (acc_or d x).
Proof. by destruct x. Qed.

Abbreviation ex_sys := (acc_or (SystemStats (cpu_init 0 0 (ex_ths 0)) (mem_init 0)) ex_sys_run).

(** The last percentiles that were kept: the processors are half busy, and there are at
    most 100 context switches between two readings. *)
Lemma ex_sys_percentiles :
  (cpu_p95_ (cpustats ex_sys), cs_p95_ (cpustats ex_sys), ex_count (cpuhistogram (cpustats ex_sys)) 0) = (59, 100, 2).
Proof. vm_compute. reflexivity. Qed.

Lemma ex_sys_run_ok : is_acc ex_sys_run = true.
Proof. vm_compute. reflexivity. Qed.

Lemma ex_sys_reach : sys_reach ex_add ex_pct ex_count ex_sys.
Proof.
  generalize (acc_or_ok (SystemStats (cpu_init 0 0 (ex_ths 0)) (mem_init 0)) ex_sys_run ex_sys_run_ok).
  generalize ex_sys. intros s E. apply acc_bind_Acc in E as (s0 & E & H).
  exists 2%nat, 2%nat, (ex_ths 9), 10, (ex_sys_in 10), [ex_sys_in 12; ex_sys_in 14; ex_sys_in 16], s0.
  split; [exact E|exact H].
Qed.

Lemma core_saturation_never_reported_witness :
  map pct_user (pcpuarr (cpustats ex_sys)) = [flt_of_int 100; F0] /\
  nth 0 (cpu_issue_hist (cpustats ex_sys)) (STATE_IDLE, ISSUE_CPU_NONE) = (STATE_GOOD, ISSUE_CPU_NONE) /\
  Forall (fun v => v.2 <> ISSUE_CORE_SATURATED) (cpu_issue_hist (cpustats ex_sys)).
Proof.
  split; [by vm_compute|]. split; [by vm_compute|].
  apply (core_saturation_never_reported ex_add ex_pct ex_count ex_sys ex_sys_reach).
Defined.

(** ** The memory *)
(** Paging without swapping, above the 95th percentile and without stalls in excess. *)
Definition paging_only (m : SYS_MEM_STATS) : bool :=
  (nth 0 (oom_kill_hist m) 0 =? 0) && (nth 1 (oom_kill_hist m) 0 =? 0) &&
  (max2 (swpinout_hist m) =? 0) && negb (max2 (pginout_hist m) =? 0) &&
  (max2 (pginout_hist m) >? hist_pct PAGE_HASH P95 (pginout_histogram m)) &&
  negb (negb (max2 (allocstall_hist m) =? 0) &&
        (max2 (allocstall_hist m) >? hist_pct PAGE_HASH P95 (allocstall_histogram m))).

(** The verdict on the memory names the issue in every case but one: with paging
    above its 95th percentile and no swapping the state is bad and the issue is not
    assigned, so that what is recorded and sent for it is whatever the caller's variable
    holds.  Every bad or severe verdict besides has an issue. *)
Theorem mem_issue_unset_iff upd m :
  ((mem_get_curr_state upd m).1.2 = None <-> paging_only m = true) /\
  (paging_only m = true -> (mem_get_curr_state upd m).1.1 = STATE_BAD) /\
  (at_least_bad (mem_get_curr_state upd m).1.1 = true -> (mem_get_curr_state upd m).1.2 <> Some ISSUE_MEM_NONE).
Proof.
  unfold mem_get_curr_state, paging_only.
  destruct (nth 0 (oom_kill_hist m) 0 =? 0), (nth 1 (oom_kill_hist m) 0 =? 0); cbn [negb andb orb]; try done.
  destruct (max2 (pginout_hist m) =? 0), (max2 (swpinout_hist m) =? 0), (max2 (allocstall_hist m) =? 0);
    cbn [negb andb orb]; rewrite ?andb_false_r, ?andb_true_r;
    repeat case_if; cbn [fst snd negb andb]; rewrite ?andb_false_r; done.
Qed.
