(* ===== verification/TaskState.v ===== *)
(** * TaskState : the state of a process (common/gy_task_stat.h, common/gy_task_stat.cc).

    The agent asks the kernel every five seconds for the delays and the context switches
    of a process since its start, keeps the differences of the last five calls and their
    histograms, and classifies the process.  The verdicts are kept in an array and in bit
    histories, like those of the host.

    The readings of the processor, of the page faults and of the run state of the process
    ([PROC_CPU_IO_STATS]) and the numbers of the kernel are the input of a step. *)
From Stdlib Require Import SpecFloat.
From S2P Require Import Prelude Bytes Doubles Histogram ObjState HostState.

#[local] Open Scope Z_scope.

Definition MAX_TASK_STAT_HISTORY : nat := 5.
Definition MAX_PROC_HIST_STATS : nat := 3.
Definition MAX_PGFAULT_HIST : nat := 12 * 15.

Inductive TASK_ISSUE_SOURCE :=
  | ISSUE_TASK_NONE | ISSUE_CPU_DELAY | ISSUE_BLKIO_DELAY | ISSUE_SWAPIN_DELAY | ISSUE_RECLAIM_DELAY
  | ISSUE_THRASHING_DELAY | ISSUE_VOL_CONTEXT_SWITCH | ISSUE_INVOL_CONTEXT_SWITCH | ISSUE_MAJOR_PAGE_FAULT
  | ISSUE_CPU_UTIL_HIGH | ISSUE_TASK_STOPPED | ISSUE_TASK_PTRACED.

#[export] Instance TASK_ISSUE_SOURCE_eq_dec : EqDecision TASK_ISSUE_SOURCE.
Proof. solve_decision. Defined.

Definition task_issue_num (i : TASK_ISSUE_SOURCE) : Z :=
  match i with
  | ISSUE_TASK_NONE => 0 | ISSUE_CPU_DELAY => 1 | ISSUE_BLKIO_DELAY => 2 | ISSUE_SWAPIN_DELAY => 3
  | ISSUE_RECLAIM_DELAY => 4 | ISSUE_THRASHING_DELAY => 5 | ISSUE_VOL_CONTEXT_SWITCH => 6
  | ISSUE_INVOL_CONTEXT_SWITCH => 7 | ISSUE_MAJOR_PAGE_FAULT => 8 | ISSUE_CPU_UTIL_HIGH => 9
  | ISSUE_TASK_STOPPED => 10 | ISSUE_TASK_PTRACED => 11
  end.

(** ** The delays *)
(** One value for each of the counters of the kernel. *)
Record delay8 (A : Type) := Delay8 {
  cpu_delay : A; blkio_delay : A; swapin_delay : A; reclaim_delay : A; thrashing_delay : A; compact_delay : A;
  vol_cs : A; invol_cs : A }.
#[global] Arguments Delay8 {A}.
#[global] Arguments cpu_delay {A}.
#[global] Arguments blkio_delay {A}.
#[global] Arguments swapin_delay {A}.
#[global] Arguments reclaim_delay {A}.
#[global] Arguments thrashing_delay {A}.
#[global] Arguments compact_delay {A}.
#[global] Arguments vol_cs {A}.
#[global] Arguments invol_cs {A}.

Definition d8_map2 {A B C} (f : A -> B -> C) (a : delay8 A) (b : delay8 B) : delay8 C :=
  Delay8 (f (cpu_delay a) (cpu_delay b)) (f (blkio_delay a) (blkio_delay b)) (f (swapin_delay a) (swapin_delay b))
    (f (reclaim_delay a) (reclaim_delay b)) (f (thrashing_delay a) (thrashing_delay b))
    (f (compact_delay a) (compact_delay b)) (f (vol_cs a) (vol_cs b)) (f (invol_cs a) (invol_cs b)).
Definition d8_map {A B} (f : A -> B) (a : delay8 A) : delay8 B := d8_map2 (fun x (_ : A) => f x) a a.
Definition d8_all {A} (x : A) : delay8 A := Delay8 x x x x x x x x.

Record TASK_DELAY_STATS := TaskDelayStats {
  cpu_delay_histogram_ : histogram; blkio_delay_histogram_ : histogram;
  vol_cs_histogram_ : histogram; invol_cs_histogram_ : histogram;
  pgfault_hist_ : list bool;              (* the newest first *)
  delays_ : delay8 (list Z);              (* [cpu_delay_nsec_] and the other arrays *)
  delay_clock_nsec_ : list Z;
  last_ : delay8 Z }.                     (* [last_cpu_delay_nsec_] and the others *)

Definition delay_init (clock_nsec : Z) : TASK_DELAY_STATS :=
  TaskDelayStats (hist_new DURATION_HASH 32 clock_nsec) (hist_new DURATION_HASH 32 clock_nsec)
    (hist_new SEMI_LOG_HASH 32 clock_nsec) (hist_new SEMI_LOG_HASH 32 clock_nsec)
    (replicate MAX_PGFAULT_HIST false) (d8_all (replicate MAX_TASK_STAT_HISTORY 0))
    (replicate MAX_TASK_STAT_HISTORY 0) (d8_all 0).

(** The first call keeps the counters; the clocks before it are made up.  The number is the
    result of the call. *)
Definition add_stats (new : delay8 Z) (curr_nsec : Z) (s : TASK_DELAY_STATS) : acc (Z * TASK_DELAY_STATS) :=
  let first := nth 1 (delay_clock_nsec_ s) 0 =? 0 in
  if negb first && (u64 (curr_nsec - nth 0 (delay_clock_nsec_ s) 0) <? GY_NSEC_PER_SEC) then Acc (1, s) else
  let last := if first then new else last_ s in
  let clocks :=
    if first then
      nth 0 (delay_clock_nsec_ s) 0 ::
      map (fun i => u64 (curr_nsec - 1 - Z.of_nat i)) (seq 1 (MAX_TASK_STAT_HISTORY - 1))
    else array_shift_right (delay_clock_nsec_ s) in
  let arrays := if first then delays_ s else d8_map array_shift_right (delays_ s) in
  let diffs := d8_map2 (gy_diff_counter_safe 64) new last in
  let! hv := hist_add SEMI_LOG_HASH (vol_cs diffs) curr_nsec (vol_cs_histogram_ s) in
  let! hi := hist_add SEMI_LOG_HASH (invol_cs diffs) curr_nsec (invol_cs_histogram_ s) in
  let! hc := hist_add DURATION_HASH (cpu_delay diffs / GY_NSEC_PER_MSEC) curr_nsec (cpu_delay_histogram_ s) in
  let! hb := hist_add DURATION_HASH (blkio_delay diffs / GY_NSEC_PER_MSEC) curr_nsec (blkio_delay_histogram_ s) in
  Acc (0, TaskDelayStats hc hb hv hi (pgfault_hist_ s)
            (d8_map2 (fun d arr => <[0%nat := d]> arr) diffs arrays)
            (<[0%nat := curr_nsec]> clocks) new).

(** ** The verdict *)
(** The readings that the classification uses. *)
Record PROC_CPU_IO_STATS := ProcCpuIo {
  tstartstats : Z; rss : Z;
  p_usercpu_pct_hist : list flt; p_syscpu_pct_hist : list flt; blkiodelay_pct_hist : list flt;
  majflt_hist : list Z; task_stopped_hist : list Z }.

(** The fields of the process. *)
Record TASK_STAT := TaskStat {
  is_ptrace_active : bool; task_rt_priority : Z; is_tcp_server : bool; ncpus_allowed : Z }.

Definition max_curr_prev (curr prev : Z) : Z :=
  if curr >=? prev then curr else if u64 (curr * 2) >? prev then prev else curr.
Definition max_curr_prev_flt (curr prev : flt) : flt :=
  if fge curr prev then curr else if fgt (fmul curr (flt_of_int 2)) prev then prev else curr.

Definition chr_T : Z := 84.
Definition chr_D : Z := 68.

(** The loop over [task_stopped_hist]: 100 when a 'T' is found, else the number of 'D'. *)
Fixpoint count_stopped (l : list Z) (nds : Z) : Z :=
  match l with
  | [] => nds
  | ch :: l => if ch =? chr_T then 100 else count_stopped l (if ch =? chr_D then nds + 1 else nds)
  end.

Abbreviation verdict := (OBJ_STATE_E * TASK_ISSUE_SOURCE)%type.

(** A process that is traced or stopped. *)
Definition stopped_verdict (t : TASK_STAT) (p : PROC_CPU_IO_STATS) (mx : delay8 Z) : option verdict :=
  if is_ptrace_active t then Some (STATE_BAD, ISSUE_TASK_PTRACED)
  else if existsb (fun ch => negb (ch =? 0)) (task_stopped_hist p) then
    let nds := count_stopped (task_stopped_hist p) 0 in
    if nds >? 1 then
      if negb (nds =? 100) then
        if reclaim_delay mx >=? GY_NSEC_PER_MSEC then Some (STATE_SEVERE, ISSUE_RECLAIM_DELAY)
        else if thrashing_delay mx >=? GY_NSEC_PER_MSEC then Some (STATE_SEVERE, ISSUE_THRASHING_DELAY)
        else Some (STATE_BAD, ISSUE_TASK_STOPPED)
      else Some (if (task_rt_priority t >? 0) || is_tcp_server t then STATE_SEVERE else STATE_BAD, ISSUE_TASK_STOPPED)
    else None
  else None.

(** One of the delays of the memory: it is the largest of [others] and long enough. *)
Definition vm_verdict (delay delay_secs : Z) (others : list Z) (issue : TASK_ISSUE_SOURCE) : option verdict :=
  if (delay >? 10 * GY_NSEC_PER_MSEC) && (delay >? u64 (10 * GY_NSEC_PER_MSEC * delay_secs)) &&
     forallb (fun o => delay >? o) others then
    Some (if delay >? u64 (delay_secs * 1000 * GY_NSEC_PER_MSEC) then STATE_SEVERE else STATE_BAD, issue)
  else None.

(** The delay of the processor or of the disk: above its 95th percentile over more than
    fifty values; [factor] seconds of delay per second are severe. *)
Definition delay_verdict (delay delay_secs factor : Z) (h : histogram) (issue : TASK_ISSUE_SOURCE) : option verdict :=
  if delay >? 10 * GY_NSEC_PER_MSEC then
    if (delay / GY_NSEC_PER_MSEC >? u64 (hist_pct DURATION_HASH P95 h)) && (total_count_ h >? 50) then
      Some (if delay >? u64 (delay_secs * (factor * 1000) * GY_NSEC_PER_MSEC) then STATE_SEVERE else STATE_BAD, issue)
    else None
  else None.

(** The context switches: the verdict and [is_vol_cs]. *)
Definition vol_verdict (mx : delay8 Z) (delay_secs : Z) (is_cpu_delay : bool) (h : histogram)
    : option verdict * bool :=
  let n := vol_cs mx in
  if n >? 500 then
    if (swrap 64 n >? hist_pct SEMI_LOG_HASH P95 h) && (total_count_ h >? 100) then
      if (n >? u64 (10000 * delay_secs)) && (swrap 64 n >? hist_pct SEMI_LOG_HASH P999 h)
      then (Some (STATE_SEVERE, ISSUE_VOL_CONTEXT_SWITCH), false)
      else if is_cpu_delay && (n >? u64 (2000 * delay_secs)) then (Some (STATE_BAD, ISSUE_VOL_CONTEXT_SWITCH), false)
      else (None, false)
    else if (n >? u64 (10000 * delay_secs)) && (cpu_delay mx >? blkio_delay mx)
    then (Some (STATE_OK, ISSUE_VOL_CONTEXT_SWITCH), false)
    else (None, true)
  else (None, false).

Definition invol_verdict (mx : delay8 Z) (delay_secs : Z) (is_cpu_delay : bool) (h : histogram)
    : option verdict * bool :=
  let n := invol_cs mx in
  if negb (n =? 0) then
    if (swrap 64 n >? hist_pct SEMI_LOG_HASH P95 h) && (total_count_ h >? 100) then
      if (n >? u64 (1000 * delay_secs)) && (swrap 64 n >? hist_pct SEMI_LOG_HASH P999 h) &&
         (cpu_delay mx >? 100 * GY_NSEC_PER_MSEC)
      then (Some (STATE_SEVERE, ISSUE_INVOL_CONTEXT_SWITCH), false)
      else if (n >? u64 (50 * delay_secs)) && (cpu_delay mx >? u64 (delay_secs * 20 * GY_NSEC_PER_MSEC))
      then (Some (STATE_BAD, ISSUE_INVOL_CONTEXT_SWITCH), false)
      else (None, false)
    else if (n >? u64 (100 * delay_secs)) && is_cpu_delay && (cpu_delay mx >? blkio_delay mx)
    then (Some (STATE_OK, ISSUE_INVOL_CONTEXT_SWITCH), false)
    else (None, true)
  else (None, false).

(** Everything behind the label [no_delay]. *)
Definition usage_verdict (t : TASK_STAT) (p : PROC_CPU_IO_STATS) (d : TASK_DELAY_STATS) (mx : delay8 Z) (delay_secs : Z)
    (is_cpu_delay is_blkio_delay is_vol_cs is_invol_cs : bool) : acc verdict :=
  let sum i := fadd (nthf i (p_usercpu_pct_hist p)) (nthf i (p_syscpu_pct_hist p)) in
  let max_cpu_pct := max_curr_prev_flt (sum 0%nat) (sum 1%nat) in
  let max_blkio_pct := max_curr_prev_flt (nthf 0 (blkiodelay_pct_hist p)) (nthf 1 (blkiodelay_pct_hist p)) in
  let! max_majflt := dbl_to_int 16 (max_curr_prev_flt (flt_of_int (nth 0 (majflt_hist p) 0))
                                                      (flt_of_int (nth 1 (majflt_hist p) 0))) in
  let nfaults := Z.of_nat (length (base.filter (fun b => b = true) (pgfault_hist_ d))) in
  let limit := dmul (dbl_of_int (ncpus_allowed t * 100)) (ddiv (dbl_of_int 9) (dbl_of_int 10)) in
  Acc (
    if (max_majflt >? 0) && (((is_cpu_delay || is_blkio_delay) && is_vol_cs) || (max_majflt >? 10)) && (nfaults <? 10)
    then (STATE_BAD, ISSUE_MAJOR_PAGE_FAULT)
    else if fge (dbl_of_flt max_cpu_pct) limit then
      (if is_invol_cs then STATE_BAD else STATE_OK, ISSUE_CPU_UTIL_HIGH)
    else if fgt max_blkio_pct (flt_of_int CPU_IOWAIT_LOW_PERCENT) && is_blkio_delay && is_vol_cs && is_cpu_delay
    then (STATE_OK, ISSUE_BLKIO_DELAY)
    else if is_cpu_delay || is_blkio_delay then
      (STATE_OK, if cpu_delay mx >? blkio_delay mx then ISSUE_CPU_DELAY else ISSUE_BLKIO_DELAY)
    else if vol_cs mx >? u64 (2000 * delay_secs) then (STATE_OK, ISSUE_VOL_CONTEXT_SWITCH)
    else if fgt (flt_of_int CPU_LOW_USE_PERCENT) max_cpu_pct then (STATE_IDLE, ISSUE_TASK_NONE)
    else (STATE_GOOD, ISSUE_TASK_NONE)).

(** The larger of the last two values of every delay. *)
Definition max_delays (d : TASK_DELAY_STATS) : delay8 Z :=
  d8_map (fun l => max_curr_prev (nth 0 l 0) (nth 1 l 0)) (delays_ d).

(** The verdict from the delays and the use of the processors; [pdelay_stats_] is there. *)
Definition delays_verdict (t : TASK_STAT) (p : PROC_CPU_IO_STATS) (d : TASK_DELAY_STATS) : acc verdict :=
  let delay_secs := clock_diff_secs (nth 0 (delay_clock_nsec_ d) 0) (nth 1 (delay_clock_nsec_ d) 0) in
  let mx := max_delays d in
  let long x := x >? 10 * GY_NSEC_PER_MSEC in
  match stopped_verdict t p mx with Some v => Acc v | None =>
  match vm_verdict (swapin_delay mx) delay_secs [cpu_delay mx; blkio_delay mx; reclaim_delay mx] ISSUE_SWAPIN_DELAY with
  | Some v => Acc v | None =>
  match vm_verdict (reclaim_delay mx) delay_secs [cpu_delay mx; blkio_delay mx; thrashing_delay mx] ISSUE_RECLAIM_DELAY with
  | Some v => Acc v | None =>
  match vm_verdict (thrashing_delay mx) delay_secs [cpu_delay mx; blkio_delay mx] ISSUE_THRASHING_DELAY with
  | Some v => Acc v | None =>
  match delay_verdict (cpu_delay mx) delay_secs 5 (cpu_delay_histogram_ d) ISSUE_CPU_DELAY with
  | Some v => Acc v | None =>
  match delay_verdict (blkio_delay mx) delay_secs 1 (blkio_delay_histogram_ d) ISSUE_BLKIO_DELAY with
  | Some v => Acc v | None =>
  let is_cpu_delay := long (cpu_delay mx) in
  let is_blkio_delay := long (blkio_delay mx) in
  let is_reclaim_delay := long (reclaim_delay mx) in
  let is_thrashing_delay := long (thrashing_delay mx) in
  if (is_cpu_delay || is_blkio_delay) && (is_reclaim_delay || is_thrashing_delay) then
    Acc (STATE_BAD, if is_reclaim_delay then ISSUE_RECLAIM_DELAY else ISSUE_THRASHING_DELAY) else
  match vol_verdict mx delay_secs is_cpu_delay (vol_cs_histogram_ d) with
  | (Some v, _) => Acc v
  | (None, is_vol_cs) =>
      match invol_verdict mx delay_secs is_cpu_delay (invol_cs_histogram_ d) with
      | (Some v, _) => Acc v
      | (None, is_invol_cs) =>
          usage_verdict t p d mx delay_secs is_cpu_delay is_blkio_delay is_vol_cs is_invol_cs
      end
  end
  end end end end end end.

(** [None] for the verdict is the result -1: the readings are older than 15 seconds.  The
    delay statistics are read before the check that they exist, so that there is no result
    without them. *)
Definition task_get_curr_state (t : TASK_STAT) (p : PROC_CPU_IO_STATS) (pdelay : option TASK_DELAY_STATS) (clock_nsec : Z)
    : acc (option verdict) :=
  if swrap 64 (swrap 64 clock_nsec - swrap 64 (tstartstats p)) >? GY_NSEC_PER_SEC * 15 then Acc None else
  match pdelay with
  | None => Oob
  | Some d => let! v := delays_verdict t p d in Acc (Some v)
  end.

(** ** The record of the verdicts *)
Record TASK_EXT_STATS := TaskExtStats {
  cpu_mem_io_ : PROC_CPU_IO_STATS; pdelay_stats_ : option TASK_DELAY_STATS;
  issue_hist_ : list verdict; issue_bit_hist_ : Z; severe_issue_bit_hist_ : Z }.

Definition ext_init (p : PROC_CPU_IO_STATS) : TASK_EXT_STATS :=
  TaskExtStats p None (replicate MAX_TASK_STAT_HISTORY (STATE_IDLE, ISSUE_TASK_NONE)) 0 0.

(** [new] is the answer of the kernel, or its error; the state is classified at
    [curr_nsec].  The flags are [is_issue] and [is_severe] of the caller, which start as
    [false].  The delay statistics are there, as the caller has checked. *)
Definition update_delay_stats (t : TASK_STAT) (new : Z + delay8 Z) (curr_nsec : Z) (x : TASK_EXT_STATS)
    : acc (Z * bool * bool * TASK_EXT_STATS) :=
  match new with
  | inl ret => Acc (ret, false, false, x)
  | inr new =>
      match pdelay_stats_ x with
      | None => Oob
      | Some d =>
          let! r := add_stats new curr_nsec d in
          let '(ret, d) := r in
          let x := TaskExtStats (cpu_mem_io_ x) (Some d) (issue_hist_ x) (issue_bit_hist_ x) (severe_issue_bit_hist_ x) in
          if negb (ret =? 0) then Acc (ret, false, false, x) else
          let d := TaskDelayStats (cpu_delay_histogram_ d) (blkio_delay_histogram_ d) (vol_cs_histogram_ d)
                     (invol_cs_histogram_ d)
                     (take MAX_PGFAULT_HIST ((nth 0 (majflt_hist (cpu_mem_io_ x)) 0 >? 0) :: pgfault_hist_ d))
                     (delays_ d) (delay_clock_nsec_ d) (last_ d) in
          let! v := task_get_curr_state t (cpu_mem_io_ x) (Some d) curr_nsec in
          match v with
          | None => Acc (-1, false, false, TaskExtStats (cpu_mem_io_ x) (Some d) (issue_hist_ x) (issue_bit_hist_ x)
                                             (severe_issue_bit_hist_ x))
          | Some v =>
              Acc (0, at_least_bad v.1, at_least_severe v.1,
                   TaskExtStats (cpu_mem_io_ x) (Some d) (push_front v (issue_hist_ x))
                     (hist_push (at_least_bad v.1) (issue_bit_hist_ x))
                     (hist_push (at_least_severe v.1) (severe_issue_bit_hist_ x)))
          end
      end
  end.

(** The readings of [update_stats], and a new [TASK_DELAY_STATS] for a task that matters. *)
Definition set_cpu_mem_io (p : PROC_CPU_IO_STATS) (x : TASK_EXT_STATS) : TASK_EXT_STATS :=
  TaskExtStats p (pdelay_stats_ x) (issue_hist_ x) (issue_bit_hist_ x) (severe_issue_bit_hist_ x).
Definition new_delay_stats (clock_nsec : Z) (x : TASK_EXT_STATS) : TASK_EXT_STATS :=
  match pdelay_stats_ x with
  | None => TaskExtStats (cpu_mem_io_ x) (Some (delay_init clock_nsec)) (issue_hist_ x) (issue_bit_hist_ x)
              (severe_issue_bit_hist_ x)
  | Some _ => x
  end.

Definition is_recent_task_issue (bitmap : Z) (x : TASK_EXT_STATS) : bool * bool * OBJ_STATE_E * TASK_ISSUE_SOURCE :=
  let v := nth 0 (issue_hist_ x) (STATE_IDLE, ISSUE_TASK_NONE) in
  (negb (Z.land (issue_bit_hist_ x) bitmap =? 0), negb (Z.land (severe_issue_bit_hist_ x) bitmap =? 0), v.1, v.2).

(** ** Counting over the tasks: the part of [tasks_cpu_stats_update] about issues *)
(** One visited task: its fields, its new readings, the answer of the kernel, the clock
    and whether it has TCP connections. *)
Record task_visit := TaskVisit {
  tv_task : TASK_STAT; tv_io : PROC_CPU_IO_STATS; tv_new : Z + delay8 Z; tv_clock : Z; tv_tcp : bool }.

(** A pass over the tasks; [None] for a task without extended statistics.  It gives the
    tasks, [nissues] and [nsevere]. *)
Fixpoint tasks_update (only_imp_procs : bool) (ts : list (option TASK_EXT_STATS * task_visit)) (nissues nsevere : Z)
    : acc (list (option TASK_EXT_STATS) * Z * Z) :=
  match ts with
  | [] => Acc ([], nissues, nsevere)
  | (None, _) :: ts =>
      let! r := tasks_update only_imp_procs ts nissues nsevere in
      let '(xs, ni, ns) := r in Acc (None :: xs, ni, ns)
  | (Some x, v) :: ts =>
      let is_imp_proc := bool_decide (is_Some (pdelay_stats_ x)) || tv_tcp v in
      if only_imp_procs && negb is_imp_proc then
        let! r := tasks_update only_imp_procs ts nissues nsevere in
        let '(xs, ni, ns) := r in Acc (Some x :: xs, ni, ns)
      else
      let x := set_cpu_mem_io (tv_io v) x in
      let x := if only_imp_procs then new_delay_stats (tv_clock v) x else x in
      let! r1 := (if bool_decide (is_Some (pdelay_stats_ x))
                  then update_delay_stats (tv_task v) (tv_new v) (tv_clock v) x
                  else Acc (0, false, false, x)) in
      let '(_, is_issue, is_severe, x) := r1 in
      let! r := tasks_update only_imp_procs ts (nissues + Z.b2z is_issue) (nsevere + Z.b2z is_severe) in
      let '(xs, ni, ns) := r in Acc (Some x :: xs, ni, ns)
  end.

(** ** Laws of the verdicts *)
(** A verdict without an issue is idle or good, and the other way round. *)
Definition consistent (v : verdict) : Prop :=
  v.1 <> STATE_DOWN /\ (v.2 = ISSUE_TASK_NONE <-> v.1 = STATE_IDLE \/ v.1 = STATE_GOOD).
Definition opt_consistent (v : option verdict) : Prop := from_option consistent True v.

Ltac verdicts :=
  repeat (case_if; cbn); try done; unfold consistent; cbn; (split; [done|]);
  (split; [intros ?; first [done | by left | by right | congruence] | intros [?|?]; first [done | congruence]]).

Lemma stopped_verdict_consistent t p mx : opt_consistent (stopped_verdict t p mx).
Proof. unfold stopped_verdict, opt_consistent. verdicts. Qed.

Lemma vm_verdict_consistent delay secs others issue : issue <> ISSUE_TASK_NONE ->
  opt_consistent (vm_verdict delay secs others issue).
Proof. intros Hi. unfold vm_verdict, opt_consistent. verdicts. Qed.

Lemma delay_verdict_consistent delay secs factor h issue : issue <> ISSUE_TASK_NONE ->
  opt_consistent (delay_verdict delay secs factor h issue).
Proof. intros Hi. unfold delay_verdict, opt_consistent. verdicts. Qed.

Lemma vol_verdict_consistent mx secs b h : opt_consistent (vol_verdict mx secs b h).1.
Proof. unfold vol_verdict, opt_consistent. verdicts. Qed.

Lemma invol_verdict_consistent mx secs b h : opt_consistent (invol_verdict mx secs b h).1.
Proof. unfold invol_verdict, opt_consistent. verdicts. Qed.

Lemma usage_verdict_consistent t p d mx secs b1 b2 b3 b4 v :
  usage_verdict t p d mx secs b1 b2 b3 b4 = Acc v -> consistent v.
Proof.
  unfold usage_verdict. intros H. apply acc_bind_Acc in H as (n & _ & H). simplify_eq. verdicts.
Qed.

Lemma delays_verdict_consistent t p d v : delays_verdict t p d = Acc v -> consistent v.
Proof.
  unfold delays_verdict. cbn zeta. intros H.
  repeat match type of H with
  | context [match ?o with Some _ => _ | None => _ end] =>
      let E := fresh in
      assert (E : opt_consistent o) by first
        [ apply stopped_verdict_consistent | by apply vm_verdict_consistent | by apply delay_verdict_consistent ];
      destruct o; [by simplify_eq|]; clear E
  end.
  case_if_in H; [simplify_eq; verdicts|].
  pose proof (vol_verdict_consistent (max_delays d) (clock_diff_secs (nth 0 (delay_clock_nsec_ d) 0) (nth 1 (delay_clock_nsec_ d) 0))
    (cpu_delay (max_delays d) >? 10 * GY_NSEC_PER_MSEC) (vol_cs_histogram_ d)) as Hv.
  destruct (vol_verdict _ _ _ _) as [[v1|] is_vol]; [by simplify_eq|].
  pose proof (invol_verdict_consistent (max_delays d) (clock_diff_secs (nth 0 (delay_clock_nsec_ d) 0) (nth 1 (delay_clock_nsec_ d) 0))
    (cpu_delay (max_delays d) >? 10 * GY_NSEC_PER_MSEC) (invol_cs_histogram_ d)) as Hi.
  destruct (invol_verdict _ _ _ _) as [[v1|] is_invol]; [by simplify_eq|].
  by apply usage_verdict_consistent in H.
Qed.

(** ** What holds of every task *)
Definition ext_inv (x : TASK_EXT_STATS) : Prop :=
  tracks (fun v => at_least_bad v.1) (issue_bit_hist_ x) (issue_hist_ x) /\
  tracks (fun v => at_least_severe v.1) (severe_issue_bit_hist_ x) (issue_hist_ x) /\
  length (issue_hist_ x) = MAX_TASK_STAT_HISTORY /\ Forall consistent (issue_hist_ x).

Lemma ext_init_inv p : ext_inv (ext_init p).
Proof.
  unfold ext_inv, ext_init. cbn [issue_bit_hist_ severe_issue_bit_hist_ issue_hist_].
  split_and!; [..|done|apply Forall_replicate; by verdicts];
    (split; [unfold in_width; lia|split; [rewrite length_replicate; unfold MAX_TASK_STAT_HISTORY; lia|]]);
    intros i x Hx; apply lookup_replicate in Hx as [-> _]; by rewrite Z.bits_0.
Qed.

Lemma update_delay_stats_inv t new clock x ret is_issue is_severe y : ext_inv x ->
  update_delay_stats t new clock x = Acc (ret, is_issue, is_severe, y) ->
  ext_inv y /\ (is_severe = true -> is_issue = true) /\
  (is_issue = true -> at_least_bad (is_recent_task_issue 3 y).1.2 = true).
Proof.
  intros Hx H. unfold update_delay_stats in H. destruct new as [?|new]; [by simplify_eq|].
  destruct (pdelay_stats_ x) as [d|]; [|done]. apply acc_bind_Acc in H as ([ret1 d1] & _ & H).
  case_if_in H; [by simplify_eq|]. apply acc_bind_Acc in H as (v & Hv & H).
  destruct v as [v|]; [|by simplify_eq]. simplify_eq.
  destruct Hx as (Hb & Hs & Hl & Hc).
  assert (Hcv : consistent v).
  { unfold task_get_curr_state in Hv. case_if_in Hv; [done|].
    apply acc_bind_Acc in Hv as (w & Hw & Hv). simplify_eq. by apply delays_verdict_consistent in Hw. }
  split; [|split].
  - split; [|split; [|split]]; cbn [issue_hist_ issue_bit_hist_ severe_issue_bit_hist_].
    + apply (tracks_push (fun v => at_least_bad v.1)), Hb.
    + apply (tracks_push (fun v => at_least_severe v.1)), Hs.
    + by rewrite length_push_front.
    + by apply Forall_push_front.
  - apply at_least_severe_bad.
  - unfold is_recent_task_issue. cbn [fst snd issue_hist_].
    assert (E : nth 0 (push_front v (issue_hist_ x)) (STATE_IDLE, ISSUE_TASK_NONE) = v); [|by rewrite E].
    apply nth_lookup_Some, push_front_0. by destruct (issue_hist_ x).
Qed.

Definition opt_ext_inv (x : option TASK_EXT_STATS) : Prop := from_option ext_inv True x.

Lemma new_delay_stats_inv clock x : ext_inv x -> ext_inv (new_delay_stats clock x).
Proof. unfold new_delay_stats. by destruct (pdelay_stats_ x). Qed.

(** *** The processes recorded in a pass *)
(** A process is recorded when it is examined (it has delay statistics, or gets them
    because it matters), the kernel answers and [update_delay_stats] returns 0. *)
Definition task_recorded (only_imp_procs : bool) (t : option TASK_EXT_STATS * task_visit) : bool :=
  match t with
  | (None, _) => false
  | (Some x, v) =>
      let x1 := set_cpu_mem_io (tv_io v) x in
      let x2 := if only_imp_procs then new_delay_stats (tv_clock v) x1 else x1 in
      (bool_decide (is_Some (pdelay_stats_ x)) || only_imp_procs && tv_tcp v) &&
      match tv_new v, update_delay_stats (tv_task v) (tv_new v) (tv_clock v) x2 with
      | inr _, Acc (ret, _, _, _) => ret =? 0
      | _, _ => false
      end
  end.

(** The verdicts of a process, the newest one, and whether a pass recorded one of at
    least the severity [sev]. *)
Definition task_verdicts (x : option TASK_EXT_STATS) : list verdict := from_option issue_hist_ [] x.
Definition task_newest (x : option TASK_EXT_STATS) : OBJ_STATE_E :=
  (nth 0 (task_verdicts x) (STATE_IDLE, ISSUE_TASK_NONE)).1.
Definition recorded_as (sev : OBJ_STATE_E -> bool) (only_imp_procs : bool)
    (t : (option TASK_EXT_STATS * task_visit) * option TASK_EXT_STATS) : bool :=
  task_recorded only_imp_procs t.1 && sev (task_newest t.2).

(** What a pass does to the verdicts of one process: a recorded one gets a new verdict, the
    others keep theirs. *)
Definition task_passed (only_imp_procs : bool) (t : option TASK_EXT_STATS * task_visit) (y : option TASK_EXT_STATS) : Prop :=
  if task_recorded only_imp_procs t then exists v, task_verdicts y = push_front v (task_verdicts t.1)
  else task_verdicts y = task_verdicts t.1.

Lemma newest_push v x : ext_inv x -> nth 0 (push_front v (issue_hist_ x)) (STATE_IDLE, ISSUE_TASK_NONE) = v.
Proof.
  intros (_ & _ & Hl & _). apply nth_lookup_Some, push_front_0. intros E. by rewrite E in Hl.
Qed.

Lemma update_delay_stats_flags t new clock x ret is_issue is_severe y : ext_inv x ->
  update_delay_stats t new clock x = Acc (ret, is_issue, is_severe, y) ->
  let taken := match new with inl _ => false | inr _ => ret =? 0 end in
  is_issue = taken && at_least_bad (task_newest (Some y)) /\
  is_severe = taken && at_least_severe (task_newest (Some y)) /\
  (if taken then exists v, issue_hist_ y = push_front v (issue_hist_ x) else issue_hist_ y = issue_hist_ x).
Proof.
  intros Hx H. unfold update_delay_stats in H. destruct new as [?|new]; cbn zeta; [by simplify_eq|].
  destruct (pdelay_stats_ x) as [d|]; [|done]. apply acc_bind_Acc in H as ([ret1 d1] & _ & H).
  case_if_in H; [breflect; simplify_eq; by rewrite (proj2 (Z.eqb_neq _ _))|].
  apply acc_bind_Acc in H as (v & Hv & H). destruct v as [v|]; [|by simplify_eq]. simplify_eq.
  unfold task_newest, task_verdicts. cbn [from_option issue_hist_ andb Z.eqb]. rewrite newest_push by done.
  split_and!; [done..|by exists v].
Qed.

(** One process. *)
Lemma task_pass_one (only_imp : bool) x v ret is_issue is_severe y :
  let x1 := set_cpu_mem_io (tv_io v) x in
  let x2 := if only_imp then new_delay_stats (tv_clock v) x1 else x1 in
  ext_inv x -> only_imp && negb (bool_decide (is_Some (pdelay_stats_ x)) || tv_tcp v) = false ->
  (if bool_decide (is_Some (pdelay_stats_ x2)) then update_delay_stats (tv_task v) (tv_new v) (tv_clock v) x2
   else Acc (0, false, false, x2)) = Acc (ret, is_issue, is_severe, y) ->
  ext_inv y /\ task_passed only_imp (Some x, v) (Some y) /\
  is_issue = recorded_as at_least_bad only_imp (Some x, v, Some y) /\
  is_severe = recorded_as at_least_severe only_imp (Some x, v, Some y).
Proof.
  cbn zeta. intros Hx He H. unfold task_passed, recorded_as, task_recorded. cbn [fst snd].
  set (x2 := if only_imp then _ else _) in *.
  assert (Hx2 : ext_inv x2) by (subst x2; case_if; [apply new_delay_stats_inv|]; exact Hx).
  assert (Eh : issue_hist_ x2 = issue_hist_ x).
  { subst x2. unfold new_delay_stats, set_cpu_mem_io. destruct only_imp; cbn [pdelay_stats_]; [|done].
    by destruct (pdelay_stats_ x). }
  assert (Ed : bool_decide (is_Some (pdelay_stats_ x2)) = bool_decide (is_Some (pdelay_stats_ x)) || only_imp && tv_tcp v).
  { subst x2. unfold new_delay_stats, set_cpu_mem_io. destruct only_imp; cbn [pdelay_stats_ andb] in *.
    - destruct (pdelay_stats_ x); cbn [pdelay_stats_] in *; [done|]. by destruct (tv_tcp v).
    - by rewrite orb_false_r. }
  rewrite Ed in H. clear He Ed. destruct (bool_decide _ || _); cbn [andb] in *; [|simplify_eq; unfold task_verdicts; cbn; by rewrite Eh].
  rewrite H. pose proof (update_delay_stats_flags _ _ _ _ _ _ _ _ Hx2 H) as (F1 & F2 & F3).
  apply update_delay_stats_inv in H as (Hy & _); [|done]. rewrite Eh in F3.
  by destruct (tv_new v).
Qed.

(** One pass: the histories, the verdicts and the counts. *)
Lemma tasks_pass only_imp ts ni ns xs ni' ns' :
  Forall (fun t => opt_ext_inv t.1) ts -> tasks_update only_imp ts ni ns = Acc (xs, ni', ns') ->
  Forall opt_ext_inv xs /\ Forall2 (task_passed only_imp) ts xs /\
  ni' = ni + Z.of_nat (cnt (recorded_as at_least_bad only_imp) (zip ts xs)) /\
  ns' = ns + Z.of_nat (cnt (recorded_as at_least_severe only_imp) (zip ts xs)).
Proof.
  intros Hts. revert ni ns xs ni' ns'. induction Hts as [|[x v] ts Hx Hts IH]; intros ni ns xs ni' ns' H; cbn in H.
  { simplify_eq. cbn. split_and!; [done|done|lia..]. }
  cbn in Hx. destruct x as [x|].
  - case_if_in H.
    { apply acc_bind_Acc in H as ([[xs1 ni1] ns1] & H & E). simplify_eq. apply IH in H as (H1 & H2 & -> & ->).
      assert (Er : task_recorded only_imp (Some x, v) = false).
      { unfold task_recorded. destruct only_imp; [|done]. by destruct (bool_decide _), (tv_tcp v). }
      cbn [zip zip_with cnt]. unfold recorded_as, task_passed in *. cbn [fst] in *. rewrite Er. cbn [andb].
      split_and!; [by constructor|constructor; [by rewrite Er|done]|done..]. }
    apply acc_bind_Acc in H as ([[[ret is_issue] is_severe] y] & H1 & H).
    apply acc_bind_Acc in H as ([[xs1 ni1] ns1] & H & E). simplify_eq.
    apply IH in H as (A1 & A2 & -> & ->).
    apply task_pass_one in H1 as (Hy & Hp & -> & ->); [|done..].
    cbn [zip zip_with cnt]. split_and!; [by constructor|by constructor|..]; destruct (recorded_as _ _ _); cbn [Z.b2z]; lia.
  - apply acc_bind_Acc in H as ([[xs1 ni1] ns1] & H & E). simplify_eq. apply IH in H as (H1 & H2 & -> & ->).
    split_and!; [by constructor|by constructor|done..].
Qed.

(** A pass over the processes of a host keeps in every process the histories of
    bits equal to its last five verdicts and every verdict consistent (no issue exactly
    when idle or good); a recorded process gets one verdict and the others keep theirs; and
    the issues and severe issues counted are the processes recorded in this pass whose
    verdict is bad or worse, or severe. *)
Theorem tasks_update_consistent only_imp ts ni ns xs ni' ns' :
  Forall (fun t => opt_ext_inv t.1) ts -> tasks_update only_imp ts ni ns = Acc (xs, ni', ns') ->
  Forall opt_ext_inv xs /\ Forall2 (task_passed only_imp) ts xs /\
  ni' = ni + Z.of_nat (cnt (recorded_as at_least_bad only_imp) (zip ts xs)) /\
  ns' = ns + Z.of_nat (cnt (recorded_as at_least_severe only_imp) (zip ts xs)).
Proof. apply tasks_pass. Qed.

(** ** The arrays of the delays *)
Inductive delay_counter :=
  | C_cpu | C_blkio | C_swapin | C_reclaim | C_thrashing | C_compact | C_vol_cs | C_invol_cs.
Definition d8_get {A} (c : delay_counter) (d : delay8 A) : A :=
  match c with
  | C_cpu => cpu_delay d | C_blkio => blkio_delay d | C_swapin => swapin_delay d | C_reclaim => reclaim_delay d
  | C_thrashing => thrashing_delay d | C_compact => compact_delay d | C_vol_cs => vol_cs d | C_invol_cs => invol_cs d
  end.

Lemma d8_get_map2 {A B C} (f : A -> B -> C) c a b : d8_get c (d8_map2 f a b) = f (d8_get c a) (d8_get c b).
Proof. by destruct c. Qed.
Lemma d8_get_map {A B} (f : A -> B) c a : d8_get c (d8_map f a) = f (d8_get c a).
Proof. by destruct c. Qed.
Lemma d8_get_all {A} (x : A) c : d8_get c (d8_all x) = x.
Proof. by destruct c. Qed.

(** Calls one after the other; the second part are the readings that were taken, the
    newest first. *)
Fixpoint add_run (rs : list (delay8 Z * Z)) (d : TASK_DELAY_STATS) (taken : list (delay8 Z))
    : acc (TASK_DELAY_STATS * list (delay8 Z)) :=
  match rs with
  | [] => Acc (d, taken)
  | (r, t) :: rs =>
      let! x := add_stats r t d in
      add_run rs x.2 (if x.1 =? 0 then r :: taken else taken)
  end.

(** The differences of the readings, the newest first. *)
Fixpoint differences (l : list Z) : list Z :=
  match l with
  | [] => []
  | [_] => [0]
  | a :: (b :: _) as rest => gy_diff_counter_safe 64 a b :: differences rest
  end.

Definition delay_ok (d : TASK_DELAY_STATS) (taken : list (delay8 Z)) : Prop :=
  (taken = [] <-> nth 1 (delay_clock_nsec_ d) 0 = 0) /\ length (delay_clock_nsec_ d) = MAX_TASK_STAT_HISTORY /\
  (taken <> [] -> nth 0 (delay_clock_nsec_ d) 0 <> 0 /\ head taken = Some (last_ d)) /\
  forall c, d8_get c (delays_ d) =
    take MAX_TASK_STAT_HISTORY (differences (map (d8_get c) taken) ++ replicate MAX_TASK_STAT_HISTORY 0).

Lemma gy_diff_counter_safe_same w x : 0 <= w -> gy_diff_counter_safe w x x = 0.
Proof.
  intros Hw. unfold gy_diff_counter_safe, gy_diff_counter. rewrite Z.geb_leb, (proj2 (Z.leb_le x x)) by lia.
  rewrite Z.sub_diag. by case_if.
Qed.

Lemma take_shift {A} (n : nat) (x : A) l : (0 < n)%nat -> (n <= length l)%nat ->
  push_front x (take n l) = take n (x :: l).
Proof.
  intros Hn Hl. unfold push_front, array_shift_right. destruct n as [|n]; [lia|].
  destruct l as [|y l]; [simpl in Hl; lia|]. simpl in *. rewrite length_take_le by lia. f_equal.
  destruct n as [|n]; [done|]. simpl. f_equal. destruct l as [|z l]; [simpl in Hl; lia|].
  rewrite take_take. f_equal. lia.
Qed.

Lemma add_stats_ok r t d taken x : delay_ok d taken -> 10 < t < 2 ^ 64 -> add_stats r t d = Acc x ->
  delay_ok x.2 (if x.1 =? 0 then r :: taken else taken).
Proof.
  intros (Hf & Hlc & Hn & Hd) Ht H. unfold add_stats in H. cbn zeta in H.
  destruct (nth 1 (delay_clock_nsec_ d) 0 =? 0) eqn:Ef; cbn [negb andb] in H; breflect.
  - apply Hf in Ef as ->. repeat (apply acc_bind_Acc in H as (? & _ & H)). simplify_eq. cbn [fst snd Z.eqb].
    unfold delay_ok. cbn [delay_clock_nsec_ last_ delays_]. split_and!; [|done|intros _; cbn; split; [lia|done]|].
    + cbn [nth list_insert insert]. split; [done|]. cbn. unfold wrap. rewrite Z.mod_small; lia.
    + intros c. rewrite d8_get_map2, d8_get_map2, gy_diff_counter_safe_same by lia. rewrite Hd. by cbn.
  - case_if_in H.
    { simplify_eq. by cbn [fst snd Z.eqb]. }
    repeat (apply acc_bind_Acc in H as (? & _ & H)). simplify_eq. cbn [fst snd Z.eqb].
    destruct taken as [|r0 taken]; [by destruct Hf as [Hf _]; specialize (Hf eq_refl)|].
    destruct (Hn ltac:(done)) as [Hc0 [= Hl0]]. subst r0.
    destruct (delay_clock_nsec_ d) as [|k0 [|k1 ks]] eqn:Ek; try done.
    unfold delay_ok. cbn [delay_clock_nsec_ last_ delays_]. split_and!.
    + split; [done|]. cbn. intros E. by cbn in Hc0.
    + rewrite length_insert. unfold array_shift_right. rewrite length_take. cbn [length] in *. lia.
    + intros _. cbn. split; [lia|done].
    + intros c. rewrite !d8_get_map2, d8_get_map, Hd. fold (push_front (gy_diff_counter_safe 64 (d8_get c r) (d8_get c (last_ d)))
        (take MAX_TASK_STAT_HISTORY (differences (map (d8_get c) (last_ d :: taken)) ++ replicate MAX_TASK_STAT_HISTORY 0))).
      apply take_shift; [unfold MAX_TASK_STAT_HISTORY; lia|]. rewrite length_app, length_replicate. lia.
Qed.

(** C37 : After any calls at increasing or other clocks, the arrays of the delays and of
    the context switches are the differences of the last readings that were taken, the
    newest first, and zero before the first: a reading that comes too soon changes
    nothing, and the one after it accounts for the whole time. *)
Theorem delay_arrays_are_differences clock rs d taken c :
  Forall (fun r => 10 < r.2 < 2 ^ 64) rs -> add_run rs (delay_init clock) [] = Acc (d, taken) ->
  d8_get c (delays_ d) =
  take MAX_TASK_STAT_HISTORY (differences (map (d8_get c) taken) ++ replicate MAX_TASK_STAT_HISTORY 0).
Proof.
  assert (H0 : delay_ok (delay_init clock) []).
  { unfold delay_ok, delay_init. cbn [delay_clock_nsec_ delays_]. split_and!; [done|done|done|].
    intros k. by rewrite d8_get_all. }
  revert H0. generalize (delay_init clock) as d0. generalize (@nil (delay8 Z)) as tk.
  intros tk d0 H0 Hrs. revert d0 tk H0. induction Hrs as [|[r t] rs Hr Hrs IH]; intros d0 tk H0 H; cbn in H.
  - simplify_eq. apply H0.
  - apply acc_bind_Acc in H as (x & Hx & H). eapply IH, H. by eapply add_stats_ok, Hx.
Qed.

Definition ex_delay (n : Z) : delay8 Z := Delay8 n (2 * n) 0 0 0 0 n n.
Lemma delay_arrays_are_differences_witness :
  exists d taken, add_run [(ex_delay 100, 5 * GY_NSEC_PER_SEC); (ex_delay 170, 10 * GY_NSEC_PER_SEC);
                           (ex_delay 300, 10 * GY_NSEC_PER_SEC + 5); (ex_delay 400, 15 * GY_NSEC_PER_SEC)]
                          (delay_init 1) [] = Acc (d, taken) /\
    blkio_delay (delays_ d) = [460; 140; 0; 0; 0].
Proof.
  eexists _, _. split; [vm_compute; reflexivity|].
  etransitivity;
    [apply (delay_arrays_are_differences 1
        [(ex_delay 100, 5 * GY_NSEC_PER_SEC); (ex_delay 170, 10 * GY_NSEC_PER_SEC);
         (ex_delay 300, 10 * GY_NSEC_PER_SEC + 5); (ex_delay 400, 15 * GY_NSEC_PER_SEC)] _
        [ex_delay 400; ex_delay 170; ex_delay 100] C_blkio)|by vm_compute].
  - repeat constructor; cbn; unfold GY_NSEC_PER_SEC; lia.
  - by vm_compute.
Defined.

(** A process under a debugger. *)
Definition ex_visit : task_visit :=
  TaskVisit (TaskStat true 0 false 2)
    (ProcCpuIo (20 * GY_NSEC_PER_SEC) 0 (replicate 3 F0) (replicate 3 F0) (replicate 3 F0) [0; 0; 0] [0; 0; 0])
    (inr (ex_delay 100)) (20 * GY_NSEC_PER_SEC) true.
Definition ex_ext : TASK_EXT_STATS := ext_init (tv_io ex_visit).

Lemma tasks_update_consistent_witness : exists xs,
  tasks_update true [(Some ex_ext, ex_visit); (None, ex_visit)] 0 0 = Acc (xs, 1, 0) /\ Forall opt_ext_inv xs.
Proof.
  eexists. split; [vm_compute; reflexivity|].
  refine (proj1 (tasks_update_consistent true [(Some ex_ext, ex_visit); (None, ex_visit)] 0 0 _ 1 0 _ _)).
  - constructor; [apply ext_init_inv|]. constructor; [exact I|constructor].
  - by vm_compute.
Defined.

(** A process without delay statistics cannot be classified: the pointer to them is used
    before it is checked. *)
Lemma no_delay_stats_faults t p clock :
  swrap 64 (swrap 64 clock - swrap 64 (tstartstats p)) <= GY_NSEC_PER_SEC * 15 ->
  task_get_curr_state t p None clock = Oob.
Proof. intros H. unfold task_get_curr_state. case_if; [breflect; lia|done]. Qed.
