(* ===== verification/SvcState.v ===== *)
(** * SvcState : the state of a service (common/gy_socket_stat.h, common/gy_socket_stat.cc).

    Every five seconds the agent classifies each service that listens on a port from the
    times of its responses (over 5 seconds, 5 minutes, 5 days and all), its queries per
    second and connections, the errors of the server and the state of its processes.  The
    classification explains a slow service by the first cause that is found; a slow
    response without a cause is reported only after it is seen often enough in the bit
    history of the last eight calls.

    The statistics of the time histograms, the clocks and the counters are input.  The
    text of the verdicts is left out. *)
From Stdlib Require Import SpecFloat.
From S2P Require Import Prelude Bytes Doubles Histogram ObjState HostState TaskState AlertDef.

#[local] Open Scope Z_scope.

Inductive LISTENER_ISSUE_SRC :=
  | ISSUE_LISTEN_NONE | ISSUE_LISTENER_TASKS | ISSUE_QPS_HIGH | ISSUE_ACTIVE_CONN_HIGH | ISSUE_SERVER_ERRORS
  | ISSUE_OS_CPU | ISSUE_OS_MEMORY | ISSUE_DEPENDENT_SERVER_LISTENER | ISSUE_SRC_UNKNOWN.

#[export] Instance LISTENER_ISSUE_SRC_eq_dec : EqDecision LISTENER_ISSUE_SRC.
Proof. solve_decision. Defined.

(** ** The processes of a service *)
Record LISTENER_TASK_STATUS := ListenerTaskStatus {
  last_usec_clock_ : Z; tasks_delay_usec_ : Z; tasks_cpudelay_usec_ : Z; tasks_blkiodelay_usec_ : Z;
  tasks_user_cpu_ : Z; tasks_sys_cpu_ : Z; tasks_rss_mb_ : Z; last_ntasks_issue_ : Z; last_ntasks_noissue_ : Z;
  lt_issue_bit_hist_ : Z; lt_severe_issue_bit_hist_ : Z; is_delay_ : bool }.

Definition task_status_init : LISTENER_TASK_STATUS := ListenerTaskStatus 0 0 0 0 0 0 0 0 0 0 0 false.

(** What a look at the processes of a service finds. *)
Record task_look := TaskLook {
  tl_delay_usec : Z; tl_cpudelay_usec : Z; tl_blkiodelay_usec : Z;
  tl_is_issue : bool; tl_is_severe : bool; tl_is_delay : bool; tl_ntasks_issue : Z; tl_ntasks_noissue : Z;
  tl_user_cpu : Z; tl_sys_cpu : Z; tl_rss_mb : Z }.

Definition no_look : task_look := TaskLook 0 0 0 false false false 0 0 0 0 0.

Definition set_task_issue (clock_usec : Z) (l : task_look) (s : LISTENER_TASK_STATUS) : LISTENER_TASK_STATUS :=
  ListenerTaskStatus clock_usec (tl_delay_usec l) (tl_cpudelay_usec l) (tl_blkiodelay_usec l)
    (tl_user_cpu l) (tl_sys_cpu l) (tl_rss_mb l) (tl_ntasks_issue l) (tl_ntasks_noissue l)
    (hist_push (tl_is_issue l) (lt_issue_bit_hist_ s)) (hist_push (tl_is_severe l) (lt_severe_issue_bit_hist_ s))
    (tl_is_delay l).

(** With the default [bitmap] of the last two looks.  [None] when the status is stale; the
    caller takes the two numbers as flags. *)
Definition recent_task_issue (curr_clock_usec : Z) (s : LISTENER_TASK_STATUS) : option task_look :=
  if swrap 64 (swrap 64 curr_clock_usec - swrap 64 (last_usec_clock_ s)) >? GY_USEC_PER_SEC * 4 then None else
  Some (TaskLook (tasks_delay_usec_ s) (tasks_cpudelay_usec_ s) (tasks_blkiodelay_usec_ s)
    (negb (Z.land (lt_issue_bit_hist_ s) 3 =? 0)) (negb (Z.land (lt_severe_issue_bit_hist_ s) 3 =? 0)) (is_delay_ s)
    (last_ntasks_issue_ s) (last_ntasks_noissue_ s) (tasks_user_cpu_ s) (tasks_sys_cpu_ s) (tasks_rss_mb_ s)).

(** The sums of the walk over the processes. *)
Record task_sums := TaskSums {
  ts_ucpu : flt; ts_scpu : flt; ts_rss : Z; ts_del : Z; ts_cpudel : Z; ts_blkiodel : Z;
  ts_issue : bool; ts_severe : bool; ts_delay : bool; ts_nissue : Z; ts_nnoissue : Z }.

Definition sums_init : task_sums := TaskSums F0 F0 0 0 0 0 false false false 0 0.

(** One process: [None] when it has exited, which deletes it from the table. *)
Definition walk_task (t : option (option TASK_EXT_STATS)) (s : task_sums) : task_sums * bool :=
  match t with
  | None => (s, false)
  | Some None => (s, true)
  | Some (Some x) =>
      let p := cpu_mem_io_ x in
      let '(_, lsevere, lstate, lissue) := is_recent_task_issue 3 x in
      let '(del, cpudel, blkiodel) :=
        match pdelay_stats_ x with
        | Some d =>
            let now l := nth 0 l 0 in
            let cpudel := now (cpu_delay (delays_ d)) in
            let blkiodel := now (blkio_delay (delays_ d)) in
            (swrap 64 (ts_del s + cpudel + blkiodel + now (swapin_delay (delays_ d)) + now (reclaim_delay (delays_ d)) +
                       now (thrashing_delay (delays_ d))),
             swrap 64 (ts_cpudel s + cpudel), swrap 64 (ts_blkiodel s + blkiodel))
        | None => (ts_del s, ts_cpudel s, ts_blkiodel s)
        end in
      let bad := state_num lstate >? state_num STATE_OK in
      let delayed := (task_issue_num lissue >? task_issue_num ISSUE_TASK_NONE) &&
                     (task_issue_num lissue <? task_issue_num ISSUE_VOL_CONTEXT_SWITCH) ||
                     (del >? 50 * GY_NSEC_PER_MSEC) in
      (TaskSums (fadd (ts_ucpu s) (nthf 0 (p_usercpu_pct_hist p))) (fadd (ts_scpu s) (nthf 0 (p_syscpu_pct_hist p)))
         (swrap 64 (ts_rss s + rss p)) del cpudel blkiodel
         (ts_issue s || bad) (if bad then ts_severe s || lsevere else ts_severe s) (ts_delay s || delayed)
         (if bad then ts_nissue s + 1 else ts_nissue s) (if bad then ts_nnoissue s else ts_nnoissue s + 1), true)
  end.

Fixpoint walk_tasks (ts : list (option (option TASK_EXT_STATS))) (s : task_sums)
    : task_sums * list (option (option TASK_EXT_STATS)) :=
  match ts with
  | [] => (s, [])
  | t :: ts =>
      let '(s, keep) := walk_task t s in
      let '(s, ts') := walk_tasks ts s in
      (s, if keep then t :: ts' else ts')
  end.

(** The tables of a service that listens: its processes and the status that the services
    with the same processes share.  [None] when one of them is missing. *)
Definition is_task_issue (clock_usec : Z) (tbl : option (list (option (option TASK_EXT_STATS)) * LISTENER_TASK_STATUS))
    : acc (task_look * option (list (option (option TASK_EXT_STATS)) * LISTENER_TASK_STATUS)) :=
  match tbl with
  | None => Acc (no_look, None)
  | Some (ts, status) =>
      match recent_task_issue clock_usec status with
      | Some l => Acc (l, tbl)
      | None =>
          let '(s, ts') := walk_tasks ts sums_init in
          if (length ts =? 0)%nat then
            Acc (TaskLook 0 0 0 (ts_issue s) (ts_severe s) (ts_delay s) (ts_nissue s) (ts_nnoissue s) 0 0 0, Some (ts', status))
          else
          let! ucpu := dbl_to_int 32 (ts_ucpu s) in
          let! scpu := dbl_to_int 32 (ts_scpu s) in
          let l := TaskLook (u32 (Z.quot (ts_del s) 1000)) (u32 (Z.quot (ts_cpudel s) 1000)) (u32 (Z.quot (ts_blkiodel s) 1000))
                     (ts_issue s) (ts_severe s) (ts_delay s) (ts_nissue s) (ts_nnoissue s)
                     ucpu scpu (swrap 32 (Z.shiftr (ts_rss s) 20)) in
          Acc (l, Some (ts', set_task_issue clock_usec l status))
      end
  end.

(** ** The verdict on a service *)
(** [RESP_STATS]: the percentiles of the responses in msec, their number, sum and mean. *)
Record RESP_STATS := RespStats {
  rs_p95 : Z; rs_p99 : Z; rs_p25 : Z; tcount_ : Z; tsum_ : Z; mean_val_ : dbl }.

(** The local variables of [get_curr_state] that the verdict depends on. *)
Record svc_in := SvcIn {
  v5 : RESP_STATS; v300 : RESP_STATS; v5day : RESP_STATS; vall : RESP_STATS;
  task_issue : bool; si_is_severe : bool; si_is_delay : bool; ntasks_issue : Z; ntasks_noissue : Z;
  tasks_delay_msec : Z;
  curr_qps : Z; qps_p95 : Z; qps_p25 : Z; active_p95 : Z; active_p25 : Z;
  nconn : Z; curr_active_conn : Z; cpu_issue : bool; mem_issue : bool; ser_errors : Z;
  days5_secs : Z;                        (* [sec_dist_arr[n5days]] *)
  nactive_conn_arr : list Z; nserdepends : Z }.

Definition resp_bucket (msec : Z) : nat := get_bucketid_from_threshold RESP_TIME_HASH msec.
Definition b5 (i : svc_in) : nat := resp_bucket (rs_p95 (v5 i)).
Definition b300 (i : svc_in) : nat := resp_bucket (rs_p95 (v300 i)).
Definition b5day (i : svc_in) : nat := resp_bucket (rs_p95 (v5day i)).
Definition nqrys_5s (i : svc_in) : Z := u64 (tcount_ (v5 i)).
Definition total_resp_msec (i : svc_in) : Z := u64 (tsum_ (v5 i)).
Definition errors (i : svc_in) : bool := negb (ser_errors i =? 0).

(** [ser_errors * k > nqrys_5s], a product of 32 bits. *)
Definition errors_over (k : Z) (i : svc_in) : bool := u32 (ser_errors i * k) >? nqrys_5s i.

(** [a <= b * c] for a factor [n/10] given in single precision. *)
Definition tenths (n : Z) : dbl := dbl_of_flt (fdiv (flt_of_int n) (flt_of_int 10)).
Definition mean_le (a b : RESP_STATS) (n : Z) : bool := SFleb (mean_val_ a) (dmul (mean_val_ b) (tenths n)).
Definition mean_lt (a b : RESP_STATS) (n : Z) : bool := SFltb (mean_val_ a) (dmul (mean_val_ b) (tenths n)).

Abbreviation svc_verdict := (OBJ_STATE_E * LISTENER_ISSUE_SRC)%type.

(** Fewer than one query per second in the last seconds, and not all of the three signs of trouble. *)
Definition svc_idle (i : svc_in) : bool :=
  (curr_qps i =? 0) && (negb (task_issue i) || negb (si_is_severe i) || negb (errors i)).

Definition all_tasks_issue (i : svc_in) : bool := (ntasks_issue i >? 0) && (ntasks_noissue i =? 0).

(** Many errors: the check that opens several branches. *)
Definition error_verdict (i : svc_in) : option svc_verdict :=
  if errors i then
    if errors_over 2 i then Some (STATE_SEVERE, ISSUE_SERVER_ERRORS)
    else if errors_over 5 i then Some (STATE_BAD, ISSUE_SERVER_ERRORS)
    else None
  else None.

(** The responses are fast and there are few queries.  [None] goes on. *)
Definition low_qps_verdict (i : svc_in) : option svc_verdict :=
  if (curr_qps i <=? qps_p25 i) && (qps_p25 i <? qps_p95 i) then
    if negb (task_issue i) && negb (errors i) then Some (STATE_IDLE, ISSUE_LISTEN_NONE)
    else if negb (task_issue i) && errors i then
      if errors_over 2 i then Some (STATE_SEVERE, ISSUE_SERVER_ERRORS)
      else if errors_over 5 i then Some (STATE_BAD, ISSUE_SERVER_ERRORS)
      else if SFltb (dbl_of_int (ser_errors i)) (dmul (dbl_of_int (nqrys_5s i)) (ddiv (dbl_of_int 1) (dbl_of_int 10)))
      then Some (STATE_OK, ISSUE_SERVER_ERRORS)
      else None
    else if errors_over 2 i then Some (STATE_SEVERE, ISSUE_SERVER_ERRORS)
    else if errors_over 5 i then Some (STATE_BAD, ISSUE_SERVER_ERRORS)
    else if errors i then Some (STATE_BAD, ISSUE_LISTENER_TASKS)
    else if si_is_severe i && all_tasks_issue i then Some (STATE_BAD, ISSUE_LISTENER_TASKS)
    else if nconn i >? active_p25 i then Some (STATE_OK, ISSUE_LISTENER_TASKS)
    else None
  else None.

(** Responses within a millisecond or faster than over five days. *)
Definition low_resp_verdict (i : svc_in) : svc_verdict :=
  match low_qps_verdict i with Some v => v | None =>
  match error_verdict i with Some v => v | None =>
  if task_issue i && si_is_severe i && all_tasks_issue i then (STATE_BAD, ISSUE_LISTENER_TASKS)
  else if negb (errors i) then
    if (curr_qps i <=? qps_p95 i) || (b5 i + 2 <=? b5day i)%nat then (STATE_GOOD, ISSUE_LISTEN_NONE)
    else (STATE_OK, ISSUE_QPS_HIGH)
  else (STATE_OK, ISSUE_SERVER_ERRORS)
  end end.

(** Responses like those over five days, the mean decides; [None] when it is high. *)
Definition equal_resp_verdict (i : svc_in) : option svc_verdict :=
  match error_verdict i with Some v => Some v | None =>
  if mean_le (v5 i) (v5day i) 8 then
    let low_qps :=
      if curr_qps i <=? qps_p25 i then
        if errors i then Some (STATE_BAD, ISSUE_SERVER_ERRORS)
        else if negb (task_issue i) then Some (STATE_IDLE, ISSUE_LISTEN_NONE)
        else if all_tasks_issue i then Some (STATE_BAD, ISSUE_LISTENER_TASKS)
        else if (ntasks_issue i >? 0) && (tasks_delay_msec i >=? 1000) then Some (STATE_BAD, ISSUE_LISTENER_TASKS)
        else None
      else None in
    match low_qps with Some v => Some v | None =>
    if negb (task_issue i) && negb (errors i) then Some (STATE_GOOD, ISSUE_LISTEN_NONE)
    else if errors i && task_issue i then Some (STATE_BAD, ISSUE_LISTENER_TASKS)
    else Some (STATE_OK, ISSUE_LISTENER_TASKS)    (* also with errors and no issue of a process *)
    end
  else if mean_le (v5 i) (v5day i) 12 then Some (STATE_OK, ISSUE_LISTEN_NONE)
  else None
  end.

(** [b5 > b5day + 2 && b5 > b300]: the response is much higher. *)
Definition much_higher (i : svc_in) : bool := (b5day i + 2 <? b5 i)%nat && (b300 i <? b5 i)%nat.
Definition grade (i : svc_in) : OBJ_STATE_E := if much_higher i then STATE_SEVERE else STATE_BAD.

(** A verdict that the state is OK, with the errors as its issue if there are any. *)
Definition ok_verdict (i : svc_in) : svc_verdict :=
  (STATE_OK, if errors i then ISSUE_SERVER_ERRORS else ISSUE_LISTEN_NONE).

(** [for (b = b5; b < max_buckets; ++b) if (nactive_conn_arr_[b] > 3) break;] *)
Fixpoint first_busy (arr : list Z) (b : nat) (fuel : nat) : nat :=
  match fuel with
  | O => b
  | S fuel => if nth b arr 0 >? 3 then b else first_busy arr (b + 1) fuel
  end.

(** The verdict on a high response; [nhigh] is the number of high responses in the last
    eight calls, this one included. *)
Definition high_resp_verdict (i : svc_in) (nhigh : Z) : svc_verdict :=
  match error_verdict i with Some v => v | None =>
  if (curr_qps i >? qps_p95 i) && (curr_qps i - qps_p95 i >? 5) &&
     fgt (flt_of_int (curr_qps i)) (fmul (flt_of_int (qps_p95 i)) (fdiv (flt_of_int 11) (flt_of_int 10)))
  then (grade i, ISSUE_QPS_HIGH)
  else if task_issue i || (si_is_delay i && (ntasks_issue i + ntasks_noissue i >? 2) &&
                           (u64 (tasks_delay_msec i * 4) >? total_resp_msec i))
  then (grade i, ISSUE_LISTENER_TASKS)
  else if (curr_active_conn i >? active_p95 i) && (curr_active_conn i - active_p95 i >? 1) then
    (if much_higher i && (curr_active_conn i >? 10) then STATE_SEVERE else STATE_BAD, ISSUE_ACTIVE_CONN_HIGH)
  else if (rs_p95 (v5 i) =? rs_p95 (v5day i)) && (rs_p99 (v5 i) >? rs_p99 (v5day i)) then ok_verdict i
  else if (curr_qps i <=? qps_p25 i) && (nconn i <=? active_p25 i) then
    if si_is_delay i && cpu_issue i && mem_issue i then (STATE_BAD, ISSUE_LISTENER_TASKS)
    else if si_is_delay i && (cpu_issue i || mem_issue i) && (u64 (tasks_delay_msec i * 4) >? total_resp_msec i)
    then (STATE_BAD, ISSUE_LISTENER_TASKS)
    else ok_verdict i
  else
  let avg_5day_qps := swrap 32 (Z.quot (tcount_ (v5day i)) (days5_secs i)) in
  if (avg_5day_qps <? Z.shiftr (curr_qps i) 1) && (rs_p95 (v5 i) <=? rs_p95 (vall i)) && mean_le (v5 i) (vall i) 11
  then ok_verdict i
  else if (curr_qps i <=? qps_p25 i) && (curr_active_conn i <=? active_p25 i) && (b5 i <=? b5day i + 1)%nat
  then ok_verdict i
  else if (b5 i <=? b5day i + 1)%nat && (b300 i =? b5day i)%nat &&
          fgt (mean_val_ (v5 i)) (mean_val_ (v300 i)) && mean_lt (v300 i) (v5day i) 11
  then ok_verdict i
  else if (curr_active_conn i >=? 15) && (b5 i =? b5day i + 1)%nat &&
          (b5 i <? first_busy (nactive_conn_arr i) (b5 i) (max_buckets RESP_TIME_HASH - b5 i))%nat
  then ok_verdict i
  else if nhigh <? 5 then ok_verdict i
  else
  let lstate := grade i in
  if (u64 (tasks_delay_msec i * 4) >? total_resp_msec i) && bool_decide (lstate = STATE_BAD)
  then (lstate, ISSUE_LISTENER_TASKS)
  else if nserdepends i >? 0 then (lstate, ISSUE_DEPENDENT_SERVER_LISTENER)
  else if u64 (tasks_delay_msec i * 10) >? total_resp_msec i then (lstate, ISSUE_LISTENER_TASKS)
  else if errors i then (lstate, ISSUE_SERVER_ERRORS)
  else (lstate, ISSUE_SRC_UNKNOWN)
  end.

(** The verdict before the history is looked at, or a high response. *)
Definition early_verdict (i : svc_in) : option svc_verdict :=
  if svc_idle i then Some (STATE_IDLE, ISSUE_LISTEN_NONE)
  else if (b5 i =? resp_bucket 1)%nat || (rs_p95 (v5 i) <? rs_p95 (v5day i)) then Some (low_resp_verdict i)
  else if rs_p95 (v5 i) =? rs_p95 (v5day i) then equal_resp_verdict i
  else None.

(** The verdict and the new [high_resp_bit_hist_]. *)
Definition svc_classify (i : svc_in) (high_resp_bit_hist_ : Z) : svc_verdict * Z :=
  match early_verdict i with
  | Some v => (v, hist_push false high_resp_bit_hist_)
  | None =>
      let hist := hist_push true high_resp_bit_hist_ in
      (high_resp_verdict i (gy_count_bits_set hist), hist)
  end.

(** ** A service *)
Record TCP_LISTENER := TcpListener {
  h5 : RESP_STATS; h300 : RESP_STATS; h5day : RESP_STATS; hall : RESP_STATS;   (* [histstat_] *)
  last_qps_count_ : Z; last_chk_nconn_ : Z; qps_hist_ : histogram; active_conn_hist_ : histogram;
  nactive_conn_arr_ : list Z; high_resp_bit_hist_ : Z; svc_issue_bit_hist_ : Z;
  svc_issue_hist_ : list (LISTENER_ISSUE_SRC * LISTENER_ISSUE_SRC * Z); curr_state_ : OBJ_STATE_E; curr_issue_ : LISTENER_ISSUE_SRC;
  svc_tasks : option (list (option (option TASK_EXT_STATS)) * LISTENER_TASK_STATUS);
  id_depends_count : option Z }.            (* [None] without related listeners *)

(** The arguments of [get_curr_state] and the times of the response histogram; the
    histogram of the queries is that of the traced requests when they are captured. *)
Record svc_env := SvcEnv {
  e_tcur : Z; e_clock_usec : Z; e_active_conn : Z; e_cpu_issue : bool; e_mem_issue : bool; e_ser_errors : Z;
  e_last_add_time : Z; e_init_time : Z; e_qpshist : option histogram }.

Definition DAYS5 : Z := 5 * 24 * 3600.

Definition tdiff_start (e : svc_env) : Z :=
  if e_last_add_time e >? e_init_time e then e_last_add_time e - e_init_time e + 1
  else if e_tcur e >? e_init_time e + 1 then e_tcur e - e_init_time e + 1 else 1.

(** The local variables, from the look at the processes. *)
Definition svc_locals (e : svc_env) (l : TCP_LISTENER) (t : task_look) : svc_in :=
  let qps := default (qps_hist_ l) (e_qpshist e) in
  SvcIn (h5 l) (h300 l) (h5day l) (hall l)
    (tl_is_issue t) (tl_is_severe t) (tl_is_delay t) (tl_ntasks_issue t) (tl_ntasks_noissue t)
    (tl_delay_usec t / 1000)
    (Z.max (swrap 32 (last_qps_count_ l)) (swrap 32 (Z.quot (tcount_ (h5 l)) 5)))
    (hist_pct SEMI_LOG_HASH_LO P95 qps) (hist_pct SEMI_LOG_HASH_LO P25 qps)
    (hist_pct HASH_1_3000 P95 (active_conn_hist_ l)) (hist_pct HASH_1_3000 P25 (active_conn_hist_ l))
    (swrap 32 (last_chk_nconn_ l)) (e_active_conn e) (e_cpu_issue e) (e_mem_issue e) (e_ser_errors e)
    (Z.min DAYS5 (tdiff_start e)) (nactive_conn_arr_ l)
    (default 0 (id_depends_count l)).

Definition svc_get_curr_state (e : svc_env) (l : TCP_LISTENER) : acc (svc_verdict * TCP_LISTENER) :=
  let! r := is_task_issue (e_clock_usec e) (svc_tasks l) in
  let '(t, tbl) := r in
  let '(v, hist) := svc_classify (svc_locals e l t) (high_resp_bit_hist_ l) in
  Acc (v, TcpListener (h5 l) (h300 l) (h5day l) (hall l) (last_qps_count_ l) (last_chk_nconn_ l) (qps_hist_ l)
            (active_conn_hist_ l) (nactive_conn_arr_ l) hist (svc_issue_bit_hist_ l) (svc_issue_hist_ l)
            (curr_state_ l) (curr_issue_ l) tbl (id_depends_count l)).

(** What [listener_stats_update] records of a verdict: the service has been up for
    [diffstartusec]; a service that has just started has no issues unless it has errors.
    The flags are the increments of [nissue], [nsevere] and [ndepend]. *)
Definition svc_record (diffstartusec clock_sec : Z) (ser_errors : Z) (v : svc_verdict) (l : TCP_LISTENER)
    : bool * bool * bool * TCP_LISTENER :=
  let set bits hist v :=
    TcpListener (h5 l) (h300 l) (h5day l) (hall l) (last_qps_count_ l) (last_chk_nconn_ l) (qps_hist_ l)
      (active_conn_hist_ l) (nactive_conn_arr_ l) (high_resp_bit_hist_ l) bits hist v.1 v.2 (svc_tasks l) (id_depends_count l) in
  if (diffstartusec >? GY_USEC_PER_SEC * 100) || negb (ser_errors =? 0) then
    let bad := at_least_bad v.1 in
    (bad, bad && at_least_severe v.1, bad && bool_decide (v.2 = ISSUE_DEPENDENT_SERVER_LISTENER),
     set (hist_push bad (svc_issue_bit_hist_ l))
       (if bad then push_front (v.2, ISSUE_LISTEN_NONE, clock_sec) (svc_issue_hist_ l) else svc_issue_hist_ l) v)
  else (false, false, false, set 0 (svc_issue_hist_ l) (STATE_OK, ISSUE_LISTEN_NONE)).

(** One service in a pass: the new statistics and the arguments. *)
Record svc_visit := SvcVisit {
  sv_stats : RESP_STATS * RESP_STATS * RESP_STATS * RESP_STATS; sv_env : svc_env; sv_diffstart : Z }.

Definition set_histstat (s : RESP_STATS * RESP_STATS * RESP_STATS * RESP_STATS) (l : TCP_LISTENER) : TCP_LISTENER :=
  TcpListener s.1.1.1 s.1.1.2 s.1.2 s.2 (last_qps_count_ l) (last_chk_nconn_ l) (qps_hist_ l)
    (active_conn_hist_ l) (nactive_conn_arr_ l) (high_resp_bit_hist_ l) (svc_issue_bit_hist_ l) (svc_issue_hist_ l)
    (curr_state_ l) (curr_issue_ l) (svc_tasks l) (id_depends_count l).

Definition svc_step (v : svc_visit) (l : TCP_LISTENER) : acc (svc_verdict * (bool * bool * bool * TCP_LISTENER)) :=
  let l := set_histstat (sv_stats v) l in
  let! r := svc_get_curr_state (sv_env v) l in
  Acc (r.1, svc_record (sv_diffstart v) (e_clock_usec (sv_env v) / GY_USEC_PER_SEC) (e_ser_errors (sv_env v)) r.1 r.2).

(** The pass over the services: [nissue], [nsevere] and [nlist]. *)
Fixpoint listeners_update (ls : list (TCP_LISTENER * svc_visit)) (nissue nsevere nlist : Z)
    : acc (list TCP_LISTENER * Z * Z * Z) :=
  match ls with
  | [] => Acc ([], nissue, nsevere, nlist)
  | (l, v) :: ls =>
      let! r := svc_step v l in
      let '(_, (bad, severe, _, l)) := r in
      let! r := listeners_update ls (nissue + Z.b2z bad) (nsevere + Z.b2z severe) (nlist + 1) in
      let '(ls, ni, ns, nl) := r in Acc (l :: ls, ni, ns, nl)
  end.

(** ** One pass of the agent *)
(** Every five seconds: the processes, then the services, then the host. *)
Definition host_pass {TH} (s : SYSTEM_STATS TH) (only_imp_procs : bool) (ts : list (option TASK_EXT_STATS * task_visit))
    (ls : list (TCP_LISTENER * svc_visit)) (tusec : Z) (delays : Z * Z * Z) (h : HOST_STATE)
    : acc (list (option TASK_EXT_STATS) * list TCP_LISTENER * HOST_STATE) :=
  let i := get_issue_stats 7 s in
  let! r := tasks_update only_imp_procs ts 0 0 in
  let '(xs, ntaskissue, ntasksevere) := r in
  let ls := map (fun lv => (lv.1, SvcVisit (sv_stats lv.2)
                   (let e := sv_env lv.2 in
                    SvcEnv (e_tcur e) (e_clock_usec e) (e_active_conn e) (is_cpu i) (is_mem i) (e_ser_errors e)
                      (e_last_add_time e) (e_init_time e) (e_qpshist e)) (sv_diffstart lv.2))) ls in
  let! r := listeners_update ls 0 0 0 in
  let '(ls, nlistissue, nlistsevere, nlisten) := r in
  Acc (xs, ls, host_status_update tusec i ntaskissue ntasksevere (Z.of_nat (length ts)) nlistissue nlistsevere nlisten delays h).

(** ** The network bytes of a service *)
(** The bytes are read every 15 seconds and reported over three calls; [cumul] is the
    counter of the service.  It gives the kilobytes reported, the new [last_cumul_bytes_]
    and the new [bytes_slot_]; both directions share the slot.  What is reported is rounded
    down to kilobytes, while [last_cumul_bytes_] advances by all the bytes. *)
Definition split_bytes (last_slot : bool) (curr : Z) : Z :=
  if last_slot then curr
  else if curr >? 3 * 1024 then curr / 3 else if curr <? 1024 then 0 else curr.

Definition GY_DOWN_KB (x : Z) : Z := Z.shiftr x 10.

Definition report_bytes (cumul_in cumul_out : Z) (st : Z * Z * Z) : (Z * Z) * (Z * Z * Z) :=
  let '(last_in, last_out, slot) := st in
  let curr_in := u32 (gy_diff_counter_safe 64 cumul_in last_in) in
  let curr_out := u32 (gy_diff_counter_safe 64 cumul_out last_out) in
  let last_slot := slot + 1 >? 2 in
  let curr_in := split_bytes last_slot curr_in in
  let curr_out := split_bytes last_slot curr_out in
  (GY_DOWN_KB curr_in, GY_DOWN_KB curr_out, (u64 (last_in + curr_in), u64 (last_out + curr_out), if last_slot then 0 else slot + 1)).

(** ** Laws of the verdicts *)
(** The response is not below that of five days and no verdict was given before the high
    responses are looked at. *)
Definition slow_resp (i : svc_in) : Prop := early_verdict i = None /\ rs_p95 (v5day i) <= rs_p95 (v5 i).

(** What a verdict promises, whatever branch it comes from. *)
Record explained (i : svc_in) (v : svc_verdict) : Prop := Explained {
  ex_severe : v.1 = STATE_SEVERE -> errors_over 2 i = true \/ much_higher i = true /\ slow_resp i;
  ex_bad : at_least_bad v.1 = true -> errors i = true \/ task_issue i = true \/ slow_resp i;
  ex_issue : at_least_bad v.1 = true -> v.2 <> ISSUE_LISTEN_NONE;
  ex_good : v.1 = STATE_GOOD -> errors i = false /\ v.2 = ISSUE_LISTEN_NONE;
  ex_idle : v.1 = STATE_IDLE -> (errors i = false \/ curr_qps i = 0) /\ v.2 = ISSUE_LISTEN_NONE;
  ex_other : v.1 <> STATE_DOWN /\ v.2 <> ISSUE_OS_CPU /\ v.2 <> ISSUE_OS_MEMORY }.

Lemma errors_over_errors k i : errors_over k i = true -> errors i = true.
Proof.
  unfold errors_over, errors. destruct (Z.eqb_spec (ser_errors i) 0) as [E|]; [|done]. rewrite E.
  unfold nqrys_5s. pose proof (wrap_range 64 (tcount_ (v5 i)) ltac:(lia)) as H. unfold in_width in H.
  change (u32 (0 * k)) with 0. intros ?. breflect. lia.
Qed.

(** Case analysis on the errors and the processes first, and on the branches then. *)
Ltac explain i :=
  pose proof (errors_over_errors 2 i) as He2; pose proof (errors_over_errors 5 i) as He5;
  destruct (errors i) eqn:Herr, (task_issue i) eqn:Htask, (errors_over 2 i) eqn:H2, (errors_over 5 i) eqn:H5;
  cbn [negb andb orb]; try (by specialize (He2 eq_refl)); try (by specialize (He5 eq_refl));
  repeat case_if; constructor; cbn; intros; try done; try discriminate; rewrite ?Herr, ?Htask, ?H2; auto.

Lemma low_resp_explained i : explained i (low_resp_verdict i).
Proof. unfold low_resp_verdict, low_qps_verdict, error_verdict. explain i. Qed.

Lemma equal_resp_explained i : from_option (explained i) True (equal_resp_verdict i).
Proof. unfold equal_resp_verdict, error_verdict. explain i. Qed.

Lemma grade_cases i : grade i = STATE_SEVERE /\ much_higher i = true \/ grade i = STATE_BAD.
Proof. unfold grade. destruct (much_higher i); auto. Qed.

Lemma ok_explained i : explained i (ok_verdict i).
Proof. unfold ok_verdict. constructor; cbn; try done; by destruct (errors i). Qed.

Lemma early_none_slow i : early_verdict i = None -> slow_resp i.
Proof.
  intros E. split; [done|]. unfold early_verdict in E. case_if_in E; [done|].
  destruct (_ || _) eqn:Hlow in E; [done|]. apply orb_false_iff in Hlow as [_ Hlow]. by apply Z.ltb_ge.
Qed.

(** A bad verdict with an issue on a high response. *)
Lemma graded_explained i s issue : slow_resp i ->
  (s = STATE_BAD \/ s = STATE_SEVERE /\ much_higher i = true) ->
  issue <> ISSUE_LISTEN_NONE -> issue <> ISSUE_OS_CPU -> issue <> ISSUE_OS_MEMORY -> explained i (s, issue).
Proof. intros He [->|[-> Hm]] H1 H2 H3; constructor; cbn; intros; try done; auto. Qed.

Lemma error_verdict_explained i : from_option (explained i) True (error_verdict i).
Proof. unfold error_verdict. explain i. Qed.

Lemma high_resp_explained i nhigh : slow_resp i -> explained i (high_resp_verdict i nhigh).
Proof.
  intros He. unfold high_resp_verdict. pose proof (error_verdict_explained i) as Hv.
  destruct (error_verdict i) as [v|]; [exact Hv|]. clear Hv.
  destruct (grade_cases i) as [[Eg Em]|Eg]; rewrite Eg; cbn zeta;
  repeat (case_if; [first [apply ok_explained | apply graded_explained; by auto |
                           case_if; first [apply ok_explained | apply graded_explained; by auto | idtac]]|]);
  try (apply graded_explained; by auto).
  all: repeat case_if; first [apply ok_explained | apply graded_explained; try done; auto].
  all: rewrite andb_true_iff in *; naive_solver.
Qed.

Lemma early_explained i : from_option (explained i) True (early_verdict i).
Proof.
  unfold early_verdict. destruct (svc_idle i) eqn:Hi.
  - unfold svc_idle in Hi. apply andb_true_iff in Hi as [Hq _]. breflect.
    constructor; cbn; intros; try done; auto.
  - case_if; [apply low_resp_explained|]. case_if; [apply equal_resp_explained|done].
Qed.

(** C19 : Every verdict on a service has a reason.  A severe one comes from errors in more
    than half of the queries, or from a response more than two buckets above that of five
    days and above that of five minutes; a bad one needs errors of the server, an issue of
    a process, or a response that is not faster than over five days; each of them names an
    issue.  A good service has no errors, an idle one has none or fewer than one query per
    second (it may have a few queries, and errors in them).  A service is never called down
    and the issue is never one of the host. *)
Theorem service_verdict_explained i hist : explained i (svc_classify i hist).1.
Proof.
  unfold svc_classify. pose proof (early_explained i) as He. destruct (early_verdict i) eqn:E; [exact He|].
  by apply high_resp_explained, early_none_slow.
Qed.

(** C36 : A service with a query per second or more, or with all signs of trouble, is reported severe with
    its errors as the issue when they are more than half of the queries, on every branch,
    and bad when they are more than a fifth; the products have 32 bits. *)
Theorem server_errors_reported i hist : svc_idle i = false ->
  (errors_over 2 i = true -> (svc_classify i hist).1 = (STATE_SEVERE, ISSUE_SERVER_ERRORS)) /\
  (errors_over 2 i = false -> errors_over 5 i = true -> (svc_classify i hist).1 = (STATE_BAD, ISSUE_SERVER_ERRORS)).
Proof.
  intros Hi. pose proof (errors_over_errors 2 i) as He2. pose proof (errors_over_errors 5 i) as He5.
  unfold svc_classify, early_verdict, low_resp_verdict, low_qps_verdict, equal_resp_verdict, high_resp_verdict, error_verdict.
  rewrite Hi. destruct (task_issue i); split.
  1, 3: intros H2; rewrite (He2 H2), H2; cbn [negb andb]; by repeat case_if.
  all: intros H2 H5; rewrite (He5 H5), H2, H5; cbn [negb andb]; by repeat case_if.
Qed.

Definition ex_resp (p95 tcount : Z) (mean : Z) : RESP_STATS := RespStats p95 p95 p95 tcount (tcount * mean) (dbl_of_int mean).
Definition ex_in (p95 tcount mean errs : Z) (issue : bool) : svc_in :=
  SvcIn (ex_resp p95 tcount mean) (ex_resp 30 10000 20) (ex_resp 30 1000000 20) (ex_resp 30 1000000 20)
    issue false false (Z.b2z issue) 1 0 20 100 10 5 1 3 3 false false errs DAYS5 (replicate 15 0) 0.

Lemma server_errors_reported_witness :
  (svc_classify (ex_in 10 100 5 51 false) 0).1 = (STATE_SEVERE, ISSUE_SERVER_ERRORS) /\
  (svc_classify (ex_in 10 100 5 30 true) 0).1 = (STATE_BAD, ISSUE_SERVER_ERRORS).
Proof.
  split.
  - apply (server_errors_reported (ex_in 10 100 5 51 false) 0); by vm_compute.
  - apply (server_errors_reported (ex_in 10 100 5 30 true) 0); by vm_compute.
Defined.

(** With a response like the usual one, a low mean, a few errors and no issue of a
    process, the processes are named as the issue: the branch that finds the errors does
    not return. *)
Theorem processes_blamed_without_issue i hist :
  svc_idle i = false -> b5 i <> resp_bucket 1 -> rs_p95 (v5 i) = rs_p95 (v5day i) ->
  errors i = true -> errors_over 2 i = false -> errors_over 5 i = false ->
  mean_le (v5 i) (v5day i) 8 = true -> qps_p25 i < curr_qps i -> task_issue i = false ->
  (svc_classify i hist).1 = (STATE_OK, ISSUE_LISTENER_TASKS).
Proof.
  intros Hi Hb Hp He H2 H5 Hm Hq Ht.
  unfold svc_classify, early_verdict, equal_resp_verdict, error_verdict.
  rewrite Hi, He, H2, H5, Hm, Ht, Hp, Z.eqb_refl, Z.ltb_irrefl. cbn [negb andb].
  replace (b5 i =? resp_bucket 1)%nat with false by (symmetry; by apply Nat.eqb_neq).
  replace (curr_qps i <=? qps_p25 i) with false by lia. done.
Qed.

Lemma processes_blamed_without_issue_witness :
  (svc_classify (ex_in 30 100 10 3 false) 0).1 = (STATE_OK, ISSUE_LISTENER_TASKS).
Proof. apply (processes_blamed_without_issue (ex_in 30 100 10 3 false) 0); by vm_compute. Defined.

(** ** The history of high responses *)
(** Calls one after the other, the oldest first. *)
Fixpoint svc_run (ins : list svc_in) (hist : Z) : Z :=
  match ins with [] => hist | i :: ins => svc_run ins (svc_classify i hist).2 end.

Definition is_high (i : svc_in) : bool := match early_verdict i with None => true | Some _ => false end.

Lemma svc_classify_hist i hist : (svc_classify i hist).2 = hist_push (is_high i) hist.
Proof. unfold svc_classify, is_high. by destruct (early_verdict i). Qed.

Lemma svc_run_tracks ins : forall past hist, tracks id hist (take 8 (map is_high past ++ replicate 8 false)) ->
  tracks id (svc_run ins hist) (take 8 (map is_high (rev ins ++ past) ++ replicate 8 false)).
Proof.
  induction ins as [|i ins IH]; intros past hist Ht; [done|]. cbn [svc_run rev].
  rewrite <- (assoc_L (++)). apply (IH (i :: past)). rewrite svc_classify_hist. cbn [map app].
  rewrite <- take_shift; [by apply (tracks_push id)|lia|rewrite length_app, length_replicate; lia].
Qed.

(** The number of ones is that of the entries. *)
Lemma tracks_popcount hist l : tracks id hist l -> length l = 8%nat ->
  gy_count_bits_set hist = Z.of_nat (length (base.filter (fun b => b = true) l)).
Proof.
  intros (Hw & _ & Hb) Hl. unfold gy_count_bits_set. do 8 (destruct l as [|? l]; [done|]). destruct l; [|done].
  assert (Hz : forall n, (8 <= n)%nat -> popcount (S n) hist = popcount n hist).
  { intros n Hn. cbn [popcount]. replace (Z.testbit hist (Z.of_nat n)) with false; [done|].
    rewrite <- (Z.mod_small hist (2 ^ 8)) by apply Hw. by rewrite Z.mod_pow2_bits_high by lia. }
  do 24 (rewrite Hz by lia). cbn [popcount].
  rewrite !(Hb 0%nat _ eq_refl), !(Hb 1%nat _ eq_refl), !(Hb 2%nat _ eq_refl), !(Hb 3%nat _ eq_refl),
    !(Hb 4%nat _ eq_refl), !(Hb 5%nat _ eq_refl), !(Hb 6%nat _ eq_refl), !(Hb 7%nat _ eq_refl).
  unfold id. repeat match goal with b : bool |- _ => destruct b end; reflexivity.
Qed.

(** The issues of a slow response without a cause. *)
Definition has_cause (v : svc_verdict) : Prop := v.2 <> ISSUE_SRC_UNKNOWN /\ v.2 <> ISSUE_DEPENDENT_SERVER_LISTENER.

Lemma low_resp_cause i : has_cause (low_resp_verdict i).
Proof. unfold low_resp_verdict, low_qps_verdict, error_verdict. by repeat case_if. Qed.

Lemma equal_resp_cause i : from_option has_cause True (equal_resp_verdict i).
Proof. unfold equal_resp_verdict, error_verdict. by repeat case_if. Qed.

Lemma ok_cause i : has_cause (ok_verdict i).
Proof. unfold ok_verdict. by destruct (errors i). Qed.

Lemma early_cause i : from_option has_cause True (early_verdict i).
Proof.
  unfold early_verdict. case_if; [done|]. case_if; [apply low_resp_cause|]. case_if; [apply equal_resp_cause|done].
Qed.

Lemma high_resp_cause i nhigh : nhigh < 5 -> has_cause (high_resp_verdict i nhigh).
Proof.
  intros Hn. unfold high_resp_verdict. cbn zeta. replace (nhigh <? 5) with true by lia.
  assert (He : from_option has_cause True (error_verdict i)) by (unfold error_verdict; by repeat case_if).
  destruct (error_verdict i) as [v|]; [exact He|].
  repeat (case_if; [first [apply ok_cause | done | by repeat (case_if; [done|]); apply ok_cause]|]).
  apply ok_cause.
Qed.

Lemma svc_run_snoc past i hist : svc_run (past ++ [i]) hist = (svc_classify i (svc_run past hist)).2.
Proof. revert hist. induction past as [|j past IH]; intros hist; cbn; [done|apply IH]. Qed.

Lemma count_high l :
  length (base.filter (fun b => b = true) (take 8 (map is_high l ++ replicate 8 false))) =
  length (base.filter (fun j => is_high j = true) (take 8 l)).
Proof.
  assert (Hr : forall k, base.filter (fun b => b = true) (replicate k false) = []) by (by intros k; induction k).
  assert (G : forall n l, (n <= 8)%nat -> length (base.filter (fun b => b = true) (take n (map is_high l ++ replicate 8 false))) =
    length (base.filter (fun j => is_high j = true) (take n l))); [|by apply G].
  clear l. intros n l. revert n. induction l as [|j l IH]; intros [|n] Hn; try done.
  - cbn [map app]. rewrite take_replicate, Hr. done.
  - cbn [map app take]. rewrite !filter_cons. case_decide; cbn [length]; rewrite IH by lia; done.
Qed.

(** C20 : A service is called slow without a cause (an unknown one, or a service it depends
    on) only when at least five of its last eight calls, this one included, found the
    response high. *)
Theorem unexplained_needs_history past i :
  (svc_classify i (svc_run past 0)).1.2 = ISSUE_SRC_UNKNOWN \/
  (svc_classify i (svc_run past 0)).1.2 = ISSUE_DEPENDENT_SERVER_LISTENER ->
  5 <= Z.of_nat (length (base.filter (fun j => is_high j = true) (take 8 (i :: rev past)))).
Proof.
  intros H. pose proof (svc_run_tracks (past ++ [i]) [] 0) as Ht. rewrite app_nil_r, rev_app_distr in Ht.
  assert (H0 : tracks id 0 (take 8 (map is_high [] ++ replicate 8 false))).
  { split; [unfold in_width; lia|]. split; [done|]. intros k x Hx. rewrite Z.bits_0.
    change (take 8 (map is_high [] ++ replicate 8 false)) with (replicate 8 false) in Hx.
    apply lookup_replicate in Hx as [-> _]. done. }
  apply Ht, tracks_popcount in H0; [|rewrite length_take_le; [done|rewrite length_app, length_replicate; lia]].
  cbn [rev app] in H0. rewrite count_high, svc_run_snoc in H0. rewrite <- H0. clear H0 Ht.
  unfold svc_classify in *. pose proof (early_cause i) as He. destruct (early_verdict i) as [v|].
  { destruct He. cbn in H. by destruct H. }
  cbn [fst snd] in *. destruct (Z.lt_ge_cases (gy_count_bits_set (hist_push true (svc_run past 0))) 5) as [Hlt|]; [|lia].
  destruct (high_resp_cause i _ Hlt). by destruct H.
Qed.

(** A service whose responses are slow for five calls. *)
Lemma unexplained_needs_history_witness :
  let slow := ex_in 450 100 400 0 false in
  (svc_classify slow (svc_run (replicate 4 slow) 0)).1 = (STATE_SEVERE, ISSUE_SRC_UNKNOWN) /\
  5 <= Z.of_nat (length (base.filter (fun j => is_high j = true) (take 8 (slow :: rev (replicate 4 slow))))).
Proof.
  cbn zeta. split; [by vm_compute|].
  apply (unexplained_needs_history (replicate 4 (ex_in 450 100 400 0 false)) (ex_in 450 100 400 0 false)).
  left. by vm_compute.
Defined.

(** ** One pass *)
Definition svc_bad (l : TCP_LISTENER) : bool := at_least_bad (curr_state_ l).
Definition svc_severe (l : TCP_LISTENER) : bool := at_least_severe (curr_state_ l).

Lemma svc_record_flags d c e v l bad severe dep l' : svc_record d c e v l = (bad, severe, dep, l') ->
  bad = svc_bad l' /\ severe = svc_severe l' /\ high_resp_bit_hist_ l' = high_resp_bit_hist_ l.
Proof.
  unfold svc_record. case_if; intros [= <- <- <- <-]; [|done]. unfold svc_bad, svc_severe. cbn [curr_state_].
  by destruct v as [[] ?].
Qed.

Lemma listeners_update_counts ls : forall ni ns nl ls' ni' ns' nl',
  listeners_update ls ni ns nl = Acc (ls', ni', ns', nl') ->
  ni' = ni + Z.of_nat (cnt svc_bad ls') /\ ns' = ns + Z.of_nat (cnt svc_severe ls') /\
  nl' = nl + Z.of_nat (length ls') /\ length ls' = length ls.
Proof.
  induction ls as [|[l v] ls IH]; intros ni ns nl ls' ni' ns' nl' H; cbn [listeners_update] in H.
  { simplify_eq. cbn. lia. }
  apply acc_bind_Acc in H as ([w [[[bad severe] dep] l']] & H1 & H).
  apply acc_bind_Acc in H as ([[[ls1 ni1] ns1] nl1] & H & E). simplify_eq.
  apply IH in H as (-> & -> & -> & Hl). unfold svc_step in H1. apply acc_bind_Acc in H1 as (r & _ & H1).
  injection H1 as _ H1. apply svc_record_flags in H1 as (-> & -> & _).
  cbn [cnt length]. destruct (svc_bad l'), (svc_severe l'); cbn [Z.b2z]; lia.
Qed.

Lemma cnt_mono {A} (p q : A -> bool) l : (forall x, p x = true -> q x = true) -> (cnt p l <= cnt q l)%nat.
Proof.
  intros Hpq. induction l as [|x l IH]; cbn; [lia|]. specialize (Hpq x).
  destruct (p x), (q x); lia.
Qed.

Lemma cnt_existsb {A} (p : A -> bool) l : (Z.of_nat (cnt p l) >? 0) = existsb p l.
Proof.
  induction l as [|x l IH]; [done|]. cbn [cnt existsb]. rewrite <- IH.
  destruct (p x); cbn [orb]; [apply Z.gtb_lt; lia|done].
Qed.

Lemma recorded_severe_bad only_imp ts xs : Forall2 (task_passed only_imp) ts xs ->
  (cnt (recorded_as at_least_severe only_imp) (zip ts xs) <= cnt (recorded_as at_least_bad only_imp) (zip ts xs))%nat /\
  (cnt (recorded_as at_least_bad only_imp) (zip ts xs) <= length ts)%nat.
Proof.
  intros H. split.
  - apply cnt_mono. intros x. unfold recorded_as. rewrite !andb_true_iff. intros [? ?]. split; [done|by apply at_least_severe_bad].
  - etransitivity; [apply cnt_le|]. rewrite length_zip. lia.
Qed.

Section Pass.
Context {TH : Type} (th_add : Z -> Z -> TH -> TH) (th_pct : TH -> Z -> Z -> Z) (th_count : TH -> Z -> Z).

(** C21 : In every host that the agent can be in, a pass over its processes and services
    gives a state of the host that is at most good exactly when nothing is bad: no verdict
    on the processors or the memory of the last three, no process recorded as bad or worse
    in this pass and no service after it.  The processes counted with issues are those
    recorded in this pass (the ones with delay statistics whose readings the kernel gave and
    which are not too old or too close to the last) whose new verdict is bad or worse, the
    other processes keep their verdicts and are not counted; the services counted are those
    whose recorded state is bad or worse; the severe ones likewise; and the history of the
    host gets the verdict of the pass. *)
Theorem host_pass_reflects s only_imp ts ls tusec delays h xs ls' h' :
  sys_reach th_add th_pct th_count s -> Forall (fun t => opt_ext_inv t.1) ts ->
  host_pass s only_imp ts ls tusec delays h = Acc (xs, ls', h') ->
  let bad3 {B} (l : list (OBJ_STATE_E * B)) := existsb (fun v => at_least_bad v.1) (take 3 l) in
  (state_num STATE_OK <=? state_num (hs_curr_state h')) =
    bad3 (cpu_issue_hist (cpustats s)) || bad3 (mem_issue_hist (memstats s)) ||
    existsb (recorded_as at_least_bad only_imp) (zip ts xs) || existsb svc_bad ls' /\
  hs_nlisten_issue h' = Z.of_nat (cnt svc_bad ls') /\ hs_nlisten_severe h' = Z.of_nat (cnt svc_severe ls') /\
  hs_nlisten h' = Z.of_nat (length ls) /\
  hs_ntasks_issue h' = Z.of_nat (cnt (recorded_as at_least_bad only_imp) (zip ts xs)) /\
  hs_ntasks_severe h' = Z.of_nat (cnt (recorded_as at_least_severe only_imp) (zip ts xs)) /\
  hs_ntasks h' = Z.of_nat (length ts) /\
  Forall2 (task_passed only_imp) ts xs /\ Forall opt_ext_inv xs /\
  hs_issue_bit_hist h' = hist_push (at_least_bad (hs_curr_state h')) (hs_issue_bit_hist h).
Proof.
  intros Hs Hts H. cbn zeta.
  pose proof (recent_issues_are_verdicts _ _ _ s Hs) as (Ec & Em & _ & _ & _ & _ & Hsc & Hsm).
  unfold host_pass in H. apply acc_bind_Acc in H as ([[xs1 nti] nts] & H1 & H).
  apply acc_bind_Acc in H as ([[[ls1 nli] nls] nl] & H2 & H). simplify_eq.
  apply tasks_pass in H1 as (Hx & Hp & -> & ->); [|done].
  apply listeners_update_counts in H2 as (-> & -> & -> & Hl). rewrite length_map in Hl.
  pose proof (cnt_mono svc_severe svc_bad ls' ltac:(intros x; apply at_least_severe_bad)) as Hm.
  pose proof (recorded_severe_bad only_imp ts xs Hp) as [Hr Hn].
  unfold host_status_update.
  cbn [hs_curr_state hs_ntasks_issue hs_nlisten_issue hs_nlisten_severe hs_nlisten hs_ntasks_severe hs_ntasks
       hs_issue_bit_hist].
  rewrite (proj1 (proj2 (proj2 (host_state_levels _ _ _ _ _ _ _ _ _)))), level_ok_consistent; [|first [exact Hsc | exact Hsm | lia | idtac]..].
  rewrite Ec, Em, !Z.add_0_l, !cnt_existsb. split_and!; try done; try lia.
Qed.
End Pass.

(** ** The network bytes *)
(** Calls with the readings of the counters; the kilobytes reported so far are summed. *)
Fixpoint bytes_run (rs : list (Z * Z)) (st : Z * Z * Z) (sum_in sum_out : Z) : (Z * Z) * (Z * Z * Z) :=
  match rs with
  | [] => (sum_in, sum_out, st)
  | (ci, co) :: rs =>
      let '(ri, ro, st) := report_bytes ci co st in bytes_run rs st (sum_in + ri) (sum_out + ro)
  end.

(** The readings of one counter only grow from [x]. *)
Fixpoint growing (x : Z) (l : list Z) : Prop :=
  match l with [] => True | y :: l => x <= y < 2 ^ 63 /\ growing y l end.

Lemma split_bytes_range b c : 0 <= c -> 0 <= split_bytes b c <= c.
Proof. intros Hc. unfold split_bytes. repeat case_if; try lia; zdiv. Qed.

Lemma diff_safe_growing c l : 0 <= l <= c -> c < 2 ^ 63 -> gy_diff_counter_safe 64 c l = c - l.
Proof.
  intros H1 H2. unfold gy_diff_counter_safe, gy_diff_counter. replace (c >=? l) with true by lia.
  change (Z.shiftr (2 ^ 64 - 1) 1) with (2 ^ 63 - 1). case_if; breflect; lia.
Qed.

(** One direction of one call. *)
Lemma report_one b c l : 0 <= l <= c -> c < 2 ^ 63 ->
  let r := split_bytes b (u32 (gy_diff_counter_safe 64 c l)) in
  0 <= r /\ u64 (l + r) = l + r /\ l + r <= c /\ (b = true -> c - l < 2 ^ 32 -> l + r = c).
Proof.
  intros H1 H2. cbn zeta. rewrite diff_safe_growing by lia.
  assert (Hw : 0 <= u32 (c - l) <= c - l) by (unfold wrap; zdiv).
  pose proof (split_bytes_range b (u32 (c - l)) ltac:(lia)) as Hr.
  split_and!; [lia|apply wrap_id; unfold in_width; lia|lia|].
  intros -> Hs. unfold split_bytes, wrap in *. rewrite Z.mod_small by lia. lia.
Qed.

(** Rounding down to kilobytes drops less than one of them. *)
Lemma down_kb x : 1024 * GY_DOWN_KB x <= x <= 1024 * GY_DOWN_KB x + 1023.
Proof. unfold GY_DOWN_KB. rewrite Z.shiftr_div_pow2 by lia. change (2 ^ 10) with 1024. zdiv. Qed.

Lemma last_nonempty {A} (x y : A) l : l <> [] -> List.last l x = List.last l y.
Proof. induction l as [|z [|z' l] IH]; intros H; [done|done|]. cbn [List.last] in *. by apply IH. Qed.

Lemma last_cons_default {A} (x y : A) l : List.last (y :: l) x = List.last l y.
Proof. destruct l as [|z l]; [done|]. by apply (last_nonempty x y (z :: l)). Qed.

Lemma growing_last x l : growing x l -> x <= List.last l x.
Proof.
  revert x. induction l as [|y l IH]; intros x H; [cbn; lia|]. destruct H as [Hy Hl].
  rewrite last_cons_default. specialize (IH y Hl). lia.
Qed.

Lemma growing_weaken x z l : z <= x -> growing x l -> growing z l.
Proof. destruct l; cbn; intros ?; [done|]. intros []; split; [lia|done]. Qed.

(** C38 : The traffic of a service is accounted once, in kilobytes rounded down: after any
    calls with growing readings below 2^63, the bytes between the first and the remembered
    reading are at least the kilobytes reported in that direction and exceed them by at
    most 1023 bytes per call, which are not reported later; the remembered reading is never
    past the counter; and when a round of three calls ends it is the counter, unless 4 GB or
    more came together. *)
Theorem bytes_accounted rs : forall li lo slot si so si' so' li' lo' slot',
  0 <= li -> 0 <= lo -> 0 <= slot <= 2 -> growing li (map fst rs) -> growing lo (map snd rs) ->
  bytes_run rs (li, lo, slot) si so = (si', so', (li', lo', slot')) ->
  let lost := 1023 * Z.of_nat (length rs) in
  1024 * (si' - si) <= li' - li <= 1024 * (si' - si) + lost /\
  1024 * (so' - so) <= lo' - lo <= 1024 * (so' - so) + lost /\ 0 <= slot' <= 2 /\
  li <= li' <= List.last (map fst rs) li /\ lo <= lo' <= List.last (map snd rs) lo /\
  (rs <> [] -> slot' = 0 ->
   (List.last (map fst rs) li - li < 2 ^ 32 -> li' = List.last (map fst rs) li) /\
   (List.last (map snd rs) lo - lo < 2 ^ 32 -> lo' = List.last (map snd rs) lo)).
Proof.
  induction rs as [|[ci co] rs IH]; intros li lo slot si so si' so' li' lo' slot' Hli Hlo Hs Gi Go H; cbn zeta.
  { cbn in H. simplify_eq. cbn. split_and!; try lia; done. }
  cbn [map fst snd] in *. destruct Gi as [Hci Gi], Go as [Hco Go].
  cbn [bytes_run report_bytes] in H. unfold report_bytes in H. rewrite !last_cons_default.
  destruct (report_one (slot + 1 >? 2) ci li) as (Ri & Ei & Li & Di); [lia..|].
  destruct (report_one (slot + 1 >? 2) co lo) as (Ro & Eo & Lo & Do); [lia..|].
  rewrite Ei, Eo in H.
  set (ri := split_bytes _ (u32 (gy_diff_counter_safe 64 ci li))) in *.
  set (ro := split_bytes _ (u32 (gy_diff_counter_safe 64 co lo))) in *. clearbody ri ro.
  pose proof (down_kb ri) as Ki. pose proof (down_kb ro) as Ko.
  pose proof (growing_last _ _ Gi) as Gli. pose proof (growing_last _ _ Go) as Glo.
  destruct rs as [|r rs].
  { clear IH. cbn [bytes_run map length] in *. cbn [List.last] in *. simplify_eq.
    split_and!; try lia; try (case_if; breflect; lia). }
  apply IH in H as (A1 & A2 & A3 & A4 & A5 & A6);
    [|lia|lia|case_if; breflect; lia|by apply (growing_weaken ci)|by apply (growing_weaken co)].
  specialize (A6 ltac:(done)). rewrite length_cons, Nat2Z.inj_succ.
  rewrite (last_nonempty (li + ri) ci) in A4, A6 by done. rewrite (last_nonempty (lo + ro) co) in A5, A6 by done.
  split_and!; lia.
Qed.

Lemma bytes_accounted_witness :
  bytes_run [(5000, 10); (9000, 2000); (9000, 2500)] (0, 0, 0) 0 0 = (7, 1, (9000, 2500, 0)) /\
  1024 * (7 - 0) <= 9000 - 0 <= 1024 * (7 - 0) + 1023 * 3.
Proof.
  split; [by vm_compute|].
  refine (proj1 (bytes_accounted [(5000, 10); (9000, 2000); (9000, 2500)] 0 0 0 0 0 7 1 9000 2500 0 _ _ _ _ _ _));
    try lia; try (by vm_compute); cbn; lia.
Defined.

(** The host of [ex_sys] with a process under a debugger and a service with many errors. *)
Definition ex_listener : TCP_LISTENER :=
  TcpListener (ex_resp 10 0 0) (ex_resp 10 0 0) (ex_resp 10 0 0) (ex_resp 10 0 0) 20 0
    (hist_new SEMI_LOG_HASH_LO 32 0) (hist_new HASH_1_3000 32 0) (replicate 15 0) 0 0
    (replicate 3 (ISSUE_LISTEN_NONE, ISSUE_LISTEN_NONE, 0)) STATE_OK ISSUE_LISTEN_NONE None None.
Definition ex_svc_visit : svc_visit :=
  SvcVisit (ex_resp 10 100 5, ex_resp 30 10000 20, ex_resp 30 1000000 20, ex_resp 30 1000000 20)
    (SvcEnv 1000 1000000000 3 false false 60 900 10 None) 900000000.
Definition ex_host : HOST_STATE := HostState 0 0 0 0 0 0 0 STATE_IDLE 0 false false false false 0 0 0.

Lemma host_pass_reflects_witness : exists xs ls' h',
  host_pass ex_sys true [(Some ex_ext, ex_visit)] [(ex_listener, ex_svc_visit)] 5 (0, 0, 0) ex_host = Acc (xs, ls', h') /\
  hs_curr_state h' = STATE_BAD /\ hs_nlisten_severe h' = 1 /\ hs_ntasks_issue h' = 1 /\
  hs_nlisten_issue h' = Z.of_nat (cnt svc_bad ls').
Proof.
  eexists _, _, _. split; [vm_compute; reflexivity|]. split; [by vm_compute|]. split; [by vm_compute|]. split; [by vm_compute|].
  refine (proj1 (proj2 (host_pass_reflects ex_add ex_pct ex_count ex_sys true [(Some ex_ext, ex_visit)]
    [(ex_listener, ex_svc_visit)] 5 (0, 0, 0) ex_host _ _ _ ex_sys_reach _ _))).
  - constructor; [apply ext_init_inv|constructor].
  - vm_compute. reflexivity.
Defined.
